(* ===== verification/_CoqProject ===== *)
-Q . S2P
Prelude.v
PyValue.v
Sha256.v
Json.v
JsonFacts.v
Canonical.v
StrOps.v
Ip.v
Url.v
UrlFacts.v
AgentProtocol.v
AgentBroker.v
Contract.v
AgentReceipt.v
Ksl.v
Runner.v
Hpke.v
SecretStream.v
Base64.v
Evidence.v
EvidenceFacts.v
JsonLoads.v
AgentRuntime.v
Counter.v
Detectors.v
OutwardReport.v
PolicyGate.v
BrowserContract.v
BrowserEvidence.v
BrowserReceipt.v
DetonationReceipt.v
ReceiptFacts.v
Seccomp.v
Tracer.v
TracerFacts.v
EgressAddress.v
EgressRequest.v
EgressProxy.v
EgressLogic.v
EgressHandler.v
EgressFacts.v
EgressRun.v
WorkerWire.v
WorkerEvents.v
WorkerSandbox.v
WorkerProcess.v
WorkerChild.v
WorkerReport.v
WorkerSession.v
PyRepr.v
Canaries.v
IncidentGate.v
IncidentVerify.v
IncidentFacts.v
IncidentRun.v
IncidentSample.v
Collapse.v
KernelLaws.v
FirecrackerApi.v
FirecrackerApiFacts.v
Host.v
Admission.v
Launch.v
LaunchFacts.v
Cleanup.v
CleanupFacts.v
McpController.v
Output.v
Detonate.v
DetonateFacts.v
GuestAgent.v
GuestWire.v
GuestFacts.v
GuestHost.v
GuestSample.v
