(* ===== verification/Prelude.v ===== *)
(** * Cindermote: a verification development

    Cindermote detonates untrusted artefacts (scripts, skills, MCP servers, web
    pages, model-driven agents) and decides from the evidence whether they may be
    let through.  This development models the parts of it that take the decision
    and make the evidence trustworthy, and proves what a verdict rests on.

    ** The program and its parts

    - The _agent probe_ (src/agent_probe) runs a model-driven agent in a microVM.
      The host freezes a job ([contract.py]), the guest proposes tool calls over a
      control channel ([firecracker_runtime.py]), the broker allows or trips
      ([broker.py], [protocol.py]), the guest seals its transcript ([evidence.py],
      [hpke.py], [secretstream.py]), and the runner derives the walked road, the
      diff, a signed receipt and an exit code ([ksl.py], [receipt.py],
      [runner.py]).  All documents are hashed in one canonical form
      ([canonical.py]).  Inside the microVM a trusted driver
      (src/guest/agent_probe_agent.py) talks to the model, executes the tools that
      were allowed and returns the sealed transcript.
    - The _browser probe_ (src/mote/browser_contract.py, browser_evidence.py)
      validates a request, normalizes URLs and origins, and reduces two
      independent witnesses, the proxy's and the browser's, to findings.
    - The _egress proxy_ (src/broker/browser_egress_proxy.py) is the only way out of
      the browser's microVM: one listener and a handler thread per client, which
      authorize a request against the job's origins, connect to addresses pinned
      at construction, charge every byte to a budget and record one event per
      client.
    - The _egress worker_ (src/broker/browser_egress_worker.py) runs that proxy in
      a process of its own.  The parent spawns it as root with two pipes, the child
      checks the service account, reads the proxy's sources, drops every privilege,
      only then executes them, and the two exchange start, ready, stop and final
      frames; the parent tears the process group down and keeps the report.
    - The _code detonation_ (src/observer, src/broker, src/gate) runs the artefact
      under a seccomp filter and a ptrace observer, classifies telemetry events,
      builds the outward report, applies the scoring matrix with its human
      override, and signs a receipt that carries every section.
    - Its _orchestrator_ (src/mote/detonate.py) admits the sandbox process against
      what the host's /proc and control groups say of it, attaches the tracer, lets
      the payload run within its budgets, plays the client of an MCP server, cleans
      up, and reduces the run to findings, a report and a decision.
    - The _incident gate_ (src/incident_gate.py) detonates the probes that the
      registry (src/canaries) discovers, evaluates each signed receipt against what
      the probe expects, and leaves a manifest, a report and an exit status; a
      script (src/scripts/verify-incident-gate-evidence.py) checks such a run
      directory afterwards.
    - The host talks to the microVM monitor over a Unix socket
      (src/mote/firecracker_api.py), one bounded HTTP request per connection.
    - The _kernel laws_ (src/kernel_laws.py) check the registries of docs/ against
      the tree and against the reference decision tables (capability_brokers.py,
      collapse_mesh.py, semantic_loops.py).

    ** Files

    Shared semantics of Python: [Prelude] (exceptions as values, the error monad,
    byte strings), [PyValue] (dynamic values, dicts in insertion order, equality
    and truth), [Sha256] (SHA-256, HMAC, hex), [Json] and [JsonFacts] (the encoder
    and decoder of the standard library, and that they invert each other on
    canonical documents), [JsonLoads] (json.loads of bytes in any encoding it detects,
    and the exceptions it raises), [StrOps] (string methods), [Ip] (ipaddress), [Base64],
    [Counter] (collections.Counter).

    Components, with the source each translates:
    - [Canonical]: agent_probe/canonical.py;
    - [Url], [UrlFacts]: URL and origin functions of mote/browser_contract.py;
    - [AgentProtocol], [AgentBroker]: agent_probe/protocol.py and broker.py; the
      broker is a record, [evaluate] one atomic step, [session] a list of steps;
    - [Contract]: agent_probe/contract.py;
    - [AgentReceipt], [Ksl], [Runner]: agent_probe/receipt.py, ksl.py, runner.py;
      the runtime is an argument of [run_agent_probe];
    - [Hpke], [SecretStream], [Evidence], [EvidenceFacts]: the cryptographic
      containers; X25519, the AEAD and libsodium's stream are parameters with
      their documented laws, instantiated by concrete toys in the witnesses;
    - [AgentRuntime]: control loop and result checks of
      agent_probe/firecracker_runtime.py, over the list of lines the channel gives,
      each with what sending the answer to it does;
    - [Detectors], [OutwardReport], [PolicyGate]: observer/detectors.py,
      broker/broker.py, gate/policy_gate.py; the detector engine is a record and
      a detonation a list of its operations;
    - [BrowserContract], [BrowserEvidence]: requests, events and the two reducers;
    - [BrowserReceipt], [DetonationReceipt], [ReceiptFacts]: observer/receipt.py;
    - [Seccomp], [Tracer], [TracerFacts]: observer/ptracer.py; the filter is the
      list of instructions with an interpreter of classic BPF, the tracer a record
      and one wait status one step, which also returns the ptrace requests made;
    - [EgressAddress], [EgressRequest], [EgressProxy]: broker/browser_egress_proxy.py.
      A handler is a program that makes calls: each locked section of the source is
      one call, and so is each operation on a socket or the clock.  A run
      interleaves the calls of any number of handlers with the listener, the
      binding and the shutdown; a socket may answer anything or fail at any call.
    - [EgressLogic]: a program logic for these programs (what a thread holds, what
      a call needs and changes, the shared invariant, soundness of a call);
      [EgressHandler]: a triple for every function of a handler; [EgressFacts]: the
      invariant in every reachable state and its consequences; [EgressRun]: runs
      of a concrete proxy.
    - [WorkerWire], [WorkerEvents], [WorkerSandbox], [WorkerProcess],
      [WorkerChild]: broker/browser_egress_worker.py, in the order frames on a pipe
      that may cut or refuse them; validation of events, telemetry and the final
      frame; account checks, /proc scan, privilege drop and its receipt; the
      parent's [BrowserEgressWorker], a record of state whose methods make system
      calls that the world answers; the child, from reading the sources to the
      final frame and the exit status.  [WorkerReport] relates a finished proxy to
      the report the worker sends, [WorkerSession] puts parent, child and proxy
      together.
    - [PyRepr]: [repr], [str] and indented JSON; [Canaries]: canaries/registry.py,
      probe_base.py and the shipped probes; [IncidentGate]: incident_gate.py, over a
      state of files and output directories; [IncidentVerify]: the verifier, over a
      file system; [IncidentFacts] and [IncidentRun]: what a verified run rests on,
      and that the gate's own runs verify; [IncidentSample]: a run, with signatures.
    - [Collapse]: capability_brokers.py, collapse_mesh.py, semantic_loops.py;
      [KernelLaws]: kernel_laws.py, from the Markdown text of the registries on.
    - [Host], [Admission], [Launch], [Cleanup], [McpController], [Output],
      [Detonate]: mote/detonate.py, in the order calls to the host and what they
      say of its processes, control groups and mounts; control messages and the
      checks of a sandbox; from the started wrapper to the released payload;
      cleanup; the MCP client; the output budget; the tracing loop, the conclusion
      and the receipt.  A computation of these files takes the log of calls made so
      far and returns a result or an exception with the longer log; the host at each
      point is any function of the log, so other processes may do anything between
      two calls.  [LaunchFacts], [CleanupFacts] and [DetonateFacts] are about them.
    - [FirecrackerApi]: mote/firecracker_api.py; the socket is the bytes the peer
      sends and the turns the system takes, each of which may be late, time out,
      fail or move some bytes; [FirecrackerApiFacts]: framing and delivery.
    - [GuestAgent]: guest/agent_probe_agent.py; a step takes the guest's state, which
      carries the trace of what was done, and returns the next one with a value or an
      exception; the model provider, the channel and the files are any functions of
      the trace.  [GuestWire]: frames that one side writes and the other reads;
      [GuestFacts]: a Hoare logic for these steps, executions and completion;
      [GuestHost]: the guest with the host's control loop at the other end of the
      channel; [GuestSample]: such a run, evaluated.

    ** What the theorems show

    - Decisions fail closed: exit code 0, ALLOW in a receipt, ALLOW of a reducer
      and of the gate are characterized by, or imply, the complete evidence they
      claim; an infrastructure failure is final whatever the human override says;
      runtime trouble is never a verdict.
    - Nothing that the filter refuses goes unjudged: the filter computes the syscall
      policy, and a call it refuses, reported by the tracer at the entry stop, ends
      in a report that the gate does not allow, whatever happens before and after.
    - A payload is let run only as the process that was checked: the admission token
      is written only after the pid that sent the readiness message was pinned,
      attached to, and found stopped in its place.  A cleanup that calls itself
      verified left no process, group, mount or directory of the job, and every
      cleanup returns.  An ALLOW of the orchestrator, human override or not, means
      that the sandbox was admitted with every required control, that nothing of its
      output was lost and no loss of telemetry was marked, and that the cleanup was
      verified.
    - The MCP client does not depend on how the server's output is cut, and the
      inputs on which it raises are known; the output kept is within its budget.
    - The broker is a state machine with an invariant over all sessions: a hash
      chain of events, a trip that is final, a budget that holds; the control
      channel answers exactly the proposals the guest sends, in order, with the
      decisions of such a session.
    - The guest executes a tool only right after a proposal with the digest of its
      arguments was sealed, sent and allowed by a frame bound to it, whatever its
      surroundings answer; joined to the host's control loop, the calls it executes
      are the first of those the broker's log records as allowed, over the bytes both
      sides wrote and read; and a run that says COMPLETE has submitted its result, with
      metrics that add up the responses of the provider, each of which reported its
      usage, within the token budget.
    - The proxy keeps its promises under every interleaving: it connects only to
      addresses that were resolved for an authorized origin and are public, the
      bytes it forwards stay within the budget, reservations included, the events of a
      complete snapshot do not change any more (a later one can only count refused
      connections), are numbered without gaps, carry all bytes and pass the evidence
      validator, and when the handlers have
      returned nothing is left reserved, registered or in flight.
    - The worker adds no trust: its module code makes no difference outside a
      confined process, the drop reaches that state in the order the code has, the
      parent reports the fixed failure unless a worker with an attested drop sent a
      session-bound report, exited with status 0 and left no process, and in a
      session without faults the proxy's own events and telemetry come out
      unchanged, however the pipes cut the frames.
    - A verified run of the incident gate rests on signed receipts, one per probe,
      and says of each what the gate says; and what the gate writes over honest
      detonations verifies.
    - The API client takes an answer only as the stream frames it and within its
      limits, sends one request that nothing in the endpoint can split, and
      delivers a well-framed answer however the socket cuts it.
    - Registries that pass the kernel laws document what the capability broker does.
    - Documents are tamper evident: canonical bytes determine the document,
      envelopes and event logs with equal digests are equal or exhibit a SHA-256
      collision, and the evidence root fixes the sealed chunks.
    - Round trips: canonical JSON, signing and verifying, HPKE, sealing and
      decrypting a whole transcript, worker frames, URL and request normalization.
    - Errors: which inputs are refused, and that verifiers and reducers return a
      verdict on every input.

    ** Bounds and fuel

    Integers are Python's unbounded ones ([Z]); SHA-256 works on 32-bit words
    with the wrap-around written out.  [Json.loads] recurses on fuel equal to the
    length of the text plus one, and every value consumes a character.  HKDF's loop has 256
    steps, one more than the largest accepted length needs.  The loops of a proxy
    handler that run until a peer closes have fuel; without it the thread is
    [Suspended] and makes no further call, so a theorem for every fuel covers every
    finite prefix of a run.  Reading the head has fuel from its byte limit.  The
    wait for an empty process group has 50 sleeps, which reach its deadline
    ([purge_wait_terminates]).  The polling loops of the orchestrator have fuel and
    are stuck without it: theorems say what holds when they return, and
    [cleanup_returns] that 201 turns are enough for the cleanup, its sleeps of ten
    milliseconds against a grace of two seconds.  The loops of the guest are bounded by
    the manifest's number of requests and the calls of a response.  Floats are rationals,
    infinities or NaN; the text of a float and its parse are parameters.

    ** Parameters

    [Unicode] (case mapping, NFC and IDNA of non-ASCII text), [UnicodeDigits]
    (digits outside ASCII), [float_repr] and [parse_float], the HPKE primitives
    and libsodium; for the tracer a [Clock], the memory of the tracee, the text of
    an IPv6 address and the answers of ptrace; for the proxy [IpRelease] (the tables
    of one release of ipaddress), [MonotonicClock] and the resolver; for the worker
    [World] (the answers of the system to the parent), [SecurityOps] (the calls of
    the drop), [ProxyOps] and the code of the proxy's modules; for the incident gate
    the detonation of a file, what executing a probe module defines, snapshots,
    names of temporary directories, [resolve], [mkdir] and [os.write]; for the
    orchestrator a [Kernel] (the host at each point, which calls fail, the clock and
    what is read); for the guest a [World] (what the channel, the provider, the clock
    and the files answer, how much of a line a write takes, and [casefold]); wherever a
    caller depends on the exception of json.loads an [Interpreter] (how many containers
    it can have open).  Laws used of them are class members or named hypotheses:
    [KernelOk] (the format of /proc), [PidOrder] (a process that has the pid of an
    older one started later), [ClockLaws] (time does not go back and a sleep takes its
    time), [FewChildren] (finitely many children to reap), [MountsOk] (the format of
    mountinfo) and [Quiescent] (after the kill nobody creates the job's resources anew).

    ** Not modelled

    Interpreter limits (recursion depth outside [JsonLoads.json_loads] and
    [JsonLoads.json_text], the 4300-digit limit on writing an integer outside the worker
    and the API client), the broker's lock (each broker call is atomic), file-system races,
    and the parts that are input and output: VM launch and teardown
    (mote/firecracker_runtime.py), the proxy's listening
    socket, serving thread and timer, the prctl and capset bodies behind the
    worker's drop and its locks (its methods run one at a time), the browser's guest
    (guest/browser_agent.py), the agent guest's prctl and vsock listener, the
    command lines; of the orchestrator, starting the wrapper process, the sandbox
    child (mounts, capabilities, rlimits), building snapshots from ELF closures, the
    entry for browser probes, and the capture of evidence from /proc. *)

From stdpp Require Import base list strings gmap sorting.
From Stdlib Require Import ZArith Lia.

(** ** Errors as values

    The exception classes the modelled sources raise or catch.  A subclass of
    [ValueError] keeps its own constructor, because callers distinguish them;
    [is_value_error] is the [except ValueError] test. *)
Inductive exn :=
  | ValueError (msg : string)
  | ContractError (msg : string)
  | BrowserContractError (msg : string)
  | CanonicalizationError (msg : string)
  | OutwardReportSchemaError (msg : string)
  | TelemetrySchemaError (msg : string)
  | EvidenceError (msg : string)
  | HpkeError (msg : string)
  | SecretStreamError (msg : string)
  | AgentProbeError (msg : string)
  | AgentProbeRuntimeError (msg : string)
  | BrowserEgressConfigurationError (msg : string)
  | BrowserEgressStartupError (msg : string)
  | BrowserEgressClosed (msg : string)
  | BrowserEgressWorkerError (msg : string)
  | BrowserEgressWorkerProtocolError (msg : string)
  | BrowserEgressWorkerTimeout (msg : string)
  | ProbeDiscoveryError (msg : string)
  | FirecrackerTransportError (msg : string)
  | FirecrackerTimeoutError (msg : string)
  | FirecrackerProtocolError (msg : string)
  | FirecrackerResponseTooLarge (msg : string)
  | FirecrackerJsonError (msg : string)
  | FirecrackerStatusError (status : Z) (expected : list Z)
  | SnapshotIntegrityError (msg : string)
  | IsolationSetupError (msg : string)
  | CgroupOperationError (stage : string) (errno : Z)
  | SandboxIdentityError (stage : string)
  | GuestAgentError (msg : string)
  | FileNotFoundError
  | ProcessLookupError
  | PermissionError
  | TimeoutExpired
  | OSError (msg : string)
  | TypeError
  | KeyError
  | AttributeError
  | OverflowError
  | RecursionError.

#[global] Instance exn_eq_dec : EqDecision exn.
Proof. solve_decision. Defined.

(** [except ValueError] also catches every subclass of it. *)
Definition is_value_error (e : exn) : bool :=
  match e with
  | ValueError _ | ContractError _ | BrowserContractError _
  | CanonicalizationError _ | OutwardReportSchemaError _
  | TelemetrySchemaError _ | EvidenceError _ | HpkeError _ | BrowserEgressConfigurationError _ => true
  | SecretStreamError _ | AgentProbeError _ | AgentProbeRuntimeError _
  | BrowserEgressStartupError _ | BrowserEgressClosed _
  | BrowserEgressWorkerError _ | BrowserEgressWorkerProtocolError _ | BrowserEgressWorkerTimeout _ | ProbeDiscoveryError _
  | FirecrackerTransportError _ | FirecrackerTimeoutError _ | FirecrackerProtocolError _ | FirecrackerResponseTooLarge _
  | FirecrackerJsonError _ | FirecrackerStatusError _ _
  | SnapshotIntegrityError _ | IsolationSetupError _ | CgroupOperationError _ _ | SandboxIdentityError _ | GuestAgentError _
  | FileNotFoundError | ProcessLookupError | PermissionError | TimeoutExpired | OSError _
  | TypeError | KeyError | AttributeError | OverflowError | RecursionError => false
  end.

(** [except OSError] *)
Definition is_os_error (e : exn) : bool :=
  match e with FileNotFoundError | ProcessLookupError | PermissionError | OSError _ => true | _ => false end.

(** The result of a call: a value or a raised exception. *)
Inductive res (A : Type) :=
  | Ok (a : A)
  | Err (e : exn).
Arguments Ok {A} a.
Arguments Err {A} e.

#[global] Instance res_ret : MRet res := @Ok.
#[global] Instance res_bind : MBind res := fun A B k m =>
  match m with Ok a => k a | Err e => Err e end.
#[global] Instance res_fmap : FMap res := fun A B f m =>
  match m with Ok a => Ok (f a) | Err e => Err e end.

Declare Scope py_scope.
Delimit Scope py_scope with py.

(** [raise_if c e k]: the statement [if c: raise e], then [k]. *)
Definition raise_if {A} (c : res bool) (e : exn) (k : res A) : res A :=
  match c with
  | Ok true => Err e
  | Ok false => k
  | Err e' => Err e'
  end.

(** Python's short-circuit [or] and [and] on conditions that may raise. *)
Definition orM (a b : res bool) : res bool :=
  match a with Ok true => Ok true | Ok false => b | Err e => Err e end.
Definition andM (a b : res bool) : res bool :=
  match a with Ok true => b | Ok false => Ok false | Err e => Err e end.
Definition notM (a : res bool) : res bool :=
  match a with Ok b => Ok (negb b) | Err e => Err e end.

(** A condition that cannot raise is a condition. *)
Definition okb (b : bool) : res bool := Ok b.
Coercion okb : bool >-> res.

Notation "'let*' x := c 'in' k" := (mbind (M:=res) (fun x => k) c)
  (at level 10, x pattern, c at level 100, k at level 200,
   format "'[v' 'let*'  x  :=  c  'in' '//' k ']'") : py_scope.
Notation "'raise' e 'when' c ;; k" := (raise_if c e k)
  (at level 10, e at level 9, c at level 99, k at level 200,
   format "'[v' 'raise'  e  'when'  c ;; '//' k ']'") : py_scope.
Infix "or'" := orM (at level 50, left associativity) : py_scope.
Infix "and'" := andM (at level 40, left associativity) : py_scope.

Open Scope py_scope.

(** [try: c except Exception: h] *)
Definition try_except {A} (c : res A) (h : res A) : res A :=
  match c with Ok a => Ok a | Err _ => h end.

(** A list comprehension [[f(x) for x in l]] whose body may raise. *)
Fixpoint map_res {A B} (f : A -> res B) (l : list A) : res (list B) :=
  match l with
  | [] => Ok []
  | x :: r => let* y := f x in let* ys := map_res f r in Ok (y :: ys)
  end.

(** [any(f(x) for x in l)], stopping at the first hit or exception. *)
Fixpoint any_res {A} (f : A -> res bool) (l : list A) : res bool :=
  match l with
  | [] => false
  | x :: r => f x or' any_res f r
  end.

(** [for x in l: s = f(s, x)] with a body that may raise. *)
Fixpoint foldM {A S} (f : S -> A -> res S) (l : list A) (s : S) : res S :=
  match l with
  | [] => Ok s
  | x :: r => let* s' := f s x in foldM f r s'
  end.

(** ** Inverting successful runs

    A theorem about an accepted input starts from [c = Ok v]; these lemmas and
    the tactic [run_inv] turn that into the conditions the code tested. *)
Lemma bind_ok {A B} (c : res A) (k : A -> res B) v :
  (let* x := c in k x) = Ok v <-> exists a, c = Ok a /\ k a = Ok v.
Proof. destruct c; cbn; naive_solver. Qed.

Lemma raise_if_ok {A} c e (k : res A) v :
  raise_if c e k = Ok v <-> c = Ok false /\ k = Ok v.
Proof. destruct c as [[]|]; cbn; naive_solver. Qed.

Lemma orM_false a b : orM a b = Ok false <-> a = Ok false /\ b = Ok false.
Proof. destruct a as [[]|]; cbn; naive_solver. Qed.

Lemma andM_true a b : andM a b = Ok true <-> a = Ok true /\ b = Ok true.
Proof. destruct a as [[]|]; cbn; naive_solver. Qed.

Lemma andM_false a b :
  andM a b = Ok false <-> a = Ok false \/ (a = Ok true /\ b = Ok false).
Proof. destruct a as [[]|]; cbn; naive_solver. Qed.

Lemma notM_ok a b : notM a = Ok b <-> a = Ok (negb b).
Proof. destruct a as [[]|], b; cbn; naive_solver. Qed.

Lemma okb_ok b c : okb b = Ok c <-> b = c.
Proof. unfold okb; naive_solver. Qed.

Lemma Ok_inj {A} (a b : A) : Ok a = Ok b -> a = b.
Proof. congruence. Qed.

Ltac run_inv1 :=
  match goal with
  | H : Ok _ = Ok _ |- _ => apply Ok_inj in H
  | H : Err _ = Ok _ |- _ => discriminate H
  | H : Ok _ = Err _ |- _ => discriminate H
  | H : okb _ = Ok _ |- _ => apply okb_ok in H
  | H : mbind _ _ = Ok _ |- _ => apply bind_ok in H as (? & ? & H)
  | H : raise_if _ _ _ = Ok _ |- _ => apply raise_if_ok in H as [? H]
  | H : orM _ _ = Ok false |- _ => apply orM_false in H as [? H]
  | H : andM _ _ = Ok true |- _ => apply andM_true in H as [? H]
  | H : notM _ = Ok _ |- _ => apply notM_ok in H; cbn in H
  | H : negb _ = true |- _ => apply negb_true_iff in H
  | H : negb _ = false |- _ => apply negb_false_iff in H
  | H : _ && _ = true |- _ => apply andb_true_iff in H as [? H]
  | H : _ || _ = false |- _ => apply orb_false_iff in H as [? H]
  end.

(** [run_inv] decomposes every successful run in the context. *)
Ltac run_inv := repeat run_inv1.

Lemma map_res_ok {A B} (f : A -> res B) l ys :
  map_res f l = Ok ys <-> Forall2 (fun x y => f x = Ok y) l ys.
Proof.
  revert ys; induction l as [|x l IH]; intros ys; cbn.
  - split; [intros H; run_inv; subst; constructor | by inversion 1].
  - rewrite bind_ok; split.
    + intros (y & Hy & H); run_inv; subst. constructor; [done | by apply IH].
    + inversion 1 as [|? y ? ys' Hy Hl]; subst. apply IH in Hl.
      exists y; split; [done|]. by rewrite Hl.
Qed.

(** The results of a comprehension are the results of its elements. *)
Lemma map_res_In {A B} (f : A -> res B) l ys y :
  map_res f l = Ok ys -> (In y ys <-> exists x, In x l /\ f x = Ok y).
Proof.
  intros H%map_res_ok. induction H as [|x z l ys Hx _ IH]; cbn; [naive_solver|].
  rewrite IH. split.
  - intros [<-|(x' & H1 & H2)]; eauto.
  - intros (x' & [<-|H1] & H2); [left; congruence|right; eauto].
Qed.

Lemma map_res_length {A B} (f : A -> res B) l ys :
  map_res f l = Ok ys -> length ys = length l.
Proof. intros H%map_res_ok. symmetry. by eapply Forall2_length. Qed.

Lemma foldM_app {A S} (f : S -> A -> res S) l m s :
  foldM f (l ++ m) s = let* s' := foldM f l s in foldM f m s'.
Proof. revert s; induction l as [|x l IH]; intros s; [done|]. cbn. destruct (f s x); [apply IH|done]. Qed.

Lemma any_res_false {A} (f : A -> res bool) l :
  any_res f l = Ok false <-> Forall (fun x => f x = Ok false) l.
Proof.
  induction l as [|x l IH]; cbn; [by split|].
  rewrite orM_false, IH, Forall_cons. done.
Qed.

(** ** Characters and byte strings

    A Python [str] is represented by its UTF-8 bytes (a lone surrogate by the
    three bytes that [surrogatepass] writes).  So [encode("utf-8")] is the
    identity except on surrogates, [len] counts the bytes that do not continue
    a character, and code-point order is byte order. *)
Definition byte_of (c : Ascii.ascii) : Z := Z.of_N (Ascii.N_of_ascii c).
Definition ascii_of (z : Z) : Ascii.ascii := Ascii.ascii_of_N (Z.to_N z).

Definition in_range (lo hi z : Z) : bool := (lo <=? z)%Z && (z <=? hi)%Z.

Definition is_digit (c : Ascii.ascii) : bool := in_range 48 57 (byte_of c).
Definition is_lower (c : Ascii.ascii) : bool := in_range 97 122 (byte_of c).
Definition is_upper (c : Ascii.ascii) : bool := in_range 65 90 (byte_of c).
(** [[0-9a-f]] *)
Definition is_lower_hex (c : Ascii.ascii) : bool :=
  is_digit c || in_range 97 102 (byte_of c).
(** [[0-9a-fA-F]] *)
Definition is_hex (c : Ascii.ascii) : bool :=
  is_lower_hex c || in_range 65 70 (byte_of c).

#[global] Arguments byte_of : simpl never.
#[global] Arguments ascii_of : simpl never.
#[global] Arguments in_range : simpl never.
#[global] Arguments is_digit : simpl never.
#[global] Arguments is_lower_hex : simpl never.

Fixpoint str_forall (p : Ascii.ascii -> bool) (s : string) : bool :=
  match s with
  | EmptyString => true
  | String c r => p c && str_forall p r
  end.

Fixpoint str_exists (p : Ascii.ascii -> bool) (s : string) : bool :=
  match s with
  | EmptyString => false
  | String c r => p c || str_exists p r
  end.

(** [len(s)] of a [str] *)
Fixpoint py_len (s : string) : Z :=
  match s with
  | EmptyString => 0
  | String c r => (if in_range 128 191 (byte_of c) then 0 else 1) + py_len r
  end%Z.

(** [s.isascii()] *)
Definition isascii (s : string) : bool :=
  str_forall (fun c => byte_of c <? 128)%Z s.

(** [s.encode("utf-8", "strict")] raises exactly when a surrogate occurs. *)
Fixpoint has_surrogate (s : string) : bool :=
  match s with
  | EmptyString => false
  | String c r =>
      ((byte_of c =? 237)%Z &&
       match r with String d _ => in_range 160 191 (byte_of d) | EmptyString => false end)
      || has_surrogate r
  end.

(** [s.startswith(p)] *)
Definition startswith (p s : string) : bool := String.prefix p s.

(** [p in s] for strings or bytes *)
Fixpoint contains (p s : string) : bool :=
  startswith p s ||
  match s with EmptyString => false | String _ r => contains p r end.

(** A fixed-length lowercase hexadecimal string, [[0-9a-f]{n}]. *)
Definition hex_string (n : nat) (s : string) : bool :=
  (String.length s =? n)%nat && str_forall is_lower_hex s.

Create Rewrite HintDb str.

Lemma append_cons c s t : String c s +:+ t = String c (s +:+ t).
Proof. done. Qed.

Lemma append_nil_l s : "" +:+ s = s.
Proof. done. Qed.

#[export] Hint Rewrite append_cons append_nil_l : str.

(** Push appends inside and compute. *)
Ltac sstr := autorewrite with str; cbn.

Lemma str_forall_app p s t : str_forall p (s +:+ t) = str_forall p s && str_forall p t.
Proof.
  induction s as [|c s IH]; [done|].
  rewrite append_cons; cbn [str_forall]. by rewrite IH, andb_assoc.
Qed.

Lemma str_forall_weaken (p q : Ascii.ascii -> bool) s :
  (forall c, p c = true -> q c = true) -> str_forall p s = true -> str_forall q s = true.
Proof. intros Hpq; induction s; cbn; [done|]. rewrite !andb_true_iff; naive_solver. Qed.

Lemma length_append s t : String.length (s +:+ t) = (String.length s + String.length t)%nat.
Proof. induction s as [|c s IH]; [done|]. rewrite append_cons. cbn [String.length]. lia. Qed.

Lemma append_nil_r s : s +:+ "" = s.
Proof. induction s as [|c s IH]; [done|]. by rewrite append_cons, IH. Qed.

Lemma append_assoc s t u : (s +:+ t) +:+ u = s +:+ (t +:+ u).
Proof. induction s as [|c s IH]; [done|]. by rewrite !append_cons, IH. Qed.

Lemma byte_of_range c : (0 <= byte_of c < 256)%Z.
Proof. unfold byte_of. pose proof (Ascii.N_ascii_bounded c). lia. Qed.

Lemma byte_of_ascii_of z : (0 <= z < 256)%Z -> byte_of (ascii_of z) = z.
Proof. intros Hz. unfold byte_of, ascii_of. rewrite Ascii.N_ascii_embedding; lia. Qed.

Lemma ascii_of_byte_of c : ascii_of (byte_of c) = c.
Proof. unfold byte_of, ascii_of. rewrite N2Z.id. apply Ascii.ascii_N_embedding. Qed.

Lemma hex_string_ascii n s : hex_string n s = true -> isascii s = true.
Proof.
  unfold hex_string, isascii. intros [_ H]%andb_true_iff. revert H.
  apply str_forall_weaken. intros c. unfold is_lower_hex, is_digit, in_range. lia.
Qed.

(** ** Automation *)
Create HintDb py discriminated.
#[export] Hint Resolve byte_of_range hex_string_ascii : py.

(** Split a goal [l = r] of conjunctions of [bool] tests and close by [lia]. *)
Ltac bool_lia :=
  repeat first
    [ progress cbn in * | rewrite andb_true_iff in * | rewrite orb_true_iff in *
    | rewrite andb_false_iff in * | rewrite orb_false_iff in * ]; lia.

(** String membership in a finite set of names, [s in {...}]. *)
Definition mem (s : string) (l : list string) : bool := existsb (String.eqb s) l.

#[global] Arguments mem : simpl never.

Lemma mem_app s l1 l2 : mem s (l1 ++ l2) = mem s l1 || mem s l2.
Proof. unfold mem. apply existsb_app. Qed.

Lemma mem_In s l : mem s l = true <-> In s l.
Proof.
  unfold mem. rewrite existsb_exists. split.
  - intros (x & Hx & ->%String.eqb_eq). done.
  - intros H. exists s. by rewrite String.eqb_refl.
Qed.

(** ** Filtering and counting *)
Lemma filter_all {A} (p : A -> bool) l :
  Forall (fun x => p x = true) l -> List.filter p l = l.
Proof. induction 1 as [|x l Hx _ IH]; cbn; [done|]. by rewrite Hx, IH. Qed.

Lemma filter_none {A} (p : A -> bool) l :
  Forall (fun x => p x = false) l -> List.filter p l = [].
Proof. induction 1 as [|x l Hx _ IH]; cbn; [done|]. by rewrite Hx. Qed.
