(* ===== verification/PyValue.v ===== *)
(** * Python values

    The dynamically typed values the validators inspect: what [json.loads]
    produces, plus [bytes] as the representative of a type JSON lacks.  A
    [dict] is an association list in insertion order with string keys; a
    document with a repeated key is not a Python dict, which [wf_val] records.
    The operations below are the ones the sources apply to such values, each
    with the exception it raises on the wrong type. *)

From stdpp Require Import base list strings sorting.
From Stdlib Require Import ZArith Lia.
From S2P Require Import Prelude.

(** A [float]: NaN, an infinity, or a finite value as an exact fraction (every
    finite binary64 value is one; the sources only compare floats). *)
Inductive pyfloat :=
  | FNan
  | FInf (negative : bool)
  | FFin (num : Z) (den : positive).

Inductive pyval :=
  | VNone
  | VBool (b : bool)
  | VInt (z : Z)
  | VFloat (f : pyfloat)
  | VStr (s : string)
  | VBytes (s : string)
  | VList (l : list pyval)
  | VDict (d : list (string * pyval)).

Notation pydict := (list (string * pyval)).

(** Induction that reaches the members of lists and dicts. *)
Section pyval_ind.
Variable P : pyval -> Prop.
Hypothesis HNone : P VNone.
Hypothesis HBool : forall b, P (VBool b).
Hypothesis HInt : forall z, P (VInt z).
Hypothesis HFloat : forall f, P (VFloat f).
Hypothesis HStr : forall s, P (VStr s).
Hypothesis HBytes : forall s, P (VBytes s).
Hypothesis HList : forall l, Forall P l -> P (VList l).
Hypothesis HDict : forall d, Forall (fun kv => P (snd kv)) d -> P (VDict d).

Fixpoint pyval_ind' (v : pyval) : P v :=
  match v with
  | VNone => HNone
  | VBool b => HBool b
  | VInt z => HInt z
  | VFloat f => HFloat f
  | VStr s => HStr s
  | VBytes s => HBytes s
  | VList l =>
      HList l ((fix go l : Forall P l :=
        match l with
        | [] => Forall_nil_2 _
        | x :: r => Forall_cons_2 _ x r (pyval_ind' x) (go r)
        end) l)
  | VDict d =>
      HDict d ((fix go d : Forall (fun kv => P (snd kv)) d :=
        match d with
        | [] => Forall_nil_2 _
        | kv :: r => Forall_cons_2 _ kv r (pyval_ind' (snd kv)) (go r)
        end) d)
  end.
End pyval_ind.

(** ** Dict access *)
Fixpoint assoc {A} (k : string) (d : list (string * A)) : option A :=
  match d with
  | [] => None
  | (k', v) :: r => if String.eqb k k' then Some v else assoc k r
  end.

Definition keys {A} (d : list (string * A)) : list string := map fst d.

(** [k in d] *)
Definition has_key {A} (k : string) (d : list (string * A)) : bool :=
  match assoc k d with Some _ => true | None => false end.

(** [d[k] = v] keeps the position of an existing key, else appends. *)
Fixpoint dict_set {A} (k : string) (v : A) (d : list (string * A)) : list (string * A) :=
  match d with
  | [] => [(k, v)]
  | (k', v') :: r => if String.eqb k k' then (k, v) :: r else (k', v') :: dict_set k v r
  end.

(** [dict(d, **e)] / [d.update(e)] *)
Definition dict_update {A} (d e : list (string * A)) : list (string * A) :=
  foldl (fun acc kv => dict_set (fst kv) (snd kv) acc) d e.

(** [v[k]] *)
Definition sub (v : pyval) (k : string) : res pyval :=
  match v with
  | VDict d => match assoc k d with Some x => Ok x | None => Err KeyError end
  | _ => Err TypeError
  end.

(** [v.get(k)] *)
Definition get (v : pyval) (k : string) : res pyval :=
  match v with
  | VDict d => Ok (default VNone (assoc k d))
  | _ => Err AttributeError
  end.

(** [v.get(k, dflt)] *)
Definition get_default (v : pyval) (k : string) (dflt : pyval) : res pyval :=
  match v with
  | VDict d => Ok (default dflt (assoc k d))
  | _ => Err AttributeError
  end.

Definition is_dict (v : pyval) : bool := match v with VDict _ => true | _ => false end.
Definition is_list (v : pyval) : bool := match v with VList _ => true | _ => false end.
Definition is_str (v : pyval) : bool := match v with VStr _ => true | _ => false end.
Definition is_bool (v : pyval) : bool := match v with VBool _ => true | _ => false end.
Definition is_none (v : pyval) : bool := match v with VNone => true | _ => false end.
(** [isinstance(v, int)]: [bool] is a subclass of [int]. *)
Definition is_int (v : pyval) : bool :=
  match v with VInt _ | VBool _ => true | _ => false end.
(** [isinstance(v, int) and not isinstance(v, bool)] *)
Definition is_strict_int (v : pyval) : bool := match v with VInt _ => true | _ => false end.
(** [v is True], [v is False] *)
Definition is_true (v : pyval) : bool := match v with VBool true => true | _ => false end.
Definition is_false (v : pyval) : bool := match v with VBool false => true | _ => false end.

(** The integer a value of type [int] or [bool] denotes. *)
Definition int_of (v : pyval) : Z :=
  match v with VInt z => z | VBool b => Z.b2z b | _ => 0%Z end.
Definition str_of (v : pyval) : string := match v with VStr s => s | _ => "" end.
Definition list_of (v : pyval) : list pyval := match v with VList l => l | _ => [] end.
Definition dict_of (v : pyval) : pydict := match v with VDict d => d | _ => [] end.

(** [set(d) == ks] for a set literal [ks] *)
Definition same_keys (d : pydict) (ks : list string) : bool :=
  forallb (fun k => mem k ks) (keys d) && forallb (fun k => has_key k d) ks.

(** [isinstance(v, dict) and set(v) == ks] *)
Definition dict_shape (v : pyval) (ks : list string) : bool :=
  match v with VDict d => same_keys d ks | _ => false end.

(** [isinstance(v, int) and not isinstance(v, bool) and lo <= v <= hi] *)
Definition int_in (lo hi : Z) (v : pyval) : bool :=
  match v with VInt z => in_range lo hi z | _ => false end.

(** [isinstance(v, str) and lo <= len(v) <= hi] *)
Definition str_len_in (lo hi : Z) (v : pyval) : bool :=
  match v with VStr s => in_range lo hi (py_len s) | _ => false end.

(** [bool(v)] *)
Definition truthy (v : pyval) : bool :=
  match v with
  | VNone => false
  | VBool b => b
  | VInt z => negb (z =? 0)%Z
  | VFloat (FFin n _) => negb (n =? 0)%Z
  | VFloat _ => true
  | VStr s | VBytes s => negb (String.eqb s "")
  | VList l => match l with [] => false | _ => true end
  | VDict d => match d with [] => false | _ => true end
  end.

(** ** Numbers and equality *)

(** The numeric value of [True], [1] and [1.0] is the same number. *)
Definition as_num (v : pyval) : option pyfloat :=
  match v with
  | VBool b => Some (FFin (Z.b2z b) 1)
  | VInt z => Some (FFin z 1)
  | VFloat f => Some f
  | _ => None
  end.

Definition num_eq (a b : pyfloat) : bool :=
  match a, b with
  | FFin n d, FFin m e => (n * Zpos e =? m * Zpos d)%Z
  | FInf s, FInf t => Bool.eqb s t
  | _, _ => false
  end.

(** [a <= b] on numbers; every comparison with NaN is false. *)
Definition num_le (a b : pyfloat) : bool :=
  match a, b with
  | FFin n d, FFin m e => (n * Zpos e <=? m * Zpos d)%Z
  | FInf true, (FFin _ _ | FInf _) => true
  | FFin _ _, FInf false => true
  | FInf false, FInf false => true
  | _, _ => false
  end.

(** [a == b]: lists elementwise, dicts regardless of order. *)
Fixpoint py_eq (a b : pyval) {struct a} : bool :=
  match a, b with
  | VNone, VNone => true
  | VStr s, VStr t => String.eqb s t
  | VBytes s, VBytes t => String.eqb s t
  | VList l, VList m =>
      (fix go l m :=
         match l, m with
         | [], [] => true
         | x :: l', y :: m' => py_eq x y && go l' m'
         | _, _ => false
         end) l m
  | VDict d, VDict e =>
      (length d =? length e)%nat &&
      (fix go d :=
         match d with
         | [] => true
         | (k, v) :: d' =>
             match assoc k e with Some w => py_eq v w | None => false end && go d'
         end) d
  | _, _ =>
      match as_num a, as_num b with
      | Some x, Some y => num_eq x y
      | _, _ => false
      end
  end.

(** [hash(v)] raises for a list or a dict, so does [v in some_set]. *)
Definition hashable (v : pyval) : bool :=
  match v with VList _ | VDict _ => false | _ => true end.

(** [v in {...}] for a set literal of strings *)
Definition in_strs (v : pyval) (l : list string) : res bool :=
  match v with
  | VStr s => mem s l
  | VList _ | VDict _ => Err TypeError
  | _ => false
  end.

(** [v in ["a", ...]] for a list or tuple: compared with [==], no hashing *)
Definition in_list (v : pyval) (l : list string) : bool :=
  match v with VStr s => mem s l | _ => false end.

(** The characters of a [str]. *)
Fixpoint py_chars (s : string) : list string :=
  match s with
  | EmptyString => []
  | String c r =>
      let xs := py_chars r in
      match xs with
      | String d x :: xs' =>
          if in_range 128 191 (byte_of d) then String c (String d x) :: xs' else String c "" :: xs
      | _ => String c "" :: xs
      end
  end.
Fixpoint byte_values (s : string) : list Z :=
  match s with EmptyString => [] | String c r => byte_of c :: byte_values r end.

(** [iter(v)]: the items of a [for] loop over [v] *)
Definition py_iter (v : pyval) : res (list pyval) :=
  match v with
  | VList l => Ok l
  | VDict d => Ok (map VStr (keys d))
  | VStr s => Ok (map VStr (py_chars s))
  | VBytes s => Ok (map VInt (byte_values s))
  | _ => Err TypeError
  end.

(** ** Sorting *)

(** [sorted] is a stable sort; code-point order is byte order. *)
Fixpoint insert_item {A} (x : string * A) (l : list (string * A)) : list (string * A) :=
  match l with
  | [] => [x]
  | y :: r => if String.leb (fst x) (fst y) then x :: y :: r else y :: insert_item x r
  end.

(** [sorted(d.items())], for the distinct keys of a dict *)
Definition sort_items {A} (d : list (string * A)) : list (string * A) :=
  foldr insert_item [] d.

(** [sorted(l)] for a list of strings *)
Definition sort_strs (l : list string) : list string :=
  map fst (sort_items (map (fun s => (s, tt)) l)).

(** [list(dict.fromkeys(l))]: [set(l)] as a duplicate-free list. *)
Definition dedup_strs (l : list string) : list string := remove_dups l.

(** The strings of a list all of whose items are [str]. *)
Definition strs_of (l : list pyval) : option (list string) :=
  mapM (fun v => match v with VStr s => Some s | _ => None end) l.

(** ** Well-formed values: no dict repeats a key *)
Fixpoint wf_val (v : pyval) : bool :=
  match v with
  | VList l => forallb wf_val l
  | VDict d => bool_decide (NoDup (keys d)) && forallb (fun kv => wf_val (snd kv)) d
  | _ => true
  end.

(** ** Dict lemmas *)
Lemma assoc_In {A} k (d : list (string * A)) v : assoc k d = Some v -> In (k, v) d.
Proof.
  induction d as [|[k' w] d IH]; cbn; [done|].
  destruct (String.eqb_spec k k') as [->|]; naive_solver.
Qed.

Lemma has_key_In {A} k (d : list (string * A)) : has_key k d = true <-> In k (keys d).
Proof.
  unfold has_key. induction d as [|[k' w] d IH]; cbn; [done|].
  destruct (String.eqb_spec k k') as [->|Hne]; [naive_solver|].
  rewrite IH. naive_solver.
Qed.

Lemma assoc_None {A} k (d : list (string * A)) : assoc k d = None <-> ~ In k (keys d).
Proof.
  rewrite <- has_key_In. unfold has_key. destruct (assoc k d); naive_solver.
Qed.

Lemma assoc_NoDup {A} (d : list (string * A)) k v :
  NoDup (keys d) -> In (k, v) d -> assoc k d = Some v.
Proof.
  induction d as [|[k' w] d IH]; cbn; [done|]. intros [Hn Hd]%NoDup_cons [H|H].
  - simplify_eq. by rewrite String.eqb_refl.
  - destruct (String.eqb_spec k k') as [->|]; [|by apply IH].
    destruct Hn. apply list_elem_of_In. apply in_map_iff. by exists (k', v).
Qed.

Lemma dict_shape_sub v ks k :
  dict_shape v ks = true -> In k ks -> exists x, sub v k = Ok x.
Proof.
  destruct v; cbn; try done. unfold same_keys. intros [_ H]%andb_true_iff Hk.
  rewrite forallb_forall in H. specialize (H _ Hk). unfold has_key in H.
  destruct (assoc k d); [eauto | done].
Qed.

Lemma dict_shape_is_dict v ks : dict_shape v ks = true -> exists d, v = VDict d.
Proof. destruct v; cbn; try done. eauto. Qed.

Lemma assoc_dict_set {A} k k' v (d : list (string * A)) :
  assoc k (dict_set k' v d) = if String.eqb k k' then Some v else assoc k d.
Proof.
  induction d as [|[k2 w] d IH]; cbn; [done|].
  destruct (String.eqb_spec k' k2) as [->|H1]; cbn.
  - destruct (String.eqb_spec k k2); [done|]. done.
  - rewrite IH. destruct (String.eqb_spec k k2) as [->|H2]; [|done].
    destruct (String.eqb_spec k2 k'); [congruence|done].
Qed.

Lemma keys_dict_set {A} k v (d : list (string * A)) :
  keys (dict_set k v d) = if has_key k d then keys d else keys d ++ [k].
Proof.
  unfold has_key. induction d as [|[k2 w] d IH]; cbn; [done|].
  destruct (String.eqb_spec k k2) as [->|H1]; cbn; [done|].
  unfold keys in *. rewrite IH. by destruct (assoc k d).
Qed.

Lemma dict_set_fresh {A} k v (d : list (string * A)) :
  ~ In k (keys d) -> dict_set k v d = d ++ [(k, v)].
Proof.
  induction d as [|[k2 w] d IH]; cbn; [done|]. intros H.
  destruct (String.eqb_spec k k2) as [->|]; [naive_solver|]. rewrite IH; naive_solver.
Qed.

Lemma dict_update_fresh {A} (e d : list (string * A)) :
  NoDup (keys (d ++ e)) -> dict_update d e = d ++ e.
Proof.
  revert d; induction e as [|[k v] e IH]; intros d H; cbn; [by rewrite app_nil_r|].
  unfold dict_update in IH. rewrite dict_set_fresh.
  - rewrite IH; rewrite <- app_assoc; done.
  - intros Hk. unfold keys in H. rewrite map_app in H. cbn in H.
    apply NoDup_app in H as (_ & H & _). apply (H k); [by apply list_elem_of_In|left].
Qed.

(** ** Sorting lemmas *)
Lemma insert_item_perm {A} (x : string * A) l : insert_item x l ≡ₚ x :: l.
Proof.
  induction l as [|y r IH]; cbn; [done|].
  destruct (String.leb _ _); [done|]. rewrite IH. apply Permutation_swap.
Qed.

Lemma sort_items_perm {A} (d : list (string * A)) : sort_items d ≡ₚ d.
Proof. induction d as [|x d IH]; cbn; [done|]. by rewrite insert_item_perm, IH. Qed.

Lemma insert_item_map {A B} (f : A -> B) x l :
  insert_item (fst x, f (snd x)) (map (fun y => (fst y, f (snd y))) l) =
  map (fun y => (fst y, f (snd y))) (insert_item x l).
Proof.
  induction l as [|y r IH]; cbn; [done|]. destruct (String.leb _ _); cbn; [done|].
  f_equal. apply IH.
Qed.

(** Sorting by key commutes with a map on the values. *)
Lemma sort_items_map {A B} (f : A -> B) d :
  sort_items (map (fun y => (fst y, f (snd y))) d) =
  map (fun y => (fst y, f (snd y))) (sort_items d).
Proof.
  unfold sort_items. induction d as [|x d IH]; cbn; [done|].
  by rewrite IH, <- insert_item_map.
Qed.

Lemma keys_sort_items {A} (d : list (string * A)) : keys (sort_items d) ≡ₚ keys d.
Proof. unfold keys. apply Permutation_map, sort_items_perm. Qed.

Lemma NoDup_sort_items {A} (d : list (string * A)) :
  NoDup (keys d) -> NoDup (keys (sort_items d)).
Proof. by rewrite keys_sort_items. Qed.

Definition key_le {A} (x y : string * A) : Prop := String.leb (fst x) (fst y) = true.

Lemma insert_item_sorted {A} (x : string * A) l :
  Sorted key_le l -> Sorted key_le (insert_item x l).
Proof.
  intros Hs. induction Hs as [|y r Hr IH Hhd]; cbn; [by repeat constructor|].
  destruct (String.leb (fst x) (fst y)) eqn:E; [by repeat constructor|].
  constructor; [done|]. assert (key_le y x).
  { unfold key_le. destruct (String.leb_total (fst x) (fst y)); congruence. }
  destruct Hhd as [|b l Hb]; cbn; [by constructor|].
  by destruct (String.leb (fst x) (fst b)); constructor.
Qed.

Lemma sort_items_sorted {A} (d : list (string * A)) : Sorted key_le (sort_items d).
Proof. induction d; cbn; [constructor|]. by apply insert_item_sorted. Qed.

Lemma sort_strs_perm l : sort_strs l ≡ₚ l.
Proof.
  unfold sort_strs. rewrite sort_items_perm, map_map. cbn. by rewrite map_id.
Qed.

(** Sorting a sorted list changes nothing. *)
Lemma insert_item_hd {A} (x : string * A) l :
  HdRel key_le x l -> insert_item x l = x :: l.
Proof. destruct 1 as [|y l H]; cbn; [done|]. unfold key_le in H. by rewrite H. Qed.

Lemma sort_items_id {A} (l : list (string * A)) : Sorted key_le l -> sort_items l = l.
Proof.
  unfold sort_items. induction 1 as [|x l Hl IH Hhd]; cbn; [done|].
  rewrite IH. by apply insert_item_hd.
Qed.

Lemma sort_items_idemp {A} (l : list (string * A)) : sort_items (sort_items l) = sort_items l.
Proof. apply sort_items_id, sort_items_sorted. Qed.

(** ** Equality lemmas *)
Lemma py_eq_dict d e :
  py_eq (VDict d) (VDict e) =
  (length d =? length e)%nat &&
  forallb (fun kv => match assoc (fst kv) e with Some w => py_eq (snd kv) w | None => false end) d.
Proof.
  cbn. f_equal. induction d as [|[k v] d IH]; cbn; [done|]. by rewrite IH.
Qed.

Lemma py_eq_list l m :
  py_eq (VList l) (VList m) = true <-> Forall2 (fun x y => py_eq x y = true) l m.
Proof.
  revert m. induction l as [|x l IH]; intros [|y m]; cbn; try by split; [|inversion 1].
  rewrite andb_true_iff, Forall2_cons, <- IH. done.
Qed.

Lemma py_eq_str v s : py_eq v (VStr s) = true <-> v = VStr s.
Proof.
  destruct v as [| | | |t| | |]; try (by split). cbn. rewrite String.eqb_eq. naive_solver.
Qed.

(** On a dict with the expected keys, [get] is subscripting. *)
Lemma get_shaped v ks k : dict_shape v ks = true -> mem k ks = true -> get v k = sub v k.
Proof.
  intros Hv Hk. destruct (dict_shape_is_dict _ _ Hv) as [d ->].
  destruct (dict_shape_sub (VDict d) ks k Hv (proj1 (mem_In _ _) Hk)) as [x Hx].
  cbn in *. by destruct (assoc k d).
Qed.

Lemma sub_shaped v ks k : dict_shape v ks = true -> mem k ks = true -> exists x, sub v k = Ok x.
Proof. intros Hv Hk%mem_In. by apply dict_shape_sub with ks. Qed.

Lemma get_returns v ks k : dict_shape v ks = true -> exists x, get v k = Ok x.
Proof. intros [d ->]%dict_shape_is_dict. by eexists. Qed.

Lemma is_true_spec v : is_true v = true <-> v = VBool true.
Proof. destruct v as [|[]| | | | | |]; by split. Qed.

(** A string read with [get] is there to be subscripted, and conversely. *)
Lemma get_str v k s : get v k = Ok (VStr s) <-> sub v k = Ok (VStr s).
Proof. destruct v; try (by split). cbn. by destruct (assoc k d); split. Qed.

Lemma sub_get v k x : sub v k = Ok x -> get v k = Ok x.
Proof. destruct v; try done. cbn. destruct (assoc k d); [by intros [= ->]|done]. Qed.

Lemma sub_is_dict v k x : sub v k = Ok x -> is_dict v = true.
Proof. by destruct v. Qed.

(** Evaluate lookups and shape tests on a literal dict whose values are symbolic. *)
Ltac dict_eval :=
  cbn [sub get get_default];
  repeat match goal with
  | |- context [assoc ?k (?x :: ?d)] =>
      let r := eval lazy [assoc String.eqb Ascii.eqb Bool.eqb] in (assoc k (x :: d)) in
      change (assoc k (x :: d)) with r
  | |- context [dict_shape (VDict (?x :: ?d)) ?ks] => change (dict_shape (VDict (x :: d)) ks) with true
  end;
  cbn [mbind res_bind default from_option id negb okb raise_if orM andM orb andb str_of is_str is_dict
       is_none list_of dict_of fst snd].
