(* ===== verification/Sha256.v ===== *)
(** * hashlib.sha256, hmac and hexadecimal text

    FIPS 180-4 SHA-256 and RFC 2104 HMAC on byte strings, executable, so that
    the signed documents of the sources can be evaluated on concrete inputs.
    Nothing is assumed about collisions: theorems that need one state it as an
    explicit disjunct. *)

From stdpp Require Import base list strings.
From Stdlib Require Import ZArith Lia.
From S2P Require Import Prelude.

Local Open Scope Z_scope.

Module Sha256.

Definition w32 (x : Z) : Z := Z.land x 4294967295.
Definition add32 (x y : Z) : Z := w32 (x + y).
Definition rotr (n x : Z) : Z := Z.lor (Z.shiftr x n) (w32 (Z.shiftl x (32 - n))).

Definition ch (x y z : Z) : Z := Z.lxor (Z.land x y) (Z.land (Z.lxor x 4294967295) z).
Definition maj (x y z : Z) : Z := Z.lxor (Z.lxor (Z.land x y) (Z.land x z)) (Z.land y z).
Definition bsig0 (x : Z) : Z := Z.lxor (Z.lxor (rotr 2 x) (rotr 13 x)) (rotr 22 x).
Definition bsig1 (x : Z) : Z := Z.lxor (Z.lxor (rotr 6 x) (rotr 11 x)) (rotr 25 x).
Definition ssig0 (x : Z) : Z := Z.lxor (Z.lxor (rotr 7 x) (rotr 18 x)) (Z.shiftr x 3).
Definition ssig1 (x : Z) : Z := Z.lxor (Z.lxor (rotr 17 x) (rotr 19 x)) (Z.shiftr x 10).

(** FIPS 180-4 takes its constants from the first primes: the 32 bits after the
    point of their cube roots and, for the initial state, of their square roots. *)
Definition primes : list Z :=
  List.filter (fun p => forallb (fun d => negb (p mod Z.of_nat d =? 0)) (List.seq 2 (Z.to_nat p - 2)))
    (map Z.of_nat (List.seq 2 310)).

(** The integer cube root, from [n] bits. *)
Fixpoint cube_root (n : nat) (x root : Z) : Z :=
  match n with
  | O => root
  | S n' =>
      let more := root + 2 ^ Z.of_nat n' in
      cube_root n' x (if more ^ 3 <=? x then more else root)
  end.

Definition round_constants : list Z :=
  Eval vm_compute in map (fun p => w32 (cube_root 35 (p * 2 ^ 96) 0)) primes.

Record state := mk_state { sa : Z; sb : Z; sc : Z; sd : Z; se : Z; sf : Z; sg : Z; sh : Z }.

Definition init_state : state :=
  Eval vm_compute in
    match map (fun p => w32 (Z.sqrt (p * 2 ^ 64))) primes with
    | a :: b :: c :: d :: e :: f :: g :: h :: _ => mk_state a b c d e f g h
    | _ => mk_state 0 0 0 0 0 0 0 0
    end.

(** One round; the schedule is a sliding window of sixteen words. *)
Definition round (sw : state * list Z) (k : Z) : state * list Z :=
  let '(mk_state a b c d e f g h, win) := sw in
  let w := nth 0 win 0 in
  let t1 := h + bsig1 e + ch e f g + k + w in
  let t2 := bsig0 a + maj a b c in
  let next := w32 (ssig1 (nth 14 win 0) + nth 9 win 0 + ssig0 (nth 1 win 0) + w) in
  (mk_state (w32 (t1 + t2)) a b c (add32 d t1) e f g, tl win ++ [next]).

Definition compress (st : state) (block : list Z) : state :=
  let '(mk_state a b c d e f g h) := st in
  let '(mk_state a' b' c' d' e' f' g' h', _) := foldl round (st, block) round_constants in
  mk_state (add32 a a') (add32 b b') (add32 c c') (add32 d d')
           (add32 e e') (add32 f f') (add32 g g') (add32 h h').

(** Big-endian 32-bit words of a byte list. *)
Fixpoint words (l : list Z) : list Z :=
  match l with
  | b0 :: b1 :: b2 :: b3 :: r => (b0 * 16777216 + b1 * 65536 + b2 * 256 + b3) :: words r
  | _ => []
  end.

(** The [n] bytes of [z], most significant first. *)
Fixpoint be_bytes (n : nat) (z : Z) : list Z :=
  match n with
  | O => []
  | S n' => be_bytes n' (z / 256) ++ [z mod 256]
  end.

Definition pad (msg : list Z) : list Z :=
  let len := Z.of_nat (length msg) in
  msg ++ 128 :: repeat 0 (Z.to_nat ((55 - len) mod 64)) ++ be_bytes 8 (8 * len).

Fixpoint run_blocks (fuel : nat) (st : state) (ws : list Z) : state :=
  match fuel, ws with
  | S fuel', _ :: _ => run_blocks fuel' (compress st (take 16 ws)) (drop 16 ws)
  | _, _ => st
  end.

Definition state_bytes (s : state) : list Z :=
  be_bytes 4 (sa s) ++ be_bytes 4 (sb s) ++ be_bytes 4 (sc s) ++ be_bytes 4 (sd s) ++
  be_bytes 4 (se s) ++ be_bytes 4 (sf s) ++ be_bytes 4 (sg s) ++ be_bytes 4 (sh s).

Definition digest_list (msg : list Z) : list Z :=
  let ws := words (pad msg) in
  state_bytes (run_blocks (length ws) init_state ws).

End Sha256.

(** Bytes of a byte string and back. *)
Fixpoint to_bytes (s : string) : list Z :=
  match s with EmptyString => [] | String c r => byte_of c :: to_bytes r end.

Fixpoint of_bytes (l : list Z) : string :=
  match l with [] => EmptyString | b :: r => String (ascii_of b) (of_bytes r) end.

(** [hashlib.sha256(m).digest()] *)
Definition sha256_digest (m : string) : string := of_bytes (Sha256.digest_list (to_bytes m)).

(** One lowercase hexadecimal digit. *)
Definition hex_digit (z : Z) : Ascii.ascii := ascii_of (if z <? 10 then 48 + z else 87 + z).

(** [b.hex()] *)
Fixpoint to_hex (s : string) : string :=
  match s with
  | EmptyString => EmptyString
  | String c r =>
      String (hex_digit (byte_of c / 16)) (String (hex_digit (byte_of c mod 16)) (to_hex r))
  end.

(** [hashlib.sha256(m).hexdigest()] *)
Definition hexdigest (m : string) : string := to_hex (sha256_digest m).

(** The value of one hexadecimal digit. *)
Definition hex_val (c : Ascii.ascii) : option Z :=
  let b := byte_of c in
  if in_range 48 57 b then Some (b - 48)
  else if in_range 97 102 b then Some (b - 87)
  else if in_range 65 70 b then Some (b - 55)
  else None.

(** ASCII white space, which [bytes.fromhex] skips between byte pairs. *)
Definition is_ascii_space (c : Ascii.ascii) : bool :=
  let b := byte_of c in (b =? 32) || in_range 9 13 b.

(** [bytes.fromhex(s)]; [None] is its [ValueError]. *)
Fixpoint fromhex (s : string) : option string :=
  match s with
  | EmptyString => Some EmptyString
  | String c r =>
      if is_ascii_space c then fromhex r
      else match r with
           | String d r' =>
               match hex_val c, hex_val d, fromhex r' with
               | Some h, Some l, Some t => Some (String (ascii_of (16 * h + l)) t)
               | _, _, _ => None
               end
           | EmptyString => None
           end
  end.

(** [hmac.new(key, msg, hashlib.sha256).digest()] *)
Definition xor_pad (b : Z) (key : list Z) : list Z :=
  map (fun k => Z.lxor k b) (key ++ repeat 0 (64 - length key)%nat).

Definition hmac_digest (key msg : string) : string :=
  let k := if (64 <? String.length key)%nat then sha256_digest key else key in
  let kb := to_bytes k in
  of_bytes (Sha256.digest_list
    (xor_pad 92 kb ++ Sha256.digest_list (xor_pad 54 kb ++ to_bytes msg))).

(** [hmac.new(key, msg, hashlib.sha256).hexdigest()] *)
Definition hmac_hex (key msg : string) : string := to_hex (hmac_digest key msg).

(** Published vectors: FIPS 180-4 "abc" and RFC 4231 test case 2. *)
Example sha256_abc :
  hexdigest "abc" = "ba7816bf8f01cfea414140de5dae2223b00361a396177a9cb410ff61f20015ad".
Proof. vm_compute. reflexivity. Qed.

Example hmac_rfc4231_2 :
  hmac_hex "Jefe" "what do ya want for nothing?" =
  "5bdcc146bf60754e6a042426089575c75a003f089d2739839dec58b964ec3843".
Proof. vm_compute. reflexivity. Qed.

(** ** Format of digests *)
Lemma length_be_bytes n z : length (Sha256.be_bytes n z) = n.
Proof. revert z; induction n; intros z; cbn; [done|]. rewrite length_app, IHn. cbn; lia. Qed.

Lemma length_state_bytes s : length (Sha256.state_bytes s) = 32%nat.
Proof. unfold Sha256.state_bytes. rewrite !length_app, !length_be_bytes. done. Qed.

Lemma length_of_bytes l : String.length (of_bytes l) = length l.
Proof. induction l; cbn; lia. Qed.

Lemma length_sha256_digest m : String.length (sha256_digest m) = 32%nat.
Proof.
  unfold sha256_digest, Sha256.digest_list. rewrite length_of_bytes. apply length_state_bytes.
Qed.

Lemma length_hmac_digest k m : String.length (hmac_digest k m) = 32%nat.
Proof.
  unfold hmac_digest, Sha256.digest_list at 1. rewrite length_of_bytes. apply length_state_bytes.
Qed.

(** ** Hexadecimal text *)
Lemma byte_of_hex_digit z :
  0 <= z < 16 -> byte_of (hex_digit z) = if z <? 10 then 48 + z else 87 + z.
Proof. intros Hz. unfold hex_digit. apply byte_of_ascii_of. destruct (Z.ltb_spec z 10); lia. Qed.

Lemma hex_digit_lower z : 0 <= z < 16 -> is_lower_hex (hex_digit z) = true.
Proof.
  intros Hz. unfold is_lower_hex, is_digit, in_range. rewrite byte_of_hex_digit by done.
  destruct (Z.ltb_spec z 10); lia.
Qed.

Lemma hex_val_digit z : 0 <= z < 16 -> hex_val (hex_digit z) = Some z.
Proof.
  intros Hz. unfold hex_val, in_range. rewrite byte_of_hex_digit by done.
  destruct (Z.ltb_spec z 10);
    repeat match goal with |- context [if ?b then _ else _] => destruct b eqn:? end;
    first [lia | f_equal; lia].
Qed.

Lemma nibbles c : 0 <= byte_of c / 16 < 16 /\ 0 <= byte_of c mod 16 < 16.
Proof.
  pose proof (byte_of_range c). split; [|apply Z.mod_pos_bound; lia].
  split; [apply Z.div_pos; lia | apply Z.div_lt_upper_bound; lia].
Qed.

Lemma length_to_hex s : String.length (to_hex s) = (2 * String.length s)%nat.
Proof. induction s; cbn; lia. Qed.

Lemma to_hex_lower s : str_forall is_lower_hex (to_hex s) = true.
Proof.
  induction s as [|c s IH]; cbn; [done|]. destruct (nibbles c).
  by rewrite !hex_digit_lower, IH.
Qed.

(** [bytes.fromhex] reads back what [bytes.hex] wrote. *)
Lemma fromhex_to_hex s : fromhex (to_hex s) = Some s.
Proof.
  induction s as [|c s IH]; cbn [to_hex fromhex]; [done|]. destruct (nibbles c) as [H1 H2].
  assert (is_ascii_space (hex_digit (byte_of c / 16)) = false) as ->.
  { unfold is_ascii_space, in_range. rewrite byte_of_hex_digit by done.
    destruct (Z.ltb_spec (byte_of c / 16) 10); lia. }
  rewrite !hex_val_digit, IH by done.
  by rewrite <- Z.div_mod, ascii_of_byte_of by lia.
Qed.

Lemma to_hex_inj s t : to_hex s = to_hex t -> s = t.
Proof. intros H%(f_equal fromhex). rewrite !fromhex_to_hex in H. by simplify_eq. Qed.

Lemma hexdigest_hex m : hex_string 64 (hexdigest m) = true.
Proof.
  unfold hex_string, hexdigest.
  by rewrite length_to_hex, length_sha256_digest, to_hex_lower.
Qed.

Lemma hmac_hex_hex k m : hex_string 64 (hmac_hex k m) = true.
Proof.
  unfold hex_string, hmac_hex. by rewrite length_to_hex, length_hmac_digest, to_hex_lower.
Qed.

#[export] Hint Resolve hexdigest_hex hmac_hex_hex : py.
#[global] Arguments sha256_digest : simpl never.
#[global] Arguments hexdigest : simpl never.
#[global] Arguments hmac_digest : simpl never.
#[global] Arguments hmac_hex : simpl never.

Lemma fromhex_hexdigest m : fromhex (hexdigest m) = Some (sha256_digest m).
Proof. apply fromhex_to_hex. Qed.

(** Proofs never unfold the hash; evaluation by [vm_compute] still does. *)
#[global] Opaque sha256_digest hexdigest hmac_digest hmac_hex.

Example opaque_still_computes : hexdigest "" =
  "e3b0c44298fc1c149afbf4c8996fb92427ae41e4649b934ca495991b7852b855".
Proof. vm_compute. reflexivity. Qed.
