(* ===== verification/Json.v ===== *)
(** * The json module

    [json.dumps] with the options every signed document uses, and [json.loads],
    as the sources rely on them.  Strings are UTF-8 (see [Prelude]), so the
    encoder copies every character it does not escape. *)

From stdpp Require Import base list strings.
From Stdlib Require Import ZArith Lia.
From S2P Require Import Prelude PyValue Sha256.

Local Open Scope Z_scope.

(** ** json.dumps *)

(** One decimal digit. *)
Definition dec_digit (z : Z) : Ascii.ascii := ascii_of (48 + z).

(** The decimal digits of [0 <= z < 2^fuel]. *)
Fixpoint dec_digits (fuel : nat) (z : Z) : string :=
  match fuel with
  | O => ""
  | S f => if z <? 10 then String (dec_digit z) ""
           else dec_digits f (z / 10) +:+ String (dec_digit (z mod 10)) ""
  end.

(** [str(n)] for an integer; [log2] bounds the number of digits. *)
Definition dec_nonneg (z : Z) : string := dec_digits (S (S (Z.to_nat (Z.log2 z)))) z.
Definition dec (z : Z) : string :=
  if z <? 0 then "-" +:+ dec_nonneg (- z) else dec_nonneg z.

Definition chr (z : Z) : string := String (ascii_of z) EmptyString.

(** [ESCAPE_DCT] of the encoder: the short escapes, else [\u00XX] below 32. *)
Definition escape_char (c : Ascii.ascii) : string :=
  let b := byte_of c in
  if b =? 34 then chr 92 +:+ chr 34
  else if b =? 92 then chr 92 +:+ chr 92
  else if b =? 10 then chr 92 +:+ "n"
  else if b =? 13 then chr 92 +:+ "r"
  else if b =? 9 then chr 92 +:+ "t"
  else if b =? 12 then chr 92 +:+ "f"
  else if b =? 8 then chr 92 +:+ "b"
  else if b <? 32 then
    chr 92 +:+ "u00" +:+ String (hex_digit (b / 16)) (String (hex_digit (b mod 16)) "")
  else String c EmptyString.

Fixpoint escape (s : string) : string :=
  match s with EmptyString => EmptyString | String c r => escape_char c +:+ escape r end.

Definition quote (s : string) : string := chr 34 +:+ escape s +:+ chr 34.

(** Items joined by commas. *)
Fixpoint join (l : list string) : string :=
  match l with
  | [] => ""
  | [x] => x
  | x :: r => x +:+ "," +:+ join r
  end.

Section dumps.
(** [float.__repr__], used only for documents that may hold floats. *)
Variable float_repr : pyfloat -> string.

(** [json.dumps(v, sort_keys=True, separators=(",", ":"), ensure_ascii=False)] *)
Fixpoint dumps (v : pyval) : string :=
  match v with
  | VNone => "null"
  | VBool true => "true"
  | VBool false => "false"
  | VInt z => dec z
  | VFloat f => float_repr f
  | VStr s => quote s
  | VBytes _ => ""
  | VList l => "[" +:+ join (map dumps l) +:+ "]"
  | VDict d =>
      "{" +:+ join (map (fun kv => quote (fst kv) +:+ ":" +:+ snd kv)
                        (sort_items (map (fun kv => (fst kv, dumps (snd kv))) d))) +:+ "}"
  end.
End dumps.

(** ** json.loads *)
Definition is_ws (c : Ascii.ascii) : bool :=
  let b := byte_of c in (b =? 32) || (b =? 9) || (b =? 10) || (b =? 13).

Fixpoint skip_ws (s : string) : string :=
  match s with
  | String c r => if is_ws c then skip_ws r else s
  | EmptyString => s
  end.

(** UTF-8 of a code point; surrogates are written as three bytes. *)
Definition utf8 (cp : Z) : string :=
  if cp <? 128 then chr cp
  else if cp <? 2048 then chr (192 + cp / 64) +:+ chr (128 + cp mod 64)
  else if cp <? 65536 then
    chr (224 + cp / 4096) +:+ chr (128 + cp / 64 mod 64) +:+ chr (128 + cp mod 64)
  else
    chr (240 + cp / 262144) +:+ chr (128 + cp / 4096 mod 64) +:+
    chr (128 + cp / 64 mod 64) +:+ chr (128 + cp mod 64).

(** [_decode_uXXXX] *)
Definition hex4 (a b c d : Ascii.ascii) : option Z :=
  match hex_val a, hex_val b, hex_val c, hex_val d with
  | Some x, Some y, Some z, Some w => Some (4096 * x + 256 * y + 16 * z + w)
  | _, _, _, _ => None
  end.

(** [BACKSLASH]: the one-character escapes. *)
Definition unescape (c : Ascii.ascii) : option Ascii.ascii :=
  let b := byte_of c in
  if (b =? 34) || (b =? 92) || (b =? 47) then Some c
  else if b =? 98 then Some (ascii_of 8)
  else if b =? 102 then Some (ascii_of 12)
  else if b =? 110 then Some (ascii_of 10)
  else if b =? 114 then Some (ascii_of 13)
  else if b =? 116 then Some (ascii_of 9)
  else None.

Definition prepend (p : string) (o : option (string * string)) : option (string * string) :=
  match o with Some (s, r) => Some (p +:+ s, r) | None => None end.

(** [py_scanstring(s, end, strict=True)], after the opening quote. *)
Fixpoint scan_string (s : string) : option (string * string) :=
  match s with
  | EmptyString => None
  | String c r =>
      let b := byte_of c in
      if b =? 34 then Some ("", r)
      else if b =? 92 then
        match r with
        | EmptyString => None
        | String e r1 =>
            match unescape e with
            | Some ch => prepend (String ch "") (scan_string r1)
            | None =>
                if byte_of e =? 117 then
                  match r1 with
                  | String h1 (String h2 (String h3 (String h4 r2))) =>
                      match hex4 h1 h2 h3 h4 with
                      | None => None
                      | Some uni =>
                          match r2 with
                          | String b1 (String u1 (String g1 (String g2 (String g3 (String g4 r3))))) =>
                              if in_range 55296 56319 uni && (byte_of b1 =? 92) && (byte_of u1 =? 117)
                              then match hex4 g1 g2 g3 g4 with
                                   | None => None
                                   | Some uni2 =>
                                       if in_range 56320 57343 uni2
                                       then prepend (utf8 (65536 + 1024 * (uni - 55296) + (uni2 - 56320)))
                                                    (scan_string r3)
                                       else prepend (utf8 uni) (scan_string r2)
                                   end
                              else prepend (utf8 uni) (scan_string r2)
                          | _ => prepend (utf8 uni) (scan_string r2)
                          end
                      end
                  | _ => None
                  end
                else None
            end
        end
      else if b <? 32 then None
      else prepend (String c "") (scan_string r)
  end.

(** The longest run of ASCII digits. *)
Fixpoint span_digits (s : string) : string * string :=
  match s with
  | String c r => if is_digit c then let '(ds, r') := span_digits r in (String c ds, r') else ("", s)
  | EmptyString => ("", "")
  end.

Fixpoint digits_value (acc : Z) (s : string) : Z :=
  match s with
  | EmptyString => acc
  | String c r => digits_value (10 * acc + (byte_of c - 48)) r
  end.

Definition first_is (p : Ascii.ascii -> bool) (s : string) : bool :=
  match s with String c _ => p c | EmptyString => false end.

Definition tail (s : string) : string :=
  match s with String _ r => r | EmptyString => "" end.

(** [(\.[0-9]+)?] *)
Definition scan_frac (s : string) : string * string :=
  if first_is (fun c => byte_of c =? 46) s then
    match span_digits (tail s) with
    | (EmptyString, _) => ("", s)
    | (ds, r) => ("." +:+ ds, r)
    end
  else ("", s).

(** [([eE][-+]?[0-9]+)?] *)
Definition scan_exp (s : string) : string * string :=
  match s with
  | String c r =>
      if (byte_of c =? 101) || (byte_of c =? 69) then
        let '(sign, r1) :=
          match r with
          | String d r' => if (byte_of d =? 43) || (byte_of d =? 45) then (String d "", r') else ("", r)
          | EmptyString => ("", "")
          end in
        match span_digits r1 with
        | (EmptyString, _) => ("", s)
        | (ds, r2) => (String c "" +:+ sign +:+ ds, r2)
        end
      else ("", s)
  | EmptyString => ("", s)
  end.

(** [sys.get_int_max_str_digits()]: longer integers raise [ValueError]. *)
Definition MAX_STR_DIGITS : nat := 4300.

(** The hooks a call of [json.loads] has: none, one that refuses a repeated key, or
    that one and one that refuses the constants that are no numbers. *)
Inductive hooks := NoHooks | UniqueKeys | StrictHooks.
Definition refuses_repeats (h : hooks) : bool := match h with NoHooks => false | _ => true end.
Definition refuses_constants (h : hooks) : bool := match h with StrictHooks => true | _ => false end.

Section loads.
(** [float(text)] for a JSON number with a fraction or an exponent. *)
Variable parse_float : string -> pyfloat.
Variable strict : hooks.

(** [NUMBER_RE]: an optional minus sign, then zero or a digit run without a
    leading zero, then an optional fraction and an optional exponent. *)
Definition scan_number (s : string) : option (pyval * string) :=
  let neg := first_is (fun c => byte_of c =? 45) s in
  let body := if neg then tail s else s in
  if first_is is_digit body then
    let '(int_part, r) :=
      if first_is (fun c => byte_of c =? 48) body then ("0", tail body) else span_digits body in
    let '(frac, r1) := scan_frac r in
    let '(ex, r2) := scan_exp r1 in
    if String.eqb frac "" && String.eqb ex "" then
      if (MAX_STR_DIGITS <? String.length int_part)%nat then None
      else let n := digits_value 0 int_part in Some (VInt (if neg then - n else n), r)
    else Some (VFloat (parse_float ((if neg then "-" else "") +:+ int_part +:+ frac +:+ ex)), r2)
  else None.

(** [s.startswith(word)]: the rest of the text and the constant. *)
Definition scan_word (word : string) (v : pyval) (s : string) : option (pyval * string) :=
  if startswith word s then Some (v, String.substring (String.length word) (String.length s) s)
  else None.

Definition orelse {A} (a b : option A) : option A := match a with Some _ => a | None => b end.

(** [scan_once], [JSONObject] and [JSONArray]; every call consumes a character,
    so the length of the text bounds the recursion. *)
Fixpoint scan_value (fuel : nat) (s : string) : option (pyval * string) :=
  match fuel with
  | O => None
  | S f =>
      match s with
      | EmptyString => None
      | String c r =>
          let b := byte_of c in
          if b =? 34 then
            match scan_string r with Some (x, r') => Some (VStr x, r') | None => None end
          else if b =? 123 then
            let s1 := skip_ws r in
            if first_is (fun d => byte_of d =? 125) s1 then Some (VDict [], tail s1)
            else match scan_members f s1 [] with Some (d, r') => Some (VDict d, r') | None => None end
          else if b =? 91 then
            let s1 := skip_ws r in
            if first_is (fun d => byte_of d =? 93) s1 then Some (VList [], tail s1)
            else match scan_items f s1 with Some (l, r') => Some (VList l, r') | None => None end
          else orelse (scan_word "null" VNone s)
                 (orelse (scan_word "true" (VBool true) s)
                 (orelse (scan_word "false" (VBool false) s)
                 (orelse (scan_number s)
                 (if refuses_constants strict then None
                  else orelse (scan_word "NaN" (VFloat FNan) s)
                         (orelse (scan_word "Infinity" (VFloat (FInf false)) s)
                                 (scan_word "-Infinity" (VFloat (FInf true)) s))))))
      end
  end
with scan_members (fuel : nat) (s : string) (acc : pydict) : option (pydict * string) :=
  match fuel with
  | O => None
  | S f =>
      if first_is (fun c => byte_of c =? 34) s then
        match scan_string (tail s) with
        | None => None
        | Some (k, r1) =>
            let s2 := skip_ws r1 in
            if first_is (fun c => byte_of c =? 58) s2 then
              match scan_value f (skip_ws (tail s2)) with
              | None => None
              | Some (v, r3) =>
                  let s4 := skip_ws r3 in
                  let acc' := dict_set k v acc in
                  if refuses_repeats strict && has_key k acc then None
                  else if first_is (fun c => byte_of c =? 44) s4
                  then scan_members f (skip_ws (tail s4)) acc'
                  else if first_is (fun c => byte_of c =? 125) s4 then Some (acc', tail s4)
                  else None
              end
            else None
        end
      else None
  end
with scan_items (fuel : nat) (s : string) : option (list pyval * string) :=
  match fuel with
  | O => None
  | S f =>
      match scan_value f s with
      | None => None
      | Some (v, r1) =>
          let s2 := skip_ws r1 in
          if first_is (fun c => byte_of c =? 44) s2 then
            match scan_items f (skip_ws (tail s2)) with
            | Some (l, r) => Some (v :: l, r)
            | None => None
            end
          else if first_is (fun c => byte_of c =? 93) s2 then Some ([v], tail s2)
          else None
      end
  end.

Definition load_text (s : string) : res pyval :=
  match scan_value (S (String.length s)) (skip_ws s) with
  | Some (v, r) =>
      match skip_ws r with
      | EmptyString => Ok v
      | _ => Err (ValueError "Extra data")
      end
  | None => Err (ValueError "Expecting value")
  end.
End loads.

(** [json.loads(text)]; [JSONDecodeError] is a [ValueError]. *)
Definition loads (parse_float : string -> pyfloat) : string -> res pyval := load_text parse_float NoHooks.
(** [json.loads(text, object_pairs_hook=pairs, parse_constant=constant)] with
    hooks that raise on a repeated key and on a constant. *)
Definition strict_loads (parse_float : string -> pyfloat) : string -> res pyval := load_text parse_float StrictHooks.
