(* ===== verification/JsonFacts.v ===== *)
(** * Reading back what json.dumps wrote

    Decimal integers, escaped strings, lists and sorted objects are each read
    back by the scanner up to the first character after them; [loads_dumps]
    puts them together. *)

From stdpp Require Import base list strings.
From Stdlib Require Import ZArith Lia.
From Stdlib Require Import (notations) Ascii.
From S2P Require Import Prelude PyValue Sha256 Json.

Local Open Scope Z_scope.

(** ** Decimal integers *)
Lemma byte_of_dec_digit z : 0 <= z < 10 -> byte_of (dec_digit z) = 48 + z.
Proof. intros. apply byte_of_ascii_of. lia. Qed.

Lemma is_digit_dec_digit z : 0 <= z < 10 -> is_digit (dec_digit z) = true.
Proof. intros. unfold is_digit, in_range. rewrite byte_of_dec_digit; lia. Qed.

Lemma digits_value_snoc acc s c :
  digits_value acc (s +:+ String c "") = 10 * digits_value acc s + (byte_of c - 48).
Proof.
  revert acc; induction s as [|d s IH]; intros acc; [done|].
  rewrite append_cons; cbn [digits_value]. apply IH.
Qed.

Lemma first_is_app p s r : s <> "" -> first_is p (s +:+ r) = first_is p s.
Proof. by destruct s. Qed.

Lemma div10_fuel f z : 10 <= z -> z < 2 ^ Z.of_nat (S f) -> 0 < z / 10 < 2 ^ Z.of_nat f.
Proof.
  intros Hz H. rewrite Nat2Z.inj_succ, Z.pow_succ_r in H by lia.
  split; [apply Z.div_str_pos; lia|]. apply Z.div_lt_upper_bound; lia.
Qed.

(** Everything the scanner needs of the digits of a number. *)
Record digits_ok (z : Z) (s : string) : Prop := {
  do_digits : str_forall is_digit s = true;
  do_value : digits_value 0 s = z;
  do_nonempty : s <> "";
  do_zero : first_is (fun c => byte_of c =? 48) s = (z =? 0);
  do_is_zero : z = 0 -> s = "0";
}.

Lemma dec_digits_ok fuel z :
  0 <= z < 2 ^ Z.of_nat fuel -> digits_ok z (dec_digits (S fuel) z).
Proof.
  revert z; induction fuel as [|f IH]; intros z Hz.
  - assert (z = 0) as -> by lia. split; done.
  - change (dec_digits (S (S f)) z) with
      (if z <? 10 then String (dec_digit z) ""
       else dec_digits (S f) (z / 10) +:+ String (dec_digit (z mod 10)) "").
    destruct (Z.ltb_spec z 10) as [Hlt|Hge].
    + assert (H10 : 0 <= z < 10) by lia.
      split; cbn; try done.
      * by rewrite is_digit_dec_digit.
      * rewrite byte_of_dec_digit; lia.
      * rewrite byte_of_dec_digit by done. lia.
      * by intros ->.
    + destruct (div10_fuel f z) as [H1 H2]; [lia..|].
      destruct (IH (z / 10)) as [Hd Hv Hn Hz0 _]; [lia|].
      pose proof (Z.mod_pos_bound z 10 ltac:(lia)).
      split.
      * rewrite str_forall_app, Hd. cbn. by rewrite is_digit_dec_digit.
      * rewrite digits_value_snoc, Hv, byte_of_dec_digit by done.
        pose proof (Z.div_mod z 10). lia.
      * by destruct (dec_digits (S f) (z / 10)).
      * rewrite first_is_app, Hz0 by done. lia.
      * lia.
Qed.

Lemma length_dec_digits fuel z : (String.length (dec_digits fuel z) <= fuel)%nat.
Proof.
  revert z; induction fuel as [|f IH]; intros z; cbn; [lia|].
  destruct (z <? 10); cbn; [lia|]. rewrite length_append. cbn. specialize (IH (z / 10)). lia.
Qed.

Lemma dec_nonneg_ok z : 0 <= z -> digits_ok z (dec_nonneg z).
Proof.
  intros Hz. apply dec_digits_ok. split; [done|].
  rewrite Nat2Z.inj_succ, Z2Nat.id by apply Z.log2_nonneg.
  destruct (Z.eq_dec z 0) as [->|]; [done|]. apply Z.log2_spec. lia.
Qed.

Lemma length_dec_nonneg z n :
  0 <= z < 2 ^ Z.of_nat n -> (String.length (dec_nonneg z) <= n + 2)%nat.
Proof.
  intros Hz. unfold dec_nonneg.
  etransitivity; [apply length_dec_digits|].
  destruct (Z.eq_dec z 0) as [->|]; [cbn; lia|].
  assert (Z.log2 z < Z.of_nat n) by (apply Z.log2_lt_pow2; lia). lia.
Qed.

(** A number ends at the first character that cannot continue it. *)
Definition number_stop (r : string) : bool :=
  negb (first_is (fun c =>
    is_digit c || (byte_of c =? 46) || (byte_of c =? 101) || (byte_of c =? 69)) r).

Lemma span_digits_app s r :
  str_forall is_digit s = true -> first_is is_digit r = false -> span_digits (s +:+ r) = (s, r).
Proof.
  intros Hs Hr. induction s as [|c s IH]; cbn in *.
  - sstr. destruct r as [|c r]; [done|]. cbn in *. by rewrite Hr.
  - apply andb_true_iff in Hs as [Hc Hs]. sstr. by rewrite Hc, IH.
Qed.

Lemma number_stop_spec r :
  number_stop r = true ->
  first_is is_digit r = false /\ scan_frac r = ("", r) /\ scan_exp r = ("", r).
Proof.
  unfold number_stop, scan_frac, scan_exp. destruct r as [|c r]; [done|]. cbn. intros H.
  run_inv. repeat split; [done|..].
  - by destruct (byte_of c =? 46).
  - by destruct (byte_of c =? 101), (byte_of c =? 69).
Qed.

Section scan.
Context (parse_float : string -> pyfloat).

Lemma scan_number_unsigned s z r :
  digits_ok z s -> first_is is_digit r = false ->
  (if first_is (fun c => byte_of c =? 48) (s +:+ r) then ("0", tail (s +:+ r))
   else span_digits (s +:+ r)) = (s, r).
Proof.
  intros [Hd Hv Hn H0 Hs] Hr. rewrite first_is_app, H0 by done.
  destruct (Z.eqb_spec z 0) as [Hz|_]; [by rewrite (Hs Hz)|]. by apply span_digits_app.
Qed.

Lemma digits_first s r : digits_ok r s -> first_is is_digit s = true.
Proof. intros [Hd _ Hn _ _]. destruct s; [done|]. by apply andb_true_iff in Hd as [Hd _]. Qed.

Lemma scan_number_body neg s z r :
  digits_ok z s -> (String.length s <= MAX_STR_DIGITS)%nat -> number_stop r = true ->
  scan_number parse_float ((if neg : bool then "-" else "") +:+ s +:+ r) =
    Some (VInt (if neg then - z else z), r).
Proof.
  intros Hok Hlen Hr. destruct (number_stop_spec r Hr) as (Hdig & Hfrac & Hexp).
  pose proof (do_nonempty _ _ Hok) as Hn. pose proof (digits_first _ _ Hok) as Hf.
  assert (Hneg : first_is (fun c => byte_of c =? 45)
     ((if neg then "-" else "") +:+ s +:+ r) = neg).
  { destruct neg; [done|]. cbn. change ("" +:+ s +:+ r) with (s +:+ r).
    rewrite first_is_app by done. destruct s as [|c s]; [done|]. cbn in *.
    unfold is_digit, in_range in Hf. lia. }
  assert (Ht : (if neg then tail ((if neg then "-" else "") +:+ s +:+ r)
     else (if neg then "-" else "") +:+ s +:+ r) = s +:+ r) by by destruct neg.
  unfold scan_number. rewrite Hneg, Ht, first_is_app, Hf by done.
  rewrite (scan_number_unsigned s z r Hok Hdig), Hfrac, Hexp. cbn [String.eqb andb].
  destruct (Nat.ltb_spec MAX_STR_DIGITS (String.length s)); [lia|].
  by rewrite (do_value _ _ Hok).
Qed.

(** An integer of less than 2^128 in magnitude is read back. *)
Lemma scan_number_dec z r :
  - 2 ^ 128 < z < 2 ^ 128 -> number_stop r = true ->
  scan_number parse_float (dec z +:+ r) = Some (VInt z, r).
Proof.
  intros Hz Hr. unfold dec. destruct (Z.ltb_spec z 0).
  - rewrite append_assoc.
    rewrite (scan_number_body true (dec_nonneg (- z)) (- z)); [by rewrite Z.opp_involutive|..|done].
    + apply dec_nonneg_ok; lia.
    + pose proof (length_dec_nonneg (- z) 128). unfold MAX_STR_DIGITS. lia.
  - apply (scan_number_body false (dec_nonneg z) z); [apply dec_nonneg_ok; lia| |done].
    pose proof (length_dec_nonneg z 128). unfold MAX_STR_DIGITS. lia.
Qed.
End scan.

(** ** Strings *)
Lemma ascii_of_eq c z : byte_of c = z -> c = ascii_of z.
Proof. intros <-. by rewrite ascii_of_byte_of. Qed.

Lemma hex4_00 b :
  0 <= b < 256 ->
  hex4 (ascii_of 48) (ascii_of 48) (hex_digit (b / 16)) (hex_digit (b mod 16)) = Some b.
Proof.
  intros Hb. unfold hex4.
  change (hex_val (ascii_of 48)) with (Some 0).
  rewrite !hex_val_digit.
  - f_equal. pose proof (Z.div_mod b 16). lia.
  - apply Z.mod_pos_bound. lia.
  - split; [apply Z.div_pos; lia | apply Z.div_lt_upper_bound; lia].
Qed.

Lemma scan_string_u00 b t :
  0 <= b < 32 ->
  scan_string (chr 92 +:+ "u00" +:+ String (hex_digit (b / 16)) (String (hex_digit (b mod 16)) t))
  = prepend (chr b) (scan_string t).
Proof.
  intros Hb. pose proof (hex4_00 b ltac:(lia)) as Hhex.
  change (ascii_of 48) with "0"%char in Hhex.
  assert (Hu : utf8 b = chr b).
  { unfold utf8. destruct (Z.ltb_spec b 128); [done|lia]. }
  assert (Hs : in_range 55296 56319 b = false) by (unfold in_range; lia).
  change (chr 92 +:+ "u00" +:+ ?x) with (String "\" (String "u" (String "0" (String "0" x)))).
  cbn -[hex4 utf8 Z.eqb Z.ltb Z.div Z.modulo]. rewrite Hhex, Hs. cbn. rewrite Hu.
  by destruct t as [|? [|? [|? [|? [|? []]]]]].
Qed.

Lemma scan_escape_char c t :
  scan_string (escape_char c +:+ t) = prepend (String c "") (scan_string t).
Proof.
  unfold escape_char. pose proof (byte_of_range c).
  repeat match goal with
  | |- context [if byte_of c =? ?k then _ else _] =>
      destruct (Z.eqb_spec (byte_of c) k) as [E|];
      [apply ascii_of_eq in E; subst c; reflexivity|]
  end.
  destruct (Z.ltb_spec (byte_of c) 32).
  - rewrite !append_assoc.
    change (String ?a (String ?b "") +:+ t) with (String a (String b t)).
    rewrite scan_string_u00 by lia. by unfold chr; rewrite ascii_of_byte_of.
  - rewrite append_cons, append_nil_l. cbn [scan_string].
    destruct (Z.eqb_spec (byte_of c) 34); [lia|].
    destruct (Z.eqb_spec (byte_of c) 92); [lia|].
    destruct (Z.ltb_spec (byte_of c) 32); [lia|]. done.
Qed.

Lemma scan_string_escape s r : scan_string (escape s +:+ chr 34 +:+ r) = Some (s, r).
Proof.
  induction s as [|c s IH]; [reflexivity|].
  cbn [escape]. rewrite append_assoc, scan_escape_char, IH. done.
Qed.

(** ** Whole documents *)

(** The document with the keys of every object sorted. *)
Fixpoint canon (v : pyval) : pyval :=
  match v with
  | VList l => VList (map canon l)
  | VDict d => VDict (sort_items (map (fun kv => (fst kv, canon (snd kv))) d))
  | _ => v
  end.

(** What the canonical encoder accepts: no float, no bytes, no repeated key,
    integers of less than 128 bits. *)
Fixpoint json_ok (v : pyval) : bool :=
  match v with
  | VNone | VBool _ | VStr _ => true
  | VInt z => in_range (- (2 ^ 128 - 1)) (2 ^ 128 - 1) z
  | VFloat _ | VBytes _ => false
  | VList l => forallb json_ok l
  | VDict d => bool_decide (NoDup (keys d)) && forallb (fun kv => json_ok (snd kv)) d
  end.

Definition entry (float_repr : pyfloat -> string) (kv : string * pyval) : string :=
  quote (fst kv) +:+ ":" +:+ dumps float_repr (snd kv).

Lemma dumps_dict fr d :
  dumps fr (VDict d) = "{" +:+ join (map (entry fr) (sort_items d)) +:+ "}".
Proof.
  cbn. rewrite (sort_items_map (dumps fr)), map_map. done.
Qed.

(** A value starts with neither white space nor a closing bracket. *)
Definition value_start (c : Ascii.ascii) : bool := negb (is_ws c) && negb (byte_of c =? 93).

Lemma dec_start z : first_is (fun c => is_digit c || (byte_of c =? 45)) (dec z) = true.
Proof.
  unfold dec. destruct (Z.ltb_spec z 0); [done|].
  pose proof (digits_first _ _ (dec_nonneg_ok z ltac:(lia))) as H1.
  destruct (dec_nonneg z); cbn in *; [done|]. by rewrite H1.
Qed.

Lemma dumps_start fr v : json_ok v = true -> first_is value_start (dumps fr v) = true.
Proof.
  destruct v as [|[]|z| | | | |]; try done. intros _. cbn. pose proof (dec_start z) as H.
  destruct (dec z) as [|c s]; [done|]. cbn in *.
  unfold value_start, is_ws, is_digit, in_range in *. lia.
Qed.

Lemma skip_ws_start s r : first_is value_start s = true -> skip_ws (s +:+ r) = s +:+ r.
Proof.
  destruct s as [|c s]; [done|]. cbn. rewrite append_cons. cbn. unfold value_start.
  by destruct (is_ws c).
Qed.

Lemma substring_all r n : (String.length r <= n)%nat -> String.substring 0 n r = r.
Proof.
  revert n; induction r as [|c r IH]; intros [|n]; cbn; try done; [lia|].
  intros H. f_equal. apply IH. lia.
Qed.

Lemma scan_word_miss w ws v c t : w <> c -> scan_word (String w ws) v (String c t) = None.
Proof. intros H. unfold scan_word, startswith. cbn. by destruct (Ascii.ascii_dec w c). Qed.

Section roundtrip.
Context (parse_float : string -> pyfloat) (strict : hooks) (float_repr : pyfloat -> string).
Local Notation scan := (scan_value parse_float strict).
Local Notation scan_items := (Json.scan_items parse_float strict).
Local Notation scan_members := (Json.scan_members parse_float strict).
Local Notation dump := (dumps float_repr).

(** One unfolding of the two loops. *)
Lemma scan_items_S f s :
  scan_items (S f) s =
  match scan f s with
  | None => None
  | Some (v, r1) =>
      let s2 := skip_ws r1 in
      if first_is (fun c => byte_of c =? 44) s2 then
        match scan_items f (skip_ws (tail s2)) with Some (l, r) => Some (v :: l, r) | None => None end
      else if first_is (fun c => byte_of c =? 93) s2 then Some ([v], tail s2) else None
  end.
Proof. reflexivity. Qed.

Lemma scan_members_S f s acc :
  scan_members (S f) s acc =
  if first_is (fun c => byte_of c =? 34) s then
    match scan_string (tail s) with
    | None => None
    | Some (k, r1) =>
        let s2 := skip_ws r1 in
        if first_is (fun c => byte_of c =? 58) s2 then
          match scan f (skip_ws (tail s2)) with
          | None => None
          | Some (v, r3) =>
              let s4 := skip_ws r3 in
              let acc' := dict_set k v acc in
              if refuses_repeats strict && has_key k acc then None
              else if first_is (fun c => byte_of c =? 44) s4 then scan_members f (skip_ws (tail s4)) acc'
              else if first_is (fun c => byte_of c =? 125) s4 then Some (acc', tail s4) else None
          end
        else None
    end
  else None.
Proof. reflexivity. Qed.

(** [v] is read back before any text that cannot continue a number. *)
Definition reads (v : pyval) : Prop := forall f r,
  (String.length (dump v) <= f)%nat -> number_stop r = true ->
  scan f (dump v +:+ r) = Some (canon v, r).

(** Neither a string, an object nor an array. *)
Lemma scan_other c t f :
  byte_of c <> 34 -> byte_of c <> 123 -> byte_of c <> 91 ->
  scan (S f) (String c t) =
    let s := String c t in
    orelse (scan_word "null" VNone s)
      (orelse (scan_word "true" (VBool true) s)
      (orelse (scan_word "false" (VBool false) s)
      (orelse (scan_number parse_float s)
      (if refuses_constants strict then None
       else orelse (scan_word "NaN" (VFloat FNan) s)
              (orelse (scan_word "Infinity" (VFloat (FInf false)) s)
                      (scan_word "-Infinity" (VFloat (FInf true)) s)))))).
Proof.
  intros H1 H2 H3. cbn [scan_value].
  destruct (Z.eqb_spec (byte_of c) 34); [done|].
  destruct (Z.eqb_spec (byte_of c) 123); [done|].
  by destruct (Z.eqb_spec (byte_of c) 91).
Qed.

Lemma scan_word_hit w v r : scan_word w v (w +:+ r) = Some (v, r).
Proof.
  unfold scan_word, startswith.
  assert (H : String.prefix w (w +:+ r) = true).
  { induction w as [|c w IH]; [by destruct r|]. rewrite append_cons. cbn.
    destruct (Ascii.ascii_dec c c); [done|congruence]. }
  rewrite H, length_append. f_equal. f_equal.
  assert (Hd : forall m, (String.length r <= m)%nat ->
    String.substring (String.length w) m (w +:+ r) = r).
  { clear H. induction w as [|c w IH]; intros m Hm; [by apply substring_all|].
    rewrite append_cons. cbn. by apply IH. }
  apply Hd. lia.
Qed.

Lemma scan_const w v f r :
  In (w, v) [("null", VNone); ("true", VBool true); ("false", VBool false)] ->
  scan (S f) (w +:+ r) = Some (v, r).
Proof.
  intros H. pose proof (scan_word_hit w v r) as Hw. cbn in H.
  destruct H as [H|[H|[H|[]]]]; injection H as <- <-;
    rewrite append_cons in *; rewrite scan_other by done; cbv zeta;
    rewrite ?scan_word_miss by done; by rewrite Hw.
Qed.

Lemma scan_int z f r :
  in_range (- (2 ^ 128 - 1)) (2 ^ 128 - 1) z = true -> number_stop r = true ->
  scan (S f) (dec z +:+ r) = Some (VInt z, r).
Proof.
  intros Hz Hr. pose proof (dec_start z) as Hs.
  pose proof (scan_number_dec parse_float z r) as Hn. unfold in_range in Hz.
  destruct (dec z) as [|c s]; [done|]. cbn in Hs.
  assert (Hc : 45 <= byte_of c <= 57) by (unfold is_digit, in_range in Hs; lia).
  rewrite append_cons in *. rewrite scan_other by lia. cbv zeta.
  rewrite 3!scan_word_miss; [rewrite Hn; [done|lia|done]|..]; intros <-.
  - assert (byte_of "f" = 102) by done. lia.
  - assert (byte_of "t" = 116) by done. lia.
  - assert (byte_of "n" = 110) by done. lia.
Qed.

Lemma scan_quote s f r : scan (S f) (quote s +:+ r) = Some (VStr s, r).
Proof.
  unfold quote. rewrite !append_assoc.
  change (chr 34 +:+ ?x) with (String (ascii_of 34) x) at 1. cbn [scan_value].
  change (byte_of (ascii_of 34) =? 34) with true. cbn match.
  by rewrite scan_string_escape.
Qed.

Lemma scan_items_last f s v r :
  scan f s = Some (v, String "]" r) -> scan_items (S f) s = Some ([v], r).
Proof. intros H. rewrite scan_items_S. by rewrite H. Qed.

Lemma scan_items_more f s v t l r :
  scan f s = Some (v, String "," t) -> scan_items f (skip_ws t) = Some (l, r) ->
  scan_items (S f) s = Some (v :: l, r).
Proof.
  intros H1 H2. rewrite scan_items_S. rewrite H1.
  change (skip_ws (String "," t)) with (String "," t). cbn [first_is tail].
  change (byte_of "," =? 44) with true. cbn match. by rewrite H2.
Qed.

Lemma join_start {A} (f : A -> string) x l :
  first_is value_start (f x) = true -> first_is value_start (join (map f (x :: l))) = true.
Proof.
  intros H. destruct l; [done|].
  change (join (map f (x :: a :: l))) with (f x +:+ "," +:+ join (map f (a :: l))).
  rewrite first_is_app; [done|]. by destruct (f x).
Qed.

(** The items of a non-empty list, up to the closing bracket. *)
Lemma scan_items_join l f r :
  l <> [] -> Forall (fun v => json_ok v = true /\ reads v) l ->
  (S (String.length (join (map dump l))) <= f)%nat ->
  scan_items f (join (map dump l) +:+ "]" +:+ r) = Some (map canon l, r).
Proof.
  intros Hl HF. revert f. induction HF as [|x l [Hj Hx] HF IH]; [done|]. intros f Hf.
  destruct f as [|f]; [lia|]. destruct l as [|y l].
  - apply scan_items_last. apply Hx; [cbn in Hf; lia|done].
  - change (join (map dump (x :: y :: l))) with
      (dump x +:+ "," +:+ join (map dump (y :: l))) in *.
    rewrite !append_assoc. rewrite !length_append in Hf. cbn [String.length] in Hf.
    inversion HF as [|? ? [Hy _] _]; subst.
    eapply scan_items_more; [apply Hx; [lia|done]|].
    rewrite ?append_nil_l, skip_ws_start by (by apply join_start, dumps_start).
    apply IH; [done|lia].
Qed.

(** A fresh key passes the strict test. *)
Lemma strict_fresh k (acc : pydict) : ~ In k (keys acc) -> refuses_repeats strict && has_key k acc = false.
Proof.
  intros Hk. destruct (has_key k acc) eqn:E; [|by rewrite andb_false_r]. by apply has_key_In in E.
Qed.

Lemma scan_members_last f k s v r acc :
  ~ In k (keys acc) -> scan f (skip_ws s) = Some (v, String "}" r) ->
  scan_members (S f) (quote k +:+ String ":" s) acc = Some (dict_set k v acc, r).
Proof.
  intros Hk H. apply strict_fresh in Hk. unfold quote. rewrite !append_assoc.
  change (chr 34 +:+ ?x) with (String (ascii_of 34) x) at 1. rewrite scan_members_S. cbn [first_is tail].
  change (byte_of (ascii_of 34) =? 34) with true. cbn match. rewrite scan_string_escape.
  change (skip_ws (String ":" s)) with (String ":" s). cbn [first_is tail].
  change (byte_of ":" =? 58) with true. cbn match. by rewrite H, Hk.
Qed.

Lemma scan_members_more f k s v t acc :
  ~ In k (keys acc) -> scan f (skip_ws s) = Some (v, String "," t) ->
  scan_members (S f) (quote k +:+ String ":" s) acc =
  scan_members f (skip_ws t) (dict_set k v acc).
Proof.
  intros Hk H. apply strict_fresh in Hk. unfold quote. rewrite !append_assoc.
  change (chr 34 +:+ ?x) with (String (ascii_of 34) x) at 1. rewrite scan_members_S. cbn [first_is tail].
  change (byte_of (ascii_of 34) =? 34) with true. cbn match. rewrite scan_string_escape.
  change (skip_ws (String ":" s)) with (String ":" s). cbn [first_is tail].
  change (byte_of ":" =? 58) with true. cbn match. rewrite H, Hk.
  change (skip_ws (String "," t)) with (String "," t). cbn [first_is tail].
  change (byte_of "," =? 44) with true. done.
Qed.

Lemma entry_start kv : first_is value_start (entry float_repr kv) = true.
Proof. done. Qed.

Lemma entry_append kv r :
  entry float_repr kv +:+ r = quote (fst kv) +:+ String ":" (dump (snd kv) +:+ r).
Proof. unfold entry. by rewrite !append_assoc. Qed.

Definition canon_entry (kv : string * pyval) : string * pyval := (fst kv, canon (snd kv)).

(** The entries of a non-empty object, up to the closing brace. *)
Lemma scan_members_join d f r acc :
  d <> [] -> Forall (fun kv => json_ok (snd kv) = true /\ reads (snd kv)) d -> NoDup (keys acc ++ keys d) ->
  (S (String.length (join (map (entry float_repr) d))) <= f)%nat ->
  scan_members f (join (map (entry float_repr) d) +:+ "}" +:+ r) acc =
    Some (dict_update acc (map canon_entry d), r).
Proof.
  intros Hl HF. revert f acc. induction HF as [|x l [Hj Hx] HF IH]; [done|]. intros f acc Hnd Hf.
  assert (Hlen : (String.length (dump (snd x)) < String.length (entry float_repr x))%nat).
  { unfold entry. rewrite !length_append. cbn. lia. }
  assert (Hk : ~ In (fst x) (keys acc)).
  { intros Hk. apply NoDup_app in Hnd as (_ & Hnd & _). apply (Hnd (fst x)); [by apply list_elem_of_In|]. by left. }
  destruct f as [|f]; [lia|]. destruct l as [|y l].
  - cbn [map join] in *. rewrite entry_append.
    apply scan_members_last; [done|]. rewrite skip_ws_start by by apply dumps_start. apply Hx; [lia|done].
  - change (join (map (entry float_repr) (x :: y :: l))) with
      (entry float_repr x +:+ "," +:+ join (map (entry float_repr) (y :: l))) in *.
    rewrite !append_assoc, entry_append. rewrite !length_append in Hf. cbn [String.length] in Hf.
    erewrite scan_members_more; [|done|].
    2:{ rewrite skip_ws_start by by apply dumps_start. apply Hx; [lia|done]. }
    rewrite ?append_nil_l, skip_ws_start by (apply join_start, entry_start).
    rewrite IH; [done..| |lia]. rewrite dict_set_fresh by done. unfold keys in *.
    by rewrite map_app, <- app_assoc.
Qed.

Lemma reads_list l :
  json_ok (VList l) = true -> Forall (fun v => json_ok v = true -> reads v) l -> reads (VList l).
Proof.
  intros Hok IH f r Hf Hr. cbn in Hok. rewrite forallb_forall in Hok.
  assert (HF : Forall (fun v => json_ok v = true /\ reads v) l).
  { rewrite Forall_forall in IH |- *. intros x Hx. apply list_elem_of_In in Hx as Hin. auto. }
  cbn [dumps canon] in *. rewrite !length_append in Hf. cbn in Hf. rewrite !append_assoc.
  change ("[" +:+ ?t) with (String "[" t). destruct f as [|f]; [lia|]. cbn [scan_value].
  change (byte_of "[" =? 34) with false. change (byte_of "[" =? 123) with false.
  change (byte_of "[" =? 91) with true. cbn match zeta.
  destruct l as [|x l]; [done|]. inversion HF as [|? ? [Hx _] _]; subst.
  pose proof (join_start dump x l (dumps_start _ x Hx)) as Hs.
  rewrite skip_ws_start by done. rewrite first_is_app by by destruct (join _).
  destruct (join (map dump (x :: l))) as [|c t] eqn:E; [done|]. cbn [first_is] in Hs |- *.
  unfold value_start in Hs. apply andb_true_iff in Hs as [_ Hs]. rewrite negb_true_iff in Hs.
  rewrite Hs, <- E, scan_items_join; [done..|]. rewrite E in *. cbn in *. lia.
Qed.

Lemma reads_dict d :
  json_ok (VDict d) = true -> Forall (fun kv => json_ok (snd kv) = true -> reads (snd kv)) d ->
  reads (VDict d).
Proof.
  intros Hok IH f r Hf Hr. cbn in Hok. apply andb_true_iff in Hok as [Hnd%bool_decide_eq_true Hok].
  rewrite forallb_forall in Hok.
  assert (HF : Forall (fun kv => json_ok (snd kv) = true /\ reads (snd kv)) (sort_items d)).
  { rewrite sort_items_perm. rewrite Forall_forall in IH |- *. intros x Hx.
    apply list_elem_of_In in Hx as Hin. auto. }
  rewrite dumps_dict in *. cbn [canon]. rewrite (sort_items_map canon).
  rewrite !length_append in Hf. cbn in Hf. rewrite !append_assoc.
  change ("{" +:+ ?t) with (String "{" t). destruct f as [|f]; [lia|]. cbn [scan_value].
  change (byte_of "{" =? 34) with false. change (byte_of "{" =? 123) with true. cbn match zeta.
  apply NoDup_sort_items in Hnd. destruct (sort_items d) as [|x l]; [done|].
  assert (Hs : exists t, join (map (entry float_repr) (x :: l)) = String (ascii_of 34) t).
  { destruct l; cbn; unfold entry, quote; rewrite ?append_assoc; by eexists. }
  destruct Hs as [t Ht]. rewrite skip_ws_start by (by rewrite Ht).
  rewrite first_is_app by by rewrite Ht. rewrite Ht at 1. cbn [first_is].
  change (byte_of (ascii_of 34) =? 125) with false. cbn match.
  rewrite scan_members_join; [|done..|rewrite Ht in *; cbn in *; lia].
  rewrite dict_update_fresh; [done|]. cbn [app]. unfold keys, canon_entry in *.
  by rewrite map_map.
Qed.

Lemma reads_all v : json_ok v = true -> reads v.
Proof.
  induction v as [| b | z | x | s | s | l IH | d IH] using pyval_ind'; intros Hok;
    [..| by apply reads_list | by apply reads_dict]; intros f r Hf Hr; try done.
  - cbn in Hf. destruct f; [lia|]. apply (scan_const "null"). by left.
  - destruct f; [destruct b; cbn in Hf; lia|].
    destruct b; [apply (scan_const "true")|apply (scan_const "false")]; cbn; auto.
  - destruct f; [|by apply scan_int]. pose proof (dec_start z). cbn in *.
    destruct (dec z); cbn in *; [done|lia].
  - destruct f; [|apply scan_quote].
    cbn in Hf. unfold quote in Hf. rewrite length_append in Hf. cbn in Hf. lia.
Qed.

(** [json.loads(json.dumps(v, sort_keys=True))] is [v] with its keys sorted. *)
Lemma load_dumps v : json_ok v = true -> load_text parse_float strict (dump v) = Ok (canon v).
Proof.
  intros Hok. unfold load_text. pose proof (dumps_start float_repr v Hok) as Hs.
  rewrite <- (append_nil_r (dump v)). rewrite skip_ws_start by done.
  rewrite (reads_all v Hok); [done|rewrite append_nil_r; lia|done].
Qed.
End roundtrip.

Lemma loads_dumps parse_float float_repr v :
  json_ok v = true -> loads parse_float (dumps float_repr v) = Ok (canon v).
Proof. apply load_dumps. Qed.

Lemma strict_loads_dumps parse_float float_repr v :
  json_ok v = true -> strict_loads parse_float (dumps float_repr v) = Ok (canon v).
Proof. apply load_dumps. Qed.

(** ** The characters of an encoded document *)

(** [q] on every string of a document. *)
Fixpoint strings_ok (q : string -> bool) (v : pyval) : bool :=
  match v with
  | VStr s => q s
  | VList l => forallb (strings_ok q) l
  | VDict d => forallb (fun kv => q (fst kv) && strings_ok q (snd kv)) d
  | _ => true
  end.

(** The characters JSON needs besides those of its strings. *)
Definition syntax_char (c : Ascii.ascii) : bool := (32 <=? byte_of c) && (byte_of c <? 127).

Section characters.
Variables (p : Ascii.ascii -> bool) (q : string -> bool).
Hypothesis p_syntax : forall c, syntax_char c = true -> p c = true.

Lemma syntax_all s : str_forall syntax_char s = true -> str_forall p s = true.
Proof. by apply str_forall_weaken. Qed.

Lemma hex_digit_syntax z : 0 <= z < 16 -> syntax_char (hex_digit z) = true.
Proof. intros Hz. unfold syntax_char. rewrite byte_of_hex_digit by done. destruct (Z.ltb_spec z 10); lia. Qed.

(** An escape is made of syntax, or the character stands for itself. *)
Lemma escape_char_forall c : (32 <= byte_of c -> p c = true) -> str_forall p (escape_char c) = true.
Proof.
  intros Hc. unfold escape_char. destruct (nibbles c) as [N1 N2].
  repeat match goal with |- context [if ?b then _ else _] => destruct b eqn:? end; try by apply syntax_all.
  - apply syntax_all. rewrite !str_forall_app. cbn [str_forall]. by rewrite !hex_digit_syntax.
  - cbn. rewrite Hc; [done|lia].
Qed.

Lemma dec_forall z : str_forall p (dec z) = true.
Proof.
  assert (Hd : forall n, 0 <= n -> str_forall p (dec_nonneg n) = true).
  { intros n Hn. pose proof (dec_nonneg_ok n Hn) as Hd. eapply str_forall_weaken; [|apply Hd].
    intros c Hc. apply p_syntax. unfold is_digit, in_range, syntax_char in *. lia. }
  unfold dec. destruct (Z.ltb_spec z 0); [|by apply Hd]. rewrite str_forall_app, Hd by lia.
  by rewrite syntax_all.
Qed.

Lemma join_forall l : Forall (fun s => str_forall p s = true) l -> str_forall p (join l) = true.
Proof.
  induction 1 as [|s l Hs Hl IH]; [done|]. destruct l as [|t l]; [done|].
  change (join (s :: t :: l)) with (s +:+ "," +:+ join (t :: l)).
  rewrite !str_forall_app, Hs, IH. by rewrite syntax_all.
Qed.

Hypothesis q_escape : forall s, q s = true -> str_forall p (escape s) = true.

Lemma quote_forall s : q s = true -> str_forall p (quote s) = true.
Proof. intros Hs. unfold quote. rewrite !str_forall_app, q_escape by done. by rewrite syntax_all. Qed.

Lemma dumps_forall fr v :
  (forall f, str_forall p (fr f) = true) -> strings_ok q v = true -> str_forall p (dumps fr v) = true.
Proof.
  intros Hfr. induction v as [|[]|z|f|s|s|l IH|d IH] using pyval_ind'; cbn [strings_ok]; intros Ha;
    try (by apply syntax_all); [apply dec_forall|apply Hfr|by apply quote_forall| |].
  - cbn [dumps]. rewrite !str_forall_app, join_forall; [by rewrite !syntax_all|].
    apply Forall_fmap. rewrite forallb_forall in Ha. rewrite Forall_forall in IH |- *. intros x Hx. cbn.
    apply IH; [done|apply Ha]; by apply list_elem_of_In.
  - rewrite dumps_dict, !str_forall_app, join_forall; [by rewrite !syntax_all|].
    apply Forall_fmap. rewrite forallb_forall in Ha. rewrite Forall_forall in IH |- *.
    intros kv Hkv. rewrite sort_items_perm in Hkv. cbn. unfold entry.
    specialize (Ha kv (proj1 (list_elem_of_In _ _) Hkv)). apply andb_true_iff in Ha as [Ha1 Ha2].
    rewrite !str_forall_app, quote_forall, IH by done. by rewrite syntax_all.
Qed.
End characters.
