(* ===== verification/Canonical.v ===== *)
(** * Canonical JSON: agent_probe/canonical.py

    The canonical encoder over [json.dumps].  The main results: loading a
    canonical document gives back the document with its keys sorted, so two
    documents with the same bytes are the same document. *)

From stdpp Require Import base list strings.
From Stdlib Require Import ZArith Lia.
From S2P Require Import Prelude PyValue Sha256 Json JsonFacts.

Local Open Scope Z_scope.

Module Canonical.

Definition MAX_SAFE_INTEGER : Z := Z.shiftl 1 53 - 1.

Definition invalid {A} (path msg : string) : res A :=
  Err (CanonicalizationError (path +:+ ": " +:+ msg)).

(** The name [type(value).__name__] of a value that is not JSON. *)
Definition type_name (v : pyval) : string :=
  match v with VBytes _ => "bytes" | _ => "object" end.

(** A string must encode as strict UTF-8. *)
Definition validate_str (s path : string) : res unit :=
  if has_surrogate s then invalid path "invalid Unicode scalar value" else Ok tt.

Fixpoint _validate (value : pyval) (path : string) : res unit :=
  match value with
  | VNone | VBool _ => Ok tt
  | VStr s => validate_str s path
  | VInt z =>
      if in_range (- MAX_SAFE_INTEGER) MAX_SAFE_INTEGER z then Ok tt
      else invalid path "integer outside exact JSON number range"
  | VFloat _ => invalid path "floating-point values are forbidden"
  | VList l =>
      (fix items (index : Z) l : res unit :=
         match l with
         | [] => Ok tt
         | item :: r =>
             let* _ := _validate item (path +:+ "[" +:+ dec index +:+ "]") in
             items (index + 1) r
         end) 0 l
  | VDict d =>
      (fix entries d : res unit :=
         match d with
         | [] => Ok tt
         | (key, item) :: r =>
             let* _ := validate_str key (path +:+ ".<key>") in
             let* _ := _validate item (path +:+ "." +:+ key) in
             entries r
         end) d
  | VBytes _ => invalid path ("unsupported JSON type " +:+ type_name value)
  end.

(** No float reaches the encoder, so its float branch is dead. *)
Definition encode : pyval -> string := dumps (fun _ => "").

Definition canonical_bytes (value : pyval) : res string :=
  let* _ := _validate value "$" in Ok (encode value).

Definition sha256_hex (value : pyval) : res string :=
  let* b := canonical_bytes value in Ok (hexdigest b).

(** ** What is accepted, and what the bytes determine *)

(** Strings encodable, integers exactly representable, nothing else but
    containers of such values. *)
Fixpoint in_domain (v : pyval) : bool :=
  match v with
  | VNone | VBool _ => true
  | VStr s => negb (has_surrogate s)
  | VInt z => in_range (- MAX_SAFE_INTEGER) MAX_SAFE_INTEGER z
  | VFloat _ | VBytes _ => false
  | VList l => forallb in_domain l
  | VDict d => forallb (fun kv => negb (has_surrogate (fst kv)) && in_domain (snd kv)) d
  end.

Lemma validate_domain v path : _validate v path = Ok tt <-> in_domain v = true.
Proof.
  revert path. induction v as [| b | z | x | s | s | l IH | d IH] using pyval_ind'; intros path;
    cbn; try done.
  - by destruct (in_range _ _ _).
  - unfold validate_str. by destruct (has_surrogate s).
  - generalize 0 as i. induction IH as [|x l Hx _ IHl]; intros i; cbn; [done|].
    rewrite bind_ok, andb_true_iff, <- (IHl (i + 1)). split.
    + intros ([] & H1 & H2). split; [by eapply Hx|done].
    + intros [H1 H2]. exists tt. split; [by apply Hx|done].
  - induction IH as [|[k x] d Hx _ IHd]; cbn; [done|]. unfold validate_str.
    destruct (has_surrogate k); [done|]. cbn.
    rewrite andb_true_iff, <- IHd. fold (@mbind res _ unit unit). cbn in Hx.
    rewrite bind_ok. split.
    + intros ([] & H1 & H2). split; [by eapply Hx|done].
    + intros [H1 H2]. exists tt. split; [by apply Hx|done].
Qed.

(** Every refusal is a [CanonicalizationError]. *)
Lemma validate_error v path e :
  _validate v path = Err e -> exists msg, e = CanonicalizationError msg.
Proof.
  revert path e. induction v as [| b | z | x | s | s | l IH | d IH] using pyval_ind';
    intros path e; cbn; try done; unfold validate_str, invalid.
  - destruct (in_range _ _ _); [done|]. intros [= <-]. eauto.
  - intros [= <-]. eauto.
  - destruct (has_surrogate s); [|done]. intros [= <-]. eauto.
  - intros [= <-]. eauto.
  - generalize 0 as i. induction IH as [|x l Hx _ IHl]; intros i; cbn; [done|].
    destruct (_validate x _) as [[]|e'] eqn:E; cbn; [apply IHl|]. intros [= <-]. by eapply Hx.
  - induction IH as [|[k x] d Hx _ IHd]; cbn; [done|].
    destruct (has_surrogate k); cbn; [intros [= <-]; eauto|].
    destruct (_validate x _) as [[]|e'] eqn:E; cbn; [apply IHd|]. intros [= <-]. by eapply Hx.
Qed.

Lemma domain_json_ok v : wf_val v = true -> in_domain v = true -> json_ok v = true.
Proof.
  induction v as [| b | z | x | s | s | l IH | d IH] using pyval_ind'; cbn; try done.
  - unfold in_range, MAX_SAFE_INTEGER. rewrite Z.shiftl_mul_pow2 by done. lia.
  - rewrite !forallb_forall. rewrite Forall_forall in IH. intros H1 H2 x Hx.
    apply IH; [by apply list_elem_of_In|auto..].
  - rewrite !andb_true_iff, !forallb_forall. rewrite Forall_forall in IH. intros [Hn H1] H2.
    split; [done|]. intros x Hx. specialize (H2 x Hx). apply andb_true_iff in H2 as [_ H2].
    apply IH; [by apply list_elem_of_In|auto..].
Qed.

Lemma canonical_bytes_ok v s :
  canonical_bytes v = Ok s <-> in_domain v = true /\ s = encode v.
Proof.
  unfold canonical_bytes. rewrite bind_ok. rewrite <- (validate_domain v "$").
  split; [intros ([] & H1 & H2); run_inv; auto | intros [H ->]; by exists tt].
Qed.

Lemma canon_json_ok_eq v w :
  json_ok v = true -> json_ok w = true -> encode v = encode w -> canon v = canon w.
Proof.
  intros Hv Hw H%(f_equal (loads (fun _ => FNan))). unfold encode in H.
  rewrite !loads_dumps in H by done. by simplify_eq.
Qed.

(** The encoder does not see the order of keys. *)
Lemma encode_canon v : encode (canon v) = encode v.
Proof.
  unfold encode. induction v as [| b | z | x | s | s | l IH | d IH] using pyval_ind'; try done.
  - cbn. do 3 f_equal. rewrite map_map. apply map_ext_in. intros x Hx.
    rewrite Forall_forall in IH. by apply IH, list_elem_of_In.
  - cbn [canon]. rewrite !dumps_dict. do 3 f_equal. rewrite sort_items_idemp, sort_items_map.
    rewrite map_map. apply map_ext_in. intros x Hx. unfold entry. cbn. do 2 f_equal.
    rewrite Forall_forall in IH. apply IH.
    apply list_elem_of_In in Hx. by rewrite sort_items_perm in Hx.
Qed.

(** Two documents with the same sorted form are equal in Python. *)
Lemma canon_py_eq v w :
  json_ok v = true -> json_ok w = true -> canon v = canon w -> py_eq v w = true.
Proof.
  revert w. induction v as [| b | z | x | s | s | l IH | d IH] using pyval_ind';
    intros [] Hv Hw H; cbn in H; try done; try (injection H as <-).
  - by destruct b.
  - cbn. lia.
  - cbn. apply String.eqb_refl.
  - rename l0 into m. cbn in Hv, Hw. apply py_eq_list. injection H as H. revert m Hw H.
    induction IH as [|x l Hx _ IHl]; intros [|y m] Hw H; cbn in *; try done.
    injection H as Hxy H. run_inv. constructor; [by apply Hx | by apply IHl].
  - rename d0 into e. injection H as H.
    assert (HP : map (fun kv => (fst kv, canon (snd kv))) d ≡ₚ
                 map (fun kv => (fst kv, canon (snd kv))) e).
    { rewrite <- sort_items_perm, H. by rewrite sort_items_perm. }
    rewrite py_eq_dict. cbn in Hv, Hw. run_inv. rewrite bool_decide_eq_true in *.
    rewrite (proj2 (Nat.eqb_eq _ _)) by (apply Permutation_length in HP; by rewrite !length_map in HP).
    cbn [andb]. rewrite forallb_forall in *. intros [k v] Hin. cbn.
    assert (Hk : (k, canon v) ∈ map (fun kv => (fst kv, canon (snd kv))) e).
    { rewrite <- HP. apply list_elem_of_In, in_map_iff. by exists (k, v). }
    apply list_elem_of_In, in_map_iff in Hk as ([k' w] & Heq & Hwin). cbn in Heq. simplify_eq.
    rewrite (assoc_NoDup e k w) by done. rewrite Forall_forall in IH.
    apply (IH (k, v)); [by apply list_elem_of_In | by apply (Hv (k, v)) | by apply (Hw (k, w)) | done].
Qed.

Lemma sha256_hex_ok v h : sha256_hex v = Ok h <-> in_domain v = true /\ h = hexdigest (encode v).
Proof.
  unfold sha256_hex. rewrite bind_ok. setoid_rewrite canonical_bytes_ok.
  split; [intros (b & [H ->] & H2); run_inv; auto | intros [H ->]; by exists (encode v)].
Qed.

Lemma sha256_hex_digest v h : sha256_hex v = Ok h -> hex_string 64 h = true.
Proof. intros [_ ->]%sha256_hex_ok. auto with py. Qed.

Lemma forallb_perm {A} (p : A -> bool) l l' : l ≡ₚ l' -> forallb p l = forallb p l'.
Proof. induction 1; cbn; try congruence. by rewrite !andb_assoc, (andb_comm (p x)). Qed.

Lemma forallb_map {A B} (p : B -> bool) (f : A -> B) l : forallb p (map f l) = forallb (fun x => p (f x)) l.
Proof. induction l as [|x l IH]; cbn; [done|]. by rewrite IH. Qed.

Lemma in_domain_canon v : in_domain (canon v) = in_domain v.
Proof.
  induction v as [| | | | | |l IH|d IH] using pyval_ind'; try done; cbn [canon in_domain].
  - rewrite forallb_map. induction IH as [|x l Hx _ IHl]; cbn; [done|]. by rewrite Hx, IHl.
  - rewrite (forallb_perm _ _ _ (sort_items_perm _)), forallb_map. cbn [fst snd].
    induction IH as [|x l Hx _ IHl]; cbn; [done|]. by rewrite Hx, IHl.
Qed.

(** A canonical document re-encodes to the bytes it was read from. *)
Lemma canonical_bytes_canon v : in_domain v = true -> canonical_bytes (canon v) = Ok (encode v).
Proof.
  intros Hv. apply canonical_bytes_ok. by rewrite in_domain_canon, encode_canon.
Qed.

(** Two different byte strings with the same SHA-256 digest. *)
Definition sha256_collision (a b : string) : Prop := a <> b /\ hexdigest a = hexdigest b.

(** Equal digests mean equal documents, or a collision between their encodings. *)
Lemma sha256_hex_binding v w h :
  wf_val v = true -> wf_val w = true -> sha256_hex v = Ok h -> sha256_hex w = Ok h ->
  canon v = canon w \/ sha256_collision (encode v) (encode w).
Proof.
  intros Hv Hw [Dv ->]%sha256_hex_ok [Dw H]%sha256_hex_ok.
  destruct (decide (encode v = encode w)) as [E|E]; [left|right; by split].
  by apply canon_json_ok_eq; [apply domain_json_ok.. |].
Qed.

(** A document is accepted by [canonical_bytes] exactly when it holds only
    nulls, booleans, encodable strings, integers of at most 53 bits and
    containers of those; anything else is refused with a
    [CanonicalizationError], never another exception. *)
Theorem canonical_bytes_total (v : pyval) :
  if in_domain v then canonical_bytes v = Ok (encode v)
  else exists msg, canonical_bytes v = Err (CanonicalizationError msg).
Proof.
  destruct (in_domain v) eqn:E; [by apply canonical_bytes_ok|].
  unfold canonical_bytes. assert (Hne : _validate v "$" <> Ok tt).
  { rewrite validate_domain. by rewrite E. }
  destruct (_validate v "$") as [[]|e] eqn:Ev; [done|]. clear Hne E. cbn.
  apply validate_error in Ev as [msg ->]. by eauto.
Qed.

(** C37: Reading back canonical bytes gives the signed document with the keys of
    its objects sorted, for any document whose dicts do not repeat a key. *)
Theorem canonical_roundtrip (parse_float : string -> pyfloat) (v : pyval) (s : string) :
  wf_val v = true -> canonical_bytes v = Ok s -> loads parse_float s = Ok (canon v).
Proof.
  intros Hv [Dv ->]%canonical_bytes_ok. apply loads_dumps. by apply domain_json_ok.
Qed.

(** The canonical bytes determine the document and do not depend on key
    order: two documents have the same bytes exactly when they agree after
    sorting their keys, and then Python's [==] holds between them. *)
Theorem canonical_bytes_determine (v w : pyval) (s : string) :
  wf_val v = true -> wf_val w = true -> canonical_bytes v = Ok s -> in_domain w = true ->
  (canonical_bytes w = Ok s <-> canon v = canon w) /\
  (canonical_bytes w = Ok s -> py_eq v w = true).
Proof.
  intros Hv Hw [Dv ->]%canonical_bytes_ok Dw.
  assert (Heq : canonical_bytes w = Ok (encode v) <-> canon v = canon w).
  { rewrite canonical_bytes_ok. split.
    - intros [_ E]. by apply canon_json_ok_eq; [apply domain_json_ok.. |].
    - intros E. split; [done|]. by rewrite <- encode_canon, E, encode_canon. }
  split; [done|]. intros H%Heq. by apply canon_py_eq; [apply domain_json_ok.. |].
Qed.

Definition sample : pyval :=
  VDict [("b", VList [VInt (-7); VBool true; VNone]); ("a", VStr "x")].
Definition sample_sorted : pyval :=
  VDict [("a", VStr "x"); ("b", VList [VInt (-7); VBool true; VNone])].

Lemma canonical_roundtrip_witness :
  loads (fun _ => FNan) (encode sample) = Ok sample_sorted.
Proof. apply (canonical_roundtrip _ sample); reflexivity. Defined.

Lemma canonical_bytes_determine_witness : py_eq sample sample_sorted = true.
Proof.
  apply (canonical_bytes_determine sample sample_sorted (encode sample)); reflexivity.
Defined.

End Canonical.
