(* ===== verification/StrOps.v ===== *)
(** * str methods the sources use on URLs, hosts and authorities *)

From stdpp Require Import base list strings.
From Stdlib Require Import ZArith Lia.
From S2P Require Import Prelude.

Local Open Scope Z_scope.

Definition ch (z : Z) (c : Ascii.ascii) : bool := byte_of c =? z.
#[global] Arguments ch : simpl never.

(** [chr in s] *)
Definition has_char (z : Z) (s : string) : bool := str_exists (ch z) s.

(** [s.partition(c)]: before, whether found, after. *)
Fixpoint partition (z : Z) (s : string) : string * bool * string :=
  match s with
  | EmptyString => ("", false, "")
  | String c r =>
      if ch z c then ("", true, r)
      else let '(b, f, a) := partition z r in (String c b, f, a)
  end.

(** [s.rpartition(c)]: [("", False, s)] when [c] does not occur. *)
Fixpoint rpartition (z : Z) (s : string) : string * bool * string :=
  match s with
  | EmptyString => ("", false, "")
  | String c r =>
      let '(b, f, a) := rpartition z r in
      if f then (String c b, true, a)
      else if ch z c then ("", true, r) else ("", false, String c r)
  end.

(** [s.split(c)] *)
Fixpoint split (z : Z) (s : string) : list string :=
  match s with
  | EmptyString => [""]
  | String c r =>
      match split z r with
      | [] => [""]
      | p :: ps => if ch z c then "" :: p :: ps else String c p :: ps
      end
  end.

Fixpoint count_char (z : Z) (s : string) : Z :=
  match s with
  | EmptyString => 0
  | String c r => (if ch z c then 1 else 0) + count_char z r
  end.

(** [s.endswith(p)] *)
Fixpoint endswith (p s : string) : bool :=
  String.eqb p s ||
  match s with EmptyString => false | String _ r => endswith p r end.

Fixpoint str_map (f : Ascii.ascii -> Ascii.ascii) (s : string) : string :=
  match s with EmptyString => "" | String c r => String (f c) (str_map f r) end.

Definition lower_char (c : Ascii.ascii) : Ascii.ascii :=
  if is_upper c then ascii_of (byte_of c + 32) else c.
Definition upper_char (c : Ascii.ascii) : Ascii.ascii :=
  if is_lower c then ascii_of (byte_of c - 32) else c.

(** [s.lower()], [s.upper()] on ASCII text *)
Definition ascii_lower (s : string) : string := str_map lower_char s.
Definition ascii_upper (s : string) : string := str_map upper_char s.

(** The longest prefix whose characters satisfy [p], and the rest. *)
Fixpoint span (p : Ascii.ascii -> bool) (s : string) : string * string :=
  match s with
  | EmptyString => ("", "")
  | String c r => if p c then let '(a, b) := span p r in (String c a, b) else ("", s)
  end.

(** [s[:n]] of a [str]: the first [n] characters. *)
Fixpoint py_take (n : nat) (s : string) : string :=
  match s with
  | EmptyString => ""
  | String c r =>
      if in_range 128 191 (byte_of c) then String c (py_take n r)
      else match n with O => "" | S m => String c (py_take m r) end
  end.

(** [b.strip()] of [bytes]: ASCII white space at both ends. *)
Definition is_space (c : Ascii.ascii) : bool := (byte_of c =? 32) || in_range 9 13 (byte_of c).
Fixpoint lstrip (s : string) : string :=
  match s with
  | String c r => if is_space c then lstrip r else s
  | EmptyString => ""
  end.
Fixpoint rstrip (s : string) : string :=
  match s with
  | EmptyString => ""
  | String c r =>
      match rstrip r with
      | EmptyString => if is_space c then "" else String c ""
      | r' => String c r'
      end
  end.
Definition strip (s : string) : string := rstrip (lstrip s).

(** [s[:n]] of [bytes], or of ASCII text *)
Definition slice (n : nat) (s : string) : string := String.substring 0 n s.

(** ** Lemmas *)
Lemma partition_found z s b a : partition z s = (b, true, a) -> s = b +:+ String (ascii_of z) a.
Proof.
  revert b. induction s as [|c s IH]; intros b; cbn; [done|]. destruct (ch z c) eqn:E.
  - intros [= <- <-]. apply Z.eqb_eq in E. by rewrite <- E, ascii_of_byte_of.
  - destruct (partition z s) as [[b' f] a'] eqn:Ep. intros [= <- -> ->].
    rewrite append_cons. f_equal. by apply IH.
Qed.

Lemma partition_absent z s : has_char z s = false -> partition z s = (s, false, "").
Proof.
  unfold has_char. induction s as [|c s IH]; cbn; [done|]. intros [H1 H2]%orb_false_iff.
  by rewrite H1, IH.
Qed.

Lemma partition_app z s t :
  0 <= z < 256 -> has_char z s = false -> partition z (s +:+ String (ascii_of z) t) = (s, true, t).
Proof.
  intros Hz H. unfold has_char in H. induction s as [|c s IH]; cbn in *.
  - rewrite append_nil_l. cbn. unfold ch. by rewrite byte_of_ascii_of, Z.eqb_refl.
  - apply orb_false_iff in H as [H1 H2]. rewrite append_cons. cbn. by rewrite H1, IH.
Qed.

Lemma rpartition_app z s t :
  0 <= z < 256 -> has_char z t = false -> rpartition z (s +:+ String (ascii_of z) t) = (s, true, t).
Proof.
  intros Hz Ht. induction s as [|c s IH].
  - rewrite append_nil_l. cbn [rpartition]. assert (rpartition z t = ("", false, t)) as ->.
    { clear -Ht. unfold has_char in Ht. induction t as [|c t IH]; cbn in *; [done|].
      apply orb_false_iff in Ht as [H1 H2]. by rewrite IH, H1. }
    unfold ch. by rewrite byte_of_ascii_of, Z.eqb_refl.
  - rewrite append_cons. cbn [rpartition]. by rewrite IH.
Qed.

Lemma count_char_app z s t : count_char z (s +:+ t) = count_char z s + count_char z t.
Proof. induction s as [|c s IH]; [done|]. rewrite append_cons. cbn. rewrite IH. lia. Qed.

Lemma count_char_absent z s : has_char z s = false -> count_char z s = 0.
Proof.
  unfold has_char. induction s as [|c s IH]; cbn; [done|]. intros [-> H2]%orb_false_iff. by rewrite IH.
Qed.

Lemma rpartition_absent z s : has_char z s = false -> rpartition z s = ("", false, s).
Proof.
  unfold has_char. induction s as [|c s IH]; cbn; [done|]. intros [H1 H2]%orb_false_iff.
  by rewrite IH, H1.
Qed.

Lemma str_exists_app p s t : str_exists p (s +:+ t) = str_exists p s || str_exists p t.
Proof.
  induction s as [|c s IH]; [done|]. rewrite append_cons. cbn. by rewrite IH, orb_assoc.
Qed.

Lemma has_char_app z s t : has_char z (s +:+ t) = has_char z s || has_char z t.
Proof. apply str_exists_app. Qed.

(** No character that satisfies [p] is the character [z]. *)
Lemma has_char_forall (p : Ascii.ascii -> bool) z s :
  (forall c, p c = true -> ch z c = false) -> str_forall p s = true -> has_char z s = false.
Proof.
  intros Hp. unfold has_char. induction s as [|c s IH]; cbn; [done|].
  intros [H1 H2]%andb_true_iff. by rewrite Hp, IH.
Qed.

Lemma str_forall_map f p s :
  str_forall p (str_map f s) = str_forall (fun c => p (f c)) s.
Proof. induction s as [|c s IH]; cbn; [done|]. by rewrite IH. Qed.

Lemma str_map_id f s : str_forall (fun c => Ascii.eqb (f c) c) s = true -> str_map f s = s.
Proof.
  induction s as [|c s IH]; cbn; [done|]. intros [H1%Ascii.eqb_eq H2]%andb_true_iff.
  by rewrite H1, IH.
Qed.

Lemma length_str_map f s : String.length (str_map f s) = String.length s.
Proof. induction s; cbn; lia. Qed.

Lemma split_join z s p ps :
  split z s = p :: ps -> has_char z p = false.
Proof.
  revert p ps. induction s as [|c s IH]; cbn; intros p ps; [by intros [= <- <-]|].
  destruct (split z s) as [|q qs] eqn:E; [by intros [= <- <-]|].
  destruct (ch z c) eqn:Ec; intros [= <- <-]; [done|]. cbn. unfold has_char. cbn.
  rewrite Ec. by eapply IH.
Qed.

Lemma slice_ascii n s : isascii s = true -> isascii (slice n s) = true.
Proof.
  unfold isascii, slice. revert n. induction s as [|c s IH]; intros [|n]; cbn; try done.
  intros [-> Hs]%andb_true_iff. by apply IH.
Qed.

Lemma slice_hex n m s : (n <= m)%nat -> hex_string m s = true -> hex_string n (slice n s) = true.
Proof.
  unfold hex_string, slice. intros Hn [Hl%Nat.eqb_eq Hs]%andb_true_iff. subst m.
  revert n Hn. induction s as [|c s IH]; intros [|n] Hn; cbn in *; try done; [lia|].
  apply andb_true_iff in Hs as [-> Hs]. apply IH; [done|lia].
Qed.

Lemma slice_all n s : (String.length s <= n)%nat -> slice n s = s.
Proof.
  unfold slice. revert n. induction s as [|c s IH]; intros [|n] Hn; cbn in *; try done; [lia|].
  rewrite IH by lia. done.
Qed.

Lemma slice_long n s : (n <= String.length s)%nat -> String.length (slice n s) = n.
Proof.
  unfold slice. revert n. induction s as [|c s IH]; intros [|n] Hn; cbn in *; try done; [lia|].
  rewrite IH by lia. done.
Qed.

Lemma substring_prefix p x t :
  String.substring (String.length p) (String.length x) (p +:+ x +:+ t) = x.
Proof.
  induction p as [|c p IH]; [|rewrite append_cons; exact IH].
  rewrite append_nil_l. cbn [String.length]. induction x as [|c x IH]; [by destruct t|].
  rewrite append_cons. cbn. by rewrite IH.
Qed.

(** ** Lengths in characters *)
Lemma py_len_ascii s : isascii s = true -> py_len s = Z.of_nat (String.length s).
Proof.
  unfold isascii. induction s as [|c s IH]; [done|]. cbn [str_forall py_len String.length].
  intros [Hc Hs]%andb_true_iff. rewrite IH by done. unfold in_range.
  destruct (Z.leb_spec 128 (byte_of c)); [lia|]. cbn. lia.
Qed.

Lemma py_len_app s t : py_len (s +:+ t) = py_len s + py_len t.
Proof. induction s as [|c s IH]; [done|]. rewrite append_cons. cbn. rewrite IH. lia. Qed.

Lemma py_len_nonneg s : 0 <= py_len s.
Proof. induction s as [|c s IH]; cbn; [lia|]. destruct (in_range 128 191 (byte_of c)); lia. Qed.

Lemma py_len_take n s : py_len (py_take n s) <= Z.of_nat n.
Proof.
  revert n. induction s as [|c s IH]; intros n; cbn [py_take]; [cbn; lia|].
  destruct (in_range 128 191 (byte_of c)) eqn:E.
  - cbn [py_len]. rewrite E. apply IH.
  - destruct n as [|n]; [cbn; lia|]. cbn [py_len]. rewrite E. specialize (IH n). lia.
Qed.
