(* ===== verification/Ip.v ===== *)
(** * ipaddress.ip_address: textual IPv4 and IPv6 addresses

    The parsers of the standard library's [ipaddress] module, as the contract
    uses them to refuse IP literals as host names. *)

From stdpp Require Import base list strings.
From Stdlib Require Import ZArith Lia.
From S2P Require Import Prelude Sha256 Json StrOps.

Local Open Scope Z_scope.

Inductive ip := V4 (a : Z) | V6 (a : Z) (scope : option string).

(** [IPv4Address._parse_octet] *)
Definition parse_octet (s : string) : option Z :=
  if String.eqb s "" || negb (str_forall is_digit s) || (3 <? String.length s)%nat ||
     (negb (String.eqb s "0") && first_is (ch 48) s)
  then None
  else let n := digits_value 0 s in if 255 <? n then None else Some n.

(** [IPv4Address(s)] *)
Definition parse_ipv4 (s : string) : option Z :=
  match split 46 s with
  | [a; b; c; d] =>
      match parse_octet a, parse_octet b, parse_octet c, parse_octet d with
      | Some w, Some x, Some y, Some z => Some (((w * 256 + x) * 256 + y) * 256 + z)
      | _, _, _, _ => None
      end
  | _ => None
  end.

Fixpoint hex_value (acc : Z) (s : string) : Z :=
  match s with
  | EmptyString => acc
  | String c r => hex_value (16 * acc + default 0 (hex_val c)) r
  end.

(** [IPv6Address._parse_hextet] *)
Definition parse_hextet (s : string) : option Z :=
  if negb (str_forall is_hex s) || String.eqb s "" || (4 <? String.length s)%nat
  then None else Some (hex_value 0 s).

Fixpoint parse_hextets (acc : Z) (l : list string) : option Z :=
  match l with
  | [] => Some acc
  | s :: r => match parse_hextet s with
              | Some h => parse_hextets (65536 * acc + h) r
              | None => None
              end
  end.

(** An IPv4-style last part stands for two hextets. *)
Definition expand_tail (parts : list string) : option (list string * list Z) :=
  match last parts with
  | Some p =>
      if has_char 46 p then
        match parse_ipv4 p with
        | Some v => Some (removelast parts, [v / 65536; v mod 65536])
        | None => None
        end
      else Some (parts, [])
  | None => None
  end.

Definition empty_part (s : string) : bool := String.eqb s "".

(** Index of the single empty part strictly inside, if any; [None] for two. *)
Fixpoint skip_index (i n : nat) (parts : list string) (found : option nat) : option (option nat) :=
  match parts with
  | [] => Some found
  | p :: r =>
      if empty_part p && (0 <? i)%nat && (i <? n - 1)%nat then
        match found with
        | Some _ => None
        | None => skip_index (S i) n r (Some i)
        end
      else skip_index (S i) n r found
  end.

(** [IPv6Address._ip_int_from_string]; the tail [v4] is already numeric. *)
Definition parse_parts (parts : list string) (v4 : list Z) : option Z :=
  let n := (length parts + length v4)%nat in
  let finish (hi : list string) (skipped : nat) (lo : list string) :=
    match parse_hextets 0 hi with
    | None => None
    | Some a =>
        match parse_hextets (a * 2 ^ (16 * Z.of_nat skipped)) lo with
        | None => None
        | Some b => Some (foldl (fun acc h => 65536 * acc + h) b v4)
        end
    end in
  if (9 <? n)%nat then None
  else match skip_index 0 n parts None with
  | None => None
  | Some (Some i) =>
      let hi := take i parts in
      let lo := drop (S i) parts in
      let hi_empty := match hi with p :: _ => empty_part p | [] => false end in
      let lo_empty := match v4, last lo with [], Some p => empty_part p | _, _ => false end in
      let hi' := if hi_empty then tl hi else hi in
      let lo' := if lo_empty then removelast lo else lo in
      if hi_empty && negb (match hi' with [] => true | _ => false end) then None
      else if lo_empty && negb (match lo' with [] => true | _ => false end) then None
      else
        let used := (length hi' + length lo' + length v4)%nat in
        if (8 <=? used)%nat then None else finish hi' (8 - used)%nat lo'
  | Some None =>
      if negb (n =? 8)%nat then None
      else if match parts with p :: _ => empty_part p | [] => false end then None
      else if match v4, last parts with [], Some p => empty_part p | _, _ => false end then None
      else finish parts 0%nat []
  end.

(** [IPv6Address(s)] with its optional [%scope] *)
Definition parse_ipv6 (s : string) : option ip :=
  let '(addr, scoped, scope) := partition 37 s in
  if has_char 47 s then None
  else if scoped && (String.eqb scope "" || has_char 37 scope) then None
  else
    let parts := split 58 addr in
    if (length parts <? 3)%nat then None
    else match expand_tail parts with
    | None => None
    | Some (ps, v4) =>
        match parse_parts ps v4 with
        | Some a => Some (V6 a (if scoped then Some scope else None))
        | None => None
        end
    end.

(** [ipaddress.ip_address(s)]; [None] is its [ValueError]. *)
Definition ip_address (s : string) : option ip :=
  match parse_ipv4 s with
  | Some a => Some (V4 a)
  | None => parse_ipv6 s
  end.

Example ip_examples :
  ip_address "192.0.2.1" = Some (V4 3221225985) /\ ip_address "192.0.02.1" = None /\
  ip_address "::1" = Some (V6 1 None) /\ ip_address "::" = Some (V6 0 None) /\
  ip_address "2001:db8::ff" = Some (V6 42540766411282592856903984951653826815 None) /\
  ip_address "::ffff:1.2.3.4" = Some (V6 281470698652420 None) /\
  ip_address "1::2::3" = None /\ ip_address "1:2:3:4:5:6:7:8:9" = None /\
  ip_address ":1:2:3:4:5:6:7" = None /\ ip_address "1:2:3:4:5:6:7::" = Some (V6 5192455318486707404433266433261568 None).
Proof. vm_compute. repeat split. Qed.
