(* ===== verification/Url.v ===== *)
(** * URL canonicalization: mote/browser_contract.py, first half

    [normalize_url], [origin_for_url], [normalize_origin] and the helpers they
    call, over a model of [urllib.parse] on the text they pass to it.  The
    Unicode tables behind [str.lower], NFC/NFKC normalization and the IDNA
    codec are consulted only for text that is not ASCII; they are the operations
    of the class [Unicode]. *)

From stdpp Require Import base list strings.
From Stdlib Require Import ZArith Lia.
From S2P Require Import Prelude PyValue Sha256 Json StrOps Ip.

Local Open Scope Z_scope.

(** Python's Unicode database on text outside ASCII. *)
Class Unicode := {
  u_lower : string -> string;             (** [str.lower] *)
  u_nfc : string -> string;               (** [unicodedata.normalize("NFC", s)] *)
  u_nfkc : string -> string;              (** [unicodedata.normalize("NFKC", s)] *)
  u_idna : string -> option string;       (** [s.encode("idna")]; [None]: [UnicodeError] *)
}.

Section url.
Context `{Unicode}.

Definition lower (s : string) : string := if isascii s then ascii_lower s else u_lower s.
Definition nfc (s : string) : string := if isascii s then s else u_nfc s.

(** [s.encode("idna").decode("ascii")]: ASCII labels are only length-checked. *)
Definition idna (s : string) : option string :=
  if isascii s then
    let labels := split 46 s in
    if forallb (fun l => (0 <? String.length l)%nat && (String.length l <? 64)%nat)
         (removelast labels) &&
       match last labels with Some l => (String.length l <? 64)%nat | None => true end
    then Some s else None
  else u_idna s.

(** ** urllib.parse *)
Record split_result := mk_split {
  p_scheme : string;
  p_netloc : string;
  p_path : string;
  p_query : string;
}.

Definition is_scheme_char (c : Ascii.ascii) : bool :=
  is_lower c || is_upper c || is_digit c || ch 43 c || ch 45 c || ch 46 c.

(** [url.lstrip(C0 controls and space)] and removal of tab, CR and LF *)
Fixpoint lstrip_c0 (s : string) : string :=
  match s with
  | String c r => if byte_of c <=? 32 then lstrip_c0 r else s
  | EmptyString => ""
  end.
Fixpoint remove_breaks (s : string) : string :=
  match s with
  | String c r =>
      if ch 9 c || ch 10 c || ch 13 c then remove_breaks r else String c (remove_breaks r)
  | EmptyString => ""
  end.

(** The scheme before the first colon, if it is one. *)
Definition split_scheme (url : string) : string * string :=
  let '(before, found, after) := partition 58 url in
  if found && first_is (fun c => is_lower c || is_upper c) before &&
     str_forall is_scheme_char before
  then (ascii_lower before, after) else ("", url).

Definition is_netloc_end (c : Ascii.ascii) : bool := ch 47 c || ch 63 c || ch 35 c.

(** [_check_bracketed_host] *)
Definition bracketed_host_ok (h : string) : bool :=
  if startswith "v" h then
    let '(digits, rest) := span is_hex (tail h) in
    negb (String.eqb digits "") && first_is (ch 46) rest && negb (String.eqb (tail rest) "")
  else match ip_address h with Some (V6 _ _) => true | _ => false end.

(** [_check_bracketed_netloc] *)
Definition bracketed_netloc_ok (netloc : string) : bool :=
  let '(_, _, hp) := rpartition 64 netloc in
  let '(before, opened, bracketed) := partition 91 hp in
  if opened then
    let '(host, _, port) := partition 93 bracketed in
    String.eqb before "" && (String.eqb port "" || first_is (ch 58) port) && bracketed_host_ok host
  else let '(host, _, _) := partition 58 hp in bracketed_host_ok host.

Definition keep_chars (p : Ascii.ascii -> bool) (s : string) : string :=
  (fix go s := match s with
               | String c r => if p c then String c (go r) else go r
               | EmptyString => ""
               end) s.

(** [_checknetloc]: a netloc must not normalize to URL delimiters. *)
Definition netloc_ok (netloc : string) : bool :=
  if isascii netloc then true
  else
    let n := keep_chars (fun c => negb (ch 64 c || ch 58 c || ch 35 c || ch 63 c)) netloc in
    let n2 := u_nfkc n in
    String.eqb n n2 || negb (str_exists (fun c => ch 47 c || ch 63 c || ch 35 c || ch 64 c || ch 58 c) n2).

(** [urlsplit(url)], for a URL without a fragment *)
Definition urlsplit (url : string) : res split_result :=
  let url := remove_breaks (lstrip_c0 url) in
  let '(scheme, rest) := split_scheme url in
  let '(netloc, rest) :=
    if startswith "//" rest
    then span (fun c => negb (is_netloc_end c)) (tail (tail rest))
    else ("", rest) in
  let opened := has_char 91 netloc in
  let closed := has_char 93 netloc in
  if negb (Bool.eqb opened closed) then Err (ValueError "Invalid IPv6 URL")
  else if opened && closed && negb (bracketed_netloc_ok netloc)
  then Err (ValueError "Invalid IPv6 URL")
  else
    let '(path, _, query) := partition 63 rest in
    if netloc_ok netloc then Ok (mk_split scheme netloc path query)
    else Err (ValueError "netloc contains invalid characters under NFKC normalization").

(** [_hostinfo] *)
Definition hostinfo (netloc : string) : string * string :=
  let '(_, _, hp) := rpartition 64 netloc in
  let '(_, opened, bracketed) := partition 91 hp in
  if opened then
    let '(host, _, port) := partition 93 bracketed in
    let '(_, _, port) := partition 58 port in (host, port)
  else let '(host, _, port) := partition 58 hp in (host, port).

(** [parsed.hostname] *)
Definition hostname_of (netloc : string) : option string :=
  let host := fst (hostinfo netloc) in
  if String.eqb host "" then None
  else
    let '(h, percent, zone) := partition 37 host in
    Some (lower h +:+ (if percent then "%" else "") +:+ zone).

(** [parsed.port] *)
Definition port_of (netloc : string) : res (option Z) :=
  let port := snd (hostinfo netloc) in
  if String.eqb port "" then Ok None
  else if str_forall is_digit port then
    let n := digits_value 0 port in
    if n <=? 65535 then Ok (Some n) else Err (ValueError "Port out of range 0-65535")
  else Err (ValueError "Port could not be cast to integer value").

(** ** mote/browser_contract.py *)
Definition MAX_URL_LENGTH : Z := 4096.

Definition contract_error {A} (msg : string) : res A := Err (BrowserContractError msg).

(** Whether a percent sign is followed by two hexadecimal digits everywhere. *)
Fixpoint percents_ok (s : string) : bool :=
  match s with
  | EmptyString => true
  | String c r =>
      (if ch 37 c then
         match r with String a (String b _) => is_hex a && is_hex b | _ => false end
       else true) && percents_ok r
  end.

(** [_PERCENT_ESCAPE.sub]: upper-case the digits of every escape. *)
Fixpoint upper_escapes (s : string) : string :=
  match s with
  | EmptyString => ""
  | String c r =>
      match r with
      | String a (String b r') =>
          if ch 37 c && is_hex a && is_hex b
          then String c (String (upper_char a) (String (upper_char b) (upper_escapes r')))
          else String c (upper_escapes r)
      | _ => String c (upper_escapes r)
      end
  end.

Definition _canonicalize_escapes (value : string) : res string :=
  raise (BrowserContractError "URL contains an invalid percent escape") when
    negb (percents_ok value);;
  Ok (upper_escapes value).

Definition is_label_char (c : Ascii.ascii) : bool := is_lower c || is_digit c.

(** [_HOST_LABEL]: up to 63 characters, no hyphen at either end. *)
Definition host_label (s : string) : bool :=
  (String.length s <=? 63)%nat &&
  first_is is_label_char s &&
  match String.get (String.length s - 1) s with Some c => is_label_char c | None => false end &&
  str_forall (fun c => is_label_char c || ch 45 c) s.

(** [_NUMERIC_HOST_LABEL] *)
Definition numeric_host_label (s : string) : bool :=
  (negb (String.eqb s "") && str_forall is_digit s) ||
  (first_is (ch 48) s && first_is (fun c => ch 120 c || ch 88 c) (tail s) &&
   negb (String.eqb (tail (tail s)) "") && str_forall is_hex (tail (tail s))).

Definition _UNSAFE_HOST_SUFFIXES : list string :=
  ["localhost"; "local"; "localdomain"; "internal"; "intranet"; "corp"; "home"; "lan";
   "home.arpa"; "onion"; "invalid"; "test"; "example"].

Definition unsafe_suffix (host : string) : bool :=
  existsb (fun suffix => String.eqb host suffix || endswith ("." +:+ suffix) host)
    _UNSAFE_HOST_SUFFIXES.

Definition is_ip_literal (s : string) : bool :=
  match ip_address s with Some _ => true | None => false end.

(** [labels[-1].isdigit()] *)
Definition numeric_tld (labels : list string) : bool :=
  match last labels with
  | Some l => negb (String.eqb l "") && str_forall is_digit l
  | None => false
  end.

Definition _normalize_hostname (hostname : string) : res string :=
  raise (BrowserContractError "URL hostname is empty or ambiguous") when
    (String.eqb hostname "" || endswith "." hostname || startswith "." hostname);;
  raise (BrowserContractError "URL hostname is not a DNS name") when
    (has_char 37 hostname || has_char 92 hostname || has_char 58 hostname);;
  raise (BrowserContractError "IP literals are not permitted") when
    is_ip_literal hostname;;
  match idna hostname with
  | None => contract_error "URL hostname is not valid IDNA"
  | Some encoded =>
      let ascii_hostname := ascii_lower encoded in
      raise (BrowserContractError "URL hostname is too long") when
        (253 <? String.length ascii_hostname)%nat;;
      let labels := split 46 ascii_hostname in
      raise (BrowserContractError "URL hostname must be a public-style DNS name") when
        ((length labels <? 2)%nat || existsb (fun l => negb (host_label l)) labels);;
      raise (BrowserContractError "numeric host spellings are not permitted") when
        forallb numeric_host_label labels;;
      raise (BrowserContractError "numeric top-level domains are not permitted") when
        numeric_tld labels;;
      raise (BrowserContractError "private or special-use hostname is not permitted") when
        unsafe_suffix ascii_hostname;;
      Ok ascii_hostname
  end.

(** White space outside ASCII, as UTF-8. *)
Definition wide_spaces : list string :=
  map utf8 ([133; 160; 5760] ++ map (fun n => 8192 + Z.of_nat n) (seq 0 11) ++
            [8232; 8233; 8239; 8287; 12288]).

(** [value != value.strip()] once ASCII white space is excluded *)
Definition strips (s : string) : bool :=
  existsb (fun w => startswith w s || endswith w s) wide_spaces.

Definition is_unreserved (c : Ascii.ascii) : bool :=
  is_lower c || is_upper c || is_digit c || ch 95 c || ch 46 c || ch 45 c || ch 126 c.

(** The characters of [safe] in the two calls of [quote]. *)
Definition path_safe (c : Ascii.ascii) : bool :=
  is_unreserved c ||
  existsb (fun z => ch z c) [47; 37; 58; 64; 33; 36; 38; 39; 40; 41; 42; 43; 44; 59; 61].
Definition query_safe (c : Ascii.ascii) : bool := path_safe c || ch 63 c.

Definition upper_hex_digit (z : Z) : Ascii.ascii := ascii_of (if z <? 10 then 48 + z else 55 + z).

(** [urllib.parse.quote(s, safe)] on the UTF-8 bytes *)
Fixpoint quote_bytes (safe : Ascii.ascii -> bool) (s : string) : string :=
  match s with
  | EmptyString => ""
  | String c r =>
      if safe c then String c (quote_bytes safe r)
      else String (ascii_of 37) (String (upper_hex_digit (byte_of c / 16))
             (String (upper_hex_digit (byte_of c mod 16)) (quote_bytes safe r)))
  end.
Definition url_quote (safe : Ascii.ascii -> bool) (s : string) : res string :=
  if has_surrogate s then Err (ValueError "surrogates not allowed") else Ok (quote_bytes safe s).

(** [urlunsplit((scheme, authority, path, query, ""))] *)
Definition urlunsplit (scheme authority path query : string) : string :=
  scheme +:+ "://" +:+ authority +:+
  (if negb (String.eqb path "") && negb (startswith "/" path) then "/" else "") +:+ path +:+
  (if String.eqb query "" then "" else "?" +:+ query).

(** Checks on the raw text of a URL. *)
Definition check_url_text (value : string) : res unit :=
  raise (BrowserContractError "URL must be a bounded non-empty string") when
    (String.eqb value "" || (MAX_URL_LENGTH <? py_len value));;
  raise (BrowserContractError "URL contains whitespace or a control character") when
    (strips value || str_exists (fun c => (byte_of c <=? 32) || ch 127 c) value);;
  raise (BrowserContractError "URL backslashes are not permitted") when has_char 92 value;;
  raise (BrowserContractError "URL fragments are not permitted") when has_char 35 value;;
  Ok tt.

(** [port is not None and port < 1] *)
Definition port_below_one (port : option Z) : bool :=
  match port with Some p => p <? 1 | None => false end.

(** The canonical [host[:port]] of a parsed URL. *)
Definition url_authority (scheme netloc : string) : res string :=
  raise (BrowserContractError "URL scheme must be http or https") when
    (negb (mem scheme ["http"; "https"]) || String.eqb netloc "");;
  raise (BrowserContractError "URL credentials are not permitted") when has_char 64 netloc;;
  match hostname_of netloc with
  | None => contract_error "URL hostname is required"
  | Some raw =>
      let* hostname := _normalize_hostname raw in
      match port_of netloc with
      | Err _ => contract_error "URL port is invalid"
      | Ok port =>
          raise (BrowserContractError "URL port is invalid") when
            port_below_one port;;
          raise (BrowserContractError "URL port is empty") when endswith ":" netloc;;
          let default_port := if String.eqb scheme "http" then 80 else 443 in
          Ok (match port with
              | Some p => if p =? default_port then hostname else hostname +:+ ":" +:+ dec p
              | None => hostname
              end)
      end
  end.

(** A value that is not a [str] is refused like an empty one. *)
Definition normalize_url (value : pyval) : res string :=
  match value with
  | VStr s =>
      let* _ := check_url_text s in
      match urlsplit s with
      | Err _ => contract_error "URL cannot be parsed"
      | Ok parsed =>
          let scheme := ascii_lower (p_scheme parsed) in
          let* authority := url_authority scheme (p_netloc parsed) in
          let* path := url_quote path_safe
            (nfc (if String.eqb (p_path parsed) "" then "/" else p_path parsed)) in
          let* query := url_quote query_safe (nfc (p_query parsed)) in
          let* path := _canonicalize_escapes path in
          let* query := _canonicalize_escapes query in
          let normalized := urlunsplit scheme authority path query in
          raise (BrowserContractError "normalized URL is too long") when
            (MAX_URL_LENGTH <? py_len normalized);;
          Ok normalized
      end
  | _ => contract_error "URL must be a bounded non-empty string"
  end.

Definition origin_for_url (value : pyval) : res string :=
  let* u := normalize_url value in
  let* parsed := urlsplit u in
  Ok (p_scheme parsed +:+ "://" +:+ p_netloc parsed).

Definition normalize_origin (value : pyval) : res string :=
  raise (BrowserContractError "authorized origin cannot contain query or fragment data") when
    (negb (is_str value) || has_char 63 (str_of value) || has_char 35 (str_of value));;
  let* normalized_url := normalize_url value in
  let* parsed := urlsplit normalized_url in
  raise (BrowserContractError "authorized origin cannot contain a path") when
    (negb (String.eqb (p_path parsed) "/") || negb (String.eqb (p_query parsed) ""));;
  Ok (p_scheme parsed +:+ "://" +:+ p_netloc parsed).

Definition is_authorized_url (value : pyval) (authorized_origins : list pyval) : res bool :=
  let* candidate := origin_for_url value in
  let* allowed := map_res normalize_origin authorized_origins in
  Ok (mem candidate allowed).

End url.

(** ASCII only: every text the Unicode database would decide is refused. *)
Definition ascii_unicode : Unicode :=
  {| u_lower := fun s => s; u_nfc := fun s => s; u_nfkc := fun s => s; u_idna := fun _ => None |}.

Example normalize_examples :
  let n := @normalize_url ascii_unicode in
  n (VStr "HTTPS://Sub.Example.COM:443/a%2fb?q=1") = Ok "https://sub.example.com/a%2Fb?q=1" /\
  n (VStr "http://a.example.com:8080") = Ok "http://a.example.com:8080/" /\
  n (VStr "http://127.0.0.1/") = Err (BrowserContractError "IP literals are not permitted") /\
  n (VStr "http://user@a.com/") = Err (BrowserContractError "URL credentials are not permitted") /\
  n (VStr "http://0x7f.1/") = Err (BrowserContractError "numeric host spellings are not permitted").
Proof. vm_compute. repeat split. Qed.
