(* ===== verification/UrlFacts.v ===== *)
(** * What a normalized URL is

    The host of an accepted URL is a public-style DNS name, never an IP literal
    in any spelling; the result splits back into its parts, and normalizing it
    again changes nothing. *)

From stdpp Require Import base list strings.
From Stdlib Require Import ZArith Lia.
From Stdlib Require Import (notations) Ascii.
From S2P Require Import Prelude PyValue Sha256 Json JsonFacts StrOps Ip Url.

Local Open Scope Z_scope.

(** ** Characters *)
Definition is_host_char (c : Ascii.ascii) : bool := is_label_char c || ch 45 c || ch 46 c.

Ltac char_lia :=
  unfold is_netloc_end, is_scheme_char in *; unfold is_host_char, is_label_char, is_hex, is_lower_hex, is_lower, is_upper, is_digit, in_range,
    ch in *; lia.

Lemma split_forall (p : Ascii.ascii -> bool) z s :
  Forall (fun l => str_forall p l = true) (split z s) ->
  str_forall (fun c => p c || ch z c) s = true.
Proof.
  induction s as [|c s IH]; cbn; [done|].
  destruct (split z s) as [|q qs] eqn:E; [by destruct s; cbn in E; [|destruct (split z s), (ch z a)]|].
  destruct (ch z c) eqn:Ec; intros HF; inversion HF as [|? ? H1 H2]; subst.
  - rewrite orb_true_r. by apply IH.
  - cbn in H1. apply andb_true_iff in H1 as [-> H1]. cbn. apply IH. by constructor.
Qed.

Lemma split_single z s : has_char z s = false -> split z s = [s].
Proof.
  unfold has_char. induction s as [|c s IH]; cbn; [done|]. intros [H1 H2]%orb_false_iff.
  by rewrite IH, H1.
Qed.

Lemma str_forall_and p q s :
  str_forall p s = true -> str_forall q s = true -> str_forall (fun c => p c && q c) s = true.
Proof.
  induction s as [|c s IH]; cbn; [done|]. intros [-> H1]%andb_true_iff [-> H2]%andb_true_iff.
  by apply IH.
Qed.

Lemma host_label_chars l : host_label l = true -> str_forall (fun c => is_label_char c || ch 45 c) l = true.
Proof. unfold host_label. intros H. by run_inv. Qed.

(** ** Host names *)

(** What [_normalize_hostname] guarantees of its result. *)
Record public_host (h : string) : Prop := {
  ph_labels : (2 <= length (split 46 h))%nat /\ Forall (fun l => host_label l = true) (split 46 h);
  ph_length : (String.length h <= 253)%nat;
  ph_numeric : forallb numeric_host_label (split 46 h) = false;
  ph_tld : numeric_tld (split 46 h) = false;
  ph_suffix : unsafe_suffix h = false;
}.

Lemma labels_chars h :
  Forall (fun l => host_label l = true) (split 46 h) -> str_forall is_host_char h = true.
Proof.
  intros Hl. apply (str_forall_weaken (fun c => (is_label_char c || ch 45 c) || ch 46 c));
    [done|]. apply split_forall. eapply Forall_impl; [exact Hl|]. apply host_label_chars.
Qed.

Lemma public_host_chars h : public_host h -> str_forall is_host_char h = true.
Proof. intros Hp. apply labels_chars, Hp. Qed.

(** No host character is a delimiter. *)
Lemma host_no_char z h :
  str_forall is_host_char h = true -> In z [37; 47; 58; 63; 64; 91; 92; 93; 35] -> has_char z h = false.
Proof.
  intros Hh Hz. apply (has_char_forall is_host_char); [|done]. intros c Hc.
  cbn in Hz. repeat destruct Hz as [<-|Hz]; try done; char_lia.
Qed.

Lemma parse_octet_numeric s n : parse_octet s = Some n -> numeric_host_label s = true.
Proof.
  unfold parse_octet, numeric_host_label. intros H.
  destruct (String.eqb s ""), (str_forall is_digit s); cbn in *; try done.
Qed.

(** An IP literal is never a public host name. *)
Lemma public_host_not_ip h : public_host h -> ip_address h = None.
Proof.
  intros Hp. pose proof (public_host_chars h Hp) as Hc. unfold ip_address.
  destruct (parse_ipv4 h) eqn:E4.
  - unfold parse_ipv4 in E4. pose proof (ph_numeric h Hp) as Hn.
    destruct (split 46 h) as [|w [|x [|y [|v []]]]]; try done.
    destruct (parse_octet w) eqn:H1, (parse_octet x) eqn:H2, (parse_octet y) eqn:H3,
      (parse_octet v) eqn:H4; try done.
    cbn in Hn. by rewrite (parse_octet_numeric _ _ H1), (parse_octet_numeric _ _ H2),
      (parse_octet_numeric _ _ H3), (parse_octet_numeric _ _ H4) in Hn.
  - unfold parse_ipv6. rewrite partition_absent by (apply host_no_char; cbn; auto).
    rewrite (host_no_char 47) by (cbn; auto 10).
    by rewrite split_single by (apply host_no_char; cbn; auto 10).
Qed.

(** ** Prefixes and suffixes *)
Lemma startswith_forall p w s :
  startswith w s = true -> str_forall p s = true -> str_forall p w = true.
Proof.
  unfold startswith. revert s. induction w as [|c w IH]; intros [|d s]; cbn; try done.
  destruct (Ascii.ascii_dec c d) as [->|]; [|done].
  intros H1 [-> H2]%andb_true_iff. by apply (IH s).
Qed.

Lemma endswith_forall p w s :
  endswith w s = true -> str_forall p s = true -> str_forall p w = true.
Proof.
  induction s as [|c s IH]; cbn; intros [E|E]%orb_true_iff; try done;
    try (apply String.eqb_eq in E as ->; done).
  intros [_ Hs]%andb_true_iff. by apply IH.
Qed.

Lemma endswith_app c s t : t <> "" -> endswith (String c "") (s +:+ t) = endswith (String c "") t.
Proof.
  intros Ht. induction s as [|d s IH]; [done|]. rewrite append_cons. cbn [endswith].
  rewrite IH. assert (String.eqb (String c "") (String d (s +:+ t)) = false) as ->; [|done].
  apply String.eqb_neq. intros [= _ E]. destruct s; [|done]. rewrite append_nil_l in E. congruence.
Qed.

Lemma split_nonempty z s : split z s <> [].
Proof. destruct s; cbn; [done|]. by destruct (split z s), (ch z a). Qed.

Lemma endswith_dot s : endswith "." s = true -> last (split 46 s) = Some "".
Proof.
  induction s as [|c s IH]; [done|]. cbn [endswith split]. intros [E|E]%orb_true_iff.
  - apply String.eqb_eq in E. simplify_eq. done.
  - specialize (IH E). destruct (split 46 s) as [|p ps] eqn:Es; [done|].
    destruct (ch 46 c); [exact IH|]. destruct ps as [|q ps]; [|exact IH].
    cbn in IH. simplify_eq. destruct s as [|a s]; [done|]. cbn in Es.
    pose proof (split_nonempty 46 s). by destruct (split 46 s) as [|q qs], (ch 46 a).
Qed.

Lemma startswith_char c s : startswith (String c "") s = true <-> exists r, s = String c r.
Proof.
  unfold startswith. destruct s as [|d s]; cbn; [split; [done|by intros []]|].
  destruct (Ascii.ascii_dec c d) as [->|Hne].
  - split; [intros _; by eexists | by destruct s].
  - split; [done|]. intros [r [= -> ->]]. done.
Qed.

Lemma startswith_dot s : startswith "." s = true -> exists ps, split 46 s = "" :: ps.
Proof. intros [r ->]%startswith_char. cbn. destruct (split 46 r); by eexists. Qed.

Section facts.
Context `{Unicode}.

Lemma existsb_false {A} (p : A -> bool) l :
  existsb p l = false <-> Forall (fun x => p x = false) l.
Proof.
  induction l as [|x l IH]; cbn; [by split|]. by rewrite orb_false_iff, IH, Forall_cons.
Qed.

Lemma normalize_hostname_public raw h : _normalize_hostname raw = Ok h -> public_host h.
Proof.
  unfold _normalize_hostname. intros Hr. run_inv. destruct (idna raw) as [e|]; [|done].
  cbv zeta in Hr. run_inv. subst.
  repeat match goal with Hx : (_ <? _)%nat = false |- _ => rewrite Nat.ltb_ge in Hx end.
  split; try done. split; [done|]. rewrite existsb_false in *.
  eapply Forall_impl; [eassumption|]. cbn. intros l. by destruct (host_label l).
Qed.

Lemma isascii_host h : str_forall is_host_char h = true -> isascii h = true.
Proof. apply str_forall_weaken. intros c. char_lia. Qed.

Lemma ascii_lower_host h : str_forall is_host_char h = true -> ascii_lower h = h.
Proof.
  intros Hh. apply str_map_id. revert Hh. apply str_forall_weaken. intros c Hc.
  apply Ascii.eqb_eq. unfold lower_char. destruct (is_upper c) eqn:E; [exfalso; char_lia|done].
Qed.

Lemma host_label_length l : host_label l = true -> (0 < String.length l < 64)%nat.
Proof.
  unfold host_label. intros Hl. run_inv. rewrite Nat.leb_le in *. destruct l; [done|]. cbn in *. lia.
Qed.

(** A public host name is its own IDNA form. *)
Lemma idna_public h : public_host h -> idna h = Some h.
Proof.
  intros Hp. pose proof (public_host_chars h Hp) as Hc. unfold idna. rewrite isascii_host by done.
  destruct (ph_labels h Hp) as [_ Hl].
  assert (HF : Forall (fun l => (0 < String.length l < 64)%nat) (split 46 h)).
  { eapply Forall_impl; [exact Hl|]. apply host_label_length. }
  destruct (split 46 h) as [|x l] using rev_ind; [done|]. clear IHl.
  rewrite removelast_last, last_snoc. apply Forall_app in HF as [H1 H2].
  rewrite Forall_singleton in H2.
  rewrite (proj2 (forallb_forall _ _)); [by rewrite (proj2 (Nat.ltb_lt _ _)) by lia|].
  intros y Hy. rewrite Forall_forall in H1. specialize (H1 y (proj2 (list_elem_of_In _ _) Hy)). cbn in H1.
  rewrite !(proj2 (Nat.ltb_lt _ _)); [done|lia..].
Qed.

Lemma public_host_nonempty_labels h : public_host h -> Forall (fun l => l <> "") (split 46 h).
Proof.
  intros Hp. eapply Forall_impl; [apply (ph_labels h Hp)|]. intros l Hl%host_label_length. intros ->. cbn in Hl. lia.
Qed.

(** An accepted host name is accepted again, unchanged. *)
Lemma normalize_hostname_fixpoint h : public_host h -> _normalize_hostname h = Ok h.
Proof.
  intros Hp. pose proof (public_host_chars h Hp) as Hc.
  pose proof (public_host_nonempty_labels h Hp) as Hne.
  assert (He : endswith "." h = false).
  { destruct (endswith "." h) eqn:E; [|done]. apply endswith_dot, last_Some_elem_of in E.
    rewrite Forall_forall in Hne. by apply Hne in E. }
  assert (Hs : startswith "." h = false).
  { destruct (startswith "." h) eqn:E; [|done]. apply startswith_dot in E as [ps E].
    rewrite E in Hne. by inversion Hne. }
  assert (Hn : String.eqb h "" = false).
  { destruct (String.eqb_spec h "") as [->|]; [|done]. by inversion Hne. }
  unfold _normalize_hostname, is_ip_literal.
  rewrite Hn, He, Hs, public_host_not_ip, idna_public, ascii_lower_host by done.
  rewrite !host_no_char by (cbn; auto 10). destruct (ph_labels h Hp) as [Hl2 Hl].
  cbv zeta. cbn [orb okb raise_if].
  rewrite (proj2 (Nat.ltb_ge _ _)), (proj2 (Nat.ltb_ge _ _)) by (apply Hp || done).
  rewrite (proj2 (existsb_false _ _)).
  - cbn [orb okb raise_if]. by rewrite (ph_numeric h Hp), (ph_tld h Hp), (ph_suffix h Hp).
  - eapply Forall_impl; [exact Hl|]. cbn. by intros l ->.
Qed.

(** ** Authorities *)

(** A canonical [host] or [host:port]. *)
Definition default_port (scheme : string) : Z := if String.eqb scheme "http" then 80 else 443.

Inductive authority (scheme : string) : string -> Prop :=
  | auth_host h : public_host h -> authority scheme h
  | auth_port h p : public_host h -> 1 <= p <= 65535 -> p <> default_port scheme ->
      authority scheme (h +:+ ":" +:+ dec p).

Definition is_auth_char (c : Ascii.ascii) : bool := is_host_char c || ch 58 c.

Lemma dec_digits_only p : 0 <= p -> str_forall is_digit (dec p) = true /\ digits_ok p (dec p).
Proof.
  intros Hp. unfold dec. destruct (Z.ltb_spec p 0); [lia|].
  pose proof (dec_nonneg_ok p Hp) as Hd. split; [apply Hd|done].
Qed.

Lemma authority_chars scheme a : authority scheme a -> str_forall is_auth_char a = true.
Proof.
  destruct 1 as [h Hh|h p Hh Hp _].
  - eapply str_forall_weaken; [|by apply public_host_chars]. intros c Hc. unfold is_auth_char. by rewrite Hc.
  - rewrite !str_forall_app. destruct (dec_digits_only p) as [Hd _]; [lia|].
    rewrite (str_forall_weaken is_host_char is_auth_char), (str_forall_weaken is_digit is_auth_char (dec p));
      try done.
    + intros c. unfold is_auth_char. char_lia.
    + intros c Hc. unfold is_auth_char. by rewrite Hc.
    + by apply public_host_chars.
Qed.

Lemma auth_no_char z a :
  str_forall is_auth_char a = true -> In z [37; 47; 63; 64; 91; 92; 93; 35] -> has_char z a = false.
Proof.
  intros Ha Hz. apply (has_char_forall is_auth_char); [|done]. intros c Hc. unfold is_auth_char in Hc.
  cbn in Hz. repeat destruct Hz as [<-|Hz]; try done; char_lia.
Qed.

Lemma url_authority_canonical scheme netloc a :
  url_authority scheme netloc = Ok a ->
  mem scheme ["http"; "https"] = true /\ authority scheme a.
Proof.
  unfold url_authority. intros Ha. run_inv. split; [done|].
  destruct (hostname_of netloc) as [raw|]; [|done]. run_inv.
  match goal with Hn : _normalize_hostname _ = Ok ?h |- _ =>
    apply normalize_hostname_public in Hn end.
  destruct (port_of netloc) as [[p|]|] eqn:Ep; [..|done]; run_inv; cbv zeta in Ha; run_inv; subst.
  - fold (default_port scheme). destruct (Z.eqb_spec p (default_port scheme)); [by apply auth_host|].
    apply auth_port; try done. split.
    + match goal with Hq : port_below_one _ = false |- _ => cbn in Hq; lia end.
    + revert Ep. unfold port_of. 
      destruct (String.eqb (snd (hostinfo netloc)) ""), (str_forall is_digit (snd (hostinfo netloc))); try done.
      destruct (Z.leb_spec (digits_value 0 (snd (hostinfo netloc))) 65535); [|done]. intros; by simplify_eq.
  - by apply auth_host.
Qed.

Lemma host_nonempty h : public_host h -> h <> "".
Proof. intros Hp ->. pose proof (public_host_nonempty_labels _ Hp) as Hn. by inversion Hn. Qed.

Lemma lower_host h : public_host h -> lower h = h.
Proof.
  intros Hp%public_host_chars. unfold lower. by rewrite isascii_host, ascii_lower_host.
Qed.

Lemma endswith_char_absent z s :
  0 <= z < 256 -> has_char z s = false -> endswith (String (ascii_of z) "") s = false.
Proof.
  intros Hz Hs. destruct (endswith _ s) eqn:E; [|done].
  apply (endswith_forall (fun c => negb (ch z c))) in E.
  - cbn in E. unfold ch in E. by rewrite byte_of_ascii_of, Z.eqb_refl in E.
  - unfold has_char in Hs. clear E. induction s as [|c s IH]; cbn in *; [done|]. run_inv.
    by rewrite (IH Hs); destruct (ch z c).
Qed.

(** A canonical authority splits back into its host and port. *)
Lemma authority_split scheme a :
  authority scheme a ->
  exists h port, public_host h /\ hostinfo a = (h, match port with Some p => dec p | None => "" end) /\
    endswith ":" a = false /\
    match port with Some p => 1 <= p <= 65535 /\ p <> default_port scheme | None => True end /\
    a = match port with Some p => h +:+ ":" +:+ dec p | None => h end.
Proof.
  intros Ha. pose proof (authority_chars _ _ Ha) as Hc. unfold hostinfo.
  rewrite rpartition_absent by (apply auth_no_char; cbn; auto 10).
  rewrite (partition_absent 91) by (apply auth_no_char; cbn; auto 10).
  destruct Ha as [h Hh|h p Hh Hp Hd]; pose proof (public_host_chars h Hh) as Hhc; exists h.
  - exists None. rewrite (partition_absent 58) by (apply host_no_char; cbn; auto 10).
    repeat split; [apply Hh..|]. apply (endswith_char_absent 58); [done|].
    apply host_no_char; cbn; auto 10.
  - exists (Some p). assert (E := partition_app 58 h (dec p) ltac:(lia) (host_no_char 58 h Hhc ltac:(cbn; auto 10))).
    change (h +:+ ":" +:+ dec p) with (h +:+ String (ascii_of 58) (dec p)). rewrite E.
    split; [done|]. split; [done|]. split; [|done].
    destruct (dec_digits_only p) as [H1 H2]; [lia|].
    change (String (ascii_of 58) (dec p)) with (":" +:+ dec p).
    rewrite <- append_assoc, endswith_app by apply H2.
    apply (endswith_char_absent 58); [done|]. apply (has_char_forall is_digit); [|done].
    intros c. char_lia.
Qed.

(** A canonical authority is accepted again, unchanged. *)
Lemma url_authority_fixpoint scheme a :
  mem scheme ["http"; "https"] = true -> authority scheme a -> url_authority scheme a = Ok a.
Proof.
  intros Hs Ha. pose proof (authority_chars _ _ Ha) as Hc.
  destruct (authority_split _ _ Ha) as (h & port & Hh & Hi & He & Hport & Heq).
  assert (Hnz : String.eqb a "" = false).
  { apply String.eqb_neq. intros ->. destruct port; subst.
    - by destruct h.
    - by apply (host_nonempty "") in Hh. }
  unfold url_authority, hostname_of, port_of. rewrite Hs, Hnz, Hi, auth_no_char by (cbn; auto 10).
  cbn [fst snd negb orb okb raise_if].
  rewrite (proj2 (String.eqb_neq h "")) by by apply host_nonempty.
  rewrite (partition_absent 37) by (apply host_no_char; [by apply public_host_chars | cbn; auto 10]).
  rewrite lower_host, !append_nil_r, normalize_hostname_fixpoint by done. cbn [mbind res_bind].
  destruct port as [p|]; cbn match.
  - destruct Hport as [Hp Hd]. destruct (dec_digits_only p) as [H1 H2]; [lia|].
    rewrite (proj2 (String.eqb_neq (dec p) "")), H1, (do_value _ _ H2) by apply H2.
    rewrite (proj2 (Z.leb_le p 65535)) by lia. rewrite He. cbn [port_below_one].
    rewrite (proj2 (Z.ltb_ge p 1)) by lia. cbn. fold (default_port scheme).
    rewrite (proj2 (Z.eqb_neq p _)) by done. by rewrite Heq.
  - rewrite He. cbn. by rewrite Heq.
Qed.

(** ** Percent-encoding *)

(** The characters of a path or query after quoting. *)
Class SafeSet (safe : Ascii.ascii -> bool) := {
  safe_alnum : forall c, is_lower c || is_upper c || is_digit c = true -> safe c = true;
  safe_percent : safe (ascii_of 37) = true;
  safe_range : forall c, safe c = true -> 33 <= byte_of c < 127 /\ byte_of c <> 35 /\ byte_of c <> 92;
}.

Lemma path_safe_range c :
  path_safe c = true ->
  33 <= byte_of c < 127 /\ byte_of c <> 35 /\ byte_of c <> 63 /\ byte_of c <> 92.
Proof. unfold path_safe, is_unreserved. cbn [existsb]. char_lia. Qed.

#[global] Instance path_safe_set : SafeSet path_safe.
Proof.
  split; [|done|].
  - intros c Hc. unfold path_safe, is_unreserved. by rewrite Hc.
  - intros c Hc%path_safe_range. lia.
Qed.

#[global] Instance query_safe_set : SafeSet query_safe.
Proof.
  split; [|done|].
  - intros c Hc. unfold query_safe. by rewrite (safe_alnum c Hc).
  - intros c [Hc%path_safe_range|Hc]%orb_true_iff; [lia|]. unfold ch in Hc. lia.
Qed.

Lemma upper_hex_digit_alnum z : 0 <= z < 16 -> is_upper (upper_hex_digit z) || is_digit (upper_hex_digit z) = true.
Proof.
  intros Hz. unfold upper_hex_digit, is_upper, is_digit, in_range.
  destruct (Z.ltb_spec z 10); rewrite byte_of_ascii_of by lia; lia.
Qed.

Lemma upper_hex_digit_safe safe `{!SafeSet safe} z : 0 <= z < 16 -> safe (upper_hex_digit z) = true.
Proof.
  intros Hz%upper_hex_digit_alnum. apply safe_alnum. by rewrite <- orb_assoc, Hz, orb_true_r.
Qed.

Lemma quote_bytes_safe safe `{!SafeSet safe} s : str_forall safe (quote_bytes safe s) = true.
Proof.
  induction s as [|c s IH]; cbn; [done|]. destruct (safe c) eqn:E; cbn; [by rewrite E|].
  destruct (nibbles c) as [H1 H2].
  by rewrite safe_percent, !upper_hex_digit_safe, IH by done.
Qed.

Lemma quote_bytes_id safe s : str_forall safe s = true -> quote_bytes safe s = s.
Proof.
  induction s as [|c s IH]; cbn; [done|]. intros [-> Hs]%andb_true_iff. by rewrite IH.
Qed.

(** Whether a text starts with an escape. *)
Definition is_escape (s : string) : bool :=
  match s with
  | String c (String a (String b _)) => ch 37 c && is_hex a && is_hex b
  | _ => false
  end.

(** Induction by the steps [upper_escapes] takes. *)
Lemma escape_ind (P : string -> Prop) :
  P "" ->
  (forall c a b r, is_escape (String c (String a (String b r))) = true -> P r ->
     P (String c (String a (String b r)))) ->
  (forall c r, is_escape (String c r) = false -> P r -> P (String c r)) ->
  forall s, P s.
Proof.
  intros H0 H1 H2. fix IH 1. intros [|c r]; [exact H0|].
  destruct (is_escape (String c r)) eqn:E; [|exact (H2 c r E (IH r))].
  destruct r as [|a [|b r]]; [discriminate E..|exact (H1 c a b r E (IH r))].
Qed.

Lemma upper_escapes_escape c a b r :
  is_escape (String c (String a (String b r))) = true ->
  upper_escapes (String c (String a (String b r))) =
  String c (String (upper_char a) (String (upper_char b) (upper_escapes r))).
Proof. intros E. cbn in *. by rewrite E. Qed.

Lemma upper_escapes_plain c r :
  is_escape (String c r) = false -> upper_escapes (String c r) = String c (upper_escapes r).
Proof. destruct r as [|a [|b r]]; [done..|]. cbn [is_escape]. intros E. cbn. by rewrite E. Qed.

Lemma upper_char_hex a : is_hex a = true ->
  is_hex (upper_char a) = true /\ upper_char (upper_char a) = upper_char a /\
  is_upper (upper_char a) || is_digit (upper_char a) = true /\ ch 37 (upper_char a) = false.
Proof.
  intros Ha. pose proof (byte_of_range a). unfold upper_char. destruct (is_lower a) eqn:El.
  - assert (E : byte_of (ascii_of (byte_of a - 32)) = byte_of a - 32).
    { apply byte_of_ascii_of. unfold is_lower, in_range in El. lia. }
    assert (El' : is_lower (ascii_of (byte_of a - 32)) = false).
    { unfold is_lower, in_range in *. rewrite E. lia. }
    rewrite El'. unfold is_hex, is_lower_hex, is_upper, is_digit, in_range, ch. rewrite E.
    unfold is_hex, is_lower_hex, is_lower, is_digit, in_range in Ha, El. repeat split; lia.
  - rewrite El. split; [done|]. split; [done|]. split; char_lia.
Qed.

Lemma escape_digits c a b r :
  is_escape (String c (String a (String b r))) = true ->
  ch 37 c = true /\ is_hex a = true /\ is_hex b = true.
Proof. cbn. intros H1. by run_inv. Qed.

(** The text after an escape's digits is well escaped when the whole is. *)
Lemma percents_ok_escape c a b r :
  ch 37 c = true -> is_hex a = true -> is_hex b = true ->
  percents_ok (String c (String a (String b r))) = percents_ok r.
Proof.
  intros Hc Ha Hb. cbn [percents_ok]. rewrite Hc, Ha, Hb.
  assert (ch 37 a = false) as -> by char_lia. by assert (ch 37 b = false) as -> by char_lia.
Qed.

(** In a well-escaped text, a character that does not start an escape is plain. *)
Lemma percents_ok_plain c r :
  is_escape (String c r) = false ->
  percents_ok (String c r) = negb (ch 37 c) && percents_ok r.
Proof.
  intros He. cbn [percents_ok]. destruct (ch 37 c) eqn:Ec; [|done]. cbn [negb andb].
  destruct r as [|a [|b r]]; [done..|]. cbn [is_escape] in He. rewrite Ec in He. cbn in He.
  by rewrite He.
Qed.

Lemma upper_escapes_percents s : percents_ok s = true -> percents_ok (upper_escapes s) = true.
Proof.
  induction s as [|c a b r He IH|c r He IH] using escape_ind; [done|..].
  - destruct (escape_digits _ _ _ _ He) as (Hc & Ha & Hb).
    rewrite upper_escapes_escape, !percents_ok_escape; try done; by apply upper_char_hex.
  - rewrite upper_escapes_plain, percents_ok_plain by done. intros [Hc Hr]%andb_true_iff.
    cbn. destruct (ch 37 c); [done|]. by apply IH.
Qed.

Lemma upper_escapes_idemp s :
  percents_ok s = true -> upper_escapes (upper_escapes s) = upper_escapes s.
Proof.
  induction s as [|c a b r He IH|c r He IH] using escape_ind; [done|..].
  - destruct (escape_digits _ _ _ _ He) as (Hc & Ha & Hb).
    rewrite percents_ok_escape by done. intros Hr.
    destruct (upper_char_hex a Ha) as (Ha1 & Ha2 & _), (upper_char_hex b Hb) as (Hb1 & Hb2 & _).
    rewrite upper_escapes_escape, upper_escapes_escape, Ha2, Hb2, IH; try done.
    cbn. by rewrite Hc, Ha1, Hb1.
  - rewrite percents_ok_plain by done. intros [Hc Hr]%andb_true_iff.
    rewrite (upper_escapes_plain c r), upper_escapes_plain, IH; try done.
    cbn. destruct (upper_escapes r) as [|? [|]]; [done..|]. by destruct (ch 37 c).
Qed.

Lemma upper_escapes_safe safe `{!SafeSet safe} s :
  str_forall safe s = true -> str_forall safe (upper_escapes s) = true.
Proof.
  induction s as [|c a b r He IH|c r He IH] using escape_ind; [done|..].
  - destruct (escape_digits _ _ _ _ He) as (_ & Ha & Hb). rewrite upper_escapes_escape by done.
    cbn. intros Hs. run_inv. rewrite IH by done.
    match goal with Hx : safe c = true |- _ => rewrite Hx end.
    destruct (upper_char_hex a Ha) as (_ & _ & Ha2 & _), (upper_char_hex b Hb) as (_ & _ & Hb2 & _).
    rewrite !safe_alnum; [done|by rewrite <- orb_assoc, Hb2, orb_true_r|by rewrite <- orb_assoc, Ha2, orb_true_r].
  - rewrite upper_escapes_plain by done. cbn. intros [-> Hr]%andb_true_iff. by apply IH.
Qed.

(** ** Whole URLs *)

(** NFC never maps text to nothing. *)
Class UnicodeLaws := nfc_nonempty : forall s, s <> "" -> u_nfc s <> "".

(** A path or query in canonical form. *)
Definition canonical_part (safe : Ascii.ascii -> bool) (s : string) : Prop :=
  str_forall safe s = true /\ percents_ok s = true /\ upper_escapes s = s.

(** The canonical spelling of a URL and its parts. *)
Record url_form (u scheme a path query : string) : Prop := {
  uf_text : u = scheme +:+ "://" +:+ a +:+ path +:+ (if String.eqb query "" then "" else "?" +:+ query);
  uf_scheme : mem scheme ["http"; "https"] = true;
  uf_authority : authority scheme a;
  uf_slash : startswith "/" path = true;
  uf_path : canonical_part path_safe path;
  uf_query : canonical_part query_safe query;
}.

(** Quoting, then canonicalizing escapes, gives a canonical part. *)
Lemma canonical_part_quote safe `{!SafeSet safe} s q r :
  url_quote safe s = Ok q -> _canonicalize_escapes q = Ok r -> canonical_part safe r /\ (s <> "" -> r <> "").
Proof.
  unfold url_quote, _canonicalize_escapes. intros Hq Hr. run_inv.
  destruct (has_surrogate s); [done|]. injection Hq as <-. subst r.
  split; [split; [|split]|].
  - by apply upper_escapes_safe, quote_bytes_safe.
  - by apply upper_escapes_percents.
  - by apply upper_escapes_idemp.
  - intros Hs. destruct s as [|c s]; [done|]. cbn.
    destruct (safe c); cbn [upper_escapes]; repeat case_match; done.
Qed.

(** A canonical part is quoted and canonicalized to itself. *)
Lemma canonical_part_ascii safe `{!SafeSet safe} s : canonical_part safe s -> isascii s = true.
Proof.
  intros [Hs _]. revert Hs. apply str_forall_weaken. intros c Hc%safe_range. lia.
Qed.

Lemma ascii_no_surrogate s : isascii s = true -> has_surrogate s = false.
Proof.
  unfold isascii. induction s as [|c s IH]; cbn; [done|]. intros [Hc Hs]%andb_true_iff.
  rewrite IH by done. assert (byte_of c =? 237 = false) as -> by lia. done.
Qed.

Lemma canonical_part_fixpoint safe `{!SafeSet safe} s :
  canonical_part safe s ->
  nfc s = s /\ url_quote safe s = Ok s /\ _canonicalize_escapes s = Ok s.
Proof.
  intros Hs. pose proof (canonical_part_ascii safe s Hs) as Ha. destruct Hs as (H1 & H2 & H3).
  unfold nfc, url_quote, _canonicalize_escapes.
  by rewrite Ha, ascii_no_surrogate, quote_bytes_id, H2, H3.
Qed.

Lemma scheme_cases scheme : mem scheme ["http"; "https"] = true -> scheme = "http" \/ scheme = "https".
Proof. intros Hs%mem_In. cbn in Hs. naive_solver. Qed.

(** Every character of a canonical URL is printable ASCII, no backslash, no hash. *)
Definition url_char (c : Ascii.ascii) : bool :=
  (32 <? byte_of c) && (byte_of c <? 127) && negb (ch 35 c) && negb (ch 92 c).

Lemma safe_url_char safe `{!SafeSet safe} s : str_forall safe s = true -> str_forall url_char s = true.
Proof.
  apply str_forall_weaken. intros c Hc%safe_range. unfold url_char, ch. lia.
Qed.

Lemma url_form_chars u scheme a path query :
  url_form u scheme a path query -> str_forall url_char u = true.
Proof.
  intros [-> Hs%scheme_cases Ha%authority_chars _ [Hp _] [Hq _]]. rewrite !str_forall_app.
  rewrite (safe_url_char path_safe path), (str_forall_weaken is_auth_char url_char a); try done.
  - assert (str_forall url_char (if String.eqb query "" then "" else "?" +:+ query) = true) as ->.
    { destruct (String.eqb query ""); [done|]. rewrite str_forall_app.
      by rewrite (safe_url_char query_safe query). }
    by destruct Hs as [-> | ->].
  - intros c. unfold is_auth_char, url_char. char_lia.
Qed.

Lemma url_chars_plain s :
  str_forall url_char s = true -> lstrip_c0 s = s /\ remove_breaks s = s.
Proof.
  intros Hs. split.
  - destruct s as [|c s]; [done|]. cbn in *. run_inv. unfold url_char in *. run_inv.
    assert (byte_of c <=? 32 = false) as -> by lia. done.
  - induction s as [|c s IH]; [done|]. cbn in *. run_inv. rewrite IH by done. unfold url_char, ch in *.
    assert ((byte_of c =? 9) || (byte_of c =? 10) || (byte_of c =? 13) = false) as -> by lia. done.
Qed.

Lemma span_app p s t :
  str_forall p s = true -> first_is p t = false -> span p (s +:+ t) = (s, t).
Proof.
  intros Hs Ht. induction s as [|c s IH]; cbn in *.
  - rewrite append_nil_l. destruct t as [|d t]; cbn in *; [done|]. by rewrite Ht.
  - apply andb_true_iff in Hs as [Hc Hs]. rewrite append_cons. cbn. by rewrite Hc, IH.
Qed.

Lemma partition_query path query :
  str_forall path_safe path = true ->
  partition 63 (path +:+ (if String.eqb query "" then "" else "?" +:+ query)) =
  (path, negb (String.eqb query ""), query).
Proof.
  intros Hp. assert (Hn : has_char 63 path = false).
  { apply (has_char_forall path_safe); [|done]. intros c Hc%path_safe_range. unfold ch. lia. }
  destruct (String.eqb_spec query "") as [->|Hq].
  - by rewrite append_nil_r, partition_absent.
  - change ("?" +:+ query) with (String (ascii_of 63) query).
    by rewrite (partition_app 63 path query) by (lia || done).
Qed.

Lemma auth_ascii a : str_forall is_auth_char a = true -> isascii a = true.
Proof. apply str_forall_weaken. intros c. unfold is_auth_char. char_lia. Qed.

Lemma auth_url_char a : str_forall is_auth_char a = true -> str_forall url_char a = true.
Proof. apply str_forall_weaken. intros c. unfold is_auth_char, url_char. char_lia. Qed.

(** [urlsplit] on a canonical scheme and clean authority followed by any clean text. *)
Lemma urlsplit_chars scheme a rest :
  mem scheme ["http"; "https"] = true -> str_forall is_auth_char a = true ->
  first_is (fun c => negb (is_netloc_end c)) rest = false -> str_forall url_char rest = true ->
  urlsplit (scheme +:+ "://" +:+ a +:+ rest) =
  let '(path, _, query) := partition 63 rest in Ok (mk_split scheme a path query).
Proof.
  intros Hs%scheme_cases Hac Hr Hc.
  assert (Hu : str_forall url_char (scheme +:+ "://" +:+ a +:+ rest) = true).
  { rewrite !str_forall_app, (auth_url_char a), Hc by done. by destruct Hs as [-> | ->]. }
  destruct (url_chars_plain _ Hu) as [H1 H2]. unfold urlsplit. rewrite H1, H2.
  assert (Hsp : split_scheme (scheme +:+ "://" +:+ a +:+ rest) = (scheme, "//" +:+ a +:+ rest)).
  { unfold split_scheme. by destruct Hs as [-> | ->]. }
  rewrite Hsp. cbv zeta.
  assert (Hst : forall x, startswith "//" ("//" +:+ x) = true) by (by intros []).
  assert (Htl : forall x, tail (tail ("//" +:+ x)) = x) by done. rewrite Hst, Htl, span_app.
  - rewrite (auth_no_char 91), (auth_no_char 93) by (cbn; auto 10). cbn [Bool.eqb negb andb].
    unfold netloc_ok. rewrite auth_ascii by done. by destruct (partition 63 rest) as [[? ?] ?].
  - revert Hac. apply str_forall_weaken. clear. intros c. unfold is_auth_char. char_lia.
  - done.
Qed.

Lemma urlsplit_text scheme a rest :
  mem scheme ["http"; "https"] = true -> authority scheme a ->
  first_is (fun c => negb (is_netloc_end c)) rest = false -> str_forall url_char rest = true ->
  urlsplit (scheme +:+ "://" +:+ a +:+ rest) =
  let '(path, _, query) := partition 63 rest in Ok (mk_split scheme a path query).
Proof. intros Hs Ha%authority_chars. by apply urlsplit_chars. Qed.

(** [urlsplit] recovers the parts of a canonical URL. *)
Lemma urlsplit_form u scheme a path query :
  url_form u scheme a path query -> urlsplit u = Ok (mk_split scheme a path query).
Proof.
  intros Hu. pose proof (url_form_chars _ _ _ _ _ Hu) as Hc.
  destruct Hu as [-> Hs Ha Hsl [Hp _] _]. rewrite !str_forall_app in Hc. run_inv.
  rewrite urlsplit_text, partition_query; try done.
  - by apply startswith_char in Hsl as [r ->].
  - rewrite str_forall_app. by apply andb_true_iff.
Qed.

(** ASCII text is not stripped of wide spaces. *)
Lemma ascii_not_stripped s : isascii s = true -> strips s = false.
Proof.
  intros Hs. unfold strips. apply existsb_false.
  assert (Hw : Forall (fun w => isascii w = false) wide_spaces) by (vm_compute; repeat constructor).
  eapply Forall_impl; [exact Hw|]. cbn. intros w Hw'. apply orb_false_iff. split.
  - destruct (startswith w s) eqn:E; [|done]. unfold isascii in *. by rewrite (startswith_forall _ _ _ E Hs) in Hw'.
  - destruct (endswith w s) eqn:E; [|done]. unfold isascii in *. by rewrite (endswith_forall _ _ _ E Hs) in Hw'.
Qed.

Lemma check_url_text_chars u :
  u <> "" -> str_forall url_char u = true -> py_len u <= MAX_URL_LENGTH -> check_url_text u = Ok tt.
Proof.
  intros Hne Hc Hl. unfold check_url_text.
  rewrite (proj2 (String.eqb_neq u "") Hne), (proj2 (Z.ltb_ge _ _)) by lia.
  rewrite ascii_not_stripped by (revert Hc; apply str_forall_weaken; intros c; unfold url_char; lia).
  rewrite (has_char_forall url_char 92), (has_char_forall url_char 35); try done;
    try (intros c; unfold url_char, ch; lia).
  assert (str_exists (fun c => (byte_of c <=? 32) || ch 127 c) u = false) as ->; [|done].
  clear -Hc. induction u as [|c u IH]; cbn in *; [done|]. run_inv. rewrite IH by done.
  unfold url_char, ch in *. lia.
Qed.

Lemma scheme_nonempty scheme s : mem scheme ["http"; "https"] = true -> scheme +:+ s <> "".
Proof. by intros [-> | ->]%scheme_cases. Qed.

(** What an accepted URL is. *)
Lemma normalize_url_form `{!UnicodeLaws} v u :
  normalize_url v = Ok u ->
  exists scheme a path query, url_form u scheme a path query /\ py_len u <= MAX_URL_LENGTH.
Proof.
  unfold normalize_url. intros Hu. destruct v as [| | | |s| | |]; try done. run_inv.
  destruct (urlsplit s) as [[scheme netloc p q]|]; [|done]. cbn [p_scheme p_netloc p_path p_query] in Hu.
  cbv zeta in Hu. run_inv. rename x0 into a, x3 into path, x4 into query.
  match goal with Ha : url_authority _ _ = _ |- _ => apply url_authority_canonical in Ha as [Hs Ha] end.
  match goal with H1 : url_quote path_safe _ = Ok ?x, H2 : _canonicalize_escapes ?x = Ok path |- _ =>
    destruct (canonical_part_quote path_safe _ _ _ H1 H2) as [Hp Hne] end.
  match goal with H1 : url_quote query_safe _ = Ok ?x, H2 : _canonicalize_escapes ?x = Ok query |- _ =>
    destruct (canonical_part_quote query_safe _ _ _ H1 H2) as [Hq _] end.
  assert (Hpath : path <> "").
  { apply Hne. unfold nfc. destruct (String.eqb_spec p "") as [|Hp0]; [done|].
    destruct (isascii p); [done|]. by apply nfc_nonempty. }
  rewrite Z.ltb_ge in *. subst u. unfold urlunsplit.
  rewrite (proj2 (String.eqb_neq path "") Hpath). cbn [negb andb].
  destruct (startswith "/" path) eqn:Hsl; cbn [negb].
  - exists (ascii_lower scheme), a, path, query. rewrite append_nil_l. split; [by split|].
    unfold urlunsplit in *. by rewrite (proj2 (String.eqb_neq path "") Hpath), Hsl, append_nil_l in *.
  - exists (ascii_lower scheme), a, ("/" +:+ path), query. rewrite <- (append_assoc "/" path).
    split; [split; try done|].
    + by destruct path.
    + destruct Hp as (P1 & P2 & P3). split; [|split].
      * rewrite str_forall_app. by rewrite P1.
      * change ("/" +:+ path) with (String "/" path). cbn. by rewrite P2.
      * change ("/" +:+ path) with (String "/" path). rewrite upper_escapes_plain; [by rewrite P3|].
        by destruct path as [|? []].
    + unfold urlunsplit in *. rewrite (proj2 (String.eqb_neq path "") Hpath), Hsl in *. done.
Qed.

(** A canonical URL is its own normal form. *)
Lemma normalize_url_fixpoint u scheme a path query :
  url_form u scheme a path query -> py_len u <= MAX_URL_LENGTH -> normalize_url (VStr u) = Ok u.
Proof.
  intros Hu Hl. cbn [normalize_url]. rewrite check_url_text_chars; [..|done].
  2: { destruct Hu as [-> Hs _ _ _ _]. by apply scheme_nonempty. }
  2: by eapply url_form_chars.
  cbn [mbind res_bind]. rewrite (urlsplit_form _ _ _ _ _ Hu). cbn [p_scheme p_netloc p_path p_query].
  destruct Hu as [Ht Hs Ha Hsl Hp Hq]. cbv zeta.
  assert (ascii_lower scheme = scheme) as -> by (by destruct (scheme_cases _ Hs) as [-> | ->]).
  rewrite url_authority_fixpoint by done. cbn [mbind res_bind].
  assert (Hne : String.eqb path "" = false) by by destruct path.
  destruct (canonical_part_fixpoint path_safe path Hp) as (P1 & P2 & P3).
  destruct (canonical_part_fixpoint query_safe query Hq) as (Q1 & Q2 & Q3).
  rewrite Hne, P1, P2, Q1, Q2. cbn [mbind res_bind]. rewrite P3, Q3. cbn [mbind res_bind].
  unfold urlunsplit. rewrite Hne, Hsl. cbn [negb andb]. rewrite append_nil_l, <- Ht.
  by rewrite (proj2 (Z.ltb_ge _ _)).
Qed.

(** The origin of an accepted URL, from its parts. *)
Lemma origin_for_url_form `{!UnicodeLaws} v o :
  origin_for_url v = Ok o <->
  exists u scheme a path query, normalize_url v = Ok u /\ url_form u scheme a path query /\
    o = scheme +:+ "://" +:+ a.
Proof.
  unfold origin_for_url. split.
  - intros Ho. run_inv. match goal with Hn : normalize_url v = Ok ?x |- _ =>
      rename x into u; destruct (normalize_url_form v u Hn) as (sc & a & p & q & Hf & _) end.
    exists u, sc, a, p, q. split; [done|]. split; [done|].
    match goal with Hs : urlsplit u = _ |- _ => rewrite (urlsplit_form _ _ _ _ _ Hf) in Hs end.
    by simplify_eq.
  - intros (u & sc & a & p & q & Hn & Hf & ->). rewrite Hn. cbn [mbind res_bind].
    by rewrite (urlsplit_form _ _ _ _ _ Hf).
Qed.

(** The origin of a canonical URL normalizes to itself with path "/". *)
Lemma origin_normalizes u scheme a path query :
  url_form u scheme a path query -> py_len u <= MAX_URL_LENGTH ->
  url_form (scheme +:+ "://" +:+ a +:+ "/") scheme a "/" "" /\
  normalize_url (VStr (scheme +:+ "://" +:+ a)) = Ok (scheme +:+ "://" +:+ a +:+ "/").
Proof.
  intros [Ht Hs Ha Hsl _ _] Hl. pose proof (authority_chars _ _ Ha) as Hac.
  assert (Hf : url_form (scheme +:+ "://" +:+ a +:+ "/") scheme a "/" "") by (by split).
  split; [done|].
  assert (Hlen : py_len (scheme +:+ "://" +:+ a +:+ "/") <= MAX_URL_LENGTH).
  { apply startswith_char in Hsl as [r ->]. etrans; [|exact Hl]. rewrite Ht, !py_len_app.
    change (py_len (String "/" r)) with (1 + py_len r). change (py_len "/") with 1.
    pose proof (py_len_nonneg r).
    pose proof (py_len_nonneg (if String.eqb query "" then "" else "?" +:+ query)). lia. }
  pose proof (normalize_url_fixpoint _ _ _ _ _ Hf Hlen) as Hfix. cbn [normalize_url] in *.
  pose proof (url_form_chars _ _ _ _ _ Hf) as Hfc. rewrite !str_forall_app in Hfc.
  apply andb_true_iff in Hfc as [F1 [F2 [F3 _]%andb_true_iff]%andb_true_iff].
  rewrite check_url_text_chars in Hfix; [..|done]; [|by apply scheme_nonempty|by eapply url_form_chars].
  rewrite check_url_text_chars; [|by apply scheme_nonempty|..].
  - cbn [mbind res_bind] in *. rewrite (urlsplit_form _ _ _ _ _ Hf) in Hfix.
    pose proof (urlsplit_text scheme a "" Hs Ha) as Hsp. rewrite append_nil_r in Hsp.
    rewrite Hsp by done. exact Hfix.
  - by rewrite !str_forall_app, F1, F2, F3.
  - revert Hlen. rewrite !py_len_app. change (py_len "/") with 1. lia.
Qed.

Lemma origin_fixpoint `{!UnicodeLaws} v o :
  origin_for_url v = Ok o -> normalize_origin (VStr o) = Ok o.
Proof.
  intros (u & sc & a & p & q & Hn & Hf & ->)%origin_for_url_form.
  destruct (normalize_url_form v u Hn) as (_ & _ & _ & _ & _ & Hl).
  destruct (origin_normalizes _ _ _ _ _ Hf Hl) as [Ho Hno].
  destruct Hf as [_ Hs%scheme_cases Ha%authority_chars _ _ _].
  unfold normalize_origin. cbn [is_str str_of negb orb]. rewrite !has_char_app.
  rewrite (auth_no_char 63 a), (auth_no_char 35 a) by first [done | cbn; auto 10].
  assert (forall z, In z [63; 35] -> has_char z sc = false /\ has_char z "://" = false) as Hz.
  { intros z Hz. cbn in Hz. by destruct Hs as [-> | ->], Hz as [<-|[<-|[]]]. }
  destruct (Hz 63) as [-> ->]; [cbn; auto|]. destruct (Hz 35) as [-> ->]; [cbn; auto|].
  cbn [orb okb raise_if]. rewrite Hno. cbn [mbind res_bind].
  by rewrite (urlsplit_form _ _ _ _ _ Ho).
Qed.

(** ** The properties *)

(** C36: an accepted URL is canonical and names a public destination: its scheme
    is http or https, its host is a DNS name of at least two well-formed labels
    that is not an IP literal, not a numeric spelling and not under a private
    suffix, its port is in range and not the default one, its path and query
    are percent-encoded ASCII, and the whole has no control character, space,
    backslash or fragment and is at most 4096 characters long. *)
Theorem normalize_url_public `{!UnicodeLaws} (v : pyval) (u : string) :
  normalize_url v = Ok u ->
  str_forall url_char u = true /\ py_len u <= MAX_URL_LENGTH /\
  exists scheme a path query host,
    url_form u scheme a path query /\ hostname_of a = Some host /\
    public_host host /\ ip_address host = None /\ has_char 64 a = false.
Proof.
  intros (sc & a & p & q & Hf & Hl)%normalize_url_form. split; [by eapply url_form_chars|].
  split; [done|]. pose proof (uf_authority _ _ _ _ _ Hf) as Ha.
  destruct (authority_split _ _ Ha) as (h & port & Hh & Hi & _ & _ & _).
  exists sc, a, p, q, h. split; [done|]. split.
  - unfold hostname_of. rewrite Hi. cbn [fst].
    rewrite (proj2 (String.eqb_neq h "")) by by apply host_nonempty.
    rewrite partition_absent by (apply host_no_char; [by apply public_host_chars|cbn; auto]).
    by rewrite lower_host, !append_nil_r.
  - split; [done|]. split; [by apply public_host_not_ip|].
    apply auth_no_char; [by eapply authority_chars|cbn; auto 10].
Qed.

(** canonicalization is idempotent: an accepted URL is accepted again,
    unchanged, so two stages that normalize independently agree. *)
Theorem normalize_url_idempotent `{!UnicodeLaws} (v : pyval) (u : string) :
  normalize_url v = Ok u -> normalize_url (VStr u) = Ok u.
Proof.
  intros (sc & a & p & q & Hf & Hl)%normalize_url_form. by eapply normalize_url_fixpoint.
Qed.

(** authorization compares canonical origins: the origin computed for a
    URL is its own canonical form, and a URL is authorized by a list of origins
    exactly when one of them has that canonical form. *)
Theorem is_authorized_url_spec `{!UnicodeLaws} (v : pyval) (o : string) (origins : list pyval)
    (allowed : list string) :
  origin_for_url v = Ok o -> map_res normalize_origin origins = Ok allowed ->
  normalize_origin (VStr o) = Ok o /\
  is_authorized_url v [VStr o] = Ok true /\
  (is_authorized_url v origins = Ok true <->
   exists x, In x origins /\ normalize_origin x = Ok o).
Proof.
  intros Ho Hl. pose proof (origin_fixpoint v o Ho) as Hfix. split; [done|].
  unfold is_authorized_url. rewrite Ho, Hl. cbn [mbind res_bind]. split.
  - cbn [map_res]. rewrite Hfix. cbn [mbind res_bind]. unfold mem. cbn [existsb]. by rewrite String.eqb_refl.
  - rewrite <- (map_res_In _ _ _ _ Hl), <- mem_In. split; [by intros [= ->]|by intros ->].
Qed.

End facts.

#[global] Instance ascii_unicode_laws : @UnicodeLaws ascii_unicode.
Proof. by intros s. Qed.

Lemma normalize_url_public_witness :
  str_forall url_char "https://a.example.com:8443/p%2Fq?x=1" = true.
Proof.
  by destruct (@normalize_url_public ascii_unicode _ (VStr "HTTPS://A.Example.com:8443/p%2fq?x=1") _
    ltac:(vm_compute; reflexivity)).
Defined.

Lemma normalize_url_idempotent_witness :
  @normalize_url ascii_unicode (VStr "http://b.example.org/?a=%20") = Ok "http://b.example.org/?a=%20".
Proof.
  apply (@normalize_url_idempotent ascii_unicode _ (VStr "HTTP://b.example.org:80?a=%20")).
  vm_compute. reflexivity.
Defined.

Lemma is_authorized_url_spec_witness :
  @is_authorized_url ascii_unicode (VStr "https://c.example.net:443/login") [VStr "https://c.example.net"]
  = Ok true.
Proof.
  destruct (@is_authorized_url_spec ascii_unicode _ (VStr "https://c.example.net:443/login")
    "https://c.example.net" [VStr "HTTPS://C.example.net/"] ["https://c.example.net"]
    ltac:(vm_compute; reflexivity) ltac:(vm_compute; reflexivity)) as (_ & Hw & _).
  exact Hw.
Defined.
