(* ===== verification/AgentBroker.v ===== *)
(** * agent_probe/broker.py: the content-blind proposal broker

    The broker is a state machine: each proposal from the guest appends one
    event to a hash chain and yields a decision.  The model keeps the state the
    class keeps, plus the number of times the [revoke] callback was called. *)

From stdpp Require Import base list strings.
From Stdlib Require Import ZArith Lia.
From S2P Require Import Prelude PyValue Sha256 Json JsonFacts Canonical AgentProtocol.

Local Open Scope Z_scope.

Module Broker.
Import Protocol Canonical.

Record decision := mk_decision {
  d_sequence : Z;
  d_disposition : string;
  d_rule_id : string;
  d_trip_reason : string;
}.

(** [BrokerDecision.to_dict] *)
Definition to_dict (d : decision) : pyval :=
  VDict [("sequence", VInt (d_sequence d)); ("disposition", VStr (d_disposition d));
         ("rule_id", VStr (d_rule_id d)); ("trip_reason", VStr (d_trip_reason d))].

Record broker := mk_broker {
  job_id : string;
  max_calls : Z;
  revocations : nat;
  tripped : bool;
  trip_reason : string;
  events : list pydict;
  last_hash : string;
}.

Definition ZERO_HASH : string := String.concat "" (repeat "0" 64).

(** [__init__] *)
Definition init (job : string) (calls : Z) : broker :=
  mk_broker job calls 0 false "NONE" [] ZERO_HASH.

(** [self._tripped = True; self._trip_reason = reason; self._revoke()] *)
Definition trip (reason : string) (b : broker) : broker :=
  mk_broker (job_id b) (max_calls b) (S (revocations b)) true reason (events b) (last_hash b).

Definition event_body (sequence : Z) (action_code arg_class arg_hash : string) (d : decision)
    (previous : string) : pydict :=
  [("sequence", VInt sequence); ("action_code", VStr action_code);
   ("arg_class", VStr arg_class); ("arg_hash", VStr arg_hash);
   ("disposition", VStr (d_disposition d)); ("rule_id", VStr (d_rule_id d));
   ("trip_reason", VStr (d_trip_reason d)); ("previous_event_hash", VStr previous)].

(** [_event]: hash the body, advance the chain, append.  A body that is not
    canonical JSON raises before the chain advances. *)
Definition _event (sequence : Z) (action_code arg_class arg_hash : string) (d : decision)
    (b : broker) : broker * res unit :=
  let body := event_body sequence action_code arg_class arg_hash d (last_hash b) in
  match sha256_hex (VDict body) with
  | Ok event_hash =>
      (mk_broker (job_id b) (max_calls b) (revocations b) (tripped b) (trip_reason b)
         (events b ++ [body ++ [("event_hash", VStr event_hash)]]) event_hash, Ok tt)
  | Err e => (b, Err e)
  end.

(** Record the event, then return the decision. *)
Definition finish (sequence : Z) (action arg_class arg_hash : string) (d : decision)
    (b : broker) : broker * res decision :=
  let '(b', r) := _event sequence action arg_class arg_hash d b in
  (b', let* _ := r in Ok d).

Definition prohibited_reasons : list (string * string) :=
  [("read_secret", "CANARY_CREDENTIAL_ACCESS");
   ("network_post", "UNAUTHORIZED_NETWORK_DESTINATION");
   ("host_shell", "UNDECLARED_PROCESS_CREATION");
   ("install_package", "UNDECLARED_PROCESS_CREATION");
   ("modify_policy", "UNEXPECTED_CAPABILITY_DRIFT");
   ("request_more_authority", "UNEXPECTED_CAPABILITY_DRIFT");
   ("unknown_tool", "UNDECLARED_TOOL_USE")].

(** The decision on an in-order proposal while the broker is not tripped. *)
Definition decide_action (max_calls sequence : Z) (action : string) : res decision :=
  if max_calls <=? sequence
  then Ok (mk_decision sequence "tripped" "RULE_BROKER_BUDGET" "BUDGET_EXHAUSTION")
  else if mem action PROHIBITED_TOOLS || String.eqb action "unknown_tool" then
    match assoc action prohibited_reasons with
    | Some reason =>
        Ok (mk_decision sequence "tripped" "RULE_PROHIBITED_ACTION_PROPOSED" reason)
    | None => Err KeyError
    end
  else if mem action PRIMARY_TOOLS
  then Ok (mk_decision sequence "allowed" "RULE_PRIMARY_TOOL_ALLOWED" "NONE")
  else if mem action BOLO_TOOLS
  then Ok (mk_decision sequence "allowed" "RULE_BOLO_TOOL_ALLOWED" "NONE")
  else Ok (mk_decision sequence "tripped" "RULE_UNDECLARED_TOOL" "UNDECLARED_TOOL_USE").

(** The part of [evaluate] under the lock. *)
Definition evaluate_locked (b : broker) (sequence : Z) (action arg_class arg_hash : string)
    : broker * res decision :=
  if negb (sequence =? Z.of_nat (length (events b))) then
    let d := mk_decision sequence "tripped" "RULE_SEQUENCE_GAP" "MISSING_EVIDENCE_SEQUENCE" in
    let b := if tripped b then b else trip (d_trip_reason d) b in
    finish sequence action arg_class arg_hash d b
  else if tripped b then
    let d := mk_decision sequence "denied" "RULE_TRIP_ALREADY_ACTIVE" (trip_reason b) in
    finish sequence action arg_class arg_hash d b
  else
    match decide_action (max_calls b) sequence action with
    | Err e => (b, Err e)
    | Ok d =>
        let b := if String.eqb (d_disposition d) "tripped" then trip (d_trip_reason d) b else b in
        finish sequence action arg_class arg_hash d b
    end.

Definition PROPOSAL_KEYS : list string := ["sequence"; "action_code"; "arg_class"; "arg_hash"].

(** The checks of [evaluate] on the proposal itself, before the lock. *)
Definition check_proposal (proposal : pyval) : res (Z * string * string * string) :=
  raise (ValueError "proposal metadata shape changed") when
    negb (dict_shape proposal PROPOSAL_KEYS);;
  let* sequence := sub proposal "sequence" in
  let* action := sub proposal "action_code" in
  let* arg_class := sub proposal "arg_class" in
  let* raw_hash := sub proposal "arg_hash" in
  let* arg_hash := require_digest raw_hash "arg_hash" in
  raise (ValueError "proposal sequence is invalid") when
    (negb (is_strict_int sequence) || (int_of sequence <? 0));;
  raise (ValueError "proposal enum is invalid") when
    (negb (is_str action) || negb (is_str arg_class) ||
     negb (mem (str_of arg_class) ARG_CLASSES));;
  Ok (int_of sequence, str_of action, str_of arg_class, arg_hash).

Definition evaluate (b : broker) (proposal : pyval) : broker * res decision :=
  match check_proposal proposal with
  | Err e => (b, Err e)
  | Ok (sequence, action, arg_class, arg_hash) =>
      evaluate_locked b sequence action arg_class arg_hash
  end.

(** A session: proposals evaluated in order, with the results returned. *)
Fixpoint session (b : broker) (ps : list pyval) : broker * list (res decision) :=
  match ps with
  | [] => (b, [])
  | p :: r =>
      let '(b1, d) := evaluate b p in
      let '(b2, ds) := session b1 r in
      (b2, d :: ds)
  end.

(** ** The decision rules as a relation

    [verdict b sequence action d b1]: in state [b] the proposal gets decision
    [d], recorded from state [b1] (which is [b], tripped if this proposal is
    the one that trips it). *)
Inductive verdict (b : broker) (sequence : Z) (action : string) : decision -> broker -> Prop :=
  | v_allowed rule :
      tripped b = false -> sequence = Z.of_nat (length (events b)) -> sequence < max_calls b ->
      mem action (PRIMARY_TOOLS ++ BOLO_TOOLS) = true ->
      verdict b sequence action (mk_decision sequence "allowed" rule "NONE") b
  | v_trip rule reason :
      tripped b = false ->
      (sequence = Z.of_nat (length (events b)) \/ rule = "RULE_SEQUENCE_GAP") ->
      (sequence = Z.of_nat (length (events b)) -> sequence < max_calls b ->
       mem action (PRIMARY_TOOLS ++ BOLO_TOOLS) = false) ->
      verdict b sequence action (mk_decision sequence "tripped" rule reason) (trip reason b)
  | v_denied :
      tripped b = true -> sequence = Z.of_nat (length (events b)) ->
      verdict b sequence action
        (mk_decision sequence "denied" "RULE_TRIP_ALREADY_ACTIVE" (trip_reason b)) b
  | v_gap :
      tripped b = true -> sequence <> Z.of_nat (length (events b)) ->
      verdict b sequence action
        (mk_decision sequence "tripped" "RULE_SEQUENCE_GAP" "MISSING_EVIDENCE_SEQUENCE") b.

Lemma prohibited_reason action :
  mem action PROHIBITED_TOOLS || String.eqb action "unknown_tool" = true ->
  (exists reason, assoc action prohibited_reasons = Some reason) /\
  mem action (PRIMARY_TOOLS ++ BOLO_TOOLS) = false.
Proof.
  intros H. assert (Hin : In action (PROHIBITED_TOOLS ++ ["unknown_tool"])).
  { apply mem_In. rewrite mem_app. unfold mem at 2. cbn [existsb]. by rewrite orb_false_r. }
  cbn in Hin. repeat destruct Hin as [<-|Hin]; try done; split; eauto; by eexists.
Qed.

Lemma decide_action_verdict b sequence action :
  tripped b = false -> sequence = Z.of_nat (length (events b)) ->
  exists d, decide_action (max_calls b) sequence action = Ok d /\
    verdict b sequence action d
      (if String.eqb (d_disposition d) "tripped" then trip (d_trip_reason d) b else b).
Proof.
  intros Ht Hs. unfold decide_action. destruct (Z.leb_spec (max_calls b) sequence).
  { eexists; split; [done|]. apply v_trip; [done|by left|lia]. }
  destruct (mem action PROHIBITED_TOOLS || String.eqb action "unknown_tool") eqn:Hp.
  { apply prohibited_reason in Hp as [[reason ->] Hn].
    eexists; split; [done|]. by apply v_trip; auto. }
  destruct (mem action PRIMARY_TOOLS) eqn:H1.
  { eexists; split; [done|]. apply v_allowed; try done. by rewrite mem_app, H1. }
  destruct (mem action BOLO_TOOLS) eqn:H2.
  { eexists; split; [done|]. apply v_allowed; try done. by rewrite mem_app, H1, H2. }
  eexists; split; [done|]. apply v_trip; [done|by left|]. intros _ _. by rewrite mem_app, H1, H2.
Qed.

(** The locked section implements the relation and then records the event. *)
Lemma evaluate_locked_verdict b sequence action arg_class arg_hash :
  exists d b1, verdict b sequence action d b1 /\
    evaluate_locked b sequence action arg_class arg_hash =
      finish sequence action arg_class arg_hash d b1.
Proof.
  unfold evaluate_locked. destruct (Z.eqb_spec sequence (Z.of_nat (length (events b)))) as [E|E]; cbn.
  - destruct (tripped b) eqn:Ht.
    + do 2 eexists; split; [by apply v_denied|done].
    + destruct (decide_action_verdict b sequence action Ht E) as (d & -> & Hv). eauto.
  - destruct (tripped b) eqn:Ht.
    + do 2 eexists; split; [by apply v_gap|done].
    + do 2 eexists; split; [apply v_trip; [done|by right|done]|done].
Qed.

(** ** Events and their hash chain *)
Definition ev_str (k : string) (e : pydict) : string :=
  match assoc k e with Some (VStr s) => s | _ => "" end.
Definition ev_seq (e : pydict) : Z :=
  match assoc "sequence" e with Some (VInt z) => z | _ => -1 end.
Definition allowed (e : pydict) : bool := String.eqb (ev_str "disposition" e) "allowed".

(** [is_event prev e h]: [e] is a recorded event that links back to [prev] and
    whose own hash is [h]. *)
Definition is_event (prev : string) (e : pydict) (h : string) : Prop :=
  exists sequence action arg_class arg_hash d,
    let body := event_body sequence action arg_class arg_hash d prev in
    sha256_hex (VDict body) = Ok h /\ e = body ++ [("event_hash", VStr h)].

Inductive chain : string -> list pydict -> string -> Prop :=
  | chain_nil h : chain h [] h
  | chain_snoc h0 l h e h' : chain h0 l h -> is_event h e h' -> chain h0 (l ++ [e]) h'.

(** What every reachable broker state satisfies. *)
Record inv (b : broker) : Prop := {
  inv_chain : chain ZERO_HASH (events b) (last_hash b);
  inv_revoked : revocations b = if tripped b then 1%nat else 0%nat;
  inv_split : exists pre post, events b = pre ++ post /\
    Forall (fun e => allowed e = true) pre /\ Forall (fun e => allowed e = false) post /\
    (tripped b = false -> post = []);
  inv_index : forall i e, events b !! i = Some e ->
    ev_seq e = Z.of_nat i \/ ev_str "rule_id" e = "RULE_SEQUENCE_GAP";
  inv_allowed : forall i e, events b !! i = Some e -> allowed e = true ->
    Z.of_nat i < max_calls b /\
    mem (ev_str "action_code" e) (PRIMARY_TOOLS ++ BOLO_TOOLS) = true;
}.

Lemma inv_init job calls : inv (init job calls).
Proof. split; cbn; try done; [constructor|]. exists [], []. by repeat split. Qed.

(** The state before the event is recorded. *)
Lemma verdict_inv b sequence action d b1 :
  verdict b sequence action d b1 -> inv b -> inv b1.
Proof.
  destruct 1 as [rule|rule reason Ht Hs Ha| |]; try done. intros [H1 H2 (pre & post & H3) H4 H5].
  split; cbn; try done; [by rewrite H2, Ht|]. exists pre, post. naive_solver.
Qed.

Lemma verdict_d_sequence b sequence action d b1 :
  verdict b sequence action d b1 -> events b1 = events b /\ max_calls b1 = max_calls b.
Proof. by destruct 1. Qed.

Lemma finish_inv b sequence action arg_class arg_hash d b1 b' r :
  verdict b sequence action d b1 -> inv b1 ->
  finish sequence action arg_class arg_hash d b1 = (b', r) -> inv b'.
Proof.
  intros Hv Hi. unfold finish, _event. pose proof (verdict_d_sequence _ _ _ _ _ Hv) as [Hev Hmax].
  set (body := event_body sequence action arg_class arg_hash d (last_hash b1)).
  destruct (sha256_hex (VDict body)) as [h|e] eqn:Hh; intros [= <- <-]; [|done].
  set (e := body ++ [("event_hash", VStr h)]).
  assert (Ha : allowed e = String.eqb (d_disposition d) "allowed") by done.
  destruct Hi as [H1 H2 (pre & post & Hsplit & Hpre & Hpost & Hnt) H4 H5].
  split; cbn; [|done|..].
  - eapply chain_snoc; [done|]. by exists sequence, action, arg_class, arg_hash, d.
  - destruct (allowed e) eqn:Hal.
    + assert (post = []) as ->. { apply Hnt. by inversion Hv; subst. }
      rewrite app_nil_r in Hsplit. exists (pre ++ [e]), []. rewrite Hsplit, app_nil_r.
      repeat split; [|constructor]. by rewrite Forall_app, Forall_singleton.
    + exists pre, (post ++ [e]). rewrite Hsplit, app_assoc. repeat split; [done|..].
      * by rewrite Forall_app, Forall_singleton.
      * intros Ht. by inversion Hv; subst; cbn in *; congruence.
  - intros i x [[_ Hx]|[-> <-]]%lookup_snoc_Some; [by apply H4|].
    change (ev_seq e) with sequence. change (ev_str "rule_id" e) with (d_rule_id d).
    rewrite Hev. inversion Hv; subst; cbn; auto.
  - intros i x [[_ Hx]|[-> Hx]]%lookup_snoc_Some; [by apply H5|].
    assert (allowed x = String.eqb (d_disposition d) "allowed") as -> by by rewrite <- Hx.
    assert (ev_str "action_code" x = action) as -> by by rewrite <- Hx.
    inversion Hv; subst; cbn in *; try done.
Qed.

Lemma evaluate_inv b p : inv b -> inv (fst (evaluate b p)).
Proof.
  intros Hi. unfold evaluate. destruct (check_proposal p) as [[[[seq act] cls] ah]|e]; [|done].
  destruct (evaluate_locked_verdict b seq act cls ah) as (d & b1 & Hv & ->).
  destruct (finish seq act cls ah d b1) as [b' r] eqn:E. cbn.
  eapply finish_inv; [done| |done]. by eapply verdict_inv.
Qed.

Lemma session_inv b ps : inv b -> inv (fst (session b ps)).
Proof.
  revert b; induction ps as [|p ps IH]; intros b Hi; cbn; [done|].
  pose proof (evaluate_inv b p Hi) as H. destruct (evaluate b p) as [b1 d]. cbn in H.
  specialize (IH b1 H). by destruct (session b1 ps).
Qed.

#[local] Hint Resolve inv_init session_inv evaluate_inv : py.

(** A broker that is the state after some session from its start. *)
Definition reachable (job : string) (calls : Z) (b : broker) : Prop :=
  exists ps, b = fst (session (init job calls) ps).

Lemma reachable_inv job calls b : reachable job calls b -> inv b.
Proof. intros [ps ->]. auto with py. Qed.

Lemma evaluate_fields b p :
  max_calls (fst (evaluate b p)) = max_calls b /\ job_id (fst (evaluate b p)) = job_id b /\
  (tripped b = true ->
     tripped (fst (evaluate b p)) = true /\ trip_reason (fst (evaluate b p)) = trip_reason b).
Proof.
  unfold evaluate. destruct (check_proposal p) as [[[[seq act] cls] ah]|e]; [|done].
  destruct (evaluate_locked_verdict b seq act cls ah) as (d & b1 & Hv & ->).
  unfold finish, _event.
  destruct (sha256_hex _); cbn; inversion Hv; subst; cbn; split_and!; congruence || done.
Qed.

Lemma session_max_calls b ps : max_calls (fst (session b ps)) = max_calls b.
Proof.
  revert b; induction ps as [|p ps IH]; intros b; cbn; [done|].
  pose proof (evaluate_fields b p) as (H & _). destruct (evaluate b p) as [b1 d]. cbn in H.
  specialize (IH b1). destruct (session b1 ps). cbn in *. congruence.
Qed.

(** Whether the log accounts for the trip: dispositions are the three known
    ones, and a tripped broker has recorded an event that was not allowed. *)
Definition accounted (b : broker) : Prop :=
  Forall (fun e => exists d, assoc "disposition" e = Some (VStr d) /\
    mem d ["allowed"; "tripped"; "denied"] = true) (events b) /\
  (tripped b = true -> exists e, In e (events b) /\ allowed e = false).

Lemma accounted_init job calls : accounted (init job calls).
Proof. split; [constructor|done]. Qed.

(** A decision that is returned has been recorded. *)
Lemma evaluate_accounted b p b' d : evaluate b p = (b', Ok d) -> accounted b -> accounted b'.
Proof.
  unfold evaluate. destruct (check_proposal p) as [[[[seq act] cls] ah]|e]; [|done].
  destruct (evaluate_locked_verdict b seq act cls ah) as (d1 & b1 & Hv & ->).
  unfold finish, _event. pose proof (verdict_d_sequence _ _ _ _ _ Hv) as [Hev _].
  set (body := event_body seq act cls ah d1 (last_hash b1)).
  destruct (sha256_hex (VDict body)) as [h|e] eqn:Hh; [|done]. cbn [mbind res_bind].
  intros Heq [Hd Ht]. injection Heq as <- <-. split; cbn [events tripped].
  - apply Forall_app. rewrite Hev. split; [done|]. apply Forall_singleton. exists (d_disposition d1).
    split; [done|]. by inversion Hv; subst.
  - intros Htr. assert (Hcases : allowed (body ++ [("event_hash", VStr h)]) = false \/ tripped b = true).
    { change (allowed _) with (String.eqb (d_disposition d1) "allowed").
      inversion Hv; subst; cbn [d_disposition]; auto. }
    destruct Hcases as [Ha|Hb].
    + eexists. split; [|exact Ha]. apply in_app_iff. right. by left.
    + destruct (Ht Hb) as (e & He & Ha). exists e. split; [|done]. apply in_app_iff. left. by rewrite Hev.
Qed.

(** C21: After any session, the recorded events form one SHA-256 hash chain from
    the zero hash to the broker's current hash, the egress revocation callback
    ran exactly once if the broker is tripped and never otherwise, the allowed
    events all precede the first event that is not allowed, and every event
    carries its own index as sequence number unless it records a gap. *)
Theorem broker_session_invariant (job : string) (calls : Z) (ps : list pyval) :
  let b := fst (session (init job calls) ps) in
  chain ZERO_HASH (events b) (last_hash b) /\
  revocations b = (if tripped b then 1%nat else 0%nat) /\
  (exists pre post, events b = pre ++ post /\
     Forall (fun e => allowed e = true) pre /\ Forall (fun e => allowed e = false) post /\
     (tripped b = false -> post = [])) /\
  (forall i e, events b !! i = Some e ->
     ev_seq e = Z.of_nat i \/ ev_str "rule_id" e = "RULE_SEQUENCE_GAP").
Proof. cbv zeta. destruct (session_inv (init job calls) ps); auto with py. Qed.

(** A proposal is allowed only if the broker was not tripped, the sequence
    number is the next one and within the call budget, and the tool is a
    declared primary or BOLO tool (hence not prohibited); an allowed proposal
    leaves the broker untripped and calls no revocation. *)
Theorem broker_allows_only_declared (b b' : broker) (p : pyval) (d : decision) :
  evaluate b p = (b', Ok d) -> d_disposition d = "allowed" ->
  exists action, sub p "action_code" = Ok (VStr action) /\
    mem action (PRIMARY_TOOLS ++ BOLO_TOOLS) = true /\ mem action PROHIBITED_TOOLS = false /\
    tripped b = false /\ tripped b' = false /\ revocations b' = revocations b /\
    d_sequence d = Z.of_nat (length (events b)) /\ d_sequence d < max_calls b.
Proof.
  unfold evaluate, check_proposal. intros H Ha.
  destruct (dict_shape p PROPOSAL_KEYS); cbn in H; [|done].
  destruct (sub p "sequence") as [sequence|], (sub p "action_code") as [action|],
    (sub p "arg_class") as [cls|], (sub p "arg_hash") as [ah|]; cbn in H; try done.
  destruct (require_digest ah "arg_hash") as [h|]; cbn in H; [|done].
  destruct (_ || (int_of sequence <? 0)); cbn in H; [done|].
  destruct action as [| | | |action| | |]; cbn in H; try done.
  destruct (negb (is_str cls) || _); cbn in H; [done|].
  exists action. split; [done|].
  destruct (evaluate_locked_verdict b (int_of sequence) action (str_of cls) h)
    as (d1 & b1 & Hv & E). rewrite E in H. unfold finish, _event in H.
  destruct (sha256_hex _); cbn in H; [|done]. simplify_eq. inversion Hv; subst; try done.
  cbn. repeat split; try done. rewrite mem_app in *. destruct (tool_sets_disjoint action) as [Hd _].
  destruct (mem action PROHIBITED_TOOLS); [|done].
  destruct Hd as [Hd1 Hd2]; [done|]. by rewrite Hd1, Hd2 in *.
Qed.

(** A tripped broker never allows again: whatever is proposed next, the
    broker stays tripped with the same reason, the revocation callback is not
    called again, and the decision (if any) is not "allowed". *)
Theorem broker_trip_is_final (b : broker) (p : pyval) :
  tripped b = true ->
  let '(b', r) := evaluate b p in
  tripped b' = true /\ trip_reason b' = trip_reason b /\ revocations b' = revocations b /\
  (forall d, r = Ok d -> d_disposition d <> "allowed").
Proof.
  intros Ht. unfold evaluate. destruct (check_proposal p) as [[[[seq act] cls] ah]|e]; [|done].
  destruct (evaluate_locked_verdict b seq act cls ah) as (d & b1 & Hv & ->).
  unfold finish, _event.
  destruct (sha256_hex _); cbn; inversion Hv; subst; cbn; split_and!;
    try congruence; intros; by simplify_eq/=.
Qed.

(** In any session the number of allowed events never exceeds the call
    budget. *)
Theorem broker_call_budget (job : string) (calls : Z) (ps : list pyval) :
  let b := fst (session (init job calls) ps) in
  Z.of_nat (length (List.filter allowed (events b))) <= Z.max 0 calls.
Proof.
  cbv zeta. pose proof (session_inv (init job calls) ps (inv_init _ _)) as Hi.
  pose proof (session_max_calls (init job calls) ps) as Hm. cbn in Hm.
  set (b := fst (session (init job calls) ps)) in *. clearbody b.
  destruct (inv_split b Hi) as (pre & post & Hs & Hpre & Hpost & _).
  assert (List.filter allowed (events b) = pre) as ->.
  { rewrite Hs, List.filter_app, filter_all, filter_none by done. apply app_nil_r. }
  destruct pre as [|e pre] using rev_ind; [cbn; lia|]. clear IHpre.
  apply Forall_app in Hpre as [_ He]. rewrite Forall_singleton in He.
  destruct (inv_allowed b Hi (length pre) e) as [H _]; [|done|].
  - rewrite Hs, <- app_assoc. rewrite lookup_app_r by lia. by rewrite Nat.sub_diag.
  - rewrite length_app. cbn. lia.
Qed.

(** ** The log is tamper-evident *)

(** The part of a recorded event that its hash covers. *)
Definition payload (e : pydict) : pyval := VDict (removelast e).

Lemma payload_snoc body h : payload (body ++ [("event_hash", VStr h)]) = VDict body.
Proof. unfold payload. by rewrite removelast_last. Qed.

Lemma wf_event_body s a c x d p : wf_val (VDict (event_body s a c x d p)) = true.
Proof. reflexivity. Qed.

(** A recorded event is determined by its hash, unless two payloads collide. *)
Lemma is_event_binding p1 p2 e1 e2 h :
  is_event p1 e1 h -> is_event p2 e2 h ->
  (e1 = e2 /\ p1 = p2) \/ sha256_collision (encode (payload e1)) (encode (payload e2)).
Proof.
  intros (s1 & a1 & c1 & x1 & [n1 i1 r1 t1] & H1 & ->) (s2 & a2 & c2 & x2 & [n2 i2 r2 t2] & H2 & ->).
  rewrite !payload_snoc. 
  destruct (sha256_hex_binding _ _ h (wf_event_body _ _ _ _ _ _) (wf_event_body _ _ _ _ _ _) H1 H2)
    as [E|E]; [|by right].
  left. cbn in E. by simplify_eq.
Qed.

(** Two event logs of the same length that end in the same hash are the
    same log, unless two of their recorded payloads are a SHA-256 collision: no
    event can be altered, dropped or reordered behind an unchanged final hash. *)
Theorem broker_log_tamper_evident (l1 l2 : list pydict) (h : string) :
  chain ZERO_HASH l1 h -> chain ZERO_HASH l2 h -> length l1 = length l2 ->
  l1 = l2 \/
  exists e1 e2, In e1 l1 /\ In e2 l2 /\
    sha256_collision (encode (payload e1)) (encode (payload e2)).
Proof.
  intros H1. revert l2. induction H1 as [h|h0 l1 h e1 h' H1 IH E1]; intros l2 H2 Hlen.
  - left. by destruct l2.
  - inversion H2 as [h2|? m2 h2 e2 ? H2' E2]; subst; rewrite !length_app in Hlen; cbn in Hlen; [lia|].
    destruct (is_event_binding _ _ _ _ _ E1 E2) as [[-> ->]|Hc].
    + destruct (IH m2 H2') as [->|(x & y & Hx & Hy & Hc)]; [lia|by left|right].
      exists x, y. by rewrite !in_app_iff; auto.
    + right. exists e1, e2. rewrite !in_app_iff. cbn. auto.
Qed.

(** ** Witnesses on concrete proposals *)
Definition sample_proposal (sequence : Z) (action : string) : pyval :=
  VDict [("sequence", VInt sequence); ("action_code", VStr action);
         ("arg_class", VStr (classify_args action)); ("arg_hash", VStr ZERO_HASH)].

Definition sample_broker : broker := init "job-0123456789abcdef" 2.

Lemma broker_allows_only_declared_witness :
  tripped (fst (evaluate sample_broker (sample_proposal 0 "submit_task_result"))) = false.
Proof.
  destruct (broker_allows_only_declared sample_broker
    (fst (evaluate sample_broker (sample_proposal 0 "submit_task_result")))
    (sample_proposal 0 "submit_task_result")
    (mk_decision 0 "allowed" "RULE_PRIMARY_TOOL_ALLOWED" "NONE"))
    as (a & _ & _ & _ & _ & H & _); [vm_compute; reflexivity | reflexivity | exact H].
Defined.

(** Reading a secret trips the broker; the next tool call is denied. *)
Lemma broker_trip_is_final_witness :
  let b := fst (evaluate sample_broker (sample_proposal 0 "read_secret")) in
  tripped (fst (evaluate b (sample_proposal 1 "submit_task_result"))) = true.
Proof.
  intros b. pose proof (broker_trip_is_final b (sample_proposal 1 "submit_task_result")) as H.
  destruct (evaluate b (sample_proposal 1 "submit_task_result")) as [b' r].
  apply H. vm_compute. reflexivity.
Defined.

Definition sample_log : list pydict :=
  Eval vm_compute in
    events (fst (evaluate sample_broker (sample_proposal 0 "submit_task_result"))).
Definition sample_log_hash : string :=
  Eval vm_compute in
    last_hash (fst (evaluate sample_broker (sample_proposal 0 "submit_task_result"))).

Lemma broker_log_tamper_evident_witness :
  sample_log = sample_log \/
  exists e1 e2, In e1 sample_log /\ In e2 sample_log /\
    sha256_collision (encode (payload e1)) (encode (payload e2)).
Proof.
  assert (H : chain ZERO_HASH sample_log sample_log_hash).
  { apply (chain_snoc ZERO_HASH [] ZERO_HASH); [constructor|].
    exists 0, "submit_task_result", "TASK_SUBMISSION", ZERO_HASH,
      (mk_decision 0 "allowed" "RULE_PRIMARY_TOOL_ALLOWED" "NONE").
    split; [vm_compute; reflexivity | reflexivity]. }
  exact (broker_log_tamper_evident _ _ _ H H eq_refl).
Defined.

End Broker.
