(* ===== verification/Contract.v ===== *)
(** * agent_probe/contract.py: the job contract and its signed envelopes

    The manifest of an agent probe, the frozen contract derived from it, and
    the HMAC envelope every artefact of a job travels in. *)

From stdpp Require Import base list strings.
From Stdlib Require Import ZArith Lia.
From S2P Require Import Prelude PyValue Sha256 Json JsonFacts Canonical StrOps Ip Url UrlFacts AgentProtocol.

Local Open Scope Z_scope.

Module Contract.
Import Protocol Canonical.

Definition contract_error {A} (msg : string) : res A := Err (ContractError msg).

(** A lowercase hexadecimal text between a prefix and a suffix. *)
Definition JOB_ID_RE (s : string) : bool :=
  startswith "job-" s && hex_string 16 (String.substring 4 (String.length s - 4) s).
Definition TARGET_ID_RE (s : string) : bool :=
  startswith "target-" s && endswith ".skill" s &&
  hex_string 16 (String.substring 7 (String.length s - 13) s).
Definition HEX_DIGEST_RE (s : string) : bool := hex_string 64 s.
(** [[0-9a-f]{16,64}] *)
Definition KEY_ID_RE (s : string) : bool :=
  (16 <=? String.length s)%nat && (String.length s <=? 64)%nat && str_forall is_lower_hex s.

Definition PROHIBITED_STATIC_KEYS : list string :=
  ["cindermote-observer-key-32bytes!"; "default_key"; "secret"; "password";
   "12345678901234567890123456789012"].

Definition DEFAULT_BUDGETS : pydict :=
  [("wall_clock_sec", VInt 60); ("cpu_vcpu", VInt 1); ("ram_mib", VInt 1024);
   ("max_network_bytes", VInt (16 * 1024 * 1024)); ("max_model_requests", VInt 8);
   ("max_tokens_total", VInt 16000); ("max_broker_calls", VInt 32);
   ("max_evidence_bytes", VInt (2 * 1024 * 1024))].

Definition BOLO_CATEGORIES : list string :=
  ["prompt_injection"; "fake_system_or_operator_messages"; "instruction_hierarchy_manipulation";
   "task_diversion"; "authority_escalation"; "credential_seeking"; "secret_access";
   "undeclared_tool_use"; "unexpected_filesystem_access"; "unexpected_network_access";
   "data_exfiltration"; "persistence"; "monitoring_evasion"; "evidence_tampering";
   "deceptive_reporting"; "parser_exploitation"; "resource_exhaustion";
   "denial_of_wallet_behavior"; "covert_channels"; "repeated_attempts_after_denial";
   "capability_or_schema_drift"; "instructions_hidden_in_data"].

(** The [ranges] of [_validated_budgets]. *)
Definition budget_ranges : list (string * (Z * Z)) :=
  [("wall_clock_sec", (1, 60)); ("cpu_vcpu", (1, 2)); ("ram_mib", (512, 4096));
   ("max_network_bytes", (1024, 64 * 1024 * 1024)); ("max_model_requests", (1, 16));
   ("max_tokens_total", (1, 100000)); ("max_broker_calls", (1, 64));
   ("max_evidence_bytes", (4096, 4 * 1024 * 1024))].

(** [set(overrides) - set(result)] is not empty. *)
Definition unknown_fields (overrides : pyval) : bool :=
  match overrides with
  | VDict d => existsb (fun k => negb (has_key k DEFAULT_BUDGETS)) (keys d)
  | _ => true
  end.

Definition check_ranges (result : pydict) : res unit :=
  (fix go ranges :=
     match ranges with
     | [] => Ok tt
     | (name, (minimum, maximum)) :: r =>
         let* value := sub (VDict result) name in
         raise (ContractError (name +:+ " must be in " +:+ dec minimum +:+ ".." +:+ dec maximum)) when
           negb (int_in minimum maximum value);;
         go r
     end) budget_ranges.

Definition _validated_budgets (overrides : pyval) : res pydict :=
  raise (ContractError "budget overrides contain unknown fields") when
    (negb (is_none overrides) && unknown_fields overrides);;
  let result := dict_update DEFAULT_BUDGETS (dict_of overrides) in
  let* _ := check_ranges result in
  Ok result.

(** [make_job_id], with the 16 random bytes as an argument *)
Definition make_job_id (entropy : string) (target_hash : pyval) : res string :=
  let* h := require_digest target_hash "target_hash" in
  match fromhex h with
  | Some b => Ok ("job-" +:+ slice 16 (hexdigest (b +:+ entropy)))
  | None => Err (ValueError "non-hexadecimal number found in fromhex() arg")
  end.

Definition SUITE_ID : string := "HPKE-0020-0001-0003+SECRETSTREAM-XCHACHA20POLY1305".

Record ModelConfig := mk_model {
  provider : pyval;
  model_id : pyval;
  pinned_endpoint : pyval;
}.

Section contract.
Context `{Unicode}.

Definition validated (m : ModelConfig) : res ModelConfig :=
  raise (ContractError "v0 provider must be openai-compatible") when
    negb (py_eq (provider m) (VStr "openai-compatible"));;
  raise (ContractError "model_id is invalid") when
    negb (str_len_in 1 128 (model_id m));;
  let* endpoint := normalize_url (pinned_endpoint m) in
  raise (ContractError "pinned endpoint must use HTTPS") when
    negb (startswith "https://" endpoint);;
  Ok (mk_model (provider m) (model_id m) (VStr endpoint)).

Definition MANIFEST_KEYS : list string :=
  ["manifest_version"; "job_id"; "profile"; "target"; "model"; "task"; "bolo"; "tools"; "budgets";
   "quarantine"; "promotion"].

(** The [target] section. *)
Definition check_target (target : pyval) : res unit :=
  raise (ContractError "target identity is invalid") when
    negb (dict_shape target ["target_hash"; "target_type"; "generated_target_id"; "guest_path"]);;
  let* target_hash := sub target "target_hash" in
  let* _ := require_digest target_hash "target_hash" in
  let* target_type := sub target "target_type" in
  let* target_id := sub target "generated_target_id" in
  raise (ContractError "target type or generated id is invalid") when
    (negb (py_eq target_type (VStr "skill-md")) or'
     match target_id with VStr s => okb (negb (TARGET_ID_RE s)) | _ => Err TypeError end);;
  let* guest_path := sub target "guest_path" in
  raise (ContractError "target guest path is not generated") when
    negb (py_eq guest_path (VStr ("/job/target/" +:+ str_of target_id)));;
  Ok tt.

(** The [model] section. *)
Definition check_model (model : pyval) : res unit :=
  raise (ContractError "model section is invalid") when
    negb (dict_shape model ["provider"; "model_id"; "pinned_endpoint"; "pinned_origin"]);;
  let* p := sub model "provider" in
  let* i := sub model "model_id" in
  let* e := sub model "pinned_endpoint" in
  let* checked := validated (mk_model p i e) in
  let* pinned_origin := sub model "pinned_origin" in
  let* origin := origin_for_url (pinned_endpoint checked) in
  raise (ContractError "pinned origin does not match endpoint") when
    negb (py_eq pinned_origin (VStr origin));;
  Ok tt.

(** [bytes.fromhex(v)] inside [try ... except (TypeError, ValueError)] *)
Definition fromhex_value (v : pyval) : option string :=
  match v with VStr s => fromhex s | _ => None end.

(** The [quarantine] section. *)
Definition check_quarantine (quarantine : pyval) : res unit :=
  raise (ContractError "quarantine section is invalid") when
    negb (dict_shape quarantine ["key_id"; "public_key_hex"; "suite_id"]);;
  let* public_key_hex := sub quarantine "public_key_hex" in
  match fromhex_value public_key_hex with
  | None => contract_error "quarantine public key is invalid"
  | Some public_key =>
      let* suite_id := sub quarantine "suite_id" in
      raise (ContractError "quarantine suite is invalid") when
        (negb (String.length public_key =? 32)%nat || negb (py_eq suite_id (VStr SUITE_ID)));;
      Ok tt
  end.

Definition validate_job_manifest (value : pyval) : res pyval :=
  raise (ContractError "job manifest must be an object") when negb (is_dict value);;
  raise (ContractError "job manifest shape changed") when
    (negb (dict_shape value MANIFEST_KEYS) or'
     (let* version := get value "manifest_version" in
      negb (py_eq version (VStr "cindermote.agent-probe-job/v1"))));;
  let* job_id := get value "job_id" in
  raise (ContractError "job id is invalid") when
    (negb (is_str job_id) || negb (JOB_ID_RE (str_of job_id)));;
  let* target := get value "target" in
  let* _ := check_target target in
  let* model := get value "model" in
  let* _ := check_model model in
  let* budgets := get value "budgets" in
  let* _ := _validated_budgets budgets in
  let* quarantine := get value "quarantine" in
  let* _ := check_quarantine quarantine in
  let* _ := canonical_bytes value in
  Ok value.

Definition strs (l : list string) : pyval := VList (map VStr l).

Definition task_payload : pydict :=
  [("task_id", VStr "task-synthetic-review-v0"); ("task_type", VStr "synthetic_project_summary");
   ("instruction_code", VStr "READ_SYNTHETIC_DOCS_AND_SUBMIT_SUMMARY")].
Definition bolo_payload : pydict :=
  [("categories", strs BOLO_CATEGORIES); ("version", VStr "agent-probe-bolo/v0")].

(** The manifest literal of [build_job_manifest]. *)
Definition manifest_dict (job_id target_hash target_id : string) (model : ModelConfig)
    (origin task_hash bolo_hash : string) (budgets : pydict) (key_id public_key : string) : pyval :=
  VDict
    [("manifest_version", VStr "cindermote.agent-probe-job/v1");
     ("job_id", VStr job_id);
     ("profile", VDict [("name", VStr "agent-probe"); ("version", VStr "v0")]);
     ("target", VDict
        [("target_hash", VStr target_hash); ("target_type", VStr "skill-md");
         ("generated_target_id", VStr target_id);
         ("guest_path", VStr ("/job/target/" +:+ target_id))]);
     ("model", VDict
        [("provider", provider model); ("model_id", model_id model);
         ("pinned_endpoint", pinned_endpoint model); ("pinned_origin", VStr origin)]);
     ("task", VDict (task_payload ++ [("task_hash", VStr task_hash)]));
     ("bolo", VDict (bolo_payload ++ [("bolo_hash", VStr bolo_hash)]));
     ("tools", VDict
        [("primary", strs (sort_strs PRIMARY_TOOLS)); ("bolo", strs (sort_strs BOLO_TOOLS));
         ("prohibited", strs (sort_strs PROHIBITED_TOOLS))]);
     ("budgets", VDict budgets);
     ("quarantine", VDict
        [("key_id", VStr key_id); ("public_key_hex", VStr (to_hex public_key));
         ("suite_id", VStr SUITE_ID)]);
     ("promotion", VDict [("automatic", VBool false); ("allow_disposition", VStr "HOLD")])].

(** [build_job_manifest]; [budgets] is [VNone] when no override is given. *)
Definition build_job_manifest (entropy target_bytes : string) (model : ModelConfig)
    (quarantine_public_key quarantine_key_id : string) (budgets : pyval) : res pyval :=
  let* model := validated model in
  raise (ContractError "quarantine X25519 public key must be 32 bytes") when
    negb (String.length quarantine_public_key =? 32)%nat;;
  raise (ContractError "quarantine key id is invalid") when
    negb (KEY_ID_RE quarantine_key_id);;
  let target_hash := hexdigest target_bytes in
  let* job_id := make_job_id entropy (VStr target_hash) in
  let target_id := "target-" +:+ slice 16 target_hash +:+ ".skill" in
  let* origin := origin_for_url (pinned_endpoint model) in
  let* task_hash := sha256_hex (VDict task_payload) in
  let* bolo_hash := sha256_hex (VDict bolo_payload) in
  let* checked_budgets := _validated_budgets budgets in
  let manifest := manifest_dict job_id target_hash target_id model origin task_hash bolo_hash
    checked_budgets quarantine_key_id quarantine_public_key in
  let* _ := validate_job_manifest manifest in
  Ok manifest.

Definition runtime_section : pyval :=
  VDict [("isolation", VStr "firecracker-only");
         ("credential_channel", VStr "single-use-vsock-control");
         ("network", VStr "pinned-origin-connect-proxy"); ("host_plaintext", VBool false)].
Definition trip_policy : pyval :=
  VDict [("prohibited_proposal", VStr "DENY"); ("contract_drift", VStr "RESCOPE_REQUIRED");
         ("telemetry_failure", VStr "EVALUATION_INCOMPLETE")].

Definition build_road_frozen (manifest : pyval) : res pyval :=
  let* _ := validate_job_manifest manifest in
  let* job_id := sub manifest "job_id" in
  let* target := sub manifest "target" in
  let* target_hash := sub target "target_hash" in
  let* model := sub manifest "model" in
  let* task := sub manifest "task" in
  let* task_hash := sub task "task_hash" in
  let* bolo := sub manifest "bolo" in
  let* bolo_hash := sub bolo "bolo_hash" in
  let* tools := sub manifest "tools" in
  let* budgets := sub manifest "budgets" in
  let* quarantine := sub manifest "quarantine" in
  let* key_id := sub quarantine "key_id" in
  let* suite_id := sub quarantine "suite_id" in
  let payload := VDict
    [("contract_version", VStr "cindermote.road-frozen/v1"); ("job_id", job_id);
     ("target_hash", target_hash); ("model", model); ("task_hash", task_hash);
     ("bolo_hash", bolo_hash); ("tools", tools); ("budgets", budgets);
     ("quarantine", VDict [("key_id", key_id); ("suite_id", suite_id)]);
     ("runtime", runtime_section); ("trip_policy", trip_policy)] in
  let* _ := canonical_bytes payload in
  Ok payload.

End contract.

(** ** Envelopes *)

(** [hmac.compare_digest] on two ASCII strings is equality. *)
Definition _constant_time_equal (left right : pyval) : bool :=
  match left, right with
  | VStr l, VStr r => if negb (isascii l) || negb (isascii r) then false else String.eqb l r
  | _, _ => false
  end.

Definition prohibited_key (key : string) : bool := mem key PROHIBITED_STATIC_KEYS.

(** [isinstance(key, bytes) and len(key) >= 32] *)
Definition long_key (key : pyval) : bool :=
  match key with VBytes k => (32 <=? String.length k)%nat | _ => false end.
Definition key_bytes (key : pyval) : string := match key with VBytes k => k | _ => "" end.

(** [hmac.new(key, bytes.fromhex(digest), sha256).hexdigest()] *)
Definition hmac_of_digest (key digest : string) : res string :=
  match fromhex digest with
  | Some b => Ok (hmac_hex key b)
  | None => Err (ValueError "non-hexadecimal number found in fromhex() arg")
  end.

Definition key_id_of (key : string) : string := slice 32 (hexdigest key).

Definition sign_envelope (payload : pyval) (payload_type : string) (key : pyval) : res pyval :=
  raise (ContractError "observer key must be at least 32 bytes") when negb (long_key key);;
  raise (ContractError "observer key is a prohibited static default") when
    prohibited_key (key_bytes key);;
  let* digest := sha256_hex payload in
  let* signature := hmac_of_digest (key_bytes key) digest in
  Ok (VDict
    [("envelope_version", VStr "cindermote.signed-envelope/v1");
     ("payload_type", VStr payload_type); ("payload_sha256", VStr digest); ("payload", payload);
     ("signature", VDict
        [("algorithm", VStr "HMAC-SHA256"); ("key_id", VStr (key_id_of (key_bytes key)));
         ("signature_hex", VStr signature)])]).

Definition ENVELOPE_KEYS : list string :=
  ["envelope_version"; "payload_type"; "payload_sha256"; "payload"; "signature"].
Definition SIGNATURE_KEYS : list string := ["algorithm"; "key_id"; "signature_hex"].

(** [if c: return False] *)
Definition false_if (c : res bool) (k : res bool) : res bool :=
  match c with Ok true => Ok false | Ok false => k | Err e => Err e end.
Notation "'return_false' 'when' c ;; k" := (false_if c k)
  (at level 10, c at level 99, k at level 200) : py_scope.

Definition is_hex_digest (v : pyval) : bool :=
  match v with VStr s => HEX_DIGEST_RE s | _ => false end.

Definition wrong_type (payload_type : pyval) (expected_type : option string) : bool :=
  match expected_type with
  | Some t => negb (py_eq payload_type (VStr t))
  | None => false
  end.

Definition verify_envelope (envelope key : pyval) (expected_type : option string) : res bool :=
  return_false when negb (dict_shape envelope ENVELOPE_KEYS);;
  let* version := get envelope "envelope_version" in
  return_false when negb (py_eq version (VStr "cindermote.signed-envelope/v1"));;
  let* payload_type := get envelope "payload_type" in
  return_false when wrong_type payload_type expected_type;;
  return_false when (negb (long_key key) || prohibited_key (key_bytes key));;
  match (let* payload := sub envelope "payload" in sha256_hex payload) with
  | Err _ => Ok false
  | Ok digest =>
      let* claimed_digest := get envelope "payload_sha256" in
      return_false when negb (is_hex_digest claimed_digest);;
      return_false when negb (_constant_time_equal (VStr digest) claimed_digest);;
      let* signature := get envelope "signature" in
      return_false when negb (dict_shape signature SIGNATURE_KEYS);;
      let* signature_hex := get signature "signature_hex" in
      return_false when negb (is_hex_digest signature_hex);;
      let* expected := hmac_of_digest (key_bytes key) digest in
      let* algorithm := get signature "algorithm" in
      let* key_id := get signature "key_id" in
      Ok (py_eq algorithm (VStr "HMAC-SHA256") &&
          _constant_time_equal key_id (VStr (key_id_of (key_bytes key))) &&
          _constant_time_equal (VStr expected) signature_hex)
  end.

(** ** What an envelope proves *)

Lemma false_if_true c k : false_if c k = Ok true <-> c = Ok false /\ k = Ok true.
Proof. destruct c as [[]|]; cbn; naive_solver. Qed.

Lemma constant_time_equal_spec l r :
  isascii r = true -> (_constant_time_equal l (VStr r) = true <-> l = VStr r).
Proof.
  intros Hr. unfold _constant_time_equal. destruct l as [| | | |l| | |]; try (by split).
  rewrite Hr. destruct (isascii l) eqn:El; cbn.
  - rewrite String.eqb_eq. split; [by intros ->|by intros [= ->]].
  - split; [done|]. intros [= ->]. congruence.
Qed.

Lemma constant_time_equal_refl s :
  isascii s = true -> _constant_time_equal (VStr s) (VStr s) = true.
Proof. intros Hs. by apply constant_time_equal_spec. Qed.

Lemma constant_time_equal_sym l r : _constant_time_equal l r = _constant_time_equal r l.
Proof.
  destruct l as [| | | |l| | |], r as [| | | |r| | |]; try done. cbn.
  by rewrite orb_comm, String.eqb_sym.
Qed.

Lemma hmac_of_digest_ok key m : hmac_of_digest key (hexdigest m) = Ok (hmac_hex key (sha256_digest m)).
Proof. unfold hmac_of_digest. by rewrite fromhex_hexdigest. Qed.

(** The signature over a document: HMAC-SHA256 of its SHA-256 digest. *)
Definition signature_of (key : string) (payload : pyval) : string :=
  hmac_hex key (sha256_digest (encode payload)).

(** An envelope that carries [payload] under the signature [key] makes. *)
Record authentic (key payload env : pyval) : Prop := {
  au_key : long_key key = true /\ prohibited_key (key_bytes key) = false;
  au_shape : dict_shape env ENVELOPE_KEYS = true;
  au_version : sub env "envelope_version" = Ok (VStr "cindermote.signed-envelope/v1");
  au_payload : sub env "payload" = Ok payload /\ in_domain payload = true;
  au_digest : sub env "payload_sha256" = Ok (VStr (hexdigest (encode payload)));
  au_signature : exists sig, sub env "signature" = Ok sig /\ dict_shape sig SIGNATURE_KEYS = true /\
    sub sig "algorithm" = Ok (VStr "HMAC-SHA256") /\
    sub sig "key_id" = Ok (VStr (key_id_of (key_bytes key))) /\
    sub sig "signature_hex" = Ok (VStr (signature_of (key_bytes key) payload));
}.

Lemma hexdigest_ascii m : isascii (hexdigest m) = true.
Proof. eapply hex_string_ascii, hexdigest_hex. Qed.

Lemma hmac_hex_ascii k m : isascii (hmac_hex k m) = true.
Proof. eapply hex_string_ascii, hmac_hex_hex. Qed.

Lemma key_id_ascii k : isascii (key_id_of k) = true.
Proof. apply slice_ascii, hexdigest_ascii. Qed.

Lemma signature_of_hex k p : hex_string 64 (signature_of k p) = true.
Proof. apply hmac_hex_hex. Qed.

#[local] Hint Resolve hexdigest_ascii hmac_hex_ascii key_id_ascii hexdigest_hex signature_of_hex : py.

Lemma false_if_returns (c : bool) k :
  (c = false -> exists b, k = Ok b) -> exists b, false_if c k = Ok b.
Proof. destruct c; cbn; [by exists false|auto]. Qed.

Lemma verify_envelope_sound env key t :
  verify_envelope env key t = Ok true ->
  exists payload, authentic key payload env /\
    match t with Some ty => sub env "payload_type" = Ok (VStr ty) | None => True end.
Proof.
  unfold verify_envelope. intros [Hs Hv]%false_if_true.
  repeat (apply false_if_true in Hv as [? Hv] || run_inv).
  destruct (let* _ := sub env "payload" in _) as [digest|] eqn:Hd; [|done]. run_inv.
  match goal with H1 : sha256_hex _ = _ |- _ => apply sha256_hex_ok in H1 as [Hdom ->] end.
  repeat (apply false_if_true in Hv as [? Hv] || run_inv).
  rewrite hmac_of_digest_ok in *. run_inv. subst.
  repeat match goal with H1 : get _ _ = Ok _ |- _ => erewrite get_shaped in H1 by done end.
  repeat match goal with
  | H1 : py_eq _ (VStr _) = true |- _ => apply py_eq_str in H1; subst
  | H1 : _constant_time_equal (VStr _) ?x = true |- _ =>
      rewrite constant_time_equal_sym in H1; apply constant_time_equal_spec in H1; [subst|by auto with py]
  | H1 : _constant_time_equal ?x (VStr _) = true |- _ =>
      apply constant_time_equal_spec in H1; [subst|by auto with py]
  end.
  eexists. split; [split; eauto 10|].
  destruct t as [ty|]; [|done]. cbn in *. run_inv.
  match goal with H1 : py_eq _ (VStr ty) = true |- _ => apply py_eq_str in H1 end. by subst.
Qed.

Lemma hex_digest_refl s : hex_string 64 s = true -> is_hex_digest (VStr s) = true.
Proof. done. Qed.

Lemma verify_envelope_complete env key payload t :
  authentic key payload env ->
  match t with Some ty => sub env "payload_type" = Ok (VStr ty) | None => True end ->
  verify_envelope env key t = Ok true.
Proof.
  intros [[Hk1 Hk2] Hs Hv [Hp Hdom] Hd (sig & Hsig & Hss & Ha & Hi & Hx)] Ht. unfold verify_envelope.
  rewrite !(get_shaped env _ _ Hs) by done. rewrite Hs, Hv, Hp, Hd, Hsig, Hk1, Hk2.
  destruct (sub_shaped env _ "payload_type" Hs eq_refl) as [ty Hty]. rewrite Hty.
  assert (wrong_type ty t = false) as Hw.
  { destruct t as [ty'|]; [|done]. rewrite Hty in Ht. simplify_eq. cbn. by rewrite String.eqb_refl. }
  cbn [negb okb false_if mbind res_bind orb]. rewrite Hw, (proj2 (py_eq_str _ _) eq_refl).
  rewrite (proj2 (sha256_hex_ok _ _) (conj Hdom eq_refl)).
  rewrite !(get_shaped sig _ _ Hss), Hss, Ha, Hi, Hx, hmac_of_digest_ok by done.
  cbn [negb okb false_if mbind res_bind orb].
  unfold signature_of. by rewrite !hex_digest_refl, !constant_time_equal_refl by auto with py.
Qed.

Lemma verify_envelope_returns env key t : exists b, verify_envelope env key t = Ok b.
Proof.
  unfold verify_envelope. apply false_if_returns. intros Hs%negb_false_iff.
  destruct (get_returns _ _ "envelope_version" Hs) as [? ->]. cbn [mbind res_bind].
  apply false_if_returns. intros _. destruct (get_returns _ _ "payload_type" Hs) as [? ->].
  cbn [mbind res_bind]. apply false_if_returns. intros _. apply false_if_returns. intros _.
  destruct (let* _ := sub env "payload" in _) as [digest|] eqn:Hd; [|by eexists]. run_inv.
  match goal with H1 : sha256_hex _ = _ |- _ => apply sha256_hex_ok in H1 as [_ ->] end.
  destruct (get_returns _ _ "payload_sha256" Hs) as [? ->]. cbn [mbind res_bind].
  apply false_if_returns. intros _. apply false_if_returns. intros _.
  destruct (get_returns _ _ "signature" Hs) as [sig ->]. cbn [mbind res_bind].
  apply false_if_returns. intros Hss%negb_false_iff.
  destruct (get_returns _ _ "signature_hex" Hss) as [? ->]. cbn [mbind res_bind].
  apply false_if_returns. intros _. rewrite hmac_of_digest_ok. cbn [mbind res_bind].
  destruct (get_returns _ _ "algorithm" Hss) as [? ->], (get_returns _ _ "key_id" Hss) as [? ->].
  by eexists.
Qed.

Lemma sign_envelope_authentic payload ty key env :
  sign_envelope payload ty key = Ok env ->
  authentic key payload env /\ sub env "payload_type" = Ok (VStr ty).
Proof.
  unfold sign_envelope. intros Hv. run_inv.
  match goal with H1 : sha256_hex _ = _ |- _ => apply sha256_hex_ok in H1 as [Hdom ->] end.
  rewrite hmac_of_digest_ok in *. run_inv. subst.
  split; [|done]. split; try done. eexists. by repeat split.
Qed.

(** [verify_envelope] returns a verdict on every input, never an exception,
    and the verdict is [True] exactly for an envelope of the exact shape, of the
    expected type, whose digest and HMAC are those of its payload under a key of
    at least 32 bytes that is not a published default. *)
Theorem verify_envelope_spec (env key : pyval) (t : option string) :
  exists b, verify_envelope env key t = Ok b /\
  (b = true <-> exists payload, authentic key payload env /\
     match t with Some ty => sub env "payload_type" = Ok (VStr ty) | None => True end).
Proof.
  destruct (verify_envelope_returns env key t) as [b Hb]. exists b. split; [done|]. split.
  - intros ->. by apply verify_envelope_sound.
  - intros (payload & Ha & Ht). pose proof (verify_envelope_complete _ _ _ _ Ha Ht). congruence.
Qed.

(** A signed envelope verifies under its key with its type and with no type
    expected, and fails under any other type; signing succeeds for every
    canonical payload and every admissible key. *)
Theorem sign_verify_roundtrip (payload key : pyval) (ty : string) :
  long_key key = true -> prohibited_key (key_bytes key) = false -> in_domain payload = true ->
  exists env, sign_envelope payload ty key = Ok env /\ sub env "payload" = Ok payload /\
    verify_envelope env key None = Ok true /\
    forall ty', verify_envelope env key (Some ty') = Ok (bool_decide (ty' = ty)).
Proof.
  intros Hk Hp Hd. destruct (sign_envelope payload ty key) as [env|] eqn:E.
  - exists env. split; [done|]. apply sign_envelope_authentic in E as [Ha Ht].
    split; [apply (au_payload _ _ _ Ha)|]. split; [by eapply verify_envelope_complete|]. intros ty'.
    destruct (bool_decide_reflect (ty' = ty)) as [->|Hne]; [by eapply verify_envelope_complete|].
    destruct (verify_envelope_returns env key (Some ty')) as [[] Hb]; [|done].
    apply verify_envelope_sound in Hb as (p & _ & Hb). congruence.
  - unfold sign_envelope in E. rewrite Hk, Hp, (proj2 (sha256_hex_ok _ _) (conj Hd eq_refl)) in E.
    cbn [negb okb raise_if mbind res_bind] in E. by rewrite hmac_of_digest_ok in E.
Qed.

(** C38: A signature is bound to one payload: two envelopes that verify under the
    same key with the same [signature_hex] carry the same document, unless the
    two encodings are a SHA-256 collision or the two digests an HMAC collision. *)
Theorem envelope_tamper_evident (e1 e2 key p1 p2 s1 s2 sig : pyval) (t1 t2 : option string) :
  wf_val p1 = true -> wf_val p2 = true ->
  verify_envelope e1 key t1 = Ok true -> verify_envelope e2 key t2 = Ok true ->
  sub e1 "payload" = Ok p1 -> sub e2 "payload" = Ok p2 ->
  sub e1 "signature" = Ok s1 -> sub e2 "signature" = Ok s2 ->
  sub s1 "signature_hex" = Ok sig -> sub s2 "signature_hex" = Ok sig ->
  canon p1 = canon p2 \/ sha256_collision (encode p1) (encode p2) \/
  (let d1 := sha256_digest (encode p1) in let d2 := sha256_digest (encode p2) in
   d1 <> d2 /\ hmac_hex (key_bytes key) d1 = hmac_hex (key_bytes key) d2).
Proof.
  intros W1 W2 (q1 & A1 & _)%verify_envelope_sound (q2 & A2 & _)%verify_envelope_sound P1 P2 S1 S2 X1 X2.
  destruct A1 as [_ _ _ [Q1 D1] _ (g1 & G1 & _ & _ & _ & Y1)], A2 as [_ _ _ [Q2 D2] _ (g2 & G2 & _ & _ & _ & Y2)].
  assert (q1 = p1 /\ q2 = p2 /\ g1 = s1 /\ g2 = s2) as (-> & -> & -> & ->) by (split_and!; congruence).
  assert (Hsig : signature_of (key_bytes key) p1 = signature_of (key_bytes key) p2) by congruence.
  destruct (decide (sha256_digest (encode p1) = sha256_digest (encode p2))) as [Hd|Hd]; [|by right; right].
  destruct (sha256_hex_binding p1 p2 (hexdigest (encode p1)) W1 W2); [..|by left|by right; left];
    apply sha256_hex_ok; split; try done. 
  apply (f_equal to_hex) in Hd. exact Hd.
Qed.

(** The HMAC covers the payload alone: an envelope relabelled with another
    [payload_type] verifies under that type. *)
Theorem payload_type_not_authenticated (payload key env : pyval) (ty ty' : string) :
  sign_envelope payload ty key = Ok env ->
  exists env', env' = VDict (dict_set "payload_type" (VStr ty') (dict_of env)) /\
    verify_envelope env' key (Some ty') = Ok true.
Proof.
  intros Hs. eexists. split; [done|]. unfold sign_envelope in Hs. run_inv.
  match goal with H1 : sha256_hex _ = _ |- _ => apply sha256_hex_ok in H1 as [Hdom ->] end.
  rewrite hmac_of_digest_ok in *. run_inv. subst.
  apply verify_envelope_complete with payload; [|done]. split; try done. eexists. by repeat split.
Qed.

(** ** Budgets *)

Definition in_budget (b : pydict) (r : string * (Z * Z)) : Prop :=
  exists z, assoc (fst r) b = Some (VInt z) /\ fst (snd r) <= z <= snd (snd r).

Lemma check_ranges_ok b : check_ranges b = Ok tt <-> Forall (in_budget b) budget_ranges.
Proof.
  unfold check_ranges. induction budget_ranges as [|[name [lo hi]] l IH]; [by split|].
  rewrite Forall_cons, <- IH, bind_ok. unfold in_budget. cbn [sub fst snd]. split.
  - intros (v & Hv & Hr). run_inv. split; [|done].
    destruct (assoc name b) as [w|]; [|done]. injection Hv as ->.
    destruct v; try done. unfold int_in, in_range in *. eexists. split; [done|]. lia.
  - intros [(z & -> & Hz) Hr]. eexists. split; [done|]. unfold int_in, in_range.
    rewrite (proj2 (Z.leb_le _ _)), (proj2 (Z.leb_le _ _)) by lia. exact Hr.
Qed.

Lemma assoc_dict_update (e d : pydict) k :
  NoDup (keys e) ->
  assoc k (dict_update d e) = match assoc k e with Some v => Some v | None => assoc k d end.
Proof.
  unfold dict_update. revert d. induction e as [|[k' v] e IH]; intros d; cbn; [done|].
  intros [Hk Hn]%NoDup_cons. rewrite IH by done. rewrite assoc_dict_set.
  destruct (String.eqb_spec k k') as [->|Hne]; [|done].
  assert (assoc k' e = None) as ->; [|done]. apply assoc_None. by rewrite <- list_elem_of_In.
Qed.

Lemma keys_dict_update (e d : pydict) :
  Forall (fun k => has_key k d = true) (keys e) -> keys (dict_update d e) = keys d.
Proof.
  unfold dict_update. revert d. induction e as [|[k v] e IH]; intros d; [done|].
  change (keys ((k, v) :: e)) with (k :: keys e). cbn [foldl fst snd].
  intros [Hk He]%Forall_cons. rewrite IH.
  - rewrite keys_dict_set. by rewrite Hk.
  - eapply Forall_impl; [exact He|]. cbn. intros k' Hk'. apply has_key_In.
    rewrite keys_dict_set, Hk. by apply has_key_In.
Qed.

Lemma validated_budgets_ok o b :
  _validated_budgets o = Ok b ->
  b = dict_update DEFAULT_BUDGETS (dict_of o) /\ keys b = keys DEFAULT_BUDGETS /\
  Forall (in_budget b) budget_ranges.
Proof.
  unfold _validated_budgets. intros Hb. run_inv. subst.
  match goal with Hr : check_ranges _ = Ok ?u |- _ => destruct u; apply check_ranges_ok in Hr end.
  split; [done|]. split; [|done]. apply keys_dict_update.
  destruct o as [| | | | | | |d]; try (constructor || done). cbn in *.
  match goal with Hx : existsb _ _ = false |- _ => apply existsb_false in Hx as Hu end.
  eapply Forall_impl; [exact Hu|]. cbn. intros k. by destruct (has_key k _).
Qed.

(** Accepted budgets are accepted again. *)
Lemma validated_budgets_again o b :
  _validated_budgets o = Ok b -> exists b', _validated_budgets (VDict b) = Ok b'.
Proof.
  intros (_ & Hk & Hr)%validated_budgets_ok. unfold _validated_budgets. cbn [is_none negb andb dict_of].
  assert (unknown_fields (VDict b) = false) as ->.
  { cbn. rewrite Hk. reflexivity. }
  cbn [okb raise_if]. rewrite (proj2 (check_ranges_ok _)); [by eexists|].
  eapply Forall_impl; [exact Hr|]. intros r (z & Hz & Hb). exists z. split; [|done].
  rewrite assoc_dict_update; [by rewrite Hz|]. rewrite Hk. by apply (bool_decide_unpack _).
Qed.

(** ** Manifests *)

Lemma startswith_app p x : startswith p (p +:+ x) = true.
Proof.
  unfold startswith. induction p as [|c p IH]; [by destruct x|]. rewrite append_cons. cbn.
  by destruct (Ascii.ascii_dec c c).
Qed.

Lemma endswith_suffix w s : endswith w (s +:+ w) = true.
Proof.
  induction s as [|c s IH].
  - rewrite append_nil_l. destruct w; cbn [endswith]; [done|]. by rewrite String.eqb_refl.
  - rewrite append_cons. cbn [endswith]. by rewrite IH, orb_true_r.
Qed.

Lemma job_id_format h : hex_string 16 h = true -> JOB_ID_RE ("job-" +:+ h) = true.
Proof.
  intros Hh. unfold JOB_ID_RE. rewrite startswith_app. cbn [andb].
  assert (Hl : String.length h = 16%nat) by (unfold hex_string in Hh; run_inv; by apply Nat.eqb_eq).
  pose proof (substring_prefix "job-" h "") as Hs. rewrite append_nil_r in Hs.
  rewrite length_append, Hl. rewrite Hl in Hs. cbn [String.length Nat.add Nat.sub] in *. by rewrite Hs.
Qed.

Lemma target_id_format h : hex_string 16 h = true -> TARGET_ID_RE ("target-" +:+ h +:+ ".skill") = true.
Proof.
  intros Hh. unfold TARGET_ID_RE. rewrite startswith_app, <- append_assoc, endswith_suffix, append_assoc.
  assert (Hl : String.length h = 16%nat) by (unfold hex_string in Hh; run_inv; by apply Nat.eqb_eq).
  pose proof (substring_prefix "target-" h ".skill") as Hs. rewrite Hl in Hs.
  rewrite !length_append, Hl. cbn [String.length Nat.add Nat.sub andb] in *. by rewrite Hs.
Qed.

Lemma make_job_id_ok entropy m :
  exists j, make_job_id entropy (VStr (hexdigest m)) = Ok j /\ JOB_ID_RE j = true /\ isascii j = true.
Proof.
  unfold make_job_id. rewrite (proj2 (require_digest_ok _ _ _) (conj eq_refl (hexdigest_hex m))).
  cbn [mbind res_bind]. rewrite fromhex_hexdigest. eexists. split; [done|].
  assert (Hh : hex_string 16 (slice 16 (hexdigest (sha256_digest m +:+ entropy))) = true).
  { apply slice_hex with 64%nat; [lia|apply hexdigest_hex]. }
  split; [by apply job_id_format|]. unfold isascii. rewrite str_forall_app.
  by rewrite (hex_string_ascii _ _ Hh : str_forall _ _ = true).
Qed.

Lemma hex_no_surrogate n s : hex_string n s = true -> has_surrogate s = false.
Proof. intros Hs. eapply ascii_no_surrogate, hex_string_ascii, Hs. Qed.

Lemma to_hex_ascii s : isascii (to_hex s) = true.
Proof.
  pose proof (to_hex_lower s) as Hs. revert Hs. apply str_forall_weaken. intros c.
  unfold is_lower_hex, is_digit, in_range. lia.
Qed.

Lemma isascii_app s t : isascii (s +:+ t) = isascii s && isascii t.
Proof. apply str_forall_app. Qed.

Section manifests.
Context `{Unicode}.

(** What [ModelConfig.validated] accepts, and that it accepts its result. *)
Lemma validated_ok m m' :
  validated m = Ok m' ->
  exists i e, m' = mk_model (VStr "openai-compatible") (VStr i) (VStr e) /\
    model_id m = VStr i /\ 1 <= py_len i <= 128 /\
    normalize_url (pinned_endpoint m) = Ok e /\ startswith "https://" e = true.
Proof.
  unfold validated. intros Hm. run_inv. rewrite py_eq_str in *. subst.
  destruct m as [p i e]. cbn in *. subst. destruct i as [| | | |i| | |]; try done.
  unfold str_len_in, in_range in *. run_inv. eexists _, _. split; [done|]. split; [done|].
  split; [lia|]. done.
Qed.

Lemma validated_again `{!UnicodeLaws} m m' : validated m = Ok m' -> validated m' = Ok m'.
Proof.
  intros (i & e & -> & _ & Hi & He & Hh)%validated_ok.
  unfold validated. cbn [provider model_id pinned_endpoint].
  rewrite (proj2 (py_eq_str _ _) eq_refl).
  assert (str_len_in 1 128 (VStr i) = true) as -> by (unfold str_len_in, in_range; lia).
  apply normalize_url_form in He as (sc & a & p & q & Hf & Hl).
  rewrite (normalize_url_fixpoint _ _ _ _ _ Hf Hl). cbn [mbind res_bind]. by rewrite Hh.
Qed.

Lemma url_ascii u scheme a path query : url_form u scheme a path query -> isascii u = true.
Proof.
  intros Hu%url_form_chars. revert Hu. apply str_forall_weaken. intros c. unfold url_char. lia.
Qed.

Lemma origin_for_url_ok `{!UnicodeLaws} v e :
  normalize_url v = Ok e ->
  isascii e = true /\ exists o, origin_for_url (VStr e) = Ok o /\ isascii o = true.
Proof.
  intros (sc & a & p & q & Hf & Hl)%normalize_url_form. split; [by eapply url_ascii|].
  exists (sc +:+ "://" +:+ a). split.
  - apply origin_for_url_form. exists e, sc, a, p, q. split; [|done].
    by eapply normalize_url_fixpoint.
  - destruct (origin_normalizes _ _ _ _ _ Hf Hl) as [Ho%url_ascii _].
    rewrite !isascii_app in *. apply andb_true_iff in Ho as [-> [-> [-> _]%andb_true_iff]%andb_true_iff].
    done.
Qed.

Lemma in_domain_cons k v d :
  has_surrogate k = false -> in_domain v = true -> in_domain (VDict d) = true ->
  in_domain (VDict ((k, v) :: d)) = true.
Proof. intros Hk Hv Hd. cbn in *. by rewrite Hk, Hv, Hd. Qed.

Lemma in_domain_ascii s : isascii s = true -> in_domain (VStr s) = true.
Proof. intros Hs%ascii_no_surrogate. cbn. by rewrite Hs. Qed.

Lemma in_domain_budgets b :
  keys b = keys DEFAULT_BUDGETS -> Forall (in_budget b) budget_ranges -> in_domain (VDict b) = true.
Proof.
  intros Hk Hr. do 8 (destruct b as [|[? ?] b]; [discriminate Hk|]). destruct b; [|discriminate Hk].
  unfold keys in Hk. cbn [map fst DEFAULT_BUDGETS] in Hk. simplify_eq.
  unfold budget_ranges in Hr. rewrite !Forall_cons in Hr. unfold in_budget in Hr. cbn in Hr.
  destruct_and!.
  repeat match goal with Hx : exists z, _ /\ _ |- _ => destruct Hx as (? & ? & ?) end. simplify_eq.
  repeat (apply in_domain_cons; [reflexivity| |]); try reflexivity;
    cbn [in_domain]; unfold in_range; change MAX_SAFE_INTEGER with 9007199254740991; lia.
Qed.

Lemma key_id_ascii_re k : KEY_ID_RE k = true -> isascii k = true.
Proof.
  unfold KEY_ID_RE. intros Hk. run_inv. revert Hk. apply str_forall_weaken. intros c.
  unfold is_lower_hex, is_digit, in_range. lia.
Qed.

Lemma budgets_keys_nodup (b : pydict) : keys b = keys DEFAULT_BUDGETS -> NoDup (keys b).
Proof. intros ->. by apply (bool_decide_unpack _). Qed.

Section built.
Context (j th tid : string) (m : ModelConfig) (i e o task bolo : string) (b : pydict) (kid pk : string).
Let manifest := manifest_dict j th tid m o task bolo b kid pk.
Hypothesis Hm : m = mk_model (VStr "openai-compatible") (VStr i) (VStr e).
Hypothesis Hmv : validated m = Ok m.
Hypothesis Hi : has_surrogate i = false.
Hypothesis He : isascii e = true.
Hypothesis Ho : origin_for_url (VStr e) = Ok o /\ isascii o = true.
Hypothesis Hj : JOB_ID_RE j = true /\ isascii j = true.
Hypothesis Hth : hex_string 64 th = true.
Hypothesis Htid : TARGET_ID_RE tid = true /\ isascii tid = true.
Hypothesis Hhash : isascii task = true /\ isascii bolo = true.
Hypothesis Hb : keys b = keys DEFAULT_BUDGETS /\ Forall (in_budget b) budget_ranges.
Hypothesis Hba : exists b', _validated_budgets (VDict b) = Ok b'.
Hypothesis Hpk : String.length pk = 32%nat.
Hypothesis Hkid : KEY_ID_RE kid = true.

(** Close an [in_domain] goal on a literal document from the facts above. *)
Ltac in_domain_built :=
  destruct Ho, Hj, Htid, Hhash, Hb; pose proof (hex_string_ascii _ _ Hth);
  pose proof (key_id_ascii_re _ Hkid); pose proof (to_hex_ascii pk); subst m;
  assert (Hgp : isascii ("/job/target/" +:+ tid) = true) by (by rewrite isascii_app, andb_true_iff);
  assert (Hib : in_domain (VStr i) = true) by (cbn; by rewrite Hi);
  repeat first [ reflexivity | apply in_domain_ascii; assumption | assumption
               | apply in_domain_budgets; assumption | apply in_domain_cons; [reflexivity| |]
               | progress cbn [app] ].

Lemma built_in_domain : in_domain manifest = true.
Proof. unfold manifest, manifest_dict, task_payload, bolo_payload. in_domain_built. Qed.

Lemma built_sections :
  check_target (VDict [("target_hash", VStr th); ("target_type", VStr "skill-md");
    ("generated_target_id", VStr tid); ("guest_path", VStr ("/job/target/" +:+ tid))]) = Ok tt /\
  check_model (VDict [("provider", provider m); ("model_id", model_id m);
    ("pinned_endpoint", pinned_endpoint m); ("pinned_origin", VStr o)]) = Ok tt /\
  check_quarantine (VDict [("key_id", VStr kid); ("public_key_hex", VStr (to_hex pk));
    ("suite_id", VStr SUITE_ID)]) = Ok tt.
Proof.
  destruct Ho as [Ho1 _], Htid as [Ht _]. split_and!.
  - unfold check_target. dict_eval.
    rewrite (proj2 (require_digest_ok _ _ _) (conj eq_refl Hth)), Ht. dict_eval.
    by rewrite !(proj2 (py_eq_str _ _) eq_refl).
  - unfold check_model. dict_eval. destruct m as [p' i' e']. injection Hm as -> -> ->.
    cbn [provider model_id pinned_endpoint]. rewrite Hmv. cbn [mbind res_bind pinned_endpoint].
    rewrite Ho1. cbn [mbind res_bind]. by rewrite (proj2 (py_eq_str _ _) eq_refl).
  - unfold check_quarantine. dict_eval. cbn [fromhex_value]. rewrite fromhex_to_hex, Hpk.
    by rewrite (proj2 (py_eq_str _ _) eq_refl).
Qed.

Lemma built_validates : validate_job_manifest manifest = Ok manifest.
Proof.
  destruct built_sections as (H1 & H2 & H3), Hba as [b' Hb'], Hj as [Hj1 _].
  pose proof (proj2 (canonical_bytes_ok _ _) (conj built_in_domain eq_refl)) as Hc.
  unfold validate_job_manifest. change (dict_shape manifest MANIFEST_KEYS) with true.
  repeat match goal with |- context [get manifest ?k] =>
    let r := eval lazy [get manifest manifest_dict assoc String.eqb Ascii.eqb Bool.eqb default from_option id]
      in (get manifest k) in change (get manifest k) with r end.
  change (is_dict manifest) with true. cbn [mbind res_bind]. rewrite (proj2 (py_eq_str _ _) eq_refl).
  cbn [negb okb raise_if orM orb is_str str_of]. rewrite Hj1, H1, H2. cbn [mbind res_bind negb okb raise_if].
  by rewrite Hb', H3, Hc.
Qed.

Lemma built_freezes : exists f, build_road_frozen manifest = Ok f.
Proof.
  unfold build_road_frozen. rewrite built_validates. unfold manifest, manifest_dict, task_payload, bolo_payload.
  cbn [app]. repeat progress dict_eval.
  match goal with |- context [canonical_bytes ?p] => assert (in_domain p = true) as Hp end.
  { in_domain_built. }
  rewrite (proj2 (canonical_bytes_ok _ _) (conj Hp eq_refl)). by eexists.
Qed.

End built.

(** Building a job never fails on accepted inputs: for a model
    configuration that validates (with an encodable model id), a 32-byte
    quarantine key, a key id of 16 to 64 hex digits and budgets that validate,
    [build_job_manifest] returns a manifest that [validate_job_manifest] accepts
    unchanged and from which the frozen contract can be built. *)
Theorem build_job_manifest_succeeds `{!UnicodeLaws} (entropy target : string) (model model' : ModelConfig)
    (public_key key_id : string) (overrides : pyval) (b : pydict) :
  validated model = Ok model' -> in_domain (model_id model) = true ->
  String.length public_key = 32%nat -> KEY_ID_RE key_id = true ->
  _validated_budgets overrides = Ok b ->
  exists manifest frozen,
    build_job_manifest entropy target model public_key key_id overrides = Ok manifest /\
    validate_job_manifest manifest = Ok manifest /\ build_road_frozen manifest = Ok frozen.
Proof.
  intros Hv Hi Hpk Hk Hb. unfold build_job_manifest. rewrite Hv, Hpk, Hk. cbn [mbind res_bind].
  pose proof (validated_again _ _ Hv) as Hvv. destruct (validated_ok _ _ Hv) as (i & e & -> & Hid & _ & Hu & _).
  destruct (make_job_id_ok entropy target) as (j & -> & Hj).
  destruct (origin_for_url_ok _ _ Hu) as [He (o & Ho & Hoa)].
  cbn [mbind res_bind pinned_endpoint]. rewrite Ho. cbn [mbind res_bind Nat.eqb negb okb raise_if].
  destruct (sha256_hex (VDict task_payload)) as [task|] eqn:Ht; [|by vm_compute in Ht].
  destruct (sha256_hex (VDict bolo_payload)) as [bolo|] eqn:Hbo; [|by vm_compute in Hbo].
  rewrite Hb. cbn [mbind res_bind].
  assert (Hsl : hex_string 16 (slice 16 (hexdigest target)) = true).
  { apply slice_hex with 64%nat; [lia|apply hexdigest_hex]. }
  assert (Htid : isascii ("target-" +:+ slice 16 (hexdigest target) +:+ ".skill") = true).
  { rewrite !isascii_app. by rewrite (hex_string_ascii _ _ Hsl). }
  match goal with |- context [validate_job_manifest ?m] => set (M := m) end.
  assert (Hok : validate_job_manifest M = Ok M /\ exists f, build_road_frozen M = Ok f).
  { apply sha256_hex_digest, hex_string_ascii in Ht, Hbo. rewrite Hid in Hi. cbn in Hi. run_inv.
    split; [eapply built_validates|eapply built_freezes]; eauto using target_id_format, hexdigest_hex,
      validated_budgets_again; by apply validated_budgets_ok in Hb as (_ & ? & ?). }
  destruct Hok as [Hok [f Hf]]. exists M, f. by rewrite Hok.
Qed.

End manifests.

(** Validated budgets are exactly the eight known limits, each an integer
    within its range, an override where one was given and the default where
    not; overrides with an unknown field or an out-of-range value are refused. *)
Theorem validated_budgets_bounded (overrides : pyval) (b : pydict) :
  wf_val overrides = true -> _validated_budgets overrides = Ok b ->
  keys b = keys DEFAULT_BUDGETS /\ Forall (in_budget b) budget_ranges /\
  forall k, assoc k b = match assoc k (dict_of overrides) with
                        | Some v => Some v
                        | None => assoc k DEFAULT_BUDGETS
                        end.
Proof.
  intros Hw (-> & Hk & Hr)%validated_budgets_ok. split; [done|]. split; [done|]. intros k.
  apply assoc_dict_update. destruct overrides as [| | | | | | |d]; try constructor.
  cbn [wf_val dict_of] in *. apply andb_true_iff in Hw as [Hw _]. by apply bool_decide_eq_true in Hw.
Qed.

(** ** Witnesses *)
Definition sample_key : pyval := VBytes "0123456789abcdef0123456789abcdef".
Definition sample_payload : pyval := VDict [("job_id", VStr "job-0"); ("n", VInt 3)].
Definition sample_envelope : pyval :=
  match sign_envelope sample_payload "receipt" sample_key with Ok e => e | Err _ => VNone end.
Definition sample_signature : pyval :=
  match sub sample_envelope "signature" with Ok e => e | Err _ => VNone end.
Definition sample_signature_hex : pyval :=
  match sub sample_signature "signature_hex" with Ok e => e | Err _ => VNone end.

Lemma sign_verify_roundtrip_witness :
  exists env, sign_envelope sample_payload "receipt" sample_key = Ok env /\
    verify_envelope env sample_key None = Ok true.
Proof.
  destruct (sign_verify_roundtrip sample_payload sample_key "receipt") as (env & H1 & _ & H2 & _);
    [reflexivity..|]. exact (ex_intro _ env (conj H1 H2)).
Defined.

Lemma envelope_tamper_evident_witness :
  canon sample_payload = canon sample_payload \/
  sha256_collision (encode sample_payload) (encode sample_payload) \/
  (sha256_digest (encode sample_payload) <> sha256_digest (encode sample_payload) /\
   hmac_hex (key_bytes sample_key) (sha256_digest (encode sample_payload)) =
   hmac_hex (key_bytes sample_key) (sha256_digest (encode sample_payload))).
Proof.
  apply (envelope_tamper_evident sample_envelope sample_envelope sample_key sample_payload
    sample_payload sample_signature sample_signature sample_signature_hex None None);
    vm_compute; reflexivity.
Defined.

Lemma validated_budgets_bounded_witness :
  exists b, _validated_budgets (VDict [("ram_mib", VInt 2048)]) = Ok b /\
    Forall (in_budget b) budget_ranges.
Proof.
  eexists. split; [reflexivity|].
  eapply (validated_budgets_bounded (VDict [("ram_mib", VInt 2048)])); reflexivity.
Defined.

Definition sample_model : ModelConfig :=
  mk_model (VStr "openai-compatible") (VStr "m-1") (VStr "https://api.example.com/v1").

Lemma build_job_manifest_succeeds_witness :
  exists manifest frozen,
    @build_job_manifest ascii_unicode "0123456789abcdef" "# skill" sample_model
      "0123456789abcdef0123456789abcdef" "00112233445566778899aabbccddeeff" VNone = Ok manifest /\
    @validate_job_manifest ascii_unicode manifest = Ok manifest /\
    @build_road_frozen ascii_unicode manifest = Ok frozen.
Proof.
  apply (@build_job_manifest_succeeds ascii_unicode _ _ _ _ sample_model _ _ _ DEFAULT_BUDGETS);
    vm_compute; reflexivity.
Defined.

End Contract.
