(* ===== verification/AgentReceipt.v ===== *)
(** * agent_probe/receipt.py: signed receipts and the exit code they justify *)

From stdpp Require Import base list strings.
From Stdlib Require Import ZArith Lia.
From S2P Require Import Prelude PyValue Sha256 Json JsonFacts Canonical Contract.

Local Open Scope Z_scope.

Module Receipt.
Import Canonical Contract.

Definition EXIT_ALLOW : Z := 0.
Definition EXIT_DENY : Z := 2.
Definition EXIT_RUNTIME_FAILURE : Z := 3.
Definition EXIT_EVIDENCE_FAILURE : Z := 4.
Definition EXIT_INVALID_RECEIPT : Z := 5.
Definition EXIT_CLEANUP_FAILURE : Z := 6.

Definition WITNESS_KEYS : list string := ["guest_complete"; "egress_complete"; "cleanup_complete"].
Definition EXECUTION : list string := ["COMPLETE"; "INFRASTRUCTURE_FAILED"].
Definition GATES : list string := ["ALLOW"; "DENY"; "RESCOPE_REQUIRED"; "EVALUATION_INCOMPLETE"].
Definition CLEANUP : list string := ["VERIFIED"; "UNVERIFIED"].

Definition RECEIPT_TYPE : string := "cindermote.agent-probe-receipt/v1".

(** [bool(d.get(k))] *)
Definition flag (v : pyval) (k : string) : res pyval :=
  let* x := get v k in Ok (VBool (truthy x)).

(** [all(payload["witnesses"].values())] over the three flags *)
Definition all_flags (ws : list pyval) : bool := forallb truthy ws.

(** [payload] of [build_receipt_envelope] *)
Definition receipt_payload (job_id target_hash : pyval) (frozen walked diff : string)
    (guest_root host_root : pyval) (execution_status gate_decision cleanup_status : string)
    (guest egress cleanup : pyval) : pyval :=
  VDict
    [("receipt_version", VStr RECEIPT_TYPE); ("profile", VStr "agent-probe/v0");
     ("job_id", job_id); ("target_hash", target_hash); ("road_frozen_hash", VStr frozen);
     ("road_walked_hash", VStr walked); ("road_diff_hash", VStr diff);
     ("guest_evidence_root", guest_root); ("host_lifecycle_root", host_root);
     ("execution_status", VStr execution_status); ("gate_decision", VStr gate_decision);
     ("cleanup_status", VStr cleanup_status);
     ("artifact_disposition",
      VStr (if mem gate_decision ["ALLOW"; "RESCOPE_REQUIRED"] then "HOLD" else "REJECT"));
     ("witnesses", VDict [("guest_complete", guest); ("egress_complete", egress);
                          ("cleanup_complete", cleanup)])].

Definition build_receipt_envelope
    (job_manifest road_frozen road_walked road_diff guest_evidence_manifest host_lifecycle : pyval)
    (execution_status gate_decision cleanup_status : string) (observer_key : pyval) : res pyval :=
  raise (ValueError "receipt status enum is invalid") when
    (negb (mem execution_status EXECUTION) || negb (mem gate_decision GATES) ||
     negb (mem cleanup_status CLEANUP));;
  raise (ValueError "ALLOW requires complete execution and verified cleanup") when
    (String.eqb gate_decision "ALLOW" &&
     (negb (String.eqb execution_status "COMPLETE") || negb (String.eqb cleanup_status "VERIFIED")));;
  let* job_id := sub job_manifest "job_id" in
  let* target := sub job_manifest "target" in
  let* target_hash := sub target "target_hash" in
  let* frozen := sha256_hex road_frozen in
  let* walked := sha256_hex road_walked in
  let* diff := sha256_hex road_diff in
  let* guest_root := sub guest_evidence_manifest "guest_evidence_root" in
  let* host_root := sub host_lifecycle "host_lifecycle_root" in
  let* guest := flag guest_evidence_manifest "complete" in
  let* egress := flag host_lifecycle "egress_witness_complete" in
  let* cleanup := flag host_lifecycle "cleanup_verified" in
  let payload := receipt_payload job_id target_hash frozen walked diff guest_root host_root
    execution_status gate_decision cleanup_status guest egress cleanup in
  raise (ValueError "ALLOW requires complete witnesses") when
    (String.eqb gate_decision "ALLOW" && negb (all_flags [guest; egress; cleanup]));;
  sign_envelope payload RECEIPT_TYPE observer_key.

(** The witness table is there, has exactly its three entries, each [True]. *)
Definition witnesses_complete (witnesses : pyval) : bool :=
  dict_shape witnesses WITNESS_KEYS && forallb (fun kv => is_true (snd kv)) (dict_of witnesses).

Definition derive_exit_code (envelope observer_key : pyval) : res Z :=
  let* verified := verify_envelope envelope observer_key (Some RECEIPT_TYPE) in
  if negb verified then Ok EXIT_INVALID_RECEIPT
  else
    let* receipt := sub envelope "payload" in
    if negb (is_dict receipt) then Ok EXIT_INVALID_RECEIPT
    else
      let* version := get receipt "receipt_version" in
      let* cleanup_status := get receipt "cleanup_status" in
      let* execution_status := get receipt "execution_status" in
      let* decision := get receipt "gate_decision" in
      if negb (py_eq version (VStr RECEIPT_TYPE)) then Ok EXIT_INVALID_RECEIPT
      else if negb (py_eq cleanup_status (VStr "VERIFIED")) then Ok EXIT_CLEANUP_FAILURE
      else if negb (py_eq execution_status (VStr "COMPLETE")) then Ok EXIT_RUNTIME_FAILURE
      else if py_eq decision (VStr "ALLOW") then
        let* witnesses := get receipt "witnesses" in
        if negb (witnesses_complete witnesses) then Ok EXIT_EVIDENCE_FAILURE else Ok EXIT_ALLOW
      else
        let* denied := in_strs decision ["DENY"; "RESCOPE_REQUIRED"] in
        if (denied : bool) then Ok EXIT_DENY
        else if py_eq decision (VStr "EVALUATION_INCOMPLETE") then Ok EXIT_EVIDENCE_FAILURE
        else Ok EXIT_INVALID_RECEIPT.

(** ** Exit codes *)

(** The exit code a receipt's statuses call for. *)
Definition exit_of_status (execution_status gate_decision cleanup_status : string) : Z :=
  if negb (String.eqb cleanup_status "VERIFIED") then EXIT_CLEANUP_FAILURE
  else if negb (String.eqb execution_status "COMPLETE") then EXIT_RUNTIME_FAILURE
  else if String.eqb gate_decision "ALLOW" then EXIT_ALLOW
  else if String.eqb gate_decision "EVALUATION_INCOMPLETE" then EXIT_EVIDENCE_FAILURE
  else EXIT_DENY.

(** The exit code is 0 exactly for an envelope of receipt type that verifies
    under the observer key and whose receipt says: cleanup verified, execution
    complete, gate decision ALLOW, and all three witnesses present and [True]. *)
Theorem exit_zero_requires_proof (env key : pyval) :
  derive_exit_code env key = Ok EXIT_ALLOW <->
  exists receipt, authentic key receipt env /\ sub env "payload_type" = Ok (VStr RECEIPT_TYPE) /\
    sub receipt "receipt_version" = Ok (VStr RECEIPT_TYPE) /\
    sub receipt "cleanup_status" = Ok (VStr "VERIFIED") /\
    sub receipt "execution_status" = Ok (VStr "COMPLETE") /\
    sub receipt "gate_decision" = Ok (VStr "ALLOW") /\
    exists w, sub receipt "witnesses" = Ok w /\ witnesses_complete w = true.
Proof.
  unfold derive_exit_code. split.
  - intros He. run_inv. destruct x; cbn [negb] in He; [|done]. run_inv.
    match goal with Hv : verify_envelope _ _ _ = _, Hp : sub env "payload" = Ok ?r |- _ =>
      apply verify_envelope_sound in Hv as (p & Ha & Ht);
      assert (p = r) as -> by (destruct (au_payload _ _ _ Ha); congruence); rename r into receipt end.
    exists receipt. split; [done|]. split; [done|].
    destruct (is_dict receipt); [|done]. cbn [negb] in He. run_inv.
    destruct (py_eq x (VStr RECEIPT_TYPE)) eqn:E1; [|done].
    destruct (py_eq x0 (VStr "VERIFIED")) eqn:E2; [|done].
    destruct (py_eq x1 (VStr "COMPLETE")) eqn:E3; [|done].
    destruct (py_eq x2 (VStr "ALLOW")) eqn:E4; cbn [negb] in He; run_inv; [|by repeat case_match].
    apply py_eq_str in E1, E2, E3, E4. subst. rewrite get_str in *.
    do 4 (split; [done|]).
    match goal with Hw : get receipt "witnesses" = Ok ?w |- _ => exists w; rename Hw into Hg; rename w into w0 end.
    destruct (witnesses_complete w0) eqn:Ew; [|done]. split; [|done].
    destruct receipt; try done. cbn in *. destruct (assoc "witnesses" d); [done|]. by simplify_eq.
  - intros (r & Ha & Ht & Hv & Hc & He & Hg & w & Hw & Hwc).
    rewrite (verify_envelope_complete _ _ _ (Some RECEIPT_TYPE) Ha Ht). cbn [mbind res_bind negb].
    rewrite (proj1 (au_payload _ _ _ Ha)). cbn [mbind res_bind]. rewrite (sub_is_dict _ _ _ Hv).
    cbn [negb]. rewrite (sub_get _ _ _ Hv), (sub_get _ _ _ Hc), (sub_get _ _ _ He), (sub_get _ _ _ Hg).
    cbn [mbind res_bind]. rewrite !(proj2 (py_eq_str _ _) eq_refl). cbn [negb].
    rewrite (sub_get _ _ _ Hw). cbn [mbind res_bind]. by rewrite Hwc.
Qed.

(** What a built receipt says. *)
Lemma build_receipt_ok m f w d g h ex gate cl key env :
  build_receipt_envelope m f w d g h ex gate cl key = Ok env ->
  mem ex EXECUTION = true /\ mem gate GATES = true /\ mem cl CLEANUP = true /\
  exists a1 a2 a3 a4 a5 a6 a7 b1 b2 b3,
    authentic key (receipt_payload a1 a2 a3 a4 a5 a6 a7 ex gate cl (VBool b1) (VBool b2) (VBool b3)) env /\
    sub env "payload_type" = Ok (VStr RECEIPT_TYPE) /\
    (exists v, get g "complete" = Ok v /\ b1 = truthy v) /\
    (exists v, get h "egress_witness_complete" = Ok v /\ b2 = truthy v) /\
    (exists v, get h "cleanup_verified" = Ok v /\ b3 = truthy v) /\
    (gate = "ALLOW" -> ex = "COMPLETE" /\ cl = "VERIFIED" /\ b1 = true /\ b2 = true /\ b3 = true).
Proof.
  unfold build_receipt_envelope, flag. intros Hb. run_inv. split_and!; try done. subst.
  apply sign_envelope_authentic in Hb as [Ha Ht].
  do 10 eexists. split; [exact Ha|]. split; [done|]. split_and!; [eauto..|].
  intros ->. cbn in *. run_inv. repeat match goal with Hx : String.eqb _ _ = true |- _ => apply String.eqb_eq in Hx end.
  by repeat match goal with Hx : truthy ?x = true |- _ => rewrite Hx end.
Qed.

(** The exit code of a receipt the code built follows from its statuses. *)
Lemma built_receipt_exit m f w d g h ex gate cl key env :
  build_receipt_envelope m f w d g h ex gate cl key = Ok env ->
  derive_exit_code env key = Ok (exit_of_status ex gate cl).
Proof.
  intros (He & Hg & Hc & a1 & a2 & a3 & a4 & a5 & a6 & a7 & b1 & b2 & b3 & Ha & Ht & _ & _ & _ & Hal)%build_receipt_ok.
  unfold derive_exit_code. rewrite (verify_envelope_complete _ _ _ (Some RECEIPT_TYPE) Ha Ht).
  cbn [mbind res_bind negb]. rewrite (proj1 (au_payload _ _ _ Ha)). cbn [mbind res_bind].
  unfold receipt_payload. change (is_dict (VDict _)) with true. dict_eval.
  rewrite (proj2 (py_eq_str _ _) eq_refl). cbn [negb]. unfold exit_of_status.
  cbn [py_eq]. destruct (String.eqb cl "VERIFIED"), (String.eqb ex "COMPLETE"); try done. cbn [negb].
  apply mem_In in Hg. cbn in Hg. destruct Hg as [<-|[<-|[<-|[<-|[]]]]]; try done.
  destruct Hal as (_ & _ & -> & -> & ->); done.
Qed.

End Receipt.
