(* ===== verification/Runner.v ===== *)
(** * agent_probe/runner.py: one agent probe from contract to exit code

    The orchestration around the microVM.  The runtime is a function argument,
    as it is in the source: it may return a result, raise, and overwrite the
    credential buffer.  Files are values: the key files are read from a mode and
    a content, the artefacts written are part of the result. *)

From stdpp Require Import base list strings.
From Stdlib Require Import ZArith Lia.
From S2P Require Import Prelude PyValue Sha256 Json JsonFacts Canonical StrOps Ip Url UrlFacts.
From S2P Require Import AgentProtocol Contract AgentReceipt Ksl.

Local Open Scope Z_scope.

Module Runner.
Import Canonical Contract Receipt Ksl.

Definition probe_error {A} (msg : string) : res A := Err (AgentProbeError msg).

(** ** Key files *)
Definition MAX_KEY_FILE_BYTES : nat := 1024.

(** What [fstat] and [read] see of a file that could be opened. *)
Record key_file := mk_file {
  st_mode : Z;
  content : string;
}.

(** [stat.S_ISREG] *)
Definition S_ISREG (mode : Z) : bool := Z.land mode 61440 =? 32768.

Definition has_length (lengths : list nat) (s : string) : bool :=
  existsb (Nat.eqb (String.length s)) lengths.

(** [_read_exact_key]; [None] is a path that cannot be opened. *)
Definition _read_exact_key (file : option key_file) (name : string) (lengths : list nat)
    (private : bool) : res string :=
  let unsafe_mode := if private then 63 else 18 in
  let mode_rule :=
    if private then "readable only by its owner (chmod 600)" else "not writable by group or others" in
  match file with
  | None => probe_error (name +:+ " is unavailable")
  | Some f =>
      raise (AgentProbeError (name +:+ " must be a regular file " +:+ mode_rule)) when
        (negb (S_ISREG (st_mode f)) || negb (Z.land (st_mode f) unsafe_mode =? 0));;
      let raw := slice (MAX_KEY_FILE_BYTES + 1) (content f) in
      raise (AgentProbeError (name +:+ " has an invalid length")) when
        (MAX_KEY_FILE_BYTES <? String.length raw)%nat;;
      if has_length lengths raw then Ok raw
      else
        let candidate := strip raw in
        if has_length lengths candidate then Ok candidate
        else
          let decoded := if isascii candidate then default "" (fromhex candidate) else "" in
          if has_length lengths decoded then Ok decoded
          else probe_error (name +:+ " has an invalid length")
  end.

(** ** The run *)

Inductive runtime_outcome :=
  | Returned (r : runtime_result)
  | Unavailable                                    (** [FirecrackerUnavailable] *)
  | RaisedOSError (name : string) (errno : pyval)
  | RaisedException (name : string)
  | RaisedBase.                                    (** not an [Exception]: propagates *)

Record AgentProbeRun := mk_run {
  envelope : pyval;
  exit_code : Z;
  job_id : pyval;
  run_evidence_path : option string;
  written : list (string * string);   (** path under [receipt_dir], bytes *)
}.

(** The arguments of [run_agent_probe] and the bytes its random source gives. *)
Record request := mk_request {
  target_bytes : option string;             (** [None]: not a regular file *)
  model : ModelConfig;
  observer_key : option string;
  quarantine_public_key : option string;
  quarantine_key_id : option string;
  observer_key_file : option key_file;
  quarantine_key_file : option key_file;
  budgets : pyval;
  entropy : string;
}.

(** [given or read()]: an empty key counts as not given. *)
Definition key_or (given : option string) (read : res string) : res string :=
  match given with
  | Some k => if String.eqb k "" then read else Ok k
  | None => read
  end.

(** Everything fixed before the runtime is called. *)
Record prepared := mk_prepared {
  p_target : string;
  p_key : string;
  p_manifest : pyval;
  p_frozen : pyval;
  p_frozen_hash : string;
  p_frozen_envelope : pyval;
}.

Section runner.
Context `{Unicode}.

Definition prepare (q : request) (api_key : string) : res prepared :=
  match target_bytes q with
  | None => Err FileNotFoundError
  | Some target =>
      raise (AgentProbeError "target exceeds the v0 one-MiB limit") when
        (1024 * 1024 <? Z.of_nat (String.length target));;
      raise (AgentProbeError "fresh API credential is required as a mutable bytearray") when
        negb (in_range 1 4096 (Z.of_nat (String.length api_key)));;
      let* signing_key := key_or (observer_key q)
        (_read_exact_key (observer_key_file q) "observer signing key" [32; 48; 64]%nat true) in
      let* quarantine_key := key_or (quarantine_public_key q)
        (_read_exact_key (quarantine_key_file q) "quarantine X25519 public key" [32]%nat false) in
      let* key_id := key_or (quarantine_key_id q)
        (let* h := sha256_hex (VDict [("x25519_public_key_hex", VStr (to_hex quarantine_key))]) in
         Ok (slice 32 h)) in
      let* manifest :=
        build_job_manifest (entropy q) target (model q) quarantine_key key_id (budgets q) in
      let* road_frozen := build_road_frozen manifest in
      let* road_frozen_hash := sha256_hex road_frozen in
      let* road_frozen_envelope :=
        sign_envelope road_frozen "cindermote.road-frozen/v1" (VBytes signing_key) in
      Ok (mk_prepared target signing_key manifest road_frozen road_frozen_hash road_frozen_envelope)
  end.

(** The runtime, as a function of its arguments and of the credential buffer. *)
Definition runtime_fn : Type := pyval -> string -> string -> string -> runtime_outcome * string.

(** [for index in range(len(api_key)): api_key[index] = 0] *)
Definition zeroed (buffer : string) : string := str_map (fun _ => ascii_of 0) buffer.

(** The bindings the [except] clauses leave: result, admission_failed, failure. *)
Definition runtime_failure_of (o : runtime_outcome)
    : option runtime_result * bool * option runtime_failure :=
  match o with
  | Returned r => (Some r, false, None)
  | Unavailable => (None, true, None)
  | RaisedOSError name errno =>
      (None, false,
       Some (mk_failure "RUNTIME_OSERROR" name (if is_int errno then errno else VNone)))
  | RaisedException name => (None, false, Some (mk_failure "RUNTIME_UNEXPECTED_ERROR" name VNone))
  | RaisedBase => (None, false, None)
  end.

Definition incomplete_evidence : pyval :=
  VDict [("guest_evidence_root", VStr ZERO_HASH); ("complete", VBool false)].

(** The manifest of the sealed evidence, or a placeholder that is incomplete. *)
Definition evidence_manifest (result : option runtime_result) : res pyval :=
  match result with
  | None => Ok incomplete_evidence
  | Some r =>
      if is_none (guest_result r) then Ok incomplete_evidence
      else
        let* bundle := get (guest_result r) "evidence_bundle" in
        if is_dict bundle then sub bundle "manifest" else Ok incomplete_evidence
  end.

Definition runtime_failed (admission_failed : bool) (result : option runtime_result) : bool :=
  admission_failed ||
  match result with
  | None => true
  | Some r => negb (String.eqb (failure_code r) "NONE") || is_none (guest_result r)
  end.

(** [_write_private_json]: the bytes of the file *)
Definition private_json (name : string) (value : pyval) : res (string * string) :=
  let* b := canonical_bytes value in Ok (name, b +:+ String (ascii_of 10) "").

(** The four artefacts, in the order they are written. *)
Definition write_all (job_id frozen_env walked diff receipt : pyval) : res (list (string * string)) :=
  let* f1 := private_json (str_of job_id +:+ ".road-frozen.json") frozen_env in
  let* f2 := private_json (str_of job_id +:+ ".road-walked.json") walked in
  let* f3 := private_json (str_of job_id +:+ ".road-diff.json") diff in
  let* f4 := private_json (str_of job_id +:+ ".receipt.json") receipt in
  Ok [f1; f2; f3; f4].

(** The run after the runtime has ended. *)
Definition conclude (p : prepared) (result : option runtime_result) (admission_failed : bool)
    (failure : option runtime_failure) : res AgentProbeRun :=
  let* jid := sub (p_manifest p) "job_id" in
  let* host_lifecycle :=
    build_host_lifecycle (str_of jid) (p_frozen_hash p) result admission_failed failure in
  let* road_walked := build_road_walked (p_manifest p) (p_frozen_hash p) result failure in
  let* road_diff := build_road_diff (p_manifest p) (p_frozen p) road_walked host_lifecycle in
  let* guest_evidence_manifest := evidence_manifest result in
  let* cleanup := sub host_lifecycle "cleanup_verified" in
  let cleanup_status := if truthy cleanup then "VERIFIED" else "UNVERIFIED" in
  let failed := runtime_failed admission_failed result in
  let execution_status := if failed then "INFRASTRUCTURE_FAILED" else "COMPLETE" in
  let* decision := sub road_diff "gate_decision" in
  let gate_decision := if failed then "EVALUATION_INCOMPLETE" else str_of decision in
  let* receipt_envelope :=
    build_receipt_envelope (p_manifest p) (p_frozen p) road_walked road_diff guest_evidence_manifest
      host_lifecycle execution_status gate_decision cleanup_status (VBytes (p_key p)) in
  let* code := derive_exit_code receipt_envelope (VBytes (p_key p)) in
  let* files := write_all jid (p_frozen_envelope p) road_walked road_diff receipt_envelope in
  Ok (mk_run receipt_envelope code jid
        (match result with Some r => evidence_path r | None => None end) files).

(** [run_agent_probe]: the credential buffer afterwards, and the run.  [None]
    is an exception outside [Exception] passing through. *)
Definition run_agent_probe (runtime : runtime_fn) (q : request) (api_key : string)
    : string * option (res AgentProbeRun) :=
  match prepare q api_key with
  | Err e => (api_key, Some (Err e))
  | Ok p =>
      let '(outcome, buffer) := runtime (p_manifest p) (p_frozen_hash p) (p_target p) api_key in
      let buffer := zeroed buffer in
      match outcome with
      | RaisedBase => (buffer, None)
      | _ =>
          let '(result, admission_failed, failure) := runtime_failure_of outcome in
          (buffer, Some (conclude p result admission_failed failure))
      end
  end.

End runner.

(** ** Properties of a run *)

Lemma zeroed_spec b : str_forall (fun c => byte_of c =? 0) (zeroed b) = true.
Proof.
  unfold zeroed. rewrite str_forall_map. induction b as [|c b IH]; cbn; [done|]. by rewrite IH.
Qed.

(** A key file is accepted only if it is a regular file of at most 1024
    bytes that nobody else can read (secret key) or write (public key), and the
    key returned has one of the admitted lengths; a file of exactly an admitted
    length is taken byte for byte, even when it ends in white space. *)
Theorem read_exact_key_spec (file : option key_file) (name : string) (lengths : list nat)
    (private : bool) (key : string) :
  _read_exact_key file name lengths private = Ok key ->
  exists f, file = Some f /\ S_ISREG (st_mode f) = true /\
    Z.land (st_mode f) (if private then 63 else 18) = 0 /\
    (String.length (content f) <= 1024)%nat /\ has_length lengths key = true /\
    (has_length lengths (content f) = true -> key = content f).
Proof.
  unfold _read_exact_key, MAX_KEY_FILE_BYTES. intros Hk. destruct file as [f|]; [|done]. cbv zeta in Hk.
  run_inv. exists f. split; [done|]. split; [done|]. split; [lia|].
  assert (Hl : (String.length (content f) <= 1024)%nat).
  { destruct (le_lt_dec (String.length (content f)) 1024) as [|Hgt]; [done|].
    rewrite slice_long in * by lia. done. }
  split; [done|]. rewrite slice_all in Hk by lia.
  destruct (has_length lengths (content f)) eqn:E1; [run_inv; by subst|].
  destruct (has_length lengths (strip (content f))) eqn:E2; [run_inv; by subst|].
  match type of Hk with (if has_length lengths ?d then _ else _) = _ =>
    destruct (has_length lengths d) eqn:E3; [run_inv; by subst|done] end.
Qed.

Section properties.
Context `{Unicode}.

(** The credential never outlives the call of the runtime: once the
    contract is prepared, whatever the runtime does, every byte of the buffer is
    zero when [run_agent_probe] ends; if preparing fails, the runtime is not
    called and the same error is raised. *)
Theorem credential_zeroed (runtime : runtime_fn) (q : request) (api_key : string) :
  match prepare q api_key with
  | Ok _ => str_forall (fun c => byte_of c =? 0) (fst (run_agent_probe runtime q api_key)) = true
  | Err e => run_agent_probe runtime q api_key = (api_key, Some (Err e))
  end.
Proof.
  unfold run_agent_probe. destruct (prepare q api_key) as [p|e]; [|done].
  destruct (runtime _ _ _ _) as [o b]. by destruct o; apply zeroed_spec.
Qed.

Lemma classify_decision w h c d code : classify w h = Ok (c, d, code) -> mem d GATES = true.
Proof.
  unfold classify. intros Hc. run_inv.
  repeat (match type of Hc with (if ?b then _ else _) = _ => destruct b end; run_inv); by simplify_eq.
Qed.

(** The pieces of a concluded run. *)
Lemma conclude_ok p result adm failure run :
  conclude p result adm failure = Ok run ->
  exists jid h w c d code cl,
    build_host_lifecycle jid (p_frozen_hash p) result adm failure = Ok h /\
    build_road_walked (p_manifest p) (p_frozen_hash p) result failure = Ok w /\
    classify w h = Ok (c, d, code) /\ sub h "cleanup_verified" = Ok cl /\
    exit_code run = exit_of_status (if runtime_failed adm result then "INFRASTRUCTURE_FAILED" else "COMPLETE")
      (if runtime_failed adm result then "EVALUATION_INCOMPLETE" else d)
      (if truthy cl then "VERIFIED" else "UNVERIFIED") /\
    verify_envelope (envelope run) (VBytes (p_key p)) (Some RECEIPT_TYPE) = Ok true.
Proof.
  unfold conclude. intros Hr. run_inv. cbv zeta in *. run_inv.
  match goal with Hd : build_road_diff _ _ _ _ = Ok ?diff, Hg : sub ?diff "gate_decision" = Ok ?dec |- _ =>
    destruct (build_road_diff_ok _ _ _ _ _ Hd) as (c & d & code & Hc & Hs);
    assert (dec = VStr d) as -> by congruence end.
  match goal with Hb : build_receipt_envelope _ _ _ _ _ _ _ _ _ _ = Ok ?e |- _ =>
    pose proof (built_receipt_exit _ _ _ _ _ _ _ _ _ _ _ Hb) as Hx;
    destruct (build_receipt_ok _ _ _ _ _ _ _ _ _ _ _ Hb)
      as (_ & _ & _ & a1 & a2 & a3 & a4 & a5 & a6 & a7 & b1 & b2 & b3 & Ha & Ht & _)
  end. subst run.
  do 7 eexists. do 4 (split; [eassumption|]). cbn [exit_code envelope]. split.
  - match goal with Hc : derive_exit_code _ _ = Ok ?c' |- _ => rewrite Hx in Hc; by apply Ok_inj in Hc as <- end.
  - by eapply verify_envelope_complete.
Qed.

Lemma exit_of_status_zero ex gate cl :
  exit_of_status ex gate cl = EXIT_ALLOW -> ex = "COMPLETE" /\ gate = "ALLOW" /\ cl = "VERIFIED".
Proof.
  unfold exit_of_status. destruct (String.eqb_spec cl "VERIFIED"), (String.eqb_spec ex "COMPLETE"),
    (String.eqb_spec gate "ALLOW"), (String.eqb gate "EVALUATION_INCOMPLETE"); try done.
Qed.

(** C25: Exit code 0 means the run was clean end to end: the runtime returned,
    with no failure code; the guest completed its task with its tokens
    accounted for, no soft finding, and sealed a complete evidence bundle; every
    broker decision was unblocked; egress telemetry was complete; and the purge
    was verified externally.  The receipt verifies under the observer key. *)
Theorem exit_zero_means_clean_run (runtime : runtime_fn) (q : request) (api_key buffer : string)
    (p : prepared) (run : AgentProbeRun) :
  prepare q api_key = Ok p -> run_agent_probe runtime q api_key = (buffer, Some (Ok run)) ->
  exit_code run = EXIT_ALLOW ->
  verify_envelope (envelope run) (VBytes (p_key p)) (Some RECEIPT_TYPE) = Ok true /\
  exists r, fst (runtime (p_manifest p) (p_frozen_hash p) (p_target p) api_key) = Returned r /\
    allow_evidence r.
Proof.
  unfold run_agent_probe. intros ->. destruct (runtime _ _ _ _) as [o b]. cbn [fst].
  destruct (runtime_failure_of o) as [[result adm] failure] eqn:Eo. intros Hr He.
  assert (Hc : conclude p result adm failure = Ok run /\ forall r, result = Some r -> o = Returned r).
  { destruct o; cbn in Eo; simplify_eq; try done; (split; [by simplify_eq|]); intros; by simplify_eq. }
  destruct Hc as [Hc Ho].
  apply conclude_ok in Hc as (jid & h & w & c & d & code & cl & Hh & Hw & Hcl & _ & Hx & Hv).
  split; [done|]. rewrite He in Hx. symmetry in Hx. apply exit_of_status_zero in Hx as (Hx1 & Hx2 & _).
  destruct (runtime_failed adm result); [done|]. subst d.
  destruct (allow_requires_evidence _ _ _ _ _ _ _ _ _ _ Hh Hw Hcl) as (r & -> & Hr'). eauto.
Qed.

(** A run whose runtime was refused admission exits 3, one whose runtime
    raised exits 6, and one that came back with a failure code or without a
    guest result exits 3 or 6: infrastructure trouble is never reported as a
    verdict on the target, and never as ALLOW. *)
Theorem runtime_trouble_is_not_a_verdict (runtime : runtime_fn) (q : request)
    (api_key buffer : string) (p : prepared) (run : AgentProbeRun) :
  prepare q api_key = Ok p -> run_agent_probe runtime q api_key = (buffer, Some (Ok run)) ->
  match fst (runtime (p_manifest p) (p_frozen_hash p) (p_target p) api_key) with
  | Unavailable => exit_code run = EXIT_RUNTIME_FAILURE
  | RaisedOSError _ _ | RaisedException _ => exit_code run = EXIT_CLEANUP_FAILURE
  | Returned r =>
      negb (String.eqb (failure_code r) "NONE") || is_none (guest_result r) = true ->
      exit_code run = EXIT_RUNTIME_FAILURE \/ exit_code run = EXIT_CLEANUP_FAILURE
  | RaisedBase => False
  end.
Proof.
  unfold run_agent_probe. intros ->. destruct (runtime _ _ _ _) as [o b]. cbn [fst].
  destruct o as [r| |name errno|name|]; cbn [runtime_failure_of]; [..|done]; intros [= _ Hr];
    destruct (conclude_ok _ _ _ _ _ Hr) as (jid & h & w & c & d & code & cl & Hh & _ & _ & Hcl & Hx & _).
  - intros Hf. cbn [runtime_failed orb] in Hx. rewrite Hf in Hx. rewrite Hx.
    destruct (truthy cl); [by left|by right].
  - destruct (not_started_lifecycle _ _ _ _ _ Hh) as [Hcl' _].
    assert (cl = VBool true) as -> by congruence. by rewrite Hx.
  - destruct (not_started_lifecycle _ _ _ _ _ Hh) as [Hcl' _].
    assert (cl = VBool false) as -> by congruence. by rewrite Hx.
  - destruct (not_started_lifecycle _ _ _ _ _ Hh) as [Hcl' _].
    assert (cl = VBool false) as -> by congruence. by rewrite Hx.
Qed.

End properties.

(** ** Witnesses *)
Definition sample_request : request :=
  mk_request (Some "# skill") sample_model (Some "0123456789abcdef0123456789abcdef")
    (Some "fedcba9876543210fedcba9876543210") None None None VNone "entropyentropy!!".

Definition sample_guest_result : pyval :=
  VDict [("status_code", VStr "COMPLETE"); ("task_complete", VBool true); ("soft_findings", VInt 0);
         ("model_metrics", VDict [("requests", VInt 1); ("token_reporting_complete", VBool true)]);
         ("evidence_bundle", VDict [("manifest", VDict
            [("guest_evidence_root", VStr ZERO_HASH); ("complete", VBool true)])])].

Definition sample_result : runtime_result :=
  mk_result "mf-web-00000000" sample_guest_result [] (VDict [("complete", VBool true)])
    (VDict [("verified_externally", VBool true); ("egress_worker_reaped", VBool true);
            ("network_namespace_removed", VBool true)]) None "NONE" VNone.

Definition sample_runtime (o : runtime_outcome) : runtime_fn := fun _ _ _ api_key => (o, api_key).

(** The run ends with this exit code. *)
Definition exits_with (code : Z) (x : string * option (res AgentProbeRun)) : bool :=
  match x with
  | (_, Some (Ok r)) => exit_code r =? code
  | _ => false
  end.

Lemma exits_with_ok code x :
  exits_with code x = true -> exists b r, x = (b, Some (Ok r)) /\ exit_code r = code.
Proof.
  destruct x as [b [[r|]|]]; cbn; [|discriminate..]. intros Hc%Z.eqb_eq. by exists b, r.
Qed.

Lemma run_prepares `{Unicode} rt q k b r :
  run_agent_probe rt q k = (b, Some (Ok r)) -> exists p, prepare q k = Ok p.
Proof. unfold run_agent_probe. destruct (prepare q k) as [p|]; [by exists p|discriminate]. Qed.

Lemma exit_zero_means_clean_run_witness : allow_evidence sample_result.
Proof.
  assert (Hx : exits_with EXIT_ALLOW (@run_agent_probe ascii_unicode
    (sample_runtime (Returned sample_result)) sample_request "sk-1") = true) by (vm_compute; reflexivity).
  destruct (exits_with_ok _ _ Hx) as (b & run & Hr & He). destruct (run_prepares _ _ _ _ _ Hr) as [p Hp].
  destruct (@exit_zero_means_clean_run ascii_unicode (sample_runtime (Returned sample_result)) sample_request
    "sk-1" b p run Hp Hr He) as (_ & r & Hret & Ha).
  injection Hret as <-. exact Ha.
Defined.

Lemma runtime_trouble_is_not_a_verdict_witness :
  exists b run, @run_agent_probe ascii_unicode (sample_runtime Unavailable) sample_request "sk-1" =
    (b, Some (Ok run)) /\ exit_code run = EXIT_RUNTIME_FAILURE.
Proof.
  assert (Hx : exits_with EXIT_RUNTIME_FAILURE (@run_agent_probe ascii_unicode
    (sample_runtime Unavailable) sample_request "sk-1") = true) by (vm_compute; reflexivity).
  destruct (exits_with_ok _ _ Hx) as (b & run & Hr & _). destruct (run_prepares _ _ _ _ _ Hr) as [p Hp].
  exists b, run. split; [exact Hr|].
  exact (@runtime_trouble_is_not_a_verdict ascii_unicode (sample_runtime Unavailable) sample_request
    "sk-1" b p run Hp Hr).
Defined.

Lemma read_exact_key_spec_witness :
  exists f, Some (mk_file 33152 "0123456789abcdef0123456789abcde ") = Some f /\
    S_ISREG (st_mode f) = true.
Proof.
  destruct (read_exact_key_spec (Some (mk_file 33152 "0123456789abcdef0123456789abcde ")) "k" [32]%nat true
    "0123456789abcdef0123456789abcde ") as (f & H1 & H2 & _); [vm_compute; reflexivity|].
  exists f. exact (conj H1 H2).
Defined.

End Runner.
