(* ===== verification/Hpke.v ===== *)
(** * agent_probe/hpke.py: HPKE base mode for wrapping the evidence key

    The key schedule is executable, over the HMAC of [Sha256].  X25519 and
    ChaCha20-Poly1305 belong to the [cryptography] package: they are the
    operations of the class [Primitives], and what the wrapping relies on
    (Diffie-Hellman commutes, decryption inverts encryption) is the class
    [PrimitiveLaws]. *)

From stdpp Require Import base list strings.
From Stdlib Require Import ZArith Lia.
From S2P Require Import Prelude PyValue Sha256 StrOps.

Local Open Scope Z_scope.

(** The [cryptography] operations [hpke.py] calls; [None] is an exception. *)
Class Primitives := {
  x25519_public : string -> string;
  x25519_exchange : string -> string -> option string;
  aead_encrypt : string -> string -> string -> string -> string;
  aead_decrypt : string -> string -> string -> string -> option string;
}.

Class PrimitiveLaws `{Primitives} := {
  x25519_public_length : forall sk, String.length (x25519_public sk) = 32%nat;
  x25519_commutes : forall a b,
    x25519_exchange a (x25519_public b) = x25519_exchange b (x25519_public a);
  aead_inverse : forall k n m a, aead_decrypt k n (aead_encrypt k n m a) a = Some m;
  aead_length : forall k n m a,
    String.length (aead_encrypt k n m a) = (String.length m + 16)%nat;
}.

Module Hpke.

Definition KEM_ID : Z := 32.
Definition KDF_ID : Z := 1.
Definition AEAD_ID : Z := 3.
Definition NH : Z := 32.
Definition NK : Z := 32.
Definition NN : Z := 12.

Definition byte (z : Z) : string := String (ascii_of z) "".
(** [z.to_bytes(2, "big")] *)
Definition to_bytes2 (z : Z) : string := byte (z / 256) +:+ byte (z mod 256).

Definition VERSION_LABEL : string := "HPKE-v1".
Definition KEM_SUITE_ID : string := "KEM" +:+ to_bytes2 KEM_ID.
Definition SUITE_ID : string := "HPKE" +:+ to_bytes2 KEM_ID +:+ to_bytes2 KDF_ID +:+ to_bytes2 AEAD_ID.

Fixpoint zeros (n : nat) : string :=
  match n with O => "" | S m => String (ascii_of 0) (zeros m) end.

Definition _extract (salt ikm : string) : string :=
  hmac_digest (if String.eqb salt "" then zeros (Z.to_nat NH) else salt) ikm.

(** The [while len(output) < length] loop: [bytes([counter])] raises past 255. *)
Fixpoint expand_loop (fuel : nat) (prk info : string) (length : Z) (output previous : string)
    (counter : Z) : option (res string) :=
  if length <=? Z.of_nat (String.length output) then Some (Ok output)
  else
    match fuel with
    | O => None
    | S fuel =>
        if 255 <? counter then Some (Err (ValueError "bytes must be in range(0, 256)"))
        else
          let previous := hmac_digest prk (previous +:+ info +:+ byte counter) in
          expand_loop fuel prk info length (output +:+ previous) previous (counter + 1)
    end.

(** One turn adds 32 bytes, so 256 turns end the loop for every admitted length. *)
Definition EXPAND_FUEL : nat := 256.

Definition _expand (prk info : string) (length : Z) : option (res string) :=
  if negb (in_range 0 (255 * NH) length) then Some (Err (HpkeError "HKDF output length is invalid"))
  else
    match expand_loop EXPAND_FUEL prk info length "" "" 1 with
    | Some (Ok output) => Some (Ok (slice (Z.to_nat length) output))
    | other => other
    end.

Definition _labeled_extract (suite_id salt label ikm : string) : string :=
  _extract salt (VERSION_LABEL +:+ suite_id +:+ label +:+ ikm).

Definition _labeled_expand (suite_id prk label info : string) (length : Z) : option (res string) :=
  let labeled_info := to_bytes2 length +:+ VERSION_LABEL +:+ suite_id +:+ label +:+ info in
  _expand prk labeled_info length.

Section hpke.
Context `{Primitives}.

Definition _extract_and_expand (dh kem_context : string) : option (res string) :=
  let eae_prk := _labeled_extract KEM_SUITE_ID "" "eae_prk" dh in
  _labeled_expand KEM_SUITE_ID eae_prk "shared_secret" kem_context NH.

Definition _key_schedule (shared_secret info : string) : option (res (string * string)) :=
  let psk_id_hash := _labeled_extract SUITE_ID "" "psk_id_hash" "" in
  let info_hash := _labeled_extract SUITE_ID "" "info_hash" info in
  let context := byte 0 +:+ psk_id_hash +:+ info_hash in
  let secret := _labeled_extract SUITE_ID shared_secret "secret" "" in
  match _labeled_expand SUITE_ID secret "key" context NK,
        _labeled_expand SUITE_ID secret "base_nonce" context NN with
  | Some (Ok key), Some (Ok base_nonce) => Some (Ok (key, base_nonce))
  | Some (Err e), _ | _, Some (Err e) => Some (Err e)
  | _, _ => None
  end.

Record SealedBox := mk_box { enc : string; ciphertext : string }.

(** The shared secret and the key schedule, from a DH value. *)
Definition schedule (dh kem_context info : string) : option (res (string * string)) :=
  match _extract_and_expand dh kem_context with
  | Some (Ok shared_secret) => _key_schedule shared_secret info
  | Some (Err e) => Some (Err e)
  | None => None
  end.

(** [seal_base]; the ephemeral key is an argument, random where the source
    draws one.  The outer [option] is the fuel of the HKDF loop. *)
Definition seal_base (recipient_public_key plaintext info aad ephemeral_private_key : string)
    : option (res SealedBox) :=
  if negb (String.length recipient_public_key =? 32)%nat
  then Some (Err (HpkeError "recipient X25519 public key must be 32 bytes"))
  else if negb (String.length ephemeral_private_key =? 32)%nat
  then Some (Err (HpkeError "invalid X25519 key material"))
  else
    match x25519_exchange ephemeral_private_key recipient_public_key with
    | None => Some (Err (HpkeError "invalid X25519 key material"))
    | Some dh =>
        let enc := x25519_public ephemeral_private_key in
        match schedule dh (enc +:+ recipient_public_key) info with
        | Some (Ok (key, nonce)) => Some (Ok (mk_box enc (aead_encrypt key nonce plaintext aad)))
        | Some (Err e) => Some (Err e)
        | None => None
        end
    end.

Definition open_base (recipient_private_key enc ciphertext info aad : string)
    : option (res string) :=
  if negb (String.length recipient_private_key =? 32)%nat || negb (String.length enc =? 32)%nat
  then Some (Err (HpkeError "X25519 private key and encapsulated key must be 32 bytes"))
  else
    match x25519_exchange recipient_private_key enc with
    | None => Some (Err (HpkeError "HPKE open failed"))
    | Some dh =>
        match schedule dh (enc +:+ x25519_public recipient_private_key) info with
        | Some (Ok (key, nonce)) =>
            match aead_decrypt key nonce ciphertext aad with
            | Some plaintext => Some (Ok plaintext)
            | None => Some (Err (HpkeError "HPKE open failed"))
            end
        | Some (Err _) => Some (Err (HpkeError "HPKE open failed"))
        | None => None
        end
    end.

End hpke.

(** RFC 5869, test case 1. *)
Example hkdf_vector :
  let ikm := String.concat "" (repeat (byte 11) 22) in
  let salt := default "" (fromhex "000102030405060708090a0b0c") in
  let info := default "" (fromhex "f0f1f2f3f4f5f6f7f8f9") in
  match _expand (_extract salt ikm) info 42 with
  | Some (Ok okm) => to_hex okm =
      "3cb25f25faacd57a90434f64d0362f2a2d2d0a90cf1a5a4c5db02d56ecc4c5bf34007208d5b887185865"
  | _ => False
  end.
Proof. vm_compute. reflexivity. Qed.

(** ** The loop and the round trip *)

(** With enough fuel the loop returns; each turn adds one 32-byte block. *)
Lemma expand_loop_ok fuel prk info length output previous counter :
  1 <= counter -> Z.of_nat (String.length output) = 32 * (counter - 1) ->
  length <= 32 * 255 -> (256 - counter <= Z.of_nat fuel) -> counter <= 256 ->
  exists out, expand_loop fuel prk info length output previous counter = Some (Ok out) /\
    length <= Z.of_nat (String.length out).
Proof.
  revert output previous counter. induction fuel as [|fuel IH]; intros output previous counter Hc Ho Hl Hf Hu;
    cbn [expand_loop]; destruct (Z.leb_spec length (Z.of_nat (String.length output))) as [Hd|Hd]; eauto; [lia|].
  destruct (Z.ltb_spec 255 counter); [lia|]. apply IH; try lia.
  rewrite length_append, length_hmac_digest. lia.
Qed.

Lemma expand_ok prk info length :
  0 <= length <= 255 * NH ->
  exists out, _expand prk info length = Some (Ok out) /\ Z.of_nat (String.length out) = length.
Proof.
  unfold NH. intros Hl. unfold _expand, NH.
  assert (in_range 0 (255 * 32) length = true) as -> by (unfold in_range; lia). cbn [negb].
  destruct (expand_loop_ok EXPAND_FUEL prk info length "" "" 1) as (out & -> & Ho); try done; try lia.
  eexists. split; [done|]. rewrite slice_long; lia.
Qed.

(** The key schedule always returns a 32-byte key and a 12-byte nonce. *)
Lemma schedule_ok dh ctx info :
  exists key nonce, schedule dh ctx info = Some (Ok (key, nonce)) /\
    String.length key = 32%nat /\ String.length nonce = 12%nat.
Proof.
  unfold schedule, _extract_and_expand, _labeled_expand at 1.
  match goal with |- context [_expand ?p ?i NH] => destruct (expand_ok p i NH) as (ss & -> & _) end.
  { unfold NH. lia. }
  unfold _key_schedule, _labeled_expand.
  match goal with |- context [_expand ?p ?i NK] => destruct (expand_ok p i NK) as (key & -> & Hk) end.
  { unfold NK, NH. lia. }
  match goal with |- context [_expand ?p ?i NN] => destruct (expand_ok p i NN) as (nonce & -> & Hn) end.
  { unfold NN, NH. lia. }
  exists key, nonce. split; [done|]. unfold NK, NN in *. lia.
Qed.

(** [_expand] (HKDF-Expand) terminates and returns exactly [length] bytes
    for every length up to 255 blocks, and raises [HpkeError] for any other. *)
Theorem expand_exact (prk info : string) (length : Z) :
  (0 <= length <= 8160 ->
   exists out, _expand prk info length = Some (Ok out) /\ Z.of_nat (String.length out) = length) /\
  (length < 0 \/ 8160 < length ->
   _expand prk info length = Some (Err (HpkeError "HKDF output length is invalid"))).
Proof.
  split; [apply expand_ok|]. intros Hl. unfold _expand.
  assert (in_range 0 (255 * NH) length = false) as ->; [|done]. unfold in_range, NH. lia.
Qed.

Section laws.
Context `{PrimitiveLaws}.

(** Sealing to a public key gives a box only its private key opens. *)
Lemma seal_open sk eph pt info aad :
  String.length sk = 32%nat -> String.length eph = 32%nat ->
  x25519_exchange eph (x25519_public sk) <> None ->
  exists box, seal_base (x25519_public sk) pt info aad eph = Some (Ok box) /\
    String.length (enc box) = 32%nat /\ String.length (ciphertext box) = (String.length pt + 16)%nat /\
    open_base sk (enc box) (ciphertext box) info aad = Some (Ok pt).
Proof.
  intros Hs He Hd. unfold seal_base. rewrite x25519_public_length, He. cbn [Nat.eqb negb].
  destruct (x25519_exchange eph (x25519_public sk)) as [dh|] eqn:Edh; [|done].
  destruct (schedule_ok dh (x25519_public eph +:+ x25519_public sk) info) as (key & nonce & Hk & _).
  rewrite Hk. eexists. split; [done|]. cbn [enc ciphertext].
  split; [apply x25519_public_length|]. split; [apply aead_length|].
  unfold open_base. rewrite x25519_public_length, Hs, x25519_commutes, Edh. cbn [Nat.eqb negb orb].
  by rewrite Hk, aead_inverse.
Qed.

(** HPKE wrapping is correct: for a 32-byte recipient key and a 32-byte
    ephemeral key whose exchange succeeds, [seal_base] to the recipient's public
    key returns a box that [open_base] with the private key and the same info
    and associated data opens to the plaintext; the encapsulated key is 32 bytes
    and the ciphertext 16 bytes longer than the plaintext. *)
Theorem hpke_roundtrip (sk eph pt info aad : string) :
  String.length sk = 32%nat -> String.length eph = 32%nat ->
  x25519_exchange eph (x25519_public sk) <> None ->
  exists box, seal_base (x25519_public sk) pt info aad eph = Some (Ok box) /\
    String.length (enc box) = 32%nat /\ String.length (ciphertext box) = (String.length pt + 16)%nat /\
    open_base sk (enc box) (ciphertext box) info aad = Some (Ok pt).
Proof. apply seal_open. Qed.

End laws.

(** ** A model of the primitives, and the witnesses *)

(** Not secure, but it satisfies the laws: a public key is a digest, the shared
    value is the two public keys in order, the tag is constant. *)
Definition toy_shared (p q : string) : string := if String.leb p q then p +:+ q else q +:+ p.
Definition toy : Primitives :=
  {| x25519_public := sha256_digest;
     x25519_exchange := fun a q => Some (toy_shared (sha256_digest a) q);
     aead_encrypt := fun _ _ m _ => zeros 16 +:+ m;
     aead_decrypt := fun _ _ c _ => Some (String.substring 16 (String.length c - 16) c) |}.

Lemma toy_shared_comm p q : toy_shared p q = toy_shared q p.
Proof.
  unfold toy_shared. destruct (String.leb p q) eqn:E1, (String.leb q p) eqn:E2; try done.
  - by rewrite (String.leb_antisym _ _ E1 E2).
  - by destruct (String.leb_total p q) as [H|H]; rewrite H in *.
Qed.

#[global] Instance toy_laws : @PrimitiveLaws toy.
Proof.
  split; cbn [toy x25519_public x25519_exchange aead_encrypt aead_decrypt].
  - apply length_sha256_digest.
  - intros a b. by rewrite toy_shared_comm.
  - intros _ _ m _. pose proof (substring_prefix (zeros 16) m "") as Hs. rewrite append_nil_r in Hs.
    rewrite length_append. change (String.length (zeros 16)) with 16%nat in *.
    by replace (16 + String.length m - 16)%nat with (String.length m) by lia; rewrite Hs.
  - intros _ _ m _. rewrite length_append. change (String.length (zeros 16)) with 16%nat. lia.
Qed.

Lemma hpke_roundtrip_witness :
  exists box, @seal_base toy (sha256_digest (zeros 32)) "cek" "info" "aad" (zeros 32) = Some (Ok box) /\
    @open_base toy (zeros 32) (enc box) (ciphertext box) "info" "aad" = Some (Ok "cek").
Proof.
  destruct (@hpke_roundtrip toy _ (zeros 32) (zeros 32) "cek" "info" "aad") as (box & H1 & _ & _ & H2);
    [reflexivity|reflexivity|discriminate|]. exists box. exact (conj H1 H2).
Defined.

End Hpke.
