(* ===== verification/SecretStream.v ===== *)
(** * agent_probe/secretstream.py: the chunk encryption of the evidence

    libsodium is not part of the sources: its secretstream functions are the
    operations of the class [Sodium], and [SodiumLaws] states their documented
    contract (a reader that has pulled the same prefix decrypts the next chunk
    and recovers its tag). *)

From stdpp Require Import base list strings.
From Stdlib Require Import ZArith Lia.
From S2P Require Import Prelude PyValue StrOps.

Local Open Scope Z_scope.

Definition KEY_BYTES : nat := 32.
Definition HEADER_BYTES : nat := 24.
Definition ABYTES : nat := 17.
Definition TAG_MESSAGE : Z := 0.
Definition TAG_FINAL : Z := 3.
Definition MAX_CHUNK_BYTES : nat := 64 * 1024.

Class Sodium := {
  push_state : Type;
  pull_state : Type;
  init_push : string -> string -> string * push_state;   (** random bytes, key: header, state *)
  push_chunk : push_state -> string -> string -> Z -> push_state * string;  (** message, ad, tag *)
  init_pull : string -> string -> option pull_state;     (** header, key *)
  pull_chunk : pull_state -> string -> string -> option (pull_state * string * Z);
}.

Class SodiumLaws `{Sodium} := {
  in_sync : push_state -> pull_state -> Prop;
  header_length : forall r k, String.length (fst (init_push r k)) = HEADER_BYTES;
  chunk_length : forall s m ad t,
    String.length (snd (push_chunk s m ad t)) = (String.length m + ABYTES)%nat;
  init_in_sync : forall r k, String.length k = KEY_BYTES -> exists p,
    init_pull (fst (init_push r k)) k = Some p /\ in_sync (snd (init_push r k)) p;
  chunk_in_sync : forall s p m ad t, in_sync s p -> 0 <= t < 256 ->
    exists p', pull_chunk p (snd (push_chunk s m ad t)) ad = Some (p', m, t) /\
      in_sync (fst (push_chunk s m ad t)) p';
}.

Module SecretStream.

Record EncryptedChunk := mk_chunk {
  sequence : Z;
  aad : string;
  ciphertext : string;
  final : bool;
}.

Definition stream_error {A} (msg : string) : res A := Err (SecretStreamError msg).

Section stream.
Context `{Sodium}.

Record PushStream := mk_stream {
  st_state : push_state;
  header : string;
  st_sequence : Z;
  finalized : bool;
}.

(** [PushStream.__init__]; [rnd] is the randomness libsodium draws. *)
Definition new_stream (rnd key : string) : res PushStream :=
  if negb (String.length key =? KEY_BYTES)%nat
  then stream_error "SecretStream key must be 32 bytes"
  else let '(h, s) := init_push rnd key in Ok (mk_stream s h 0 false).

Definition push (s : PushStream) (plaintext ad : string) (is_final : bool)
    : res (PushStream * EncryptedChunk) :=
  raise (SecretStreamError "SecretStream is finalized") when finalized s;;
  raise (SecretStreamError "SecretStream plaintext chunk exceeds 64 KiB") when
    (MAX_CHUNK_BYTES <? String.length plaintext)%nat;;
  let '(st, c) := push_chunk (st_state s) plaintext ad (if is_final then TAG_FINAL else TAG_MESSAGE) in
  Ok (mk_stream st (header s) (st_sequence s + 1) is_final, mk_chunk (st_sequence s) ad c is_final).

(** The loop of [pull_all]. *)
Fixpoint pull_loop (p : pull_state) (expected : Z) (saw_final : bool) (chunks : list EncryptedChunk)
    : res (list string) :=
  match chunks with
  | [] => if saw_final then Ok [] else stream_error "SecretStream final tag is missing"
  | c :: r =>
      raise (SecretStreamError "SecretStream sequence is invalid") when
        (negb (sequence c =? expected) || saw_final);;
      match pull_chunk p (ciphertext c) (aad c) with
      | None => stream_error "SecretStream authentication failed"
      | Some (p', m, tag) =>
          let is_final := tag =? TAG_FINAL in
          raise (SecretStreamError "SecretStream tag metadata mismatch") when
            negb (Bool.eqb is_final (final c));;
          let* rest := pull_loop p' (expected + 1) is_final r in
          Ok (m :: rest)
      end
  end.

Definition pull_all (key hdr : string) (chunks : list EncryptedChunk) : res (list string) :=
  raise (SecretStreamError "invalid SecretStream key or header") when
    (negb (String.length key =? KEY_BYTES)%nat || negb (String.length hdr =? HEADER_BYTES)%nat);;
  match init_pull hdr key with
  | None => stream_error "SecretStream pull initialization failed"
  | Some p => pull_loop p 0 false chunks
  end.

End stream.

(** ** A reader recovers what was pushed *)
Section laws.
Context `{SodiumLaws}.

(** A run of the stream: the chunks pushed so far and their plaintexts, from
    the state after [new_stream]. *)
Inductive pushes : PushStream -> list (string * EncryptedChunk) -> PushStream -> Prop :=
  | pushes_nil s : pushes s [] s
  | pushes_cons s m ad f s1 c l s2 :
      push s m ad f = Ok (s1, c) -> pushes s1 l s2 -> pushes s ((m, c) :: l) s2.

Lemma push_ok s m ad f s1 c :
  push s m ad f = Ok (s1, c) ->
  finalized s = false /\ (String.length m <= MAX_CHUNK_BYTES)%nat /\
  c = mk_chunk (st_sequence s) ad (snd (push_chunk (st_state s) m ad (if f then TAG_FINAL else TAG_MESSAGE))) f /\
  s1 = mk_stream (fst (push_chunk (st_state s) m ad (if f then TAG_FINAL else TAG_MESSAGE)))
         (header s) (st_sequence s + 1) f.
Proof.
  unfold push. intros Hp. run_inv. rewrite Nat.ltb_ge in *.
  destruct (push_chunk _ _ _ _) as [st ct]. run_inv. simplify_eq. done.
Qed.

Lemma pull_pushes s l s' p :
  pushes s l s' -> in_sync (st_state s) p -> finalized s' = true ->
  (l = [] -> finalized s = true) ->
  pull_loop p (st_sequence s) (finalized s) (map snd l) = Ok (map fst l).
Proof.
  intros Hl. revert p. induction Hl as [s|s m ad f s1 c l s2 Hp Hl IH]; intros p Hs Hf Hne; cbn.
  - by rewrite Hne.
  - apply push_ok in Hp as (Hfin & _ & -> & ->). cbn [sequence ciphertext aad final] in *.
    rewrite Hfin, Z.eqb_refl. cbn [negb orb okb raise_if].
    destruct (chunk_in_sync (st_state s) p m ad (if f then TAG_FINAL else TAG_MESSAGE) Hs) as (p' & -> & Hs').
    { by destruct f. }
    assert ((if f then TAG_FINAL else TAG_MESSAGE) =? TAG_FINAL = f) as -> by by destruct f.
    rewrite Bool.eqb_reflx. cbn [negb okb raise_if]. cbn [st_state st_sequence finalized] in IH.
    rewrite IH; try done. intros ->. by inversion Hl; subst.
Qed.

(** Chunks pushed from a new stream up to the final one are pulled back. *)
Lemma pull_all_pushes rnd key s l s' :
  new_stream rnd key = Ok s -> pushes s l s' -> finalized s' = true ->
  pull_all key (header s) (map snd l) = Ok (map fst l).
Proof.
  unfold new_stream. intros Hn Hl Hf. destruct (String.length key =? KEY_BYTES)%nat eqn:Ek; [|done].
  cbn [negb] in Hn. apply Nat.eqb_eq in Ek.
  pose proof (header_length rnd key) as Hh. destruct (init_in_sync rnd key Ek) as (p & Hp & Hs).
  destruct (init_push rnd key) as [h st]. run_inv. subst s. cbn [fst snd header] in *.
  unfold pull_all. rewrite Ek, Hh. cbn [Nat.eqb negb orb okb raise_if KEY_BYTES HEADER_BYTES]. rewrite Hp.
  pose proof (pull_pushes _ _ _ p Hl Hs Hf) as Hpull. apply Hpull. intros ->. by inversion Hl; subst.
Qed.

(** A finished stream accepts no further chunk. *)
Lemma push_finalized s m ad f :
  finalized s = true -> push s m ad f = Err (SecretStreamError "SecretStream is finalized").
Proof. unfold push. by intros ->. Qed.

End laws.

(** ** A model of libsodium

    Not secure, but it satisfies the laws: a chunk is its tag, sixteen zero
    bytes and the message. *)
Definition zero_bytes (n : nat) : string := Nat.iter n (String (ascii_of 0)) "".

Definition toy_sodium : Sodium :=
  {| push_state := unit; pull_state := unit;
     init_push := fun _ _ => (zero_bytes HEADER_BYTES, tt);
     push_chunk := fun _ m _ t => (tt, String (ascii_of t) (zero_bytes 16 +:+ m));
     init_pull := fun _ _ => Some tt;
     pull_chunk := fun _ c _ =>
       match c with
       | String t r => Some (tt, String.substring 16 (String.length r - 16) r, byte_of t)
       | EmptyString => None
       end |}.

#[global] Instance toy_sodium_laws : @SodiumLaws toy_sodium.
Proof.
  refine {| in_sync := fun _ _ => True |}; cbn [toy_sodium push_state pull_state init_push push_chunk init_pull pull_chunk fst snd].
  - reflexivity.
  - intros [] m _ t. cbn [String.length]. rewrite length_append. unfold ABYTES. cbn. lia.
  - intros _ _ _. by exists tt.
  - intros [] [] m _ t _ Ht. exists tt. split; [|done].
    pose proof (substring_prefix (zero_bytes 16) m "") as Hs. rewrite append_nil_r in Hs.
    rewrite length_append. change (String.length (zero_bytes 16)) with 16%nat in *.
    replace (16 + String.length m - 16)%nat with (String.length m) by lia.
    by rewrite Hs, byte_of_ascii_of.
Qed.

End SecretStream.
