(* ===== verification/Base64.v ===== *)
(** * base64.b64encode and base64.b64decode(..., validate=True) *)

From stdpp Require Import base list strings.
From Stdlib Require Import ZArith Lia.
From S2P Require Import Prelude PyValue.

Local Open Scope Z_scope.

Module Base64.

(** The character of a 6-bit value. *)
Definition digit (z : Z) : Ascii.ascii :=
  ascii_of (if z <? 26 then 65 + z
            else if z <? 52 then 71 + z
            else if z <? 62 then z - 4
            else if z =? 62 then 43 else 47).

Definition value (c : Ascii.ascii) : option Z :=
  let b := byte_of c in
  if in_range 65 90 b then Some (b - 65)
  else if in_range 97 122 b then Some (b - 71)
  else if in_range 48 57 b then Some (b + 4)
  else if b =? 43 then Some 62
  else if b =? 47 then Some 63
  else None.

Definition PAD : Ascii.ascii := ascii_of 61.

(** [base64.b64encode] *)
Fixpoint encode (s : string) : string :=
  match s with
  | EmptyString => ""
  | String a EmptyString =>
      let x := byte_of a in
      String (digit (x / 4)) (String (digit (x mod 4 * 16)) (String PAD (String PAD "")))
  | String a (String b EmptyString) =>
      let x := byte_of a in let y := byte_of b in
      String (digit (x / 4)) (String (digit (x mod 4 * 16 + y / 16))
        (String (digit (y mod 16 * 4)) (String PAD "")))
  | String a (String b (String c r)) =>
      let x := byte_of a in let y := byte_of b in let z := byte_of c in
      String (digit (x / 4)) (String (digit (x mod 4 * 16 + y / 16))
        (String (digit (y mod 16 * 4 + z / 64)) (String (digit (z mod 64)) (encode r))))
  end.

Definition is_pad (c : Ascii.ascii) : bool := byte_of c =? 61.

(** Strict decoding: quads of digits, padding only at the very end. *)
Fixpoint decode (s : string) : option string :=
  match s with
  | EmptyString => Some ""
  | String a (String b (String c (String d r))) =>
      match value a, value b with
      | Some x, Some y =>
          let b1 := x * 4 + y / 16 in
          if is_pad c then
            if is_pad d && String.eqb r "" then Some (String (ascii_of b1) "") else None
          else
            match value c with
            | None => None
            | Some z =>
                let b2 := y mod 16 * 16 + z / 4 in
                if is_pad d then
                  if String.eqb r "" then Some (String (ascii_of b1) (String (ascii_of b2) "")) else None
                else
                  match value d, decode r with
                  | Some w, Some t =>
                      Some (String (ascii_of b1) (String (ascii_of b2)
                              (String (ascii_of (z mod 4 * 64 + w)) t)))
                  | _, _ => None
                  end
            end
      | _, _ => None
      end
  | _ => None
  end.

Lemma byte_of_digit z : 0 <= z < 64 ->
  byte_of (digit z) = (if z <? 26 then 65 + z else if z <? 52 then 71 + z
                       else if z <? 62 then z - 4 else if z =? 62 then 43 else 47).
Proof.
  intros Hz. unfold digit. apply byte_of_ascii_of.
  destruct (Z.ltb_spec z 26), (Z.ltb_spec z 52), (Z.ltb_spec z 62), (Z.eqb_spec z 62); lia.
Qed.

Lemma value_digit z : 0 <= z < 64 -> value (digit z) = Some z /\ is_pad (digit z) = false.
Proof.
  intros Hz. unfold value, is_pad, in_range. rewrite byte_of_digit by done.
  destruct (Z.ltb_spec z 26), (Z.ltb_spec z 52), (Z.ltb_spec z 62), (Z.eqb_spec z 62); try lia;
    repeat match goal with
    | |- context [?a <=? ?b] => destruct (Z.leb_spec a b); try lia
    | |- context [?a =? ?b] => destruct (Z.eqb_spec a b); try lia
    end; cbn; split; try done; f_equal; lia.
Qed.

Lemma is_pad_PAD : is_pad PAD = true.
Proof. reflexivity. Qed.

(** Three bytes at a time. *)
Lemma chunk_ind (P : string -> Prop) :
  P "" -> (forall a, P (String a "")) -> (forall a b, P (String a (String b ""))) ->
  (forall a b c r, P r -> P (String a (String b (String c r)))) -> forall s, P s.
Proof.
  intros H0 H1 H2 H3. fix IH 1. intros [|a [|b [|c r]]];
    [exact H0|exact (H1 a)|exact (H2 a b)|exact (H3 a b c r (IH r))].
Qed.

(** The 6-bit groups of three bytes, and their bytes again. *)
Lemma groups x y z :
  0 <= x < 256 -> 0 <= y < 256 -> 0 <= z < 256 ->
  (0 <= x / 4 < 64 /\ 0 <= x mod 4 * 16 + y / 16 < 64 /\ 0 <= y mod 16 * 4 + z / 64 < 64 /\
   0 <= z mod 64 < 64) /\
  (x / 4 * 4 + (x mod 4 * 16 + y / 16) / 16 = x /\
   (x mod 4 * 16 + y / 16) mod 16 * 16 + (y mod 16 * 4 + z / 64) / 4 = y /\
   (y mod 16 * 4 + z / 64) mod 4 * 64 + z mod 64 = z).
Proof. intros Hx Hy Hz. split; repeat split; Z.div_mod_to_equations; lia. Qed.

Ltac rewrite_digits :=
  repeat match goal with
  | |- context [value (digit ?z)] => rewrite (proj1 (value_digit z ltac:(lia)))
  | |- context [is_pad (digit ?z)] => rewrite (proj2 (value_digit z ltac:(lia)))
  end.

Lemma decode_encode s : decode (encode s) = Some s.
Proof.
  induction s as [|a|a b|a b c r IH] using chunk_ind; [done|..].
  - destruct (groups (byte_of a) 0 0) as [[? [? [? ?]]] (G1 & _ & _)]; try apply byte_of_range; try lia.
    change (0 / 16) with 0 in *. rewrite Z.add_0_r in *. cbn [encode decode].
    rewrite_digits. rewrite is_pad_PAD. cbn. by rewrite G1, ascii_of_byte_of.
  - destruct (groups (byte_of a) (byte_of b) 0) as [[? [? [? ?]]] (G1 & G2 & _)]; try apply byte_of_range; try lia.
    change (0 / 64) with 0 in *. rewrite Z.add_0_r in *. cbn [encode decode].
    rewrite_digits. rewrite is_pad_PAD. cbn. by rewrite G1, G2, !ascii_of_byte_of.
  - destruct (groups (byte_of a) (byte_of b) (byte_of c)) as [[? [? [? ?]]] (G1 & G2 & G3)];
      try apply byte_of_range.
    cbn [encode decode]. rewrite_digits. by rewrite IH, G1, G2, G3, !ascii_of_byte_of.
Qed.

Lemma digit_ascii z : 0 <= z < 64 -> byte_of (digit z) < 128.
Proof.
  intros Hz. rewrite byte_of_digit by done.
  destruct (Z.ltb_spec z 26), (Z.ltb_spec z 52), (Z.ltb_spec z 62), (Z.eqb_spec z 62); lia.
Qed.

Lemma length_encode s : String.length (encode s) = (4 * ((String.length s + 2) / 3))%nat.
Proof.
  induction s as [|a|a b|a b c r IH] using chunk_ind; try reflexivity.
  cbn [encode String.length]. rewrite IH.
  replace (S (S (S (String.length r))) + 2)%nat with (String.length r + 2 + 1 * 3)%nat by lia.
  rewrite Nat.div_add by lia. lia.
Qed.

Lemma encode_ascii s : isascii (encode s) = true.
Proof.
  induction s as [|a|a b|a b c r IH] using chunk_ind; [done|..];
    unfold isascii in *; cbn [encode str_forall].
  - destruct (groups (byte_of a) 0 0) as [[? [? _]] _]; try apply byte_of_range; try lia.
    change (0 / 16) with 0 in *. rewrite Z.add_0_r in *.
    rewrite !(proj2 (Z.ltb_lt _ _)); [done|..]; try apply digit_ascii; done || lia.
  - destruct (groups (byte_of a) (byte_of b) 0) as [[? [? [? _]]] _]; try apply byte_of_range; try lia.
    change (0 / 64) with 0 in *. rewrite Z.add_0_r in *.
    rewrite !(proj2 (Z.ltb_lt _ _)); [done|..]; try apply digit_ascii; done || lia.
  - destruct (groups (byte_of a) (byte_of b) (byte_of c)) as [[? [? [? ?]]] _]; try apply byte_of_range.
    rewrite !(proj2 (Z.ltb_lt _ _)); [done|..]; try apply digit_ascii; done || lia.
Qed.

End Base64.
