(* ===== verification/Evidence.v ===== *)
(** * agent_probe/evidence.py: the sealed evidence bundle

    The guest seals its transcript as it runs; the host checks the ciphertext
    bundle without being able to read it; the holder of the quarantine key
    decrypts it.  Written against the interfaces of [Hpke] and
    [SecretStream]. *)

From stdpp Require Import base list strings.
From Stdlib Require Import ZArith Lia.
From S2P Require Import Prelude PyValue Sha256 Json JsonFacts Canonical StrOps Base64 Hpke SecretStream.

Local Open Scope Z_scope.

Module Evidence.
Import Canonical SecretStream.

Definition SUITE_ID : string := "HPKE-0020-0001-0003+SECRETSTREAM-XCHACHA20POLY1305".
Definition ZERO_HASH : string := String.concat "" (repeat "0" 64).
Definition RECORD_TYPES : list string :=
  ["initial_prompt"; "model_response"; "tool_proposal"; "broker_denial"; "tool_result";
   "guest_status"; "guest_halt"].

Definition evidence_error {A} (msg : string) : res A := Err (EvidenceError msg).

Definition _b64 (value : string) : pyval := VStr (Base64.encode value).

(** [_unb64]; [maximum] is 8 MiB where the source omits it *)
Definition DEFAULT_MAXIMUM : Z := 8 * 1024 * 1024.
Definition _unb64 (value : pyval) (name : string) (maximum : Z) : res string :=
  match value with
  | VStr s =>
      raise (EvidenceError (name +:+ " is invalid")) when (maximum * 2 <? py_len s);;
      match Base64.decode s with
      | None => evidence_error (name +:+ " is not canonical base64")
      | Some decoded =>
          raise (EvidenceError (name +:+ " exceeds its byte limit")) when
            (maximum <? Z.of_nat (String.length decoded));;
          Ok decoded
      end
  | _ => evidence_error (name +:+ " is invalid")
  end.

(** HPKE's inner fuel never runs out ([Hpke.schedule_ok]). *)
Definition returned {A} (x : option (res A)) : res A :=
  match x with Some r => r | None => Err (HpkeError "HKDF did not return") end.

(** ** Sealing *)
Section sealer.
Context `{Primitives} `{Sodium}.

Record GuestEvidenceSealer := mk_sealer {
  job_id : string;
  target_hash : string;
  road_frozen_hash : string;
  quarantine_key_id : string;
  max_evidence_bytes : Z;
  cek : string;
  hpke_info : string;
  hpke_aad : string;
  enc : string;
  wrapped_cek : string;
  stream : PushStream;
  chunks : list EncryptedChunk;
  previous_ciphertext_hash : string;
  plaintext_bytes : Z;
  ciphertext_bytes : Z;
  sealed : bool;   (** [_finalized] *)
}.

Definition info_doc (job target frozen : string) : pyval :=
  VDict [("profile", VStr "agent-probe/v0"); ("job_id", VStr job); ("target_hash", VStr target);
         ("road_frozen_hash", VStr frozen); ("purpose", VStr "guest-evidence-key-wrap")].
Definition key_doc (key_id : string) : pyval :=
  VDict [("key_id", VStr key_id); ("suite_id", VStr SUITE_ID)].

(** [__post_init__], with the three random values it draws *)
Definition new_sealer (key ephemeral rnd : string) (job target frozen public_key key_id : string)
    (maximum : Z) : res GuestEvidenceSealer :=
  let* info := canonical_bytes (info_doc job target frozen) in
  let* aad := canonical_bytes (key_doc key_id) in
  let* box := returned (Hpke.seal_base public_key key info aad ephemeral) in
  let* s := new_stream rnd key in
  Ok (mk_sealer job target frozen key_id maximum key info aad (Hpke.enc box) (Hpke.ciphertext box)
        s [] ZERO_HASH 0 0 false).

(** The associated data of one chunk. *)
Definition chunk_doc (job target frozen : string) (seq : Z) (previous record_type : string)
    (is_final : bool) : pyval :=
  VDict [("profile", VStr "agent-probe/v0"); ("job_id", VStr job); ("target_hash", VStr target);
         ("road_frozen_hash", VStr frozen); ("stream_id", VStr "guest-transcript");
         ("sequence", VInt seq); ("previous_ciphertext_hash", VStr previous);
         ("record_type", VStr record_type); ("final", VBool is_final)].

(** The sealer with its stream replaced. *)
Definition set_stream (g : GuestEvidenceSealer) (s : PushStream) : GuestEvidenceSealer :=
  mk_sealer (job_id g) (target_hash g) (road_frozen_hash g) (quarantine_key_id g)
    (max_evidence_bytes g) (cek g) (hpke_info g) (hpke_aad g) (enc g) (wrapped_cek g) s (chunks g)
    (previous_ciphertext_hash g) (plaintext_bytes g) (ciphertext_bytes g) (sealed g).

(** [append]: the state afterwards and the result.  The stream has advanced
    when the budget test fails. *)
Definition append (g : GuestEvidenceSealer) (record_type payload : string) (is_final : bool)
    : GuestEvidenceSealer * res unit :=
  if sealed g then (g, evidence_error "evidence stream is finalized")
  else if negb (in_range 1 64 (py_len record_type)) then (g, evidence_error "record type is invalid")
  else
    match canonical_bytes (chunk_doc (job_id g) (target_hash g) (road_frozen_hash g)
             (Z.of_nat (length (chunks g))) (previous_ciphertext_hash g) record_type is_final) with
    | Err e => (g, Err e)
    | Ok aad =>
        match push (stream g) payload aad is_final with
        | Err e => (g, Err e)
        | Ok (s, chunk) =>
            let projected := ciphertext_bytes g + Z.of_nat (String.length (ciphertext chunk)) in
            if max_evidence_bytes g <? projected
            then (set_stream g s, evidence_error "encrypted evidence budget exceeded")
            else
              (mk_sealer (job_id g) (target_hash g) (road_frozen_hash g) (quarantine_key_id g)
                 (max_evidence_bytes g) (if is_final then Hpke.zeros (String.length (cek g)) else cek g)
                 (hpke_info g) (hpke_aad g) (enc g) (wrapped_cek g) s (chunks g ++ [chunk])
                 (hexdigest (ciphertext chunk))
                 (plaintext_bytes g + Z.of_nat (String.length payload)) projected
                 (if is_final then true else sealed g), Ok tt)
        end
    end.

Definition chunk_record (c : EncryptedChunk) : pyval :=
  VDict [("sequence", VInt (sequence c)); ("aad_b64", _b64 (aad c));
         ("ciphertext_b64", _b64 (ciphertext c));
         ("ciphertext_sha256", VStr (hexdigest (ciphertext c))); ("final", VBool (final c))].

Definition root_doc (header : string) (hashes : list string) : pyval :=
  VDict [("stream_header_sha256", VStr (hexdigest header)); ("chunks", VList (map VStr hashes))].

(** The bundle of a sealer, the second half of [finalize]. *)
Definition bundle_of (g : GuestEvidenceSealer) : res pyval :=
  let* root := sha256_hex (root_doc (header (stream g)) (map (fun c => hexdigest (ciphertext c)) (chunks g))) in
  let manifest := VDict
    [("manifest_version", VStr "cindermote.guest-evidence/v1"); ("job_id", VStr (job_id g));
     ("target_hash", VStr (target_hash g)); ("road_frozen_hash", VStr (road_frozen_hash g));
     ("suite_id", VStr SUITE_ID); ("quarantine_key_id", VStr (quarantine_key_id g));
     ("guest_evidence_root", VStr root);
     ("complete", VBool (match last (chunks g) with Some c => final c | None => false end));
     ("sequence_gaps", VInt 0); ("total_plaintext_bytes", VInt (plaintext_bytes g));
     ("total_ciphertext_bytes", VInt (ciphertext_bytes g));
     ("chunk_count", VInt (Z.of_nat (length (chunks g))))] in
  Ok (VDict
    [("bundle_version", VStr "cindermote.guest-evidence-bundle/v1"); ("manifest", manifest);
     ("hpke", VDict [("enc_b64", _b64 (enc g)); ("wrapped_cek_b64", _b64 (wrapped_cek g));
                     ("info_b64", _b64 (hpke_info g)); ("aad_b64", _b64 (hpke_aad g))]);
     ("secretstream_header_b64", _b64 (header (stream g)));
     ("chunks", VList (map chunk_record (chunks g)))]).

Definition finalize (g : GuestEvidenceSealer) : GuestEvidenceSealer * res pyval :=
  if sealed g then (g, bundle_of g)
  else
    match append g "guest_halt" "" true with
    | (g', Ok _) => (g', bundle_of g')
    | (g', Err e) => (g', Err e)
    end.

End sealer.

(** ** Validation *)

Definition UTF8_BOM : string :=
  String (ascii_of 239) (String (ascii_of 187) (String (ascii_of 191) "")).

(** Text [json.loads] reads as UTF-8: no other byte-order mark, no NUL at the start. *)
Definition reads_as_utf8 (b : string) : bool :=
  negb (startswith (String (ascii_of 255) (String (ascii_of 254) "")) b) &&
  negb (startswith (String (ascii_of 254) (String (ascii_of 255) "")) b) &&
  negb (str_exists (fun c => byte_of c =? 0) (String.substring 0 4 b)).

(** Well-formed UTF-8 with surrogates allowed: [due] continuation bytes are
    still expected, the next one between [lo] and [hi]. *)
Fixpoint utf8_ok (due : nat) (lo hi : Z) (b : string) : bool :=
  match b with
  | EmptyString => (due =? 0)%nat
  | String c r =>
      let x := byte_of c in
      match due with
      | S n => in_range lo hi x && utf8_ok n 128 191 r
      | O => if x <? 128 then utf8_ok 0 128 191 r
             else if in_range 194 223 x then utf8_ok 1 128 191 r
             else if in_range 224 239 x then utf8_ok 2 (if x =? 224 then 160 else 128) 191 r
             else if in_range 240 244 x
             then utf8_ok 3 (if x =? 240 then 144 else 128) (if x =? 244 then 143 else 191) r
             else false
      end
  end.

Section validate.
(** The value of a JSON number with a fraction or an exponent. *)
Variable parse_float : string -> pyfloat.

(** [json.loads(b)] inside [except (UnicodeDecodeError, ValueError)]; a UTF-8
    byte-order mark is skipped.  A text in UTF-16 or UTF-32 is refused here,
    where the source refuses it at the comparison with the canonical bytes that
    follows every call. *)
Definition loads_bytes (b : string) : option pyval :=
  let text := if startswith UTF8_BOM b then String.substring 3 (String.length b - 3) b else b in
  if reads_as_utf8 b && utf8_ok 0 128 191 text
  then match loads parse_float text with Ok v => Some v | Err _ => None end
  else None.

Definition MANIFEST_KEYS : list string :=
  ["manifest_version"; "job_id"; "target_hash"; "road_frozen_hash"; "suite_id";
   "quarantine_key_id"; "guest_evidence_root"; "complete"; "sequence_gaps";
   "total_plaintext_bytes"; "total_ciphertext_bytes"; "chunk_count"].

(** [for name in names: value = manifest[name]; if bad(value): raise] *)
Fixpoint each_field (bad : pyval -> bool) (manifest : pyval) (names : list string) : res unit :=
  match names with
  | [] => Ok tt
  | name :: r =>
      let* value := sub manifest name in
      raise (EvidenceError ("manifest " +:+ name +:+ " is invalid")) when bad value;;
      each_field bad manifest r
  end.

Definition bad_digest (v : pyval) : bool :=
  match v with VStr s => negb (hex_string 64 s) | _ => true end.
Definition bad_count (v : pyval) : bool := match v with VInt z => z <? 0 | _ => true end.

Definition bad_job_id (v : pyval) : bool :=
  match v with VStr s => negb (startswith "job-" s) | _ => true end.

(** The checks on the manifest. *)
Definition check_manifest (manifest : pyval) (maximum : Z) : res unit :=
  raise (EvidenceError "evidence manifest shape changed") when
    negb (dict_shape manifest MANIFEST_KEYS);;
  let* version := sub manifest "manifest_version" in
  let* suite := sub manifest "suite_id" in
  raise (EvidenceError "evidence manifest suite mismatch") when
    (negb (py_eq version (VStr "cindermote.guest-evidence/v1")) || negb (py_eq suite (VStr SUITE_ID)));;
  let* _ := each_field bad_digest manifest ["target_hash"; "road_frozen_hash"; "guest_evidence_root"] in
  let* job := sub manifest "job_id" in
  raise (EvidenceError "manifest job id is invalid") when bad_job_id job;;
  let* key_id := sub manifest "quarantine_key_id" in
  raise (EvidenceError "manifest key id is invalid") when negb (str_len_in 16 64 key_id);;
  let* complete := sub manifest "complete" in
  let* gaps := sub manifest "sequence_gaps" in
  raise (EvidenceError "evidence manifest is incomplete") when
    (negb (is_true complete) || negb (py_eq gaps (VInt 0)));;
  let* _ := each_field bad_count manifest
              ["total_plaintext_bytes"; "total_ciphertext_bytes"; "chunk_count"] in
  let* plaintext := sub manifest "total_plaintext_bytes" in
  raise (EvidenceError "plaintext evidence accounting exceeds budget") when
    (maximum <? int_of plaintext);;
  Ok tt.

(** [value != expected or canonical_bytes(value) != raw] *)
Definition binding_differs (value expected : pyval) (raw : string) : res bool :=
  negb (py_eq value expected) or'
  (let* b := canonical_bytes value in Ok (negb (String.eqb b raw))).

(** The checks on the wrapped key. *)
Definition check_hpke (hpke manifest : pyval) : res unit :=
  raise (EvidenceError "HPKE envelope shape changed") when
    negb (dict_shape hpke ["enc_b64"; "wrapped_cek_b64"; "info_b64"; "aad_b64"]);;
  let* enc_b64 := sub hpke "enc_b64" in
  let* enc := _unb64 enc_b64 "enc" 64 in
  let* wrapped_b64 := sub hpke "wrapped_cek_b64" in
  let* wrapped := _unb64 wrapped_b64 "wrapped CEK" 256 in
  let* info_b64 := sub hpke "info_b64" in
  let* info := _unb64 info_b64 "HPKE info" (16 * 1024) in
  let* aad_b64 := sub hpke "aad_b64" in
  let* hpke_aad := _unb64 aad_b64 "HPKE aad" (16 * 1024) in
  raise (EvidenceError "HPKE key-wrap lengths are invalid") when
    (negb (String.length enc =? 32)%nat || negb (String.length wrapped =? 48)%nat);;
  match loads_bytes info, loads_bytes hpke_aad with
  | Some info_value, Some aad_value =>
      let* job := sub manifest "job_id" in
      let* target := sub manifest "target_hash" in
      let* frozen := sub manifest "road_frozen_hash" in
      let* key_id := sub manifest "quarantine_key_id" in
      let expected_info := VDict
        [("profile", VStr "agent-probe/v0"); ("job_id", job); ("target_hash", target);
         ("road_frozen_hash", frozen); ("purpose", VStr "guest-evidence-key-wrap")] in
      let expected_aad := VDict [("key_id", key_id); ("suite_id", VStr SUITE_ID)] in
      raise (EvidenceError "HPKE info binding is invalid") when
        binding_differs info_value expected_info info;;
      raise (EvidenceError "HPKE AAD binding is invalid") when
        binding_differs aad_value expected_aad hpke_aad;;
      Ok tt
  | _, _ => evidence_error "HPKE metadata is malformed"
  end.

Definition CHUNK_KEYS : list string :=
  ["sequence"; "aad_b64"; "ciphertext_b64"; "ciphertext_sha256"; "final"].
Definition AAD_KEYS : list string :=
  ["profile"; "job_id"; "target_hash"; "road_frozen_hash"; "stream_id"; "sequence";
   "previous_ciphertext_hash"; "record_type"; "final"].

(** [for name, value in expected_binding.items(): ...] *)
Fixpoint check_binding (aad_value : pyval) (expected : list (string * pyval)) : res unit :=
  match expected with
  | [] => Ok tt
  | (name, value) :: r =>
      let* v := get aad_value name in
      raise (EvidenceError ("chunk AAD binding differs: " +:+ name)) when negb (py_eq v value);;
      check_binding aad_value r
  end.

(** [v is b] for a bool *)
Definition is_bool_of (b : bool) (v : pyval) : bool :=
  match v with VBool c => Bool.eqb b c | _ => false end.

(** The body of the loop over chunks: digest and size of the chunk. *)
Definition check_chunk (manifest record : pyval) (index count : Z) (previous_hash : string)
    : res (string * Z) :=
  raise (EvidenceError "evidence chunk shape changed") when negb (dict_shape record CHUNK_KEYS);;
  let* seq := sub record "sequence" in
  let* is_final := sub record "final" in
  raise (EvidenceError "evidence sequence or final tag is invalid") when
    (negb (py_eq seq (VInt index)) || negb (is_bool_of (index =? count - 1) is_final));;
  let* ciphertext_b64 := sub record "ciphertext_b64" in
  let* ciphertext := _unb64 ciphertext_b64 "ciphertext" DEFAULT_MAXIMUM in
  let* aad_b64 := sub record "aad_b64" in
  let* aad := _unb64 aad_b64 "aad" (64 * 1024) in
  raise (EvidenceError "ciphertext chunk is too short") when (String.length ciphertext <? ABYTES)%nat;;
  match loads_bytes aad with
  | None => evidence_error "chunk AAD is malformed"
  | Some aad_value =>
      raise (EvidenceError "chunk AAD shape changed") when negb (dict_shape aad_value AAD_KEYS);;
      let* job := sub manifest "job_id" in
      let* target := sub manifest "target_hash" in
      let* frozen := sub manifest "road_frozen_hash" in
      let* _ := check_binding aad_value
        [("profile", VStr "agent-probe/v0"); ("job_id", job); ("target_hash", target);
         ("road_frozen_hash", frozen); ("stream_id", VStr "guest-transcript");
         ("sequence", VInt index); ("previous_ciphertext_hash", VStr previous_hash);
         ("final", is_final)] in
      let* record_type := get aad_value "record_type" in
      raise (EvidenceError "chunk AAD record type or canonical form is invalid") when
        (notM (in_strs record_type RECORD_TYPES) or'
         (let* b := canonical_bytes aad_value in Ok (negb (String.eqb b aad))));;
      let digest := hexdigest ciphertext in
      let* claimed := sub record "ciphertext_sha256" in
      raise (EvidenceError "ciphertext digest mismatch") when negb (py_eq claimed (VStr digest));;
      Ok (digest, Z.of_nat (String.length ciphertext))
  end.

(** The loop over chunks: the digests and the total size. *)
Fixpoint check_chunks (manifest : pyval) (maximum count index : Z) (previous_hash : string)
    (total : Z) (records : list pyval) : res (list string * Z) :=
  match records with
  | [] => Ok ([], total)
  | record :: r =>
      let* c := check_chunk manifest record index count previous_hash in
      let '(digest, size) := c in
      let total := total + size in
      raise (EvidenceError "evidence bundle exceeds budget") when (maximum <? total);;
      let* rest := check_chunks manifest maximum count (index + 1) digest total r in
      let '(hashes, total) := rest in
      Ok (digest :: hashes, total)
  end.

Definition BUNDLE_KEYS : list string :=
  ["bundle_version"; "manifest"; "hpke"; "secretstream_header_b64"; "chunks"].

Definition validate_bundle (bundle : pyval) (maximum : Z) : res pyval :=
  raise (EvidenceError "evidence bundle shape changed") when negb (dict_shape bundle BUNDLE_KEYS);;
  let* version := sub bundle "bundle_version" in
  raise (EvidenceError "unsupported evidence bundle") when
    negb (py_eq version (VStr "cindermote.guest-evidence-bundle/v1"));;
  let* manifest := sub bundle "manifest" in
  let* _ := check_manifest manifest maximum in
  let* hpke := sub bundle "hpke" in
  let* _ := check_hpke hpke manifest in
  let* records := sub bundle "chunks" in
  raise (EvidenceError "evidence chunk list is invalid") when
    (negb (is_list records) || (length (list_of records) =? 0)%nat ||
     (1024 <? Z.of_nat (length (list_of records))));;
  let count := Z.of_nat (length (list_of records)) in
  let* r := check_chunks manifest maximum count 0 ZERO_HASH 0 (list_of records) in
  let '(hashes, total) := r in
  let* header_b64 := sub bundle "secretstream_header_b64" in
  let* header := _unb64 header_b64 "secretstream header" 128 in
  raise (EvidenceError "SecretStream header length is invalid") when
    negb (String.length header =? HEADER_BYTES)%nat;;
  let* expected_root := sha256_hex (root_doc header hashes) in
  let* root := sub manifest "guest_evidence_root" in
  raise (EvidenceError "guest evidence root mismatch") when negb (py_eq root (VStr expected_root));;
  let* chunk_count := sub manifest "chunk_count" in
  let* ciphertext_total := sub manifest "total_ciphertext_bytes" in
  raise (EvidenceError "evidence manifest accounting mismatch") when
    (negb (py_eq chunk_count (VInt count)) || negb (py_eq ciphertext_total (VInt total)));;
  Ok bundle.

(** The default [max_evidence_bytes] of [validate_bundle]. *)
Definition DEFAULT_BUDGET : Z := 4 * 1024 * 1024.

(** The number a chunk's [sequence] is equal to. *)
Definition seq_of (v : pyval) : Z :=
  match as_num v with
  | Some (FFin n d) => if n mod Zpos d =? 0 then n / Zpos d else -1
  | _ => -1
  end.

Definition decode_chunk (record : pyval) : res EncryptedChunk :=
  let* seq := sub record "sequence" in
  let* aad_b64 := sub record "aad_b64" in
  let* aad := _unb64 aad_b64 "aad" (64 * 1024) in
  let* ciphertext_b64 := sub record "ciphertext_b64" in
  let* ciphertext := _unb64 ciphertext_b64 "ciphertext" DEFAULT_MAXIMUM in
  let* is_final := sub record "final" in
  Ok (mk_chunk (seq_of seq) aad ciphertext (is_true is_final)).

Definition decrypt_bundle `{Primitives} `{Sodium} (bundle : pyval) (recipient_private_key : string)
    : res (list string) :=
  let* _ := validate_bundle bundle DEFAULT_BUDGET in
  let* hpke := sub bundle "hpke" in
  raise (EvidenceError "HPKE envelope shape changed") when
    negb (dict_shape hpke ["enc_b64"; "wrapped_cek_b64"; "info_b64"; "aad_b64"]);;
  let* enc_b64 := sub hpke "enc_b64" in
  let* enc := _unb64 enc_b64 "enc" 64 in
  let* wrapped_b64 := sub hpke "wrapped_cek_b64" in
  let* wrapped := _unb64 wrapped_b64 "wrapped CEK" 256 in
  let* info_b64 := sub hpke "info_b64" in
  let* info := _unb64 info_b64 "HPKE info" (16 * 1024) in
  let* aad_b64 := sub hpke "aad_b64" in
  let* aad := _unb64 aad_b64 "HPKE aad" (16 * 1024) in
  let* key := returned (Hpke.open_base recipient_private_key enc wrapped info aad) in
  let* records := sub bundle "chunks" in
  let* items := py_iter records in
  let* cs := map_res decode_chunk items in
  let* header_b64 := sub bundle "secretstream_header_b64" in
  let* header := _unb64 header_b64 "header" 128 in
  pull_all key header cs.

End validate.

End Evidence.
