(* ===== verification/EvidenceFacts.v ===== *)
(** * Properties of the evidence bundle

    What the guest seals, the host accepts and the quarantine key opens; and an
    accepted bundle is pinned down by its evidence root. *)

From stdpp Require Import base list strings.
From Stdlib Require Import ZArith Lia.
From S2P Require Import Prelude PyValue Sha256 Json JsonFacts Canonical StrOps UrlFacts Base64 Hpke SecretStream Evidence.

Local Open Scope Z_scope.

Module EvidenceFacts.
Import Canonical SecretStream Evidence.

(** ** Size and characters of canonical bytes *)

(** Documents whose strings are ASCII. *)
Definition ascii_val : pyval -> bool := strings_ok isascii.

Definition printable (c : Ascii.ascii) : bool := (32 <=? byte_of c) && (byte_of c <? 128).

Lemma syntax_printable c : syntax_char c = true -> printable c = true.
Proof. unfold syntax_char, printable. lia. Qed.

Lemma escape_printable s : isascii s = true -> str_forall printable (escape s) = true.
Proof.
  unfold isascii. induction s as [|c s IH]; [done|]. cbn [escape str_forall].
  intros [Hc Hs]%andb_true_iff. rewrite str_forall_app, IH, andb_true_r by done.
  apply escape_char_forall; [apply syntax_printable|]. unfold printable. lia.
Qed.

Lemma encode_printable v : ascii_val v = true -> str_forall printable (encode v) = true.
Proof. apply (dumps_forall printable isascii syntax_printable escape_printable). done. Qed.

(** An upper bound on the size of the encoding, from the sizes of its strings,
    when a character is escaped by at most [k] characters. *)
Fixpoint weight_by (k : Z) (v : pyval) : Z :=
  match v with
  | VInt _ => 60
  | VStr s => k * Z.of_nat (String.length s) + 2
  | VList l => fold_right (fun x acc => weight_by k x + 1 + acc) 2 l
  | VDict d => fold_right (fun kv acc => k * Z.of_nat (String.length (fst kv)) + 4 + weight_by k (snd kv) + acc) 2 d
  | _ => 5
  end.
Definition weight : pyval -> Z := weight_by 6.

Lemma length_escape s : (String.length (escape s) <= 6 * String.length s)%nat.
Proof.
  induction s as [|c s IH]; [done|]. cbn [escape String.length]. rewrite length_append.
  assert (String.length (escape_char c) <= 6)%nat; [|lia].
  unfold escape_char. repeat match goal with |- context [if ?b then _ else _] => destruct b end; rewrite ?length_append; cbn; lia.
Qed.

Lemma length_join l : Z.of_nat (String.length (join l)) <= fold_right (fun s acc => Z.of_nat (String.length s) + 1 + acc) 0 l.
Proof.
  induction l as [|s l IH]; [done|]. destruct l as [|t l]; [cbn; lia|].
  change (join (s :: t :: l)) with (s +:+ "," +:+ join (t :: l)).
  rewrite !length_append. cbn [fold_right String.length] in *. lia.
Qed.

Lemma length_dec z : in_range (- MAX_SAFE_INTEGER) MAX_SAFE_INTEGER z = true -> Z.of_nat (String.length (dec z)) <= 60.
Proof.
  unfold in_range. change MAX_SAFE_INTEGER with 9007199254740991. intros Hz.
  assert (Hl : forall n, 0 <= n < 9007199254740992 -> (String.length (dec_nonneg n) <= 55)%nat).
  { intros n Hn. by apply (length_dec_nonneg n 53). }
  unfold dec. destruct (Z.ltb_spec z 0).
  - pose proof (Hl (- z)). rewrite length_append. cbn [String.length]. lia.
  - pose proof (Hl z). lia.
Qed.

Lemma fold_sum_perm {A} (f : A -> Z) (c : Z) l l' :
  l ≡ₚ l' -> fold_right (fun x acc => f x + acc) c l = fold_right (fun x acc => f x + acc) c l'.
Proof. induction 1; cbn; lia. Qed.

Section weight.
Variables (k : Z) (q : string -> bool).
Hypothesis q_escape : forall s, q s = true -> Z.of_nat (String.length (escape s)) <= k * Z.of_nat (String.length s).

Lemma length_quote s : q s = true -> Z.of_nat (String.length (quote s)) <= k * Z.of_nat (String.length s) + 2.
Proof.
  intros Hs. unfold quote. rewrite !length_append. pose proof (q_escape s Hs). unfold chr. cbn [String.length]. lia.
Qed.

Lemma encode_weight_by v :
  in_domain v = true -> strings_ok q v = true -> Z.of_nat (String.length (encode v)) <= weight_by k v.
Proof.
  induction v as [|[]|z|f|s|s|l IH|d IH] using pyval_ind'; cbn [in_domain strings_ok]; intros Hd Hq; try done.
  - by apply length_dec.
  - by apply length_quote.
  - change (encode (VList l)) with ("[" +:+ join (map encode l) +:+ "]"). rewrite !length_append.
    pose proof (length_join (map encode l)) as Hj. cbn [String.length weight_by].
    assert (fold_right (fun s acc => Z.of_nat (String.length s) + 1 + acc) 0 (map encode l) + 2 <=
            fold_right (fun x acc => weight_by k x + 1 + acc) 2 l); [|lia]. clear Hj.
    induction l as [|x l IHl]; cbn; [lia|]. apply Forall_cons in IH as [Hx Hl].
    cbn in Hd, Hq. apply andb_true_iff in Hd as [Hd1 Hd2]. apply andb_true_iff in Hq as [Hq1 Hq2].
    specialize (Hx Hd1 Hq1). specialize (IHl Hl Hd2 Hq2). lia.
  - unfold encode. rewrite dumps_dict, !length_append. cbn [String.length weight_by].
    pose proof (length_join (map (entry (fun _ => "")) (sort_items d))) as Hj.
    assert (fold_right (fun s acc => Z.of_nat (String.length s) + 1 + acc) 0 (map (entry (fun _ => "")) (sort_items d)) + 2 <=
            fold_right (fun kv acc => k * Z.of_nat (String.length (fst kv)) + 4 + weight_by k (snd kv) + acc) 2 d); [|lia].
    rewrite <- (fold_sum_perm _ 2 _ _ (sort_items_perm d)). clear Hj.
    assert (Hs : Forall (fun kv => q (fst kv) = true /\ Z.of_nat (String.length (encode (snd kv))) <= weight_by k (snd kv))
      (sort_items d)).
    { rewrite Forall_forall in IH |- *. intros kv Hkv. rewrite sort_items_perm in Hkv.
      rewrite forallb_forall in Hd, Hq. pose proof (proj1 (list_elem_of_In _ _) Hkv) as Hin.
      specialize (Hd kv Hin). specialize (Hq kv Hin). apply andb_true_iff in Hd as [_ Hd], Hq as [Hq1 Hq2].
      split; [done|]. by apply IH. }
    induction Hs as [|kv l [Hkq Hkv] _ IHl]; cbn [map fold_right]; [lia|]. unfold entry at 1.
    rewrite !length_append. pose proof (length_quote (fst kv) Hkq). cbn [String.length]. unfold encode in Hkv. lia.
Qed.
End weight.

Lemma strings_ok_true v : strings_ok (fun _ => true) v = true.
Proof.
  induction v as [| | | | | |l IH|d IH] using pyval_ind'; try done; cbn [strings_ok]; apply forallb_forall;
    rewrite Forall_forall in IH; intros x Hx; apply IH; by apply list_elem_of_In.
Qed.

Lemma encode_weight v : in_domain v = true -> Z.of_nat (String.length (encode v)) <= weight v.
Proof.
  intros Hd. apply (encode_weight_by 6 (fun _ => true)); [|done|apply strings_ok_true].
  intros s _. pose proof (length_escape s). lia.
Qed.

(** ** Base64 fields *)
Lemma unb64_b64 s name maximum :
  2 <= maximum -> Z.of_nat (String.length s) <= maximum -> _unb64 (_b64 s) name maximum = Ok s.
Proof.
  intros Hm Hl. unfold _unb64, _b64. rewrite py_len_ascii by apply Base64.encode_ascii.
  rewrite Base64.length_encode. rewrite (proj2 (Z.ltb_ge _ _)); cycle 1.
  { pose proof (Nat.Div0.mul_div_le (String.length s + 2) 3).
    pose proof (Nat.div_mod_eq (String.length s + 2) 3). pose proof (Nat.mod_upper_bound (String.length s + 2) 3). lia. }
  cbn [okb raise_if]. rewrite Base64.decode_encode, (proj2 (Z.ltb_ge _ _)) by lia. done.
Qed.

(** ** Reading canonical ASCII bytes back *)
Section loads.
Variable parse_float : string -> pyfloat.

Lemma printable_utf8 s :
  str_forall printable s = true ->
  startswith UTF8_BOM s = false /\ reads_as_utf8 s = true /\ utf8_ok 0 128 191 s = true.
Proof.
  intros Hs. split_and!.
  - destruct (startswith UTF8_BOM s) eqn:E; [|done]. by apply (startswith_forall _ _ _ E) in Hs.
  - assert (Hp : forall p, str_forall printable p = false -> startswith p s = false).
    { intros p Hp. destruct (startswith p s) eqn:E; [|done]. by rewrite (startswith_forall _ _ _ E Hs) in Hp. }
    unfold reads_as_utf8. rewrite !Hp by reflexivity. cbn [negb andb]. apply negb_true_iff.
    assert (H4 : forall n, str_exists (fun c => byte_of c =? 0) (String.substring 0 n s) = false); [|apply H4].
    clear Hp. induction s as [|c s IH]; intros [|n]; cbn in *; try done.
    apply andb_true_iff in Hs as [Hc Hs]. rewrite IH by done. unfold printable in Hc. lia.
  - induction s as [|c s IH]; [done|]. cbn in *. apply andb_true_iff in Hs as [Hc Hs]. unfold printable in Hc.
    rewrite (proj2 (Z.ltb_lt _ _)) by lia. by apply IH.
Qed.

Lemma loads_canonical v :
  wf_val v = true -> in_domain v = true -> ascii_val v = true -> loads_bytes parse_float (encode v) = Some (canon v).
Proof.
  intros Hw Hd Ha. unfold loads_bytes.
  destruct (printable_utf8 _ (encode_printable v Ha)) as (-> & -> & ->). cbn [andb].
  unfold encode. by rewrite loads_dumps by by apply domain_json_ok.
Qed.

End loads.

(** ** A run of the sealer *)
Section sealing.
Context `{PrimitiveLaws} `{SodiumLaws}.

(** The fields a sealer never changes. *)
Definition same_identity (g g' : GuestEvidenceSealer) : Prop :=
  job_id g' = job_id g /\ target_hash g' = target_hash g /\ road_frozen_hash g' = road_frozen_hash g /\
  quarantine_key_id g' = quarantine_key_id g /\ max_evidence_bytes g' = max_evidence_bytes g /\
  hpke_info g' = hpke_info g /\ hpke_aad g' = hpke_aad g /\ enc g' = enc g /\
  wrapped_cek g' = wrapped_cek g /\ header (stream g') = header (stream g).

(** The associated data of the chunk [g] would append. *)
Definition next_doc (g : GuestEvidenceSealer) (ty : string) (f : bool) : pyval :=
  chunk_doc (job_id g) (target_hash g) (road_frozen_hash g) (Z.of_nat (length (chunks g)))
    (previous_ciphertext_hash g) ty f.

Lemma append_ok g ty pl f g1 :
  append g ty pl f = (g1, Ok tt) ->
  exists c, sealed g = false /\ in_domain (next_doc g ty f) = true /\
    push (stream g) pl (encode (next_doc g ty f)) f = Ok (stream g1, c) /\
    chunks g1 = chunks g ++ [c] /\ previous_ciphertext_hash g1 = hexdigest (ciphertext c) /\
    plaintext_bytes g1 = plaintext_bytes g + Z.of_nat (String.length pl) /\
    ciphertext_bytes g1 = ciphertext_bytes g + Z.of_nat (String.length (ciphertext c)) /\
    ciphertext_bytes g1 <= max_evidence_bytes g /\ sealed g1 = f /\ same_identity g g1.
Proof.
  unfold append. fold (next_doc g ty f). destruct (sealed g) eqn:Es; [done|].
  destruct (in_range 1 64 (py_len ty)); [|done]. cbn [negb].
  destruct (canonical_bytes (next_doc g ty f)) as [aad|] eqn:Ea; [|done].
  apply canonical_bytes_ok in Ea as [Hd ->].
  destruct (push _ _ _ _) as [[s c]|] eqn:Ep; [|done].
  destruct (Z.ltb_spec (max_evidence_bytes g) (ciphertext_bytes g + Z.of_nat (String.length (ciphertext c))));
    [done|]. intros [= <-]. exists c. cbn. unfold same_identity; cbn.
  pose proof (push_ok _ _ _ _ _ _ Ep) as (_ & _ & _ & ->). split_and!; try done. by destruct f.
Qed.

(** Successful appends, one after another. *)
Inductive runs : GuestEvidenceSealer -> list (string * string * bool) -> GuestEvidenceSealer -> Prop :=
  | runs_nil g : runs g [] g
  | runs_cons g ty pl f g1 l g2 :
      append g ty pl f = (g1, Ok tt) -> runs g1 l g2 -> runs g ((ty, pl, f) :: l) g2.

Lemma same_identity_trans g1 g2 g3 : same_identity g1 g2 -> same_identity g2 g3 -> same_identity g1 g3.
Proof. unfold same_identity. intros; destruct_and!. split_and!; congruence. Qed.

(** After a final record nothing more is appended. *)
Lemma runs_sealed g l g' : runs g l g' -> sealed g = true -> l = [] /\ g' = g.
Proof.
  destruct 1 as [|g ty pl f g1 l g2 Ha _]; [done|]. intros Hs.
  apply append_ok in Ha as (c & Hs' & _). congruence.
Qed.

(** The chunks a run adds, with their plaintexts, as a run of the stream. *)
Lemma runs_pushes g l g' :
  runs g l g' ->
  exists cs, chunks g' = chunks g ++ cs /\
    pushes (stream g) (zip (map (fun r => snd (fst r)) l) cs) (stream g') /\
    length cs = length l /\ same_identity g g' /\
    plaintext_bytes g' <= plaintext_bytes g + (ciphertext_bytes g' - ciphertext_bytes g) /\
    plaintext_bytes g <= plaintext_bytes g' /\
    (ciphertext_bytes g <= ciphertext_bytes g') /\ (finalized (stream g) = sealed g -> finalized (stream g') = sealed g').
Proof.
  induction 1 as [g|g ty pl f g1 l g2 Ha _ IH].
  - exists []. rewrite app_nil_r. split_and!; try done; try lia. constructor.
  - apply append_ok in Ha as (c & Hs & _ & Hp & Hc & _ & Hpl & Hct & _ & Hf & Hid).
    destruct IH as (cs & E1 & E2 & E3 & E4 & E5 & E6 & E7 & E8). exists (c :: cs).
    pose proof (push_ok _ _ _ _ _ _ Hp) as (_ & _ & Ec & Est).
    assert (Hlen : String.length (ciphertext c) = (String.length pl + ABYTES)%nat).
    { rewrite Ec. cbn [ciphertext]. apply chunk_length. }
    split_and!; try lia.
    + by rewrite E1, Hc, <- app_assoc.
    + cbn. econstructor; [exact Hp|]. exact E2.
    + cbn. by rewrite E3.
    + by eapply same_identity_trans.
    + intros _. apply E8. rewrite Est. cbn. congruence.
Qed.

(** Identifiers as the contract makes them. *)
Record good_ids (g : GuestEvidenceSealer) : Prop := {
  gi_job : startswith "job-" (job_id g) = true /\ isascii (job_id g) = true /\
    (String.length (job_id g) <= 64)%nat;
  gi_target : hex_string 64 (target_hash g) = true;
  gi_frozen : hex_string 64 (road_frozen_hash g) = true;
  gi_key : isascii (quarantine_key_id g) = true /\
    (16 <= String.length (quarantine_key_id g) <= 64)%nat;
}.

Lemma hex_string_length n x : hex_string n x = true -> String.length x = n.
Proof. unfold hex_string. intros [Hl%Nat.eqb_eq _]%andb_true_iff. done. Qed.

Lemma record_type_ok ty : In ty RECORD_TYPES -> isascii ty = true /\ (String.length ty <= 14)%nat.
Proof. intros Ht. cbn in Ht. repeat destruct Ht as [<-|Ht]; try done; (split; [reflexivity|cbn; lia]). Qed.

(** The associated data of a chunk: canonical, small, and read back as sent. *)
Lemma next_doc_facts g ty f :
  good_ids g -> In ty RECORD_TYPES -> hex_string 64 (previous_ciphertext_hash g) = true ->
  (length (chunks g) < 1024)%nat ->
  in_domain (next_doc g ty f) = true /\ wf_val (next_doc g ty f) = true /\ ascii_val (next_doc g ty f) = true /\
  Z.of_nat (String.length (encode (next_doc g ty f))) <= 64 * 1024.
Proof.
  intros [(_ & Hj & Hjl) Ht Hf _] [Hty Htyl]%record_type_ok Hp Hn.
  pose proof (hex_string_ascii _ _ Ht) as At. pose proof (hex_string_ascii _ _ Hf) as Af.
  pose proof (hex_string_ascii _ _ Hp) as Ap.
  apply hex_string_length in Ht, Hf, Hp.
  assert (Hd : in_domain (next_doc g ty f) = true).
  { unfold next_doc, chunk_doc. cbn [in_domain forallb fst snd].
    rewrite !ascii_no_surrogate by done. cbn. unfold in_range. change MAX_SAFE_INTEGER with 9007199254740991. lia. }
  split_and!; [done|reflexivity| |].
  - unfold next_doc, chunk_doc. cbn [ascii_val strings_ok forallb fst snd]. by rewrite Hj, At, Af, Ap, Hty.
  - pose proof (encode_weight _ Hd) as Hw. etrans; [exact Hw|]. unfold next_doc, chunk_doc.
    cbn [weight weight_by fold_right fst snd]. rewrite Ht, Hf, Hp.
    cbn [String.length]. lia.
Qed.

Lemma py_eq_refl_str x : py_eq (VStr x) (VStr x) = true.
Proof. by apply py_eq_str. Qed.
Lemma py_eq_refl_int z : py_eq (VInt z) (VInt z) = true.
Proof. cbn. lia. Qed.
Lemma py_eq_refl_bool b : py_eq (VBool b) (VBool b) = true.
Proof. by destruct b. Qed.

Variable parse_float : string -> pyfloat.

(** What the checks read from the bundle's manifest. *)
Record manifest_ids (g : GuestEvidenceSealer) (manifest : pyval) : Prop := {
  mi_job : sub manifest "job_id" = Ok (VStr (job_id g));
  mi_target : sub manifest "target_hash" = Ok (VStr (target_hash g));
  mi_frozen : sub manifest "road_frozen_hash" = Ok (VStr (road_frozen_hash g));
  mi_key : sub manifest "quarantine_key_id" = Ok (VStr (quarantine_key_id g));
}.

(** A chunk the sealer appended passes the check of its turn. *)
Lemma check_chunk_sealed manifest g ty pl f g1 c count :
  manifest_ids g manifest -> good_ids g -> In ty RECORD_TYPES ->
  hex_string 64 (previous_ciphertext_hash g) = true -> (length (chunks g) < 1024)%nat ->
  st_sequence (stream g) = Z.of_nat (length (chunks g)) ->
  push (stream g) pl (encode (next_doc g ty f)) f = Ok (stream g1, c) ->
  Z.of_nat (String.length (ciphertext c)) <= DEFAULT_MAXIMUM ->
  f = (Z.of_nat (length (chunks g)) =? count - 1) ->
  check_chunk parse_float manifest (chunk_record c) (Z.of_nat (length (chunks g))) count
    (previous_ciphertext_hash g) =
  Ok (hexdigest (ciphertext c), Z.of_nat (String.length (ciphertext c))).
Proof.
  intros [Mj Mt Mf _] Hids Hty Hprev Hn Hseq Hp Hlen Hfin.
  destruct (next_doc_facts g ty f Hids Hty Hprev Hn) as (Hd & Hw & Ha & Hl).
  pose proof (push_ok _ _ _ _ _ _ Hp) as (_ & _ & -> & _). cbn [ciphertext] in *.
  rewrite Hseq. set (ct := snd _) in *. unfold check_chunk, chunk_record.
  cbn [sequence aad ciphertext final]. dict_eval.
  rewrite py_eq_refl_int. assert (is_bool_of (Z.of_nat (length (chunks g)) =? count - 1) (VBool f) = true) as ->
    by (cbn; rewrite Hfin; apply eqb_reflx). cbn [negb orb okb raise_if].
  rewrite !unb64_b64 by (unfold DEFAULT_MAXIMUM in *; lia). cbn [mbind res_bind].
  rewrite (proj2 (Nat.ltb_ge _ _)); cycle 1.
  { unfold ct. rewrite chunk_length. lia. }
  cbn [okb raise_if]. rewrite loads_canonical by done. rewrite Mj, Mt, Mf.
  change (dict_shape (canon (next_doc g ty f)) AAD_KEYS) with true. cbn [negb okb raise_if mbind res_bind].
  unfold check_binding.
  assert (Hg : let d := canon (next_doc g ty f) in
    get d "profile" = Ok (VStr "agent-probe/v0") /\ get d "job_id" = Ok (VStr (job_id g)) /\
    get d "target_hash" = Ok (VStr (target_hash g)) /\ get d "road_frozen_hash" = Ok (VStr (road_frozen_hash g)) /\
    get d "stream_id" = Ok (VStr "guest-transcript") /\ get d "sequence" = Ok (VInt (Z.of_nat (length (chunks g)))) /\
    get d "previous_ciphertext_hash" = Ok (VStr (previous_ciphertext_hash g)) /\
    get d "final" = Ok (VBool f) /\ get d "record_type" = Ok (VStr ty)) by (split_and!; reflexivity).
  cbv zeta in Hg. destruct Hg as (-> & -> & -> & -> & -> & -> & -> & -> & ->). cbn [mbind res_bind].
  rewrite !py_eq_refl_str, py_eq_refl_int, py_eq_refl_bool. cbn [negb okb raise_if mbind res_bind in_strs].
  rewrite (proj2 (mem_In _ _) Hty), canonical_bytes_canon by done. cbn [notM negb orM mbind res_bind].
  by rewrite String.eqb_refl.
Qed.

(** The checks of a whole run of appends. *)
Lemma check_chunks_sealed manifest g l g' maximum count :
  runs g l g' -> manifest_ids g manifest -> good_ids g ->
  Forall (fun r => In (fst (fst r)) RECORD_TYPES) l ->
  hex_string 64 (previous_ciphertext_hash g) = true ->
  st_sequence (stream g) = Z.of_nat (length (chunks g)) -> sealed g' = true -> (l = [] -> sealed g = true) ->
  count = Z.of_nat (length (chunks g')) -> count <= 1024 ->
  max_evidence_bytes g <= maximum -> maximum <= DEFAULT_BUDGET -> 0 <= ciphertext_bytes g ->
  exists cs, chunks g' = chunks g ++ cs /\
  check_chunks parse_float manifest maximum count (Z.of_nat (length (chunks g))) (previous_ciphertext_hash g)
    (ciphertext_bytes g) (map chunk_record cs) =
  Ok (map (fun c => hexdigest (ciphertext c)) cs, ciphertext_bytes g').
Proof.
  intros Hr. induction Hr as [g|g ty pl f g1 l g2 Ha Hr IH]; intros Hm Hids Hty Hprev Hseq Hs Hne Hc Hc2 Hmax Hmb Hct.
  - exists []. by rewrite app_nil_r.
  - pose proof (append_ok _ _ _ _ _ Ha) as (c & Hs0 & Hdom & Hp & Hch & Hpv & _ & Hcb & Hb & Hf & Hid).
    apply Forall_cons in Hty as [Hty1 Hty]. cbn [fst] in Hty1.
    destruct (runs_pushes _ _ _ Hr) as (cs & Ecs & _ & Elen & _ & _ & _ & Hge & _).
    assert (Hlast : f = (Z.of_nat (length (chunks g)) =? count - 1)).
    { destruct f.
      - destruct (runs_sealed _ _ _ Hr Hf) as [-> ->]. rewrite Hc, Hch, length_app. cbn [length]. symmetry. apply Z.eqb_eq. lia.
      - destruct l as [|r l].
        + inversion Hr; subst. congruence.
        + destruct cs as [|c' cs]; [done|]. rewrite Hc, Ecs, Hch, !length_app. cbn [length]. symmetry. apply Z.eqb_neq. lia. }
    assert (Hn : (length (chunks g) < 1024)%nat).
    { revert Hc2. rewrite Hc, Ecs, Hch, !length_app. cbn [length]. lia. }
    unfold same_identity in Hid. destruct Hid as (I1 & I2 & I3 & I4 & I5 & _).
    destruct IH as (cs' & Ecs' & IHc); try done.
    { destruct Hm. split; congruence. }
    { destruct Hids. split; rewrite ?I1, ?I2, ?I3, ?I4; done. }
    { rewrite Hpv. apply hexdigest_hex. }
    { pose proof (push_ok _ _ _ _ _ _ Hp) as (_ & _ & _ & ->). cbn. rewrite Hch, length_app. cbn. lia. }
    { intros ->. by inversion Hr; subst. }
    { by rewrite I5. }
    { lia. }
    exists (c :: cs'). split; [by rewrite Ecs', Hch, <- app_assoc|]. cbn [map check_chunks].
    erewrite check_chunk_sealed; try done; [|unfold DEFAULT_MAXIMUM, DEFAULT_BUDGET in *; lia].
    cbn [mbind res_bind]. rewrite (proj2 (Z.ltb_ge _ _)) by lia. cbn [okb raise_if].
    rewrite Hch, length_app, Nat2Z.inj_add, Hpv, Hcb in IHc. change (Z.of_nat (length [c])) with 1 in IHc.
    by rewrite IHc.
Qed.

(** The two key-wrap documents: canonical, small, read back as written. *)
Lemma wrap_docs_facts g :
  good_ids g ->
  let info := info_doc (job_id g) (target_hash g) (road_frozen_hash g) in
  let key := key_doc (quarantine_key_id g) in
  (in_domain info = true /\ ascii_val info = true /\ Z.of_nat (String.length (encode info)) <= 16 * 1024) /\
  (in_domain key = true /\ ascii_val key = true /\ Z.of_nat (String.length (encode key)) <= 16 * 1024).
Proof.
  intros [(_ & Hj & Hjl) Ht Hf [Hk Hkl]] info key.
  pose proof (hex_string_ascii _ _ Ht) as At. pose proof (hex_string_ascii _ _ Hf) as Af.
  apply hex_string_length in Ht, Hf.
  assert (Hd : in_domain info = true) by (cbn; by rewrite !ascii_no_surrogate).
  assert (Hd' : in_domain key = true) by (cbn; by rewrite !ascii_no_surrogate).
  split; (split; [done|split]).
  - unfold info, info_doc. cbn [ascii_val strings_ok forallb fst snd]. by rewrite Hj, At, Af.
  - pose proof (encode_weight _ Hd) as Hw. etrans; [exact Hw|]. unfold info, info_doc.
    cbn [weight weight_by fold_right fst snd]. rewrite Ht, Hf. cbn [String.length]. lia.
  - unfold key, key_doc. cbn [ascii_val strings_ok forallb fst snd]. by rewrite Hk.
  - pose proof (encode_weight _ Hd') as Hw. etrans; [exact Hw|]. unfold key, key_doc.
    cbn [weight weight_by fold_right fst snd]. cbn [String.length SUITE_ID]. lia.
Qed.

(** A wrapped key as [new_sealer] makes it. *)
Record wrapped (g : GuestEvidenceSealer) : Prop := {
  wr_info : hpke_info g = encode (info_doc (job_id g) (target_hash g) (road_frozen_hash g));
  wr_aad : hpke_aad g = encode (key_doc (quarantine_key_id g));
  wr_enc : String.length (enc g) = 32%nat;
  wr_cek : String.length (wrapped_cek g) = 48%nat;
  wr_header : String.length (header (stream g)) = HEADER_BYTES;
}.

Lemma binding_same v raw w :
  in_domain v = true -> raw = encode v -> py_eq (canon v) w = true -> binding_differs (canon v) w raw = Ok false.
Proof.
  intros Hd -> He. unfold binding_differs. rewrite He, canonical_bytes_canon by done. cbn.
  by rewrite String.eqb_refl.
Qed.

Lemma check_hpke_sealed g manifest :
  good_ids g -> wrapped g -> manifest_ids g manifest ->
  check_hpke parse_float
    (VDict [("enc_b64", _b64 (enc g)); ("wrapped_cek_b64", _b64 (wrapped_cek g));
            ("info_b64", _b64 (hpke_info g)); ("aad_b64", _b64 (hpke_aad g))]) manifest = Ok tt.
Proof.
  intros Hids [Hi Ha He Hc _] [Mj Mt Mf Mk].
  destruct (wrap_docs_facts g Hids) as [(Id & Ia & Il) (Kd & Ka & Kl)].
  unfold check_hpke. dict_eval. rewrite Hi, Ha.
  rewrite !unb64_b64 by (rewrite ?He, ?Hc; lia). cbn [mbind res_bind]. rewrite He, Hc.
  cbn [Nat.eqb negb orb okb raise_if]. rewrite !loads_canonical by done. rewrite Mj, Mt, Mf, Mk.
  cbn [mbind res_bind]. rewrite !binding_same; try done.
  - change (canon (key_doc (quarantine_key_id g))) with (key_doc (quarantine_key_id g)).
    cbn. by rewrite !String.eqb_refl.
  - change (canon (info_doc (job_id g) (target_hash g) (road_frozen_hash g))) with
      (VDict [("job_id", VStr (job_id g)); ("profile", VStr "agent-probe/v0");
              ("purpose", VStr "guest-evidence-key-wrap"); ("road_frozen_hash", VStr (road_frozen_hash g));
              ("target_hash", VStr (target_hash g))]).
    cbn. by rewrite !String.eqb_refl.
Qed.

(** What a new sealer starts from. *)
Lemma new_sealer_ok sk key eph rnd job target frozen key_id maximum g :
  String.length sk = 32%nat ->
  new_sealer key eph rnd job target frozen (x25519_public sk) key_id maximum = Ok g ->
  wrapped g /\ chunks g = [] /\ previous_ciphertext_hash g = ZERO_HASH /\ sealed g = false /\
  ciphertext_bytes g = 0 /\ plaintext_bytes g = 0 /\ st_sequence (stream g) = 0 /\
  finalized (stream g) = false /\ new_stream rnd key = Ok (stream g) /\ max_evidence_bytes g = maximum /\
  Hpke.open_base sk (enc g) (wrapped_cek g) (hpke_info g) (hpke_aad g) = Some (Ok key).
Proof.
  intros Hsk. unfold new_sealer. intros Hn. run_inv. subst g.
  repeat match goal with Hc : canonical_bytes _ = Ok _ |- _ => apply canonical_bytes_ok in Hc as [_ ->] end.
  match goal with Hs : new_stream _ _ = Ok ?s |- _ => rename Hs into Hst; rename s into st end.
  match goal with Hs : returned (Hpke.seal_base _ _ _ _ _) = Ok ?b |- _ => rename Hs into Hseal; rename b into box end.
  assert (Heph : String.length eph = 32%nat /\ x25519_exchange eph (x25519_public sk) <> None).
  { unfold Hpke.seal_base in Hseal. rewrite x25519_public_length in Hseal. cbn [Nat.eqb negb] in Hseal.
    destruct (String.length eph =? 32)%nat eqn:El; [|done]. apply Nat.eqb_eq in El. cbn [negb] in Hseal.
    split; [done|]. by destruct (x25519_exchange eph (x25519_public sk)). }
  destruct (Hpke.seal_open sk eph key (encode (info_doc job target frozen)) (encode (key_doc key_id)) Hsk
    (proj1 Heph) (proj2 Heph)) as (box' & Hb & Hb1 & Hb2 & Hb3).
  rewrite Hb in Hseal. cbn in Hseal. run_inv. subst box'.
  assert (Hk : String.length key = 32%nat /\ st_sequence st = 0 /\ finalized st = false /\ String.length (header st) = HEADER_BYTES).
  { unfold new_stream in Hst. destruct (String.length key =? KEY_BYTES)%nat eqn:Ek; [|done]. apply Nat.eqb_eq in Ek.
    pose proof (header_length rnd key) as Hh. cbn [negb] in Hst. destruct (init_push rnd key) as [h s0]. run_inv. subst st. done. }
  destruct Hk as (Hk & Hk2 & Hk3 & Hk4).
  split_and!; try done. split; try done. cbn. rewrite Hb2, Hk. done.
Qed.

Lemma runs_budget g l g' : runs g l g' -> l <> [] -> ciphertext_bytes g' <= max_evidence_bytes g.
Proof.
  induction 1 as [|g ty pl f g1 l g2 Ha Hr IH]; [done|]. intros _.
  apply append_ok in Ha as (c & _ & _ & _ & _ & _ & _ & _ & Hb & _ & Hid).
  destruct Hid as (_ & _ & _ & _ & Hm & _). destruct l as [|r l]; [by inversion Hr; subst|].
  rewrite <- Hm. by apply IH.
Qed.

Lemma root_doc_domain h hs : in_domain (root_doc h (map (fun c => hexdigest (ciphertext c)) hs)) = true.
Proof.
  assert (Hx : forall m, has_surrogate (hexdigest m) = false).
  { intros m. apply ascii_no_surrogate, (hex_string_ascii 64), hexdigest_hex. }
  unfold root_doc. cbn [in_domain forallb fst snd]. rewrite Hx.
  change (has_surrogate "stream_header_sha256") with false. change (has_surrogate "chunks") with false.
  cbn [negb andb]. rewrite andb_true_r. apply forallb_forall.
  intros x (y & <- & Hy)%in_map_iff. apply in_map_iff in Hy as (c & <- & _). cbn [in_domain]. by rewrite Hx.
Qed.

(** The manifest of a sealer's bundle. *)
Definition manifest_of (g : GuestEvidenceSealer) (root : string) : pyval := VDict
  [("manifest_version", VStr "cindermote.guest-evidence/v1"); ("job_id", VStr (job_id g));
   ("target_hash", VStr (target_hash g)); ("road_frozen_hash", VStr (road_frozen_hash g));
   ("suite_id", VStr SUITE_ID); ("quarantine_key_id", VStr (quarantine_key_id g));
   ("guest_evidence_root", VStr root);
   ("complete", VBool (match last (chunks g) with Some c => final c | None => false end));
   ("sequence_gaps", VInt 0); ("total_plaintext_bytes", VInt (plaintext_bytes g));
   ("total_ciphertext_bytes", VInt (ciphertext_bytes g));
   ("chunk_count", VInt (Z.of_nat (length (chunks g))))].

Lemma check_manifest_sealed g root maximum :
  good_ids g -> hex_string 64 root = true -> 0 <= plaintext_bytes g <= maximum -> 0 <= ciphertext_bytes g ->
  (exists c, last (chunks g) = Some c /\ final c = true) ->
  check_manifest (manifest_of g root) maximum = Ok tt.
Proof.
  intros [(Hj & _ & _) Ht Hf [Hk Hkl]] Hr Hp Hct (c & Hc & Hcf). unfold check_manifest, manifest_of.
  dict_eval. rewrite !py_eq_refl_str, Hc, Hcf. cbn [negb orb okb raise_if each_field]. dict_eval.
  assert (Hlen : str_len_in 16 64 (VStr (quarantine_key_id g)) = true).
  { unfold str_len_in, in_range. rewrite py_len_ascii by done. lia. }
  unfold bad_digest, bad_count, bad_job_id. rewrite Ht, Hf, Hr, Hj, Hlen. cbn [negb okb raise_if mbind res_bind].
  rewrite py_eq_refl_int. cbn [is_true negb orb int_of].
  by rewrite (proj2 (Z.ltb_ge (plaintext_bytes g) 0)), (proj2 (Z.ltb_ge (ciphertext_bytes g) 0)),
    (proj2 (Z.ltb_ge (Z.of_nat _) 0)), (proj2 (Z.ltb_ge maximum _)) by lia.
Qed.

Lemma good_ids_same g g' : same_identity g g' -> good_ids g -> good_ids g'.
Proof. intros (E1 & E2 & E3 & E4 & _) []. split; rewrite ?E1, ?E2, ?E3, ?E4; done. Qed.

Lemma wrapped_same g g' : same_identity g g' -> wrapped g -> wrapped g'.
Proof.
  intros (E1 & E2 & E3 & E4 & _ & E6 & E7 & E8 & E9 & E10) [].
  split; rewrite ?E1, ?E2, ?E3, ?E4, ?E6, ?E7, ?E8, ?E9, ?E10; done.
Qed.

(** The bundle of a sealer. *)
Definition bundle_with (g : GuestEvidenceSealer) (root : string) : pyval := VDict
  [("bundle_version", VStr "cindermote.guest-evidence-bundle/v1"); ("manifest", manifest_of g root);
   ("hpke", VDict [("enc_b64", _b64 (enc g)); ("wrapped_cek_b64", _b64 (wrapped_cek g));
                   ("info_b64", _b64 (hpke_info g)); ("aad_b64", _b64 (hpke_aad g))]);
   ("secretstream_header_b64", _b64 (header (stream g)));
   ("chunks", VList (map chunk_record (chunks g)))].

Definition root_of (g : GuestEvidenceSealer) : string :=
  hexdigest (encode (root_doc (header (stream g)) (map (fun c => hexdigest (ciphertext c)) (chunks g)))).

Lemma bundle_of_ok g : bundle_of g = Ok (bundle_with g (root_of g)).
Proof.
  unfold bundle_of. by rewrite (proj2 (sha256_hex_ok _ _) (conj (root_doc_domain _ _) eq_refl)).
Qed.

Lemma manifest_of_ids g root : manifest_ids g (manifest_of g root).
Proof. by split. Qed.

Lemma bundle_fields g root :
  let b := bundle_with g root in
  dict_shape b BUNDLE_KEYS = true /\ sub b "bundle_version" = Ok (VStr "cindermote.guest-evidence-bundle/v1") /\
  sub b "manifest" = Ok (manifest_of g root) /\
  sub b "hpke" = Ok (VDict [("enc_b64", _b64 (enc g)); ("wrapped_cek_b64", _b64 (wrapped_cek g));
                            ("info_b64", _b64 (hpke_info g)); ("aad_b64", _b64 (hpke_aad g))]) /\
  sub b "chunks" = Ok (VList (map chunk_record (chunks g))) /\
  sub b "secretstream_header_b64" = Ok (_b64 (header (stream g))).
Proof. by split_and!. Qed.

(** The checks after the chunk loop. *)
Lemma validate_sealed g maximum :
  good_ids g -> wrapped g -> 0 <= plaintext_bytes g <= maximum -> 0 <= ciphertext_bytes g ->
  (exists c, last (chunks g) = Some c /\ final c = true) -> Z.of_nat (length (chunks g)) <= 1024 ->
  check_chunks parse_float (manifest_of g (root_of g)) maximum (Z.of_nat (length (chunks g))) 0 ZERO_HASH 0
    (map chunk_record (chunks g)) = Ok (map (fun c => hexdigest (ciphertext c)) (chunks g), ciphertext_bytes g) ->
  validate_bundle parse_float (bundle_with g (root_of g)) maximum = Ok (bundle_with g (root_of g)).
Proof.
  intros Hids Hw Hp Hc Hlast Hn Hch. unfold validate_bundle.
  destruct (bundle_fields g (root_of g)) as (-> & -> & -> & -> & -> & ->).
  cbn [mbind res_bind negb okb raise_if]. rewrite py_eq_refl_str. cbn [negb okb raise_if].
  rewrite check_manifest_sealed by (done || apply hexdigest_hex). cbn [mbind res_bind].
  rewrite check_hpke_sealed by (done || apply manifest_of_ids). cbn [mbind res_bind is_list list_of negb orb].
  rewrite length_map. destruct (chunks g) as [|c0 cs0] eqn:Ecs.
  { destruct Hlast as (? & ? & _). done. }
  rewrite <- Ecs in *. assert ((length (chunks g) =? 0)%nat = false) as -> by (rewrite Ecs; done).
  rewrite (proj2 (Z.ltb_ge _ _)) by lia. cbn [orb okb raise_if]. rewrite Hch. cbn [mbind res_bind].
  pose proof (wr_header g Hw) as Hh. rewrite unb64_b64 by (rewrite ?Hh; unfold HEADER_BYTES; lia).
  cbn [mbind res_bind]. rewrite Hh. cbn [HEADER_BYTES Nat.eqb negb okb raise_if].
  rewrite (proj2 (sha256_hex_ok _ _) (conj (root_doc_domain _ _) eq_refl)).
  cbn [mbind res_bind]. unfold manifest_of. dict_eval. fold (root_of g).
  by rewrite py_eq_refl_str, !py_eq_refl_int.
Qed.

Lemma unb64_b64_inv x name maximum y : _unb64 (_b64 x) name maximum = Ok y -> y = x.
Proof. unfold _unb64, _b64. intros Hy. run_inv. rewrite Base64.decode_encode in Hy. by run_inv. Qed.

(** A record that passed its check decodes to the chunk it was made from. *)
Lemma check_chunk_decode manifest c index count prev r :
  check_chunk parse_float manifest (chunk_record c) index count prev = Ok r -> decode_chunk (chunk_record c) = Ok c.
Proof.
  unfold check_chunk, chunk_record, decode_chunk. dict_eval. intros Hc.
  destruct (_ || _); [done|].
  destruct (_unb64 (_b64 (ciphertext c)) "ciphertext" DEFAULT_MAXIMUM) as [x|] eqn:E1; [|done].
  destruct (_unb64 (_b64 (aad c)) "aad" (64 * 1024)) as [y|] eqn:E2; [|done].
  apply unb64_b64_inv in E1, E2. subst x y. cbn [mbind res_bind]. clear Hc.
  destruct c as [sq ad ct f]. cbn [sequence aad ciphertext final is_true].
  unfold seq_of. cbn [as_num]. rewrite Z.mod_1_r, Z.div_1_r. by destruct f.
Qed.

Lemma check_chunks_decode manifest maximum count index prev total cs r :
  check_chunks parse_float manifest maximum count index prev total (map chunk_record cs) = Ok r ->
  map_res decode_chunk (map chunk_record cs) = Ok cs.
Proof.
  revert index prev total r. induction cs as [|c cs IH]; intros index prev total r; [done|].
  cbn [map check_chunks map_res]. intros Hr. apply bind_ok in Hr as ([d n] & Hc & Hr). run_inv.
  rewrite (check_chunk_decode _ _ _ _ _ _ Hc). cbn [mbind res_bind].
  match goal with Hx : check_chunks _ _ _ _ _ _ _ _ = Ok _ |- _ => by rewrite (IH _ _ _ _ Hx) end.
Qed.

Lemma decrypt_sealed g sk key cs_plain :
  wrapped g -> good_ids g ->
  validate_bundle parse_float (bundle_with g (root_of g)) DEFAULT_BUDGET = Ok (bundle_with g (root_of g)) ->
  map_res decode_chunk (map chunk_record (chunks g)) = Ok (chunks g) ->
  Hpke.open_base sk (enc g) (wrapped_cek g) (hpke_info g) (hpke_aad g) = Some (Ok key) ->
  pull_all key (header (stream g)) (chunks g) = Ok cs_plain ->
  decrypt_bundle parse_float (bundle_with g (root_of g)) sk = Ok cs_plain.
Proof.
  intros Hw Hids Hv Hd Ho Hp. unfold decrypt_bundle. rewrite Hv. cbn [mbind res_bind].
  destruct (bundle_fields g (root_of g)) as (_ & _ & _ & -> & -> & ->). do 2 dict_eval.
  destruct (wrap_docs_facts g Hids) as [(_ & _ & Il) (_ & _ & Kl)].
  destruct Hw as [Hi Ha He Hc Hh]. rewrite <- Hi in Il. rewrite <- Ha in Kl.
  rewrite !unb64_b64 by (rewrite ?He, ?Hc, ?Hh; unfold HEADER_BYTES; lia). cbn [mbind res_bind].
  rewrite Ho. cbn [returned mbind res_bind py_iter]. by rewrite Hd.
Qed.

Lemma zip_fst_snd {A B} (l : list A) (k : list B) :
  length k = length l -> map fst (zip l k) = l /\ map snd (zip l k) = k.
Proof.
  revert k. induction l as [|x l IH]; intros [|y k] Hk; try done. cbn in *.
  destruct (IH k ltac:(lia)) as [E1 E2]. by rewrite E1, E2.
Qed.

(** The last chunk of a stream that is finalized is the final one. *)
Lemma pushes_last s l s' :
  pushes s l s' -> finalized s = false -> finalized s' = true ->
  exists c, last (map snd l) = Some c /\ final c = true.
Proof.
  induction 1 as [|s m ad f s1 c l s2 Hp Hl IH]; [congruence|]. intros _ Hf.
  pose proof (push_ok _ _ _ _ _ _ Hp) as (_ & _ & Hc & Hs1). destruct l as [|x l].
  - inversion Hl; subst s2. exists c. split; [reflexivity|]. rewrite Hc. rewrite Hs1 in Hf. exact Hf.
  - assert (finalized s1 = false) as Hf1.
    { destruct x. inversion Hl as [|? ? ? ? ? ? ? ? Hp2 _]. by apply push_ok in Hp2 as (? & _). }
    destruct (IH Hf1 Hf) as (c' & Hc' & Hcf). exists c'. split; [|done]. exact Hc'.
Qed.

(** A run from a new sealer that ends sealed gives a bundle that validates and
    decrypts to the payloads. *)
Lemma sealed_run_bundle sk key eph rnd job target frozen key_id maximum g l g' :
  String.length sk = 32%nat ->
  new_sealer key eph rnd job target frozen (x25519_public sk) key_id maximum = Ok g ->
  good_ids g -> Forall (fun r => In (fst (fst r)) RECORD_TYPES) l -> runs g l g' -> sealed g' = true ->
  Z.of_nat (length l) <= 1024 -> maximum <= DEFAULT_BUDGET ->
  exists bundle, bundle_of g' = Ok bundle /\ validate_bundle parse_float bundle maximum = Ok bundle /\
    decrypt_bundle parse_float bundle sk = Ok (map (fun r => snd (fst r)) l).
Proof.
  intros Hsk Hn Hids Hty Hr Hs Hl Hm.
  destruct (new_sealer_ok _ _ _ _ _ _ _ _ _ _ Hsk Hn) as (Hw & Hc0 & Hp0 & Hs0 & Hct0 & Hpl0 & Hq0 & Hf0 & Hst & Hmx & Hopen).
  destruct (runs_pushes _ _ _ Hr) as (cs & Ecs & Hpush & Hlen & Hid & Hpb & Hpb2 & Hcb & Hfin).
  rewrite Hc0 in Ecs. cbn [app] in Ecs.
  assert (Hne : l <> []) by (intros ->; inversion Hr; subst; congruence).
  pose proof (runs_budget _ _ _ Hr Hne) as Hbud.
  destruct (zip_fst_snd (map (fun r => snd (fst r)) l) cs) as [Z1 Z2]; [by rewrite length_map|].
  assert (Hfin' : finalized (stream g') = true) by (rewrite Hfin; congruence).
  assert (Hcount : Z.of_nat (length (chunks g')) <= 1024) by (rewrite Ecs, Hlen; done).
  assert (Hlast : exists c, last (chunks g') = Some c /\ final c = true).
  { rewrite Ecs, <- Z2. by eapply pushes_last. }
  assert (Hcheck : forall mx root, maximum <= mx -> mx <= DEFAULT_BUDGET ->
    check_chunks parse_float (manifest_of g' root) mx (Z.of_nat (length (chunks g'))) 0 ZERO_HASH 0
      (map chunk_record (chunks g')) = Ok (map (fun c => hexdigest (ciphertext c)) (chunks g'), ciphertext_bytes g')).
  { intros mx root Hmx1 Hmx2.
    destruct (check_chunks_sealed (manifest_of g' root) g l g' mx (Z.of_nat (length (chunks g')))) as (cs' & E' & Hc');
      try done; try (rewrite ?Hp0, ?Hc0, ?Hq0; (done || lia || reflexivity)).
    - destruct Hid as (E1 & E2 & E3 & E4 & _). split; rewrite <- ?E1, <- ?E2, <- ?E3, <- ?E4; apply manifest_of_ids.
    - rewrite Hc0 in *. cbn [app length] in *. rewrite Hp0, Hct0 in Hc'. by rewrite <- E' in Hc'. }
  pose proof (good_ids_same _ _ Hid Hids) as Hids'. pose proof (wrapped_same _ _ Hid Hw) as Hw'.
  exists (bundle_with g' (root_of g')). split; [apply bundle_of_ok|]. split.
  - apply validate_sealed; try done; try lia. by apply Hcheck.
  - destruct Hid as (_ & _ & _ & _ & _ & I6 & I7 & I8 & I9 & I10).
    eapply decrypt_sealed; try done.
    + apply validate_sealed; try done; try lia. by apply Hcheck.
    + eapply check_chunks_decode. by apply (Hcheck maximum "").
    + rewrite I6, I7, I8, I9. exact Hopen.
    + rewrite I10, Ecs. rewrite <- Z2 at 1. rewrite <- Z1 at 2. by eapply pull_all_pushes.
Qed.

Lemma runs_snoc g l g1 ty pl f g2 :
  runs g l g1 -> append g1 ty pl f = (g2, Ok tt) -> runs g (l ++ [(ty, pl, f)]) g2.
Proof.
  induction 1 as [g|g ty' pl' f' g3 l g1 Ha _ IH]; intros Hx; cbn [app].
  - econstructor; [exact Hx|constructor].
  - econstructor; [exact Ha|by apply IH].
Qed.

(** C27: What the guest seals, the host accepts and the key holder reads: for a
    sealer made for the public key of [sk], with identifiers of the contract's
    form, any records of known types that were appended within the budget of at
    most 4 MiB (1023 records, or 1024 with the last one final) and then
    finalized give a bundle that [validate_bundle] accepts and that
    [decrypt_bundle] with [sk] opens to exactly the payloads, in order, followed
    by the empty halt record if none was final. *)
Theorem evidence_roundtrip (sk key eph rnd job target frozen key_id : string) (maximum : Z)
    (g g' g2 : GuestEvidenceSealer) (l : list (string * string * bool)) (bundle : pyval) :
  String.length sk = 32%nat ->
  new_sealer key eph rnd job target frozen (x25519_public sk) key_id maximum = Ok g ->
  good_ids g -> Forall (fun r => In (fst (fst r)) RECORD_TYPES) l -> runs g l g' ->
  finalize g' = (g2, Ok bundle) -> Z.of_nat (length l) <= (if sealed g' then 1024 else 1023) -> maximum <= DEFAULT_BUDGET ->
  validate_bundle parse_float bundle maximum = Ok bundle /\
  decrypt_bundle parse_float bundle sk =
    Ok (map (fun r => snd (fst r)) l ++ (if sealed g' then [] else [""])).
Proof.
  intros Hsk Hn Hids Hty Hr Hf Hl Hm. unfold finalize in Hf. destruct (sealed g') eqn:Es.
  - injection Hf as <- Hb. rewrite app_nil_r.
    destruct (sealed_run_bundle _ _ _ _ _ _ _ _ _ _ _ _ Hsk Hn Hids Hty Hr Es ltac:(lia) Hm) as (b & Hb' & Hv & Hd).
    assert (b = bundle) as -> by congruence. done.
  - destruct (append g' "guest_halt" "" true) as [g3 [[]|]] eqn:Ea; [|done]. injection Hf as <- Hb.
    pose proof (runs_snoc _ _ _ _ _ _ _ Hr Ea) as Hr2.
    pose proof (append_ok _ _ _ _ _ Ea) as (_ & _ & _ & _ & _ & _ & _ & _ & _ & Hs3 & _).
    destruct (sealed_run_bundle _ _ _ _ _ _ _ _ _ _ _ _ Hsk Hn Hids
      (proj2 (Forall_app _ _ _) (conj Hty (Forall_cons_2 (fun r => In (fst (fst r)) RECORD_TYPES) ("guest_halt", "", true) []
        ltac:(cbn; auto 10) (Forall_nil_2 _)))) Hr2 Hs3 ltac:(rewrite length_app; cbn [length]; lia) Hm) as (b & Hb' & Hv & Hd).
    assert (b = bundle) as -> by congruence. rewrite map_app in Hd. done.
Qed.

End sealing.

(** ** An accepted bundle is pinned down by its root *)
Section accepted.
Variable parse_float : string -> pyfloat.

(** The ciphertexts of a bundle, as [decrypt_bundle] reads them. *)
Definition opened (bundle : pyval) (hdr : string) (cts : list string) : Prop :=
  exists hb rs, sub bundle "secretstream_header_b64" = Ok hb /\
    _unb64 hb "secretstream header" 128 = Ok hdr /\ sub bundle "chunks" = Ok (VList rs) /\
    Forall2 (fun r ct => exists x, sub r "ciphertext_b64" = Ok x /\ _unb64 x "ciphertext" DEFAULT_MAXIMUM = Ok ct) rs cts.

Lemma check_chunk_digest manifest record index count prev d n :
  check_chunk parse_float manifest record index count prev = Ok (d, n) ->
  exists x ct, sub record "ciphertext_b64" = Ok x /\ _unb64 x "ciphertext" DEFAULT_MAXIMUM = Ok ct /\
    d = hexdigest ct /\ n = Z.of_nat (String.length ct).
Proof.
  unfold check_chunk. intros Hc. run_inv.
  match type of Hc with match ?o with _ => _ end = _ => destruct o; [|done] end. run_inv.
  match goal with Hx : (_, _) = (d, n) |- _ => injection Hx as <- <- end. eauto 10.
Qed.

Lemma check_chunks_digests manifest maximum count index prev total rs hs t :
  check_chunks parse_float manifest maximum count index prev total rs = Ok (hs, t) ->
  forall cts, Forall2 (fun r ct => exists x, sub r "ciphertext_b64" = Ok x /\ _unb64 x "ciphertext" DEFAULT_MAXIMUM = Ok ct) rs cts ->
  hs = map hexdigest cts.
Proof.
  revert index prev total hs t. induction rs as [|r rs IH]; intros index prev total hs t Hc cts Hf; inversion Hf; subst.
  - cbn in Hc. run_inv. by simplify_eq.
  - cbn [check_chunks] in Hc. apply bind_ok in Hc as ([d n] & Hc1 & Hc). run_inv.
    match goal with Hx : check_chunks _ _ _ _ _ _ _ _ = Ok ?p |- _ => destruct p as [hs' t']; rename Hx into Hrest end.
    run_inv. simplify_eq. apply check_chunk_digest in Hc1 as (x & ct & Hx1 & Hx2 & -> & _).
    match goal with Hx : exists _, _ |- _ => destruct Hx as (x' & Hy1 & Hy2) end.
    cbn [map]. f_equal; [congruence|]. by eapply IH.
Qed.

Lemma validate_root bundle maximum hdr cts :
  validate_bundle parse_float bundle maximum = Ok bundle -> opened bundle hdr cts ->
  exists manifest, sub bundle "manifest" = Ok manifest /\
    sub manifest "guest_evidence_root" = Ok (VStr (hexdigest (encode (root_doc hdr (map hexdigest cts))))) /\
    in_domain (root_doc hdr (map hexdigest cts)) = true.
Proof.
  intros Hv (hb & rs & Hhb & Hh & Hrs & Hf). unfold validate_bundle in Hv. rewrite Hhb, Hrs in Hv.
  cbn [mbind res_bind list_of] in Hv. run_inv.
  match goal with Hc : check_chunks _ _ _ _ _ _ _ _ = Ok ?p |- _ => destruct p as [hs t]; rename Hc into Hch end.
  cbn [mbind res_bind] in Hv. run_inv. rewrite Hh in *. run_inv. subst.
  pose proof (check_chunks_digests _ _ _ _ _ _ _ _ _ Hch _ Hf) as ->.
  match goal with Hs : sha256_hex _ = Ok _ |- _ => apply sha256_hex_ok in Hs as [Hd ->] end.
  match goal with Hp : py_eq _ (VStr _) = true |- _ => apply py_eq_str in Hp; subst end. eauto.
Qed.

(** Lists with equal images are equal, or two of their elements collide. *)
Lemma images_differ (f : string -> string) (a b : list string) :
  map f a = map f b -> a = b \/ exists x y, In x a /\ In y b /\ (x <> y /\ f x = f y).
Proof.
  revert b. induction a as [|x a IH]; intros [|y b] Hab; try done; [by left|].
  injection Hab as Hxy Hab. destruct (decide (x = y)) as [->|Hne].
  - destruct (IH b Hab) as [->|(u & w & Hu & Hw & Hc)]; [by left|]. right. exists u, w. cbn. auto.
  - right. exists x, y. cbn. auto 10.
Qed.

Lemma root_doc_canon h hs :
  canon (root_doc h hs) = VDict [("chunks", VList (map VStr hs)); ("stream_header_sha256", VStr (hexdigest h))].
Proof.
  assert (Hm : map canon (map VStr hs) = map VStr hs) by (induction hs as [|x hs IH]; cbn; [done|by rewrite IH]).
  change (canon (root_doc h hs)) with
    (VDict [("chunks", VList (map canon (map VStr hs))); ("stream_header_sha256", VStr (hexdigest h))]).
  by rewrite Hm.
Qed.

Lemma root_fields_inj l1 l2 d1 d2 :
  VDict [("chunks", VList (map VStr l1)); ("stream_header_sha256", VStr d1)] =
  VDict [("chunks", VList (map VStr l2)); ("stream_header_sha256", VStr d2)] -> l1 = l2 /\ d1 = d2.
Proof.
  intros [= Hl ->]. split; [|done]. revert l2 Hl. induction l1 as [|x l1 IH]; intros [|y l2] Hl; try done.
  cbn in Hl. simplify_eq. f_equal. by apply IH.
Qed.

Lemma root_doc_wf h hs : wf_val (root_doc h hs) = true.
Proof.
  unfold root_doc. cbn [wf_val forallb fst snd]. rewrite !andb_true_r.
  apply andb_true_iff. split; [reflexivity|]. apply forallb_forall. by intros x (y & <- & _)%in_map_iff.
Qed.

(** The evidence root pins down the evidence: two bundles accepted by
    [validate_bundle] (under any budgets) with the same [guest_evidence_root]
    carry the same stream header and the same ciphertexts in the same order,
    unless the two root documents, the two headers or two of the ciphertexts are
    a SHA-256 collision. *)
Theorem evidence_root_binding (b1 b2 m1 m2 root : pyval) (max1 max2 : Z) (h1 h2 : string)
    (c1 c2 : list string) :
  validate_bundle parse_float b1 max1 = Ok b1 -> validate_bundle parse_float b2 max2 = Ok b2 ->
  opened b1 h1 c1 -> opened b2 h2 c2 ->
  sub b1 "manifest" = Ok m1 -> sub b2 "manifest" = Ok m2 ->
  sub m1 "guest_evidence_root" = Ok root -> sub m2 "guest_evidence_root" = Ok root ->
  (h1 = h2 /\ c1 = c2) \/
  sha256_collision (encode (root_doc h1 (map hexdigest c1))) (encode (root_doc h2 (map hexdigest c2))) \/
  sha256_collision h1 h2 \/
  exists x y, In x c1 /\ In y c2 /\ sha256_collision x y.
Proof.
  intros V1 V2 O1 O2 M1 M2 R1 R2.
  destruct (validate_root _ _ _ _ V1 O1) as (m1' & M1' & R1' & D1).
  destruct (validate_root _ _ _ _ V2 O2) as (m2' & M2' & R2' & D2).
  assert (Hr : hexdigest (encode (root_doc h1 (map hexdigest c1))) = hexdigest (encode (root_doc h2 (map hexdigest c2)))) by congruence.
  destruct (sha256_hex_binding (root_doc h1 (map hexdigest c1)) (root_doc h2 (map hexdigest c2)) _
    (root_doc_wf _ _) (root_doc_wf _ _) (proj2 (sha256_hex_ok _ _) (conj D1 eq_refl)) (proj2 (sha256_hex_ok _ _) (conj D2 Hr)))
    as [Hc|Hc]; [|by right; left].
  rewrite !root_doc_canon in Hc. apply root_fields_inj in Hc as [Hm Hh].
  destruct (decide (h1 = h2)) as [->|Hne]; [|right; right; left; exact (conj Hne Hh)].
  destruct (images_differ hexdigest _ _ Hm) as [->|Hd]; [by left|right; right; right; exact Hd].
Qed.

End accepted.

(** ** Witnesses, over the toy primitives *)
#[local] Existing Instance Hpke.toy.
#[local] Existing Instance toy_sodium.

Definition no_float (_ : string) : pyfloat := FNan.
Definition key32 : string := Hpke.zeros 32.

Definition empty_sealer : GuestEvidenceSealer :=
  mk_sealer "" "" "" "" 0 "" "" "" "" "" (mk_stream tt "" 0 false) [] "" 0 0 false.
Definition sample_sealer : GuestEvidenceSealer :=
  match new_sealer key32 key32 "" "job-0011223344556677" ZERO_HASH ZERO_HASH (sha256_digest key32)
          "00112233445566778899aabbccddeeff" 4096 with
  | Ok g => g
  | Err _ => empty_sealer
  end.
Definition sample_records : list (string * string * bool) :=
  [("initial_prompt", "hello", false); ("tool_result", "ok", false)].
Definition sample_g1 : GuestEvidenceSealer := fst (append sample_sealer "initial_prompt" "hello" false).
Definition sample_g2 : GuestEvidenceSealer := fst (append sample_g1 "tool_result" "ok" false).
Definition sample_bundle : pyval :=
  match snd (finalize sample_g2) with Ok b => b | Err _ => VNone end.

Lemma evidence_roundtrip_witness :
  validate_bundle no_float sample_bundle 4096 = Ok sample_bundle /\
  decrypt_bundle no_float sample_bundle key32 = Ok ["hello"; "ok"; ""].
Proof.
  apply (evidence_roundtrip no_float key32 key32 key32 "" "job-0011223344556677" ZERO_HASH ZERO_HASH
    "00112233445566778899aabbccddeeff" 4096 sample_sealer sample_g2 (fst (finalize sample_g2)) sample_records
    sample_bundle).
  - reflexivity.
  - vm_compute. reflexivity.
  - split; vm_compute; repeat match goal with |- _ /\ _ => split end; first [reflexivity|lia].
  - apply Forall_cons; split; [cbn; auto 10|]. apply Forall_cons; split; [cbn; auto 10|done].
  - apply runs_cons with sample_g1; [vm_compute; reflexivity|].
    apply runs_cons with sample_g2; [vm_compute; reflexivity|]. apply runs_nil.
  - vm_compute. reflexivity.
  - vm_compute. discriminate.
  - unfold DEFAULT_BUDGET. lia.
Defined.

Definition sample_ciphertexts : list string := map ciphertext (chunks (fst (finalize sample_g2))).
Definition sample_manifest : pyval := match sub sample_bundle "manifest" with Ok m => m | Err _ => VNone end.
Definition sample_root : pyval :=
  match sub sample_manifest "guest_evidence_root" with Ok r => r | Err _ => VNone end.

Definition read_ciphertext (r : pyval) : res string :=
  let* x := sub r "ciphertext_b64" in _unb64 x "ciphertext" DEFAULT_MAXIMUM.

Lemma opened_reads b hb h rs cts :
  sub b "secretstream_header_b64" = Ok hb -> _unb64 hb "secretstream header" 128 = Ok h ->
  sub b "chunks" = Ok (VList rs) -> map_res read_ciphertext rs = Ok cts -> opened b h cts.
Proof.
  intros H1 H2 H3 H4%map_res_ok. exists hb, rs. split_and!; try done.
  eapply Forall2_impl; [exact H4|]. intros r ct Hr. by apply bind_ok in Hr.
Qed.

Definition sample_header : pyval :=
  match sub sample_bundle "secretstream_header_b64" with Ok m => m | Err _ => VNone end.
Definition sample_chunks : list pyval :=
  match sub sample_bundle "chunks" with Ok m => list_of m | Err _ => [] end.

Lemma sample_opened : opened sample_bundle (zero_bytes HEADER_BYTES) sample_ciphertexts.
Proof. apply (opened_reads sample_bundle sample_header _ sample_chunks); vm_compute; reflexivity. Qed.

Lemma evidence_root_binding_witness :
  (zero_bytes HEADER_BYTES = zero_bytes HEADER_BYTES /\ sample_ciphertexts = sample_ciphertexts) \/
  sha256_collision (encode (root_doc (zero_bytes HEADER_BYTES) (map hexdigest sample_ciphertexts)))
    (encode (root_doc (zero_bytes HEADER_BYTES) (map hexdigest sample_ciphertexts))) \/
  sha256_collision (zero_bytes HEADER_BYTES) (zero_bytes HEADER_BYTES) \/
  exists x y, In x sample_ciphertexts /\ In y sample_ciphertexts /\ sha256_collision x y.
Proof.
  apply (evidence_root_binding no_float sample_bundle sample_bundle sample_manifest sample_manifest
    sample_root 4096 4096); try exact sample_opened; vm_compute; reflexivity.
Defined.

End EvidenceFacts.
