(* ===== verification/JsonLoads.v ===== *)
(** * json.loads: the exceptions it raises, and the bytes it takes

    [Json] decodes a text; what a program does with a text that cannot be decoded
    depends on the exception, and [json.loads] of bytes first finds their encoding.  The
    tagged scanner says which one is raised, also with hooks that refuse repeated keys
    and constants, and accepts what the scanner of [Json] accepts ([tag_erase]).  Last,
    the integers that [json.dumps] refuses to write. *)

From stdpp Require Import base list strings.
From Stdlib Require Import ZArith Lia Ascii.
From S2P Require Import Prelude PyValue Json JsonFacts StrOps Evidence.

Local Open Scope Z_scope.

(** ** Bytes *)

(** [json.loads] of bytes: the encoding is detected from a byte-order mark or from
    the zero bytes among the first four, and lone surrogates are let through. *)
Fixpoint units2 (le : bool) (l : list Z) : option (list Z) :=
  match l with
  | [] => Some []
  | a :: b :: r => option_map (cons (if le then a + 256 * b else 256 * a + b)) (units2 le r)
  | _ => None
  end.
Fixpoint units4 (le : bool) (l : list Z) : option (list Z) :=
  match l with
  | [] => Some []
  | a :: b :: c :: d :: r =>
      let cp := if le then a + 256 * (b + 256 * (c + 256 * d)) else d + 256 * (c + 256 * (b + 256 * a)) in
      if 1114111 <? cp then None else option_map (cons cp) (units4 le r)
  | _ => None
  end.
Fixpoint join_surrogates (l : list Z) : list Z :=
  match l with
  | a :: (b :: r) as t =>
      if in_range 55296 56319 a && in_range 56320 57343 b
      then 65536 + (a - 55296) * 1024 + (b - 56320) :: join_surrogates r
      else a :: join_surrogates t
  | _ => l
  end.
Definition text_of (l : list Z) : string := foldr (fun cp s => utf8 cp +:+ s) "" l.
Definition utf16 (le : bool) (l : list Z) : option string := option_map (fun u => text_of (join_surrogates u)) (units2 le l).
Definition utf32 (le : bool) (l : list Z) : option string := option_map text_of (units4 le l).
Definition utf8_text (b : string) : option string := if Evidence.utf8_ok 0 128 191 b then Some b else None.
Definition decode_json (b : string) : option string :=
  let l := byte_values b in
  match l with
  | 0 :: 0 :: 254 :: 255 :: r => utf32 false r
  | 255 :: 254 :: 0 :: 0 :: r => utf32 true r
  | 254 :: 255 :: r => utf16 false r
  | 255 :: 254 :: r => utf16 true r
  | 239 :: 187 :: 191 :: _ => utf8_text (String.substring 3 (String.length b - 3) b)
  | 0 :: y :: _ :: _ :: _ => if y =? 0 then utf32 false l else utf16 false l
  | _ :: 0 :: z :: w :: _ => if (z =? 0) && (w =? 0) then utf32 true l else utf16 true l
  | [0; _] => utf16 false l
  | [_; 0] => utf16 true l
  | _ => utf8_text b
  end.

(** ** json.loads, by the exception it raises *)

(** Text that is no JSON is a [JSONDecodeError]; an integer with too many digits is
    a plain [ValueError], and a container more than the interpreter can have open is
    a [RecursionError], each raised where the scanner meets it.  A hook that refuses a
    constant is called where it stands, one that refuses a repeated key when the object
    is complete. *)
Inductive scanned (A : Type) := Scan (a : A) (rest : string) | Syntax | TooManyDigits | TooDeep | Repeated | Constant.
Arguments Scan {A}. Arguments Syntax {A}. Arguments TooManyDigits {A}. Arguments TooDeep {A}. Arguments Repeated {A}. Arguments Constant {A}.

Definition erase {A} (s : scanned A) : option (A * string) := match s with Scan a r => Some (a, r) | _ => None end.
Definition of_option {A} (o : option (A * string)) : scanned A := match o with Some (a, r) => Scan a r | None => Syntax end.
Definition then_scan {A B} (m : scanned A) (k : A -> string -> scanned B) : scanned B :=
  match m with Scan a r => k a r | Syntax => Syntax | TooManyDigits => TooManyDigits | TooDeep => TooDeep
  | Repeated => Repeated | Constant => Constant end.
Definition or_scan {A} (m n : scanned A) : scanned A := match m with Syntax => n | _ => m end.

Section scan.
Variable parse_float : string -> pyfloat.
Variable strict : hooks.

Definition tag_number (s : string) : scanned pyval :=
  match scan_number parse_float s with
  | Some (v, r) => Scan v r
  | None =>
      let body := if first_is (fun c => byte_of c =? 45) s then tail s else s in
      if first_is is_digit body then TooManyDigits else Syntax
  end.

Definition tag_constant (s : string) : scanned pyval :=
  let found := or_scan (of_option (scan_word "NaN" (VFloat FNan) s))
                 (or_scan (of_option (scan_word "Infinity" (VFloat (FInf false)) s))
                          (of_option (scan_word "-Infinity" (VFloat (FInf true)) s))) in
  if refuses_constants strict then then_scan found (fun _ _ => Constant) else found.

Fixpoint tag_value (depth fuel : nat) (s : string) : scanned pyval :=
  match fuel with
  | O => Syntax
  | S f =>
      match s with
      | EmptyString => Syntax
      | String c r =>
          let b := byte_of c in
          if b =? 34 then then_scan (of_option (scan_string r)) (fun x r' => Scan (VStr x) r')
          else if b =? 123 then
            match depth with
            | O => TooDeep
            | S depth =>
                let s1 := skip_ws r in
                if first_is (fun d => byte_of d =? 125) s1 then Scan (VDict []) (tail s1)
                else then_scan (tag_members depth f s1 [] false) (fun d r' => Scan (VDict d) r')
            end
          else if b =? 91 then
            match depth with
            | O => TooDeep
            | S depth =>
                let s1 := skip_ws r in
                if first_is (fun d => byte_of d =? 93) s1 then Scan (VList []) (tail s1)
                else then_scan (tag_items depth f s1) (fun l r' => Scan (VList l) r')
            end
          else or_scan (of_option (scan_word "null" VNone s))
                 (or_scan (of_option (scan_word "true" (VBool true) s))
                 (or_scan (of_option (scan_word "false" (VBool false) s))
                 (or_scan (tag_number s) (tag_constant s))))
      end
  end
with tag_members (depth fuel : nat) (s : string) (acc : pydict) (repeated : bool) : scanned pydict :=
  match fuel with
  | O => Syntax
  | S f =>
      if first_is (fun c => byte_of c =? 34) s then
        then_scan (of_option (scan_string (tail s))) (fun k r1 =>
          let s2 := skip_ws r1 in
          if first_is (fun c => byte_of c =? 58) s2 then
            then_scan (tag_value depth f (skip_ws (tail s2))) (fun v r3 =>
              let s4 := skip_ws r3 in
              let acc' := dict_set k v acc in
              let repeated' := repeated || refuses_repeats strict && has_key k acc in
              if first_is (fun c => byte_of c =? 44) s4 then tag_members depth f (skip_ws (tail s4)) acc' repeated'
              else if first_is (fun c => byte_of c =? 125) s4 then if repeated' then Repeated else Scan acc' (tail s4)
              else Syntax)
          else Syntax)
      else Syntax
  end
with tag_items (depth fuel : nat) (s : string) : scanned (list pyval) :=
  match fuel with
  | O => Syntax
  | S f =>
      then_scan (tag_value depth f s) (fun v r1 =>
        let s2 := skip_ws r1 in
        if first_is (fun c => byte_of c =? 44) s2
        then then_scan (tag_items depth f (skip_ws (tail s2))) (fun l r => Scan (v :: l) r)
        else if first_is (fun c => byte_of c =? 93) s2 then Scan [v] (tail s2)
        else Syntax)
  end.

(** The tags add nothing to what the scanner accepts. *)
Lemma erase_then {A B} (m : scanned A) (k : A -> string -> scanned B) :
  erase (then_scan m k) = match erase m with Some (a, r) => erase (k a r) | None => None end.
Proof. by destruct m. Qed.
Lemma erase_of {A} (o : option (A * string)) : erase (of_option o) = o.
Proof. by destruct o as [[]|]. Qed.
Lemma erase_or_of {A} (o : option (A * string)) n : erase (or_scan (of_option o) n) = orelse o (erase n).
Proof. by destruct o as [[]|]. Qed.

Lemma word_not_number word v s : first_is is_digit word = false -> first_is is_digit (tail word) = false -> (1 < String.length word)%nat ->
  first_is is_digit (if first_is (fun c => byte_of c =? 45) s then tail s else s) = true -> scan_word word v s = None.
Proof.
  intros H1 H2 Hl Hd. unfold scan_word, startswith. destruct word as [|a [|b w]]; cbn in Hl; try lia. cbn [first_is tail] in *.
  destruct s as [|x [|y r]]; [done| |]; cbn [String.prefix].
  - destruct (Ascii.ascii_dec a x) as [->|]; done.
  - destruct (Ascii.ascii_dec a x) as [->|]; [|done]. destruct (Ascii.ascii_dec b y) as [->|]; [|done].
    cbn [first_is tail] in Hd. destruct (byte_of x =? 45); cbn [first_is] in Hd; congruence.
Qed.

Lemma scan_value_S f c r : scan_value parse_float strict (S f) (String c r) =
  if byte_of c =? 34 then match scan_string r with Some (x, r') => Some (VStr x, r') | None => None end
  else if byte_of c =? 123 then
    if first_is (fun d => byte_of d =? 125) (skip_ws r) then Some (VDict [], tail (skip_ws r))
    else match scan_members parse_float strict f (skip_ws r) [] with Some (d, r') => Some (VDict d, r') | None => None end
  else if byte_of c =? 91 then
    if first_is (fun d => byte_of d =? 93) (skip_ws r) then Some (VList [], tail (skip_ws r))
    else match scan_items parse_float strict f (skip_ws r) with Some (l, r') => Some (VList l, r') | None => None end
  else orelse (scan_word "null" VNone (String c r))
         (orelse (scan_word "true" (VBool true) (String c r))
         (orelse (scan_word "false" (VBool false) (String c r))
         (orelse (scan_number parse_float (String c r))
         (if refuses_constants strict then None
          else orelse (scan_word "NaN" (VFloat FNan) (String c r))
                 (orelse (scan_word "Infinity" (VFloat (FInf false)) (String c r))
                         (scan_word "-Infinity" (VFloat (FInf true)) (String c r))))))).
Proof. reflexivity. Qed.

Lemma erase_number s : erase (or_scan (tag_number s) (tag_constant s)) =
  orelse (scan_number parse_float s)
    (if refuses_constants strict then None
     else orelse (scan_word "NaN" (VFloat FNan) s)
            (orelse (scan_word "Infinity" (VFloat (FInf false)) s) (scan_word "-Infinity" (VFloat (FInf true)) s))).
Proof.
  unfold tag_number, tag_constant. destruct (scan_number _ _) as [[]|]; [done|].
  destruct (first_is is_digit _) eqn:Ed; cbn [or_scan erase orelse].
  - rewrite !word_not_number by (done || (cbn; lia)). by destruct (refuses_constants _).
  - destruct (refuses_constants _); [|by rewrite !erase_or_of, erase_of]. rewrite erase_then. by destruct (erase _) as [[]|].
Qed.

(** An object with a repeated key is not accepted, whatever follows. *)
Lemma repeated_refused f : forall d s acc, erase (tag_members d f s acc true) = None.
Proof.
  induction f as [|f IH]; [done|]. intros d s acc. cbn [tag_members]. destruct (first_is _ s); [|done].
  destruct (scan_string (tail s)) as [[k r1]|]; [|done]. cbn [of_option then_scan]. cbn zeta. destruct (first_is _ (skip_ws r1)); [|done].
  destruct (tag_value _ _ _) as [v r3| | | | |]; [|done..]. cbn [then_scan orb]. destruct (first_is _ (skip_ws r3)); [apply IH|].
  by destruct (first_is _ (skip_ws r3)).
Qed.

Lemma tag_erase f : (forall d s, tag_value d f s <> TooDeep -> erase (tag_value d f s) = scan_value parse_float strict f s) /\
  (forall d s acc, tag_members d f s acc false <> TooDeep -> erase (tag_members d f s acc false) = scan_members parse_float strict f s acc) /\
  (forall d s, tag_items d f s <> TooDeep -> erase (tag_items d f s) = scan_items parse_float strict f s).
Proof.
  induction f as [|f (IHv & IHm & IHi)]; [done|]. split_and!; intros d s.
  - destruct s as [|c r]; [done|]. rewrite scan_value_S. cbn [tag_value]. destruct (byte_of c =? 34).
    { intros _. rewrite erase_then, erase_of. by destruct (scan_string r) as [[]|]. }
    destruct (byte_of c =? 123).
    { destruct d as [|d]; [done|]. cbn zeta. destruct (first_is _ _); [done|]. intros Hd. rewrite erase_then, IHm; [by destruct (scan_members _ _ _ _ _) as [[]|]|].
      intros Hx. by rewrite Hx in Hd. }
    destruct (byte_of c =? 91).
    { destruct d as [|d]; [done|]. cbn zeta. destruct (first_is _ _); [done|]. intros Hd. rewrite erase_then, IHi; [by destruct (scan_items _ _ _ _) as [[]|]|].
      intros Hx. by rewrite Hx in Hd. }
    intros _. by rewrite !erase_or_of, erase_number.
  - intros acc. rewrite scan_members_S. cbn [tag_members]. destruct (first_is _ s); [|done]. rewrite erase_then, erase_of.
    destruct (scan_string (tail s)) as [[k r1]|]; [|done]. cbn [of_option then_scan]. cbn zeta. destruct (first_is _ (skip_ws r1)); [|done].
    intros Hd. rewrite erase_then. assert (Hv : tag_value d f (skip_ws (tail (skip_ws r1))) <> TooDeep) by (intros Hx; by rewrite Hx in Hd).
    rewrite <- IHv with (d := d) by done. destruct (tag_value _ _ _) as [v r3| | | | |]; [|done..]. cbn [erase then_scan orb] in *.
    destruct (refuses_repeats strict && has_key k acc).
    + destruct (first_is _ (skip_ws r3)); [apply repeated_refused|]. by destruct (first_is _ (skip_ws r3)).
    + destruct (first_is _ (skip_ws r3)); [by apply IHm|]. by destruct (first_is _ (skip_ws r3)).
  - rewrite scan_items_S. cbn [tag_items]. intros Hd. rewrite erase_then. assert (Hv : tag_value d f s <> TooDeep) by (intros Hx; by rewrite Hx in Hd).
    rewrite <- IHv with (d := d) by done. destruct (tag_value _ _ _) as [v r1| | | | |]; [|done..]. cbn [erase then_scan] in *. cbn zeta in *.
    destruct (first_is _ (skip_ws r1)); [|by destruct (first_is _ (skip_ws r1))]. rewrite erase_then, <- IHi with (d := d); [|intros Hx; by rewrite Hx in Hd].
    by destruct (tag_items _ _ _).
Qed.

(** A text has at most as many containers open as it has characters. *)
Lemma deep_enough f : (forall d s, (f <= d)%nat -> tag_value d f s <> TooDeep) /\
  (forall d s acc rep, (f <= d)%nat -> tag_members d f s acc rep <> TooDeep) /\ (forall d s, (f <= d)%nat -> tag_items d f s <> TooDeep).
Proof.
  assert (Hof : forall A (o : option (A * string)), of_option o <> TooDeep) by (by intros A [[]|]).
  assert (Hthen : forall A B (m : scanned A) (k : A -> string -> scanned B),
    m <> TooDeep -> (forall a r, k a r <> TooDeep) -> then_scan m k <> TooDeep) by (intros A B [] k Hm Hk; cbn; [apply Hk|done..]).
  assert (Hor : forall A (m n : scanned A), m <> TooDeep -> n <> TooDeep -> or_scan m n <> TooDeep) by (intros A []; by cbn).
  induction f as [|f (IHv & IHm & IHi)]; [done|]. split_and!; intros d s.
  - intros Hd. destruct d as [|d]; [lia|]. destruct s as [|c r]; [done|]. cbn [tag_value]. cbn zeta. destruct (byte_of c =? 34); [by apply Hthen|].
    destruct (byte_of c =? 123); [destruct (first_is _ _); [done|apply Hthen; [apply IHm; lia|done]]|].
    destruct (byte_of c =? 91); [destruct (first_is _ _); [done|apply Hthen; [apply IHi; lia|done]]|].
    repeat apply Hor; try apply Hof.
    + unfold tag_number. destruct (scan_number _ _) as [[]|]; [done|]. by destruct (first_is _ _).
    + unfold tag_constant. destruct (refuses_constants _); [apply Hthen; [|done]|]; repeat apply Hor; apply Hof.
  - intros acc rep Hd. cbn [tag_members]. destruct (first_is _ s); [|done]. apply Hthen; [apply Hof|]. intros k r1. cbn zeta.
    destruct (first_is _ (skip_ws r1)); [|done]. apply Hthen; [apply IHv; lia|]. intros v r3.
    destruct (first_is _ (skip_ws r3)); [apply IHm; lia|]. destruct (first_is _ (skip_ws r3)); [|done]. by destruct (_ || _).
  - intros Hd. cbn [tag_items]. apply Hthen; [apply IHv; lia|]. intros v r1. cbn zeta.
    destruct (first_is _ (skip_ws r1)); [apply Hthen; [apply IHi; lia|done]|]. by destruct (first_is _ (skip_ws r1)).
Qed.

End scan.

(** ** The call *)

(** How many containers the interpreter can have open when it decodes JSON, given its
    recursion limit and the calls that are active. *)
Class Interpreter := { nesting : nat }.
(** The default limit of a thousand, with a few calls active; for evaluations. *)
Definition usual_interpreter : Interpreter := {| nesting := 990 |}.

(** What [json.loads] gives: a value, a [JSONDecodeError] or [UnicodeDecodeError], or
    an exception that a handler of these two does not catch. *)
Inductive loaded := Loaded (v : pyval) | Malformed | Refused (e : exn).

Section loads.
Context `{Interpreter}.
Variable parse_float : string -> pyfloat.

Definition json_text (text : string) : loaded :=
  match tag_value parse_float NoHooks nesting (S (String.length text)) (skip_ws text) with
  | Scan v r => if String.eqb (skip_ws r) "" then Loaded v else Malformed
  | Syntax | Repeated | Constant => Malformed
  | TooManyDigits => Refused (ValueError "Exceeds the limit for integer string conversion")
  | TooDeep => Refused (RecursionError)
  end.
Definition json_loads (raw : string) : loaded :=
  match decode_json raw with Some text => json_text text | None => Malformed end.

(** A text that is read is what the decoder of [Json] reads. *)
Lemma json_text_loads text v : json_text text = Loaded v -> loads parse_float text = Ok v.
Proof.
  unfold json_text, loads, load_text. intros Hl. rewrite <- (proj1 (tag_erase parse_float NoHooks _)) with (d := nesting).
  - destruct (tag_value _ _ _ _) as [w r| | | | |]; [|done..]. cbn. destruct (skip_ws r); [|done]. by injection Hl as ->.
  - intros Hx. by rewrite Hx in Hl.
Qed.
End loads.

(** ** Integers that are too long

    [json.dumps] writes an integer with [int.__repr__], which raises [ValueError] for
    more digits than [sys.get_int_max_str_digits()]. *)
Definition too_long (z : Z) : bool := (MAX_STR_DIGITS <? String.length (dec_nonneg (Z.abs z)))%nat.
Definition digit_error : string :=
  "Exceeds the limit (4300 digits) for integer string conversion; use sys.set_int_max_str_digits() to increase the limit".
Fixpoint ints_fit (v : pyval) : bool :=
  match v with
  | VInt z => negb (too_long z)
  | VList l => forallb ints_fit l
  | VDict d => forallb (fun kv => ints_fit (snd kv)) d
  | _ => true
  end.

Lemma dec_digits_length f : forall z, (String.length (dec_digits f z) <= f)%nat.
Proof.
  induction f as [|f IH]; intros z; [done|]. cbn [dec_digits]. destruct (z <? 10); [cbn; lia|].
  rewrite length_append. cbn [String.length]. specialize (IH (z / 10)). lia.
Qed.

Lemma json_ints_fit v : json_ok v = true -> ints_fit v = true.
Proof.
  induction v as [| |z| | | |l IH|d IH] using pyval_ind'; cbn [json_ok ints_fit]; try done.
  - unfold in_range, too_long. intros Hz. apply negb_true_iff, Nat.ltb_ge.
    unfold dec_nonneg. etransitivity; [apply dec_digits_length|].
    assert (Z.log2 (Z.abs z) <= Z.log2 (2 ^ 128)) as Hl by (apply Z.log2_le_mono; lia). rewrite Z.log2_pow2 in Hl by done.
    unfold MAX_STR_DIGITS. lia.
  - rewrite !forallb_forall. rewrite Forall_forall in IH. intros Hl x Hx. apply IH; [by apply list_elem_of_In|by apply Hl].
  - intros [_ Hd]%andb_true_iff. revert Hd. rewrite !forallb_forall. rewrite Forall_forall in IH. intros Hl x Hx.
    apply IH; [by apply list_elem_of_In|by apply Hl].
Qed.
