(* ===== verification/AgentRuntime.v ===== *)
(** * agent_probe/firecracker_runtime.py: the host side of the control channel

    The control loop that answers the guest's proposals, the checks on the
    guest's result, and the record the microVM run ends with.  The socket is the
    sequence of lines that arrive before the deadline; launching and tearing
    down the VM is outside, its outcome is the arguments of [microvm_result]. *)

From stdpp Require Import base list strings.
From Stdlib Require Import ZArith Lia.
From S2P Require Import Prelude PyValue Sha256 Json JsonFacts Canonical StrOps.
From S2P Require Import AgentProtocol AgentBroker Ksl Evidence EvidenceFacts JsonLoads.

Local Open Scope Z_scope.

Module AgentRuntime.
Import Canonical Protocol.

Definition runtime_error {A} (msg : string) : res A := Err (AgentProbeRuntimeError msg).

Definition MAX_API_KEY_BYTES : Z := 4096.

(** ** Failure context *)

(** [name.isascii() and name.isidentifier()] *)
Definition ascii_identifier (s : string) : bool :=
  first_is (fun c => is_lower c || is_upper c || ch 95 c) s &&
  str_forall (fun c => is_lower c || is_upper c || is_digit c || ch 95 c) s.

(** [_failure_context]; [errno] is [VNone] unless the exception is an [OSError]. *)
Definition _failure_context (stage exception_name : string) (errno : pyval) : pyval :=
  let name := if ascii_identifier exception_name then exception_name else "OtherError" in
  VDict [("stage", VStr stage); ("exception", VStr (py_take 64 name));
         ("errno", if is_strict_int errno then errno else VNone)].

(** The failure code of an exception, by the name of its class. *)
Definition failure_code_of (exception_name : string) : string :=
  if mem exception_name
       ["AgentProbeRuntimeError"; "FirecrackerRuntimeError"; "TimeoutError"; "OSError"; "ValueError"]
  then exception_name else "UNEXPECTED_RUNTIME_FAILURE".

(** ** The guest's result *)
Definition RESULT_KEYS : list string :=
  ["type"; "protocol_version"; "nonce"; "agent_version"; "job_id"; "road_frozen_hash"; "status_code";
   "task_complete"; "soft_findings"; "proposal_count"; "model_metrics"; "evidence_bundle"].
Definition STATUS_CODES : list string :=
  ["COMPLETE"; "HARD_TRIP"; "DENIED"; "PROVIDER_FAILURE"; "MALFORMED_RESPONSE"; "INCOMPLETE_TASK";
   "BUDGET_EXHAUSTION"; "EVALUATION_INCOMPLETE"; "GUEST_FAILURE"].
Definition METRIC_KEYS : list string :=
  ["requests"; "prompt_tokens"; "completion_tokens"; "latency_ms"; "network_bytes"; "retries";
   "token_reporting_complete"].

(** [value[name] != expected] *)
Definition differs (value : pyval) (name : string) (expected : pyval) : res bool :=
  let* v := sub value name in Ok (negb (py_eq v expected)).

(** [manifest["budgets"][name]], an integer *)
Definition budget (manifest : pyval) (name : string) : res Z :=
  let* b := sub manifest "budgets" in
  let* v := sub b name in
  if is_int v then Ok (int_of v) else Err TypeError.

(** The [bounds] of the metrics, in the order they are computed. *)
Definition metric_bounds (manifest : pyval) : res (list (string * Z)) :=
  let* requests := budget manifest "max_model_requests" in
  let* tokens := budget manifest "max_tokens_total" in
  let* wall := budget manifest "wall_clock_sec" in
  let* network := budget manifest "max_network_bytes" in
  Ok [("requests", requests); ("prompt_tokens", tokens); ("completion_tokens", tokens);
      ("latency_ms", wall * 1000 + 10000); ("network_bytes", network); ("retries", requests * 2)].

(** [for field, maximum in ...: if not 0 <= value[field] <= maximum: raise] *)
Fixpoint check_bounds (what : string) (value : pyval) (bounds : list (string * Z)) : res unit :=
  match bounds with
  | [] => Ok tt
  | (name, maximum) :: r =>
      let* item := sub value name in
      raise (AgentProbeRuntimeError (what +:+ name +:+ " is invalid")) when
        negb (int_in 0 maximum item);;
      check_bounds what value r
  end.

Section runtime.
Context `{Interpreter}.
Variable parse_float : string -> pyfloat.

(** The evidence of a result, bound to this job. *)
Definition check_evidence (value manifest : pyval) (road_frozen_hash : string) : res unit :=
  let* bundle := sub value "evidence_bundle" in
  if is_none bundle then
    let* status := sub value "status_code" in
    raise (AgentProbeRuntimeError "guest omitted evidence for a completed result") when
      notM (in_strs status ["GUEST_FAILURE"; "EVALUATION_INCOMPLETE"]);;
    Ok tt
  else
    let* maximum := budget manifest "max_evidence_bytes" in
    let* _ := Evidence.validate_bundle parse_float bundle maximum in
    let* evidence_manifest := sub bundle "manifest" in
    let* job_id := sub manifest "job_id" in
    let* target := sub manifest "target" in
    let* target_hash := sub target "target_hash" in
    let* j := get evidence_manifest "job_id" in
    let* t := get evidence_manifest "target_hash" in
    let* h := get evidence_manifest "road_frozen_hash" in
    raise (AgentProbeRuntimeError "guest evidence binding failed") when
      (negb (py_eq j job_id) || negb (py_eq t target_hash) || negb (py_eq h (VStr road_frozen_hash)));;
    Ok tt.

Definition _bounded_guest_result (value manifest : pyval) (road_frozen_hash nonce : string) : res pyval :=
  raise (AgentProbeRuntimeError "guest result shape changed") when
    negb (dict_shape value RESULT_KEYS);;
  raise (AgentProbeRuntimeError "guest result binding failed") when
    (differs value "type" (VStr "result") or'
     differs value "protocol_version" (VStr CONTROL_VERSION) or'
     differs value "nonce" (VStr nonce) or'
     differs value "agent_version" (VStr AGENT_VERSION) or'
     (let* job_id := sub manifest "job_id" in differs value "job_id" job_id) or'
     differs value "road_frozen_hash" (VStr road_frozen_hash));;
  let* status := sub value "status_code" in
  raise (AgentProbeRuntimeError "guest status code is unknown") when
    notM (in_strs status STATUS_CODES);;
  let* task_complete := sub value "task_complete" in
  raise (AgentProbeRuntimeError "guest task status is invalid") when negb (is_bool task_complete);;
  let* _ := check_bounds "guest " value [("soft_findings", 1024); ("proposal_count", 64)] in
  let* metrics := sub value "model_metrics" in
  raise (AgentProbeRuntimeError "guest model metrics shape changed") when
    negb (dict_shape metrics METRIC_KEYS);;
  let* reporting := sub metrics "token_reporting_complete" in
  raise (AgentProbeRuntimeError "guest token reporting status is invalid") when negb (is_bool reporting);;
  let* bounds := metric_bounds manifest in
  let* _ := check_bounds "guest metric " metrics bounds in
  let* _ := check_evidence value manifest road_frozen_hash in
  Ok value.

(** ** The control loop *)

(** One turn of the loop: a line was read, and [broken] is what [sendall] of a decision
    raises, if it does; or reading failed. *)
Inductive input :=
  | Line (raw : string) (broken : option exn)
  | ReadFailed (e : exn).

Definition PROPOSAL_FRAME_KEYS : list string :=
  ["type"; "protocol_version"; "nonce"; "sequence"; "action_code"; "arg_class"; "arg_hash"].

(** [not isinstance(frame, dict) or frame.get(...) != ...] *)
Definition unbound_frame (frame : pyval) (nonce : string) : bool :=
  match frame with
  | VDict d =>
      negb (py_eq (default VNone (assoc "protocol_version" d)) (VStr CONTROL_VERSION)) ||
      negb (py_eq (default VNone (assoc "nonce" d)) (VStr nonce))
  | _ => true
  end.
Definition frame_type (frame : pyval) : pyval := default VNone (assoc "type" (dict_of frame)).

Definition proposal_of (frame : pyval) : res pyval :=
  let* sequence := sub frame "sequence" in
  let* action_code := sub frame "action_code" in
  let* arg_class := sub frame "arg_class" in
  let* arg_hash := sub frame "arg_hash" in
  Ok (VDict [("sequence", sequence); ("action_code", action_code); ("arg_class", arg_class);
             ("arg_hash", arg_hash)]).

Definition response (nonce : string) (d : Broker.decision) : pyval :=
  VDict ([("type", VStr "decision"); ("protocol_version", VStr CONTROL_VERSION); ("nonce", VStr nonce)]
         ++ dict_of (Broker.to_dict d)).

(** [line + b"\n"] *)
Definition line (b : string) : string := b +:+ String (ascii_of 10) "".

(** The frame of a line, bound to this run. *)
Definition bound_frame (nonce raw : string) : res pyval :=
  match json_loads parse_float raw with
  | Refused e => Err e
  | Malformed => runtime_error "guest control frame is malformed"
  | Loaded frame => if unbound_frame frame nonce then runtime_error "guest control frame binding failed" else Ok frame
  end.
Definition framed_proposal (frame : pyval) : res pyval :=
  raise (AgentProbeRuntimeError "proposal frame shape changed") when negb (dict_shape frame PROPOSAL_FRAME_KEYS);;
  proposal_of frame.
(** [channel.sendall(canonical_bytes(response) + b"\n")]: the line that is sent. *)
Definition send_decision (nonce : string) (d : Broker.decision) (broken : option exn) : res string :=
  let* bytes := canonical_bytes (response nonce d) in
  match broken with Some e => Err e | None => Ok (line bytes) end.

(** The broker afterwards, the lines sent, and the result. *)
Fixpoint control_loop (manifest : pyval) (road_frozen_hash nonce : string) (b : Broker.broker)
    (inputs : list input) : Broker.broker * list string * res pyval :=
  match inputs with
  | [] => (b, [], runtime_error "agent-probe wall-clock deadline expired")
  | ReadFailed e :: _ => (b, [], Err e)
  | Line raw broken :: rest =>
      match bound_frame nonce raw with
      | Err e => (b, [], Err e)
      | Ok frame =>
          if py_eq (frame_type frame) (VStr "proposal") then
            match framed_proposal frame with
            | Err e => (b, [], Err e)
            | Ok p =>
                match Broker.evaluate b p with
                | (b', Err e) => (b', [], Err e)
                | (b', Ok d) =>
                    match send_decision nonce d broken with
                    | Err e => (b', [], Err e)
                    | Ok sent_line =>
                        let '(b2, sent, r) := control_loop manifest road_frozen_hash nonce b' rest in
                        (b2, sent_line :: sent, r)
                    end
                end
            end
          else if py_eq (frame_type frame) (VStr "result")
          then (b, [], _bounded_guest_result frame manifest road_frozen_hash nonce)
          else (b, [], runtime_error "unexpected guest control frame")
      end
  end.

(** The frame that delivers the credential. *)
Definition run_frame (manifest : pyval) (road_frozen_hash nonce api_key : string) : res pyval :=
  let* job_id := sub manifest "job_id" in
  if Evidence.utf8_ok 0 128 191 api_key && negb (has_surrogate api_key)
  then Ok (VDict [("type", VStr "run"); ("protocol_version", VStr CONTROL_VERSION);
                  ("nonce", VStr nonce); ("job_id", job_id);
                  ("road_frozen_hash", VStr road_frozen_hash); ("api_key", VStr api_key)])
  else runtime_error "credential delivery failed".

Definition zeroed (buffer : string) : string := str_map (fun _ => ascii_of 0) buffer.

(** [_run_control_loop]: the credential buffer, the broker, the lines sent and
    the result.  [delivered] is whether the first [sendall] succeeds. *)
Definition _run_control_loop (manifest : pyval) (road_frozen_hash nonce api_key : string)
    (b : Broker.broker) (delivered : bool) (inputs : list input)
    : string * Broker.broker * list string * res pyval :=
  if negb (in_range 1 MAX_API_KEY_BYTES (Z.of_nat (String.length api_key)))
  then (api_key, b, [], runtime_error "API credential length is invalid")
  else
    match (let* f := run_frame manifest road_frozen_hash nonce api_key in canonical_bytes f) with
    | Err e => (zeroed api_key, b, [], Err e)
    | Ok bytes =>
        if negb delivered then (zeroed api_key, b, [], runtime_error "credential delivery failed")
        else
          let '(b', sent, r) := control_loop manifest road_frozen_hash nonce b inputs in
          (zeroed api_key, b', line bytes :: sent, r)
    end.

(** [_purge_summary], and the two entries added to it *)
Definition purge_summary (processes cgroup network jail worker credential ciphertext : bool) : pyval :=
  VDict [("verified_externally", VBool (processes && cgroup && network && jail && worker));
         ("processes_reaped", VBool processes); ("cgroup_removed", VBool cgroup);
         ("network_namespace_removed", VBool network); ("ram_jail_removed", VBool jail);
         ("egress_worker_reaped", VBool worker); ("credential_revoked", VBool credential);
         ("ciphertext_persisted", VBool ciphertext)].

(** The record [run_agent_probe_microvm] returns, from what the attempt left:
    the guest result, the broker, the telemetry, the five cleanup tests, whether
    egress was revoked, the evidence path, and the failure of the attempt. *)
Definition microvm_result (runtime_job_id : string) (guest_result : pyval)
    (broker : option Broker.broker) (egress_telemetry : pyval)
    (processes cgroup network jail worker revoked : bool) (evidence_path : option string)
    (failure : option (string * string * pyval)) : Ksl.runtime_result :=
  let purge := purge_summary processes cgroup network jail worker
                 (revoked || negb (is_none guest_result))
                 (match evidence_path with Some _ => true | None => false end) in
  let verified := processes && cgroup && network && jail && worker in
  let code := match failure with Some (_, name, _) => failure_code_of name | None => "NONE" end in
  let code := if negb verified && String.eqb code "NONE" then "CLEANUP_UNVERIFIED" else code in
  Ksl.mk_result runtime_job_id guest_result
    (match broker with Some b => Broker.events b | None => [] end)
    egress_telemetry purge evidence_path code
    (match failure with Some (stage, name, errno) => _failure_context stage name errno | None => VNone end).

End runtime.

(** ** Properties *)
Section properties.
Context `{Interpreter}.
Variable parse_float : string -> pyfloat.

(** A turn of the loop: it ends the session, or it takes a proposal, which the broker
    evaluates, and goes on when the decision could be sent. *)
Inductive turn (manifest : pyval) (hash nonce : string) (b : Broker.broker) (raw : string) (broken : option exn) : Prop :=
  | turn_ends r : (forall v, r = Ok v -> exists frame, bound_frame parse_float nonce raw = Ok frame /\ _bounded_guest_result parse_float frame manifest hash nonce = Ok v) ->
      (forall rest, control_loop parse_float manifest hash nonce b (Line raw broken :: rest) = (b, [], r)) ->
      (forall frame p, bound_frame parse_float nonce raw = Ok frame -> py_eq (frame_type frame) (VStr "proposal") = true -> framed_proposal frame = Ok p -> False) ->
      turn manifest hash nonce b raw broken
  | turn_fails frame p b1 d e : bound_frame parse_float nonce raw = Ok frame -> py_eq (frame_type frame) (VStr "proposal") = true ->
      framed_proposal frame = Ok p -> Broker.evaluate b p = (b1, d) -> (let* d := d in send_decision nonce d broken) = Err e ->
      (forall rest, control_loop parse_float manifest hash nonce b (Line raw broken :: rest) = (b1, [], Err e)) ->
      turn manifest hash nonce b raw broken
  | turn_answers frame p b1 d : bound_frame parse_float nonce raw = Ok frame -> py_eq (frame_type frame) (VStr "proposal") = true ->
      framed_proposal frame = Ok p -> Broker.evaluate b p = (b1, Ok d) -> in_domain (response nonce d) = true ->
      (forall rest, control_loop parse_float manifest hash nonce b (Line raw broken :: rest) =
         let '(b2, sent, r) := control_loop parse_float manifest hash nonce b1 rest in (b2, line (encode (response nonce d)) :: sent, r)) ->
      turn manifest hash nonce b raw broken.

Lemma control_turn manifest hash nonce b raw broken : turn manifest hash nonce b raw broken.
Proof.
  destruct (bound_frame parse_float nonce raw) as [frame|e] eqn:Ef; [|apply turn_ends with (r := Err e); [done|intros rest; cbn [control_loop]; by rewrite Ef|intros; congruence]].
  destruct (py_eq (frame_type frame) (VStr "proposal")) eqn:Ep.
  2:{ destruct (py_eq (frame_type frame) (VStr "result")) eqn:Er.
      - apply turn_ends with (r := _bounded_guest_result parse_float frame manifest hash nonce); [eauto|intros rest; cbn [control_loop]; by rewrite Ef, Ep, Er|intros; congruence].
      - eapply turn_ends; [|intros rest; cbn [control_loop]; rewrite Ef, Ep, Er; reflexivity|intros; congruence]. done. }
  destruct (framed_proposal frame) as [p|e] eqn:Eq; [|apply turn_ends with (r := Err e); [done|intros rest; cbn [control_loop]; by rewrite Ef, Ep, Eq|intros; congruence]].
  destruct (Broker.evaluate b p) as [b1 [d|e]] eqn:Ee.
  2:{ eapply turn_fails with (e := e); try done. intros rest. cbn [control_loop]. by rewrite Ef, Ep, Eq, Ee. }
  destruct (send_decision nonce d broken) as [l|e] eqn:Es.
  2:{ eapply turn_fails with (e := e); try done. intros rest. cbn [control_loop]. by rewrite Ef, Ep, Eq, Ee, Es. }
  assert (Hs := Es). unfold send_decision in Hs. run_inv. destruct broken; [done|]. simplify_eq.
  match goal with Hx : canonical_bytes _ = Ok _ |- _ => apply canonical_bytes_ok in Hx as [Hd ->] end.
  eapply turn_answers; try done. intros rest. cbn [control_loop]. by rewrite Ef, Ep, Eq, Ee, Es.
Qed.

(** The proposals among the lines, up to the first line that is none. *)
Fixpoint proposals_in (nonce : string) (inputs : list input) : list pyval :=
  match inputs with
  | Line raw _ :: rest =>
      match bound_frame parse_float nonce raw with
      | Ok frame =>
          if py_eq (frame_type frame) (VStr "proposal")
          then match framed_proposal frame with Ok p => p :: proposals_in nonce rest | Err _ => [] end
          else []
      | Err _ => []
      end
  | _ => []
  end.

(** What the loop does with its proposals [ps]: it answers all of them with the
    decisions of the broker's session, or raises at one, which the broker refused to
    evaluate or whose decision could not be sent. *)
Definition answered (nonce : string) (b b' : Broker.broker) (ps : list pyval) (inputs : list input) (sent : list string) (r : res pyval) : Prop :=
  exists n oks, b' = fst (Broker.session b (take n ps)) /\ sent = map (fun d => line (encode (response nonce d))) oks /\
    (n = length ps /\ snd (Broker.session b ps) = map Ok oks \/
     exists e, r = Err e /\ n = S (length oks) /\
       (snd (Broker.session b (take n ps)) = map Ok oks ++ [Err e] \/
        exists d raw, snd (Broker.session b (take n ps)) = map Ok oks ++ [Ok d] /\ inputs !! length oks = Some (Line raw (Some e)))).

Lemma evaluate_encodable nonce b p b' d : has_surrogate nonce = false -> Broker.evaluate b p = (b', Ok d) -> in_domain (response nonce d) = true.
Proof.
  intros Hn. unfold Broker.evaluate. destruct (Broker.check_proposal p) as [[[[s a] c] h]|]; [|done].
  destruct (Broker.evaluate_locked_verdict b s a c h) as (d0 & b1 & Hv & ->). unfold Broker.finish, Broker._event.
  destruct (sha256_hex _) as [x|] eqn:Ex; [|done]. cbn. intros [= _ <-]. apply sha256_hex_ok in Ex as [Hd _].
  assert (Hs : Broker.d_sequence d0 = s) by by destruct Hv. unfold Broker.event_body in Hd. cbn [in_domain forallb fst snd] in Hd.
  unfold response, Broker.to_dict. cbn [in_domain forallb fst snd app dict_of]. rewrite Hs, Hn.
  repeat (apply andb_true_iff in Hd as [? Hd]). repeat match goal with Hx : _ && _ = true |- _ => apply andb_true_iff in Hx as [_ Hx]; rewrite Hx end. done.
Qed.

Lemma session_cons b p ps : Broker.session b (p :: ps) =
  (fst (Broker.session (fst (Broker.evaluate b p)) ps), snd (Broker.evaluate b p) :: snd (Broker.session (fst (Broker.evaluate b p)) ps)).
Proof. cbn [Broker.session]. destruct (Broker.evaluate b p) as [b1 d]. cbn. by destruct (Broker.session b1 ps). Qed.

Lemma control_loop_answers manifest hash nonce b inputs b' sent r : has_surrogate nonce = false ->
  control_loop parse_float manifest hash nonce b inputs = (b', sent, r) -> answered nonce b b' (proposals_in nonce inputs) inputs sent r.
Proof.
  intros Hn. revert b b' sent r. induction inputs as [|[raw broken|e] inputs IH]; intros b b' sent r Hl;
    [injection Hl as <- <- _; exists 0%nat, []; eauto| |injection Hl as <- <- _; exists 0%nat, []; eauto].
  destruct (control_turn manifest hash nonce b raw broken) as [r0 _ He Hp|frame p b1 d e Hf Ht Hp Ev Es He|frame p b1 d Hf Ht Hp Ev Hd He]; rewrite He in Hl.
  - injection Hl as <- <- _. assert (proposals_in nonce (Line raw broken :: inputs) = []) as ->; [|exists 0%nat, []; eauto].
    cbn [proposals_in]. destruct (bound_frame _ _ _) as [frame|]; [|done]. destruct (py_eq _ _) eqn:E1; [|done].
    destruct (framed_proposal frame) as [p|] eqn:E2; [|done]. by destruct (Hp frame p).
  - injection Hl as <- <- <-. cbn [proposals_in]. rewrite Hf, Ht, Hp. exists 1%nat, []. cbn [take]. rewrite take_0, !session_cons, Ev. cbn [fst snd Broker.session app].
    split; [done|]. split; [done|]. right. exists e. split; [done|]. split; [done|]. destruct d as [d|e']; [|left; by injection Es as ->].
    right. exists d, raw. split; [done|]. cbn [mbind res_bind] in Es. unfold send_decision in Es.
    rewrite (proj2 (canonical_bytes_ok _ _) (conj (evaluate_encodable _ _ _ _ _ Hn Ev) eq_refl)) in Es. cbn in Es. destruct broken; [|done]. by injection Es as ->.
  - destruct (control_loop parse_float manifest hash nonce b1 inputs) as [[b2 sent2] r2] eqn:El. injection Hl as <- <- <-.
    destruct (IH _ _ _ _ El) as (n & oks & -> & -> & Hc). cbn [proposals_in]. rewrite Hf, Ht, Hp.
    exists (S n), (d :: oks). cbn [take map length lookup list_lookup]. rewrite !session_cons, Ev. cbn [fst snd]. split; [done|]. split; [done|].
    destruct Hc as [[-> ->]|(e & -> & -> & Hc)]; [by left|]. right. exists e. split; [done|]. split; [done|].
    destruct Hc as [->|(d' & raw' & -> & Hi)]; [by left|]. right. by exists d', raw'.
Qed.

(** The loop is a session of the broker. *)
Lemma control_loop_session manifest hash nonce b inputs b' sent r :
  control_loop parse_float manifest hash nonce b inputs = (b', sent, r) -> exists ps, fst (Broker.session b ps) = b'.
Proof.
  revert b b' sent r. induction inputs as [|[raw broken|e] inputs IH]; intros b b' sent r Hl;
    [injection Hl as <- _ _; by exists []| |injection Hl as <- _ _; by exists []].
  destruct (control_turn manifest hash nonce b raw broken) as [r0 _ He _|frame p b1 d e _ _ _ Ev _ He|frame p b1 d _ _ _ Ev _ He]; rewrite He in Hl.
  - injection Hl as <- _ _. by exists [].
  - injection Hl as <- _ _. exists [p]. by rewrite session_cons, Ev.
  - destruct (control_loop parse_float manifest hash nonce b1 inputs) as [[b2 sent2] r2] eqn:El. injection Hl as <- _ _.
    destruct (IH _ _ _ _ El) as [ps Hps]. exists (p :: ps). by rewrite session_cons, Ev.
Qed.

(** When the loop returns a result, every decision it took is in the log. *)
Lemma control_loop_accounted manifest hash nonce b inputs b' sent v :
  control_loop parse_float manifest hash nonce b inputs = (b', sent, Ok v) ->
  Broker.accounted b -> Broker.accounted b'.
Proof.
  revert b b' sent. induction inputs as [|[raw broken|e] inputs IH]; intros b b' sent Hl Ha; try done.
  destruct (control_turn manifest hash nonce b raw broken) as [r0 _ He _|frame p b1 d e _ _ _ Ev _ He|frame p b1 d _ _ _ Ev _ He]; rewrite He in Hl; [by simplify_eq|done|].
  destruct (control_loop parse_float manifest hash nonce b1 inputs) as [[b2 sent2] r2] eqn:El. injection Hl as <- _ ->.
  eapply IH; [exact El|]. by eapply Broker.evaluate_accounted.
Qed.

(** What the loop guarantees of a result it returns. *)
Record bound_result (manifest : pyval) (hash nonce : string) (v : pyval) : Prop := {
  br_shape : dict_shape v RESULT_KEYS = true;
  br_nonce : sub v "nonce" = Ok (VStr nonce);
  br_hash : sub v "road_frozen_hash" = Ok (VStr hash);
  br_job : exists j j', sub manifest "job_id" = Ok j /\ sub v "job_id" = Ok j' /\ py_eq j' j = true;
  br_status : exists s, sub v "status_code" = Ok (VStr s) /\ mem s STATUS_CODES = true;
  br_metrics : exists m bounds, sub v "model_metrics" = Ok m /\ metric_bounds manifest = Ok bounds /\
    Forall (fun nb => exists z, sub m (fst nb) = Ok (VInt z) /\ 0 <= z <= snd nb) bounds;
  br_evidence : exists b, sub v "evidence_bundle" = Ok b /\
    (b = VNone \/ exists maximum em h, budget manifest "max_evidence_bytes" = Ok maximum /\
       Evidence.validate_bundle parse_float b maximum = Ok b /\ sub b "manifest" = Ok em /\
       get em "road_frozen_hash" = Ok h /\ h = VStr hash);
}.

Lemma check_bounds_ok what v bounds u :
  check_bounds what v bounds = Ok u ->
  Forall (fun nb => exists z, sub v (fst nb) = Ok (VInt z) /\ 0 <= z <= snd nb) bounds.
Proof.
  induction bounds as [|[name mx] r IH]; [constructor|]. cbn [check_bounds]. intros Hb. run_inv.
  constructor; [|by apply IH]. cbn. match goal with Hx : int_in _ _ ?y = true |- _ => destruct y; try done end.
  unfold int_in, in_range in *. eexists. split; [done|]. lia.
Qed.

Lemma in_strs_str v l : in_strs v l = Ok true -> exists s, v = VStr s /\ mem s l = true.
Proof. destruct v; cbn; try done. intros Hm. run_inv. eauto. Qed.

Lemma validate_bundle_returns b mx b' : Evidence.validate_bundle parse_float b mx = Ok b' -> b' = b.
Proof.
  unfold Evidence.validate_bundle. intros Hb. run_inv.
  repeat match goal with Hx : (let '(_, _) := ?p in _) = Ok _ |- _ => destruct p; run_inv end. done.
Qed.

Lemma bounded_guest_result_ok v manifest hash nonce v' :
  _bounded_guest_result parse_float v manifest hash nonce = Ok v' ->
  v' = v /\ bound_result manifest hash nonce v.
Proof.
  unfold _bounded_guest_result, differs. intros Hb. run_inv.
  repeat match goal with Hx : orM _ _ = Ok false |- _ => apply orM_false in Hx as [? Hx] end. run_inv.
  split; [done|]. rewrite py_eq_str in *. subst.
  match goal with Hx : in_strs _ STATUS_CODES = Ok true |- _ => apply in_strs_str in Hx as (st & -> & Hst) end.
  split; try done; eauto 10.
  - eexists _, _. split; [done|]. split; [done|]. by eapply check_bounds_ok.
  - match goal with Hx : check_evidence _ _ _ _ = Ok _ |- _ => unfold check_evidence in Hx; rename Hx into Hev end.
    run_inv. match goal with Hx : sub _ "evidence_bundle" = Ok ?b |- _ => exists b; split; [done|]; destruct b end;
      cbn [is_none] in Hev; [by left|..]; right; run_inv; rewrite py_eq_str in *; subst;
      match goal with Hx : Evidence.validate_bundle _ _ _ = Ok ?y |- _ =>
        pose proof (validate_bundle_returns _ _ _ Hx); subst y end; eauto 10.
Qed.

Lemma control_loop_result manifest hash nonce b inputs b' sent v :
  control_loop parse_float manifest hash nonce b inputs = (b', sent, Ok v) -> bound_result manifest hash nonce v.
Proof.
  revert b b' sent. induction inputs as [|[raw broken|e] inputs IH]; intros b b' sent Hl; try done.
  destruct (control_turn manifest hash nonce b raw broken) as [r0 Hr He _|frame p b1 d e _ _ _ Ev _ He|frame p b1 d _ _ _ Ev _ He]; rewrite He in Hl; [|done|].
  - injection Hl as _ _ Hl. destruct (Hr v Hl) as (frame & _ & Hb). by apply bounded_guest_result_ok in Hb as [-> Hb].
  - destruct (control_loop parse_float manifest hash nonce b1 inputs) as [[b2 sent2] r2] eqn:El. injection Hl as _ _ ->. by eapply IH.
Qed.

(** C28: The control channel is a session of the broker on the guest's own proposals.
    Whatever lines the guest sends, let its proposals be those of the lines up to the
    first that is not a proposal frame bound to this run.  When the credential frame
    was sent, the lines the host sends after it are the broker's decisions on these
    proposals, in order and nothing else, and the broker ends where their session
    leads; all of them are answered, or the loop raises at the first that the broker
    refuses to evaluate, with the broker's exception, or whose decision cannot be sent,
    with that of [sendall].  Otherwise nothing is sent and the broker is untouched. *)
Theorem control_channel_is_a_session (manifest : pyval) (hash nonce api_key : string)
    (b : Broker.broker) (delivered : bool) (inputs : list input) :
  let '(_, b', sent, r) := _run_control_loop parse_float manifest hash nonce api_key b delivered inputs in
  match sent with
  | [] => b' = b
  | _ :: decisions => answered nonce b b' (proposals_in nonce inputs) inputs decisions r
  end.
Proof.
  unfold _run_control_loop. destruct (in_range 1 _ _); cbn [negb]; [|done].
  destruct (let* _ := run_frame _ _ _ _ in _) as [bytes|] eqn:Ec; [|done]. destruct delivered; cbn [negb]; [|done].
  destruct (control_loop _ _ _ _ _ _) as [[b' sent] r] eqn:El. eapply control_loop_answers; [|exact El].
  unfold run_frame in Ec. run_inv. destruct (_ && _); [|done]. run_inv. simplify_eq.
  match goal with Hx : canonical_bytes _ = Ok _ |- _ => apply canonical_bytes_ok in Hx as [Hd _] end.
  cbn [in_domain forallb fst snd] in Hd. by destruct (has_surrogate nonce); [rewrite ?andb_false_r in Hd|].
Qed.

(** A guest result the host accepts is bound to this run: it carries this
    run's nonce, job id and frozen-road hash, a known status, metrics within the
    contract's budgets, and either no evidence or a bundle that validates within
    the evidence budget and is bound to the same frozen road. *)
Theorem accepted_result_is_bound (manifest : pyval) (hash nonce api_key buffer : string)
    (b b' : Broker.broker) (delivered : bool) (inputs : list input) (sent : list string) (v : pyval) :
  _run_control_loop parse_float manifest hash nonce api_key b delivered inputs = (buffer, b', sent, Ok v) ->
  bound_result manifest hash nonce v /\ buffer = zeroed api_key.
Proof.
  unfold _run_control_loop. destruct (in_range 1 _ _); cbn [negb]; [|done].
  destruct (let* _ := run_frame _ _ _ _ in _) as [bytes|]; [|done].
  destruct delivered; cbn [negb]; [|done].
  destruct (control_loop _ _ _ _ _ _) as [[b2 sent2] r] eqn:El. intros [= <- <- _ ->].
  split; [by eapply control_loop_result|done].
Qed.

Lemma failure_code_not_none name : failure_code_of name <> "NONE".
Proof.
  unfold failure_code_of. destruct (mem name _) eqn:E; [|done]. apply mem_In in E. cbn in E.
  intros ->. by repeat destruct E as [E|E].
Qed.

(** C29: An ALLOW rests on a clean session: when the control loop returned a
    result from a fresh broker and the microVM's record supports ALLOW, the
    broker was never tripped, egress was never revoked, every proposal in the
    log was allowed, the attempt raised nothing and all five cleanup tests
    passed. *)
Theorem allow_means_clean_session (manifest : pyval) (hash nonce api_key buffer job rid : string)
    (calls : Z) (b : Broker.broker) (delivered : bool) (inputs : list input) (sent : list string)
    (v telemetry : pyval) (processes cgroup network jail worker revoked : bool)
    (path : option string) (failure : option (string * string * pyval)) :
  _run_control_loop parse_float manifest hash nonce api_key (Broker.init job calls) delivered inputs
    = (buffer, b, sent, Ok v) ->
  Ksl.allow_evidence (microvm_result rid v (Some b) telemetry processes cgroup network jail worker
    revoked path failure) ->
  Broker.tripped b = false /\ Broker.revocations b = 0%nat /\
  Forall (fun e => Broker.allowed e = true) (Broker.events b) /\ failure = None /\
  processes && cgroup && network && jail && worker = true.
Proof.
  intros Hrun [Hcode _ _ _ _ _ _ _ Hev]. unfold _run_control_loop in Hrun.
  destruct (in_range 1 _ _); cbn [negb] in Hrun; [|done].
  destruct (let* _ := run_frame _ _ _ _ in _) as [bytes|]; [|done].
  destruct delivered; cbn [negb] in Hrun; [|done].
  destruct (control_loop _ _ _ _ _ _) as [[b2 sent2] r] eqn:El. injection Hrun as <- -> _ ->.
  destruct (control_loop_accounted _ _ _ _ _ _ _ _ El (Broker.accounted_init job calls)) as [Hd Ht].
  destruct (control_loop_session _ _ _ _ _ _ _ _ El) as [ps Hps].
  assert (Hinv : Broker.inv b) by (apply (Broker.reachable_inv job calls); by exists ps).
  cbn [microvm_result Ksl.broker_events Ksl.failure_code] in *.
  assert (Hall : Forall (fun e => Broker.allowed e = true) (Broker.events b)).
  { clear -Hev Hd. induction (Broker.events b) as [|e l IH]; [constructor|].
    apply Forall_cons in Hev as [(d & Hd1 & Hd2) Hev], Hd as [(d' & Hd1' & Hd2') Hd]. constructor; [|by apply IH].
    assert (d = VStr d') as -> by congruence. unfold Broker.allowed, Broker.ev_str. rewrite Hd1.
    apply mem_In in Hd2'. cbn in Hd2'. by repeat destruct Hd2' as [<-|Hd2']. }
  assert (Htr : Broker.tripped b = false).
  { destruct (Broker.tripped b); [|done]. destruct (Ht eq_refl) as (e & He & Ha).
    rewrite Forall_forall in Hall. apply list_elem_of_In in He. apply Hall in He. congruence. }
  split; [done|]. split; [by rewrite (Broker.inv_revoked b Hinv), Htr|]. split; [done|].
  destruct failure as [[[stage name] errno]|].
  - exfalso. rewrite (proj2 (String.eqb_neq _ _) (failure_code_not_none name)), andb_false_r in Hcode.
    by apply failure_code_not_none in Hcode.
  - split; [done|]. by destruct (processes && cgroup && network && jail && worker).
Qed.

End properties.

(** ** Witnesses *)
#[local] Existing Instance usual_interpreter.

Definition sample_manifest : pyval :=
  VDict [("job_id", VStr "job-0011223344556677");
         ("target", VDict [("target_hash", VStr Ksl.ZERO_HASH)]);
         ("budgets", VDict [("max_model_requests", VInt 8); ("max_tokens_total", VInt 16000);
            ("wall_clock_sec", VInt 60); ("max_network_bytes", VInt 1024);
            ("max_evidence_bytes", VInt 4096)])].

Definition sample_frame : pyval :=
  VDict [("type", VStr "result"); ("protocol_version", VStr CONTROL_VERSION); ("nonce", VStr "n0");
         ("agent_version", VStr AGENT_VERSION); ("job_id", VStr "job-0011223344556677");
         ("road_frozen_hash", VStr Ksl.ZERO_HASH); ("status_code", VStr "COMPLETE");
         ("task_complete", VBool true); ("soft_findings", VInt 0); ("proposal_count", VInt 1);
         ("model_metrics", VDict [("requests", VInt 1); ("prompt_tokens", VInt 10);
            ("completion_tokens", VInt 5); ("latency_ms", VInt 100); ("network_bytes", VInt 512);
            ("retries", VInt 0); ("token_reporting_complete", VBool true)]);
         ("evidence_bundle", EvidenceFacts.sample_bundle)].

Definition sample_proposal : pyval :=
  VDict [("type", VStr "proposal"); ("protocol_version", VStr CONTROL_VERSION); ("nonce", VStr "n0");
         ("sequence", VInt 0); ("action_code", VStr "read_synthetic_document");
         ("arg_class", VStr "SYNTHETIC_DOC_ID"); ("arg_hash", VStr Ksl.ZERO_HASH)].

Definition sample_outcome : string * Broker.broker * list string * res pyval :=
  _run_control_loop EvidenceFacts.no_float sample_manifest Ksl.ZERO_HASH "n0" "sk-1"
    (Broker.init "job-0011223344556677" 32) true
    [Line (line (encode sample_proposal)) None; Line (line (encode sample_frame)) None].

Definition sample_value : pyval :=
  match sample_outcome with (_, _, _, Ok v) => v | _ => VNone end.
Definition sample_broker : Broker.broker := snd (fst (fst sample_outcome)).

Lemma sample_outcome_ok :
  sample_outcome = (zeroed "sk-1", sample_broker, snd (fst sample_outcome), Ok sample_value).
Proof. vm_compute. reflexivity. Qed.

Lemma accepted_result_is_bound_witness :
  bound_result EvidenceFacts.no_float sample_manifest Ksl.ZERO_HASH "n0" sample_value.
Proof.
  exact (proj1 (accepted_result_is_bound EvidenceFacts.no_float sample_manifest Ksl.ZERO_HASH "n0" "sk-1"
    _ _ _ true _ _ _ sample_outcome_ok)).
Defined.

Definition sample_result : Ksl.runtime_result :=
  microvm_result "mf-web-00000000" sample_value (Some sample_broker) (VDict [("complete", VBool true)])
    true true true true true false None None.

Lemma allow_means_clean_session_witness :
  Broker.tripped sample_broker = false /\
  Forall (fun e => Broker.allowed e = true) (Broker.events sample_broker).
Proof.
  assert (Ha : Ksl.allow_evidence sample_result).
  { split; try (vm_compute; reflexivity); try (eexists; split; vm_compute; reflexivity).
    - do 3 eexists. split_and!; vm_compute; reflexivity.
    - vm_compute. apply Forall_cons. split; [|constructor]. eexists. split; reflexivity. }
  destruct (allow_means_clean_session EvidenceFacts.no_float sample_manifest Ksl.ZERO_HASH "n0" "sk-1"
    (zeroed "sk-1") "job-0011223344556677" "mf-web-00000000" 32 sample_broker true
    [Line (line (encode sample_proposal)) None; Line (line (encode sample_frame)) None]
    (snd (fst sample_outcome)) sample_value (VDict [("complete", VBool true)])
    true true true true true false None None sample_outcome_ok Ha) as (H1 & _ & H3 & _).
  exact (conj H1 H3).
Defined.

End AgentRuntime.
