(* ===== verification/Counter.v ===== *)
(** * collections.Counter

    The counting dict the reducers keep: a missing key counts zero and
    [c[k] += 1] inserts it.  The lemmas say what a sequence of increments leaves
    behind, which is what every reducer's report is read from. *)

From stdpp Require Import base list strings sorting.
From Stdlib Require Import ZArith Lia.
From S2P Require Import Prelude PyValue.

Local Open Scope Z_scope.

Notation counter := (list (string * Z)).

(** [c[k]] *)
Definition count (c : counter) (k : string) : Z := default 0 (assoc k c).

(** [c[k] += 1] *)
Definition incr (k : string) (c : counter) : counter := dict_set k (count c k + 1) c.

(** [sorted(c)] *)
Definition sorted_keys {A} (c : list (string * A)) : list string := sort_strs (keys c).

(** The number of occurrences of [k] in [l]. *)
Definition occurrences (k : string) (l : list string) : Z :=
  Z.of_nat (length (List.filter (String.eqb k) l)).

(** A counter every key of which was incremented. *)
Record counted (c : counter) : Prop := {
  counted_nodup : NoDup (keys c);
  counted_positive : forall k v, assoc k c = Some v -> 0 < v;
}.

Lemma counted_nil : counted [].
Proof. split; [constructor|done]. Qed.

Lemma count_incr k k' c : count (incr k c) k' = count c k' + if String.eqb k' k then 1 else 0.
Proof.
  unfold incr, count at 1. rewrite assoc_dict_set. destruct (String.eqb_spec k' k) as [->|]; [done|].
  change (count c k' = count c k' + 0). lia.
Qed.

Lemma count_nonneg c k : counted c -> 0 <= count c k.
Proof.
  intros H. unfold count. destruct (assoc k c) as [v|] eqn:E; cbn; [|done].
  apply Z.lt_le_incl. by eapply counted_positive.
Qed.

Lemma counted_incr k c : counted c -> counted (incr k c).
Proof.
  intros H. split.
  - unfold incr. rewrite keys_dict_set. destruct (has_key k c) eqn:E; [by apply counted_nodup|].
    apply NoDup_app. split_and!; [by apply counted_nodup| |by apply NoDup_singleton].
    intros x Hx ->%list_elem_of_singleton. apply list_elem_of_In, has_key_In in Hx. congruence.
  - intros k' v. unfold incr. rewrite assoc_dict_set. destruct (String.eqb_spec k' k) as [->|].
    + intros [= <-]. pose proof (count_nonneg c k H). lia.
    + by apply counted_positive.
Qed.

Lemma counted_key c k : counted c -> In k (keys c) <-> 0 < count c k.
Proof.
  intros H. rewrite <- has_key_In. unfold has_key, count.
  destruct (assoc k c) as [v|] eqn:E; cbn; [|split; [done|lia]].
  split; [|done]. intros _. by eapply counted_positive.
Qed.

Lemma sorted_keys_In {A} (c : list (string * A)) k : In k (sorted_keys c) <-> In k (keys c).
Proof. unfold sorted_keys. by rewrite <- !list_elem_of_In, sort_strs_perm. Qed.

Lemma sorted_keys_NoDup c : counted c -> NoDup (sorted_keys c).
Proof. intros H. unfold sorted_keys. rewrite sort_strs_perm. by apply counted_nodup. Qed.

Lemma sorted_keys_length {A} (c : list (string * A)) : length (sorted_keys c) = length c.
Proof.
  unfold sorted_keys. rewrite (Permutation_length (sort_strs_perm _)). unfold keys. apply length_map.
Qed.

(** A counter holds nothing exactly when every count is zero. *)
Lemma counted_empty c : counted c -> (c = [] <-> forall k, count c k = 0).
Proof.
  intros H. split; [by intros ->|]. destruct c as [|[k v] c]; [done|]. intros Hz. exfalso.
  assert (In k (keys ((k, v) :: c))) as Hk by (left; done).
  apply (counted_key _ _ H) in Hk. rewrite Hz in Hk. lia.
Qed.

(** Incrementing once per element of a list counts its occurrences. *)
Lemma count_foldl_incr l c k :
  count (foldl (fun c x => incr x c) c l) k = count c k + occurrences k l.
Proof.
  unfold occurrences. revert c. induction l as [|x l IH]; intros c; cbn [foldl List.filter].
  - cbn [length]. lia.
  - rewrite IH, count_incr. destruct (String.eqb k x); cbn [length]; lia.
Qed.

Lemma counted_foldl_incr l c : counted c -> counted (foldl (fun c x => incr x c) c l).
Proof. revert c. induction l as [|x l IH]; intros c H; cbn; [done|]. by apply IH, counted_incr. Qed.

Lemma occurrences_app k l1 l2 : occurrences k (l1 ++ l2) = occurrences k l1 + occurrences k l2.
Proof. unfold occurrences. rewrite List.filter_app, length_app. lia. Qed.

Lemma occurrences_pos k l : 0 < occurrences k l <-> In k l.
Proof.
  unfold occurrences. induction l as [|x l IH]; cbn; [lia|].
  destruct (String.eqb_spec k x) as [->|]; cbn; [split; [by left|lia]|].
  rewrite IH. naive_solver.
Qed.

Lemma occurrences_nonneg k l : 0 <= occurrences k l.
Proof. unfold occurrences. lia. Qed.

Create HintDb counter discriminated.
#[export] Hint Resolve counted_nil counted_incr counted_foldl_incr sorted_keys_NoDup : counter.

(** ** Results that list what was counted *)
Lemma map_res_map {A B} (f : A -> res B) (g : A -> B) l :
  (forall x, In x l -> f x = Ok (g x)) -> map_res f l = Ok (map g l).
Proof.
  induction l as [|x l IH]; intros H; cbn [map_res map]; [done|].
  rewrite H by (by left). cbn [mbind res_bind]. rewrite IH; [done|]. intros y Hy. apply H. by right.
Qed.

Lemma ok_str_eq s t : Ok (VStr s) = Ok (VStr t) <-> s = t.
Proof. split; congruence. Qed.

Lemma map_nil_iff {A B} (f : A -> B) l : map f l = [] <-> l = [].
Proof. by destruct l. Qed.

