(* ===== verification/Detectors.v ===== *)
(** * Telemetry detectors: observer/detectors.py

    The fixed rule table, the telemetry event schema, the path and byte-pattern
    classifiers, and the [DetectorEngine] that reduces one detonation's events to
    counts.  The engine is a state passed along: every method returns the state
    after it together with what it returned or raised, because a method that
    raises may already have changed the state.  [time.monotonic_ns()] is an
    argument of the calls that read it, a natural number as the clock is. *)

From stdpp Require Import base list strings sorting.
From Stdlib Require Import ZArith Lia.
From S2P Require Import Prelude PyValue Sha256 StrOps Counter.

Local Open Scope Z_scope.

Module Detectors.

Definition TELEMETRY_KEYS : list string :=
  ["ts_mono_ns"; "tap"; "rule_id"; "subject"; "action"; "verdict_hint"].
Definition TAPS : list string := ["fs"; "proc"; "dns"; "net"; "cred"; "syscall"].
Definition ACTIONS : list string := ["read"; "write"; "exec"; "connect"; "resolve"; "fork"; "exit"].
Definition VERDICT_HINTS : list string := ["known_bad"; "anomalous"; "baseline"].

(** rule id, (tap category, severity, verdict hint) *)
Definition RULES : list (string * (string * string * string)) :=
  [("cred_harvest_pattern", ("cred_access", "CRITICAL", "known_bad"));
   ("sandbox_probing", ("syscall_class", "HIGH", "anomalous"));
   ("network_exfil_attempt", ("network_flows", "CRITICAL", "known_bad"));
   ("exec_spawn_chain", ("process_tree", "HIGH", "anomalous"));
   ("fs_suspicious_write", ("filesystem", "WATCH", "anomalous"));
   ("timing_evasion", ("syscall_class", "WATCH", "anomalous"));
   ("dns_tunnel_probe", ("dns", "HIGH", "anomalous"));
   ("codex_manipulation", ("syscall_class", "CRITICAL", "known_bad"));
   ("tool_poisoning", ("syscall_class", "HIGH", "anomalous"));
   ("namespace_escape_attempt", ("syscall_class", "CRITICAL", "known_bad"));
   ("malformed_report", ("syscall_class", "HIGH", "known_bad"));
   ("telemetry_loss", ("syscall_class", "CRITICAL", "known_bad"));
   ("budget_exhausted", ("resource_use", "HIGH", "anomalous"));
   ("broker_failure", ("syscall_class", "CRITICAL", "known_bad"));
   ("firecracker_runtime_failure", ("syscall_class", "CRITICAL", "known_bad"));
   ("isolation_admission_failure", ("syscall_class", "CRITICAL", "known_bad"));
   ("payload_observation_incomplete", ("syscall_class", "CRITICAL", "anomalous"));
   ("purge_failure", ("syscall_class", "CRITICAL", "known_bad"));
   ("web_active_interaction_attempt", ("syscall_class", "CRITICAL", "known_bad"));
   ("web_blocked_egress_attempt", ("network_flows", "HIGH", "anomalous"));
   ("web_browser_execution_failed", ("syscall_class", "CRITICAL", "known_bad"));
   ("web_browser_lifecycle_incomplete", ("syscall_class", "CRITICAL", "known_bad"));
   ("web_browser_sandbox_inactive", ("syscall_class", "CRITICAL", "known_bad"));
   ("web_browser_sandbox_unknown", ("syscall_class", "CRITICAL", "known_bad"));
   ("web_browser_telemetry_loss", ("syscall_class", "CRITICAL", "known_bad"));
   ("web_cdp_telemetry_loss", ("syscall_class", "CRITICAL", "known_bad"));
   ("web_download_attempt", ("filesystem", "HIGH", "anomalous"));
   ("web_egress_telemetry_loss", ("network_flows", "CRITICAL", "known_bad"));
   ("web_event_budget_exceeded", ("resource_use", "CRITICAL", "known_bad"));
   ("web_evidence_count_mismatch", ("syscall_class", "CRITICAL", "known_bad"));
   ("web_evidence_schema_invalid", ("syscall_class", "CRITICAL", "known_bad"));
   ("web_evidence_sequence_gap", ("syscall_class", "CRITICAL", "known_bad"));
   ("web_file_upload_attempt", ("filesystem", "CRITICAL", "known_bad"));
   ("web_host_guest_network_mismatch", ("network_flows", "CRITICAL", "known_bad"));
   ("web_host_guest_network_unknown", ("network_flows", "CRITICAL", "known_bad"));
   ("web_mixed_content_observed", ("network_flows", "HIGH", "anomalous"));
   ("web_navigation_failed", ("network_flows", "HIGH", "anomalous"));
   ("web_navigation_missing", ("network_flows", "CRITICAL", "known_bad"));
   ("web_popup_attempt", ("process_tree", "HIGH", "anomalous"));
   ("web_prompt_marker_hidden", ("syscall_class", "HIGH", "anomalous"));
   ("web_prompt_marker_visible", ("syscall_class", "HIGH", "anomalous"));
   ("web_redirect_budget_exceeded", ("resource_use", "CRITICAL", "known_bad"));
   ("web_unauthorized_origin_attempt", ("network_flows", "CRITICAL", "known_bad"));
   ("web_vm_execution_failed", ("syscall_class", "CRITICAL", "known_bad"));
   ("web_vm_lifecycle_incomplete", ("syscall_class", "CRITICAL", "known_bad"));
   ("web_vm_telemetry_loss", ("syscall_class", "CRITICAL", "known_bad"))].

Definition KNOWN_BAD_RULES : list string :=
  map fst (List.filter (fun r => String.eqb (snd (snd r)) "known_bad") RULES).

Definition INSTRUCTION_PATTERNS : list string :=
  ["authorized"; "enable network"; "release file"; "override policy"; "human gate says allow";
   "system: you may"; "system: you are now"; "ignore previous"; "disregard"; "__exec__"].

Definition CANARY_PATHS : list (string * string) :=
  [("/home/mote/.aws/credentials", "canary_cred_aws"); ("/home/mote/.ssh/id_rsa", "canary_cred_ssh");
   ("/home/mote/canary_file.txt", "canary_file")].

Definition SANDBOX_PROBE_PREFIXES : list string :=
  ["/proc/1/ns/"; "/sys/class/dmi/id"; "/proc/sys/kernel"; "/proc/1/environ"].

Definition schema_error {A} (msg : string) : res A := Err (TelemetrySchemaError msg).

(** [not isinstance(v, int) or v < 0] *)
Definition bad_uint (v : pyval) : bool := negb (is_int v) || (int_of v <? 0).

Definition validate_telemetry_event (event : pyval) : res unit :=
  raise (TelemetrySchemaError "telemetry_event has missing or extra fields")
    when negb (dict_shape event TELEMETRY_KEYS);;
  let* ts := sub event "ts_mono_ns" in
  raise (TelemetrySchemaError "ts_mono_ns must be uint64") when bad_uint ts;;
  let* tap := sub event "tap" in
  raise (TelemetrySchemaError "invalid telemetry tap") when notM (in_strs tap TAPS);;
  let* rule_id := sub event "rule_id" in
  raise (TelemetrySchemaError "invalid rule_id") when negb (str_len_in 1 128 rule_id);;
  let* subject := sub event "subject" in
  raise (TelemetrySchemaError "invalid subject") when negb (str_len_in 0 512 subject);;
  let* action := sub event "action" in
  raise (TelemetrySchemaError "invalid action") when notM (in_strs action ACTIONS);;
  let* verdict_hint := sub event "verdict_hint" in
  raise (TelemetrySchemaError "invalid verdict_hint") when notM (in_strs verdict_hint VERDICT_HINTS);;
  Ok tt.

Definition event_dict (ts : N) (tap rule_id subject action verdict_hint : string) : pyval :=
  VDict [("ts_mono_ns", VInt (Z.of_N ts)); ("tap", VStr tap); ("rule_id", VStr rule_id);
         ("subject", VStr (py_take 512 subject)); ("action", VStr action);
         ("verdict_hint", VStr verdict_hint)].

Definition make_event (ts : N) (tap rule_id subject action verdict_hint : string) : res pyval :=
  let event := event_dict ts tap rule_id subject action verdict_hint in
  let* _ := validate_telemetry_event event in
  Ok event.

(** [s.encode("utf-8", "surrogateescape")]: U+DC80..U+DCFF stand for the bytes
    they escape, any other surrogate raises. *)
Fixpoint surrogateescape (s : string) : res string :=
  match s with
  | EmptyString => Ok ""
  | String a (String b (String c r) as t) =>
      if (byte_of a =? 237) && in_range 160 191 (byte_of b) then
        if in_range 178 179 (byte_of b) then
          let* rest := surrogateescape r in
          Ok (String (ascii_of ((byte_of b - 178) * 64 + byte_of c)) rest)
        else Err (ValueError "surrogates not allowed")
      else let* rest := surrogateescape t in Ok (String a rest)
  | String a r => let* rest := surrogateescape r in Ok (String a rest)
  end.

Definition bounded_subject (value : string) (known : list string) : res string :=
  if mem value known then Ok value
  else let* raw := surrogateescape value in Ok ("sha256:" +:+ hexdigest raw).

(** ** [PurePosixPath] *)

(** The components [PurePosixPath] keeps: neither empty nor ["."]. *)
Definition parts (s : string) : list string :=
  List.filter (fun p => negb (String.eqb p "") && negb (String.eqb p ".")) (split 47 s).

(** [str(PurePosixPath(path))] of an absolute path; POSIX gives exactly two
    leading slashes a meaning of their own, so they are kept. *)
Definition posix_str (path : string) : string :=
  let root := if startswith "//" path && negb (startswith "///" path) then "//" else "/" in
  root +:+ String.concat "/" (parts path).

(** [PurePosixPath(s).name] *)
Definition posix_name (s : string) : string := List.last (parts s) "".

Definition normalized_path (path : string) : string :=
  if startswith "/" path then posix_str path else path.

Definition probes_sandbox (normalized : string) : bool :=
  existsb (fun p => startswith p normalized) SANDBOX_PROBE_PREFIXES.

Definition hidden_write (normalized : string) (flags : Z) : bool :=
  negb (Z.land flags 64 =? 0) &&
  (startswith "/tmp/.cache" normalized || startswith "/dev/shm" normalized
   || startswith "." (posix_name normalized)).

(** The label of a touched canary. *)
Definition canary_label (normalized : string) : option string :=
  match assoc normalized CANARY_PATHS with
  | Some label => Some label
  | None =>
      if contains "canary_cred_" normalized || startswith "/tmp/canary_" normalized
      then Some "canary_dynamic" else None
  end.

(** The three clock readings are those of the three [make_event] calls. *)
Definition classify_path (t1 t2 t3 : N) (path : string) (flags : Z)
    : res (list pyval * option string) :=
  let normalized := normalized_path path in
  let canary := canary_label normalized in
  let* first :=
    match canary with
    | Some label =>
        let* e := make_event t1 "cred" "cred_harvest_pattern" label "read" "known_bad" in Ok [e]
    | None => Ok []
    end in
  let* second :=
    if probes_sandbox normalized then
      let* subject := bounded_subject normalized SANDBOX_PROBE_PREFIXES in
      let* e := make_event t2 "syscall" "sandbox_probing" subject "read" "anomalous" in Ok [e]
    else Ok [] in
  let* third :=
    if hidden_write normalized flags then
      let* subject := bounded_subject normalized [] in
      let* e := make_event t3 "fs" "fs_suspicious_write" subject "write" "anomalous" in Ok [e]
    else Ok [] in
  Ok (first ++ second ++ third, canary).

Definition scan_instruction_patterns (raw : string) : bool :=
  existsb (fun pattern => contains pattern (ascii_lower raw)) INSTRUCTION_PATTERNS.

(** [s.encode("utf-8", "replace")]: a surrogate becomes [?]. *)
Fixpoint encode_replace (s : string) : string :=
  match s with
  | EmptyString => ""
  | String a (String b (String c r) as t) =>
      if (byte_of a =? 237) && in_range 160 191 (byte_of b) then String (ascii_of 63) (encode_replace r)
      else String a (encode_replace t)
  | String a r => String a (encode_replace r)
  end.

Definition scan_tool_description (description : string) : bool :=
  scan_instruction_patterns (encode_replace description).

(** ** The engine *)
Record DetectorEngine := {
  max_events : Z;
  events : list pyval;
  finding_counts : counter;
  tap_counts : counter;
  canaries : list (string * pyfloat);
  destinations : list (string * string);
  telemetry_incomplete : bool;
  start_ns : N;
}.

(** [DetectorEngine(max_events=m)] *)
Definition new_engine (m : Z) (start : N) : DetectorEngine :=
  {| max_events := m; events := []; finding_counts := []; tap_counts := []; canaries := [];
     destinations := []; telemetry_incomplete := false; start_ns := start |}.

Definition set_incomplete (e : DetectorEngine) : DetectorEngine :=
  {| max_events := max_events e; events := events e; finding_counts := finding_counts e;
     tap_counts := tap_counts e; canaries := canaries e; destinations := destinations e;
     telemetry_incomplete := true; start_ns := start_ns e |}.

(** The string under a key of a validated event. *)
Definition ev (k : string) (event : pyval) : string :=
  match sub event k with Ok v => str_of v | Err _ => "" end.

(** [event["rule_id"] in RULES and event["verdict_hint"] != "baseline"] *)
Definition is_finding (event : pyval) : bool :=
  has_key (ev "rule_id" event) RULES && negb (String.eqb (ev "verdict_hint" event) "baseline").

Definition _record_valid (e : DetectorEngine) (event : pyval) : DetectorEngine :=
  let room := Z.of_nat (length (events e)) <? max_events e in
  {| max_events := max_events e;
     events := if room then events e ++ [event] else events e;
     finding_counts :=
       if is_finding event then incr (ev "rule_id" event) (finding_counts e) else finding_counts e;
     tap_counts := incr (ev "tap" event) (tap_counts e);
     canaries := canaries e; destinations := destinations e;
     telemetry_incomplete := telemetry_incomplete e || negb room;
     start_ns := start_ns e |}.

Definition record (now : N) (e : DetectorEngine) (event : pyval) : DetectorEngine * res unit :=
  match validate_telemetry_event event with
  | Ok _ => (_record_valid e event, Ok tt)
  | Err (TelemetrySchemaError _) =>
      let e' := set_incomplete e in
      match make_event now "syscall" "malformed_report" "invalid_telemetry_event" "write" "known_bad" with
      | Ok replacement => (_record_valid e' replacement, Ok tt)
      | Err x => (e', Err x)
      end
  | Err x => (e, Err x)
  end.

(** The binary64 value nearest to [n / d], ties to even, for [0 <= n / d] far
    below overflow: the quotient rounded to 53 significant bits. *)
Definition round53 (n : Z) (d : positive) : pyfloat :=
  if n =? 0 then FFin 0 1 else
  let e0 := Z.log2 n - Z.log2 (Zpos d) - 52 in
  let scaled e := if 0 <=? e then (n, Zpos d * 2 ^ e) else (n * 2 ^ (- e), Zpos d) in
  let e := let '(a, b) := scaled e0 in if a / b <? 2 ^ 52 then e0 - 1 else e0 in
  let '(a, b) := scaled e in
  let q := a / b in
  let r := a mod b in
  let m := if (b <? 2 * r) || ((b =? 2 * r) && Z.odd q) then q + 1 else q in
  if 0 <=? e then FFin (m * 2 ^ e) 1 else FFin m (Z.to_pos (2 ^ (- e))).

(** [(now - start) / 1e9] *)
Definition elapsed_seconds (now start : N) : pyfloat :=
  let d := Z.of_N now - Z.of_N start in
  match round53 (Z.abs d) 1 with
  | FFin n p =>
      match round53 n (p * 1000000000) with
      | FFin m q => FFin (Z.sgn d * m) q
      | f => f
      end
  | f => f
  end.

Definition trip_canary (now : N) (e : DetectorEngine) (name : string) : DetectorEngine :=
  {| max_events := max_events e; events := events e; finding_counts := finding_counts e;
     tap_counts := tap_counts e;
     canaries := if has_key name (canaries e) then canaries e
                 else canaries e ++ [(name, elapsed_seconds now (start_ns e))];
     destinations := destinations e; telemetry_incomplete := telemetry_incomplete e;
     start_ns := start_ns e |}.

Definition DISPOSITIONS : list string := ["sinkholed"; "blocked-by-seccomp"; "recorded+denied"].

Definition add_destination (e : DetectorEngine) (destination disposition : string)
    : DetectorEngine * res unit :=
  if negb (mem disposition DISPOSITIONS) then (e, Err (ValueError "invalid destination disposition"))
  else
    match (if py_len destination <=? 128 then Ok destination else bounded_subject destination []) with
    | Ok safe =>
        ({| max_events := max_events e; events := events e; finding_counts := finding_counts e;
            tap_counts := tap_counts e; canaries := canaries e;
            destinations := dict_set safe disposition (destinations e);
            telemetry_incomplete := telemetry_incomplete e; start_ns := start_ns e |}, Ok tt)
    | Err x => (e, Err x)
    end.

Definition mark_telemetry_loss (now : N) (e : DetectorEngine) : DetectorEngine * res unit :=
  let e' := set_incomplete e in
  match make_event now "syscall" "telemetry_loss" "host_tap_incomplete" "exit" "known_bad" with
  | Ok event => record now e' event
  | Err x => (e', Err x)
  end.

Definition evidence_item (c : counter) (rule_id : string) : res pyval :=
  match assoc rule_id RULES with
  | Some (tap_category, _, _) =>
      Ok (VDict [("tap_category", VStr tap_category); ("rule_id", VStr rule_id);
                 ("count", VInt (count c rule_id))])
  | None => Err KeyError
  end.

Definition evidence (e : DetectorEngine) : res (list pyval) :=
  map_res (evidence_item (finding_counts e)) (sorted_keys (finding_counts e)).

Definition finding_item (c : counter) (rule_id : string) : res pyval :=
  match assoc rule_id RULES with
  | Some (_, severity, _) =>
      Ok (VDict [("rule_id", VStr rule_id); ("count", VInt (count c rule_id));
                 ("severity", VStr severity)])
  | None => Err KeyError
  end.

Definition findings (e : DetectorEngine) : res (list pyval) :=
  map_res (finding_item (finding_counts e)) (sorted_keys (finding_counts e)).

(** ** What the engine is for: an abstract account of one detonation *)

Inductive op :=
  | Record (now : N) (event : pyval)
  | TripCanary (now : N) (name : string)
  | AddDestination (destination disposition : string)
  | MarkTelemetryLoss (now : N).

Definition step (e : DetectorEngine) (o : op) : DetectorEngine * res unit :=
  match o with
  | Record now event => record now e event
  | TripCanary now name => (trip_canary now e name, Ok tt)
  | AddDestination destination disposition => add_destination e destination disposition
  | MarkTelemetryLoss now => mark_telemetry_loss now e
  end.

(** A detonation's calls in order; one that raises leaves its state behind. *)
Definition run (e : DetectorEngine) (ops : list op) : DetectorEngine :=
  foldl (fun e o => fst (step e o)) e ops.

Definition malformed (now : N) : pyval :=
  event_dict now "syscall" "malformed_report" "invalid_telemetry_event" "write" "known_bad".
Definition loss (now : N) : pyval :=
  event_dict now "syscall" "telemetry_loss" "host_tap_incomplete" "exit" "known_bad".

(** The events a call stands for: a malformed event counts as a report of it. *)
Definition seen (o : op) : list pyval :=
  match o with
  | Record now event =>
      match validate_telemetry_event event with
      | Ok _ => [event]
      | Err (TelemetrySchemaError _) => [malformed now]
      | Err _ => []
      end
  | MarkTelemetryLoss now => [loss now]
  | _ => []
  end.

(** The calls that alone make the telemetry incomplete. *)
Definition flagged (o : op) : bool :=
  match o with
  | Record _ event =>
      match validate_telemetry_event event with Err (TelemetrySchemaError _) => true | _ => false end
  | MarkTelemetryLoss _ => true
  | _ => false
  end.

Definition finding_rules (l : list pyval) : list string :=
  map (ev "rule_id") (List.filter is_finding l).

Record tracks (e : DetectorEngine) (l : list pyval) (flag : bool) : Prop := {
  tracks_events : events e = take (Z.to_nat (max_events e)) l;
  tracks_findings : forall r, count (finding_counts e) r = occurrences r (finding_rules l);
  tracks_taps : forall t, count (tap_counts e) t = occurrences t (map (ev "tap") l);
  tracks_flag : telemetry_incomplete e = flag || (Z.max 0 (max_events e) <? Z.of_nat (length l));
  tracks_counted : counted (finding_counts e);
}.

Lemma tracks_new m start : tracks (new_engine m start) [] false.
Proof.
  split; cbn; try done; [by rewrite take_nil| |apply counted_nil].
  symmetry. apply Z.ltb_ge. lia.
Qed.

Lemma tracks_set_incomplete e l flag : tracks e l flag -> tracks (set_incomplete e) l true.
Proof. by intros []. Qed.

Lemma finding_rules_snoc l x :
  finding_rules (l ++ [x]) = finding_rules l ++ if is_finding x then [ev "rule_id" x] else [].
Proof. unfold finding_rules. rewrite List.filter_app, map_app. cbn. by destruct (is_finding x). Qed.

Lemma tracks_record_valid e l flag x : tracks e l flag -> tracks (_record_valid e x) (l ++ [x]) flag.
Proof.
  intros [He Hf Ht Hi Hc].
  assert (Hlen : length (events e) = (Z.to_nat (max_events e) `min` length l)%nat) by (by rewrite He, length_take).
  split; cbn [_record_valid events max_events finding_counts tap_counts telemetry_incomplete].
  - destruct (Z.ltb_spec (Z.of_nat (length (events e))) (max_events e)).
    + rewrite He, take_ge, take_ge; [done|rewrite length_app; cbn; lia|lia].
    + rewrite He, take_app_le; [done|lia].
  - intros r. rewrite finding_rules_snoc, occurrences_app, <- Hf. destruct (is_finding x).
    + rewrite count_incr. f_equal. unfold occurrences. cbn [List.filter]. by destruct (String.eqb r _).
    + change (occurrences r []) with 0. lia.
  - intros t. rewrite map_app, occurrences_app, count_incr, Ht. f_equal. unfold occurrences.
    cbn [map List.filter]. by destruct (String.eqb t _).
  - rewrite Hi, <- orb_assoc, length_app. f_equal. cbn [length].
    destruct (Z.ltb_spec (Z.of_nat (length (events e))) (max_events e)),
      (Z.ltb_spec (Z.max 0 (max_events e)) (Z.of_nat (length l))),
      (Z.ltb_spec (Z.max 0 (max_events e)) (Z.of_nat (length l + 1))); cbn; try done; lia.
  - destruct (is_finding x); auto with counter.
Qed.

Lemma make_event_fixed now tap rule_id subject action hint :
  mem tap TAPS = true -> in_range 1 128 (py_len rule_id) = true -> mem action ACTIONS = true ->
  in_range 0 512 (py_len (py_take 512 subject)) = true ->
  mem hint VERDICT_HINTS = true ->
  make_event now tap rule_id subject action hint = Ok (event_dict now tap rule_id subject action hint).
Proof.
  intros H1 H2 H3 H4 H5. unfold make_event, validate_telemetry_event, event_dict.
  set (t := py_take 512 subject) in *. dict_eval.
  unfold bad_uint, in_strs, str_len_in, okb. cbn [is_int int_of negb orb].
  rewrite H1, H2, H3, H4, H5. destruct (Z.ltb_spec (Z.of_N now) 0); [lia|]. done.
Qed.

Lemma make_malformed now :
  make_event now "syscall" "malformed_report" "invalid_telemetry_event" "write" "known_bad" = Ok (malformed now).
Proof. by apply make_event_fixed. Qed.

Lemma make_loss now :
  make_event now "syscall" "telemetry_loss" "host_tap_incomplete" "exit" "known_bad" = Ok (loss now).
Proof. by apply make_event_fixed. Qed.

Lemma make_event_valid now tap rule_id subject action hint x :
  make_event now tap rule_id subject action hint = Ok x -> validate_telemetry_event x = Ok tt.
Proof. unfold make_event. intros H. run_inv. subst. by destruct x0. Qed.

Lemma tracks_same e e' l flag :
  max_events e' = max_events e -> events e' = events e -> finding_counts e' = finding_counts e ->
  tap_counts e' = tap_counts e -> telemetry_incomplete e' = telemetry_incomplete e ->
  tracks e l flag -> tracks e' l flag.
Proof. intros H1 H2 H3 H4 H5 []. by split; rewrite ?H1, ?H2, ?H3, ?H4, ?H5. Qed.

Lemma tracks_step e l flag o :
  tracks e l flag -> tracks (fst (step e o)) (l ++ seen o) (flag || flagged o).
Proof.
  intros H. destruct o as [now event|now name|dst disp|now]; cbn [step seen flagged].
  - unfold record. destruct (validate_telemetry_event event) as [|[]];
      rewrite ?orb_false_r, ?orb_true_r, ?app_nil_r; try done; [by apply tracks_record_valid|].
    rewrite make_malformed. by eapply tracks_record_valid, tracks_set_incomplete.
  - rewrite orb_false_r, app_nil_r. by eapply tracks_same; [..|done].
  - rewrite orb_false_r, app_nil_r. unfold add_destination.
    destruct (negb _); [done|]. destruct (if _ <=? _ then _ else _); [|done].
    by eapply tracks_same; [..|done].
  - rewrite orb_true_r. unfold mark_telemetry_loss, record.
    rewrite make_loss, (make_event_valid _ _ _ _ _ _ _ (make_loss now)).
    by eapply tracks_record_valid, tracks_set_incomplete.
Qed.

Lemma tracks_run ops e l flag :
  tracks e l flag -> tracks (run e ops) (l ++ concat (map seen ops)) (flag || existsb flagged ops).
Proof.
  unfold run. revert e l flag. induction ops as [|o ops IH]; intros e l flag H; cbn.
  - by rewrite app_nil_r, orb_false_r.
  - rewrite app_assoc, orb_assoc. by apply IH, tracks_step.
Qed.

Lemma max_events_run ops e : max_events (run e ops) = max_events e.
Proof.
  unfold run. revert e. induction ops as [|o ops IH]; intros e; cbn; [done|]. rewrite IH.
  destruct o; cbn [step]; unfold record, add_destination, mark_telemetry_loss, record;
    repeat case_match; reflexivity.
Qed.

(** What makes [validate_telemetry_event] raise anything but its own error: a list or a
    dictionary where it looks a value up in a set. *)
Definition unhashable_event (event : pyval) : Prop :=
  exists k v, In k ["tap"; "action"; "verdict_hint"] /\ sub event k = Ok v /\ hashable v = false.

Lemma in_strs_raises v l x : in_strs v l = Err x -> hashable v = false.
Proof. by destruct v. Qed.

Lemma validate_raises event x :
  validate_telemetry_event event = Err x -> (exists s, x = TelemetrySchemaError s) \/ unhashable_event event.
Proof.
  unfold validate_telemetry_event, unhashable_event.
  destruct (dict_shape event TELEMETRY_KEYS) eqn:E; cbn [negb okb raise_if]; [|intros [= <-]; eauto].
  pose proof (fun k Hk => dict_shape_sub event TELEMETRY_KEYS k E Hk) as Hs.
  destruct (Hs "ts_mono_ns") as [ts H1], (Hs "tap") as [tap H2], (Hs "rule_id") as [rule H3], (Hs "subject") as [subject H4],
    (Hs "action") as [action H5], (Hs "verdict_hint") as [hint H6]; [cbn; tauto..|].
  rewrite H1, H2, H3, H4, H5, H6. cbn [mbind res_bind okb raise_if].
  destruct (bad_uint ts); [intros [= <-]; eauto|].
  destruct (in_strs tap TAPS) as [[]|y] eqn:E1; cbn [notM negb raise_if]; [|intros [= <-]; eauto|
    intros _; right; apply in_strs_raises in E1; exists "tap", tap; cbn; tauto].
  destruct (str_len_in 1 128 rule); cbn [negb]; [|intros [= <-]; eauto].
  destruct (str_len_in 0 512 subject); cbn [negb]; [|intros [= <-]; eauto].
  destruct (in_strs action ACTIONS) as [[]|y] eqn:E2; cbn [notM negb raise_if]; [|intros [= <-]; eauto|
    intros _; right; apply in_strs_raises in E2; exists "action", action; cbn; tauto].
  destruct (in_strs hint VERDICT_HINTS) as [[]|y] eqn:E3; cbn [notM negb raise_if]; [done|intros [= <-]; eauto|].
  intros _. right. apply in_strs_raises in E3. exists "verdict_hint", hint. cbn. tauto.
Qed.

(** The account of one [record]: it returns and counts the event, or a malformed report
    in its place, or it raises and nothing changed. *)
Lemma record_account e now event :
  match record now e event with
  | (_, Ok _) =>
      (validate_telemetry_event event = Ok tt /\ seen (Record now event) = [event] /\ flagged (Record now event) = false) \/
      (validate_telemetry_event event <> Ok tt /\ seen (Record now event) = [malformed now] /\ flagged (Record now event) = true)
  | (e', Err _) => e' = e /\ seen (Record now event) = [] /\ flagged (Record now event) = false /\ unhashable_event event
  end.
Proof.
  unfold record. cbn [seen flagged]. destruct (validate_telemetry_event event) as [[]|x] eqn:E; [by left|].
  apply validate_raises in E as [[s ->]|Hu]; [rewrite make_malformed; by right|].
  destruct x; try done. rewrite make_malformed. by right.
Qed.

(** C39: Nothing a returning call reported is lost by the reduction.  Whatever calls
    are made on a fresh engine, every rule's count is the number of findings
    reported under it, every tap's count is the number of its events, the stored events
    are the first [max_events] of them, and the telemetry is incomplete exactly when a
    call flagged it or an event did not fit.  What is reported is said of each call:
    [mark_telemetry_loss] reports a [telemetry_loss] and flags it; [record] of a valid
    event reports that event, [record] of any other that returns reports a
    [malformed_report] and flags it.  [record] raises only for an event with a list or a
    dictionary as its tap, action or verdict hint, and then counts and flags nothing:
    that event is the only one that can be lost. *)
Theorem detector_counts_every_finding (m : Z) (start : N) (ops : list op) :
  let e := run (new_engine m start) ops in
  let l := concat (map seen ops) in
  (forall r, count (finding_counts e) r = occurrences r (finding_rules l)) /\
  (forall t, count (tap_counts e) t = occurrences t (map (ev "tap") l)) /\
  events e = take (Z.to_nat m) l /\
  telemetry_incomplete e = existsb flagged ops || (Z.max 0 m <? Z.of_nat (length l)) /\
  (forall e now, snd (mark_telemetry_loss now e) = Ok tt /\
     seen (MarkTelemetryLoss now) = [loss now] /\ flagged (MarkTelemetryLoss now) = true) /\
  (forall e now event,
     match record now e event with
     | (_, Ok _) =>
         (validate_telemetry_event event = Ok tt /\ seen (Record now event) = [event] /\ flagged (Record now event) = false) \/
         (validate_telemetry_event event <> Ok tt /\ seen (Record now event) = [malformed now] /\ flagged (Record now event) = true)
     | (e', Err _) => e' = e /\ seen (Record now event) = [] /\ flagged (Record now event) = false /\ unhashable_event event
     end).
Proof.
  cbn zeta. destruct (tracks_run ops _ _ _ (tracks_new m start)) as [H1 H2 H3 H4 _].
  rewrite max_events_run in H1, H4. split_and!; try done; [|apply record_account].
  intros e now. unfold mark_telemetry_loss, record. by rewrite make_loss, (make_event_valid _ _ _ _ _ _ _ (make_loss now)).
Qed.

(** ** The evidence list *)
Lemma is_finding_rule x : is_finding x = true -> has_key (ev "rule_id" x) RULES = true.
Proof. unfold is_finding. by intros [H _]%andb_true_iff. Qed.

Lemma finding_rules_known r l : In r (finding_rules l) -> has_key r RULES = true.
Proof.
  unfold finding_rules. intros (x & <- & [_ Hx]%filter_In)%in_map_iff. by apply is_finding_rule.
Qed.

(** The rules with a finding are rules of the table. *)
Lemma tracks_known e l flag r : tracks e l flag -> In r (keys (finding_counts e)) -> has_key r RULES = true.
Proof.
  intros H Hr. apply (counted_key _ _ (tracks_counted _ _ _ H)) in Hr.
  rewrite (tracks_findings _ _ _ H) in Hr. by eapply finding_rules_known, occurrences_pos.
Qed.

Definition category (r : string) : string :=
  match assoc r RULES with Some (c, _, _) => c | None => "" end.

Definition item_of (c : counter) (r : string) : pyval :=
  VDict [("tap_category", VStr (category r)); ("rule_id", VStr r); ("count", VInt (count c r))].

(** The evidence of a tracked engine: one item per rule with a finding. *)
Lemma evidence_ok e l flag :
  tracks e l flag ->
  evidence e = Ok (map (item_of (finding_counts e)) (sorted_keys (finding_counts e))).
Proof.
  intros H. apply map_res_map. intros r Hr.
  apply (proj1 (sorted_keys_In _ _)), (tracks_known _ _ _ _ H) in Hr.
  unfold evidence_item, item_of, category, has_key in *. by destruct (assoc r RULES) as [[[c s] h]|].
Qed.

(** A finding's evidence is the rule with its count, and only a counted rule
    has any. *)
Lemma evidence_rules e l flag r :
  tracks e l flag -> In r (sorted_keys (finding_counts e)) <-> In r (finding_rules l).
Proof.
  intros H. rewrite sorted_keys_In, (counted_key _ _ (tracks_counted _ _ _ H)),
    (tracks_findings _ _ _ H). apply occurrences_pos.
Qed.

(** ** Canary classification *)

Lemma surrogateescape_cons a b c r :
  surrogateescape (String a (String b (String c r))) =
  if (byte_of a =? 237) && in_range 160 191 (byte_of b) then
    if in_range 178 179 (byte_of b) then
      let* rest := surrogateescape r in Ok (String (ascii_of ((byte_of b - 178) * 64 + byte_of c)) rest)
    else Err (ValueError "surrogates not allowed")
  else let* rest := surrogateescape (String b (String c r)) in Ok (String a rest).
Proof. reflexivity. Qed.

Lemma surrogateescape_ok s : has_surrogate s = false -> exists raw, surrogateescape s = Ok raw.
Proof.
  induction s as [s IH] using (induction_ltof1 _ String.length). unfold ltof in IH.
  destruct s as [|a [|b [|c r]]]; [by eexists..|].
  intros [H1 H2]%orb_false_iff. rewrite surrogateescape_cons, H1.
  destruct (IH (String b (String c r))) as [raw Hraw]; [cbn; lia|done|]. rewrite Hraw. by eexists.
Qed.

Lemma digest_length raw : py_len (hexdigest raw) = 64.
Proof.
  pose proof (hexdigest_hex raw) as Hh. rewrite py_len_ascii by (by eapply hex_string_ascii).
  apply andb_true_iff in Hh as [Hl%Nat.eqb_eq _]. by rewrite Hl.
Qed.

Lemma bounded_subject_ok value known :
  has_surrogate value = false ->
  exists subject, bounded_subject value known = Ok subject /\ (mem value known = false -> py_len subject = 71).
Proof.
  intros H. unfold bounded_subject. destruct (mem value known); [by eexists|].
  destruct (surrogateescape_ok _ H) as [raw ->]. cbn [mbind res_bind]. eexists. split; [done|]. intros _.
  by rewrite py_len_app, digest_length.
Qed.

(** Any subject fits once cut to 512 characters. *)
Lemma cut_subject s : in_range 0 512 (py_len (py_take 512 s)) = true.
Proof.
  pose proof (py_len_take 512 s). pose proof (py_len_nonneg (py_take 512 s)). unfold in_range. lia.
Qed.

Definition rules_of (l : list pyval) : list string := map (ev "rule_id") l.

(** The path classifier is total on paths the tracer can name and reports
    exactly what it should: the canary label of the normalized path, with one
    [cred_harvest_pattern] event when there is one, one [sandbox_probing] event
    when the path is under a probed prefix, and one [fs_suspicious_write] when a
    creating open touches a hidden location, in that order, each a finding that
    passes the telemetry schema. *)
Theorem classify_path_spec (t1 t2 t3 : N) (path : string) (flags : Z) :
  has_surrogate (normalized_path path) = false ->
  exists l, classify_path t1 t2 t3 path flags = Ok (l, canary_label (normalized_path path)) /\
    rules_of l =
      (if canary_label (normalized_path path) then ["cred_harvest_pattern"] else []) ++
      (if probes_sandbox (normalized_path path) then ["sandbox_probing"] else []) ++
      (if hidden_write (normalized_path path) flags then ["fs_suspicious_write"] else []) /\
    Forall (fun e => validate_telemetry_event e = Ok tt /\ is_finding e = true) l.
Proof.
  intros Hs. unfold classify_path. set (n := normalized_path path) in *.
  destruct (bounded_subject_ok n SANDBOX_PROBE_PREFIXES Hs) as (s2 & -> & _).
  destruct (bounded_subject_ok n [] Hs) as (s3 & -> & _). cbn [mbind res_bind].
  rewrite (make_event_fixed t2 "syscall" "sandbox_probing" s2 "read" "anomalous") by (done || apply cut_subject).
  rewrite (make_event_fixed t3 "fs" "fs_suspicious_write" s3 "write" "anomalous") by (done || apply cut_subject).
  assert (Hv2 := make_event_valid _ _ _ _ _ _ _
    (make_event_fixed t2 "syscall" "sandbox_probing" s2 "read" "anomalous" eq_refl eq_refl eq_refl (cut_subject _) eq_refl)).
  assert (Hv3 := make_event_valid _ _ _ _ _ _ _
    (make_event_fixed t3 "fs" "fs_suspicious_write" s3 "write" "anomalous" eq_refl eq_refl eq_refl (cut_subject _) eq_refl)).
  destruct (canary_label n) as [label|].
  - rewrite make_event_fixed by (done || apply cut_subject).
    assert (Hv1 := make_event_valid _ _ _ _ _ _ _
      (make_event_fixed t1 "cred" "cred_harvest_pattern" label "read" "known_bad" eq_refl eq_refl eq_refl (cut_subject _) eq_refl)).
    destruct (probes_sandbox n), (hidden_write n flags); (eexists; split; [reflexivity|]);
      (split; [done|]); repeat constructor; done.
  - destruct (probes_sandbox n), (hidden_write n flags); (eexists; split; [reflexivity|]);
      (split; [done|]); repeat constructor; done.
Qed.

Lemma classify_path_spec_witness :
  exists l, classify_path 1 2 3 "/home/mote/./.aws//credentials" 64 = Ok (l, Some "canary_cred_aws") /\
    rules_of l = ["cred_harvest_pattern"].
Proof.
  destruct (classify_path_spec 1 2 3 "/home/mote/./.aws//credentials" 64 eq_refl) as (l & H1 & H2 & _).
  exists l. exact (conj H1 H2).
Defined.

(** A spelling the classifier does not see through: the kernel opens the same
    file for two leading slashes, or for a parent component, but neither
    normalizes to the canary path, so no event is reported. *)
Theorem canary_respelled_unreported (t1 t2 t3 : N) :
  classify_path t1 t2 t3 "//home/mote/.aws/credentials" 0 = Ok ([], None) /\
  classify_path t1 t2 t3 "/home/mote/.ssh/../.aws/credentials" 0 = Ok ([], None).
Proof. by split. Qed.

End Detectors.
