(* ===== verification/OutwardReport.v ===== *)
(** * Capability broker and report schema: broker/broker.py

    The outward report is the only thing a detonation says to the policy gate:
    its schema check, and the deny-by-default broker that builds it from the
    detectors' counts. *)

From stdpp Require Import base list strings sorting.
From Stdlib Require Import ZArith Lia.
From S2P Require Import Prelude PyValue StrOps Counter Detectors.

Local Open Scope Z_scope.

Module OutwardReport.
Import Detectors.

Definition REPORT_KEYS : list string :=
  ["risk_level"; "evidence"; "capabilities_requested"; "destinations"; "canaries_tripped"; "uncertainty"].
Definition EVIDENCE_KEYS : list string := ["tap_category"; "rule_id"; "count"].
Definition RISK_LEVELS : list string := ["benign"; "suspicious"; "hostile"].
Definition TAP_CATEGORIES : list string :=
  ["filesystem"; "process_tree"; "dns"; "network_flows"; "cred_access"; "syscall_class";
   "resource_use"; "canary_trips"].

Definition bad_item (v : pyval) : bool := negb (str_len_in 0 512 v).

Definition _bounded_string_list (value : pyval) (name : string) (limit : Z) : res unit :=
  raise (OutwardReportSchemaError (name +:+ " must be a bounded list"))
    when negb (is_list value) || (limit <? Z.of_nat (length (list_of value)));;
  raise (OutwardReportSchemaError (name +:+ " contains an invalid string"))
    when existsb bad_item (list_of value);;
  Ok tt.

(** [float(v)] of a number; an [int] too large for binary64 raises.  Rounding
    moves no [int] across 0 or 1, which is all the value is compared with. *)
Definition py_float (v : pyval) : res pyfloat :=
  match v with
  | VInt z => if 2 ^ 1024 - 2 ^ 970 <=? Z.abs z then Err OverflowError else Ok (FFin z 1)
  | VBool b => Ok (FFin (Z.b2z b) 1)
  | VFloat f => Ok f
  | _ => Err TypeError
  end.

Definition check_evidence_item (item : pyval) : res unit :=
  raise (OutwardReportSchemaError "malformed evidence item") when negb (dict_shape item EVIDENCE_KEYS);;
  let* tap_category := sub item "tap_category" in
  raise (OutwardReportSchemaError "invalid tap_category") when notM (in_strs tap_category TAP_CATEGORIES);;
  let* rule_id := sub item "rule_id" in
  raise (OutwardReportSchemaError "invalid evidence rule_id") when negb (str_len_in 1 128 rule_id);;
  let* n := sub item "count" in
  raise (OutwardReportSchemaError "evidence count must be uint") when bad_uint n;;
  Ok tt.

Definition is_float (v : pyval) : bool := match v with VFloat _ => true | _ => false end.

Definition validate_outward_report (report : pyval) : res unit :=
  raise (OutwardReportSchemaError "outward_report has missing or extra fields")
    when negb (dict_shape report REPORT_KEYS);;
  let* risk_level := sub report "risk_level" in
  raise (OutwardReportSchemaError "invalid risk_level") when notM (in_strs risk_level RISK_LEVELS);;
  let* items := sub report "evidence" in
  raise (OutwardReportSchemaError "evidence must be a bounded list")
    when negb (is_list items) || (512 <? Z.of_nat (length (list_of items)));;
  let* _ := foldM (fun _ item => check_evidence_item item) (list_of items) tt in
  let* capabilities := sub report "capabilities_requested" in
  let* _ := _bounded_string_list capabilities "capabilities_requested" 256 in
  let* dests := sub report "destinations" in
  let* _ := _bounded_string_list dests "destinations" 256 in
  let* tripped := sub report "canaries_tripped" in
  let* _ := _bounded_string_list tripped "canaries_tripped" 256 in
  let* uncertainty := sub report "uncertainty" in
  raise (OutwardReportSchemaError "uncertainty must be numeric")
    when negb (is_strict_int uncertainty || is_float uncertainty);;
  let* f := py_float uncertainty in
  raise (OutwardReportSchemaError "uncertainty is outside 0.0-1.0")
    when negb (num_le (FFin 0 1) f && num_le f (FFin 1 1));;
  Ok tt.

(** ** The broker *)
Record CapabilityBroker := {
  detector : DetectorEngine;
  requested : list string;
  granted : list string;
  denied : list string;
}.

Definition bad_capability (v : pyval) : bool :=
  match v with VStr s => String.eqb s "" || (128 <? py_len s) | _ => true end.

(** The duplicate-free names in order of first occurrence. *)
Definition add_capability (normalized : list string) (capability : pyval) : res (list string) :=
  raise (ValueError "capability names must be bounded strings") when bad_capability capability;;
  let name := str_of capability in
  Ok (if mem name normalized then normalized else normalized ++ [name]).

Definition request_capabilities (b : CapabilityBroker) (capabilities : list pyval)
    : CapabilityBroker * res unit :=
  match foldM add_capability capabilities [] with
  | Ok normalized =>
      ({| detector := detector b; requested := normalized; granted := []; denied := normalized |}, Ok tt)
  | Err x => (b, Err x)
  end.

(** [a < b]; false with NaN *)
Definition num_lt (a b : pyfloat) : bool := num_le a b && negb (num_le b a).
(** [min(a, b)], [max(a, b)]: the first argument unless the second is strictly
    less, respectively greater. *)
Definition py_min (a b : pyfloat) : pyfloat := if num_lt b a then b else a.
Definition py_max (a b : pyfloat) : pyfloat := if num_lt a b then b else a.

Definition clamp (u : pyfloat) : pyfloat := py_max (FFin 0 1) (py_min (FFin 1 1) u).

(** [item["rule_id"] for item in evidence] *)
Definition rule_ids (items : list pyval) : list string := map (ev "rule_id") items.

Definition risk_level (b : CapabilityBroker) (items : list pyval) : string :=
  if existsb (fun r => mem r KNOWN_BAD_RULES) (rule_ids items) then "hostile"
  else match items, denied b with [], [] => "benign" | _, _ => "suspicious" end.

Definition report_of (b : CapabilityBroker) (uncertainty : pyfloat) (items : list pyval) : pyval :=
  VDict [("risk_level", VStr (risk_level b items)); ("evidence", VList items);
         ("capabilities_requested", VList (map VStr (requested b)));
         ("destinations", VList (map VStr (sorted_keys (destinations (detector b)))));
         ("canaries_tripped", VList (map VStr (sorted_keys (canaries (detector b)))));
         ("uncertainty", VFloat (clamp uncertainty))].

Definition build_report (b : CapabilityBroker) (uncertainty : pyfloat) : res pyval :=
  let* items := evidence (detector b) in
  let report := report_of b uncertainty items in
  let* _ := validate_outward_report report in
  Ok report.

Definition new_broker (e : DetectorEngine) : CapabilityBroker :=
  {| detector := e; requested := []; granted := []; denied := [] |}.

(** ** Reports built from a detonation are well-formed *)
Lemma rule_table_fits :
  forallb (fun kv : string * (string * string * string) => mem (fst (fst (snd kv))) TAP_CATEGORIES && in_range 1 128 (py_len (fst kv))) RULES
  = true.
Proof. vm_compute. reflexivity. Qed.

Lemma rule_fits r :
  has_key r RULES = true -> mem (category r) TAP_CATEGORIES = true /\ in_range 1 128 (py_len r) = true.
Proof.
  intros H. pose proof rule_table_fits as Ht. rewrite forallb_forall in Ht. unfold has_key in H.
  unfold category. destruct (assoc r RULES) as [[[c s] h]|] eqn:E; [|done].
  apply assoc_In in E. apply Ht in E. by apply andb_true_iff in E.
Qed.

Lemma check_item_ok c r :
  has_key r RULES = true -> 0 <= count c r -> check_evidence_item (item_of c r) = Ok tt.
Proof.
  intros [Hc Hr]%rule_fits Hn. unfold check_evidence_item, item_of. set (k := category r) in *.
  set (n := count c r) in *. dict_eval. unfold in_strs, str_len_in, bad_uint, okb, notM. rewrite Hc, Hr.
  cbn [is_int int_of negb orb raise_if]. by destruct (Z.ltb_spec n 0); [lia|].
Qed.

Lemma foldM_ok {A} (f : A -> res unit) l :
  foldM (fun _ x => f x) l tt = Ok tt <-> Forall (fun x => f x = Ok tt) l.
Proof.
  induction l as [|x l IH]; cbn [foldM]; [by split; [constructor|]|].
  rewrite bind_ok, Forall_cons, <- IH. split; [|naive_solver].
  by intros ([] & H1 & H2).
Qed.

Lemma bounded_list_ok name limit l :
  Z.of_nat (length l) <= limit -> Forall (fun s => py_len s <= 512) l ->
  _bounded_string_list (VList (map VStr l)) name limit = Ok tt.
Proof.
  intros Hl Hs. unfold _bounded_string_list. cbn [is_list negb orb list_of].
  rewrite length_map. destruct (Z.ltb_spec limit (Z.of_nat (length l))); [lia|]. cbn [okb raise_if].
  assert (existsb bad_item (map VStr l) = false) as ->; [|done].
  induction Hs as [|x l Hx _ IH]; cbn [map existsb]; [done|]. cbn [length] in *.
  rewrite IH by lia. unfold bad_item, str_len_in, in_range. pose proof (py_len_nonneg x). lia.
Qed.

Lemma clamp_unit u : num_le (FFin 0 1) (clamp u) && num_le (clamp u) (FFin 1 1) = true.
Proof.
  unfold clamp, py_max, py_min, num_lt.
  destruct u as [|[]|n d]; try reflexivity. cbn [num_le].
  destruct (Z.leb_spec (n * 1) (1 * Zpos d)), (Z.leb_spec (1 * Zpos d) (n * 1)); cbn [negb andb num_le];
    try reflexivity.
  destruct (Z.leb_spec (0 * Zpos d) (n * 1)), (Z.leb_spec (n * 1) (0 * Zpos d)); cbn [negb andb num_le];
    try reflexivity. apply andb_true_iff. split; lia.
Qed.

(** The schema check, given its parts. *)
Lemma validate_report_ok risk items caps dests tripped u :
  mem risk RISK_LEVELS = true -> Z.of_nat (length items) <= 512 ->
  Forall (fun i => check_evidence_item i = Ok tt) items ->
  Z.of_nat (length caps) <= 256 -> Forall (fun s => py_len s <= 512) caps ->
  Z.of_nat (length dests) <= 256 -> Forall (fun s => py_len s <= 512) dests ->
  Z.of_nat (length tripped) <= 256 -> Forall (fun s => py_len s <= 512) tripped ->
  validate_outward_report
    (VDict [("risk_level", VStr risk); ("evidence", VList items);
            ("capabilities_requested", VList (map VStr caps)); ("destinations", VList (map VStr dests));
            ("canaries_tripped", VList (map VStr tripped)); ("uncertainty", VFloat (clamp u))]) = Ok tt.
Proof.
  intros Hr Hl Hi Hc1 Hc2 Hd1 Hd2 Ht1 Ht2. unfold validate_outward_report. dict_eval.
  unfold in_strs, notM, okb at 1. rewrite Hr. cbn [negb raise_if is_list orb okb].
  destruct (Z.ltb_spec 512 (Z.of_nat (length items))); [lia|]. cbn [okb raise_if].
  rewrite (proj2 (foldM_ok check_evidence_item items) Hi). cbn [mbind res_bind].
  rewrite !bounded_list_ok by done. cbn [mbind res_bind is_strict_int is_float orb negb okb raise_if py_float].
  by rewrite clamp_unit.
Qed.

(** Destinations are kept short, whatever was connected to. *)
Definition short_destinations (e : DetectorEngine) : Prop :=
  forall d, In d (keys (destinations e)) -> py_len d <= 128.

Lemma bounded_subject_short value subject :
  bounded_subject value [] = Ok subject -> py_len subject = 71.
Proof.
  unfold bounded_subject. change (mem value []) with false. cbv iota. intros H. run_inv. subst.
  rewrite py_len_app, digest_length. done.
Qed.

Lemma short_add e d s : short_destinations e -> short_destinations (fst (add_destination e d s)).
Proof.
  intros H. unfold add_destination. destruct (negb _); [done|].
  destruct (if py_len d <=? 128 then Ok d else bounded_subject d []) as [safe|] eqn:E; [|done].
  intros x. cbn [fst destinations]. rewrite keys_dict_set.
  assert (py_len safe <= 128).
  { destruct (Z.leb_spec (py_len d) 128); [by simplify_eq|]. apply bounded_subject_short in E. lia. }
  destruct (has_key _ _); [apply H|]. rewrite in_app_iff. intros [Hx|[<-|[]]]; [by apply H|done].
Qed.

Lemma destinations_step e o :
  destinations (fst (step e o)) = destinations e \/
  exists d s, fst (step e o) = fst (add_destination e d s).
Proof.
  destruct o; cbn [step]; [left|by left|right; eauto|left];
    unfold record, mark_telemetry_loss, record; repeat case_match; reflexivity.
Qed.

Lemma short_run ops e : short_destinations e -> short_destinations (run e ops).
Proof.
  unfold run. revert e. induction ops as [|o ops IH]; intros e H; cbn; [done|]. apply IH.
  destruct (destinations_step e o) as [Hd|(d & s & ->)]; [|by apply short_add].
  unfold short_destinations. by rewrite Hd.
Qed.

(** The rules with findings are at most the rules there are. *)
Lemma few_findings e l flag : tracks e l flag -> (length (finding_counts e) <= length RULES)%nat.
Proof.
  intros H. rewrite <- (sorted_keys_length (finding_counts e)).
  transitivity (length (keys RULES)); [|unfold keys; by rewrite length_map].
  apply submseteq_length, NoDup_submseteq; [apply sorted_keys_NoDup, tracks_counted with l flag, H|].
  intros r Hr%list_elem_of_In. apply (proj1 (sorted_keys_In _ _)) in Hr.
  apply list_elem_of_In, has_key_In. by eapply tracks_known.
Qed.

Lemma add_capability_short l c l' :
  Forall (fun s => py_len s <= 512) l -> add_capability l c = Ok l' -> Forall (fun s => py_len s <= 512) l'.
Proof.
  intros Hl H. unfold add_capability in H. run_inv. subst. destruct (mem _ _); [done|].
  apply Forall_app. split; [done|]. constructor; [|constructor].
  destruct c; try done. cbn [bad_capability str_of] in *. run_inv. lia.
Qed.

Lemma requested_short caps l l' :
  Forall (fun s => py_len s <= 512) l -> foldM add_capability caps l = Ok l' ->
  Forall (fun s => py_len s <= 512) l'.
Proof.
  revert l. induction caps as [|c caps IH]; intros l Hl H; cbn [foldM] in H; run_inv; [by subst|].
  eapply IH; [|done]. by eapply add_capability_short.
Qed.

(** The findings a report carries, and what it says of them. *)
Lemma rule_ids_items c l : rule_ids (map (item_of c) l) = l.
Proof. unfold rule_ids. rewrite map_map. apply map_id. Qed.

Lemma risk_hostile b items :
  risk_level b items = "hostile" <-> existsb (fun r => mem r KNOWN_BAD_RULES) (rule_ids items) = true.
Proof.
  unfold risk_level. destruct (existsb _ _); [done|]. by destruct items, (denied b).
Qed.

Lemma risk_benign b items : risk_level b items = "benign" <-> items = [] /\ denied b = [].
Proof.
  unfold risk_level. destruct items as [|i items]; cbn [rule_ids map existsb].
  - destruct (denied b); naive_solver.
  - destruct (_ || _); naive_solver.
Qed.

(** What makes a report of this broker about this detonation. *)
Record detonation (m : Z) (start : N) (ops : list op) (caps : list pyval) (b : CapabilityBroker) : Prop := {
  deto_broker : request_capabilities (new_broker (run (new_engine m start) ops)) caps = (b, Ok tt);
  deto_dests : Z.of_nat (length (destinations (detector b))) <= 256;
  deto_canaries : Z.of_nat (length (canaries (detector b))) <= 256;
  deto_names : Forall (fun kv => py_len (fst kv) <= 512) (canaries (detector b));
  deto_caps : Z.of_nat (length (requested b)) <= 256;
}.

Lemma deto_detector m start ops caps b :
  detonation m start ops caps b -> detector b = run (new_engine m start) ops.
Proof.
  intros [H _ _ _ _]. unfold request_capabilities in H. destruct (foldM _ _ _); by simplify_eq/=.
Qed.

Lemma deto_denied m start ops caps b : detonation m start ops caps b -> denied b = requested b.
Proof.
  intros [H _ _ _ _]. unfold request_capabilities in H. destruct (foldM _ _ _); by simplify_eq/=.
Qed.

Lemma deto_tracks m start ops caps b :
  detonation m start ops caps b -> tracks (detector b) (concat (map seen ops)) (existsb flagged ops).
Proof. intros ->%deto_detector. apply (tracks_run ops _ _ _ (tracks_new m start)). Qed.

Lemma short_names l (P : string -> Prop) : (forall d, In d l -> P d) -> Forall P (sort_strs l).
Proof. intros H. rewrite sort_strs_perm. by apply List.Forall_forall. Qed.

(** The report over a tracked detector, within the bounds of the schema, passes it. *)
Lemma broker_report b u l flag :
  tracks (detector b) l flag -> short_destinations (detector b) -> Forall (fun s => py_len s <= 512) (requested b) ->
  Z.of_nat (length (destinations (detector b))) <= 256 -> Z.of_nat (length (canaries (detector b))) <= 256 ->
  Forall (fun kv => py_len (fst kv) <= 512) (canaries (detector b)) -> Z.of_nat (length (requested b)) <= 256 ->
  let c := finding_counts (detector b) in
  build_report b u = Ok (report_of b u (map (item_of c) (sorted_keys c))) /\
  validate_outward_report (report_of b u (map (item_of c) (sorted_keys c))) = Ok tt.
Proof.
  intros Ht Hsd Hq Hd Hc Hn Hr c. unfold build_report.
  rewrite (evidence_ok _ _ _ Ht). fold c. cbn [mbind res_bind].
  assert (validate_outward_report (report_of b u (map (item_of c) (sorted_keys c))) = Ok tt) as Hv.
  { apply validate_report_ok; try done.
    - unfold risk_level. destruct (existsb (fun r => mem r _) _); [done|].
      destruct (map (item_of c) (sorted_keys c)); [|done]. by destruct (denied b).
    - rewrite length_map, sorted_keys_length. pose proof (few_findings _ _ _ Ht) as Hf.
      change (length RULES) with 46%nat in Hf. unfold c. lia.
    - apply List.Forall_forall. intros i (r & <- & Hi)%in_map_iff. apply (proj1 (sorted_keys_In _ _)) in Hi.
      apply check_item_ok; [by eapply tracks_known|]. by apply count_nonneg, (tracks_counted _ _ _ Ht).
    - by rewrite sorted_keys_length.
    - apply short_names. intros d Hi. transitivity 128; [|lia]. by apply Hsd.
    - by rewrite sorted_keys_length.
    - apply short_names. intros d (kv & <- & Hkv)%in_map_iff. eapply List.Forall_forall in Hkv; [|exact Hn]. done. }
  by rewrite Hv.
Qed.

(** The broker over the detector of a sequence of calls, its request granted or refused. *)
Lemma asked_detector m start ops caps b asked :
  request_capabilities (new_broker (run (new_engine m start) ops)) caps = (b, asked) -> detector b = run (new_engine m start) ops.
Proof. unfold request_capabilities. destruct (foldM _ _ _); by intros [= <- <-]. Qed.

Lemma asked_tracks m start ops caps b asked :
  request_capabilities (new_broker (run (new_engine m start) ops)) caps = (b, asked) ->
  tracks (detector b) (concat (map seen ops)) (existsb flagged ops).
Proof. intros ->%asked_detector. apply (tracks_run ops _ _ _ (tracks_new m start)). Qed.

Lemma asked_report m start ops caps b asked u :
  request_capabilities (new_broker (run (new_engine m start) ops)) caps = (b, asked) ->
  Z.of_nat (length (destinations (detector b))) <= 256 -> Z.of_nat (length (canaries (detector b))) <= 256 ->
  Forall (fun kv => py_len (fst kv) <= 512) (canaries (detector b)) -> Z.of_nat (length (requested b)) <= 256 ->
  let c := finding_counts (detector b) in
  build_report b u = Ok (report_of b u (map (item_of c) (sorted_keys c))) /\
  validate_outward_report (report_of b u (map (item_of c) (sorted_keys c))) = Ok tt.
Proof.
  intros Hq H1 H2 H3 H4. eapply broker_report; try done; [by eapply asked_tracks|..].
  - rewrite (asked_detector _ _ _ _ _ _ Hq). apply short_run. by intros ? [].
  - unfold request_capabilities in Hq. destruct (foldM _ _ _) as [l|] eqn:El; simplify_eq/=; [by eapply requested_short|constructor].
Qed.

(** A detonation's report passes the schema. *)
Lemma deto_report m start ops caps b u :
  detonation m start ops caps b ->
  let c := finding_counts (detector b) in
  build_report b u = Ok (report_of b u (map (item_of c) (sorted_keys c))) /\
  validate_outward_report (report_of b u (map (item_of c) (sorted_keys c))) = Ok tt.
Proof. intros []. by eapply asked_report. Qed.

(** Every detonation has a report, and the report is honest.  With at most
    256 destinations, canaries and requested capabilities, the broker builds a
    report that passes the outward schema; it is hostile exactly when a
    known-bad rule had a finding, benign exactly when nothing was found and
    nothing requested, and its evidence names exactly the rules with findings;
    nothing requested is granted. *)
Theorem report_total_and_honest (m : Z) (start : N) (ops : list op) (caps : list pyval)
    (b : CapabilityBroker) (u : pyfloat) :
  detonation m start ops caps b ->
  let found := finding_rules (concat (map seen ops)) in
  exists report items, build_report b u = Ok report /\ validate_outward_report report = Ok tt /\
    sub report "evidence" = Ok (VList items) /\
    (forall r, In r (rule_ids items) <-> In r found) /\
    (sub report "risk_level" = Ok (VStr "hostile") <-> exists r, In r found /\ In r KNOWN_BAD_RULES) /\
    (sub report "risk_level" = Ok (VStr "benign") <-> found = [] /\ requested b = []) /\
    granted b = [] /\ denied b = requested b.
Proof.
  intros H found. set (c := finding_counts (detector b)).
  pose proof (deto_tracks _ _ _ _ _ H) as Ht.
  destruct (deto_report _ _ _ _ _ u H) as [Hb Hv]. fold c in Hb, Hv.
  exists (report_of b u (map (item_of c) (sorted_keys c))), (map (item_of c) (sorted_keys c)).
  assert (Hrules : forall r, In r (sorted_keys c) <-> In r found) by (intros r; by eapply evidence_rules).
  assert (Hnil : sorted_keys c = [] <-> found = []).
  { destruct (sorted_keys c) as [|r l].
    - split; [|done]. intros _. destruct found as [|r f]; [done|]. destruct (proj2 (Hrules r) (or_introl eq_refl)).
    - split; [done|]. intros ->. destruct (proj1 (Hrules r) (or_introl eq_refl)). }
  assert (Hbad : existsb (fun r => mem r KNOWN_BAD_RULES) (sorted_keys c) = true <->
    exists r, In r found /\ In r KNOWN_BAD_RULES).
  { rewrite existsb_exists. setoid_rewrite mem_In. by setoid_rewrite Hrules. }
  split_and!; try done.
  - intros r. by rewrite rule_ids_items.
  - rewrite <- Hbad. unfold report_of. dict_eval. by rewrite ok_str_eq, risk_hostile, rule_ids_items.
  - rewrite <- Hnil, <- (deto_denied _ _ _ _ _ H). unfold report_of. dict_eval.
    rewrite ok_str_eq, risk_benign. by rewrite (map_nil_iff (item_of c)).
  - destruct H as [H _ _ _ _]. unfold request_capabilities in H. destruct (foldM _ _ _); by simplify_eq/=.
  - by eapply deto_denied.
Qed.

(** ** Witness: one canary read, one capability asked for *)
Definition sample_ops : list op :=
  [Record 5 (event_dict 5 "cred" "cred_harvest_pattern" "canary_file" "read" "known_bad");
   TripCanary 6 "canary_file"; AddDestination "AF_INET" "blocked-by-seccomp"].

Definition sample_broker : CapabilityBroker :=
  fst (request_capabilities (new_broker (run (new_engine 10000 1) sample_ops)) [VStr "net.connect"]).

Lemma sample_detonation : detonation 10000 1 sample_ops [VStr "net.connect"] sample_broker.
Proof.
  split; [vm_compute; reflexivity|vm_compute; discriminate|vm_compute; discriminate| |vm_compute; discriminate].
  constructor; [vm_compute; discriminate|constructor].
Qed.

Lemma report_total_and_honest_witness :
  exists report items, build_report sample_broker (FFin 0 1) = Ok report /\
    sub report "evidence" = Ok (VList items) /\ In "cred_harvest_pattern" (rule_ids items).
Proof.
  destruct (report_total_and_honest 10000 1 sample_ops [VStr "net.connect"] sample_broker (FFin 0 1)
    sample_detonation) as (report & items & H1 & _ & H2 & H3 & _).
  exists report, items. split; [exact H1|]. split; [exact H2|]. apply H3. vm_compute. by left.
Defined.

End OutwardReport.
