(* ===== verification/PolicyGate.v ===== *)
(** * Policy gate: gate/policy_gate.py

    The deterministic scoring matrix over an outward report, the human override
    read from [override.json], and the two infrastructure gates no override can
    pass.  The override file's contents are an argument: absent, or the bytes
    read. *)

From stdpp Require Import base list strings sorting.
From Stdlib Require Import ZArith Lia.
From S2P Require Import Prelude PyValue Json StrOps Counter Evidence Detectors OutwardReport.

Local Open Scope Z_scope.

Module PolicyGate.
Import Detectors OutwardReport.

Definition UNOVERRIDABLE_RULES : list string :=
  ["telemetry_loss"; "broker_failure"; "firecracker_runtime_failure"; "isolation_admission_failure";
   "purge_failure"; "web_browser_execution_failed"; "web_browser_lifecycle_incomplete";
   "web_browser_sandbox_inactive"; "web_browser_sandbox_unknown"; "web_browser_telemetry_loss";
   "web_cdp_telemetry_loss"; "web_egress_telemetry_loss"; "web_event_budget_exceeded";
   "web_evidence_count_mismatch"; "web_evidence_schema_invalid"; "web_evidence_sequence_gap";
   "web_host_guest_network_mismatch"; "web_host_guest_network_unknown"; "web_navigation_missing";
   "web_redirect_budget_exceeded"; "web_vm_execution_failed"; "web_vm_lifecycle_incomplete";
   "web_vm_telemetry_loss"].

(** [override_json: str | Path | dict | None] *)
Inductive override_source :=
  | NoOverride
  | OverrideDict (value : pydict)
  | OverrideFile (contents : option string).

Section gate.
(** The value of a JSON number with a fraction or an exponent. *)
Variable parse_float : string -> pyfloat.

(** [path.read_text(encoding="utf-8")] decodes strictly; newline translation
    changes nothing [json.loads] sees outside strings, and inside a string both
    line breaks are refused. *)
Definition read_text (raw : string) : res string :=
  if Evidence.utf8_ok 0 128 191 raw && negb (has_surrogate raw) then Ok raw
  else Err (ValueError "invalid utf-8").

Definition _load_override (source : override_source) : res pydict :=
  match source with
  | NoOverride => Ok []
  | OverrideDict value => Ok value
  | OverrideFile None => Ok []
  | OverrideFile (Some raw) =>
      let* text := read_text raw in
      let* value := loads parse_float text in
      match value with
      | VDict d => Ok d
      | _ => Err (ValueError "override.json must contain an object")
      end
  end.

(** The first entry of the list for this job. *)
Fixpoint find_entry (entries : list pyval) (job_id : string) : pyval :=
  match entries with
  | [] => VStr "none"
  | VDict item :: r =>
      if py_eq (default VNone (assoc "job_id" item)) (VStr job_id)
      then default (VStr "none") (assoc "decision" item)
      else find_entry r job_id
  | _ :: r => find_entry r job_id
  end.

Definition _decision_for_job (overrides : pydict) (job_id : string) : res string :=
  let decision :=
    match default VNone (assoc job_id overrides) with
    | VStr s => VStr s
    | VDict d => default (VStr "none") (assoc "decision" d)
    | _ =>
        match default (VList []) (assoc "overrides" overrides) with
        | VList entries => find_entry entries job_id
        | _ => VStr "none"
        end
    end in
  let* known := in_strs decision ["ALLOW"; "DENY"] in
  Ok (if (known : bool) then str_of decision else "none").

(** [{item["rule_id"]: item["count"] for item in ...}]: the last item wins. *)
Definition evidence_counts (items : list pyval) : counter :=
  foldl (fun acc item =>
           dict_set (ev "rule_id" item)
             (match sub item "count" with Ok v => int_of v | Err _ => 0 end) acc) [] items.

Definition score (evidence : counter) (items tripped capabilities : list pyval) : string * string :=
  let n := count evidence in
  let nz k := negb (n k =? 0) in
  if existsb (fun r => 0 <? n r) KNOWN_BAD_RULES then ("DENY", "known_bad_behavior_detected")
  else if negb (Nat.eqb (length tripped) 0) && nz "cred_harvest_pattern"
  then ("DENY", "canary_credential_accessed")
  else if nz "network_exfil_attempt" || nz "dns_tunnel_probe" then ("DENY", "network_egress_attempted")
  else if 3 <=? n "sandbox_probing" then ("DENY", "repeated_sandbox_probing")
  else if nz "exec_spawn_chain" || nz "fs_suspicious_write" then ("DENY", "anomalous_behavior_pattern")
  else
    match items, tripped, capabilities with
    | [], [], [] => ("ALLOW", "no_anomaly_detected")
    | [], [], [VStr c] =>
        if String.eqb c "browser.navigate" then ("ALLOW", "bounded_browser_navigation_clean")
        else ("DENY", "uncertain_classification")
    | _, _, _ => ("DENY", "uncertain_classification")
    end.

Definition gate_result (decision reason override final authority : string) (blocked : bool) : pyval :=
  VDict [("policy_gate_decision", VStr decision); ("policy_gate_reason", VStr reason);
         ("human_gate_override", VStr override); ("final_decision", VStr final);
         ("final_authority", VStr authority); ("override_blocked_by_fail_closed", VBool blocked)].

Definition apply_scoring_matrix (outward_report : pyval) (override_json : override_source)
    (job_id : string) : res pyval :=
  let* _ := validate_outward_report outward_report in
  let* items := sub outward_report "evidence" in
  let* tripped := sub outward_report "canaries_tripped" in
  let* capabilities := sub outward_report "capabilities_requested" in
  let evidence := evidence_counts (list_of items) in
  let '(decision, reason) := score evidence (list_of items) (list_of tripped) (list_of capabilities) in
  let* overrides := _load_override override_json in
  let* human_override := _decision_for_job overrides job_id in
  let says_allow := String.eqb human_override "ALLOW" in
  if 0 <? count evidence "payload_observation_incomplete" then
    Ok (gate_result "EVALUATION_INCOMPLETE" "payload_observation_incomplete" human_override
          "EVALUATION_INCOMPLETE" "fail_closed_incomplete_observation" says_allow)
  else
    let fail_closed := existsb (fun r => 0 <? count evidence r) UNOVERRIDABLE_RULES in
    let '(final, authority) :=
      if fail_closed then ("DENY", "fail_closed_infrastructure_gate")
      else if mem human_override ["ALLOW"; "DENY"] then (human_override, "human_gate_override")
      else (decision, "policy_gate_autonomous") in
    Ok (gate_result decision reason human_override final authority (fail_closed && says_allow)).

(** ** What the gate decides *)

(** A report with nothing in it but, at most, the browser's own navigation. *)
Definition clean (items tripped capabilities : list pyval) : bool :=
  match items, tripped, capabilities with
  | [], [], [] => true
  | [], [], [VStr c] => String.eqb c "browser.navigate"
  | _, _, _ => false
  end.

(** The decision as a function of what was counted, whether the report is clean
    and what the human said. *)
Definition verdict (n : string -> Z) (clean_report : bool) (override : string) : string :=
  if 0 <? n "payload_observation_incomplete" then "EVALUATION_INCOMPLETE"
  else if existsb (fun r => 0 <? n r) UNOVERRIDABLE_RULES then "DENY"
  else if String.eqb override "ALLOW" then "ALLOW"
  else if String.eqb override "DENY" then "DENY"
  else if clean_report then "ALLOW" else "DENY".

(** The matrix allows exactly the clean reports: every branch before the clean
    one needs evidence, and a clean report has none. *)
Lemma score_clean items tripped capabilities :
  fst (score (evidence_counts items) items tripped capabilities) =
  if clean items tripped capabilities then "ALLOW" else "DENY".
Proof.
  unfold score, clean. destruct items as [|i items].
  - cbn [evidence_counts foldl]. change (existsb _ KNOWN_BAD_RULES) with false. cbn [count assoc default from_option].
    change (negb (0 =? 0)) with false. change (3 <=? 0) with false. rewrite andb_false_r. cbn [orb].
    destruct tripped as [|t tripped]; [|done]. destruct capabilities as [|[] [|]]; try done.
    by destruct (String.eqb _ _).
  - repeat case_match; reflexivity.
Qed.

Lemma decision_known overrides job h :
  _decision_for_job overrides job = Ok h -> h = "ALLOW" \/ h = "DENY" \/ h = "none".
Proof.
  unfold _decision_for_job. set (d := match default VNone _ with VStr _ => _ | _ => _ end).
  destruct d as [| | | |s| | |]; cbn [in_strs mbind res_bind okb str_of]; intros H; run_inv; subst; auto.
  destruct (mem s ["ALLOW"; "DENY"]) eqn:E; [|auto]. apply mem_In in E. cbn in E. naive_solver.
Qed.

(** The final decision is the verdict, and the result records it. *)
Lemma apply_final report items tripped caps overrides source job h :
  validate_outward_report report = Ok tt ->
  sub report "evidence" = Ok (VList items) -> sub report "canaries_tripped" = Ok (VList tripped) ->
  sub report "capabilities_requested" = Ok (VList caps) ->
  _load_override source = Ok overrides -> _decision_for_job overrides job = Ok h ->
  exists v, apply_scoring_matrix report source job = Ok v /\
    sub v "human_gate_override" = Ok (VStr h) /\
    sub v "final_decision" =
      Ok (VStr (verdict (count (evidence_counts items)) (clean items tripped caps) h)).
Proof.
  intros Hv Hi Ht Hc Hl Hh. unfold apply_scoring_matrix. rewrite Hv. cbn [mbind res_bind].
  rewrite Hi, Ht, Hc. cbn [mbind res_bind list_of].
  pose proof (score_clean items tripped caps) as Hs.
  destruct (score (evidence_counts items) items tripped caps) as [decision reason]. cbn [fst] in Hs. subst decision.
  rewrite Hl. cbn [mbind res_bind]. rewrite Hh. cbn [mbind res_bind]. unfold verdict.
  destruct (0 <? count (evidence_counts items) "payload_observation_incomplete"); [by eexists|].
  destruct (existsb _ UNOVERRIDABLE_RULES); [by eexists|].
  destruct (decision_known _ _ _ Hh) as [->|[->| ->]]; eexists; split; [reflexivity|done|reflexivity|done|reflexivity|].
  split; [done|]. by destruct (clean items tripped caps).
Qed.

(** ** Counting the evidence of a built report *)
Lemma evidence_counts_items c l r :
  NoDup l -> count (evidence_counts (map (item_of c) l)) r = if mem r l then count c r else 0.
Proof.
  unfold evidence_counts. intros Hl.
  assert (forall acc, (forall k, In k l -> assoc k acc = None) ->
    count (foldl (fun acc item => dict_set (ev "rule_id" item)
             (match sub item "count" with Ok v => int_of v | Err _ => 0 end) acc) acc (map (item_of c) l)) r =
    if mem r l then count c r else count acc r) as H; [|by apply (H [])].
  induction Hl as [|x l Hx Hl IH]; intros acc Ha; [done|]. cbn [map foldl].
  rewrite IH.
  - change (ev "rule_id" (item_of c x)) with x. change (sub (item_of c x) "count") with (Ok (VInt (count c x))).
    cbn [int_of]. unfold mem at 2. cbn [existsb]. fold (mem r l). unfold count at 2. rewrite assoc_dict_set.
    destruct (String.eqb_spec r x) as [->|]; [|done]. cbn [orb default from_option].
    destruct (mem x l); [done|]. done.
  - intros k Hk. change (ev "rule_id" (item_of c x)) with x. rewrite assoc_dict_set.
    destruct (String.eqb_spec k x) as [->|]; [by destruct Hx; apply list_elem_of_In|]. apply Ha. by right.
Qed.

Lemma tracked_counts e l flag r :
  tracks e l flag ->
  let c := finding_counts e in
  count (evidence_counts (map (item_of c) (sorted_keys c))) r = occurrences r (finding_rules l).
Proof.
  intros Ht c.
  rewrite evidence_counts_items by (apply sorted_keys_NoDup, (tracks_counted _ _ _ Ht)).
  rewrite <- (tracks_findings _ _ _ Ht). fold c. destruct (mem r (sorted_keys c)) eqn:E; [done|].
  pose proof (count_nonneg c r (tracks_counted _ _ _ Ht)) as Hn.
  destruct (Z.eq_dec (count c r) 0) as [|Hp]; [done|]. exfalso.
  assert (Hin : 0 < count c r) by lia.
  apply (proj2 (counted_key _ _ (tracks_counted _ _ _ Ht))), (proj2 (sorted_keys_In _ _)),
    (proj2 (mem_In _ _)) in Hin. fold c in Hin. congruence.
Qed.

(** What the gate answers to a report that counts something no authority can clear. *)
Lemma uncleared_decision report source job v items r :
  apply_scoring_matrix report source job = Ok v -> sub report "evidence" = Ok (VList items) ->
  In r ("payload_observation_incomplete" :: UNOVERRIDABLE_RULES) -> (0 <? count (evidence_counts items) r) = true ->
  exists d, sub v "final_decision" = Ok (VStr d) /\ In d ["DENY"; "EVALUATION_INCOMPLETE"].
Proof.
  intros Ha Hi Hr Hp. unfold apply_scoring_matrix in Ha. run_inv.
  match goal with Hx : sub report "evidence" = Ok ?x |- _ => assert (x = VList items) as -> by congruence end.
  cbn [list_of] in *. destruct (score _ _ _ _) as [decision reason]. run_inv.
  destruct (0 <? count _ "payload_observation_incomplete") eqn:Ep.
  { eexists. simplify_eq. split; [reflexivity|right; by left]. }
  assert (Hu : existsb (fun r => 0 <? count (evidence_counts items) r) UNOVERRIDABLE_RULES = true).
  { apply existsb_exists. exists r. split; [|done]. destruct Hr as [<-|Hr]; [congruence|done]. }
  rewrite Hu in Ha. eexists. simplify_eq. split; [reflexivity|by left].
Qed.

(** What an ALLOW says of the report: it counts nothing that no authority can clear. *)
Lemma allowed_counts report source job v items r :
  apply_scoring_matrix report source job = Ok v -> sub v "final_decision" = Ok (VStr "ALLOW") ->
  sub report "evidence" = Ok (VList items) -> In r ("payload_observation_incomplete" :: UNOVERRIDABLE_RULES) ->
  (0 <? count (evidence_counts items) r) = false.
Proof.
  intros Ha Hf Hi Hr. apply not_true_is_false. intros Hc.
  destruct (uncleared_decision _ _ _ _ _ _ Ha Hi Hr Hc) as (d & Hd & Hin). rewrite Hf in Hd. injection Hd as <-. cbn in Hin. naive_solver.
Qed.

(** The evidence of the report a broker builds over a tracked detector. *)
Lemma built_evidence b u l flag report :
  tracks (detector b) l flag -> build_report b u = Ok report ->
  let c := finding_counts (detector b) in sub report "evidence" = Ok (VList (map (item_of c) (sorted_keys c))).
Proof. intros Ht Hb. unfold build_report in Hb. rewrite (evidence_ok _ _ _ Ht) in Hb. run_inv. by subst. Qed.

(** ** Properties *)

(** C33: The gate implements its decision table on every schema-valid report:
    with the override the file holds for the job, it always returns a result
    that records that override, and the final decision is EVALUATION_INCOMPLETE
    if the payload observation is incomplete, else DENY if an infrastructure
    rule fired, else the human's decision if there is one, else ALLOW exactly
    for a report without evidence, canaries or foreign capabilities. *)
Theorem gate_implements_verdict (report : pyval) (items tripped caps : list pyval)
    (source : override_source) (overrides : pydict) (job h : string) :
  validate_outward_report report = Ok tt ->
  sub report "evidence" = Ok (VList items) -> sub report "canaries_tripped" = Ok (VList tripped) ->
  sub report "capabilities_requested" = Ok (VList caps) ->
  _load_override source = Ok overrides -> _decision_for_job overrides job = Ok h ->
  exists v, apply_scoring_matrix report source job = Ok v /\
    sub v "human_gate_override" = Ok (VStr h) /\
    sub v "final_decision" =
      Ok (VStr (verdict (count (evidence_counts items)) (clean items tripped caps) h)).
Proof. apply apply_final. Qed.

(** C2: No authority can clear an infrastructure failure.  If a call on the
    detector that returned reported a finding under an unoverridable rule, or an
    incomplete payload observation, then whatever capabilities were requested (the
    request refused or not), whatever the uncertainty and whatever the override file
    says: when the broker builds a report and the gate answers, the answer is DENY or
    EVALUATION_INCOMPLETE, never ALLOW.  And the report is built and the gate answers
    whenever the override file and its decision for the job can be read and the report
    fits its schema: at most 256 destinations, canaries and requested capabilities, and
    no canary name over 512 characters; outside these bounds [build_report] raises, and
    there is no decision at all. *)
Theorem failed_infrastructure_is_final (m : Z) (start : N) (ops : list op) (caps : list pyval)
    (b : CapabilityBroker) (asked : res unit) (u : pyfloat) (source : override_source) (job r : string) :
  request_capabilities (new_broker (run (new_engine m start) ops)) caps = (b, asked) ->
  In r ("payload_observation_incomplete" :: UNOVERRIDABLE_RULES) ->
  In r (finding_rules (concat (map seen ops))) ->
  (forall report v, build_report b u = Ok report -> apply_scoring_matrix report source job = Ok v ->
     exists d, sub v "final_decision" = Ok (VStr d) /\ In d ["DENY"; "EVALUATION_INCOMPLETE"]) /\
  (forall overrides h,
     Z.of_nat (length (destinations (detector b))) <= 256 -> Z.of_nat (length (canaries (detector b))) <= 256 ->
     Forall (fun kv => py_len (fst kv) <= 512) (canaries (detector b)) -> Z.of_nat (length (requested b)) <= 256 ->
     _load_override source = Ok overrides -> _decision_for_job overrides job = Ok h ->
     exists report v, build_report b u = Ok report /\ apply_scoring_matrix report source job = Ok v).
Proof.
  intros Hq Hr Hin. pose proof (asked_tracks _ _ _ _ _ _ Hq) as Ht. split.
  - intros report v Hb Ha. eapply uncleared_decision; [done|by eapply built_evidence|done|].
    apply Z.ltb_lt. rewrite (tracked_counts _ _ _ r Ht). by apply occurrences_pos.
  - intros overrides h H1 H2 H3 H4 Hl Hh.
    destruct (asked_report _ _ _ _ _ _ u Hq H1 H2 H3 H4) as [Hb Hv].
    destruct (apply_final _ _ _ _ overrides source job h Hv eq_refl eq_refl eq_refl Hl Hh) as (v & Hva & _). eauto.
Qed.

(** Without an override the gate is honest about what it saw: a
    detonation's final decision is ALLOW if and only if no finding was
    reported, no canary tripped and no capability requested beyond the
    browser's navigation. *)
Theorem autonomous_allow_iff_clean (m : Z) (start : N) (ops : list op) (caps : list pyval)
    (b : CapabilityBroker) (u : pyfloat) (job : string) :
  detonation m start ops caps b ->
  exists report v d, build_report b u = Ok report /\ apply_scoring_matrix report NoOverride job = Ok v /\
    sub v "final_decision" = Ok (VStr d) /\
    (d = "ALLOW" <-> finding_rules (concat (map seen ops)) = [] /\ canaries (detector b) = [] /\
       (requested b = [] \/ requested b = ["browser.navigate"])).
Proof.
  intros H. destruct (deto_report _ _ _ _ _ u H) as [Hb Hv]. pose proof (deto_tracks _ _ _ _ _ H) as Ht.
  set (c := finding_counts (detector b)) in *. set (items := map (item_of c) (sorted_keys c)) in *.
  destruct (apply_final (report_of b u items) items _ _ [] NoOverride job "none" Hv eq_refl eq_refl eq_refl eq_refl eq_refl)
    as (v & Hva & _ & Hf).
  do 3 eexists. split; [exact Hb|]. split; [exact Hva|]. split; [exact Hf|].
  assert (Hfound : items = [] <-> finding_rules (concat (map seen ops)) = []).
  { unfold items. rewrite map_nil_iff. pose proof (fun r => evidence_rules _ _ _ r Ht) as Hr. fold c in Hr.
    destruct (sorted_keys c) as [|x l], (finding_rules _) as [|y f]; try done.
    - destruct (proj2 (Hr y) (or_introl eq_refl)).
    - destruct (proj1 (Hr x) (or_introl eq_refl)). }
  assert (Hcan : map VStr (sorted_keys (canaries (detector b))) = [] <-> canaries (detector b) = []).
  { rewrite map_nil_iff, <- !length_zero_iff_nil, sorted_keys_length. done. }
  rewrite <- Hfound, <- Hcan. unfold verdict, clean.
  destruct items as [|i items'] eqn:Ei.
  - cbn [evidence_counts foldl]. change (0 <? count [] "payload_observation_incomplete") with false.
    change (existsb _ UNOVERRIDABLE_RULES) with false. cbn [String.eqb].
    change (("none" =? "ALLOW")%string) with false. change (("none" =? "DENY")%string) with false.
    destruct (map VStr (sorted_keys (canaries (detector b)))); [|naive_solver].
    destruct (requested b) as [|q [|]]; cbn [map]; [naive_solver| |naive_solver].
    destruct (String.eqb_spec q "browser.navigate"); naive_solver.
  - change (("none" =? "ALLOW")%string) with false. change (("none" =? "DENY")%string) with false.
    repeat case_match; naive_solver.
Qed.

(** One branch of the matrix is never taken: [cred_harvest_pattern] is itself a
    known-bad rule, so a report with any is denied by the first branch. *)
Theorem canary_reason_unreachable (n : counter) (items tripped caps : list pyval) :
  counted n -> snd (score n items tripped caps) <> "canary_credential_accessed".
Proof.
  intros Hn. unfold score. destruct (existsb _ KNOWN_BAD_RULES) eqn:E; [done|].
  assert (H : (0 <? count n "cred_harvest_pattern") = false).
  { apply not_true_is_false. intros H. enough (existsb (fun r => 0 <? count n r) KNOWN_BAD_RULES = true) by congruence.
    apply existsb_exists. exists "cred_harvest_pattern". split; [vm_compute; tauto|done]. }
  pose proof (count_nonneg n "cred_harvest_pattern" Hn).
  assert ((count n "cred_harvest_pattern" =? 0) = true) as -> by lia. rewrite andb_false_r.
  repeat case_match; done.
Qed.

End gate.

(** ** Witnesses *)
Definition no_float (_ : string) : pyfloat := FNan.

Definition allow_file : override_source :=
  OverrideFile (Some ("{" +:+ quote "job-1" +:+ ":" +:+ quote "ALLOW" +:+ "}")).

Definition lost_ops : list op := [MarkTelemetryLoss 7].
Definition lost_broker : CapabilityBroker := new_broker (run (new_engine 100 1) lost_ops).

Lemma failed_infrastructure_is_final_witness :
  exists report v d, build_report lost_broker (FFin 1 1) = Ok report /\
    apply_scoring_matrix no_float report allow_file "job-1" = Ok v /\
    sub v "final_decision" = Ok (VStr d) /\ In d ["DENY"; "EVALUATION_INCOMPLETE"].
Proof.
  destruct (failed_infrastructure_is_final no_float 100 1 lost_ops [] lost_broker (Ok tt) (FFin 1 1) allow_file "job-1" "telemetry_loss")
    as [Hfinal Hanswers]; [vm_compute; reflexivity|vm_compute; tauto|vm_compute; tauto|].
  destruct (Hanswers [("job-1", VStr "ALLOW")] "ALLOW") as (report & v & Hb & Ha);
    [vm_compute; discriminate|vm_compute; discriminate|constructor|vm_compute; discriminate|vm_compute; reflexivity|vm_compute; reflexivity|].
  destruct (Hfinal report v Hb Ha) as [d Hd]. exists report, v, d. exact (conj Hb (conj Ha Hd)).
Defined.

Definition quiet_broker : CapabilityBroker := new_broker (run (new_engine 100 1) []).

Lemma quiet_detonation : detonation 100 1 [] [] quiet_broker.
Proof. split; [vm_compute; reflexivity|vm_compute; discriminate..|constructor|vm_compute; discriminate]. Qed.

Lemma autonomous_allow_iff_clean_witness :
  exists report v, build_report quiet_broker (FFin 0 1) = Ok report /\
    apply_scoring_matrix no_float report NoOverride "job-1" = Ok v /\
    sub v "final_decision" = Ok (VStr "ALLOW").
Proof.
  destruct (autonomous_allow_iff_clean no_float 100 1 [] [] quiet_broker (FFin 0 1) "job-1" quiet_detonation)
    as (report & v & d & H1 & H2 & H3 & H4).
  exists report, v. split; [exact H1|]. split; [exact H2|]. rewrite H3, (proj2 H4); [reflexivity|].
  split; [reflexivity|]. split; [reflexivity|]. left. reflexivity.
Defined.

Definition probing_report : pyval :=
  VDict [("risk_level", VStr "suspicious");
         ("evidence", VList [VDict [("tap_category", VStr "syscall_class"); ("rule_id", VStr "sandbox_probing");
                                    ("count", VInt 3)]]);
         ("capabilities_requested", VList []); ("destinations", VList []); ("canaries_tripped", VList []);
         ("uncertainty", VInt 0)].

Lemma gate_implements_verdict_witness :
  exists v, apply_scoring_matrix no_float probing_report allow_file "job-1" = Ok v /\
    sub v "human_gate_override" = Ok (VStr "ALLOW") /\ sub v "final_decision" = Ok (VStr "ALLOW").
Proof.
  exact (gate_implements_verdict no_float probing_report
    [VDict [("tap_category", VStr "syscall_class"); ("rule_id", VStr "sandbox_probing"); ("count", VInt 3)]]
    [] [] allow_file [("job-1", VStr "ALLOW")] "job-1" "ALLOW"
    eq_refl eq_refl eq_refl eq_refl eq_refl eq_refl).
Defined.

End PolicyGate.
