(* ===== verification/BrowserContract.v ===== *)
(** * Browser probe contract v1: mote/browser_contract.py, second half

    Probe requests, v1 browser evidence, and the reducer that turns them into a
    verdict.  A validated event and a validated request are records of the
    fields of the canonical dicts the source returns; [request_val] is the dict.

    The reducer counts findings and may set [incomplete] with them.  Here each
    statement [findings[id] += 1] is a note [(id, false)], and one followed by
    [incomplete = True] a note [(id, true)]: the notes in program order give both
    the counter and the flag. *)

From stdpp Require Import base list strings sorting.
From Stdlib Require Import ZArith Lia.
From S2P Require Import Prelude PyValue Json StrOps Url UrlFacts Counter.

Local Open Scope Z_scope.

(** ** Notes, shared by both reducers *)
Module Notes.

Notation note := (string * bool)%type.

(** The [findings] counter and the [incomplete] flag after some notes. *)
Definition tally (notes : list note) : counter := foldl (fun c x => incr x c) [] (map fst notes).
Definition incomplete (notes : list note) : bool := existsb snd notes.

Definition FINDING_SEVERITIES : list (string * string) :=
  [("web_active_interaction_attempt", "CRITICAL"); ("web_blocked_egress_attempt", "HIGH");
   ("web_browser_execution_failed", "CRITICAL"); ("web_browser_lifecycle_incomplete", "CRITICAL");
   ("web_browser_sandbox_inactive", "CRITICAL"); ("web_browser_sandbox_unknown", "CRITICAL");
   ("web_browser_telemetry_loss", "CRITICAL"); ("web_cdp_telemetry_loss", "CRITICAL");
   ("web_download_attempt", "HIGH"); ("web_egress_telemetry_loss", "CRITICAL");
   ("web_event_budget_exceeded", "CRITICAL"); ("web_evidence_count_mismatch", "CRITICAL");
   ("web_evidence_schema_invalid", "CRITICAL"); ("web_evidence_sequence_gap", "CRITICAL");
   ("web_file_upload_attempt", "CRITICAL"); ("web_host_guest_network_mismatch", "CRITICAL");
   ("web_host_guest_network_unknown", "CRITICAL"); ("web_mixed_content_observed", "HIGH");
   ("web_navigation_failed", "HIGH"); ("web_navigation_missing", "CRITICAL");
   ("web_popup_attempt", "HIGH"); ("web_prompt_marker_hidden", "HIGH");
   ("web_prompt_marker_visible", "HIGH"); ("web_redirect_budget_exceeded", "CRITICAL");
   ("web_unauthorized_origin_attempt", "CRITICAL"); ("web_vm_execution_failed", "CRITICAL");
   ("web_vm_lifecycle_incomplete", "CRITICAL"); ("web_vm_telemetry_loss", "CRITICAL")].

Definition TELEMETRY_INCOMPLETE_FINDINGS : list string :=
  ["web_browser_execution_failed"; "web_browser_lifecycle_incomplete"; "web_browser_sandbox_unknown";
   "web_browser_telemetry_loss"; "web_cdp_telemetry_loss"; "web_egress_telemetry_loss";
   "web_event_budget_exceeded"; "web_evidence_count_mismatch"; "web_evidence_schema_invalid";
   "web_evidence_sequence_gap"; "web_host_guest_network_unknown"; "web_navigation_failed";
   "web_navigation_missing"; "web_redirect_budget_exceeded"; "web_vm_execution_failed";
   "web_vm_lifecycle_incomplete"; "web_vm_telemetry_loss"].

Definition finding_item (counts : counter) (finding_id : string) : res pyval :=
  match assoc finding_id FINDING_SEVERITIES with
  | Some severity =>
      Ok (VDict [("finding_id", VStr finding_id); ("count", VInt (count counts finding_id));
                 ("severity", VStr severity)])
  | None => Err KeyError
  end.

Definition _finding_items (counts : counter) : res (list pyval) :=
  map_res (finding_item counts) (List.filter (fun k => 0 <? count counts k) (sorted_keys counts)).

Definition REQUIRED_STREAMS : list string := ["browser"; "cdp"; "egress"; "vm"].
Definition MAX_EVIDENCE_EVENTS : Z := 100000.

Definition _STREAM_LOSS_FINDING (source : string) : string :=
  if String.eqb source "browser" then "web_browser_telemetry_loss"
  else if String.eqb source "cdp" then "web_cdp_telemetry_loss"
  else if String.eqb source "egress" then "web_egress_telemetry_loss" else "web_vm_telemetry_loss".

Definition closed_stream : pyval :=
  VDict [("declared_event_count", VInt 0); ("observed_event_count", VInt 0); ("complete", VBool false)].

Definition _closed_reduction (version finding_id : string) : res pyval :=
  let* items := _finding_items [(finding_id, 1)] in
  Ok (VDict [("evidence_version", VStr version); ("complete", VBool false);
             ("telemetry_incomplete", VBool true); ("fail_closed", VBool true);
             ("decision", VStr "DENY"); ("events_observed", VInt 0);
             ("streams", VDict (map (fun s => (s, closed_stream)) REQUIRED_STREAMS));
             ("findings", VList items)]).

(** [origin in allowed]; [None] is in no set of origins. *)
Definition authorized (allowed : list string) (origin : option string) : bool :=
  match origin with Some o => mem o allowed | None => false end.

(** The declared status of one stream. *)
Record stream_status := { complete : bool; event_count : Z }.

Definition check_status (status : pyval) : res stream_status :=
  raise (BrowserContractError "browser evidence stream status is malformed")
    when negb (dict_shape status ["complete"; "event_count"]);;
  let* done := sub status "complete" in
  let* n := sub status "event_count" in
  raise (BrowserContractError "browser evidence stream complete must be bool") when negb (is_bool done);;
  raise (BrowserContractError "browser evidence stream event_count is invalid")
    when negb (int_in 0 MAX_EVIDENCE_EVENTS n);;
  Ok {| complete := is_true done; event_count := int_of n |}.

Definition check_streams (streams_value : pyval) : res (list (string * stream_status)) :=
  raise (BrowserContractError "browser evidence stream set is incomplete")
    when negb (dict_shape streams_value REQUIRED_STREAMS);;
  map_res (fun source => let* status := sub streams_value source in
                         let* s := check_status status in Ok (source, s)) REQUIRED_STREAMS.

(** [sorted(l)] of integers *)
Definition sort_ints (l : list Z) : list Z := merge_sort Z.le l.

(** What the stream checks read of an event. *)
Class WebEvent (E : Type) := {
  sequence : E -> Z;
  source : E -> string;
  kind : E -> string;
  disposition : E -> string;
}.

Section streams.
Context {E : Type} `{WebEvent E}.

Definition of_source (s : string) (events : list E) : list E :=
  List.filter (fun e => String.eqb (source e) s) events.

Definition of_kind (k : string) (events : list E) : list E :=
  List.filter (fun e => String.eqb (kind e) k) events.

Definition stream_notes (events : list E) (stream : string * stream_status) : list note :=
  let '(s, status) := stream in
  let observed := of_source s events in
  (if Z.of_nat (length observed) =? event_count status then [] else [("web_evidence_count_mismatch", true)])
  ++ (if bool_decide (sort_ints (map sequence observed) = seqZ 0 (Z.of_nat (length observed))) then []
      else [("web_evidence_sequence_gap", true)])
  ++ (if complete status then [] else [(_STREAM_LOSS_FINDING s, true)]).

Definition stream_summary (events : list E) (stream : string * stream_status) : string * pyval :=
  let '(s, status) := stream in
  (s, VDict [("declared_event_count", VInt (event_count status));
             ("observed_event_count", VInt (Z.of_nat (length (of_source s events))));
             ("complete", VBool (complete status))]).

(** [not {"started", "stopped"}.issubset(lifecycle)] *)
Definition lifecycle_notes (events : list E) (s finding_id : string) : list note :=
  let lifecycle := map disposition (of_kind "lifecycle" (of_source s events)) in
  if mem "started" lifecycle && mem "stopped" lifecycle then [] else [(finding_id, true)].

Definition missing_notes (events : list E) (k finding_id : string) : list note :=
  match of_kind k events with [] => [(finding_id, true)] | _ => [] end.

Definition over_budget (n limit : Z) (finding_id : string) : list note :=
  if limit <? n then [(finding_id, true)] else [].

(** The report of a reduction, from its notes. *)
Definition reduction (version : string) (events : list E) (streams : list (string * stream_status))
    (notes : list note) : res pyval :=
  let* items := _finding_items (tally notes) in
  Ok (VDict [("evidence_version", VStr version); ("complete", VBool (negb (incomplete notes)));
             ("telemetry_incomplete", VBool (incomplete notes)); ("fail_closed", VBool (incomplete notes));
             ("decision", VStr (if incomplete notes || negb (length items =? 0)%nat then "DENY" else "ALLOW"));
             ("events_observed", VInt (Z.of_nat (length events)));
             ("streams", VDict (map (stream_summary events) streams));
             ("findings", VList items)]).

(** ** What the notes say *)

(** A note is proper when its finding has a severity and it sets [incomplete]
    exactly when its finding is listed as one of incomplete telemetry. *)
Definition proper_note (listed : list string) (n : note) : bool :=
  has_key (fst n) FINDING_SEVERITIES && Bool.eqb (snd n) (mem (fst n) listed).

Definition proper (listed : list string) (notes : list note) : bool :=
  forallb (proper_note listed) notes.

Lemma proper_app listed l1 l2 : proper listed (l1 ++ l2) = proper listed l1 && proper listed l2.
Proof. apply forallb_app. Qed.

Lemma proper_concat listed (ls : list (list note)) :
  (forall l, In l ls -> proper listed l = true) -> proper listed (concat ls) = true.
Proof.
  induction ls as [|l ls IH]; intros Hl; cbn [concat]; [done|]. rewrite proper_app, Hl by (by left).
  apply IH. intros x Hx. apply Hl. by right.
Qed.

Lemma tally_count notes id : count (tally notes) id = occurrences id (map fst notes).
Proof. unfold tally. rewrite count_foldl_incr. cbn. done. Qed.

Lemma tally_counted notes : counted (tally notes).
Proof. unfold tally. auto with counter. Qed.

Definition severity (id : string) : string := default "" (assoc id FINDING_SEVERITIES).

Definition item (c : counter) (id : string) : pyval :=
  VDict [("finding_id", VStr id); ("count", VInt (count c id)); ("severity", VStr (severity id))].

(** The finding items: the distinct noted ids, sorted, with their counts. *)
Lemma finding_items_ok listed notes :
  proper listed notes = true ->
  exists ids, _finding_items (tally notes) = Ok (map (item (tally notes)) ids) /\
    NoDup ids /\ (forall id, In id ids <-> In id (map fst notes)).
Proof.
  intros Hp. set (c := tally notes).
  assert (Hc : forall k, In k (keys c) <-> In k (map fst notes)).
  { intros k. unfold c. by rewrite (counted_key _ _ (tally_counted _)), tally_count, occurrences_pos. }
  exists (List.filter (fun k => 0 <? count c k) (sorted_keys c)).
  assert (Hin : forall id, In id (List.filter (fun k => 0 <? count c k) (sorted_keys c)) <-> In id (map fst notes)).
  { intros id. rewrite filter_In, sorted_keys_In, Hc. split; [by intros []|]. intros Hid. split; [done|].
    unfold c. rewrite tally_count. by apply Z.ltb_lt, occurrences_pos. }
  split_and!; [|apply NoDup_ListNoDup, List.NoDup_filter, NoDup_ListNoDup, sorted_keys_NoDup, tally_counted|done].
  unfold _finding_items. apply map_res_map. intros id (n & <- & Hn)%Hin%in_map_iff.
  unfold proper in Hp. rewrite forallb_forall in Hp. apply Hp, andb_true_iff in Hn as [Hk _].
  unfold finding_item, item, severity, has_key in *. by destruct (assoc (fst n) FINDING_SEVERITIES).
Qed.

(** A reduction from proper notes returns; it allows exactly when nothing was
    noted, and calls itself incomplete exactly when it lists such a finding. *)
Lemma reduction_spec version events streams notes listed :
  proper listed notes = true ->
  exists v items, reduction version events streams notes = Ok v /\
    sub v "findings" = Ok (VList items) /\
    (sub v "decision" = Ok (VStr "ALLOW") <-> notes = []) /\
    (sub v "decision" = Ok (VStr "ALLOW") \/ sub v "decision" = Ok (VStr "DENY")) /\
    sub v "complete" = Ok (VBool (negb (incomplete notes))) /\
    sub v "telemetry_incomplete" = Ok (VBool (incomplete notes)) /\
    (incomplete notes = true <->
       exists i id, In i items /\ sub i "finding_id" = Ok (VStr id) /\ In id listed).
Proof.
  intros Hp. destruct (finding_items_ok _ _ Hp) as (ids & Hi & _ & Hin). unfold reduction. rewrite Hi.
  cbn [mbind res_bind]. rewrite length_map. do 2 eexists. split; [reflexivity|]. split; [reflexivity|].
  split_and!; try reflexivity.
  - dict_eval. rewrite ok_str_eq. destruct notes as [|n notes].
    + destruct ids as [|i ids]; [done|]. destruct (proj1 (Hin i) (or_introl eq_refl)).
    + split; [|done]. destruct ids as [|i ids]; [destruct (proj2 (Hin (fst n)) (or_introl eq_refl))|].
      cbn [length Nat.eqb negb]. by rewrite orb_true_r.
  - dict_eval. destruct (_ || _); auto.
  - unfold incomplete. rewrite existsb_exists. unfold proper in Hp. rewrite forallb_forall in Hp. split.
    + intros (n & Hn & Hs). pose proof (Hp _ Hn) as [_ Hl%eqb_prop]%andb_true_iff. rewrite Hs in Hl.
      exists (item (tally notes) (fst n)), (fst n). split_and!; [|done|by apply mem_In].
      apply in_map, Hin, in_map, Hn.
    + intros (i & id & (id' & <- & Hid)%in_map_iff & Hsub & Hl). injection Hsub as ->.
      apply Hin, in_map_iff in Hid as (n & <- & Hn). exists n. split; [done|].
      apply Hp, andb_true_iff in Hn as [_ Hn%eqb_prop]. rewrite Hn. by apply mem_In.
Qed.

(** A stream whose declared status agrees with its events. *)
Record stream_sound (events : list E) (stream : string * stream_status) : Prop := {
  sound_complete : complete (snd stream) = true;
  sound_count : event_count (snd stream) = Z.of_nat (length (of_source (fst stream) events));
  sound_sequence :
    map sequence (of_source (fst stream) events)
    ≡ₚ seqZ 0 (Z.of_nat (length (of_source (fst stream) events)));
}.

Lemma seqZ_sorted n : forall m, StronglySorted Z.le (seqZ m (Z.of_nat n)).
Proof.
  induction n as [|n IH]; intros m; [by rewrite seqZ_nil by lia; constructor|].
  rewrite seqZ_cons by lia. rewrite Z.pred_succ || replace (Z.pred (Z.of_nat (S n))) with (Z.of_nat n) by lia.
  constructor; [apply IH|]. apply Forall_forall. intros x Hx%elem_of_seqZ. lia.
Qed.

Lemma sort_ints_range l n : sort_ints l = seqZ 0 (Z.of_nat n) <-> l ≡ₚ seqZ 0 (Z.of_nat n).
Proof.
  unfold sort_ints. split.
  - intros <-. symmetry. apply merge_sort_Permutation.
  - intros Hp. apply (StronglySorted_unique Z.le).
    + apply StronglySorted_merge_sort; apply _.
    + apply seqZ_sorted.
    + by rewrite merge_sort_Permutation.
Qed.

Lemma stream_notes_nil events stream : stream_notes events stream = [] <-> stream_sound events stream.
Proof.
  destruct stream as [s status]. unfold stream_notes. split.
  - intros [H1 [H2 H3]%app_nil]%app_nil. split; cbn [fst snd].
    + by destruct (complete status).
    + destruct (Z.eqb_spec (Z.of_nat (length (of_source s events))) (event_count status)); [done|discriminate].
    + apply sort_ints_range. by case_bool_decide.
  - intros [H1 H2 H3]; cbn [fst snd] in *. rewrite H1, H2, Z.eqb_refl. apply sort_ints_range in H3.
    rewrite bool_decide_eq_true_2 by done. done.
Qed.

Lemma lifecycle_nil events s id :
  lifecycle_notes events s id = [] <->
  forall d, In d ["started"; "stopped"] ->
    exists e, In e events /\ source e = s /\ kind e = "lifecycle" /\ disposition e = d.
Proof.
  unfold lifecycle_notes.
  assert (Hm : forall d, mem d (map disposition (of_kind "lifecycle" (of_source s events))) = true <->
    exists e, In e events /\ source e = s /\ kind e = "lifecycle" /\ disposition e = d).
  { intros d. rewrite mem_In, in_map_iff. unfold of_kind, of_source.
    setoid_rewrite filter_In. setoid_rewrite filter_In. setoid_rewrite String.eqb_eq. naive_solver. }
  split.
  - destruct (mem "started" _) eqn:E1; [|done]. destruct (mem "stopped" _) eqn:E2; [|done]. intros _ d [<-|[<-|[]]]; by apply Hm.
  - intros Hd. rewrite (proj2 (Hm "started")), (proj2 (Hm "stopped")); [done|apply Hd; cbn; auto..].
Qed.

Lemma missing_nil events k id :
  missing_notes events k id = [] <-> exists e, In e events /\ kind e = k.
Proof.
  unfold missing_notes, of_kind. split.
  - destruct (List.filter _ events) as [|e l] eqn:Ef; [done|]. intros _.
    assert (In e (List.filter (fun e => String.eqb (kind e) k) events)) as Hi by (rewrite Ef; by left).
    apply filter_In in Hi as [Hi Hk%String.eqb_eq]. eauto.
  - intros (e & He & Hk%String.eqb_eq). destruct (List.filter _ events) eqn:Ef; [|done].
    exfalso. assert (In e []) as []. rewrite <- Ef. by apply filter_In.
Qed.

Lemma over_budget_nil n limit id : over_budget n limit id = [] <-> n <= limit.
Proof. unfold over_budget. destruct (Z.ltb_spec limit n); split; try done; lia. Qed.

Lemma loss_proper s : proper_note TELEMETRY_INCOMPLETE_FINDINGS (_STREAM_LOSS_FINDING s, true) = true.
Proof. unfold _STREAM_LOSS_FINDING. by repeat destruct (String.eqb s _). Qed.

Lemma stream_notes_proper events stream :
  proper TELEMETRY_INCOMPLETE_FINDINGS (stream_notes events stream) = true.
Proof.
  destruct stream as [s status]. unfold stream_notes. rewrite !proper_app.
  destruct (_ =? _), (bool_decide _), (complete status); cbn [proper forallb]; rewrite ?loss_proper; reflexivity.
Qed.

Lemma single_proper listed id b (c : bool) :
  proper_note listed (id, b) = true -> proper listed (if c then [] else [(id, b)]) = true.
Proof. intros Hn. destruct c; [done|]. cbn [proper forallb]. by rewrite Hn. Qed.

Lemma lifecycle_proper events s id listed :
  proper_note listed (id, true) = true -> proper listed (lifecycle_notes events s id) = true.
Proof. apply single_proper. Qed.

Lemma missing_proper events k id listed :
  proper_note listed (id, true) = true -> proper listed (missing_notes events k id) = true.
Proof. intros Hn. unfold missing_notes. destruct (of_kind k events); [|done]. cbn [proper forallb]. by rewrite Hn. Qed.

Lemma over_budget_proper n limit id listed :
  proper_note listed (id, true) = true -> proper listed (over_budget n limit id) = true.
Proof. intros Hn. unfold over_budget. destruct (_ <? _); [|done]. cbn [proper forallb]. by rewrite Hn. Qed.

End streams.
End Notes.

Module BrowserContract.
Import Notes.

Definition CONTRACT_VERSION : string := "cindermote.browser-probe/v1".
Definition EVIDENCE_VERSION : string := "cindermote.browser-evidence/v1".
Definition MAX_AUTHORIZED_ORIGINS : Z := 16.

Definition DEFAULT_BUDGETS : pydict :=
  [("wall_clock_sec", VInt 20); ("cpu_vcpu", VInt 1); ("ram_mib", VInt 1024);
   ("max_network_bytes", VInt (16 * 1024 * 1024)); ("max_events", VInt 10000); ("max_redirects", VInt 8)].

Definition _BUDGET_RANGES : list (string * (Z * Z)) :=
  [("wall_clock_sec", (1, 60)); ("cpu_vcpu", (1, 2)); ("ram_mib", (256, 4096));
   ("max_network_bytes", (1, 64 * 1024 * 1024)); ("max_events", (1, MAX_EVIDENCE_EVENTS));
   ("max_redirects", (0, 20))].

Definition PASSIVE_NAVIGATION : pydict :=
  [("mode", VStr "passive"); ("allow_clicks", VBool false); ("allow_typing", VBool false);
   ("allow_uploads", VBool false); ("allow_downloads", VBool false);
   ("allow_permission_grants", VBool false); ("allow_popups", VBool false); ("max_tabs", VInt 1)].

Definition REQUEST_KEYS : list string :=
  ["contract_version"; "url"; "authorized_origins"; "navigation"; "budgets"].
Definition BUDGET_KEYS : list string := keys DEFAULT_BUDGETS.
Definition NAVIGATION_KEYS : list string := keys PASSIVE_NAVIGATION.
Definition EVIDENCE_KEYS : list string := ["evidence_version"; "events"; "streams"].
Definition EVENT_KEYS : list string := ["sequence"; "source"; "kind"; "origin"; "disposition"].

Definition _KIND_DISPOSITIONS : list (string * list string) :=
  [("lifecycle", ["started"; "stopped"; "failed"]); ("navigation", ["committed"; "blocked"; "failed"]);
   ("redirect", ["followed"; "blocked"]); ("network_request", ["allowed"; "blocked"]);
   ("download_attempt", ["attempted"; "blocked"]); ("file_upload_attempt", ["attempted"; "blocked"]);
   ("popup_attempt", ["attempted"; "blocked"]); ("active_interaction", ["attempted"; "blocked"]);
   ("prompt_marker", ["visible"; "hidden"]); ("mixed_content", ["observed"; "blocked"]);
   ("browser_sandbox", ["active"; "inactive"]); ("network_consistency", ["matched"; "mismatched"]);
   ("telemetry_loss", ["observed"])].

Definition _KIND_SOURCES : list (string * list string) :=
  [("lifecycle", ["browser"; "vm"]); ("navigation", ["cdp"]); ("redirect", ["cdp"]);
   ("network_request", ["cdp"; "egress"]); ("download_attempt", ["cdp"]);
   ("file_upload_attempt", ["browser"; "cdp"]); ("popup_attempt", ["cdp"]);
   ("active_interaction", ["browser"; "cdp"]); ("prompt_marker", ["browser"; "cdp"]);
   ("mixed_content", ["cdp"]); ("browser_sandbox", ["browser"; "cdp"]);
   ("network_consistency", ["egress"; "vm"]); ("telemetry_loss", REQUIRED_STREAMS)].

Definition _ORIGIN_REQUIRED_KINDS : list string := ["navigation"; "redirect"; "network_request"].

(** [actual is expected] for a bool, [==] on an int or a str of the same type. *)
Definition as_expected (expected actual : pyval) : bool :=
  match expected, actual with
  | VBool b, VBool c => Bool.eqb b c
  | VInt m, VInt n => m =? n
  | VStr s, VStr t => String.eqb s t
  | _, _ => false
  end.

Definition _validate_navigation (value : pyval) : res pydict :=
  raise (BrowserContractError "navigation has missing or extra fields")
    when negb (dict_shape value NAVIGATION_KEYS);;
  let* _ := foldM (fun _ kv =>
      let* actual := sub value (fst kv) in
      raise (BrowserContractError ("navigation." +:+ fst kv +:+ " violates passive-only mode"))
        when negb (as_expected (snd kv) actual);;
      Ok tt) PASSIVE_NAVIGATION tt in
  Ok PASSIVE_NAVIGATION.

Definition _validate_budgets (value : pyval) : res (list (string * Z)) :=
  raise (BrowserContractError "budgets has missing or extra fields")
    when negb (dict_shape value BUDGET_KEYS);;
  map_res (fun range =>
      let '(key, (minimum, maximum)) := range in
      let* candidate := sub value key in
      raise (BrowserContractError ("budgets." +:+ key +:+ " must be an integer in " +:+ dec minimum +:+ ".." +:+ dec maximum))
        when negb (int_in minimum maximum candidate);;
      Ok (key, int_of candidate)) _BUDGET_RANGES.

(** A canonical request. *)
Record probe_request := {
  req_url : string;
  authorized_origins : list string;
  budgets : list (string * Z);
}.

Definition request_val (r : probe_request) : pyval :=
  VDict [("contract_version", VStr CONTRACT_VERSION); ("url", VStr (req_url r));
         ("authorized_origins", VList (map VStr (authorized_origins r)));
         ("navigation", VDict PASSIVE_NAVIGATION);
         ("budgets", VDict (map (fun kv => (fst kv, VInt (snd kv))) (budgets r)))].

Definition budget (r : probe_request) (key : string) : Z := default 0 (assoc key (budgets r)).

(** A canonical event. *)
Record event := {
  ev_sequence : Z;
  ev_source : string;
  ev_kind : string;
  ev_origin : option string;
  ev_disposition : string;
}.

#[global] Instance web_event : WebEvent event :=
  {| sequence := ev_sequence; source := ev_source; kind := ev_kind; disposition := ev_disposition |}.

Section contract.
Context `{Unicode}.

Definition validate_probe_request (value : pyval) : res probe_request :=
  raise (BrowserContractError "browser request has missing or extra fields")
    when negb (dict_shape value REQUEST_KEYS);;
  let* version := sub value "contract_version" in
  raise (BrowserContractError "unsupported browser contract version")
    when negb (py_eq version (VStr CONTRACT_VERSION));;
  let* url_value := sub value "url" in
  let* url := normalize_url url_value in
  let* origins_value := sub value "authorized_origins" in
  raise (BrowserContractError "authorized_origins must be a bounded non-empty list")
    when negb (is_list origins_value)
         || negb (in_range 1 MAX_AUTHORIZED_ORIGINS (Z.of_nat (length (list_of origins_value))));;
  let* origins := map_res normalize_origin (list_of origins_value) in
  raise (BrowserContractError "authorized_origins contains canonical duplicates")
    when negb (bool_decide (NoDup origins));;
  let origins := sort_strs origins in
  let* origin := origin_for_url (VStr url) in
  raise (BrowserContractError "initial URL origin is not explicitly authorized")
    when negb (mem origin origins);;
  let* navigation_value := sub value "navigation" in
  let* _ := _validate_navigation navigation_value in
  let* budgets_value := sub value "budgets" in
  let* budgets := _validate_budgets budgets_value in
  Ok {| req_url := url; authorized_origins := origins; budgets := budgets |}.

Definition make_probe_request (url : pyval) (authorized_origins : option (list pyval)) (overrides : pyval)
    : res probe_request :=
  let* normalized_url := normalize_url url in
  let* origins :=
    match authorized_origins with
    | None => let* o := origin_for_url (VStr normalized_url) in Ok [VStr o]
    | Some l => Ok l
    end in
  let* merged :=
    match overrides with
    | VNone => Ok DEFAULT_BUDGETS
    | VDict d =>
        raise (BrowserContractError "budget override contains an unknown field")
          when negb (forallb (fun k => mem k BUDGET_KEYS) (keys d));;
        Ok (dict_update DEFAULT_BUDGETS d)
    | _ => Err (BrowserContractError "budget override contains an unknown field")
    end in
  validate_probe_request
    (VDict [("contract_version", VStr CONTRACT_VERSION); ("url", VStr normalized_url);
            ("authorized_origins", VList origins); ("navigation", VDict PASSIVE_NAVIGATION);
            ("budgets", VDict merged)]).

Definition validate_browser_event (value : pyval) : res event :=
  raise (BrowserContractError "browser event has missing or extra fields")
    when negb (dict_shape value EVENT_KEYS);;
  let* sequence := sub value "sequence" in
  raise (BrowserContractError "browser event sequence is invalid")
    when negb (int_in 0 (MAX_EVIDENCE_EVENTS - 1) sequence);;
  let* source := sub value "source" in
  raise (BrowserContractError "browser event source is invalid") when negb (in_list source REQUIRED_STREAMS);;
  let* kind := sub value "kind" in
  raise (BrowserContractError "browser event kind is invalid")
    when notM (in_strs kind (keys _KIND_DISPOSITIONS));;
  raise (BrowserContractError "browser event source cannot emit this kind")
    when negb (mem (str_of source) (default [] (assoc (str_of kind) _KIND_SOURCES)));;
  let* disposition := sub value "disposition" in
  raise (BrowserContractError "browser event disposition is invalid")
    when notM (in_strs disposition (default [] (assoc (str_of kind) _KIND_DISPOSITIONS)));;
  let* origin_value := sub value "origin" in
  let* origin :=
    match origin_value with
    | VNone => Ok None
    | VStr _ => let* o := normalize_origin origin_value in Ok (Some o)
    | _ => Err (BrowserContractError "browser event origin must be an origin or null")
    end in
  raise (BrowserContractError "browser event kind requires an origin")
    when mem (str_of kind) _ORIGIN_REQUIRED_KINDS && negb (bool_decide (is_Some origin));;
  Ok {| ev_sequence := int_of sequence; ev_source := str_of source; ev_kind := str_of kind;
        ev_origin := origin; ev_disposition := str_of disposition |}.

Definition validate_browser_evidence (value : pyval)
    : res (list event * list (string * stream_status)) :=
  raise (BrowserContractError "browser evidence has missing or extra fields")
    when negb (dict_shape value EVIDENCE_KEYS);;
  let* version := sub value "evidence_version" in
  raise (BrowserContractError "unsupported browser evidence version")
    when negb (py_eq version (VStr EVIDENCE_VERSION));;
  let* events_value := sub value "events" in
  raise (BrowserContractError "browser evidence events must be a bounded list")
    when negb (is_list events_value) || (MAX_EVIDENCE_EVENTS <? Z.of_nat (length (list_of events_value)));;
  let* events := map_res validate_browser_event (list_of events_value) in
  let* streams_value := sub value "streams" in
  let* streams := check_streams streams_value in
  Ok (events, streams).

(** The notes of one event, in the order of the source's tests. *)
Definition event_notes (allowed : list string) (e : event) : list note :=
  let k := ev_kind e in
  let d := ev_disposition e in
  let isk x := String.eqb k x in
  (if mem k _ORIGIN_REQUIRED_KINDS && negb (authorized allowed (ev_origin e))
   then [("web_unauthorized_origin_attempt", false)] else [])
  ++
  (if isk "network_request" && String.eqb d "blocked" then [("web_blocked_egress_attempt", false)]
   else if isk "download_attempt" then [("web_download_attempt", false)]
   else if isk "file_upload_attempt" then [("web_file_upload_attempt", false)]
   else if isk "popup_attempt" then [("web_popup_attempt", false)]
   else if isk "active_interaction" then [("web_active_interaction_attempt", false)]
   else if isk "prompt_marker" then [("web_prompt_marker_" +:+ d, false)]
   else if isk "mixed_content" then [("web_mixed_content_observed", false)]
   else if isk "browser_sandbox" && String.eqb d "inactive" then [("web_browser_sandbox_inactive", false)]
   else if isk "network_consistency" && String.eqb d "mismatched"
   then [("web_host_guest_network_mismatch", false)]
   else if isk "telemetry_loss" then [(_STREAM_LOSS_FINDING (ev_source e), true)]
   else if isk "lifecycle" && String.eqb d "failed"
   then [(if String.eqb (ev_source e) "browser" then "web_browser_execution_failed"
          else "web_vm_execution_failed", true)]
   else if isk "navigation" && mem d ["blocked"; "failed"] then [("web_navigation_failed", true)]
   else []).

Definition evidence_notes (r : probe_request) (events : list event) (streams : list (string * stream_status))
    : list note :=
  concat (map (event_notes (authorized_origins r)) events)
  ++ concat (map (stream_notes events) streams)
  ++ over_budget (Z.of_nat (length events)) (budget r "max_events") "web_event_budget_exceeded"
  ++ over_budget (Z.of_nat (length (of_kind "redirect" events))) (budget r "max_redirects")
       "web_redirect_budget_exceeded"
  ++ missing_notes events "browser_sandbox" "web_browser_sandbox_unknown"
  ++ missing_notes events "network_consistency" "web_host_guest_network_unknown"
  ++ missing_notes events "navigation" "web_navigation_missing"
  ++ lifecycle_notes events "browser" "web_browser_lifecycle_incomplete"
  ++ lifecycle_notes events "vm" "web_vm_lifecycle_incomplete".

Definition reduce_browser_evidence (evidence request : pyval) : res pyval :=
  match (let* r := validate_probe_request request in
         let* e := validate_browser_evidence evidence in Ok (r, e)) with
  | Err _ => _closed_reduction EVIDENCE_VERSION "web_evidence_schema_invalid"
  | Ok (r, (events, streams)) =>
      reduction EVIDENCE_VERSION events streams (evidence_notes r events streams)
  end.

(** ** Events the schema admits *)
Record valid_event (e : event) : Prop := {
  ve_kind : In (ev_kind e) (keys _KIND_DISPOSITIONS);
  ve_disposition : In (ev_disposition e) (default [] (assoc (ev_kind e) _KIND_DISPOSITIONS));
  ve_origin : mem (ev_kind e) _ORIGIN_REQUIRED_KINDS = true -> is_Some (ev_origin e);
}.

Lemma in_strs_true v l : in_strs v l = Ok true <-> exists s, v = VStr s /\ In s l.
Proof.
  destruct v; cbn [in_strs]; try (by split; [|intros (? & ? & ?)]). rewrite okb_ok, mem_In. naive_solver.
Qed.

Lemma validate_event_valid value e : validate_browser_event value = Ok e -> valid_event e.
Proof.
  intros He. unfold validate_browser_event in He. run_inv. subst e.
  repeat match goal with Hi : in_strs _ _ = Ok true |- _ => apply in_strs_true in Hi as (? & -> & ?) end.
  split; cbn [ev_kind ev_disposition ev_origin str_of] in *; try done.
  intros Hm. match goal with Ho : _ && _ = false |- _ => rewrite Hm in Ho; cbn [andb] in Ho;
    apply negb_false_iff, bool_decide_eq_true in Ho; exact Ho end.
Qed.

(** The events that call for no finding. *)
Definition quiet : list (string * string) :=
  [("lifecycle", "started"); ("lifecycle", "stopped"); ("navigation", "committed"); ("redirect", "followed");
   ("redirect", "blocked"); ("network_request", "allowed"); ("browser_sandbox", "active");
   ("network_consistency", "matched")].

Record benign (allowed : list string) (e : event) : Prop := {
  benign_quiet : In (ev_kind e, ev_disposition e) quiet;
  benign_origin : In (ev_kind e) _ORIGIN_REQUIRED_KINDS -> exists o, ev_origin e = Some o /\ In o allowed;
}.

(** Every kind with every disposition. *)
Ltac each_event Hv :=
  let Hk := fresh in let Hd := fresh in let Ho := fresh in
  destruct Hv as [Hk Hd Ho]; cbn [ev_kind ev_disposition ev_origin ev_source] in *;
  repeat (destruct Hk as [<-|Hk]; [cbn in Hd; repeat (destruct Hd as [<-|Hd])|]); try destruct Hd; try destruct Hk.

Lemma authorized_spec allowed origin :
  authorized allowed origin = true <-> exists o, origin = Some o /\ In o allowed.
Proof.
  destruct origin as [o|]; cbn [authorized]; [rewrite mem_In|]; naive_solver.
Qed.

Lemma event_notes_nil allowed e : valid_event e -> event_notes allowed e = [] <-> benign allowed e.
Proof.
  destruct e as [n src k o d]. intros Hv. unfold event_notes. cbn [ev_kind ev_disposition ev_origin ev_source].
  split.
  - intros Hn. split; cbn [ev_kind ev_disposition ev_origin].
    + each_event Hv; first [cbn; tauto | exfalso; destruct (authorized allowed o); discriminate Hn].
    + intros Hk%mem_In. rewrite Hk in Hn. apply authorized_spec. by destruct (authorized allowed o).
  - intros [Hq Ho]. cbn [ev_kind ev_disposition ev_origin] in *.
    assert (mem k _ORIGIN_REQUIRED_KINDS && negb (authorized allowed o) = false) as ->.
    { destruct (mem k _) eqn:Em; [|done]. apply mem_In, Ho, authorized_spec in Em. by rewrite Em. }
    cbn in Hq. repeat destruct Hq as [[= <- <-]|Hq]; done.
Qed.

Lemma event_notes_proper allowed e :
  valid_event e -> proper TELEMETRY_INCOMPLETE_FINDINGS (event_notes allowed e) = true.
Proof.
  destruct e as [n src k o d]. intros Hv. unfold event_notes. cbn [ev_kind ev_disposition ev_origin ev_source].
  rewrite proper_app. apply andb_true_iff. split; [by destruct (_ && _)|].
  each_event Hv; cbn - [proper _STREAM_LOSS_FINDING]; try reflexivity;
    cbn [proper forallb]; rewrite ?loss_proper; try reflexivity; by destruct (String.eqb src _).
Qed.

(** ** A run with nothing to report *)
Record clean_run (r : probe_request) (events : list event) (streams : list (string * stream_status)) : Prop := {
  clean_events : Forall (benign (authorized_origins r)) events;
  clean_streams : Forall (stream_sound events) streams;
  clean_budget : Z.of_nat (length events) <= budget r "max_events";
  clean_redirects : Z.of_nat (length (of_kind "redirect" events)) <= budget r "max_redirects";
  clean_sandbox : exists e, In e events /\ ev_kind e = "browser_sandbox";
  clean_network : exists e, In e events /\ ev_kind e = "network_consistency";
  clean_navigation : exists e, In e events /\ ev_kind e = "navigation";
  clean_lifecycle : forall s d, In s ["browser"; "vm"] -> In d ["started"; "stopped"] ->
    exists e, In e events /\ ev_source e = s /\ ev_kind e = "lifecycle" /\ ev_disposition e = d;
}.

Lemma concat_nil {A B} (f : A -> list B) l : concat (map f l) = [] <-> Forall (fun x => f x = []) l.
Proof.
  induction l as [|x l IH]; cbn; [by split|]. rewrite Forall_cons, <- IH. split; [by intros [? ?]%app_nil|].
  by intros [-> ->].
Qed.

Lemma evidence_notes_nil r events streams :
  Forall valid_event events -> evidence_notes r events streams = [] <-> clean_run r events streams.
Proof.
  intros Hv. unfold evidence_notes.
  assert (He : concat (map (event_notes (authorized_origins r)) events) = [] <->
    Forall (benign (authorized_origins r)) events).
  { rewrite concat_nil. split; intros Hf; rewrite Forall_forall in *; intros e Hin;
      specialize (Hf e Hin); by apply event_notes_nil; [apply Hv|]. }
  assert (Hs : concat (map (stream_notes events) streams) = [] <-> Forall (stream_sound events) streams).
  { rewrite concat_nil. by setoid_rewrite stream_notes_nil. }
  split.
  - intros Hn. repeat (let Hx := fresh "Hx" in apply app_nil in Hn as [Hx Hn]).
    rewrite He in Hx. rewrite Hs in Hx0. rewrite over_budget_nil in Hx1, Hx2.
    rewrite missing_nil in Hx3, Hx4, Hx5. rewrite lifecycle_nil in Hx6, Hn.
    split; try done. intros s d [<-|[<-|[]]]; [apply Hx6|apply Hn].
  - intros [H1%He H2%Hs H3 H4 H5 H6 H7 H8]. rewrite H1, H2.
    rewrite (proj2 (over_budget_nil _ _ _) H3), (proj2 (over_budget_nil _ _ _) H4).
    rewrite (proj2 (missing_nil events "browser_sandbox" _)) by exact H5.
    rewrite (proj2 (missing_nil events "network_consistency" _)) by exact H6.
    rewrite (proj2 (missing_nil events "navigation" _)) by exact H7.
    rewrite !(proj2 (lifecycle_nil _ _ _)); [done|intros d; apply H8; cbn; auto..].
Qed.

Lemma evidence_notes_proper r events streams :
  Forall valid_event events -> proper TELEMETRY_INCOMPLETE_FINDINGS (evidence_notes r events streams) = true.
Proof.
  intros Hv. unfold evidence_notes. rewrite !proper_app.
  rewrite !proper_concat, !over_budget_proper, !missing_proper, !lifecycle_proper; try reflexivity.
  - intros l (x & <- & _)%in_map_iff. apply stream_notes_proper.
  - intros l (e & <- & He)%in_map_iff. apply event_notes_proper. rewrite List.Forall_forall in Hv. by apply Hv.
Qed.

Lemma evidence_events_valid value events streams :
  validate_browser_evidence value = Ok (events, streams) -> Forall valid_event events.
Proof.
  intros Hv. unfold validate_browser_evidence in Hv. run_inv. simplify_eq.
  match goal with Hm : map_res validate_browser_event _ = Ok _ |- _ => apply List.Forall_forall; intros e He;
    apply (map_res_In _ _ _ _ Hm) in He as (w & _ & He) end.
  by eapply validate_event_valid.
Qed.

Lemma closed_reduction_spec version :
  exists v, _closed_reduction version "web_evidence_schema_invalid" = Ok v /\
    sub v "decision" = Ok (VStr "DENY") /\ sub v "complete" = Ok (VBool false).
Proof. by eexists. Qed.

(** The v1 reducer always answers, and answers ALLOW exactly for a clean
    run: a valid request and valid evidence in which every event is benign with
    an authorized origin, every stream is complete with as many events as
    declared and sequence numbers 0 to n-1 in some order, both budgets hold, a
    sandbox, a network-consistency and a navigation event are present, and the
    browser and the VM both started and stopped.  Every other input is DENY. *)
Theorem reduce_v1_allow_iff (evidence request : pyval) :
  exists v, reduce_browser_evidence evidence request = Ok v /\
    (sub v "decision" = Ok (VStr "ALLOW") \/ sub v "decision" = Ok (VStr "DENY")) /\
    (sub v "decision" = Ok (VStr "ALLOW") <->
     exists r events streams, validate_probe_request request = Ok r /\
       validate_browser_evidence evidence = Ok (events, streams) /\ clean_run r events streams).
Proof.
  unfold reduce_browser_evidence.
  destruct (validate_probe_request request) as [r|x] eqn:Er; cbn [mbind res_bind].
  2: { destruct (closed_reduction_spec EVIDENCE_VERSION) as (v & -> & Hd & _). exists v.
       rewrite Hd. split_and!; try done; [by right|split; [done|by intros (? & ? & ? & ? & _)]]. }
  destruct (validate_browser_evidence evidence) as [[events streams]|x] eqn:Ee; cbn [mbind res_bind].
  2: { destruct (closed_reduction_spec EVIDENCE_VERSION) as (v & -> & Hd & _). exists v.
       rewrite Hd. split_and!; try done; [by right|split; [done|by intros (? & ? & ? & _ & ? & _)]]. }
  pose proof (evidence_events_valid _ _ _ Ee) as Hv.
  destruct (reduction_spec EVIDENCE_VERSION events streams _ _ (evidence_notes_proper r events streams Hv))
    as (v & items & Hr & _ & Ha & Hd & _).
  exists v. split; [done|]. split; [done|]. rewrite Ha, (evidence_notes_nil _ _ _ Hv). split.
  - intros Hc. by exists r, events, streams.
  - intros (? & ? & ? & [= <-] & [= <- <-] & Hc). done.
Qed.

(** The v1 reducer's labels agree with its flag: on valid inputs it says the
    telemetry is incomplete exactly when it lists a finding of
    [TELEMETRY_INCOMPLETE_FINDINGS], so a summary cannot be relabelled complete
    without dropping a finding. *)
Theorem reduce_v1_incomplete_iff_listed (evidence request : pyval) (r : probe_request)
    (events : list event) (streams : list (string * stream_status)) :
  validate_probe_request request = Ok r -> validate_browser_evidence evidence = Ok (events, streams) ->
  exists v items flag, reduce_browser_evidence evidence request = Ok v /\
    sub v "findings" = Ok (VList items) /\ sub v "telemetry_incomplete" = Ok (VBool flag) /\
    sub v "complete" = Ok (VBool (negb flag)) /\
    (flag = true <-> exists i id, In i items /\ sub i "finding_id" = Ok (VStr id) /\
                       In id TELEMETRY_INCOMPLETE_FINDINGS).
Proof.
  intros Hr He. unfold reduce_browser_evidence. rewrite Hr. cbn [mbind res_bind]. rewrite He.
  cbn [mbind res_bind]. pose proof (evidence_events_valid _ _ _ He) as Hv.
  destruct (reduction_spec EVIDENCE_VERSION events streams _ _ (evidence_notes_proper r events streams Hv))
    as (v & items & Hd & Hi & _ & _ & Hc & Ht & Hf).
  exists v, items, (incomplete (evidence_notes r events streams)). split_and!; done.
Qed.

(** ** Requests *)
Lemma int_in_inv lo hi v : int_in lo hi v = true -> exists z, v = VInt z /\ in_range lo hi z = true.
Proof. destruct v; cbn [int_in]; try done. eauto. Qed.

(** The budgets a request may carry. *)
Definition in_ranges (b : list (string * Z)) : Prop :=
  Forall2 (fun r kv => fst kv = fst r /\ fst (snd r) <= snd kv <= snd (snd r)) _BUDGET_RANGES b.

Lemma validate_budgets_ranges v b : _validate_budgets v = Ok b -> in_ranges b.
Proof.
  intros Hb. unfold _validate_budgets in Hb. run_inv. apply map_res_ok in Hb. unfold in_ranges.
  eapply Forall2_impl; [exact Hb|]. intros [k [lo hi]] kv Hk. cbn beta iota in Hk. run_inv. subst kv.
  match goal with Hi : int_in _ _ _ = true |- _ => apply int_in_inv in Hi as (z & -> & Hi) end.
  cbn [fst snd int_of]. unfold in_range in *. split; [done|]. lia.
Qed.

Lemma validate_budgets_val b :
  in_ranges b -> _validate_budgets (VDict (map (fun kv => (fst kv, VInt (snd kv))) b)) = Ok b.
Proof.
  unfold in_ranges, _BUDGET_RANGES. intros Hb.
  repeat match goal with
  | H : Forall2 _ (_ :: _) _ |- _ =>
      let z := fresh "z" in let k := fresh "k" in let Hk := fresh in
      apply Forall2_cons_inv_l in H as ([k z] & ? & [Hk ?] & H & ->); cbn [fst snd] in *; subst k
  | H : Forall2 _ [] _ |- _ => apply Forall2_nil_inv_l in H as ->
  end.
  cbn [map fst snd]. unfold _validate_budgets, _BUDGET_RANGES. dict_eval. cbn [map_res].
  repeat (dict_eval; match goal with |- context [int_in ?lo ?hi (VInt ?z)] =>
    assert (int_in lo hi (VInt z) = true) as -> by (cbn [int_in]; unfold in_range; lia) end;
    cbn [negb okb raise_if int_of mbind res_bind]).
  reflexivity.
Qed.

Lemma validate_passive : _validate_navigation (VDict PASSIVE_NAVIGATION) = Ok PASSIVE_NAVIGATION.
Proof. reflexivity. Qed.

Lemma normalize_origin_for_url v o : normalize_origin v = Ok o -> origin_for_url v = Ok o.
Proof.
  unfold normalize_origin, origin_for_url. intros Ho. run_inv. subst.
  repeat match goal with Hx : _ = Ok _ |- _ => rewrite Hx; clear Hx; cbn [mbind res_bind] end. done.
Qed.

Context `{!UnicodeLaws}.

Lemma normalize_origin_fixpoint v o : normalize_origin v = Ok o -> normalize_origin (VStr o) = Ok o.
Proof. intros Ho%normalize_origin_for_url. by eapply origin_fixpoint. Qed.

(** What validation guarantees of a request. *)
Record canonical_request (r : probe_request) : Prop := {
  cr_url : normalize_url (VStr (req_url r)) = Ok (req_url r);
  cr_origins : Forall (fun o => normalize_origin (VStr o) = Ok o) (authorized_origins r);
  cr_nodup : NoDup (authorized_origins r);
  cr_sorted : sort_strs (authorized_origins r) = authorized_origins r;
  cr_size : 1 <= Z.of_nat (length (authorized_origins r)) <= MAX_AUTHORIZED_ORIGINS;
  cr_target : exists o, origin_for_url (VStr (req_url r)) = Ok o /\ In o (authorized_origins r);
  cr_budgets : in_ranges (budgets r);
}.

Lemma sort_strs_idemp l : sort_strs (sort_strs l) = sort_strs l.
Proof.
  unfold sort_strs. f_equal. rewrite map_map.
  rewrite (map_ext (fun x : string * unit => (fst x, tt)) id) by (by intros [? []]). rewrite map_id.
  apply sort_items_idemp.
Qed.

Lemma validated_canonical value r : validate_probe_request value = Ok r -> canonical_request r.
Proof.
  intros Hr. unfold validate_probe_request in Hr. run_inv. subst r.
  repeat match goal with Hb : bool_decide _ = true |- _ => apply bool_decide_eq_true in Hb end.
  match goal with Hm : map_res normalize_origin _ = Ok ?l |- _ =>
    rename l into origins; pose proof (map_res_length _ _ _ Hm) as Hlen;
    pose proof (fun o => map_res_In _ _ _ o Hm) as Hin end.
  match goal with Hn : normalize_url _ = Ok ?u |- _ => rename u into url; rename Hn into Hurl end.
  split; cbn [req_url authorized_origins budgets].
  - apply normalize_url_form in Hurl as (? & ? & ? & ? & Hf & Hl). by eapply normalize_url_fixpoint.
  - rewrite sort_strs_perm. apply List.Forall_forall. intros o (w & _ & Ho)%Hin.
    by eapply normalize_origin_fixpoint.
  - by rewrite sort_strs_perm.
  - apply sort_strs_idemp.
  - rewrite (Permutation_length (sort_strs_perm _)), Hlen. unfold in_range in *. lia.
  - match goal with Ho : origin_for_url _ = Ok ?o |- _ => exists o; split; [done|by apply mem_In] end.
  - by eapply validate_budgets_ranges.
Qed.

Lemma canonical_validates r : canonical_request r -> validate_probe_request (request_val r) = Ok r.
Proof.
  intros [Hu Ho Hd Hs [H1 H2] (o & Ht & Hin) Hb]. destruct r as [url origins b]. cbn [req_url authorized_origins budgets] in *.
  unfold validate_probe_request, request_val. cbn [req_url authorized_origins budgets]. dict_eval.
  rewrite (proj2 (py_eq_str _ _) eq_refl). cbn [negb okb raise_if]. rewrite Hu. cbn [mbind res_bind].
  rewrite length_map. assert (in_range 1 MAX_AUTHORIZED_ORIGINS (Z.of_nat (length origins)) = true) as ->
    by (unfold in_range; lia). cbn [is_list negb orb okb raise_if].
  assert (map_res normalize_origin (map VStr origins) = Ok origins) as ->.
  { rewrite (map_res_map _ str_of); [|intros x (s & <- & Hx)%in_map_iff; rewrite List.Forall_forall in Ho; by apply Ho].
    by rewrite map_map, map_id. }
  cbn [mbind res_bind]. rewrite bool_decide_eq_true_2 by done. cbn [negb okb raise_if]. rewrite Hs, Ht.
  cbn [mbind res_bind]. rewrite (proj2 (mem_In _ _) Hin). cbn [negb okb raise_if].
  rewrite validate_passive. cbn [mbind res_bind]. rewrite validate_budgets_val by done. reflexivity.
Qed.

(** An accepted probe request is canonical and stays accepted: its URL and
    every authorized origin are their own canonical forms, the origins are
    sorted, distinct and at most 16, the URL's origin is one of them, every
    budget is within its range, and validating the returned request again
    returns it unchanged, in passive mode. *)
Theorem validated_request_canonical (value : pyval) (r : probe_request) :
  validate_probe_request value = Ok r ->
  canonical_request r /\ validate_probe_request (request_val r) = Ok r.
Proof.
  intros Hr%validated_canonical. split; [done|]. by apply canonical_validates.
Qed.

(** Asking to probe any acceptable URL with the defaults succeeds: the
    request authorizes exactly the URL's own origin and carries the default
    budgets. *)
Theorem default_request_succeeds (v : pyval) (u : string) :
  normalize_url v = Ok u ->
  exists r o, make_probe_request v None VNone = Ok r /\ origin_for_url v = Ok o /\
    req_url r = u /\ authorized_origins r = [o] /\
    map (fun kv => (fst kv, VInt (snd kv))) (budgets r) = DEFAULT_BUDGETS.
Proof.
  intros Hn. destruct (normalize_url_form v u Hn) as (sc & a & p & q & Hf & Hl).
  pose proof (normalize_url_fixpoint _ _ _ _ _ Hf Hl) as Hfix.
  set (o := sc +:+ "://" +:+ a).
  assert (Ho : forall w, normalize_url w = Ok u -> origin_for_url w = Ok o).
  { intros w Hw. apply origin_for_url_form. by exists u, sc, a, p, q. }
  set (b := [("wall_clock_sec", 20); ("cpu_vcpu", 1); ("ram_mib", 1024); ("max_network_bytes", 16 * 1024 * 1024);
             ("max_events", 10000); ("max_redirects", 8)]).
  exists {| req_url := u; authorized_origins := [o]; budgets := b |}, o.
  split_and!; try reflexivity; [|by apply Ho].
  unfold make_probe_request. rewrite Hn. cbn [mbind res_bind]. rewrite (Ho (VStr u) Hfix). cbn [mbind res_bind].
  apply (canonical_validates {| req_url := u; authorized_origins := [o]; budgets := b |}).
  split; cbn [req_url authorized_origins budgets]; try done.
  - constructor; [|constructor]. eapply origin_fixpoint, Ho, Hn.
  - by apply NoDup_singleton.
  - exists o. split; [by apply Ho|by left].
  - unfold in_ranges, b, _BUDGET_RANGES, MAX_EVIDENCE_EVENTS. repeat constructor; cbn; lia.
Qed.

End contract.

(** ** Witnesses *)
Definition sample_request : pyval :=
  VDict [("contract_version", VStr CONTRACT_VERSION); ("url", VStr "https://Shop.Example.com/cart?x=1");
         ("authorized_origins", VList [VStr "https://shop.example.com"; VStr "https://cdn.example.net:8443"]);
         ("navigation", VDict PASSIVE_NAVIGATION); ("budgets", VDict DEFAULT_BUDGETS)].

Definition event_val (n : Z) (src k d : string) (o : pyval) : pyval :=
  VDict [("sequence", VInt n); ("source", VStr src); ("kind", VStr k); ("origin", o); ("disposition", VStr d)].

Definition status_val (n : Z) : pyval := VDict [("complete", VBool true); ("event_count", VInt n)].

Definition sample_evidence : pyval :=
  VDict [("evidence_version", VStr EVIDENCE_VERSION);
         ("events", VList
           [event_val 0 "browser" "lifecycle" "started" VNone; event_val 1 "browser" "browser_sandbox" "active" VNone;
            event_val 2 "browser" "lifecycle" "stopped" VNone;
            event_val 1 "cdp" "network_request" "allowed" (VStr "https://cdn.example.net:8443");
            event_val 0 "cdp" "navigation" "committed" (VStr "https://shop.example.com");
            event_val 0 "egress" "network_consistency" "matched" VNone;
            event_val 0 "vm" "lifecycle" "started" VNone; event_val 1 "vm" "lifecycle" "stopped" VNone]);
         ("streams", VDict [("browser", status_val 3); ("cdp", status_val 2); ("egress", status_val 1);
                            ("vm", status_val 2)])].

#[local] Existing Instance ascii_unicode.

Definition ok_or {A} (d : A) (r : res A) : A := match r with Ok a => a | Err _ => d end.

Definition sample_probe : probe_request :=
  ok_or {| req_url := ""; authorized_origins := []; budgets := [] |} (validate_probe_request sample_request).

(** A clean run is allowed. *)
Example sample_allowed :
  sub (ok_or VNone (reduce_browser_evidence sample_evidence sample_request)) "decision" = Ok (VStr "ALLOW").
Proof. vm_compute. reflexivity. Qed.

Lemma validated_request_canonical_witness :
  validate_probe_request (request_val sample_probe) = Ok sample_probe /\
  authorized_origins sample_probe = ["https://cdn.example.net:8443"; "https://shop.example.com"].
Proof.
  split; [|vm_compute; reflexivity].
  exact (proj2 (validated_request_canonical sample_request sample_probe ltac:(vm_compute; reflexivity))).
Defined.

Lemma default_request_succeeds_witness :
  exists r o, make_probe_request (VStr "HTTP://news.example.org:80/a") None VNone = Ok r /\
    req_url r = "http://news.example.org/a" /\ authorized_origins r = [o].
Proof.
  destruct (default_request_succeeds (VStr "HTTP://news.example.org:80/a") "http://news.example.org/a"
    ltac:(vm_compute; reflexivity)) as (r & o & H1 & _ & H2 & H3 & _).
  exists r, o. exact (conj H1 (conj H2 H3)).
Defined.

(** A lost stream: one flag short of the clean run. *)
Definition lossy_evidence : pyval :=
  VDict [("evidence_version", VStr EVIDENCE_VERSION);
         ("events", VList [event_val 0 "egress" "telemetry_loss" "observed" VNone]);
         ("streams", VDict [("browser", status_val 0); ("cdp", status_val 0); ("egress", status_val 1);
                            ("vm", status_val 0)])].

Lemma reduce_v1_incomplete_iff_listed_witness :
  exists v, reduce_browser_evidence lossy_evidence sample_request = Ok v /\
    sub v "telemetry_incomplete" = Ok (VBool true).
Proof.
  destruct (reduce_v1_incomplete_iff_listed lossy_evidence sample_request sample_probe
    (fst (ok_or ([], []) (validate_browser_evidence lossy_evidence)))
    (snd (ok_or ([], []) (validate_browser_evidence lossy_evidence))))
    as (v & items & flag & H1 & _ & H3 & _ & _); [vm_compute; reflexivity..|].
  exists v. split; [exact H1|]. rewrite H3. f_equal. f_equal. revert H1 H3. vm_compute.
  intros [= <-]. cbn. intros [= <-]. reflexivity.
Defined.

End BrowserContract.
