(* ===== verification/BrowserEvidence.v ===== *)
(** * Browser evidence v2: mote/browser_evidence.py

    Host-owned evidence in which a web origin (from CDP or a plain HTTP proxy
    request) and an HTTPS CONNECT authority (from the proxy) are different
    witnesses: how an authority is canonicalized, which event may carry which
    witness, and the v2 reducer. *)

From stdpp Require Import base list strings sorting.
From Stdlib Require Import ZArith Lia.
From S2P Require Import Prelude PyValue Json JsonFacts StrOps Ip Url UrlFacts Counter BrowserContract.

Local Open Scope Z_scope.

(** [str.isdigit] and [int] on text outside ASCII. *)
Class UnicodeDigits := {
  u_isdigit : string -> bool;
  u_int : string -> option Z;     (** [None]: [ValueError] *)
}.

Module BrowserEvidence.
Import Notes.

Definition EVIDENCE_VERSION : string := "cindermote.browser-evidence/v2".
Definition EVENT_KEYS : list string :=
  ["sequence"; "source"; "kind"; "web_origin"; "connect_authority"; "disposition"].
Definition EVIDENCE_KEYS : list string := ["evidence_version"; "events"; "streams"].

Definition _KIND_DISPOSITIONS : list (string * list string) :=
  [("lifecycle", ["started"; "stopped"; "failed"]); ("navigation", ["committed"; "blocked"; "failed"]);
   ("redirect", ["followed"; "blocked"]); ("network_request", ["allowed"; "blocked"]);
   ("download_attempt", ["attempted"; "blocked"]); ("file_upload_attempt", ["attempted"; "blocked"]);
   ("popup_attempt", ["attempted"; "blocked"]); ("active_interaction", ["attempted"; "blocked"]);
   ("prompt_marker", ["visible"; "hidden"]); ("mixed_content", ["observed"; "blocked"]);
   ("browser_sandbox", ["active"; "inactive"]); ("telemetry_loss", ["observed"])].

Definition _KIND_SOURCES : list (string * list string) :=
  [("lifecycle", ["browser"; "vm"]); ("navigation", ["cdp"]); ("redirect", ["cdp"]);
   ("network_request", ["cdp"; "egress"]); ("download_attempt", ["cdp"]);
   ("file_upload_attempt", ["browser"; "cdp"]); ("popup_attempt", ["cdp"]);
   ("active_interaction", ["browser"; "cdp"]); ("prompt_marker", ["browser"; "cdp"]);
   ("mixed_content", ["cdp"]); ("browser_sandbox", ["browser"; "cdp"]); ("telemetry_loss", REQUIRED_STREAMS)].

Definition _WEB_ORIGIN_REQUIRED_KINDS : list string := ["navigation"; "redirect"].

Definition TELEMETRY_INCOMPLETE_FINDINGS : list string :=
  List.filter (fun f => negb (mem f ["web_host_guest_network_mismatch"; "web_host_guest_network_unknown"]))
    Notes.TELEMETRY_INCOMPLETE_FINDINGS.

(** The ASCII characters [str.strip] removes. *)
Definition strip_char (c : Ascii.ascii) : bool :=
  in_range 9 13 (byte_of c) || in_range 28 32 (byte_of c).

Fixpoint last_is (p : Ascii.ascii -> bool) (s : string) : bool :=
  match s with
  | EmptyString => false
  | String c EmptyString => p c
  | String _ r => last_is p r
  end.

(** [value != value.strip()] *)
Definition padded (s : string) : bool := first_is strip_char s || last_is strip_char s || strips s.

Definition has_delimiter (s : string) : bool := existsb (fun z => has_char z s) [47; 63; 35; 64; 92].

(** A canonical event. *)
Record event := {
  ev_sequence : Z;
  ev_source : string;
  ev_kind : string;
  web_origin : option string;
  connect_authority : option string;
  ev_disposition : string;
}.

#[global] Instance web_event : WebEvent event :=
  {| sequence := ev_sequence; source := ev_source; kind := ev_kind; disposition := ev_disposition |}.

Section evidence.
Context `{Unicode} `{UnicodeDigits}.

(** [s.isdigit()] *)
Definition isdigit (s : string) : bool :=
  if isascii s then negb (String.eqb s "") && str_forall is_digit s else u_isdigit s.

(** [int(s)] of a text [isdigit] accepts *)
Definition int_of_digits (s : string) : res Z :=
  if isascii s then
    if (MAX_STR_DIGITS <? String.length s)%nat then Err (ValueError "Exceeds the limit for integer string conversion")
    else Ok (digits_value 0 s)
  else match u_int s with Some n => Ok n | None => Err (ValueError "invalid literal for int()") end.

Definition normalize_connect_authority (value : pyval) : res string :=
  raise (BrowserContractError "CONNECT authority must be canonical host:port")
    when negb (is_str value) || String.eqb (str_of value) "" || padded (str_of value)
         || negb (count_char 58 (str_of value) =? 1) || has_delimiter (str_of value);;
  let '(raw_host, _, raw_port) := rpartition 58 (str_of value) in
  raise (BrowserContractError "CONNECT authority must include an explicit port")
    when String.eqb raw_host "" || negb (isdigit raw_port);;
  let* port := int_of_digits raw_port in
  raise (BrowserContractError "CONNECT authority port is invalid") when negb (in_range 1 65535 port);;
  let* origin := normalize_origin (VStr ("https://" +:+ raw_host +:+ ":" +:+ dec port)) in
  let* parsed := urlsplit origin in
  match hostname_of (p_netloc parsed) with
  | None => Err (BrowserContractError "CONNECT authority hostname is invalid")
  | Some hostname => Ok (hostname +:+ ":" +:+ dec port)
  end.

(** [port or 443] *)
Definition port_or_443 (port : option Z) : Z :=
  match port with Some p => if p =? 0 then 443 else p | None => 443 end.

Definition connect_authority_for_origin (value : pyval) : res string :=
  let* origin := normalize_origin value in
  let* parsed := urlsplit origin in
  match hostname_of (p_netloc parsed) with
  | Some hostname =>
      raise (BrowserContractError "CONNECT authority requires an HTTPS origin")
        when negb (String.eqb (p_scheme parsed) "https");;
      let* port := port_of (p_netloc parsed) in
      Ok (hostname +:+ ":" +:+ dec (port_or_443 port))
  | None => Err (BrowserContractError "CONNECT authority requires an HTTPS origin")
  end.

(** [urlsplit(origin).scheme] *)
Definition scheme_of (origin : string) : res string :=
  let* parsed := urlsplit origin in Ok (p_scheme parsed).

(** An optional witness field: null, or a string normalized by [f]. *)
Definition witness_field (value : pyval) (f : pyval -> res string) (msg : string) : res (option string) :=
  match value with
  | VNone => Ok None
  | VStr _ => let* w := f value in Ok (Some w)
  | _ => Err (BrowserContractError msg)
  end.

Definition absent {A} (o : option A) : bool := match o with None => true | Some _ => false end.

(** Which witness an event of this kind and source must, or must not, carry. *)
Definition check_witness (kind source : string) (web_origin connect_authority : option string) : res unit :=
  raise (BrowserContractError "browser event interchanges independent witnesses")
    when negb (absent web_origin) && negb (absent connect_authority);;
  if mem kind _WEB_ORIGIN_REQUIRED_KINDS then
    raise (BrowserContractError "CDP event requires a web origin")
      when absent web_origin || negb (absent connect_authority);;
    Ok tt
  else if String.eqb kind "network_request" then
    if String.eqb source "cdp" then
      raise (BrowserContractError "CDP network evidence requires a web origin")
        when absent web_origin || negb (absent connect_authority);;
      Ok tt
    else if String.eqb source "egress" then
      raise (BrowserContractError "proxy network evidence requires exactly one witness type")
        when Bool.eqb (absent web_origin) (absent connect_authority);;
      raise (BrowserContractError "proxy web-origin evidence is limited to plain HTTP")
        when match web_origin with
             | Some o => let* s := scheme_of o in Ok (negb (String.eqb s "http"))
             | None => false
             end;;
      Ok tt
    else Ok tt
  else
    raise (BrowserContractError "browser event kind cannot carry a destination")
      when negb (absent web_origin) || negb (absent connect_authority);;
    Ok tt.

Definition validate_browser_event (value : pyval) : res event :=
  raise (BrowserContractError "browser event has missing or extra fields")
    when negb (dict_shape value EVENT_KEYS);;
  let* sequence := sub value "sequence" in
  raise (BrowserContractError "browser event sequence is invalid")
    when negb (int_in 0 (MAX_EVIDENCE_EVENTS - 1) sequence);;
  let* source := sub value "source" in
  raise (BrowserContractError "browser event source is invalid") when negb (in_list source REQUIRED_STREAMS);;
  let* kind := sub value "kind" in
  raise (BrowserContractError "browser event source cannot emit this kind")
    when notM (in_strs kind (keys _KIND_DISPOSITIONS))
         or' negb (mem (str_of source) (default [] (assoc (str_of kind) _KIND_SOURCES)));;
  let* disposition := sub value "disposition" in
  raise (BrowserContractError "browser event disposition is invalid")
    when notM (in_strs disposition (default [] (assoc (str_of kind) _KIND_DISPOSITIONS)));;
  let* raw_origin := sub value "web_origin" in
  let* web_origin := witness_field raw_origin normalize_origin "browser event web_origin is invalid" in
  let* raw_authority := sub value "connect_authority" in
  let* connect_authority :=
    witness_field raw_authority normalize_connect_authority "browser event connect_authority is invalid" in
  let* _ := check_witness (str_of kind) (str_of source) web_origin connect_authority in
  Ok {| ev_sequence := int_of sequence; ev_source := str_of source; ev_kind := str_of kind;
        web_origin := web_origin; connect_authority := connect_authority;
        ev_disposition := str_of disposition |}.

Definition validate_browser_evidence (value : pyval)
    : res (list event * list (string * stream_status)) :=
  raise (BrowserContractError "browser evidence has missing or extra fields")
    when negb (dict_shape value EVIDENCE_KEYS);;
  let* version := sub value "evidence_version" in
  raise (BrowserContractError "unsupported browser evidence version")
    when negb (py_eq version (VStr EVIDENCE_VERSION));;
  let* raw_events := sub value "events" in
  raise (BrowserContractError "browser evidence events must be a bounded list")
    when negb (is_list raw_events) || (MAX_EVIDENCE_EVENTS <? Z.of_nat (length (list_of raw_events)));;
  let* events := map_res validate_browser_event (list_of raw_events) in
  let* raw_streams := sub value "streams" in
  let* streams := check_streams raw_streams in
  Ok (events, streams).

(** A witness, if there is one, is among the allowed ones. *)
Definition foreign (w : option string) (allowed : list string) : bool :=
  match w with Some x => negb (mem x allowed) | None => false end.

Definition event_notes (allowed_origins allowed_authorities : list string) (e : event) : list note :=
  let k := ev_kind e in
  let d := ev_disposition e in
  let isk x := String.eqb k x in
  let unauthorized := ("web_unauthorized_origin_attempt", false) in
  (if mem k _WEB_ORIGIN_REQUIRED_KINDS && negb (authorized allowed_origins (web_origin e)) then [unauthorized] else [])
  ++
  (if isk "network_request" then
     (if foreign (web_origin e) allowed_origins then [unauthorized] else [])
     ++ (if foreign (connect_authority e) allowed_authorities then [unauthorized] else [])
     ++ (if String.eqb d "blocked" then [("web_blocked_egress_attempt", false)] else [])
   else if isk "download_attempt" then [("web_download_attempt", false)]
   else if isk "file_upload_attempt" then [("web_file_upload_attempt", false)]
   else if isk "popup_attempt" then [("web_popup_attempt", false)]
   else if isk "active_interaction" then [("web_active_interaction_attempt", false)]
   else if isk "prompt_marker" then [("web_prompt_marker_" +:+ d, false)]
   else if isk "mixed_content" then [("web_mixed_content_observed", false)]
   else if isk "browser_sandbox" && String.eqb d "inactive" then [("web_browser_sandbox_inactive", false)]
   else if isk "telemetry_loss" then [(_STREAM_LOSS_FINDING (ev_source e), true)]
   else if isk "lifecycle" && String.eqb d "failed"
   then [(if String.eqb (ev_source e) "browser" then "web_browser_execution_failed"
          else "web_vm_execution_failed", true)]
   else if isk "navigation" && mem d ["blocked"; "failed"] then [("web_navigation_failed", true)]
   else []).

(** The CONNECT authorities of the authorized HTTPS origins. *)
Definition allowed_authorities_of (origins : list string) : res (list string) :=
  foldM (fun acc o =>
           let* s := scheme_of o in
           if String.eqb s "https" then let* a := connect_authority_for_origin (VStr o) in Ok (acc ++ [a])
           else Ok acc) origins [].

Definition evidence_notes (r : BrowserContract.probe_request) (authorities : list string)
    (events : list event) (streams : list (string * stream_status)) : list note :=
  concat (map (event_notes (BrowserContract.authorized_origins r) authorities) events)
  ++ concat (map (stream_notes events) streams)
  ++ over_budget (Z.of_nat (length events)) (BrowserContract.budget r "max_events") "web_event_budget_exceeded"
  ++ over_budget (Z.of_nat (length (of_kind "redirect" events))) (BrowserContract.budget r "max_redirects")
       "web_redirect_budget_exceeded"
  ++ missing_notes events "browser_sandbox" "web_browser_sandbox_unknown"
  ++ missing_notes events "navigation" "web_navigation_missing"
  ++ lifecycle_notes events "browser" "web_browser_lifecycle_incomplete"
  ++ lifecycle_notes events "vm" "web_vm_lifecycle_incomplete".

Definition reduce_browser_evidence (evidence request : pyval) : res pyval :=
  match (let* r := BrowserContract.validate_probe_request request in
         let* e := validate_browser_evidence evidence in Ok (r, e)) with
  | Err _ => _closed_reduction EVIDENCE_VERSION "web_evidence_schema_invalid"
  | Ok (r, (events, streams)) =>
      let* authorities := allowed_authorities_of (BrowserContract.authorized_origins r) in
      reduction EVIDENCE_VERSION events streams (evidence_notes r authorities events streams)
  end.

(** ** CONNECT authorities *)
Lemma first_is_forall (p q : Ascii.ascii -> bool) s :
  (forall c, q c = true -> p c = false) -> str_forall q s = true -> first_is p s = false.
Proof. intros Hpq. destruct s as [|c s]; cbn; [done|]. intros [Hc _]%andb_true_iff. by apply Hpq. Qed.

Lemma last_is_forall (p q : Ascii.ascii -> bool) s :
  (forall c, q c = true -> p c = false) -> str_forall q s = true -> last_is p s = false.
Proof.
  intros Hpq. induction s as [|c s IH]; cbn [str_forall last_is]; [done|]. intros [Hc Hs]%andb_true_iff.
  destruct s; [by apply Hpq|by apply IH].
Qed.

Lemma auth_not_padded a : str_forall is_auth_char a = true -> padded a = false.
Proof.
  intros Ha. unfold padded.
  assert (Hc : forall c, is_auth_char c = true -> strip_char c = false).
  { intros c. unfold is_auth_char, is_host_char, is_label_char, is_lower, is_digit, strip_char, in_range, ch. lia. }
  by rewrite (first_is_forall _ _ _ Hc Ha), (last_is_forall _ _ _ Hc Ha), ascii_not_stripped by (by apply auth_ascii).
Qed.

Definition host_port (h : string) (p : Z) : string := h +:+ ":" +:+ dec p.

(** Any host and port make an authority under one of the schemes. *)
Lemma host_port_authority h p :
  public_host h -> 1 <= p <= 65535 -> exists scheme, authority scheme (host_port h p).
Proof.
  intros Hh Hp. destruct (Z.eq_dec p 80) as [->|Hne].
  - exists "https". by apply auth_port.
  - exists "http". by apply auth_port.
Qed.

Lemma port_text p : 1 <= p <= 65535 ->
  str_forall is_digit (dec p) = true /\ dec p <> "" /\ digits_value 0 (dec p) = p /\
  (String.length (dec p) <= 17)%nat.
Proof.
  intros Hp. destruct (dec_digits_only p) as [H1 H2]; [lia|]. split_and!; [done|apply H2|apply (do_value _ _ H2)|].
  unfold dec. destruct (Z.ltb_spec p 0); [lia|]. unfold dec_nonneg.
  etrans; [apply length_dec_digits|]. pose proof (Z.log2_le_mono p 65535 ltac:(lia)).
  change (Z.log2 65535) with 15 in *. pose proof (Z.log2_nonneg p). lia.
Qed.

Lemma host_port_info h p :
  public_host h -> 1 <= p <= 65535 ->
  hostname_of (host_port h p) = Some h /\ port_of (host_port h p) = Ok (Some p) /\
  endswith ":" (host_port h p) = false.
Proof.
  intros Hh Hp. destruct (host_port_authority h p Hh Hp) as [sc Ha].
  pose proof (public_host_chars h Hh) as Hhc. destruct (port_text p Hp) as (H1 & H2 & H3 & _).
  assert (Hi : hostinfo (host_port h p) = (h, dec p)).
  { unfold hostinfo. pose proof (authority_chars _ _ Ha) as Hc.
    rewrite rpartition_absent by (apply auth_no_char; cbn; auto 10).
    rewrite (partition_absent 91) by (apply auth_no_char; cbn; auto 10). unfold host_port.
    change (":" +:+ dec p) with (String (ascii_of 58) (dec p)).
    rewrite partition_app; [done|lia|]. apply host_no_char; cbn; auto 10. }
  split_and!.
  - unfold hostname_of. rewrite Hi. cbn [fst].
    rewrite (proj2 (String.eqb_neq h "")) by by apply host_nonempty.
    rewrite (partition_absent 37) by (apply host_no_char; cbn; auto 10).
    by rewrite lower_host, !append_nil_r by done.
  - unfold port_of. rewrite Hi. cbn [snd]. rewrite (proj2 (String.eqb_neq _ _) H2), H1, H3.
    by rewrite (proj2 (Z.leb_le p 65535)) by lia.
  - destruct (authority_split _ _ Ha) as (? & ? & _ & _ & He & _). exact He.
Qed.

(** An explicit port is dropped when it is the scheme's own. *)
Definition canonical_authority (scheme h : string) (p : Z) : string :=
  if p =? default_port scheme then h else host_port h p.

Lemma url_authority_port scheme h p :
  mem scheme ["http"; "https"] = true -> public_host h -> 1 <= p <= 65535 ->
  url_authority scheme (host_port h p) = Ok (canonical_authority scheme h p) /\
  authority scheme (canonical_authority scheme h p).
Proof.
  intros Hs Hh Hp. destruct (host_port_authority h p Hh Hp) as [sc Ha]. pose proof (authority_chars _ _ Ha) as Hc.
  destruct (host_port_info h p Hh Hp) as (Hn & Ht & He). split.
  - unfold url_authority. rewrite Hs, Hn, Ht, He, auth_no_char by (cbn; auto 10).
    rewrite (proj2 (String.eqb_neq (host_port h p) "")) by (unfold host_port; by destruct h).
    cbn [negb orb okb raise_if]. rewrite normalize_hostname_fixpoint by done. cbn [mbind res_bind port_below_one].
    rewrite (proj2 (Z.ltb_ge p 1)) by lia. done.
  - unfold canonical_authority. destruct (Z.eqb_spec p (default_port scheme)); [by apply auth_host|by apply auth_port].
Qed.

(** Canonical web origins. *)
Definition origin_of (scheme h : string) (p : Z) : string := scheme +:+ "://" +:+ canonical_authority scheme h p.

Lemma root_form scheme a :
  mem scheme ["http"; "https"] = true -> authority scheme a ->
  url_form (scheme +:+ "://" +:+ a +:+ "/") scheme a "/" "".
Proof. intros Hs Ha. by split. Qed.

Lemma short_origin scheme h p rest :
  mem scheme ["http"; "https"] = true -> public_host h -> 1 <= p <= 65535 -> py_len rest <= 1 ->
  py_len (scheme +:+ "://" +:+ host_port h p +:+ rest) <= MAX_URL_LENGTH /\
  py_len (scheme +:+ "://" +:+ canonical_authority scheme h p +:+ rest) <= MAX_URL_LENGTH.
Proof.
  intros Hs Hh Hp Hr. pose proof (ph_length h Hh) as Hl. destruct (port_text p Hp) as (H1 & _ & _ & H4).
  assert (py_len h <= 253).
  { rewrite py_len_ascii by (apply isascii_host, public_host_chars, Hh). lia. }
  assert (py_len (dec p) <= 17).
  { rewrite py_len_ascii; [lia|]. revert H1. apply str_forall_weaken. intros c. unfold is_digit, in_range. lia. }
  assert (py_len scheme <= 5) by (by destruct (scheme_cases _ Hs) as [-> | ->]).
  unfold canonical_authority, host_port, MAX_URL_LENGTH. rewrite !py_len_app. change (py_len "://") with 3.
  change (py_len ":") with 1. destruct (p =? default_port scheme); rewrite ?py_len_app; change (py_len ":") with 1; lia.
Qed.

Lemma origin_no_char scheme a z :
  mem scheme ["http"; "https"] = true -> str_forall is_auth_char a = true -> In z [63; 35] ->
  has_char z (scheme +:+ "://" +:+ a) = false.
Proof.
  intros Hs%scheme_cases Ha Hz. rewrite !has_char_app, (auth_no_char z a);
    [|done|cbn in Hz |- *; tauto]. cbn in Hz. by destruct Hs as [-> | ->], Hz as [<-|[<-|[]]].
Qed.

(** Spelling out the default port gives the same origin. *)
Lemma normalize_host_port scheme h p :
  mem scheme ["http"; "https"] = true -> public_host h -> 1 <= p <= 65535 ->
  normalize_origin (VStr (scheme +:+ "://" +:+ host_port h p)) = Ok (origin_of scheme h p).
Proof.
  intros Hs Hh Hp. destruct (url_authority_port scheme h p Hs Hh Hp) as [Hu Hca].
  destruct (host_port_authority h p Hh Hp) as [sc Ha]. pose proof (authority_chars _ _ Ha) as Hc.
  pose proof (root_form scheme _ Hs Hca) as Hf.
  destruct (short_origin scheme h p "" Hs Hh Hp) as [Hl _]; [done|]. rewrite append_nil_r in Hl.
  destruct (short_origin scheme h p "/" Hs Hh Hp) as [_ Hl2]; [done|].
  assert (Hchars : str_forall url_char (scheme +:+ "://" +:+ host_port h p) = true).
  { rewrite !str_forall_app, (auth_url_char (host_port h p)) by done. by destruct (scheme_cases _ Hs) as [-> | ->]. }
  pose proof (urlsplit_chars scheme (host_port h p) "" Hs Hc eq_refl eq_refl) as Hsp. rewrite append_nil_r in Hsp.
  assert (Hn : normalize_url (VStr (scheme +:+ "://" +:+ host_port h p))
    = Ok (scheme +:+ "://" +:+ canonical_authority scheme h p +:+ "/")).
  { cbn [normalize_url]. rewrite check_url_text_chars; [|by apply scheme_nonempty|done|done].
    cbn [mbind res_bind]. rewrite Hsp. cbn [partition p_scheme p_netloc p_path p_query]. cbv zeta.
    assert (ascii_lower scheme = scheme) as -> by (by destruct (scheme_cases _ Hs) as [-> | ->]).
    rewrite Hu. cbn [mbind res_bind].
    change (url_quote path_safe (nfc (if String.eqb "" "" then "/" else ""))) with (Ok "/" : res string).
    change (url_quote query_safe (nfc "")) with (Ok "" : res string). cbn [mbind res_bind].
    change (_canonicalize_escapes "/") with (Ok "/" : res string). cbn [mbind res_bind].
    change (_canonicalize_escapes "") with (Ok "" : res string). cbn [mbind res_bind].
    change (urlunsplit scheme (canonical_authority scheme h p) "/" "")
      with (scheme +:+ "://" +:+ canonical_authority scheme h p +:+ "/").
    by rewrite (proj2 (Z.ltb_ge _ _)) by lia. }
  unfold normalize_origin. cbn [is_str str_of negb orb]. rewrite !origin_no_char by (done || (cbn; auto)).
  cbn [orb okb raise_if]. rewrite Hn. cbn [mbind res_bind]. by rewrite (urlsplit_form _ _ _ _ _ Hf).
Qed.

(** The witnesses of a canonical origin. *)
Lemma canonical_info scheme h p :
  public_host h -> 1 <= p <= 65535 ->
  hostname_of (canonical_authority scheme h p) = Some h /\
  port_of (canonical_authority scheme h p) = Ok (if p =? default_port scheme then None else Some p).
Proof.
  intros Hh Hp. unfold canonical_authority. destruct (p =? default_port scheme).
  - destruct (authority_split scheme h (auth_host _ _ Hh)) as (h' & port & Hh' & Hi & _ & Hport & Heq).
    destruct port as [q|].
    + exfalso. subst h. pose proof (host_no_char 58 _ (public_host_chars _ Hh) ltac:(cbn; auto 10)) as Hc.
      change (":" +:+ dec q) with (String (ascii_of 58) (dec q)) in Hc. rewrite has_char_app in Hc.
      apply orb_false_iff in Hc as [_ Hc]. unfold has_char in Hc. cbn in Hc. discriminate Hc.
    + subst h'. unfold hostname_of, port_of. rewrite Hi. cbn [fst snd].
      rewrite (proj2 (String.eqb_neq h "")) by by apply host_nonempty.
      rewrite (partition_absent 37) by (apply host_no_char; [by apply public_host_chars|cbn; auto 10]).
      by rewrite lower_host, !append_nil_r by done.
  - destruct (host_port_info h p Hh Hp) as (H1 & H2 & _). done.
Qed.

Lemma origin_split scheme h p :
  mem scheme ["http"; "https"] = true -> public_host h -> 1 <= p <= 65535 ->
  urlsplit (origin_of scheme h p) = Ok (mk_split scheme (canonical_authority scheme h p) "" "").
Proof.
  intros Hs Hh Hp. destruct (url_authority_port scheme h p Hs Hh Hp) as [_ Ha].
  pose proof (urlsplit_text scheme _ "" Hs Ha eq_refl eq_refl) as Hsp. rewrite append_nil_r in Hsp. exact Hsp.
Qed.

Lemma connect_normalizes h p :
  public_host h -> 1 <= p <= 65535 -> normalize_connect_authority (VStr (host_port h p)) = Ok (host_port h p).
Proof.
  intros Hh Hp. destruct (host_port_authority h p Hh Hp) as [sc Ha]. pose proof (authority_chars _ _ Ha) as Hc.
  destruct (port_text p Hp) as (H1 & H2 & H3 & H4). pose proof (host_nonempty h Hh) as Hne.
  assert (Hd : isascii (dec p) = true)
    by (revert H1; apply str_forall_weaken; intros c; unfold is_digit, in_range; lia).
  unfold normalize_connect_authority. cbn [is_str str_of negb orb].
  rewrite (proj2 (String.eqb_neq (host_port h p) "")) by (unfold host_port; by destruct h).
  rewrite auth_not_padded by done.
  assert (count_char 58 (host_port h p) = 1) as ->.
  { unfold host_port. rewrite !count_char_app, (count_char_absent 58 h), (count_char_absent 58 (dec p)); [done| |].
    - apply (has_char_forall is_digit); [|done]. intros c. unfold is_digit, in_range, ch. lia.
    - apply host_no_char; [by apply public_host_chars|cbn; auto 10]. }
  assert (has_delimiter (host_port h p) = false) as ->.
  { unfold has_delimiter. cbn [existsb]. by rewrite !auth_no_char by (done || (cbn; auto 10)). }
  cbn [negb orb okb raise_if Z.eqb]. unfold host_port at 1.
  change (h +:+ ":" +:+ dec p) with (h +:+ String (ascii_of 58) (dec p)).
  rewrite rpartition_app; [|lia|apply (has_char_forall is_digit); [|done]; intros c; unfold is_digit, in_range, ch; lia].
  rewrite (proj2 (String.eqb_neq h "") Hne). unfold isdigit, int_of_digits. rewrite Hd, H1.
  rewrite (proj2 (String.eqb_neq _ _) H2). cbn [negb andb orb okb raise_if].
  rewrite (proj2 (Nat.ltb_ge _ _)) by (unfold MAX_STR_DIGITS; lia). cbn [mbind res_bind]. rewrite H3.
  assert (in_range 1 65535 p = true) as -> by (unfold in_range; lia). cbn [negb okb raise_if].
  change ("https://" +:+ h +:+ ":" +:+ dec p) with ("https" +:+ "://" +:+ host_port h p).
  rewrite normalize_host_port by done. cbn [mbind res_bind]. rewrite origin_split by done.
  cbn [mbind res_bind p_netloc]. destruct (canonical_info "https" h p Hh Hp) as [-> _]. done.
Qed.

Context `{!UnicodeLaws}.

Lemma origin_anatomy v o :
  normalize_origin v = Ok o ->
  exists scheme h p, mem scheme ["http"; "https"] = true /\ public_host h /\ 1 <= p <= 65535 /\
    o = origin_of scheme h p.
Proof.
  intros Ho%BrowserContract.normalize_origin_for_url.
  apply origin_for_url_form in Ho as (u & sc & a & path & q & _ & Hf & ->).
  destruct Hf as [_ Hs Ha _ _ _]. exists sc. unfold origin_of, canonical_authority.
  destruct Ha as [h Hh|h p Hh Hp Hd].
  - exists h, (default_port sc). rewrite Z.eqb_refl. split_and!; try done; unfold default_port; by destruct (String.eqb _ _).
  - exists h, p. by rewrite (proj2 (Z.eqb_neq _ _) Hd).
Qed.

Lemma connect_for_origin scheme h p :
  mem scheme ["http"; "https"] = true -> public_host h -> 1 <= p <= 65535 ->
  connect_authority_for_origin (VStr (origin_of scheme h p)) =
  if String.eqb scheme "https" then Ok (host_port h p)
  else Err (BrowserContractError "CONNECT authority requires an HTTPS origin").
Proof.
  intros Hs Hh Hp. unfold connect_authority_for_origin.
  pose proof (normalize_host_port scheme h p Hs Hh Hp) as Hn.
  rewrite (BrowserContract.normalize_origin_fixpoint _ _ Hn). cbn [mbind res_bind].
  rewrite origin_split by done. cbn [mbind res_bind p_netloc p_scheme].
  destruct (canonical_info scheme h p Hh Hp) as [-> ->]. destruct (String.eqb_spec scheme "https") as [->|]; [|done].
  cbn [negb okb raise_if mbind res_bind]. change (default_port "https") with 443. unfold port_or_443, host_port.
  destruct (Z.eqb_spec p 443) as [->|]; [done|]. by rewrite (proj2 (Z.eqb_neq p 0)) by lia.
Qed.

Lemma scheme_of_origin scheme h p :
  mem scheme ["http"; "https"] = true -> public_host h -> 1 <= p <= 65535 ->
  scheme_of (origin_of scheme h p) = Ok scheme.
Proof. intros Hs Hh Hp. unfold scheme_of. by rewrite origin_split by done. Qed.

Lemma host_port_inj h p h' p' :
  public_host h -> 1 <= p <= 65535 -> public_host h' -> 1 <= p' <= 65535 ->
  host_port h p = host_port h' p' -> h = h' /\ p = p'.
Proof.
  intros Hh Hp Hh' Hp' He. destruct (host_port_info h p Hh Hp) as (A1 & A2 & _).
  destruct (host_port_info h' p' Hh' Hp') as (A3 & A4 & _). rewrite He in A1, A2. split; congruence.
Qed.

(** The CONNECT authority of an HTTPS origin identifies it: every accepted
    HTTPS origin has an authority, the authority is its own canonical form, and
    no other accepted origin has the same one.  A plain HTTP origin has none. *)
Theorem connect_authority_identifies (v : pyval) (o : string) :
  normalize_origin v = Ok o ->
  (scheme_of o = Ok "https" ->
   exists a, connect_authority_for_origin (VStr o) = Ok a /\ normalize_connect_authority (VStr a) = Ok a /\
     forall w o', normalize_origin w = Ok o' -> connect_authority_for_origin (VStr o') = Ok a -> o' = o) /\
  (scheme_of o = Ok "http" -> exists e, connect_authority_for_origin (VStr o) = Err e).
Proof.
  intros (sc & h & p & Hs & Hh & Hp & ->)%origin_anatomy. rewrite scheme_of_origin, connect_for_origin by done.
  split; intros [= ->]; [|by eexists]. exists (host_port h p). split; [done|]. split; [by apply connect_normalizes|].
  intros w o' (sc' & h' & p' & Hs' & Hh' & Hp' & ->)%origin_anatomy. rewrite connect_for_origin by done.
  destruct (String.eqb_spec sc' "https") as [->|]; [|done]. intros Heq%Ok_inj.
  by destruct (host_port_inj _ _ _ _ Hh' Hp' Hh Hp Heq) as [-> ->].
Qed.

Lemma connect_inv v a :
  normalize_connect_authority v = Ok a -> exists h p, public_host h /\ 1 <= p <= 65535 /\ a = host_port h p.
Proof.
  intros Ha. unfold normalize_connect_authority in Ha. run_inv.
  destruct (rpartition 58 _) as [[raw_host f] raw_port]. run_inv.
  match goal with Hn : normalize_origin _ = Ok _ |- _ => apply origin_anatomy in Hn as (sc & h & p & Hs & Hh & Hp & ->) end.
  match goal with Hu : urlsplit _ = Ok _ |- _ => rewrite origin_split in Hu by done; apply Ok_inj in Hu; subst end.
  cbn [p_netloc] in Ha. destruct (canonical_info sc h p Hh Hp) as [Hn _]. rewrite Hn in Ha. apply Ok_inj in Ha.
  match goal with Hr : in_range 1 65535 ?q = true |- _ => exists h, q; unfold in_range in Hr end.
  split_and!; [done|lia|lia|done].
Qed.

(** An accepted CONNECT authority is canonical: it is a public host name and
    a port in range, and normalizing it again changes nothing. *)
Theorem connect_authority_canonical (v : pyval) (a : string) :
  normalize_connect_authority v = Ok a ->
  (exists h p, public_host h /\ 1 <= p <= 65535 /\ a = h +:+ ":" +:+ dec p) /\
  normalize_connect_authority (VStr a) = Ok a.
Proof.
  intros (h & p & Hh & Hp & ->)%connect_inv. split; [by exists h, p|]. by apply connect_normalizes.
Qed.

(** ** Events and their witnesses *)
Record valid_event (e : event) : Prop := {
  ve_kind : In (ev_kind e) (keys _KIND_DISPOSITIONS);
  ve_disposition : In (ev_disposition e) (default [] (assoc (ev_kind e) _KIND_DISPOSITIONS));
  ve_source : In (ev_source e) (default [] (assoc (ev_kind e) _KIND_SOURCES));
  ve_witness : check_witness (ev_kind e) (ev_source e) (web_origin e) (connect_authority e) = Ok tt;
  ve_origin : forall o, web_origin e = Some o -> normalize_origin (VStr o) = Ok o;
  ve_authority : forall a, connect_authority e = Some a -> normalize_connect_authority (VStr a) = Ok a;
}.

Lemma connect_canonical_again v a :
  normalize_connect_authority v = Ok a -> normalize_connect_authority (VStr a) = Ok a.
Proof. intros (h & p & Hh & Hp & ->)%connect_inv. by apply connect_normalizes. Qed.

Lemma witness_field_some value f msg w :
  witness_field value f msg = Ok (Some w) -> f value = Ok w.
Proof. destruct value; cbn [witness_field]; try done. intros Hw. run_inv. congruence. Qed.

Lemma validate_event_valid_v2 value e : validate_browser_event value = Ok e -> valid_event e.
Proof.
  intros He. unfold validate_browser_event in He. run_inv. subst e.
  repeat match goal with Hi : in_strs _ _ = Ok true |- _ =>
    apply BrowserContract.in_strs_true in Hi as (? & -> & ?) end.
  split; cbn [ev_kind ev_disposition ev_source web_origin connect_authority str_of] in *; try done.
  - by apply mem_In.
  - match goal with Hc : check_witness _ _ _ _ = Ok ?u |- _ => by destruct u end.
  - intros o ->. by eapply BrowserContract.normalize_origin_fixpoint, witness_field_some.
  - intros a ->. by eapply connect_canonical_again, witness_field_some.
Qed.

(** C40: The two kinds of network witness are never interchanged: an event the
    v2 schema accepts carries at most one of them; navigations, redirects and
    CDP requests carry exactly a web origin; a proxy request carries either a
    CONNECT authority or the origin of a plain HTTP request; nothing else
    carries a destination; and whatever is carried is canonical. *)
Theorem witnesses_never_interchanged (value : pyval) (e : event) :
  validate_browser_event value = Ok e ->
  (web_origin e = None \/ connect_authority e = None) /\
  (In (ev_kind e) ["navigation"; "redirect"] -> is_Some (web_origin e)) /\
  (ev_kind e = "network_request" -> ev_source e = "cdp" -> is_Some (web_origin e)) /\
  (ev_kind e = "network_request" -> ev_source e = "egress" ->
     is_Some (connect_authority e) \/ exists o, web_origin e = Some o /\ scheme_of o = Ok "http") /\
  (~ In (ev_kind e) ["navigation"; "redirect"; "network_request"] ->
     web_origin e = None /\ connect_authority e = None) /\
  (forall o, web_origin e = Some o -> normalize_origin (VStr o) = Ok o) /\
  (forall a, connect_authority e = Some a -> normalize_connect_authority (VStr a) = Ok a).
Proof.
  intros Hv%validate_event_valid_v2. destruct Hv as [_ _ _ Hw Ho Ha].
  destruct e as [n src k w c d]. cbn [ev_kind ev_source web_origin connect_authority] in *.
  split; [by destruct w, c; auto|]. unfold check_witness in Hw. run_inv. split_and!; try done.
  - intros Hk. assert (mem k _WEB_ORIGIN_REQUIRED_KINDS = true) as E by by apply mem_In.
    rewrite E in Hw. run_inv. by destruct w.
  - intros -> ->. cbn in Hw. destruct w; [done|discriminate].
  - intros -> ->. change (mem "network_request" _WEB_ORIGIN_REQUIRED_KINDS) with false in Hw.
    cbn [String.eqb Ascii.eqb Bool.eqb] in Hw. run_inv. destruct w as [o|]; [right|by left; destruct c].
    exists o. split; [done|]. run_inv. match goal with Hz : scheme_of o = Ok ?s |- _ => rewrite Hz end.
    match goal with Hz : negb _ = false |- _ => apply negb_false_iff, String.eqb_eq in Hz; by subst
      | Hz : String.eqb _ _ = true |- _ => apply String.eqb_eq in Hz; by subst end.
  - intros Hk. destruct (mem k _WEB_ORIGIN_REQUIRED_KINDS) eqn:E1.
    + apply mem_In in E1. destruct Hk. cbn in *. tauto.
    + destruct (String.eqb_spec k "network_request") as [->|]; [destruct Hk; cbn; auto|]. run_inv.
      by destruct w, c.
Qed.

(** ** The v2 verdict *)
Definition quiet : list (string * string) :=
  [("lifecycle", "started"); ("lifecycle", "stopped"); ("navigation", "committed"); ("redirect", "followed");
   ("redirect", "blocked"); ("network_request", "allowed"); ("browser_sandbox", "active")].

(** An origin's CONNECT authority is authorized when the origin is. *)
Definition authorized_authority (origins : list string) (a : string) : Prop :=
  exists o, In o origins /\ scheme_of o = Ok "https" /\ connect_authority_for_origin (VStr o) = Ok a.

Record benign (origins : list string) (e : event) : Prop := {
  benign_quiet : In (ev_kind e, ev_disposition e) quiet;
  benign_navigation : In (ev_kind e) ["navigation"; "redirect"] -> exists o, web_origin e = Some o /\ In o origins;
  benign_request : ev_kind e = "network_request" ->
    (forall o, web_origin e = Some o -> In o origins) /\
    (forall a, connect_authority e = Some a -> authorized_authority origins a);
}.

Ltac each_event Hv :=
  let Hk := fresh in let Hd := fresh in
  destruct Hv as [Hk Hd _ _ _ _]; cbn [ev_kind ev_disposition ev_source web_origin connect_authority] in *;
  repeat (destruct Hk as [<-|Hk]; [cbn in Hd; repeat (destruct Hd as [<-|Hd])|]); try destruct Hd; try destruct Hk.

Lemma foreign_spec w allowed : foreign w allowed = false <-> forall x, w = Some x -> In x allowed.
Proof.
  destruct w as [x|]; cbn [foreign]; [|naive_solver].
  rewrite negb_false_iff, mem_In. naive_solver.
Qed.

(** The test and the notes of a network request. *)
Lemma event_notes_nil_v2 origins authorities e :
  (forall a, In a authorities <-> authorized_authority origins a) -> valid_event e ->
  event_notes origins authorities e = [] <-> benign origins e.
Proof.
  intros Hauth Hv. destruct e as [n src k w c d]. unfold event_notes.
  cbn [ev_kind ev_disposition ev_source web_origin connect_authority]. split.
  - intros Hn. split; cbn [ev_kind ev_disposition web_origin connect_authority].
    + each_event Hv; first [cbn; tauto | exfalso;
        destruct (authorized origins w), (foreign w origins), (foreign c authorities); discriminate Hn].
    + intros Hk. assert (mem k _WEB_ORIGIN_REQUIRED_KINDS = true) as E by by apply mem_In. rewrite E in Hn.
      apply BrowserContract.authorized_spec. by destruct (authorized origins w).
    + intros ->. change (mem "network_request" _WEB_ORIGIN_REQUIRED_KINDS) with false in Hn.
      cbn [andb app String.eqb Ascii.eqb Bool.eqb] in Hn. setoid_rewrite <- Hauth. rewrite <- !foreign_spec.
      by destruct (foreign w origins), (foreign c authorities).
  - intros [Hq Hw Hr]. cbn [ev_kind ev_disposition web_origin connect_authority] in *.
    assert (mem k _WEB_ORIGIN_REQUIRED_KINDS && negb (authorized origins w) = false) as ->.
    { destruct (mem k _) eqn:Em; [|done]. apply mem_In, Hw, BrowserContract.authorized_spec in Em. by rewrite Em. }
    cbn in Hq. repeat destruct Hq as [[= <- <-]|Hq]; try done. destruct (Hr eq_refl) as [R1 R2].
    setoid_rewrite <- Hauth in R2. rewrite <- foreign_spec in R1, R2. cbn. by rewrite R1, R2.
Qed.

Lemma event_notes_proper_v2 origins authorities e :
  valid_event e -> proper TELEMETRY_INCOMPLETE_FINDINGS (event_notes origins authorities e) = true.
Proof.
  destruct e as [n src k w c d]. intros Hv. unfold event_notes.
  cbn [ev_kind ev_disposition ev_source web_origin connect_authority].
  rewrite proper_app. apply andb_true_iff. split; [by destruct (_ && _)|].
  each_event Hv; cbn - [proper _STREAM_LOSS_FINDING TELEMETRY_INCOMPLETE_FINDINGS foreign]; try reflexivity;
    rewrite ?proper_app; try (by destruct (foreign w _), (foreign c _)).
  all: unfold _STREAM_LOSS_FINDING; by repeat destruct (String.eqb src _).
Qed.

Lemma stream_notes_proper_v2 (events : list event) stream :
  proper TELEMETRY_INCOMPLETE_FINDINGS (stream_notes events stream) = true.
Proof.
  destruct stream as [s status]. unfold stream_notes. rewrite !proper_app.
  destruct (_ =? _), (bool_decide _), (complete status); try reflexivity;
    unfold _STREAM_LOSS_FINDING; by repeat destruct (String.eqb s _).
Qed.

Record clean_run (r : BrowserContract.probe_request) (events : list event)
    (streams : list (string * stream_status)) : Prop := {
  clean_events : Forall (benign (BrowserContract.authorized_origins r)) events;
  clean_streams : Forall (stream_sound events) streams;
  clean_budget : Z.of_nat (length events) <= BrowserContract.budget r "max_events";
  clean_redirects : Z.of_nat (length (of_kind "redirect" events)) <= BrowserContract.budget r "max_redirects";
  clean_sandbox : exists e, In e events /\ ev_kind e = "browser_sandbox";
  clean_navigation : exists e, In e events /\ ev_kind e = "navigation";
  clean_lifecycle : forall s d, In s ["browser"; "vm"] -> In d ["started"; "stopped"] ->
    exists e, In e events /\ ev_source e = s /\ ev_kind e = "lifecycle" /\ ev_disposition e = d;
}.

Lemma evidence_notes_nil_v2 r authorities events streams :
  (forall a, In a authorities <-> authorized_authority (BrowserContract.authorized_origins r) a) ->
  Forall valid_event events -> evidence_notes r authorities events streams = [] <-> clean_run r events streams.
Proof.
  intros Hauth Hv. unfold evidence_notes.
  assert (He : concat (map (event_notes (BrowserContract.authorized_origins r) authorities) events) = [] <->
    Forall (benign (BrowserContract.authorized_origins r)) events).
  { rewrite BrowserContract.concat_nil. split; intros Hf; rewrite Forall_forall in *; intros e Hin;
      specialize (Hf e Hin); by apply (event_notes_nil_v2 _ authorities); [|apply Hv|]. }
  assert (Hs : concat (map (stream_notes events) streams) = [] <-> Forall (stream_sound events) streams).
  { rewrite BrowserContract.concat_nil. by setoid_rewrite stream_notes_nil. }
  split.
  - intros Hn. repeat (let Hx := fresh "Hx" in apply app_nil in Hn as [Hx Hn]).
    rewrite He in Hx. rewrite Hs in Hx0. rewrite over_budget_nil in Hx1, Hx2.
    rewrite missing_nil in Hx3, Hx4. rewrite lifecycle_nil in Hx5, Hn.
    split; try done. intros s d [<-|[<-|[]]]; [apply Hx5|apply Hn].
  - intros [C1%He C2%Hs C3 C4 C5 C6 C7]. rewrite C1, C2.
    rewrite (proj2 (over_budget_nil _ _ _) C3), (proj2 (over_budget_nil _ _ _) C4).
    rewrite (proj2 (missing_nil events "browser_sandbox" _)) by exact C5.
    rewrite (proj2 (missing_nil events "navigation" _)) by exact C6.
    rewrite !(proj2 (lifecycle_nil _ _ _)); [done|intros d; apply C7; cbn; auto..].
Qed.

Lemma evidence_notes_proper_v2 r authorities events streams :
  Forall valid_event events ->
  proper TELEMETRY_INCOMPLETE_FINDINGS (evidence_notes r authorities events streams) = true.
Proof.
  intros Hv. unfold evidence_notes. rewrite !proper_app.
  rewrite !proper_concat, !over_budget_proper, !missing_proper, !lifecycle_proper; try reflexivity.
  - intros l (x & <- & _)%in_map_iff. apply stream_notes_proper_v2.
  - intros l (e & <- & He)%in_map_iff. apply event_notes_proper_v2. rewrite List.Forall_forall in Hv. by apply Hv.
Qed.

Lemma evidence_events_valid_v2 value events streams :
  validate_browser_evidence value = Ok (events, streams) -> Forall valid_event events.
Proof.
  intros Hv. unfold validate_browser_evidence in Hv. run_inv. simplify_eq.
  match goal with Hm : map_res validate_browser_event _ = Ok _ |- _ => apply List.Forall_forall; intros e He;
    apply (map_res_In _ _ _ _ Hm) in He as (w & _ & He) end.
  by eapply validate_event_valid_v2.
Qed.

(** The authorities of canonical origins can always be computed. *)
Lemma allowed_authorities_ok origins :
  Forall (fun o => normalize_origin (VStr o) = Ok o) origins ->
  exists l, allowed_authorities_of origins = Ok l /\ forall a, In a l <-> authorized_authority origins a.
Proof.
  intros Ho. unfold allowed_authorities_of.
  enough (forall acc, exists l, foldM (fun acc o =>
           let* s := scheme_of o in
           if String.eqb s "https" then let* a := connect_authority_for_origin (VStr o) in Ok (acc ++ [a])
           else Ok acc) origins acc = Ok l /\
         forall a, In a l <-> In a acc \/ authorized_authority origins a) as He.
  { destruct (He []) as (l & Hl & Hin). exists l. split; [done|]. intros a. rewrite Hin. naive_solver. }
  induction Ho as [|o origins Ho _ IH]; intros acc; cbn [foldM].
  - exists acc. split; [done|]. intros a. split; [auto|]. by intros [|(? & [] & _)].
  - destruct (origin_anatomy _ _ Ho) as (sc & h & p & Hs & Hh & Hp & Eo).
    assert (Esc : scheme_of o = Ok sc) by (by rewrite Eo, scheme_of_origin).
    assert (Ec : connect_authority_for_origin (VStr o) = if String.eqb sc "https" then Ok (host_port h p)
      else Err (BrowserContractError "CONNECT authority requires an HTTPS origin"))
      by (by rewrite Eo, connect_for_origin).
    rewrite Esc, Ec. cbn [mbind res_bind]. destruct (String.eqb_spec sc "https") as [->|Hne]; cbn [mbind res_bind].
    + destruct (IH (acc ++ [host_port h p])) as (l & Hl & Hin). exists l. split; [exact Hl|]. intros a. rewrite Hin, in_app_iff.
      unfold authorized_authority. split.
      * intros [[?|[<-|[]]]|(o' & ? & ? & ?)]; [by left|right; exists o; cbn; auto|right; exists o'; cbn; auto].
      * intros [?|(o' & [<-|Hin'] & H1' & H2')]; [auto| |right; exists o'; auto].
        left. right. left. congruence.
    + destruct (IH acc) as (l & Hl & Hin). exists l. split; [exact Hl|]. intros a. rewrite Hin. unfold authorized_authority. split.
      * intros [?|(o' & ? & ? & ?)]; [by left|right; exists o'; cbn; auto].
      * intros [?|(o' & [<-|Hin'] & H1' & H2')]; [auto|exfalso; congruence|right; exists o'; auto].
Qed.

(** C26: The v2 reducer always answers, never raising while it maps origins to
    authorities, and answers ALLOW exactly for a clean run: valid request and
    evidence, every event benign with its web origin authorized and its CONNECT
    authority that of an authorized HTTPS origin, every stream complete with
    the declared number of events numbered 0 to n-1, both budgets kept, a
    sandbox and a navigation event present, and the browser and the VM both
    started and stopped. *)
Theorem reduce_v2_allow_iff (evidence request : pyval) :
  exists v, reduce_browser_evidence evidence request = Ok v /\
    (sub v "decision" = Ok (VStr "ALLOW") \/ sub v "decision" = Ok (VStr "DENY")) /\
    (sub v "decision" = Ok (VStr "ALLOW") <->
     exists r events streams, BrowserContract.validate_probe_request request = Ok r /\
       validate_browser_evidence evidence = Ok (events, streams) /\ clean_run r events streams).
Proof.
  unfold reduce_browser_evidence.
  destruct (BrowserContract.validate_probe_request request) as [r|x] eqn:Er; cbn [mbind res_bind].
  2: { destruct (BrowserContract.closed_reduction_spec EVIDENCE_VERSION) as (v & -> & Hd & _). exists v.
       rewrite Hd. split_and!; try done; [by right|split; [done|by intros (? & ? & ? & ? & _)]]. }
  destruct (validate_browser_evidence evidence) as [[events streams]|x] eqn:Ee; cbn [mbind res_bind].
  2: { destruct (BrowserContract.closed_reduction_spec EVIDENCE_VERSION) as (v & -> & Hd & _). exists v.
       rewrite Hd. split_and!; try done; [by right|split; [done|by intros (? & ? & ? & _ & ? & _)]]. }
  pose proof (evidence_events_valid_v2 _ _ _ Ee) as Hv.
  pose proof (BrowserContract.validated_canonical _ _ Er) as Hcr.
  destruct (allowed_authorities_ok _ (BrowserContract.cr_origins _ Hcr)) as (l & -> & Hl). cbn [mbind res_bind].
  destruct (reduction_spec EVIDENCE_VERSION events streams _ _ (evidence_notes_proper_v2 r l events streams Hv))
    as (v & items & Hr & _ & Ha & Hd & _).
  exists v. split; [done|]. split; [done|]. rewrite Ha, (evidence_notes_nil_v2 _ _ _ _ Hl Hv). split.
  - intros Hc. by exists r, events, streams.
  - intros (? & ? & ? & [= <-] & [= <- <-] & Hc). done.
Qed.

End evidence.

(** ** Witnesses *)
#[local] Existing Instance ascii_unicode.
#[local] Instance no_digits : UnicodeDigits := {| u_isdigit := fun _ => false; u_int := fun _ => None |}.

Lemma connect_authority_identifies_witness :
  exists a, connect_authority_for_origin (VStr "https://shop.example.com") = Ok a /\
    normalize_connect_authority (VStr a) = Ok a.
Proof.
  destruct (proj1 (connect_authority_identifies (VStr "https://Shop.example.com:443") "https://shop.example.com"
    ltac:(vm_compute; reflexivity)) ltac:(vm_compute; reflexivity)) as (a & H1 & H2 & _).
  exists a. exact (conj H1 H2).
Defined.

Lemma connect_authority_canonical_witness :
  normalize_connect_authority (VStr "cdn.example.net:8443") = Ok "cdn.example.net:8443".
Proof.
  exact (proj2 (connect_authority_canonical (VStr "CDN.example.net:08443") "cdn.example.net:8443"
    ltac:(vm_compute; reflexivity))).
Defined.

Definition event_val (n : Z) (src k d : string) (o a : pyval) : pyval :=
  VDict [("sequence", VInt n); ("source", VStr src); ("kind", VStr k); ("web_origin", o);
         ("connect_authority", a); ("disposition", VStr d)].

Definition proxy_event : event :=
  {| ev_sequence := 0; ev_source := "egress"; ev_kind := "network_request"; web_origin := None;
     connect_authority := Some "shop.example.com:443"; ev_disposition := "allowed" |}.

Lemma witnesses_never_interchanged_witness :
  is_Some (connect_authority proxy_event) \/ exists o, web_origin proxy_event = Some o /\ scheme_of o = Ok "http".
Proof.
  destruct (witnesses_never_interchanged
    (event_val 0 "egress" "network_request" "allowed" VNone (VStr "shop.example.com:443")) proxy_event
    ltac:(vm_compute; reflexivity)) as (_ & _ & _ & H4 & _).
  exact (H4 eq_refl eq_refl).
Defined.

Definition sample_evidence : pyval :=
  VDict [("evidence_version", VStr EVIDENCE_VERSION);
         ("events", VList
           [event_val 0 "browser" "lifecycle" "started" VNone VNone;
            event_val 1 "browser" "browser_sandbox" "active" VNone VNone;
            event_val 2 "browser" "lifecycle" "stopped" VNone VNone;
            event_val 0 "cdp" "navigation" "committed" (VStr "https://shop.example.com") VNone;
            event_val 0 "egress" "network_request" "allowed" VNone (VStr "cdn.example.net:8443");
            event_val 0 "vm" "lifecycle" "started" VNone VNone; event_val 1 "vm" "lifecycle" "stopped" VNone VNone]);
         ("streams", VDict [("browser", BrowserContract.status_val 3); ("cdp", BrowserContract.status_val 1);
                            ("egress", BrowserContract.status_val 1); ("vm", BrowserContract.status_val 2)])].

(** A clean v2 run is allowed. *)
Example sample_allowed_v2 :
  sub (BrowserContract.ok_or VNone (reduce_browser_evidence sample_evidence BrowserContract.sample_request)) "decision"
  = Ok (VStr "ALLOW").
Proof. vm_compute. reflexivity. Qed.

Lemma reduce_v2_allow_iff_witness :
  exists r events streams, BrowserContract.validate_probe_request BrowserContract.sample_request = Ok r /\
    validate_browser_evidence sample_evidence = Ok (events, streams) /\ clean_run r events streams.
Proof.
  destruct (reduce_v2_allow_iff sample_evidence BrowserContract.sample_request) as (v & H1 & _ & H3).
  apply H3. pose proof sample_allowed_v2 as Ha. rewrite H1 in Ha. exact Ha.
Defined.

End BrowserEvidence.
