(* ===== verification/BrowserReceipt.v ===== *)
(** * Browser receipts: observer/receipt.py, the browser-probe section

    [_validate_browser_probe_section] checks a signed receipt section by section
    and binds every section to the others.  Each block of the source is one
    definition here, in the source's order, returning the values later blocks
    read; [_validate_browser_probe_section] runs them in sequence. *)

From stdpp Require Import base list strings sorting.
From Stdlib Require Import ZArith Lia.
From S2P Require Import Prelude PyValue Json StrOps Url Counter Detectors PolicyGate.
From S2P Require Import BrowserContract BrowserEvidence.

Local Open Scope Z_scope.

Module BrowserReceipt.
Import Notes.

Notation finding := (string * (Z * string))%type.

Definition BROWSER_EVIDENCE_VERSION : string := BrowserEvidence.EVIDENCE_VERSION.
Definition BROWSER_CONTRACT_VERSION : string := BrowserContract.CONTRACT_VERSION.
Definition TELEMETRY_INCOMPLETE_FINDINGS : list string := BrowserEvidence.TELEMETRY_INCOMPLETE_FINDINGS.

Definition _BROWSER_RECEIPT_KEYS : list string :=
  ["schema_version"; "input"; "runtime"; "evidence"; "artifacts"; "findings"; "reduction"].
Definition _BROWSER_INPUT_KEYS : list string :=
  ["contract_version"; "url_sha256"; "normalized_origin"; "authorized_origins"; "request_sha256";
   "policy_hash"; "navigation_mode"].
Definition _BROWSER_EVIDENCE_KEYS : list string :=
  ["schema_version"; "sha256"; "stream_status"; "events_observed"].
Definition _BROWSER_REDUCTION_KEYS : list string :=
  ["evidence_version"; "complete"; "telemetry_incomplete"; "fail_closed"; "decision"; "events_observed";
   "streams"; "findings"].
Definition purge_components : list string :=
  ["processes_reaped"; "cgroup_removed"; "network_namespace_removed"; "ram_jail_removed";
   "egress_worker_reaped"].
Definition _BROWSER_PURGE_KEYS : list string := "verified_externally" :: purge_components.
Definition _BROWSER_ARTIFACT_KEYS : list string :=
  ["raw_retained"; "attestation_complete"; "dom_sha256"; "visible_text_sha256"; "screenshot_sha256";
   "console_event_count"].
Definition _BROWSER_RUNTIME_BASE_KEYS : list string :=
  ["admitted"; "firecracker_version"; "firecracker_sha256"; "jailer_sha256"; "kernel_sha256"; "rootfs_sha256";
   "rootfs_receipt_sha256"; "browser_version"; "browser_sha256"; "host_runtime_tmpfs"; "host_swap_disabled";
   "rootfs_read_only"; "guest_writes_tmpfs_only"; "network_mode"; "mmds_enabled"; "vmm_identity"].
Definition _BROWSER_RUNTIME_OPTIONAL_KEYS : list string :=
  ["job_image_sha256"; "jailer_supervision"; "egress_worker"; "vmm_exit_code"; "cgroup_limits";
   "guest_failure_stage"; "guest_failure_code"].
Definition _BROWSER_CONNECT_LABELS : list string :=
  ["proxy_connect_authority_allowed"; "proxy_connect_authority_blocked"].
Definition _BROWSER_HTTP_ORIGIN_LABELS : list string :=
  ["proxy_http_origin_allowed"; "proxy_http_origin_blocked"].
Definition _BROWSER_CDP_ORIGIN_LABELS : list string :=
  ["browser_cdp_web_origin_allowed"; "browser_cdp_web_origin_blocked"].
Definition _BROWSER_DESTINATION_LABELS : list string :=
  _BROWSER_HTTP_ORIGIN_LABELS ++ _BROWSER_CONNECT_LABELS ++ _BROWSER_CDP_ORIGIN_LABELS.
Definition _BROWSER_BUDGET_KEYS : list string :=
  ["wall_clock_sec"; "cpu_vcpu"; "ram_mib"; "max_network_bytes"; "max_events"; "max_redirects"; "max_tabs";
   "interaction"; "fs_writes"].

(** ** Tests on values *)
Definition _is_sha256 (v : pyval) : bool := match v with VStr s => hex_string 64 s | _ => false end.
Definition _bounded_uint (v : pyval) : bool := int_in 0 MAX_EVIDENCE_EVENTS v.

(** [a != b] *)
Definition ne (a b : pyval) : bool := negb (py_eq a b).
Definition ne_str (v : pyval) (s : string) : bool := ne v (VStr s).

(** [d[k]] of every name passes the test *)
Fixpoint each_sub (d : pyval) (names : list string) (bad : pyval -> bool) (msg : string -> string) : res unit :=
  match names with
  | [] => Ok tt
  | k :: r =>
      let* v := sub d k in
      raise (ValueError (msg k)) when bad v;;
      each_sub d r bad msg
  end.

(** [all(d[k] for k in names)] of bools *)
Fixpoint all_true (d : pyval) (names : list string) : res bool :=
  match names with
  | [] => true
  | k :: r => let* v := sub d k in if truthy v then all_true d r else Ok false
  end.

Definition strings_of (l : list string) : pyval := VList (map VStr l).

(** [v not in {0, False}], [v not in {True, False}]: equality with a number *)
Definition is_number (n : Z) (v : pyval) : res bool :=
  match v with
  | VList _ | VDict _ => Err TypeError
  | _ => Ok (py_eq v (VInt n))
  end.

(** [set(d) - known] is empty *)
Definition only_keys (known : list string) (v : pyval) : bool :=
  forallb (fun k => mem k known) (keys (dict_of v)).

Definition has_keys (names : list string) (v : pyval) : bool :=
  forallb (fun k => has_key k (dict_of v)) names.

(** ** [_validate_finding_list] *)
Definition check_finding (identifier_key : string) (v : pyval) : res finding :=
  raise (ValueError "browser finding is malformed")
    when negb (dict_shape v [identifier_key; "count"; "severity"]);;
  let* identifier := sub v identifier_key in
  let* n := sub v "count" in
  let* severity := sub v "severity" in
  raise (ValueError "browser finding value is invalid")
    when (okb (negb (str_len_in 1 128 identifier) || negb (is_strict_int n) || (int_of n <? 1)))
         or' notM (in_strs severity ["HIGH"; "CRITICAL"]);;
  Ok (str_of identifier, (int_of n, str_of severity)).

(** Each name below the next. *)
Fixpoint increasing (l : list string) : bool :=
  match l with
  | x :: ((y :: _) as r) => String.ltb x y && increasing r
  | _ => true
  end.

(** [normalized != sorted(normalized) or len({ids}) != len(normalized)] holds
    exactly when the identifiers do not increase strictly. *)
Definition _validate_finding_list (value : pyval) (receipt_form : bool) : res (list finding) :=
  raise (ValueError "browser finding list is invalid")
    when negb (is_list value) || (512 <? Z.of_nat (length (list_of value)));;
  let* normalized :=
    map_res (check_finding (if receipt_form then "finding_id" else "rule_id")) (list_of value) in
  raise (ValueError "browser findings must be sorted and unique") when negb (increasing (map fst normalized));;
  Ok normalized.

(** ** [_validate_stream_status] *)
Definition check_stream_status (status : pyval) : res pyval :=
  raise (ValueError "browser stream status is malformed")
    when negb (dict_shape status ["complete"; "event_count"; "observed_event_count"]);;
  let* done := get status "complete" in
  let* n := get status "event_count" in
  let* m := get status "observed_event_count" in
  raise (ValueError "browser stream status is malformed")
    when negb (is_bool done) || negb (_bounded_uint n) || negb (_bounded_uint m);;
  Ok status.

Definition _validate_stream_status (value : pyval) : res pydict :=
  raise (ValueError "browser stream status set is invalid") when negb (dict_shape value REQUIRED_STREAMS);;
  map_res (fun s => let* status := sub value s in
                    let* status := check_stream_status status in Ok (s, status)) REQUIRED_STREAMS.

(** ** Sections *)
Definition browser_job_id (v : pyval) : bool :=
  match v with
  | VStr s => (String.length s =? 15)%nat && startswith "mf-web-" s && hex_string 8 (String.substring 7 8 s)
  | _ => false
  end.

Definition check_identity (receipt : pyval) : res pyval :=
  let* identity := sub receipt "identity" in
  raise (ValueError "browser receipt identity is malformed")
    when negb (dict_shape identity ["job_id"; "artifact_sha256"; "artifact_type"; "submitted_by"; "received_at"]);;
  let* kind := get identity "artifact_type" in
  let* job := get identity "job_id" in
  let* by_ := get identity "submitted_by" in
  let* at_ := get identity "received_at" in
  raise (ValueError "browser receipt identity is malformed")
    when ne_str kind "browser-probe" || negb (browser_job_id job) || negb (str_len_in 1 256 by_)
         || negb (str_len_in 1 128 at_);;
  Ok identity.

Definition check_snapshot (receipt : pyval) : res pyval :=
  let* snapshot := sub receipt "snapshot_policy" in
  raise (ValueError "browser snapshot policy is malformed")
    when negb (dict_shape snapshot
      ["snapshot_sha256"; "snapshot_verified_by"; "policy_version"; "policy_hash"; "memory_snapshots"]);;
  let* image := get snapshot "snapshot_sha256" in
  let* policy_hash := get snapshot "policy_hash" in
  let* memory := get snapshot "memory_snapshots" in
  let* by_ := get snapshot "snapshot_verified_by" in
  let* version := get snapshot "policy_version" in
  raise (ValueError "browser snapshot policy is malformed")
    when negb (_is_sha256 image) || negb (_is_sha256 policy_hash) || ne_str memory "disabled-v1"
         || negb (str_len_in 1 512 by_) || negb (str_len_in 1 128 version);;
  Ok snapshot.

Definition check_budgets (receipt : pyval) : res pyval :=
  let* budgets := sub receipt "budgets_granted" in
  raise (ValueError "browser granted budgets are malformed") when negb (dict_shape budgets _BROWSER_BUDGET_KEYS);;
  let* _ := foldM (fun _ range =>
      let '(name, (minimum, maximum)) := range in
      let* value := sub budgets name in
      raise (ValueError "browser granted budget is invalid") when negb (int_in minimum maximum value);;
      Ok tt) BrowserContract._BUDGET_RANGES tt in
  let* tabs := sub budgets "max_tabs" in
  let* interaction := sub budgets "interaction" in
  let* writes := sub budgets "fs_writes" in
  raise (ValueError "browser granted capability budget is invalid")
    when ne tabs (VInt 1) || ne_str interaction "passive navigation only" || ne_str writes "guest tmpfs only";;
  Ok budgets.

Definition all_str (l : list pyval) : bool := forallb is_str l.

(** [try: ... except Exception: raise ValueError(msg)] *)
Definition rewrap {A} (msg : string) (c : res A) : res A :=
  match c with Ok a => Ok a | Err _ => Err (ValueError msg) end.

Section browser.
Context `{Unicode} `{UnicodeDigits}.

Definition check_input (browser : pyval) : res pyval :=
  let* probe_input := sub browser "input" in
  raise (ValueError "browser probe input binding is malformed") when negb (dict_shape probe_input _BROWSER_INPUT_KEYS);;
  let* version := sub probe_input "contract_version" in
  let* mode := sub probe_input "navigation_mode" in
  let* url := sub probe_input "url_sha256" in
  let* request := sub probe_input "request_sha256" in
  let* policy_hash := sub probe_input "policy_hash" in
  raise (ValueError "browser probe input binding is invalid")
    when ne_str version BROWSER_CONTRACT_VERSION || ne_str mode "passive" || negb (_is_sha256 url)
         || negb (_is_sha256 request) || negb (_is_sha256 policy_hash);;
  let* origins := sub probe_input "authorized_origins" in
  raise (ValueError "browser probe authorized origins are invalid")
    when negb (is_list origins)
         || negb (in_range 1 BrowserContract.MAX_AUTHORIZED_ORIGINS (Z.of_nat (length (list_of origins))))
         || negb (all_str (list_of origins));;
  let* initial := sub probe_input "normalized_origin" in
  let* bound :=
    rewrap "browser probe origin binding is invalid"
      (let* c := map_res normalize_origin (list_of origins) in
       let* i := normalize_origin initial in Ok (c, i)) in
  let '(canonical_origins, initial_origin) := bound in
  raise (ValueError "browser probe authorized origins are not canonical")
    when ne origins (strings_of (sort_strs canonical_origins))
         || negb (bool_decide (NoDup (map str_of (list_of origins))));;
  raise (ValueError "browser probe initial origin is not authorized")
    when ne_str initial initial_origin || negb (mem initial_origin (map str_of (list_of origins)));;
  Ok probe_input.

Definition FAILURE_STAGES : list string :=
  ["request_validation"; "chromium_start"; "devtools_ready"; "cdp_setup"; "navigation"; "page_load";
   "attestation"; "screenshot"; "teardown"].
Definition FAILURE_CODES : list string :=
  ["deadline"; "cdp_navigation_command"; "navigation_error_text"; "navigation_no_loader"; "agent_error";
   "io_error"; "unexpected_error"].

(** [navigation_err_[a-z0-9_]{1,64}] *)
Definition navigation_err (s : string) : bool :=
  startswith "navigation_err_" s &&
  (let rest := String.substring 15 (String.length s - 15) s in
   (1 <=? String.length rest)%nat && (String.length rest <=? 64)%nat &&
   str_forall (fun c => is_lower c || is_digit c || ch 95 c) rest).

Definition known_failure_code (v : pyval) : bool :=
  match v with VStr s => mem s FAILURE_CODES || navigation_err s | _ => false end.

(** The optional key, absent or passing the test. *)
Definition optional_ok (d : pyval) (k : string) (ok : pyval -> res bool) : res bool :=
  match assoc k (dict_of d) with Some v => ok v | None => true end.

Definition check_runtime_shape (browser : pyval) : res pyval :=
  let* runtime := sub browser "runtime" in
  raise (ValueError "browser runtime identity is incomplete")
    when negb (is_dict runtime) || negb (has_keys _BROWSER_RUNTIME_BASE_KEYS runtime)
         || negb (only_keys (_BROWSER_RUNTIME_BASE_KEYS ++ _BROWSER_RUNTIME_OPTIONAL_KEYS) runtime);;
  let* admitted := sub runtime "admitted" in
  raise (ValueError "browser runtime admission must be bool") when negb (is_bool admitted);;
  raise (ValueError "browser guest failure stage is invalid")
    when notM (optional_ok runtime "guest_failure_stage"
                 (fun v => okb (negb (truthy admitted)) and' in_strs v FAILURE_STAGES));;
  raise (ValueError "browser guest failure code is invalid")
    when notM (optional_ok runtime "guest_failure_code"
                 (fun v => okb (negb (truthy admitted) && known_failure_code v)));;
  let* _ := each_sub runtime
    ["firecracker_sha256"; "jailer_sha256"; "kernel_sha256"; "rootfs_sha256"; "rootfs_receipt_sha256"; "browser_sha256"]
    (fun v => negb (_is_sha256 v)) (fun k => "browser runtime " +:+ k +:+ " is invalid") in
  let* _ := each_sub runtime
    ["host_runtime_tmpfs"; "host_swap_disabled"; "rootfs_read_only"; "guest_writes_tmpfs_only"; "mmds_enabled"]
    (fun v => negb (is_bool v)) (fun k => "browser runtime " +:+ k +:+ " must be bool") in
  let* firecracker := sub runtime "firecracker_version" in
  let* version := sub runtime "browser_version" in
  let* network := sub runtime "network_mode" in
  let* mmds := sub runtime "mmds_enabled" in
  raise (ValueError "browser runtime identity is invalid")
    when negb (str_len_in 1 128 firecracker) || negb (str_len_in 1 512 version)
         || ne_str network "explicit-proxy-only" || negb (is_false mmds);;
  Ok runtime.

(** [isinstance(v, int) and not isinstance(v, bool) and 0 < v < 2**31 and v not in reserved] *)
Definition service_id (v : pyval) : bool :=
  int_in 1 (2 ^ 31 - 1) v && negb (int_of v =? 65533) && negb (int_of v =? 65534).

Definition check_vmm_identity (runtime : pyval) : res pyval :=
  let* vmm := sub runtime "vmm_identity" in
  raise (ValueError "browser VMM identity receipt is invalid")
    when negb (dict_shape vmm ["user"; "group"; "uid"; "gid"]);;
  let* user := get vmm "user" in
  let* group := get vmm "group" in
  let* uid := get vmm "uid" in
  let* gid := get vmm "gid" in
  raise (ValueError "browser VMM identity receipt is invalid")
    when ne_str user "cindermote-vmm" || ne_str group "cindermote-vmm"
         || negb (service_id uid) || negb (service_id gid);;
  Ok vmm.

Definition check_exit_and_limits (runtime : pyval) : res unit :=
  raise (ValueError "browser VMM exit status is invalid")
    when notM (optional_ok runtime "vmm_exit_code" (fun v => okb (is_none v || int_in (-255) 255 v)));;
  raise (ValueError "browser cgroup readback is invalid")
    when notM (optional_ok runtime "cgroup_limits" (fun limits =>
           okb (is_dict limits && only_keys ["cpu.max"; "memory.max"; "memory.swap.max"; "pids.max"] limits
                && forallb (fun kv => str_len_in 1 128 (snd kv)) (dict_of limits))));;
  Ok tt.

Definition WORKER_KEYS : list string :=
  ["privilege_separated"; "protocol_version"; "user"; "group"; "uid"; "gid"; "no_new_privs"; "dumpable";
   "capabilities_zero"].

Definition check_worker (runtime vmm : pyval) : res unit :=
  let error := ValueError "admitted browser runtime lacks worker confinement receipt" in
  let* worker := get runtime "egress_worker" in
  raise error when negb (dict_shape worker WORKER_KEYS);;
  let* separated := get worker "privilege_separated" in
  let* protocol := get worker "protocol_version" in
  let* user := get worker "user" in
  let* group := get worker "group" in
  let* uid := get worker "uid" in
  let* gid := get worker "gid" in
  let* no_new_privs := get worker "no_new_privs" in
  let* dumpable := get worker "dumpable" in
  let* capabilities_zero := get worker "capabilities_zero" in
  let* vmm_uid := sub vmm "uid" in
  let* vmm_gid := sub vmm "gid" in
  let vmm_ids := [int_of vmm_uid; int_of vmm_gid] in
  raise error
    when (okb (negb (is_true separated) || ne_str protocol "cindermote.browser-egress-worker/v2"
               || ne_str user "cindermote-proxy" || ne_str group "cindermote-proxy"
               || negb (service_id uid) || negb (service_id gid)
               || existsb (Z.eqb (int_of uid)) vmm_ids || existsb (Z.eqb (int_of gid)) vmm_ids
               || negb (is_true no_new_privs)))
         or' notM (is_number 0 dumpable) or' okb (negb (is_true capabilities_zero));;
  Ok tt.

Definition ISOLATION_FLAGS : list string :=
  ["host_runtime_tmpfs"; "host_swap_disabled"; "rootfs_read_only"; "guest_writes_tmpfs_only"].

Definition expected_cgroup_limits (budgets : pyval) : res pyval :=
  let* cpu := sub budgets "cpu_vcpu" in
  let* ram := sub budgets "ram_mib" in
  Ok (VDict [("cpu.max", VStr (dec (100000 * int_of cpu) +:+ " 100000"));
             ("memory.max", VStr (dec ((int_of ram + 512) * 1024 * 1024)));
             ("memory.swap.max", VStr "0"); ("pids.max", VStr "256")]).

Definition SUPERVISION : pyval :=
  VDict [("external_supervisor", VBool true); ("parent_death_signal", VStr "SIGTERM");
         ("vmm_process_group_kill", VStr "SIGKILL"); ("startup_reconciliation", VStr "exact-owned-prefix")].

(** What an admitted runtime must prove. *)
Definition check_admitted (runtime vmm budgets : pyval) : res unit :=
  let* admitted := sub runtime "admitted" in
  if truthy admitted then
    let* image := get runtime "job_image_sha256" in
    raise (ValueError "admitted browser runtime lacks job image identity") when negb (_is_sha256 image);;
    let* limits := get runtime "cgroup_limits" in
    let* expected := expected_cgroup_limits budgets in
    raise (ValueError "admitted browser runtime lacks exact cgroup readback") when ne limits expected;;
    raise (ValueError "admitted browser runtime lacks mandatory isolation")
      when notM (all_true runtime ISOLATION_FLAGS);;
    let* _ := check_worker runtime vmm in
    let* supervision := get runtime "jailer_supervision" in
    raise (ValueError "admitted browser runtime lacks parent-death supervision")
      when negb (is_dict supervision) || ne supervision SUPERVISION;;
    Ok tt
  else Ok tt.

(** [sum(d[k] for d in values)] of integers *)
Fixpoint sum_of (k : string) (l : pydict) : res Z :=
  match l with
  | [] => Ok 0
  | (_, d) :: r => let* v := sub d k in let* n := sum_of k r in Ok (int_of v + n)
  end.

Definition check_evidence (browser : pyval) : res (pyval * pydict) :=
  let* evidence := sub browser "evidence" in
  raise (ValueError "browser evidence commitment is malformed") when negb (dict_shape evidence _BROWSER_EVIDENCE_KEYS);;
  let* version := sub evidence "schema_version" in
  let* digest := sub evidence "sha256" in
  let* observed := sub evidence "events_observed" in
  raise (ValueError "browser evidence commitment is invalid")
    when ne_str version BROWSER_EVIDENCE_VERSION || negb (_is_sha256 digest) || negb (_bounded_uint observed);;
  let* status_value := sub evidence "stream_status" in
  let* stream_status := _validate_stream_status status_value in
  let* total := sum_of "observed_event_count" stream_status in
  raise (ValueError "browser evidence stream counts do not match total") when negb (total =? int_of observed);;
  Ok (evidence, stream_status).

Definition check_reduction_header (reduction evidence : pyval) : res unit :=
  raise (ValueError "browser evidence reduction is malformed") when negb (dict_shape reduction _BROWSER_REDUCTION_KEYS);;
  let* version := sub reduction "evidence_version" in
  let* decision := sub reduction "decision" in
  let* observed := sub reduction "events_observed" in
  let* complete := sub reduction "complete" in
  let* incomplete := sub reduction "telemetry_incomplete" in
  let* fail_closed := sub reduction "fail_closed" in
  let* total := sub evidence "events_observed" in
  raise (ValueError "browser evidence reduction is inconsistent")
    when okb (ne_str version BROWSER_EVIDENCE_VERSION) or' notM (in_strs decision ["ALLOW"; "DENY"])
         or' okb (negb (_bounded_uint observed)
                  || negb (is_bool complete && is_bool incomplete && is_bool fail_closed)
                  || ne observed total || ne fail_closed incomplete || py_eq complete incomplete
                  || (truthy incomplete && ne_str decision "DENY"));;
  Ok tt.

Definition REDUCTION_STREAM_KEYS : list string := ["declared_event_count"; "observed_event_count"; "complete"].

(** One stream of the reduction against the committed status. *)
Definition check_reduction_stream (streams : pyval) (entry : string * pyval) : res (string * pyval) :=
  let '(source, committed) := entry in
  let error := ValueError "browser reduction stream is inconsistent" in
  let* status := sub streams source in
  raise error when negb (dict_shape status REDUCTION_STREAM_KEYS);;
  let* declared := get status "declared_event_count" in
  let* observed := get status "observed_event_count" in
  let* done := get status "complete" in
  let* c_declared := sub committed "event_count" in
  let* c_observed := sub committed "observed_event_count" in
  let* c_done := sub committed "complete" in
  raise error
    when negb (_bounded_uint declared) || negb (_bounded_uint observed) || negb (is_bool done)
         || ne declared c_declared || ne observed c_observed || ne done c_done;;
  Ok (source, status).

Fixpoint count_mismatches (streams : pydict) : res Z :=
  match streams with
  | [] => Ok 0
  | (_, status) :: r =>
      let* declared := sub status "declared_event_count" in
      let* observed := sub status "observed_event_count" in
      let* n := count_mismatches r in
      Ok ((if py_eq declared observed then 0 else 1) + n)
  end.

Fixpoint any_incomplete (streams : pydict) : res bool :=
  match streams with
  | [] => false
  | (_, status) :: r => let* done := sub status "complete" in if truthy done then any_incomplete r else Ok true
  end.

(** [identifier in RULES and RULES[identifier][1] == severity and identifier.startswith("web_")] *)
Definition canonical_rule (f : finding) : bool :=
  match assoc (fst f) Detectors.RULES with
  | Some (_, severity, _) => String.eqb severity (snd (snd f)) && startswith "web_" (fst f)
  | None => false
  end.

Definition check_reduction (browser evidence : pyval) (stream_status : pydict) : res (pyval * list finding) :=
  let* reduction := sub browser "reduction" in
  let* _ := check_reduction_header reduction evidence in
  let* streams_value := sub reduction "streams" in
  raise (ValueError "browser reduction stream set is invalid") when negb (dict_shape streams_value REQUIRED_STREAMS);;
  let* streams := map_res (check_reduction_stream streams_value) stream_status in
  let* observed_total := sum_of "observed_event_count" streams in
  let* total := sub evidence "events_observed" in
  raise (ValueError "browser reduction observed counts do not match total")
    when negb (observed_total =? int_of total);;
  let* findings_value := sub reduction "findings" in
  let* findings := _validate_finding_list findings_value true in
  let* mismatch_count := count_mismatches streams in
  raise (ValueError "browser evidence count mismatch finding is inconsistent")
    when negb (default 0 (fst <$> assoc "web_evidence_count_mismatch" findings) =? mismatch_count);;
  let* lost := any_incomplete streams in
  let expected := (lost : bool) || existsb (fun f => mem (fst f) TELEMETRY_INCOMPLETE_FINDINGS) findings in
  let* incomplete := sub reduction "telemetry_incomplete" in
  let* complete := sub reduction "complete" in
  let* fail_closed := sub reduction "fail_closed" in
  raise (ValueError "browser reduction completeness is not evidence-derived")
    when ne incomplete (VBool expected) || py_eq complete (VBool expected) || ne fail_closed (VBool expected);;
  raise (ValueError "browser reduction finding is not a canonical browser rule")
    when negb (forallb canonical_rule findings);;
  let* decision := sub reduction "decision" in
  raise (ValueError "browser reduction decision does not match its findings")
    when ne_str decision (match findings with [] => "ALLOW" | _ => "DENY" end);;
  Ok (reduction, findings).

Definition check_artifacts (browser runtime : pyval) : res pyval :=
  let* artifacts := sub browser "artifacts" in
  raise (ValueError "browser artifacts must be metadata-only") when negb (is_dict artifacts);;
  let* retained := get artifacts "raw_retained" in
  raise (ValueError "browser artifacts must be metadata-only") when negb (is_false retained);;
  if dict_shape artifacts _BROWSER_ARTIFACT_KEYS then
    let* attested := sub artifacts "attestation_complete" in
    raise (ValueError "browser artifact attestation status is invalid") when negb (is_bool attested);;
    let* _ := each_sub artifacts ["dom_sha256"; "visible_text_sha256"; "screenshot_sha256"]
      (fun v => negb (_is_sha256 v)) (fun _ => "browser artifact digest is invalid") in
    let* console := sub artifacts "console_event_count" in
    raise (ValueError "browser console event count is invalid") when negb (_bounded_uint console);;
    Ok artifacts
  else
    let* admitted := sub runtime "admitted" in
    raise (ValueError "failed browser artifacts have an unexpected shape")
      when negb (dict_shape artifacts ["raw_retained"]) || truthy admitted;;
    Ok artifacts.

Definition check_purge (receipt : pyval) : res pyval :=
  let* purge := sub receipt "purge" in
  raise (ValueError "browser purge attestation is malformed") when negb (dict_shape purge _BROWSER_PURGE_KEYS);;
  let* _ := each_sub purge _BROWSER_PURGE_KEYS (fun v => negb (is_bool v))
    (fun _ => "browser purge attestations must be bool") in
  let* verified := sub purge "verified_externally" in
  let* all_components := all_true purge purge_components in
  raise (ValueError "browser aggregate purge attestation is inconsistent")
    when ne verified (VBool all_components);;
  Ok purge.

#[global] Arguments ISOLATION_FLAGS : simpl never.
#[global] Arguments purge_components : simpl never.

(** The findings the reduction, the runtime and the purge call for. *)
Definition expected_findings (findings : list finding) (admitted verified : bool) : list finding :=
  let f1 := if admitted then findings else dict_set "firecracker_runtime_failure" (1, "CRITICAL") findings in
  if verified then f1 else dict_set "purge_failure" (1, "CRITICAL") f1.

Definition finding_eqb (a b : Z * string) : bool := (fst a =? fst b) && String.eqb (snd a) (snd b).

(** [a == b] of two finding maps *)
Definition same_findings (a b : list finding) : bool :=
  (length a =? length b)%nat &&
  forallb (fun f => match assoc (fst f) b with Some x => finding_eqb (snd f) x | None => false end) a.

(** [a == b] of two finding lists *)
Fixpoint same_list (a b : list finding) : bool :=
  match a, b with
  | [], [] => true
  | x :: a', y :: b' => String.eqb (fst x) (fst y) && finding_eqb (snd x) (snd y) && same_list a' b'
  | _, _ => false
  end.

Definition check_findings (receipt browser runtime artifacts reduction : pyval) (reduction_findings : list finding)
    : res (pyval * list finding) :=
  let* found := sub browser "findings" in
  let* browser_findings := _validate_finding_list found true in
  let* detected := sub receipt "detector_findings" in
  let* detector_findings := _validate_finding_list detected false in
  raise (ValueError "browser findings are not bound to detector findings")
    when negb (same_list browser_findings detector_findings);;
  let* purge := check_purge receipt in
  let* verified := sub purge "verified_externally" in
  let* admitted := sub runtime "admitted" in
  let expected := expected_findings reduction_findings (truthy admitted) (truthy verified) in
  raise (ValueError "browser findings are not exactly bound to reduction/runtime/purge")
    when negb (same_findings browser_findings expected);;
  let* attested := get artifacts "attestation_complete" in
  let* incomplete := sub reduction "telemetry_incomplete" in
  let* decision := sub reduction "decision" in
  raise (ValueError "incomplete page attestation lacks fail-closed evidence")
    when dict_shape artifacts _BROWSER_ARTIFACT_KEYS && is_false attested
         && (negb (has_key "web_cdp_telemetry_loss" expected) || negb (is_true incomplete) || ne_str decision "DENY");;
  Ok (purge, browser_findings).

Definition ADMISSION_FLAGS : list string :=
  ["namespace_used"; "seccomp_loaded"; "cgroups_used"; "jailer_used"; "kvm_used"].
Definition required_isolation : list string :=
  ["mode"; "namespace_used"; "seccomp_loaded"; "cgroups_used"; "mlock_used"; "jailer_used"; "kvm_used";
   "host_runtime_tmpfs"; "host_swap_disabled"; "rootfs_read_only"; "guest_writes_tmpfs_only"].

(** [isolation[k] == runtime[k]] of every name *)
Fixpoint agree (a b : pyval) (names : list string) (msg : string) : res unit :=
  match names with
  | [] => Ok tt
  | k :: r =>
      let* x := sub a k in
      let* y := sub b k in
      raise (ValueError msg) when ne x y;;
      agree a b r msg
  end.

Definition check_isolation (receipt runtime : pyval) : res pyval :=
  let* isolation := sub receipt "isolation" in
  raise (ValueError "browser isolation receipt is malformed") when negb (dict_shape isolation required_isolation);;
  let* mode := sub isolation "mode" in
  let* mlock := sub isolation "mlock_used" in
  raise (ValueError "browser isolation mode is invalid") when ne_str mode "firecracker" || negb (is_false mlock);;
  let* _ := each_sub isolation (List.tl required_isolation) (fun v => negb (is_bool v))
    (fun _ => "browser isolation controls must be bool") in
  let* admitted := sub runtime "admitted" in
  let* _ := each_sub isolation ADMISSION_FLAGS (fun v => ne v admitted)
    (fun _ => "browser admission and isolation receipt disagree") in
  let* _ := agree isolation runtime ISOLATION_FLAGS "browser runtime and isolation receipt disagree" in
  Ok isolation.

Definition DENIED_CAPABILITIES : list string :=
  ["browser.click"; "browser.type"; "browser.upload"; "browser.download"].

Definition check_capabilities (receipt probe_input identity : pyval) : res unit :=
  let error := ValueError "browser capability grant is not request-bound" in
  let* capabilities := sub receipt "capabilities" in
  raise error when negb (dict_shape capabilities ["requested"; "granted"; "denied"; "binding"]);;
  let* binding := get capabilities "binding" in
  let* requested := get capabilities "requested" in
  let* granted := get capabilities "granted" in
  let* denied := get capabilities "denied" in
  raise error
    when ne requested (strings_of ["browser.navigate"]) || ne granted (strings_of ["browser.navigate"])
         || ne denied (strings_of DENIED_CAPABILITIES) || negb (dict_shape binding ["request_sha256"; "job_id"]);;
  let* bound_request := get binding "request_sha256" in
  let* bound_job := get binding "job_id" in
  let* request := sub probe_input "request_sha256" in
  let* job := sub identity "job_id" in
  raise error when ne bound_request request || ne bound_job job;;
  Ok tt.

Definition check_bindings (receipt browser identity snapshot budgets probe_input runtime evidence : pyval)
    (stream_status : pydict) : res unit :=
  let* image := sub snapshot "snapshot_sha256" in
  let* rootfs := sub runtime "rootfs_sha256" in
  raise (ValueError "browser rootfs is not bound to snapshot policy") when ne image rootfs;;
  let* policy_hash := sub snapshot "policy_hash" in
  let* input_hash := sub probe_input "policy_hash" in
  raise (ValueError "browser policy hashes disagree") when ne policy_hash input_hash;;
  let* _ := check_capabilities receipt probe_input identity in
  let* max_events := sub budgets "max_events" in
  let* admitted := sub runtime "admitted" in
  raise (ValueError "browser receipt exceeds its admitted event budget")
    when (okb (negb (_bounded_uint max_events) || (int_of max_events <? 1)))
         or' (okb (truthy admitted) and'
              (let* artifacts := sub browser "artifacts" in
               let* console := sub artifacts "console_event_count" in
               Ok (int_of max_events <? int_of console)));;
  let* telemetry := sub receipt "telemetry_summary" in
  raise (ValueError "browser telemetry summary is not evidence-bound")
    when negb (dict_shape telemetry ["events_observed"; "streams"; "metadata_only"]);;
  let* metadata_only := get telemetry "metadata_only" in
  let* observed := get telemetry "events_observed" in
  let* streams := get telemetry "streams" in
  let* total := sub evidence "events_observed" in
  raise (ValueError "browser telemetry summary is not evidence-bound")
    when negb (is_true metadata_only) || ne observed total || ne streams (VDict stream_status);;
  let* canaries := sub receipt "canaries_touched" in
  raise (ValueError "browser profile cannot emit legacy canary content") when ne canaries (VDict []);;
  Ok tt.

Definition GATE_KEYS : list string :=
  ["policy_gate_decision"; "policy_gate_reason"; "human_gate_override"; "final_decision"; "final_authority";
   "override_blocked_by_fail_closed"].
Definition GATE_REASONS : list string :=
  ["known_bad_behavior_detected"; "canary_credential_accessed"; "network_egress_attempted";
   "repeated_sandbox_probing"; "anomalous_behavior_pattern"; "bounded_browser_navigation_clean";
   "uncertain_classification"].
Definition AUTHORITIES : list string :=
  ["fail_closed_infrastructure_gate"; "human_gate_override"; "policy_gate_autonomous"].

Definition check_gate_shape (receipt reduction : pyval) : res pyval :=
  let error := ValueError "browser reduction and policy decision disagree" in
  let* gate := sub receipt "gate" in
  raise error when negb (dict_shape gate GATE_KEYS);;
  let* policy_decision := get gate "policy_gate_decision" in
  let* reason := get gate "policy_gate_reason" in
  let* override := get gate "human_gate_override" in
  let* final := get gate "final_decision" in
  let* authority := get gate "final_authority" in
  let* blocked := get gate "override_blocked_by_fail_closed" in
  let* decision := sub reduction "decision" in
  raise error
    when okb (ne policy_decision decision) or' notM (in_strs reason GATE_REASONS)
         or' notM (in_strs override ["none"; "ALLOW"; "DENY"]) or' notM (in_strs final ["ALLOW"; "DENY"])
         or' notM (in_strs authority AUTHORITIES) or' okb (negb (is_bool blocked));;
  Ok gate.

(** ** Destinations *)

(** The type Python compares a value with when it sorts. *)
Definition sort_class (v : pyval) : Z :=
  match v with VStr _ => 0 | VBytes _ => 2 | VNone => 3 | _ => 1 end.

(** [l != sorted(set(l))]: items that cannot be hashed, or of types that cannot
    be compared, raise.  A list of one type other than [str] is reported as
    different: the tests that follow refuse it with the same error. *)
Definition sorted_set_differs (l : list pyval) : res bool :=
  if negb (forallb hashable l) then Err TypeError
  else match l with
       | [] => Ok false
       | x :: _ =>
           if forallb (fun v => sort_class v =? sort_class x) l
           then Ok (negb (all_str l) || negb (bool_decide (map str_of l = sort_strs (dedup_strs (map str_of l)))))
           else Err TypeError
       end.

Definition check_destination (entry : string * pyval) : res unit :=
  let '(destination, value) := entry in
  let error := ValueError "browser destination disposition is malformed" in
  raise error when negb (is_list value)
                   || negb (in_range 1 (Z.of_nat (length _BROWSER_DESTINATION_LABELS))
                              (Z.of_nat (length (list_of value))));;
  raise error when sorted_set_differs (list_of value);;
  let labels := map str_of (list_of value) in
  raise error when negb (forallb (fun l => mem l _BROWSER_DESTINATION_LABELS) labels);;
  let connect := existsb (fun l => mem l _BROWSER_CONNECT_LABELS) labels in
  let http := existsb (fun l => mem l _BROWSER_HTTP_ORIGIN_LABELS) labels in
  let origin := http || existsb (fun l => mem l _BROWSER_CDP_ORIGIN_LABELS) labels in
  raise (ValueError "browser destination interchanges witness types") when connect && origin;;
  let* canonical_destination :=
    if connect then
      rewrap "browser CONNECT destination is not a canonical authority"
        (BrowserEvidence.normalize_connect_authority (VStr destination))
    else
      let* d := rewrap "browser web destination is not a canonical origin" (normalize_origin (VStr destination)) in
      raise (ValueError "proxy HTTP-origin witness cannot claim an HTTPS origin")
        when http && negb (startswith "http://" d);;
      Ok d in
  raise (ValueError "browser destination witness is not canonical")
    when negb (String.eqb canonical_destination destination);;
  Ok tt.

Definition check_destinations (receipt : pyval) : res (list string) :=
  let* destinations := sub receipt "destinations_attempted" in
  raise (ValueError "browser destination summary is malformed")
    when negb (is_dict destinations) || (256 <? Z.of_nat (length (dict_of destinations)));;
  let* _ := foldM (fun _ entry => check_destination entry) (dict_of destinations) tt in
  Ok (keys (dict_of destinations)).

(** [RULES[identifier][0]] *)
Definition outward_item (f : finding) : res pyval :=
  match assoc (fst f) Detectors.RULES with
  | Some (tap_category, _, _) =>
      Ok (VDict [("tap_category", VStr tap_category); ("rule_id", VStr (fst f)); ("count", VInt (fst (snd f)))])
  | None => Err KeyError
  end.

Definition expected_risk (findings : list finding) : string :=
  if existsb (fun f => String.eqb (snd (snd f)) "CRITICAL") findings then "hostile"
  else match findings with [] => "benign" | _ => "suspicious" end.

Definition check_outward (receipt : pyval) (expected browser_findings : list finding) : res unit :=
  let* outward := sub receipt "outward_report" in
  let* items := map_res outward_item (sort_items expected) in
  let* destinations := check_destinations receipt in
  let* evidence := sub outward "evidence" in
  let* risk := sub outward "risk_level" in
  let* capabilities := sub outward "capabilities_requested" in
  let* dests := sub outward "destinations" in
  let* tripped := sub outward "canaries_tripped" in
  let* uncertainty := sub outward "uncertainty" in
  let* residual := sub receipt "residual_uncertainty" in
  raise (ValueError "browser outward report is not finding-bound")
    when ne evidence (VList items) || ne_str risk (expected_risk browser_findings)
         || ne capabilities (strings_of ["browser.navigate"]) || ne dests (strings_of (sort_strs destinations))
         || ne tripped (VList []) || ne uncertainty residual;;
  Ok tt.

Definition check_flags (receipt reduction purge : pyval) (browser_findings : list finding) : res unit :=
  let* exhausted := sub receipt "budget_exhausted" in
  raise (ValueError "browser budget exhaustion flag is inconsistent")
    when ne exhausted (VBool (has_key "web_event_budget_exceeded" browser_findings
                              || has_key "web_redirect_budget_exceeded" browser_findings));;
  let* incomplete := sub reduction "telemetry_incomplete" in
  let* verified := sub purge "verified_externally" in
  let* flag := sub receipt "telemetry_incomplete" in
  raise (ValueError "browser telemetry completeness is inconsistent")
    when ne flag (VBool (truthy incomplete || negb (truthy verified)));;
  Ok tt.

Definition check_final (gate reduction runtime purge : pyval) (expected : list finding) : res unit :=
  let fail_closed := existsb (fun f => mem (fst f) PolicyGate.UNOVERRIDABLE_RULES) expected in
  let* override := sub gate "human_gate_override" in
  let* decision := sub reduction "decision" in
  let* overrides := in_strs override ["ALLOW"; "DENY"] in
  let '(expected_final, expected_authority) :=
    if fail_closed then (VStr "DENY", "fail_closed_infrastructure_gate")
    else if (overrides : bool) then (override, "human_gate_override")
    else (decision, "policy_gate_autonomous") in
  let* final := sub gate "final_decision" in
  let* authority := sub gate "final_authority" in
  let* blocked := sub gate "override_blocked_by_fail_closed" in
  raise (ValueError "browser final gate authority is inconsistent")
    when ne final expected_final || ne_str authority expected_authority
         || ne blocked (VBool (fail_closed && py_eq override (VStr "ALLOW")));;
  let* admitted := sub runtime "admitted" in
  let* verified := sub purge "verified_externally" in
  raise (ValueError "unadmitted or unpurged browser run must be denied")
    when (negb (truthy admitted) || negb (truthy verified)) && ne_str final "DENY";;
  let* incomplete := sub reduction "telemetry_incomplete" in
  raise (ValueError "browser ALLOW lacks complete runtime evidence")
    when py_eq final (VStr "ALLOW") && (negb (truthy admitted) || negb (truthy verified) || truthy incomplete);;
  Ok tt.

(** ** The section *)
Definition _validate_browser_probe_section (receipt : pyval) : res unit :=
  let* identity := check_identity receipt in
  let* snapshot := check_snapshot receipt in
  let* budgets := check_budgets receipt in
  let* browser := get receipt "browser_probe" in
  raise (ValueError "browser-probe artifacts require a complete browser probe section")
    when negb (dict_shape browser _BROWSER_RECEIPT_KEYS);;
  let* version := sub browser "schema_version" in
  raise (ValueError "invalid browser probe receipt version")
    when ne_str version "cindermote.browser-probe-receipt/v2";;
  let* probe_input := check_input browser in
  let* runtime := check_runtime_shape browser in
  let* vmm := check_vmm_identity runtime in
  let* _ := check_exit_and_limits runtime in
  let* _ := check_admitted runtime vmm budgets in
  let* committed := check_evidence browser in
  let '(evidence, stream_status) := committed in
  let* reduced := check_reduction browser evidence stream_status in
  let '(reduction, reduction_findings) := reduced in
  let* artifacts := check_artifacts browser runtime in
  let* found := check_findings receipt browser runtime artifacts reduction reduction_findings in
  let '(purge, browser_findings) := found in
  let* admitted := sub runtime "admitted" in
  let* verified := sub purge "verified_externally" in
  let expected := expected_findings reduction_findings (truthy admitted) (truthy verified) in
  let* _ := check_isolation receipt runtime in
  let* _ := check_bindings receipt browser identity snapshot budgets probe_input runtime evidence stream_status in
  let* gate := check_gate_shape receipt reduction in
  let* _ := check_outward receipt expected browser_findings in
  let* _ := check_flags receipt reduction purge browser_findings in
  check_final gate reduction runtime purge expected.

End browser.
End BrowserReceipt.
