(* ===== verification/DetonationReceipt.v ===== *)
(** * Detonation receipts: observer/receipt.py

    The rest of the receipt module: canonical JSON and the HMAC signature, the
    observer key file, the legacy (non-browser) receipt and its binding to the
    active policy, [validate_receipt], and [create_receipt].  The policy file and
    the key file are arguments. *)

From stdpp Require Import base list strings sorting.
From Stdlib Require Import ZArith Lia.
From S2P Require Import Prelude PyValue Sha256 Json StrOps Url UrlFacts Counter Detectors OutwardReport PolicyGate.
From S2P Require Import BrowserContract BrowserEvidence BrowserReceipt.

Local Open Scope Z_scope.

Module DetonationReceipt.
Import BrowserReceipt.

Definition ARTIFACT_TYPES : list string :=
  ["mcp-server"; "tool-definition"; "skill-md"; "python-script"; "shell-script"; "browser-probe"].
Definition _LEGACY_ISOLATION_KEYS : list string :=
  ["mode"; "namespace_used"; "seccomp_loaded"; "cgroups_used"; "mlock_used"].
Definition purge_checks : list string :=
  ["verified_externally"; "process_group_empty"; "cgroup_empty"; "cgroup_removed"; "job_mount_removed";
   "job_directory_removed"].
Definition _LEGACY_PURGE_KEYS : list string :=
  "method" :: purge_checks ++ ["processes_remaining"; "remaining_host_resources"].
Definition _LEGACY_GATE_KEYS : list string := GATE_KEYS.
Definition _LEGACY_OBSERVATION_KEYS : list string := ["status"; "exec_observed"; "failure_class"; "diagnostic"].
Definition LEGACY_OBSERVATION_FAILURE_CLASSES : list string := ["interpreter_startup"; "library_load"].

(** ** JSON *)

(** The first error the encoder meets, in output order: a value JSON lacks, or a
    float that is not finite. *)
Fixpoint dump_error (v : pyval) : option exn :=
  match v with
  | VBytes _ => Some TypeError
  | VFloat (FFin _ _) => None
  | VFloat _ => Some (ValueError "Out of range float values are not JSON compliant")
  | VList l => head (omap id (map dump_error l))
  | VDict d => head (omap snd (sort_items (map (fun kv => (fst kv, dump_error (snd kv))) d)))
  | _ => None
  end.

(** [\uXXXX] *)
Definition u_escape (cp : Z) : string :=
  chr 92 +:+ "u" +:+
  String (hex_digit (cp / 4096)) (String (hex_digit (cp / 256 mod 16))
    (String (hex_digit (cp / 16 mod 16)) (String (hex_digit (cp mod 16)) ""))).

(** The code point of one UTF-8 encoded character. *)
Definition code_point (bytes : list Z) : Z :=
  match bytes with
  | [a; b] => (a - 192) * 64 + (b - 128)
  | [a; b; c] => ((a - 224) * 64 + (b - 128)) * 64 + (c - 128)
  | [a; b; c; d] => (((a - 240) * 64 + (b - 128)) * 64 + (c - 128)) * 64 + (d - 128)
  | [a] => a
  | _ => 0
  end.

(** One character of [ensure_ascii=True] output. *)
Definition ascii_escape (c : string) : string :=
  match c with
  | String a "" =>
      if byte_of a =? 127 then u_escape 127 else escape_char a
  | _ =>
      let cp := code_point (byte_values c) in
      if cp <? 65536 then u_escape cp
      else u_escape (55296 + (cp - 65536) / 1024) +:+ u_escape (56320 + (cp - 65536) mod 1024)
  end.

Definition ascii_quote (s : string) : string :=
  chr 34 +:+ String.concat "" (map ascii_escape (py_chars s)) +:+ chr 34.

(** ** The key file *)
Inductive key_path :=
  | KeyMissing
  | KeyUnopenable                                  (** a symlink, or no permission *)
  | KeyFile (st_mode : Z) (content : string).

Definition load_or_create_key (path : key_path) (urandom : string) : res string :=
  match path with
  | KeyMissing => Ok urandom
  | KeyUnopenable => Err (OSError "cannot open observer key")
  | KeyFile st_mode content =>
      raise (ValueError "observer key must be a regular file readable only by its owner (chmod 600)")
        when negb (Z.land st_mode 61440 =? 32768) || negb (Z.land st_mode 63 =? 0);;
      let key := slice 33 content in
      raise (ValueError "observer key must contain exactly 32 bytes") when negb (String.length key =? 32)%nat;;
      Ok key
  end.

(** [active_policy]: a dict, or the contents of the file it names. *)
Inductive policy_source :=
  | PolicyDict (policy : pyval)
  | PolicyFile (contents : option string).

Section receipt.
(** [float.__repr__] of a finite float, and the value of a JSON float. *)
Variable float_repr : pyfloat -> string.
Variable parse_float : string -> pyfloat.
Context `{Unicode} `{UnicodeDigits}.

Definition canonical_json (value : pyval) : res string :=
  match dump_error value with
  | Some e => Err e
  | None =>
      let text := dumps float_repr value in
      if has_surrogate text then Err (ValueError "surrogates not allowed") else Ok text
  end.

(** [json.dumps(v, sort_keys=True, separators=(",", ":"))] *)
Fixpoint dumps_ascii (v : pyval) : res string :=
  match v with
  | VNone => Ok "null"
  | VBool b => Ok (if b then "true" else "false")
  | VInt z => Ok (dec z)
  | VFloat FNan => Ok "NaN"
  | VFloat (FInf neg) => Ok (if neg then "-Infinity" else "Infinity")
  | VFloat f => Ok (float_repr f)
  | VStr s => Ok (ascii_quote s)
  | VBytes _ => Err TypeError
  | VList l =>
      let* items := (fix go l := match l with
                                 | [] => Ok []
                                 | x :: r => let* y := dumps_ascii x in let* ys := go r in Ok (y :: ys)
                                 end) l in
      Ok ("[" +:+ join items +:+ "]")
  | VDict d =>
      let* items := map_res (fun kv => let* text := snd kv in Ok (ascii_quote (fst kv) +:+ ":" +:+ text))
                      (sort_items (map (fun kv => (fst kv, dumps_ascii (snd kv))) d)) in
      Ok ("{" +:+ join items +:+ "}")
  end.

Definition _canonical_hash (value : pyval) : res string :=
  let* payload := dumps_ascii value in Ok (hexdigest payload).

(** ** Signatures *)
Definition sign_receipt (receipt_without_signature : pyval) (key : string) : res string :=
  let* payload := canonical_json receipt_without_signature in
  Ok (hmac_hex key payload).

(** [d.pop(k)] leaves the other items *)
Definition without (k : string) (d : pydict) : pydict :=
  List.filter (fun kv => negb (String.eqb (fst kv) k)) d.

Definition verify_signature (receipt : pydict) (key : string) : bool :=
  match default (VStr "") (assoc "receipt_signature" receipt) with
  | VStr signature =>
      if isascii signature then
        match sign_receipt (VDict (without "receipt_signature" receipt)) key with
        | Ok expected => String.eqb signature expected
        | Err _ => false
        end
      else false
  | _ => false
  end.

(** ** The active policy *)
Definition _load_active_policy (source : policy_source) : res pyval :=
  let* policy :=
    match source with
    | PolicyDict p => Ok p
    | PolicyFile None => Err FileNotFoundError
    | PolicyFile (Some raw) => let* text := PolicyGate.read_text raw in loads parse_float text
    end in
  raise (ValueError "active policy must be a JSON object") when negb (is_dict policy);;
  Ok policy.

Definition CONTROL_NAMES : list string :=
  ["require_network_namespace"; "require_mount_namespace"; "require_seccomp"; "full_root_requires_cgroups";
   "full_root_requires_mlock"].

Definition get_each_bool (d : pyval) (names : list string) : res unit :=
  foldM (fun _ name =>
    let* v := get d name in
    raise (ValueError ("active policy isolation." +:+ name +:+ " must be bool")) when negb (is_bool v);;
    Ok tt) names tt.

Definition required_isolation_controls (mode policy : pyval) : res (list (string * bool)) :=
  raise (ValueError "invalid legacy isolation mode") when notM (in_strs mode ["full-root"; "degraded-user"]);;
  let* isolation := get policy "isolation" in
  raise (ValueError "active policy lacks isolation requirements") when negb (is_dict isolation);;
  let* _ := get_each_bool isolation CONTROL_NAMES in
  let* net := sub isolation "require_network_namespace" in
  let* mount := sub isolation "require_mount_namespace" in
  let* seccomp := sub isolation "require_seccomp" in
  let* cgroups := sub isolation "full_root_requires_cgroups" in
  let* mlock := sub isolation "full_root_requires_mlock" in
  let root := py_eq mode (VStr "full-root") in
  Ok [("namespace_used", truthy net || truthy mount); ("seccomp_loaded", truthy seccomp);
      ("cgroups_used", root && truthy cgroups); ("mlock_used", root && truthy mlock)].

(** ** Legacy receipts *)
Definition check_legacy_finding (state : string * list finding) (v : pyval) : res (string * list finding) :=
  let '(previous, normalized) := state in
  raise (ValueError "legacy detector finding is malformed")
    when negb (dict_shape v ["rule_id"; "count"; "severity"]);;
  let* rule_id := sub v "rule_id" in
  let* n := sub v "count" in
  let* severity := sub v "severity" in
  match rule_id, assoc (str_of rule_id) Detectors.RULES with
  | VStr r, Some (_, expected, _) =>
      raise (ValueError "legacy detector finding is non-canonical")
        when String.leb r previous || negb (is_strict_int n) || (int_of n <? 1) || ne_str severity expected;;
      Ok (r, dict_set r (int_of n, expected) normalized)
  | _, _ => Err (ValueError "legacy detector finding is non-canonical")
  end.

Definition _legacy_finding_map (value : pyval) : res (list finding) :=
  raise (ValueError "legacy detector findings must be a bounded list")
    when negb (is_list value) || (512 <? Z.of_nat (length (list_of value)));;
  let* state := foldM check_legacy_finding (list_of value) ("", []) in
  Ok (snd state).

(** The policy binding and the controls that should have been used and were not. *)
Definition check_legacy_isolation (receipt policy : pyval) : res (list string) :=
  let* snapshot := sub receipt "snapshot_policy" in
  raise (ValueError "legacy receipt is not bound to the active policy") when negb (is_dict snapshot);;
  let* policy_hash := get snapshot "policy_hash" in
  raise (ValueError "legacy receipt is not bound to the active policy") when negb (_is_sha256 policy_hash);;
  let* expected := _canonical_hash policy in
  raise (ValueError "legacy receipt is not bound to the active policy") when ne_str policy_hash expected;;
  let* isolation := sub receipt "isolation" in
  raise (ValueError "legacy isolation receipt is malformed") when negb (dict_shape isolation _LEGACY_ISOLATION_KEYS);;
  let* mode := sub isolation "mode" in
  let* required := required_isolation_controls mode policy in
  let* _ := each_sub isolation (keys required) (fun v => negb (is_bool v))
    (fun k => "isolation." +:+ k +:+ " must be bool") in
  let* missing := foldM (fun acc control =>
      let '(name, needed) := control in
      let* used := sub isolation name in
      Ok (if (needed : bool) && negb (truthy used) then acc ++ [name] else acc)) required [] in
  Ok (sort_strs missing).

Definition bad_resource (v : pyval) : bool := negb (str_len_in 1 1024 v).

Definition check_legacy_purge (receipt : pyval) : res pyval :=
  let* purge := sub receipt "purge" in
  raise (ValueError "legacy purge result is malformed") when negb (dict_shape purge _LEGACY_PURGE_KEYS);;
  let* method := sub purge "method" in
  raise (ValueError "legacy purge method is invalid") when negb (is_str method) || String.eqb (str_of method) "";;
  let* _ := each_sub purge purge_checks (fun v => negb (is_bool v))
    (fun _ => "legacy purge postconditions must be bool") in
  let* processes := sub purge "processes_remaining" in
  let* resources := sub purge "remaining_host_resources" in
  raise (ValueError "legacy remaining-host-resource result is malformed")
    when (okb (negb (is_strict_int processes) || (int_of processes <? 0) || negb (is_list resources)))
         or' sorted_set_differs (list_of resources)
         or' okb ((512 <? Z.of_nat (length (list_of resources))) || existsb bad_resource (list_of resources));;
  let* conditions := all_true purge (List.tl purge_checks) in
  let* verified := sub purge "verified_externally" in
  raise (ValueError "legacy aggregate purge result is inconsistent")
    when ne verified (VBool ((conditions : bool) && (int_of processes =? 0) && (length (list_of resources) =? 0)%nat));;
  Ok purge.

Definition is_one_critical (o : option (Z * string)) : bool :=
  match o with Some f => finding_eqb f (1, "CRITICAL") | None => false end.

Definition absent_finding (o : option (Z * string)) : bool := match o with None => true | Some _ => false end.

Definition check_legacy_findings (receipt purge : pyval) (missing_controls : list string) : res (list finding) :=
  let* found := sub receipt "detector_findings" in
  let* finding_map := _legacy_finding_map found in
  let purge_finding := assoc "purge_failure" finding_map in
  let* verified := sub purge "verified_externally" in
  raise (ValueError "verified legacy purge contradicts purge_failure")
    when truthy verified && negb (absent_finding purge_finding);;
  raise (ValueError "failed legacy purge lacks canonical purge_failure")
    when negb (truthy verified) && negb (is_one_critical purge_finding);;
  let isolation_finding := assoc "isolation_admission_failure" finding_map in
  raise (ValueError "legacy isolation admission failure is non-canonical")
    when negb (absent_finding isolation_finding) && negb (is_one_critical isolation_finding);;
  raise (ValueError "missing required isolation lacks admission failure")
    when negb (length missing_controls =? 0)%nat && negb (is_one_critical isolation_finding);;
  Ok finding_map.

Definition known_bad (r : string) : bool :=
  match assoc r Detectors.RULES with Some (_, _, hint) => String.eqb hint "known_bad" | None => false end.

Definition legacy_risk (finding_map : list finding) : string :=
  if existsb (fun f => known_bad (fst f)) finding_map then "hostile"
  else match finding_map with [] => "benign" | _ => "suspicious" end.

Definition check_legacy_outward (receipt : pyval) (finding_map : list finding) : res pyval :=
  let* outward := sub receipt "outward_report" in
  let* items := map_res outward_item finding_map in
  let* capabilities := sub receipt "capabilities" in
  let requested := if is_dict capabilities then default VNone (assoc "requested" (dict_of capabilities)) else VNone in
  let* evidence := sub outward "evidence" in
  let* risk := sub outward "risk_level" in
  let* asked := sub outward "capabilities_requested" in
  let* uncertainty := sub outward "uncertainty" in
  let* residual := sub receipt "residual_uncertainty" in
  raise (ValueError "legacy outward report is not evidence-bound")
    when ne evidence (VList items) || ne_str risk (legacy_risk finding_map) || ne asked requested
         || ne uncertainty residual;;
  Ok outward.

Definition check_legacy_gate (receipt outward : pyval) : res pyval :=
  let* gate := sub receipt "gate" in
  raise (ValueError "legacy gate result is malformed") when negb (dict_shape gate _LEGACY_GATE_KEYS);;
  let* override := sub gate "human_gate_override" in
  raise (ValueError "legacy human override is invalid") when notM (in_strs override ["none"; "ALLOW"; "DENY"]);;
  let* identity := sub receipt "identity" in
  let* job_id := get identity "job_id" in
  raise (ValueError "legacy job identity is invalid") when negb (is_str job_id) || String.eqb (str_of job_id) "";;
  let overrides := if py_eq override (VStr "none") then [] else [(str_of job_id, override)] in
  let* expected :=
    PolicyGate.apply_scoring_matrix parse_float outward (PolicyGate.OverrideDict overrides) (str_of job_id) in
  raise (ValueError "legacy gate result contradicts signed evidence") when ne gate expected;;
  Ok gate.

(** What an incomplete, or a complete, observation must look like. *)
Definition check_observation (receipt observation gate : pyval) (finding_map : list finding) : res unit :=
  raise (ValueError "legacy observation section is malformed")
    when negb (dict_shape observation _LEGACY_OBSERVATION_KEYS);;
  let* status := sub observation "status" in
  raise (ValueError "legacy observation status is invalid")
    when notM (in_strs status ["COMPLETE"; "EVALUATION_INCOMPLETE"]);;
  let* exec_observed := sub observation "exec_observed" in
  raise (ValueError "legacy observation exec witness must be bool") when negb (is_bool exec_observed);;
  let* failure_class := sub observation "failure_class" in
  raise (ValueError "legacy observation failure class is invalid")
    when okb (negb (is_none failure_class)) and' notM (in_strs failure_class LEGACY_OBSERVATION_FAILURE_CLASSES);;
  let* diagnostic := sub observation "diagnostic" in
  raise (ValueError "legacy observation diagnostic must be a bounded string") when negb (str_len_in 0 512 diagnostic);;
  let observation_finding := assoc "payload_observation_incomplete" finding_map in
  let* final := sub gate "final_decision" in
  if py_eq status (VStr "EVALUATION_INCOMPLETE") then
    raise (ValueError "incomplete observation lacks canonical finding") when negb (is_one_critical observation_finding);;
    raise (ValueError "incomplete observation lacks a failure class") when is_none failure_class;;
    raise (ValueError "incomplete observation must not produce a verdict") when ne_str final "EVALUATION_INCOMPLETE";;
    let* incomplete := sub receipt "telemetry_incomplete" in
    raise (ValueError "incomplete observation must mark telemetry incomplete") when negb (is_true incomplete);;
    let* residual := sub receipt "residual_uncertainty" in
    raise (ValueError "incomplete observation must retain full uncertainty") when ne residual (VFloat (FFin 1 1));;
    Ok tt
  else
    raise (ValueError "completed observation contradicts incomplete finding")
      when negb (absent_finding observation_finding);;
    raise (ValueError "completed observation carries failure diagnostics")
      when negb (is_none failure_class) || truthy diagnostic;;
    raise (ValueError "completed observation requires a terminal verdict") when notM (in_strs final ["ALLOW"; "DENY"]);;
    Ok tt.

Definition check_legacy_observation (receipt gate : pyval) (finding_map : list finding) : res unit :=
  let* observation := get receipt "observation" in
  if negb (is_none observation) then check_observation receipt observation gate finding_map
  else
    raise (ValueError "incomplete observation finding lacks an observation section")
      when has_key "payload_observation_incomplete" finding_map;;
    Ok tt.

Definition check_legacy_final (receipt purge gate : pyval) (finding_map : list finding) (missing_controls : list string)
    : res unit :=
  let* verified := sub purge "verified_externally" in
  let missing := negb (length missing_controls =? 0)%nat in
  let failed := negb (absent_finding (assoc "isolation_admission_failure" finding_map)) || missing || negb (truthy verified) in
  let* incomplete := sub receipt "telemetry_incomplete" in
  raise (ValueError "legacy infrastructure failure must mark telemetry incomplete") when failed && negb (is_true incomplete);;
  let* residual := sub receipt "residual_uncertainty" in
  raise (ValueError "legacy infrastructure failure must retain full uncertainty")
    when failed && ne residual (VFloat (FFin 1 1));;
  let* final := sub gate "final_decision" in
  raise (ValueError "legacy ALLOW lacks required isolation or verified purge")
    when py_eq final (VStr "ALLOW") && (missing || negb (truthy verified));;
  Ok tt.

Definition _validate_legacy_receipt (receipt : pyval) (active_policy : policy_source) : res unit :=
  let* policy := _load_active_policy active_policy in
  let* missing_controls := check_legacy_isolation receipt policy in
  let* purge := check_legacy_purge receipt in
  let* finding_map := check_legacy_findings receipt purge missing_controls in
  let* outward := check_legacy_outward receipt finding_map in
  let* gate := check_legacy_gate receipt outward in
  let* _ := check_legacy_observation receipt gate finding_map in
  check_legacy_final receipt purge gate finding_map missing_controls.

(** ** [validate_receipt] *)
Definition REQUIRED_SECTIONS : list string :=
  ["identity"; "snapshot_policy"; "isolation"; "budgets_granted"; "capabilities"; "telemetry_summary";
   "canaries_touched"; "destinations_attempted"; "detector_findings"; "gate"; "outward_report"; "purge";
   "telemetry_incomplete"; "budget_exhausted"; "residual_uncertainty"; "receipt_signature"].
Definition OPTIONAL_SECTIONS : list string := ["mcp_protocol"; "browser_probe"; "observation"].

(** [isinstance(d.get(k), bool)] of every name *)
Fixpoint each_get_bool (d : pyval) (names : list string) : res unit :=
  match names with
  | [] => Ok tt
  | k :: r =>
      let* v := get d k in
      raise (ValueError ("isolation." +:+ k +:+ " must be bool")) when negb (is_bool v);;
      each_get_bool d r
  end.

Definition validate_receipt (receipt : pyval) (active_policy : policy_source) : res unit :=
  raise (ValueError "receipt is missing required sections")
    when negb (is_dict receipt) || negb (has_keys REQUIRED_SECTIONS receipt);;
  raise (ValueError "receipt contains unknown sections")
    when negb (only_keys (REQUIRED_SECTIONS ++ OPTIONAL_SECTIONS) receipt);;
  let* identity := sub receipt "identity" in
  let* artifact_type := get identity "artifact_type" in
  raise (ValueError "invalid artifact type") when notM (in_strs artifact_type ARTIFACT_TYPES);;
  let* artifact := get identity "artifact_sha256" in
  raise (ValueError "invalid artifact hash") when negb (_is_sha256 artifact);;
  let* isolation := sub receipt "isolation" in
  raise (ValueError "invalid isolation mode") when negb (is_dict isolation);;
  let* mode := get isolation "mode" in
  raise (ValueError "invalid isolation mode") when notM (in_strs mode ["full-root"; "degraded-user"; "firecracker"]);;
  let* _ := each_get_bool isolation ["namespace_used"; "seccomp_loaded"; "cgroups_used"; "mlock_used"] in
  let* gate := sub receipt "gate" in
  let* final := get gate "final_decision" in
  raise (ValueError "invalid final gate decision")
    when notM (in_strs final ["ALLOW"; "DENY"; "EVALUATION_INCOMPLETE"]);;
  let* purge := sub receipt "purge" in
  let* verified := get purge "verified_externally" in
  raise (ValueError "purge verification must be bool") when notM (is_number 1 verified or' is_number 0 verified);;
  let* _ := each_sub receipt ["telemetry_incomplete"; "budget_exhausted"] (fun v => negb (is_bool v))
    (fun k => k +:+ " must be bool") in
  let* outward := sub receipt "outward_report" in
  let* _ := OutwardReport.validate_outward_report outward in
  let* signature := sub receipt "receipt_signature" in
  raise (ValueError "invalid receipt signature") when negb (_is_sha256 signature);;
  let is_browser := py_eq artifact_type (VStr "browser-probe") in
  raise (ValueError "browser probe section must exist iff artifact type is browser-probe")
    when negb (Bool.eqb is_browser (has_key "browser_probe" (dict_of receipt)));;
  if is_browser then _validate_browser_probe_section receipt
  else _validate_legacy_receipt receipt active_policy.

(** ** [create_receipt] *)

(** The sections in the order of the source, before the three flags. *)
Definition SECTION_NAMES : list string := take 12 REQUIRED_SECTIONS.

(** An optional section, present unless [None]. *)
Definition optional_section (name : string) (v : pyval) : pydict := if is_none v then [] else [(name, v)].

Definition create_receipt (sections : list pyval) (telemetry_incomplete budget_exhausted : pyval)
    (residual_uncertainty : pyfloat) (mcp_protocol browser_probe observation : pyval) (path : key_path) (urandom : string)
    (active_policy : policy_source) : res pyval :=
  let unsigned :=
    zip SECTION_NAMES sections
    ++ [("telemetry_incomplete", VBool (truthy telemetry_incomplete));
        ("budget_exhausted", VBool (truthy budget_exhausted));
        ("residual_uncertainty", VFloat (OutwardReport.clamp residual_uncertainty))]
    ++ optional_section "mcp_protocol" mcp_protocol
    ++ optional_section "browser_probe" browser_probe
    ++ optional_section "observation" observation in
  let* key := load_or_create_key path urandom in
  let* signature := sign_receipt (VDict unsigned) key in
  let receipt := VDict (unsigned ++ [("receipt_signature", VStr signature)]) in
  let* _ := validate_receipt receipt active_policy in
  Ok receipt.

End receipt.
End DetonationReceipt.
