(* ===== verification/ReceiptFacts.v ===== *)
(** * What a valid receipt guarantees

    Theorems about observer/receipt.py: an ALLOW verdict in a valid receipt is
    backed by the evidence in the other sections, for browser and for legacy
    receipts, and the signature authenticates the sections. *)

From stdpp Require Import base list strings sorting.
From Stdlib Require Import ZArith Lia.
From S2P Require Import Prelude PyValue Sha256 Json StrOps Url UrlFacts Counter Detectors OutwardReport PolicyGate.
From S2P Require Import BrowserContract BrowserEvidence BrowserReceipt DetonationReceipt.

Local Open Scope Z_scope.

Module ReceiptFacts.
Import BrowserReceipt DetonationReceipt.

(** ** Loops over fields *)
Definition flags_true (d : pyval) (names : list string) : Prop :=
  forall k, In k names -> sub d k = Ok (VBool true).

Lemma each_sub_ok d names bad msg k :
  each_sub d names bad msg = Ok tt -> In k names -> exists v, sub d k = Ok v /\ bad v = false.
Proof.
  induction names as [|x names IH]; cbn [each_sub]; [by intros _ []|]. intros He Hk. run_inv.
  destruct Hk as [<-|Hk]; [eauto|by apply IH].
Qed.

Lemma all_true_ok d names k :
  all_true d names = Ok true -> In k names -> exists v, sub d k = Ok v /\ truthy v = true.
Proof.
  induction names as [|x names IH]; cbn [all_true]; [by intros _ []|]. intros He Hk. run_inv.
  destruct (truthy _) eqn:Et; [|done]. destruct Hk as [<-|Hk]; [eauto|by apply IH].
Qed.

Lemma agree_ok a b names msg k :
  agree a b names msg = Ok tt -> In k names -> exists x y, sub a k = Ok x /\ sub b k = Ok y /\ py_eq x y = true.
Proof.
  induction names as [|n names IH]; cbn [agree]; [by intros _ []|]. intros He Hk. run_inv.
  destruct Hk as [<-|Hk]; [|by apply IH]. do 2 eexists. split_and!; [done..|].
  unfold ne in *. by run_inv.
Qed.

Lemma bool_truthy v : is_bool v = true -> truthy v = true -> v = VBool true.
Proof. destruct v as [|[]| | | | | |]; done. Qed.

Lemma bool_eq_true v : is_bool v = true -> py_eq v (VBool true) = true -> v = VBool true.
Proof. destruct v as [|[]| | | | | |]; done. Qed.

Lemma ne_false a b : ne a b = false -> py_eq a b = true.
Proof. unfold ne. by intros ->%negb_false_iff. Qed.

Lemma py_eq_str_l s v : py_eq (VStr s) v = true -> v = VStr s.
Proof. destruct v; try done. cbn. by intros ->%String.eqb_eq. Qed.

Lemma in_zip_l {A B} (l : list A) (k : list B) a b : In (a, b) (zip l k) -> In a l.
Proof. revert k. induction l as [|x l IH]; intros [|y k]; cbn; try done. intros [[= -> ->]|Hin]; eauto. Qed.

(** ** Browser receipts *)
Section browser.
Context `{Unicode} `{UnicodeDigits}.

(** The aggregate purge verdict covers every component. *)
Lemma purge_verified receipt purge v :
  check_purge receipt = Ok purge -> sub purge "verified_externally" = Ok v -> truthy v = true ->
  sub receipt "purge" = Ok purge /\ flags_true purge _BROWSER_PURGE_KEYS.
Proof.
  intros Hp Hv Ht. unfold check_purge in Hp. run_inv. subst.
  match goal with Hx : sub receipt "purge" = Ok ?p |- _ => rename Hx into Hpurge end.
  match goal with He : each_sub _ _BROWSER_PURGE_KEYS _ _ = Ok ?u |- _ => destruct u; rename He into Hb end.
  match goal with Ha : all_true _ _ = Ok ?b |- _ => rename Ha into Hall; rename b into all end.
  match goal with Hn : ne ?w _ = false |- _ => apply ne_false in Hn; rename Hn into Hagree end.
  split; [done|]. match goal with Hw : sub purge "verified_externally" = Ok ?w |- _ =>
    assert (w = v) as -> by congruence end.
  assert (Hvb : is_bool v = true).
  { destruct (each_sub_ok _ _ _ _ "verified_externally" Hb) as (w & Hw & Hbad); [by left|].
    assert (w = v) as -> by congruence. by run_inv. }
  pose proof (bool_truthy _ Hvb Ht) as ->. assert (all = true) as -> by (by destruct all).
  intros k [<-|Hk]; [done|]. destruct (all_true_ok _ _ _ Hall Hk) as (w & Hw & Hwt).
  destruct (each_sub_ok _ _ _ _ k Hb) as (w' & Hw' & Hbad); [by right|].
  assert (w' = w) as -> by congruence. rewrite Hw. f_equal. apply bool_truthy; [by run_inv|done].
Qed.

(** Admission is a bool, and an admitted runtime has every isolation flag. *)
Lemma runtime_admitted browser runtime vmm budgets v :
  check_runtime_shape browser = Ok runtime -> check_admitted runtime vmm budgets = Ok tt ->
  sub runtime "admitted" = Ok v -> truthy v = true ->
  sub browser "runtime" = Ok runtime /\ flags_true runtime ("admitted" :: ISOLATION_FLAGS).
Proof.
  intros Hs Ha Hv Ht. unfold check_runtime_shape in Hs. run_inv. subst.
  match goal with Hx : sub browser "runtime" = Ok _ |- _ => split; [exact Hx|] end.
  assert (Hvb : is_bool v = true) by congruence. pose proof (bool_truthy _ Hvb Ht) as ->.
  unfold check_admitted in Ha. rewrite Hv in Ha. cbn [mbind res_bind truthy] in Ha. run_inv.
  match goal with Hall : all_true runtime ISOLATION_FLAGS = Ok true |- _ => rename Hall into Hf end.
  match goal with He : each_sub runtime ("host_runtime_tmpfs" :: _) _ _ = Ok ?u |- _ => destruct u; rename He into Hb end.
  intros k [<-|Hk]; [done|]. destruct (all_true_ok _ _ _ Hf Hk) as (w & Hw & Hwt).
  destruct (each_sub_ok _ _ _ _ k Hb) as (w' & Hw' & Hbad); [unfold ISOLATION_FLAGS in Hk; cbn in Hk |- *; tauto|].
  assert (w' = w) as -> by congruence. rewrite Hw. f_equal. apply bool_truthy; [by run_inv|done].
Qed.

Lemma isolation_flags receipt runtime isolation :
  check_isolation receipt runtime = Ok isolation -> flags_true runtime ("admitted" :: ISOLATION_FLAGS) ->
  sub receipt "isolation" = Ok isolation /\ flags_true isolation (ADMISSION_FLAGS ++ ISOLATION_FLAGS).
Proof.
  intros Hi Hr. unfold check_isolation in Hi. run_inv. subst.
  match goal with Hx : sub receipt "isolation" = Ok _ |- _ => split; [exact Hx|] end.
  match goal with He : each_sub isolation (List.tl _) _ _ = Ok ?u |- _ => destruct u; rename He into Hb end.
  match goal with He : each_sub isolation ADMISSION_FLAGS _ _ = Ok ?u |- _ => destruct u; rename He into Ha end.
  match goal with He : agree _ _ _ _ = Ok ?u |- _ => destruct u; rename He into Hg end.
  match goal with Hx : sub runtime "admitted" = Ok ?w |- _ => rewrite (Hr "admitted") in Hx by (by left); apply Ok_inj in Hx; subst w end.
  assert (Hbool : forall k v, In k (ADMISSION_FLAGS ++ ISOLATION_FLAGS) -> sub isolation k = Ok v -> is_bool v = true).
  { intros k v Hk Hv. destruct (each_sub_ok _ _ _ _ k Hb) as (w & Hw & Hbad); [unfold ISOLATION_FLAGS in Hk; cbn in Hk |- *; tauto|].
    assert (w = v) as -> by congruence. by run_inv. }
  intros k Hk. pose proof Hk as Hk'. apply in_app_iff in Hk as [Hk|Hk].
  - destruct (each_sub_ok _ _ _ _ k Ha Hk) as (w & Hw & Hbad%ne_false). rewrite Hw. f_equal.
    apply bool_eq_true; [by eapply Hbool|done].
  - destruct (agree_ok _ _ _ _ k Hg Hk) as (x & y & Hx & Hy & He).
    rewrite (Hr k) in Hy by (by right). apply Ok_inj in Hy. subst y. rewrite Hx. f_equal.
    apply bool_eq_true; [by eapply Hbool|done].
Qed.

(** Equal finding maps name the same rules. *)
Lemma same_findings_ids a b f : same_findings a b = true -> In f a -> exists x, In (fst f, x) b.
Proof.
  unfold same_findings. intros [_ Hf]%andb_true_iff Hin. rewrite forallb_forall in Hf. apply Hf in Hin.
  destruct (assoc (fst f) b) as [x|] eqn:E; [|done]. exists x. by apply assoc_In.
Qed.

Lemma same_findings_nil a : same_findings a [] = true -> a = [].
Proof. unfold same_findings. by destruct a. Qed.

(** What the last check leaves of an ALLOW. *)
Lemma final_allow gate reduction runtime purge expected :
  check_final gate reduction runtime purge expected = Ok tt ->
  sub gate "final_decision" = Ok (VStr "ALLOW") ->
  (exists v, sub runtime "admitted" = Ok v /\ truthy v = true) /\
  (exists v, sub purge "verified_externally" = Ok v /\ truthy v = true) /\
  (exists v, sub reduction "telemetry_incomplete" = Ok v /\ truthy v = false) /\
  (forall f, In f expected -> ~ In (fst f) PolicyGate.UNOVERRIDABLE_RULES) /\
  (exists override, sub gate "human_gate_override" = Ok override /\
     (override = VStr "ALLOW" \/ sub reduction "decision" = Ok (VStr "ALLOW"))).
Proof.
  intros Hc Hf. unfold check_final in Hc. run_inv.
  destruct (existsb (fun f => mem (fst f) PolicyGate.UNOVERRIDABLE_RULES) expected) eqn:Efc.
  { rewrite Hf in Hc. cbn [mbind res_bind] in Hc. run_inv. done. }
  rewrite Hf in *.
  match goal with Hc : (let '(_, _) := (if ?b then _ else _) in _) = Ok tt |- _ => destruct b eqn:Eb end;
    cbn [mbind res_bind] in Hc; run_inv.
  all: repeat match goal with Hn : ne _ _ = false |- _ => apply ne_false in Hn end.
  all: match goal with Ha : py_eq (VStr "ALLOW") (VStr "ALLOW") && _ = false |- _ => cbn in Ha; run_inv end.
  all: split_and!; [by eexists..| |].
  all: try (intros f Hin Hr; apply mem_In in Hr; assert (existsb (fun f => mem (fst f) PolicyGate.UNOVERRIDABLE_RULES) expected = true)
    by (apply existsb_exists; eauto); congruence).
  all: match goal with Hp : py_eq (VStr "ALLOW") ?x = true |- _ => apply py_eq_str_l in Hp; subst x end; eauto.
Qed.

(** The parts of a valid browser section that an ALLOW rests on. *)
Record backed_allow (receipt : pyval) (override : pyval) : Prop := {
  ba_runtime : exists browser runtime, get receipt "browser_probe" = Ok browser /\
    sub browser "runtime" = Ok runtime /\ flags_true runtime ("admitted" :: ISOLATION_FLAGS);
  ba_purge : exists purge, sub receipt "purge" = Ok purge /\ flags_true purge _BROWSER_PURGE_KEYS;
  ba_isolation : exists isolation, sub receipt "isolation" = Ok isolation /\
    flags_true isolation (ADMISSION_FLAGS ++ ISOLATION_FLAGS);
  ba_telemetry : sub receipt "telemetry_incomplete" = Ok (VBool false);
  ba_findings : exists value findings, sub receipt "detector_findings" = Ok value /\
    _validate_finding_list value false = Ok findings /\
    (forall f, In f findings -> ~ In (fst f) PolicyGate.UNOVERRIDABLE_RULES) /\
    (override = VStr "ALLOW" \/ findings = []);
}.

Lemma same_list_eq a b : same_list a b = true -> a = b.
Proof.
  revert b. induction a as [|[i [n s]] a IH]; intros [|[j [m t]] b]; cbn; try done.
  unfold finding_eqb. cbn. intros Ha. run_inv.
  repeat match goal with Hx : (_ =? _)%string = true |- _ => apply String.eqb_eq in Hx end.
  match goal with Hz : (_ =? _) = true |- _ => apply Z.eqb_eq in Hz end. subst. f_equal. by apply IH.
Qed.

Lemma reduction_decision browser evidence status reduction findings :
  check_reduction browser evidence status = Ok (reduction, findings) ->
  sub reduction "decision" = Ok (VStr "ALLOW") -> findings = [].
Proof.
  intros Hr Hd. unfold check_reduction in Hr. run_inv. simplify_eq.
  match goal with Hn : ne_str ?x (match findings with _ => _ end) = false |- _ =>
    apply ne_false in Hn; assert (x = VStr "ALLOW") as -> by congruence; apply py_eq_str_l in Hn end.
  by destruct findings.
Qed.

Lemma receipt_telemetry receipt reduction purge findings v w :
  check_flags receipt reduction purge findings = Ok tt ->
  sub reduction "telemetry_incomplete" = Ok v -> truthy v = false ->
  sub purge "verified_externally" = Ok w -> truthy w = true ->
  (exists u, sub receipt "telemetry_incomplete" = Ok u /\ is_bool u = true) ->
  sub receipt "telemetry_incomplete" = Ok (VBool false).
Proof.
  intros Hc Hv Hvt Hw Hwt (u & Hu & Hub). unfold check_flags in Hc. rewrite Hv, Hw, Hu in Hc.
  cbn [mbind res_bind] in Hc. run_inv. rewrite Hu. f_equal.
  match goal with Hn : ne u _ = false |- _ => apply ne_false in Hn; rewrite Hvt, Hwt in Hn; cbn [orb negb] in Hn end.
  by destruct u as [|[]| | | | | |].
Qed.

Lemma section_allow receipt gate :
  _validate_browser_probe_section receipt = Ok tt ->
  sub receipt "gate" = Ok gate -> sub gate "final_decision" = Ok (VStr "ALLOW") ->
  (exists u, sub receipt "telemetry_incomplete" = Ok u /\ is_bool u = true) ->
  exists override, sub gate "human_gate_override" = Ok override /\ backed_allow receipt override.
Proof.
  intros Hs Hg Hf Hu. unfold _validate_browser_probe_section in Hs. run_inv.
  repeat match goal with Hp : (let '(_, _) := ?p in _) = Ok tt |- _ => destruct p; run_inv end.
  repeat match goal with u : unit |- _ => destruct u end.
  match goal with Hc : check_gate_shape _ _ = Ok ?g |- _ =>
    assert (g = gate) as -> by (unfold check_gate_shape in Hc; run_inv; congruence) end.
  match goal with Hc : check_final _ _ _ _ _ = Ok tt |- _ =>
    destruct (final_allow _ _ _ _ _ Hc Hf) as ((va & Hva & Hta) & (vp & Hvp & Htp) & (vi & Hvi & Hti) & Hun & Hov) end.
  match goal with H1 : check_runtime_shape _ = Ok _, H2 : check_admitted _ _ _ = Ok tt |- _ =>
    destruct (runtime_admitted _ _ _ _ _ H1 H2 Hva Hta) as [Hrt Hflags] end.
  match goal with H1 : check_findings _ _ _ _ _ _ = Ok _ |- _ => rename H1 into Hcf end.
  unfold check_findings in Hcf. run_inv. simplify_eq.
  match goal with H1 : check_purge _ = Ok _ |- _ => destruct (purge_verified _ _ _ H1 Hvp Htp) as [Hpu Hpf] end.
  match goal with H1 : check_isolation _ _ = Ok _ |- _ => destruct (isolation_flags _ _ _ H1 Hflags) as [His Hif] end.
  repeat match goal with
  | H1 : sub ?d ?k = Ok ?a, H2 : sub ?d ?k = Ok ?b |- _ => assert (b = a) as -> by congruence; clear H2
  end.
  assert (Htel : sub receipt "telemetry_incomplete" = Ok (VBool false)) by (eapply receipt_telemetry; eassumption).
  assert (Eexp : forall l, expected_findings l true true = l) by done.
  repeat match goal with Ht : truthy _ = true |- _ => rewrite Ht in *; clear Ht end.
  rewrite Eexp in *. destruct Hov as (override & Hovr & Hov). exists override. split; [done|].
  match goal with Hl : same_list _ _ = true |- _ => apply same_list_eq in Hl; subst end.
  split; [by do 2 eexists|by eexists|by eexists|done|].
  do 2 eexists. split; [done|]. split; [done|].
  match goal with Hsf : same_findings _ _ = true |- _ => rename Hsf into Hsame end. split.
  - intros f Hin. destruct (same_findings_ids _ _ _ Hsame Hin) as [y Hy]. exact (Hun (fst f, y) Hy).
  - destruct Hov as [->|Hd]; [by left|]. right. apply same_findings_nil.
    match goal with Hr : check_reduction _ _ _ = Ok (_, ?l) |- _ =>
      rewrite (reduction_decision _ _ _ _ _ Hr Hd) in Hsame end. exact Hsame.
Qed.

End browser.

(** ** Legacy receipts *)
Section legacy.
Variable float_repr : pyfloat -> string.
Variable parse_float : string -> pyfloat.
Context `{Unicode} `{UnicodeDigits}.

Notation validate_receipt := (validate_receipt float_repr parse_float).

(** What an ALLOW in a legacy receipt rests on. *)
Record backed_legacy_allow (receipt policy : pyval) : Prop := {
  bl_policy : exists snapshot h, sub receipt "snapshot_policy" = Ok snapshot /\
    get snapshot "policy_hash" = Ok (VStr h) /\ _canonical_hash float_repr policy = Ok h;
  bl_isolation : exists isolation mode controls, sub receipt "isolation" = Ok isolation /\
    sub isolation "mode" = Ok mode /\ required_isolation_controls mode policy = Ok controls /\
    forall name, In (name, true) controls -> sub isolation name = Ok (VBool true);
  bl_purge : exists purge, sub receipt "purge" = Ok purge /\ flags_true purge purge_checks /\
    sub purge "processes_remaining" = Ok (VInt 0) /\ sub purge "remaining_host_resources" = Ok (VList []);
  bl_findings : exists value findings, sub receipt "detector_findings" = Ok value /\
    _legacy_finding_map value = Ok findings /\ assoc "purge_failure" findings = None;
  bl_gate : exists outward identity job gate override v, sub receipt "outward_report" = Ok outward /\
    sub receipt "identity" = Ok identity /\ get identity "job_id" = Ok (VStr job) /\
    sub receipt "gate" = Ok gate /\ sub gate "human_gate_override" = Ok override /\
    PolicyGate.apply_scoring_matrix parse_float outward
      (PolicyGate.OverrideDict (if py_eq override (VStr "none") then [] else [(job, override)])) job = Ok v /\
    py_eq gate v = true;
}.

Definition missing_step (isolation : pyval) (acc : list string) (control : string * bool) : res (list string) :=
  let '(name, needed) := control in
  let* used := sub isolation name in
  Ok (if (needed : bool) && negb (truthy used) then acc ++ [name] else acc).

Lemma missing_grows isolation controls acc l :
  foldM (missing_step isolation) controls acc = Ok l -> forall x, In x acc -> In x l.
Proof.
  revert acc. induction controls as [|[n needed] cs IH]; intros acc; cbn [foldM]; intros Hf x Hx; run_inv; [by subst|].
  eapply IH; [exact Hf|]. match goal with Hm : missing_step _ _ _ = Ok _ |- _ => unfold missing_step in Hm; run_inv; subst end.
  destruct (_ && _); [|done]. apply in_app_iff. by left.
Qed.

(** A control that was required and not used is reported missing. *)
Lemma missing_complete isolation controls acc :
  foldM (missing_step isolation) controls acc = Ok [] ->
  forall name, In (name, true) controls -> exists v, sub isolation name = Ok v /\ truthy v = true.
Proof.
  revert acc. induction controls as [|[n needed] cs IH]; intros acc; cbn [foldM]; intros Hf name; [by intros []|].
  run_inv. intros [[= -> ->]|Hin]; [|by eapply IH].
  match goal with Hm : missing_step _ _ _ = Ok _ |- _ => unfold missing_step in Hm; run_inv end.
  match goal with Hs : sub isolation name = Ok ?v |- _ => exists v; split; [done|]; destruct (truthy v) eqn:Et; [done|] end.
  subst. cbn [andb negb] in Hf. exfalso.
  refine (missing_grows _ _ _ _ Hf name _). apply in_app_iff. right. by left.
Qed.

Lemma sort_strs_nil l : sort_strs l = [] -> l = [].
Proof. intros Hl. pose proof (sort_strs_perm l) as Hp. rewrite Hl in Hp. by apply Permutation_nil_l in Hp. Qed.

Lemma legacy_isolation_sound receipt policy :
  check_legacy_isolation float_repr receipt policy = Ok [] ->
  (exists snapshot h, sub receipt "snapshot_policy" = Ok snapshot /\
     get snapshot "policy_hash" = Ok (VStr h) /\ _canonical_hash float_repr policy = Ok h) /\
  (exists isolation mode controls, sub receipt "isolation" = Ok isolation /\
     sub isolation "mode" = Ok mode /\ required_isolation_controls mode policy = Ok controls /\
     forall name, In (name, true) controls -> sub isolation name = Ok (VBool true)).
Proof.
  intros Hc. unfold check_legacy_isolation in Hc. run_inv.
  match goal with Hn : ne_str ?v ?h = false |- _ => apply ne_false, py_eq_str in Hn; subst v end.
  match goal with Hs : sort_strs _ = [] |- _ => apply sort_strs_nil in Hs; subst end.
  match goal with He : each_sub _ _ _ _ = Ok ?u |- _ => destruct u; rename He into Hb end.
  match goal with Hf : foldM _ _ [] = Ok [] |- _ => rename Hf into Hm end.
  split; [by do 2 eexists|]. do 3 eexists. split_and!; [done..|]. intros name Hin.
  destruct (missing_complete _ _ _ Hm _ Hin) as (v & Hv & Ht).
  destruct (each_sub_ok _ _ _ _ name Hb) as (w & Hw & Hbad); [apply in_map_iff; by exists (name, true)|].
  assert (w = v) as -> by congruence. rewrite Hv. f_equal. apply bool_truthy; [by run_inv|done].
Qed.

Lemma legacy_purge_sound receipt purge v :
  check_legacy_purge receipt = Ok purge -> sub purge "verified_externally" = Ok v -> truthy v = true ->
  sub receipt "purge" = Ok purge /\ flags_true purge purge_checks /\
  sub purge "processes_remaining" = Ok (VInt 0) /\ sub purge "remaining_host_resources" = Ok (VList []).
Proof.
  intros Hc Hv Ht. unfold check_legacy_purge in Hc. run_inv. subst.
  match goal with He : each_sub _ purge_checks _ _ = Ok ?u |- _ => destruct u; rename He into Hb end.
  match goal with Ha : all_true _ _ = Ok _ |- _ => rename Ha into Hall end.
  match goal with Hn : ne ?w _ = false |- _ => apply ne_false in Hn; assert (w = v) as -> by congruence; rename Hn into Hg end.
  assert (Hbool : forall k w, In k purge_checks -> sub purge k = Ok w -> is_bool w = true).
  { intros k w Hk Hw. destruct (each_sub_ok _ _ _ _ k Hb Hk) as (w' & Hw' & Hbad).
    assert (w' = w) as -> by congruence. by run_inv. }
  assert (v = VBool true) as -> by (apply bool_truthy; [eapply Hbool; [by left|done]|done]).
  match type of Hg with py_eq _ (VBool ?b) = true => assert (b = true) as Hall' by (by destruct b) end. run_inv. subst.
  split; [done|]. split.
  - intros k [<-|Hk]; [done|]. destruct (all_true_ok _ _ _ Hall Hk) as (w & Hw & Hwt). rewrite Hw. f_equal.
    apply bool_truthy; [eapply Hbool; [by right|done]|done].
  - match goal with Hp : sub purge "processes_remaining" = Ok ?x, Hr : sub purge "remaining_host_resources" = Ok ?y |- _ =>
      rewrite Hp, Hr; destruct x; try done; destruct y as [| | | | | |l|]; try done end.
    cbn [int_of list_of] in *. split; [f_equal; f_equal; by apply Z.eqb_eq|].
    match goal with Hl : (length ?l =? 0)%nat = true |- _ => by destruct l end.
Qed.

Lemma legacy_allow receipt source gate :
  _validate_legacy_receipt float_repr parse_float receipt source = Ok tt ->
  sub receipt "gate" = Ok gate -> sub gate "final_decision" = Ok (VStr "ALLOW") ->
  exists policy, _load_active_policy parse_float source = Ok policy /\ backed_legacy_allow receipt policy.
Proof.
  intros Hl Hg Hf. unfold _validate_legacy_receipt in Hl. run_inv.
  repeat match goal with u : unit |- _ => destruct u end.
  match goal with Hc : check_legacy_gate _ _ _ = Ok ?g |- _ => rename Hc into Hgate;
    assert (g = gate) as -> by (unfold check_legacy_gate in Hgate; run_inv; congruence) end.
  unfold check_legacy_final in Hl. rewrite Hf in Hl. run_inv. cbn [mbind res_bind] in Hl. run_inv.
  subst. match goal with Ha : py_eq (VStr "ALLOW") (VStr "ALLOW") && _ = false |- _ =>
    change (py_eq (VStr "ALLOW") (VStr "ALLOW")) with true in Ha; cbn [andb] in Ha; run_inv end.
  match goal with Hi : check_legacy_isolation _ _ _ = Ok ?m |- _ =>
    assert (m = []) as -> by (by destruct m); destruct (legacy_isolation_sound _ _ Hi) as [Hpol Hiso] end.
  match goal with Hp : check_legacy_purge _ = Ok _, Hv : sub _ "verified_externally" = Ok _, Ht : truthy _ = true |- _ =>
    destruct (legacy_purge_sound _ _ _ Hp Hv Ht) as (Hpu & Hfl & Hpr & Hres); pose proof Ht as Htr; pose proof Hv as Hver end.
  eexists. split; [done|]. split; [done|done|by eexists| |].
  - match goal with Hc : check_legacy_findings _ _ _ = Ok _ |- _ => unfold check_legacy_findings in Hc; rewrite Hver in Hc;
      cbn [mbind res_bind] in Hc; rewrite Htr in Hc; cbn [andb negb] in Hc; run_inv; subst end.
    do 2 eexists. split_and!; [done..|].
    match goal with Ha : negb (absent_finding (assoc "purge_failure" ?l)) = false |- _ => by destruct (assoc "purge_failure" l)
      | Ha : absent_finding (assoc "purge_failure" ?l) = true |- _ => by destruct (assoc "purge_failure" l) end.
  - match goal with Ho : check_legacy_outward _ _ = Ok _ |- _ => unfold check_legacy_outward in Ho; run_inv; subst end.
    unfold check_legacy_gate in Hgate. run_inv. subst.
    match goal with Hj : get _ "job_id" = Ok ?j, Hs : is_str ?j = true |- _ => destruct j; try discriminate Hs end.
    do 6 eexists. split_and!; [eassumption..|].
    match goal with Hn : ne gate _ = false |- _ => by apply ne_false in Hn end.
Qed.

(** Two reads of one key give one value. *)
Ltac assert_same_sub :=
  repeat match goal with
  | H1 : sub ?d ?k = Ok ?a, H2 : sub ?d ?k = Ok ?b |- _ =>
      assert (b = a) by (rewrite H1 in H2; by apply Ok_inj in H2); subst b; clear H2
  end.
Ltac assert_same_get :=
  repeat match goal with
  | H1 : get ?d ?k = Ok ?a, H2 : get ?d ?k = Ok ?b |- _ =>
      assert (b = a) by (rewrite H1 in H2; by apply Ok_inj in H2); first [subst b | subst a]; clear H2
  end.

(** C1: A browser receipt that says ALLOW is backed by what it carries: if it
    validates, the runtime was admitted with every isolation control in force,
    the purge is verified in every component, the telemetry is complete, no
    infrastructure rule is among the findings, and either there is no finding at
    all or a human allowed it. *)
Theorem browser_allow_is_backed (receipt identity gate : pyval) (source : policy_source) :
  validate_receipt receipt source = Ok tt ->
  sub receipt "identity" = Ok identity -> get identity "artifact_type" = Ok (VStr "browser-probe") ->
  sub receipt "gate" = Ok gate -> sub gate "final_decision" = Ok (VStr "ALLOW") ->
  exists override, sub gate "human_gate_override" = Ok override /\ backed_allow receipt override.
Proof.
  intros Hv Hi Ht Hg Hf. unfold DetonationReceipt.validate_receipt in Hv. run_inv.
  assert_same_sub. assert_same_get.
  match goal with He : each_sub receipt _ _ _ = Ok ?u |- _ => destruct u; rename He into Hb end.
  change (py_eq (VStr "browser-probe") (VStr "browser-probe")) with true in Hv. cbv iota in Hv.
  eapply section_allow; try eassumption.
  destruct (each_sub_ok _ _ _ _ "telemetry_incomplete" Hb) as (w & Hw & Hbad); [by left|]. exists w. by run_inv.
Qed.

(** C30: A legacy receipt that says ALLOW is backed by what it carries: if it
    validates, it is bound to the active policy's hash, every isolation control
    that policy requires in its mode was used, the purge is verified with no
    process and no host resource left, no purge failure is reported, and the gate
    section is the scoring matrix's own answer on the outward report. *)
Theorem legacy_allow_is_backed (receipt identity gate : pyval) (kind : string) (source : policy_source) :
  validate_receipt receipt source = Ok tt ->
  sub receipt "identity" = Ok identity -> get identity "artifact_type" = Ok (VStr kind) -> kind <> "browser-probe" ->
  sub receipt "gate" = Ok gate -> sub gate "final_decision" = Ok (VStr "ALLOW") ->
  exists policy, _load_active_policy parse_float source = Ok policy /\ backed_legacy_allow receipt policy.
Proof.
  intros Hv Hi Ht Hk Hg Hf. unfold DetonationReceipt.validate_receipt in Hv. run_inv.
  assert_same_sub. assert_same_get.
  assert (E : py_eq (VStr kind) (VStr "browser-probe") = false) by (cbn; by apply String.eqb_neq).
  rewrite E in Hv. by eapply legacy_allow.
Qed.

(** ** Signatures *)
Lemma without_fresh k v (d : pydict) : ~ In k (keys d) -> without k (d ++ [(k, v)]) = d.
Proof.
  intros Hk. unfold without. rewrite List.filter_app. cbn. rewrite String.eqb_refl. cbn. rewrite app_nil_r.
  apply filter_all. apply List.Forall_forall. intros [k' v'] Hin. cbn.
  destruct (String.eqb_spec k' k) as [->|]; [|done]. destruct Hk. apply in_map_iff. by exists (k, v').
Qed.

Lemma assoc_snoc k v (d : pydict) : ~ In k (keys d) -> assoc k (d ++ [(k, v)]) = Some v.
Proof.
  induction d as [|[k' v'] d IH]; cbn; [by rewrite String.eqb_refl|]. intros Hk.
  destruct (String.eqb_spec k k') as [->|]; [naive_solver|]. apply IH. naive_solver.
Qed.

(** Verification accepts exactly what the key signed: a receipt verifies if
    and only if its other sections have a canonical form and the signature
    field is the HMAC of that form, and it never raises. *)
Theorem verify_signature_spec (receipt : pydict) (key : string) :
  verify_signature float_repr receipt key = true <->
  exists text, canonical_json float_repr (VDict (without "receipt_signature" receipt)) = Ok text /\
    assoc "receipt_signature" receipt = Some (VStr (hmac_hex key text)).
Proof.
  unfold verify_signature, sign_receipt. split.
  - destruct (assoc "receipt_signature" receipt) as [v|]; cbn [default from_option].
    + cbn [id]. destruct v as [| | | |s| | |]; try discriminate 1. destruct (isascii s); [|discriminate 1].
      destruct (canonical_json _ _) as [text|]; cbn [mbind res_bind]; [|discriminate 1]. intros ->%String.eqb_eq. eauto.
    + cbn [isascii str_forall]. destruct (canonical_json _ _) as [text|]; cbn [mbind res_bind]; [|discriminate 1].
      intros E%String.eqb_eq. pose proof (hmac_hex_hex key text) as Hh. rewrite <- E in Hh. discriminate Hh.
  - intros (text & Ht & ->). cbn [default from_option id]. rewrite (hex_string_ascii 64) by apply hmac_hex_hex.
    rewrite Ht. cbn [mbind res_bind]. apply String.eqb_refl.
Qed.

(** A receipt the observer creates validates and verifies: whenever
    [create_receipt] returns, the receipt it returns passes [validate_receipt]
    under the same policy and [verify_signature] under the observer's key. *)
Theorem created_receipt_verifies (sections : list pyval) (incomplete exhausted mcp browser observation : pyval)
    (residual : pyfloat) (path : key_path) (urandom : string) (source : policy_source) (receipt : pyval) :
  create_receipt float_repr parse_float sections incomplete exhausted residual mcp browser observation
    path urandom source = Ok receipt ->
  exists key d, load_or_create_key path urandom = Ok key /\ receipt = VDict d /\
    validate_receipt receipt source = Ok tt /\ verify_signature float_repr d key = true.
Proof.
  unfold create_receipt. cbv zeta. intros Hc. run_inv. subst receipt.
  match goal with u : unit |- _ => destruct u end.
  match goal with Hs : sign_receipt _ (VDict ?l) ?k = Ok ?sig |- _ =>
    exists k, (l ++ [("receipt_signature", VStr sig)]); rename Hs into Hsign; set (unsigned := l) in * end.
  split_and!; [done..|]. unfold sign_receipt in Hsign. run_inv.
  assert (Hfresh : ~ In "receipt_signature" (keys unsigned)).
  { unfold unsigned, keys. rewrite !map_app, !in_app_iff. intros [Hin|[Hin|[Hin|[Hin|Hin]]]].
    - apply in_map_iff in Hin as ([k v] & E & Hin). cbn in E. subst k. apply in_zip_l in Hin.
      cbn in Hin. by repeat destruct Hin as [Hin|Hin].
    - cbn in Hin. by repeat destruct Hin as [Hin|Hin].
    - unfold optional_section in Hin. destruct (is_none mcp); cbn in Hin; [done|]. by destruct Hin as [Hin|[]].
    - unfold optional_section in Hin. destruct (is_none browser); cbn in Hin; [done|]. by destruct Hin as [Hin|[]].
    - unfold optional_section in Hin. destruct (is_none observation); cbn in Hin; [done|]. by destruct Hin as [Hin|[]]. }
  unfold verify_signature, sign_receipt. rewrite assoc_snoc, without_fresh by done. cbn [default from_option id].
  match goal with Hs : canonical_json _ _ = Ok _ |- _ => rewrite Hs end. subst.
  rewrite (hex_string_ascii 64) by apply hmac_hex_hex. cbn [mbind res_bind]. apply String.eqb_refl.
Qed.

End legacy.
(** ** Concrete receipts *)
Definition no_digits : UnicodeDigits := {| u_isdigit := fun _ => false; u_int := fun _ => None |}.
Definition zero_repr (f : pyfloat) : string := "0.0".
Definition no_float (s : string) : pyfloat := FNan.

Definition digest64 : pyval := VStr "e3b0c44298fc1c149afbf4c8996fb92427ae41e4649b934ca495991b7852b855".
Definition yes (names : list string) : pydict := map (fun k => (k, VBool true)) names.

Definition sample_policy : pyval := VDict [("isolation", VDict (yes CONTROL_NAMES))].

Definition sample_gate (reason : string) : pyval :=
  VDict [("policy_gate_decision", VStr "ALLOW"); ("policy_gate_reason", VStr reason);
         ("human_gate_override", VStr "none"); ("final_decision", VStr "ALLOW");
         ("final_authority", VStr "policy_gate_autonomous"); ("override_blocked_by_fail_closed", VBool false)].

Definition sample_report (requested : list pyval) : pyval :=
  VDict [("risk_level", VStr "benign"); ("evidence", VList []); ("capabilities_requested", VList requested);
         ("destinations", VList []); ("canaries_tripped", VList []); ("uncertainty", VFloat (FFin 0 1))].

Definition legacy_sections : list pyval :=
  [VDict [("job_id", VStr "mf-1"); ("artifact_type", VStr "python-script"); ("artifact_sha256", digest64)];
   VDict [("policy_hash", VStr "cf9dd82094616a4b679f9a4763f976e666305969a329b7396044d8f7ad91bc7f")];
   VDict (("mode", VStr "full-root") :: yes ["namespace_used"; "seccomp_loaded"; "cgroups_used"; "mlock_used"]);
   VDict []; VDict [("requested", VList [])]; VDict []; VDict []; VDict []; VList [];
   sample_gate "no_anomaly_detected"; sample_report [];
   VDict (yes purge_checks ++ [("method", VStr "rm"); ("processes_remaining", VInt 0);
                               ("remaining_host_resources", VList [])])].

Definition sample_key : string := "kkkkkkkkkkkkkkkkkkkkkkkkkkkkkkkk".
Definition sample_receipt : res pyval :=
  @create_receipt zero_repr no_float ascii_unicode no_digits legacy_sections (VBool false) (VBool false) (FFin 0 1)
    VNone VNone VNone (KeyFile 33152 sample_key) "" (PolicyDict sample_policy).

Lemma created_receipt_verifies_witness :
  exists receipt d, sample_receipt = Ok receipt /\ receipt = VDict d /\
    verify_signature zero_repr d sample_key = true.
Proof.
  assert (Hok : exists r, sample_receipt = Ok r) by (vm_compute; eexists; reflexivity).
  destruct Hok as [r Hr]. exists r.
  destruct (@created_receipt_verifies zero_repr no_float ascii_unicode no_digits legacy_sections (VBool false)
    (VBool false) VNone VNone VNone (FFin 0 1) (KeyFile 33152 sample_key) "" (PolicyDict sample_policy) r Hr)
    as (key & d & Hk & Hd & _ & Hv).
  change (Ok sample_key = Ok key) in Hk. apply Ok_inj in Hk. subst key.
  exists d. split; [exact Hr|]. split; [exact Hd|exact Hv].
Defined.

Definition signed (sections : list pyval) : pydict :=
  zip SECTION_NAMES sections
  ++ [("telemetry_incomplete", VBool false); ("budget_exhausted", VBool false);
      ("residual_uncertainty", VFloat (FFin 0 1)); ("receipt_signature", digest64)].

Lemma legacy_allow_is_backed_witness :
  exists policy, @_load_active_policy no_float (PolicyDict sample_policy) = Ok policy /\
    @backed_legacy_allow zero_repr no_float (VDict (signed legacy_sections)) policy.
Proof.
  refine (@legacy_allow_is_backed zero_repr no_float ascii_unicode no_digits (VDict (signed legacy_sections))
    _ _ "python-script" (PolicyDict sample_policy) _ eq_refl eq_refl _ eq_refl eq_refl).
  - vm_compute. reflexivity.
  - discriminate.
Defined.

Definition sample_streams (value : pyval) : pyval := VDict (map (fun s => (s, value)) Notes.REQUIRED_STREAMS).

Definition sample_runtime : pyval :=
  VDict ([("admitted", VBool true); ("firecracker_version", VStr "1.17.0"); ("browser_version", VStr "141");
          ("network_mode", VStr "explicit-proxy-only"); ("mmds_enabled", VBool false); ("job_image_sha256", digest64);
          ("vmm_identity", VDict [("user", VStr "cindermote-vmm"); ("group", VStr "cindermote-vmm");
                                  ("uid", VInt 991); ("gid", VInt 991)]);
          ("cgroup_limits", VDict [("cpu.max", VStr "100000 100000"); ("memory.max", VStr "1610612736");
                                   ("memory.swap.max", VStr "0"); ("pids.max", VStr "256")]);
          ("egress_worker", VDict [("privilege_separated", VBool true);
             ("protocol_version", VStr "cindermote.browser-egress-worker/v2"); ("user", VStr "cindermote-proxy");
             ("group", VStr "cindermote-proxy"); ("uid", VInt 992); ("gid", VInt 992);
             ("no_new_privs", VBool true); ("dumpable", VInt 0); ("capabilities_zero", VBool true)]);
          ("jailer_supervision", VDict [("external_supervisor", VBool true); ("parent_death_signal", VStr "SIGTERM");
             ("vmm_process_group_kill", VStr "SIGKILL"); ("startup_reconciliation", VStr "exact-owned-prefix")])]
         ++ map (fun k => (k, digest64)) ["firecracker_sha256"; "jailer_sha256"; "kernel_sha256"; "rootfs_sha256";
                                          "rootfs_receipt_sha256"; "browser_sha256"]
         ++ yes ["host_runtime_tmpfs"; "host_swap_disabled"; "rootfs_read_only"; "guest_writes_tmpfs_only"]).

Definition sample_probe : pyval :=
  VDict [("schema_version", VStr "cindermote.browser-probe-receipt/v2");
         ("input", VDict [("contract_version", VStr BrowserContract.CONTRACT_VERSION); ("url_sha256", digest64);
            ("normalized_origin", VStr "https://example.com"); ("authorized_origins", VList [VStr "https://example.com"]);
            ("request_sha256", digest64); ("policy_hash", digest64); ("navigation_mode", VStr "passive")]);
         ("runtime", sample_runtime);
         ("evidence", VDict [("schema_version", VStr BrowserEvidence.EVIDENCE_VERSION); ("sha256", digest64); ("events_observed", VInt 4);
            ("stream_status", sample_streams (VDict [("complete", VBool true); ("event_count", VInt 1);
                                                     ("observed_event_count", VInt 1)]))]);
         ("artifacts", VDict [("raw_retained", VBool false); ("attestation_complete", VBool true);
            ("dom_sha256", digest64); ("visible_text_sha256", digest64); ("screenshot_sha256", digest64);
            ("console_event_count", VInt 0)]);
         ("findings", VList []);
         ("reduction", VDict [("evidence_version", VStr BrowserEvidence.EVIDENCE_VERSION); ("complete", VBool true);
            ("telemetry_incomplete", VBool false); ("fail_closed", VBool false); ("decision", VStr "ALLOW");
            ("events_observed", VInt 4); ("findings", VList []);
            ("streams", sample_streams (VDict [("declared_event_count", VInt 1); ("observed_event_count", VInt 1);
                                               ("complete", VBool true)]))])].

Definition browser_sections : list pyval :=
  [VDict [("job_id", VStr "mf-web-0123abcd"); ("artifact_type", VStr "browser-probe"); ("artifact_sha256", digest64);
          ("submitted_by", VStr "operator"); ("received_at", VStr "now")];
   VDict [("snapshot_sha256", digest64); ("snapshot_verified_by", VStr "build receipt"); ("policy_version", VStr "v1.4");
          ("policy_hash", digest64); ("memory_snapshots", VStr "disabled-v1")];
   VDict ([("mode", VStr "firecracker"); ("mlock_used", VBool false)]
          ++ yes ["namespace_used"; "seccomp_loaded"; "cgroups_used"; "jailer_used"; "kvm_used"; "host_runtime_tmpfs";
                  "host_swap_disabled"; "rootfs_read_only"; "guest_writes_tmpfs_only"]);
   VDict [("wall_clock_sec", VInt 20); ("cpu_vcpu", VInt 1); ("ram_mib", VInt 1024); ("max_network_bytes", VInt 16777216);
          ("max_events", VInt 1000); ("max_redirects", VInt 5); ("max_tabs", VInt 1);
          ("interaction", VStr "passive navigation only"); ("fs_writes", VStr "guest tmpfs only")];
   VDict [("requested", VList [VStr "browser.navigate"]); ("granted", VList [VStr "browser.navigate"]);
          ("denied", VList (map VStr ["browser.click"; "browser.type"; "browser.upload"; "browser.download"]));
          ("binding", VDict [("request_sha256", digest64); ("job_id", VStr "mf-web-0123abcd")])];
   VDict [("events_observed", VInt 4); ("metadata_only", VBool true);
          ("streams", sample_streams (VDict [("complete", VBool true); ("event_count", VInt 1);
                                             ("observed_event_count", VInt 1)]))];
   VDict []; VDict []; VList []; sample_gate "bounded_browser_navigation_clean";
   sample_report [VStr "browser.navigate"]; VDict (yes _BROWSER_PURGE_KEYS)].

Definition browser_receipt : pyval := VDict (signed browser_sections ++ [("browser_probe", sample_probe)]).

Lemma browser_allow_is_backed_witness :
  exists override, sub (sample_gate "bounded_browser_navigation_clean") "human_gate_override" = Ok override /\
    backed_allow browser_receipt override.
Proof.
  refine (@browser_allow_is_backed zero_repr no_float ascii_unicode no_digits browser_receipt
    _ _ (PolicyDict sample_policy) _ eq_refl eq_refl eq_refl eq_refl).
  vm_compute. reflexivity.
Defined.

End ReceiptFacts.
