(* ===== verification/Seccomp.v ===== *)
(** * The seccomp filter of observer/ptracer.py

    The classic-BPF program that the observer installs before the payload runs,
    instruction by instruction, an interpreter for the four opcodes it uses, and
    the syscall policy it is meant to enforce.  The program implements the policy
    on every input, and the bytes it is shipped as decode to it. *)

From stdpp Require Import base list strings.
From Stdlib Require Import ZArith Lia.
From S2P Require Import Prelude Sha256.

Local Open Scope Z_scope.

Module Seccomp.

(** ** UAPI constants *)
Definition SECCOMP_RET_KILL_PROCESS : Z := 0x80000000.
Definition SECCOMP_RET_TRAP : Z := 0x00030000.
Definition SECCOMP_RET_ERRNO : Z := 0x00050000.
Definition SECCOMP_RET_ALLOW : Z := 0x7FFF0000.
Definition AUDIT_ARCH_X86_64 : Z := 0xC000003E.

Definition BPF_LD_W_ABS : Z := 0x20.
Definition BPF_JMP_JEQ_K : Z := 0x15.
Definition BPF_JMP_JSET_K : Z := 0x45.
Definition BPF_RET_K : Z := 0x06.

Definition SYS_READ : Z := 0.
Definition SYS_WRITE : Z := 1.
Definition SYS_IOCTL : Z := 16.
Definition SYS_SOCKET : Z := 41.
Definition SYS_CONNECT : Z := 42.
Definition SYS_CLONE : Z := 56.
Definition SYS_FORK : Z := 57.
Definition SYS_VFORK : Z := 58.
Definition SYS_EXECVE : Z := 59.
Definition SYS_PTRACE : Z := 101.
Definition SYS_PIVOT_ROOT : Z := 155.
Definition SYS_MOUNT : Z := 165.
Definition SYS_UMOUNT2 : Z := 166.
Definition SYS_CLOCK_GETTIME : Z := 228.
Definition SYS_OPENAT : Z := 257.
Definition SYS_UNSHARE : Z := 272.
Definition SYS_SETNS : Z := 308.
Definition SYS_EXECVEAT : Z := 322.
Definition SYS_CLONE3 : Z := 435.

Definition SIOCGIFCONF : Z := 0x8912.
Definition CLONE_NAMESPACE_MASK : Z :=
  Z.lor (Z.lor (Z.lor (Z.lor (Z.lor (Z.lor 0x00020000 0x04000000) 0x08000000) 0x10000000) 0x20000000) 0x40000000)
    0x02000000.

(** [socket.AF_INET], [AF_INET6], [AF_PACKET] and [errno.EPERM] on Linux *)
Definition AF_INET : Z := 2.
Definition AF_INET6 : Z := 10.
Definition AF_PACKET : Z := 17.
Definition EPERM : Z := 1.

(** ** The program *)
Record insn := mk_insn { code : Z; jt : nat; jf : nat; k : Z }.

Definition _stmt (code k : Z) : insn := mk_insn code 0 0 k.
Definition _jump (code k : Z) (jt jf : nat) : insn := mk_insn code jt jf k.

Definition TRAPPED_CALLS : list Z :=
  [SYS_MOUNT; SYS_UMOUNT2; SYS_PIVOT_ROOT; SYS_SETNS; SYS_UNSHARE; SYS_PTRACE; SYS_CLONE3].

Definition seccomp_instructions : list insn :=
  [_stmt BPF_LD_W_ABS 4;
   _jump BPF_JMP_JEQ_K AUDIT_ARCH_X86_64 1 0;
   _stmt BPF_RET_K SECCOMP_RET_KILL_PROCESS;
   _stmt BPF_LD_W_ABS 0]
  ++ [_jump BPF_JMP_JEQ_K SYS_SOCKET 0 8;
      _stmt BPF_LD_W_ABS 16;
      _jump BPF_JMP_JEQ_K AF_INET 0 1;
      _stmt BPF_RET_K (Z.lor SECCOMP_RET_ERRNO EPERM);
      _jump BPF_JMP_JEQ_K AF_INET6 0 1;
      _stmt BPF_RET_K (Z.lor SECCOMP_RET_ERRNO EPERM);
      _jump BPF_JMP_JEQ_K AF_PACKET 0 1;
      _stmt BPF_RET_K (Z.lor SECCOMP_RET_ERRNO EPERM);
      _stmt BPF_LD_W_ABS 0]
  ++ [_jump BPF_JMP_JEQ_K SYS_IOCTL 0 3;
      _stmt BPF_LD_W_ABS (16 + 8);
      _jump BPF_JMP_JEQ_K SIOCGIFCONF 0 1;
      _stmt BPF_RET_K SECCOMP_RET_TRAP;
      _stmt BPF_LD_W_ABS 0]
  ++ [_jump BPF_JMP_JEQ_K SYS_CLONE 0 3;
      _stmt BPF_LD_W_ABS 16;
      _jump BPF_JMP_JSET_K CLONE_NAMESPACE_MASK 0 1;
      _stmt BPF_RET_K SECCOMP_RET_TRAP;
      _stmt BPF_LD_W_ABS 0]
  ++ concat (map (fun n => [_jump BPF_JMP_JEQ_K n 0 1; _stmt BPF_RET_K SECCOMP_RET_TRAP]) TRAPPED_CALLS)
  ++ [_stmt BPF_RET_K SECCOMP_RET_ALLOW].

(** [struct.pack("=HBBI", *item)] on a little-endian machine *)
Definition le_bytes (n : nat) (z : Z) : list Z := rev (Sha256.be_bytes n z).
Definition pack (i : insn) : list Z :=
  le_bytes 2 (code i) ++ [Z.of_nat (jt i); Z.of_nat (jf i)] ++ le_bytes 4 (k i).
Definition seccomp_blob : list Z := concat (map pack seccomp_instructions).

(** ** Classic BPF

    [seccomp_data] as the filter reads it: the syscall number, the architecture
    and the instruction pointer, then six 64-bit arguments, in 32-bit words. *)
Record seccomp_data := mk_data { nr : Z; arch : Z; ip : Z; arg0 : Z; arg1 : Z; arg2 : Z; arg3 : Z; arg4 : Z; arg5 : Z }.

Definition lo (x : Z) : Z := x mod 2 ^ 32.
Definition hi (x : Z) : Z := x / 2 ^ 32 mod 2 ^ 32.

Definition words_of (d : seccomp_data) : list Z :=
  [lo (nr d); lo (arch d); lo (ip d); hi (ip d); lo (arg0 d); hi (arg0 d); lo (arg1 d); hi (arg1 d);
   lo (arg2 d); hi (arg2 d); lo (arg3 d); hi (arg3 d); lo (arg4 d); hi (arg4 d); lo (arg5 d); hi (arg5 d)].

Definition load_word (d : seccomp_data) (offset : Z) : option Z :=
  if offset mod 4 =? 0 then words_of d !! Z.to_nat (offset / 4) else None.

(** The program from here on, the accumulator, and at most [fuel] steps. *)
Fixpoint run_bpf (fuel : nat) (prog : list insn) (d : seccomp_data) (acc : Z) : option Z :=
  match fuel, prog with
  | S fuel', i :: rest =>
      if code i =? BPF_LD_W_ABS then
        match load_word d (k i) with Some w => run_bpf fuel' rest d w | None => None end
      else if code i =? BPF_JMP_JEQ_K then run_bpf fuel' (drop (if acc =? k i then jt i else jf i) rest) d acc
      else if code i =? BPF_JMP_JSET_K
      then run_bpf fuel' (drop (if Z.land acc (k i) =? 0 then jf i else jt i) rest) d acc
      else if code i =? BPF_RET_K then Some (k i)
      else None
  | _, _ => None
  end.

(** Every jump is forward, so the length of the program is fuel enough. *)
Definition filter_verdict (d : seccomp_data) : option Z :=
  run_bpf (length seccomp_instructions) seccomp_instructions d 0.

(** ** What the filter is for *)
Definition inet_families : list Z := [AF_INET; AF_INET6; AF_PACKET].
Definition zmem (x : Z) (l : list Z) : bool := existsb (Z.eqb x) l.

Definition policy (d : seccomp_data) : Z :=
  let n := lo (nr d) in
  if negb (lo (arch d) =? AUDIT_ARCH_X86_64) then SECCOMP_RET_KILL_PROCESS
  else if (n =? SYS_SOCKET) && zmem (lo (arg0 d)) inet_families then Z.lor SECCOMP_RET_ERRNO EPERM
  else if (n =? SYS_IOCTL) && (lo (arg1 d) =? SIOCGIFCONF) then SECCOMP_RET_TRAP
  else if (n =? SYS_CLONE) && negb (Z.land (lo (arg0 d)) CLONE_NAMESPACE_MASK =? 0) then SECCOMP_RET_TRAP
  else if zmem n TRAPPED_CALLS then SECCOMP_RET_TRAP
  else SECCOMP_RET_ALLOW.

Lemma run_ld f off rest d acc w :
  load_word d off = Some w -> run_bpf (S f) (_stmt BPF_LD_W_ABS off :: rest) d acc = run_bpf f rest d w.
Proof. cbn. by intros ->. Qed.

Lemma run_jeq f n a b rest d acc :
  run_bpf (S f) (_jump BPF_JMP_JEQ_K n a b :: rest) d acc = run_bpf f (drop (if acc =? n then a else b) rest) d acc.
Proof. done. Qed.

Lemma run_jset f n a b rest d acc :
  run_bpf (S f) (_jump BPF_JMP_JSET_K n a b :: rest) d acc
  = run_bpf f (drop (if Z.land acc n =? 0 then b else a) rest) d acc.
Proof. done. Qed.

Lemma run_ret f v rest d acc : run_bpf (S f) (_stmt BPF_RET_K v :: rest) d acc = Some v.
Proof. done. Qed.

(** One step of the program, branching on an undecided comparison. *)
Ltac bpf_step :=
  first
    [ rewrite run_ret
    | erewrite run_ld by reflexivity
    | rewrite run_jeq;
      match goal with |- context[drop (if ?a =? ?n then _ else _) _] => destruct (Z.eqb_spec a n) end; cbn [drop]
    | rewrite run_jset;
      match goal with |- context[drop (if ?a =? ?n then _ else _) _] => destruct (Z.eqb_spec a n) end; cbn [drop] ].

(** Decide the comparisons of the policy that the branches taken have settled. *)
Ltac settle :=
  f_equal; unfold policy, zmem, inet_families, TRAPPED_CALLS; cbn [existsb];
  repeat match goal with
  | H : ?a = ?b |- context[?a =? _] => rewrite H
  | H : Z.land _ _ = ?b |- _ => rewrite H; clear H
  | H : ?a <> ?b |- context[?a =? ?b] => rewrite (proj2 (Z.eqb_neq a b) H)
  end; reflexivity.

Lemma filter_policy_eq (d : seccomp_data) : filter_verdict d = Some (policy d).
Proof.
  unfold filter_verdict, seccomp_instructions, TRAPPED_CALLS. cbn [app concat map length].
  repeat bpf_step; settle.
Qed.

(** ** The program as bytes *)
Definition of_le (l : list Z) : Z := foldr (fun b acc => b + 256 * acc) 0 l.

Fixpoint unpack (l : list Z) : option (list insn) :=
  match l with
  | [] => Some []
  | c0 :: c1 :: t :: f :: k0 :: k1 :: k2 :: k3 :: r =>
      rest ← unpack r; Some (mk_insn (of_le [c0; c1]) (Z.to_nat t) (Z.to_nat f) (of_le [k0; k1; k2; k3]) :: rest)
  | _ => None
  end.

(** C32: The seccomp program implements the syscall policy: on every input, any
    64-bit arguments included, it runs to a verdict, and the verdict is KILL for
    a foreign architecture, EPERM for an Internet or packet socket, a trap for
    SIOCGIFCONF, for a clone that asks for a namespace and for the seven
    namespace, mount and ptrace calls, and ALLOW for everything else.  The bytes
    it is shipped as are bytes, eight per instruction, and decode to it. *)
Theorem filter_implements_policy (d : seccomp_data) :
  filter_verdict d = Some (policy d) /\
  unpack seccomp_blob = Some seccomp_instructions /\ forallb (in_range 0 255) seccomp_blob = true /\
  length seccomp_blob = (8 * length seccomp_instructions)%nat.
Proof. split; [apply filter_policy_eq|]. split_and!; vm_compute; reflexivity. Qed.

(** The filter tests the architecture but not the x32 bit of the number, which
    the same architecture carries: no call made with that bit is refused. *)
Theorem x32_calls_allowed (d : seccomp_data) :
  lo (arch d) = AUDIT_ARCH_X86_64 -> 2 ^ 30 <= lo (nr d) -> filter_verdict d = Some SECCOMP_RET_ALLOW.
Proof.
  intros Ha Hn. rewrite filter_policy_eq. f_equal. unfold policy. rewrite Ha, Z.eqb_refl. cbn [negb].
  assert (Hne : forall c, c < 2 ^ 30 -> (lo (nr d) =? c) = false) by (intros; apply Z.eqb_neq; lia).
  unfold zmem, TRAPPED_CALLS. cbn [existsb]. by rewrite !Hne by done.
Qed.

End Seccomp.
