(* ===== verification/Tracer.v ===== *)
(** * The ptrace observer: observer/ptracer.py

    [HostTracer] as a state machine.  Its inputs are what the kernel answers: the
    wait status, the registers of the stopped thread, the words of its memory and
    the outcome of each ptrace request; its outputs are the resume requests and
    the calls it makes on the detector engine. *)

From stdpp Require Import base list strings gmap.
From Stdlib Require Import ZArith Lia.
From S2P Require Import Prelude PyValue Sha256 Json StrOps Counter Detectors Seccomp.

Local Open Scope Z_scope.

(** Readings of [time.monotonic] and the two comparisons made of them. *)
Class Clock := {
  instant : Type;
  older_than_second : instant -> instant -> bool;   (** [t < now - 1.0] *)
  within_five : instant -> instant -> bool;         (** [now - start <= 5] *)
}.

Module Tracer.
Import Seccomp Detectors.

Definition SYSCALL_NAMES : list (Z * string) :=
  [(SYS_READ, "read"); (SYS_WRITE, "write"); (SYS_IOCTL, "ioctl"); (SYS_SOCKET, "socket");
   (SYS_CONNECT, "connect"); (SYS_CLONE, "clone"); (SYS_FORK, "fork"); (SYS_VFORK, "vfork");
   (SYS_EXECVE, "execve"); (SYS_PTRACE, "ptrace"); (SYS_PIVOT_ROOT, "pivot_root"); (SYS_MOUNT, "mount");
   (SYS_UMOUNT2, "umount2"); (SYS_CLOCK_GETTIME, "clock_gettime"); (SYS_OPENAT, "openat");
   (SYS_UNSHARE, "unshare"); (SYS_SETNS, "setns"); (SYS_EXECVEAT, "execveat"); (SYS_CLONE3, "clone3")].

Fixpoint syscall_name (n : Z) (names : list (Z * string)) : string :=
  match names with
  | [] => "syscall-" +:+ dec n
  | (m, s) :: r => if n =? m then s else syscall_name n r
  end.

(** The registers as unsigned 64-bit numbers. *)
Record UserRegsStruct := mk_regs {
  r15 : Z; r14 : Z; r13 : Z; r12 : Z; rbp : Z; rbx : Z; r11 : Z; r10 : Z; r9 : Z; r8 : Z; rax : Z; rcx : Z;
  rdx : Z; rsi : Z; rdi : Z; orig_rax : Z; rip : Z; cs : Z; eflags : Z; rsp : Z; ss : Z; fs_base : Z; gs_base : Z;
  ds : Z; es : Z; fs : Z; gs : Z
}.

(** What the filter sees of the same stop. *)
Definition data_of (r : UserRegsStruct) : seccomp_data :=
  mk_data (orig_rax r) AUDIT_ARCH_X86_64 (rip r) (rdi r) (rsi r) (rdx r) (r10 r) (r8 r) (r9 r).

(** ** Reading the tracee *)
Section memory.
(** The word at an address, if ptrace can read it. *)
Variable memory : Z -> option Z.
(** [socket.inet_ntop(AF_INET6, raw)] *)
Variable inet_ntop6 : string -> string.

Definition _peek (address : Z) : option string :=
  match memory address with Some word => Some (Sha256.of_bytes (le_bytes 8 (word mod 2 ^ 64))) | None => None end.

(** Each turn adds eight bytes. *)
Fixpoint read_loop (fuel : nat) (address maximum : Z) (result : string) : string :=
  match fuel with
  | O => result
  | S fuel' =>
      if maximum <=? Z.of_nat (String.length result) then result
      else
        match _peek (address + Z.of_nat (String.length result)) with
        | None => result
        | Some chunk =>
            if has_char 0 chunk then result +:+ chunk
            else read_loop fuel' address maximum (result +:+ chunk)
        end
  end.

Definition read_tracee_bytes (address maximum : Z) : string :=
  slice (Z.to_nat maximum) (read_loop (Z.to_nat maximum) address maximum "").

Definition continues (c : Ascii.ascii) : bool := in_range 128 191 (byte_of c).

(** U+DC00 plus the byte, as the three bytes that stand for it *)
Definition escape_byte (c : Ascii.ascii) (rest : string) : string :=
  String (ascii_of 237) (String (ascii_of (176 + byte_of c / 64)) (String (ascii_of (128 + byte_of c mod 64)) rest)).

Definition lead2 (a b : Ascii.ascii) : bool := in_range 194 223 (byte_of a) && continues b.
Definition lead3 (a b c : Ascii.ascii) : bool :=
  in_range 224 239 (byte_of a) && continues b && continues c
  && negb ((byte_of a =? 224) && (byte_of b <? 160)) && negb ((byte_of a =? 237) && (160 <=? byte_of b)).
Definition lead4 (a b c d : Ascii.ascii) : bool :=
  in_range 240 244 (byte_of a) && continues b && continues c && continues d
  && negb ((byte_of a =? 240) && (byte_of b <? 144)) && negb ((byte_of a =? 244) && (144 <=? byte_of b)).

(** [raw.decode("utf-8", "surrogateescape")] *)
Fixpoint decode_escape (s : string) : string :=
  match s with
  | EmptyString => ""
  | String a r =>
      if byte_of a <? 128 then String a (decode_escape r)
      else
        match r with
        | String b r2 =>
            if lead2 a b then String a (String b (decode_escape r2))
            else
              match r2 with
              | String c r3 =>
                  if lead3 a b c then String a (String b (String c (decode_escape r3)))
                  else
                    match r3 with
                    | String d r4 =>
                        if lead4 a b c d then String a (String b (String c (String d (decode_escape r4))))
                        else escape_byte a (decode_escape r)
                    | EmptyString => escape_byte a (decode_escape r)
                    end
              | EmptyString => escape_byte a (decode_escape r)
              end
        | EmptyString => escape_byte a (decode_escape r)
        end
  end.

Definition read_tracee_string (address : Z) : string :=
  if address =? 0 then ""
  else let '(head, _, _) := partition 0 (read_tracee_bytes address 4096) in decode_escape head.

Definition byte_at (n : nat) (s : string) : Z :=
  match String.get n s with Some c => byte_of c | None => 0 end.

Definition read_sockaddr (address length : Z) : string :=
  let raw := read_tracee_bytes address (Z.min (Z.max length 0) 128) in
  let size := String.length raw in
  if (size <? 2)%nat then "unknown:*"
  else
    let family := byte_at 0 raw + 256 * byte_at 1 raw in
    let port := 256 * byte_at 2 raw + byte_at 3 raw in
    if (family =? AF_INET) && (8 <=? size)%nat
    then dec (byte_at 4 raw) +:+ "." +:+ dec (byte_at 5 raw) +:+ "." +:+ dec (byte_at 6 raw) +:+ "."
         +:+ dec (byte_at 7 raw) +:+ ":" +:+ dec port
    else if (family =? AF_INET6) && (24 <=? size)%nat
    then "[" +:+ inet_ntop6 (String.substring 8 16 raw) +:+ "]:" +:+ dec port
    else "family-" +:+ dec family +:+ ":*".
End memory.

(** ** The tracer *)
Section tracer.
Context `{Clock}.

Record HostTracer := mk_tracer {
  root_pid : Z;
  detector : DetectorEngine;
  exec_depth_limit : Z;
  timing_limit : Z;
  start_monotonic : instant;
  active_pids : gset Z;
  in_syscall : gmap Z bool;
  last_syscall : gmap Z Z;
  parent_by_pid : gmap Z Z;
  counters : counter;
  clock_calls : gmap Z (list instant);
  seccomp_violation : bool;
  namespace_escape : bool;
  trace_error : option string;
  exit_codes : gmap Z Z;
  exec_completed_pids : gset Z;
}.

Definition new_tracer (pid : Z) (e : DetectorEngine) (start : instant) : HostTracer :=
  mk_tracer pid e 3 100 start ∅ ∅ ∅ ∅ [] ∅ false false None ∅ ∅.

(** [self.field = v], field by field *)
Definition set_detector (e : DetectorEngine) (t : HostTracer) : HostTracer :=
  mk_tracer (root_pid t) e (exec_depth_limit t) (timing_limit t) (start_monotonic t) (active_pids t) (in_syscall t)
    (last_syscall t) (parent_by_pid t) (counters t) (clock_calls t) (seccomp_violation t) (namespace_escape t)
    (trace_error t) (exit_codes t) (exec_completed_pids t).
Definition set_active (s : gset Z) (t : HostTracer) : HostTracer :=
  mk_tracer (root_pid t) (detector t) (exec_depth_limit t) (timing_limit t) (start_monotonic t) s (in_syscall t)
    (last_syscall t) (parent_by_pid t) (counters t) (clock_calls t) (seccomp_violation t) (namespace_escape t)
    (trace_error t) (exit_codes t) (exec_completed_pids t).
Definition set_in_syscall (pid : Z) (b : bool) (t : HostTracer) : HostTracer :=
  mk_tracer (root_pid t) (detector t) (exec_depth_limit t) (timing_limit t) (start_monotonic t) (active_pids t)
    (<[pid := b]> (in_syscall t)) (last_syscall t) (parent_by_pid t) (counters t) (clock_calls t)
    (seccomp_violation t) (namespace_escape t) (trace_error t) (exit_codes t) (exec_completed_pids t).
Definition set_last (pid n : Z) (t : HostTracer) : HostTracer :=
  mk_tracer (root_pid t) (detector t) (exec_depth_limit t) (timing_limit t) (start_monotonic t) (active_pids t)
    (in_syscall t) (<[pid := n]> (last_syscall t)) (parent_by_pid t) (counters t) (clock_calls t)
    (seccomp_violation t) (namespace_escape t) (trace_error t) (exit_codes t) (exec_completed_pids t).
Definition set_parent (child pid : Z) (t : HostTracer) : HostTracer :=
  mk_tracer (root_pid t) (detector t) (exec_depth_limit t) (timing_limit t) (start_monotonic t) (active_pids t)
    (in_syscall t) (last_syscall t) (<[child := pid]> (parent_by_pid t)) (counters t) (clock_calls t)
    (seccomp_violation t) (namespace_escape t) (trace_error t) (exit_codes t) (exec_completed_pids t).
Definition bump (name : string) (t : HostTracer) : HostTracer :=
  mk_tracer (root_pid t) (detector t) (exec_depth_limit t) (timing_limit t) (start_monotonic t) (active_pids t)
    (in_syscall t) (last_syscall t) (parent_by_pid t) (incr name (counters t)) (clock_calls t)
    (seccomp_violation t) (namespace_escape t) (trace_error t) (exit_codes t) (exec_completed_pids t).
Definition set_clock (pid : Z) (l : list instant) (t : HostTracer) : HostTracer :=
  mk_tracer (root_pid t) (detector t) (exec_depth_limit t) (timing_limit t) (start_monotonic t) (active_pids t)
    (in_syscall t) (last_syscall t) (parent_by_pid t) (counters t) (<[pid := l]> (clock_calls t))
    (seccomp_violation t) (namespace_escape t) (trace_error t) (exit_codes t) (exec_completed_pids t).
Definition set_violation (t : HostTracer) : HostTracer :=
  mk_tracer (root_pid t) (detector t) (exec_depth_limit t) (timing_limit t) (start_monotonic t) (active_pids t)
    (in_syscall t) (last_syscall t) (parent_by_pid t) (counters t) (clock_calls t) true (namespace_escape t)
    (trace_error t) (exit_codes t) (exec_completed_pids t).
Definition set_escape (t : HostTracer) : HostTracer :=
  mk_tracer (root_pid t) (detector t) (exec_depth_limit t) (timing_limit t) (start_monotonic t) (active_pids t)
    (in_syscall t) (last_syscall t) (parent_by_pid t) (counters t) (clock_calls t) (seccomp_violation t) true
    (trace_error t) (exit_codes t) (exec_completed_pids t).
Definition set_error (e : string) (t : HostTracer) : HostTracer :=
  mk_tracer (root_pid t) (detector t) (exec_depth_limit t) (timing_limit t) (start_monotonic t) (active_pids t)
    (in_syscall t) (last_syscall t) (parent_by_pid t) (counters t) (clock_calls t) (seccomp_violation t)
    (namespace_escape t) (Some e) (exit_codes t) (exec_completed_pids t).
Definition set_exit (pid c : Z) (t : HostTracer) : HostTracer :=
  mk_tracer (root_pid t) (detector t) (exec_depth_limit t) (timing_limit t) (start_monotonic t) (active_pids t)
    (in_syscall t) (last_syscall t) (parent_by_pid t) (counters t) (clock_calls t) (seccomp_violation t)
    (namespace_escape t) (trace_error t) (<[pid := c]> (exit_codes t)) (exec_completed_pids t).
Definition add_exec (pid : Z) (t : HostTracer) : HostTracer :=
  mk_tracer (root_pid t) (detector t) (exec_depth_limit t) (timing_limit t) (start_monotonic t) (active_pids t)
    (in_syscall t) (last_syscall t) (parent_by_pid t) (counters t) (clock_calls t) (seccomp_violation t)
    (namespace_escape t) (trace_error t) (exit_codes t) ({[pid]} ∪ exec_completed_pids t).

Definition _register_root (t : HostTracer) : HostTracer :=
  set_in_syscall (root_pid t) false (set_active ({[root_pid t]} ∪ active_pids t) t).

(** A call that may raise, and what follows it. *)
Definition andthen (x : HostTracer * res unit) (f : HostTracer -> HostTracer * res unit) : HostTracer * res unit :=
  match x with (t, Ok _) => f t | (t, Err e) => (t, Err e) end.
Definition ret (t : HostTracer) : HostTracer * res unit := (t, Ok tt).

(** A method call on the detector. *)
Definition call (o : op) (t : HostTracer) : HostTracer * res unit :=
  let '(e, r) := step (detector t) o in (set_detector e t, r).

(** [self.detector.record(make_event(...))] *)
Definition emit (now : N) (tap rule_id subject action hint : string) (t : HostTracer) : HostTracer * res unit :=
  match make_event now tap rule_id subject action hint with
  | Ok event => call (Record now event) t
  | Err e => (t, Err e)
  end.

(** The chain of parents; a pid that comes up twice ends it. *)
Fixpoint depth_loop (fuel : nat) (parents : gmap Z Z) (pid : Z) (seen : gset Z) (depth : Z) : Z :=
  match fuel with
  | O => depth
  | S fuel' =>
      match parents !! pid with
      | Some parent =>
          if bool_decide (pid ∈ seen) then depth
          else depth_loop fuel' parents parent ({[pid]} ∪ seen) (depth + 1)
      | None => depth
      end
  end.

Definition _depth (t : HostTracer) (pid : Z) : Z :=
  depth_loop (S (size (parent_by_pid t))) (parent_by_pid t) pid ∅ 0.

Definition _record_namespace_escape (now : N) (syscall_number : Z) (t : HostTracer) : HostTracer * res unit :=
  emit now "syscall" "namespace_escape_attempt" (syscall_name syscall_number SYSCALL_NAMES) "exec" "known_bad"
    (set_escape t).

(** What one stop lets the tracer read: memory, [monotonic_ns] at each reading
    and [monotonic]. *)
Record reads := mk_reads { mem_word : Z -> option Z; ntop6 : string -> string; ns : nat -> N; mono : instant }.

Definition family_label (domain : Z) : option string :=
  if domain =? AF_INET then Some "AF_INET:*"
  else if domain =? AF_INET6 then Some "AF_INET6:*"
  else if domain =? AF_PACKET then Some "AF_PACKET:*"
  else None.

(** [self.detector.record(event)] for each event *)
Fixpoint record_all (now : N) (l : list pyval) (t : HostTracer) : HostTracer * res unit :=
  match l with
  | [] => ret t
  | event :: r => andthen (call (Record now event) t) (record_all now r)
  end.

Definition on_openat (w : reads) (regs : UserRegsStruct) (t : HostTracer) : HostTracer * res unit :=
  let path := read_tracee_string (mem_word w) (rsi regs) in
  let flags := rdx regs in
  match classify_path (ns w 0) (ns w 1) (ns w 2) path flags with
  | Err e => (t, Err e)
  | Ok (path_events, canary) =>
      andthen (record_all (ns w 3) path_events t) (fun t =>
      andthen (match canary with
               | Some name => if String.eqb name "" then ret t else call (TripCanary (ns w 4) name) t
               | None => ret t
               end) (fun t =>
      let t := if Z.land flags 579 =? 0 then t else bump "fs_mutations" t in
      if String.eqb path "/dev/kvm" then _record_namespace_escape (ns w 5) SYS_OPENAT t else ret t))
  end.

Definition on_socket (w : reads) (regs : UserRegsStruct) (t : HostTracer) : HostTracer * res unit :=
  match family_label (rdi regs) with
  | Some family =>
      andthen (emit (ns w 0) "net" "network_exfil_attempt" family "connect" "known_bad" t)
        (call (AddDestination family "blocked-by-seccomp"))
  | None => ret t
  end.

Definition on_connect (w : reads) (regs : UserRegsStruct) (t : HostTracer) : HostTracer * res unit :=
  let destination := read_sockaddr (mem_word w) (ntop6 w) (rsi regs) (rdx regs) in
  andthen (call (AddDestination destination "recorded+denied") t) (fun t =>
  match bounded_subject destination [] with
  | Ok subject => emit (ns w 0) "net" "network_exfil_attempt" subject "connect" "known_bad" t
  | Err e => (t, Err e)
  end).

Definition on_fork (w : reads) (pid syscall_number : Z) (regs : UserRegsStruct) (t : HostTracer)
    : HostTracer * res unit :=
  let t := bump "forks" t in
  andthen (if (syscall_number =? SYS_CLONE) && negb (Z.land (rdi regs) CLONE_NAMESPACE_MASK =? 0)
           then _record_namespace_escape (ns w 0) syscall_number t else ret t) (fun t =>
  if (exec_depth_limit t <? _depth t pid + 1) && within_five (start_monotonic t) (mono w)
  then emit (ns w 1) "proc" "exec_spawn_chain" "process_depth_exceeded" "fork" "anomalous" t
  else ret t).

(** [while calls and calls[0] < now - 1.0: calls.pop(0)] *)
Fixpoint drop_old (now : instant) (calls : list instant) : list instant :=
  match calls with
  | c :: r => if older_than_second c now then drop_old now r else calls
  | [] => []
  end.

Definition on_clock (w : reads) (pid : Z) (t : HostTracer) : HostTracer * res unit :=
  let calls := drop_old (mono w) (default [] (clock_calls t !! pid) ++ [mono w]) in
  let t := set_clock pid calls t in
  if timing_limit t <? Z.of_nat (length calls)
  then emit (ns w 0) "syscall" "timing_evasion" "clock_gettime_rate" "read" "anomalous" t
  else ret t.

Definition _on_syscall_entry (w : reads) (pid : Z) (regs : UserRegsStruct) (t : HostTracer) : HostTracer * res unit :=
  let n := orig_rax regs in
  let t := bump "syscall_events" (set_last pid n t) in
  if n =? SYS_OPENAT then on_openat w regs t
  else if n =? SYS_SOCKET then on_socket w regs t
  else if n =? SYS_CONNECT then on_connect w regs t
  else if zmem n [SYS_CLONE; SYS_FORK; SYS_VFORK] then on_fork w pid n regs t
  else if zmem n [SYS_EXECVE; SYS_EXECVEAT]
  then emit (ns w 0) "proc" "process_exec" "sandbox_exec" "exec" "baseline" (bump "exec_spawns" t)
  else if n =? SYS_CLOCK_GETTIME then on_clock w pid t
  else if zmem n [SYS_SETNS; SYS_UNSHARE; SYS_MOUNT; SYS_UMOUNT2; SYS_PIVOT_ROOT; SYS_PTRACE; SYS_CLONE3]
  then _record_namespace_escape (ns w 0) n t
  else ret t.

(** ** Wait statuses *)
Definition WIFEXITED (status : Z) : bool := Z.land status 127 =? 0.
Definition WEXITSTATUS (status : Z) : Z := Z.land (Z.shiftr status 8) 255.
Definition WIFSTOPPED (status : Z) : bool := Z.land status 255 =? 127.
Definition WIFSIGNALED (status : Z) : bool := negb (WIFEXITED status) && negb (Z.land status 127 =? 127).
Definition WTERMSIG (status : Z) : Z := Z.land status 127.

(** An [OSError]: its class name and errno. *)
Definition oserror : Type := string * Z.

(** What the kernel answers to the ptrace requests of one stop. *)
Record answers := mk_answers {
  geteventmsg : Z + oserror;
  getregs : UserRegsStruct + oserror;
  resume_error : option oserror;
  reading : reads;
}.

Definition ESRCH : Z := 3.
Definition ECHILD : Z := 10.
Definition SIGTRAP : Z := 5.
Definition SIGCHLD : Z := 17.
Definition SIGSTOP : Z := 19.
Definition SIGSYS : Z := 31.

(** [except (OSError, ProcessLookupError) as exc] *)
Definition on_oserror (e : oserror) (t : HostTracer) : HostTracer :=
  let '(name, errno) := e in
  if zmem errno [ESRCH; ECHILD] then t else set_error (name +:+ ":" +:+ dec errno) t.

(** [_ptrace(PTRACE_SYSCALL, pid, 0, deliver)] at the end of a branch: the state,
    the request and how the branch ends. *)
Definition resume (a : answers) (pid deliver : Z) (t : HostTracer) : HostTracer * list (Z * Z) * res unit :=
  (match resume_error a with Some e => on_oserror e t | None => t end, [(pid, deliver)], Ok tt).

Definition process_wait_status (a : answers) (pid status : Z) (t : HostTracer)
    : HostTracer * list (Z * Z) * res unit :=
  if WIFEXITED status then (set_active (active_pids t ∖ {[pid]}) (set_exit pid (WEXITSTATUS status) t), [], Ok tt)
  else if WIFSIGNALED status
  then (set_active (active_pids t ∖ {[pid]}) (set_exit pid (128 + WTERMSIG status) t), [], Ok tt)
  else if negb (WIFSTOPPED status) then (t, [], Ok tt)
  else
    let stop_signal := WEXITSTATUS status in
    let event := Z.shiftr status 16 in
    if zmem event [1; 2; 3] then
      match geteventmsg a with
      | inr e => (on_oserror e t, [], Ok tt)
      | inl child =>
          resume a pid 0 (set_in_syscall child false (set_parent child pid (set_active ({[child]} ∪ active_pids t) t)))
      end
    else
      let t := if event =? 4 then add_exec pid t else t in
      if stop_signal =? Z.lor SIGTRAP 128 then
        match getregs a with
        | inr e => (on_oserror e t, [], Ok tt)
        | inl regs =>
            let entering := negb (default false (in_syscall t !! pid)) in
            let t := set_in_syscall pid entering t in
            if entering then
              match _on_syscall_entry (reading a) pid regs t with
              | (t, Ok _) => resume a pid 0 t
              | (t, Err e) => (t, [], Err e)
              end
            else resume a pid 0 t
        end
      else if stop_signal =? SIGSYS then
        let t := set_violation t in
        match last_syscall t !! pid with
        | Some n =>
            if zmem n [SYS_SETNS; SYS_UNSHARE; SYS_MOUNT; SYS_UMOUNT2; SYS_PIVOT_ROOT; SYS_PTRACE; SYS_CLONE3]
            then match _record_namespace_escape (ns (reading a) 0) n t with
                 | (t, Ok _) => resume a pid SIGSYS t
                 | (t, Err e) => (t, [], Err e)
                 end
            else resume a pid SIGSYS t
        | None => resume a pid SIGSYS t
        end
      else resume a pid (if zmem stop_signal [SIGTRAP; SIGSTOP; SIGCHLD] then 0 else stop_signal) t.

Definition telemetry_summary (t : HostTracer) : pyval :=
  VDict [("syscall_events", VInt (count (counters t) "syscall_events"));
         ("fs_mutations", VInt (count (counters t) "fs_mutations"));
         ("dns_attempts", VInt (count (counters t) "dns_attempts"));
         ("exec_spawns", VInt (count (counters t) "exec_spawns"));
         ("source", VStr "ptrace + seccomp (read-only, host side)")].

End tracer.
End Tracer.
