(* ===== verification/TracerFacts.v ===== *)
(** * What the observer guarantees

    Theorems about observer/ptracer.py and its composition with the filter, the
    detectors and the gate: a call the filter refuses is counted, and a payload
    that made one is denied; the chain of parents always ends; the words of the
    tracee's memory determine the path that is classified. *)

From stdpp Require Import base list strings gmap sorting.
From Stdlib Require Import ZArith Lia.
From S2P Require Import Prelude PyValue Sha256 Json StrOps Counter Detectors OutwardReport PolicyGate Seccomp Tracer.

Local Open Scope Z_scope.

Module TracerFacts.
Import Seccomp Detectors Tracer.

Section facts.
Context `{Clock}.

(** The registers at the entry of a call of two arguments. *)
Definition at_call (number first second : Z) : UserRegsStruct :=
  mk_regs 0 0 0 0 0 0 0 0 0 0 0 0 0 second first number 0 0 0 0 0 0 0 0 0 0 0.

(** ** The tracer drives the engine only through its methods *)
Definition reaches (t t' : HostTracer) : Prop := exists ops, detector t' = run (detector t) ops.
Definition reports (t t' : HostTracer) (r : string) : Prop :=
  exists ops, detector t' = run (detector t) ops /\ In r (finding_rules (concat (map seen ops))).

Lemma run_app e o1 o2 : run e (o1 ++ o2) = run (run e o1) o2.
Proof. unfold run. apply foldl_app. Qed.

Lemma reach_same t t' : detector t' = detector t -> reaches t t'.
Proof. intros E. by exists []. Qed.

Lemma reach_trans t t1 t2 : reaches t t1 -> reaches t1 t2 -> reaches t t2.
Proof. intros [o1 E1] [o2 E2]. exists (o1 ++ o2). by rewrite run_app, <- E1. Qed.

Lemma reports_after t t1 t2 r : reports t t1 r -> reaches t1 t2 -> reports t t2 r.
Proof.
  intros (o1 & E1 & Hin) [o2 E2]. exists (o1 ++ o2). rewrite run_app, <- E1. split; [done|].
  unfold finding_rules. rewrite map_app, concat_app, List.filter_app, map_app. apply in_app_iff. by left.
Qed.

Lemma reports_before t t1 t2 r : reaches t t1 -> reports t1 t2 r -> reports t t2 r.
Proof.
  intros [o1 E1] (o2 & E2 & Hin). exists (o1 ++ o2). rewrite run_app, <- E1. split; [done|].
  unfold finding_rules. rewrite map_app, concat_app, List.filter_app, map_app. apply in_app_iff. by right.
Qed.

Lemma reach_call o t : reaches t (fst (call o t)).
Proof. exists [o]. unfold call, run. cbn. by destruct (step (detector t) o). Qed.

Lemma reach_andthen t x f :
  reaches t (fst x) -> (forall t1, reaches t t1 -> reaches t (fst (f t1))) -> reaches t (fst (andthen x f)).
Proof. intros Hx Hf. destruct x as [t1 [[]|e]]; cbn in *; auto. Qed.

Lemma reach_emit now tap rule_id subject action hint t : reaches t (fst (emit now tap rule_id subject action hint t)).
Proof. unfold emit. destruct (make_event _ _ _ _ _ _); [apply reach_call|by apply reach_same]. Qed.

Lemma reach_escape now n t : reaches t (fst (_record_namespace_escape now n t)).
Proof. apply (reach_trans _ (set_escape t)); [by apply reach_same|apply reach_emit]. Qed.

Lemma reach_from t t0 t1 : detector t0 = detector t -> reaches t0 t1 -> reaches t t1.
Proof. intros E. apply reach_trans. by apply reach_same. Qed.

Lemma reach_record_all now l t0 t : reaches t0 t -> reaches t0 (fst (record_all now l t)).
Proof.
  revert t. induction l as [|x l IH]; intros t Ht; cbn [record_all]; [done|].
  apply reach_andthen; [by eapply reach_trans, reach_call|auto].
Qed.

Lemma reach_openat w regs t : reaches t (fst (on_openat w regs t)).
Proof.
  unfold on_openat. destruct (classify_path _ _ _ _ _) as [[l canary]|]; [|by apply reach_same].
  apply reach_andthen; [apply reach_record_all; by apply reach_same|]. intros t1 H1.
  apply reach_andthen.
  - destruct canary as [name|]; [|done]. destruct (String.eqb name ""); [done|]. by eapply reach_trans, reach_call.
  - intros t2 H2. destruct (Z.land _ _ =? 0), (String.eqb _ _); cbn [fst ret]; try done.
    + by eapply reach_trans, reach_escape.
    + eapply reach_trans; [exact H2|]. eapply (reach_from _ (bump "fs_mutations" t2)); [done|apply reach_escape].
Qed.

Lemma reach_fork w pid n regs t : reaches t (fst (on_fork w pid n regs t)).
Proof.
  unfold on_fork. apply reach_andthen.
  - destruct (_ && _); [|by apply reach_same]. eapply (reach_from _ (bump "forks" t)); [done|apply reach_escape].
  - intros t1 H1. destruct (_ && _); [by eapply reach_trans, reach_emit|done].
Qed.

Lemma reach_entry w pid regs t : reaches t (fst (_on_syscall_entry w pid regs t)).
Proof.
  unfold _on_syscall_entry. apply (reach_from _ (bump "syscall_events" (set_last pid (orig_rax regs) t))); [done|].
  set (u := bump _ _). destruct (_ =? SYS_OPENAT); [apply reach_openat|].
  destruct (_ =? SYS_SOCKET).
  { unfold on_socket. destruct (family_label _); [|by apply reach_same].
    apply reach_andthen; [apply reach_emit|]. intros t1 H1. by eapply reach_trans, reach_call. }
  destruct (_ =? SYS_CONNECT).
  { unfold on_connect. apply reach_andthen; [apply reach_call|]. intros t1 H1.
    destruct (bounded_subject _ _); [by eapply reach_trans, reach_emit|done]. }
  destruct (zmem _ _); [apply reach_fork|]. destruct (zmem _ _).
  { eapply (reach_from _ (bump "exec_spawns" u)); [done|apply reach_emit]. }
  destruct (_ =? SYS_CLOCK_GETTIME).
  { unfold on_clock. destruct (_ <? _); [|by apply reach_same].
    eapply reach_from; [|apply reach_emit]. done. }
  destruct (zmem _ _); [apply reach_escape|by apply reach_same].
Qed.

Lemma detector_oserror e t : detector (on_oserror e t) = detector t.
Proof. destruct e as [name errno]. unfold on_oserror. by destruct (zmem errno _). Qed.

Lemma reach_resume a pid d t0 t : reaches t0 t -> reaches t0 (fst (fst (resume a pid d t))).
Proof.
  intros [ops E]. exists ops. rewrite <- E. cbn. destruct (resume_error a); [apply detector_oserror|done].
Qed.

Lemma reach_stop a pid status t : reaches t (fst (fst (process_wait_status a pid status t))).
Proof.
  unfold process_wait_status. destruct (WIFEXITED _); [by apply reach_same|].
  destruct (WIFSIGNALED _); [by apply reach_same|]. destruct (negb _); [by apply reach_same|].
  destruct (zmem _ _).
  { destruct (geteventmsg a); [apply reach_resume; by apply reach_same|apply reach_same, detector_oserror]. }
  set (u := if _ =? 4 then _ else _). assert (Hu : detector u = detector t) by (unfold u; by destruct (_ =? 4)).
  apply (reach_from _ u); [done|]. destruct (_ =? Z.lor SIGTRAP 128).
  { destruct (getregs a) as [regs|e]; [|apply reach_same, detector_oserror]. destruct (negb _).
    - pose proof (reach_entry (reading a) pid regs (set_in_syscall pid true u)) as He.
      apply (reach_from u) in He; [|done]. destruct (_on_syscall_entry _ _ _ _) as [t1 [[]|]]; [|done].
      by apply reach_resume.
    - apply reach_resume. by apply reach_same. }
  destruct (_ =? SIGSYS); [|apply reach_resume; by apply reach_same].
  destruct (last_syscall _ !! pid) as [n|]; [|apply reach_resume; by apply reach_same].
  destruct (zmem _ _); [|apply reach_resume; by apply reach_same].
  pose proof (reach_escape (ns (reading a) 0) n (set_violation u)) as He. apply (reach_from u) in He; [|done].
  destruct (_record_namespace_escape _ _ _) as [t1 [[]|]]; [by apply reach_resume|done].
Qed.

(** ** What the filter refuses, the detectors count *)
Lemma emit_reports now tap rule_id subject action hint t :
  mem tap TAPS = true -> mem action ACTIONS = true -> mem hint VERDICT_HINTS = true ->
  in_range 1 128 (py_len rule_id) = true -> has_key rule_id RULES = true -> String.eqb hint "baseline" = false ->
  exists t', emit now tap rule_id subject action hint t = (t', Ok tt) /\ reports t t' rule_id.
Proof.
  intros H1 H2 H3 H4 H5 H6.
  pose proof (make_event_fixed now tap rule_id subject action hint H1 H4 H2 (cut_subject _) H3) as Hm.
  pose proof (make_event_valid _ _ _ _ _ _ _ Hm) as Hv.
  exists (set_detector (_record_valid (detector t) (event_dict now tap rule_id subject action hint)) t).
  unfold emit. rewrite Hm. unfold call. cbn [step]. unfold record. rewrite Hv. split; [done|].
  exists [Record now (event_dict now tap rule_id subject action hint)].
  unfold run. cbn [foldl step fst map concat seen]. unfold record. rewrite Hv. split; [done|].
  cbn [app]. unfold finding_rules. cbn [List.filter]. unfold is_finding.
  change (ev "rule_id" (event_dict now tap rule_id subject action hint)) with rule_id.
  change (ev "verdict_hint" (event_dict now tap rule_id subject action hint)) with hint.
  rewrite H5, H6. by left.
Qed.

Lemma escape_reports now n t :
  exists t', _record_namespace_escape now n t = (t', Ok tt) /\ reports t t' "namespace_escape_attempt".
Proof.
  destruct (emit_reports now "syscall" "namespace_escape_attempt" (syscall_name n SYSCALL_NAMES) "exec" "known_bad"
    (set_escape t) eq_refl eq_refl eq_refl eq_refl eq_refl eq_refl) as (t' & E & Hr).
  exists t'. split; [exact E|]. eapply reports_before; [|exact Hr]. by apply reach_same.
Qed.

(** The rules under which a refused call is counted. *)
Definition refusal_rules : list string := ["network_exfil_attempt"; "namespace_escape_attempt"].

(** A call that the filter does not let through, other than the interface query, which
    is only trapped.  The tracer compares whole registers where the kernel looks at
    their low halves: the number fits the low half, and so does the family of a socket. *)
Record refused (regs : UserRegsStruct) : Prop := {
  refused_number : 0 <= orig_rax regs < 2 ^ 32;
  refused_family : orig_rax regs = SYS_SOCKET -> 0 <= rdi regs < 2 ^ 32;
  refused_verdict : filter_verdict (data_of regs) <> Some SECCOMP_RET_ALLOW;
  refused_not_ioctl : orig_rax regs <> SYS_IOCTL;
}.

(** The namespace flags of [clone] are in the low half. *)
Lemma low_flags z : Z.land (z mod 2 ^ 32) CLONE_NAMESPACE_MASK = Z.land z CLONE_NAMESPACE_MASK.
Proof. rewrite <- Z.land_ones, <- Z.land_assoc by done. by f_equal. Qed.

Lemma refused_cases regs v :
  refused regs -> filter_verdict (data_of regs) = Some v ->
  (orig_rax regs = SYS_SOCKET /\ is_Some (family_label (rdi regs))) \/
  (orig_rax regs = SYS_CLONE /\ Z.land (rdi regs) CLONE_NAMESPACE_MASK <> 0) \/
  In (orig_rax regs) TRAPPED_CALLS.
Proof.
  intros [Hn Hd Ha Hi] Hf. rewrite Hf in Ha. assert (Hv : v <> SECCOMP_RET_ALLOW) by congruence. clear Ha.
  revert Hf Hv. rewrite filter_policy_eq. intros [= <-]. unfold policy.
  cbn [nr arch arg0 arg1 data_of]. unfold lo. rewrite !(Z.mod_small (orig_rax regs)), !low_flags by done.
  change (negb (AUDIT_ARCH_X86_64 mod 2 ^ 32 =? AUDIT_ARCH_X86_64)) with false. cbv iota. intros Hv.
  destruct (Z.eqb_spec (orig_rax regs) SYS_SOCKET) as [E|_]; cbn [andb] in Hv.
  { rewrite (Z.mod_small (rdi regs)) in Hv by auto. destruct (zmem (rdi regs) inet_families) eqn:Ef.
    - left. split; [done|]. unfold zmem, inet_families in Ef. cbn [existsb] in Ef. unfold family_label.
      destruct (rdi regs =? AF_INET), (rdi regs =? AF_INET6), (rdi regs =? AF_PACKET); try done; by eexists.
    - rewrite E in Hv. done. }
  destruct (Z.eqb_spec (orig_rax regs) SYS_IOCTL) as [E|_]; [done|]. cbn [andb] in Hv.
  destruct (Z.eqb_spec (orig_rax regs) SYS_CLONE) as [E|_]; cbn [andb] in Hv.
  { destruct (Z.eqb_spec (Z.land (rdi regs) CLONE_NAMESPACE_MASK) 0); cbn [negb] in Hv; [rewrite E in Hv; done|].
    right. left. done. }
  destruct (zmem (orig_rax regs) TRAPPED_CALLS) eqn:Et; [|done]. right. right.
  unfold zmem in Et. apply existsb_exists in Et as (x & Hx & ->%Z.eqb_eq). done.
Qed.

Lemma refused_entry w pid regs t v :
  refused regs -> filter_verdict (data_of regs) = Some v ->
  exists t' r, _on_syscall_entry w pid regs t = (t', Ok tt) /\ In r refusal_rules /\ reports t t' r.
Proof.
  intros Hr Hv. unfold _on_syscall_entry. set (u := bump _ _).
  assert (Hu : reaches t u) by (by apply reach_same).
  destruct (refused_cases regs v Hr Hv) as [[-> [family Hf]]|[[-> Hm]|Ht]].
  - cbn [Z.eqb Pos.eqb SYS_SOCKET SYS_OPENAT]. unfold on_socket. rewrite Hf.
    destruct (emit_reports (ns w 0) "net" "network_exfil_attempt" family "connect" "known_bad" u
      eq_refl eq_refl eq_refl eq_refl eq_refl eq_refl) as (t1 & -> & Hrep). cbn [andthen].
    assert (Hc : exists t2, call (AddDestination family "blocked-by-seccomp") t1 = (t2, Ok tt)).
    { unfold family_label in Hf. unfold call. cbn [step]. unfold add_destination.
      destruct (rdi regs =? AF_INET), (rdi regs =? AF_INET6), (rdi regs =? AF_PACKET); simplify_eq; by eexists. }
    destruct Hc as [t2 Hc]. exists t2, "network_exfil_attempt". split; [done|]. split; [by left|].
    eapply reports_before; [exact Hu|]. eapply reports_after; [exact Hrep|].
    pose proof (reach_call (AddDestination family "blocked-by-seccomp") t1) as Hc'. by rewrite Hc in Hc'.
  - change (SYS_CLONE =? SYS_OPENAT) with false. change (SYS_CLONE =? SYS_SOCKET) with false.
    change (SYS_CLONE =? SYS_CONNECT) with false. change (zmem SYS_CLONE [SYS_CLONE; SYS_FORK; SYS_VFORK]) with true. cbv iota.
    unfold on_fork. rewrite Z.eqb_refl, (proj2 (Z.eqb_neq _ _) Hm). cbn [andb negb].
    destruct (escape_reports (ns w 0) SYS_CLONE (bump "forks" u)) as (t1 & -> & Hrep). cbn [andthen].
    assert (Hr1 : reports t t1 "namespace_escape_attempt").
    { eapply reports_before; [|exact Hrep]. by apply reach_same. }
    destruct (_ && _).
    + destruct (emit_reports (ns w 1) "proc" "exec_spawn_chain" "process_depth_exceeded" "fork" "anomalous" t1
        eq_refl eq_refl eq_refl eq_refl eq_refl eq_refl) as (t2 & E2 & [ops2 [E3 _]]).
      exists t2, "namespace_escape_attempt". split; [done|]. split; [right; by left|].
      eapply reports_after; [exact Hr1|]. by exists ops2.
    + exists t1, "namespace_escape_attempt". split; [done|]. split; [right; by left|done].
  - destruct (escape_reports (ns w 0) (orig_rax regs) u) as (t1 & E1 & Hrep).
    exists t1, "namespace_escape_attempt". split; [|split; [right; by left|by eapply reports_before]].
    cbn in Ht. destruct Ht as [Ht|[Ht|[Ht|[Ht|[Ht|[Ht|[Ht|[]]]]]]]]; rewrite <- Ht in E1 |- *; exact E1.
Qed.

(** ** A whole observation *)
Definition stop : Type := answers * Z * Z.
Definition after (t : HostTracer) (s : stop) : HostTracer :=
  let '(a, pid, status) := s in fst (fst (process_wait_status a pid status t)).
Definition observe (t : HostTracer) (stops : list stop) : HostTracer := foldl after t stops.

(** The wait status of a syscall stop, and a stop at the entry of a call. *)
Definition SYSCALL_STOP : Z := Z.lor (Z.shiftl (Z.lor SIGTRAP 128) 8) 127.
Definition entry_stop (t : HostTracer) (s : stop) (regs : UserRegsStruct) : Prop :=
  let '(a, pid, status) := s in
  status = SYSCALL_STOP /\ getregs a = inl regs /\ default false (in_syscall t !! pid) = false.

Lemma reach_observe stops t0 t : reaches t0 t -> reaches t0 (observe t stops).
Proof.
  revert t. induction stops as [|[[a pid] status] stops IH]; intros t Ht; cbn [observe foldl]; [done|].
  apply IH. eapply reach_trans; [exact Ht|apply reach_stop].
Qed.

Lemma refused_stop t s regs :
  entry_stop t s regs -> refused regs -> exists r, In r refusal_rules /\ reports t (after t s) r.
Proof.
  destruct s as [[a pid] status]. intros (-> & Hg & Hs) Hr.
  unfold after, process_wait_status. change (WIFEXITED SYSCALL_STOP) with false.
  change (WIFSIGNALED SYSCALL_STOP) with false. change (negb (WIFSTOPPED SYSCALL_STOP)) with false.
  change (zmem (Z.shiftr SYSCALL_STOP 16) [1; 2; 3]) with false. change (Z.shiftr SYSCALL_STOP 16 =? 4) with false.
  change (WEXITSTATUS SYSCALL_STOP =? Z.lor SIGTRAP 128) with true. cbv iota zeta. rewrite Hg, Hs. cbn [negb].
  destruct (filter_verdict (data_of regs)) as [v|] eqn:Ev; [|by rewrite filter_policy_eq in Ev].
  destruct (refused_entry (reading a) pid regs (set_in_syscall pid true t) v Hr Ev)
    as (t' & r & -> & Hin & Hrep).
  exists r. split; [done|]. apply (reports_before t) in Hrep; [|by apply reach_same].
  eapply reports_after; [exact Hrep|]. apply reach_resume. by apply reach_same.
Qed.

Variable parse_float : string -> pyfloat.

Lemma counted_not_allowed b l flag u job r report :
  tracks (OutwardReport.detector b) l flag -> In r (finding_rules l) -> OutwardReport.build_report b u = Ok report ->
  exists v d, PolicyGate.apply_scoring_matrix parse_float report PolicyGate.NoOverride job = Ok v /\
    sub v "final_decision" = Ok (VStr d) /\ In d ["DENY"; "EVALUATION_INCOMPLETE"].
Proof.
  intros Ht Hin Hb. unfold OutwardReport.build_report in Hb. rewrite (evidence_ok _ _ _ Ht) in Hb.
  set (c := finding_counts (OutwardReport.detector b)) in *. set (items := map (item_of c) (sorted_keys c)) in *.
  cbn [mbind res_bind] in Hb. destruct (OutwardReport.validate_outward_report _) as [[]|] eqn:Hv; [|done]. injection Hb as <-.
  destruct (PolicyGate.apply_final parse_float (OutwardReport.report_of b u items) items
    (map VStr (sorted_keys (canaries (OutwardReport.detector b)))) (map VStr (OutwardReport.requested b)) [] PolicyGate.NoOverride
    job "none") as (v & Hva & _ & Hf); try done.
  do 2 eexists. split; [exact Hva|]. split; [exact Hf|]. unfold PolicyGate.verdict.
  assert (Hitems : items <> []).
  { unfold items. rewrite map_nil_iff. intros E. apply (proj2 (evidence_rules _ _ _ r Ht)) in Hin.
    fold c in Hin. by rewrite E in Hin. }
  destruct (0 <? count _ "payload_observation_incomplete"); [right; by left|].
  destruct (existsb _ PolicyGate.UNOVERRIDABLE_RULES); [by left|]. cbn [String.eqb Ascii.eqb Bool.eqb].
  destruct items; [done|]. by left.
Qed.


(** The chain of parents always ends, even when pids were reused into a
    cycle: [_depth] is at most the number of recorded parents, and no further
    turn of the loop would change it. *)
Theorem depth_terminates (t : HostTracer) (pid : Z) (extra : nat) :
  depth_loop (S (size (parent_by_pid t)) + extra) (parent_by_pid t) pid ∅ 0 = _depth t pid /\
  0 <= _depth t pid <= Z.of_nat (size (parent_by_pid t)).
Proof.
  assert (Hloop : forall f1 f2 (p : gmap Z Z) pid seen depth,
    (size (dom p ∖ seen) < f1)%nat -> (size (dom p ∖ seen) < f2)%nat ->
    depth_loop f1 p pid seen depth = depth_loop f2 p pid seen depth /\
    depth <= depth_loop f1 p pid seen depth <= depth + Z.of_nat (size (dom p ∖ seen))).
  { induction f1 as [|f1 IH]; intros f2 p q seen depth H1 H2; [lia|]. destruct f2 as [|f2]; [lia|].
    cbn [depth_loop]. destruct (p !! q) as [parent|] eqn:Ep; [|lia]. case_bool_decide as Hin; [lia|].
    assert (Hlt : (size (dom p ∖ ({[q]} ∪ seen)) < size (dom p ∖ seen))%nat).
    { apply subset_size. apply elem_of_dom_2 in Ep. set_solver. }
    destruct (IH f2 p parent ({[q]} ∪ seen) (depth + 1)) as [E1 E2]; [lia..|]. rewrite E1 in E2 |- *. split; [done|lia]. }
  unfold _depth. assert (Hsz : size (dom (parent_by_pid t) ∖ (∅ : gset Z)) = size (parent_by_pid t)).
  { rewrite difference_empty_L. apply size_dom. }
  destruct (Hloop (S (size (parent_by_pid t)) + extra)%nat (S (size (parent_by_pid t))) (parent_by_pid t) pid ∅ 0)
    as [E1 E2]; rewrite Hsz in *; [lia..|]. rewrite E1 in E2 |- *. split; [done|lia].
Qed.

End facts.
(** ** Paths are read without loss *)
Lemma escape_plain a s : byte_of a <> 237 -> surrogateescape (String a s) = let* r := surrogateescape s in Ok (String a r).
Proof.
  intros Ha. destruct s as [|b [|c r]]; [done..|]. rewrite surrogateescape_cons.
  by rewrite (proj2 (Z.eqb_neq _ _) Ha).
Qed.

Lemma escape_below a b s : byte_of b < 160 ->
  surrogateescape (String a (String b s)) = let* r := surrogateescape (String b s) in Ok (String a r).
Proof.
  intros Hb. destruct s as [|c r]; [done|]. rewrite surrogateescape_cons. unfold in_range.
  rewrite (proj2 (Z.leb_gt 160 (byte_of b)) Hb). by rewrite andb_false_r.
Qed.

Lemma escape_escaped a s : 128 <= byte_of a ->
  surrogateescape (escape_byte a s) = let* r := surrogateescape s in Ok (String a r).
Proof.
  intros Ha. pose proof (byte_of_range a). unfold escape_byte. rewrite surrogateescape_cons.
  assert (Hq : byte_of a / 64 = 2 \/ byte_of a / 64 = 3) by (pose proof (Z.div_mod (byte_of a) 64); pose proof (Z.mod_pos_bound (byte_of a) 64); lia).
  pose proof (Z.div_mod (byte_of a) 64 ltac:(done)) as Hdm. pose proof (Z.mod_pos_bound (byte_of a) 64 ltac:(done)).
  rewrite !byte_of_ascii_of by lia. unfold in_range.
  replace ((237 =? 237) && ((160 <=? 176 + byte_of a / 64) && (176 + byte_of a / 64 <=? 191))) with true by lia.
  replace ((178 <=? 176 + byte_of a / 64) && (176 + byte_of a / 64 <=? 179)) with true by lia.
  replace ((176 + byte_of a / 64 - 178) * 64 + (128 + byte_of a mod 64)) with (byte_of a) by lia.
  by rewrite ascii_of_byte_of.
Qed.

Lemma continues_not_lead c : continues c = true -> byte_of c <> 237.
Proof. unfold continues, in_range. lia. Qed.

(** The path the kernel will open is the path that is classified: decoding
    the tracee's bytes and encoding the text again gives the same bytes, for
    every byte string, valid UTF-8 or not. *)
Theorem decode_escape_lossless (raw : string) : surrogateescape (decode_escape raw) = Ok raw.
Proof.
  induction raw as [s IH] using (induction_ltof1 _ String.length). unfold ltof in IH.
  destruct s as [|a r]; [done|]. cbn [decode_escape].
  assert (Hr : surrogateescape (decode_escape r) = Ok r) by (apply IH; cbn; lia).
  destruct (Z.ltb_spec (byte_of a) 128) as [Ha|Ha]; [rewrite escape_plain by lia; by rewrite Hr|].
  assert (He : surrogateescape (escape_byte a (decode_escape r)) = Ok (String a r))
    by (rewrite escape_escaped by done; by rewrite Hr).
  destruct r as [|b r2]; [exact He|]. destruct (lead2 a b) eqn:E2.
  { unfold lead2 in E2. run_inv. rewrite escape_plain by (unfold in_range in *; lia).
    rewrite escape_plain by (by apply continues_not_lead). rewrite IH by (cbn; lia). done. }
  destruct r2 as [|c r3]; [exact He|]. destruct (lead3 a b c) eqn:E3.
  { unfold lead3 in E3. run_inv.
    assert (Hstep : surrogateescape (String a (String b (String c (decode_escape r3)))) =
      let* r := surrogateescape (String b (String c (decode_escape r3))) in Ok (String a r)).
    { destruct (Z.eq_dec (byte_of a) 237) as [E|]; [|by apply escape_plain]. apply escape_below.
      rewrite E in *. cbn [Z.eqb Pos.eqb andb] in *. lia. }
    rewrite Hstep, escape_plain, escape_plain by (by apply continues_not_lead). rewrite IH by (cbn; lia). done. }
  destruct r3 as [|d r4]; [exact He|]. destruct (lead4 a b c d) eqn:E4; [|exact He].
  unfold lead4 in E4. run_inv. rewrite escape_plain by (unfold in_range in *; lia).
  rewrite !escape_plain by (by apply continues_not_lead). rewrite IH by (cbn; lia). done.
Qed.

(** ** What the tracer cannot see *)
Lemma peek_length memory address chunk : _peek memory address = Some chunk -> String.length chunk = 8%nat.
Proof.
  unfold _peek. destruct (memory address); [|done]. intros <-%(inj Some). unfold le_bytes.
  by rewrite length_of_bytes, length_rev, length_be_bytes.
Qed.

Lemma byte_at_has_char n s : (n < String.length s)%nat -> byte_at n s = 0 -> has_char 0 s = true.
Proof.
  revert n. induction s as [|c s IH]; intros n Hn; cbn in Hn; [lia|]. unfold has_char in *. cbn [str_exists].
  destruct n as [|n]; unfold byte_at in *; cbn [String.get].
  - intros Hc. unfold ch. rewrite Hc. done.
  - intros Hc. rewrite (IH n); [by rewrite orb_true_r|lia|done].
Qed.

Lemma get_append n s t : (n < String.length s)%nat -> String.get n (s +:+ t) = String.get n s.
Proof. revert n. induction s as [|c s IH]; intros n Hn; cbn in Hn; [lia|]. destruct n; [done|]. apply IH. lia. Qed.

(** Reading stops at the first word that holds a zero byte. *)
Lemma read_loop_short memory fuel address maximum :
  let raw := read_loop memory fuel address maximum "" in
  (1 < String.length raw)%nat -> byte_at 1 raw = 0 -> (String.length raw <= 8)%nat.
Proof.
  assert (Hgrow : forall f r, exists t, read_loop memory f address maximum r = r +:+ t).
  { induction f as [|f IH]; intros r; cbn [read_loop]; [exists ""; by rewrite append_nil_r|].
    destruct (_ <=? _); [exists ""; by rewrite append_nil_r|].
    destruct (_peek _ _) as [chunk|]; [|exists ""; by rewrite append_nil_r].
    destruct (has_char 0 chunk); [by eexists|]. destruct (IH (r +:+ chunk)) as [t ->].
    exists (chunk +:+ t). by rewrite append_assoc. }
  cbv zeta. destruct fuel as [|fuel]; cbn [read_loop]; [cbn; lia|]. destruct (_ <=? _); [cbn; lia|].
  destruct (_peek _ _) as [chunk|] eqn:Ep; [|cbn; lia]. pose proof (peek_length _ _ _ Ep) as Hl.
  change ("" +:+ chunk) with chunk.
  destruct (has_char 0 chunk) eqn:Ez; [lia|]. destruct (Hgrow fuel chunk) as [t ->].
  intros _ Hb. exfalso. unfold byte_at in Hb. rewrite get_append in Hb by lia.
  rewrite (byte_at_has_char 1 chunk) in Ez; [done|lia|exact Hb].
Qed.

(** The IPv6 branch of [read_sockaddr] is never taken: the family of such an
    address holds a zero byte, so only its first eight bytes are read. *)
Theorem ipv6_destination_unread (memory : Z -> option Z) (f g : string -> string) (address length : Z) :
  read_sockaddr memory f address length = read_sockaddr memory g address length.
Proof.
  unfold read_sockaddr. cbv zeta. set (raw := read_tracee_bytes memory address (Z.min (Z.max length 0) 128)).
  destruct (_ <? 2)%nat eqn:E2; [done|]. destruct ((_ =? AF_INET) && _); [done|].
  destruct ((_ =? AF_INET6) && _) eqn:E6; [|done]. exfalso. run_inv.
  apply Z.eqb_eq in H. unfold AF_INET6 in H. apply Nat.ltb_ge in E2. apply Nat.leb_le in E6.
  assert (Hb : forall n, 0 <= byte_at n raw < 256).
  { intros n. unfold byte_at. destruct (String.get n raw); [apply byte_of_range|lia]. }
  pose proof (Hb 0%nat). pose proof (Hb 1%nat).
  unfold raw, read_tracee_bytes in *. set (loop := read_loop _ _ _ _ _) in *. set (m := Z.to_nat _) in *.
  assert (Hlen : (String.length (slice m loop) <= String.length loop)%nat).
  { destruct (Nat.le_ge_cases (String.length loop) m); [by rewrite slice_all|]. rewrite slice_long; lia. }
  assert (Hget : byte_at 1 (slice m loop) = byte_at 1 loop).
  { unfold byte_at. destruct (Nat.le_ge_cases (String.length loop) m); [by rewrite slice_all|].
    unfold slice. rewrite String.substring_correct1; [done|]. rewrite slice_long in E2 by lia. lia. }
  assert (String.length loop <= 8)%nat; [|lia]. apply read_loop_short; fold loop; [lia|]. rewrite <- Hget. lia.
Qed.

Section wide.
Context `{Clock}.

(** The kernel and the filter take the family from the low half of the register,
    the tracer from the whole of it: an Internet socket asked for with a bit set
    above the low half is refused by the filter and reported by no one. *)
Theorem wide_domain_unreported (w : reads) (pid : Z) (t : HostTracer) :
  let regs := at_call SYS_SOCKET (2 ^ 32 + AF_INET) 1 in
  filter_verdict (data_of regs) = Some (Z.lor SECCOMP_RET_ERRNO EPERM) /\
  detector (fst (_on_syscall_entry w pid regs t)) = detector t.
Proof. by split. Qed.
End wide.

(** ** Witness *)
Definition clock_Z : Clock :=
  {| instant := Z; older_than_second := fun t now => t <? now - 1; within_five := fun start now => now - start <=? 5 |}.
#[local] Existing Instance clock_Z.

Definition sample_reads : reads := mk_reads (fun _ => None) (fun _ => "") (fun n => N.of_nat n) (0 : @instant clock_Z).
Definition sample_regs : UserRegsStruct := at_call SYS_SOCKET AF_INET 1.
Definition sample_stop : stop := (mk_answers (inl 0) (inl sample_regs) None sample_reads, 7, SYSCALL_STOP).
Definition sample_tracer : HostTracer := _register_root (new_tracer 7 (new_engine 10000 0) (0 : @instant clock_Z)).
Definition sample_broker : OutwardReport.CapabilityBroker :=
  fst (OutwardReport.request_capabilities (OutwardReport.new_broker (detector (after sample_tracer sample_stop))) []).


End TracerFacts.
