(* ===== verification/EgressAddress.v ===== *)
(** * Addresses and limits of the egress proxy

    The address checks of broker/browser_egress_proxy.py and of
    mote/browser_contract.py: which answers of the resolver may be pinned, which
    addresses the proxy may bind and serve, and the bounds of its configuration.
    The registry tables of [ipaddress] differ between releases of Python; they
    are the class [IpRelease], and nothing about them is assumed. *)

From stdpp Require Import base list strings sorting.
From Stdlib Require Import ZArith QArith Lia.
From S2P Require Import Prelude PyValue Sha256 Json StrOps Ip Url UrlFacts BrowserContract BrowserEvidence.

Local Open Scope Z_scope.

(** What a release of Python believes of an address. *)
Class IpRelease := {
  is_global : ip -> bool;
  is_private : ip -> bool;
  is_loopback : ip -> bool;
  is_link_local : ip -> bool;
  is_multicast : ip -> bool;
  is_reserved : ip -> bool;
  is_unspecified : ip -> bool;
  dotted_mapped : bool;         (** mapped addresses are printed dotted (3.13 and later) *)
}.

Module EgressAddress.
Import BrowserEvidence.

(** ** Text of an address *)
Definition hex_char (z : Z) : Ascii.ascii := ascii_of (if z <? 10 then 48 + z else 87 + z).

(** ["%x" % z] for a 16-bit number *)
Fixpoint hex_text (fuel : nat) (z : Z) (acc : string) : string :=
  match fuel with
  | O => acc
  | S f => let acc := String (hex_char (z mod 16)) acc in if z <? 16 then acc else hex_text f (z / 16) acc
  end.

Definition dotted (a : Z) : string :=
  dec (a / 2 ^ 24 mod 256) +:+ "." +:+ dec (a / 2 ^ 16 mod 256) +:+ "." +:+ dec (a / 2 ^ 8 mod 256)
  +:+ "." +:+ dec (a mod 256).

Definition hextets (a : Z) : list Z := map (fun i => a / 2 ^ (16 * (7 - Z.of_nat i)) mod 65536) (seq 0 8).

(** [_compress_hextets]: the first longest run of zeros, as start and length. *)
Fixpoint zero_run (i start len best_start best_len : nat) (l : list Z) : nat * nat :=
  match l with
  | [] => (best_start, best_len)
  | h :: r =>
      if h =? 0 then
        let start := if (len =? 0)%nat then i else start in
        let len := S len in
        if (best_len <? len)%nat then zero_run (S i) start len start len r
        else zero_run (S i) start len best_start best_len r
      else zero_run (S i) 0 0 best_start best_len r
  end.

Definition v6_text (a : Z) : string :=
  let hs := hextets a in
  let '(start, len) := zero_run 0 0 0 0 0 hs in
  let texts := map (fun h => hex_text 4 h "") hs in
  if (1 <? len)%nat then
    String.concat ":" (if (start =? 0)%nat then [""] else take start texts)
    +:+ "::" +:+ String.concat ":" (drop (start + len) texts)
  else String.concat ":" texts.

Section release.
Context `{IpRelease}.

(** [address.ipv4_mapped] *)
Definition ipv4_mapped (a : ip) : option Z :=
  match a with V6 n _ => if n / 2 ^ 32 =? 65535 then Some (n mod 2 ^ 32) else None | V4 _ => None end.

(** [address.compressed] *)
Definition compressed (a : ip) : string :=
  match a with
  | V4 n => dotted n
  | V6 n scope =>
      (match ipv4_mapped a with
       | Some m => if dotted_mapped then "::ffff:" +:+ dotted m else v6_text n
       | None => v6_text n
       end) +:+ match scope with Some z => "%" +:+ z | None => "" end
  end.

(** [if isinstance(address, IPv6Address) and address.ipv4_mapped is not None] *)
Definition unmapped (a : ip) : ip := match ipv4_mapped a with Some n => V4 n | None => a end.

(** [not isinstance(value, str) or not value or value != value.strip() or "%" in value] *)
Definition not_plain (value : pyval) : bool :=
  negb (is_str value) || String.eqb (str_of value) "" || padded (str_of value) || has_char 37 (str_of value).

Definition validate_resolved_address (value : pyval) : res string :=
  raise (BrowserContractError "resolved address must be a plain IP literal") when not_plain value;;
  match ip_address (str_of value) with
  | None => Err (BrowserContractError "resolved address is not an IP literal")
  | Some address =>
      let address := unmapped address in
      raise (BrowserContractError "resolved address is not public unicast")
        when negb (is_global address) || is_private address || is_loopback address || is_link_local address
             || is_multicast address || is_reserved address || is_unspecified address;;
      Ok (compressed address)
  end.

(** ** The proxy's own tables *)
Definition _IPV6_GLOBAL_UNICAST : string * Z := ("2000::", 3).
Definition _NON_PUBLIC_NETWORKS : list (string * Z) :=
  [("0.0.0.0", 8); ("10.0.0.0", 8); ("100.64.0.0", 10); ("127.0.0.0", 8); ("169.254.0.0", 16);
   ("172.16.0.0", 12); ("192.0.0.0", 24); ("192.0.2.0", 24); ("192.88.99.0", 24); ("192.168.0.0", 16);
   ("198.18.0.0", 15); ("198.51.100.0", 24); ("203.0.113.0", 24); ("224.0.0.0", 4); ("240.0.0.0", 4);
   ("2001::", 23); ("2001:db8::", 32); ("2002::", 16); ("3fff::", 20); ("5f00::", 16)].

(** [network.version == address.version and address in network] *)
Definition in_network (a : ip) (network : string * Z) : bool :=
  let '(base, prefix) := network in
  match ip_address base, a with
  | Some (V4 n), V4 m => m / 2 ^ (32 - prefix) =? n / 2 ^ (32 - prefix)
  | Some (V6 n _), V6 m _ => m / 2 ^ (128 - prefix) =? n / 2 ^ (128 - prefix)
  | _, _ => false
  end.

Definition is_v6 (a : ip) : bool := match a with V6 _ _ => true | V4 _ => false end.

Definition _validate_public_address (value : pyval) : res string :=
  let* canonical := validate_resolved_address value in
  match ip_address canonical with
  | None => Err (ValueError "not an IP address")
  | Some address =>
      raise (BrowserContractError "resolved address is not global unicast")
        when is_v6 address && negb (in_network address _IPV6_GLOBAL_UNICAST);;
      raise (BrowserContractError "resolved address is in a special-purpose range")
        when existsb (in_network address) _NON_PUBLIC_NETWORKS;;
      Ok canonical
  end.

Definition AF_INET : Z := 2.
Definition AF_INET6 : Z := 10.

Definition _canonical_bind_address (value : pyval) : res (string * Z) :=
  raise (BrowserEgressConfigurationError "bind_host must be a plain IP literal") when not_plain value;;
  match ip_address (str_of value) with
  | None => Err (BrowserEgressConfigurationError "bind_host must be a plain IP literal")
  | Some address =>
      raise (BrowserEgressConfigurationError "wildcard and multicast bind hosts are forbidden")
        when is_unspecified address || is_multicast address;;
      raise (BrowserEgressConfigurationError "browser egress proxy cannot bind a globally routable address")
        when is_global address;;
      Ok (compressed address, if is_v6 address then AF_INET6 else AF_INET)
  end.

Definition _canonical_client_address (value : pyval) : res string :=
  raise (BrowserEgressConfigurationError "allowed_client_ip must be a plain IP literal") when not_plain value;;
  match ip_address (str_of value) with
  | None => Err (BrowserEgressConfigurationError "allowed_client_ip must be a plain IP literal")
  | Some address =>
      raise (BrowserEgressConfigurationError "allowed_client_ip must identify the private microVM endpoint")
        when is_unspecified address || is_multicast address || is_link_local address || is_global address;;
      Ok (compressed address)
  end.

(** [_peer_matches_allowed_client], on the first component of the peer if it is a text *)
Definition _peer_matches_allowed_client (allowed_client_ip : string) (peer : option string) : bool :=
  match peer with
  | Some text =>
      match ip_address text with
      | Some address => String.eqb (compressed (unmapped address)) allowed_client_ip
      | None => false
      end
  | None => false
  end.

(** ** Pinning the answers of the resolver *)
Definition _MAX_DNS_ANSWERS : nat := 16.

(** How one resolution ends. *)
Inductive resolution :=
  | NoSlot | NotStarted | TimedOut | ResolverFailed
  | Answers (value : list pyval).

(** [if validated not in checked: checked.append(validated)] over the answers *)
Definition check_answers (value : list pyval) : res (list string) :=
  foldM (fun checked answer =>
           match _validate_public_address answer with
           | Ok validated => Ok (if mem validated checked then checked else checked ++ [validated])
           | Err _ => Err (BrowserEgressStartupError "authorized DNS resolution returned an unsafe answer")
           end) value [].

(** The sort key, version and number. *)
Definition address_key (s : string) : Z * Z :=
  match ip_address s with Some (V4 a) => (4, a) | Some (V6 a _) => (6, a) | None => (0, 0) end.
Definition key_le (s t : string) : Prop :=
  fst (address_key s) < fst (address_key t) \/
  (fst (address_key s) = fst (address_key t) /\ snd (address_key s) <= snd (address_key t)).
#[global] Instance key_le_dec s t : Decision (key_le s t).
Proof. unfold key_le. apply _. Defined.

Definition pin_one (r : resolution) : res (list string) :=
  match r with
  | NoSlot => Err (BrowserEgressStartupError "authorized DNS resolver capacity is exhausted")
  | NotStarted => Err (BrowserEgressStartupError "authorized DNS resolver could not start")
  | TimedOut => Err (BrowserEgressStartupError "authorized DNS resolution timed out")
  | ResolverFailed => Err (BrowserEgressStartupError "authorized DNS resolution failed")
  | Answers value =>
      raise (BrowserEgressStartupError "authorized DNS resolution returned an invalid answer count")
        when negb ((1 <=? length value)%nat && (length value <=? _MAX_DNS_ANSWERS)%nat);;
      let* checked := check_answers value in
      raise (BrowserEgressStartupError "authorized DNS resolution was empty")
        when match checked with [] => true | _ => false end;;
      Ok (merge_sort key_le checked)
  end.

Context `{Unicode}.

(** [urlsplit(origin).hostname or ""] *)
Definition origin_hostname (origin : string) : res string :=
  let* parsed := urlsplit origin in Ok (default "" (hostname_of (p_netloc parsed))).

Definition _pre_resolve (resolver : string -> resolution) (origins : list string)
    : res (list (string * list string)) :=
  let* names := map_res origin_hostname origins in
  map_res (fun hostname => let* checked := pin_one (resolver hostname) in Ok (hostname, checked))
    (sort_strs (dedup_strs names)).

(** ** Facts *)

(** The ranges, spelled out as numbers: nothing below may be a pinned address. *)
Definition special_v4 : list (Z * Z) :=
  [(0, 0xffffff); (0x0a000000, 0x0affffff); (0x64400000, 0x647fffff); (0x7f000000, 0x7fffffff);
   (0xa9fe0000, 0xa9feffff); (0xac100000, 0xac1fffff); (0xc0000000, 0xc00000ff); (0xc0000200, 0xc00002ff);
   (0xc0586300, 0xc05863ff); (0xc0a80000, 0xc0a8ffff); (0xc6120000, 0xc613ffff); (0xc6336400, 0xc63364ff);
   (0xcb007100, 0xcb0071ff); (0xe0000000, 0xefffffff); (0xf0000000, 0xffffffff)].
Definition special_v6 : list (Z * Z) :=
  [(0x20010000 * 2 ^ 96, 0x20010200 * 2 ^ 96 - 1); (0x20010db8 * 2 ^ 96, 0x20010db9 * 2 ^ 96 - 1);
   (0x2002 * 2 ^ 112, 0x2003 * 2 ^ 112 - 1); (0x3fff0 * 2 ^ 108, 0x3fff1 * 2 ^ 108 - 1)].

Definition public (a : ip) : Prop :=
  match a with
  | V4 n => Forall (fun r => ~ (fst r <= n <= snd r)) special_v4
  | V6 n _ => 0x2000 * 2 ^ 112 <= n < 0x4000 * 2 ^ 112 /\ Forall (fun r => ~ (fst r <= n <= snd r)) special_v6
  end.

(** Evaluate the texts and powers of the tables in a hypothesis. *)
Ltac eval_tables H :=
  repeat match type of H with
  | context[ip_address ?s] => let v := eval vm_compute in (ip_address s) in change (ip_address s) with v in H
  | context[2 ^ (?w - ?p)] => let v := eval vm_compute in (2 ^ (w - p)) in change (2 ^ (w - p)) with v in H
  | context[Zpos ?n / Zpos ?m] => let v := eval vm_compute in (Zpos n / Zpos m) in change (Zpos n / Zpos m) with v in H
  | context[0 / Zpos ?m] => change (0 / Zpos m) with 0 in H
  end.

Ltac split_tables H :=
  repeat (apply orb_false_iff in H as [?Hn H]); clear H;
  repeat match goal with Hn : (_ =? _) = false |- _ => apply Z.eqb_neq in Hn end.

Lemma prefix_out m k q lo hi : 0 < k -> lo = q * k -> hi = q * k + k - 1 -> m / k <> q -> ~ (lo <= m <= hi).
Proof. intros Hk -> -> Hq Hr. apply Hq. symmetry. apply (Z.div_unique m k q (m - q * k)); lia. Qed.

Ltac out_of_range :=
  cbn [fst snd];
  match goal with
  | H : ?m / ?k <> ?q |- ~ (_ <= ?m <= _) => apply (prefix_out m k q); [done|reflexivity|reflexivity|exact H]
  end.

Lemma public_of_tables a :
  is_v6 a && negb (in_network a _IPV6_GLOBAL_UNICAST) = false ->
  existsb (in_network a) _NON_PUBLIC_NETWORKS = false -> public a.
Proof.
  destruct a as [n|n scope]; unfold _IPV6_GLOBAL_UNICAST, _NON_PUBLIC_NETWORKS; intros Hg Hn;
    cbn [existsb in_network is_v6 andb] in Hg, Hn; eval_tables Hn; eval_tables Hg; cbn [public].
  - split_tables Hn. repeat constructor; out_of_range.
  - apply negb_false_iff, Z.eqb_eq in Hg. split_tables Hn. split; [|repeat constructor; out_of_range].
    clear -Hg. rewrite Z.div_same in Hg by done. match type of Hg with _ / ?k = _ => pose proof (Z.div_mod n k ltac:(done)); pose proof (Z.mod_pos_bound n k ltac:(done)) end.
    change (0x2000 * 2 ^ 112) with (2 ^ 125). change (0x4000 * 2 ^ 112) with (2 ^ 126). lia.
Qed.

Lemma public_address_inv v s :
  _validate_public_address v = Ok s -> exists a, ip_address s = Some a /\ public a.
Proof.
  unfold _validate_public_address. intros (c & _ & Hc)%bind_ok. destruct (ip_address c) as [a|] eqn:Ha; [|done].
  run_inv. subst. exists a. split; [done|]. by apply public_of_tables.
Qed.

(** Every pinned address was accepted, and nothing is pinned twice. *)
Lemma check_answers_ok value : forall acc l,
  foldM (fun checked answer =>
           match _validate_public_address answer with
           | Ok validated => Ok (if mem validated checked then checked else checked ++ [validated])
           | Err _ => Err (BrowserEgressStartupError "authorized DNS resolution returned an unsafe answer")
           end) value acc = Ok l ->
  NoDup acc -> NoDup l /\ (forall s, In s l <-> In s acc \/ exists v, In v value /\ _validate_public_address v = Ok s) /\
  Forall (fun v => exists s, _validate_public_address v = Ok s) value.
Proof.
  induction value as [|v value IH]; intros acc l; cbn [foldM].
  - intros ->%Ok_inj Hd. split_and!; [done| |constructor]. intros s. split; [by left|]. by intros [?|(v & [] & _)].
  - destruct (_validate_public_address v) as [x|] eqn:Hv; [|done]. cbn [mbind res_bind]. intros Hl Hd.
    apply IH in Hl as (Hd' & Hin & Hall).
    + split_and!; [done| |constructor; [by exists x|done]]. intros s. rewrite Hin. destruct (mem x acc) eqn:Hm.
      * apply mem_In in Hm. split; [intros [?|(w & ? & ?)]; [by left|right; exists w; split; [by right|done]]|].
        intros [?|(w & [<-|?] & Hw)]; [by left|left; congruence|right; by exists w].
      * rewrite in_app_iff. cbn [In]. split.
        -- intros [[?|[<-|[]]]|(w & ? & ?)]; [by left|right; exists v; split; [by left|done]|].
           right. exists w. split; [by right|done].
        -- intros [?|(w & [<-|?] & Hw)]; [by left; left|left; right; left; congruence|right; by exists w].
    + destruct (mem x acc) eqn:Hm; [done|]. apply NoDup_app. split_and!; [done| |apply NoDup_singleton].
      intros y Hy ->%list_elem_of_singleton. apply list_elem_of_In, mem_In in Hy. congruence.
Qed.

Lemma pin_one_ok r l :
  pin_one r = Ok l ->
  exists value, r = Answers value /\ (1 <= length value <= _MAX_DNS_ANSWERS)%nat /\ l <> [] /\ NoDup l /\
    Forall (fun v => exists s, _validate_public_address v = Ok s) value /\
    forall s, In s l <-> exists v, In v value /\ _validate_public_address v = Ok s.
Proof.
  destruct r as [| | | |value]; try done. cbn [pin_one]. intros Hl. run_inv. subst l.
  match goal with Hc : check_answers value = Ok ?c |- _ =>
    apply check_answers_ok in Hc as (Hd & Hin & Hall); [rename c into checked|constructor] end.
  exists value. split_and!; try done; try by apply Nat.leb_le.
  - intros Hm. pose proof (merge_sort_Permutation key_le checked) as Hp. rewrite Hm in Hp.
    apply Permutation_nil_l in Hp. by subst checked.
  - by rewrite merge_sort_Permutation.
  - intros s. rewrite <- list_elem_of_In, merge_sort_Permutation, list_elem_of_In, Hin. cbn [In]. naive_solver.
Qed.

Lemma pre_resolve_ok (resolver : string -> resolution) (origins : list string)
    (pinned : list (string * list string)) :
  _pre_resolve resolver origins = Ok pinned ->
  (forall o, In o origins -> exists h l, origin_hostname o = Ok h /\ In (h, l) pinned) /\
  forall h l, In (h, l) pinned ->
    exists value, resolver h = Answers value /\ l <> [] /\ NoDup l /\
      Forall (fun v => exists s, _validate_public_address v = Ok s /\ In s l) value /\
      Forall (fun s => exists v a, In v value /\ _validate_public_address v = Ok s /\ ip_address s = Some a /\ public a) l.
Proof.
  unfold _pre_resolve. intros Hp. apply bind_ok in Hp as (names & Hn & Hp). split.
  - intros o Ho. apply map_res_ok in Hn.
    apply list_elem_of_In, list_elem_of_lookup in Ho as [i Hi].
    destruct (Forall2_lookup_l _ _ _ _ _ Hn Hi) as (h & Hh & Ho).
    assert (Hin : In h (sort_strs (dedup_strs names))).
    { apply list_elem_of_In. rewrite sort_strs_perm. unfold dedup_strs.
      rewrite elem_of_remove_dups. by eapply list_elem_of_lookup_2. }
    apply list_elem_of_In, list_elem_of_lookup in Hin as [j Hj].
    apply map_res_ok in Hp. destruct (Forall2_lookup_l _ _ _ _ _ Hp Hj) as ([h' l] & Hjl & Hl). run_inv.
    match goal with He : (_, _) = (_, _) |- _ => injection He as -> _ end.
    exists h', l. split; [done|]. apply list_elem_of_In. by eapply list_elem_of_lookup_2.
  - intros h l (h' & _ & Hl)%(map_res_In _ _ _ _ Hp). run_inv.
    match goal with He : (_, _) = (_, _) |- _ => injection He as <- <- end.
    match goal with Hc : pin_one _ = Ok _ |- _ => apply pin_one_ok in Hc as (value & Hr & _ & Hne & Hd & Hall & Hin) end.
    exists value. split_and!; try done; apply List.Forall_forall.
    + intros v Hv. rewrite List.Forall_forall in Hall. destruct (Hall v Hv) as [s Hs]. exists s. split; [done|].
      apply Hin. by exists v.
    + intros s (v & Hv & Hs)%Hin. destruct (public_address_inv _ _ Hs) as (a & Ha & Hpub). by exists v, a.
Qed.

(** Only public addresses are pinned, and a mixed answer is refused as a
    whole.  When resolution succeeds, every authorized origin's host name has a
    non-empty list of at most sixteen distinct addresses; they are exactly the
    canonical forms of the resolver's answers, every answer was accepted, and
    each of them is a unicast address outside every special-purpose range, for
    IPv6 inside 2000::/3, whatever the tables of the Python release say. *)
Theorem pinned_addresses_public (resolver : string -> resolution) (origins : list string)
    (pinned : list (string * list string)) :
  _pre_resolve resolver origins = Ok pinned ->
  (forall o, In o origins -> exists h l, origin_hostname o = Ok h /\ In (h, l) pinned) /\
  forall h l, In (h, l) pinned ->
    exists value, resolver h = Answers value /\ l <> [] /\ NoDup l /\
      Forall (fun v => exists s, _validate_public_address v = Ok s /\ In s l) value /\
      Forall (fun s => exists v a, In v value /\ _validate_public_address v = Ok s /\ ip_address s = Some a /\ public a) l.
Proof. apply pre_resolve_ok. Qed.

End release.

(** ** Limits *)
Definition _MAX_CONFIGURED_CONNECTIONS : Z := 4096.
Definition _MAX_CONFIGURED_CONCURRENCY : Z := 128.
Definition _MAX_CONFIGURED_HEADER_BYTES : Z := 256 * 1024.
Definition _MAX_CONFIGURED_HEADER_COUNT : Z := 512.
Definition _MAX_CONFIGURED_EVENT_COUNT : Z := 100000.

Record ProxyLimits := mk_limits {
  max_connections : pyval;
  max_concurrent_connections : pyval;
  max_header_bytes : pyval;
  max_header_count : pyval;
  max_events : pyval;
  resolve_timeout_sec : pyval;
  connect_timeout_sec : pyval;
  idle_timeout_sec : pyval;
}.

Definition default_limits : ProxyLimits :=
  mk_limits (VInt 64) (VInt 8) (VInt (32 * 1024)) (VInt 100) (VInt 1024)
    (VFloat (FFin 5 1)) (VFloat (FFin 5 1)) (VFloat (FFin 5 1)).

(** [not 0.01 <= float(value) <= 60.0]; the literal is the binary64 nearest to 0.01. *)
Definition bad_timeout (value : pyval) : res bool :=
  match value with
  | VInt z => if 2 ^ 1024 - 2 ^ 970 <=? Z.abs z then Err OverflowError else Ok (negb (in_range 1 60 z))
  | VFloat (FFin n d) =>
      Ok (negb ((5764607523034235 * Zpos d <=? n * 2 ^ 59) && (n <=? 60 * Zpos d)))
  | _ => Ok true
  end.

Definition integer_bounds (l : ProxyLimits) : list (string * pyval * Z * Z) :=
  [("max_connections", max_connections l, 1, _MAX_CONFIGURED_CONNECTIONS);
   ("max_concurrent_connections", max_concurrent_connections l, 1, _MAX_CONFIGURED_CONCURRENCY);
   ("max_header_bytes", max_header_bytes l, 1024, _MAX_CONFIGURED_HEADER_BYTES);
   ("max_header_count", max_header_count l, 1, _MAX_CONFIGURED_HEADER_COUNT);
   ("max_events", max_events l, 1, _MAX_CONFIGURED_EVENT_COUNT)].

Definition limits_post_init (l : ProxyLimits) : res unit :=
  let* _ := foldM (fun _ b =>
      let '(name, value, minimum, maximum) := b in
      raise (BrowserEgressConfigurationError
               (name +:+ " must be an integer in " +:+ dec minimum +:+ ".." +:+ dec maximum))
        when negb (int_in minimum maximum value);;
      Ok tt) (integer_bounds l) tt in
  raise (BrowserEgressConfigurationError "max_concurrent_connections cannot exceed max_connections")
    when int_of (max_connections l) <? int_of (max_concurrent_connections l);;
  foldM (fun _ b =>
      let '(name, value) := b in
      raise (BrowserEgressConfigurationError (name +:+ " must be numeric in 0.01..60.0")) when bad_timeout value;;
      Ok tt)
    [("resolve_timeout_sec", resolve_timeout_sec l); ("connect_timeout_sec", connect_timeout_sec l);
     ("idle_timeout_sec", idle_timeout_sec l)] tt.

(** ** Witness *)
Definition sample_release : IpRelease :=
  {| is_global := fun _ => true; is_private := fun _ => false; is_loopback := fun _ => false;
     is_link_local := fun _ => false; is_multicast := fun _ => false; is_reserved := fun _ => false;
     is_unspecified := fun _ => false; dotted_mapped := false |}.
Definition sample_resolver (h : string) : resolution :=
  Answers [VStr "2606:2800:220:1:248:1893:25c8:1946"; VStr "93.184.216.34"; VStr "::ffff:93.184.216.34"].
Definition sample_pinned : list (string * list string) :=
  [("a.example.com", ["93.184.216.34"; "2606:2800:220:1:248:1893:25c8:1946"])].

Lemma pinned_addresses_public_witness :
  @_pre_resolve sample_release ascii_unicode sample_resolver ["https://a.example.com"] = Ok sample_pinned /\
  forall h l, In (h, l) sample_pinned -> l <> [].
Proof.
  assert (Hp : @_pre_resolve sample_release ascii_unicode sample_resolver ["https://a.example.com"] = Ok sample_pinned)
    by (vm_compute; reflexivity).
  split; [exact Hp|]. intros h l Hl.
  destruct (@pinned_addresses_public sample_release ascii_unicode _ _ _ Hp) as [_ H].
  destruct (H h l Hl) as (value & _ & Hne & _). exact Hne.
Defined.

End EgressAddress.
