(* ===== verification/EgressRequest.v ===== *)
(** * Requests of the egress proxy: broker/browser_egress_proxy.py

    The head of a request is parsed, its target is authorized against the
    policies, and a plain request is rebuilt for the upstream.  Everything here is
    pure; [EgressProxy] runs it in the handler threads. *)

From stdpp Require Import base list strings.
From Stdlib Require Import ZArith Lia.
From S2P Require Import Prelude PyValue Json StrOps Ip Url UrlFacts BrowserContract BrowserEvidence EgressAddress.

Local Open Scope Z_scope.

Module EgressRequest.
Import BrowserEvidence EgressAddress.

Definition _MAX_REQUEST_LINE_BYTES : nat := 8192.

Definition is_header_name_byte (c : Ascii.ascii) : bool :=
  is_digit c || is_upper c || is_lower c ||
  existsb (fun z => ch z c) [33; 35; 36; 37; 38; 39; 42; 43; 45; 46; 94; 95; 96; 124; 126].

Definition _FORWARDED_REQUEST_HEADERS : list string :=
  ["accept"; "accept-encoding"; "accept-language"; "cache-control"; "cookie"; "dnt"; "if-modified-since";
   "if-none-match"; "pragma"; "range"; "referer"; "sec-ch-ua"; "sec-ch-ua-mobile"; "sec-ch-ua-platform";
   "sec-fetch-dest"; "sec-fetch-mode"; "sec-fetch-site"; "sec-fetch-user"; "upgrade-insecure-requests";
   "user-agent"].
Definition _REJECTED_REQUEST_HEADERS : list string :=
  ["authorization"; "content-length"; "expect"; "proxy-authorization"; "te"; "trailer"; "transfer-encoding";
   "upgrade"].
Definition _REASON_CODES : list string :=
  ["completed"; "client_closed"; "malformed_request"; "header_limit"; "method_blocked"; "unauthorized_origin";
   "unauthorized_client"; "request_body_blocked"; "connection_limit"; "concurrency_limit"; "event_limit";
   "byte_limit"; "deadline"; "upstream_failure"; "peer_mismatch"; "proxy_closed"].

(** ** Exceptions of a handler *)
Record rejection := mk_rejection {
  status : Z;
  reason_code : string;
  rej_web_origin : option string;
  rej_connect_authority : option string;
  response_started : bool;
  egress_performed : bool;
}.

(** [OsError] is [OSError] without its subclass [socket.timeout]; [Failure] is
    any other [Exception], an [AssertionError] included. *)
Inductive exc :=
  | Rejection (r : rejection)
  | OsError
  | SocketTimeout
  | Failure (e : option exn).

Inductive outcome (A : Type) := Return (a : A) | Raise (e : exc).
Arguments Return {A} a.
Arguments Raise {A} e.

#[global] Instance outcome_ret : MRet outcome := @Return.
#[global] Instance outcome_bind : MBind outcome := fun A B k m =>
  match m with Return a => k a | Raise e => Raise e end.

(** The constructor of [_ProxyRejection] *)
Definition _ProxyRejection (status : Z) (reason_code : string) (web_origin connect_authority : option string)
    (response_started egress_performed : bool) : exc :=
  if mem reason_code _REASON_CODES
  then Rejection (mk_rejection status reason_code web_origin connect_authority response_started egress_performed)
  else Failure None.

(** [raise _ProxyRejection(status, reason_code)], with an origin, with an authority *)
Definition reject {A} (status : Z) (reason_code : string) : outcome A :=
  Raise (_ProxyRejection status reason_code None None false false).
Definition reject_origin {A} (status : Z) (reason_code : string) (web_origin : option string) : outcome A :=
  Raise (_ProxyRejection status reason_code web_origin None false false).
Definition reject_authority {A} (status : Z) (reason_code authority : string) : outcome A :=
  Raise (_ProxyRejection status reason_code None (Some authority) false false).

Definition of_res {A} (r : res A) : outcome A := match r with Ok a => Return a | Err e => Raise (Failure (Some e)) end.

(** ** Parsing *)

(** [b.split(b"\r\n")] *)
Fixpoint split_crlf (s : string) : list string :=
  match s with
  | EmptyString => [""]
  | String c r =>
      match r with
      | String d r' =>
          if ch 13 c && ch 10 d then "" :: split_crlf r'
          else match split_crlf r with p :: ps => String c p :: ps | [] => [String c ""] end
      | EmptyString => [String c ""]
      end
  end.

Definition is_blank (c : Ascii.ascii) : bool := ch 32 c || ch 9 c.

(** [b.strip(b" \t")] *)
Fixpoint lstrip_blank (s : string) : string :=
  match s with String c r => if is_blank c then lstrip_blank r else s | EmptyString => "" end.
Fixpoint rstrip_blank (s : string) : string :=
  match s with
  | EmptyString => ""
  | String c r =>
      match rstrip_blank r with
      | EmptyString => if is_blank c then "" else String c ""
      | r' => String c r'
      end
  end.
Definition strip_blank (s : string) : string := rstrip_blank (lstrip_blank s).

Definition bad_name (raw_name : string) : bool :=
  String.eqb raw_name "" || (64 <? String.length raw_name)%nat || negb (str_forall is_header_name_byte raw_name).
Definition bad_value (value : string) : bool :=
  str_exists (fun c => (byte_of c <? 32) && negb (ch 9 c)) value || has_char 127 value.

(** One line of the headers, added to those before it. *)
Definition parse_header (headers : list (string * string)) (line : string) : outcome (list (string * string)) :=
  if String.eqb line "" || first_is is_blank line || negb (has_char 58 line) then reject 400 "malformed_request"
  else
    let '(raw_name, _, raw_value) := partition 58 line in
    if bad_name raw_name then reject 400 "malformed_request"
    else
      let name := ascii_lower raw_name in
      if has_key name headers then reject 400 "malformed_request"
      else
        let value := strip_blank raw_value in
        if bad_value value then reject 400 "malformed_request"
        else Return (headers ++ [(name, value)]).

Fixpoint parse_headers (headers : list (string * string)) (lines : list string) : outcome (list (string * string)) :=
  match lines with
  | [] => Return headers
  | line :: rest => headers ← parse_header headers line; parse_headers headers rest
  end.

Definition _parse_request (max_header_count : Z) (head : string)
    : outcome (string * string * list (string * string)) :=
  match split_crlf head with
  | [] => reject 400 "malformed_request"
  | first :: lines =>
      if (_MAX_REQUEST_LINE_BYTES <? String.length first)%nat then reject 400 "malformed_request"
      else if max_header_count <? Z.of_nat (length lines) then reject 431 "header_limit"
      else
        match split 32 first with
        | [method; target; version] =>
            if existsb (String.eqb "") [method; target; version] then reject 400 "malformed_request"
            else if negb (forallb isascii [method; target; version]) then reject 400 "malformed_request"
            else if negb (String.eqb version "HTTP/1.1") then reject 400 "malformed_request"
            else
              headers ← parse_headers [] lines;
              if negb (has_key "host" headers) then reject 400 "malformed_request"
              else if existsb (fun k => mem k _REJECTED_REQUEST_HEADERS) (keys headers)
              then reject 403 "request_body_blocked"
              else Return (method, target, headers)
        | _ => reject 400 "malformed_request"
        end
  end.

(** ** Policies *)
Record OriginPolicy := mk_policy {
  origin : string;
  scheme : string;
  hostname : string;
  port : Z;
  addresses : list string;
}.

Definition policies_t : Type := list (string * OriginPolicy).

Section unicode.
Context `{Unicode}.

Definition _origin_policy (origin : string) (addresses : list string) : res OriginPolicy :=
  let* parsed := urlsplit origin in
  match hostname_of (p_netloc parsed) with
  | None => Err (BrowserEgressConfigurationError "authorized origin has no hostname")
  | Some hostname =>
      let* explicit := port_of (p_netloc parsed) in
      let default_port := if String.eqb (p_scheme parsed) "https" then 443 else 80 in
      let port := match explicit with Some p => if p =? 0 then default_port else p | None => default_port end in
      Ok (mk_policy origin (p_scheme parsed) hostname port addresses)
  end.

(** ** Authorization *)
Definition _origin_from_absolute_target (target : string) : outcome (option string) :=
  match normalize_url (VStr target) with
  | Err (BrowserContractError _) => Return None
  | Err e => Raise (Failure (Some e))
  | Ok normalized =>
      of_res (let* parsed := urlsplit normalized in
              let* o := normalize_origin (VStr (p_scheme parsed +:+ "://" +:+ p_netloc parsed)) in Ok (Some o))
  end.

(** The destination a blocked request with a plain HTTP target is reported with. *)
Definition http_origin_of (target : string) : outcome (option string) :=
  o ← _origin_from_absolute_target target;
  match o with
  | None => Return None
  | Some o => of_res (let* s := scheme_of o in Ok (if String.eqb s "http" then Some o else None))
  end.

(** The origin the [Host] header names, [None] when it names none. *)
Definition host_origin (scheme host_header : string) : outcome (option string) :=
  if negb (isascii host_header) then Return None
  else match normalize_origin (VStr (scheme +:+ "://" +:+ host_header)) with
       | Ok o => Return (Some o)
       | Err e => if is_value_error e then Return None else Raise (Failure (Some e))
       end.

Definition _authorized_http_policy (policies : policies_t) (target host_header : string)
    : outcome (OriginPolicy * string) :=
  match (let* normalized := normalize_url (VStr target) in
         let* parsed := urlsplit normalized in
         let* o := normalize_origin (VStr (p_scheme parsed +:+ "://" +:+ p_netloc parsed)) in
         Ok (normalized, parsed, o)) with
  | Err e => if is_value_error e then reject 400 "malformed_request" else Raise (Failure (Some e))
  | Ok (normalized, parsed, o) =>
      if negb (String.eqb (p_scheme parsed) "http") then reject 403 "unauthorized_origin"
      else
        match assoc o policies with
        | Some policy =>
            if negb (String.eqb (scheme policy) "http") then reject_origin 403 "unauthorized_origin" (Some o)
            else
              h ← host_origin "http" host_header;
              match h with
              | None => reject_origin 400 "malformed_request" (Some o)
              | Some h =>
                  if String.eqb h o then Return (policy, normalized)
                  else reject_origin 403 "unauthorized_origin" (Some o)
              end
        | None => reject_origin 403 "unauthorized_origin" (Some o)
        end
  end.

(** [int(raw_port)] of ASCII digits *)
Definition int_of_port (raw_port : string) : outcome Z :=
  if (MAX_STR_DIGITS <? String.length raw_port)%nat then Raise (Failure (Some (ValueError "Exceeds the limit")))
  else Return (digits_value 0 raw_port).

Definition _connect_authority (policies : policies_t) (target host_header : string)
    : outcome (OriginPolicy * string) :=
  if negb (count_char 58 target =? 1) then reject 400 "malformed_request"
  else
    let '(raw_host, _, raw_port) := rpartition 58 target in
    if String.eqb raw_host "" || String.eqb raw_port "" || negb (str_forall is_digit raw_port)
    then reject 400 "malformed_request"
    else
      p ← int_of_port raw_port;
      if negb (in_range 1 65535 p) then reject 400 "malformed_request"
      else
        match normalize_origin (VStr ("https://" +:+ raw_host +:+ ":" +:+ dec p)) with
        | Err (BrowserContractError _) => reject 400 "malformed_request"
        | Err e => Raise (Failure (Some e))
        | Ok o =>
            parsed ← of_res (urlsplit o);
            match hostname_of (p_netloc parsed) with
            | None => reject 400 "malformed_request"
            | Some hostname =>
                let authority := hostname +:+ ":" +:+ dec p in
                match assoc o policies with
                | None => reject_authority 403 "unauthorized_origin" authority
                | Some policy =>
                    if negb (String.eqb (scheme policy) "https") || negb (port policy =? p)
                    then reject_authority 403 "unauthorized_origin" authority
                    else
                      h ← host_origin "https" host_header;
                      match h with
                      | None => reject_authority 400 "malformed_request" authority
                      | Some h =>
                          if String.eqb h o then Return (policy, authority)
                          else reject_authority 403 "unauthorized_origin" authority
                      end
                end
            end
        end.

(** ** The request sent upstream *)
Definition crlf : string := String (ascii_of 13) (String (ascii_of 10) "").

Definition forwarded_names (headers : list (string * string)) : list string :=
  sort_strs (List.filter (fun k => mem k _FORWARDED_REQUEST_HEADERS) (keys headers)).

Definition host_authority (policy : OriginPolicy) : string :=
  if port policy =? 80 then hostname policy else hostname policy +:+ ":" +:+ dec (port policy).

Definition header_line (name value : string) : string := name +:+ ": " +:+ value +:+ crlf.

Definition outbound_text (method request_target authority : string) (forwarded : list (string * string)) : string :=
  method +:+ " " +:+ request_target +:+ " HTTP/1.1" +:+ crlf +:+ header_line "Host" authority
  +:+ String.concat "" (map (fun kv => header_line (fst kv) (snd kv)) forwarded)
  +:+ header_line "Connection" "close" +:+ crlf.

(** The method is GET or HEAD, and [normalized] the text of a canonical URL. *)
Definition outbound (policy : OriginPolicy) (method normalized : string) (headers : list (string * string))
    : outcome string :=
  parsed ← of_res (urlsplit normalized);
  let path := if String.eqb (p_path parsed) "" then "/" else p_path parsed in
  let request_target := path +:+ (if String.eqb (p_query parsed) "" then "" else "?" +:+ p_query parsed) in
  Return (outbound_text method request_target (host_authority policy)
            (map (fun k => (k, default "" (assoc k headers))) (forwarded_names headers))).

End unicode.
End EgressRequest.
