(* ===== verification/EgressProxy.v ===== *)
(** * The egress proxy: broker/browser_egress_proxy.py

    Handler threads share the byte budget, the event table and the registries of
    the proxy.  A handler is a program over calls: a call either runs one locked
    section of the source on the shared state, in one atomic step, or asks the
    outside world (sockets, the clock), which answers as it likes.  Threads
    interleave at calls.  Exceptions and the handler's local variables are the
    monad the handler's code is written in. *)

From stdpp Require Import base list strings gmap relations sorting.
From Stdlib Require Import ZArith QArith Lia.
From S2P Require Import Prelude PyValue Json StrOps Ip Url UrlFacts BrowserContract BrowserEvidence.
From S2P Require Import EgressAddress EgressRequest.

Local Open Scope Z_scope.

(** Readings of the monotonic clock; [reached d now] is [d - now <= 0]. *)
Class MonotonicClock := {
  moment : Type;
  plus_sec : moment -> pyval -> moment;
  reached : moment -> moment -> bool;
}.

Module EgressProxy.
Import BrowserEvidence EgressAddress EgressRequest.

Definition _IO_CHUNK_BYTES : Z := 64 * 1024.

(** ** Configuration, fixed at construction *)
Record config := mk_config {
  request : BrowserContract.probe_request;
  bind_host : string;
  address_family : Z;
  allowed_client_ip : string;
  bind_port : Z;
  limits : ProxyLimits;
  policies : policies_t;
  pinned_by_host : list (string * list string);
}.

Definition limit (f : ProxyLimits -> pyval) (c : config) : Z := int_of (f (limits c)).
Definition event_limit (c : config) : Z :=
  Z.min (limit max_events c) (BrowserContract.budget (request c) "max_events").
Definition max_network_bytes (c : config) : Z := BrowserContract.budget (request c) "max_network_bytes".

Section construction.
Context `{IpRelease} `{Unicode}.

Definition make_policies (pinned : list (string * list string)) (origins : list string) : res policies_t :=
  map_res (fun o =>
      let* h := origin_hostname o in
      match assoc h pinned with
      | None => Err KeyError
      | Some addresses => let* p := _origin_policy o addresses in Ok (o, p)
      end) origins.

(** [BrowserEgressProxy.__init__] *)
Definition new_proxy (request bind_host allowed_client_ip bind_port : pyval) (resolver : string -> resolution)
    (limits : ProxyLimits) : res config :=
  match BrowserContract.validate_probe_request request with
  | Err _ => Err (BrowserEgressConfigurationError "browser probe request is not valid")
  | Ok canonical =>
      raise (BrowserEgressConfigurationError "browser probe request must be canonical before proxy construction")
        when negb (py_eq (BrowserContract.request_val canonical) request);;
      let* bound := _canonical_bind_address bind_host in
      let* client := _canonical_client_address allowed_client_ip in
      raise (BrowserEgressConfigurationError "bind_port must be in 1..65535") when negb (int_in 1 65535 bind_port);;
      let* pinned := _pre_resolve resolver (BrowserContract.authorized_origins canonical) in
      let* policies := make_policies pinned (BrowserContract.authorized_origins canonical) in
      Ok (mk_config canonical (fst bound) (snd bound) client (int_of bind_port) limits policies pinned)
  end.

End construction.

(** ** Shared state *)
Record event := mk_event {
  ev_sequence : Z;
  ev_web_origin : option string;
  ev_connect_authority : option string;
  ev_disposition : string;
  ev_reason_code : string;
  client_to_origin_bytes : Z;
  origin_to_client_bytes : Z;
}.

Section proxy.
Context `{IpRelease} `{Unicode} `{MonotonicClock}.
Variable c : config.

(** Clients and upstreams are told apart by numbers, [id(socket)]. [forwarded]
    counts the bytes handed from one side to the other; [next_id] names sockets. *)
Record state := mk_state {
  used : Z;
  reserved : Z;
  events : gmap Z event;
  inflight : gset Z;
  event_overflow : bool;
  next_sequence : Z;
  connection_attempts : Z;
  listener_rejections : Z;
  concurrency : Z;
  thread_slots : Z;
  started_at : option moment;
  deadline : option moment;
  closed : bool;
  active_clients : gset N;
  active_upstreams : gset N;
  forwarded : Z;
  next_id : N;
}.

Definition initial : state :=
  mk_state 0 0 ∅ ∅ false 0 0 0 (limit max_concurrent_connections c) (limit max_concurrent_connections c)
    None None false ∅ ∅ 0 0%N.

(** *** The byte budget *)
Definition remaining (s : state) : Z := max_network_bytes c - used s - reserved s.

Definition set_budget (u r : Z) (s : state) : state :=
  mk_state u r (events s) (inflight s) (event_overflow s) (next_sequence s) (connection_attempts s)
    (listener_rejections s) (concurrency s) (thread_slots s) (started_at s) (deadline s) (closed s)
    (active_clients s) (active_upstreams s) (forwarded s) (next_id s).

(** [Some false] is the rejection, [None] an [AssertionError]. *)
Definition consume (count : Z) (s : state) : state * option bool :=
  if count <? 0 then (s, None)
  else if max_network_bytes c <? used s + reserved s + count then (s, Some false)
  else (set_budget (used s + count) (reserved s) s, Some true).

Definition reserve (maximum : Z) (s : state) : state * option (option Z) :=
  if maximum <=? 0 then (s, None)
  else
    let available := remaining s in
    if available <=? 0 then (s, Some None)
    else
      let reservation := Z.min maximum available in
      (set_budget (used s) (reserved s + reservation) s, Some (Some reservation)).

Definition commit_reservation (reservation actual : Z) (s : state) : state * bool :=
  if negb (in_range 0 reservation actual) then (s, false)
  else if reserved s <? reservation then (s, false)
  else (set_budget (used s + actual) (reserved s - reservation) s, true).

Definition cancel_reservation (reservation : Z) (s : state) : state * bool :=
  if reserved s <? reservation then (s, false)
  else (set_budget (used s) (reserved s - reservation) s, true).

(** *** Events and registries *)
Definition set_events (e : gmap Z event) (i : gset Z) (o : bool) (n : Z) (s : state) : state :=
  mk_state (used s) (reserved s) e i o n (connection_attempts s) (listener_rejections s) (concurrency s)
    (thread_slots s) (started_at s) (deadline s) (closed s) (active_clients s) (active_upstreams s)
    (forwarded s) (next_id s).

Definition set_counters (attempts rejections slots threads : Z) (s : state) : state :=
  mk_state (used s) (reserved s) (events s) (inflight s) (event_overflow s) (next_sequence s) attempts rejections
    slots threads (started_at s) (deadline s) (closed s) (active_clients s) (active_upstreams s) (forwarded s)
    (next_id s).

Definition set_runtime (st dl : option moment) (cl : bool) (s : state) : state :=
  mk_state (used s) (reserved s) (events s) (inflight s) (event_overflow s) (next_sequence s)
    (connection_attempts s) (listener_rejections s) (concurrency s) (thread_slots s) st dl cl
    (active_clients s) (active_upstreams s) (forwarded s) (next_id s).

Definition set_sockets (clients upstreams : gset N) (f : Z) (n : N) (s : state) : state :=
  mk_state (used s) (reserved s) (events s) (inflight s) (event_overflow s) (next_sequence s)
    (connection_attempts s) (listener_rejections s) (concurrency s) (thread_slots s) (started_at s) (deadline s)
    (closed s) clients upstreams f n.

Definition _reserve_event (s : state) : state * option Z :=
  if event_limit c <=? next_sequence s
  then (set_events (events s) (inflight s) true (next_sequence s) s, None)
  else (set_events (events s) ({[next_sequence s]} ∪ inflight s) (event_overflow s) (next_sequence s + 1) s,
        Some (next_sequence s)).

(** The locked section of [_finish_event]; [false] is its [AssertionError]. *)
Definition finish_locked (e : event) (s : state) : state * bool :=
  if bool_decide (ev_sequence e ∈ inflight s)
  then (set_events (<[ev_sequence e := e]> (events s)) (inflight s ∖ {[ev_sequence e]}) (event_overflow s)
          (next_sequence s) s, true)
  else (s, false).

(** [_begin_runtime] with the clock at [now]; [false] is [BrowserEgressClosed]. *)
Definition _begin_runtime (now : moment) (s : state) : state * bool :=
  if closed s then (s, false)
  else match started_at s with
       | Some _ => (s, true)
       | None =>
           (set_runtime (Some now)
              (Some (plus_sec now (VInt (BrowserContract.budget (request c) "wall_clock_sec")))) (closed s) s, true)
       end.

Definition enter_client (id : N) (s : state) : state * bool :=
  if closed s then (s, false)
  else (set_sockets ({[id]} ∪ active_clients s) (active_upstreams s) (forwarded s) (next_id s) s, true).
Definition leave_client (id : N) (s : state) : state :=
  set_sockets (active_clients s ∖ {[id]}) (active_upstreams s) (forwarded s) (next_id s) s.
Definition enter_upstream (id : N) (s : state) : state * bool :=
  if closed s then (s, false)
  else (set_sockets (active_clients s) ({[id]} ∪ active_upstreams s) (forwarded s) (next_id s) s, true).
Definition _release_upstream (id : N) (s : state) : state :=
  set_sockets (active_clients s) (active_upstreams s ∖ {[id]}) (forwarded s) (next_id s) s.

Definition count_attempt (s : state) : state * Z :=
  (set_counters (connection_attempts s + 1) (listener_rejections s) (concurrency s) (thread_slots s) s,
   connection_attempts s + 1).

(** [BoundedSemaphore.acquire(blocking=False)] and [release] *)
Definition acquire_slot (s : state) : state * bool :=
  if 0 <? concurrency s
  then (set_counters (connection_attempts s) (listener_rejections s) (concurrency s - 1) (thread_slots s) s, true)
  else (s, false).
Definition release_slot (s : state) : state * bool :=
  if concurrency s <? limit max_concurrent_connections c
  then (set_counters (connection_attempts s) (listener_rejections s) (concurrency s + 1) (thread_slots s) s, true)
  else (s, false).
Definition acquire_thread (s : state) : state * bool :=
  if 0 <? thread_slots s
  then (set_counters (connection_attempts s) (listener_rejections s) (concurrency s) (thread_slots s - 1) s, true)
  else (s, false).
Definition release_thread (s : state) : state * bool :=
  if thread_slots s <? limit max_concurrent_connections c
  then (set_counters (connection_attempts s) (listener_rejections s) (concurrency s) (thread_slots s + 1) s, true)
  else (s, false).

(** ** Calls of a handler *)
Inductive side := Client | Upstream.

(** What a socket operation can raise. *)
Inductive io_error := IoError | IoTimeout | IoFailure.
Definition io (A : Type) : Type := A + io_error.

(** [getpeername()] of an upstream: a tuple of at least two items, or not. *)
Inductive peername := NoPair | Pair (address port : pyval).

Inductive call :=
  (* locked sections *)
  | BeginRuntime | EnterClient (id : N) | LeaveClient (id : N) | ReserveEvent | FinishEvent (e : event)
  | CountAttempt | AcquireSlot | ReleaseSlot | ReleaseThread | ReadDeadline
  | Remaining | Consume (count : Z) | Reserve (maximum : Z) | Commit (reservation actual : Z) | Cancel (reservation : Z)
  | EnterUpstream (id : N) | LeaveUpstream (id : N)
  (* the outside *)
  | Clock | ClientPeer | RecvHead (size : Z) | Reply (text : string) | SetTimeout
  | Connect (address : string) (port : Z) | PeerOf (id : N) | CloseUpstream (id : N)
  | Recv (from : side) (size : Z) | Send (to : side) (data : string)
  | RegisterReaders | Select (client upstream : bool) | ShutdownWrite (to : side) | ShutdownClient | CloseClient.

Definition answer (k : call) : Type :=
  match k with
  | BeginRuntime | EnterClient _ | FinishEvent _ | AcquireSlot | ReleaseSlot | ReleaseThread => bool
  | Commit _ _ | Cancel _ | EnterUpstream _ => bool
  | LeaveClient _ | LeaveUpstream _ => unit
  | ReserveEvent => option Z
  | CountAttempt | Remaining => Z
  | ReadDeadline => bool * option moment
  | Consume _ => option bool
  | Reserve _ => option (option Z)
  | Clock => moment
  | ClientPeer => io (option string)
  | RecvHead _ | Recv _ _ => io string
  | Reply _ | SetTimeout | RegisterReaders | CloseUpstream _ | Send _ _ | ShutdownWrite _ | ShutdownClient | CloseClient => io unit
  | Connect _ _ => io N
  | PeerOf _ => io peername
  | Select _ _ => io (list side)
  end.

(** [Suspended] is a loop cut off after its bound: the thread takes no more steps. *)
Inductive prog (A : Type) :=
  | Ret (a : A)
  | Call (k : call) (next : answer k -> prog A)
  | Suspended.
Arguments Ret {A} a.
Arguments Call {A} k next.
Arguments Suspended {A}.

Fixpoint prog_bind {A B} (m : prog A) (f : A -> prog B) : prog B :=
  match m with
  | Ret a => f a
  | Call k next => Call k (fun x => prog_bind (next x) f)
  | Suspended => Suspended
  end.

(** ** The handler's monad *)

(** The variables of [handle_client] and the [_TransferCounts] it passes on. *)
Record locals := mk_locals {
  client_to_origin : Z;
  origin_to_client : Z;
  v_sequence : option Z;
  v_web_origin : option string;
  v_connect_authority : option string;
  v_disposition : string;
  v_reason_code : string;
  v_response_started : bool;
  v_acquired : bool;
  v_registered : bool;
}.

Definition fresh_locals : locals := mk_locals 0 0 None None None "blocked" "malformed_request" false false false.

Definition M (A : Type) : Type := locals -> prog (outcome A * locals).

Definition ret {A} (a : A) : M A := fun l => Ret (Return a, l).
Definition bindM {A B} (m : M A) (k : A -> M B) : M B := fun l =>
  prog_bind (m l) (fun r => match r with (Return a, l') => k a l' | (Raise e, l') => Ret (Raise e, l') end).
Local Notation "'let!' x := m 'in' k" := (bindM m (fun x => k))
  (at level 10, x binder, m at level 100, k at level 200).
Local Notation "m ;! k" := (bindM m (fun _ => k)) (at level 100, k at level 200, right associativity).

Definition throw {A} (e : exc) : M A := fun l => Ret (Raise e, l).
Definition pure {A} (o : outcome A) : M A := fun l => Ret (o, l).
Definition perform (k : call) : M (answer k) := fun l => Call k (fun x => Ret (Return x, l)).
Definition modify (f : locals -> locals) : M unit := fun l => Ret (Return tt, f l).
Definition readl {A} (f : locals -> A) : M A := fun l => Ret (Return (f l), l).
Definition suspend {A} : M A := fun _ => Suspended.

(** [try: m except e: h(e)], and [try: m finally: f] *)
Definition try_catch {A} (m : M A) (h : exc -> M A) : M A := fun l =>
  prog_bind (m l) (fun r => match r with (Return a, l') => Ret (Return a, l') | (Raise e, l') => h e l' end).
Definition try_finally {A} (m : M A) (f : M unit) : M A := fun l =>
  prog_bind (m l) (fun r =>
    prog_bind (f (snd r)) (fun r' =>
      match r' with (Return _, l') => Ret (fst r, l') | (Raise e, l') => Ret (Raise e, l') end)).

Definition io_exc (e : io_error) : exc :=
  match e with IoError => OsError | IoTimeout => SocketTimeout | IoFailure => Failure None end.
Definition io_value {A} (x : io A) : M A :=
  match x with inl a => ret a | inr e => throw (io_exc e) end.

(** [except (OSError, socket.timeout): pass] *)
Definition ignore_os (m : M unit) : M unit :=
  try_catch m (fun e => match e with OsError | SocketTimeout => ret tt | _ => throw e end).

Definition assert (b : bool) : M unit := if b then ret tt else throw (Failure None).

Definition rejected {A} (status : Z) (reason : string) : M A := pure (reject status reason).

(** ** Time and budget as a handler sees them *)
Definition _remaining_time : M unit :=
  let! d := perform ReadDeadline in
  if fst d then rejected 503 "proxy_closed"
  else match snd d with
       | None => throw (Failure None)
       | Some deadline =>
           let! now := perform Clock in
           if reached deadline now then rejected 504 "deadline" else ret tt
       end.

Definition _set_timeout : M unit := _remaining_time ;! let! x := perform SetTimeout in io_value x.

Definition add_counts (to_origin : bool) (n : Z) (l : locals) : locals :=
  mk_locals (if to_origin then client_to_origin l + n else client_to_origin l)
    (if to_origin then origin_to_client l else origin_to_client l + n)
    (v_sequence l) (v_web_origin l) (v_connect_authority l) (v_disposition l) (v_reason_code l)
    (v_response_started l) (v_acquired l) (v_registered l).

Definition size (s : string) : Z := Z.of_nat (String.length s).

Definition _consume_transfer (count : Z) (to_origin : bool) : M unit :=
  _remaining_time ;!
  let! x := perform (Consume count) in
  match x with
  | None => throw (Failure None)
  | Some false => rejected 503 "byte_limit"
  | Some true => modify (add_counts to_origin count)
  end.

Definition _recv_transfer (from : side) (to_origin : bool) : M string :=
  _remaining_time ;!
  let! x := perform (Reserve _IO_CHUNK_BYTES) in
  match x with
  | None => throw (Failure None)
  | Some None => rejected 503 "byte_limit"
  | Some (Some reservation) =>
      let! chunk := try_catch
        (_set_timeout ;! let! y := perform (Recv from reservation) in io_value y)
        (fun e => let! b := perform (Cancel reservation) in assert b ;! throw e) in
      let! b := perform (Commit reservation (size chunk)) in
      assert b ;!
      modify (add_counts to_origin (size chunk)) ;!
      _remaining_time ;! ret chunk
  end.

Definition send (to : side) (data : string) : M unit := let! x := perform (Send to data) in io_value x.

(** ** Connecting upstream *)

(** Where a request goes, as it is reported. *)
Inductive destination := ToOrigin (o : string) | ToAuthority (a : string).
Definition dest_origin (d : destination) : option string := match d with ToOrigin o => Some o | ToAuthority _ => None end.
Definition dest_authority (d : destination) : option string := match d with ToAuthority a => Some a | ToOrigin _ => None end.

Definition reject_to {A} (status : Z) (reason : string) (d : destination) (started performed : bool) : M A :=
  throw (_ProxyRejection status reason (dest_origin d) (dest_authority d) started performed).

(** The tests on the connected peer, as the exception they end in. *)
Definition check_peer (policy : OriginPolicy) (address : string) (peer : peername) : res unit :=
  match peer with
  | Pair a p =>
      raise (ValueError "peer address is missing") when negb (match p with VInt _ => true | _ => false end);;
      let* peer := _validate_public_address a in
      let* expected := _validate_public_address (VStr address) in
      raise (BrowserContractError "connected peer is not pinned")
        when negb (String.eqb peer expected) || negb (mem peer (addresses policy)) || negb (int_of p =? port policy);;
      Ok tt
  | NoPair => Err (ValueError "peer address is missing")
  end.

(** [except (BrowserContractError, TypeError, ValueError, OSError)] *)
Definition is_peer_error (e : exc) : bool :=
  match e with
  | OsError | SocketTimeout => true
  | Failure (Some TypeError) => true
  | Failure (Some x) => is_value_error x
  | _ => false
  end.

(** The connected peer is the pinned one, or the connection is dropped. *)
Definition confirm_peer (policy : OriginPolicy) (d : destination) (address : string) (upstream : N) : M unit :=
  try_catch
    (let! y := perform (PeerOf upstream) in
     let! peer := io_value y in
     pure (of_res (check_peer policy address peer)) ;! _remaining_time)
    (fun e =>
       if is_peer_error e
       then let! z := perform (CloseUpstream upstream) in io_value z ;! reject_to 502 "peer_mismatch" d false true
       else throw e).

Fixpoint connect_loop (policy : OriginPolicy) (d : destination) (l : list string) : M N :=
  match l with
  | [] => reject_to 502 "upstream_failure" d false false
  | address :: rest =>
      _remaining_time ;!
      let! x := perform (Connect address (port policy)) in
      match x with
      | inr IoError | inr IoTimeout => connect_loop policy d rest
      | inr IoFailure => throw (Failure None)
      | inl upstream =>
          confirm_peer policy d address upstream ;!
          let! b := perform (EnterUpstream upstream) in
          if b then ret upstream
          else
            ignore_os (let! z := perform (CloseUpstream upstream) in io_value z) ;!
            reject_to 503 "proxy_closed" d false true
      end
  end.

Definition _connect (policy : OriginPolicy) (connect_authority : option string) : M N :=
  let d := match connect_authority with None => ToOrigin (origin policy) | Some a => ToAuthority a end in
  let! r := perform Remaining in
  if r <=? 0 then reject_to 503 "byte_limit" d false false
  else connect_loop policy d (addresses policy).

(** The [finally] of both transfers: any [Exception] of [close] is dropped. *)
Definition release_upstream (upstream : N) : M unit :=
  perform (LeaveUpstream upstream) ;!
  try_catch (let! z := perform (CloseUpstream upstream) in io_value z) (fun _ => ret tt).

(** ** Plain HTTP *)

(** [while True: chunk = ...; if not chunk: break; client.sendall(chunk)] *)
Fixpoint response_loop (fuel : nat) (policy : OriginPolicy) : M unit :=
  match fuel with
  | O => suspend
  | S fuel' =>
      let! chunk := try_catch (_recv_transfer Upstream false)
        (fun e => match e with
                  | SocketTimeout =>
                      let! got := readl origin_to_client in
                      reject_to 504 "deadline" (ToOrigin (origin policy)) (0 <? got) false
                  | _ => throw e
                  end) in
      if String.eqb chunk "" then ret tt
      else _set_timeout ;! send Client chunk ;! response_loop fuel' policy
  end.

(** [exc.web_origin = ...; exc.response_started = ...; exc.egress_performed = True] *)
Definition mark_http (policy : OriginPolicy) (started : bool) (r : rejection) : exc :=
  let untyped := match rej_web_origin r, rej_connect_authority r with None, None => true | _, _ => false end in
  Rejection (mk_rejection (status r) (reason_code r)
    (if untyped then Some (origin policy) else rej_web_origin r) (rej_connect_authority r) started true).

Definition http_transfer (fuel : nat) (policy : OriginPolicy) (outbound : string) : M unit :=
  try_catch
    (_consume_transfer (size outbound) true ;! _set_timeout ;!
     send Upstream outbound ;! response_loop fuel policy)
    (fun e =>
       let! got := readl origin_to_client in
       match e with
       | Rejection r => throw (mark_http policy (0 <? got) r)
       | _ => reject_to 502 "upstream_failure" (ToOrigin (origin policy)) (0 <? got) true
       end).

Definition _handle_plain_http (fuel : nat) (method target : string) (headers : list (string * string)) : M string :=
  let! p := pure (_authorized_http_policy (policies c) target (default "" (assoc "host" headers))) in
  let '(policy, normalized) := p in
  let! text := pure (outbound policy method normalized headers) in
  let! upstream := _connect policy None in
  try_finally (http_transfer fuel policy text) (release_upstream upstream) ;!
  ret (origin policy).

(** ** CONNECT tunnels *)
Definition other (s : side) : side := match s with Client => Upstream | Upstream => Client end.
Definition to_origin_from (s : side) : bool := match s with Client => true | Upstream => false end.

(** Open readers and the time of the last chunk. *)
Record relay := mk_relay { open_client : bool; open_upstream : bool; last_activity : moment }.
Definition close_reader (s : side) (r : relay) : relay :=
  match s with
  | Client => mk_relay false (open_upstream r) (last_activity r)
  | Upstream => mk_relay (open_client r) false (last_activity r)
  end.
Definition active (now : moment) (r : relay) : relay := mk_relay (open_client r) (open_upstream r) now.

Definition deadline_to {A} (authority : string) : M A := reject_to 504 "deadline" (ToAuthority authority) true false.

(** [for key, _mask in events] *)
Fixpoint relay_events (authority : string) (l : list side) (r : relay) : M relay :=
  match l with
  | [] => ret r
  | source :: rest =>
      let! chunk := try_catch (_recv_transfer source (to_origin_from source))
        (fun e => match e with SocketTimeout => deadline_to authority | _ => throw e end) in
      if String.eqb chunk "" then
        ignore_os (let! x := perform (ShutdownWrite (other source)) in io_value x) ;!
        relay_events authority rest (close_reader source r)
      else
        _set_timeout ;! send (other source) chunk ;!
        let! now := perform Clock in
        relay_events authority rest (active now r)
  end.

Definition idle (r : relay) (now : moment) : bool :=
  reached (plus_sec (last_activity r) (idle_timeout_sec (limits c))) now.

Fixpoint relay_loop (fuel : nat) (authority : string) (r : relay) : M unit :=
  match fuel with
  | O => suspend
  | S fuel' =>
      if negb (open_client r) && negb (open_upstream r) then ret tt
      else
        _remaining_time ;!
        let! now := perform Clock in
        if idle r now then deadline_to authority
        else
          let! x := perform (Select (open_client r) (open_upstream r)) in
          let! events := io_value x in
          match events with
          | [] =>
              _remaining_time ;!
              let! now := perform Clock in
              if idle r now then deadline_to authority else relay_loop fuel' authority r
          | _ => let! r := relay_events authority events r in relay_loop fuel' authority r
          end
  end.

Definition _relay_tunnel (fuel : nat) (authority : string) : M unit :=
  let! x := perform RegisterReaders in
  io_value x ;!
  let! now := perform Clock in
  relay_loop fuel authority (mk_relay true true now).

Definition ESTABLISHED : string :=
  "HTTP/1.1 200 Connection Established" +:+ crlf +:+ "Proxy-Agent: Cindermote-Browser-Egress/1" +:+ crlf +:+ crlf.

Definition mark_tunnel (authority : string) (started : bool) (r : rejection) : exc :=
  Rejection (mk_rejection (status r) (reason_code r) None (Some authority) (started || response_started r) true).

(** What follows the reply, and the [except] clauses with [response_started] so far. *)
Definition tunnel_except {A} (authority : string) (started : bool) (m : M A) : M A :=
  try_catch m (fun e => match e with
    | Rejection r => throw (mark_tunnel authority started r)
    | _ => reject_to 502 "upstream_failure" (ToAuthority authority) started true
    end).

Definition tunnel_transfer (fuel : nat) (authority remainder : string) : M unit :=
  tunnel_except authority false (_set_timeout ;! let! x := perform (Reply ESTABLISHED) in io_value x) ;!
  tunnel_except authority true
    ((if String.eqb remainder "" then ret tt
      else _consume_transfer (size remainder) true ;! _set_timeout ;! send Upstream remainder) ;!
     _relay_tunnel fuel authority).

Definition _handle_connect (fuel : nat) (target : string) (headers : list (string * string)) (remainder : string)
    : M string :=
  let! p := pure (_connect_authority (policies c) target (default "" (assoc "host" headers))) in
  let '(policy, authority) := p in
  let! upstream := _connect policy (Some authority) in
  try_finally (tunnel_transfer fuel authority remainder) (release_upstream upstream) ;!
  ret authority.

(** ** One request *)

(** The head and the rest of [data] at the first blank line. *)
Definition blank_line : string := crlf +:+ crlf.
Fixpoint cut_head (data : string) : option (string * string) :=
  if startswith blank_line data then Some ("", String.substring 4 (String.length data - 4) data)
  else match data with
       | EmptyString => None
       | String a r => match cut_head r with Some (head, rest) => Some (String a head, rest) | None => None end
       end.

(** Every chunk adds a byte, so the limit on the head bounds the loop. *)
Fixpoint read_head_loop (fuel : nat) (data : string) : M (string * string) :=
  match fuel with
  | O => suspend
  | S fuel' =>
      match cut_head data with
      | Some cut => ret cut
      | None =>
          if limit max_header_bytes c <=? size data then rejected 431 "header_limit"
          else
            _set_timeout ;!
            let! x := perform (RecvHead (Z.min _IO_CHUNK_BYTES (limit max_header_bytes c - size data + 1))) in
            let! chunk := io_value x in
            if String.eqb chunk "" then rejected 400 "client_closed"
            else
              let data := data +:+ chunk in
              if limit max_header_bytes c <? size data then rejected 431 "header_limit"
              else read_head_loop fuel' data
      end
  end.

Definition _read_request_head : M (string * string) :=
  read_head_loop (S (Z.to_nat (limit max_header_bytes c) + 1)) "".

Definition _handle_request (fuel : nat) : M (option string * option string) :=
  let! h := _read_request_head in
  let '(head, remainder) := h in
  let! p := pure (_parse_request (limit max_header_count c) head) in
  let '(method, target, headers) := p in
  if String.eqb method "CONNECT" then
    let! a := _handle_connect fuel target headers remainder in ret (None, Some a)
  else if negb (mem method ["GET"; "HEAD"]) then
    let! o := pure (http_origin_of target) in pure (reject_origin 405 "method_blocked" o)
  else if negb (String.eqb remainder "") then
    let! o := pure (http_origin_of target) in pure (reject_origin 403 "request_body_blocked" o)
  else
    let! o := _handle_plain_http fuel method target headers in ret (Some o, None).

(** ** One client *)
Definition error_reason (status : Z) : string :=
  default "Forbidden" (list_find (fun p => fst p = status)
    [(400, "Bad Request"); (403, "Forbidden"); (405, "Method Not Allowed"); (431, "Request Header Fields Too Large");
     (502, "Bad Gateway"); (503, "Service Unavailable"); (504, "Gateway Timeout")] ≫= fun r => Some (snd (snd r))).

Definition error_response (status : Z) : string :=
  "HTTP/1.1 " +:+ dec status +:+ " " +:+ error_reason status +:+ crlf +:+ "Content-Length: 0" +:+ crlf
  +:+ "Cache-Control: no-store" +:+ crlf +:+ "Connection: close" +:+ crlf +:+ crlf.

Definition _safe_error (status : Z) : M unit :=
  ignore_os (let! x := perform SetTimeout in io_value x ;! let! y := perform (Reply (error_response status)) in io_value y).

Definition set_vars (sequence : option Z) (acquired registered : bool) (l : locals) : locals :=
  mk_locals (client_to_origin l) (origin_to_client l) sequence (v_web_origin l) (v_connect_authority l)
    (v_disposition l) (v_reason_code l) (v_response_started l) acquired registered.
Definition set_result (web_origin connect_authority : option string) (disposition reason : string) (started : bool)
    (l : locals) : locals :=
  mk_locals (client_to_origin l) (origin_to_client l) (v_sequence l) web_origin connect_authority disposition reason
    started (v_acquired l) (v_registered l).

(** [a or b] of optional texts *)
Definition or_text (a b : option string) : option string :=
  match a with Some s => if String.eqb s "" then b else Some s | None => b end.

Definition client_body (fuel : nat) (id : N) : M unit :=
  let! x := perform ClientPeer in
  match x with
  | inr _ => rejected 403 "unauthorized_client"
  | inl peer =>
      if negb (_peer_matches_allowed_client (allowed_client_ip c) peer) then rejected 403 "unauthorized_client"
      else
        let! begun := perform BeginRuntime in
        if negb begun then rejected 503 "proxy_closed"
        else
          let! entered := perform (EnterClient id) in
          if negb entered then rejected 503 "proxy_closed"
          else
            modify (set_vars None false true) ;!
            let! sequence := perform ReserveEvent in
            match sequence with
            | None => _safe_error 503
            | Some sequence =>
                modify (set_vars (Some sequence) false true) ;!
                let! attempt := perform CountAttempt in
                if limit max_connections c <? attempt then rejected 503 "connection_limit"
                else
                  let! acquired := perform AcquireSlot in
                  if negb acquired then rejected 503 "concurrency_limit"
                  else
                    modify (set_vars (Some sequence) true true) ;!
                    _remaining_time ;!
                    let! r := _handle_request fuel in
                    modify (set_result (fst r) (snd r) "allowed" "completed" false)
            end
  end.

Definition client_except (e : exc) : M unit :=
  match e with
  | Rejection r =>
      modify (fun l => set_result (or_text (rej_web_origin r) (v_web_origin l))
                         (or_text (rej_connect_authority r) (v_connect_authority l))
                         (if egress_performed r then "allowed" else v_disposition l) (reason_code r)
                         (response_started r) l) ;!
      if response_started r then ret tt else _safe_error (status r)
  | _ =>
      modify (fun l => set_result (v_web_origin l) (v_connect_authority l) (v_disposition l) "upstream_failure"
                         (v_response_started l) l) ;!
      let! started := readl v_response_started in
      if (started : bool) then ret tt else _safe_error 502
  end.

Definition _finish_event (sequence : Z) (l : locals) : M unit :=
  assert (mem (v_disposition l) ["allowed"; "blocked"]) ;!
  assert (mem (v_reason_code l) _REASON_CODES) ;!
  let! b := perform (FinishEvent (mk_event sequence (v_web_origin l) (v_connect_authority l) (v_disposition l)
                              (v_reason_code l) (client_to_origin l) (origin_to_client l))) in
  assert b.

Definition if_do (b : bool) (m : M unit) : M unit := if b then m else ret tt.

Definition client_finally (id : N) : M unit :=
  let! l := readl (fun l => l) in
  if_do (v_registered l) (perform (LeaveClient id)) ;!
  if_do (v_acquired l) (let! b := perform ReleaseSlot in assert b) ;!
  match v_sequence l with Some sequence => _finish_event sequence l | None => ret tt end ;!
  ignore_os (let! x := perform ShutdownClient in io_value x) ;!
  ignore_os (let! x := perform CloseClient in io_value x).

Definition handle_client (fuel : nat) (id : N) : M unit :=
  try_finally (try_catch (client_body fuel id) client_except) (client_finally id).

(** [_ProxyServer.process_request_thread]: the base class reports and drops an exception. *)
Definition process_request_thread (fuel : nat) (id : N) : M unit :=
  try_finally (try_catch (handle_client fuel id) (fun _ => ret tt)) (let! b := perform ReleaseThread in assert b).

(** ** The listener *)

(** [_transport_rejection_status], with the clock at [now] *)
Definition _transport_rejection_status (peer : option string) (now : moment) (s : state) : state * option Z :=
  if negb (_peer_matches_allowed_client (allowed_client_ip c) peer) then (s, Some 403)
  else if closed s then (s, Some 503)
  else if match deadline s with Some d => reached d now | None => false end then (s, Some 504)
  else if (limit max_connections c <=? connection_attempts s) || (event_limit c <=? next_sequence s) then
    (set_events (events s) (inflight s) (event_overflow s || (event_limit c <=? next_sequence s)) (next_sequence s) s,
     Some 503)
  else (s, None).

(** The state change of [_reject_before_thread]; the reply is the world's. *)
Definition _reject_before_thread (s : state) : state :=
  set_counters (connection_attempts s)
    (Z.min (listener_rejections s + 1) (limit max_connections c + event_limit c + 1))
    (concurrency s) (thread_slots s) s.

(** [_ProxyServer.process_request]: whether a handler thread is started.  When
    [thread.start()] raises, the slot is given back and the server's loop drops the
    connection; no rejection is counted. *)
Definition process_request (peer : option string) (now : moment) (starts : bool) (s : state) : state * bool :=
  match _transport_rejection_status peer now s with
  | (s, Some _) => (_reject_before_thread s, false)
  | (s, None) =>
      let '(s', b) := acquire_thread s in
      if negb b then (_reject_before_thread s, false)
      else if starts then (s', true)
      else (fst (release_thread s'), false)
  end.

(** The locked section of [shutdown] *)
Definition shutdown_locked (s : state) : state := set_runtime (started_at s) (deadline s) true s.

(** ** Runs *)

(** What a call may answer, and the state after it. *)
Definition exec (k : call) (s : state) : answer k -> state -> Prop :=
  match k with
  | BeginRuntime => fun a s' => exists now, _begin_runtime now s = (s', a)
  | EnterClient id => fun a s' => enter_client id s = (s', a)
  | LeaveClient id => fun _ s' => s' = leave_client id s
  | ReserveEvent => fun a s' => _reserve_event s = (s', a)
  | FinishEvent e => fun a s' => finish_locked e s = (s', a)
  | CountAttempt => fun a s' => count_attempt s = (s', a)
  | AcquireSlot => fun a s' => acquire_slot s = (s', a)
  | ReleaseSlot => fun a s' => release_slot s = (s', a)
  | ReleaseThread => fun a s' => release_thread s = (s', a)
  | ReadDeadline => fun a s' => a = (closed s, deadline s) /\ s' = s
  | Remaining => fun a s' => a = remaining s /\ s' = s
  | Consume n => fun a s' => consume n s = (s', a)
  | Reserve n => fun a s' => reserve n s = (s', a)
  | Commit r n => fun a s' => commit_reservation r n s = (s', a)
  | Cancel r => fun a s' => cancel_reservation r s = (s', a)
  | EnterUpstream id => fun a s' => enter_upstream id s = (s', a)
  | LeaveUpstream id => fun _ s' => s' = _release_upstream id s
  | Connect _ _ => fun a s' =>
      match a with
      | inl id => id = next_id s /\
                  s' = set_sockets (active_clients s) (active_upstreams s) (forwarded s) (next_id s + 1)%N s
      | inr _ => s' = s
      end
  | RecvHead n | Recv _ n => fun a s' => s' = s /\ match a with inl chunk => size chunk <= n | inr _ => True end
  | Send _ data => fun a s' =>
      exists n, 0 <= n <= size data /\ (a = inl tt -> n = size data) /\
        s' = set_sockets (active_clients s) (active_upstreams s) (forwarded s + n) (next_id s) s
  | _ => fun _ s' => s' = s
  end.

Definition thread : Type := prog (outcome unit * locals).

(** A step of the process: a call of one thread, or the listener, or the owner of
    the proxy.  [fuel] bounds the relaying loops; a run of any length is a run
    for some bound. *)
Inductive step (fuel : nat) : state * list thread -> state * list thread -> Prop :=
  | step_call k next a s s' l1 l2 :
      exec k s a s' -> step fuel (s, l1 ++ Call k next :: l2) (s', l1 ++ next a :: l2)
  | step_accept peer now starts s s' l :
      process_request peer now starts s = (s', true) ->
      step fuel (s, l)
        (set_sockets (active_clients s') (active_upstreams s') (forwarded s') (next_id s' + 1)%N s',
         l ++ [process_request_thread fuel (next_id s') fresh_locals])
  | step_refuse peer now starts s s' l : process_request peer now starts s = (s', false) -> step fuel (s, l) (s', l)
  | step_bind now s l : step fuel (s, l) (fst (_begin_runtime now s), l)
  | step_shutdown s l : step fuel (s, l) (shutdown_locked s, l).

Definition reachable (fuel : nat) : state * list thread -> Prop := rtc (step fuel) (initial, []).

(** ** Snapshots *)
Definition events_snapshot (s : state) : list event :=
  omap (fun k => events s !! k) (merge_sort Z.le (elements (dom (events s)))).

Definition opt_text (o : option string) : pyval := match o with Some t => VStr t | None => VNone end.

Definition event_val (sequence : Z) (kind : string) (web_origin connect_authority : option string)
    (disposition : string) : pyval :=
  VDict [("sequence", VInt sequence); ("source", VStr "egress"); ("kind", VStr kind);
         ("web_origin", opt_text web_origin); ("connect_authority", opt_text connect_authority);
         ("disposition", VStr disposition)].

Definition browser_event (e : event) : pyval :=
  let incomplete_allowed :=
    String.eqb (ev_disposition e) "allowed" && negb (String.eqb (ev_reason_code e) "completed") in
  if Bool.eqb (absent (ev_web_origin e)) (absent (ev_connect_authority e)) || incomplete_allowed
  then event_val (ev_sequence e) "telemetry_loss" None None "observed"
  else event_val (ev_sequence e) "network_request" (ev_web_origin e) (ev_connect_authority e) (ev_disposition e).

Definition browser_events_snapshot (s : state) : list pyval := map browser_event (events_snapshot s).

Definition is_complete (s : state) : bool :=
  bool_decide (is_Some (started_at s)) && closed s && negb (event_overflow s) && bool_decide (inflight s = ∅) &&
  (Z.of_nat (base.size (active_clients s)) =? 0) && bool_decide (active_upstreams s = ∅) &&
  (listener_rejections s =? 0).

(** The lock is taken three times: for the flags, for the events, for the bytes. *)
Definition telemetry_snapshot (s1 s2 s3 : state) : pyval :=
  VDict [("complete", VBool (is_complete s1)); ("started", VBool (bool_decide (is_Some (started_at s1))));
         ("closed", VBool (closed s1)); ("event_overflow", VBool (event_overflow s1));
         ("inflight_events", VInt (Z.of_nat (base.size (inflight s1))));
         ("active_connections", VInt (Z.of_nat (base.size (active_clients s1))));
         ("listener_rejections", VInt (listener_rejections s1));
         ("connection_attempts", VInt (connection_attempts s1));
         ("event_count", VInt (Z.of_nat (length (events_snapshot s2))));
         ("network_bytes", VInt (used s3)); ("network_byte_limit", VInt (max_network_bytes c))].

End proxy.

Arguments Ret {_ A} a.
Arguments Call {_ A} k next.
Arguments Suspended {_ A}.

End EgressProxy.
