(* ===== verification/EgressLogic.v ===== *)
(** * A program logic for the proxy's handler threads

    Each thread has holdings: the event number, the reservation, the slots and
    the registrations it has taken and not given back, and the bytes charged to
    its event.  A call has a precondition on the caller's holdings and changes
    them in a fixed way; [wp] says that a thread respects this to its end.  The
    invariant ties the shared state to the holdings of all threads, and
    [exec_sound] shows that a call within its precondition preserves it whatever
    the other threads hold. *)

From stdpp Require Import base list strings gmap relations sorting.
From Stdlib Require Import ZArith Lia.
From S2P Require Import Prelude PyValue Json StrOps Ip Url UrlFacts BrowserContract BrowserEvidence.
From S2P Require Import EgressAddress EgressRequest EgressProxy.

Local Open Scope Z_scope.

Module EgressLogic.
Import BrowserEvidence EgressAddress EgressRequest EgressProxy.

Record holding := mk_holding {
  h_id : N;                     (** the client socket *)
  h_registered : bool;          (** it is in [active_clients] *)
  h_up : option N;              (** the upstream socket *)
  h_linked : bool;              (** it is in [active_upstreams] *)
  h_thread : bool;              (** a thread slot *)
  h_slot : bool;                (** a concurrency slot *)
  h_seq : option Z;             (** the reserved event *)
  h_counted : bool;             (** the attempt is counted *)
  h_held : option Z;            (** the byte reservation *)
  h_charged : Z;                (** bytes used for the event *)
  h_credit : Z;                 (** of those, not yet sent on *)
  h_sent : bool;                (** something was sent upstream *)
}.

Definition set_reg b h := mk_holding (h_id h) b (h_up h) (h_linked h) (h_thread h) (h_slot h) (h_seq h) (h_counted h) (h_held h) (h_charged h) (h_credit h) (h_sent h).
Definition set_up u b h := mk_holding (h_id h) (h_registered h) u b (h_thread h) (h_slot h) (h_seq h) (h_counted h) (h_held h) (h_charged h) (h_credit h) (h_sent h).
Definition set_thread b h := mk_holding (h_id h) (h_registered h) (h_up h) (h_linked h) b (h_slot h) (h_seq h) (h_counted h) (h_held h) (h_charged h) (h_credit h) (h_sent h).
Definition set_slot b h := mk_holding (h_id h) (h_registered h) (h_up h) (h_linked h) (h_thread h) b (h_seq h) (h_counted h) (h_held h) (h_charged h) (h_credit h) (h_sent h).
Definition set_seq q b h := mk_holding (h_id h) (h_registered h) (h_up h) (h_linked h) (h_thread h) (h_slot h) q b (h_held h) (h_charged h) (h_credit h) (h_sent h).
Definition set_bytes r n m h := mk_holding (h_id h) (h_registered h) (h_up h) (h_linked h) (h_thread h) (h_slot h) (h_seq h) (h_counted h) r n m (h_sent h).
Definition set_sent b h := mk_holding (h_id h) (h_registered h) (h_up h) (h_linked h) (h_thread h) (h_slot h) (h_seq h) (h_counted h) (h_held h) (h_charged h) (h_credit h) b.

Definition fresh_holding (id : N) : holding := mk_holding id false None false true false None true None 0 0 false.

Section logic.
Context `{IpRelease} `{Unicode} `{UnicodeDigits} `{MonotonicClock}.
Variable c : config.

(** ** What an event may say *)
Definition http_origin (o : string) : Prop := normalize_origin (VStr o) = Ok o /\ scheme_of o = Ok "http".
Definition canonical_connect (a : string) : Prop := normalize_connect_authority (VStr a) = Ok a.

Definition witness_ok (w a : option string) : Prop :=
  match w, a with
  | None, None => True
  | Some o, None => http_origin o
  | None, Some x => canonical_connect x
  | Some _, Some _ => False
  end.

(** The destination of an allowed request is an authorized origin, or the
    authority of one. *)
Definition permitted (w a : option string) : Prop :=
  match w, a with
  | Some o, None => In o (keys (policies c)) /\ scheme_of o = Ok "http"
  | None, Some x =>
      exists o, In o (keys (policies c)) /\ scheme_of o = Ok "https" /\ connect_authority_for_origin (VStr o) = Ok x
  | _, _ => False
  end.

Definition bytes_of (e : event) : Z := client_to_origin_bytes e + origin_to_client_bytes e.

Record event_ok (e : event) : Prop := {
  eo_disposition : mem (ev_disposition e) ["allowed"; "blocked"] = true;
  eo_reason : mem (ev_reason_code e) _REASON_CODES = true;
  eo_witness : witness_ok (ev_web_origin e) (ev_connect_authority e);
  eo_allowed : ev_disposition e = "allowed" -> permitted (ev_web_origin e) (ev_connect_authority e);
  eo_blocked : ev_disposition e = "blocked" -> bytes_of e = 0;
}.

(** A pinned address and port of an authorized origin. *)
Definition target_ok (address : string) (port : Z) : Prop :=
  exists o p, In (o, p) (policies c) /\ In address (addresses p) /\ port = EgressRequest.port p.

(** ** Calls on holdings *)
Definition pre (k : call) (h : holding) : Prop :=
  match k with
  | EnterClient id => id = h_id h /\ h_registered h = false
  | LeaveClient id => id = h_id h /\ h_registered h = true
  | ReserveEvent => h_registered h = true /\ h_seq h = None /\ h_charged h = 0
  | CountAttempt => is_Some (h_seq h) /\ h_counted h = false
  | FinishEvent e =>
      h_seq h = Some (ev_sequence e) /\ h_counted h = true /\ h_charged h = bytes_of e /\ event_ok e /\
      h_held h = None /\ h_linked h = false /\
      (ev_disposition e = "blocked" -> h_sent h = false)
  | AcquireSlot => h_slot h = false
  | ReleaseSlot => h_slot h = true
  | ReleaseThread => h_thread h = true
  | Consume n => 0 <= n /\ is_Some (h_seq h)
  | Reserve n => 0 < n /\ h_held h = None /\ is_Some (h_seq h)
  | Commit r n => h_held h = Some r /\ 0 <= n <= r /\ is_Some (h_seq h)
  | Cancel r => h_held h = Some r
  | EnterUpstream id => h_up h = Some id /\ h_linked h = false /\ is_Some (h_seq h)
  | LeaveUpstream id => h_up h = Some id /\ h_linked h = true
  | Connect a p => h_linked h = false /\ target_ok a p
  | Send _ data => size data <= h_credit h /\ is_Some (h_seq h)
  | _ => True
  end.

Definition after (k : call) (h : holding) : answer k -> holding :=
  match k with
  | EnterClient _ => fun a => if a then set_reg true h else h
  | LeaveClient _ => fun _ => set_reg false h
  | ReserveEvent => fun a => match a with Some q => set_seq (Some q) false h | None => h end
  | CountAttempt => fun _ => set_seq (h_seq h) true h
  | FinishEvent _ => fun _ => set_bytes (h_held h) 0 (h_credit h) (set_seq None true h)
  | AcquireSlot => fun a => if a then set_slot true h else h
  | ReleaseSlot => fun _ => set_slot false h
  | ReleaseThread => fun _ => set_thread false h
  | Consume n => fun a => match a with Some true => set_bytes (h_held h) (h_charged h + n) (h_credit h + n) h | _ => h end
  | Reserve _ => fun a => match a with Some (Some r) => set_bytes (Some r) (h_charged h) (h_credit h) h | _ => h end
  | Commit _ n => fun _ => set_bytes None (h_charged h + n) (h_credit h + n) h
  | Cancel _ => fun _ => set_bytes None (h_charged h) (h_credit h) h
  | EnterUpstream _ => fun a => if a then set_up (h_up h) true h else h
  | LeaveUpstream _ => fun _ => set_up (h_up h) false h
  | Connect _ _ => fun a => match a with inl id => set_up (Some id) false h | inr _ => h end
  | Send to data => fun _ =>
      set_sent (h_sent h || match to with Upstream => true | Client => false end)
        (set_bytes (h_held h) (h_charged h) (h_credit h - size data) h)
  | _ => fun _ => h
  end.

(** What the caller learns from the answer. *)
Definition learns (k : call) : answer k -> Prop :=
  match k with
  | FinishEvent _ | ReleaseSlot | ReleaseThread | Commit _ _ | Cancel _ => fun a => a = true
  | Consume _ => fun a => a <> None
  | Reserve n => fun a => match a with None => False | Some None => True | Some (Some r) => 0 < r <= n end
  | Recv _ n | RecvHead n => fun a => match a with inl chunk => size chunk <= n | inr _ => True end
  | _ => fun _ => True
  end.

Fixpoint wp {A} (m : prog A) (h : holding) (post : A -> holding -> Prop) : Prop :=
  match m with
  | Ret a => post a h
  | Call k next => pre k h /\ forall a, learns k a -> wp (next a) (after k h a) post
  | Suspended => True
  end.

(** At its end a thread has given everything back. *)
Definition released (h : holding) : Prop :=
  h_registered h = false /\ h_linked h = false /\ h_thread h = false /\ h_slot h = false /\ h_seq h = None /\
  h_held h = None /\ h_charged h = 0.

(** ** The invariant

    In four parts, each on its own part of the state and of the holdings. *)
Fixpoint total {A} (f : A -> Z) (l : list A) : Z := match l with [] => 0 | x :: r => f x + total f r end.

Definition bytes_part (h : holding) : option Z * Z * Z := (h_held h, h_charged h, h_credit h).
Definition event_part (h : holding) : option Z * bool := (h_seq h, h_counted h).
Definition socket_part (h : holding) : N * bool * option N * bool := (h_id h, h_registered h, h_up h, h_linked h).
Definition slot_part (h : holding) : bool * bool := (h_slot h, h_thread h).

Definition events_bytes (m : gmap Z event) : Z := map_fold (fun _ e z => bytes_of e + z) 0 m.

Record bytes_inv (u r f recorded : Z) (l : list (option Z * Z * Z)) : Prop := {
  bi_parts : Forall (fun p => (forall x, fst (fst p) = Some x -> 0 < x) /\ 0 <= snd (fst p) /\ 0 <= snd p) l;
  bi_reserved : r = total (fun p => default 0 (fst (fst p))) l;
  bi_used : u = recorded + total (fun p => snd (fst p)) l;
  bi_recorded : 0 <= recorded;
  bi_limit : u + r <= Z.max 0 (max_network_bytes c);
  bi_forwarded : 0 <= f /\ f + total (fun p => snd p) l <= u;
}.

Definition uncounted (p : option Z * bool) : Z := match fst p with Some _ => if snd p then 0 else 1 | None => 0 end.

Record events_inv (m : gmap Z event) (i : gset Z) (next attempts : Z) (l : list (option Z * bool)) : Prop := {
  ei_inflight : forall q, q ∈ i <-> In (Some q) (map fst l);
  ei_nodup : NoDup (omap fst l);
  ei_numbers : forall q, is_Some (m !! q) \/ q ∈ i <-> 0 <= q < next;
  ei_disjoint : forall q, is_Some (m !! q) -> q ∉ i;
  ei_next : 0 <= next <= Z.max 0 (event_limit c);
  ei_events : forall q e, m !! q = Some e -> ev_sequence e = q /\ event_ok e;
  ei_attempts : attempts + total uncounted l = next;
}.

Definition client_of (p : N * bool * option N * bool) : option N :=
  let '(id, r, _, _) := p in if r then Some id else None.
Definition upstream_of (p : N * bool * option N * bool) : option N :=
  let '(_, _, u, b) := p in if b then u else None.
Definition owned_by (p : N * bool * option N * bool) : list N := let '(id, _, u, _) := p in id :: option_list u.

Record sockets_inv (clients upstreams : gset N) (next : N) (l : list (N * bool * option N * bool)) : Prop := {
  si_clients : forall id, id ∈ clients <-> In (Some id) (map client_of l);
  si_upstreams : forall id, id ∈ upstreams <-> In (Some id) (map upstream_of l);
  si_owned : NoDup (concat (map owned_by l));
  si_fresh : forall id, In id (concat (map owned_by l)) -> (id < next)%N;
}.

Record slots_inv (slots threads : Z) (l : list (bool * bool)) : Prop := {
  li_slots : slots + total (fun p => Z.b2z (fst p)) l = limit max_concurrent_connections c;
  li_threads : threads + total (fun p => Z.b2z (snd p)) l = limit max_concurrent_connections c;
}.

Record inv (s : state) (hs : list holding) : Prop := {
  iv_bytes : bytes_inv (used s) (reserved s) (forwarded s) (events_bytes (events s)) (map bytes_part hs);
  iv_events : events_inv (events s) (inflight s) (next_sequence s) (connection_attempts s) (map event_part hs);
  iv_sockets : sockets_inv (active_clients s) (active_upstreams s) (next_id s) (map socket_part hs);
  iv_slots : slots_inv (concurrency s) (thread_slots s) (map slot_part hs);
  iv_seq : Forall (fun h => h_seq h = None -> h_charged h = 0 /\ h_held h = None /\ h_linked h = false) hs;
}.

(** ** Updating one thread's part *)
Lemma total_mid {A} (f : A -> Z) l1 x l2 : total f (l1 ++ x :: l2) = total f l1 + f x + total f l2.
Proof. induction l1 as [|y l1 IH]; cbn [total app]; [|rewrite IH]; lia. Qed.

Lemma total_nonneg {A} (f : A -> Z) l : Forall (fun x => 0 <= f x) l -> 0 <= total f l.
Proof. induction 1; cbn [total]; lia. Qed.

Lemma map_mid {A B} (f : A -> B) l1 x l2 : map f (l1 ++ x :: l2) = map f l1 ++ f x :: map f l2.
Proof. apply map_app. Qed.

Lemma bytes_update {u r f e l1 p l2} u' r' f' e' p' :
  bytes_inv u r f e (l1 ++ p :: l2) ->
  (forall x, fst (fst p') = Some x -> 0 < x) -> 0 <= snd (fst p') -> 0 <= snd p' ->
  r' - r = default 0 (fst (fst p')) - default 0 (fst (fst p)) ->
  u' - e' - (u - e) = snd (fst p') - snd (fst p) -> 0 <= e' ->
  u' + r' <= Z.max 0 (max_network_bytes c) -> 0 <= f' -> f' + snd p' - snd p - f <= u' - u ->
  bytes_inv u' r' f' e' (l1 ++ p' :: l2).
Proof.
  intros [Hp Hr Hu He Hl [Hf0 Hf]] H1' H2' H3' Hr' Hu' He' Hl' Hf0' Hf'.
  rewrite total_mid in Hr, Hu, Hf. split; try done.
  - apply Forall_app in Hp as [Hp1 [_ Hp2]%Forall_cons]. apply Forall_app; split; [done|]. by apply Forall_cons.
  - rewrite total_mid. cbn beta in *. lia.
  - rewrite total_mid. cbn beta in *. lia.
  - split; [done|]. rewrite total_mid. cbn beta in *. lia.
Qed.

Lemma slots_update {a t l1 p l2} a' t' p' :
  slots_inv a t (l1 ++ p :: l2) ->
  a' - a = Z.b2z (fst p) - Z.b2z (fst p') -> t' - t = Z.b2z (snd p) - Z.b2z (snd p') ->
  slots_inv a' t' (l1 ++ p' :: l2).
Proof. intros [Ha Ht] Ha' Ht'. rewrite total_mid in Ha, Ht. split; rewrite total_mid; cbn beta in *; lia. Qed.

Lemma in_mid {A} (x y : A) l1 l2 : In x (l1 ++ y :: l2) <-> x = y \/ In x l1 \/ In x l2.
Proof. rewrite in_app_iff. cbn [In]. naive_solver. Qed.

Lemma omap_mid {A B} (f : A -> option B) l1 x l2 :
  omap f (l1 ++ x :: l2) = omap f l1 ++ option_list (f x) ++ omap f l2.
Proof. rewrite omap_app. cbn. by destruct (f x). Qed.

Lemma in_omap {A B} (f : A -> option B) l y : In y (omap f l) <-> In (Some y) (map f l).
Proof. rewrite <- list_elem_of_In, list_elem_of_omap, in_map_iff. setoid_rewrite list_elem_of_In. naive_solver. Qed.

(** A key held once is held nowhere else. *)
Lemma nodup_mid {A} (x : A) l1 l2 : NoDup (l1 ++ x :: l2) -> ~ In x l1 /\ ~ In x l2 /\ NoDup (l1 ++ l2).
Proof.
  rewrite <- !list_elem_of_In. intros Hd. rewrite <- Permutation_middle in Hd. apply NoDup_cons in Hd as [Hx Hd].
  rewrite elem_of_app in Hx. naive_solver.
Qed.

Lemma nodup_insert {A} (x : A) l1 l2 : ~ In x (l1 ++ l2) -> NoDup (l1 ++ l2) -> NoDup (l1 ++ x :: l2).
Proof. rewrite <- list_elem_of_In, <- Permutation_middle. intros Hx Hd. by apply NoDup_cons. Qed.

Lemma events_reserve m i next at_ l1 b l2 :
  next < event_limit c -> events_inv m i next at_ (l1 ++ (None, b) :: l2) ->
  events_inv m ({[next]} ∪ i) (next + 1) at_ (l1 ++ (Some next, false) :: l2).
Proof.
  intros Hlim [Hi Hd Hn Hx Hr He Ha]. rewrite omap_mid in Hd. cbn [fst option_list app] in Hd.
  assert (Hni : next ∉ i) by (intros Hq; specialize (proj1 (Hn next) (or_intror Hq)); lia).
  assert (Hnm : ~ is_Some (m !! next)) by (intros Hq; specialize (proj1 (Hn next) (or_introl Hq)); lia).
  split.
  - intros q. rewrite elem_of_union, elem_of_singleton, Hi, !map_mid, !in_mid. cbn [fst]. naive_solver.
  - rewrite omap_mid. cbn [fst option_list app]. apply nodup_insert; [|done].
    rewrite in_app_iff, !in_omap. intros Hin. apply Hni, Hi. rewrite map_mid, in_mid. naive_solver.
  - intros q. rewrite elem_of_union, elem_of_singleton. specialize (Hn q). destruct (decide (q = next)) as [->|]; [lia|].
    naive_solver lia.
  - intros q Hq. rewrite not_elem_of_union, not_elem_of_singleton. split; [by intros ->|by apply Hx].
  - lia.
  - done.
  - rewrite total_mid in *. cbn [uncounted fst snd] in *. lia.
Qed.

Lemma events_count m i next at_ l1 q l2 :
  events_inv m i next at_ (l1 ++ (Some q, false) :: l2) -> events_inv m i next (at_ + 1) (l1 ++ (Some q, true) :: l2).
Proof.
  intros [Hi Hd Hn Hx Hr He Ha]. split; try done.
  - intros x. by rewrite Hi, !map_mid.
  - by rewrite omap_mid in *.
  - rewrite total_mid in *. cbn [uncounted fst snd] in *. lia.
Qed.

Lemma events_finish m i next at_ l1 e l2 :
  event_ok e -> events_inv m i next at_ (l1 ++ (Some (ev_sequence e), true) :: l2) ->
  ev_sequence e ∈ i /\ m !! ev_sequence e = None /\
  events_inv (<[ev_sequence e := e]> m) (i ∖ {[ev_sequence e]}) next at_ (l1 ++ (None, true) :: l2).
Proof.
  intros Hok [Hi Hd Hn Hx Hr He Ha]. set (q := ev_sequence e) in *.
  assert (Hqi : q ∈ i) by (apply Hi; rewrite map_mid, in_mid; by left).
  assert (Hqm : m !! q = None) by (destruct (m !! q) eqn:Hm; [by destruct (Hx q (mk_is_Some _ _ Hm))|done]).
  rewrite omap_mid in Hd. cbn [fst option_list app] in Hd. apply nodup_mid in Hd as (N1 & N2 & Hd).
  split_and!; [done..|]. split.
  - intros x. rewrite elem_of_difference, elem_of_singleton, Hi, !map_mid, !in_mid. cbn [fst]. rewrite <- !in_omap in *.
    naive_solver.
  - by rewrite omap_mid.
  - intros x. rewrite elem_of_difference, elem_of_singleton, lookup_insert_is_Some. specialize (Hn x).
    destruct (decide (x = q)) as [->|]; naive_solver.
  - intros x. rewrite lookup_insert_is_Some, not_elem_of_difference, elem_of_singleton. specialize (Hx x). naive_solver.
  - done.
  - intros x e' [[<- <-]|[_ Hm]]%lookup_insert_Some; [done|by apply He].
  - rewrite total_mid in *. cbn [uncounted fst snd] in *. lia.
Qed.

Lemma events_bytes_insert m e : m !! ev_sequence e = None ->
  events_bytes (<[ev_sequence e := e]> m) = bytes_of e + events_bytes m.
Proof. intros Hm. unfold events_bytes. rewrite map_fold_insert_L; [done| |done]. intros; lia. Qed.

Lemma client_owned id l : In (Some id) (map client_of l) -> In id (concat (map owned_by l)).
Proof.
  rewrite in_map_iff, in_concat. intros ([[[x r] u] b] & Hc & Hl). exists (owned_by (x, r, u, b)).
  split; [by apply in_map|]. cbn in *. destruct r; [|done]. injection Hc as ->. by left.
Qed.

Lemma upstream_owned id l : In (Some id) (map upstream_of l) -> In id (concat (map owned_by l)).
Proof.
  rewrite in_map_iff, in_concat. intros ([[[x r] u] b] & Hc & Hl). exists (owned_by (x, r, u, b)).
  split; [by apply in_map|]. cbn in *. destruct b; [|done]. subst u. right. by left.
Qed.

Lemma owned_mid l1 p l2 :
  concat (map owned_by (l1 ++ p :: l2)) = concat (map owned_by l1) ++ owned_by p ++ concat (map owned_by l2).
Proof. rewrite map_mid, concat_app. done. Qed.

(** A socket of one thread is a socket of no other. *)
Lemma owned_elsewhere id l1 p l2 :
  NoDup (concat (map owned_by (l1 ++ p :: l2))) -> In id (owned_by p) ->
  ~ In id (concat (map owned_by l1)) /\ ~ In id (concat (map owned_by l2)).
Proof.
  rewrite owned_mid, !NoDup_app. setoid_rewrite elem_of_app. rewrite <- !list_elem_of_In. naive_solver.
Qed.

Ltac sockets_members :=
  intros ?x; rewrite ?elem_of_union, ?elem_of_difference, ?elem_of_singleton;
  match goal with
  | Hm : forall id, id ∈ ?S <-> _ |- context[_ ∈ ?S] => rewrite Hm
  end; rewrite !map_mid, !in_mid; cbn [client_of upstream_of].

Lemma sockets_client clients ups next l1 id r r' u b l2 :
  sockets_inv clients ups next (l1 ++ (id, r, u, b) :: l2) ->
  sockets_inv (if (r' : bool) then {[id]} ∪ clients else clients ∖ {[id]}) ups next (l1 ++ (id, r', u, b) :: l2).
Proof.
  intros [Hc Hu Ho Hf]. destruct (owned_elsewhere id _ _ _ Ho) as [N1 N2]; [by left|].
  assert (~ In (Some id) (map client_of l1)) by (intros ?%client_owned; done).
  assert (~ In (Some id) (map client_of l2)) by (intros ?%client_owned; done).
  split.
  - destruct r'; sockets_members; destruct r; naive_solver.
  - sockets_members; naive_solver.
  - by rewrite owned_mid in *.
  - by rewrite owned_mid in *.
Qed.

Lemma sockets_upstream clients ups next l1 id r u b b' l2 :
  sockets_inv clients ups next (l1 ++ (id, r, Some u, b) :: l2) ->
  sockets_inv clients (if (b' : bool) then {[u]} ∪ ups else ups ∖ {[u]}) next (l1 ++ (id, r, Some u, b') :: l2).
Proof.
  intros [Hc Hu Ho Hf]. destruct (owned_elsewhere u _ _ _ Ho) as [N1 N2]; [by right; left|].
  assert (~ In (Some u) (map upstream_of l1)) by (intros ?%upstream_owned; done).
  assert (~ In (Some u) (map upstream_of l2)) by (intros ?%upstream_owned; done).
  split.
  - sockets_members; naive_solver.
  - destruct b'; sockets_members; destruct b; naive_solver.
  - by rewrite owned_mid in *.
  - by rewrite owned_mid in *.
Qed.

Lemma sockets_connect clients ups next l1 id r u l2 :
  sockets_inv clients ups next (l1 ++ (id, r, u, false) :: l2) ->
  sockets_inv clients ups (next + 1)%N (l1 ++ (id, r, Some next, false) :: l2).
Proof.
  intros [Hc Hu Ho Hf].
  assert (Hlt : forall x, In x (concat (map owned_by l1)) \/ x = id \/ In x (concat (map owned_by l2)) -> (x < next)%N).
  { intros x Hx. apply Hf. rewrite owned_mid, !in_app_iff. cbn [owned_by In]. naive_solver. }
  split.
  - sockets_members; naive_solver.
  - sockets_members; naive_solver.
  - rewrite owned_mid in *. cbn [owned_by option_list app] in *.
    change (id :: option_list (Some next) ++ concat (map owned_by l2)) with ([id] ++ next :: concat (map owned_by l2)). rewrite app_assoc. apply nodup_insert.
    + rewrite !in_app_iff. intros Hx. specialize (Hlt next). cbn in Hx.
      assert (next < next)%N; [|lia]. apply Hlt. naive_solver.
    + rewrite <- app_assoc. cbn [app]. destruct u as [u|]; [|exact Ho]. cbn [option_list app] in Ho.
      change (id :: option_list (Some u) ++ concat (map owned_by l2)) with ([id] ++ u :: concat (map owned_by l2)) in Ho.
      rewrite app_assoc in Ho. apply nodup_mid in Ho as (_ & _ & Ho). by rewrite <- app_assoc in Ho.
  - intros x. rewrite owned_mid, !in_app_iff. cbn [owned_by option_list app In]. intros Hx.
    destruct (decide (x = next)) as [->|]; [lia|]. assert (x < next)%N; [|lia]. apply Hlt. naive_solver.
Qed.

Lemma sockets_next clients ups next next' l :
  (next <= next')%N -> sockets_inv clients ups next l -> sockets_inv clients ups next' l.
Proof. intros Hn [Hc Hu Ho Hf]. split; try done. intros x Hx. specialize (Hf x Hx). lia. Qed.

(** ** A call within its precondition preserves the invariant *)

(** Rebuild an invariant of which one part changed. *)
Lemma inv_frame s s' l1 h h' l2 :
  inv s (l1 ++ h :: l2) ->
  (bytes_inv (used s) (reserved s) (forwarded s) (events_bytes (events s)) (map bytes_part l1 ++ bytes_part h :: map bytes_part l2) ->
   bytes_inv (used s') (reserved s') (forwarded s') (events_bytes (events s')) (map bytes_part l1 ++ bytes_part h' :: map bytes_part l2)) ->
  (events_inv (events s) (inflight s) (next_sequence s) (connection_attempts s) (map event_part l1 ++ event_part h :: map event_part l2) ->
   events_inv (events s') (inflight s') (next_sequence s') (connection_attempts s') (map event_part l1 ++ event_part h' :: map event_part l2)) ->
  (sockets_inv (active_clients s) (active_upstreams s) (next_id s) (map socket_part l1 ++ socket_part h :: map socket_part l2) ->
   sockets_inv (active_clients s') (active_upstreams s') (next_id s') (map socket_part l1 ++ socket_part h' :: map socket_part l2)) ->
  (slots_inv (concurrency s) (thread_slots s) (map slot_part l1 ++ slot_part h :: map slot_part l2) ->
   slots_inv (concurrency s') (thread_slots s') (map slot_part l1 ++ slot_part h' :: map slot_part l2)) ->
  ((h_seq h = None -> h_charged h = 0 /\ h_held h = None /\ h_linked h = false) ->
   h_seq h' = None -> h_charged h' = 0 /\ h_held h' = None /\ h_linked h' = false) ->
  inv s' (l1 ++ h' :: l2).
Proof.
  intros [Hb He Hs Hl Hq] Fb Fe Fs Fl Fq. rewrite map_mid in Hb. rewrite map_mid in He. rewrite map_mid in Hs. rewrite map_mid in Hl.
  split; [rewrite map_mid; by apply Fb|rewrite map_mid; by apply Fe|rewrite map_mid; by apply Fs|
          rewrite map_mid; by apply Fl|].
  apply Forall_app in Hq as [Q1 [Q Q2]%Forall_cons]. apply Forall_app; split; [done|]. apply Forall_cons; split; [|done].
  intros Hn. by apply Fq.
Qed.

(** The parts a call leaves alone. *)
Ltac frame I := apply (inv_frame _ _ _ _ _ _ I); [try exact id..|];
  try (cbn [h_seq h_charged h_held h_linked set_reg set_up set_thread set_slot set_seq set_bytes set_sent];
       first [ match goal with Hx : is_Some _ |- _ => destruct Hx; congruence end | naive_solver ]).

Lemma part_bytes s l1 h l2 : inv s (l1 ++ h :: l2) ->
  (forall x, h_held h = Some x -> 0 < x) /\ 0 <= h_charged h /\ 0 <= h_credit h /\
  default 0 (h_held h) <= reserved s /\ used s + reserved s <= Z.max 0 (max_network_bytes c) /\
  0 <= events_bytes (events s) /\ 0 <= forwarded s /\ 0 <= reserved s.
Proof.
  intros [[Hp Hr Hu Hrec Hl [Hf _]] _ _ _ _]. rewrite map_mid in Hp. rewrite map_mid in Hr.
  apply Forall_app in Hp as [P1 [(H1' & H2' & H3') P2]%Forall_cons]. rewrite total_mid in Hr.
  assert (forall l : list (option Z * Z * Z), Forall (fun p => (forall x, fst (fst p) = Some x -> 0 < x) /\ 0 <= snd (fst p) /\ 0 <= snd p) l ->
    0 <= total (fun p => default 0 (fst (fst p))) l) as Hnn.
  { intros l Hl'. apply total_nonneg. eapply Forall_impl; [exact Hl'|]. intros [[[x|] y] z] (Hx & _ & _); cbn in *; [|done].
    specialize (Hx x eq_refl). lia. }
  pose proof (Hnn _ P1). pose proof (Hnn _ P2). cbn [bytes_part fst snd] in *. split_and!; try done.
  - lia.
  - destruct (h_held h) as [x|]; cbn [default from_option id] in *; [specialize (H1' x eq_refl)|]; lia.
Qed.

Lemma part_slots s l1 h l2 : inv s (l1 ++ h :: l2) ->
  concurrency s + Z.b2z (h_slot h) <= limit max_concurrent_connections c /\
  thread_slots s + Z.b2z (h_thread h) <= limit max_concurrent_connections c.
Proof.
  intros [_ _ _ [Hs Ht] _]. rewrite map_mid, total_mid in Hs. rewrite map_mid, total_mid in Ht. cbn [slot_part fst snd] in *.
  assert (forall (f : bool * bool -> bool) l, 0 <= total (fun p => Z.b2z (f p)) l) as Hn.
  { intros f l. apply total_nonneg, Forall_forall. intros x _. by destruct (f x). }
  pose proof (Hn fst (map slot_part l1)). pose proof (Hn fst (map slot_part l2)).
  pose proof (Hn snd (map slot_part l1)). pose proof (Hn snd (map slot_part l2)). lia.
Qed.

Lemma slots_room s hs : inv s hs -> thread_slots s <= limit max_concurrent_connections c.
Proof.
  intros [_ _ _ [_ Ht] _]. assert (0 <= total (fun p => Z.b2z (snd p)) (map slot_part hs)); [|lia].
  apply total_nonneg, Forall_forall. intros [a b] _. by destruct b.
Qed.

(** Update the byte part; what is left is arithmetic. *)
Ltac bytes_step I :=
  pose proof (part_bytes _ _ _ _ I) as (?Hpos & ?Hch & ?Hcr & ?Hle & ?Hmax & ?Hev & ?Hfw & ?Hres);
  frame I; [intros ?Hb; eapply (bytes_update _ _ _ _ _ Hb)|..];
  cbn [bytes_part fst snd h_held h_charged h_credit set_bytes set_seq set_sent used reserved forwarded events
       set_budget set_sockets set_events] in *.

Lemma sound_consume n s a s' l1 h l2 :
  inv s (l1 ++ h :: l2) -> pre (Consume n) h -> exec c (Consume n) s a s' ->
  learns (Consume n) a /\ inv s' (l1 ++ after (Consume n) h a :: l2).
Proof.
  intros I [Hn Hq] He. cbn in He. unfold consume in He. destruct (Z.ltb_spec n 0); [lia|].
  destruct (Z.ltb_spec (max_network_bytes c) (used s + reserved s + n)); injection He as <- <-; [done|].
  split; [done|]. cbn [after]. bytes_step I; try done; lia.
Qed.

Lemma sound_reserve n s a s' l1 h l2 :
  inv s (l1 ++ h :: l2) -> pre (Reserve n) h -> exec c (Reserve n) s a s' ->
  learns (Reserve n) a /\ inv s' (l1 ++ after (Reserve n) h a :: l2).
Proof.
  intros I (Hn & Hh & Hq) He. cbn in He. unfold reserve, remaining in He. destruct (Z.leb_spec n 0); [lia|].
  destruct (Z.leb_spec (max_network_bytes c - used s - reserved s) 0); injection He as <- <-; [done|].
  split; [cbn; lia|]. cbn [after]. bytes_step I; try done; try (rewrite Hh in *; cbn [default from_option id] in *); try lia.
  intros x [= <-]. lia.
Qed.

Lemma sound_commit r n s a s' l1 h l2 :
  inv s (l1 ++ h :: l2) -> pre (Commit r n) h -> exec c (Commit r n) s a s' ->
  learns (Commit r n) a /\ inv s' (l1 ++ after (Commit r n) h a :: l2).
Proof.
  intros I (Hh & Hn & Hq) He. cbn in He. unfold commit_reservation in He.
  pose proof (part_bytes _ _ _ _ I) as (_ & _ & _ & Hle' & _). rewrite Hh in Hle'. cbn [default from_option id] in Hle'.
  assert (in_range 0 r n = true) as Hr by (unfold in_range; lia). rewrite Hr in He. cbn [negb] in He.
  rewrite (proj2 (Z.ltb_ge _ _) Hle') in He. injection He as <- <-.
  split; [done|]. cbn [after]. bytes_step I; try done; rewrite ?Hh in *; cbn [default from_option id] in *; lia.
Qed.

Lemma sound_cancel r s a s' l1 h l2 :
  inv s (l1 ++ h :: l2) -> pre (Cancel r) h -> exec c (Cancel r) s a s' ->
  learns (Cancel r) a /\ inv s' (l1 ++ after (Cancel r) h a :: l2).
Proof.
  intros I Hh He. cbn in Hh, He. unfold cancel_reservation in He.
  pose proof (part_bytes _ _ _ _ I) as (Hpos' & _ & _ & Hle' & _). rewrite Hh in Hle'. cbn [default from_option id] in Hle'.
  rewrite (proj2 (Z.ltb_ge _ _) Hle') in He. injection He as <- <-. specialize (Hpos' r Hh).
  split; [done|]. cbn [after]. bytes_step I; try done; rewrite ?Hh in *; cbn [default from_option id] in *; lia.
Qed.

Lemma sound_send to data s a s' l1 h l2 :
  inv s (l1 ++ h :: l2) -> pre (Send to data) h -> exec c (Send to data) s a s' ->
  learns (Send to data) a /\ inv s' (l1 ++ after (Send to data) h a :: l2).
Proof.
  intros I [Hc Hq] (n & Hn & _ & ->). split; [done|]. cbn [after]. bytes_step I; try done; lia.
Qed.

Lemma sound_reserve_event s a s' l1 h l2 :
  inv s (l1 ++ h :: l2) -> pre ReserveEvent h -> exec c ReserveEvent s a s' ->
  learns ReserveEvent a /\ inv s' (l1 ++ after ReserveEvent h a :: l2).
Proof.
  intros I (Hr & Hq & Hch) He. cbn in He. unfold _reserve_event in He.
  destruct (Z.leb_spec (event_limit c) (next_sequence s)); injection He as <- <-; (split; [done|]); cbn [after].
  - by frame I.
  - frame I. unfold event_part. rewrite Hq. cbn [h_seq h_counted set_seq]. by apply events_reserve.
Qed.

Lemma sound_finish e s a s' l1 h l2 :
  inv s (l1 ++ h :: l2) -> pre (FinishEvent e) h -> exec c (FinishEvent e) s a s' ->
  learns (FinishEvent e) a /\ inv s' (l1 ++ after (FinishEvent e) h a :: l2).
Proof.
  intros I (Hq & Hc & Hch & Hok & Hh & Hl & _) He. cbn in He. unfold finish_locked in He.
  pose proof (iv_events _ _ I) as Iev. rewrite map_mid in Iev. unfold event_part in Iev at 2. rewrite Hq, Hc in Iev.
  destruct (events_finish _ _ _ _ _ e _ Hok Iev) as (Hin & Hm & Iev').
  rewrite bool_decide_eq_true_2 in He by done. injection He as <- <-. split; [done|]. cbn [after].
  assert (0 <= bytes_of e).
  { pose proof (part_bytes _ _ _ _ I) as (_ & Hch' & _). lia. }
  bytes_step I; rewrite ?events_bytes_insert by done; try done; try lia.
Qed.

Lemma sound_count s a s' l1 h l2 :
  inv s (l1 ++ h :: l2) -> pre CountAttempt h -> exec c CountAttempt s a s' ->
  learns CountAttempt a /\ inv s' (l1 ++ after CountAttempt h a :: l2).
Proof.
  intros I [[q Hq] Hc] He. cbn in He. unfold count_attempt in He. injection He as <- <-. split; [done|]. cbn [after].
  frame I. unfold event_part. cbn [h_seq h_counted set_seq]. rewrite Hq, Hc. apply events_count.
Qed.

Lemma sound_enter_client id s a s' l1 h l2 :
  inv s (l1 ++ h :: l2) -> pre (EnterClient id) h -> exec c (EnterClient id) s a s' ->
  inv s' (l1 ++ after (EnterClient id) h a :: l2).
Proof.
  intros I [-> Hr] He. cbn in He. unfold enter_client in He. destruct (closed s); injection He as <- <-; [done|].
  cbn [after]. frame I. intros Hs. by eapply (sockets_client _ _ _ _ _ _ true) in Hs.
Qed.

Lemma sound_leave_client id s a s' l1 h l2 :
  inv s (l1 ++ h :: l2) -> pre (LeaveClient id) h -> exec c (LeaveClient id) s a s' ->
  inv s' (l1 ++ after (LeaveClient id) h a :: l2).
Proof.
  intros I [-> Hr] He. cbn in He. subst s'. cbn [after]. frame I. intros Hs.
  by eapply (sockets_client _ _ _ _ _ _ false) in Hs.
Qed.

Lemma sound_enter_upstream id s a s' l1 h l2 :
  inv s (l1 ++ h :: l2) -> pre (EnterUpstream id) h -> exec c (EnterUpstream id) s a s' ->
  inv s' (l1 ++ after (EnterUpstream id) h a :: l2).
Proof.
  intros I (Hu & Hl & Hq) He. cbn in He. unfold enter_upstream in He. destruct (closed s); injection He as <- <-; [done|].
  cbn [after]. frame I. intros Hs. unfold socket_part at 2 in Hs. rewrite Hu in Hs.
  eapply (sockets_upstream _ _ _ _ _ _ _ _ true) in Hs. unfold socket_part at 2. cbn [h_id h_registered h_up h_linked set_up].
  by rewrite Hu.
Qed.

Lemma sound_leave_upstream id s a s' l1 h l2 :
  inv s (l1 ++ h :: l2) -> pre (LeaveUpstream id) h -> exec c (LeaveUpstream id) s a s' ->
  inv s' (l1 ++ after (LeaveUpstream id) h a :: l2).
Proof.
  intros I (Hu & Hl) He. cbn in He. subst s'. cbn [after]. frame I. intros Hs. unfold socket_part at 2 in Hs. rewrite Hu in Hs.
  eapply (sockets_upstream _ _ _ _ _ _ _ _ false) in Hs. unfold socket_part at 2. cbn [h_id h_registered h_up h_linked set_up].
  by rewrite Hu.
Qed.

Lemma sound_connect adr p s a s' l1 h l2 :
  inv s (l1 ++ h :: l2) -> pre (Connect adr p) h -> exec c (Connect adr p) s a s' ->
  inv s' (l1 ++ after (Connect adr p) h a :: l2).
Proof.
  intros I (Hl & _) He. destruct a as [id|e]; cbn in He; [|by subst]. destruct He as [-> ->]. cbn [after]. frame I.
  intros Hs. unfold socket_part at 2 in Hs. rewrite Hl in Hs. by apply sockets_connect in Hs.
Qed.

Lemma sound_slots k s a s' l1 h l2 :
  In k [AcquireSlot; ReleaseSlot; ReleaseThread] ->
  inv s (l1 ++ h :: l2) -> pre k h -> exec c k s a s' -> learns k a /\ inv s' (l1 ++ after k h a :: l2).
Proof.
  intros Hk I Hp He. pose proof (part_slots _ _ _ _ I) as [Hs Ht].
  destruct Hk as [<-|[<-|[<-|[]]]]; cbn in Hp, He; unfold acquire_slot, release_slot, release_thread in He;
    rewrite Hp in *; cbn [Z.b2z] in *.
  - destruct (Z.ltb_spec 0 (concurrency s)); injection He as <- <-; (split; [done|]); [|done]. cbn [after].
    frame I. intros Hl. eapply (slots_update _ _ _ Hl); cbn; rewrite ?Hp; cbn; lia.
  - rewrite (proj2 (Z.ltb_lt _ _)) in He by lia. injection He as <- <-. split; [done|]. cbn [after].
    frame I. intros Hl. eapply (slots_update _ _ _ Hl); cbn; rewrite ?Hp; cbn; lia.
  - rewrite (proj2 (Z.ltb_lt _ _)) in He by lia. injection He as <- <-. split; [done|]. cbn [after].
    frame I. intros Hl. eapply (slots_update _ _ _ Hl); cbn; rewrite ?Hp; cbn; lia.
Qed.

Lemma exec_sound k s a s' l1 h l2 :
  inv s (l1 ++ h :: l2) -> pre k h -> exec c k s a s' -> learns k a /\ inv s' (l1 ++ after k h a :: l2).
Proof.
  intros I Hp He. destruct k;
    try (by eapply sound_consume); try (by eapply sound_reserve); try (by eapply sound_commit); try (by eapply sound_cancel);
    try (by eapply sound_send); try (by eapply sound_reserve_event); try (by eapply sound_finish);
    try (by eapply sound_count); try (by eapply sound_slots; [cbn; auto|..]);
    try (by split; [done|eapply sound_enter_client]); try (by split; [done|eapply sound_leave_client]);
    try (by split; [done|eapply sound_enter_upstream]); try (by split; [done|eapply sound_leave_upstream]);
    try (by split; [done|eapply sound_connect]); cbn in He.
  (* the rest changes no holding, and at most the runtime *)
  { destruct He as [now He]. unfold _begin_runtime in He. destruct (closed s); [|destruct (started_at s)];
      injection He as <- <-; (split; [done|]); try done. by frame I. }
  all: first [by subst s' | by destruct He as [? ->] | by destruct He as [-> ?]].
Qed.

End logic.
End EgressLogic.
