(* ===== verification/EgressHandler.v ===== *)
(** * The handler threads of the egress proxy respect the logic

    What the authorization functions return, as facts on policies and witnesses;
    then a triple for every function a handler runs, up to the whole thread:
    [process_request_thread] takes and gives back its holdings in order, and the
    event it finishes says what it did. *)

From stdpp Require Import base list strings gmap.
From Stdlib Require Import ZArith Lia.
From S2P Require Import Prelude PyValue Json StrOps Ip Url UrlFacts BrowserContract BrowserEvidence.
From S2P Require Import EgressAddress EgressRequest EgressProxy EgressLogic.

Local Open Scope Z_scope.

Module EgressHandler.
Import BrowserEvidence EgressAddress EgressRequest EgressProxy EgressLogic.

Section handler.
Context `{IpRelease} `{Unicode} `{UnicodeDigits} `{MonotonicClock} `{!UnicodeLaws}.
Variable c : config.

(** The policies are those of canonical authorized origins. *)
Definition policies_ok : Prop :=
  forall o p, In (o, p) (policies c) ->
    normalize_origin (VStr o) = Ok o /\ _origin_policy o (addresses p) = Ok p /\
    In o (BrowserContract.authorized_origins (request c)).
Context (Hpolicies : policies_ok).

Notation permitted := (permitted c).

(** ** Facts about authorization *)
(** A policy agrees with its origin. *)
Lemma policy_inv o p :
  In (o, p) (policies c) ->
  exists sc h port, mem sc ["http"; "https"] = true /\ public_host h /\ 1 <= port <= 65535 /\
    o = origin_of sc h port /\ origin p = o /\ scheme p = sc /\ hostname p = h /\ EgressRequest.port p = port.
Proof.
  intros Hin. destruct (Hpolicies o p Hin) as (Hn & Hp & _).
  destruct (origin_anatomy _ _ Hn) as (sc & h & q & Hs & Hh & Hq & ->). exists sc, h, q.
  unfold _origin_policy in Hp. rewrite origin_split in Hp by done. cbn [mbind res_bind p_netloc p_scheme] in Hp.
  destruct (canonical_info sc h q Hh Hq) as [Hhn Hpo]. rewrite Hhn, Hpo in Hp. cbn [mbind res_bind] in Hp.
  apply Ok_inj in Hp. destruct p as [po ps ph pp pa]. cbn [origin scheme hostname EgressRequest.port addresses] in *.
  injection Hp as <- <- <- <-. split_and!; try done; try lia.
  destruct (scheme_cases _ Hs) as [-> | ->].
  - change (default_port "http") with 80. change (String.eqb "http" "https") with false.
    destruct (Z.eqb_spec q 80) as [->|]; [done|]. destruct (Z.eqb_spec q 0); [lia|done].
  - change (default_port "https") with 443. change (String.eqb "https" "https") with true.
    destruct (Z.eqb_spec q 443) as [->|]; [done|]. destruct (Z.eqb_spec q 0); [lia|done].
Qed.

(** An exception that is no rejection, or one with a fixed reason and a fit destination. *)
Definition refusal (e : exc) : Prop :=
  match e with
  | Rejection r =>
      mem (reason_code r) _REASON_CODES = true /\ witness_ok (rej_web_origin r) (rej_connect_authority r) /\
      egress_performed r = false
  | _ => True
  end.

Lemma refusal_new status reason w a b :
  mem reason _REASON_CODES = true -> witness_ok w a -> refusal (_ProxyRejection status reason w a b false).
Proof. intros Hr Hw. unfold _ProxyRejection. by rewrite Hr. Qed.

(** The web origin of an accepted target. *)
Lemma target_origin target u parsed o :
  normalize_url (VStr target) = Ok u -> urlsplit u = Ok parsed ->
  normalize_origin (VStr (p_scheme parsed +:+ "://" +:+ p_netloc parsed)) = Ok o ->
  normalize_origin (VStr o) = Ok o /\ scheme_of o = Ok (p_scheme parsed).
Proof.
  intros Hu Hs Ho. destruct (normalize_url_form _ _ Hu) as (sc & a & path & q & Hf & Hl).
  rewrite (urlsplit_form _ _ _ _ _ Hf) in Hs. apply Ok_inj in Hs. subst parsed. cbn [p_scheme p_netloc] in *.
  assert (origin_for_url (VStr target) = Ok (sc +:+ "://" +:+ a)) as Hor
    by (apply origin_for_url_form; by exists u, sc, a, path, q).
  rewrite (origin_fixpoint _ _ Hor) in Ho. apply Ok_inj in Ho. subst o. split; [by eapply origin_fixpoint|].
  unfold scheme_of. destruct Hf as [_ Hs Ha _ _ _]. pose proof (urlsplit_text sc a "" Hs Ha eq_refl eq_refl) as Hsp.
  rewrite append_nil_r in Hsp. by rewrite Hsp.
Qed.

Lemma http_origin_of_ok target :
  match http_origin_of target with Return (Some o) => http_origin o | Return None => True | Raise e => refusal e end.
Proof.
  unfold http_origin_of, _origin_from_absolute_target. destruct (normalize_url (VStr target)) as [u|[]] eqn:Hu; try done.
  destruct (urlsplit u) as [parsed|] eqn:Hs; [|done]. cbn [mbind res_bind].
  destruct (normalize_origin _) as [o|] eqn:Ho; [|done]. cbn [mbind res_bind of_res outcome_bind].
  destruct (target_origin _ _ _ _ Hu Hs Ho) as [Hn Hsc]. rewrite Hsc. cbn [mbind res_bind of_res].
  destruct (String.eqb_spec (p_scheme parsed) "http") as [He|]; [|done]. split; [done|]. by rewrite Hsc, He.
Qed.

Lemma host_origin_ok sc host : match host_origin sc host with Return _ => True | Raise e => refusal e end.
Proof.
  unfold host_origin. destruct (negb _); [done|]. destruct (normalize_origin _) as [|e]; [done|].
  by destruct (is_value_error e).
Qed.

Lemma authorized_http_ok target host :
  match _authorized_http_policy (policies c) target host with
  | Return (p, u) => In (origin p, p) (policies c) /\ permitted (Some (origin p)) None /\ http_origin (origin p) /\
                     exists v, normalize_url v = Ok u
  | Raise e => refusal e
  end.
Proof.
  unfold _authorized_http_policy. destruct (normalize_url (VStr target)) as [u|e] eqn:Hu; cbn [mbind res_bind];
    [|destruct (is_value_error e); [by apply refusal_new|done]].
  destruct (urlsplit u) as [parsed|e] eqn:Hs; cbn [mbind res_bind];
    [|destruct (is_value_error e); [by apply refusal_new|done]].
  destruct (normalize_origin _) as [o|e] eqn:Ho; cbn [mbind res_bind];
    [|destruct (is_value_error e); [by apply refusal_new|done]].
  destruct (target_origin _ _ _ _ Hu Hs Ho) as [Hn Hsc].
  destruct (String.eqb_spec (p_scheme parsed) "http") as [He|]; cbn [negb]; [|by apply refusal_new].
  rewrite He in Hsc. destruct (assoc o (policies c)) as [p|] eqn:Ha; [|by apply refusal_new].
  apply assoc_In in Ha. destruct (policy_inv _ _ Ha) as (sc & h & q & _ & _ & _ & _ & Hop & _).
  destruct (String.eqb (scheme p) "http"); cbn [negb]; [|by apply refusal_new].
  pose proof (host_origin_ok "http" host). destruct (host_origin "http" host) as [[x|]|e]; cbn [mbind outcome_bind];
    [|by apply refusal_new|done].
  destruct (String.eqb x o); [|by apply refusal_new]. rewrite Hop. split_and!; try done; [|by exists (VStr target)].
  split; [|done]. unfold keys. apply in_map_iff. by exists (o, p).
Qed.

Lemma connect_authority_ok target host :
  match _connect_authority (policies c) target host with
  | Return (p, a) => In (origin p, p) (policies c) /\ permitted None (Some a) /\ canonical_connect a
  | Raise e => refusal e
  end.
Proof.
  unfold _connect_authority. destruct (negb (count_char 58 target =? 1)); [by apply refusal_new|].
  destruct (rpartition 58 target) as [[raw_host f] raw_port].
  destruct (_ || _ || _); [by apply refusal_new|]. unfold int_of_port.
  destruct (_ <? _)%nat; [done|]. cbn [mbind outcome_bind]. set (p := digits_value 0 raw_port).
  destruct (in_range 1 65535 p) eqn:Hp; cbn [negb]; [|by apply refusal_new].
  assert (1 <= p <= 65535) by (unfold in_range in Hp; lia).
  destruct (normalize_origin _) as [o|[]] eqn:Ho; try done; try (by apply refusal_new).
  destruct (origin_anatomy _ _ Ho) as (sc & h & q & Hs & Hh & Hq & Heq).
  assert (Hsp : urlsplit o = Ok (mk_split sc (canonical_authority sc h q) "" "")) by (rewrite Heq; by apply origin_split).
  rewrite Hsp. cbn [of_res mbind outcome_bind p_netloc].
  destruct (canonical_info sc h q Hh Hq) as [-> _]. cbv zeta.
  assert (Hcan : canonical_connect (h +:+ ":" +:+ dec p)) by (by apply connect_normalizes).
  destruct (assoc o (policies c)) as [pol|] eqn:Ha; [|by apply refusal_new].
  apply assoc_In in Ha. destruct (policy_inv _ _ Ha) as (sc' & h' & q' & Hs' & Hh' & Hq' & Ho' & Hop & Hsc & Hhn & Hpo).
  destruct (String.eqb_spec (scheme pol) "https") as [He|]; cbn [negb orb]; [|by apply refusal_new].
  destruct (Z.eqb_spec (EgressRequest.port pol) p) as [Hpp|]; cbn [negb]; [|by apply refusal_new].
  pose proof (host_origin_ok "https" host). destruct (host_origin "https" host) as [[x|]|e]; cbn [mbind outcome_bind];
    [|by apply refusal_new|done].
  destruct (String.eqb x o); [|by apply refusal_new]. rewrite Hop. split_and!; try done.
  exists o. split; [unfold keys; apply in_map_iff; by exists (o, pol)|].
  assert (hostname_of (canonical_authority sc h q) = hostname_of (canonical_authority sc' h' q')) as Hhost.
  { pose proof (origin_split sc' h' q' Hs' Hh' Hq') as E2. rewrite <- Ho', Hsp in E2. by injection E2 as _ ->. }
  destruct (canonical_info sc h q Hh Hq) as [E1 _]. destruct (canonical_info sc' h' q' Hh' Hq') as [E2 _].
  rewrite E1, E2 in Hhost. injection Hhost as ->.
  rewrite Ho', scheme_of_origin, connect_for_origin by done. rewrite <- Hsc, He. split; [done|]. cbn [String.eqb Ascii.eqb Bool.eqb].
  unfold host_port. by rewrite <- Hpo, Hpp.
Qed.

(** ** Triples *)
Notation wp := (wp c).

Lemma wp_mono {A} (m : prog A) h (Q Q' : A -> holding -> Prop) :
  (forall a h', Q a h' -> Q' a h') -> wp m h Q -> wp m h Q'.
Proof.
  intros HQ. revert h. induction m as [a|k next IH|]; intros h; cbn [EgressLogic.wp]; [by apply HQ| |done].
  intros [Hp Hn]. split; [done|]. intros x Hx. by apply IH, Hn.
Qed.

Lemma wp_bind {A B} (m : prog A) (f : A -> prog B) h Q :
  wp m h (fun a h' => wp (f a) h' Q) -> wp (prog_bind m f) h Q.
Proof.
  revert h. induction m as [a|k next IH|]; intros h; cbn [EgressLogic.wp prog_bind]; [done| |done].
  intros [Hp Hn]. split; [done|]. intros x Hx. by apply IH, Hn.
Qed.

Definition triple {A} (P : holding -> locals -> Prop) (m : M A) (Q : outcome A -> holding -> locals -> Prop) : Prop :=
  forall h l, P h l -> wp (m l) h (fun r h' => Q (fst r) h' (snd r)).

Lemma t_conseq {A} (P P' : holding -> locals -> Prop) (m : M A) (Q Q' : outcome A -> holding -> locals -> Prop) :
  triple P' m Q' -> (forall h l, P h l -> P' h l) -> (forall o h l, Q' o h l -> Q o h l) -> triple P m Q.
Proof. intros Hm HP HQ h l Hl. eapply wp_mono; [|by apply Hm, HP]. cbn. intros [o l'] h'. apply HQ. Qed.

Lemma t_pre {A} (P P' : holding -> locals -> Prop) (m : M A) Q :
  triple P' m Q -> (forall h l, P h l -> P' h l) -> triple P m Q.
Proof. intros Hm HP h l Hl. by apply Hm, HP. Qed.

Lemma t_pure {A} (o : outcome A) (Q : outcome A -> holding -> locals -> Prop) : triple (Q o) (pure o) Q.
Proof. by intros h l Hl. Qed.

Lemma t_ret {A} (a : A) (Q : outcome A -> holding -> locals -> Prop) : triple (Q (Return a)) (ret a) Q.
Proof. by intros h l Hl. Qed.

Lemma t_throw {A} (e : exc) (Q : outcome A -> holding -> locals -> Prop) : triple (Q (Raise e)) (throw e) Q.
Proof. by intros h l Hl. Qed.

Lemma t_suspend {A} P (Q : outcome A -> holding -> locals -> Prop) : triple P suspend Q.
Proof. by intros h l Hl. Qed.

Lemma t_modify f (Q : outcome unit -> holding -> locals -> Prop) :
  triple (fun h l => Q (Return tt) h (f l)) (modify f) Q.
Proof. by intros h l Hl. Qed.

Lemma t_readl {A} (f : locals -> A) (Q : outcome A -> holding -> locals -> Prop) :
  triple (fun h l => Q (Return (f l)) h l) (readl f) Q.
Proof. by intros h l Hl. Qed.

Lemma t_perform k (Q : outcome (answer k) -> holding -> locals -> Prop) :
  triple (fun h l => pre c k h /\ forall a, learns k a -> Q (Return a) (after k h a) l) (perform k) Q.
Proof. by intros h l [Hp Hq]. Qed.

Lemma t_bind {A B} P (R : outcome A -> holding -> locals -> Prop) (Q : outcome B -> holding -> locals -> Prop)
    (m : M A) (k : A -> M B) :
  triple P m R -> (forall a, triple (R (Return a)) (k a) Q) ->
  (forall e h l, R (Raise e) h l -> Q (Raise e) h l) -> triple P (bindM m k) Q.
Proof.
  intros Hm Hk He h l Hl. unfold bindM. apply wp_bind. eapply wp_mono; [|by apply Hm]. intros [[a|e] l'] h'; cbn.
  - apply Hk.
  - apply He.
Qed.

Lemma t_try {A} P (R Q : outcome A -> holding -> locals -> Prop) (m : M A) (k : exc -> M A) :
  triple P m R -> (forall e, triple (R (Raise e)) (k e) Q) ->
  (forall a h l, R (Return a) h l -> Q (Return a) h l) -> triple P (try_catch m k) Q.
Proof.
  intros Hm Hk Ha h l Hl. unfold try_catch. apply wp_bind. eapply wp_mono; [|by apply Hm]. intros [[a|e] l'] h'; cbn.
  - apply Ha.
  - apply Hk.
Qed.

Lemma t_finally {A} P (R Q : outcome A -> holding -> locals -> Prop) (m : M A) (f : M unit) :
  triple P m R ->
  (forall o, triple (R o) f (fun r h l => match r with Return _ => Q o h l | Raise e => Q (Raise e) h l end)) ->
  triple P (try_finally m f) Q.
Proof.
  intros Hm Hf h l Hl. unfold try_finally. apply wp_bind. eapply wp_mono; [|by apply Hm]. intros [o l'] h' Ho.
  apply wp_bind. eapply wp_mono; [|by apply Hf]. by intros [[a|e] l''] h''.
Qed.

(** ** Calls that move nothing *)

(** A rejection that names no destination. *)
Definition bare (e : exc) : Prop :=
  match e with
  | Rejection r => mem (reason_code r) _REASON_CODES = true /\ rej_web_origin r = None /\
                   rej_connect_authority r = None /\ egress_performed r = false
  | _ => True
  end.
Definition bare_out {A} (o : outcome A) : Prop := match o with Raise e => bare e | Return _ => True end.

Definition quiet {A} (m : M A) : Prop := forall P, triple P m (fun o h l => P h l /\ bare_out o).

Definition quiet_call (k : call) : Prop := forall h, pre c k h /\ forall a, after k h a = h.

Lemma quiet_perform k : quiet_call k -> quiet (perform k).
Proof.
  intros Hk P. eapply t_pre; [apply t_perform|]. intros h l Hl. destruct (Hk h) as [Hp Ha]. split; [done|].
  intros a _. by rewrite Ha.
Qed.

Lemma quiet_bind {A B} (m : M A) (k : A -> M B) : quiet m -> (forall a, quiet (k a)) -> quiet (bindM m k).
Proof.
  intros Hm Hk P. eapply t_bind; [apply Hm| |done].
  intros a. eapply t_pre; [apply (Hk a P)|]. by intros h l [Hl _].
Qed.

Lemma quiet_throw {A} e : bare e -> quiet (throw e : M A).
Proof. intros He P. by eapply t_pre; [apply t_throw|]. Qed.

Lemma quiet_ret {A} (a : A) : quiet (ret a).
Proof. intros P. by eapply t_pre; [apply t_ret|]. Qed.

Lemma quiet_try {A} (m : M A) k : quiet m -> (forall e, quiet (k e)) -> quiet (try_catch m k).
Proof.
  intros Hm Hk P. eapply t_try; [apply Hm| |done]. intros e. eapply t_pre; [apply (Hk e P)|]. by intros h l [Hl _].
Qed.

Lemma quiet_io {A} (x : io A) : quiet (io_value x).
Proof. destruct x as [a|[]]; [apply quiet_ret|by apply quiet_throw..]. Qed.

Lemma bare_new status reason b : mem reason _REASON_CODES = true -> bare (_ProxyRejection status reason None None b false).
Proof. intros Hr. unfold _ProxyRejection. by rewrite Hr. Qed.

Lemma quiet_rejected {A} status reason : mem reason _REASON_CODES = true -> quiet (rejected status reason : M A).
Proof. intros Hr P. eapply t_pre; [apply t_pure|]. intros h l Hl. split; [done|]. by apply bare_new. Qed.

Lemma quiet_remaining : quiet _remaining_time.
Proof.
  apply quiet_bind; [by apply quiet_perform|]. intros [b d]. destruct b; [by apply quiet_rejected|].
  destruct d as [d|]; cbn [snd]; [|by apply quiet_throw]. apply quiet_bind; [by apply quiet_perform|]. intros now.
  destruct (reached d now); [by apply quiet_rejected|apply quiet_ret].
Qed.

Lemma quiet_perform_io k (Hk : quiet_call k) {A} (f : answer k -> io A) :
  quiet (bindM (perform k) (fun x => io_value (f x))).
Proof. apply quiet_bind; [by apply quiet_perform|]. intros x. apply quiet_io. Qed.

Lemma quiet_set_timeout : quiet _set_timeout.
Proof. apply quiet_bind; [apply quiet_remaining|]. intros _. by apply (quiet_perform_io SetTimeout). Qed.

Lemma quiet_ignore m : quiet m -> quiet (ignore_os m).
Proof.
  intros Hm P. unfold ignore_os. eapply t_try; [apply Hm| |done]. intros e.
  destruct e; (eapply t_pre; [first [apply t_ret | apply t_throw]|]); by intros h l [Hl Hb].
Qed.

Lemma quiet_safe_error status : quiet (_safe_error status).
Proof.
  apply quiet_ignore. apply quiet_bind; [by apply quiet_perform|]. intros x. apply quiet_bind; [apply quiet_io|].
  intros _. by apply (quiet_perform_io (Reply _)).
Qed.

(** ** A handler at work *)
Definition handling (q : Z) : locals := set_vars (Some q) true true fresh_locals.
Definition vars (l : locals) : locals :=
  mk_locals 0 0 (v_sequence l) (v_web_origin l) (v_connect_authority l) (v_disposition l) (v_reason_code l)
    (v_response_started l) (v_acquired l) (v_registered l).

(** Between the admission of the client [id] as event [q] and its end, with the
    upstream [up] registered; the counts are what was charged. *)
Record live (id : N) (q : Z) (up : option N) (h : holding) (l : locals) : Prop := {
  lv_vars : vars l = handling q;
  lv_id : h_id h = id;
  lv_registered : h_registered h = true;
  lv_up : match up with Some u => h_up h = Some u /\ h_linked h = true | None => h_linked h = false end;
  lv_thread : h_thread h = true;
  lv_slot : h_slot h = true;
  lv_seq : h_seq h = Some q;
  lv_counted : h_counted h = true;
  lv_held : h_held h = None;
  lv_charged : h_charged h = client_to_origin l + origin_to_client l;
  lv_credit : 0 <= h_credit h;
}.

(** Nothing was charged and nothing sent upstream. *)
Definition clean (h : holding) : Prop := h_sent h = false /\ h_charged h = 0.

Lemma size_nonneg s : 0 <= size s.
Proof. unfold size. lia. Qed.

(** ** Running a program symbolically *)
Lemma wp_use {A} P (m : M A) R (Q : outcome A * locals -> holding -> Prop) h l :
  triple P m R -> P h l -> (forall o h' l', R o h' l' -> Q (o, l') h') -> wp (m l) h Q.
Proof. intros Hm Hl HQ. eapply wp_mono; [|by apply Hm]. intros [o l'] h'. apply HQ. Qed.

Lemma wp_seq {A B} P (m : M A) R (f : A -> M B) Q h l :
  triple P m R -> P h l -> (forall a h' l', R (Return a) h' l' -> wp (f a l') h' Q) ->
  (forall e h' l', R (Raise e) h' l' -> Q (Raise e, l') h') -> wp (bindM m f l) h Q.
Proof.
  intros Hm Hl Hf He. apply wp_bind. eapply wp_use; [exact Hm|exact Hl|]. intros [x|e] h' l'; [apply Hf|apply He].
Qed.

Lemma wp_perform {B} k (f : answer k -> M B) Q h l :
  pre c k h -> (forall a, learns k a -> wp (f a l) (after k h a) Q) -> wp (bindM (perform k) f l) h Q.
Proof. done. Qed.

Lemma wp_quiet {A B} (m : M A) (f : A -> M B) Q h l :
  quiet m -> (forall a, wp (f a l) h Q) -> (forall e, bare e -> Q (Raise e, l) h) -> wp (bindM m f l) h Q.
Proof.
  intros Hm Hf He. eapply wp_seq; [apply (Hm (fun h' l' => h' = h /\ l' = l))|done|..].
  - intros a h' l' [[-> ->] _]. apply Hf.
  - intros e h' l' [[-> ->] Hb]. by apply He.
Qed.

Lemma wp_quiet_last {A} (m : M A) (Q : outcome A * locals -> holding -> Prop) h l :
  quiet m -> (forall o, bare_out o -> Q (o, l) h) -> wp (m l) h Q.
Proof.
  intros Hm HQ. eapply wp_use; [apply (Hm (fun h' l' => h' = h /\ l' = l))|done|]. intros o h' l' [[-> ->] Hb]. by apply HQ.
Qed.

Lemma wp_assert {B} (b : bool) (f : unit -> M B) Q h l : b = true -> wp (f tt l) h Q -> wp (bindM (assert b) f l) h Q.
Proof. by intros ->. Qed.

Lemma wp_bindM {A B} (m : M A) (f : A -> M B) Q h l :
  wp (m l) h (fun r h' => match r with (Return a, l') => wp (f a l') h' Q | (Raise e, l') => Q (Raise e, l') h' end) ->
  wp (bindM m f l) h Q.
Proof. intros Hm. apply wp_bind. eapply wp_mono; [|exact Hm]. by intros [[x|e] l'] h'. Qed.

Lemma wp_try {A} (m : M A) (k : exc -> M A) Q h l :
  wp (m l) h (fun r h' => match r with (Return a, l') => Q (Return a, l') h' | (Raise e, l') => wp (k e l') h' Q end) ->
  wp (try_catch m k l) h Q.
Proof. intros Hm. apply wp_bind. eapply wp_mono; [|exact Hm]. by intros [[x|e] l'] h'. Qed.

(** Step over the calls that move nothing. *)
Ltac skip := apply wp_quiet; [first [apply quiet_remaining | apply quiet_set_timeout | apply quiet_safe_error]|intros _|].

Section transfers.
Variables (id : N) (q : Z) (up : option N).
Notation L := (live id q up).

Lemma live_seq h l : L h l -> is_Some (h_seq h).
Proof. intros [Hv Hi Hr Hu Ht Hs Hq]. rewrite Hq. by eexists. Qed.

Lemma t_consume n b : 0 <= n ->
  triple L (_consume_transfer n b) (fun o h l => L h l /\ bare_out o /\ (o = Return tt -> n <= h_credit h)).
Proof.
  intros Hn h l Hl. unfold _consume_transfer. skip; [|by intros e He]. apply wp_perform; [by split; [|eapply live_seq]|].
  intros [[]|]; [| |done]; intros _.
  - destruct Hl. cbn. split_and!; [|done|lia]. split; try done; cbn; [|lia]. destruct b; cbn; lia.
  - cbn. split_and!; [done|by apply bare_new|done].
Qed.

(** Between the reservation and its commit or cancellation. *)
Definition reserving (r : Z) (h : holding) (l : locals) : Prop :=
  h_held h = Some r /\ L (set_bytes None (h_charged h) (h_credit h) h) l.

(** Run the leaves of a program: results and exceptions. *)
Ltac leaf := cbn [io_value ret throw pure rejected reject assert modify readl EgressLogic.wp].

Lemma t_recv from b :
  triple L (_recv_transfer from b)
    (fun o h l => L h l /\ bare_out o /\ match o with Return chunk => size chunk <= h_credit h | Raise _ => True end).
Proof.
  intros h l Hl. unfold _recv_transfer. skip; [|by intros e He].
  apply wp_perform; [split_and!; [done|apply Hl|by eapply live_seq]|].
  intros [[r|]|]; [|by intros _; cbn; split_and!; [|apply bare_new|]|done]. intros Hr. cbn [learns after] in *.
  assert (Hres : reserving r (set_bytes (Some r) (h_charged h) (h_credit h) h) l) by (destruct Hl; by split).
  generalize dependent (set_bytes (Some r) (h_charged h) (h_credit h) h). clear h Hl. intros h [Hh Hl].
  assert (Hcancel : forall e, bare e -> wp (bindM (perform (Cancel r)) (fun x => bindM (assert x) (fun _ => throw e : M string)) l) h
    (fun o h' => match o with (Return _, _) => False | (Raise e', l') => e' = e /\ L h' l' end)).
  { intros e He. apply wp_perform; [done|]. intros a ->. by apply wp_assert. }
  apply wp_bindM, wp_try. skip; [|intros e He; eapply wp_mono; [|by apply Hcancel]; by intros [[x|e'] l'] h'; [|intros [-> HL]]].
  apply wp_perform; [done|]. intros [chunk|e] Hc; cbn [learns] in Hc.
  - leaf. pose proof (size_nonneg chunk). apply wp_perform.
    { split_and!; [done|lia..|]. by apply live_seq in Hl. }
    intros a ->. apply wp_assert; [done|]. apply wp_bindM. leaf.
    destruct Hl as [? ? ? ? ? ? ? ? ? Hch Hcr]. cbn in Hch, Hcr.
    assert (HL : L (after (Commit r (size chunk)) h true) (add_counts b (size chunk) l))
      by (split; try done; cbn; [|lia]; destruct b; cbn; lia).
    skip; [|by intros e He]. leaf. split_and!; try done. cbn. lia.
  - leaf. eapply wp_mono; [|by apply (Hcancel (io_exc e)); destruct e]. intros [[x|e'] l'] h'; [done|].
    intros [-> HL]. cbn. split_and!; try done. by destruct e.
Qed.

Lemma t_send to data :
  triple (fun h l => L h l /\ size data <= h_credit h) (send to data) (fun o h l => L h l /\ bare_out o).
Proof.
  intros h l [Hl Hc]. unfold send. pose proof (size_nonneg data). apply wp_perform; [by split; [|eapply live_seq]|]. intros a _.
  assert (HL : L (after (Send to data) h a) l) by (destruct Hl; split; try done; cbn; lia).
  generalize dependent (after (Send to data) h a). intros h' HL. apply wp_quiet_last; [apply quiet_io|]. by intros o Ho.
Qed.

(** A rejection that names no destination, or this one. *)
Definition names (d : destination) (r : rejection) : Prop :=
  rej_web_origin r = dest_origin d /\ rej_connect_authority r = dest_authority d.
Definition nameless (r : rejection) : Prop := rej_web_origin r = None /\ rej_connect_authority r = None.
Definition about (d : destination) (e : exc) : Prop :=
  match e with
  | Rejection r => mem (reason_code r) _REASON_CODES = true /\ (nameless r \/ names d r)
  | _ => True
  end.
Definition about_out {A} (d : destination) (o : outcome A) : Prop := match o with Raise e => about d e | Return _ => True end.

Lemma bare_about d e : bare e -> about d e.
Proof. destruct e; try done. intros (Hr & Hw & Ha & _). split; [done|]. by left. Qed.

Lemma bare_about_out {A} d (o : outcome A) : bare_out o -> about_out d o.
Proof. destruct o; [done|]. apply bare_about. Qed.

Lemma about_new d status reason b b' : mem reason _REASON_CODES = true ->
  about d (_ProxyRejection status reason (dest_origin d) (dest_authority d) b b').
Proof. intros Hr. unfold _ProxyRejection. rewrite Hr. split; [done|]. by right. Qed.

(** A rejection that says what was done: the destination, and that it was reached. *)
Definition performed (d : destination) (e : exc) : Prop :=
  exists r, e = Rejection r /\ mem (reason_code r) _REASON_CODES = true /\ names d r /\ egress_performed r = true.
Definition performed_out {A} (d : destination) (o : outcome A) : Prop :=
  match o with Raise e => performed d e | Return _ => True end.

Lemma performed_new d status reason b : mem reason _REASON_CODES = true ->
  performed d (_ProxyRejection status reason (dest_origin d) (dest_authority d) b true).
Proof. intros Hr. unfold _ProxyRejection. rewrite Hr. eexists. by split_and!. Qed.

Lemma t_response fuel policy :
  triple L (response_loop fuel policy) (fun o h l => L h l /\ about_out (ToOrigin (origin policy)) o).
Proof.
  induction fuel as [|fuel IH]; intros h l Hl; [done|]. cbn [response_loop]. apply wp_bindM, wp_try.
  eapply wp_use; [apply t_recv|exact Hl|]. clear h l Hl. intros [chunk|e] h l (Hl & Hb & Hc).
  - destruct (String.eqb chunk ""); [done|]. skip; [|by intros e He; split; [|apply bare_about]].
    eapply wp_seq; [apply t_send|done|..]; [|by intros e h' l' [HL He]; split; [|apply bare_about]].
    intros [] h' l' [HL _]. by apply IH.
  - destruct e; try (split; [done|by apply bare_about]). split; [done|].
    apply (about_new (ToOrigin (origin policy))). done.
Qed.

Lemma t_http_transfer fuel policy text :
  triple L (http_transfer fuel policy text) (fun o h l => L h l /\ performed_out (ToOrigin (origin policy)) o).
Proof.
  intros h l Hl. unfold http_transfer. apply wp_try.
  assert (Hexcept : forall e h l, L h l -> about (ToOrigin (origin policy)) e ->
    wp (bindM (readl origin_to_client) (fun got => (match e with
         | Rejection r => throw (mark_http policy (0 <? got) r)
         | _ => reject_to 502 "upstream_failure" (ToOrigin (origin policy)) (0 <? got) true
         end : M unit)) l) h (fun r h' => L h' (snd r) /\ performed_out (ToOrigin (origin policy)) (fst r))).
  { clear. intros e h l Hl He. destruct e as [r| | |];
      try (split; [done|by apply (performed_new (ToOrigin (origin policy)))]).
    split; [done|]. destruct He as [Hr Hn]. unfold mark_http. eexists. split_and!; try done; cbn.
    destruct Hn as [[-> ->]|[-> ->]]; done. }
  eapply wp_seq; [apply (t_consume (size text) true), size_nonneg|exact Hl|..];
    [|by intros e h' l' (HL & He & _); apply Hexcept; [|apply bare_about]].
  clear h l Hl. intros [] h l (Hl & _ & Hc). specialize (Hc eq_refl).
  skip; [|by intros e He; apply Hexcept; [|apply bare_about]].
  eapply wp_seq; [apply t_send|done|..]; [|by intros e h' l' [HL He]; apply Hexcept; [|apply bare_about]].
  clear h l Hl Hc. intros [] h l [Hl _]. eapply wp_use; [apply t_response|exact Hl|].
  intros [x|e] h' l' [HL Ha]; [by split|by apply Hexcept].
Qed.

Lemma t_relay_events a l0 : forall r,
  triple L (relay_events a l0 r) (fun o h l => L h l /\ about_out (ToAuthority a) o).
Proof.
  induction l0 as [|source rest IH]; intros r h l Hl; [done|]. cbn [relay_events]. apply wp_bindM, wp_try.
  eapply wp_use; [apply t_recv|exact Hl|]. clear h l Hl. intros [chunk|e] h l (Hl & Hb & Hc).
  - destruct (String.eqb chunk "").
    + apply wp_quiet; [apply quiet_ignore, (quiet_perform_io (ShutdownWrite _)); done|intros _; by apply IH|].
      intros e He. by split; [|apply bare_about].
    + skip; [|by intros e He; split; [|apply bare_about]].
      eapply wp_seq; [apply t_send|done|..]; [|by intros e h' l' [HL He]; split; [|apply bare_about]].
      intros [] h' l' [HL _]. apply wp_perform; [done|]. intros now _. by apply IH.
  - destruct e; try (split; [done|by apply bare_about]). split; [done|]. by apply (about_new (ToAuthority a)).
Qed.

Lemma t_relay fuel a : forall r,
  triple L (relay_loop c fuel a r) (fun o h l => L h l /\ about_out (ToAuthority a) o).
Proof.
  assert (Hdead : forall h l, L h l -> wp ((deadline_to a : M unit) l) h (fun r h' => L h' (snd r) /\ about_out (ToAuthority a) (fst r)))
    by (intros h l Hl; split; [done|]; by apply (about_new (ToAuthority a))).
  induction fuel as [|fuel IH]; intros r h l Hl; [done|]. cbn [relay_loop]. destruct (_ && _); [done|].
  skip; [|by intros e He; split; [|apply bare_about]]. apply wp_perform; [done|]. intros now _.
  destruct (idle c r now); [by apply Hdead|]. apply wp_perform; [done|]. intros x _.
  apply wp_quiet; [apply quiet_io| |by intros e He; split; [|apply bare_about]]. intros [|e1 evs].
  - skip; [|by intros e He; split; [|apply bare_about]]. apply wp_perform; [done|]. intros now' _.
    destruct (idle c r now'); [by apply Hdead|by apply IH].
  - eapply wp_seq; [apply t_relay_events|exact Hl|..]; [|done]. intros r' h' l' [HL _]. by apply IH.
Qed.

Lemma t_tunnel_except {A} a started (m : M A) R :
  triple L m (fun o h l => L h l /\ about_out (ToAuthority a) o /\ R o h l) ->
  triple L (tunnel_except a started m)
    (fun o h l => L h l /\ performed_out (ToAuthority a) o /\ match o with Return _ => R o h l | Raise _ => True end).
Proof.
  intros Hm h l Hl. unfold tunnel_except. apply wp_try. eapply wp_use; [exact Hm|exact Hl|].
  intros [x|e] h' l' (HL & Ha & HR); [by split_and!|].
  destruct e as [r| | |]; try (split_and!; [done|by apply (performed_new (ToAuthority a))|done]).
  split_and!; [done| |done]. eexists. destruct Ha as [Hr _]. by split_and!.
Qed.

Lemma t_tunnel fuel a remainder :
  triple L (tunnel_transfer c fuel a remainder) (fun o h l => L h l /\ performed_out (ToAuthority a) o).
Proof.
  intros h l Hl. unfold tunnel_transfer. eapply wp_seq; [apply (t_tunnel_except a false _ (fun _ _ _ => True))|exact Hl|..];
    [|clear h l Hl; intros [] h l (Hl & _)|by intros e h' l' (HL & He & _)].
  { intros h' l' HL. skip; [|by intros e He; split_and!; [|apply bare_about|]].
    apply wp_quiet_last; [by apply (quiet_perform_io (Reply _))|]. intros o Ho. by split_and!; [|apply bare_about_out|]. }
  eapply wp_use; [apply (t_tunnel_except a true _ (fun _ _ _ => True))|exact Hl|by intros o h' l' (HL & Ho & _)].
  clear h l Hl. intros h l Hl. apply wp_bindM.
  assert (Hrelay : forall h l, L h l -> wp (_relay_tunnel c fuel a l) h
    (fun r h' => L h' (snd r) /\ about_out (ToAuthority a) (fst r) /\ True)).
  { clear. intros h l Hl. unfold _relay_tunnel. apply wp_perform; [done|]. intros x _.
    apply wp_quiet; [apply quiet_io|intros _|by intros e He; split_and!; [|apply bare_about|]].
    apply wp_perform; [done|]. intros now _. eapply wp_use; [apply t_relay|exact Hl|]. by intros o h' l' [HL Ho]. }
  destruct (String.eqb remainder ""); [by apply Hrelay|].
  eapply wp_seq; [apply (t_consume (size remainder) true), size_nonneg|exact Hl|..];
    [|by intros e h' l' (HL & He & _); split_and!; [|apply bare_about|]].
  clear h l Hl. intros [] h l (Hl & _ & Hc). specialize (Hc eq_refl).
  skip; [|by intros e He; split_and!; [|apply bare_about|]].
  eapply wp_use; [apply t_send|done|]. intros [[]|e] h' l' [HL He]; [by apply Hrelay|]. by split_and!; [|apply bare_about|].
Qed.

End transfers.

Lemma t_release id q u :
  triple (live id q (Some u)) (release_upstream u) (fun o h l => o = Return tt /\ live id q None h l).
Proof.
  intros h l Hl. unfold release_upstream. pose proof (lv_up _ _ _ _ _ Hl) as [Hu Hlk]. apply wp_perform; [done|]. intros [] _.
  assert (HL : live id q None (after (LeaveUpstream u) h tt) l) by (destruct Hl; by split).
  generalize dependent (after (LeaveUpstream u) h tt). intros h' HL.
  apply wp_try, wp_quiet_last; [by apply (quiet_perform_io (CloseUpstream _))|]. by intros [[]|e] _.
Qed.

(** The destination of a policy, as [_connect] reports it. *)
Definition dest_of (policy : OriginPolicy) (a : option string) : destination :=
  match a with None => ToOrigin (origin policy) | Some a => ToAuthority a end.

(** A failed connection: nameless and nothing performed, or with its destination. *)
Definition unconnected (d : destination) (e : exc) : Prop :=
  match e with
  | Rejection r => mem (reason_code r) _REASON_CODES = true /\ (nameless r /\ egress_performed r = false \/ names d r)
  | _ => True
  end.

Lemma bare_unconnected d e : bare e -> unconnected d e.
Proof. destruct e; try done. intros (Hr & Hw & Ha & Hp). split; [done|]. by left. Qed.

Lemma unconnected_new d status reason b b' : mem reason _REASON_CODES = true ->
  unconnected d (_ProxyRejection status reason (dest_origin d) (dest_authority d) b b').
Proof. intros Hr. unfold _ProxyRejection. rewrite Hr. split; [done|]. by right. Qed.

Lemma live_connected id q h l u : live id q None h l -> live id q None (set_up (Some u) false h) l.
Proof. intros []. by split. Qed.

(** What [_connect] leaves behind: nothing sent, and the upstream registered if it returns. *)
Definition connected (id : N) (q : Z) (d : destination) (o : outcome N) (h : holding) (l : locals) : Prop :=
  clean h /\ match o with
            | Return u => live id q (Some u) h l
            | Raise e => live id q None h l /\ unconnected d e
            end.

Lemma connected_raise id q d e h l :
  live id q None h l -> clean h -> unconnected d e -> connected id q d (Raise e) h l.
Proof. by split. Qed.

Lemma t_confirm_peer policy d address u P :
  triple P (confirm_peer policy d address u)
    (fun o h l => P h l /\ match o with Return _ => True | Raise e => unconnected d e end).
Proof.
  intros h l Hl. unfold confirm_peer. apply wp_try.
  assert (Hexcept : forall e, bare e -> wp ((if is_peer_error e
      then bindM (perform (CloseUpstream u)) (fun z => bindM (io_value z) (fun _ => reject_to 502 "peer_mismatch" d false true))
      else throw e : M unit) l) h (fun r h' => P h' (snd r) /\ match fst r with Return _ => True | Raise e' => unconnected d e' end)).
  { intros e He. destruct (is_peer_error e); [|by split; [|apply bare_unconnected]].
    apply wp_perform; [done|]. intros z _.
    apply wp_quiet; [apply quiet_io|intros _|by intros e' He'; split; [|apply bare_unconnected]].
    split; [done|]. by apply unconnected_new. }
  apply wp_perform; [done|]. intros y _. apply wp_quiet; [apply quiet_io| |done]. intros peer.
  apply wp_bindM. destruct (check_peer policy address peer) as [[]|e]; cbn [of_res pure EgressLogic.wp]; [|by apply Hexcept].
  apply wp_quiet_last; [apply quiet_remaining|]. intros [[]|e] Ho; [by split|by apply Hexcept].
Qed.

Lemma t_connect_loop id q policy d addrs :
  In (origin policy, policy) (policies c) -> (forall a, In a addrs -> In a (addresses policy)) ->
  triple (fun h l => live id q None h l /\ clean h) (connect_loop policy d addrs) (connected id q d).
Proof.
  intros Hpol. induction addrs as [|adr addrs IH]; intros Hin h l [Hl Hcl]; cbn [connect_loop].
  { by apply connected_raise, unconnected_new. }
  skip; [|by intros e He; apply connected_raise, bare_unconnected].
  apply wp_perform; [split; [apply Hl|exists (origin policy), policy; split_and!; [done|apply Hin; by left|done]]|].
  intros [u|[]] _; try (apply IH; [intros x Hx; apply Hin; by right|done]); [|by apply connected_raise].
  cbn [after]. apply (live_connected _ _ _ _ u) in Hl. assert (Hup : h_up (set_up (Some u) false h) = Some u) by done.
  assert (Hcl' : clean (set_up (Some u) false h)) by done.
  generalize dependent (set_up (Some u) false h). clear h Hcl. intros h Hl Hup Hcl.
  eapply wp_seq; [apply (t_confirm_peer policy d adr u (fun h' l' => h' = h /\ l' = l))|done|..];
    [|by intros e h' l' [[-> ->] He]; apply connected_raise].
  intros [] h' l' [[-> ->] _]. apply wp_perform; [split_and!; [done|apply Hl|by eapply live_seq]|]. intros [] _.
  - split; [done|]. destruct Hl. by split.
  - apply wp_quiet; [by apply quiet_ignore, (quiet_perform_io (CloseUpstream _))|intros _|].
    + by apply connected_raise, unconnected_new.
    + intros e He. by apply connected_raise, bare_unconnected.
Qed.

Lemma t_connect id q policy a :
  In (origin policy, policy) (policies c) ->
  triple (fun h l => live id q None h l /\ clean h) (_connect policy a) (connected id q (dest_of policy a)).
Proof.
  intros Hpol h l Hl. unfold _connect. apply wp_perform; [done|]. intros r _. destruct (r <=? 0).
  - destruct Hl as [Hl Hcl]. by apply connected_raise, unconnected_new.
  - by apply (t_connect_loop id q).
Qed.

(** ** What a request may end in *)
Definition report (id : N) (q : Z) (o : outcome (option string * option string)) (h : holding) (l : locals) : Prop :=
  live id q None h l /\
  match o with
  | Return (w, a) => permitted w a /\ witness_ok w a
  | Raise (Rejection r) =>
      mem (reason_code r) _REASON_CODES = true /\ witness_ok (rej_web_origin r) (rej_connect_authority r) /\
      if egress_performed r then permitted (rej_web_origin r) (rej_connect_authority r) else clean h
  | Raise _ => clean h
  end.

Definition dest_ok (d : destination) : Prop :=
  permitted (dest_origin d) (dest_authority d) /\ witness_ok (dest_origin d) (dest_authority d).

Lemma report_refusal id q e h l : live id q None h l -> clean h -> refusal e -> report id q (Raise e) h l.
Proof. intros Hl Hc He. split; [done|]. destruct e as [r| | |]; try done. destruct He as (Hr & Hw & ->). done. Qed.

Lemma bare_refusal e : bare e -> refusal e.
Proof. destruct e as [r| | |]; try done. intros (Hr & Hw & Ha & Hp). cbn. by rewrite Hw, Ha. Qed.

Lemma report_unconnected id q d e h l :
  live id q None h l -> clean h -> dest_ok d -> unconnected d e -> report id q (Raise e) h l.
Proof.
  intros Hl Hc [Hp Hw] He. split; [done|]. destruct e as [r| | |]; try done. destruct He as [Hr [[[-> ->] ->]|[-> ->]]]; [done|].
  split_and!; try done. by destruct (egress_performed r).
Qed.

Lemma report_performed id q d e h l : live id q None h l -> dest_ok d -> performed d e -> report id q (Raise e) h l.
Proof. intros Hl [Hp Hw] (r & -> & Hr & [Hn Hn'] & Hpf). split; [done|]. by rewrite Hn, Hn', Hpf. Qed.

(** A transfer over a fresh connection, with its release. *)
Lemma t_exchange id q d u (m : M unit) :
  triple (live id q (Some u)) m (fun o h l => live id q (Some u) h l /\ performed_out d o) ->
  triple (live id q (Some u)) (try_finally m (release_upstream u))
    (fun o h l => live id q None h l /\ performed_out d o).
Proof.
  intros Hm. eapply t_finally; [exact Hm|]. intros o h l [Hl Ho]. eapply wp_use; [apply t_release|exact Hl|].
  by intros o' h' l' [-> HL].
Qed.

Lemma t_plain_http id q fuel method target headers :
  triple (fun h l => live id q None h l /\ clean h)
    (bindM (_handle_plain_http c fuel method target headers) (fun o => ret (Some o, None))) (report id q).
Proof.
  intros h l [Hl Hc]. apply wp_bindM. unfold _handle_plain_http. apply wp_bindM. cbn [pure EgressLogic.wp].
  pose proof (authorized_http_ok target (default "" (PyValue.assoc "host" headers))) as Hok.
  destruct (_authorized_http_policy _ _ _) as [[policy u]|e]; [|by apply report_refusal].
  destruct Hok as (Hpol & Hperm & Horigin & _).
  assert (Hd : dest_ok (ToOrigin (origin policy))) by (by split). apply wp_bindM. cbn [pure EgressLogic.wp].
  unfold outbound. destruct (urlsplit u) as [parsed|e]; cbn [of_res mbind outcome_bind]; [|by apply report_refusal].
  eapply wp_seq; [by apply (t_connect id q policy None)|done|..];
    [|by intros e h' l' [Hc' [HL He]]; eapply report_unconnected].
  clear h l Hl Hc. intros up h l [_ Hl].
  eapply wp_seq; [apply (t_exchange id q (ToOrigin (origin policy))), t_http_transfer|exact Hl|..];
    [|by intros e h' l' [HL He]; eapply report_performed].
  intros [] h' l' [HL _]. split; [done|]. exact Hd.
Qed.

Lemma t_handle_connect id q fuel target headers remainder :
  triple (fun h l => live id q None h l /\ clean h)
    (bindM (_handle_connect c fuel target headers remainder) (fun a => ret (None, Some a))) (report id q).
Proof.
  intros h l [Hl Hc]. apply wp_bindM. unfold _handle_connect. apply wp_bindM. cbn [pure EgressLogic.wp].
  pose proof (connect_authority_ok target (default "" (PyValue.assoc "host" headers))) as Hok.
  destruct (_connect_authority _ _ _) as [[policy a]|e]; [|by apply report_refusal].
  destruct Hok as (Hpol & Hperm & Hcan).
  assert (Hd : dest_ok (ToAuthority a)) by (by split).
  eapply wp_seq; [by apply (t_connect id q policy (Some a))|done|..];
    [|by intros e h' l' [Hc' [HL He]]; eapply report_unconnected].
  clear h l Hl Hc. intros up h l [_ Hl].
  eapply wp_seq; [apply (t_exchange id q (ToAuthority a)), t_tunnel|exact Hl|..];
    [|by intros e h' l' [HL He]; eapply report_performed].
  intros [] h' l' [HL _]. split; [done|]. exact Hd.
Qed.

Lemma quiet_read_head fuel : forall data, quiet (read_head_loop c fuel data).
Proof.
  induction fuel as [|fuel IH]; intros data; cbn [read_head_loop]; [by intros P h l Hl|].
  destruct (cut_head data); [apply quiet_ret|]. destruct (_ <=? _); [by apply quiet_rejected|].
  apply quiet_bind; [apply quiet_set_timeout|intros _]. apply quiet_bind; [by apply quiet_perform|]. intros x.
  apply quiet_bind; [apply quiet_io|]. intros chunk. destruct (String.eqb chunk ""); [by apply quiet_rejected|].
  destruct (_ <? _); [by apply quiet_rejected|apply IH].
Qed.

Lemma parse_request_bare n head : bare_out (_parse_request n head).
Proof.
  assert (Hh : forall lines hs, bare_out (parse_headers hs lines)).
  { induction lines as [|line lines IH]; intros hs; [done|]. cbn [parse_headers]. unfold parse_header.
    destruct (_ || _); [by apply bare_new|]. destruct (partition 58 line) as [[name f] value].
    destruct (bad_name name); [by apply bare_new|]. destruct (has_key _ _); [by apply bare_new|].
    destruct (bad_value _); [by apply bare_new|]. apply IH. }
  unfold _parse_request. destruct (split_crlf head) as [|first lines]; [by apply bare_new|].
  destruct (_ <? _)%nat; [by apply bare_new|]. destruct (_ <? _); [by apply bare_new|].
  destruct (split 32 first) as [|m [|t [|v [|]]]]; try by apply bare_new.
  destruct (existsb _ _); [by apply bare_new|]. destruct (negb _); [by apply bare_new|]. destruct (negb _); [by apply bare_new|].
  pose proof (Hh lines []). destruct (parse_headers [] lines) as [hs|e]; cbn [mbind outcome_bind]; [|done].
  destruct (negb _); [by apply bare_new|]. destruct (existsb _ _); [by apply bare_new|done].
Qed.

Lemma t_handle_request id q fuel :
  triple (fun h l => live id q None h l /\ clean h) (_handle_request c fuel) (report id q).
Proof.
  intros h l [Hl Hc]. unfold _handle_request.
  apply wp_quiet; [apply quiet_read_head| |by intros e He; apply report_refusal, bare_refusal]. intros [head remainder].
  apply wp_bindM. cbn [pure EgressLogic.wp]. pose proof (parse_request_bare (limit max_header_count c) head) as Hb.
  destruct (_parse_request _ head) as [[[method target] headers]|e]; [|by apply report_refusal, bare_refusal].
  destruct (String.eqb method "CONNECT"); [by apply t_handle_connect|].
  assert (Hblocked : forall status reason, mem reason _REASON_CODES = true ->
    wp (bindM (pure (http_origin_of target)) (fun o => pure (reject_origin status reason o)) l) h
      (fun r h' => report id q (fst r) h' (snd r))).
  { intros status reason Hr. apply wp_bindM. cbn [pure EgressLogic.wp]. pose proof (http_origin_of_ok target) as Ho.
    destruct (http_origin_of target) as [[o|]|e]; [..|by apply report_refusal];
      by apply report_refusal, refusal_new. }
  destruct (negb _); [by apply Hblocked|]. destruct (negb _); [by apply Hblocked|]. by apply t_plain_http.
Qed.

(** ** A whole client *)

(** The variables of [handle_client] say what is held. *)
Record ready (id : N) (h : holding) (l : locals) : Prop := {
  rd_id : h_id h = id;
  rd_registered : h_registered h = v_registered l;
  rd_linked : h_linked h = false;
  rd_thread : h_thread h = true;
  rd_slot : h_slot h = v_acquired l;
  rd_seq : h_seq h = v_sequence l;
  rd_counted : h_counted h = true;
  rd_held : h_held h = None;
  rd_charged : h_charged h = client_to_origin l + origin_to_client l;
  rd_idle : v_sequence l = None -> h_charged h = 0;
}.

(** The event that the variables describe is one that may be recorded. *)
Record finishable (h : holding) (l : locals) : Prop := {
  fi_disposition : mem (v_disposition l) ["allowed"; "blocked"] = true;
  fi_reason : mem (v_reason_code l) _REASON_CODES = true;
  fi_witness : witness_ok (v_web_origin l) (v_connect_authority l);
  fi_allowed : v_disposition l = "allowed" -> permitted (v_web_origin l) (v_connect_authority l);
  fi_blocked : v_disposition l = "blocked" -> clean h;
}.

(** No result yet. *)
Definition unset (l : locals) : Prop :=
  v_web_origin l = None /\ v_connect_authority l = None /\ v_disposition l = "blocked" /\
  v_reason_code l = "malformed_request" /\ v_response_started l = false.

Lemma unset_finishable h l : unset l -> clean h -> finishable h l.
Proof. intros (Hw & Ha & Hd & Hr & _) Hc. split; rewrite ?Hd, ?Hr, ?Hw, ?Ha; done. Qed.

Definition body_post (id : N) (o : outcome unit) (h : holding) (l : locals) : Prop :=
  ready id h l /\
  match o with
  | Return _ => finishable h l
  | Raise (Rejection r) =>
      unset l /\ mem (reason_code r) _REASON_CODES = true /\ witness_ok (rej_web_origin r) (rej_connect_authority r) /\
      if egress_performed r then permitted (rej_web_origin r) (rej_connect_authority r) else clean h
  | Raise _ => unset l /\ clean h
  end.

Lemma body_bare id h l e : ready id h l -> unset l -> clean h -> bare e -> body_post id (Raise e) h l.
Proof. intros Hr Hu Hc He. split; [done|]. destruct e as [r| | |]; try done. destruct He as (Hr' & -> & -> & ->). done. Qed.

Lemma live_ready id q h l : live id q None h l -> ready id h l /\ unset l.
Proof.
  intros [Hv]. unfold vars, handling, set_vars, fresh_locals in Hv. cbn in Hv. injection Hv as E1 E2 E3 E4 E5 E6 E7 E8.
  split; [split; congruence|done].
Qed.

Lemma t_client_body fuel id :
  triple (fun h l => h = fresh_holding id /\ l = fresh_locals) (client_body c fuel id) (body_post id).
Proof.
  intros h l [-> ->]. unfold client_body.
  assert (H0r : ready id (fresh_holding id) fresh_locals /\ unset fresh_locals /\ clean (fresh_holding id)) by done.
  destruct H0r as (Hr0 & Hu0 & Hc0).
  apply wp_perform; [done|]. intros [peer|e] _; [|by apply body_bare, bare_new].
  destruct (negb _); [by apply body_bare, bare_new|].
  apply wp_perform; [done|]. intros [] _; cbn [negb]; [|by apply body_bare, bare_new].
  apply wp_perform; [done|]. intros [] _; cbn [negb after]; [|by apply body_bare, bare_new].
  apply wp_bindM. cbn [modify EgressLogic.wp]. apply wp_perform; [done|]. intros [q|] _; cbn [after].
  2: { apply wp_quiet_last; [apply quiet_safe_error|]. intros [[]|e] He; [|by apply body_bare]. split; [done|].
       by apply unset_finishable. }
  apply wp_bindM. cbn [modify EgressLogic.wp]. apply wp_perform; [split; [by eexists|done]|]. intros attempt _.
  cbn [after]. destruct (_ <? attempt); [by apply body_bare, bare_new|].
  apply wp_perform; [done|]. intros [] _; cbn [negb after]; [|by apply body_bare, bare_new].
  apply wp_bindM. cbn [modify EgressLogic.wp]. skip; [|by intros e He; apply body_bare].
  eapply wp_seq; [apply (t_handle_request id q fuel)|by split|..].
  - intros [w a] h l [Hl [Hp Hw]]. apply live_ready in Hl as [[] _]. split; [by split|].
    split; cbn [set_result v_disposition v_reason_code v_web_origin v_connect_authority fst snd]; try done.
  - intros e h l [Hl He]. apply live_ready in Hl as [Hr Hu]. split; [done|]. by destruct e.
Qed.

Lemma t_client_except id e :
  triple (body_post id (Raise e)) (client_except e) (fun _ h l => ready id h l /\ finishable h l).
Proof.
  intros h l [Hr He]. unfold client_except.
  assert (Hleaf : forall l', ready id h l' -> finishable h l' -> forall status,
    wp (_safe_error status l') h (fun r h' => ready id h' (snd r) /\ finishable h' (snd r))).
  { intros l' H1' H2' status. apply wp_quiet_last; [apply quiet_safe_error|]. by intros o _. }
  destruct e as [r| | |].
  2-4: destruct He as [Hu Hc]; apply wp_bindM; cbn [modify EgressLogic.wp]; apply wp_bindM; cbn [readl EgressLogic.wp];
       destruct Hu as (Hw & Ha & Hd & Hrc & Hs); cbn [v_response_started set_result]; rewrite Hs;
       apply Hleaf; [by destruct Hr; split|split; cbn; rewrite ?Hw, ?Ha, ?Hd; done].
  destruct He as ((Hw & Ha & Hd & Hrc & Hs) & Hreason & Hwit & Hp). apply wp_bindM. cbn [modify EgressLogic.wp].
  set (l' := set_result _ _ _ _ _ l).
  assert (Hwe : v_web_origin l' = rej_web_origin r /\ v_connect_authority l' = rej_connect_authority r).
  { subst l'. cbn. rewrite Hw, Ha. unfold or_text. split.
    - destruct (rej_web_origin r) as [o|]; [|done]. destruct (String.eqb_spec o "") as [->|]; [|done].
      destruct (rej_connect_authority r); [done|]. by destruct Hwit as [Hn _].
    - destruct (rej_connect_authority r) as [o|]; [|done]. destruct (String.eqb_spec o "") as [->|]; [|done].
      destruct (rej_web_origin r); [done|]. by cbn in Hwit. }
  assert (Hr' : ready id h l') by (destruct Hr; by split).
  assert (Hf : finishable h l').
  { destruct Hwe as [E1 E2]. split; rewrite ?E1, ?E2; try done; subst l'; cbn [set_result v_disposition v_reason_code];
      rewrite ?Hd; destruct (egress_performed r); done. }
  destruct (response_started r); [by split|]. by apply Hleaf.
Qed.

(** Giving back the registration, the slot and the event, in this order. *)
Lemma t_client_finally id :
  triple (fun h l => ready id h l /\ finishable h l) (client_finally id)
    (fun _ h _ => released (set_thread false h) /\ h_thread h = true).
Proof.
  intros h l [[Hid Hreg Hlk Hth Hsl Hsq Hct Hh Hch Hidle] [F1 F2 F3 F4 F5]].
  unfold client_finally. apply wp_bindM. cbn [readl EgressLogic.wp].
  assert (Hend : forall h l, released (set_thread false h) -> h_thread h = true ->
    wp (bindM (ignore_os (bindM (perform ShutdownClient) (fun x => io_value x)))
         (fun _ => ignore_os (bindM (perform CloseClient) (fun x => io_value x))) l) h
      (fun _ h' => released (set_thread false h') /\ h_thread h' = true)).
  { clear. intros h l Hr Ht. apply wp_quiet; [by apply quiet_ignore, (quiet_perform_io ShutdownClient)|intros _|done].
    apply wp_quiet_last; [by apply quiet_ignore, (quiet_perform_io CloseClient)|done]. }
  assert (Hreg' : forall (f : unit -> M unit) Q, (forall h1, h1 = set_reg false h -> wp (f tt l) h1 Q) ->
    wp (bindM (if_do (v_registered l) (perform (LeaveClient id))) f l) h Q).
  { intros f Q HQ. destruct (v_registered l); cbn [if_do].
    - apply wp_perform; [by split|]. intros [] _. by apply HQ.
    - apply (HQ h). destruct h; cbn in *. by subst. }
  apply Hreg'. clear Hreg'. intros h1 ->.
  assert (Hslot' : forall (f : unit -> M unit) Q, (forall h1, h1 = set_slot false (set_reg false h) -> wp (f tt l) h1 Q) ->
    wp (bindM (if_do (v_acquired l) (bindM (perform ReleaseSlot) (fun b => assert b))) f l) (set_reg false h) Q).
  { intros f Q HQ. destruct (v_acquired l); cbn [if_do].
    - apply wp_bindM, wp_perform; [done|]. intros a ->. by apply HQ.
    - apply (HQ (set_reg false h)). destruct h; cbn in *. by subst. }
  apply Hslot'. clear Hslot'. intros h1 ->. destruct (v_sequence l) as [q|] eqn:Hq.
  - apply wp_bindM. unfold _finish_event. apply wp_assert; [done|]. apply wp_assert; [done|].
    apply wp_perform; [|intros a ->; by apply Hend].
    cbn. split_and!; try done; [split; cbn; try done|]; intros Hb; destruct (F5 Hb) as [Hs Hc0]; try done.
    unfold bytes_of. cbn. lia.
  - apply Hend; [|done]. cbn. split_and!; try done. cbn. by apply Hidle.
Qed.

Lemma t_thread fuel id :
  wp (process_request_thread c fuel id fresh_locals) (fresh_holding id) (fun _ h => released h).
Proof.
  unfold process_request_thread. eapply wp_use with (P := fun h l => h = fresh_holding id /\ l = fresh_locals)
    (R := fun _ h _ => released h); [|done|done].
  eapply (t_finally _ (fun _ h _ => released (set_thread false h) /\ h_thread h = true)).
  - eapply t_try with (R := fun _ h _ => released (set_thread false h) /\ h_thread h = true); [|by intros e h l Hl|done].
    unfold handle_client. eapply (t_finally _ (fun _ h l => ready id h l /\ finishable h l)).
    + eapply t_try; [apply t_client_body|intros e; apply t_client_except|]. intros [] h l [Hr Hf]. done.
    + intros o. eapply t_conseq; [apply t_client_finally|done|]. by intros [] h l.
  - intros o h l [Hr Ht]. apply wp_perform; [done|]. intros a ->. by destruct o.
Qed.

End handler.
End EgressHandler.
