(* ===== verification/EgressFacts.v ===== *)
(** * Runs of the egress proxy

    The invariant of [EgressLogic] holds in every state that the proxy can reach,
    with any number of handler threads interleaved in any way and any behaviour of
    the network, and what it means for the byte budget, for the addresses
    connected to, for the evidence of a finished proxy, and for what is left when
    the handlers are done. *)

From stdpp Require Import base list strings gmap relations sorting.
From Stdlib Require Import ZArith Lia.
From S2P Require Import Prelude PyValue Json JsonFacts StrOps Ip Url UrlFacts BrowserContract BrowserEvidence.
From S2P Require Import EgressAddress EgressRequest EgressProxy EgressLogic EgressHandler.

Local Open Scope Z_scope.

Module EgressFacts.
Import Notes BrowserEvidence EgressAddress EgressRequest EgressProxy EgressLogic EgressHandler.

Section facts.
Context `{IpRelease} `{Unicode} `{UnicodeDigits} `{MonotonicClock} `{!UnicodeLaws}.

(** ** What construction guarantees *)
Record proxy_ok (c : config) : Prop := {
  po_policies : policies_ok c;
  po_origins : Forall (fun o => normalize_origin (VStr o) = Ok o) (BrowserContract.authorized_origins (request c));
  po_bytes : 1 <= max_network_bytes c <= 64 * 1024 * 1024;
  po_events : 1 <= BrowserContract.budget (request c) "max_events" <= MAX_EVIDENCE_EVENTS;
}.

Lemma budgets_bounds b : BrowserContract.in_ranges b ->
  1 <= default 0 (assoc "max_network_bytes" b) <= 64 * 1024 * 1024 /\ 1 <= default 0 (assoc "max_events" b) <= MAX_EVIDENCE_EVENTS.
Proof.
  unfold BrowserContract.in_ranges, BrowserContract._BUDGET_RANGES. intros Hb.
  repeat match goal with
  | Hx : Forall2 _ (_ :: _) _ |- _ =>
      let z := fresh "z" in let k := fresh "k" in let Hk := fresh in
      apply Forall2_cons_inv_l in Hx as ([k z] & ? & [Hk ?] & Hx & ->); cbn [fst snd] in *; subst k
  | Hx : Forall2 _ [] _ |- _ => apply Forall2_nil_inv_l in Hx as ->
  end.
  cbn [assoc String.eqb Ascii.eqb Bool.eqb default from_option id]. lia.
Qed.

Lemma new_proxy_inv req bh ac bp resolver lim c :
  new_proxy req bh ac bp resolver lim = Ok c ->
  exists canonical, BrowserContract.validate_probe_request req = Ok canonical /\ request c = canonical /\
    _pre_resolve resolver (BrowserContract.authorized_origins canonical) = Ok (pinned_by_host c) /\
    make_policies (pinned_by_host c) (BrowserContract.authorized_origins canonical) = Ok (policies c).
Proof.
  unfold new_proxy. destruct (BrowserContract.validate_probe_request req) as [canonical|] eqn:Hv; [|done].
  intros Hc. run_inv. subst c. by exists canonical.
Qed.

Lemma new_proxy_ok req bh ac bp resolver lim c : new_proxy req bh ac bp resolver lim = Ok c -> proxy_ok c.
Proof.
  intros (canonical & Hv & Hr & _ & Hp)%new_proxy_inv.
  apply BrowserContract.validated_canonical in Hv as [_ Ho _ _ _ _ Hb].
  destruct (budgets_bounds _ Hb) as [Hb1 Hb2]. split.
  - intros o p Hin. apply (map_res_In _ _ _ _ Hp) in Hin as (o' & Ho' & Hop). run_inv.
    match type of Hop with context[assoc ?k ?d] => destruct (assoc k d) as [addrs|]; [|done] end.
    apply bind_ok in Hop as (p' & Hq & Hop). injection Hop as -> ->.
    rewrite List.Forall_forall in Ho. split_and!; [by apply Ho| |by rewrite Hr].
    pose proof Hq as Hq'. unfold _origin_policy in Hq'. run_inv. destruct (hostname_of _); [|done]. run_inv. by subst p.
  - by rewrite Hr.
  - unfold max_network_bytes, BrowserContract.budget. by rewrite Hr.
  - unfold BrowserContract.budget. by rewrite Hr.
Qed.

Section runs.
Variable c : config.
Context (Hok : proxy_ok c).
Variable fuel : nat.

(** ** The invariant of a run *)
Definition good (cfg : state * list thread) : Prop :=
  exists hs, inv c (fst cfg) hs /\ Forall2 (fun p h => wp c p h (fun _ h' => released h')) (snd cfg) hs.

Lemma good_initial : good (initial c, []).
Proof.
  exists []. split; [|constructor]. split; cbn.
  - split; cbn; try done; lia.
  - split; cbn; try done; try lia; try set_solver.
    + constructor.
    + intros q. split; [intros [[x Hx]|Hx]; [by rewrite lookup_empty in Hx|set_solver]|lia].
  - split; cbn; try done; try set_solver. constructor.
  - split; cbn; lia.
  - constructor.
Qed.

Lemma total_app {A} (f : A -> Z) l1 l2 : total f (l1 ++ l2) = total f l1 + total f l2.
Proof. induction l1 as [|x l1 IH]; cbn [total app]; [|rewrite IH]; lia. Qed.

(** The parts of the state that the invariant does not mention. *)
Lemma inv_same s s' hs :
  used s' = used s -> reserved s' = reserved s -> forwarded s' = forwarded s -> events s' = events s ->
  inflight s' = inflight s -> next_sequence s' = next_sequence s -> connection_attempts s' = connection_attempts s ->
  active_clients s' = active_clients s -> active_upstreams s' = active_upstreams s -> next_id s' = next_id s ->
  concurrency s' = concurrency s -> thread_slots s' = thread_slots s -> inv c s hs -> inv c s' hs.
Proof. intros E1 E2 E3 E4 E5 E6 E7 E8 E9 E10 E11 E12 [I1 I2 I3 I4 I5]. by split; rewrite ?E1, ?E2, ?E3, ?E4, ?E5, ?E6, ?E7, ?E8, ?E9, ?E10, ?E11, ?E12. Qed.

Lemma inv_accept s hs :
  inv c s hs ->
  inv c (set_sockets (active_clients s) (active_upstreams s) (forwarded s) (next_id s + 1)%N
           (set_counters (connection_attempts s) (listener_rejections s) (concurrency s) (thread_slots s - 1) s))
    (hs ++ [fresh_holding (next_id s)]).
Proof.
  intros [[B1 B2 B3 B4 B5 [B6 B7]] [E1 E2 E3 E4 E5 E6 E7] [S1 S2 S3 S4] [L1 L2] Q]. split; cbn.
  - rewrite map_app. split; rewrite ?total_app; cbn [map total bytes_part fresh_holding h_held h_charged h_credit fst snd default from_option id]; try lia.
    apply Forall_app; split; [done|]. apply Forall_singleton. by split_and!.
  - rewrite map_app. split; rewrite ?total_app, ?omap_app; cbn [map total omap list_omap event_part uncounted fresh_holding h_seq h_counted fst snd]; try done; try lia.
    + intros q. rewrite E1, map_app, in_app_iff. cbn. naive_solver.
    + by rewrite app_nil_r.
  - rewrite map_app. split.
    + intros x. rewrite S1, map_app, in_app_iff. cbn. naive_solver.
    + intros x. rewrite S2, map_app, in_app_iff. cbn. naive_solver.
    + rewrite map_app, concat_app. cbn. apply NoDup_app. split_and!; [done| |apply NoDup_singleton].
      intros x Hx ->%list_elem_of_singleton. apply list_elem_of_In, S4 in Hx. lia.
    + intros x. rewrite map_app, concat_app, in_app_iff. cbn. intros [Hx%S4|[<-|[]]]; lia.
  - rewrite map_app. split; rewrite total_app; cbn [map total slot_part fresh_holding h_slot h_thread fst snd Z.b2z]; lia.
  - apply Forall_app; split; [done|]. by apply Forall_singleton.
Qed.

Lemma transport_same peer now s s' r :
  _transport_rejection_status c peer now s = (s', r) ->
  (r = None -> s' = s) /\ exists o, s' = set_events (events s) (inflight s) o (next_sequence s) s.
Proof.
  unfold _transport_rejection_status. intros Ht.
  assert (s = set_events (events s) (inflight s) (event_overflow s) (next_sequence s) s) by by destruct s.
  repeat case_match; injection Ht as <- <-; (split; [done|]); by eexists.
Qed.

Lemma good_step cfg cfg' : good cfg -> step c fuel cfg cfg' -> good cfg'.
Proof.
  intros (hs & I & Hw) Hs. destruct Hs as [k next a s s' l1 l2 He|peer now starts s s' l Hp|peer now starts s s' l Hp|now s l|s l]; cbn in *.
  - apply Forall2_app_inv_l in Hw as (h1 & hr & W1 & Wr & ->).
    apply Forall2_cons_inv_l in Wr as (h & h2 & Hwp & W2 & ->). cbn [wp] in Hwp. destruct Hwp as [Hpre Hnext].
    destruct (exec_sound _ _ _ _ _ _ _ _ I Hpre He) as [Hl I']. eexists. split; [exact I'|].
    apply Forall2_app; [done|]. constructor; [by apply Hnext|done].
  - unfold process_request in Hp. destruct (_transport_rejection_status c peer now s) as [s1 [r|]] eqn:Ht; [done|].
    apply transport_same in Ht as [Ht _]. specialize (Ht eq_refl) as ->. unfold acquire_thread in Hp.
    destruct (0 <? thread_slots s); [|done]. cbn [negb] in Hp. destruct starts; [|done]. injection Hp as <-.
    exists (hs ++ [fresh_holding (next_id s)]). split; [exact (inv_accept s hs I)|].
    apply Forall2_app; [done|]. constructor; [|constructor]. by apply t_thread, po_policies.
  - exists hs. split; [|done]. unfold process_request in Hp.
    destruct (_transport_rejection_status c peer now s) as [s1 r] eqn:Ht. apply transport_same in Ht as [_ [o ->]].
    destruct r as [r|]; [injection Hp as <-; by apply (inv_same s)|]. unfold acquire_thread in Hp.
    destruct (0 <? _); cbn [negb] in Hp; [destruct starts; [done|]|]; injection Hp as <-; [|by apply (inv_same s)].
    unfold release_thread. cbn [thread_slots set_counters set_events]. pose proof (slots_room c _ _ I) as Hroom.
    rewrite (proj2 (Z.ltb_lt _ _)) by lia. apply (inv_same s); try done. cbn. lia.
  - exists hs. split; [|done]. unfold _begin_runtime. destruct (closed s); [done|]. destruct (started_at s); [done|].
    by apply (inv_same s).
  - exists hs. split; [|done]. by apply (inv_same s).
Qed.

Lemma good_steps cfg cfg' : good cfg -> rtc (step c fuel) cfg cfg' -> good cfg'.
Proof. intros Hg Hr. induction Hr as [|cfg cfg1 cfg' Hs _ IH]; [done|]. by eapply IH, good_step. Qed.

Lemma good_reachable cfg : reachable c fuel cfg -> good cfg.
Proof. apply good_steps, good_initial. Qed.

(** ** The events of a run *)
Lemma sorted_numbers (D : gset Z) n :
  0 <= n -> (forall q, q ∈ D <-> 0 <= q < n) -> merge_sort Z.le (elements D) = seqZ 0 n.
Proof.
  intros Hn HD. apply (StronglySorted_unique Z.le).
  - apply StronglySorted_merge_sort; apply _.
  - apply Sorted_StronglySorted; [apply _|]. apply StronglySorted_Sorted. clear HD D.
    enough (forall a k, 0 <= k -> StronglySorted Z.le (seqZ a k)) as Hs by by apply Hs. clear.
    intros a k Hk. revert a. pattern k. apply natlike_ind; [intros a; constructor| |done].
    clear. intros k Hk IH a. rewrite seqZ_cons by lia. replace (Z.pred (Z.succ k)) with k by lia. constructor; [apply IH|].
    apply List.Forall_forall. intros x Hx%list_elem_of_In%elem_of_seqZ. lia.
  - rewrite merge_sort_Permutation. apply NoDup_Permutation; [apply NoDup_elements|apply NoDup_seqZ|].
    intros q. rewrite elem_of_elements, HD, elem_of_seqZ. lia.
Qed.

Lemma snapshot_numbers s n :
  0 <= n -> (forall q, is_Some (events s !! q) <-> 0 <= q < n) ->
  (forall q e, events s !! q = Some e -> ev_sequence e = q) ->
  map ev_sequence (events_snapshot s) = seqZ 0 n.
Proof.
  intros Hn HD Hk. unfold events_snapshot. rewrite (sorted_numbers _ n); [|done|by intros q; rewrite elem_of_dom].
  assert (Hin : forall q, In q (seqZ 0 n) -> exists e, events s !! q = Some e /\ ev_sequence e = q).
  { intros q Hq%list_elem_of_In%elem_of_seqZ. destruct (proj2 (HD q) ltac:(lia)) as [e He]. exists e. split; [done|by apply Hk]. }
  revert Hin. clear. induction (seqZ 0 n) as [|q l IH]; intros Hin; [done|].
  destruct (Hin q) as (e & He & Hq); [by left|]. cbn. rewrite He. cbn. rewrite Hq. f_equal. apply IH.
  intros x Hx. apply Hin. by right.
Qed.

Lemma snapshot_members s e : In e (events_snapshot s) <-> exists q, events s !! q = Some e.
Proof.
  unfold events_snapshot. rewrite <- list_elem_of_In, list_elem_of_omap. setoid_rewrite merge_sort_Permutation.
  setoid_rewrite elem_of_elements. setoid_rewrite elem_of_dom. naive_solver.
Qed.

Lemma total_perm {A} (f : A -> Z) l l' : l ≡ₚ l' -> total f l = total f l'.
Proof. induction 1; cbn [total]; lia. Qed.

Lemma total_map {A B} (g : A -> B) (f : B -> Z) l : total f (map g l) = total (fun x => f (g x)) l.
Proof. induction l as [|x l IH]; cbn [map total]; [done|]. by rewrite IH. Qed.

Lemma total_ext {A} (f g : A -> Z) l : (forall x, In x l -> f x = g x) -> total f l = total g l.
Proof.
  induction l as [|x l IH]; intros Hf; cbn [total]; [done|]. rewrite (Hf x) by by left. rewrite IH; [done|].
  intros y Hy. apply Hf. by right.
Qed.

Lemma total_zero {A} (f : A -> Z) l : (forall x, In x l -> f x = 0) -> total f l = 0.
Proof.
  intros Hf. rewrite (total_ext _ (fun _ => 0)) by done. clear. induction l as [|x l IH]; cbn [total]; lia.
Qed.

(** The bytes of a snapshot are those of the table. *)
Lemma snapshot_bytes s : total bytes_of (events_snapshot s) = events_bytes (events s).
Proof.
  unfold events_snapshot. set (m := events s). set (f := fun k => match m !! k with Some e => bytes_of e | None => 0 end).
  assert (Ho : forall l, total bytes_of (omap (fun k => m !! k) l) = total f l).
  { induction l as [|k l IH]; [done|]. cbn. unfold f at 1. destruct (m !! k); cbn [total]; by rewrite IH. }
  rewrite Ho, (total_perm f _ (map fst (map_to_list m))).
  - rewrite total_map. unfold events_bytes. rewrite map_fold_foldr.
    rewrite (total_ext _ (fun p => bytes_of (snd p))).
    + induction (map_to_list m) as [|[k e] l IH]; cbn; [done|]. by rewrite IH.
    + intros [k e] Hin%list_elem_of_In%elem_of_map_to_list. unfold f. cbn. by rewrite Hin.
  - rewrite merge_sort_Permutation. apply NoDup_Permutation; [apply NoDup_elements|apply NoDup_fst_map_to_list|].
    intros k. rewrite elem_of_elements, elem_of_dom. split.
    + intros [e He%elem_of_map_to_list]. apply list_elem_of_In, in_map_iff. exists (k, e). by rewrite <- list_elem_of_In.
    + intros ([k' e] & <- & He)%list_elem_of_In%in_map_iff. apply list_elem_of_In, elem_of_map_to_list in He. by eexists.
Qed.

(** What the evidence schema makes of an event. *)
Definition lost (e : EgressProxy.event) : bool :=
  Bool.eqb (absent (ev_web_origin e)) (absent (ev_connect_authority e)) ||
  String.eqb (EgressProxy.ev_disposition e) "allowed" && negb (String.eqb (ev_reason_code e) "completed").

Definition canonical_event (e : EgressProxy.event) : BrowserEvidence.event :=
  if lost e
  then {| BrowserEvidence.ev_sequence := ev_sequence e; ev_source := "egress"; ev_kind := "telemetry_loss";
          web_origin := None; connect_authority := None; BrowserEvidence.ev_disposition := "observed" |}
  else {| BrowserEvidence.ev_sequence := ev_sequence e; ev_source := "egress"; ev_kind := "network_request";
          web_origin := ev_web_origin e; connect_authority := ev_connect_authority e;
          BrowserEvidence.ev_disposition := EgressProxy.ev_disposition e |}.

Lemma browser_event_valid e :
  event_ok c e -> 0 <= ev_sequence e < MAX_EVIDENCE_EVENTS ->
  validate_browser_event (browser_event e) = Ok (canonical_event e).
Proof.
  intros [Hd Hr Hw Ha Hb] Hs. unfold browser_event, canonical_event. change (_ || _) with (lost e).
  assert (Hrange : in_range 0 (MAX_EVIDENCE_EVENTS - 1) (ev_sequence e) = true) by (unfold in_range; lia).
  destruct (lost e) eqn:Hl; unfold validate_browser_event, event_val; dict_eval; cbn [int_in]; rewrite Hrange;
    cbn [negb okb raise_if]; dict_eval.
  - reflexivity.
  - destruct e as [q w a d r n1 n2].
    cbn [ev_sequence ev_web_origin ev_connect_authority EgressProxy.ev_disposition ev_reason_code] in *.
    assert (Hx : in_strs (VStr d) (default [] (assoc "network_request" _KIND_DISPOSITIONS)) = Ok true).
    { apply mem_In in Hd as [<-|[<-|[]]]; reflexivity. }
    rewrite Hx. change (notM (in_strs (VStr "network_request") (keys _KIND_DISPOSITIONS))) with (Ok false : res bool).
    change (mem "egress" (default [] (assoc "network_request" _KIND_SOURCES))) with true.
    change (in_list (VStr "egress") REQUIRED_STREAMS) with true. cbn [negb okb raise_if orM notM].
    apply orb_false_iff in Hl as [Hone _].
    destruct w as [o|], a as [x|]; try done; cbn [opt_text witness_field].
    + destruct Hw as [Hn Hsc]. rewrite Hn. cbn [mbind res_bind]. unfold check_witness. cbn [absent negb andb Bool.eqb okb raise_if].
      change (mem "network_request" _WEB_ORIGIN_REQUIRED_KINDS) with false.
      change (String.eqb "network_request" "network_request") with true. change (String.eqb "egress" "cdp") with false.
      change (String.eqb "egress" "egress") with true. cbn iota. rewrite Hsc. reflexivity.
    + red in Hw. cbn [witness_ok] in Hw. unfold canonical_connect in Hw. rewrite Hw. reflexivity.
Qed.

Lemma permitted_known w a :
  permitted c w a ->
  (forall o, w = Some o -> In o (BrowserContract.authorized_origins (request c))) /\
  (forall x, a = Some x -> authorized_authority (BrowserContract.authorized_origins (request c)) x) /\
  absent w <> absent a.
Proof.
  assert (Hk : forall o, In o (keys (policies c)) -> In o (BrowserContract.authorized_origins (request c))).
  { intros o ([o' p] & <- & Hin)%in_map_iff. by apply (po_policies c Hok) in Hin as (_ & _ & Hin). }
  destruct w as [o|], a as [x|]; cbn [permitted]; try done.
  - intros [Hin _]. split_and!; try done. intros o' [= <-]. by apply Hk.
  - intros (o & Hin & Hs & Hx). split_and!; try done. intros x' [= <-]. exists o. split_and!; try done. by apply Hk.
Qed.

(** Nothing is found of an allowed request; a blocked or a lost one is always found. *)
Lemma canonical_event_notes authorities e :
  allowed_authorities_of (BrowserContract.authorized_origins (request c)) = Ok authorities -> event_ok c e ->
  event_notes (BrowserContract.authorized_origins (request c)) authorities (canonical_event e) = [] <->
  EgressProxy.ev_disposition e = "allowed" /\ ev_reason_code e = "completed".
Proof.
  intros Hauth [Hd Hr Hw Ha Hb].
  destruct (allowed_authorities_ok _ (po_origins c Hok)) as (auth' & Hauth' & Hin).
  rewrite Hauth in Hauth'. apply Ok_inj in Hauth'. subst auth'.
  unfold canonical_event. destruct (lost e) eqn:Hl; unfold lost in Hl.
  - split; [done|]. intros [Hda Hrc]. exfalso. rewrite Hda, Hrc in Hl. cbn in Hl. rewrite orb_false_r in Hl.
    destruct (permitted_known _ _ (Ha Hda)) as (_ & _ & Hne). by apply eqb_prop in Hl.
  - apply orb_false_iff in Hl as [_ Hl]. apply mem_In in Hd as [Hd|[Hd|[]]]; rewrite <- Hd in *.
    + assert (ev_reason_code e = "completed") as Hrc by (by destruct (String.eqb_spec (ev_reason_code e) "completed")).
      split; [by split|intros _]. destruct (permitted_known _ _ (Ha eq_refl)) as (Ho & Hx & _).
      setoid_rewrite <- Hin in Hx. rewrite <- foreign_spec in Ho, Hx. unfold event_notes.
      cbn [ev_kind BrowserEvidence.ev_disposition ev_source web_origin connect_authority]. rewrite Ho, Hx. reflexivity.
    + split; [|by intros [[=] _]]. unfold event_notes.
      cbn [ev_kind BrowserEvidence.ev_disposition ev_source web_origin connect_authority].
      destruct (foreign _ _), (foreign _ _); discriminate.
Qed.

(** ** A closed proxy without clients is final *)
Definition quiescent (s : state) : Prop := closed s = true /\ inflight s = ∅ /\ active_clients s = ∅.

Lemma quiescent_holdings s hs :
  inv c s hs -> quiescent s ->
  forall h, In h hs -> h_seq h = None /\ h_registered h = false /\ h_held h = None /\ h_linked h = false /\ h_charged h = 0.
Proof.
  intros [_ [Hi _ _ _ _ _ _] [Hc _ _ _] _ Hq] (_ & Hinf & Hact) h Hin.
  assert (Hs : h_seq h = None).
  { destruct (h_seq h) as [q|] eqn:Hs; [|done]. exfalso. apply (not_elem_of_empty (C := gset Z) q). rewrite <- Hinf.
    apply Hi. rewrite map_map. apply in_map_iff. by exists h. }
  rewrite List.Forall_forall in Hq. destruct (Hq h Hin Hs) as (H1' & H2' & H3'). split_and!; try done.
  destruct (h_registered h) eqn:Hr; [|done]. exfalso. apply (not_elem_of_empty (C := gset N) (h_id h)). rewrite <- Hact.
  apply Hc. rewrite map_map. apply in_map_iff. exists h. split; [|done]. unfold socket_part. cbn. by rewrite Hr.
Qed.

(** The record of a proxy: what its evidence is made from. *)
Definition record (s : state) : gmap Z EgressProxy.event * Z * Z * Z * option moment * bool :=
  (events s, used s, next_sequence s, connection_attempts s, started_at s, event_overflow s).

Lemma quiescent_exec k s a s' h :
  quiescent s -> h_seq h = None -> h_registered h = false -> h_held h = None -> h_linked h = false ->
  pre c k h -> exec c k s a s' -> quiescent s' /\ record s' = record s.
Proof.
  intros (Hcl & Hinf & Hact) Hs Hr Hh Hl Hp He.
  assert (Hn : ~ is_Some (h_seq h)) by (rewrite Hs; by intros [? [=]]).
  destruct k; cbn in Hp, He; try (by destruct Hp as [? ?]; congruence); try (exfalso; naive_solver congruence).
  all: unfold _begin_runtime, enter_client, acquire_slot, release_slot, release_thread in He; rewrite ?Hcl in He;
    first [ by subst s' | by destruct He as [? ->] | by destruct He as [-> ?]
          | by destruct He as [now He]; injection He as <- <-
          | by destruct a; [destruct He as [_ ->]|subst s']
          | by case_match; injection He as <- <- | by injection He as <- <- ].
Qed.

Lemma quiescent_step cfg cfg' :
  good cfg -> quiescent (fst cfg) -> step c fuel cfg cfg' ->
  quiescent (fst cfg') /\ record (fst cfg') = record (fst cfg).
Proof.
  intros (hs & I & Hw) Hq Hs. destruct Hs as [k next a s s' l1 l2 He|peer now starts s s' l Hp|peer now starts s s' l Hp|now s l|s l]; cbn in *.
  - apply Forall2_app_inv_l in Hw as (h1 & hr & _ & Wr & ->).
    apply Forall2_cons_inv_l in Wr as (h & h2 & [Hpre _] & _ & ->).
    destruct (quiescent_holdings _ _ I Hq h) as (Q1 & Q2 & Q3 & Q4 & _); [apply in_mid; by left|].
    by eapply quiescent_exec.
  - exfalso. destruct Hq as [Hcl _]. unfold process_request, _transport_rejection_status in Hp. rewrite Hcl in Hp.
    by destruct (negb _).
  - destruct Hq as [Hcl Hq]. unfold process_request, _transport_rejection_status in Hp. rewrite Hcl in Hp.
    by destruct (negb _); injection Hp as <-.
  - unfold _begin_runtime. by rewrite (proj1 Hq).
  - by destruct Hq as [_ Hq].
Qed.

Lemma quiescent_steps cfg cfg' :
  good cfg -> quiescent (fst cfg) -> rtc (step c fuel) cfg cfg' ->
  quiescent (fst cfg') /\ record (fst cfg') = record (fst cfg).
Proof.
  intros Hg Hq Hr. induction Hr as [|cfg cfg1 cfg' Hs _ IH]; [done|].
  destruct (quiescent_step _ _ Hg Hq Hs) as [Hq1 Hr1]. destruct IH as [Hq' Hr']; [by eapply good_step|done|].
  split; [done|congruence].
Qed.

Lemma complete_quiescent s : is_complete s = true -> quiescent s.
Proof.
  unfold is_complete. intros Hc. run_inv.
  repeat match goal with Hx : bool_decide _ = true |- _ => apply bool_decide_eq_true in Hx end.
  match goal with Hx : (_ =? 0) = true |- _ => apply Z.eqb_eq in Hx end. split_and!; try done.
  apply leibniz_equiv, size_empty_iff. lia.
Qed.

(** The record of a quiescent proxy. *)
Lemma quiescent_record s hs :
  inv c s hs -> quiescent s ->
  map ev_sequence (events_snapshot s) = seqZ 0 (connection_attempts s) /\
  total bytes_of (events_snapshot s) = used s /\ Forall (event_ok c) (events_snapshot s) /\
  0 <= connection_attempts s <= MAX_EVIDENCE_EVENTS /\ connection_attempts s <= Z.max 0 (event_limit c).
Proof.
  intros I Hq. pose proof (quiescent_holdings _ _ I Hq) as Hh.
  destruct I as [[_ _ Hu _ _ _] [_ _ Hnum _ Hnext Hev Hatt] _ _ _]. destruct Hq as (_ & Hinf & _).
  assert (total uncounted (map event_part hs) = 0) as Hz.
  { rewrite total_map. apply total_zero. intros h Hin. unfold uncounted, event_part. cbn. destruct (Hh h Hin) as [-> _]. done. }
  assert (total (fun p => snd (fst p)) (map bytes_part hs) = 0) as Hch.
  { rewrite total_map. apply total_zero. intros h Hin. unfold bytes_part. cbn. by destruct (Hh h Hin) as (_ & _ & _ & _ & ->). }
  assert (next_sequence s = connection_attempts s) as Hna by lia. rewrite <- Hna.
  split_and!.
  - apply snapshot_numbers; [lia| |by intros q e [He _]%Hev]. intros q. rewrite <- Hnum, Hinf. set_solver.
  - rewrite snapshot_bytes. lia.
  - apply List.Forall_forall. intros e [q He]%snapshot_members. by apply Hev in He as [_ He].
  - lia.
  - pose proof (po_events c Hok). unfold event_limit in Hnext.
    unfold MAX_EVIDENCE_EVENTS in *. lia.
  - lia.
Qed.

(** When no handler is at work, everything has been given back. *)
Lemma finished_holdings s ts :
  good (s, ts) -> (forall t, In t ts -> exists r, t = Ret r) ->
  exists hs, inv c s hs /\ Forall released hs.
Proof.
  intros (hs & I & Hw) Hr. exists hs. split; [done|]. cbn in Hw. revert Hr. clear I. induction Hw as [|t h ts hs Hwp _ IH]; intros Hr; [done|].
  destruct (Hr t) as [r ->]; [by left|]. constructor; [exact Hwp|]. apply IH. intros t Ht. apply Hr. by right.
Qed.

Lemma all_released s hs :
  inv c s hs -> Forall released hs ->
  inflight s = ∅ /\ active_clients s = ∅ /\ active_upstreams s = ∅ /\ reserved s = 0 /\
  concurrency s = limit max_concurrent_connections c /\ thread_slots s = limit max_concurrent_connections c.
Proof.
  intros [[_ Hr _ _ _ _] [Hi _ _ _ _ _ _] [Hc Hu _ _] [Hs Ht] _] Hrel. rewrite List.Forall_forall in Hrel.
  assert (Hno : forall {A} (f : holding -> option A) x, (forall h, released h -> f h = None) -> ~ In (Some x) (map f hs)).
  { intros A f x Hf (h & Hx & Hin)%in_map_iff. rewrite (Hf h (Hrel h Hin)) in Hx. done. }
  assert (Hz : forall {A} (g : holding -> A) f, (forall h, released h -> f (g h) = 0) -> total f (map g hs) = 0).
  { intros A g f Hf. rewrite total_map. apply total_zero. intros h Hin. by apply Hf, Hrel. }
  rewrite Hz in Hr by (intros h (_ & _ & _ & _ & _ & R & _); cbn; by rewrite R).
  rewrite Hz in Hs by (intros h (_ & _ & _ & R & _); cbn; by rewrite R).
  rewrite Hz in Ht by (intros h (_ & _ & R & _); cbn; by rewrite R). rewrite !map_map in *.
  split_and!; try lia.
  - apply leibniz_equiv. intros q. rewrite Hi. split; [|set_solver]. intros Hq. exfalso. revert Hq. apply Hno.
    by intros h (_ & _ & _ & _ & R & _).
  - apply leibniz_equiv. intros q. rewrite Hc. split; [|set_solver]. intros Hq. exfalso. revert Hq. apply Hno.
    intros h (R & _). cbn. by rewrite R.
  - apply leibniz_equiv. intros q. rewrite Hu. split; [|set_solver]. intros Hq. exfalso. revert Hq. apply Hno.
    intros h (_ & R & _). cbn. by rewrite R.
Qed.

(** A snapshot with another number of listener rejections, and complete if there are none. *)
Definition with_rejections (n : Z) (v : pyval) : pyval :=
  VDict (dict_set "complete" (VBool (n =? 0)) (dict_set "listener_rejections" (VInt n) (dict_of v))).

Lemma quiescent_upstreams s hs : inv c s hs -> quiescent s -> active_upstreams s = ∅.
Proof.
  intros I Hq. pose proof (quiescent_holdings _ _ I Hq) as Hh. destruct I as [_ _ [_ Hu _ _] _ _]. apply leibniz_equiv. intros id.
  rewrite Hu. split; [|set_solver]. rewrite map_map. intros (h & Hx & Hin)%in_map_iff. destruct (Hh h Hin) as (_ & _ & _ & Hl & _).
  unfold socket_part in Hx. cbn in Hx. by rewrite Hl in Hx.
Qed.

Lemma later_snapshot s l s1 l1 s2 l2 s3 l3 :
  good (s, l) -> is_complete s = true ->
  rtc (step c fuel) (s, l) (s1, l1) -> rtc (step c fuel) (s1, l1) (s2, l2) -> rtc (step c fuel) (s2, l2) (s3, l3) ->
  telemetry_snapshot c s1 s2 s3 = with_rejections (listener_rejections s1) (telemetry_snapshot c s s s) /\
  browser_events_snapshot s3 = browser_events_snapshot s.
Proof.
  intros Hg Hc R1 R2 R3. pose proof (complete_quiescent _ Hc) as Hq.
  destruct (quiescent_steps _ _ Hg Hq R1) as [Q1 E1]. pose proof (good_steps _ _ Hg R1) as G1.
  destruct (quiescent_steps _ _ G1 Q1 R2) as [Q2 E2]. destruct (quiescent_steps _ _ (good_steps _ _ G1 R2) Q2 R3) as [_ E3].
  cbn [fst] in *. destruct G1 as (hs & I1 & _). cbn [fst] in I1. pose proof (quiescent_upstreams _ _ I1 Q1) as Hup.
  injection E1 as V1 U1 _ A1 S1 O1. injection E2 as V2 U2 _ _ _ _. injection E3 as V3 U3 _ _ _ _.
  destruct Hq as (C0 & I0 & K0), Q1 as (C1 & N1 & K1). unfold is_complete in Hc. run_inv.
  split; [|unfold browser_events_snapshot, events_snapshot; by rewrite V3, V2, V1].
  unfold telemetry_snapshot, with_rejections, is_complete, events_snapshot. cbn [dict_of].
  rewrite ?V2, ?V1, ?U3, ?U2, ?U1, ?A1, ?S1, ?O1, ?C1, ?C0, ?N1, ?I0, ?K1, ?K0, ?Hup.
  repeat match goal with Hx : _ = true |- _ => rewrite Hx | Hx : _ = false |- _ => rewrite Hx end.
  rewrite !bool_decide_true by done. reflexivity.
Qed.

End runs.

(** ** The properties *)

Lemma reachable_budget (c : config) (fuel : nat) (s : state) (threads : list thread) :
  proxy_ok c -> reachable c fuel (s, threads) ->
  0 <= forwarded s <= used s /\ 0 <= reserved s /\ used s + reserved s <= max_network_bytes c /\
  0 <= next_sequence s <= Z.max 0 (event_limit c).
Proof.
  intros Hn Hr. destruct (good_reachable c Hn fuel _ Hr) as (hs & I & _).
  destruct I as [[Hp Hres Hu _ Hl [Hf Hf']] [_ _ _ _ Hnx _ _] _ _ _]. pose proof (po_bytes c Hn).
  assert (0 <= total (fun p => snd p) (map bytes_part hs)).
  { apply total_nonneg. eapply Forall_impl; [exact Hp|]. by intros p (_ & _ & ?). }
  assert (0 <= total (fun p => default 0 (fst (fst p))) (map bytes_part hs)).
  { apply total_nonneg. eapply Forall_impl; [exact Hp|]. intros [[[x|] y] z] (Hx & _ & _); cbn in *; [|done].
    specialize (Hx x eq_refl). lia. }
  cbn in *. lia.
Qed.

(** C7: The byte budget bounds the traffic, whatever the interleaving: in every
    state a proxy can reach, with any number of concurrent handlers and any
    network, the bytes handed from one side to the other are at most the bytes
    used, used and reserved bytes together never exceed max_network_bytes, and
    no more events were numbered than the event limit. *)
Theorem proxy_byte_budget (req bind_host client port : pyval) (resolver : string -> resolution)
    (limits : ProxyLimits) (c : config) (fuel : nat) (s : state) (threads : list thread) :
  new_proxy req bind_host client port resolver limits = Ok c -> reachable c fuel (s, threads) ->
  0 <= forwarded s <= used s /\ 0 <= reserved s /\ used s + reserved s <= max_network_bytes c /\
  0 <= next_sequence s <= Z.max 0 (event_limit c).
Proof. intros Hn. apply reachable_budget. by eapply new_proxy_ok. Qed.

Lemma map_res_both {A B C} (f : B -> res C) (g : A -> B) (h : A -> C) l :
  (forall x, In x l -> f (g x) = Ok (h x)) -> map_res f (map g l) = Ok (map h l).
Proof.
  induction l as [|x l IH]; intros Hf; [done|]. cbn [map map_res]. rewrite Hf by by left. cbn [mbind res_bind].
  rewrite IH; [done|]. intros y Hy. apply Hf. by right.
Qed.

Lemma policy_pinned req bh ac bp resolver lim c o pol :
  new_proxy req bh ac bp resolver lim = Ok c -> In (o, pol) (policies c) ->
  exists h, origin_hostname o = Ok h /\ In (h, addresses pol) (pinned_by_host c).
Proof.
  intros (canonical & _ & _ & _ & Hp)%new_proxy_inv Hin. apply (map_res_In _ _ _ _ Hp) in Hin as (o' & _ & Hop).
  apply bind_ok in Hop as (h & Hh & Hop). destruct (assoc h (pinned_by_host c)) as [addrs|] eqn:Ha; [|done].
  apply bind_ok in Hop as (p' & Hq & Hop). injection Hop as -> ->. exists h. split; [done|].
  unfold _origin_policy in Hq. run_inv. destruct (hostname_of _); [|done]. run_inv. subst pol. by apply assoc_In.
Qed.

(** C6: The proxy connects only where it is authorized to: whenever a handler is
    about to connect, in any state of any run, the port is that of an authorized
    origin and the address is the canonical form of an address its host name was
    resolved to before the proxy started, and it is a public unicast address. *)
Theorem proxy_connects_only_to_pinned (req bind_host client port : pyval) (resolver : string -> resolution)
    (limits : ProxyLimits) (c : config) (fuel : nat) (s : state) (threads : list thread)
    (address : string) (p : Z) (next : io N -> thread) :
  new_proxy req bind_host client port resolver limits = Ok c -> reachable c fuel (s, threads) ->
  In (Call (Connect address p) next) threads ->
  exists scheme h value v a,
    In (origin_of scheme h p) (BrowserContract.authorized_origins (request c)) /\
    resolver h = Answers value /\ In v value /\ _validate_public_address v = Ok address /\
    ip_address address = Some a /\ public a.
Proof.
  intros Hn Hr Hin. pose proof (new_proxy_ok _ _ _ _ _ _ _ Hn) as Hok.
  destruct (good_reachable c Hok fuel _ Hr) as (hs & _ & Hw). cbn in Hw.
  apply list_elem_of_In, list_elem_of_lookup in Hin as [i Hi].
  destruct (Forall2_lookup_l _ _ _ _ _ Hw Hi) as (hd & _ & [(_ & o & pol & Hpol & Hadr & ->) _]).
  destruct (policy_inv c (po_policies c Hok) _ _ Hpol) as (sc & h & q & Hs & Hh & Hq & Ho & _ & _ & _ & Hport).
  destruct (policy_pinned _ _ _ _ _ _ _ _ _ Hn Hpol) as (h' & Hh' & Hpin).
  rewrite Ho in Hh'. unfold origin_hostname in Hh'. rewrite origin_split in Hh' by done. cbn [mbind res_bind p_netloc] in Hh'.
  destruct (canonical_info sc h q Hh Hq) as [Hhn _]. rewrite Hhn in Hh'. apply Ok_inj in Hh'. cbn in Hh'. subst h'.
  apply new_proxy_inv in Hn as (canonical & _ & Hreq & Hpre & _). apply pre_resolve_ok in Hpre as [_ Hpre].
  destruct (Hpre _ _ Hpin) as (value & Hres & _ & _ & _ & Hall). rewrite List.Forall_forall in Hall.
  destruct (Hall _ Hadr) as (v & a & Hv & Hval & Hip & Hpub). exists sc, h, value, v, a. rewrite Hport, <- Ho.
  split_and!; try done. by apply (po_policies c Hok) in Hpol as (_ & _ & Hpol).
Qed.

(** C8: The evidence of a proxy that reports itself complete is complete, consistent
    and final.  Its events are numbered without a gap, one per connection attempt; their
    byte counts add up to the bytes used; each is accepted by the v2 evidence schema; the
    reducer finds nothing of exactly the events that were allowed and completed, so every
    blocked or interrupted request is found; and a blocked request moved no byte.
    Whatever any thread still does, the events never change again, and a telemetry
    snapshot taken later, its three reads under separate locks however far apart, differs
    from that of the moment at most in the listener rejections it counts: a connection
    still accepted by the closing proxy is refused and counted, and the snapshot then
    says incomplete, which it does exactly when it counts any. *)
Theorem proxy_evidence_final (req bind_host client port : pyval) (resolver : string -> resolution)
    (limits : ProxyLimits) (c : config) (fuel : nat) (s s1 s2 s3 : state) (threads t1 t2 t3 : list thread)
    (authorities : list string) :
  new_proxy req bind_host client port resolver limits = Ok c -> reachable c fuel (s, threads) ->
  is_complete s = true -> rtc (step c fuel) (s, threads) (s1, t1) -> rtc (step c fuel) (s1, t1) (s2, t2) ->
  rtc (step c fuel) (s2, t2) (s3, t3) ->
  allowed_authorities_of (BrowserContract.authorized_origins (request c)) = Ok authorities ->
  map ev_sequence (events_snapshot s) = seqZ 0 (connection_attempts s) /\
  total bytes_of (events_snapshot s) = used s /\
  map_res validate_browser_event (browser_events_snapshot s) = Ok (map canonical_event (events_snapshot s)) /\
  Forall (fun e =>
    (event_notes (BrowserContract.authorized_origins (request c)) authorities (canonical_event e) = [] <->
     EgressProxy.ev_disposition e = "allowed" /\ ev_reason_code e = "completed") /\
    (EgressProxy.ev_disposition e = "blocked" -> bytes_of e = 0)) (events_snapshot s) /\
  telemetry_snapshot c s1 s2 s3 = with_rejections (listener_rejections s1) (telemetry_snapshot c s s s) /\
  browser_events_snapshot s3 = browser_events_snapshot s.
Proof.
  intros Hn Hr Hc R1 R2 R3 Ha. pose proof (new_proxy_ok _ _ _ _ _ _ _ Hn) as Hok.
  pose proof (good_reachable c Hok fuel _ Hr) as Hg.
  destruct (later_snapshot c Hok fuel _ _ _ _ _ _ _ _ Hg Hc R1 R2 R3) as [Htel Hev]. apply complete_quiescent in Hc.
  destruct Hg as (hs & I & _). cbn [fst] in I. destruct (quiescent_record c Hok _ _ I Hc) as (Hnum & Hb & Hall & Hmax).
  split_and!; [done|done| | |done|done].
  - apply map_res_both. rewrite List.Forall_forall in Hall. intros e He. apply (browser_event_valid c); [by apply Hall|].
    apply (in_map ev_sequence) in He. rewrite Hnum in He. apply list_elem_of_In, elem_of_seqZ in He. lia.
  - eapply Forall_impl; [exact Hall|]. intros e He. split; [by apply canonical_event_notes|by apply (eo_blocked c)].
Qed.

(** Handlers leave nothing behind: when every handler of a proxy has
    returned, however it ended, no event is in flight, no client or upstream is
    registered, no byte is reserved and every slot is free; so a proxy that was
    started and closed reports itself complete exactly when no event number and
    no connection was refused. *)
Theorem finished_proxy_complete (req bind_host client port : pyval) (resolver : string -> resolution)
    (limits : ProxyLimits) (c : config) (fuel : nat) (s : state) (threads : list thread) :
  new_proxy req bind_host client port resolver limits = Ok c -> reachable c fuel (s, threads) ->
  (forall t, In t threads -> exists r, t = Ret r) ->
  inflight s = ∅ /\ active_clients s = ∅ /\ active_upstreams s = ∅ /\ reserved s = 0 /\
  concurrency s = limit max_concurrent_connections c /\ thread_slots s = limit max_concurrent_connections c /\
  (is_complete s = true <->
   is_Some (started_at s) /\ closed s = true /\ event_overflow s = false /\ listener_rejections s = 0).
Proof.
  intros Hn Hr Ht. apply new_proxy_ok in Hn. pose proof (good_reachable c Hn fuel _ Hr) as Hg.
  destruct (finished_holdings c s threads Hg Ht) as (hs & I & Hrel).
  destruct (all_released c Hn s hs I Hrel) as (E1 & E2 & E3 & E4 & E5 & E6). split_and!; try done.
  unfold is_complete. rewrite E1, E2, E3, size_empty, !andb_true_iff, !bool_decide_eq_true, negb_true_iff, !Z.eqb_eq.
  split; [tauto|]. intros (S1 & S2 & S3 & S4). by split_and!.
Qed.

End facts.
End EgressFacts.
