(* ===== verification/EgressRun.v ===== *)
(** * Concrete runs of the egress proxy

    A world that answers every call, and the thread of one client driven through
    it: a plain request is served, and the properties of [EgressFacts] are applied
    to the states on the way.  The same world with a deadline that passes while
    the connection is made shows what is reported then. *)

From stdpp Require Import base list strings gmap relations.
From Stdlib Require Import ZArith Lia.
From S2P Require Import Prelude PyValue Json StrOps Ip Url UrlFacts BrowserContract BrowserEvidence.
From S2P Require Import EgressAddress EgressRequest EgressProxy EgressLogic EgressHandler EgressFacts.

Local Open Scope Z_scope.

Module EgressRun.
Import BrowserEvidence EgressAddress EgressRequest EgressProxy EgressLogic EgressFacts.

(** Seconds as integers. *)
Definition clock_Z : MonotonicClock :=
  {| moment := Z; plus_sec := fun t v => t + int_of v; reached := fun d now => d <=? now |}.
#[local] Existing Instance clock_Z.
(** A release that knows 10.0.0.0/8 is not global. *)
Definition local_release : IpRelease :=
  {| is_global := fun a => match a with V4 n => negb (n / 2 ^ 24 =? 10) | V6 _ _ => true end;
     is_private := fun _ => false; is_loopback := fun _ => false; is_link_local := fun _ => false;
     is_multicast := fun _ => false; is_reserved := fun _ => false; is_unspecified := fun _ => false;
     dotted_mapped := false |}.
#[local] Existing Instance local_release.
#[local] Existing Instance ascii_unicode.
Definition no_digits : UnicodeDigits := {| u_isdigit := fun _ => false; u_int := fun _ => None |}.
#[local] Existing Instance no_digits.
#[local] Instance ascii_laws : UnicodeLaws.
Proof. by intros s. Qed.

(** What the network and the clock say; they may look at the state. *)
Record world := mk_world {
  w_head : string;
  w_recv : side -> state -> string;
  w_now : state -> Z;
}.

Section driver.
Variable c : config.
Variable w : world.

(** An answer to every call; short reads, and no failures. *)
Definition respond (k : call) (s : state) : answer k * state :=
  match k with
  | BeginRuntime => let '(s', a) := _begin_runtime c 0 s in (a, s')
  | EnterClient id => let '(s', a) := enter_client id s in (a, s')
  | LeaveClient id => (tt, leave_client id s)
  | ReserveEvent => let '(s', a) := _reserve_event c s in (a, s')
  | FinishEvent e => let '(s', a) := finish_locked e s in (a, s')
  | CountAttempt => let '(s', a) := count_attempt s in (a, s')
  | AcquireSlot => let '(s', a) := acquire_slot s in (a, s')
  | ReleaseSlot => let '(s', a) := release_slot c s in (a, s')
  | ReleaseThread => let '(s', a) := release_thread c s in (a, s')
  | ReadDeadline => ((closed s, deadline s), s)
  | Remaining => (remaining c s, s)
  | Consume n => let '(s', a) := consume c n s in (a, s')
  | Reserve n => let '(s', a) := reserve c n s in (a, s')
  | Commit r n => let '(s', a) := commit_reservation r n s in (a, s')
  | Cancel r => let '(s', a) := cancel_reservation r s in (a, s')
  | EnterUpstream id => let '(s', a) := enter_upstream id s in (a, s')
  | LeaveUpstream id => (tt, _release_upstream id s)
  | Clock => (w_now w s, s)
  | ClientPeer => (inl (Some (allowed_client_ip c)), s)
  | RecvHead n => (if size (w_head w) <=? n then inl (w_head w) else inr IoError, s)
  | Recv from n => let data := w_recv w from s in (if size data <=? n then inl data else inr IoError, s)
  | Reply _ | SetTimeout | RegisterReaders | CloseUpstream _ | ShutdownWrite _ | ShutdownClient | CloseClient => (inl tt, s)
  | Connect _ _ =>
      (inl (next_id s), set_sockets (active_clients s) (active_upstreams s) (forwarded s) (next_id s + 1)%N s)
  | PeerOf _ => (inl (Pair (VStr "93.184.216.34") (VInt 80)), s)
  | Send _ data =>
      (inl tt, set_sockets (active_clients s) (active_upstreams s) (forwarded s + size data) (next_id s) s)
  | Select _ _ => (inl [], s)
  end.

Lemma respond_exec k s : exec c k s (fst (respond k s)) (snd (respond k s)).
Proof.
  destruct k; cbn; try done;
    repeat match goal with |- context[let '(_, _) := ?x in _] => destruct x eqn:?; cbn end; try done; try (by eexists).
  - match goal with |- context[size ?x <=? ?n] => destruct (Z.leb_spec (size x) n) end; by split.
  - match goal with |- context[size ?x <=? ?n] => destruct (Z.leb_spec (size x) n) end; by split.
  - exists (size data). split; [pose proof (EgressHandler.size_nonneg data); lia|done].
Qed.

(** [n] calls of one thread. *)
Fixpoint play (n : nat) (s : state) (t : thread) : state * thread :=
  match n, t with
  | S n', Call k next => let '(a, s') := respond k s in play n' s' (next a)
  | _, _ => (s, t)
  end.

Lemma play_steps fuel n : forall s t, rtc (step c fuel) (s, [t]) (fst (play n s t), [snd (play n s t)]).
Proof.
  induction n as [|n IH]; intros s t; [done|]. destruct t as [r|k next|]; cbn [play]; try done.
  pose proof (respond_exec k s) as He. destruct (respond k s) as [a s']. cbn in He.
  eapply rtc_l; [|apply IH]. by apply (step_call c fuel k next a s s' [] []).
Qed.

(** The proxy is bound, a client is accepted, and its thread makes [n] calls. *)
Definition bound : state := fst (_begin_runtime c 0 (initial c)).
Definition accept (s : state) : state :=
  set_sockets (active_clients s) (active_upstreams s) (forwarded s) (next_id s + 1)%N s.
Definition handler (fuel : nat) (s : state) : thread := process_request_thread c fuel (next_id s) fresh_locals.
Definition serve (fuel n : nat) (s : state) : state * thread := play n (accept s) (handler fuel s).

Lemma serve_reachable fuel n peer now s :
  process_request c peer now true bound = (s, true) ->
  reachable c fuel (fst (serve fuel n s), [snd (serve fuel n s)]).
Proof.
  intros Hp. eapply rtc_l; [apply (step_bind c fuel (0 : @moment clock_Z))|].
  eapply rtc_l; [apply (step_accept c fuel peer now true _ _ [] Hp)|]. apply play_steps.
Qed.

Lemma shutdown_reachable fuel s threads :
  reachable c fuel (s, threads) -> reachable c fuel (shutdown_locked s, threads).
Proof. intros Hr. eapply rtc_r; [exact Hr|]. apply step_shutdown. Qed.

End driver.

(** ** A request served *)
Definition proxy_request : pyval :=
  VDict [("contract_version", VStr BrowserContract.CONTRACT_VERSION); ("url", VStr "http://a.example.com/");
         ("authorized_origins", VList [VStr "http://a.example.com"]);
         ("navigation", VDict BrowserContract.PASSIVE_NAVIGATION); ("budgets", VDict BrowserContract.DEFAULT_BUDGETS)].

Definition empty_config : config :=
  mk_config {| BrowserContract.req_url := ""; BrowserContract.authorized_origins := []; BrowserContract.budgets := [] |}
    "" 0 "" 0 default_limits [] [].
Definition sample_proxy : config :=
  BrowserContract.ok_or empty_config
    (new_proxy proxy_request (VStr "10.0.0.1") (VStr "10.0.0.2") (VInt 3128) sample_resolver default_limits).

Definition served : world := {|
  w_head := "GET http://a.example.com/ HTTP/1.1" +:+ crlf +:+ "Host: a.example.com" +:+ blank_line;
  w_recv := fun from s => if forwarded s <? 80 then "HTTP/1.1 200 OK" +:+ blank_line +:+ "hello" else "";
  w_now := fun _ => 1;
|}.

Definition admitted : state :=
  fst (process_request sample_proxy (Some "10.0.0.2") (1 : @moment clock_Z) true (bound sample_proxy)).
Definition after_calls (w : world) (n : nat) : state * thread := serve sample_proxy w 5 n admitted.

Lemma sample_proxy_new :
  new_proxy proxy_request (VStr "10.0.0.1") (VStr "10.0.0.2") (VInt 3128) sample_resolver default_limits = Ok sample_proxy.
Proof. vm_compute. reflexivity. Qed.

Lemma played_reachable w n :
  reachable sample_proxy 5 (fst (after_calls w n), [snd (after_calls w n)]).
Proof.
  apply (serve_reachable sample_proxy w 5 n (Some "10.0.0.2") (1 : @moment clock_Z) admitted).
  vm_compute. reflexivity.
Qed.

(** Views of a thread that do not look at its continuation. *)
Definition connects_to (t : thread) : option (string * Z) :=
  match t with Call k _ => match k with Connect a p => Some (a, p) | _ => None end | _ => None end.
Definition returned (t : thread) : bool := match t with Ret _ => true | _ => false end.

Lemma connects_inv t a p : connects_to t = Some (a, p) -> exists next, t = Call (Connect a p) next.
Proof. destruct t as [|k next|]; try done. destruct k; try done. cbn. intros [= -> ->]. by exists next. Qed.

Lemma returned_inv t : returned t = true -> forall t', In t' [t] -> exists r, t' = Ret r.
Proof. destruct t as [r| |]; try done. intros _ t' [<-|[]]. by exists r. Qed.

(** ** Witnesses *)
Lemma proxy_byte_budget_witness :
  let s := fst (after_calls served 100) in
  forwarded s = 82 /\ used s = 82 /\ used s + reserved s <= max_network_bytes sample_proxy.
Proof.
  cbv zeta. split_and!; [vm_compute; reflexivity..|].
  destruct (proxy_byte_budget _ _ _ _ _ _ _ _ _ _ sample_proxy_new (played_reachable served 100)) as (_ & _ & Hb & _).
  exact Hb.
Defined.

Lemma proxy_connects_only_to_pinned_witness :
  connects_to (snd (after_calls served 15)) = Some ("93.184.216.34", 80) /\
  exists a, ip_address "93.184.216.34" = Some a /\ public a.
Proof.
  assert (Hc : connects_to (snd (after_calls served 15)) = Some ("93.184.216.34", 80)) by (vm_compute; reflexivity).
  split; [exact Hc|]. destruct (connects_inv _ _ _ Hc) as [next Hn].
  destruct (proxy_connects_only_to_pinned _ _ _ _ _ _ _ _ _ _ "93.184.216.34" 80 next sample_proxy_new
    (played_reachable served 15) (or_introl Hn)) as (_ & _ & _ & _ & a & _ & _ & _ & _ & Ha & Hp).
  exists a. exact (conj Ha Hp).
Defined.

(** The client is served and the proxy shut down. *)
Definition finished : state := shutdown_locked (fst (after_calls served 100)).

Lemma finished_reachable : reachable sample_proxy 5 (finished, [snd (after_calls served 100)]).
Proof. exact (shutdown_reachable sample_proxy 5 _ _ (played_reachable served 100)). Qed.

Lemma proxy_evidence_final_witness :
  is_complete finished = true /\ length (events_snapshot finished) = 1%nat /\
  map_res validate_browser_event (browser_events_snapshot finished) = Ok (map canonical_event (events_snapshot finished)) /\
  total bytes_of (events_snapshot finished) = 82.
Proof.
  assert (Hc : is_complete finished = true) by (vm_compute; reflexivity).
  assert (Hu : used finished = 82) by (vm_compute; reflexivity).
  destruct (proxy_evidence_final _ _ _ _ _ _ _ _ finished finished finished finished _ _ _ _ [] sample_proxy_new finished_reachable Hc
    (rtc_refl _ _) (rtc_refl _ _) (rtc_refl _ _) ltac:(vm_compute; reflexivity)) as (_ & Hb & Hv & _).
  split_and!; [exact Hc|vm_compute; reflexivity|exact Hv|congruence].
Defined.

Lemma finished_proxy_complete_witness :
  returned (snd (after_calls served 100)) = true /\ active_clients finished = ∅ /\ reserved finished = 0 /\
  is_complete finished = true.
Proof.
  assert (Hr : returned (snd (after_calls served 100)) = true) by (vm_compute; reflexivity).
  destruct (finished_proxy_complete _ _ _ _ _ _ _ _ _ _ sample_proxy_new finished_reachable (returned_inv _ Hr))
    as (_ & Ha & _ & Hb & _ & _ & Hc).
  split_and!; [exact Hr|exact Ha|exact Hb|]. apply (proj2 Hc).
  split_and!; [exists (0 : @moment clock_Z); vm_compute; reflexivity|vm_compute; reflexivity..].
Defined.

(** ** A deadline during the connection

    The check of the time after the peer is confirmed is inside the [try] whose
    handler marks performed egress, but a rejection is not among the exceptions
    caught there: the connection was made, is never closed by the handler, and the
    request is recorded as blocked, without its destination. *)
Definition late : world := {|
  w_head := w_head served;
  w_recv := w_recv served;
  w_now := fun s => if (1 <? next_id s)%N then 100 else 1;
|}.

Theorem connected_but_blocked :
  connects_to (snd (after_calls late 15)) = Some ("93.184.216.34", 80) /\
  next_id (fst (after_calls late 16)) = 2%N /\
  events_snapshot (fst (after_calls late 100)) = [mk_event 0 None None "blocked" "deadline" 0 0].
Proof. vm_compute. repeat split. Qed.

End EgressRun.
