(* ===== verification/WorkerWire.v ===== *)
(** * Frames between the egress worker and its parent

    The pipe protocol of broker/browser_egress_worker.py: a four-byte length and a
    strict JSON object.  Reading and writing run over a list of what the pipe
    does, one entry per turn of the loop, so a frame may arrive in any pieces; the
    frames that were written are the frames that are read. *)

From stdpp Require Import base list strings.
From Stdlib Require Import ZArith Lia.
From S2P Require Import Prelude PyValue Sha256 Json JsonFacts StrOps UrlFacts Evidence EvidenceFacts JsonLoads.

Local Open Scope Z_scope.

Module WorkerWire.

Definition PROTOCOL_VERSION : string := "cindermote.browser-egress-worker/v2".
Definition MAX_CONFIG_FRAME_BYTES : Z := 128 * 1024.
Definition MAX_STATUS_FRAME_BYTES : Z := 1024 * 1024.

Definition protocol_error {A} (msg : string) : res A := Err (BrowserEgressWorkerProtocolError msg).
Definition timeout_error {A} (msg : string) : res A := Err (BrowserEgressWorkerTimeout msg).

Definition size (s : string) : Z := Z.of_nat (String.length s).

(** ** JSON *)

(** [\uXXXX] *)
Definition u_escape (n : Z) : string :=
  chr 92 +:+ "u" +:+ String (hex_digit (n / 4096 mod 16)) (String (hex_digit (n / 256 mod 16))
    (String (hex_digit (n / 16 mod 16)) (String (hex_digit (n mod 16)) ""))).

(** A code point beyond the first plane is written as two surrogates. *)
Definition escape_point (n : Z) : string :=
  if n <? 65536 then u_escape n
  else u_escape (55296 + (n - 65536) / 1024) +:+ u_escape (56320 + (n - 65536) mod 1024).

(** What [ensure_ascii=True] adds to the text of [dumps]: characters outside
    [' '..'~'] occur only inside strings, where they become escapes. *)
Fixpoint ensure_ascii (s : string) : string :=
  match s with
  | EmptyString => ""
  | String c r =>
      let b := byte_of c in
      if b <? 127 then String c (ensure_ascii r)
      else if b <? 192 then escape_point b +:+ ensure_ascii r
      else match r with
           | EmptyString => escape_point b
           | String c1 r1 =>
               let b1 := byte_of c1 - 128 in
               if b <? 224 then escape_point ((b - 192) * 64 + b1) +:+ ensure_ascii r1
               else match r1 with
                    | EmptyString => escape_point b
                    | String c2 r2 =>
                        let b2 := byte_of c2 - 128 in
                        if b <? 240 then escape_point ((b - 224) * 4096 + b1 * 64 + b2) +:+ ensure_ascii r2
                        else match r2 with
                             | EmptyString => escape_point b
                             | String c3 r3 =>
                                 escape_point ((b - 240) * 262144 + b1 * 4096 + b2 * 64 + (byte_of c3 - 128))
                                 +:+ ensure_ascii r3
                             end
                    end
           end
  end.

(** [TypeError] for bytes, [ValueError] for a number that is not finite or an integer
    with too many digits. *)
Fixpoint serializable (v : pyval) : bool :=
  match v with
  | VBytes _ | VFloat FNan | VFloat (FInf _) => false
  | VInt z => negb (too_long z)
  | VList l => forallb serializable l
  | VDict d => forallb (fun kv => serializable (snd kv)) d
  | _ => true
  end.

Section wire.
Variables (parse_float : string -> pyfloat) (float_repr : pyfloat -> string).

(** [json.dumps(value, sort_keys=True, separators=(",", ":"), ensure_ascii=True, allow_nan=False)] *)
Definition dump_ascii (v : pyval) : string := ensure_ascii (dumps float_repr v).

(** The two hooks raise the protocol error themselves and a decode error becomes one;
    the plain [ValueError] of an integer with too many digits is not caught.  The text
    cannot have more containers open than characters (the interpreter's limit on them
    is not modelled here). *)
Definition _json_object (raw : string) : res pydict :=
  if negb (Evidence.utf8_ok 0 128 191 raw) || has_surrogate raw then protocol_error "invalid IPC JSON"
  else let n := S (String.length raw) in
       match tag_value parse_float StrictHooks n n (skip_ws raw) with
       | Repeated => protocol_error "duplicate IPC JSON key"
       | Constant => protocol_error "non-finite IPC JSON number"
       | TooManyDigits => Err (ValueError digit_error)
       | Syntax | TooDeep => protocol_error "invalid IPC JSON"
       | Scan value rest =>
           if negb (String.eqb (skip_ws rest) "") then protocol_error "invalid IPC JSON"
           else match value with VDict d => Ok d | _ => protocol_error "IPC frame must be an object" end
       end.

(** What the strict decoder of [Json] reads is what it returns. *)
Lemma json_object_loads raw d :
  Evidence.utf8_ok 0 128 191 raw = true -> has_surrogate raw = false -> strict_loads parse_float raw = Ok (VDict d) -> _json_object raw = Ok d.
Proof.
  intros Hu Hs. unfold strict_loads, load_text, _json_object. rewrite Hu, Hs. cbn [negb orb]. set (n := S (String.length raw)). cbv zeta.
  rewrite <- (proj1 (tag_erase parse_float StrictHooks n)) with (d := n) by (apply (proj1 (deep_enough parse_float StrictHooks n)); lia).
  destruct (tag_value _ _ _ _ _) as [v r| | | | |]; [|done..]. cbn [erase]. destruct (skip_ws r); [|done]. intros [= ->]. done.
Qed.

(** ** Encoding *)

(** [struct.Struct(">I")] *)
Definition pack (n : Z) : string :=
  chr (n / 16777216 mod 256) +:+ chr (n / 65536 mod 256) +:+ chr (n / 256 mod 256) +:+ chr (n mod 256).
Fixpoint unpack_from (acc : Z) (s : string) : Z :=
  match s with EmptyString => acc | String c r => unpack_from (256 * acc + byte_of c) r end.
Definition unpack (s : string) : Z := unpack_from 0 s.

Definition _encode_frame (value : pyval) (maximum : Z) : res string :=
  raise (BrowserEgressWorkerProtocolError "IPC value is not strict JSON") when negb (serializable value);;
  let payload := dump_ascii value in
  raise (BrowserEgressWorkerProtocolError "IPC frame exceeds its byte limit")
    when String.eqb payload "" || (maximum <? size payload);;
  Ok (pack (size payload) +:+ payload).

(** ** Writing *)
Fixpoint drop_bytes (n : nat) (s : string) : string :=
  match n, s with S n', String _ r => drop_bytes n' r | _, _ => s end.

(** How a turn of the loop of [_write_all] ends: the deadline, [select] without
    the descriptor, an exception of [os.write], or the number of bytes taken. *)
Inductive write_event := WriteExpired | NotWritable | WriteInterrupted | WriteFailed | Written (count : Z).

(** The result, and the bytes that are in the pipe. *)
Fixpoint _write_all (payload : string) (l : list write_event) : res unit * string :=
  match payload, l with
  | EmptyString, _ => (Ok tt, "")
  | _, [] | _, WriteExpired :: _ => (timeout_error "worker IPC deadline expired", "")
  | _, NotWritable :: _ => (timeout_error "worker IPC write timed out", "")
  | _, WriteInterrupted :: l' => _write_all payload l'
  | _, WriteFailed :: _ => (protocol_error "worker IPC write failed", "")
  | _, Written count :: l' =>
      if count <=? 0 then (protocol_error "worker IPC write made no progress", "")
      else
        let taken := slice (Z.to_nat count) (slice 4096 payload) in
        let '(r, out) := _write_all (drop_bytes (String.length taken) payload) l' in (r, taken +:+ out)
  end.

Definition _write_frame (value : pyval) (maximum : Z) (l : list write_event) : res unit * string :=
  match _encode_frame value maximum with
  | Err e => (Err e, "")
  | Ok payload => _write_all payload l
  end.

(** ** Reading *)

(** How a turn of the loop of [_read_exact] ends; [Readable ""] is the end of the
    stream, and what [os.read] does not take stays in the pipe. *)
Inductive read_event := ReadExpired | NotReadable | ReadInterrupted | ReadFailed | Readable (data : string).

Fixpoint read_loop (count : nat) (result : string) (l : list read_event) : res string * list read_event :=
  if (count <=? String.length result)%nat then (Ok result, l)
  else match l with
       | [] => (timeout_error "worker IPC deadline expired", [])
       | ReadExpired :: l' => (timeout_error "worker IPC deadline expired", l')
       | NotReadable :: l' => (timeout_error "worker IPC read timed out", l')
       | ReadInterrupted :: l' => read_loop count result l'
       | ReadFailed :: l' => (protocol_error "worker IPC read failed", l')
       | Readable data :: l' =>
           if String.eqb data "" then (protocol_error "worker IPC closed early", l')
           else
             let wanted := (count - String.length result)%nat in
             if (String.length data <=? wanted)%nat then read_loop count (result +:+ data) l'
             else (Ok (result +:+ slice wanted data), Readable (drop_bytes wanted data) :: l')
       end.

Definition _read_exact (count : Z) (l : list read_event) : res string * list read_event :=
  read_loop (Z.to_nat count) "" l.

Definition _read_frame (maximum : Z) (l : list read_event) : res pydict * list read_event :=
  match _read_exact 4 l with
  | (Err e, l) => (Err e, l)
  | (Ok header, l) =>
      let length := unpack header in
      if negb (in_range 1 maximum length) then (protocol_error "worker IPC length is invalid", l)
      else match _read_exact length l with
           | (Err e, l) => (Err e, l)
           | (Ok raw, l) => (_json_object raw, l)
           end
  end.

(** [n] frames in a row *)
Fixpoint read_frames (maximum : Z) (n : nat) (l : list read_event) : res (list pydict) * list read_event :=
  match n with
  | O => (Ok [], l)
  | S n' =>
      match _read_frame maximum l with
      | (Err e, l) => (Err e, l)
      | (Ok d, l) =>
          match read_frames maximum n' l with
          | (Ok ds, l) => (Ok (d :: ds), l)
          | (Err e, l) => (Err e, l)
          end
      end
  end.

(** ** Facts *)

(** A pipe that delivers [s], in pieces, with interruptions, and then nothing. *)
Inductive delivers : list read_event -> string -> Prop :=
  | delivers_end : delivers [] ""
  | delivers_again l s : delivers l s -> delivers (ReadInterrupted :: l) s
  | delivers_data d l s : d <> "" -> delivers l s -> delivers (Readable d :: l) (d +:+ s).

Lemma take_drop n s : slice n s +:+ drop_bytes n s = s.
Proof.
  revert n; induction s as [|c s IH]; intros [|n]; try done. unfold slice in *. cbn [String.substring drop_bytes].
  by rewrite append_cons, IH.
Qed.

Lemma slice_app n s t : String.length s = n -> slice n (s +:+ t) = s.
Proof. intros <-. unfold slice. apply (substring_prefix "" s t). Qed.

Lemma drop_app s t : drop_bytes (String.length s) (s +:+ t) = t.
Proof. induction s as [|c s IH]; [by destruct t|]. rewrite append_cons. exact IH. Qed.

Lemma app_split s1 s2 t1 t2 :
  s1 +:+ s2 = t1 +:+ t2 -> (String.length s1 <= String.length t1)%nat -> exists r, t1 = s1 +:+ r /\ s2 = r +:+ t2.
Proof.
  revert t1; induction s1 as [|c s1 IH]; intros t1 He Hl; [by exists t1|].
  destruct t1 as [|d t1]; cbn in Hl; [lia|]. rewrite !append_cons in He. injection He as -> He.
  destruct (IH t1 He ltac:(lia)) as (r & -> & ->). exists r. by rewrite append_cons.
Qed.

Lemma delivers_nil s : delivers [] s -> s = "".
Proof. by inversion 1. Qed.

Lemma app_nil_inv s t : s +:+ t = "" -> s = "" /\ t = "".
Proof. by destruct s, t. Qed.

(** Enough is delivered: exactly the bytes asked for are read. *)
Lemma read_loop_delivers count l : forall result s1 s2,
  delivers l (s1 +:+ s2) -> (String.length result + String.length s1)%nat = count ->
  exists l', read_loop count result l = (Ok (result +:+ s1), l') /\ delivers l' s2.
Proof.
  induction l as [|e l IH]; intros result s1 s2 Hd Hc; cbn [read_loop].
  - apply delivers_nil, app_nil_inv in Hd as [-> ->].
    rewrite append_nil_r. cbn [String.length] in Hc. rewrite (proj2 (Nat.leb_le _ _)) by lia. exists []. split; [done|constructor].
  - destruct (Nat.leb_spec count (String.length result)) as [Hle|Hlt].
    { destruct s1; [|cbn in Hc; lia]. rewrite append_nil_r. by exists (e :: l). }
    inversion Hd as [|? ? Hd'|d ? s Hne Hd']; subst; [by apply IH|].
    match goal with Hx : _ +:+ _ = _ +:+ _ |- _ => rename Hx into E end.
    rewrite (proj2 (String.eqb_neq _ _) Hne).
    destruct (Nat.leb_spec (String.length d) (String.length result + String.length s1 - String.length result)) as [Hl|Hl].
    + destruct (app_split _ _ _ _ E ltac:(lia)) as (r & -> & ->).
      destruct (IH (result +:+ d) r s2 Hd') as (l' & Hr & Hl'); [rewrite !length_append; lia|].
      exists l'. rewrite <- append_assoc. split; [|done]. exact Hr.
    + symmetry in E. destruct (app_split _ _ _ _ E ltac:(lia)) as (r & -> & ->).
      replace (_ - _)%nat with (String.length s1) by lia. rewrite drop_app, slice_app by done.
      exists (Readable r :: l). split; [done|]. constructor; [|done]. intros ->. rewrite append_nil_r in Hl. lia.
Qed.

(** Too little is delivered: the loop ends with an error. *)
Lemma pipe_loop_short count l : forall result s,
  delivers l s -> (String.length result + String.length s < count)%nat ->
  read_loop count result l = (timeout_error "worker IPC deadline expired", []).
Proof.
  induction l as [|e l IH]; intros result s Hd Hc; cbn [read_loop];
    rewrite (proj2 (Nat.leb_gt _ _)) by lia; [done|].
  inversion Hd as [|? ? Hd'|d ? t Hne Hd']; subst; [by eapply IH|].
  rewrite (proj2 (String.eqb_neq _ _) Hne). rewrite length_append in Hc.
  rewrite (proj2 (Nat.leb_le _ _)) by lia. eapply IH; [done|]. rewrite length_append. lia.
Qed.

Lemma length_pack n : String.length (pack n) = 4%nat.
Proof. done. Qed.

Lemma unpack_pack n : 0 <= n < 2 ^ 32 -> unpack (pack n) = n.
Proof.
  intros Hn. unfold unpack, pack, chr. rewrite !append_cons, !append_nil_l. cbn [unpack_from].
  rewrite !byte_of_ascii_of by (apply Z.mod_pos_bound; lia).
  rewrite (Z.mod_small (n / 16777216)) by (split; [apply Z.div_pos|apply Z.div_lt_upper_bound]; lia).
  replace 65536 with (256 * 256) by lia. replace 16777216 with (256 * 256 * 256) by lia.
  rewrite <- !Z.div_div by lia. pose proof (Z.div_mod n 256). pose proof (Z.div_mod (n / 256) 256).
  pose proof (Z.div_mod (n / 256 / 256) 256). lia.
Qed.

Lemma ensure_ascii_syntax s : str_forall syntax_char s = true -> ensure_ascii s = s.
Proof.
  induction s as [|c s IH]; [done|]. cbn. intros [Hc Hs]%andb_true_iff. unfold syntax_char in Hc.
  rewrite (proj2 (Z.ltb_lt _ _)) by lia. by rewrite IH.
Qed.

(** Documents the frames of this protocol are made of: plain ASCII text. *)
Definition plain (s : string) : bool := str_forall (fun c => byte_of c <? 127) s.
Definition wire_ok (d : pydict) : bool := json_ok (VDict d) && strings_ok plain (VDict d).
Definition canon_dict (d : pydict) : pydict := sort_items (map canon_entry d).

Lemma escape_syntax s : plain s = true -> str_forall syntax_char (escape s) = true.
Proof.
  unfold plain. induction s as [|c s IH]; [done|]. cbn [escape str_forall]. intros [Hc Hs]%andb_true_iff.
  rewrite str_forall_app, IH, andb_true_r by done. apply escape_char_forall; [done|]. unfold syntax_char. lia.
Qed.

Lemma dumps_no_float fr v : json_ok v = true -> dumps fr v = dumps (fun _ => "") v.
Proof.
  induction v as [| | | | | |l IH|d IH] using pyval_ind'; try done; cbn [json_ok].
  - intros Hl. cbn [dumps]. do 3 f_equal. apply map_ext_in. rewrite forallb_forall in Hl. rewrite Forall_forall in IH.
    intros x Hx. apply IH; [by apply list_elem_of_In|by apply Hl].
  - intros [_ Hd]%andb_true_iff. cbn [dumps]. do 5 f_equal. apply map_ext_in. rewrite forallb_forall in Hd.
    rewrite Forall_forall in IH. intros x Hx. f_equal. apply IH; [by apply list_elem_of_In|by apply Hd].
Qed.

Lemma wire_text d :
  wire_ok d = true ->
  str_forall syntax_char (dumps float_repr (VDict d)) = true /\
  dump_ascii (VDict d) = dumps float_repr (VDict d).
Proof.
  intros [Hj Hp]%andb_true_iff.
  assert (Hs : str_forall syntax_char (dumps float_repr (VDict d)) = true).
  { rewrite dumps_no_float by done. by apply (dumps_forall syntax_char plain (fun _ H => H) escape_syntax). }
  split; [done|]. by apply ensure_ascii_syntax.
Qed.

Lemma json_object_text d :
  wire_ok d = true -> _json_object (dumps float_repr (VDict d)) = Ok (canon_dict d).
Proof.
  intros Hd. destruct (wire_text d Hd) as [Hs _].
  destruct (EvidenceFacts.printable_utf8 _ (str_forall_weaken _ _ _ EvidenceFacts.syntax_printable Hs)) as (_ & _ & Hu).
  apply andb_true_iff in Hd as [Hj _]. apply json_object_loads; [done| |by rewrite strict_loads_dumps].
  apply ascii_no_surrogate. unfold isascii. eapply str_forall_weaken; [|exact Hs]. intros c. unfold syntax_char. lia.
Qed.

Lemma encode_frame_inv d maximum bytes :
  wire_ok d = true -> _encode_frame (VDict d) maximum = Ok bytes ->
  let text := dumps float_repr (VDict d) in
  bytes = pack (size text) +:+ text /\ in_range 1 maximum (size text) = true.
Proof.
  intros Hd. destruct (wire_text d Hd) as [_ Hw]. unfold _encode_frame. rewrite Hw. intros He. run_inv.
  split; [done|]. apply String.eqb_neq in H1. unfold in_range, size in *.
  assert (String.length (dumps float_repr (VDict d)) <> 0%nat) by (by destruct (dumps float_repr (VDict d))). lia.
Qed.

(** A delivered frame is read, and what follows it is still there. *)
Lemma read_frame_delivers d maximum bytes later l :
  wire_ok d = true -> maximum < 2 ^ 32 -> _encode_frame (VDict d) maximum = Ok bytes ->
  delivers l (bytes +:+ later) ->
  exists l', _read_frame maximum l = (Ok (canon_dict d), l') /\ delivers l' later.
Proof.
  intros Hd Hm He Hl. destruct (encode_frame_inv d maximum bytes Hd He) as [-> Hr]. set (text := dumps _ _) in *.
  unfold _read_frame, _read_exact. change (Z.to_nat 4) with 4%nat. rewrite append_assoc in Hl.
  destruct (read_loop_delivers 4 l "" _ _ Hl (length_pack _)) as (l1 & -> & Hl1).
  assert (0 <= size text < 2 ^ 32) by (unfold in_range in Hr; lia).
  rewrite append_nil_l, unpack_pack, Hr by done. cbn [negb].
  destruct (read_loop_delivers (Z.to_nat (size text)) l1 "" _ _ Hl1) as (l2 & -> & Hl2); [unfold size; cbn; lia|].
  exists l2. split; [|done]. unfold text. by rewrite append_nil_l, json_object_text.
Qed.

(** A stream that ends inside a frame gives no frame. *)
Lemma read_frame_short d maximum part rest l :
  wire_ok d = true -> maximum < 2 ^ 32 -> _encode_frame (VDict d) maximum = Ok (part +:+ rest) -> rest <> "" ->
  delivers l part -> fst (_read_frame maximum l) = timeout_error "worker IPC deadline expired".
Proof.
  intros Hd Hm He Hne Hl. destruct (encode_frame_inv d maximum _ Hd He) as [Hb Hr]. set (text := dumps _ _) in *.
  assert (Hrest : (0 < String.length rest)%nat) by (destruct rest; [done|cbn; lia]).
  pose proof (f_equal String.length Hb) as Hlen. rewrite !length_append, length_pack in Hlen.
  unfold _read_frame, _read_exact. change (Z.to_nat 4) with 4%nat. destruct (Nat.lt_ge_cases (String.length part) 4) as [Hs|Hs].
  - rewrite (pipe_loop_short _ l "" part); [done..|]. cbn. lia.
  - symmetry in Hb. destruct (app_split _ _ _ _ Hb ltac:(rewrite length_pack; lia)) as (t & -> & Ht).
    destruct (read_loop_delivers 4 l "" _ _ Hl (length_pack _)) as (l1 & -> & Hl1).
    assert (0 <= size text < 2 ^ 32) by (unfold in_range in Hr; lia).
    rewrite append_nil_l, unpack_pack, Hr by done. cbn [negb].
    rewrite (pipe_loop_short _ l1 "" t); [done..|]. rewrite Ht. unfold size. rewrite length_append. cbn. lia.
Qed.

(** What [_write_all] reports and what it did. *)
Lemma write_all_spec l : forall payload r out,
  _write_all payload l = (r, out) ->
  exists rest, payload = out +:+ rest /\ (r = Ok tt <-> rest = "").
Proof.
  induction l as [|e l IH]; intros payload r out.
  - destruct payload; cbn; intros [= <- <-]; [by exists ""|]. eexists. by split.
  - destruct payload as [|ch payload].
    { destruct e; cbn; intros [= <- <-]; by exists "". }
    destruct e as [| | | |count]; cbn [_write_all]; try (intros [= <- <-]; by eexists; split); [apply IH|].
    destruct (count <=? 0); [intros [= <- <-]; by eexists; split|].
    set (p := String ch payload). set (taken := slice _ _).
    assert (Ht : taken +:+ drop_bytes (String.length taken) p = p).
    { unfold taken. rewrite <- (take_drop 4096 p) at 3 4. rewrite <- (take_drop (Z.to_nat count) (slice 4096 p)) at 3 4.
      by rewrite append_assoc, drop_app. }
    destruct (_write_all (drop_bytes _ p) l) as [r' out'] eqn:E. intros [= <- <-].
    destruct (IH _ _ _ E) as (rest & Hp & Hr). exists rest. split; [|done]. by rewrite append_assoc, <- Hp.
Qed.

(** A frame that was written whole is its encoding. *)
Lemma write_frame_ok v maximum w out :
  _write_frame v maximum w = (Ok tt, out) -> _encode_frame v maximum = Ok out.
Proof.
  unfold _write_frame. destruct (_encode_frame v maximum) as [bytes|e]; [|done]. intros Hw.
  destruct (write_all_spec _ _ _ _ Hw) as (rest & -> & Hr). rewrite (proj1 Hr eq_refl). by rewrite append_nil_r.
Qed.

Lemma read_frames_delivers maximum : maximum < 2 ^ 32 -> forall frames written later l,
  Forall2 (fun d out => wire_ok d = true /\ _encode_frame (VDict d) maximum = Ok out) frames written ->
  delivers l (String.concat "" written +:+ later) ->
  exists l', read_frames maximum (length frames) l = (Ok (map canon_dict frames), l') /\ delivers l' later.
Proof.
  intros Hm frames written later l HF. revert l.
  induction HF as [|d out frames written [Hd He] HF IH]; intros l Hl; [by exists l|].
  assert (Hc : String.concat "" (out :: written) = out +:+ String.concat "" written).
  { destruct written; [by rewrite append_nil_r|done]. }
  rewrite Hc, append_assoc in Hl. cbn [length read_frames].
  destruct (read_frame_delivers d maximum out _ l Hd Hm He Hl) as (l1 & -> & Hl1).
  destruct (IH l1 Hl1) as (l2 & -> & Hl2). by exists l2.
Qed.

(** C34: Frames survive the pipe.  For objects with distinct keys at every level whose
    keys and strings are made of bytes below 127, whose integers are below 2^128 in size
    and which hold no floats (as the frames of this protocol: a frame with other strings
    may come back changed, since two separate surrogates are joined), and a limit below
    2^32: when every frame of a sequence was reported as written, a reader that the pipe
    delivers those bytes to, in any pieces and with any interruptions, reads the same
    sequence of objects, with their keys sorted, and finds whatever was written
    afterwards next; and when the writing of such a frame failed, the bytes that got
    through are never read as a frame. *)
Theorem frames_roundtrip (maximum : Z) (frames : list pydict) (w : list (list write_event)) (written : list string)
    (later : string) (l : list read_event) (d : pydict) (wd : list write_event) (e : exn) (part : string)
    (ld : list read_event) :
  maximum < 2 ^ 32 -> Forall (fun d => wire_ok d = true) frames -> wire_ok d = true ->
  Forall2 (fun dw out => _write_frame (VDict (fst dw)) maximum (snd dw) = (Ok tt, out)) (zip frames w) written ->
  length frames = length w -> delivers l (String.concat "" written +:+ later) ->
  _write_frame (VDict d) maximum wd = (Err e, part) -> delivers ld part ->
  (exists l', read_frames maximum (length frames) l = (Ok (map canon_dict frames), l') /\ delivers l' later) /\
  fst (_read_frame maximum ld) = timeout_error "worker IPC deadline expired".
Proof.
  intros Hm Hf Hd HF Hlen Hl Hw Hld. split.
  - apply (read_frames_delivers maximum Hm frames written); [|done]. clear - Hf HF Hlen.
    revert w written HF Hlen. induction Hf as [|x frames Hx Hf IH]; intros [|y w] written HF Hlen; try done.
    + apply Forall2_nil_inv_l in HF as ->. constructor.
    + apply Forall2_cons_inv_l in HF as (out & written' & Hy & HF & ->). constructor; [|eapply IH; [done|by injection Hlen]].
      split; [done|]. by eapply write_frame_ok.
  - unfold _write_frame in Hw. destruct (_encode_frame (VDict d) maximum) as [bytes|e'] eqn:E.
    + destruct (write_all_spec _ _ _ _ Hw) as (rest & -> & Hr). eapply read_frame_short; [done..| |done].
      intros ->. discriminate (proj2 Hr eq_refl).
    + injection Hw as _ <-. unfold _read_frame, _read_exact. change (Z.to_nat 4) with 4%nat.
      rewrite (pipe_loop_short 4 ld "" "" Hld); [done|cbn; lia].
Qed.

End wire.

(** ** Witness *)

(** What a list of reads delivers, computed. *)
Fixpoint delivered (l : list read_event) : option string :=
  match l with
  | [] => Some ""
  | ReadInterrupted :: l' => delivered l'
  | Readable (String c d) :: l' => option_map (fun s => String c d +:+ s) (delivered l')
  | _ => None
  end.

Lemma delivered_delivers l : forall s, delivered l = Some s -> delivers l s.
Proof.
  induction l as [|e l IH]; cbn; [intros s [= <-]; constructor|]. intros s.
  destruct e as [| | | |[|ch d]]; try done; [intros Hs; constructor; by apply IH|].
  destruct (delivered l) as [t|]; [|done]. intros [= <-]. constructor; [done|]. by apply IH.
Qed.

Lemma frames_roundtrip_witness :
  let write := _write_frame (fun _ => "") in
  let stop := [("type", VStr "stop"); ("nonce", VStr "ab")] in
  let error := [("type", VStr "error")] in
  exists bytes part,
    write (VDict stop) 100 [WriteInterrupted; Written 9; Written 50] = (Ok tt, bytes) /\
    write (VDict stop) 100 [Written 9; WriteFailed] = (protocol_error "worker IPC write failed", part) /\
    let l := [Readable (slice 2 bytes); ReadInterrupted; Readable (drop_bytes 2 bytes)] in
    (exists l', read_frames (fun _ => FNan) 100 1 l = (Ok [[("nonce", VStr "ab"); ("type", VStr "stop")]], l') /\
                delivers l' "") /\
    fst (_read_frame (fun _ => FNan) 100 [Readable part]) = timeout_error "worker IPC deadline expired".
Proof.
  cbv zeta. do 2 eexists. split; [vm_compute; reflexivity|]. split; [vm_compute; reflexivity|].
  refine (frames_roundtrip (fun _ => FNan) (fun _ => "") 100
    [[("type", VStr "stop"); ("nonce", VStr "ab")]] [[WriteInterrupted; Written 9; Written 50]] [_] "" _
    [("type", VStr "stop"); ("nonce", VStr "ab")] [Written 9; WriteFailed] _ _ [Readable _] _ _ _ _ _ _ _ _).
  - lia.
  - repeat constructor.
  - vm_compute. reflexivity.
  - constructor; [vm_compute; reflexivity|constructor].
  - reflexivity.
  - apply delivered_delivers. vm_compute. reflexivity.
  - vm_compute. reflexivity.
  - apply delivered_delivers. vm_compute. reflexivity.
Defined.

End WorkerWire.
