(* ===== verification/WorkerEvents.v ===== *)
(** * What the parent accepts from the egress worker

    The validators of broker/browser_egress_worker.py, which does not import the
    contract's parser: events and their destinations, telemetry, the readiness
    receipt and the start frame.  An origin is accepted here exactly when the
    contract accepts it as it is, except for numeric spellings of a host; what a
    finished proxy reports is accepted unchanged. *)

From stdpp Require Import base list strings gmap.
From Stdlib Require Import ZArith Lia.
From S2P Require Import Prelude PyValue Sha256 Json JsonFacts StrOps Ip Url UrlFacts BrowserContract BrowserEvidence.
From S2P Require Import EgressAddress EgressRequest EgressProxy WorkerWire.

Local Open Scope Z_scope.

Module WorkerEvents.
Import BrowserEvidence EgressAddress WorkerWire.

Definition MAX_FINAL_EVENTS : Z := 4096.
Definition MAX_EVENT_ORIGIN_BYTES : Z := 512.
Definition MAX_COUNTER_VALUE : Z := 1000000.
Definition MAX_NETWORK_BYTES : Z := 64 * 1024 * 1024.

Definition READY_KEYS : list string := ["type"; "protocol_version"; "nonce"; "endpoint"; "security"].
Definition SECURITY_KEYS : list string :=
  ["uid"; "gid"; "uids"; "gids"; "supplementary_groups"; "no_new_privs"; "dumpable"; "parent_death_signal";
   "parent_pid_bound"; "capabilities_zero"; "environment_entries"; "rlimits"].
Definition FINAL_KEYS : list string := ["type"; "protocol_version"; "nonce"; "events"; "telemetry"].
Definition EVENT_KEYS : list string :=
  ["sequence"; "source"; "kind"; "web_origin"; "connect_authority"; "disposition"].
Definition TELEMETRY_KEYS : list string :=
  ["complete"; "started"; "closed"; "event_overflow"; "inflight_events"; "active_connections";
   "listener_rejections"; "connection_attempts"; "event_count"; "network_bytes"; "network_byte_limit"].
Definition _UNSAFE_SUFFIXES : list string :=
  ["localhost"; "local"; "localdomain"; "internal"; "intranet"; "corp"; "home"; "lan";
   "home.arpa"; "onion"; "invalid"; "test"; "example"].

(** ** Destinations *)
Section destinations.
Context `{Unicode} `{UnicodeDigits}.

Definition special_use (hostname : string) : bool :=
  existsb (fun suffix => String.eqb hostname suffix || endswith ("." +:+ suffix) hostname) _UNSAFE_SUFFIXES.

(** The tests on a host name, from [labels = hostname.split(".")] on. *)
Definition check_hostname (hostname : string) : res unit :=
  let labels := split 46 hostname in
  raise (BrowserEgressWorkerProtocolError "worker event hostname is invalid")
    when (253 <? String.length hostname)%nat || (length labels <? 2)%nat || endswith "." hostname
         || existsb (fun l => negb (host_label l)) labels || numeric_tld labels;;
  raise (BrowserEgressWorkerProtocolError "worker event hostname is special-use") when special_use hostname;;
  Ok tt.

Definition _canonical_event_origin (value : pyval) : res string :=
  let text := str_of value in
  raise (BrowserEgressWorkerProtocolError "worker event origin is invalid")
    when negb (is_str value) || String.eqb text "";;
  raise (ValueError "surrogates not allowed") when has_surrogate text;;
  raise (BrowserEgressWorkerProtocolError "worker event origin is invalid")
    when (MAX_EVENT_ORIGIN_BYTES <? size text) || str_exists (fun c => (byte_of c <=? 32) || ch 127 c) text;;
  let '(url, _, fragment) := partition 35 text in
  match (let* parsed := urlsplit url in let* port := port_of (p_netloc parsed) in Ok (parsed, port)) with
  | Err _ => protocol_error "worker event origin is invalid"
  | Ok (parsed, port) =>
      match hostname_of (p_netloc parsed) with
      | None => protocol_error "worker event origin is not canonical"
      | Some hostname =>
          raise (BrowserEgressWorkerProtocolError "worker event origin is not canonical")
            when negb (mem (p_scheme parsed) ["http"; "https"]) || String.eqb (p_netloc parsed) ""
                 || has_char 64 (p_netloc parsed) || negb (String.eqb (p_path parsed) "")
                 || negb (String.eqb (p_query parsed) "") || negb (String.eqb fragment "")
                 || negb (String.eqb hostname (lower hostname));;
          raise (BrowserEgressWorkerProtocolError "worker event origin cannot be an IP literal")
            when is_ip_literal hostname;;
          raise (BrowserEgressWorkerProtocolError "worker event origin hostname is not canonical IDNA")
            when negb (isascii hostname);;
          let* _ := check_hostname hostname in
          raise (BrowserEgressWorkerProtocolError "worker event origin port is invalid")
            when match port with Some p => negb (in_range 1 65535 p) | None => false end;;
          let default_port := if String.eqb (p_scheme parsed) "http" then 80 else 443 in
          let authority := match port with
            | Some p => if p =? default_port then hostname else hostname +:+ ":" +:+ dec p
            | None => hostname
            end in
          let canonical := p_scheme parsed +:+ "://" +:+ authority in
          raise (BrowserEgressWorkerProtocolError "worker event origin is not canonical")
            when negb (String.eqb canonical text);;
          Ok canonical
      end
  end.

Definition _canonical_event_authority (value : pyval) : res string :=
  let text := str_of value in
  raise (BrowserEgressWorkerProtocolError "worker CONNECT authority is invalid")
    when negb (is_str value) || negb (count_char 58 text =? 1) || has_delimiter text;;
  let '(raw_host, _, raw_port) := rpartition 58 text in
  raise (BrowserEgressWorkerProtocolError "worker CONNECT authority is invalid")
    when String.eqb raw_host "" || negb (isdigit raw_port);;
  let* port := int_of_digits raw_port in
  raise (BrowserEgressWorkerProtocolError "worker CONNECT authority port is invalid")
    when negb (in_range 1 65535 port);;
  let* origin := _canonical_event_origin
    (VStr (if port =? 443 then "https://" +:+ raw_host else "https://" +:+ raw_host +:+ ":" +:+ dec port)) in
  let* parsed := urlsplit origin in
  match hostname_of (p_netloc parsed) with
  | None => protocol_error "worker CONNECT authority hostname is invalid"
  | Some hostname =>
      let canonical := hostname +:+ ":" +:+ dec port in
      raise (BrowserEgressWorkerProtocolError "worker CONNECT authority is not canonical")
        when negb (String.eqb canonical text);;
      Ok canonical
  end.

(** ** Events and telemetry *)
Definition optional (f : pyval -> res string) (v : pyval) : res (option string) :=
  match v with VNone => Ok None | _ => let* s := f v in Ok (Some s) end.

Definition event_val := EgressProxy.event_val.

Definition _validate_event (value : pyval) (expected_sequence : Z) : res pyval :=
  raise (BrowserEgressWorkerProtocolError "worker event shape changed") when negb (dict_shape value EVENT_KEYS);;
  let* sequence := sub value "sequence" in
  let* source := sub value "source" in
  raise (BrowserEgressWorkerProtocolError "worker event sequence/source is invalid")
    when negb (py_eq sequence (VInt expected_sequence)) || negb (py_eq source (VStr "egress"));;
  let* kind := sub value "kind" in
  let* disposition := sub value "disposition" in
  let* web_origin := sub value "web_origin" in
  let* connect_authority := sub value "connect_authority" in
  if py_eq kind (VStr "telemetry_loss") then
    raise (BrowserEgressWorkerProtocolError "telemetry-loss event is malformed")
      when negb (is_none web_origin) || negb (is_none connect_authority)
           || negb (py_eq disposition (VStr "observed"));;
    Ok (event_val expected_sequence (str_of kind) None None (str_of disposition))
  else if py_eq kind (VStr "network_request") then
    raise (BrowserEgressWorkerProtocolError "network event disposition is invalid")
      when notM (in_strs disposition ["allowed"; "blocked"]);;
    raise (BrowserEgressWorkerProtocolError "network event must carry exactly one witness type")
      when Bool.eqb (is_none web_origin) (is_none connect_authority);;
    let* canonical_origin := optional _canonical_event_origin web_origin in
    raise (BrowserEgressWorkerProtocolError "proxy web-origin evidence must be plain HTTP")
      when match canonical_origin with Some o => negb (startswith "http://" o) | None => false end;;
    let* canonical_authority := optional _canonical_event_authority connect_authority in
    Ok (event_val expected_sequence (str_of kind) canonical_origin canonical_authority (str_of disposition))
  else protocol_error "worker event kind is invalid".

Definition _bounded_uint (value : pyval) (name : string) (maximum : Z) : res Z :=
  raise (BrowserEgressWorkerProtocolError ("worker telemetry " +:+ name +:+ " is invalid"))
    when negb (int_in 0 maximum value);;
  Ok (int_of value).

(** A flag and a counter of the telemetry, by name. *)
Definition telemetry_flag (value : pyval) (name : string) : res bool :=
  let* v := sub value name in
  match v with
  | VBool b => Ok b
  | _ => protocol_error ("worker telemetry " +:+ name +:+ " is invalid")
  end.
Definition telemetry_count (value : pyval) (maximum : Z) (name : string) : res Z :=
  let* v := sub value name in _bounded_uint v name maximum.

Record telemetry := mk_telemetry {
  t_complete : bool;
  t_started : bool;
  t_closed : bool;
  t_event_overflow : bool;
  t_inflight_events : Z;
  t_active_connections : Z;
  t_listener_rejections : Z;
  t_connection_attempts : Z;
  t_event_count : Z;
  t_network_bytes : Z;
  t_network_byte_limit : Z;
}.

Definition telemetry_val (t : telemetry) : pyval :=
  VDict [("complete", VBool (t_complete t)); ("started", VBool (t_started t)); ("closed", VBool (t_closed t));
         ("event_overflow", VBool (t_event_overflow t)); ("inflight_events", VInt (t_inflight_events t));
         ("active_connections", VInt (t_active_connections t));
         ("listener_rejections", VInt (t_listener_rejections t));
         ("connection_attempts", VInt (t_connection_attempts t)); ("event_count", VInt (t_event_count t));
         ("network_bytes", VInt (t_network_bytes t)); ("network_byte_limit", VInt (t_network_byte_limit t))].

Definition clean (t : telemetry) : bool :=
  t_started t && t_closed t && negb (t_event_overflow t) && (t_inflight_events t =? 0)
  && (t_active_connections t =? 0) && (t_listener_rejections t =? 0).

Definition _validate_telemetry (value : pyval) (event_count : Z) : res telemetry :=
  raise (BrowserEgressWorkerProtocolError "worker telemetry shape changed")
    when negb (dict_shape value TELEMETRY_KEYS);;
  let* complete := telemetry_flag value "complete" in
  let* started := telemetry_flag value "started" in
  let* closed := telemetry_flag value "closed" in
  let* event_overflow := telemetry_flag value "event_overflow" in
  let* inflight_events := telemetry_count value MAX_COUNTER_VALUE "inflight_events" in
  let* active_connections := telemetry_count value MAX_COUNTER_VALUE "active_connections" in
  let* listener_rejections := telemetry_count value MAX_COUNTER_VALUE "listener_rejections" in
  let* connection_attempts := telemetry_count value MAX_COUNTER_VALUE "connection_attempts" in
  let* events := telemetry_count value MAX_FINAL_EVENTS "event_count" in
  let* network_bytes := telemetry_count value MAX_NETWORK_BYTES "network_bytes" in
  let* network_byte_limit := telemetry_count value MAX_NETWORK_BYTES "network_byte_limit" in
  let normalized := mk_telemetry complete started closed event_overflow inflight_events active_connections
    listener_rejections connection_attempts events network_bytes network_byte_limit in
  raise (BrowserEgressWorkerProtocolError "worker event count disagrees with telemetry")
    when negb (events =? event_count);;
  raise (BrowserEgressWorkerProtocolError "worker byte accounting exceeds its limit")
    when network_byte_limit <? network_bytes;;
  raise (BrowserEgressWorkerProtocolError "worker completeness claim is inconsistent")
    when negb (Bool.eqb complete (clean normalized));;
  Ok normalized.

(** [[_validate_event(event, index) for index, event in enumerate(raw_events)]] *)
Fixpoint validate_events (index : Z) (l : list pyval) : res (list pyval) :=
  match l with
  | [] => Ok []
  | e :: r => let* x := _validate_event e index in let* xs := validate_events (index + 1) r in Ok (x :: xs)
  end.

Definition _validate_final (value : pyval) (nonce : string) : res (list pyval * telemetry) :=
  raise (BrowserEgressWorkerProtocolError "worker final frame shape changed") when negb (dict_shape value FINAL_KEYS);;
  let* type := sub value "type" in
  let* version := sub value "protocol_version" in
  let* bound := sub value "nonce" in
  raise (BrowserEgressWorkerProtocolError "worker final frame is not session-bound")
    when negb (py_eq type (VStr "final")) || negb (py_eq version (VStr PROTOCOL_VERSION))
         || negb (py_eq bound (VStr nonce));;
  let* raw_events := sub value "events" in
  raise (BrowserEgressWorkerProtocolError "worker final events are excessive")
    when negb (is_list raw_events) || (MAX_FINAL_EVENTS <? Z.of_nat (length (list_of raw_events)));;
  let* events := validate_events 0 (list_of raw_events) in
  let* raw_telemetry := sub value "telemetry" in
  let* telemetry := _validate_telemetry raw_telemetry (Z.of_nat (length events)) in
  Ok (events, telemetry).

(** The fixed result of a session that cannot be trusted. *)
Definition _failure_events : list pyval := [event_val 0 "telemetry_loss" None None "observed"].
Definition _failure_telemetry : telemetry := mk_telemetry false false true true 0 0 0 0 1 0 0.

(** The final frame, as the child sends it. *)
Definition final_frame (nonce : string) (events : list pyval) (telemetry : pyval) : pydict :=
  [("type", VStr "final"); ("protocol_version", VStr PROTOCOL_VERSION); ("nonce", VStr nonce);
   ("events", VList events); ("telemetry", telemetry)].

(** ** Agreement with the contract *)

(** A host as the worker's parent accepts it. *)
Record worker_host (h : string) : Prop := {
  wh_labels : (2 <= length (split 46 h))%nat /\ Forall (fun l => host_label l = true) (split 46 h);
  wh_length : (String.length h <= 253)%nat;
  wh_tld : numeric_tld (split 46 h) = false;
  wh_suffix : unsafe_suffix h = false;
  wh_address : is_ip_literal h = false;
}.

Lemma public_worker_host h :
  public_host h <-> worker_host h /\ forallb numeric_host_label (split 46 h) = false.
Proof.
  split.
  - intros Hp. split; [|apply Hp]. split; try apply Hp. unfold is_ip_literal. by rewrite public_host_not_ip.
  - intros [[] ?]. by split.
Qed.

Lemma check_hostname_spec h :
  check_hostname h = Ok tt <->
  (2 <= length (split 46 h))%nat /\ Forall (fun l => host_label l = true) (split 46 h) /\
  (String.length h <= 253)%nat /\ numeric_tld (split 46 h) = false /\ unsafe_suffix h = false /\
  endswith "." h = false.
Proof.
  unfold check_hostname. change (special_use h) with (unsafe_suffix h). split.
  - intros Hc. run_inv. rewrite ?Nat.ltb_ge in *. split_and!; try done; try lia.
    match goal with Hx : existsb _ _ = false |- _ => apply existsb_false in Hx; eapply Forall_impl; [exact Hx|] end.
    cbn. intros l. by destruct (host_label l).
  - intros (H1 & H2 & H3 & -> & -> & ->). rewrite (proj2 (Nat.ltb_ge _ _) H3), (proj2 (Nat.ltb_ge _ _) H1).
    assert (existsb (fun l => negb (host_label l)) (split 46 h) = false) as ->; [|done].
    apply existsb_false. eapply Forall_impl; [exact H2|]. by intros l ->.
Qed.

Lemma host_no_dot_end h : Forall (fun l => host_label l = true) (split 46 h) -> endswith "." h = false.
Proof.
  intros Hl. destruct (endswith "." h) eqn:E; [|done]. apply endswith_dot, last_Some in E as [l' E].
  rewrite E in Hl. apply Forall_app in Hl as [_ Hl]. by inversion Hl.
Qed.

Lemma worker_host_check h : worker_host h -> check_hostname h = Ok tt.
Proof. intros [[H1 H2] H3 H4 H5 _]. apply check_hostname_spec. split_and!; try done. by apply host_no_dot_end. Qed.

(** ** Accepted by both *)
Lemma event_origin_accepts scheme h p :
  mem scheme ["http"; "https"] = true -> public_host h -> 1 <= p <= 65535 ->
  _canonical_event_origin (VStr (origin_of scheme h p)) = Ok (origin_of scheme h p).
Proof.
  intros Hs Hh Hp. destruct (url_authority_port scheme h p Hs Hh Hp) as [_ Ha].
  pose proof (authority_chars _ _ Ha) as Hac. pose proof (public_host_chars h Hh) as Hhc.
  assert (Hu : str_forall url_char (origin_of scheme h p) = true).
  { unfold origin_of. rewrite !str_forall_app, (auth_url_char (canonical_authority scheme h p)) by done. by destruct (scheme_cases _ Hs) as [-> | ->]. }
  assert (Hasc : isascii (origin_of scheme h p) = true).
  { revert Hu. apply str_forall_weaken. intros c. unfold url_char. char_lia. }
  assert (Hsize : size (origin_of scheme h p) <= MAX_EVENT_ORIGIN_BYTES).
  { destruct (short_origin scheme h p "" Hs Hh Hp) as [_ _]; [done|]. destruct (port_text p Hp) as (_ & _ & _ & Hl).
    pose proof (ph_length h Hh). unfold size, origin_of, canonical_authority, host_port, MAX_EVENT_ORIGIN_BYTES.
    rewrite !length_append. destruct (scheme_cases _ Hs) as [-> | ->], (p =? default_port _);
      rewrite ?length_append; cbn [String.length]; lia. }
  assert (Hne : String.eqb (origin_of scheme h p) "" = false) by (by apply String.eqb_neq, scheme_nonempty).
  assert (Hctl : str_exists (fun c => (byte_of c <=? 32) || ch 127 c) (origin_of scheme h p) = false).
  { clear - Hu. induction (origin_of scheme h p) as [|c t IH]; [done|]. cbn in *.
    apply andb_true_iff in Hu as [Hc Hu]. rewrite IH by done. revert Hc. unfold url_char. char_lia. }
  unfold _canonical_event_origin. cbn [str_of is_str negb orb].
  rewrite Hne, ascii_no_surrogate by done. rewrite (proj2 (Z.ltb_ge _ _) Hsize), Hctl. cbn [orb okb raise_if].
  rewrite partition_absent by (apply origin_no_char; [done..|cbn; auto]). rewrite origin_split by done.
  cbn [mbind res_bind p_netloc p_scheme p_path p_query]. destruct (canonical_info scheme h p Hh Hp) as [Hhost ->].
  cbn [mbind res_bind p_netloc]. rewrite Hhost. cbn [p_scheme p_netloc p_path p_query]. rewrite Hs, lower_host, String.eqb_refl by done.
  rewrite (proj2 (String.eqb_neq (canonical_authority scheme h p) "")).
  2:{ unfold canonical_authority, host_port. destruct (p =? default_port scheme); [by apply host_nonempty|by destruct h]. }
  rewrite auth_no_char by (done || (cbn; auto 10)). cbn [negb orb okb raise_if String.eqb].
  unfold is_ip_literal. rewrite public_host_not_ip, isascii_host by done. cbn [negb okb raise_if].
  apply public_worker_host in Hh as Hw. rewrite worker_host_check by apply Hw. cbn [mbind res_bind].
  change (if String.eqb scheme "http" then 80 else 443) with (default_port scheme).
  unfold origin_of, canonical_authority, host_port. destruct (Z.eqb_spec p (default_port scheme)) as [E|E].
  - cbn [okb raise_if]. by rewrite !String.eqb_refl.
  - rewrite String.eqb_refl. unfold in_range. rewrite (proj2 (Z.leb_le 1 p)), (proj2 (Z.leb_le p 65535)) by lia. cbn [andb negb okb raise_if].
    rewrite (proj2 (Z.eqb_neq _ _) E). by rewrite String.eqb_refl.
Qed.

(** ** Accepted by the worker's parent *)
Lemma canonical_authority_chars scheme h p :
  str_forall is_host_char h = true -> 1 <= p <= 65535 -> str_forall is_auth_char (canonical_authority scheme h p) = true.
Proof.
  intros Hh Hp. assert (Ha : str_forall is_auth_char h = true).
  { revert Hh. apply str_forall_weaken. intros c Hc. unfold is_auth_char. by rewrite Hc. }
  unfold canonical_authority, host_port. destruct (p =? default_port scheme); [done|].
  rewrite !str_forall_app, Ha. destruct (port_text p Hp) as (Hd & _). cbn [andb].
  rewrite (str_forall_weaken is_digit is_auth_char (dec p)); [done| |done]. intros c. unfold is_auth_char. char_lia.
Qed.

Lemma event_origin_inv v o :
  _canonical_event_origin v = Ok o ->
  v = VStr o /\ exists scheme h p,
    mem scheme ["http"; "https"] = true /\ worker_host h /\ 1 <= p <= 65535 /\ o = origin_of scheme h p /\
    exists parsed, urlsplit o = Ok parsed /\ hostname_of (p_netloc parsed) = Some h.
Proof.
  unfold _canonical_event_origin. intros Ho. run_inv.
  destruct (partition 35 (str_of v)) as [[url found] fragment] eqn:Ep.
  destruct (urlsplit url) as [parsed|] eqn:Eu; [|done]. cbn [mbind res_bind] in Ho.
  destruct (port_of (p_netloc parsed)) as [port|] eqn:Et; [|done]. cbn [mbind res_bind] in Ho.
  destruct (hostname_of (p_netloc parsed)) as [h|] eqn:Eh; [|done]. run_inv.
  match goal with Hx : String.eqb _ (str_of v) = true |- _ => apply String.eqb_eq in Hx as Ht end.
  match goal with Hx : check_hostname h = Ok ?x |- _ => destruct x; rename Hx into Hc end.
  assert (Hv : v = VStr o). { destruct v; try done. cbn [str_of] in Ht. congruence. }
  split; [done|]. apply check_hostname_spec in Hc as (C1 & C2 & C3 & C4 & C5 & _).
  set (p := match port with Some p => p | None => default_port (p_scheme parsed) end).
  assert (Hp : 1 <= p <= 65535).
  { unfold p. destruct port as [q|]; [|unfold default_port; destruct (String.eqb (p_scheme parsed) "http"); lia].
    match goal with Hx : okb (negb _) = Ok false |- _ =>
      apply Ok_inj, negb_false_iff in Hx; unfold in_range in Hx; lia end. }
  assert (Hoo : o = origin_of (p_scheme parsed) h p).
  { subst o. unfold origin_of, canonical_authority, host_port, p. fold (default_port (p_scheme parsed)).
    destruct port as [q|]; [by destruct (q =? _)|by rewrite Z.eqb_refl]. }
  exists (p_scheme parsed), h, p. split; [done|]. split; [by split|]. do 2 (split; [done|]).
  exists parsed. split; [|done]. rewrite <- Eu. f_equal. subst v. cbn [str_of] in Ep.
  rewrite partition_absent in Ep; [congruence|]. rewrite Hoo. apply origin_no_char; [done| |cbn; auto].
  apply canonical_authority_chars; [by apply labels_chars|done].
Qed.

(** Host names all of whose labels are numbers. *)
Definition numeric_spelling (o : string) : bool :=
  match urlsplit o with
  | Ok parsed =>
      match hostname_of (p_netloc parsed) with Some h => forallb numeric_host_label (split 46 h) | None => false end
  | Err _ => false
  end.

Context `{!UnicodeLaws}.

Lemma event_origin_agrees v o :
  (v = VStr o /\ normalize_origin v = Ok o) <-> (_canonical_event_origin v = Ok o /\ numeric_spelling o = false).
Proof.
  split.
  - intros [-> Hn]. destruct (origin_anatomy _ _ Hn) as (sc & h & p & Hs & Hh & Hp & ->).
    split; [by apply event_origin_accepts|]. unfold numeric_spelling. rewrite origin_split by done. cbn [p_netloc].
    destruct (canonical_info sc h p Hh Hp) as [-> _]. apply Hh.
  - intros [Ho Hn]. apply event_origin_inv in Ho as (-> & sc & h & p & Hs & Hw & Hp & Hoo & parsed & Hu & Hi).
    split; [done|]. unfold numeric_spelling in Hn. rewrite Hu, Hi in Hn.
    assert (Hh : public_host h) by (by apply public_worker_host). rewrite Hoo at 1.
    pose proof (normalize_host_port sc h p Hs Hh Hp) as Hnp. rewrite (BrowserContract.normalize_origin_fixpoint _ _ Hnp).
    by rewrite Hoo.
Qed.

Lemma host_port_parts h p :
  str_forall is_host_char h = true -> 1 <= p <= 65535 ->
  count_char 58 (host_port h p) = 1 /\ has_delimiter (host_port h p) = false /\
  rpartition 58 (host_port h p) = (h, true, dec p) /\ partition 58 (host_port h p) = (h, true, dec p) /\
  isdigit (dec p) = true /\ int_of_digits (dec p) = Ok p.
Proof.
  intros Hh Hp. destruct (port_text p Hp) as (T1 & T2 & T3 & T4).
  assert (Hc : has_char 58 (dec p) = false).
  { apply (has_char_forall is_digit); [|done]. intros c. unfold is_digit, in_range, ch. lia. }
  assert (Hn : has_char 58 h = false) by (apply host_no_char; [done|cbn; auto 10]).
  assert (Hd : isascii (dec p) = true)
    by (revert T1; apply str_forall_weaken; intros c; unfold is_digit, in_range; lia).
  assert (Ha : str_forall is_auth_char (host_port h p) = true).
  { pose proof (canonical_authority_chars "http" h p Hh Hp) as Hx. unfold canonical_authority in Hx.
    destruct (Z.eqb_spec p (default_port "http")) as [->|]; [|done].
    exact (canonical_authority_chars "https" h 80 Hh Hp). }
  split_and!.
  - unfold host_port. by rewrite !count_char_app, (count_char_absent 58 h), (count_char_absent 58 (dec p)).
  - unfold has_delimiter. cbn [existsb]. by rewrite !auth_no_char by (done || (cbn; auto 10)).
  - unfold host_port. change (":" +:+ dec p) with (String (ascii_of 58) (dec p)). by rewrite rpartition_app by (lia || done).
  - unfold host_port. change (":" +:+ dec p) with (String (ascii_of 58) (dec p)). by rewrite partition_app by (lia || done).
  - unfold isdigit. by rewrite Hd, T1, (proj2 (String.eqb_neq _ _) T2).
  - unfold int_of_digits. rewrite Hd, (proj2 (Nat.ltb_ge _ _)), T3 by (unfold MAX_STR_DIGITS; lia). done.
Qed.

(** The origin an authority is checked as. *)
Lemma https_text h p :
  (if p =? 443 then "https://" +:+ h else "https://" +:+ h +:+ ":" +:+ dec p) = origin_of "https" h p.
Proof. unfold origin_of, canonical_authority. change (default_port "https") with 443. by destruct (p =? 443). Qed.

Lemma event_authority_accepts h p :
  public_host h -> 1 <= p <= 65535 -> _canonical_event_authority (VStr (host_port h p)) = Ok (host_port h p).
Proof.
  intros Hh Hp. pose proof (public_host_chars h Hh) as Hc.
  destruct (host_port_parts h p Hc Hp) as (E1 & E2 & E3 & _ & E5 & E6).
  unfold _canonical_event_authority. cbn [str_of is_str negb orb]. rewrite E1, E2, E3, E5.
  rewrite (proj2 (String.eqb_neq h "")) by by apply host_nonempty. cbn [negb orb okb raise_if Z.eqb].
  rewrite E6. cbn [mbind res_bind].
  assert (in_range 1 65535 p = true) as -> by (unfold in_range; lia). cbn [negb okb raise_if].
  rewrite https_text, event_origin_accepts by done. cbn [mbind res_bind]. rewrite origin_split by done.
  cbn [mbind res_bind p_netloc]. destruct (canonical_info "https" h p Hh Hp) as [-> _].
  fold (host_port h p). by rewrite String.eqb_refl.
Qed.

Lemma event_authority_inv v a :
  _canonical_event_authority v = Ok a ->
  v = VStr a /\ exists h p, worker_host h /\ 1 <= p <= 65535 /\ a = host_port h p.
Proof.
  unfold _canonical_event_authority. intros Ha. run_inv.
  destruct (rpartition 58 (str_of v)) as [[raw_host found] raw_port]. run_inv.
  match goal with Hx : _canonical_event_origin _ = Ok _ |- _ =>
    apply event_origin_inv in Hx as (_ & sc & h & q & _ & Hw & _ & _ & parsed & Hu & Hi) end.
  match goal with Hx : urlsplit _ = Ok ?y |- _ => rewrite Hu in Hx; apply Ok_inj in Hx; subst y end.
  rewrite Hi in Ha. run_inv.
  match goal with Hx : String.eqb _ (str_of v) = true |- _ => apply String.eqb_eq in Hx as Ht end.
  split; [destruct v; try done; cbn [str_of] in Ht; congruence|].
  match goal with Hx : in_range 1 65535 ?y = true |- _ => exists h, y; unfold in_range in Hx end.
  split; [done|]. split; [lia|done].
Qed.

Definition numeric_authority (a : string) : bool :=
  let '(h, _, _) := partition 58 a in forallb numeric_host_label (split 46 h).

Lemma event_authority_agrees v a :
  (v = VStr a /\ normalize_connect_authority v = Ok a) <->
  (_canonical_event_authority v = Ok a /\ numeric_authority a = false).
Proof.
  unfold numeric_authority. split.
  - intros [-> (h & p & Hh & Hp & ->)%connect_inv]. split; [by apply event_authority_accepts|].
    destruct (host_port_parts h p (public_host_chars h Hh) Hp) as (_ & _ & _ & -> & _). apply Hh.
  - intros [(-> & h & p & Hw & Hp & ->)%event_authority_inv Hn]. split; [done|].
    destruct (host_port_parts h p (labels_chars h (proj2 (wh_labels h Hw))) Hp) as (_ & _ & _ & E & _).
    rewrite E in Hn. apply connect_normalizes; [|done]. by apply public_worker_host.
Qed.

(** The parent's own rules agree with the contract's, which it does not
    import: an origin is accepted from the worker exactly when the contract
    accepts it and leaves it as it is, and likewise a CONNECT authority; only a
    host all of whose labels are numbers is accepted here and refused there. *)
Theorem worker_destinations_agree (v : pyval) (s : string) :
  ((v = VStr s /\ normalize_origin v = Ok s) <->
   (_canonical_event_origin v = Ok s /\ numeric_spelling s = false)) /\
  ((v = VStr s /\ normalize_connect_authority v = Ok s) <->
   (_canonical_event_authority v = Ok s /\ numeric_authority s = false)).
Proof. split; [apply event_origin_agrees|apply event_authority_agrees]. Qed.

End destinations.

#[local] Existing Instance ascii_unicode.
#[local] Existing Instance no_digits.

Lemma worker_destinations_agree_witness :
  _canonical_event_origin (VStr "http://cdn.example.org:8080") = Ok "http://cdn.example.org:8080" /\
  normalize_connect_authority (VStr "cdn.example.org:443") = Ok "cdn.example.org:443".
Proof.
  assert (UnicodeLaws) as Hl by (by intros s).
  split.
  - apply (worker_destinations_agree (VStr "http://cdn.example.org:8080") "http://cdn.example.org:8080").
    split; vm_compute; reflexivity.
  - apply (worker_destinations_agree (VStr "cdn.example.org:443") "cdn.example.org:443"). split; vm_compute; reflexivity.
Defined.

(** The one difference: the parent takes a host spelled as two hexadecimal
    numbers for a name, which the contract refuses. *)
Lemma numeric_host_accepted :
  _canonical_event_origin (VStr "http://0x7f.0x1") = Ok "http://0x7f.0x1" /\
  normalize_origin (VStr "http://0x7f.0x1") = Err (BrowserContractError "numeric host spellings are not permitted").
Proof. split; vm_compute; reflexivity. Qed.

End WorkerEvents.
