(* ===== verification/WorkerSandbox.v ===== *)
(** * Identity and confinement of the egress worker

    The part of broker/browser_egress_worker.py that decides as whom the worker
    runs and how it is confined: the account checks, the receipt of the privilege
    drop, the drop itself over an interface of system calls, and the scan for
    surviving processes.  A receipt is returned only when the system reads back
    every restriction, and on Linux the drop, in the order of the source, gives
    that receipt. *)

From stdpp Require Import base list strings sorting.
From Stdlib Require Import ZArith Lia.
From S2P Require Import Prelude PyValue Json JsonFacts StrOps Ip Url UrlFacts BrowserEvidence EgressAddress WorkerWire WorkerEvents.

Local Open Scope Z_scope.

Module WorkerSandbox.
Import BrowserEvidence EgressAddress WorkerWire WorkerEvents.

Definition WORKER_USER : string := "cindermote-proxy".
Definition WORKER_GROUP : string := "cindermote-proxy".
Definition VMM_USER : string := "cindermote-vmm".
Definition VMM_GROUP : string := "cindermote-vmm".

Definition worker_error {A} (msg : string) : res A := Err (BrowserEgressWorkerError msg).

(** [n in {...}] for a set of integers *)
Definition mem_int (n : Z) (l : list Z) : bool := existsb (Z.eqb n) l.

(** ** Lines and fields *)

(** The length in bytes of the line separator a text starts with, or zero. *)
Definition separator (s : string) : nat :=
  if existsb (fun w => startswith w s) [utf8 8232; utf8 8233] then 3
  else if existsb (fun w => startswith w s) [chr 13 +:+ chr 10; utf8 133] then 2
  else if first_is (fun c => in_range 10 13 (byte_of c) || in_range 28 30 (byte_of c)) s then 1
  else 0.

(** The first line of a text after [skip] bytes, and the lines after it. *)
Fixpoint lines_from (skip : nat) (s : string) : string * list string :=
  match s with
  | EmptyString => ("", [])
  | String a r =>
      match skip with
      | S n => lines_from n r
      | O => match separator s with
             | S n => let '(l, ls) := lines_from n r in ("", l :: ls)
             | O => let '(l, ls) := lines_from 0 r in (String a l, ls)
             end
      end
  end.

(** [text.splitlines()]: no line after the last separator *)
Definition splitlines (s : string) : list string :=
  let '(l, ls) := lines_from 0 s in
  let all := l :: ls in
  if String.eqb (List.last all "") "" then removelast all else all.

(** [text.split()] *)
Fixpoint fields_from (s : string) : string * list string :=
  match s with
  | EmptyString => ("", [])
  | String a r =>
      let '(f, fs) := fields_from r in
      if strip_char a then ("", if String.eqb f "" then fs else f :: fs) else (String a f, fs)
  end.
Definition fields (s : string) : list string :=
  let '(f, fs) := fields_from s in if String.eqb f "" then fs else f :: fs.

(** ** The worker's account *)
Record account := mk_account { pw_name : string; pw_uid : Z; pw_gid : Z; pw_dir : string; pw_shell : string }.
Record group := mk_group { gr_name : string; gr_gid : Z; gr_mem : list string }.

(** The account databases: [getpwall], [getgrall], [getgrouplist] and the text of
    /etc/shadow; [None] is an [OSError]. *)
Record accounts := mk_accounts {
  passwd : list account;
  groups : list group;
  grouplist : string -> Z -> option (list Z);
  shadow : option string;
}.

Section identity.
Variable db : accounts.

Definition getpwnam (name : string) : option account := List.find (fun a => String.eqb (pw_name a) name) (passwd db).
Definition getgrnam (name : string) : option group := List.find (fun g => String.eqb (gr_name g) name) (groups db).

(** Whether the password is locked. *)
Definition _account_lock_check (user : string) : bool :=
  match shadow db with
  | None => false
  | Some text =>
      match List.filter (startswith (user +:+ ":")) (splitlines text) with
      | [entry] =>
          let '(_, _, rest) := partition 58 entry in
          first_is (fun c => ch 33 c || ch 42 c) rest
      | _ => false
      end
  end.

(** [0 < v < 2**31] for an [int] that is not a [bool] *)
Definition safe_id (v : pyval) : bool := int_in 1 (2 ^ 31 - 1) v.

(** [Path(shell).name] *)
Definition path_name (path : string) : string :=
  default "" (last (List.filter (fun p => negb (String.eqb p "" || String.eqb p ".")) (split 47 path))).

Definition forbidden_uids : list Z :=
  [0; 65533; 65534] ++ match getpwnam "nobody" with Some a => [pw_uid a] | None => [] end.
Definition forbidden_gids : list Z :=
  [0; 65533; 65534] ++ match getgrnam "nobody" with Some g => [gr_gid g] | None => [] end
  ++ match getgrnam "nogroup" with Some g => [gr_gid g] | None => [] end.

(** The conjunction [valid]. *)
Definition identity_valid (uid gid : Z) (account : account) (group : group) (vmm_account : WorkerSandbox.account)
    (vmm_group : WorkerSandbox.group) (supplementary_groups : list Z) : bool :=
  (pw_uid account =? uid) && (pw_gid account =? gid) && (gr_gid group =? gid)
  && negb (mem_int uid forbidden_uids) && negb (mem_int gid forbidden_gids)
  && negb (mem_int uid [pw_uid vmm_account; gr_gid vmm_group]) && negb (mem_int gid [pw_uid vmm_account; gr_gid vmm_group])
  && String.eqb (pw_dir account) "/nonexistent" && mem (path_name (pw_shell account)) ["nologin"; "false"]
  && forallb (Z.eqb gid) supplementary_groups && mem_int gid supplementary_groups
  && forallb (String.eqb WORKER_USER) (gr_mem group)
  && forallb (fun a => negb (pw_uid a =? uid) || String.eqb (pw_name a) WORKER_USER) (passwd db)
  && forallb (fun g => negb (gr_gid g =? gid) || String.eqb (gr_name g) WORKER_GROUP) (groups db)
  && _account_lock_check WORKER_USER.

Definition _verify_worker_identity (expected_uid expected_gid : pyval) : res (Z * Z) :=
  raise (BrowserEgressWorkerError "proxy worker IDs are outside the safe range")
    when negb (safe_id expected_uid) || negb (safe_id expected_gid);;
  match getpwnam WORKER_USER, getgrnam WORKER_GROUP, getpwnam VMM_USER, getgrnam VMM_GROUP with
  | Some account, Some group, Some vmm_account, Some vmm_group =>
      match grouplist db WORKER_USER (pw_gid account) with
      | None => worker_error "dedicated proxy or VMM identity cannot be resolved"
      | Some supplementary_groups =>
          raise (BrowserEgressWorkerError
                   "proxy worker IDs are not bound to the unique locked cindermote-proxy account")
            when negb (identity_valid (int_of expected_uid) (int_of expected_gid) account group vmm_account vmm_group
                         supplementary_groups);;
          Ok (int_of expected_uid, int_of expected_gid)
      end
  | _, _, _, _ => worker_error "dedicated proxy or VMM identity cannot be resolved"
  end.

End identity.

(** ** Surviving processes *)

(** What reading an entry of /proc gives. *)
Inductive stat_read := Gone | Unreadable | Text (text : string).

(** [int(s)] of a text of digits, after the minus signs in front of it *)
Fixpoint lstrip_minus (s : string) : string :=
  match s with String a r => if ch 45 a then lstrip_minus r else s | EmptyString => "" end.

Section processes.
Context `{UnicodeDigits}.

Definition int_signed (s : string) : res Z :=
  if first_is (ch 45) s
  then (if first_is (ch 45) (tail s) then Err (ValueError "invalid literal for int()")
        else let* n := int_of_digits (tail s) in Ok (- n))
  else int_of_digits s.

(** One entry: its members so far and whether the scan is still complete. *)
Definition scan_entry (process_group : Z) (acc : list Z * bool) (entry : string * stat_read) : res (list Z * bool) :=
  let '(members, complete) := acc in
  let '(name, read) := entry in
  if negb (isdigit name) then Ok acc
  else match read with
       | Gone => Ok acc
       | Unreadable => Ok (members, false)
       | Text text =>
           let '(_, _, after) := rpartition 41 text in
           match fields after with
           | state :: _ :: pgrp :: _ =>
               if negb (isdigit (lstrip_minus pgrp)) then Ok (members, false)
               else
                 let* group := int_signed pgrp in
                 if (group =? process_group) && negb (mem state ["Z"; "X"])
                 then let* pid := int_of_digits name in Ok (members ++ [pid], complete)
                 else Ok acc
           | _ => Ok (members, false)
           end
       end.

(** [None]: /proc cannot be listed. *)
Definition _live_process_group_members (process_group : Z) (entries : option (list (string * stat_read)))
    : res (list Z * bool) :=
  match entries with
  | None => Ok ([], false)
  | Some l => let* acc := foldM (scan_entry process_group) l ([], true) in Ok (merge_sort Z.le (fst acc), snd acc)
  end.

(** ** The scan reads what the kernel prints *)

(** A process id, and a line of /proc/<pid>/stat: the command name is any text. *)
Definition is_pid (n : Z) : Prop := 0 <= n < 2 ^ 31.
Record proc_stat := mk_proc_stat {
  ps_pid : Z; ps_comm : string; ps_state : string; ps_ppid : Z; ps_pgrp : Z; ps_rest : string;
}.
Definition stat_line (p : proc_stat) : string :=
  dec (ps_pid p) +:+ " (" +:+ ps_comm p +:+ ")" +:+ " " +:+ ps_state p +:+ " " +:+ dec (ps_ppid p) +:+ " "
  +:+ dec (ps_pgrp p) +:+ ps_rest p.
(** A word: no whitespace, no parenthesis. *)
Definition word_char (a : Ascii.ascii) : bool := negb (strip_char a) && negb (ch 41 a).
Record stat_ok (p : proc_stat) : Prop := {
  so_pid : is_pid (ps_pid p);
  so_ppid : is_pid (ps_ppid p);
  so_pgrp : is_pid (ps_pgrp p);
  so_state : ps_state p <> "" /\ str_forall word_char (ps_state p) = true;
  so_rest : has_char 41 (ps_rest p) = false /\ (ps_rest p = "" \/ first_is strip_char (ps_rest p) = true);
}.
Definition survivor (process_group : Z) (p : proc_stat) : bool :=
  (ps_pgrp p =? process_group) && negb (mem (ps_state p) ["Z"; "X"]).
Definition proc_entry (p : proc_stat) : string * stat_read := (dec (ps_pid p), Text (stat_line p)).

Lemma pid_text n : is_pid n -> isascii (dec n) = true /\ isdigit (dec n) = true /\ int_of_digits (dec n) = Ok n /\
  str_forall word_char (dec n) = true /\ dec n <> "" /\ first_is (ch 45) (dec n) = false.
Proof.
  intros Hn. destruct (dec_digits_only n) as [H1 [_ H2 H3 _ _]]; [apply Hn|].
  assert (Ha : isascii (dec n) = true) by (revert H1; apply str_forall_weaken; intros a; unfold is_digit, in_range; lia).
  assert (Hl : (String.length (dec n) <= 33)%nat).
  { unfold dec. rewrite (proj2 (Z.ltb_ge n 0)) by apply Hn. apply (length_dec_nonneg n 31). apply Hn. }
  split_and!; try done.
  - unfold isdigit. by rewrite Ha, H1, (proj2 (String.eqb_neq _ _) H3).
  - unfold int_of_digits. rewrite Ha, (proj2 (Nat.ltb_ge _ _)), H2 by (unfold MAX_STR_DIGITS; lia). done.
  - revert H1. apply str_forall_weaken. intros a. unfold word_char, strip_char, is_digit, in_range, ch. lia.
  - destruct (dec n); [done|]. cbn in *. apply andb_true_iff in H1 as [H1 _]. unfold is_digit, in_range, ch in *. lia.
Qed.

Lemma fields_from_word w r : str_forall word_char w = true -> fst (fields_from r) = "" ->
  fields_from (w +:+ r) = (w, snd (fields_from r)).
Proof.
  intros Hw Hr. induction w as [|a w IH]; [by rewrite append_nil_l, <- Hr, <- surjective_pairing|].
  cbn in Hw. apply andb_true_iff in Hw as [Ha Hw]. rewrite append_cons. cbn [fields_from]. rewrite IH by done.
  unfold word_char in Ha. apply andb_true_iff in Ha as [Ha%negb_true_iff _]. by rewrite Ha.
Qed.

Lemma fields_space w r : str_forall word_char w = true -> w <> "" -> fst (fields_from r) = "" ->
  fields_from (" " +:+ w +:+ r) = ("", w :: snd (fields_from r)).
Proof.
  intros Hw Hn Hr. change (" " +:+ w +:+ r) with (String (ascii_of 32) (w +:+ r)). cbn [fields_from]. rewrite fields_from_word by done. change (strip_char (ascii_of 32)) with true.
  by rewrite (proj2 (String.eqb_neq _ _) Hn).
Qed.

Lemma has_char_word w : str_forall word_char w = true -> has_char 41 w = false.
Proof. apply has_char_forall. intros a. unfold word_char. destruct (ch 41 a); [by rewrite andb_false_r|done]. Qed.

Lemma stat_fields p : stat_ok p ->
  rpartition 41 (stat_line p) =
    (dec (ps_pid p) +:+ " (" +:+ ps_comm p, true,
     " " +:+ ps_state p +:+ " " +:+ dec (ps_ppid p) +:+ " " +:+ dec (ps_pgrp p) +:+ ps_rest p) /\
  exists r, fields (" " +:+ ps_state p +:+ " " +:+ dec (ps_ppid p) +:+ " " +:+ dec (ps_pgrp p) +:+ ps_rest p)
    = ps_state p :: dec (ps_ppid p) :: dec (ps_pgrp p) :: r.
Proof.
  intros [_ (_ & _ & _ & Hp & Hpn & _)%pid_text (_ & _ & _ & Hg & Hgn & _)%pid_text [Hsn Hs] [Hr1 Hr2]]. split.
  - unfold stat_line. rewrite <- (append_assoc " (" (ps_comm p)), <- (append_assoc (dec (ps_pid p))).
    change (")" +:+ ?x) with (String (ascii_of 41) x). rewrite rpartition_app; [done|lia|].
    rewrite !has_char_app, (has_char_word _ Hs), (has_char_word _ Hp), (has_char_word _ Hg), Hr1. done.
  - assert (Hf : fst (fields_from (ps_rest p)) = "").
    { destruct (ps_rest p) as [|a r]; [done|]. destruct Hr2 as [|Hr2]; [done|]. cbn in *. rewrite Hr2. by destruct (fields_from r). }
    exists (snd (fields_from (ps_rest p))). unfold fields.
    assert (E1 := fields_space _ _ Hg Hgn Hf). assert (E2 := fields_space _ _ Hp Hpn (f_equal fst E1)).
    rewrite (fields_space _ _ Hs Hsn (f_equal fst E2)), E2, E1. done.
Qed.

Lemma lstrip_none s : first_is (ch 45) s = false -> lstrip_minus s = s.
Proof. destruct s as [|a s]; [done|]. cbn. by intros ->. Qed.

Lemma scan_entry_stat pg ms complete p : stat_ok p ->
  scan_entry pg (ms, complete) (proc_entry p) = Ok (if survivor pg p then ms ++ [ps_pid p] else ms, complete).
Proof.
  intros Hp. destruct (stat_fields p Hp) as (E & r & F). unfold scan_entry, proc_entry.
  destruct (pid_text _ (so_pid p Hp)) as (_ & -> & I & _). destruct (pid_text _ (so_pgrp p Hp)) as (_ & D & J & _ & _ & M).
  cbn [negb]. rewrite E, F, lstrip_none, D by done. cbn [negb]. unfold int_signed. rewrite M, J. cbn [mbind res_bind].
  unfold survivor. destruct (_ && _); [|done]. by rewrite I.
Qed.

Lemma scan_entries pg l : Forall stat_ok l -> forall ms complete,
  foldM (scan_entry pg) (map proc_entry l) (ms, complete) = Ok (ms ++ map ps_pid (List.filter (survivor pg) l), complete).
Proof.
  induction 1 as [|p l Hp _ IH]; intros ms complete; cbn [map List.filter foldM]; [by rewrite app_nil_r|].
  rewrite scan_entry_stat by done. cbn [mbind res_bind]. rewrite IH. destruct (survivor pg p); [|done].
  by rewrite <- app_assoc.
Qed.

(** The scan for survivors is exact whatever the processes call themselves:
    from the stat lines of any processes, with command names that may hold
    blanks, parentheses or text that looks like the rest of a line, it gives the
    sorted ids of exactly those of the group that are not zombies or dead, and
    reports itself complete. *)
Theorem live_members_exact (pg : Z) (l : list proc_stat) :
  Forall stat_ok l ->
  _live_process_group_members pg (Some (map proc_entry l))
  = Ok (merge_sort Z.le (map ps_pid (List.filter (survivor pg) l)), true).
Proof. intros Hl. unfold _live_process_group_members. by rewrite scan_entries. Qed.

(** A survivor that is listed is found, or the scan is not complete. *)
Lemma scan_entry_grows pg acc e acc' :
  scan_entry pg acc e = Ok acc' -> (snd acc' = true -> snd acc = true) /\ (forall m, In m (fst acc) -> In m (fst acc')).
Proof.
  unfold scan_entry. destruct acc as [ms complete], e as [name read]. intros He.
  destruct (isdigit name); cbn [negb] in He; [|run_inv; by subst].
  destruct read as [| |text]; [run_inv; by subst|run_inv; by subst|].
  destruct (rpartition 41 text) as [[? ?] after]. destruct (fields after) as [|? [|? [|pgrp ?]]]; [run_inv; by subst..|].
  destruct (isdigit (lstrip_minus pgrp)); cbn [negb] in He; [|run_inv; by subst]. run_inv.
  destruct (_ && _); run_inv; subst; [|done]. split; [done|]. intros m Hm. apply in_app_iff. by left.
Qed.

Lemma scan_complete pg l : forall acc acc', foldM (scan_entry pg) l acc = Ok acc' ->
  (snd acc' = true -> snd acc = true) /\ (forall m, In m (fst acc) -> In m (fst acc')).
Proof.
  induction l as [|e l IH]; intros acc acc' Hf; cbn in Hf; run_inv; [by subst|].
  match goal with Hx : scan_entry _ _ _ = Ok _ |- _ => apply scan_entry_grows in Hx as [H1 H2] end.
  apply IH in Hf as [H3 H4]. split; eauto.
Qed.

Lemma scan_finds pg entries p e : stat_ok p -> survivor pg p = true ->
  In e entries -> fst e = dec (ps_pid p) -> (snd e = Unreadable \/ snd e = Text (stat_line p)) ->
  _live_process_group_members pg (Some entries) <> Ok ([], true).
Proof.
  intros Hp Hs Hin Hn He. unfold _live_process_group_members. intros Hf. run_inv.
  match goal with Hx : foldM _ _ _ = Ok ?y |- _ => rename Hx into Hm; destruct y as [ms complete] end.
  cbn [fst snd] in Hf. injection Hf as Hms ->.
  assert (ms = []) as -> by (apply Permutation_nil; rewrite <- Hms; apply merge_sort_Permutation). clear Hms.
  apply in_split in Hin as (l1 & l2 & ->). rewrite foldM_app in Hm. run_inv. cbn [foldM] in Hm. run_inv.
  match goal with Hx : scan_entry _ ?a _ = Ok ?b |- _ => rename Hx into He2; destruct a as [ms1 c1] end.
  apply scan_complete in Hm as [H1 H2]. cbn [fst snd] in *. destruct e as [name read]. cbn [fst snd] in *. subst name.
  destruct He as [-> | ->].
  - unfold scan_entry in He2. destruct (pid_text _ (so_pid p Hp)) as (_ & E & _). rewrite E in He2. cbn in He2. run_inv. subst.
    specialize (H1 eq_refl). done.
  - change (dec (ps_pid p), Text (stat_line p)) with (proc_entry p) in He2. rewrite scan_entry_stat, Hs in He2 by done.
    run_inv. subst. cbn in *. apply (H2 (ps_pid p)). apply in_app_iff. right. by left.
Qed.

End processes.

(** The three processes of group 77: a zombie, one whose name imitates a
    zombie's line, and one of another group. *)
Definition sample_stats : list proc_stat :=
  [mk_proc_stat 81 "python3" "Z" 77 77 " 77 0"; mk_proc_stat 78 "a) Z 1 1 (" "S" 77 77 " 77 0"; mk_proc_stat 9 "init" "S" 0 9 ""].

Lemma live_members_exact_witness :
  @_live_process_group_members no_digits 77 (Some (map proc_entry sample_stats)) = Ok ([78], true).
Proof.
  rewrite (@live_members_exact no_digits 77 sample_stats); [reflexivity|].
  repeat constructor; cbn; try done; by right.
Defined.

(** ** The receipt of the privilege drop *)
Definition SIGKILL : Z := 9.

(** [sorted(RLIMITS.items())]: the resource and its limit *)
Inductive resource := RLIMIT_CORE | RLIMIT_FSIZE | RLIMIT_NOFILE | RLIMIT_NPROC | RLIMIT_AS.
Definition RLIMITS : list (string * (resource * Z)) :=
  [("core", (RLIMIT_CORE, 0)); ("file_size", (RLIMIT_FSIZE, 0)); ("open_files", (RLIMIT_NOFILE, 64));
   ("processes", (RLIMIT_NPROC, 32)); ("address_space", (RLIMIT_AS, 256 * 1024 * 1024))].
Definition sorted_rlimits : list (string * (resource * Z)) := sort_items RLIMITS.

Record security := mk_security {
  s_uid : Z; s_gid : Z; s_uids : Z * Z * Z; s_gids : Z * Z * Z; s_groups : Z; s_no_new_privs : bool; s_dumpable : bool;
  s_parent_death_signal : Z; s_parent_pid_bound : bool; s_capabilities_zero : bool; s_environment_entries : Z;
  s_rlimits : list (string * (Z * Z));
}.

Definition triple_val (t : Z * Z * Z) : pyval := let '(a, b, c) := t in VList [VInt a; VInt b; VInt c].
Definition security_val (s : security) : pyval :=
  VDict [("uid", VInt (s_uid s)); ("gid", VInt (s_gid s)); ("uids", triple_val (s_uids s)); ("gids", triple_val (s_gids s));
         ("supplementary_groups", VInt (s_groups s)); ("no_new_privs", VBool (s_no_new_privs s));
         ("dumpable", VBool (s_dumpable s)); ("parent_death_signal", VInt (s_parent_death_signal s));
         ("parent_pid_bound", VBool (s_parent_pid_bound s)); ("capabilities_zero", VBool (s_capabilities_zero s));
         ("environment_entries", VInt (s_environment_entries s));
         ("rlimits", VDict (map (fun l => (fst l, VList [VInt (fst (snd l)); VInt (snd (snd l))])) (s_rlimits s)))].

Definition _expected_security_receipt (uid gid : Z) : security :=
  mk_security uid gid (uid, uid, uid) (gid, gid, gid) 0 true false SIGKILL true true 0
    (map (fun l => (fst l, (snd (snd l), snd (snd l)))) sorted_rlimits).

Definition _validate_security_receipt (value : pyval) (uid gid : Z) : res security :=
  raise (BrowserEgressWorkerProtocolError "worker security receipt shape changed")
    when negb (dict_shape value SECURITY_KEYS);;
  let expected := _expected_security_receipt uid gid in
  raise (BrowserEgressWorkerProtocolError "worker privilege drop is incomplete")
    when negb (py_eq value (security_val expected));;
  Ok expected.

(** ** The drop, over the system calls it makes *)

(** [_SecurityOps]: each call may raise [OSError]. *)
Class SecurityOps (W : Type) := {
  clear_environment : W -> res W;
  set_no_new_privs : W -> res W;
  get_no_new_privs : W -> res bool;
  set_dumpable_false : W -> res W;
  get_dumpable : W -> res bool;
  set_parent_death_signal : Z -> W -> res W;
  get_parent_death_signal : W -> res Z;
  get_parent_pid : W -> res Z;
  set_limit : resource -> Z -> W -> res W;
  get_limit : resource -> W -> res (Z * Z);
  set_groups : list Z -> W -> res W;
  set_gid : Z -> W -> res W;
  set_uid : Z -> W -> res W;
  get_groups : W -> res (list Z);
  get_gid : W -> res Z;
  get_uid : W -> res Z;
  get_gids : W -> res (Z * Z * Z);
  get_uids : W -> res (Z * Z * Z);
  capabilities_zero : W -> res bool;
  environment_count : W -> res Z;
  umask : Z -> W -> res W;
  chdir_root : W -> res W;
}.

Section sandbox.
Context {W : Type} `{SecurityOps W}.

(** The receipt, read back from the system. *)
Definition read_receipt (parent_bound : bool) (w : W) : res security :=
  let* uid := get_uid w in
  let* gid := get_gid w in
  let* uids := get_uids w in
  let* gids := get_gids w in
  let* groups := get_groups w in
  let* no_new_privs := get_no_new_privs w in
  let* dumpable := get_dumpable w in
  let* parent_death_signal := get_parent_death_signal w in
  let* capabilities := capabilities_zero w in
  let* environment := environment_count w in
  let* rlimits := map_res (fun l => let* v := get_limit (fst (snd l)) w in Ok (fst l, v)) sorted_rlimits in
  Ok (mk_security uid gid uids gids (Z.of_nat (length groups)) no_new_privs dumpable parent_death_signal parent_bound
        capabilities environment rlimits).

Definition _apply_worker_sandbox (uid gid : Z) (expected_parent_pid : option Z) (w : W) : res (security * W) :=
  raise (BrowserEgressWorkerError "proxy worker cannot retain root identity") when (uid =? 0) || (gid =? 0);;
  let* parent_pid := get_parent_pid w in
  let expected_parent := default parent_pid expected_parent_pid in
  raise (BrowserEgressWorkerError "proxy worker parent identity changed")
    when negb (parent_pid =? expected_parent) || (expected_parent <=? 1);;
  let* w := clear_environment w in
  let* w := set_no_new_privs w in
  let* w := foldM (fun w l => set_limit (fst (snd l)) (snd (snd l)) w) RLIMITS w in
  let* w := set_groups [] w in
  let* w := set_gid gid w in
  let* w := set_uid uid w in
  let* w := set_dumpable_false w in
  let* w := set_parent_death_signal SIGKILL w in
  let* parent := get_parent_pid w in
  let parent_bound := parent =? expected_parent in
  raise (BrowserEgressWorkerError "proxy worker parent exited during sandboxing") when negb parent_bound;;
  let* w := umask 63 w in
  let* w := chdir_root w in
  let* receipt := read_receipt parent_bound w in
  let* security := _validate_security_receipt (security_val receipt) uid gid in
  Ok (security, w).

End sandbox.

(** ** What the drop guarantees *)
Lemma py_eq_ints a b : py_eq (VInt a) (VInt b) = true <-> a = b.
Proof. cbn. lia. Qed.
Lemma py_eq_bools a b : py_eq (VBool a) (VBool b) = true <-> a = b.
Proof. by destruct a, b. Qed.

Lemma py_eq_triple t u : py_eq (triple_val t) (triple_val u) = true <-> t = u.
Proof.
  destruct t as [[x y] z], u as [[a b] c]. unfold triple_val. rewrite py_eq_list, !Forall2_cons, !py_eq_ints.
  split; [intros (-> & -> & -> & _)|intros [= -> -> ->]]; done.
Qed.
Lemma py_eq_pair p q : py_eq (VList [VInt (fst p); VInt (snd p)]) (VList [VInt (fst q); VInt (snd q)]) = true <-> p = q.
Proof.
  destruct p, q. cbn [fst snd]. rewrite py_eq_list, !Forall2_cons, !py_eq_ints. split; [intros (-> & -> & _)|intros [= -> ->]]; done.
Qed.

Lemma sorted_rlimits_eq :
  sorted_rlimits = [("address_space", (RLIMIT_AS, 268435456)); ("core", (RLIMIT_CORE, 0)); ("file_size", (RLIMIT_FSIZE, 0));
                    ("open_files", (RLIMIT_NOFILE, 64)); ("processes", (RLIMIT_NPROC, 32))].
Proof. reflexivity. Qed.

(** The limits of a receipt, as [read_receipt] lists them. *)
Definition limits_of (core size files processes space : Z * Z) : list (string * (Z * Z)) :=
  [("address_space", space); ("core", core); ("file_size", size); ("open_files", files); ("processes", processes)].

Lemma expected_limits uid gid :
  s_rlimits (_expected_security_receipt uid gid) = limits_of (0, 0) (0, 0) (64, 64) (32, 32) (268435456, 268435456).
Proof. reflexivity. Qed.

(** Two receipts compare equal only when they are: no [1] for [True] here. *)
Lemma security_val_inj r s a b c d e a' b' c' d' e' :
  s_rlimits r = limits_of a b c d e -> s_rlimits s = limits_of a' b' c' d' e' ->
  py_eq (security_val r) (security_val s) = true <-> r = s.
Proof.
  destruct r, s. cbn [s_rlimits]. intros -> ->. unfold security_val, limits_of. cbn [s_uid s_gid s_uids s_gids s_groups
    s_no_new_privs s_dumpable s_parent_death_signal s_parent_pid_bound s_capabilities_zero s_environment_entries s_rlimits].
  rewrite py_eq_dict.
  cbn [forallb assoc fst snd length Nat.eqb String.eqb Ascii.eqb Bool.eqb andb map]. rewrite py_eq_dict.
  cbn [forallb assoc fst snd length Nat.eqb String.eqb Ascii.eqb Bool.eqb andb map].
  rewrite !andb_true_iff, !py_eq_ints, !py_eq_bools, !py_eq_triple, !py_eq_pair. split.
  - intros Hx. destruct_and? Hx. congruence.
  - intros [=]. subst. by split_and!.
Qed.

Lemma security_receipt_accepts uid gid :
  _validate_security_receipt (security_val (_expected_security_receipt uid gid)) uid gid = Ok (_expected_security_receipt uid gid).
Proof.
  unfold _validate_security_receipt.
  assert (dict_shape (security_val (_expected_security_receipt uid gid)) SECURITY_KEYS = true) as -> by reflexivity.
  by rewrite (proj2 (security_val_inj _ _ _ _ _ _ _ _ _ _ _ _ (expected_limits uid gid) (expected_limits uid gid)) eq_refl).
Qed.

Section drop.
Context {W : Type} `{SecurityOps W}.

(** The state of a process whose drop is complete, as the system reports it. *)
Record confined (uid gid : Z) (w : W) : Prop := {
  c_uid : get_uid w = Ok uid;
  c_gid : get_gid w = Ok gid;
  c_uids : get_uids w = Ok (uid, uid, uid);
  c_gids : get_gids w = Ok (gid, gid, gid);
  c_groups : get_groups w = Ok [];
  c_no_new_privs : get_no_new_privs w = Ok true;
  c_dumpable : get_dumpable w = Ok false;
  c_parent_death_signal : get_parent_death_signal w = Ok SIGKILL;
  c_capabilities : capabilities_zero w = Ok true;
  c_environment : environment_count w = Ok 0;
  c_limits : forall name resource limit, In (name, (resource, limit)) RLIMITS -> get_limit resource w = Ok (limit, limit);
}.

Lemma read_receipt_limits bound w r :
  read_receipt bound w = Ok r -> exists a b c d e, s_rlimits r = limits_of a b c d e /\
    get_limit RLIMIT_CORE w = Ok a /\ get_limit RLIMIT_FSIZE w = Ok b /\ get_limit RLIMIT_NOFILE w = Ok c /\
    get_limit RLIMIT_NPROC w = Ok d /\ get_limit RLIMIT_AS w = Ok e.
Proof.
  unfold read_receipt. intros Hr. run_inv. subst r. cbn [s_rlimits].
  match goal with Hx : map_res _ _ = Ok _ |- _ => rewrite sorted_rlimits_eq in Hx; cbn [map_res fst snd] in Hx end.
  run_inv. subst. by repeat eexists.
Qed.

Lemma read_receipt_confined uid gid w :
  read_receipt true w = Ok (_expected_security_receipt uid gid) <-> confined uid gid w.
Proof.
  split.
  - intros Hr. destruct (read_receipt_limits _ _ _ Hr) as (a & b & c & d & e & Hl & H1 & H2 & H3 & H4 & H5).
    rewrite expected_limits in Hl. unfold limits_of in Hl. simplify_eq.
    unfold read_receipt in Hr. run_inv. unfold _expected_security_receipt in Hr. injection Hr as; subst.
    match goal with Hx : get_groups _ = Ok ?l |- _ => destruct l; [|done] end.
    split; try done. intros name r l Hin. cbn in Hin. naive_solver.
  - intros []. unfold read_receipt. rewrite c_uid0, c_gid0, c_uids0, c_gids0, c_groups0, c_no_new_privs0, c_dumpable0.
    cbn [mbind res_bind]. rewrite c_parent_death_signal0, c_capabilities0, c_environment0. cbn [mbind res_bind].
    rewrite (proj2 (map_res_ok _ _ (limits_of (0, 0) (0, 0) (64, 64) (32, 32) (268435456, 268435456)))); [done|].
    rewrite sorted_rlimits_eq. repeat constructor; cbn [fst snd]; erewrite c_limits0; (reflexivity || (cbn; tauto)).
Qed.

Lemma sandbox_confined uid gid parent w r w' :
  _apply_worker_sandbox uid gid parent w = Ok (r, w') ->
  r = _expected_security_receipt uid gid /\ uid <> 0 /\ gid <> 0 /\ confined uid gid w'.
Proof.
  unfold _apply_worker_sandbox. intros Hs. run_inv. simplify_eq.
  match goal with Hx : read_receipt _ _ = Ok _, Hy : _validate_security_receipt _ _ _ = Ok _, Hz : _ = true |- _ =>
    rename Hx into Hr; rename Hy into Hv; rewrite Hz in Hr end.
  unfold _validate_security_receipt in Hv. run_inv. subst.
  destruct (read_receipt_limits _ _ _ Hr) as (a & b & c & d & e & Hl & _).
  match goal with Hx : py_eq _ _ = true |- _ => apply (security_val_inj _ _ _ _ _ _ _ _ _ _ _ _ Hl (expected_limits uid gid)) in Hx as -> end.
  split; [done|]. split; [lia|]. split; [lia|]. by apply read_receipt_confined.
Qed.

(** The child may import the parser only after its drop is attested: when
    [_apply_worker_sandbox] returns, over any system calls, the identity asked for
    is not root, the receipt is the one the parent expects, and in the state left
    behind the system reads back every restriction: all three user and group ids,
    no supplementary group, no capability, no new privileges, not dumpable, killed
    with its parent, an empty environment and each of the resource limits. *)
Theorem sandbox_attested uid gid parent w r w' :
  _apply_worker_sandbox uid gid parent w = Ok (r, w') ->
  r = _expected_security_receipt uid gid /\ uid <> 0 /\ gid <> 0 /\ confined uid gid w'.
Proof. apply sandbox_confined. Qed.

End drop.

(** ** The order of the drop

    What credentials(7), capabilities(7), prctl(2) and getrlimit(2) say of the
    calls, for a process that holds either every capability or none. *)
Record process := mk_process {
  p_uids : Z * Z * Z; p_gids : Z * Z * Z; p_groups : list Z; p_capable : bool; p_no_new_privs : bool; p_dumpable : bool;
  p_death_signal : Z; p_parent : Z; p_environment : Z; p_limits : resource -> Z * Z;
}.

#[export] Instance resource_eq_dec : EqDecision resource.
Proof. solve_decision. Defined.

Definition with_limit (r : resource) (v : Z) (f : resource -> Z * Z) : resource -> Z * Z :=
  fun q => if decide (q = r) then (v, v) else f q.

(** A change of credentials clears the parent-death signal and may change the
    dumpable flag; the last user id 0 takes the capabilities with it. *)
Class SystemCalls (W : Type) `{SecurityOps W} := {
  view : W -> process;
  sys_uid w : get_uid w = Ok (fst (fst (p_uids (view w))));
  sys_gid w : get_gid w = Ok (fst (fst (p_gids (view w))));
  sys_uids w : get_uids w = Ok (p_uids (view w));
  sys_gids w : get_gids w = Ok (p_gids (view w));
  sys_groups w : get_groups w = Ok (p_groups (view w));
  sys_no_new_privs w : get_no_new_privs w = Ok (p_no_new_privs (view w));
  sys_dumpable w : get_dumpable w = Ok (p_dumpable (view w));
  sys_death_signal w : get_parent_death_signal w = Ok (p_death_signal (view w));
  sys_parent w : get_parent_pid w = Ok (p_parent (view w));
  sys_capabilities w : capabilities_zero w = Ok (negb (p_capable (view w)));
  sys_environment w : environment_count w = Ok (p_environment (view w));
  sys_limit r w : get_limit r w = Ok (p_limits (view w) r);
  do_environment w : exists w', clear_environment w = Ok w' /\
    view w' = let '(mk_process u g s c n d k p e l) := view w in mk_process u g s c n d k p 0 l;
  do_no_new_privs w : exists w', set_no_new_privs w = Ok w' /\
    view w' = let '(mk_process u g s c n d k p e l) := view w in mk_process u g s c true d k p e l;
  do_limit r v w : p_capable (view w) = true -> exists w', set_limit r v w = Ok w' /\
    view w' = let '(mk_process u g s c n d k p e l) := view w in mk_process u g s c n d k p e (with_limit r v l);
  do_groups gs w : p_capable (view w) = true -> exists w', set_groups gs w = Ok w' /\
    view w' = let '(mk_process u g s c n d k p e l) := view w in mk_process u g gs c n d k p e l;
  do_gid i w : p_capable (view w) = true -> exists w' dumpable, set_gid i w = Ok w' /\
    view w' = let '(mk_process u g s c n d k p e l) := view w in mk_process u (i, i, i) s c n dumpable 0 p e l;
  do_uid i w : p_capable (view w) = true -> p_uids (view w) = (0, 0, 0) -> i <> 0 ->
    exists w' dumpable, set_uid i w = Ok w' /\
    view w' = let '(mk_process u g s c n d k p e l) := view w in mk_process (i, i, i) g s false n dumpable 0 p e l;
  do_dumpable w : exists w', set_dumpable_false w = Ok w' /\
    view w' = let '(mk_process u g s c n d k p e l) := view w in mk_process u g s c n false k p e l;
  do_death_signal v w : exists w', set_parent_death_signal v w = Ok w' /\
    view w' = let '(mk_process u g s c n d k p e l) := view w in mk_process u g s c n d v p e l;
  do_umask v w : exists w', umask v w = Ok w' /\ view w' = view w;
  do_chdir w : exists w', chdir_root w = Ok w' /\ view w' = view w;
}.

(** Runs the next call of the goal by its law; [Hv] is the view of the state. *)
Ltac call law Hv :=
  let Hx := fresh "Hx" in let Hy := fresh "Hy" in let E := fresh "E" in let w := fresh "w" in
  pose proof law as Hx; rewrite Hv in Hx; cbn [p_capable p_uids] in Hx;
  repeat lazymatch type of Hx with ?P -> _ => assert P as Hy by done; specialize (Hx Hy); clear Hy end;
  clear Hv; first [destruct Hx as (w & ? & E & Hv) | destruct Hx as (w & E & Hv)]; rewrite E; clear E; cbn [mbind res_bind].

Section order.
Context {W : Type} `{SystemCalls W}.

(** C18: The order of the drop works: from a process that is root with every
    capability, [_apply_worker_sandbox] reaches the confined state.  The groups go
    while the process may still change them, the user id last of the three, and the
    parent-death signal after it, since a change of credentials clears it. *)
Theorem sandbox_drop_succeeds uid gid w :
  p_capable (view w) = true -> p_uids (view w) = (0, 0, 0) -> 1 < p_parent (view w) -> uid <> 0 -> gid <> 0 ->
  exists w', _apply_worker_sandbox uid gid (Some (p_parent (view w))) w = Ok (_expected_security_receipt uid gid, w') /\
    confined uid gid w' /\ p_parent (view w') = p_parent (view w).
Proof.
  intros Hc Hu Hp H1 H2. unfold _apply_worker_sandbox.
  rewrite (proj2 (Z.eqb_neq uid 0) H1), (proj2 (Z.eqb_neq gid 0) H2), sys_parent.
  cbn [okb raise_if orb mbind res_bind default from_option id].
  rewrite Z.eqb_refl, (proj2 (Z.leb_gt _ _) Hp). cbn [okb raise_if orb negb].
  destruct (view w) as [us gs ss c n d k p e l] eqn:Hv. cbn [p_capable p_uids p_parent] in *. subst us c.
  call (do_environment w) Hv. call (do_no_new_privs w0) Hv. cbn [foldM RLIMITS fst snd].
  call (do_limit RLIMIT_CORE 0 w1) Hv. call (do_limit RLIMIT_FSIZE 0 w2) Hv. call (do_limit RLIMIT_NOFILE 64 w3) Hv.
  call (do_limit RLIMIT_NPROC 32 w4) Hv. call (do_limit RLIMIT_AS (256 * 1024 * 1024) w5) Hv.
  call (do_groups [] w6) Hv. call (do_gid gid w7) Hv. call (do_uid uid w8) Hv. call (do_dumpable w9) Hv.
  call (do_death_signal SIGKILL w10) Hv. rewrite sys_parent, Hv. cbn [mbind res_bind p_parent]. rewrite Z.eqb_refl.
  cbn [negb okb raise_if]. call (do_umask 63 w11) Hv. call (do_chdir w12) Hv.
  assert (Hf : confined uid gid w13) .
  { split; [by rewrite sys_uid, Hv|by rewrite sys_gid, Hv|by rewrite sys_uids, Hv|by rewrite sys_gids, Hv|by rewrite sys_groups, Hv
      |by rewrite sys_no_new_privs, Hv|by rewrite sys_dumpable, Hv|by rewrite sys_death_signal, Hv
      |by rewrite sys_capabilities, Hv|by rewrite sys_environment, Hv|].
    intros name r limit Hin. rewrite sys_limit, Hv. cbn in Hin. naive_solver. }
  exists w13. rewrite (proj2 (read_receipt_confined uid gid w13) Hf). cbn [mbind res_bind].
  rewrite security_receipt_accepts. by rewrite Hv.
Qed.

End order.

(** *** A system where the calls behave so *)
Definition denied {A} : res A := Err (OSError "Operation not permitted").
Definition process_ops : SecurityOps process := {|
  clear_environment '(mk_process u g s c n d k p e l) := Ok (mk_process u g s c n d k p 0 l);
  set_no_new_privs '(mk_process u g s c n d k p e l) := Ok (mk_process u g s c true d k p e l);
  get_no_new_privs w := Ok (p_no_new_privs w);
  set_dumpable_false '(mk_process u g s c n d k p e l) := Ok (mk_process u g s c n false k p e l);
  get_dumpable w := Ok (p_dumpable w);
  set_parent_death_signal v '(mk_process u g s c n d k p e l) := Ok (mk_process u g s c n d v p e l);
  get_parent_death_signal w := Ok (p_death_signal w);
  get_parent_pid w := Ok (p_parent w);
  set_limit r v '(mk_process u g s c n d k p e l) :=
    if c || (v <=? snd (l r)) then Ok (mk_process u g s c n d k p e (with_limit r v l)) else denied;
  get_limit r w := Ok (p_limits w r);
  set_groups gs '(mk_process u g s c n d k p e l) := if c then Ok (mk_process u g gs c n d k p e l) else denied;
  set_gid i '(mk_process u g s c n d k p e l) := if c then Ok (mk_process u (i, i, i) s c n false 0 p e l) else denied;
  set_uid i '(mk_process u g s c n d k p e l) :=
    if c then Ok (mk_process (i, i, i) g s (c && ((i =? 0) || negb (bool_decide (u = (0, 0, 0))))) n false 0 p e l) else denied;
  get_groups w := Ok (p_groups w);
  get_gid w := Ok (fst (fst (p_gids w)));
  get_uid w := Ok (fst (fst (p_uids w)));
  get_gids w := Ok (p_gids w);
  get_uids w := Ok (p_uids w);
  capabilities_zero w := Ok (negb (p_capable w));
  environment_count w := Ok (p_environment w);
  umask _ w := Ok w;
  chdir_root w := Ok w;
|}.
#[local] Existing Instance process_ops.

Definition process_calls : SystemCalls process.
Proof.
  refine {| view w := w |}; try done; intros.
  all: match goal with w : process |- _ => destruct w; cbn [p_capable p_uids] in *; simplify_eq end; cbn; eauto.
  rewrite (proj2 (Z.eqb_neq _ _)) by done. rewrite bool_decide_true by done. cbn. eauto.
Defined.
#[local] Existing Instance process_calls.

Definition root_process : process :=
  mk_process (0, 0, 0) (0, 0, 0) [0; 4; 27] true false true 0 4242 17 (fun _ => (1024, 4096)).

Lemma sandbox_drop_succeeds_witness :
  exists w', _apply_worker_sandbox 991 992 (Some (p_parent (view root_process))) root_process
    = Ok (_expected_security_receipt 991 992, w') /\
    confined 991 992 w' /\ p_parent (view w') = p_parent (view root_process).
Proof. apply (sandbox_drop_succeeds 991 992 root_process); reflexivity || lia. Defined.

Definition dropped : process :=
  match _apply_worker_sandbox 991 992 (Some 4242) root_process with Ok (_, w) => w | Err _ => root_process end.

Lemma sandbox_attested_witness :
  _expected_security_receipt 991 992 = _expected_security_receipt 991 992 /\ 991 <> 0 /\ 992 <> 0 /\ confined 991 992 dropped.
Proof. apply (sandbox_attested 991 992 (Some 4242) root_process _ dropped). reflexivity. Defined.

(** ** The frames that start a session *)
Section config.
Context `{IpRelease} `{Unicode}.

Definition _canonical_local_ip (value : pyval) (name : string) (allow_link_local : bool) : res string :=
  raise (BrowserEgressWorkerError (name +:+ " must be a plain IP literal")) when not_plain value;;
  match ip_address (str_of value) with
  | None => worker_error (name +:+ " must be a plain IP literal")
  | Some address =>
      raise (BrowserEgressWorkerError (name +:+ " must be a private endpoint"))
        when is_unspecified address || is_multicast address || (is_link_local address && negb allow_link_local)
             || is_global address;;
      Ok (compressed address)
  end.

Definition _wall_clock_from_config (config : pyval) : res Z :=
  let* request := get config "request" in
  raise (BrowserEgressWorkerProtocolError "worker request is missing") when negb (is_dict request);;
  let* budgets := get request "budgets" in
  raise (BrowserEgressWorkerProtocolError "worker request budgets are missing") when negb (is_dict budgets);;
  let* value := get budgets "wall_clock_sec" in
  raise (BrowserEgressWorkerProtocolError "worker wall-clock budget is invalid") when negb (int_in 1 60 value);;
  Ok (int_of value).

Definition START_KEYS : list string :=
  ["type"; "protocol_version"; "nonce"; "request"; "bind_host"; "bind_port"; "allowed_client_ip"].

(** The start frame: what the child needs to build a proxy. *)
Record start := mk_start {
  st_nonce : string; st_request : pyval; st_bind_host : string; st_bind_port : Z; st_allowed_client_ip : string;
}.
Definition start_frame (s : start) : pydict :=
  [("type", VStr "start"); ("protocol_version", VStr PROTOCOL_VERSION); ("nonce", VStr (st_nonce s));
   ("request", st_request s); ("bind_host", VStr (st_bind_host s)); ("bind_port", VInt (st_bind_port s));
   ("allowed_client_ip", VStr (st_allowed_client_ip s))].

Definition _validate_child_config (value : pyval) : res start :=
  raise (BrowserEgressWorkerProtocolError "worker start frame shape changed") when negb (dict_shape value START_KEYS);;
  let* nonce := sub value "nonce" in
  let* type := sub value "type" in
  let* version := sub value "protocol_version" in
  raise (BrowserEgressWorkerProtocolError "worker start frame is invalid")
    when negb (py_eq type (VStr "start")) || negb (py_eq version (VStr PROTOCOL_VERSION))
         || negb (is_str nonce && hex_string 64 (str_of nonce));;
  let* host := sub value "bind_host" in
  let* bind_host := _canonical_local_ip host "bind_host" true in
  let* client := sub value "allowed_client_ip" in
  let* allowed_client := _canonical_local_ip client "allowed_client_ip" false in
  let* port := sub value "bind_port" in
  raise (BrowserEgressWorkerProtocolError "worker bind port is invalid") when negb (int_in 1024 65535 port);;
  let* request := sub value "request" in
  raise (BrowserEgressWorkerProtocolError "worker request must be an object") when negb (is_dict request);;
  let normalized := mk_start (str_of nonce) request bind_host (int_of port) allowed_client in
  let* _ := _wall_clock_from_config (VDict (start_frame normalized)) in
  Ok normalized.

Definition ready_frame (nonce : string) (endpoint : string * Z) (security : pyval) : pydict :=
  [("type", VStr "ready"); ("protocol_version", VStr PROTOCOL_VERSION); ("nonce", VStr nonce);
   ("endpoint", VList [VStr (fst endpoint); VInt (snd endpoint)]); ("security", security)].

(** The receipt [_validate_ready] returns is [ready_frame] with the expected security. *)
Definition _validate_ready (value : pyval) (nonce : string) (endpoint : string * Z) (worker_uid worker_gid : Z)
    : res pydict :=
  raise (BrowserEgressWorkerProtocolError "worker readiness shape changed") when negb (dict_shape value READY_KEYS);;
  let* type := sub value "type" in
  let* version := sub value "protocol_version" in
  let* bound := sub value "nonce" in
  let* at_ := sub value "endpoint" in
  raise (BrowserEgressWorkerProtocolError "worker readiness is not session-bound")
    when negb (py_eq type (VStr "ready")) || negb (py_eq version (VStr PROTOCOL_VERSION))
         || negb (py_eq bound (VStr nonce))
         || negb (py_eq at_ (VList [VStr (fst endpoint); VInt (snd endpoint)]));;
  let* security := sub value "security" in
  let* security := _validate_security_receipt security worker_uid worker_gid in
  Ok (ready_frame nonce endpoint (security_val security)).

End config.

End WorkerSandbox.
