(* ===== verification/WorkerProcess.v ===== *)
(** * The egress worker's lifecycle in the parent

    [BrowserEgressWorker] of broker/browser_egress_worker.py: construction, start,
    stop and the teardown of the process group, over an interface of system calls
    whose answers the world chooses.  A report other than the fixed failure comes
    from a session-bound final frame of a worker that exited with status 0, and a
    verified purge means that nothing of the process group is left. *)

From stdpp Require Import base list strings.
From Stdlib Require Import ZArith Lia.
From S2P Require Import Prelude PyValue Json StrOps Ip Url OutwardReport BrowserEvidence EgressAddress.
From S2P Require Import WorkerWire WorkerEvents WorkerSandbox.

Local Open Scope Z_scope.

Module WorkerProcess.
Import BrowserEvidence EgressAddress WorkerWire WorkerEvents WorkerSandbox.

(** Durations are in nanoseconds. *)
Definition seconds (f : pyfloat) : Z := match f with FFin n d => n * 10 ^ 9 / Zpos d | _ => 0 end.
Definition READY_TIMEOUT_SEC : pyfloat := FFin 5 1.
Definition STOP_TIMEOUT_SEC : pyfloat := FFin 3 1.
Definition KILL_GRACE_SEC : pyfloat := FFin 1 2.
Definition PURGE_RECHECK_SEC : pyfloat := FFin 1 2.
Definition SIGTERM : Z := 15.

(** ** System calls *)
Inductive sysc :=
  | Databases                                     (* pwd, grp and /etc/shadow *)
  | Monotonic                                     (* time.monotonic() *)
  | Sleep (duration : Z)
  | Pipe2
  | CloseFd (fd : Z)
  | Python                                        (* _worker_python() *)
  | GetPid
  | Popen (argv : list string) (pass_fds : list Z)
  | TokenHex
  | Writes (fd deadline : Z)                      (* what the pipe will do for [_write_all] *)
  | Put (fd : Z) (data : string)                  (* the bytes it took *)
  | Reads (fd deadline : Z)                       (* what the pipe will do for [_read_frame] *)
  | Left (fd : Z) (rest : list read_event)        (* what was not read *)
  | Poll (pid : Z)
  | Wait (pid timeout : Z)
  | Killpg (pid signal : Z)
  | Terminate (pid : Z)
  | Kill (pid : Z)
  | ProcEntries.                                  (* the entries of /proc and their stat *)

Definition answer (k : sysc) : Type :=
  match k with
  | Databases => accounts
  | Monotonic | GetPid | Popen _ _ | Wait _ _ => Z
  | Pipe2 => Z * Z
  | Python | TokenHex => string
  | Writes _ _ => list write_event
  | Reads _ _ => list read_event
  | Poll _ => option Z
  | ProcEntries => option (list (string * stat_read))
  | _ => unit
  end.

(** No other call starts a process. *)
Definition quiet (k : sysc) : bool := match k with Popen _ _ => false | _ => true end.

Class World (W : Type) := { sys : forall k : sysc, W -> res (answer k) * W }.

(** ** The object *)
Inductive lifecycle := New | Starting | Running | Failed | Stopping | Stopped.
Record handle := mk_handle { pid : Z; grouped : bool }.

(** What [__init__] fixes. *)
Record settings := mk_settings {
  bind_host : string; allowed_client_ip : string; bind_port : Z; worker_uid : Z; worker_gid : Z;
  ready_timeout : pyfloat; stop_timeout : pyfloat; request : pydict;
}.

(** What changes, guarded by the lock. *)
Record worker := mk_worker {
  state : lifecycle;
  process : option handle;
  control_fd : option Z;
  status_fd : option Z;
  nonce : option string;
  ready_receipt : option pydict;
  purge_verified : bool;
  pending_purge_verified : bool;
  events : list pyval;
  telemetry : WorkerEvents.telemetry;
}.
Definition new_worker : worker :=
  mk_worker New None None None None None false false _failure_events _failure_telemetry.

Definition _bounded_timeout (value : pyval) (name : string) (maximum : Z) : res pyfloat :=
  let e := BrowserEgressWorkerError (name +:+ " is outside its fixed safety range") in
  match value with
  | VInt _ | VFloat _ =>
      let* f := OutwardReport.py_float value in
      match f with
      | FFin _ _ =>
          raise e when negb (num_le (FFin 3602879701896397 36028797018963968) f && num_le f (FFin maximum 1));; Ok f
      | _ => Err e
      end
  | _ => Err e
  end.

Section construction.
Context `{IpRelease} `{Unicode}.
Variables (parse_float : string -> pyfloat) (float_repr : pyfloat -> string).

(** [__init__]: the settings, with the request as JSON reads it back. *)
Definition new_settings (request bind_host allowed_client_ip worker_uid worker_gid bind_port ready_timeout_sec
    stop_timeout_sec : pyval) : res settings :=
  let* host := _canonical_local_ip bind_host "bind_host" true in
  let* client := _canonical_local_ip allowed_client_ip "allowed_client_ip" false in
  raise (BrowserEgressWorkerError "bind_port must be in 1024..65535") when negb (int_in 1024 65535 bind_port);;
  raise (BrowserEgressWorkerError "proxy worker IDs are outside the safe range")
    when negb (safe_id worker_uid) || negb (safe_id worker_gid);;
  let* ready := _bounded_timeout ready_timeout_sec "ready_timeout_sec" 15 in
  let* stop := _bounded_timeout stop_timeout_sec "stop_timeout_sec" 15 in
  raise (BrowserEgressWorkerError "browser request is not strict JSON") when negb (serializable request);;
  match _json_object parse_float (dump_ascii float_repr request) with
  | Err _ => worker_error "browser request is not strict JSON"
  | Ok normalized =>
      let* _ := _wall_clock_from_config (VDict [("request", VDict normalized)]) in
      Ok (mk_settings host client (int_of bind_port) (int_of worker_uid) (int_of worker_gid) ready stop normalized)
  end.

End construction.

(** ** Effects *)
Section lifecycle.
Context {W : Type} `{World W} `{UnicodeDigits} `{Unicode}.
Variables (parse_float : string -> pyfloat) (float_repr : pyfloat -> string).
Variable c : settings.

(** A method: the object's state and the world's. *)
Definition act (A : Type) : Type := worker * W -> res A * (worker * W).
Definition done {A} (a : A) : act A := fun s => (Ok a, s).
Definition fail {A} (e : exn) : act A := fun s => (Err e, s).
Definition bind {A B} (m : act A) (k : A -> act B) : act B := fun s =>
  match m s with (Ok a, s') => k a s' | (Err e, s') => (Err e, s') end.
(** [try: m except BaseException: h] *)
Definition catch {A} (m : act A) (h : exn -> act A) : act A := fun s =>
  match m s with (Err e, s') => h e s' | r => r end.
Definition pure {A} (r : res A) : act A := fun s => (r, s).
Definition call (k : sysc) : act (answer k) := fun s => let '(r, w) := sys k (snd s) in (r, (fst s, w)).
Definition look {A} (f : worker -> A) : act A := fun s => (Ok (f (fst s)), s).
Definition update (f : worker -> worker) : act unit := fun s => (Ok tt, (f (fst s), snd s)).

Notation "'let!' x := m 'in' k" := (bind m (fun x => k))
  (at level 10, x pattern, m at level 100, k at level 200, format "'[v' 'let!'  x  :=  m  'in' '//' k ']'").
Notation "m ;! k" := (bind m (fun _ => k)) (at level 100, k at level 200, right associativity).

(** [try: m except OSError: pass] *)
Definition ignore_os (m : act unit) : act unit := catch m (fun e => if is_os_error e then done tt else fail e).

Definition _remaining (deadline : Z) : act Z :=
  let! now := call Monotonic in
  if deadline - now <=? 0 then fail (BrowserEgressWorkerTimeout "worker IPC deadline expired") else done (deadline - now).

Definition write_frame (fd : Z) (value : pydict) (maximum deadline : Z) : act unit :=
  let! l := call (Writes fd deadline) in
  let '(r, out) := _write_frame float_repr (VDict value) maximum l in
  call (Put fd out) ;! pure r.
Definition read_frame (fd : Z) (maximum deadline : Z) : act pydict :=
  let! l := call (Reads fd deadline) in
  let '(r, rest) := _read_frame parse_float maximum l in
  call (Left fd rest) ;! pure r.

(** ** Teardown *)
Definition _process_group_exists (p : handle) : act bool :=
  if negb (grouped p) then done false
  else
    let! signalled := catch (call (Killpg (pid p) 0) ;! done None)
      (fun e => match e with
                | ProcessLookupError => done (Some false)
                | PermissionError => done (Some true)
                | _ => fail e
                end) in
    match signalled with
    | Some b => done b
    | None =>
        let! entries := call ProcEntries in
        let! r := pure (_live_process_group_members (pid p) entries) in
        done (negb (bool_decide (fst r = [])) || negb (snd r))
    end.

(** The loop, at most [fuel] turns. *)
Fixpoint wait_loop (fuel : nat) (p : handle) (deadline : Z) : act bool :=
  let! survivors := _process_group_exists p in
  if negb survivors then done true
  else
    let! now := call Monotonic in
    if deadline <=? now then done false
    else
      call (Sleep (10 ^ 7)) ;!
      match fuel with O => done false | S fuel' => wait_loop fuel' p deadline end.

Definition _wait_process_group_empty (fuel : nat) (p : handle) (timeout : Z) : act bool :=
  if negb (grouped p) then done false
  else
    let! now := call Monotonic in
    wait_loop fuel p (now + timeout).

(** [PURGE_RECHECK_SEC / 0.01] turns reach the deadline. *)
Definition PURGE_TURNS : nat := 50.

Definition _terminate_process (p : handle) : act bool :=
  let! status := call (Poll (pid p)) in
  match status with
  | Some _ => done tt
  | None =>
      catch ((if grouped p
              then catch (call (Killpg (pid p) SIGTERM))
                     (fun e => match e with ProcessLookupError => call (Terminate (pid p)) | _ => fail e end)
              else call (Terminate (pid p))) ;!
             call (Wait (pid p) (seconds KILL_GRACE_SEC)) ;! done tt)
        (fun _ => done tt)
  end ;!
  (if grouped p
   then catch (call (Killpg (pid p) SIGKILL)) (fun e => match e with ProcessLookupError => done tt | _ => fail e end)
   else
     let! status := call (Poll (pid p)) in
     match status with None => catch (call (Kill (pid p))) (fun _ => done tt) | Some _ => done tt end) ;!
  catch (call (Wait (pid p) (seconds KILL_GRACE_SEC)) ;! done tt) (fun _ => done tt) ;!
  let! status := call (Poll (pid p)) in
  let leader_reaped := match status with Some _ => true | None => false end in
  let! group_empty := _wait_process_group_empty PURGE_TURNS p (seconds PURGE_RECHECK_SEC) in
  done (leader_reaped && group_empty).

(** ** Start *)
Definition bind_address : string * Z := (bind_host c, bind_port c).

Definition _verify_identity : act unit :=
  let! db := call Databases in
  pure (_verify_worker_identity db (VInt (worker_uid c)) (VInt (worker_gid c))) ;! done tt.

Definition THIS_FILE : string := "/broker/browser_egress_worker.py".
Definition _spawn (root : string) (control_read status_write : Z) : act handle :=
  let! python := call Python in
  let! me := call GetPid in
  let! p := call (Popen [python; "-I"; "-S"; "-B"; root +:+ THIS_FILE; "--child"; dec control_read; dec status_write; dec me;
                         dec (worker_uid c); dec (worker_gid c)] [control_read; status_write]) in
  done (mk_handle p true).

Definition start_fields (nonce : string) : pydict :=
  start_frame (mk_start nonce (VDict (request c)) (bind_host c) (bind_port c) (allowed_client_ip c)).

(** The exchange up to the readiness receipt. *)
Definition exchange_ready (p : handle) (control_write status_read : Z) : act (string * pydict) :=
  let! token := call TokenHex in
  let! now := call Monotonic in
  let deadline := now + seconds (ready_timeout c) in
  write_frame control_write (start_fields token) MAX_CONFIG_FRAME_BYTES deadline ;!
  let! frame := read_frame status_read MAX_STATUS_FRAME_BYTES deadline in
  let! receipt := pure (_validate_ready (VDict frame) token bind_address (worker_uid c) (worker_gid c)) in
  let! status := call (Poll (pid p)) in
  match status with
  | Some _ => fail (BrowserEgressWorkerError "proxy worker exited during readiness")
  | None => done (token, receipt)
  end.

Fixpoint close_all (fds : list Z) : act unit :=
  match fds with [] => done tt | fd :: r => ignore_os (call (CloseFd fd)) ;! close_all r end.

(** The [except BaseException] clause, with the descriptors still open. *)
Definition abandon {A} (p : option handle) (fds : list Z) (e : exn) : act A :=
  close_all fds ;!
  let! purged := match p with Some p => _terminate_process p | None => done false end in
  update (fun s => mk_worker Failed (process s) (control_fd s) (status_fd s) (nonce s) (ready_receipt s)
                     (purge_verified s) purged (events s) (telemetry s)) ;!
  fail e.

Definition set_state (l : lifecycle) (s : worker) : worker :=
  mk_worker l (process s) (control_fd s) (status_fd s) (nonce s) (ready_receipt s) (purge_verified s)
    (pending_purge_verified s) (events s) (telemetry s).

Definition lifecycle_eqb (a b : lifecycle) : bool :=
  match a, b with
  | New, New | Starting, Starting | Running, Running | Failed, Failed | Stopping, Stopping | Stopped, Stopped => true
  | _, _ => false
  end.

Definition _start_impl (root : string) : act (string * Z) :=
  _verify_identity ;!
  let! st := look state in
  if negb (lifecycle_eqb st New) then fail (BrowserEgressWorkerError "proxy worker can only start once")
  else
    update (set_state Starting) ;!
    let! control := call Pipe2 in
    let '(control_read, control_write) := control in
    let! status := call Pipe2 in
    let '(status_read, status_write) := status in
    let! p := catch (_spawn root control_read status_write)
                (abandon None [control_read; control_write; status_read; status_write]) in
    catch (call (CloseFd control_read)) (abandon (Some p) [control_read; control_write; status_read; status_write]) ;!
    catch (call (CloseFd status_write)) (abandon (Some p) [control_write; status_read; status_write]) ;!
    let! ready := catch (exchange_ready p control_write status_read) (abandon (Some p) [control_write; status_read]) in
    let '(token, receipt) := ready in
    update (fun s => mk_worker Running (Some p) (Some control_write) (Some status_read) (Some token) (Some receipt)
                       (purge_verified s) (pending_purge_verified s) (events s) (telemetry s)) ;!
    done bind_address.

(** ** Stop *)
Definition stop_frame (nonce : string) : pydict :=
  [("type", VStr "stop"); ("protocol_version", VStr PROTOCOL_VERSION); ("nonce", VStr nonce)].

(** The [try] of [_stop_impl]: what the worker reported, once it exited with
    status 0, and whether a descendant was seen. *)
Definition exchange_final (p : option handle) (control status : option Z) (token : option string) (deadline : Z)
    : act (list pyval * WorkerEvents.telemetry * bool) :=
  match p, control, status, token with
  | Some p, Some control, Some status, Some token =>
      write_frame control (stop_frame token) MAX_CONFIG_FRAME_BYTES deadline ;!
      let! frame := read_frame status MAX_STATUS_FRAME_BYTES deadline in
      let! final := pure (_validate_final (VDict frame) token) in
      let! timeout := _remaining deadline in
      let! code := call (Wait (pid p) timeout) in
      if negb (code =? 0) then fail (BrowserEgressWorkerError "proxy worker exited uncleanly")
      else
        let! descendants := _process_group_exists p in
        done (final, descendants)
  | _, _, _, _ => fail (BrowserEgressWorkerProtocolError "worker lifecycle state is incomplete")
  end.

(** [_stop_impl] of a worker that was started, from the snapshot of its fields on. *)
Definition stop_open : act unit :=
  let! p := look process in
  let! control := look control_fd in
  let! status := look status_fd in
  let! token := look nonce in
  update (set_state Stopping) ;!
  let! now := call Monotonic in
  let deadline := now + seconds (stop_timeout c) in
  let! outcome :=
    catch (let! r := exchange_final p control status token deadline in
           let '(final, descendants) := r in
           done (final, negb descendants, descendants))
      (fun _ => done ((_failure_events, _failure_telemetry), false, false)) in
  let '(final, valid, descendants) := outcome in
  let! teardown :=
    match p with
    | Some p =>
        let! leader := call (Poll (pid p)) in
        let leader_was_running := match leader with None => true | Some _ => false end in
        let! purged := _terminate_process p in
        done (valid && negb (leader_was_running || descendants), purged)
    | None => done (valid, false)
    end in
  let '(valid, purged) := teardown in
  close_all (option_list control ++ option_list status) ;!
  update (fun s => mk_worker (if (valid : bool) then Stopped else Failed) (process s) None None (nonce s) (ready_receipt s)
                     purged purged (if valid then fst final else _failure_events)
                     (if valid then snd final else _failure_telemetry)).

Definition _stop_impl : act unit :=
  let! st := look state in
  match st with
  | Stopped => done tt
  | Failed => update (fun s => mk_worker (state s) (process s) (control_fd s) (status_fd s) (nonce s) (ready_receipt s)
                                 (pending_purge_verified s) (pending_purge_verified s) (events s) (telemetry s))
  | New => update (set_state Stopped)
  | _ =>
      stop_open
  end.

(** ** Calls of the public methods, one at a time *)
Inductive method := Start | Stop.
Definition perform (root : string) (m : method) (s : worker * W) : worker * W :=
  match m with Start => snd (_start_impl root s) | Stop => snd (_stop_impl s) end.
Definition performs (root : string) (ms : list method) (s : worker * W) : worker * W :=
  foldl (fun s m => perform root m s) s ms.

(** ** Reasoning about methods *)

(** What holds of the result and the state after a method. *)
Definition wp {A} (m : act A) (Q : res A -> worker * W -> Prop) (s : worker * W) : Prop := Q (fst (m s)) (snd (m s)).

Lemma wpm_mono {A} (m : act A) (Q R : res A -> worker * W -> Prop) s :
  wp m Q s -> (forall r s', Q r s' -> R r s') -> wp m R s.
Proof. unfold wp. eauto. Qed.
Lemma wpm_bind {A B} (m : act A) (k : A -> act B) Q s :
  wp m (fun r s' => match r with Ok a => wp (k a) Q s' | Err e => Q (Err e) s' end) s -> wp (bind m k) Q s.
Proof. unfold wp, bind. destruct (m s) as [[a|e] s']; cbn; [|done]. by destruct (k a s'). Qed.
Lemma wp_catch {A} (m : act A) h Q s :
  wp m (fun r s' => match r with Ok a => Q (Ok a) s' | Err e => wp (h e) Q s' end) s -> wp (catch m h) Q s.
Proof. unfold wp, catch. destruct (m s) as [[a|e] s']; cbn; [done|]. by destruct (h e s'). Qed.
Lemma wp_done {A} (a : A) Q s : Q (Ok a) s -> wp (done a) Q s. Proof. done. Qed.
Lemma wp_fail {A} e (Q : res A -> worker * W -> Prop) s : Q (Err e) s -> wp (fail e) Q s. Proof. done. Qed.
Lemma wp_pure {A} (r : res A) Q s : Q r s -> wp (pure r) Q s. Proof. done. Qed.
Lemma wp_look {A} (f : worker -> A) Q s : Q (Ok (f (fst s))) s -> wp (look f) Q s. Proof. done. Qed.
Lemma wp_update f Q s : Q (Ok tt) (f (fst s), snd s) -> wp (update f) Q s. Proof. done. Qed.
Lemma wp_call k Q s : (forall r w, sys k (snd s) = (r, w) -> Q r (fst s, w)) -> wp (call k) Q s.
Proof. unfold wp, call. destruct (sys k (snd s)) as [r w] eqn:E. cbn. eauto. Qed.

(** A method that leaves the object alone and makes quiet calls, which keep [P]. *)
Definition stable (P : W -> Prop) : Prop := forall k w, quiet k = true -> P w -> P (snd (sys k w)).
Definition steady {A} (m : act A) : Prop :=
  forall s, fst (snd (m s)) = fst s /\ forall P, stable P -> P (snd s) -> P (snd (snd (m s))).

Lemma wp_steady {A} (m : act A) Q s :
  steady m -> (forall r s', fst s' = fst s -> (forall P, stable P -> P (snd s) -> P (snd s')) -> Q r s') -> wp m Q s.
Proof. intros Hm Hq. destruct (Hm s). by apply Hq. Qed.

Lemma steady_done {A} (a : A) : steady (done a). Proof. by intros s. Qed.
Lemma steady_fail {A} e : steady (fail e : act A). Proof. by intros s. Qed.
Lemma steady_pure {A} (r : res A) : steady (pure r). Proof. by intros s. Qed.
Lemma steady_look {A} (f : worker -> A) : steady (look f). Proof. by intros s. Qed.
Lemma steady_call k : quiet k = true -> steady (call k).
Proof.
  intros Hk [s w]. unfold call. cbn. destruct (sys k w) as [r w'] eqn:E. cbn. split; [done|].
  intros P HP Hw. pose proof (HP k w Hk Hw) as Hx. by rewrite E in Hx.
Qed.
Lemma steady_bind {A B} (m : act A) (k : A -> act B) : steady m -> (forall a, steady (k a)) -> steady (bind m k).
Proof.
  intros Hm Hk s. unfold bind. destruct (Hm s) as [E1 K1]. destruct (m s) as [[a|e] s1]; cbn in *; [|done].
  destruct (Hk a s1) as [E2 K2]. split; [by rewrite E2|]. intros P HP Hs. by apply K2, K1.
Qed.
Lemma steady_catch {A} (m : act A) h : steady m -> (forall e, steady (h e)) -> steady (catch m h).
Proof.
  intros Hm Hh s. unfold catch. destruct (Hm s) as [E1 K1]. destruct (m s) as [[a|e] s1]; cbn in *; [done|].
  destruct (Hh e s1) as [E2 K2]. split; [by rewrite E2|]. intros P HP Hs. by apply K2, K1.
Qed.

End lifecycle.

Create HintDb worker.
#[export] Hint Resolve steady_done steady_fail steady_pure steady_look : worker.

(** Proves that a method is steady, down to its calls. *)
Ltac steadily :=
  cbv zeta;
  repeat first
    [ solve [auto with worker]
    | match goal with |- steady (call ?k) => exact (steady_call k eq_refl) end
    | apply steady_bind; [|intros]
    | apply steady_catch; [|intros]
    | match goal with |- steady (match ?x with _ => _ end) => destruct x end ].

(** ** What the kernel promises

    The status a child was reaped with, the members of its process group that are
    alive, and the children that were started.  A reaped child stays reaped and an empty group stays empty until
    another process is started; [ESRCH] means an empty group, and a live member is
    listed in /proc with its own stat line, unless that cannot be read. *)
Class KernelLaws (W : Type) `{World W} := {
  exit_of : W -> Z -> option Z;
  members : W -> Z -> list Z;
  spawned : W -> list Z;
  law_spawned l : stable (fun w => spawned w = l);
  law_popen argv fds w n w' : sys (Popen argv fds) w = (Ok n, w') -> spawned w' = n :: spawned w;
  law_poll n w code w' : sys (Poll n) w = (Ok (Some code), w') -> exit_of w' n = Some code;
  law_wait n t w code w' : sys (Wait n t) w = (Ok code, w') -> exit_of w' n = Some code;
  law_exit n code : stable (fun w => exit_of w n = Some code);
  law_lookup n w w' : sys (Killpg n 0) w = (Err ProcessLookupError, w') -> members w' n = [];
  law_listing n m w l w' : sys ProcEntries w = (Ok (Some l), w') -> In m (members w' n) ->
    exists p entry, stat_ok p /\ ps_pid p = m /\ survivor n p = true /\ In entry l /\ fst entry = dec m /\
      (snd entry = Unreadable \/ snd entry = Text (stat_line p));
  law_empty n : stable (fun w => members w n = []);
}.

Section facts.
Context {W : Type} `{KernelLaws W} `{UnicodeDigits} `{Unicode}.
Variables (parse_float : string -> pyfloat) (float_repr : pyfloat -> string).
Variable c : settings.

Lemma steady_group p : steady (_process_group_exists p).
Proof. unfold _process_group_exists. steadily. Qed.
#[local] Hint Resolve steady_group : worker.

Lemma steady_wait_loop fuel p d : steady (wait_loop fuel p d).
Proof. induction fuel as [|fuel IH]; cbn [wait_loop]; steadily. Qed.
#[local] Hint Resolve steady_wait_loop : worker.

Lemma steady_wait fuel p t : steady (_wait_process_group_empty fuel p t).
Proof. unfold _wait_process_group_empty. steadily. Qed.
#[local] Hint Resolve steady_wait : worker.

Lemma steady_terminate p : steady (_terminate_process p).
Proof. unfold _terminate_process. steadily. Qed.

Lemma wp_skip {A B} (m : @act W A) (k : A -> @act W B) Q s :
  (forall e s', Q (Err e) s') -> (forall a s', wp (k a) Q s') -> wp (bind m k) Q s.
Proof. intros He Hk. apply wpm_bind. unfold wp at 1. destruct (m s) as [[a|e] s']; cbn; [apply Hk|apply He]. Qed.

Definition gone (w : W) (n : Z) : Prop := is_Some (exit_of w n) /\ members w n = [].

Lemma stable_gone n : stable (fun w => gone w n).
Proof.
  intros k w Hk [[code He] Hm]. split; [exists code; by apply law_exit|by apply law_empty].
Qed.

(** The one process that was started is gone. *)
Definition removed (w : W) : Prop := exists n, spawned w = [n] /\ gone w n.
Lemma stable_removed : stable removed.
Proof. intros k w Hk (n & Hs & Hg). exists n. split; [by apply law_spawned|by apply stable_gone]. Qed.

Lemma wp_group p (s : worker * W) :
  grouped p = true -> wp (_process_group_exists p) (fun r s' => r = Ok false -> members (snd s') (pid p) = []) s.
Proof.
  intros Hg. unfold _process_group_exists. rewrite Hg. cbn [negb]. apply wpm_bind, wp_catch, wpm_bind, wp_call.
  intros [a|e] w E.
  - apply wp_done, wpm_bind, wp_call. intros [[l|]|e] w' El; [|by unfold wp|done].
    apply wpm_bind, wp_pure.
    destruct (_live_process_group_members (pid p) (Some l)) as [[ms ok]|] eqn:Es; [|done]. apply wp_done. cbn [fst snd]. intros Hr.
    destruct (members w' (pid p)) as [|m ms'] eqn:Em; [done|exfalso].
    destruct (law_listing (pid p) m _ _ _ El) as (q & entry & H4 & H5 & H6 & H7 & H8 & H9); [rewrite Em; by left|].
    subst m. apply (scan_finds _ _ _ _ H4 H6 H7 H8 H9). rewrite Es. destruct ok, ms; done.
  - destruct e; unfold wp; cbn; try done. intros _. by apply law_lookup in E.
Qed.

Lemma wp_wait_loop fuel p d (s : worker * W) :
  grouped p = true -> wp (wait_loop fuel p d) (fun r s' => r = Ok true -> members (snd s') (pid p) = []) s.
Proof.
  intros Hg. revert s. induction fuel as [|fuel IH]; intros s; cbn [wait_loop]; apply wpm_bind; eapply wpm_mono; try by apply wp_group.
  all: intros [[]|] s' Hs; [cbn [negb]|unfold wp; cbn; naive_solver|done].
  all: apply wp_skip; [done|]; intros now s1; destruct (d <=? now); [done|].
  all: apply wp_skip; [done|]; intros ? s2; (done || apply IH).
Qed.

Lemma wp_terminate p (s : worker * W) :
  grouped p = true -> wp (_terminate_process p) (fun r s' => fst s' = fst s /\
    (forall P, stable P -> P (snd s) -> P (snd s')) /\ (r = Ok true -> gone (snd s') (pid p))) s.
Proof.
  intros Hg. cut (wp (_terminate_process p) (fun r s' => r = Ok true -> gone (snd s') (pid p)) s).
  { intros Hw. destruct (steady_terminate p s). done. }
  unfold _terminate_process. do 4 (apply wp_skip; [done|]; intros ? ?).
  apply wpm_bind, wp_call. intros [status|] w E; [|done].
  unfold _wait_process_group_empty. rewrite Hg. cbn [negb]. do 2 apply wpm_bind.
  apply wp_steady; [steadily|]. intros [now|] s1 _ Hp; [|done].
  assert (He : status <> None -> exists code, exit_of (snd s1) (pid p) = Some code).
  { destruct status as [code|]; [|done]. intros _. exists code. apply Hp; [apply law_exit|]. by eapply law_poll. }
  unfold wp at 1. destruct (steady_wait_loop PURGE_TURNS p (now + seconds PURGE_RECHECK_SEC) s1) as [_ Hk].
  pose proof (wp_wait_loop PURGE_TURNS p (now + seconds PURGE_RECHECK_SEC) s1 Hg) as Hl. unfold wp in Hl.
  destruct (wait_loop _ _ _ s1) as [[[]|] s2]; cbn [fst snd] in *; [|by destruct status|done].
  unfold wp, done. cbn. destruct status; [|done]. intros _. destruct He as [code He]; [done|].
  split; [|by apply Hl]. exists code. by apply (Hk _ (law_exit _ _)).
Qed.

(** ** What the parent may report *)
Definition failure_report (s : worker) : Prop := events s = _failure_events /\ telemetry s = _failure_telemetry.

(** A session whose readiness was attested for the requested identity. *)
Record session (s : worker) (p : handle) (token : string) : Prop := {
  ss_process : process s = Some p;
  ss_grouped : grouped p = true;
  ss_nonce : nonce s = Some token;
  ss_receipt : ready_receipt s =
    Some (ready_frame token (bind_address c) (security_val (_expected_security_receipt (worker_uid c) (worker_gid c))));
}.

(** The report of a session: its worker sent it, exited with status 0 and left
    nothing behind. *)
Definition session_report (s : worker) (w : W) : Prop :=
  exists p token frame, session s p token /\ _validate_final (VDict frame) token = Ok (events s, telemetry s) /\
    exit_of w (pid p) = Some 0 /\ members w (pid p) = [].

Definition purge_flags (s : worker) : Prop := purge_verified s = true \/ pending_purge_verified s = true.

(** Nothing was recorded of a session yet. *)
Record blank (s : worker) : Prop := {
  b_report : failure_report s;
  b_purge : ~ purge_flags s;
  b_nonce : nonce s = None;
  b_process : process s = None;
}.

Record honest (s : worker) (w : W) : Prop := {
  h_fields : nonce s = None /\ process s = None \/ exists p token, session s p token /\ spawned w = [pid p];
  h_report : failure_report s \/ state s = Stopped /\ session_report s w;
  h_purge : purge_flags s -> removed w;
  h_new : state s = New -> blank s /\ spawned w = [];
}.

Lemma honest_blank s w : blank s -> (state s = New -> spawned w = []) -> honest s w.
Proof. intros Hb. destruct Hb eqn:E. split; try done; [by left|by left|by split; auto]. Qed.
Lemma honest_new w : spawned w = [] -> honest new_worker w.
Proof. intros Hw. apply honest_blank; [|done]. split; try done. by intros []. Qed.

Lemma honest_steady s w w' : (forall P, stable P -> P w -> P w') -> honest s w -> honest s w'.
Proof.
  intros Hk []. split.
  - destruct h_fields0 as [|(p & token & H4 & H5)]; [by left|right]. exists p, token. split; [done|].
    by apply (Hk _ (law_spawned [pid p])).
  - destruct h_report0 as [|[? (p & token & frame & H4 & H5 & H6 & H7)]]; [by left|right]. split; [done|].
    exists p, token, frame. split; [done|]. split; [done|]. split; [by apply (Hk _ (law_exit _ _))|by apply (Hk _ (law_empty _))].
  - intros Hp. by apply (Hk _ stable_removed), h_purge0.
  - intros Hs. destruct (h_new0 Hs). split; [done|]. by apply (Hk _ (law_spawned [])).
Qed.

Lemma validate_ready_inv v token endpoint uid gid r :
  _validate_ready v token endpoint uid gid = Ok r -> r = ready_frame token endpoint (security_val (_expected_security_receipt uid gid)).
Proof.
  unfold _validate_ready, _validate_security_receipt. intros Hr. run_inv. by subst.
Qed.

Lemma steady_close fds : steady (close_all fds).
Proof. induction fds as [|fd fds IH]; cbn [close_all]; unfold ignore_os; steadily. Qed.
Lemma steady_write fd v maximum d : steady (write_frame float_repr fd v maximum d).
Proof. unfold write_frame. steadily. Qed.
Lemma steady_read fd maximum d : steady (read_frame parse_float fd maximum d).
Proof. unfold read_frame. steadily. Qed.
#[local] Hint Resolve steady_terminate steady_close steady_write steady_read : worker.

Lemma steady_ready p control status : steady (exchange_ready parse_float float_repr c p control status).
Proof. unfold exchange_ready. steadily. Qed.
Lemma steady_final p control status token d : steady (exchange_final parse_float float_repr p control status token d).
Proof. unfold exchange_final, _remaining. steadily. Qed.
Lemma steady_identity : steady (_verify_identity c).
Proof. unfold _verify_identity. steadily. Qed.
#[local] Hint Resolve steady_ready steady_final steady_identity : worker.

Lemma wp_ready p control status (s : worker * W) :
  wp (exchange_ready parse_float float_repr c p control status) (fun r s' => fst s' = fst s /\ forall token receipt,
    r = Ok (token, receipt) ->
    receipt = ready_frame token (bind_address c) (security_val (_expected_security_receipt (worker_uid c) (worker_gid c)))) s.
Proof.
  cut (wp (exchange_ready parse_float float_repr c p control status) (fun r s' => forall token receipt,
    r = Ok (token, receipt) ->
    receipt = ready_frame token (bind_address c) (security_val (_expected_security_receipt (worker_uid c) (worker_gid c)))) s).
  { intros Hw. split; [apply steady_ready|done]. }
  unfold exchange_ready. do 4 (apply wp_skip; [done|]; intros ? ?).
  apply wpm_bind, wp_pure. destruct (_validate_ready _ _ _ _ _) as [receipt|] eqn:E; [|done]. apply validate_ready_inv in E.
  apply wp_skip; [done|]. intros [] ?; [done|]. apply wp_done. by intros ? ? [= <- <-].
Qed.

Lemma wp_final p control status token d (s : worker * W) :
  grouped p = true ->
  wp (exchange_final parse_float float_repr (Some p) control status (Some token) d) (fun r s' => forall evs tel,
    r = Ok ((evs, tel), false) -> (exists frame, _validate_final (VDict frame) token = Ok (evs, tel)) /\
    exit_of (snd s') (pid p) = Some 0 /\ members (snd s') (pid p) = []) s.
Proof.
  intros Hg. unfold exchange_final. destruct control as [control|], status as [status|]; try done.
  apply wp_skip; [done|]; intros ? ?. apply wp_skip; [done|]; intros frame ?.
  apply wpm_bind, wp_pure. destruct (_validate_final _ _) as [final|] eqn:E; [|done].
  apply wp_skip; [done|]; intros t s2. apply wpm_bind, wp_call. intros [code|] w Ew; [|done].
  destruct (Z.eqb_spec code 0) as [->|]; cbn [negb]; [|done]. apply law_wait in Ew.
  apply wpm_bind. unfold wp at 1. destruct (steady_group p (fst s2, w)) as [_ Hk].
  pose proof (wp_group p (fst s2, w) Hg) as Hw. unfold wp in Hw.
  destruct (_process_group_exists p _) as [[b|] s3]; cbn [fst snd] in *; [|done].
  apply wp_done. intros evs tel [= -> ->]. split; [by exists frame|]. split; [by apply (Hk _ (law_exit _ _))|by apply Hw].
Qed.

Lemma wp_abandon {A} p fds e (s : worker * W) :
  blank (fst s) -> state (fst s) <> New -> (forall q, p = Some q -> grouped q = true /\ spawned (snd s) = [pid q]) ->
  wp (abandon p fds e : act A) (fun r s' => (exists e', r = Err e') /\ honest (fst s') (snd s')) s.
Proof.
  intros Hb Hs Hg. unfold abandon. apply wpm_bind, wp_steady; [steadily|]. intros r s1 E1 K1. rewrite <- E1 in *.
  destruct r; [|by split; [eauto|apply honest_blank]]. apply wpm_bind.
  assert (Hw : wp (match p with Some p => _terminate_process p | None => done false end)
                 (fun r s' => fst s' = fst s1 /\ (r = Ok true -> removed (snd s'))) s1).
  { destruct p as [p|]; [|by split]. destruct (Hg p eq_refl) as [G1 G2]. apply (K1 _ (law_spawned [pid p])) in G2.
    eapply wpm_mono; [by apply wp_terminate|]. intros r s2 (H4 & H5 & H6). split; [done|]. intros Hr. exists (pid p).
    split; [by apply (H5 _ (law_spawned [pid p]))|by apply H6]. }
  eapply wpm_mono; [exact Hw|]. intros [purged|e'] s2 (E2 & Hp); [|split; [by eauto|]].
  - apply wpm_bind, wp_update, wp_fail. split; [eauto|]. cbn. rewrite E2. destruct Hb as [? Hn ? ?].
    destruct s1 as [[] w1]. cbn in *. subst. split; cbn; try done; [by left|by left|].
    intros [Hx|Hx]; cbn in Hx; subst; [destruct Hn; by left|]. by apply Hp.
  - rewrite E2. by apply honest_blank.
Qed.

(** Before the session is recorded: nothing in the object, and [l] was started. *)
Definition early (l : list Z) (s : worker * W) : Prop := blank (fst s) /\ state (fst s) = Starting /\ spawned (snd s) = l.
Lemma early_honest l s : early l s -> honest (fst s) (snd s).
Proof. intros (Hb & Hs & _). apply honest_blank; [done|congruence]. Qed.
Lemma early_steady {A} (m : @act W A) l s : steady m -> early l s -> early l (snd (m s)).
Proof.
  intros Hm (Hb & Hs & Hl). destruct (Hm s) as [E K]. unfold early. rewrite E. split_and!; try done. by apply (K _ (law_spawned l)).
Qed.

Lemma wp_early {A B} l (m : @act W A) (k : A -> @act W B) (s : worker * W) :
  steady m -> early l s ->
  (forall a s', early l s' -> wp (k a) (fun _ s' => honest (fst s') (snd s')) s') ->
  wp (bind m k) (fun _ s' => honest (fst s') (snd s')) s.
Proof.
  intros Hm He Hk. apply (early_steady m) in He; [|done]. apply wpm_bind. unfold wp at 1.
  destruct (m s) as [[a|e] s1]; cbn in *; [by apply Hk|by eapply early_honest].
Qed.

(** A step whose failure is handled by [abandon]. *)
Lemma wp_guard {A B} p fds (m : @act W A) (k : A -> @act W B) (s : worker * W) :
  steady m -> grouped p = true -> early [pid p] s ->
  (forall a s', m s = (Ok a, s') -> early [pid p] s' -> wp (k a) (fun _ s' => honest (fst s') (snd s')) s') ->
  wp (bind (catch m (abandon (Some p) fds)) k) (fun _ s' => honest (fst s') (snd s')) s.
Proof.
  intros Hm Hg He Hk. apply (early_steady m) in He; [|done]. apply wpm_bind, wp_catch. unfold wp at 1.
  destruct (m s) as [[a|e] s1]; cbn in *; [by apply Hk|]. destruct He as (Hb & Hs & Hl).
  eapply wpm_mono; [apply wp_abandon; [done|congruence|by intros q [= <-]]|]. by intros r s2 [[e' ->] Hh].
Qed.

Lemma wp_spawn {B} root a b fds (k : handle -> @act W B) (s : worker * W) :
  early [] s ->
  (forall p s', grouped p = true -> early [pid p] s' -> wp (k p) (fun _ s' => honest (fst s') (snd s')) s') ->
  wp (bind (catch (_spawn c root a b) (abandon None fds)) k) (fun _ s' => honest (fst s') (snd s')) s.
Proof.
  intros He Hk. apply wpm_bind, wp_catch.
  assert (Ha : forall e s', blank (fst s') /\ state (fst s') = Starting ->
    wp (abandon None fds e : act handle) (fun r s' => match r with
      | Ok a => wp (k a) (fun _ s' => honest (fst s') (snd s')) s' | Err e => honest (fst s') (snd s') end) s').
  { intros e s' [Hb Hs]. eapply wpm_mono; [apply wp_abandon; [done|congruence|done]|]. by intros r s2 [[e' ->] Hh]. }
  unfold _spawn. apply wpm_bind. pose proof (early_steady (call Python) [] s ltac:(steadily) He) as H1e. clear He.
  unfold wp at 1. destruct (call Python s) as [[python|e] s1]; cbn [fst snd] in *; [|destruct H1e as (? & ? & ?); by apply Ha].
  apply wpm_bind. pose proof (early_steady (call GetPid) [] s1 ltac:(steadily) H1e) as He. clear H1e.
  unfold wp at 1. destruct (call GetPid s1) as [[me|e] s2]; cbn [fst snd] in *; [|destruct He as (? & ? & ?); by apply Ha].
  apply wpm_bind, wp_call. intros [n|] w E; [|destruct He as (? & ? & ?); by apply Ha].
  apply wp_done. apply Hk; [done|]. destruct He as (? & ? & Hl). apply law_popen in E. rewrite Hl in E. done.
Qed.

Lemma start_honest root (s : worker * W) :
  honest (fst s) (snd s) -> wp (_start_impl parse_float float_repr c root) (fun _ s' => honest (fst s') (snd s')) s.
Proof.
  intros Hh. unfold _start_impl. apply wpm_bind, wp_steady; [steadily|]. intros r s1 E1 K1.
  apply (honest_steady _ _ _ K1) in Hh. rewrite <- E1 in Hh. clear E1 K1. destruct r as [[]|]; [|done].
  apply wpm_bind, wp_look. destruct (state (fst s1)) eqn:Es; cbn [lifecycle_eqb negb]; try done.
  apply wpm_bind, wp_update. destruct (h_new _ _ Hh Es) as [Hb Hl].
  assert (He : early [] (set_state Starting (fst s1), snd s1)) by by destruct s1 as [[] ?], Hb. clear Hh Es Hb Hl.
  apply (wp_early []); [steadily|done|]. intros [cr cw] s3 H3e. apply (wp_early []); [steadily|done|].
  intros [sr sw] s4 H4e. apply wp_spawn; [done|]. intros p s5 Hg H5e.
  apply wp_guard; [steadily|done|done|]. intros ? s6 _ H6e.
  apply wp_guard; [steadily|done|done|]. intros ? s7 _ H7e.
  apply wp_guard; [steadily|done|done|]. intros [token receipt] s8 Er (H8b & _ & Hl).
  pose proof (wp_ready p cw sr s7) as Hr. unfold wp in Hr. rewrite Er in Hr. destruct Hr as [_ Hr].
  specialize (Hr token receipt eq_refl). apply wpm_bind, wp_update, wp_done. destruct H8b as [Hf Hn _ _].
  split; cbn; [|by left| |done].
  - right. exists p, token. split; [|done]. by split; cbn; try congruence.
  - intros [Hx|Hx]; destruct Hn; [by left|by right].
Qed.

(** The world changed by quiet calls only, the object not at all. *)
Definition after (s s' : worker * W) : Prop := fst s' = fst s /\ forall P, stable P -> P (snd s) -> P (snd s').
Lemma after_trans s1 s2 s3 : after s1 s2 -> after s2 s3 -> after s1 s3.
Proof. intros [E1 K1] [E2 K2]. split; [congruence|]. intros P HP Hs. by apply K2, K1. Qed.
Lemma after_honest s s' : after s s' -> honest (fst s) (snd s) -> honest (fst s') (snd s').
Proof. intros [E K] Hh. rewrite E. by apply (honest_steady _ _ _ K). Qed.

(** What the exchange of the final frames established when it is valid. *)
Definition backed (s : worker) (w : W) (final : list pyval * WorkerEvents.telemetry) : Prop :=
  exists p token frame, session s p token /\ _validate_final (VDict frame) token = Ok final /\
    exit_of w (pid p) = Some 0 /\ members w (pid p) = [].

Lemma wp_outcome control status d (s : worker * W) :
  honest (fst s) (snd s) ->
  wp (catch (bind (exchange_final parse_float float_repr (process (fst s)) control status (nonce (fst s)) d)
                  (fun r => let '(final, descendants) := r in done (final, negb descendants, descendants)))
        (fun _ => done ((_failure_events, _failure_telemetry), false, false)))
     (fun r s' => after s s' /\ exists final valid descendants, r = Ok (final, valid, descendants) /\
        (valid = true -> backed (fst s') (snd s') final)) s.
Proof.
  intros Hh.
  assert (Hf : wp (exchange_final parse_float float_repr (process (fst s)) control status (nonce (fst s)) d)
                 (fun r s' => after s s' /\ (forall final, r = Ok (final, false) -> backed (fst s') (snd s') final)) s).
  { destruct (steady_final (process (fst s)) control status (nonce (fst s)) d s) as [E K].
    split; [done|]. intros [evs tel] Hr. rewrite E.
    destruct (h_fields _ _ Hh) as [[Hn Hp]|(p & token & Hs & _)]; [by rewrite Hn, Hp in Hr|]. exists p, token.
    rewrite (ss_process _ _ _ Hs), (ss_nonce _ _ _ Hs) in *.
    destruct (wp_final p control status token d s (ss_grouped _ _ _ Hs) evs tel Hr) as ([frame H4] & H5 & H6). by exists frame. }
  apply wp_catch, wpm_bind. eapply wpm_mono; [exact Hf|]. intros [[final descendants]|e] s1 [Ha Hb].
  - split; [done|]. exists final, (negb descendants), descendants. split; [done|]. destruct descendants; [done|]. intros _. by apply Hb.
  - split; [done|]. by eexists _, _, _.
Qed.

Lemma wp_teardown valid descendants (s : worker * W) :
  honest (fst s) (snd s) ->
  wp (match process (fst s) with
      | Some p =>
          bind (call (Poll (pid p))) (fun leader =>
            bind (_terminate_process p) (fun purged =>
              done (valid && negb (match leader with None => true | Some _ => false end || descendants), purged)))
      | None => done (valid, false)
      end)
     (fun r s' => after s s' /\ forall v purged, r = Ok (v, purged) ->
        (v = true -> valid = true) /\ (purged = true -> removed (snd s'))) s.
Proof.
  intros Hh. destruct (h_fields _ _ Hh) as [[_ Hp]|(p & token & Hs & Hl)].
  - rewrite Hp. apply wp_done. split; [done|]. by intros v purged [= <- <-].
  - rewrite (ss_process _ _ _ Hs). apply wpm_bind, wp_steady; [steadily|]. intros r s1 E1 K1.
    assert (Ha : after s s1) by done. destruct r as [leader|]; [|done]. apply wpm_bind.
    eapply wpm_mono; [apply wp_terminate, Hs|]. intros [purged|] s2 (E2 & K2 & Hg); (split; [by apply (after_trans _ _ _ Ha)|]); [|done].
    intros v q [= <- <-]. split; [by intros []%andb_true_iff|]. intros ->. exists (pid p).
    split; [by apply (K2 _ (law_spawned [pid p])), (K1 _ (law_spawned [pid p]))|by apply Hg].
Qed.

(** The state [stop] leaves is honest when its report is backed. *)
Lemma concluded_honest (v purged : bool) final s (w : W) :
  (nonce s = None /\ process s = None \/ exists p token, session s p token /\ spawned w = [pid p]) ->
  (v = true -> backed s w final) -> (purged = true -> removed w) ->
  honest (mk_worker (if v then Stopped else Failed) (process s) None None (nonce s) (ready_receipt s) purged purged
            (if v then fst final else _failure_events) (if v then snd final else _failure_telemetry)) w.
Proof.
  intros Hf Hb Hp. split; cbn.
  - destruct Hf as [|(p & token & [] & ?)]; [by left|right]. by exists p, token.
  - destruct v; [right|by left]. split; [done|]. destruct (Hb eq_refl) as (p & token & frame & [] & H4 & H5 & H6).
    exists p, token, frame. cbn. split; [by split|]. by destruct final.
  - intros [Hx|Hx]; cbn in Hx; auto.
  - by destruct v.
Qed.

Lemma open_honest (s : worker * W) :
  honest (fst s) (snd s) -> state (fst s) <> Stopped ->
  wp (stop_open parse_float float_repr c) (fun _ s' => honest (fst s') (snd s')) s.
Proof.
  intros Hh Hs. unfold stop_open. do 4 apply wpm_bind, wp_look. apply wpm_bind, wp_update.
  assert (Hb : failure_report (fst s)) by (destruct (h_report _ _ Hh) as [|[? _]]; done).
  assert (H2h : honest (set_state Stopping (fst s)) (snd s)).
  { destruct s as [[] w], Hh as [h1 h2 h3 h4]. split; cbn in *; try done; [|by left].
    destruct h1 as [|(p & token & [] & ?)]; [by left|right]. by exists p, token. }
  change (process (fst s)) with (process (set_state Stopping (fst s))).
  change (nonce (fst s)) with (nonce (set_state Stopping (fst s))).
  set (s2 := (set_state Stopping (fst s), snd s)) in *. change (honest (fst s2) (snd s2)) in H2h.
  change (set_state Stopping (fst s)) with (fst s2). assert (H2s : state (fst s2) = Stopping) by done.
  generalize (control_fd (fst s)) (status_fd (fst s)). intros control status. clearbody s2. clear s Hh Hs Hb.
  apply wpm_bind, wp_steady; [steadily|]. intros r s3 E3 K3. pose proof (after_honest _ _ (conj E3 K3) H2h) as H3h.
  destruct r as [now|]; [|done]. rewrite <- E3 in *. clear E3 K3 H2h s2. apply wpm_bind.
  eapply wpm_mono; [by apply wp_outcome|]. intros r s4 [A4 (final & valid & descendants & -> & Hv)].
  pose proof (after_honest _ _ A4 H3h) as H4h. rewrite <- (proj1 A4) in *. clear A4 H3h s3. apply wpm_bind.
  eapply wpm_mono; [by apply wp_teardown|]. intros r s5 [A5 Ht].
  pose proof (after_honest _ _ A5 H4h) as H5h. destruct r as [[v purged]|]; [|done].
  destruct (Ht v purged eq_refl) as [Hvv Hp]. apply wpm_bind, wp_steady; [steadily|]. intros r s6 E6 K6.
  pose proof (after_honest _ _ (conj E6 K6) H5h) as H6h. destruct r as [[]|]; [|done]. apply wp_update.
  pose proof (after_trans _ _ _ A5 (conj E6 K6)) as [E K]. destruct (h_fields _ _ H6h) as [Hn|Hn].
  - apply concluded_honest; [by left| |].
    + intros ->. destruct (Hv (Hvv eq_refl)) as (p & token & frame & Hs & _). destruct Hs as [Hx _ _ _]. rewrite E in Hn. naive_solver.
    + intros ->. by apply (K6 _ stable_removed), Hp.
  - apply concluded_honest; [by right| |].
    + intros ->. destruct (Hv (Hvv eq_refl)) as (p & token & frame & H7 & H8 & H9 & H10). rewrite <- E in H7.
      exists p, token, frame. split_and!; [done|done|by apply (K _ (law_exit _ _))|by apply (K _ (law_empty _))].
    + intros ->. by apply (K6 _ stable_removed), Hp.
Qed.

Lemma stop_honest (s : worker * W) :
  honest (fst s) (snd s) -> wp (_stop_impl parse_float float_repr c) (fun _ s' => honest (fst s') (snd s')) s.
Proof.
  intros Hh. unfold _stop_impl. apply wpm_bind, wp_look. destruct (state (fst s)) eqn:Es.
  1: { apply wp_update. destruct (h_new _ _ Hh Es) as [[] Hl]. destruct s as [[] ?]. by apply honest_blank. }
  1, 2, 4: by apply open_honest; [|rewrite Es].
  2: done.
  apply wp_update. destruct s as [[] w], Hh as [h1 h2 h3 h4]. cbn in *. subst.
  split; cbn in *; try done; [|by destruct h2 as [|[? _]]; [left|]|].
  - destruct h1 as [|(p & token & [] & ?)]; [by left|right]. by exists p, token.
  - intros [Hx|Hx]; apply h3; by right.
Qed.
Lemma performs_honest root ms s :
  honest (fst s) (snd s) ->
  honest (fst (performs parse_float float_repr c root ms s)) (snd (performs parse_float float_repr c root ms s)).
Proof.
  revert s. induction ms as [|m ms IH]; intros s Hh; [done|]. apply IH. destruct m.
  - by apply start_honest.
  - by apply stop_honest.
Qed.

Lemma validate_final_clean v token evs tel : _validate_final v token = Ok (evs, tel) -> t_complete tel = clean tel.
Proof.
  unfold _validate_final, _validate_telemetry. intros Hv. run_inv. simplify_eq.
  match goal with Hx : Bool.eqb _ _ = true |- _ => by apply Bool.eqb_prop in Hx end.
Qed.

(** C16: The parent never reports more than it knows.  After any calls of start
    and stop, in any world, a worker shows the fixed failure report, or it is
    stopped and its report is that of a final frame bound to the session's nonce,
    from a worker whose privilege drop was attested for the requested identity,
    that exited with status 0 and whose process group is empty; only such a report
    can call itself complete, and then every counter is clean; and a verified
    purge means that the one process that was started is reaped and no member of
    its group is alive. *)
Theorem worker_report_honest (root : string) (ms : list method) (w : W) :
  spawned w = [] ->
  let s := fst (performs parse_float float_repr c root ms (new_worker, w)) in
  let w' := snd (performs parse_float float_repr c root ms (new_worker, w)) in
  (failure_report s \/ state s = Stopped /\ session_report s w') /\
  (t_complete (telemetry s) = true -> clean (telemetry s) = true /\ session_report s w') /\
  (purge_verified s = true -> removed w').
Proof.
  intros Hw s w'. pose proof (performs_honest root ms (new_worker, w) (honest_new w Hw)) as [_ Hr Hp _].
  fold s w' in Hr, Hp. split; [done|]. split; [|by intros Hv; apply Hp; left].
  destruct Hr as [[_ ->]|[_ Hr]]; [done|]. intros Hc. split; [|done].
  destruct Hr as (p & token & frame & _ & Hf & _). apply validate_final_clean in Hf. congruence.
Qed.

End facts.

(** ** The wait for the group ends *)

(** The monotonic clock does not go back, and a sleep lasts at least its time. *)
Class ClockLaws (W : Type) `{World W} := {
  time : W -> Z;
  law_clock t : stable (fun w => t <= time w);
  law_now w t w' : sys Monotonic w = (Ok t, w') -> time w <= t <= time w';
  law_sleep d w x w' : sys (Sleep d) w = (Ok x, w') -> time w + d <= time w';
}.

Section clock.
Context {W : Type} `{ClockLaws W} `{UnicodeDigits}.

(** One turn of the loop, and then [k]. *)
Definition turn (p : handle) (d : Z) (k : @act W bool) : @act W bool :=
  bind (_process_group_exists p) (fun survivors =>
    if negb survivors then done true
    else bind (call Monotonic) (fun now => if d <=? now then done false else bind (call (Sleep (10 ^ 7))) (fun _ => k))).
Definition rest (p : handle) (d : Z) (n : nat) : @act W bool := match n with O => done false | S n => wait_loop n p d end.

Lemma wait_loop_turn n p d : wait_loop n p d = turn p d (rest p d n).
Proof. by destruct n. Qed.

Lemma turn_ext p d k k' (s : worker * W) :
  (forall s', time (snd s) + 10 ^ 7 <= time (snd s') -> time (snd s) < d -> k s' = k' s') -> turn p d k s = turn p d k' s.
Proof.
  intros Hk. unfold turn, bind. pose proof (steady_group p s) as [_ K]. specialize (K _ (law_clock (time (snd s))) (Z.le_refl _)).
  destruct (_process_group_exists p s) as [[[]|] s1]; cbn [fst snd negb] in *; [|done..].
  unfold call. destruct (sys Monotonic (snd s1)) as [[now|] w2] eqn:En; [|done]. apply law_now in En as Hnow.
  destruct (Z.leb_spec d now); [done|]. cbn [fst snd].
  pose proof (law_clock (time (snd s1)) Monotonic (snd s1) eq_refl (Z.le_refl _)) as Ht. rewrite En in Ht. cbn in Ht.
  destruct (sys (Sleep (10 ^ 7)) w2) as [[]w3] eqn:Es; [|done]. apply law_sleep in Es. apply Hk; cbn [snd]; lia.
Qed.

Lemma wait_loop_turns fuel : forall n p d (s : worker * W),
  (fuel <= n)%nat -> d <= time (snd s) + 10 ^ 7 * Z.of_nat fuel -> wait_loop n p d s = wait_loop fuel p d s.
Proof.
  induction fuel as [|fuel IH]; intros n p d s Hn Hd; rewrite !wait_loop_turn; apply turn_ext; intros s' H4 H5; [lia|].
  destruct n as [|n]; [lia|]. cbn [rest]. apply IH; lia.
Qed.

(** The wait for the process group ends within its half second: in a world
    whose clock does not go back and whose sleeps last at least their time, the
    fifty-one turns of the model are all the turns there are, whatever the
    processes do; allowing more changes nothing. *)
Theorem purge_wait_terminates (n : nat) (p : handle) (s : worker * W) :
  (PURGE_TURNS <= n)%nat ->
  _wait_process_group_empty n p (seconds PURGE_RECHECK_SEC) s
  = _wait_process_group_empty PURGE_TURNS p (seconds PURGE_RECHECK_SEC) s.
Proof.
  intros Hn. unfold _wait_process_group_empty. destruct (grouped p); [|done]. cbn [negb]. unfold bind, call.
  destruct (sys Monotonic (snd s)) as [[now|] w] eqn:En; [|done]. apply wait_loop_turns; [done|].
  cbn [snd]. apply law_now in En. change (seconds PURGE_RECHECK_SEC) with (10 ^ 7 * Z.of_nat PURGE_TURNS). lia.
Qed.

End clock.

End WorkerProcess.
