(* ===== verification/WorkerChild.v ===== *)
(** * The egress worker's child

    The child side of broker/browser_egress_worker.py: reading the proxy's source
    while root, the interpreter's module table, the framed session around a proxy,
    and the entry point that orders identity, sources, privilege drop and import.
    The proxy is an interface; what a finished one reports passes the checks of the
    child and of the parent unchanged. *)

From stdpp Require Import base list strings gmap.
From Stdlib Require Import ZArith Lia.
From S2P Require Import Prelude PyValue Json JsonFacts StrOps Ip Url BrowserEvidence EgressAddress.
From S2P Require Import WorkerWire WorkerEvents WorkerSandbox.

Local Open Scope Z_scope.

Module WorkerChild.
Import BrowserEvidence EgressAddress WorkerWire WorkerEvents WorkerSandbox.

(** ** The interpreter *)

(** What the host says of /usr/bin/python3: [resolve(strict=True)], owner and mode
    of a path, whether the resolved file is regular, and how the version probe
    ended; [None] is an [OSError] or an expired timeout. *)
Record host_python := mk_host_python {
  hp_resolved : option string;
  hp_stat : string -> option (Z * Z);
  hp_regular : bool;
  hp_probe : option Z;
}.

Definition trusted_stat (m : option (Z * Z)) : bool :=
  match m with Some (uid, mode) => (uid =? 0) && (Z.land mode 18 =? 0) | None => false end.

Definition _worker_python (h : host_python) (executable : string) : string :=
  match hp_resolved h with
  | None => executable
  | Some resolved =>
      let '(parent, _, _) := rpartition 47 resolved in
      if negb (String.eqb parent "/usr/bin") then executable
      else if negb (forallb (fun item => trusted_stat (hp_stat h item)) ["/usr"; "/usr/bin"; "/usr/bin/python3"; resolved])
      then executable
      else if negb (hp_regular h) then executable
      else match hp_probe h with Some 0 => "/usr/bin/python3" | _ => executable end
  end.

(** ** The proxy's source *)
Definition _TRUSTED_SOURCE_PATHS : list (string * string) :=
  [("mote.browser_contract", "/mote/browser_contract.py"); ("broker.browser_egress_proxy", "/broker/browser_egress_proxy.py")].
Definition _MAX_TRUSTED_SOURCE_BYTES : Z := 2 * 1024 * 1024.

(** An opened source file: its metadata, and what each [os.read] gives. *)
Record source_file := mk_source_file { sf_regular : bool; sf_mode : Z; sf_size : Z; sf_reads : list (res string) }.

(** The loop of reads, then the last one that must find nothing. *)
Fixpoint read_chunks (remaining : Z) (acc : string) (l : list (res string)) : res string :=
  match l with
  | [] => Err (OSError "read")
  | Err e :: _ => Err e
  | Ok chunk :: l' =>
      if remaining =? 0
      then (if String.eqb chunk "" then Ok acc else worker_error "trusted proxy source changed while read")
      else if String.eqb chunk "" then worker_error "trusted proxy source ended early"
      else read_chunks (remaining - size chunk) (acc +:+ chunk) l'
  end.

Definition read_source (f : option source_file) : res string :=
  match f with
  | None => worker_error "trusted proxy source cannot be opened"
  | Some f =>
      raise (BrowserEgressWorkerError "trusted proxy source is group/world-writable")
        when sf_regular f && negb (Z.land (sf_mode f) 18 =? 0);;
      raise (BrowserEgressWorkerError "trusted proxy source metadata is unsafe")
        when negb (sf_regular f) || negb (in_range 1 _MAX_TRUSTED_SOURCE_BYTES (sf_size f));;
      read_chunks (sf_size f) "" (sf_reads f)
  end.

(** The bytes of each module, by the file that [open] gives for its path. *)
Definition _read_trusted_proxy_sources (root : string) (open : string -> option source_file)
    : res (list (string * (string * string))) :=
  map_res (fun np => let* source := read_source (open (root +:+ snd np)) in Ok (fst np, (root +:+ snd np, source)))
    _TRUSTED_SOURCE_PATHS.

(** ** The module table *)
Definition protected_names : list string := ["mote"; "mote.browser_contract"; "broker"; "broker.browser_egress_proxy"].

Section modules.
(** The interpreter's other state, running a module's code, and the proxy class it defines. *)
Context {I F : Type}.
Variables (exec_module : string -> string -> I -> res unit * I) (proxy_class : I -> option F).

(** [sys.modules.pop(name, None)] *)
Definition pop (name : string) (modules : list string) : list string :=
  List.filter (fun m => negb (String.eqb m name)) modules.
Definition pops (names : list string) (modules : list string) : list string := foldr pop modules names.
(** [sys.modules[name] = module] *)
Definition install (name : string) (modules : list string) : list string :=
  if mem name modules then modules else modules ++ [name].

(** The modules in order: the names loaded so far and the outcome. *)
Fixpoint load_modules (sources : list (string * (string * string))) (names : list string) (loaded modules : list string) (i : I)
    : res unit * list string * list string * I :=
  match names with
  | [] => (Ok tt, loaded, modules, i)
  | name :: rest =>
      match assoc name sources with
      | None => (Err KeyError, loaded, modules, i)
      | Some (_, source) =>
          let modules := install name modules in
          let loaded := loaded ++ [name] in
          match exec_module name source i with
          | (Err e, i) => (Err e, loaded, modules, i)
          | (Ok _, i) => load_modules sources rest loaded modules i
          end
      end
  end.

Definition _execute_proxy_sources_after_drop (sources : list (string * (string * string))) (modules : list string) (i : I)
    : res F * list string * I :=
  if negb (forallb (fun k => mem k (keys _TRUSTED_SOURCE_PATHS)) (map fst sources)
           && forallb (fun k => mem k (map fst sources)) (keys _TRUSTED_SOURCE_PATHS))
  then (worker_error "trusted proxy source set changed", modules, i)
  else if existsb (fun name => mem name modules) protected_names
  then (worker_error "proxy module was loaded before privilege drop", modules, i)
  else
    let installed := install "broker" (install "mote" modules) in
    let '(r, loaded, modules, i) :=
      load_modules sources ["mote.browser_contract"; "broker.browser_egress_proxy"] [] installed i in
    let r := let* _ := r in
             match proxy_class i with Some f => Ok f | None => worker_error "trusted proxy class is missing" end in
    match r with
    | Ok f => (Ok f, modules, i)
    | Err e => (Err e, pop "broker" (pop "mote" (pops (rev loaded) modules)), i)
    end.

Lemma pop_app name modules l : mem name modules = false -> pop name (modules ++ l) = modules ++ pop name l.
Proof.
  intros Hm. unfold pop. rewrite List.filter_app. f_equal. induction modules as [|m modules IH]; [done|].
  cbn [mem existsb List.filter] in *. apply orb_false_iff in Hm as [H1 H2]. rewrite String.eqb_sym, H1. cbn [negb]. by rewrite IH.
Qed.

Lemma install_app name modules l : mem name modules = false -> mem name l = false -> install name (modules ++ l) = modules ++ (l ++ [name]).
Proof. intros H1 H2. unfold install, mem. rewrite existsb_app. unfold mem in *. rewrite H1, H2, <- app_assoc. done. Qed.

(** A failed import leaves the module table as it was. *)
Lemma execute_restores sources modules i e modules' i' :
  _execute_proxy_sources_after_drop sources modules i = (Err e, modules', i') -> modules' = modules.
Proof.
  unfold _execute_proxy_sources_after_drop. destruct (negb _); [by intros [= _ <- _]|].
  destruct (existsb _ _) eqn:Ep; [by intros [= _ <- _]|]. cbn [existsb protected_names] in Ep. run_inv.
  replace modules with (modules ++ []) at 1 by apply app_nil_r. rewrite !install_app by (assumption || reflexivity). cbn [app load_modules].
  destruct (assoc "mote.browser_contract" sources) as [[? src]|]; cbn [app].
  - rewrite install_app by (assumption || reflexivity). destruct (exec_module _ src i) as [[]i1]; cbn [app].
    + destruct (assoc "broker.browser_egress_proxy" sources) as [[? src2]|]; cbn [app].
      * rewrite install_app by (assumption || reflexivity). destruct (exec_module _ src2 i1) as [[]i2]; cbn [mbind res_bind].
        -- destruct (proxy_class i2); [done|]. intros [= _ <- _]. cbn [rev app pops foldr]. by rewrite !pop_app, app_nil_r by (assumption || reflexivity).
        -- intros [= _ <- _]. cbn [rev app pops foldr]. by rewrite !pop_app, app_nil_r by (assumption || reflexivity).
      * intros [= _ <- _]. cbn [rev app pops foldr]. by rewrite !pop_app, app_nil_r by (assumption || reflexivity).
    + intros [= _ <- _]. cbn [rev app pops foldr]. by rewrite !pop_app, app_nil_r by (assumption || reflexivity).
  - intros [= _ <- _]. cbn [rev app pops foldr]. by rewrite !pop_app, app_nil_r by (assumption || reflexivity).
Qed.

End modules.

(** ** The session around a proxy *)
Fixpoint repeat_text (n : nat) (s : string) : string := match n with O => "" | S n => s +:+ repeat_text n s end.

(** What the child uses of a proxy: each method and the proxy after it;
    [serve] is what it does while the child waits for the stop frame. *)
Class ProxyOps (P : Type) := {
  proxy_start : P -> res (string * Z) * P;
  proxy_serve : P -> P;
  proxy_stop : P -> res unit * P;
  proxy_events : P -> res (list pyval);
  proxy_telemetry : P -> res pyval;
}.

Definition stop_fields (nonce : string) : pydict :=
  [("type", VStr "stop"); ("protocol_version", VStr PROTOCOL_VERSION); ("nonce", VStr nonce)].
Definition error_frame (code : string) : pydict :=
  [("type", VStr "error"); ("protocol_version", VStr PROTOCOL_VERSION); ("code", VStr code)].

(** How the pipes behave: the control pipe, and the writes of the ready frame, of
    the final frame and of an error frame. *)
Record pipes := mk_pipes {
  control : list read_event; ready_writes : list write_event; final_writes : list write_event;
  error_writes : list write_event;
}.

Section child.
Context {P : Type} `{ProxyOps P} `{IpRelease} `{Unicode} `{UnicodeDigits}.
Variables (parse_float : string -> pyfloat) (float_repr : pyfloat -> string).

(** The state after the first [try]: the proxy, the nonce, the two flags and the
    status bytes. *)
Record child_state := mk_child_state { cs_proxy : option P; cs_nonce : string; cs_ready : bool; cs_failed : bool; cs_status : string }.

(** [finally: proxy.stop()] *)
Definition stop_proxy (p : P) (nonce : string) (ready failed : bool) (status : string) : child_state :=
  let '(r, p') := proxy_stop p in
  mk_child_state (Some p') nonce ready (failed || match r with Ok _ => false | Err _ => true end) status.

(** Whether the command read after readiness is not the stop of this session. *)
Definition command_refused (nonce : string) (r : res pydict) : bool :=
  match r with
  | Err _ => true
  | Ok command => negb (same_keys command ["type"; "protocol_version"; "nonce"])
                  || negb (py_eq (VDict command) (VDict (stop_fields nonce)))
  end.

(** From the started proxy on. *)
Definition serve_session (security : pyval) (config : start) (p : P) (endpoint : string * Z) (rest : list read_event)
    (io : pipes) : child_state :=
  let nonce := st_nonce config in
  if negb (bool_decide (endpoint = (st_bind_host config, st_bind_port config))) then stop_proxy p nonce false true ""
  else
    let '(r, out) := _write_frame float_repr (VDict (ready_frame nonce endpoint security)) MAX_STATUS_FRAME_BYTES (ready_writes io) in
    match r with
    | Err _ => stop_proxy p nonce false true out
    | Ok _ =>
        match _wall_clock_from_config (VDict (start_frame config)) with
        | Err _ => stop_proxy p nonce true true out
        | Ok _ =>
            let p := proxy_serve p in
            let '(command, _) := _read_frame parse_float MAX_CONFIG_FRAME_BYTES rest in
            stop_proxy p nonce true (command_refused nonce command) out
        end
    end.

Definition child_session (security : pyval) (proxy_factory : start -> res P) (io : pipes) : child_state :=
  let zero := mk_child_state None (repeat_text 64 "0") false true "" in
  match _read_frame parse_float MAX_CONFIG_FRAME_BYTES (control io) with
  | (Err _, _) => zero
  | (Ok frame, rest) =>
      match _validate_child_config (VDict frame) with
      | Err _ => zero
      | Ok config =>
          match proxy_factory config with
          | Err _ => mk_child_state None (st_nonce config) false true ""
          | Ok p =>
              match proxy_start p with
              | (Err _, p) => stop_proxy p (st_nonce config) false true ""
              | (Ok endpoint, p) => serve_session security config p endpoint rest io
              end
          end
      end
  end.

(** The validated final report, or the fixed failure. *)
Definition final_report (s : child_state) : list pyval * WorkerEvents.telemetry * bool :=
  let report :=
    match cs_failed s, cs_proxy s with
    | false, Some p =>
        let* evs := proxy_events p in
        let* tel := proxy_telemetry p in
        _validate_final (VDict (final_frame (cs_nonce s) evs tel)) (cs_nonce s)
    | _, _ => worker_error "failed"
    end in
  match report with
  | Ok (evs, tel) => (evs, tel, false)
  | Err _ => (_failure_events, _failure_telemetry, true)
  end.

(** The exit code and the bytes on the status pipe. *)
Definition _child_proxy_loop (security : pyval) (proxy_factory : start -> res P) (io : pipes) : Z * string :=
  let s := child_session security proxy_factory io in
  if negb (cs_ready s) then
    let '(_, out) := _write_frame float_repr (VDict (error_frame "startup_failed")) MAX_STATUS_FRAME_BYTES (error_writes io) in
    (1, cs_status s +:+ out)
  else
    let '(evs, tel, failed) := final_report s in
    let '(r, out) := _write_frame float_repr (VDict (final_frame (cs_nonce s) evs (telemetry_val tel))) MAX_STATUS_FRAME_BYTES
                       (final_writes io) in
    (match r with Err _ => 1 | Ok _ => if (failed : bool) then 1 else 0 end, cs_status s +:+ out).

End child.

(** ** The entry point *)
Section entry.
Context {W P : Type} `{SecurityOps W} `{ProxyOps P} `{IpRelease} `{Unicode} `{UnicodeDigits}.
Variables (parse_float : string -> pyfloat) (float_repr : pyfloat -> string).
(** The proxy class that module code left in the interpreter. *)
Variable proxy_class : W -> option (start -> res P).

(** What the child does as root and while it drops its privileges. *)
Definition before_import (db : accounts) (root : string) (open : string -> option source_file) (uid gid parent : Z) (w : W)
    : res (list (string * (string * string)) * (security * W)) :=
  let* _ := _verify_worker_identity db (VInt uid) (VInt gid) in
  let* sources := _read_trusted_proxy_sources root open in
  let* dropped := _apply_worker_sandbox uid gid (Some parent) w in
  Ok (sources, dropped).

Definition _child_entry (exec_module : string -> string -> W -> res unit * W) (db : accounts) (root : string)
    (open : string -> option source_file) (modules : list string) (uid gid parent : Z) (w : W) (io : pipes) : Z * string :=
  let failed :=
    let '(_, out) := _write_frame float_repr (VDict (error_frame "sandbox_failed")) MAX_STATUS_FRAME_BYTES (error_writes io) in
    (1, out) in
  match before_import db root open uid gid parent w with
  | Err _ => failed
  | Ok (sources, (security, w)) =>
      match _execute_proxy_sources_after_drop exec_module proxy_class sources modules w with
      | (Err _, _, _) => failed
      | (Ok proxy_factory, _, _) => _child_proxy_loop parse_float float_repr (security_val security) proxy_factory io
      end
  end.

Lemma load_modules_agree (C : W -> Prop) (exec exec' : string -> string -> W -> res unit * W) sources names :
  (forall name source w, C w -> exec name source w = exec' name source w /\ C (snd (exec name source w))) ->
  forall loaded modules w, C w ->
  load_modules exec sources names loaded modules w = load_modules exec' sources names loaded modules w.
Proof.
  intros Ha. induction names as [|name names IH]; intros loaded modules w Hw; [done|]. cbn [load_modules].
  destruct (assoc name sources) as [[? source]|]; [|done]. destruct (Ha name source w Hw) as [E Hc]. rewrite <- E.
  destruct (exec name source w) as [[] w']; [|done]. by apply IH.
Qed.

End entry.

(** [int(s, 10)] of ASCII text: blanks around it, a sign, digits with single
    underscores between them; anything else is a [ValueError]. *)
Fixpoint underscored (s : string) : option string :=
  match s with
  | EmptyString => None
  | String a r =>
      if negb (is_digit a) then None
      else match r with
           | EmptyString => Some s
           | String b r' =>
               if ch 95 b
               then match underscored r' with Some t => Some (String a t) | None => None end
               else match underscored r with Some t => Some (String a t) | None => None end
           end
  end.
Definition int10 (s : string) : option Z :=
  let t := strip s in
  let '(sign, body) := match t with
    | String a r => if ch 45 a then (-1, r) else if ch 43 a then (1, r) else (1, t)
    | EmptyString => (1, t)
    end in
  match underscored body with
  | Some digits => if (MAX_STR_DIGITS <? String.length digits)%nat then None else Some (sign * digits_value 0 digits)
  | None => None
  end.

(** [_main]: the child's arguments, or [None] where it returns 2. *)
Definition main_arguments (argv : list string) : option (Z * Z * Z * Z * Z) :=
  match argv with
  | [flag; a; b; d; e; f] =>
      if negb (String.eqb flag "--child") then None
      else match int10 a, int10 b, int10 d, int10 e, int10 f with
           | Some control_fd, Some status_fd, Some parent, Some uid, Some gid =>
               if (control_fd <? 3) || (status_fd <? 3) || (control_fd =? status_fd) || (parent <=? 1)
                  || negb (in_range 1 (2 ^ 31 - 1) uid) || negb (in_range 1 (2 ^ 31 - 1) gid)
               then None
               else Some (control_fd, status_fd, parent, uid, gid)
           | _, _, _, _, _ => None
           end
  | _ => None
  end.

Section confinement.
Context {W P : Type} `{SecurityOps W} `{ProxyOps P} `{IpRelease} `{Unicode} `{UnicodeDigits}.
Variables (parse_float : string -> pyfloat) (float_repr : pyfloat -> string) (proxy_class : W -> option (start -> res P)).

(** C17: Module code runs only in a confined process.  Let [C] hold of every process
    whose drop to the requested identity is complete, and of every process that
    module code makes of one in [C]: then what module code would do in any other
    process makes no difference to the child, neither to its exit status nor to
    what it writes; and when the drop or a check before it fails, the module code makes
    no difference at all: any other code leads to the same exit status and output. *)
Theorem parser_runs_confined (C : W -> Prop) (exec exec' : string -> string -> W -> res unit * W) (db : accounts) (root : string)
    (open : string -> option source_file) (modules : list string) (uid gid parent : Z) (w : W) (io : pipes) :
  (forall w, confined uid gid w -> C w) ->
  (forall name source w, C w -> exec name source w = exec' name source w /\ C (snd (exec name source w))) ->
  _child_entry parse_float float_repr proxy_class exec db root open modules uid gid parent w io =
    _child_entry parse_float float_repr proxy_class exec' db root open modules uid gid parent w io /\
  forall any e, before_import db root open uid gid parent w = Err e ->
    _child_entry parse_float float_repr proxy_class exec db root open modules uid gid parent w io =
    _child_entry parse_float float_repr proxy_class any db root open modules uid gid parent w io.
Proof.
  intros Hconf Hag. split; [|intros any e E; unfold _child_entry; by rewrite E]. unfold _child_entry. destruct (before_import _ _ _ _ _ _ _) as [[sources [security w']]|] eqn:E; [|done].
  unfold before_import in E. run_inv. simplify_eq.
  match goal with Hx : _apply_worker_sandbox _ _ _ _ = Ok _ |- _ => apply sandbox_confined in Hx as (_ & _ & _ & Hx); apply Hconf in Hx end.
  unfold _execute_proxy_sources_after_drop. rewrite (load_modules_agree C exec exec') by done. done.
Qed.

End confinement.

End WorkerChild.
