(* ===== verification/WorkerReport.v ===== *)
(** * What a finished proxy reports is what the parent accepts

    The snapshots of an egress proxy that was started, closed and has no handler
    left pass the validators of broker/browser_egress_worker.py unchanged, before
    and after the pipe, and fit its frame. *)

From stdpp Require Import base list strings gmap.
From Stdlib Require Import ZArith Lia.
From S2P Require Import Prelude PyValue Json JsonFacts JsonLoads Canonical StrOps Ip Url UrlFacts BrowserContract BrowserEvidence.
From S2P Require Import Evidence EvidenceFacts EgressAddress EgressRequest EgressProxy EgressLogic EgressFacts.
From S2P Require Import WorkerWire WorkerEvents.

Local Open Scope Z_scope.

Module WorkerReport.
Import BrowserEvidence EgressAddress EgressProxy EgressLogic EgressFacts WorkerWire WorkerEvents.

(** ** Frames that fit *)

(** Text that JSON writes as it is. *)
Definition bare_char (a : Ascii.ascii) : bool := syntax_char a && negb (ch 34 a) && negb (ch 92 a).
Definition bare (s : string) : bool := str_forall bare_char s.
(** Documents of such text, without floats. *)
Definition simple (v : pyval) : bool := json_ok v && Canonical.in_domain v && strings_ok bare v.

Lemma escape_bare s : bare s = true -> escape s = s.
Proof.
  unfold bare. induction s as [|a s IH]; [done|]. cbn [str_forall escape]. intros [Ha Hs]%andb_true_iff. rewrite IH by done.
  unfold bare_char, syntax_char, ch in Ha. unfold escape_char.
  repeat (rewrite (proj2 (Z.eqb_neq _ _)) by lia). rewrite (proj2 (Z.ltb_ge _ _)) by lia. done.
Qed.

Lemma strings_weaken (q r : string -> bool) v : (forall s, q s = true -> r s = true) -> strings_ok q v = true -> strings_ok r v = true.
Proof.
  intros Hq. induction v as [| | | |s| |l IH|d IH] using pyval_ind'; cbn [strings_ok]; auto.
  - rewrite !forallb_forall. rewrite Forall_forall in IH. intros Hl x Hx. apply IH; [by apply list_elem_of_In|by apply Hl].
  - rewrite !forallb_forall. rewrite Forall_forall in IH. intros Hd x Hx. specialize (Hd x Hx). apply andb_true_iff in Hd as [H4 H5].
    rewrite Hq by done. apply IH; [by apply list_elem_of_In|done].
Qed.

Lemma json_serializable v : json_ok v = true -> serializable v = true.
Proof.
  induction v as [| |z| | | |l IH|d IH] using pyval_ind'; cbn [json_ok serializable]; try done.
  - apply (json_ints_fit (VInt z)).
  - rewrite !forallb_forall. rewrite Forall_forall in IH. intros Hl x Hx. apply IH; [by apply list_elem_of_In|by apply Hl].
  - intros [_ Hd]%andb_true_iff. revert Hd. rewrite !forallb_forall. rewrite Forall_forall in IH. intros Hl x Hx.
    apply IH; [by apply list_elem_of_In|by apply Hl].
Qed.

Lemma bare_plain s : bare s = true -> plain s = true.
Proof. apply str_forall_weaken. intros a. unfold bare_char, syntax_char. lia. Qed.

Lemma frame_fits float_repr d maximum :
  simple (VDict d) = true -> EvidenceFacts.weight_by 1 (VDict d) <= maximum ->
  wire_ok d = true /\ exists bytes, _encode_frame float_repr (VDict d) maximum = Ok bytes.
Proof.
  intros Hs Hw. unfold simple in Hs. rewrite !andb_true_iff in Hs. destruct Hs as [[Hj Hd] Hb].
  assert (Ho : wire_ok d = true) by (unfold wire_ok; rewrite Hj; by apply (strings_weaken bare); [apply bare_plain|]).
  split; [done|]. unfold _encode_frame. rewrite json_serializable by done. cbn [negb okb raise_if].
  destruct (wire_text float_repr d Ho) as [_ ->]. rewrite dumps_no_float by done.
  pose proof (EvidenceFacts.encode_weight_by 1 bare) as He. specialize (He ltac:(intros s Hx; rewrite escape_bare by done; lia) _ Hd Hb).
  change (dumps (fun _ => "") (VDict d)) with (Canonical.encode (VDict d)).
  assert (Hne : Canonical.encode (VDict d) <> "") by (unfold Canonical.encode; rewrite dumps_dict; done).
  rewrite (proj2 (String.eqb_neq _ _) Hne), (proj2 (Z.ltb_ge _ _)) by (unfold size; lia). by eexists.
Qed.

Lemma bare_no_surrogate s : bare s = true -> has_surrogate s = false.
Proof.
  intros Hs. apply ascii_no_surrogate. revert Hs. apply str_forall_weaken. intros a. unfold bare_char, syntax_char. lia.
Qed.

Lemma simple_str s : bare s = true -> simple (VStr s) = true.
Proof. intros Hs. unfold simple. cbn. by rewrite bare_no_surrogate, Hs. Qed.
Lemma simple_int z : 0 <= z <= 2 ^ 31 -> simple (VInt z) = true.
Proof.
  intros Hz. unfold simple. cbn [json_ok Canonical.in_domain strings_ok]. unfold in_range, Canonical.MAX_SAFE_INTEGER.
  change (Z.shiftl 1 53 - 1) with 9007199254740991. rewrite !andb_true_iff, !Z.leb_le. change (2 ^ 31) with 2147483648 in Hz. lia.
Qed.
Lemma simple_list l : Forall (fun v => simple v = true) l -> simple (VList l) = true.
Proof.
  intros Hl. unfold simple. cbn [json_ok Canonical.in_domain strings_ok]. induction Hl as [|v l Hv _ IH]; [done|]. cbn [forallb].
  unfold simple in Hv. rewrite !andb_true_iff in *. tauto.
Qed.
Lemma simple_dict d : NoDup (keys d) -> Forall (fun kv => bare (fst kv) = true /\ simple (snd kv) = true) d -> simple (VDict d) = true.
Proof.
  intros Hn Hd. unfold simple. cbn [json_ok Canonical.in_domain strings_ok]. rewrite bool_decide_true by done. clear Hn.
  induction Hd as [|[k v] d [Hk Hv] _ IH]; [done|]. cbn [forallb fst snd] in *. unfold simple in Hv. rewrite bare_no_surrogate, Hk by done.
  rewrite !andb_true_iff in *. cbn [negb]. tauto.
Qed.

(** Builds [simple] of a document with known keys. *)
Ltac simply :=
  apply simple_dict; [by apply (bool_decide_unpack _); vm_compute|];
  repeat apply Forall_cons_2; try apply Forall_nil_2; cbn [fst snd]; (split; [reflexivity|]).

Lemma host_chars_bare s : str_forall is_auth_char s = true -> bare s = true.
Proof. apply str_forall_weaken. intros a. unfold is_auth_char, bare_char, syntax_char. char_lia. Qed.

Lemma host_port_small h p : public_host h -> 1 <= p <= 65535 ->
  bare (host_port h p) = true /\ Z.of_nat (String.length (host_port h p)) <= 271.
Proof.
  intros Hh Hp. pose proof (public_host_chars h Hh) as Hc. destruct (port_text p Hp) as (_ & _ & _ & Hl). split.
  - apply host_chars_bare. pose proof (canonical_authority_chars "http" h p Hc Hp) as Hx. unfold canonical_authority in Hx.
    destruct (Z.eqb_spec p (default_port "http")) as [->|]; [|done]. exact (canonical_authority_chars "https" h 80 Hc Hp).
  - pose proof (ph_length h Hh). unfold host_port. rewrite !length_append. cbn [String.length]. lia.
Qed.

Section report.
Context `{IpRelease} `{Unicode} `{UnicodeDigits} `{MonotonicClock} `{!UnicodeLaws}.

(** ** Events *)
Lemma event_shape q kind w a d :
  dict_shape (event_val q kind w a d) EVENT_KEYS = true /\ dict_shape (canon (event_val q kind w a d)) EVENT_KEYS = true.
Proof. by destruct w, a. Qed.

(** A value and its canonical form have the same fields. *)
Lemma canon_event q kind w a d :
  canon (event_val q kind w a d) =
  VDict [("connect_authority", opt_text a); ("disposition", VStr d); ("kind", VStr kind); ("sequence", VInt q);
         ("source", VStr "egress"); ("web_origin", opt_text w)].
Proof. by destruct w, a. Qed.

Lemma http_prefix o : http_origin o -> startswith "http://" o = true.
Proof.
  intros [Hn Hs]. destruct (origin_anatomy _ _ Hn) as (sc & h & p & Hm & Hh & Hp & ->).
  rewrite scheme_of_origin in Hs by done. apply Ok_inj in Hs. subst sc. unfold origin_of.
  generalize (canonical_authority "http" h p). intros x. by destruct x.
Qed.

(** The validator reads an event field by field, so its order does not matter. *)
Lemma validate_canon q kind w a d : _validate_event (canon (event_val q kind w a d)) q = _validate_event (event_val q kind w a d) q.
Proof. rewrite canon_event. unfold _validate_event, event_val, EgressProxy.event_val. dict_eval. done. Qed.

Lemma validate_lost q : _validate_event (event_val q "telemetry_loss" None None "observed") q
  = Ok (event_val q "telemetry_loss" None None "observed").
Proof. unfold _validate_event, event_val, EgressProxy.event_val. dict_eval. by rewrite EvidenceFacts.py_eq_refl_int. Qed.

Lemma validate_request q w a d :
  mem d ["allowed"; "blocked"] = true -> witness_ok w a -> absent w <> absent a ->
  _validate_event (event_val q "network_request" w a d) q = Ok (event_val q "network_request" w a d).
Proof.
  intros Hd Hw Hne. unfold _validate_event, event_val, EgressProxy.event_val. dict_eval. rewrite EvidenceFacts.py_eq_refl_int.
  change (py_eq (VStr "egress") (VStr "egress")) with true. change (py_eq (VStr "network_request") (VStr "telemetry_loss")) with false.
  change (py_eq (VStr "network_request") (VStr "network_request")) with true. cbn [negb orb okb raise_if in_strs]. rewrite Hd.
  cbn [okb notM negb raise_if]. destruct w as [o|], a as [x|]; try done; cbn [opt_text is_none Bool.eqb okb raise_if optional].
  - destruct (proj1 (event_origin_agrees (VStr o) o)) as [-> _]; [split; [done|apply Hw]|]. cbn [mbind res_bind].
    rewrite (http_prefix o Hw). reflexivity.
  - destruct (proj1 (event_authority_agrees (VStr x) x)) as [-> _]; [split; [done|apply Hw]|]. reflexivity.
Qed.

(** ** Telemetry the parent accepts *)
Record telemetry_ok (t : telemetry) : Prop := {
  to_inflight : 0 <= t_inflight_events t <= MAX_COUNTER_VALUE;
  to_active : 0 <= t_active_connections t <= MAX_COUNTER_VALUE;
  to_rejections : 0 <= t_listener_rejections t <= MAX_COUNTER_VALUE;
  to_attempts : 0 <= t_connection_attempts t <= MAX_COUNTER_VALUE;
  to_events : 0 <= t_event_count t <= MAX_FINAL_EVENTS;
  to_bytes : 0 <= t_network_bytes t <= t_network_byte_limit t;
  to_limit : t_network_byte_limit t <= MAX_NETWORK_BYTES;
  to_complete : t_complete t = clean t;
}.

Lemma bounded_uint_ok z name maximum : 0 <= z <= maximum -> _bounded_uint (VInt z) name maximum = Ok z.
Proof. intros Hz. unfold _bounded_uint. cbn [int_in]. assert (in_range 0 maximum z = true) as -> by (unfold in_range; lia). done. Qed.

Lemma canon_telemetry t :
  canon (telemetry_val t) =
  VDict [("active_connections", VInt (t_active_connections t)); ("closed", VBool (t_closed t)); ("complete", VBool (t_complete t));
         ("connection_attempts", VInt (t_connection_attempts t)); ("event_count", VInt (t_event_count t));
         ("event_overflow", VBool (t_event_overflow t)); ("inflight_events", VInt (t_inflight_events t));
         ("listener_rejections", VInt (t_listener_rejections t)); ("network_byte_limit", VInt (t_network_byte_limit t));
         ("network_bytes", VInt (t_network_bytes t)); ("started", VBool (t_started t))].
Proof. reflexivity. Qed.

Lemma telemetry_accepted t n :
  telemetry_ok t -> t_event_count t = n ->
  _validate_telemetry (telemetry_val t) n = Ok t /\ _validate_telemetry (canon (telemetry_val t)) n = Ok t.
Proof.
  intros [H4 H5 H6 H7 H8 H9 H10 H11] <-.
  assert (E : forall v, dict_shape v TELEMETRY_KEYS = true ->
    (forall k, mem k TELEMETRY_KEYS = true -> sub v k = sub (telemetry_val t) k) ->
    _validate_telemetry v (t_event_count t) = Ok t).
  { intros v Hs Hv. unfold _validate_telemetry, telemetry_flag, telemetry_count. rewrite Hs. cbn [negb okb raise_if].
    rewrite !Hv by reflexivity. unfold telemetry_val. dict_eval. rewrite !bounded_uint_ok by lia. cbn [mbind res_bind].
    rewrite Z.eqb_refl, (proj2 (Z.ltb_ge _ _)) by lia. cbn [negb okb raise_if]. destruct t. cbn in H11 |- *.
    rewrite H11, Bool.eqb_reflx. done. }
  split; apply E; try reflexivity. intros k Hk. rewrite canon_telemetry. cbn [sub]. unfold telemetry_val.
  apply mem_In in Hk. repeat (destruct Hk as [<-|Hk]; [reflexivity|]). done.
Qed.

Lemma canon_final nonce evs tel :
  canon_dict (final_frame nonce evs tel) =
  [("events", VList (map canon evs)); ("nonce", VStr nonce); ("protocol_version", VStr PROTOCOL_VERSION);
   ("telemetry", canon tel); ("type", VStr "final")].
Proof. reflexivity. Qed.

Lemma final_accepted nonce evs t raw raw_tel d :
  sub (VDict d) "type" = Ok (VStr "final") -> sub (VDict d) "protocol_version" = Ok (VStr PROTOCOL_VERSION) ->
  sub (VDict d) "nonce" = Ok (VStr nonce) -> sub (VDict d) "events" = Ok (VList raw) ->
  sub (VDict d) "telemetry" = Ok raw_tel -> dict_shape (VDict d) FINAL_KEYS = true ->
  Z.of_nat (length raw) <= MAX_FINAL_EVENTS -> validate_events 0 raw = Ok evs ->
  _validate_telemetry raw_tel (Z.of_nat (length evs)) = Ok t ->
  _validate_final (VDict d) nonce = Ok (evs, t).
Proof.
  intros H4 H5 H6 H7 H8 H9 H10 H11 H12. unfold _validate_final. rewrite H9, H4, H5, H6, H7, H8. cbn [negb okb raise_if mbind res_bind].
  rewrite !(proj2 (py_eq_str _ _) eq_refl). cbn [negb orb okb raise_if is_list list_of].
  rewrite (proj2 (Z.ltb_ge _ _) H10). cbn [okb raise_if]. rewrite H11. cbn [mbind res_bind]. by rewrite H12.
Qed.

Section proxy.
Variable c : config.
Context (Hok : proxy_ok c) (Hlimits : limits c = default_limits).

Lemma default_event_limit : limit max_connections c = 64 /\ 1 <= event_limit c <= 1024.
Proof.
  pose proof (po_events c Hok). unfold event_limit, limit. rewrite Hlimits.
  cbn [default_limits max_connections EgressAddress.max_events int_of]. lia.
Qed.

Lemma browser_event_accepted e :
  event_ok c e -> _validate_event (browser_event e) (ev_sequence e) = Ok (browser_event e) /\
  _validate_event (canon (browser_event e)) (ev_sequence e) = Ok (browser_event e).
Proof.
  intros [Hd _ Hw _ _]. unfold browser_event. destruct (_ || _) eqn:E.
  - split; [apply validate_lost|]. rewrite validate_canon. apply validate_lost.
  - apply orb_false_iff in E as [E _]. rewrite validate_canon. split; apply validate_request; try done; intros Hx; by rewrite Hx, Bool.eqb_reflx in E.
Qed.

Lemma events_accepted l n :
  Forall (event_ok c) l -> map ev_sequence l = seqZ n (Z.of_nat (length l)) ->
  validate_events n (map browser_event l) = Ok (map browser_event l) /\
  validate_events n (map canon (map browser_event l)) = Ok (map browser_event l).
Proof.
  intros HF. revert n. induction HF as [|e l He _ IH]; intros n Hs; [done|]. cbn [map length validate_events] in *.
  rewrite Nat2Z.inj_succ, seqZ_cons in Hs by lia. injection Hs as He1 Hs. replace (Z.pred (Z.succ _)) with (Z.of_nat (length l)) in Hs by lia.
  replace (Z.succ n) with (n + 1) in Hs by lia. destruct (IH _ Hs) as [-> ->]. rewrite <- He1.
  destruct (browser_event_accepted e He) as [-> ->]. done.
Qed.

(** ** Telemetry *)
Definition final_telemetry (s : state) : telemetry :=
  mk_telemetry (is_complete s) (bool_decide (is_Some (started_at s))) (closed s) (event_overflow s)
    (Z.of_nat (base.size (inflight s))) (Z.of_nat (base.size (active_clients s))) (listener_rejections s)
    (connection_attempts s) (Z.of_nat (length (events_snapshot s))) (used s) (max_network_bytes c).

Lemma final_telemetry_val s : telemetry_val (final_telemetry s) = telemetry_snapshot c s s s.
Proof. reflexivity. Qed.

Lemma exec_rejections k s a s' : exec c k s a s' -> listener_rejections s' = listener_rejections s.
Proof.
  destruct k; cbn [exec]; try (by intros ->); try (by intros [_ ->]); try (by intros [-> _]); intros Hx.
  all: try (destruct Hx as (? & Hx)).
  all: unfold _begin_runtime, enter_client, leave_client, _reserve_event, finish_locked, count_attempt, acquire_slot, release_slot,
    release_thread, consume, reserve, commit_reservation, cancel_reservation, enter_upstream in Hx.
  all: repeat case_match; simplify_eq/=; try done.
  all: destruct_and?; by subst.
Qed.

Definition few_rejections (s : state) : Prop :=
  0 <= listener_rejections s <= Z.max 0 (limit max_connections c + event_limit c + 1).

Lemma step_rejections fuel cfg cfg' : step c fuel cfg cfg' -> few_rejections (fst cfg) -> few_rejections (fst cfg').
Proof.
  unfold few_rejections. destruct 1 as [k next a s s' l1 l2 He|peer now starts s s' l Hp|peer now starts s s' l Hp|now s l|s l]; cbn [fst].
  - by rewrite (exec_rejections _ _ _ _ He).
  - unfold process_request, _transport_rejection_status, acquire_thread in Hp. repeat case_match; simplify_eq/=; done.
  - unfold process_request, _transport_rejection_status, acquire_thread, release_thread, _reject_before_thread in Hp.
    pose proof default_event_limit. repeat case_match; simplify_eq/=; lia.
  - unfold _begin_runtime. by repeat case_match.
  - done.
Qed.

Lemma reachable_rejections fuel s ts : reachable c fuel (s, ts) -> few_rejections s.
Proof.
  intros Hr. change s with (fst (s, ts)). assert (Hi : few_rejections (fst (initial c, [] : list thread))) by (unfold few_rejections; cbn; lia).
  unfold reachable in Hr. induction Hr as [x|x y z Hs _ IH]; [done|]. apply IH. by eapply step_rejections.
Qed.

(** ** The final report of a finished proxy *)
Section finished.
Variables (fuel : nat) (s : state) (ts : list thread).
Context (Hreach : reachable c fuel (s, ts)) (Hdone : forall t, In t ts -> exists r, t = Ret r) (Hclosed : closed s = true).

Lemma finished_facts :
  Forall (event_ok c) (events_snapshot s) /\
  map ev_sequence (events_snapshot s) = seqZ 0 (Z.of_nat (length (events_snapshot s))) /\
  Z.of_nat (length (events_snapshot s)) <= event_limit c /\ telemetry_ok (final_telemetry s).
Proof.
  pose proof (good_reachable c Hok fuel _ Hreach) as Hg.
  destruct (finished_holdings c s ts Hg Hdone) as (hs & I & Hrel).
  destruct (all_released c Hok s hs I Hrel) as (E1 & E2 & E3 & _).
  destruct (quiescent_record c Hok _ _ I (conj Hclosed (conj E1 E2))) as (Hnum & _ & Hall & Hatt & Hlim).
  destruct (reachable_budget c fuel s ts Hok Hreach) as (Hf & Hrs & Hu & _). pose proof (po_bytes c Hok).
  pose proof (reachable_rejections fuel s ts Hreach) as Hr. unfold few_rejections in Hr. destruct default_event_limit as [Hc He].
  assert (Hlen : Z.of_nat (length (events_snapshot s)) = connection_attempts s).
  { rewrite <- (length_map ev_sequence), Hnum, length_seqZ. lia. }
  split; [done|]. split; [by rewrite Hlen|]. split; [lia|].
  split; unfold final_telemetry, clean, is_complete, MAX_COUNTER_VALUE, MAX_FINAL_EVENTS, MAX_NETWORK_BYTES;
    cbn [t_complete t_started t_closed t_event_overflow t_inflight_events t_active_connections t_listener_rejections
         t_connection_attempts t_event_count t_network_bytes t_network_byte_limit]; rewrite ?E1, ?E2, ?E3, ?size_empty; try lia.
  rewrite (bool_decide_true (∅ = (∅ : gset Z))), (bool_decide_true (∅ = (∅ : gset N))) by done. by rewrite !andb_true_r.
Qed.

Lemma finished_report nonce :
  _validate_final (VDict (final_frame nonce (browser_events_snapshot s) (telemetry_val (final_telemetry s)))) nonce
    = Ok (browser_events_snapshot s, final_telemetry s) /\
  _validate_final (VDict (canon_dict (final_frame nonce (browser_events_snapshot s) (telemetry_val (final_telemetry s))))) nonce
    = Ok (browser_events_snapshot s, final_telemetry s).
Proof.
  destruct finished_facts as (Hall & Hnum & Hlen & Ht). destruct (events_accepted _ 0 Hall Hnum) as [V1 V2].
  destruct (telemetry_accepted _ _ Ht eq_refl) as [T1 T2]. destruct default_event_limit as [_ He].
  rewrite canon_final. unfold browser_events_snapshot.
  assert (L : forall f : pyval -> pyval, Z.of_nat (length (map f (map browser_event (events_snapshot s)))) <= MAX_FINAL_EVENTS).
  { intros f. rewrite !length_map. unfold MAX_FINAL_EVENTS. lia. }
  split; eapply final_accepted; try reflexivity; try done; rewrite ?length_map; try done.
  unfold MAX_FINAL_EVENTS. lia.
Qed.

(** ** The final frame fits *)
Definition short (o : option string) : Prop := forall t, o = Some t -> bare t = true /\ Z.of_nat (String.length t) <= 280.

Lemma event_val_small q kind w a d :
  0 <= q <= 2 ^ 31 -> In kind ["telemetry_loss"; "network_request"] -> In d ["observed"; "allowed"; "blocked"] ->
  short w -> short a ->
  simple (event_val q kind w a d) = true /\ EvidenceFacts.weight_by 1 (event_val q kind w a d) <= 800.
Proof.
  intros Hq Hk Hd Hw Ha.
  assert (Ho : forall o, short o -> simple (opt_text o) = true /\ EvidenceFacts.weight_by 1 (opt_text o) <= 282).
  { intros [t|] Ht; [|done]. destruct (Ht t eq_refl). split; [by apply simple_str|]. cbn [opt_text EvidenceFacts.weight_by]. lia. }
  destruct (Ho w Hw) as [W1 W2], (Ho a Ha) as [A1 A2]. clear Ho Hw Ha.
  destruct Hk as [<-|[<-|[]]], Hd as [<-|[<-|[<-|[]]]].
  all: split; [unfold event_val, EgressProxy.event_val; simply; (done || by apply simple_int)|].
  all: unfold event_val, EgressProxy.event_val; cbn [EvidenceFacts.weight_by fold_right fst snd String.length]; lia.
Qed.

Lemma http_origin_short o : http_origin o -> short (Some o).
Proof.
  intros [Hn Hs] t [= <-]. destruct (origin_anatomy _ _ Hn) as (sc & h & p & Hm & Hh & Hp & ->).
  rewrite scheme_of_origin in Hs by done. apply Ok_inj in Hs. subst sc. destruct (host_port_small h p Hh Hp) as [B L].
  assert (Hc : bare (canonical_authority "http" h p) = true /\ Z.of_nat (String.length (canonical_authority "http" h p)) <= 271).
  { split; [apply host_chars_bare, canonical_authority_chars; [by apply public_host_chars|done]|]. unfold canonical_authority.
    destruct (_ =? _); [pose proof (ph_length h Hh); lia|done]. }
  unfold origin_of. rewrite !length_append. split; [|cbn [String.length]; lia]. unfold bare in *. by rewrite !str_forall_app, (proj1 Hc).
Qed.

Lemma connect_short a : canonical_connect a -> short (Some a).
Proof. intros (h & p & Hh & Hp & ->)%connect_inv t [= <-]. destruct (host_port_small h p Hh Hp). split; [done|lia]. Qed.

Lemma browser_event_small e :
  event_ok c e -> 0 <= ev_sequence e <= 2 ^ 31 ->
  simple (browser_event e) = true /\ EvidenceFacts.weight_by 1 (browser_event e) <= 800.
Proof.
  intros [Hd _ Hw _ _] Hq. unfold browser_event. destruct (_ || _) eqn:E; (apply event_val_small; [done|cbn; auto| | |]); try done.
  - by left.
  - apply mem_In in Hd as [<-|[<-|[]]]; cbn; auto.
  - destruct (ev_web_origin e); [|done]. destruct (ev_connect_authority e); [done|]. by apply http_origin_short.
  - destruct (ev_web_origin e); [by destruct (ev_connect_authority e)|]. destruct (ev_connect_authority e); [|done]. by apply connect_short.
Qed.

Lemma hex_small n : hex_string 64 n = true -> bare n = true /\ String.length n = 64%nat.
Proof.
  unfold hex_string. intros [Hl Hn]%andb_true_iff. apply Nat.eqb_eq in Hl. split; [|done]. revert Hn. apply str_forall_weaken.
  intros a. unfold bare_char, syntax_char. char_lia.
Qed.

Lemma telemetry_small t :
  telemetry_ok t -> simple (telemetry_val t) = true /\ EvidenceFacts.weight_by 1 (telemetry_val t) <= 1000.
Proof.
  intros []. unfold MAX_COUNTER_VALUE, MAX_FINAL_EVENTS, MAX_NETWORK_BYTES in *. split.
  - unfold telemetry_val. simply; (done || (apply simple_int; lia)).
  - unfold telemetry_val. cbn [EvidenceFacts.weight_by fold_right fst snd String.length]. lia.
Qed.

Lemma list_weight l :
  Forall (fun v => simple v = true /\ EvidenceFacts.weight_by 1 v <= 800) l ->
  EvidenceFacts.weight_by 1 (VList l) <= 801 * Z.of_nat (length l) + 2.
Proof.
  induction 1 as [|v l [_ Hv] _ IH]; [done|]. cbn [EvidenceFacts.weight_by fold_right length] in *. lia.
Qed.

Lemma final_fits float_repr nonce : hex_string 64 nonce = true ->
  let d := final_frame nonce (browser_events_snapshot s) (telemetry_val (final_telemetry s)) in
  wire_ok d = true /\ exists bytes, _encode_frame float_repr (VDict d) MAX_STATUS_FRAME_BYTES = Ok bytes.
Proof.
  intros Hn d. destruct (hex_small _ Hn) as [N1 N2]. destruct finished_facts as (Hall & Hnum & Hlen & Ht).
  destruct (telemetry_small _ Ht) as [T1 T2]. destruct default_event_limit as [_ He].
  assert (Hs : Forall (fun v => simple v = true /\ EvidenceFacts.weight_by 1 v <= 800) (browser_events_snapshot s)).
  { unfold browser_events_snapshot. apply List.Forall_forall. intros v (e & <- & Hin)%in_map_iff. apply browser_event_small.
    - rewrite List.Forall_forall in Hall. by apply Hall.
    - apply (in_map ev_sequence) in Hin. rewrite Hnum in Hin. apply list_elem_of_In, elem_of_seqZ in Hin. lia. }
  assert (Hl : (length (browser_events_snapshot s) <= 1024)%nat) by (unfold browser_events_snapshot; rewrite length_map; lia).
  apply frame_fits.
  - unfold d, final_frame. simply; try done; try by apply simple_str.
    apply simple_list. eapply Forall_impl; [exact Hs|]. by intros v [? _].
  - apply list_weight in Hs. unfold d, final_frame. cbn [EvidenceFacts.weight_by fold_right fst snd String.length] in *.
    unfold MAX_STATUS_FRAME_BYTES. change (EvidenceFacts.weight_by 1 (VStr PROTOCOL_VERSION)) with 37.
    change (Z.of_nat (String.length PROTOCOL_VERSION)) with 35. lia.
Qed.

End finished.

End proxy.

End report.
End WorkerReport.
