(* ===== verification/WorkerSession.v ===== *)
(** * A whole session of the egress worker

    The parent's calls and the child's loop joined by their pipes, around a proxy
    that was started, closed and has no handler left: the parent reports exactly
    what the proxy recorded.  And the worlds that show the assumptions of the
    worker's theorems can hold. *)

From stdpp Require Import base list strings gmap.
From Stdlib Require Import ZArith Lia.
From S2P Require Import Prelude PyValue Json JsonFacts StrOps Ip Url UrlFacts BrowserContract BrowserEvidence.
From S2P Require Import Evidence EvidenceFacts EgressAddress EgressRequest EgressProxy EgressLogic EgressFacts EgressRun.
From S2P Require Import WorkerWire WorkerEvents WorkerSandbox WorkerProcess WorkerChild WorkerReport.

Local Open Scope Z_scope.

Module WorkerSession.
Import EgressAddress WorkerWire WorkerEvents WorkerSandbox WorkerProcess WorkerChild WorkerReport.

(** ** A world where the calls succeed *)

(** A pipe that takes whole chunks. *)
Definition willing : list write_event := repeat (Written 4096) 300.

(** A pipe that takes every frame in time, in whatever pieces. *)
Definition takes_frames (l : list write_event) : Prop :=
  forall payload, size payload <= MAX_STATUS_FRAME_BYTES + 4 -> _write_all payload l = (Ok tt, payload).

(** What is left open: how the control pipe takes what is written to it, how much time
    goes by from one look at the clock to the next, and what the child exits with. *)
Record host := mk_host { h_writes : list write_event; h_tick : Z; h_exit : Z }.
Definition calm : host := mk_host willing 0 0.

(** What the status pipe will deliver, what was written to the control pipe,
    whether the child is alive, and the children that were started. *)
Record scene := mk_scene { inbox : list read_event; outbox : string; live : bool; children : list Z; clock : Z }.

Definition child_pid : Z := 4242.
Definition listed (w : scene) : list (string * stat_read) :=
  if live w then [proc_entry (mk_proc_stat child_pid "python3" "S" 100 child_pid " 4242")] else [].

Section scene.
Variables (h : host) (db : accounts) (token : string).

Definition scene_sys (k : sysc) (w : scene) : res (answer k) * scene :=
  match k with
  | Databases => (Ok db, w)
  | Monotonic => let now := clock w + Z.max 0 (h_tick h) in (Ok now, mk_scene (inbox w) (outbox w) (live w) (children w) now)
  | Sleep d => (Ok tt, mk_scene (inbox w) (outbox w) (live w) (children w) (clock w + Z.max 0 d))
  | Pipe2 => (Ok (3, 4), w)
  | CloseFd _ => (Ok tt, w)
  | Python => (Ok "/usr/bin/python3", w)
  | GetPid => (Ok 100, w)
  | Popen _ _ => (Ok child_pid, mk_scene (inbox w) (outbox w) true (child_pid :: children w) (clock w))
  | TokenHex => (Ok token, w)
  | Writes _ _ => (Ok (h_writes h), w)
  | Put _ data => (Ok tt, mk_scene (inbox w) (outbox w +:+ data) (live w) (children w) (clock w))
  | Reads _ _ => (Ok (inbox w), w)
  | Left _ rest => (Ok tt, mk_scene rest (outbox w) (live w) (children w) (clock w))
  | Poll _ => (Ok (if live w then None else Some (h_exit h)), w)
  | Wait _ _ => (Ok (h_exit h), mk_scene (inbox w) (outbox w) false (children w) (clock w))
  | Killpg n signal =>
      if live w then (Ok tt, mk_scene (inbox w) (outbox w) (signal =? 0) (children w) (clock w)) else (Err ProcessLookupError, w)
  | Terminate _ | Kill _ => (Ok tt, mk_scene (inbox w) (outbox w) false (children w) (clock w))
  | ProcEntries => (Ok (Some (listed w)), w)
  end.

Definition scene_world : World scene := {| sys := scene_sys |}.
#[local] Existing Instance scene_world.

Definition scene_laws : KernelLaws scene.
Proof.
  refine {| exit_of w _ := if live w then None else Some (h_exit h);
            members w n := if live w && (n =? child_pid) then [child_pid] else [];
            spawned := children |}.
  - intros l k w Hk Hl. destruct k; cbn in *; try done. by destruct (live w).
  - by intros argv fds w n w' [= <- <-].
  - intros n w code w' [= Hc <-]. by destruct (live w); simplify_eq.
  - by intros n t w code w' [= <- <-].
  - intros n code k w Hk Hl. destruct (live w) eqn:E; [done|]. destruct k; cbn in *; rewrite ?E; cbn; rewrite ?E; done.
  - intros n w w'. cbn. destruct (live w) eqn:E; [done|]. intros [= <-]. by rewrite E.
  - intros n m w l w' [= <- <-] Hm. unfold listed. destruct (live w); [|done]. cbn [andb] in Hm.
    destruct (Z.eqb_spec n child_pid) as [->|]; [|done]. destruct Hm as [<-|[]].
    eexists _, (proc_entry _). split; [|split; [|split; [|split; [by left|split; [|by right]]]]]; try reflexivity.
    repeat split; cbn; try lia; try done. by right.
  - intros n k w Hk Hl. destruct k; cbn in *; try done.
    destruct (live w) eqn:E; cbn in *; [|by rewrite E]. by destruct (n =? child_pid), (_ =? 0).
Defined.

Definition scene_clock : ClockLaws scene.
Proof.
  refine {| time := clock |}.
  - intros t k w Hk Hl. destruct k; cbn in *; try done; try lia. by destruct (live w).
  - intros w t w' [= <- <-]. cbn. lia.
  - intros d w x w' [= <- <-]. cbn. lia.
Defined.

End scene.

(** ** Running methods in such a world *)
Lemma bind_run {A B} (m : @act scene A) (k : A -> @act scene B) s a s' : m s = (Ok a, s') -> bind m k s = k a s'.
Proof. unfold bind. by intros ->. Qed.
Lemma catch_run {A} (m : @act scene A) h s a s' : m s = (Ok a, s') -> catch m h s = (Ok a, s').
Proof. unfold catch. by intros ->. Qed.

Lemma write_chunks size n : (0 < size)%nat -> forall payload, (String.length payload <= size * n)%nat -> size = 4096%nat ->
  _write_all payload (repeat (Written 4096) n) = (Ok tt, payload).
Proof.
  intros Hs payload Hl E. revert payload Hl. induction n as [|n IH]; intros payload Hl.
  - destruct payload; [done|]. cbn [String.length] in Hl. lia.
  - destruct payload as [|a payload]; [done|]. set (s := String a payload) in *. cbn [repeat].
    assert (E1 : forall l, _write_all s (Written 4096 :: l) =
      let taken := slice (Z.to_nat 4096) (slice 4096 s) in
      let '(r, out) := _write_all (drop_bytes (String.length taken) s) l in (r, taken +:+ out)) by reflexivity.
    rewrite E1. cbv zeta. change (Z.to_nat 4096) with 4096%nat. rewrite <- E. clear E1 E. clearbody s.
    destruct (Nat.le_gt_cases (String.length s) size) as [Hle|Hgt].
    + rewrite (slice_all size s Hle), (slice_all size s Hle). rewrite <- (append_nil_r s) at 2. rewrite drop_app.
      assert (_write_all "" (repeat (Written 4096) n) = (Ok tt, "")) as -> by by destruct n. by rewrite append_nil_r.
    + pose proof (slice_long size s ltac:(lia)) as L. rewrite (slice_all size (slice size s)) by lia. rewrite L.
      pose proof (take_drop size s) as T. rewrite IH.
      * by rewrite T.
      * apply (f_equal String.length) in T. rewrite length_append, L in T. lia.
Qed.

Lemma willing_takes : takes_frames willing.
Proof. intros payload Hp. apply (write_chunks 4096); [lia| |done]. unfold size, MAX_STATUS_FRAME_BYTES in Hp. lia. Qed.

Lemma write_taken float_repr v maximum bytes l :
  takes_frames l -> _encode_frame float_repr v maximum = Ok bytes -> maximum <= MAX_STATUS_FRAME_BYTES ->
  _write_frame float_repr v maximum l = (Ok tt, bytes).
Proof.
  intros Ht He Hm. unfold _write_frame. rewrite He. apply Ht. unfold size in *.
  unfold _encode_frame in He. run_inv. subst bytes. rewrite length_append, length_pack. unfold size, MAX_STATUS_FRAME_BYTES in *. lia.
Qed.

Section run.
Variables (h : host) (db : accounts) (token : string).
#[local] Existing Instance scene_world.
#[local] Instance the_world : World scene := scene_world h db token.
Context (Htakes : takes_frames (h_writes h)).
Context `{UnicodeDigits} `{Unicode}.
Variables (parse_float : string -> pyfloat) (float_repr : pyfloat -> string).
Variable c : settings.

Lemma scene_write fd v maximum d bytes s w :
  _encode_frame float_repr (VDict v) maximum = Ok bytes -> maximum <= MAX_STATUS_FRAME_BYTES ->
  write_frame float_repr fd v maximum d (s, w) =
  (Ok tt, (s, mk_scene (inbox w) (outbox w +:+ bytes) (live w) (children w) (clock w))).
Proof.
  intros He Hm. unfold write_frame. erewrite bind_run by reflexivity. cbn [snd]. rewrite (write_taken _ _ _ _ _ Htakes He Hm). reflexivity.
Qed.

Lemma scene_read fd maximum d s w r l :
  _read_frame parse_float maximum (inbox w) = (r, l) ->
  read_frame parse_float fd maximum d (s, w) = (r, (s, mk_scene l (outbox w) (live w) (children w) (clock w))).
Proof.
  intros He. unfold read_frame. erewrite bind_run by reflexivity. cbn [snd]. rewrite He. reflexivity.
Qed.

Context (Hid : _verify_worker_identity db (VInt (worker_uid c)) (VInt (worker_gid c)) = Ok (worker_uid c, worker_gid c)).

Definition receipt : pydict :=
  ready_frame token (bind_address c) (security_val (_expected_security_receipt (worker_uid c) (worker_gid c))).
Definition running : worker :=
  mk_worker Running (Some (mk_handle child_pid true)) (Some 4) (Some 3) (Some token) (Some receipt) false false
    _failure_events _failure_telemetry.

Lemma ready_run p control status l l' t b_start frame s :
  _encode_frame float_repr (VDict (start_fields c token)) MAX_CONFIG_FRAME_BYTES = Ok b_start ->
  _read_frame parse_float MAX_STATUS_FRAME_BYTES l = (Ok frame, l') ->
  _validate_ready (VDict frame) token (bind_address c) (worker_uid c) (worker_gid c) = Ok receipt ->
  exists t', exchange_ready parse_float float_repr c p control status (s, mk_scene l "" true [child_pid] t) =
  (Ok (token, receipt), (s, mk_scene l' b_start true [child_pid] t')).
Proof.
  intros Hs Hr Hv. eexists. unfold exchange_ready. do 2 erewrite bind_run by reflexivity.
  erewrite bind_run by (by apply scene_write). erewrite bind_run by (by apply scene_read).
  erewrite bind_run by (unfold pure; rewrite Hv; reflexivity). reflexivity.
Qed.

Lemma start_run root l l' t b_start frame :
  _encode_frame float_repr (VDict (start_fields c token)) MAX_CONFIG_FRAME_BYTES = Ok b_start ->
  _read_frame parse_float MAX_STATUS_FRAME_BYTES l = (Ok frame, l') ->
  _validate_ready (VDict frame) token (bind_address c) (worker_uid c) (worker_gid c) = Ok receipt ->
  exists t', _start_impl parse_float float_repr c root (new_worker, mk_scene l "" false [] t) =
  (Ok (bind_address c), (running, mk_scene l' b_start true [child_pid] t')).
Proof.
  intros Hs Hr Hv.
  destruct (ready_run (mk_handle child_pid true) 4 3 l l' t b_start frame (set_state Starting new_worker) Hs Hr Hv) as [t' Hready].
  exists t'. unfold _start_impl.
  erewrite bind_run by (unfold _verify_identity; erewrite bind_run by reflexivity; erewrite bind_run by (unfold pure; rewrite Hid; reflexivity); reflexivity).
  do 4 (erewrite bind_run by reflexivity; cbn [state new_worker fst snd lifecycle_eqb negb]).
  erewrite bind_run by reflexivity. do 2 erewrite bind_run by reflexivity.
  erewrite bind_run by (apply catch_run; exact Hready). reflexivity.
Qed.

(** The worker after a session that reported [evs] and [tel]. *)
Definition reported (evs : list pyval) (tel : WorkerEvents.telemetry) : worker :=
  mk_worker Stopped (Some (mk_handle child_pid true)) None None (Some token) (Some receipt) true true evs tel.

Lemma final_run l l' t sent b_stop frame evs tel s :
  h_tick h < seconds (stop_timeout c) -> 0 < seconds (stop_timeout c) -> h_exit h = 0 ->
  _encode_frame float_repr (VDict (stop_frame token)) MAX_CONFIG_FRAME_BYTES = Ok b_stop ->
  _read_frame parse_float MAX_STATUS_FRAME_BYTES l = (Ok frame, l') ->
  _validate_final (VDict frame) token = Ok (evs, tel) ->
  exists t', exchange_final parse_float float_repr (Some (mk_handle child_pid true)) (Some 4) (Some 3) (Some token)
    (t + seconds (stop_timeout c)) (s, mk_scene l sent true [child_pid] t) =
  (Ok ((evs, tel), false), (s, mk_scene l' (sent +:+ b_stop) false [child_pid] t')).
Proof.
  intros Ht Hp Hx Hs Hr Hv. eexists. unfold exchange_final. erewrite bind_run by (by apply scene_write). erewrite bind_run by (by apply scene_read).
  erewrite bind_run by (unfold pure; rewrite Hv; reflexivity). unfold _remaining.
  erewrite bind_run; cycle 1.
  { erewrite bind_run by reflexivity. cbn [clock snd]. rewrite (proj2 (Z.leb_gt _ _)) by lia. reflexivity. }
  erewrite bind_run by reflexivity. rewrite Hx. reflexivity.
Qed.

Lemma stop_run l l' t sent b_stop frame evs tel :
  h_tick h < seconds (stop_timeout c) -> 0 < seconds (stop_timeout c) -> h_exit h = 0 ->
  _encode_frame float_repr (VDict (stop_frame token)) MAX_CONFIG_FRAME_BYTES = Ok b_stop ->
  _read_frame parse_float MAX_STATUS_FRAME_BYTES l = (Ok frame, l') ->
  _validate_final (VDict frame) token = Ok (evs, tel) ->
  exists t', _stop_impl parse_float float_repr c (running, mk_scene l sent true [child_pid] t) =
  (Ok tt, (reported evs tel, mk_scene l' (sent +:+ b_stop) false [child_pid] t')).
Proof.
  intros Ht Hp Hx Hs Hr Hv. destruct (final_run l l' (t + Z.max 0 (h_tick h)) sent b_stop frame evs tel (set_state Stopping running) Ht Hp Hx Hs Hr Hv) as [t1 Hfinal].
  eexists. unfold _stop_impl. erewrite bind_run by reflexivity. cbn [state running fst]. unfold stop_open.
  do 6 erewrite bind_run by reflexivity. cbn [process control_fd status_fd nonce running fst snd clock].
  erewrite bind_run by (apply catch_run; erewrite bind_run by exact Hfinal; reflexivity).
  reflexivity.
Qed.

End run.

(** ** The frames of a session *)
Lemma canon_start s :
  canon_dict (start_frame s) =
  [("allowed_client_ip", VStr (st_allowed_client_ip s)); ("bind_host", VStr (st_bind_host s)); ("bind_port", VInt (st_bind_port s));
   ("nonce", VStr (st_nonce s)); ("protocol_version", VStr PROTOCOL_VERSION); ("request", canon (st_request s)); ("type", VStr "start")].
Proof. reflexivity. Qed.
Lemma canon_ready n e v :
  canon_dict (ready_frame n e v) =
  [("endpoint", VList [VStr (fst e); VInt (snd e)]); ("nonce", VStr n); ("protocol_version", VStr PROTOCOL_VERSION);
   ("security", canon v); ("type", VStr "ready")].
Proof. reflexivity. Qed.

(** Settings a session can be run with: addresses in canonical form and a request
    that is plain JSON with its keys in order, as the constructor stores it. *)
Record settings_ok `{IpRelease} `{Unicode} (c : settings) : Prop := {
  so_host : _canonical_local_ip (VStr (bind_host c)) "bind_host" true = Ok (bind_host c);
  so_client : _canonical_local_ip (VStr (allowed_client_ip c)) "allowed_client_ip" false = Ok (allowed_client_ip c);
  so_port : in_range 1024 65535 (bind_port c) = true;
  so_wall : exists n, _wall_clock_from_config (VDict [("request", VDict (request c))]) = Ok n;
  so_sorted : canon_dict (request c) = request c;
  so_simple : simple (VDict (request c)) = true /\ bare (bind_host c) = true /\ bare (allowed_client_ip c) = true;
  so_weight : EvidenceFacts.weight_by 1 (VDict (request c)) <= 130000 /\ size (bind_host c) <= 100 /\ size (allowed_client_ip c) <= 100;
  so_stop : 0 < seconds (stop_timeout c);
}.

Section frames.
Context `{IpRelease} `{Unicode} `{UnicodeDigits}.
Variable c : settings.
Context (Hc : settings_ok c).
Variable token : string.
Context (Htoken : hex_string 64 token = true).

Definition the_start : start := mk_start token (VDict (request c)) (bind_host c) (bind_port c) (allowed_client_ip c).

Lemma start_fits float_repr :
  wire_ok (start_fields c token) = true /\ exists b, _encode_frame float_repr (VDict (start_fields c token)) MAX_CONFIG_FRAME_BYTES = Ok b.
Proof.
  destruct (hex_small _ Htoken) as [N1 N2]. destruct Hc as [_ _ Hp _ _ (S1 & S2 & S3) Hw _]. unfold in_range in Hp.
  apply frame_fits.
  - unfold start_fields, start_frame. cbn [st_nonce st_request st_bind_host st_bind_port st_allowed_client_ip].
    simply; try done; try (by apply simple_str). apply simple_int. lia.
  - unfold start_fields, start_frame. cbn [EvidenceFacts.weight_by fold_right fst snd String.length st_nonce st_request st_bind_host st_bind_port st_allowed_client_ip] in *.
    unfold size, MAX_CONFIG_FRAME_BYTES in *. change (Z.of_nat (String.length PROTOCOL_VERSION)) with 35. lia.
Qed.

Lemma stop_fits float_repr :
  wire_ok (stop_frame token) = true /\ exists b, _encode_frame float_repr (VDict (stop_frame token)) MAX_CONFIG_FRAME_BYTES = Ok b.
Proof.
  destruct (hex_small _ Htoken) as [N1 N2]. apply frame_fits.
  - unfold stop_frame. simply; try done; by apply simple_str.
  - unfold stop_frame. cbn [EvidenceFacts.weight_by fold_right fst snd String.length]. unfold MAX_CONFIG_FRAME_BYTES.
    change (Z.of_nat (String.length PROTOCOL_VERSION)) with 35. lia.
Qed.

Lemma wall_clock_start s r n :
  st_request s = VDict r -> _wall_clock_from_config (VDict [("request", VDict r)]) = Ok n ->
  _wall_clock_from_config (VDict (start_frame s)) = Ok n.
Proof. intros Hs <-. unfold _wall_clock_from_config, start_frame. rewrite Hs. by dict_eval. Qed.

Lemma child_accepts_start : _validate_child_config (VDict (canon_dict (start_fields c token))) = Ok the_start.
Proof.
  destruct Hc as [Hh Ha Hp [n Hw] Hso _ _ _]. unfold start_fields. rewrite canon_start.
  cbn [st_nonce st_request st_bind_host st_bind_port st_allowed_client_ip].
  change (canon (VDict (request c))) with (VDict (canon_dict (request c))). rewrite Hso.
  unfold _validate_child_config. dict_eval. rewrite Htoken, Hh, Ha.
  rewrite !(proj2 (py_eq_str _ _) eq_refl). cbn [negb orb mbind res_bind int_in int_of]. rewrite Hp. cbn [negb].
  pose proof (wall_clock_start the_start (request c) n eq_refl Hw) as E. unfold the_start in E. rewrite E. reflexivity.
Qed.

(** The child's receipt is the one the parent expects, so readiness is accepted. *)
Definition expected : security := _expected_security_receipt (worker_uid c) (worker_gid c).
Context (Hids : 0 <= worker_uid c <= 2 ^ 31 /\ 0 <= worker_gid c <= 2 ^ 31).

Lemma canon_expected : py_eq (canon (security_val expected)) (security_val expected) = true /\
  dict_shape (canon (security_val expected)) SECURITY_KEYS = true.
Proof.
  unfold expected. generalize (worker_uid c) (worker_gid c). intros u g. split; [|reflexivity].
  assert (E : canon (security_val (_expected_security_receipt u g)) =
    VDict [("capabilities_zero", VBool true); ("dumpable", VBool false); ("environment_entries", VInt 0); ("gid", VInt g);
           ("gids", VList [VInt g; VInt g; VInt g]); ("no_new_privs", VBool true); ("parent_death_signal", VInt 9);
           ("parent_pid_bound", VBool true);
           ("rlimits", VDict [("address_space", VList [VInt 268435456; VInt 268435456]); ("core", VList [VInt 0; VInt 0]);
              ("file_size", VList [VInt 0; VInt 0]); ("open_files", VList [VInt 64; VInt 64]); ("processes", VList [VInt 32; VInt 32])]);
           ("supplementary_groups", VInt 0); ("uid", VInt u); ("uids", VList [VInt u; VInt u; VInt u])]) by reflexivity.
  rewrite E. unfold security_val. rewrite py_eq_dict.
  cbn [forallb assoc fst snd length Nat.eqb String.eqb Ascii.eqb Bool.eqb andb map _expected_security_receipt s_uid s_gid s_uids
       s_gids s_groups s_no_new_privs s_dumpable s_parent_death_signal s_parent_pid_bound s_capabilities_zero s_environment_entries].
  rewrite !andb_true_iff. change (VList [VInt u; VInt u; VInt u]) with (triple_val (u, u, u)). change (VList [VInt g; VInt g; VInt g]) with (triple_val (g, g, g)).
  rewrite !py_eq_ints, !py_eq_triple, !py_eq_bools. by split_and!.
Qed.

Lemma ready_fits float_repr :
  let d := ready_frame token (bind_address c) (security_val expected) in
  wire_ok d = true /\ exists b, _encode_frame float_repr (VDict d) MAX_STATUS_FRAME_BYTES = Ok b.
Proof.
  destruct (hex_small _ Htoken) as [N1 N2]. destruct Hc as [_ _ Hp _ _ (S1 & S2 & S3) Hw _]. unfold in_range in Hp.
  assert (Hs : simple (security_val expected) = true /\ EvidenceFacts.weight_by 1 (security_val expected) <= 2000).
  { unfold expected. destruct Hids as [Hu Hg]. revert Hu Hg. generalize (worker_uid c) (worker_gid c). intros u g Hu Hg.
    assert (L : forall l, Forall (fun z => 0 <= z <= 2 ^ 31) l -> simple (VList (map VInt l)) = true).
    { intros l Hl. apply simple_list, Forall_map. eapply Forall_impl; [exact Hl|]. apply simple_int. }
    split; [|by vm_compute]. unfold security_val. rewrite expected_limits.
    cbn [limits_of map fst snd triple_val s_uids s_gids _expected_security_receipt].
    simply; try done; try (apply simple_int; cbn; lia).
    - apply (L [u; u; u]). by repeat (apply Forall_cons_2; [lia|]).
    - apply (L [g; g; g]). by repeat (apply Forall_cons_2; [lia|]). }
  destruct Hs as [Y1 Y2]. intros d. apply frame_fits.
  - unfold d, ready_frame. simply; try done; try (by apply simple_str).
    apply simple_list. repeat constructor; [by apply simple_str|apply simple_int; cbn; lia].
  - unfold d, ready_frame. cbn [EvidenceFacts.weight_by fold_right fst snd String.length bind_address] in *.
    unfold size, MAX_STATUS_FRAME_BYTES in *. change (Z.of_nat (String.length PROTOCOL_VERSION)) with 35. lia.
Qed.

Lemma parent_accepts_ready :
  _validate_ready (VDict (canon_dict (ready_frame token (bind_address c) (security_val expected)))) token (bind_address c)
    (worker_uid c) (worker_gid c) = Ok (receipt token c).
Proof.
  rewrite canon_ready. unfold _validate_ready. dict_eval. rewrite !(proj2 (py_eq_str _ _) eq_refl).
  assert (py_eq (VList [VStr (fst (bind_address c)); VInt (snd (bind_address c))])
            (VList [VStr (fst (bind_address c)); VInt (snd (bind_address c))]) = true) as ->.
  { apply py_eq_list. repeat constructor; [by apply py_eq_str|by apply py_eq_ints]. }
  cbn [negb orb]. unfold _validate_security_receipt. destruct canon_expected as [E1 E2]. rewrite E2. unfold expected in E1 |- *. rewrite E1. reflexivity.
Qed.

End frames.

(** ** The whole session *)

(** A proxy whose handlers have all returned, in the state [s] it was left in. *)
Definition finished_ops `{MonotonicClock} (s : EgressProxy.state) : ProxyOps EgressProxy.config := {|
  proxy_start p := (Ok (EgressProxy.bind_host p, EgressProxy.bind_port p), p);
  proxy_serve p := p;
  proxy_stop p := (Ok tt, p);
  proxy_events _ := Ok (EgressProxy.browser_events_snapshot s);
  proxy_telemetry p := Ok (EgressProxy.telemetry_snapshot p s s s);
|}.

Section whole.
Context `{IpRelease} `{Unicode} `{UnicodeDigits} `{MonotonicClock} `{!UnicodeLaws}.
Variables (parse_float : string -> pyfloat) (float_repr : pyfloat -> string).

(** [proxy_factory(request, bind_host=..., bind_port=..., allowed_client_ip=...)] *)
Definition factory (resolver : string -> EgressAddress.resolution) (st : start) : res EgressProxy.config :=
  EgressProxy.new_proxy (st_request st) (VStr (st_bind_host st)) (VStr (st_allowed_client_ip st)) (VInt (st_bind_port st)) resolver
    default_limits.

Lemma factory_binds c resolver token cfg :
  settings_ok c -> factory resolver (the_start c token) = Ok cfg ->
  (EgressProxy.bind_host cfg, EgressProxy.bind_port cfg) = bind_address c /\ EgressProxy.limits cfg = default_limits.
Proof.
  intros Hc Hf. unfold factory, EgressProxy.new_proxy in Hf. cbn [the_start st_request st_bind_host st_bind_port st_allowed_client_ip] in Hf.
  destruct (BrowserContract.validate_probe_request _); [|done]. run_inv. subst cfg.
  cbn [EgressProxy.bind_host EgressProxy.bind_port EgressProxy.limits]. split; [|done]. unfold bind_address. cbn [int_of]. f_equal.
  pose proof (so_host _ Hc) as Hh. unfold _canonical_local_ip in Hh. run_inv.
  match goal with Hx : _canonical_bind_address _ = Ok _ |- _ => unfold _canonical_bind_address in Hx end. run_inv.
  cbn [str_of] in *. destruct (ip_address (bind_host c)); [|done]. run_inv. subst. done.
Qed.

Section session.
Variables (c : settings) (token : string) (resolver : string -> EgressAddress.resolution) (cfg : EgressProxy.config).
Variables (fuel : nat) (s : EgressProxy.state) (threads : list EgressProxy.thread).
Context (Hc : settings_ok c) (Htoken : hex_string 64 token = true).
Context (Hids : 0 <= worker_uid c <= 2 ^ 31 /\ 0 <= worker_gid c <= 2 ^ 31).
Context (Hnew : factory resolver (the_start c token) = Ok cfg).
Context (Hreach : EgressProxy.reachable cfg fuel (s, threads)) (Hdone : forall t, In t threads -> exists r, t = EgressProxy.Ret r).
Context (Hclosed : EgressProxy.closed s = true).

#[local] Instance the_ops : ProxyOps EgressProxy.config := finished_ops s.

Notation evs := (EgressProxy.browser_events_snapshot s).
Notation tel := (final_telemetry cfg s).

Lemma proxy_is_ok : EgressFacts.proxy_ok cfg /\ EgressProxy.limits cfg = default_limits.
Proof.
  destruct (factory_binds c resolver token cfg Hc Hnew) as [_ Hl]. split; [|done]. unfold factory in Hnew. by eapply EgressFacts.new_proxy_ok.
Qed.

(** Every frame of the session has an encoding. *)
Lemma session_bytes : exists b_start b_stop b_ready b_final,
  _encode_frame float_repr (VDict (start_fields c token)) MAX_CONFIG_FRAME_BYTES = Ok b_start /\
  _encode_frame float_repr (VDict (stop_frame token)) MAX_CONFIG_FRAME_BYTES = Ok b_stop /\
  _encode_frame float_repr (VDict (ready_frame token (bind_address c) (security_val (expected c)))) MAX_STATUS_FRAME_BYTES = Ok b_ready /\
  _encode_frame float_repr (VDict (final_frame token evs (telemetry_val tel))) MAX_STATUS_FRAME_BYTES = Ok b_final.
Proof.
  destruct proxy_is_ok as [Hok Hl].
  destruct (start_fits c Hc token Htoken float_repr) as (_ & b1 & E1). destruct (stop_fits token Htoken float_repr) as (_ & b2 & E2).
  destruct (ready_fits c Hc token Htoken Hids float_repr) as (_ & b3 & E3).
  destruct (final_fits cfg Hok Hl fuel s threads Hreach Hdone Hclosed float_repr token Htoken) as (_ & b4 & E4).
  by exists b1, b2, b3, b4.
Qed.

Lemma stop_accepted n : command_refused n (Ok (canon_dict (stop_frame n))) = false.
Proof.
  assert (E : canon_dict (stop_frame n) = [("nonce", VStr n); ("protocol_version", VStr PROTOCOL_VERSION); ("type", VStr "stop")]) by reflexivity.
  unfold command_refused. rewrite E. assert (same_keys [("nonce", VStr n); ("protocol_version", VStr PROTOCOL_VERSION); ("type", VStr "stop")]
    ["type"; "protocol_version"; "nonce"] = true) as -> by reflexivity.
  rewrite py_eq_dict. cbn [stop_fields forallb assoc fst snd length Nat.eqb String.eqb Ascii.eqb Bool.eqb andb].
  by rewrite !(proj2 (py_eq_str _ _) eq_refl).
Qed.

Lemma child_run control readies finals errors b_start b_stop b_ready b_final :
  takes_frames readies -> takes_frames finals ->
  _encode_frame float_repr (VDict (start_fields c token)) MAX_CONFIG_FRAME_BYTES = Ok b_start ->
  _encode_frame float_repr (VDict (stop_frame token)) MAX_CONFIG_FRAME_BYTES = Ok b_stop ->
  _encode_frame float_repr (VDict (ready_frame token (bind_address c) (security_val (expected c)))) MAX_STATUS_FRAME_BYTES = Ok b_ready ->
  _encode_frame float_repr (VDict (final_frame token evs (telemetry_val tel))) MAX_STATUS_FRAME_BYTES = Ok b_final ->
  delivers control (b_start +:+ b_stop) ->
  _child_proxy_loop parse_float float_repr (security_val (expected c)) (factory resolver)
    (mk_pipes control readies finals errors) = (0, b_ready +:+ b_final).
Proof.
  intros T1 T2 E1 E2 E3 E4 Hd. destruct proxy_is_ok as [Hok Hl]. destruct (factory_binds c resolver token cfg Hc Hnew) as [Hb _].
  destruct (start_fits c Hc token Htoken float_repr) as (W1 & _). destruct (stop_fits token Htoken float_repr) as (W2 & _).
  destruct (read_frame_delivers parse_float float_repr _ _ _ _ _ W1 (eq_refl : MAX_CONFIG_FRAME_BYTES < 2 ^ 32) E1 Hd) as (l1 & R1 & D1).
  rewrite <- (append_nil_r b_stop) in D1.
  destruct (read_frame_delivers parse_float float_repr _ _ _ _ _ W2 (eq_refl : MAX_CONFIG_FRAME_BYTES < 2 ^ 32) E2 D1) as (l2 & R2 & _).
  destruct (finished_report cfg Hok Hl fuel s threads Hreach Hdone Hclosed token) as [V _].
  assert (Hs : child_session parse_float float_repr (security_val (expected c)) (factory resolver)
    (mk_pipes control readies finals errors) = mk_child_state (Some cfg) token true false b_ready).
  { unfold child_session. cbn [WorkerChild.control]. rewrite R1, (child_accepts_start c Hc token Htoken), Hnew.
    cbn [proxy_start the_ops finished_ops]. unfold serve_session. rewrite Hb. cbn [the_start st_nonce st_bind_host st_bind_port ready_writes].
    rewrite bool_decide_true by done. cbn [negb]. rewrite (write_taken _ _ _ _ _ T1 E3) by done.
    destruct (so_wall _ Hc) as [n Hn]. rewrite (wall_clock_start (the_start c token) (request c) n eq_refl Hn), R2.
    unfold stop_proxy. cbn [proxy_stop proxy_serve the_ops finished_ops]. rewrite stop_accepted. reflexivity. }
  unfold _child_proxy_loop. rewrite Hs. cbn [cs_ready negb cs_nonce cs_status final_writes]. unfold final_report.
  cbn [cs_failed cs_proxy cs_nonce proxy_events proxy_telemetry the_ops finished_ops mbind res_bind]. rewrite <- final_telemetry_val, V.
  by rewrite (write_taken _ _ _ _ _ T2 E4).
Qed.

End session.


(** The ids of a verified identity are small. *)
Lemma verified_ids db u g r : _verify_worker_identity db (VInt u) (VInt g) = Ok r -> r = (u, g) /\ 0 <= u <= 2 ^ 31 /\ 0 <= g <= 2 ^ 31.
Proof.
  unfold _verify_worker_identity, safe_id. cbn [int_in int_of]. intros Hv. run_inv.
  repeat (match type of Hv with (match ?x with _ => _ end) = _ => destruct x; [|done] end). run_inv. subst. unfold in_range in *. split; [done|lia].
Qed.

(** C11: What the proxy recorded is what the parent reports.  Given: settings with
    canonical local addresses, a port in range, a positive stop timeout and a request
    stored as JSON with sorted keys, small, of safe integers and ASCII text that needs no
    escapes; a child with the expected security receipt whose proxy is built from the
    start frame, starts and stops without raising, and is left closed with its handlers
    returned, in any state it can so reach; and a host where the calls succeed, the pipes
    take every frame in time, less than the stop timeout goes by between two looks at
    the clock, and the child exits alone, with the status its loop returns.  Then the
    bytes the parent writes lead the child through the session to status 0, the bytes
    the child writes lead the parent from start to a stopped worker with a verified
    purge, however both pipes cut them up, and the events and the telemetry then
    reported are those of the proxy, unchanged. *)
Theorem worker_session_faithful (db : accounts) (c : settings) (token root : string) (resolver : string -> EgressAddress.resolution)
    (cfg : EgressProxy.config) (fuel : nat) (s : EgressProxy.state) (threads : list EgressProxy.thread)
    (writes readies finals errors : list write_event) (tick : Z) :
  settings_ok c -> hex_string 64 token = true ->
  _verify_worker_identity db (VInt (worker_uid c)) (VInt (worker_gid c)) = Ok (worker_uid c, worker_gid c) ->
  factory resolver (the_start c token) = Ok cfg -> EgressProxy.reachable cfg fuel (s, threads) ->
  (forall t, In t threads -> exists r, t = EgressProxy.Ret r) -> EgressProxy.closed s = true ->
  takes_frames writes -> takes_frames readies -> takes_frames finals -> tick < seconds (stop_timeout c) ->
  exists to_child to_parent, forall control status now,
    delivers control to_child -> delivers status to_parent ->
    let child := @_child_proxy_loop _ (finished_ops s) _ _ _ parse_float float_repr (security_val (expected c)) (factory resolver)
      (mk_pipes control readies finals errors) in
    let w := @performs _ (scene_world (mk_host writes tick (fst child)) db token) _ _ parse_float float_repr c root [Start; Stop]
               (new_worker, mk_scene status "" false [] now) in
    child = (0, to_parent) /\
    state (fst w) = Stopped /\ events (fst w) = EgressProxy.browser_events_snapshot s /\
    telemetry_val (telemetry (fst w)) = EgressProxy.telemetry_snapshot cfg s s s /\
    ready_receipt (fst w) = Some (receipt token c) /\ purge_verified (fst w) = true /\ outbox (snd w) = to_child.
Proof.
  intros Hc Ht Hid Hn Hr Hd Hcl T1 T2 T3 Hk. destruct (verified_ids _ _ _ _ Hid) as [_ Hids].
  destruct (session_bytes c token resolver cfg fuel s threads Hc Ht Hids Hn Hr Hd Hcl) as (b1 & b2 & b3 & b4 & E1 & E2 & E3 & E4).
  exists (b1 +:+ b2), (b3 +:+ b4). intros control status now D1 D2.
  assert (Hchild : @_child_proxy_loop _ (finished_ops s) _ _ _ parse_float float_repr (security_val (expected c)) (factory resolver)
    (mk_pipes control readies finals errors) = (0, b3 +:+ b4)) by (by eapply child_run).
  cbv zeta. rewrite Hchild. split; [done|]. cbn [fst].
  destruct (proxy_is_ok c token resolver cfg Hc Hn) as [Hok Hl].
  destruct (ready_fits c Hc token Ht Hids float_repr) as (W3 & _).
  destruct (final_fits cfg Hok Hl fuel s threads Hr Hd Hcl float_repr token Ht) as (W4 & _).
  destruct (read_frame_delivers parse_float float_repr _ _ _ _ _ W3 (eq_refl : MAX_STATUS_FRAME_BYTES < 2 ^ 32) E3 D2) as (l1 & R1 & D3).
  rewrite <- (append_nil_r b4) in D3.
  destruct (read_frame_delivers parse_float float_repr _ _ _ _ _ W4 (eq_refl : MAX_STATUS_FRAME_BYTES < 2 ^ 32) E4 D3) as (l2 & R2 & _).
  destruct (finished_report cfg Hok Hl fuel s threads Hr Hd Hcl token) as [_ V].
  edestruct (start_run (mk_host writes tick 0) db token) as [t1 Hstart]; [exact T1|exact Hid|exact E1|exact R1|by apply parent_accepts_ready|].
  edestruct (stop_run (mk_host writes tick 0) db token) as [t2 Hstop]; [exact T1|exact Hk|exact (so_stop _ Hc)|done|exact E2|exact R2|exact V|].
  unfold performs. cbn [foldl perform]. unfold the_world in *. rewrite Hstart. cbn [snd]. by rewrite Hstop.
Qed.

End whole.

(** ** Witnesses *)
Import EgressRun.
#[local] Existing Instance clock_Z.
#[local] Existing Instance local_release.
#[local] Existing Instance ascii_unicode.
#[local] Existing Instance EgressRun.no_digits.

(** A host with the two service accounts, the proxy's locked. *)
Definition sample_accounts : accounts := mk_accounts
  [mk_account "root" 0 0 "/root" "/bin/sh"; mk_account WORKER_USER 991 992 "/nonexistent" "/usr/sbin/nologin";
   mk_account VMM_USER 993 994 "/nonexistent" "/usr/sbin/nologin"; mk_account "nobody" 65534 65534 "/nonexistent" "/usr/sbin/nologin"]
  [mk_group "root" 0 []; mk_group WORKER_GROUP 992 []; mk_group VMM_GROUP 994 []; mk_group "nogroup" 65534 []]
  (fun _ gid => Some [gid])
  (Some ("root:*:1::::::" +:+ chr 10 +:+ "cindermote-proxy:!:2::::::" +:+ chr 10)).

Definition sample_settings : settings :=
  mk_settings "10.0.0.1" "10.0.0.2" 3128 991 992 READY_TIMEOUT_SEC STOP_TIMEOUT_SEC (canon_dict (dict_of proxy_request)).

Definition sample_token : string := repeat_text 64 "a".

Lemma sample_settings_new :
  new_settings (fun _ => FNan) (fun _ => "") proxy_request (VStr "10.0.0.1") (VStr "10.0.0.2") (VInt 991) (VInt 992) (VInt 3128)
    (VFloat READY_TIMEOUT_SEC) (VFloat STOP_TIMEOUT_SEC) = Ok sample_settings.
Proof. vm_compute. reflexivity. Qed.

Lemma sample_settings_ok : settings_ok sample_settings.
Proof.
  split; try (vm_compute; reflexivity).
  - exists 20. vm_compute. reflexivity.
  - split_and!; vm_compute; reflexivity.
  - split_and!; vm_compute; discriminate.
Qed.

Lemma sample_factory : factory sample_resolver (the_start sample_settings sample_token) = Ok sample_proxy.
Proof. vm_compute. reflexivity. Qed.

Lemma sample_identity :
  _verify_worker_identity sample_accounts (VInt 991) (VInt 992) = Ok (991, 992).
Proof. vm_compute. reflexivity. Qed.

Lemma worker_session_faithful_witness :
  exists to_child to_parent, forall control status now,
    delivers control to_child -> delivers status to_parent ->
    let child := @_child_proxy_loop _ (finished_ops finished) _ _ _ (fun _ => FNan) (fun _ => "") (security_val (expected sample_settings))
      (factory sample_resolver) (mk_pipes control willing willing []) in
    let w := @performs _ (scene_world (mk_host willing 1000 (fst child)) sample_accounts sample_token) _ _ (fun _ => FNan) (fun _ => "")
               sample_settings "/srv" [Start; Stop] (new_worker, mk_scene status "" false [] now) in
    child = (0, to_parent) /\
    state (fst w) = Stopped /\ events (fst w) = EgressProxy.browser_events_snapshot finished /\
    telemetry_val (telemetry (fst w)) = EgressProxy.telemetry_snapshot sample_proxy finished finished finished /\
    ready_receipt (fst w) = Some (receipt sample_token sample_settings) /\ purge_verified (fst w) = true /\ outbox (snd w) = to_child.
Proof.
  assert (UnicodeLaws) as Hl by (by intros x).
  assert (Hr : returned (snd (after_calls served 100)) = true) by (vm_compute; reflexivity).
  exact (worker_session_faithful (fun _ => FNan) (fun _ => "") sample_accounts sample_settings sample_token "/srv" sample_resolver
    sample_proxy 5 finished [snd (after_calls served 100)] willing willing willing [] 1000 sample_settings_ok eq_refl sample_identity
    sample_factory finished_reachable (returned_inv _ Hr) ltac:(vm_compute; reflexivity) willing_takes willing_takes willing_takes
    ltac:(vm_compute; reflexivity)).
Defined.

(** A worker whose child never becomes ready: it is killed, and the purge is
    verified by the next call of stop. *)
#[local] Notation silent :=
  (@performs _ (scene_world calm sample_accounts sample_token) _ _ (fun _ => FNan) (fun _ => "") sample_settings "/srv" [Start; Stop]
    (new_worker, mk_scene [] "" false [] 0)).

Lemma worker_report_honest_witness :
  purge_verified (fst silent) = true /\
  @removed _ _ (scene_laws calm sample_accounts sample_token) (snd silent).
Proof.
  assert (Hp : purge_verified (fst silent) = true) by (vm_compute; reflexivity). split; [exact Hp|].
  exact (proj2 (proj2 (@worker_report_honest _ _ (scene_laws calm sample_accounts sample_token) _ _ (fun _ => FNan) (fun _ => "") sample_settings
    "/srv" [Start; Stop] (mk_scene [] "" false [] 0) eq_refl)) Hp).
Defined.

Lemma purge_wait_terminates_witness :
  @_wait_process_group_empty _ (scene_world calm sample_accounts sample_token) _ 1000 (mk_handle child_pid true) (seconds PURGE_RECHECK_SEC)
    (new_worker, mk_scene [] "" true [child_pid] 0)
  = (Ok false, (new_worker, mk_scene [] "" true [child_pid] 500000000)).
Proof.
  rewrite (@purge_wait_terminates _ _ (scene_clock calm sample_accounts sample_token) _ 1000 (mk_handle child_pid true)
    (new_worker, mk_scene [] "" true [child_pid] 0) ltac:(unfold PURGE_TURNS; lia)). vm_compute. reflexivity.
Defined.

#[local] Existing Instance process_ops.

(** Module code that would fail in a process with capabilities. *)
Definition loads (_ _ : string) (w : WorkerSandbox.process) : res unit * WorkerSandbox.process := (Ok tt, w).
Definition loads_unprivileged (_ _ : string) (w : WorkerSandbox.process) : res unit * WorkerSandbox.process :=
  (if p_capable w then Err PermissionError else Ok tt, w).
Definition sample_open (_ : string) : option source_file := Some (mk_source_file true 420 3 [Ok "abc"; Ok ""]).

Lemma parser_runs_confined_witness :
  let entry exec := @_child_entry _ _ process_ops (finished_ops finished) _ _ _ (fun _ => FNan) (fun _ => "")
    (fun _ => Some (factory sample_resolver)) exec sample_accounts "/srv" sample_open [] 991 992 4242 root_process
    (mk_pipes [] willing willing willing) in
  entry loads = entry loads_unprivileged.
Proof.
  refine (proj1 (@parser_runs_confined _ _ process_ops (finished_ops finished) _ _ _ (fun _ => FNan) (fun _ => "")
    (fun _ => Some (factory sample_resolver)) (confined 991 992) _ _ _ _ _ _ _ _ _ _ _ _ _)); [auto|].
  intros name source w Hw. split; [|exact Hw]. pose proof (c_capabilities _ _ _ Hw) as Hcap. cbn in Hcap.
  unfold loads, loads_unprivileged. destruct (p_capable w); [done|reflexivity].
Defined.

End WorkerSession.
