(* ===== verification/PyRepr.v ===== *)
(** * The text of Python values

    [repr] and [str] of the values of [PyValue], as f-strings use them, and the
    indented output of json.dumps with the proof that json.loads reads it back. *)

From stdpp Require Import base list strings.
From Stdlib Require Import ZArith Lia.
From Stdlib Require Import (notations) Ascii.
From S2P Require Import Prelude PyValue Sha256 Json JsonFacts StrOps.

Local Open Scope Z_scope.

(** ** repr *)
Section repr.
(** [float.__repr__] of a finite float, and what [repr] writes for a character
    outside ASCII: itself when it is printable, else an escape. *)
Variables (float_repr : pyfloat -> string) (repr_wide : string -> string).

Definition hex_byte (b : Z) : string := chr 92 +:+ "x" +:+ String (hex_digit (b / 16)) (String (hex_digit (b mod 16)) "").

(** A string with a single and no double quote is written in double quotes. *)
Definition repr_quote (s : string) : Z := if has_char 39 s && negb (has_char 34 s) then 34 else 39.

(** One byte below 128. *)
Definition repr_ascii (q : Z) (c : Ascii.ascii) : string :=
  let b := byte_of c in
  if (b =? q) || (b =? 92) then chr 92 +:+ String c ""
  else if b =? 9 then chr 92 +:+ "t"
  else if b =? 10 then chr 92 +:+ "n"
  else if b =? 13 then chr 92 +:+ "r"
  else if (b <? 32) || (b =? 127) then hex_byte b
  else String c "".

Definition repr_char (q : Z) (c : string) : string :=
  match c with
  | String a "" => if byte_of a <? 128 then repr_ascii q a else repr_wide c
  | _ => repr_wide c
  end.
Definition repr_str (s : string) : string :=
  let q := repr_quote s in chr q +:+ String.concat "" (map (repr_char q) (py_chars s)) +:+ chr q.

Fixpoint repr_raw (q : Z) (s : string) : string :=
  match s with
  | EmptyString => ""
  | String c r => (if byte_of c <? 128 then repr_ascii q c else hex_byte (byte_of c)) +:+ repr_raw q r
  end.

Fixpoint repr (v : pyval) : string :=
  match v with
  | VNone => "None"
  | VBool b => if b then "True" else "False"
  | VInt z => dec z
  | VFloat FNan => "nan"
  | VFloat (FInf negative) => if negative then "-inf" else "inf"
  | VFloat f => float_repr f
  | VStr s => repr_str s
  | VBytes s => let q := repr_quote s in "b" +:+ chr q +:+ repr_raw q s +:+ chr q
  | VList l => "[" +:+ String.concat ", " (map repr l) +:+ "]"
  | VDict d => "{" +:+ String.concat ", " (map (fun kv => repr_str (fst kv) +:+ ": " +:+ repr (snd kv)) d) +:+ "}"
  end.

(** [str(v)], what an f-string inserts *)
Definition py_str (v : pyval) : string := match v with VStr s => s | _ => repr v end.
End repr.

(** ** str.strip *)

(** The characters [str.strip()] removes, each as its bytes. *)
Definition WIDE_SPACES : list string :=
  map utf8 ([133; 160; 5760] ++ map (fun n => 8192 + Z.of_nat n) (seq 0 11) ++ [8232; 8233; 8239; 8287; 12288]).
Definition white (c : string) : bool :=
  match c with String a "" => in_range 9 13 (byte_of a) || in_range 28 32 (byte_of a) | _ => mem c WIDE_SPACES end.

Fixpoint drop_while (p : string -> bool) (l : list string) : list string :=
  match l with [] => [] | c :: r => if p c then drop_while p r else l end.
Definition strip_of (p : string -> bool) (s : string) : string :=
  String.concat "" (rev (drop_while p (rev (drop_while p (py_chars s))))).
Definition str_strip (s : string) : string := strip_of white s.
(** [s.strip(chars)] *)
Definition strip_chars (chars : list string) (s : string) : string := strip_of (fun c => mem c chars) s.

(** ** json.dumps(v, indent=2, sort_keys=True) *)
Fixpoint spaces (n : nat) : string := match n with O => "" | S n => String (ascii_of 32) (spaces n) end.
Definition newline (n : nat) : string := String (ascii_of 10) (spaces (2 * n)).

(** Items on lines of their own, [n] deep. *)
Fixpoint lines (n : nat) (l : list string) : string :=
  match l with
  | [] => ""
  | [x] => x
  | x :: r => x +:+ "," +:+ newline n +:+ lines n r
  end.

Section pretty.
Variable float_repr : pyfloat -> string.

(** Before the escapes of [ensure_ascii]. *)
Fixpoint pretty (n : nat) (v : pyval) : string :=
  match v with
  | VNone => "null"
  | VBool b => if b then "true" else "false"
  | VInt z => dec z
  | VFloat FNan => "NaN"
  | VFloat (FInf negative) => if negative then "-Infinity" else "Infinity"
  | VFloat f => float_repr f
  | VStr s => quote s
  | VBytes _ => ""
  | VList [] => "[]"
  | VList l => "[" +:+ newline (S n) +:+ lines (S n) (map (pretty (S n)) l) +:+ newline n +:+ "]"
  | VDict [] => "{}"
  | VDict d =>
      "{" +:+ newline (S n)
      +:+ lines (S n) (map (fun kv => quote (fst kv) +:+ ": " +:+ snd kv)
                         (sort_items (map (fun kv => (fst kv, pretty (S n) (snd kv))) d)))
      +:+ newline n +:+ "}"
  end.

(** ** Reading it back *)
Context (parse_float : string -> pyfloat) (strict : hooks).
Local Notation scan := (scan_value parse_float strict).
Local Notation scan_items := (Json.scan_items parse_float strict).
Local Notation scan_members := (Json.scan_members parse_float strict).

Lemma skip_ws_newline n r : skip_ws (newline n +:+ r) = skip_ws r.
Proof.
  unfold newline. rewrite append_cons. cbn [skip_ws]. change (is_ws (ascii_of 10)) with true. cbv iota.
  induction (2 * n)%nat as [|m IH]; [done|]. cbn [spaces]. rewrite append_cons. cbn [skip_ws].
  change (is_ws (ascii_of 32)) with true. cbv iota. exact IH.
Qed.
Lemma number_stop_newline n r : number_stop (newline n +:+ r) = true.
Proof. unfold newline. by rewrite append_cons. Qed.
Lemma length_newline n : (0 < String.length (newline n))%nat.
Proof. unfold newline. cbn. lia. Qed.

Definition prints (v : pyval) : Prop := forall n f r,
  (String.length (pretty n v) <= f)%nat -> number_stop r = true -> scan f (pretty n v +:+ r) = Some (canon v, r).

Lemma pretty_start n v : json_ok v = true -> first_is value_start (pretty n v) = true.
Proof.
  destruct v as [|[]|z| | | |[]|[]]; try done. intros _. cbn. pose proof (dec_start z) as Hs.
  destruct (dec z) as [|c s]; [done|]. cbn in *. unfold value_start, is_ws, is_digit, in_range in *. lia.
Qed.

(** The lines of a list, up to the closing bracket. *)
Lemma scan_items_lines n m l f r :
  l <> [] -> Forall (fun v => json_ok v = true /\ prints v) l ->
  (S (String.length (lines n (map (pretty n) l))) <= f)%nat ->
  scan_items f (lines n (map (pretty n) l) +:+ newline m +:+ "]" +:+ r) = Some (map canon l, r).
Proof.
  intros Hl HF. revert f. induction HF as [|x l [Hj Hx] HF IH]; [done|]. intros f Hf.
  destruct f as [|f]; [lia|]. rewrite scan_items_S. destruct l as [|y l].
  - cbn [map lines] in *. rewrite Hx by (by rewrite ?number_stop_newline; lia). cbv zeta. by rewrite skip_ws_newline.
  - change (lines n (map (pretty n) (x :: y :: l))) with
      (pretty n x +:+ "," +:+ newline n +:+ lines n (map (pretty n) (y :: l))) in *.
    rewrite !append_assoc. rewrite !length_append in Hf. cbn [String.length] in Hf.
    rewrite Hx by (done || lia). cbv zeta. change ("," +:+ ?t) with (String ","%char t). cbn [skip_ws].
    change (is_ws ","%char) with false. cbv iota. cbn [first_is tail]. change (byte_of ","%char =? 44) with true. cbv iota.
    inversion HF as [|? ? [Hy _] _]; subst. rewrite skip_ws_newline.
    rewrite (skip_ws_start (lines n (map (pretty n) (y :: l)))); [|].
    + rewrite IH by (done || (pose proof (length_newline n); lia)). done.
    + destruct l; cbn [map lines]; [by apply pretty_start|]. rewrite first_is_app; [by apply pretty_start|].
      pose proof (pretty_start n y Hy). by destruct (pretty n y).
Qed.

Definition line (n : nat) (kv : string * pyval) : string := quote (fst kv) +:+ ": " +:+ pretty n (snd kv).

Lemma pretty_dict n d :
  d <> [] ->
  pretty n (VDict d) = "{" +:+ newline (S n) +:+ lines (S n) (map (line (S n)) (sort_items d)) +:+ newline n +:+ "}".
Proof. intros Hd. destruct d as [|x d]; [done|]. cbn [pretty]. by rewrite (sort_items_map (pretty (S n))), map_map. Qed.

Lemma quote_start k s t : skip_ws (quote k +:+ s +:+ t) = quote k +:+ s +:+ t.
Proof. by rewrite <- append_assoc, (skip_ws_start (quote k +:+ s)). Qed.

(** A member followed by [stop] after any white space. *)
Lemma scan_members_line n f kv acc r s stop :
  ~ In (fst kv) (keys acc) -> json_ok (snd kv) = true -> prints (snd kv) -> number_stop r = true ->
  skip_ws r = String stop s -> (String.length (pretty n (snd kv)) <= f)%nat ->
  scan_members (S f) (line n kv +:+ r) acc =
  if byte_of stop =? 44 then scan_members f (skip_ws s) (dict_set (fst kv) (canon (snd kv)) acc)
  else if byte_of stop =? 125 then Some (dict_set (fst kv) (canon (snd kv)) acc, s) else None.
Proof.
  intros Hk Hj Hp Hr Hs Hf. apply (strict_fresh strict) in Hk. unfold line, quote. rewrite !append_assoc.
  change (chr 34 +:+ ?x) with (String (ascii_of 34) x) at 1. rewrite scan_members_S. cbn [first_is tail].
  change (byte_of (ascii_of 34) =? 34) with true. cbn match. rewrite scan_string_escape.
  change (skip_ws (": " +:+ ?t)) with (String ":" (String " " t)). cbn [first_is tail].
  change (byte_of ":" =? 58) with true. cbn match. change (skip_ws (String " " ?t)) with (skip_ws t).
  rewrite skip_ws_start by by apply pretty_start. rewrite Hp by done. cbv zeta. rewrite Hs, Hk. cbn [first_is tail]. done.
Qed.

(** The lines of an object, up to the closing brace. *)
Lemma scan_members_lines n m d f r acc :
  d <> [] -> Forall (fun kv => json_ok (snd kv) = true /\ prints (snd kv)) d -> NoDup (keys acc ++ keys d) ->
  (S (String.length (lines n (map (line n) d))) <= f)%nat ->
  scan_members f (lines n (map (line n) d) +:+ newline m +:+ "}" +:+ r) acc = Some (dict_update acc (map canon_entry d), r).
Proof.
  intros Hl HF. revert f acc. induction HF as [|x l [Hj Hx] HF IH]; [done|]. intros f acc Hnd Hf.
  assert (Hlen : (String.length (pretty n (snd x)) < String.length (line n x))%nat).
  { unfold line. rewrite !length_append. cbn. lia. }
  assert (Hk : ~ In (fst x) (keys acc)).
  { intros Hk. apply NoDup_app in Hnd as (_ & Hnd & _). apply (Hnd (fst x)); [by apply list_elem_of_In|]. by left. }
  destruct f as [|f]; [lia|]. destruct l as [|y l].
  - cbn [map lines] in *. rewrite (scan_members_line n f x acc _ r "}");
      [done|done|done|done|by rewrite number_stop_newline|by rewrite skip_ws_newline|lia].
  - change (lines n (map (line n) (x :: y :: l))) with (line n x +:+ "," +:+ newline n +:+ lines n (map (line n) (y :: l))) in *.
    rewrite !append_assoc. rewrite !length_append in Hf. cbn [String.length] in Hf.
    erewrite (scan_members_line n f x acc _ _ ","); [|done|done|done|done|done|lia].
    change (byte_of "," =? 44) with true. cbv iota. rewrite skip_ws_newline.
    rewrite (skip_ws_start (lines n (map (line n) (y :: l)))) by by destruct l.
    rewrite IH; [done|done| |pose proof (length_newline n); lia]. rewrite dict_set_fresh by done. unfold keys in *.
    by rewrite map_app, <- app_assoc.
Qed.

Lemma prints_list l :
  json_ok (VList l) = true -> Forall (fun v => json_ok v = true -> prints v) l -> prints (VList l).
Proof.
  intros Hok IH n f r Hf Hr. cbn in Hok. rewrite forallb_forall in Hok.
  assert (HF : Forall (fun v => json_ok v = true /\ prints v) l).
  { rewrite Forall_forall in IH |- *. intros x Hx. apply list_elem_of_In in Hx as Hin. auto. }
  destruct l as [|x l]; [by destruct f; cbn in Hf; [lia|]|]. cbn [canon].
  change (pretty n (VList (x :: l))) with
    ("[" +:+ newline (S n) +:+ lines (S n) (map (pretty (S n)) (x :: l)) +:+ newline n +:+ "]") in *.
  rewrite !length_append in Hf. cbn [String.length] in Hf. rewrite !append_assoc.
  change ("[" +:+ ?t) with (String "[" t). destruct f as [|f]; [lia|]. cbn [scan_value].
  change (byte_of "[" =? 34) with false. change (byte_of "[" =? 123) with false.
  change (byte_of "[" =? 91) with true. cbn match zeta. rewrite skip_ws_newline.
  inversion HF as [|? ? [Hx _] _]; subst. pose proof (pretty_start (S n) x Hx) as Hs.
  assert (Hs2 : first_is value_start (lines (S n) (map (pretty (S n)) (x :: l))) = true).
  { destruct l; [done|]. cbn [map lines]. rewrite first_is_app; [done|]. by destruct (pretty (S n) x). }
  rewrite skip_ws_start by done. rewrite first_is_app by by destruct (lines _ _).
  destruct (lines (S n) (map (pretty (S n)) (x :: l))) as [|c t] eqn:E; [done|]. cbn [first_is] in Hs2 |- *.
  unfold value_start in Hs2. apply andb_true_iff in Hs2 as [_ Hs2]. rewrite negb_true_iff in Hs2.
  rewrite Hs2, <- E, scan_items_lines; [done..|]. rewrite E in *. cbn in *. lia.
Qed.

Lemma prints_dict d :
  json_ok (VDict d) = true -> Forall (fun kv => json_ok (snd kv) = true -> prints (snd kv)) d -> prints (VDict d).
Proof.
  intros Hok IH n f r Hf Hr. cbn in Hok. apply andb_true_iff in Hok as [Hnd%bool_decide_eq_true Hok].
  rewrite forallb_forall in Hok.
  assert (HF : Forall (fun kv => json_ok (snd kv) = true /\ prints (snd kv)) (sort_items d)).
  { rewrite sort_items_perm. rewrite Forall_forall in IH |- *. intros x Hx. apply list_elem_of_In in Hx as Hin. auto. }
  destruct (decide (d = [])) as [->|Hne]; [by destruct f; cbn in Hf; [lia|]|].
  rewrite pretty_dict in * by done. cbn [canon]. rewrite (sort_items_map canon).
  rewrite !length_append in Hf. cbn [String.length] in Hf. rewrite !append_assoc.
  change ("{" +:+ ?t) with (String "{" t). destruct f as [|f]; [lia|]. cbn [scan_value].
  change (byte_of "{" =? 34) with false. change (byte_of "{" =? 123) with true. cbn match zeta. rewrite skip_ws_newline.
  apply NoDup_sort_items in Hnd. pose proof (sort_items_perm d) as Hperm.
  destruct (sort_items d) as [|x l]; [by apply Permutation_nil_l in Hperm|].
  assert (Hs : exists t, lines (S n) (map (line (S n)) (x :: l)) = String (ascii_of 34) t).
  { destruct l; cbn [map lines]; unfold line, quote; rewrite ?append_assoc; by eexists. }
  destruct Hs as [t Ht]. rewrite skip_ws_start by (by rewrite Ht).
  rewrite first_is_app by by rewrite Ht. rewrite Ht at 1. cbn [first_is].
  change (byte_of (ascii_of 34) =? 125) with false. cbn match.
  rewrite scan_members_lines; [|done..|rewrite Ht in *; cbn in *; lia].
  rewrite dict_update_fresh; [done|]. cbn [app]. unfold keys, canon_entry in *. by rewrite map_map.
Qed.

Lemma prints_all v : json_ok v = true -> prints v.
Proof.
  induction v as [| b | z | x | s | s | l IH | d IH] using pyval_ind'; intros Hok;
    [..| by apply prints_list | by apply prints_dict]; intros n f r Hf Hr; try done.
  - cbn in Hf. destruct f; [lia|]. apply (scan_const parse_float strict "null"). by left.
  - destruct f; [destruct b; cbn in Hf; lia|].
    destruct b; [apply (scan_const parse_float strict "true")|apply (scan_const parse_float strict "false")]; cbn; auto.
  - destruct f; [|by apply scan_int]. pose proof (dec_start z). cbn in *. destruct (dec z); cbn in *; [done|lia].
  - destruct f; [|apply scan_quote]. cbn in Hf. unfold quote in Hf. rewrite length_append in Hf. cbn in Hf. lia.
Qed.

(** The text with a final line break reads back, its keys sorted. *)
Lemma load_pretty v :
  json_ok v = true -> load_text parse_float strict (pretty 0 v +:+ chr 10) = Ok (canon v).
Proof.
  intros Hok. unfold load_text. pose proof (pretty_start 0 v Hok) as Hs. rewrite skip_ws_start by done.
  rewrite (prints_all v Hok); [done|rewrite length_append; lia|done].
Qed.
End pretty.
