(* ===== verification/Canaries.v ===== *)
(** * The probe registry: canaries/

    Probe modules are discovered by executing the exact bytes that were read of
    every file of the directory; each must define one concrete probe class with a
    name of its own, else the discovery fails as a whole.  What the bytes do when
    they are executed is an argument; the interpreter's table of modules is the
    state. *)

From stdpp Require Import base list strings sorting.
From Stdlib Require Import ZArith Lia.
From S2P Require Import Prelude PyValue Sha256 Json StrOps Detectors.

Local Open Scope Z_scope.

Module Canaries.

Record ProbeExpectation := mk_expectation { risk : string; decision : string; rules : list string }.
(** What the properties of a probe object return. *)
Record ProbeBase := mk_base { name : string; description : string; source : string; expectation : ProbeExpectation }.

(** A class found in an executed module: whether it was defined there, derives from
    [ProbeBase], is [ProbeBase], is abstract; what the properties of its objects
    give. *)
Record probe_class := mk_class {
  defined_here : bool; is_subclass : bool; is_base : bool; is_abstract : bool; class_name : res pyval;
  class_description : string; class_source : string; class_expectation : ProbeExpectation;
}.
(** [cls()], for a class whose name is a string *)
Definition object (c : probe_class) : ProbeBase :=
  mk_base (match class_name c with Ok v => str_of v | Err _ => "" end) (class_description c) (class_source c) (class_expectation c).

(** A file of the scanned directory: its name, what resolving it gives (the text of
    the path and whether it is a regular file), and its bytes. *)
Record artifact := mk_artifact { file_name : string; resolved : res (string * bool); content : res string }.

Definition discovery_error {A} (msg : string) : res A := Err (ProbeDiscoveryError msg).

Definition _read_artifact (a : artifact) : res (string * string) :=
  let unreadable e := if is_os_error e then ProbeDiscoveryError ("probe artifact is unreadable: " +:+ file_name a) else e in
  match resolved a with
  | Err e => Err (unreadable e)
  | Ok (path_text, is_file) =>
      match content a with
      | Err e => Err (unreadable e)
      | Ok bytes =>
          raise (ProbeDiscoveryError ("probe artifact is not a regular file: " +:+ file_name a)) when negb is_file;;
          Ok (path_text, bytes)
      end
  end.

(** [path.stem] *)
Definition stem (file : string) : string :=
  let '(base, found, _) := rpartition 46 file in if found && negb (String.eqb base "") then base else file.

Definition _artifact_module_name (path_text bytes stem : string) : res string :=
  let* raw := Detectors.surrogateescape path_text in
  Ok ("canaries._discovered_" +:+ stem +:+ "_" +:+ slice 24 (hexdigest (raw +:+ chr 0 +:+ bytes))).

(** The concrete probe class of a module. *)
Definition concrete (c : probe_class) : bool := defined_here c && is_subclass c && negb (is_base c) && negb (is_abstract c).
Definition _module_probe_class (classes : list probe_class) (a : artifact) : res probe_class :=
  match List.filter concrete classes with
  | [c] => Ok c
  | _ => discovery_error ("probe artifact must define exactly one concrete ProbeBase subclass: " +:+ file_name a)
  end.

Section discovery.
(** Compiling and executing bytes as the module of that name: the classes it
    defines, or the exception. *)
Variable execute : string -> string -> string -> res (list probe_class).

Definition pop (m : string) (modules : list string) : list string := List.filter (fun x => negb (String.eqb x m)) modules.

Definition _execute_artifact (a : artifact) (modules : list string) : res (list probe_class) * list string :=
  match (let* pb := _read_artifact a in
         let* m := _artifact_module_name (fst pb) (snd pb) (stem (file_name a)) in Ok (m, pb)) with
  | Err e => (Err e, modules)
  | Ok (m, (path_text, bytes)) =>
      match execute m path_text bytes with
      | Ok classes => (Ok classes, pop m modules ++ [m])
      | Err _ => (discovery_error ("probe artifact import failed: " +:+ file_name a), pop m modules)
      end
  end.

Definition SKIPPED : list string := ["__init__"; "probe_base"; "registry"].
Definition admitted (a : artifact) : bool :=
  let s := stem (file_name a) in negb (mem s SKIPPED) && negb (startswith "_" s).

Definition declared_name (a : artifact) (c : probe_class) : res string :=
  match class_name c with
  | Err _ => discovery_error ("probe artifact name evaluation failed: " +:+ file_name a)
  | Ok (VStr n) => if String.eqb n "" then discovery_error ("probe artifact declared an invalid name: " +:+ file_name a) else Ok n
  | Ok _ => discovery_error ("probe artifact declared an invalid name: " +:+ file_name a)
  end.

(** The loop: the classes found so far by name, in the order of the files. *)
Fixpoint discover_each (files : list artifact) (found : list (string * probe_class)) (modules : list string)
    : res (list (string * probe_class)) * list string :=
  match files with
  | [] => (Ok found, modules)
  | a :: r =>
      if negb (admitted a) then discover_each r found modules
      else
        match _execute_artifact a modules with
        | (Err e, modules) => (Err e, modules)
        | (Ok classes, modules) =>
            match (let* c := _module_probe_class classes a in let* n := declared_name a c in Ok (n, c)) with
            | Err e => (Err e, modules)
            | Ok (n, c) =>
                if has_key n found then (discovery_error ("duplicate probe name: " +:+ file_name a), modules)
                else discover_each r (found ++ [(n, c)]) modules
            end
        end
  end.

(** [sorted(scan_dir.glob("*.py"))] of files of one directory *)
Definition sorted_files (files : list artifact) : list artifact := map snd (sort_items (map (fun a => (file_name a, a)) files)).

Definition discover_probes (files : list artifact) (modules : list string) : res (list probe_class) * list string :=
  let '(r, modules) := discover_each (sorted_files files) [] modules in
  ((let* found := r in Ok (map snd (sort_items found))), modules).

Definition instantiate_probes (files : list artifact) (names : option (list string)) (modules : list string)
    : res (list ProbeBase) * list string :=
  let '(r, modules) := discover_probes files modules in
  ((let* classes := r in
    let probes := map object classes in
    Ok (match names with None => probes | Some l => List.filter (fun p => mem (name p) l) probes end)), modules).

(** ** What is discovered *)

(** The class comes from executing, under a name bound to them, the bytes read. *)
Definition comes_from (a : artifact) (nc : string * probe_class) : Prop :=
  exists path_text bytes m classes, resolved a = Ok (path_text, true) /\ content a = Ok bytes /\
    _artifact_module_name path_text bytes (stem (file_name a)) = Ok m /\ execute m path_text bytes = Ok classes /\
    List.filter concrete classes = [snd nc] /\ class_name (snd nc) = Ok (VStr (fst nc)) /\ fst nc <> "".

Lemma execute_artifact_ok a modules classes modules' :
  _execute_artifact a modules = (Ok classes, modules') ->
  exists path_text bytes m, resolved a = Ok (path_text, true) /\ content a = Ok bytes /\
    _artifact_module_name path_text bytes (stem (file_name a)) = Ok m /\ execute m path_text bytes = Ok classes.
Proof.
  unfold _execute_artifact, _read_artifact. destruct (resolved a) as [[path_text []]|]; [| |done].
  - destruct (content a) as [bytes|]; [|done]. cbn [negb okb raise_if mbind res_bind fst snd].
    destruct (_artifact_module_name _ _ _) as [m|] eqn:Em; [|done]. cbn [mbind res_bind].
    destruct (execute m path_text bytes) eqn:Ex; [|done]. intros [= <- _]. by exists path_text, bytes, m.
  - by destruct (content a).
Qed.

Lemma discover_each_ok files : forall found modules found' modules',
  discover_each files found modules = (Ok found', modules') -> NoDup (keys found) ->
  exists l, found' = found ++ l /\ Forall2 comes_from (List.filter admitted files) l /\ NoDup (keys found').
Proof.
  induction files as [|a files IH]; intros found modules found' modules' Hd Hn; cbn [discover_each] in Hd.
  - injection Hd as <- _. exists []. rewrite app_nil_r. by split_and!; [|constructor|].
  - cbn [List.filter]. destruct (admitted a); cbn [negb] in Hd; [|by eapply IH].
    destruct (_execute_artifact a modules) as [[classes|] modules1] eqn:Ex; [|done].
    destruct (_module_probe_class classes a) as [c|] eqn:Ec; [|done]. cbn [mbind res_bind] in Hd.
    destruct (declared_name a c) as [n|] eqn:En; [|done]. cbn [mbind res_bind] in Hd.
    destruct (has_key n found) eqn:Ek; [done|].
    assert (Hc : comes_from a (n, c)).
    { destruct (execute_artifact_ok _ _ _ _ Ex) as (path_text & bytes & m & H1 & H2 & H3 & H4). exists path_text, bytes, m, classes.
      cbn [fst snd]. split_and!; try done.
      - unfold _module_probe_class in Ec. destruct (List.filter concrete classes) as [|x [|]]; try done. by injection Ec as ->.
      - unfold declared_name, discovery_error in En. destruct (class_name c) as [[]|]; try done. destruct (s =? "")%string; [done|]. by injection En as ->.
      - unfold declared_name, discovery_error in En. destruct (class_name c) as [[]|]; try done.
        destruct (String.eqb_spec s ""); [done|]. by simplify_eq. }
    destruct (IH _ _ _ _ Hd) as (l & -> & HF & Hn').
    + unfold keys. rewrite map_app. apply NoDup_app. split_and!; [done| |apply NoDup_singleton].
      intros x Hx ->%list_elem_of_singleton. apply list_elem_of_In, has_key_In in Hx. cbn in Hx. congruence.
    + exists ((n, c) :: l). rewrite <- app_assoc. split_and!; [done|by constructor|by rewrite <- app_assoc in Hn'].
Qed.

Lemma sorted_keys {A} (s : list (string * A)) : Sorted key_le s -> Sorted (fun a b => String.leb a b = true) (keys s).
Proof.
  unfold keys. induction 1 as [|x s Hs IH Hx]; [constructor|]. cbn. constructor; [done|].
  destruct Hx as [|y s Hx]; cbn; constructor. exact Hx.
Qed.

Lemma discovered_names files modules probes modules' :
  instantiate_probes files None modules = (Ok probes, modules') ->
  NoDup (map name probes) /\ Sorted (fun a b => String.leb a b = true) (map name probes) /\
  length probes = length (List.filter admitted files).
Proof.
  unfold instantiate_probes, discover_probes. destruct (discover_each _ _ _) as [[found|] m] eqn:Ed; [|done].
  cbn [mbind res_bind]. intros [= <- _]. destruct (discover_each_ok _ _ _ _ _ Ed) as (l & -> & HF & Hn); [constructor|]. cbn [app] in *.
  assert (Hnames : map name (map object (map snd (sort_items l))) = keys (sort_items l)).
  { unfold keys. rewrite !map_map. apply map_ext_in. intros [n c] Hin. cbn. apply list_elem_of_In in Hin.
    rewrite sort_items_perm in Hin. apply list_elem_of_lookup in Hin as [i Hi].
    destruct (Forall2_lookup_r _ _ _ _ _ HF Hi) as (a & _ & ? & ? & ? & ? & _ & _ & _ & _ & _ & Hc & _). cbn in Hc. by rewrite Hc. }
  rewrite Hnames. split_and!; [by apply NoDup_sort_items|..].
  - apply sorted_keys, sort_items_sorted.
  - rewrite !length_map, sort_items_perm. apply Forall2_length in HF. rewrite <- HF. unfold sorted_files.
    assert (Hp : map snd (sort_items (map (fun a => (file_name a, a)) files)) ≡ₚ files).
    { rewrite sort_items_perm, map_map. by rewrite map_id. }
    clear -Hp. induction Hp as [|x a b _ IH|x y a|a b c _ IH1 _ IH2]; cbn; [done|..].
    + destruct (admitted x); cbn; lia.
    + destruct (admitted x), (admitted y); cbn; lia.
    + lia.
Qed.
End discovery.

(** ** The probes of the directory

    The payload of each is text that nothing but the detonation reads; it is an
    argument. *)
Section shipped.
Variable payload : string -> string.
Definition shipped_class (n d r v : string) (fires : list string) : probe_class :=
  mk_class true true false false (Ok (VStr n)) d (payload n) (mk_expectation r v fires).

Definition BenignBaselineProbe : probe_class :=
  shipped_class "benign_baseline" "Baseline: benign payload that does nothing hostile" "benign" "ALLOW" [].
Definition CredentialHarvestProbe : probe_class :=
  shipped_class "credential_harvest" "Step 4-5: Ambient credential harvesting from filesystem and env" "hostile" "DENY"
    ["cred_harvest_pattern"].
Definition LateralMovementProbe : probe_class :=
  shipped_class "lateral_movement" "Step 3: Privilege escalation and lateral movement to private networks" "hostile" "DENY"
    ["network_exfil_attempt"; "namespace_escape_attempt"].
Definition MetadataAccessProbe : probe_class :=
  shipped_class "metadata_access" "Step 4: Cloud metadata SSRF via 169.254.169.254" "hostile" "DENY" ["network_exfil_attempt"].
Definition OutboundExfilProbe : probe_class :=
  shipped_class "outbound_exfil" "Step 6: Arbitrary outbound data exfiltration" "hostile" "DENY" ["network_exfil_attempt"].
Definition RegistryProxyAbuseProbe : probe_class :=
  shipped_class "registry_proxy_abuse" "Step 1-2: Agent abuses package proxy to reach external registries" "hostile" "DENY"
    ["network_exfil_attempt"].
Definition TaintedOutputProbe : probe_class :=
  shipped_class "tainted_output" "Step 6: Tainted output with embedded host commands" "hostile" "DENY" [].

(** The modules by file. *)
Definition SHIPPED : list (string * probe_class) :=
  [("probe_benign_baseline.py", BenignBaselineProbe); ("probe_credential_harvest.py", CredentialHarvestProbe);
   ("probe_lateral_movement.py", LateralMovementProbe); ("probe_metadata_access.py", MetadataAccessProbe);
   ("probe_outbound_exfil.py", OutboundExfilProbe); ("probe_registry_abuse.py", RegistryProxyAbuseProbe);
   ("probe_tainted_output.py", TaintedOutputProbe)].
End shipped.
End Canaries.
