(* ===== verification/IncidentGate.v ===== *)
(** * The incident gate: incident_gate.py

    Probes are detonated one after the other into an evidence tree of their own,
    each signed receipt is evaluated against the probe's expectation, and the run
    leaves a manifest, a report and an exit status.  The state is the files of the
    host and the three directories the detonation module writes to; detonating,
    making directories and naming temporary ones are arguments. *)

From stdpp Require Import base list strings gmap.
From Stdlib Require Import ZArith Lia.
From S2P Require Import Prelude PyValue Sha256 Json StrOps PyRepr WorkerWire Canaries.

Local Open Scope Z_scope.

Module IncidentGate.
Import Canaries.

(** ** Paths: the components of an absolute path *)
Notation path := (list string).
(** The components pathlib keeps of a text. *)
Definition components (s : string) : path :=
  List.filter (fun c => negb (String.eqb c "") && negb (String.eqb c ".")) (split 47 s).
Definition is_absolute (s : string) : bool := startswith "/" s.
(** [path / text] *)
Definition joinpath (p : path) (s : string) : path := if is_absolute s then components s else p ++ components s.
Definition path_text (p : path) : string := "/" +:+ String.concat "/" p.
(** [str(path.relative_to(base))] *)
Fixpoint relative (base p : path) : option path :=
  match base, p with
  | [], _ => Some p
  | b :: base, c :: p => if String.eqb b c then relative base p else None
  | _ :: _, [] => None
  end.
Definition relative_text (r : path) : string := match r with [] => "." | _ => String.concat "/" r end.
Definition relative_to (base p : path) : res string :=
  match relative base p with
  | Some r => Ok (relative_text r)
  | None => Err (ValueError "path is not in the subpath of the other")
  end.

(** ** Probes *)
Definition RISK_RANK : list (string * Z) := [("unknown", -1); ("benign", 0); ("suspicious", 1); ("hostile", 2)].

Record CinderProbe := mk_probe {
  p_name : string; p_description : string; p_source : string;
  p_expected_risk : string; p_expected_decision : string; p_expected_rules : list string;
}.

Definition INCIDENT_ORDER : list string :=
  ["registry_proxy_abuse"; "lateral_movement"; "metadata_access"; "credential_harvest"; "outbound_exfil"; "tainted_output"].
Fixpoint index_of (s : string) (l : list string) : nat :=
  match l with [] => O | x :: r => if String.eqb s x then O else S (index_of s r) end.
(** [_INCIDENT_PROBE_ORDER.get(name, len(...))] *)
Definition _INCIDENT_PROBE_ORDER (s : string) : nat := index_of s INCIDENT_ORDER.

Definition probe_of (p : ProbeBase) : CinderProbe :=
  mk_probe (name p) (description p) (source p) (risk (expectation p)) (decision (expectation p)) (rules (expectation p)).

(** The sort key [(order, name)], compared with [<=]. *)
Definition key_le (a b : CinderProbe) : bool :=
  let i := _INCIDENT_PROBE_ORDER (p_name a) in
  let j := _INCIDENT_PROBE_ORDER (p_name b) in
  (i <? j)%nat || ((i =? j)%nat && String.leb (p_name a) (p_name b)).
Fixpoint insert_probe (x : CinderProbe) (l : list CinderProbe) : list CinderProbe :=
  match l with [] => [x] | y :: r => if key_le x y then x :: y :: r else y :: insert_probe x r end.
Definition load_discovered_probes (instantiated : list ProbeBase) : list CinderProbe :=
  foldr insert_probe [] (map probe_of (List.filter (fun p => negb (String.eqb (risk (expectation p)) "benign")) instantiated)).

(** ** Results *)
Record ProbeResult := mk_result {
  r_name : string; r_description : string; r_receipt : pydict; containment_held : bool;
  observed_risk : pyval; observed_decision : pyval; observed_rules : list string;
  expected_risk : string; expected_decision : string; expected_rules : list string;
  isolation_confirmed : bool; purge_verified : bool; error : option string; observation_status : string;
}.

(** [RISK_RANK.get(v, -1)] *)
Definition risk_rank (v : pyval) : res Z :=
  match v with
  | VStr s => Ok (default (-1) (assoc s RISK_RANK))
  | VList _ | VDict _ => Err TypeError
  | _ => Ok (-1)
  end.
(** [finding.get("rule_id")] of a dict that has it as a string *)
Definition rule_of (finding : pyval) : list string :=
  match finding with VDict d => match assoc "rule_id" d with Some (VStr s) => [s] | _ => [] end | _ => [] end.
Definition status_of (observation : pyval) : string :=
  match observation with
  | VDict d => if py_eq (default (VStr "EVALUATION_INCOMPLETE") (assoc "status" d)) (VStr "COMPLETE") then "COMPLETE"
               else "EVALUATION_INCOMPLETE"
  | _ => "EVALUATION_INCOMPLETE"
  end.
(** [d.get(a) is True and d.get(b) is True] *)
Definition both_true (d : pyval) (a b : string) : res bool :=
  let* x := get d a in
  if is_true x then let* y := get d b in Ok (is_true y) else Ok false.

Definition _evaluate_receipt (probe : CinderProbe) (receipt : pydict) : res ProbeResult :=
  let field k dflt := default dflt (assoc k receipt) in
  let* risk := get_default (field "outward_report" (VDict [])) "risk_level" (VStr "unknown") in
  let* decision := get_default (field "gate" (VDict [])) "final_decision" (VStr "UNKNOWN") in
  let* findings := py_iter (field "detector_findings" (VList [])) in
  let rules := dedup_strs (flat_map rule_of findings) in
  let* isolated := both_true (field "isolation" (VDict [])) "namespace_used" "seccomp_loaded" in
  let* verified := get (field "purge" (VDict [])) "verified_externally" in
  let purged := is_true verified in
  let status := status_of (field "observation" (VDict [])) in
  let* observed_rank := risk_rank risk in
  let risk_ok := match assoc (p_expected_risk probe) RISK_RANK with Some rank => rank <=? observed_rank | None => false end in
  let held :=
    risk_ok && py_eq decision (VStr (p_expected_decision probe)) && forallb (fun r => mem r rules) (p_expected_rules probe)
    && isolated && purged && String.eqb status "COMPLETE" && is_false (field "telemetry_incomplete" VNone) in
  Ok (mk_result (p_name probe) (p_description probe) receipt held risk decision rules (p_expected_risk probe)
        (p_expected_decision probe) (p_expected_rules probe) isolated purged None status).

(** ** The evidence tree *)
Record EvidencePaths := mk_paths { root : path; receipts : path; quarantine : path; alerts : path }.

(** RECEIPTS_DIR, QUARANTINE_DIR and ALERTS_DIR of the detonation module. *)
Definition directories : Type := path * path * path.
Record world := mk_world { files : gmap path string; dirs : directories }.

Definition io (A : Type) : Type := world -> res A * world.
Definition done {A} (a : A) : io A := fun w => (Ok a, w).
Definition pure {A} (r : res A) : io A := fun w => (r, w).
Definition bind {A B} (m : io A) (k : A -> io B) : io B := fun w =>
  match m w with (Ok a, w') => k a w' | (Err e, w') => (Err e, w') end.
Notation "'let!' x := m 'in' k" := (bind m (fun x => k))
  (at level 10, x pattern, m at level 100, k at level 200, format "'[v' 'let!'  x  :=  m  'in' '//' k ']'").
Notation "m ;! k" := (bind m (fun _ => k)) (at level 100, k at level 200, right associativity).

Definition _detonation_evidence_scope {A} (paths : EvidencePaths) (body : io A) : io A := fun w =>
  let previous := dirs w in
  let '(r, w') := body (mk_world (files w) (receipts paths, quarantine paths, alerts paths)) in
  (r, mk_world (files w') previous).

Section gate.
Variables (float_repr : pyfloat -> string) (repr_wide : string -> string).
(** [str(exc)] *)
Variable message : exn -> string.
(** [detonate(artifact, "python-script", submitted_by="cinder-incident-gate")] *)
Variable detonate : path -> io pydict.
Variables (SNAPSHOT_PATH SNAPSHOT_MANIFEST_PATH : path) (bootstrap_snapshot verify_snapshot : io unit).
(** [tempfile.mkdtemp] in a directory: the name of the new one. *)
Variable mkdtemp : path -> io string.
(** The system's temporary directory. *)
Variable tmp : path.
Variables (is_symlink : path -> bool) (mkdir : path -> res unit).
(** [path.resolve(strict=True)] *)
Variable resolve : path -> res path.

(** [type(exc).__name__] *)
Definition type_name (e : exn) : string :=
  match e with
  | ValueError _ => "ValueError"
  | ContractError _ => "ContractError"
  | BrowserContractError _ => "BrowserContractError"
  | CanonicalizationError _ => "CanonicalizationError"
  | OutwardReportSchemaError _ => "OutwardReportSchemaError"
  | TelemetrySchemaError _ => "TelemetrySchemaError"
  | EvidenceError _ => "EvidenceError"
  | HpkeError _ => "HpkeError"
  | SecretStreamError _ => "SecretStreamError"
  | AgentProbeError _ => "AgentProbeError"
  | AgentProbeRuntimeError _ => "AgentProbeRuntimeError"
  | BrowserEgressConfigurationError _ => "BrowserEgressConfigurationError"
  | BrowserEgressStartupError _ => "BrowserEgressStartupError"
  | BrowserEgressClosed _ => "BrowserEgressClosed"
  | BrowserEgressWorkerError _ => "BrowserEgressWorkerError"
  | BrowserEgressWorkerProtocolError _ => "BrowserEgressWorkerProtocolError"
  | BrowserEgressWorkerTimeout _ => "BrowserEgressWorkerTimeout"
  | ProbeDiscoveryError _ => "ProbeDiscoveryError"
  | FirecrackerTransportError _ => "FirecrackerTransportError"
  | FirecrackerTimeoutError _ => "FirecrackerTimeoutError"
  | FirecrackerProtocolError _ => "FirecrackerProtocolError"
  | FirecrackerResponseTooLarge _ => "FirecrackerResponseTooLarge"
  | FirecrackerJsonError _ => "FirecrackerJsonError"
  | FirecrackerStatusError _ _ => "FirecrackerStatusError"
  | SnapshotIntegrityError _ => "SnapshotIntegrityError"
  | IsolationSetupError _ => "IsolationSetupError"
  | CgroupOperationError _ _ => "CgroupOperationError"
  | SandboxIdentityError _ => "SandboxIdentityError"
  | GuestAgentError _ => "GuestAgentError"
  | FileNotFoundError => "FileNotFoundError"
  | ProcessLookupError => "ProcessLookupError"
  | PermissionError => "PermissionError"
  | TimeoutExpired => "TimeoutExpired"
  | OSError _ => "OSError"
  | TypeError => "TypeError"
  | KeyError => "KeyError"
  | AttributeError => "AttributeError"
  | OverflowError => "OverflowError"
  | RecursionError => "RecursionError"
  end.

(** The result of a detonation that raised. *)
Definition failed_probe (probe : CinderProbe) (e : exn) : ProbeResult :=
  mk_result (p_name probe) (p_description probe) [] false (VStr "unknown") (VStr "ERROR") [] (p_expected_risk probe)
    (p_expected_decision probe) (p_expected_rules probe) false false (Some (type_name e +:+ ": " +:+ message e))
    "EVALUATION_INCOMPLETE".

Fixpoint make_directories (l : list path) : res unit :=
  match l with
  | [] => Ok tt
  | d :: r =>
      raise (ValueError ("evidence directory must not be a symlink: " +:+ path_text d)) when is_symlink d;;
      let* _ := mkdir d in make_directories r
  end.

Definition _create_evidence_paths (root : path) : res EvidencePaths :=
  raise (ValueError ("evidence root must not be a symlink: " +:+ path_text root)) when is_symlink root;;
  let* _ := mkdir root in
  let paths := mk_paths root (root ++ ["receipts"]) (root ++ ["quarantine"]) (root ++ ["alerts"]) in
  let* _ := make_directories [receipts paths; quarantine paths; alerts paths] in
  Ok paths.

(** [with TemporaryDirectory(dir=base) as directory]: what is in it goes when the
    body ends, however it ends. *)
Definition with_temporary {A} (base : path) (body : path -> io A) : io A :=
  let! n := mkdtemp base in
  fun w =>
    let directory := base ++ [n] in
    let '(r, w') := body directory w in
    (r, mk_world (filter (fun kv => ~ directory `prefix_of` kv.1) (files w')) (dirs w')).

Definition write_artifact (p : path) (text : string) : io unit := fun w =>
  if has_surrogate text then (Err (ValueError "surrogates not allowed"), w)
  else (Ok tt, mk_world (<[p := text]> (files w)) (dirs w)).

(** The detonation, or the exception it raised. *)
Definition attempt {A} (m : io A) : io (res A) := fun w => let '(r, w') := m w in (Ok r, w').

Definition _run_probe_scoped (probe : CinderProbe) (paths : EvidencePaths) : io ProbeResult :=
  let! receipt := with_temporary (root paths) (fun directory =>
    let artifact := directory ++ [p_name probe +:+ ".py"] in
    write_artifact artifact (p_source probe) ;!
    attempt (_detonation_evidence_scope paths (detonate artifact))) in
  match receipt with
  | Err e => done (failed_probe probe e)
  | Ok receipt => pure (_evaluate_receipt probe receipt)
  end.

Definition run_probe (probe : CinderProbe) (evidence_root : option path) : io ProbeResult :=
  match evidence_root with
  | None => with_temporary tmp (fun directory =>
      let! paths := pure (_create_evidence_paths directory) in _run_probe_scoped probe paths)
  | Some r => let! paths := pure (_create_evidence_paths r) in _run_probe_scoped probe paths
  end.

Fixpoint each_probe (probes : list CinderProbe) (paths : EvidencePaths) : io (list ProbeResult) :=
  match probes with
  | [] => done []
  | p :: r => let! x := _run_probe_scoped p paths in let! xs := each_probe r paths in done (x :: xs)
  end.

Definition exists_file (p : path) : io bool := fun w => (Ok (bool_decide (is_Some (files w !! p))), w).
Definition _ensure_snapshot : io unit :=
  let! snapshot := exists_file SNAPSHOT_PATH in
  let! manifest := exists_file SNAPSHOT_MANIFEST_PATH in
  (if negb snapshot || negb manifest then bootstrap_snapshot else done tt) ;! verify_snapshot.

Definition run_all_probes (probes : list CinderProbe) (evidence_root : option path) : io (list ProbeResult) :=
  _ensure_snapshot ;!
  match evidence_root with
  | None => with_temporary tmp (fun directory =>
      let! paths := pure (_create_evidence_paths directory) in each_probe probes paths)
  | Some r => let! paths := pure (_create_evidence_paths r) in each_probe probes paths
  end.

(** ** The outcome of a run *)
Definition has_error (r : ProbeResult) : bool := match error r with Some e => negb (String.eqb e "") | None => false end.

Definition _overall_status (results : list ProbeResult) : string :=
  if forallb containment_held results then "ALL_BOUNDARIES_HELD"
  else if existsb (fun r => negb (isolation_confirmed r) || negb (purge_verified r)) results then "BOUNDARY_FAILURE_DETECTED"
  else if existsb (fun r => has_error r || negb (String.eqb (observation_status r) "COMPLETE")) results
       then "EVALUATION_INCOMPLETE"
  else "CONTAINMENT_TEST_FAILED".

(** [path.is_file()] and its content *)
Definition content (w : world) (p : path) : option string :=
  match resolve p with Ok q => files w !! q | Err _ => None end.

Definition job_id_of (r : ProbeResult) : res pyval :=
  let* identity := get_default (VDict (r_receipt r)) "identity" (VDict []) in get identity "job_id".

(** The manifest entry of a receipt that is in the evidence tree. *)
Definition child_receipt (run_root : path) (paths : EvidencePaths) (w : world) (r : ProbeResult) : res (list pyval) :=
  let* job_id := job_id_of r in
  match job_id with
  | VStr j =>
      let child_path := joinpath (receipts paths) (j +:+ ".json") in
      match content w child_path with
      | Some text =>
          let* rel := relative_to run_root child_path in
          Ok [VDict [("job_id", VStr j); ("path", VStr rel); ("sha256", VStr (hexdigest text))]]
      | None => Ok []
      end
  | _ => Ok []
  end.

Definition strs (l : list string) : pyval := VList (map VStr l).
Definition opt_str (o : option string) : pyval := match o with Some s => VStr s | None => VNone end.

Definition result_entry (r : ProbeResult) : res pyval :=
  let* job_id := job_id_of r in
  Ok (VDict [("name", VStr (r_name r)); ("containment_held", VBool (containment_held r));
             ("observed_risk", observed_risk r); ("expected_risk", VStr (expected_risk r));
             ("observed_decision", observed_decision r); ("expected_decision", VStr (expected_decision r));
             ("observed_rules", strs (sort_strs (observed_rules r))); ("expected_rules", strs (sort_strs (expected_rules r)));
             ("isolation_confirmed", VBool (isolation_confirmed r)); ("purge_verified", VBool (purge_verified r));
             ("observation_status", VStr (observation_status r)); ("error", opt_str (error r)); ("job_id", job_id)]).

Definition GATE_VERSION : string := "cinder-incident-gate-v3".
Definition master (run_root : path) (created_at : string) (children : list pyval) (results : list ProbeResult) (entries : list pyval)
    : pydict :=
  [("gate", VStr GATE_VERSION); ("run_id", VStr (List.last run_root "")); ("created_at", VStr created_at);
   ("evidence_root", VStr (path_text run_root)); ("probe_count", VInt (Z.of_nat (length results)));
   ("all_contained", VBool (forallb containment_held results)); ("overall_status", VStr (_overall_status results));
   ("child_receipts", VList children); ("results", VList entries)].

(** ** The report *)
Definition mark (b : bool) : string := if b then "✅" else "❌".
Definition code (s : string) : string := "`" +:+ s +:+ "`".
Definition bool_text (b : bool) : string := if b then "True" else "False".
Definition text (v : pyval) : string := py_str float_repr repr_wide v.

Definition overall_label (status : string) : string :=
  if String.eqb status "ALL_BOUNDARIES_HELD" then "ALL BOUNDARIES HELD"
  else if String.eqb status "BOUNDARY_FAILURE_DETECTED" then "BOUNDARY FAILURE DETECTED"
  else if String.eqb status "EVALUATION_INCOMPLETE" then "EVALUATION INCOMPLETE — FAIL CLOSED"
  else "CONTAINMENT TEST FAILED".

Definition table_row (r : ProbeResult) : string :=
  "| " +:+ r_name r +:+ " | " +:+ text (observed_risk r) +:+ " | " +:+ text (observed_decision r) +:+ " | "
  +:+ mark (isolation_confirmed r) +:+ " | " +:+ mark (purge_verified r) +:+ " | " +:+ mark (containment_held r) +:+ " |".

(** [sorted(destinations.items())]: the keys are distinct strings *)
Definition destination_line (kv : string * pyval) : string :=
  "  - " +:+ code (fst kv) +:+ " → " +:+ code (text (snd kv)).
Definition destination_lines (destinations : pyval) : res (list string) :=
  if truthy destinations then
    match destinations with VDict d => Ok (map destination_line (sort_items d)) | _ => Err AttributeError end
  else Ok [].

Definition rule_list (l : list string) : string := text (strs (sort_strs l)).

Definition detail_lines (r : ProbeResult) : res (list string) :=
  let head := ["### " +:+ r_name r; "**" +:+ r_description r +:+ "**"; ""] in
  if has_error r then Ok (head ++ ["⚠️ Error: " +:+ code (default "" (error r)); ""])
  else
      let field k dflt := default dflt (assoc k (r_receipt r)) in
      let missing := List.filter (fun x => negb (mem x (observed_rules r))) (expected_rules r) in
      let* seccomp := get (field "isolation" (VDict [])) "seccomp_loaded" in
      let* canaries := get_default (field "outward_report" (VDict [])) "canaries_tripped" (VList []) in
      let* destinations := destination_lines (field "destinations_attempted" (VDict [])) in
      Ok (head
          ++ ["- Observed risk: " +:+ code (text (observed_risk r)) +:+ " (expected: " +:+ code (expected_risk r) +:+ ")";
              "- Gate decision: " +:+ code (text (observed_decision r)) +:+ " (expected: " +:+ code (expected_decision r) +:+ ")"]
          ++ (if String.eqb (observation_status r) "COMPLETE" then []
              else ["- ⚠️ Observation: " +:+ code (observation_status r)
                    +:+ " — no completed payload observation; this is not execution coverage"])
          ++ ["- Detector rules fired: " +:+ code (rule_list (observed_rules r))]
          ++ (match missing with [] => [] | _ => ["- ⚠️ Missing expected rules: " +:+ code (rule_list missing)] end)
          ++ ["- Namespace isolation: " +:+ code (bool_text (isolation_confirmed r)); "- Seccomp loaded: " +:+ code (text seccomp);
              "- Purge verified: " +:+ code (bool_text (purge_verified r))]
          ++ (if truthy canaries then ["- Canaries tripped: " +:+ code (text canaries)] else [])
          ++ destinations ++ [""]).

Definition CLAIM : string := "The July 2026 attack chain would be interrupted at **every boundary**.".
Definition proof_lines (status : string) : list string :=
  if String.eqb status "ALL_BOUNDARIES_HELD" then
    ["Every probe was detonated through the real Cindermote sandbox.";
     "All hostile payloads were contained: network access was blocked by seccomp,";
     "credential access was denied by chroot, namespace escape was prevented,";
     "and all resources were verified as cleaned up after execution."; ""; CLAIM]
  else if String.eqb status "BOUNDARY_FAILURE_DETECTED" then
    ["❌ At least one directly observed isolation or purge boundary failed.";
     "No containment claim is made; see the per-probe evidence above."]
  else if String.eqb status "EVALUATION_INCOMPLETE" then
    ["⚠️ At least one payload observation did not complete, so this run is not";
     "execution coverage. The gate failed closed and made no containment claim."]
  else
    ["❌ At least one completed probe did not satisfy its required risk,";
     "decision, or detector-rule expectations. See the per-probe evidence above."].

Definition HEADER : list string :=
  ["# Cinder Incident Gate Report"; ""; "## Attack Chain Coverage"; "";
   "Each probe below simulates one step of the July 2026 OpenAI/Hugging Face";
   "attack chain and detonates it through the **real Cindermote S0-S4 sandbox**";
   "(namespace isolation, chroot, seccomp, ptrace, capability drop)."; "";
   "Verdicts come from host-observed evidence, not guest self-reports."; ""].

Definition generate_report (results : list ProbeResult) : res (list string) :=
  let status := _overall_status results in
  let* details := map_res detail_lines results in
  Ok (HEADER ++ ["**Overall: " +:+ overall_label status +:+ "**"; "";
                 "| Probe | Risk | Decision | Isolation | Purge | Held |";
                 "|-------|------|----------|-----------|-------|------|"]
      ++ map table_row results ++ [""; "## Detailed Results"; ""] ++ concat details
      ++ ["## Containment Proof"; ""] ++ proof_lines status).

(** ** [cindermote incident-gate run] *)

(** [json.dumps] accepts everything JSON has, infinities and NaN included. *)
Fixpoint encodable (v : pyval) : bool :=
  match v with
  | VBytes _ => false
  | VList l => forallb encodable l
  | VDict d => forallb (fun kv => encodable (snd kv)) d
  | _ => true
  end.

(** [os.write]: how many bytes it took. *)
Variable os_write : string -> res nat.

Definition _atomic_write_text (p : path) (payload : string) : io unit := fun w =>
  match (if has_surrogate payload then Err (ValueError "surrogates not allowed") else os_write payload) with
  | Ok n => (Ok tt, mk_world (<[p := slice n payload]> (files w)) (dirs w))
  | Err e => (Err e, w)
  end.

Definition manifest_path (run_root : path) : path := run_root ++ ["cinder-incident-gate.json"].
Definition report_path (run_root : path) : path := run_root ++ ["cinder-incident-gate-report.md"].
Definition manifest_text (m : pydict) : string := WorkerWire.ensure_ascii (pretty float_repr 0 (VDict m)) +:+ chr 10.

Definition read_children (run_root : path) (paths : EvidencePaths) (results : list ProbeResult) : io (list pyval) := fun w =>
  ((let* l := map_res (child_receipt run_root paths w) results in Ok (concat l)), w).

(** After the arguments are parsed: the exit status. *)
Definition run_selected (probes : list CinderProbe) (run_root : path) (created_at : string) : io Z :=
  let! results := run_all_probes probes (Some run_root) in
  let! paths := pure (_create_evidence_paths run_root) in
  let! children := read_children run_root paths results in
  let! entries := pure (map_res result_entry results) in
  let m := master run_root created_at children results entries in
  pure (raise TypeError when negb (encodable (VDict m));; Ok tt) ;!
  _atomic_write_text (manifest_path run_root) (manifest_text m) ;!
  let! report := pure (generate_report results) in
  _atomic_write_text (report_path run_root) (String.concat (chr 10) report +:+ chr 10) ;!
  done (if forallb containment_held results then 0 else 1).

Definition run_command (PROBES : list CinderProbe) (case : string) (base : path) (run_name created_at : string) : io Z :=
  let probes := if String.eqb case "all" then PROBES else List.filter (fun p => String.eqb (p_name p) case) PROBES in
  if negb (String.eqb case "all") && bool_decide (probes = []) then done 1
  else run_selected probes (base ++ [run_name]) created_at.

End gate.

(** ** [cindermote incident-gate doctor] *)
Record check := mk_check { ck_name : string; ok : bool; required : bool; detail : string }.

(** What the checks find on the host. *)
Record host := mk_host {
  snapshot_exists : bool; manifest_exists : bool; snapshot_verifies : res unit; kvm_usable : bool;
  which : string -> option string; userns_clone : res string; status_exists : bool; status_text : res string;
  cgroup2 : bool; euid : Z; key_exists : bool; firecracker : res (bool * Z);
}.

Section doctor.
Variable message : exn -> string.

Definition py_bool (b : bool) : string := if b then "True" else "False".

Definition command_check (h : host) (cmd : string) : check :=
  mk_check ("command_" +:+ cmd) (match which h cmd with Some _ => true | None => false end) true
    (match which h cmd with Some p => if String.eqb p "" then "missing" else p | None => "missing" end).

Definition userns_enabled (h : host) : res bool :=
  match userns_clone h with
  | Ok t => Ok (String.eqb (strip t) "1")
  | Err FileNotFoundError => Ok true
  | Err e => Err e
  end.

Definition seccomp_available (h : host) : bool :=
  status_exists h && match status_text h with Ok t => contains "Seccomp:" t | Err _ => false end.

Definition cgroup_detail (h : host) : string :=
  if cgroup2 h then "writable cgroup2 mount; limits are enforced"
  else if negb (euid h =? 0) then "not root: cgroup limits and mlock unavailable (degraded-user mode)"
  else "root, but /sys/fs/cgroup is not a writable cgroup2 mount (cgroup v1/hybrid host?); full-root mode would be denied".

Definition firecracker_ready (h : host) : bool := match firecracker h with Ok (ready, _) => ready | Err _ => false end.
Definition firecracker_detail (h : host) : string :=
  match firecracker h with
  | Ok (ready, n) => "ready=" +:+ py_bool ready +:+ ", checks=" +:+ dec n
  | Err e => "unavailable: " +:+ type_name e
  end.

Definition doctor_checks (h : host) : res (list check) :=
  let present := snapshot_exists h && manifest_exists h in
  let* userns := userns_enabled h in
  Ok ([mk_check "golden_snapshot" present true
         ("snapshot=" +:+ py_bool (snapshot_exists h) +:+ ", manifest=" +:+ py_bool (manifest_exists h))]
      ++ (if (present : bool) then
            [match snapshot_verifies h with
             | Ok _ => mk_check "snapshot_integrity" true true "verified"
             | Err e => mk_check "snapshot_integrity" false true (message e)
             end]
          else [])
      ++ [mk_check "kvm" (kvm_usable h) false
            (if kvm_usable h then "/dev/kvm rw"
             else "/dev/kvm unavailable (Firecracker profiles cannot run; namespace mode still works)");
          command_check h "python3"; command_check h "unshare";
          mk_check "user_namespaces" userns true (if (userns : bool) then "enabled" else "disabled");
          mk_check "seccomp" (seccomp_available h) true (if seccomp_available h then "available" else "unavailable");
          mk_check "cgroup_v2" (cgroup2 h) (euid h =? 0) (cgroup_detail h);
          mk_check "observer_key" true false (if key_exists h then "present" else "absent (created on first run)");
          mk_check "firecracker_runtime" (firecracker_ready h) false
            (firecracker_detail h +:+ " (namespace isolation does not require Firecracker)")]).

Definition degraded_checks (l : list check) : list string :=
  map ck_name (List.filter (fun c => negb (ok c) && negb (required c)) l).

Definition doctor_status (l : list check) : string :=
  if existsb (fun c => required c && negb (ok c)) l then "FAIL_PREREQUISITES_MISSING"
  else match degraded_checks l with [] => "READY" | _ => "DEGRADED" end.

(** The report of [run_doctor], without its time stamp. *)
Record doctor_report := mk_doctor {
  doctor_overall : string; isolation_mode : string; firecracker_available : bool; degraded : list string; checks : list check;
}.
Definition run_doctor (h : host) : res doctor_report :=
  let* l := doctor_checks h in
  Ok (mk_doctor (doctor_status l) (if euid h =? 0 then "full-root" else "degraded-user") (firecracker_ready h) (degraded_checks l) l).

Definition doctor_command (strict : bool) (h : host) : res Z :=
  let* r := run_doctor h in
  Ok (if String.eqb (doctor_overall r) "READY" then 0
      else if String.eqb (doctor_overall r) "DEGRADED" then (if strict then 1 else 0)
      else 1).

End doctor.

End IncidentGate.
