(* ===== verification/IncidentVerify.v ===== *)
(** * Verifying a run of the incident gate: scripts/verify-incident-gate-evidence.py

    [verify_run] over a file system that resolves paths and holds files.  The loop
    over the child receipts and the loop over the results each carry what the
    source carries: the errors so far, what was seen, and the receipts that
    passed. *)

From stdpp Require Import base list strings gmap.
From Stdlib Require Import ZArith Lia.
From S2P Require Import Prelude PyValue Sha256 Json StrOps Url PolicyGate BrowserEvidence BrowserReceipt DetonationReceipt IncidentGate.

Local Open Scope Z_scope.

Module IncidentVerify.
Import BrowserEvidence BrowserReceipt DetonationReceipt IncidentGate.

(** The file system while the verifier runs. *)
Record filesystem := mk_fs { fs_resolve : path -> res path; fs_file : path -> option string }.

Definition is_prefix (base p : path) : bool := match relative base p with Some _ => true | None => false end.

Definition read_bytes (fs : filesystem) (p : path) : res string :=
  match fs_file fs p with Some s => Ok s | None => Err FileNotFoundError end.
Definition _sha256 (fs : filesystem) (p : path) : res string :=
  let* raw := read_bytes fs p in Ok (hexdigest raw).

Definition _run_file (fs : filesystem) (run_root : path) (relative_path : pyval) : res path :=
  match relative_path with
  | VStr s =>
      raise (ValueError "child receipt path must be a non-empty string") when String.eqb s "";;
      raise (ValueError "child receipt path must be relative") when is_absolute s;;
      let* root := fs_resolve fs run_root in
      let* candidate := fs_resolve fs (joinpath root s) in
      raise (ValueError "child receipt path escapes the run directory")
        when bool_decide (candidate = root) || negb (is_prefix root candidate)
             || negb (bool_decide (is_Some (fs_file fs candidate)));;
      Ok candidate
  | _ => Err (ValueError "child receipt path must be a non-empty string")
  end.

Section verify.
Variables (float_repr : pyfloat -> string) (parse_float : string -> pyfloat).
Context `{Unicode} `{UnicodeDigits}.
Variable message : exn -> string.
Variables (fs : filesystem) (PROBES : list CinderProbe) (run_root : path) (key : string) (policy : policy_source).

Local Notation validate_receipt := (DetonationReceipt.validate_receipt float_repr parse_float).
Local Notation verify_signature := (DetonationReceipt.verify_signature float_repr).

Definition read_json (p : path) : res pyval :=
  let* raw := read_bytes fs p in
  let* text := PolicyGate.read_text raw in
  loads parse_float text.

(** ** Child receipts *)

(** What makes a receipt of the run directory acceptable for its manifest entry. *)
Definition accept_receipt (entry : pydict) (job_id raw : string) : res pydict :=
  raise (ValueError "receipt hash does not match manifest")
    when ne_str (default VNone (assoc "sha256" entry)) (hexdigest raw);;
  let* text := PolicyGate.read_text raw in
  let* receipt := loads parse_float text in
  let* _ := validate_receipt receipt policy in
  raise (ValueError "receipt signature is invalid") when negb (verify_signature (dict_of receipt) key);;
  let* identity := get_default receipt "identity" (VDict []) in
  let* job := get identity "job_id" in
  raise (ValueError "receipt job_id does not match manifest") when ne_str job job_id;;
  Ok (dict_of receipt).

(** The body of the [try]: the record as far as it was filled in, and the receipt. *)
Definition check_child_file (entry : pydict) (job_id : string) (record : pydict) : pydict * res pydict :=
  match _run_file fs run_root (default VNone (assoc "path" entry)) with
  | Err e => (record, Err e)
  | Ok receipt_path =>
      match read_bytes fs receipt_path with
      | Err e => (record, Err e)
      | Ok raw =>
          match relative_to run_root receipt_path with
          | Err e => (record, Err e)
          | Ok rel =>
              (dict_set "sha256" (VStr (hexdigest raw)) (dict_set "path" (VStr rel) record), accept_receipt entry job_id raw)
          end
      end
  end.

(** [except (OSError, ValueError, TypeError, json.JSONDecodeError)] *)
Definition reported (e : exn) : bool := is_os_error e || is_value_error e || match e with TypeError => true | _ => false end.

Record children_state := mk_children {
  c_errors : list string; c_checked : list pydict; c_seen : list string; c_receipts : list (string * pydict);
}.

Definition child_text (index : nat) : string := "child " +:+ dec (Z.of_nat index).

Definition check_child (index : nat) (s : children_state) (entry : pyval) : res children_state :=
  let record := [("index", VInt (Z.of_nat index)); ("valid", VBool false)] in
  match entry with
  | VDict d =>
      let job_id := default VNone (assoc "job_id" d) in
      let record := dict_set "job_id" job_id record in
      match job_id with
      | VStr j =>
          if String.eqb j "" || mem j (c_seen s) then
            Ok (mk_children (c_errors s ++ [child_text index +:+ ": invalid or duplicate job_id"]) (c_checked s ++ [record])
                  (c_seen s) (c_receipts s))
          else
            let seen := c_seen s ++ [j] in
            match check_child_file d j record with
            | (record, Ok receipt) =>
                Ok (mk_children (c_errors s) (c_checked s ++ [dict_set "valid" (VBool true) record]) seen
                      (dict_set j receipt (c_receipts s)))
            | (record, Err e) =>
                if reported e then
                  Ok (mk_children (c_errors s ++ ["child " +:+ j +:+ ": " +:+ message e]) (c_checked s ++ [record]) seen (c_receipts s))
                else Err e
            end
      | _ => Ok (mk_children (c_errors s ++ [child_text index +:+ ": invalid or duplicate job_id"]) (c_checked s ++ [record])
                   (c_seen s) (c_receipts s))
      end
  | _ => Ok (mk_children (c_errors s ++ [child_text index +:+ ": manifest entry is not an object"]) (c_checked s ++ [record])
               (c_seen s) (c_receipts s))
  end.

Fixpoint check_children (index : nat) (entries : list pyval) (s : children_state) : res children_state :=
  match entries with
  | [] => Ok s
  | e :: r => let* s := check_child index s e in check_children (S index) r s
  end.

(** ** Results *)

(** The fields a result must repeat of the probe. *)
Definition expected_fields (probe : CinderProbe) : pydict :=
  [("expected_risk", VStr (p_expected_risk probe)); ("expected_decision", VStr (p_expected_decision probe));
   ("expected_rules", strs (sort_strs (p_expected_rules probe)))].

(** [finding["rule_id"]] of the findings that have one *)
Definition fired_rules (findings : list pyval) : list string := sort_strs (flat_map rule_of findings).

(** The fields a result must repeat of its receipt. *)
Definition derived_fields (probe : CinderProbe) (receipt : pydict) : res pydict :=
  let* outward := sub (VDict receipt) "outward_report" in
  let* gate := sub (VDict receipt) "gate" in
  let* isolation := sub (VDict receipt) "isolation" in
  let* purge := sub (VDict receipt) "purge" in
  let observation := default (VDict []) (assoc "observation" receipt) in
  let* risk := get_default outward "risk_level" (VStr "unknown") in
  let* decision := get_default gate "final_decision" (VStr "UNKNOWN") in
  let* found := sub (VDict receipt) "detector_findings" in
  let* findings := py_iter found in
  let rules := fired_rules findings in
  let* isolated := both_true isolation "namespace_used" "seccomp_loaded" in
  let* verified := get purge "verified_externally" in
  let purged := is_true verified in
  let status := status_of observation in
  let* observed_rank := risk_rank risk in
  let* expected_rank := match assoc (p_expected_risk probe) RISK_RANK with Some r => Ok r | None => Err KeyError end in
  let held :=
    (expected_rank <=? observed_rank) && py_eq decision (VStr (p_expected_decision probe))
    && forallb (fun r => mem r rules) (p_expected_rules probe) && isolated && purged && String.eqb status "COMPLETE"
    && is_false (default VNone (assoc "telemetry_incomplete" receipt)) in
  Ok [("observed_risk", risk); ("observed_decision", decision); ("observed_rules", strs rules);
      ("isolation_confirmed", VBool isolated); ("purge_verified", VBool purged); ("observation_status", VStr status);
      ("containment_held", VBool held)].

(** One error for every field of the result that is not as given. *)
Definition disagreements (result : pydict) (prefix suffix : string) (fields : pydict) : list string :=
  flat_map (fun kv => if ne (default VNone (assoc (fst kv) result)) (snd kv) then [prefix +:+ fst kv +:+ suffix] else []) fields.

Record results_state := mk_results { s_errors : list string; s_names : list string }.

(** In a dict the last probe of a name is kept. *)
Definition find_probe (n : string) : option CinderProbe := List.find (fun p => String.eqb (p_name p) n) (rev PROBES).

Definition check_result (receipts : list (string * pydict)) (index : nat) (s : results_state) (result : pyval)
    : res results_state :=
  match result with
  | VDict d =>
      let bad := Ok (mk_results (s_errors s ++ ["result " +:+ dec (Z.of_nat index) +:+ ": invalid or duplicate probe name"])
                       (s_names s)) in
      match default VNone (assoc "name" d) with
      | VStr n =>
          match (if mem n (s_names s) then None else find_probe n) with
          | None => bad
          | Some probe =>
              let names := s_names s ++ [n] in
              match default VNone (assoc "job_id" d) with
              | VStr j =>
                  match assoc j receipts with
                  | None => Ok (mk_results (s_errors s) names)
                  | Some receipt =>
                      let e1 := disagreements d ("result " +:+ n +:+ ": ") " disagrees with the probe definition" (expected_fields probe) in
                      let* derived := derived_fields probe receipt in
                      let e2 := disagreements d ("result " +:+ n +:+ ": ") " disagrees with its signed receipt" derived in
                      Ok (mk_results (s_errors s ++ e1 ++ e2) names)
                  end
              | _ => Ok (mk_results (s_errors s) names)
              end
          end
      | _ => bad
      end
  | _ => Ok s
  end.

Fixpoint check_results (receipts : list (string * pydict)) (index : nat) (results : list pyval) (s : results_state)
    : res results_state :=
  match results with
  | [] => Ok s
  | x :: r => let* s := check_result receipts index s x in check_results receipts (S index) r s
  end.

(** ** The manifest *)
Definition field (d : pydict) (k : string) : pyval := default VNone (assoc k d).

(** [{r.get("job_id") for r in results if ...}] *)
Definition job_of (result : pyval) : list string :=
  match result with VDict d => match assoc "job_id" d with Some (VStr j) => [j] | _ => [] end | _ => [] end.
Definition same_set (a b : list string) : bool := forallb (fun x => mem x b) a && forallb (fun x => mem x a) b.

Definition well_shaped (result : pyval) : bool :=
  match result with
  | VDict d => is_bool (field d "containment_held") && is_bool (field d "isolation_confirmed")
               && is_bool (field d "purge_verified") && is_str (field d "observation_status")
  | _ => false
  end.
Definition flag (k : string) (result : pyval) : bool := truthy (field (dict_of result) k).

Definition computed_status (results : list pyval) : string :=
  if forallb (flag "containment_held") results then "ALL_BOUNDARIES_HELD"
  else if existsb (fun r => negb (flag "isolation_confirmed" r) || negb (flag "purge_verified" r)) results
       then "BOUNDARY_FAILURE_DETECTED"
  else if existsb (fun r => flag "error" r || ne_str (field (dict_of r) "observation_status") "COMPLETE") results
       then "EVALUATION_INCOMPLETE"
  else "CONTAINMENT_TEST_FAILED".

(** The errors and the warnings of the last part. *)
Definition check_totals (manifest : pydict) (results : list pyval) : list string * list string :=
  if negb (forallb well_shaped results) then (["manifest containment results are malformed"], [])
  else
    let e1 := match field manifest "all_contained" with
              | VBool b => if Bool.eqb b (forallb (flag "containment_held") results) then []
                           else ["manifest all_contained disagrees with its results"]
              | _ => ["manifest all_contained must be a bool"]
              end in
    match field manifest "overall_status" with
    | VNone => (e1, ["legacy manifest has no overall_status"])
    | declared => (e1 ++ (if ne_str declared (computed_status results)
                          then ["manifest overall_status disagrees with its results"] else []), [])
    end.

(** What is not about a single entry. *)
Definition check_counts (manifest : pydict) (children results : list pyval) (seen : list string) : list string :=
  (if ne (field manifest "probe_count") (VInt (Z.of_nat (length children))) || negb (length results =? length children)%nat
   then ["manifest probe_count, results, and child receipts disagree"] else [])
  ++ (if same_set (flat_map job_of results) seen then []
      else ["manifest result job_ids and child receipt job_ids disagree"]).

Definition check_head (manifest : pydict) : list string :=
  (if ne_str (field manifest "gate") GATE_VERSION then ["invalid incident-gate manifest"] else [])
  ++ (if ne_str (field manifest "run_id") (List.last run_root "") then ["manifest run_id does not match its directory"] else []).

Definition both_lists (manifest : pydict) : option (list pyval * list pyval) :=
  match default (VList []) (assoc "child_receipts" manifest), default (VList []) (assoc "results" manifest) with
  | VList children, VList results => Some (children, results)
  | _, _ => None
  end.

Record verification := mk_verification {
  run_id : pyval; overall_status : pyval; checked : list pydict; warnings : list string; errors : list string; verified : bool;
}.

Definition check_manifest (manifest : pydict) (expect_all : bool) : res verification :=
  let '(children, results) := default ([], []) (both_lists manifest) in
  let e1 := check_head manifest
            ++ match both_lists manifest with Some _ => [] | None => ["manifest child_receipts and results must be lists"] end in
  let* c := check_children 0 children (mk_children e1 [] [] []) in
  let* r := check_results (c_receipts c) 0 results
              (mk_results (c_errors c ++ check_counts manifest children results (c_seen c)) []) in
  let e2 := if expect_all && negb (same_set (s_names r) (map p_name PROBES))
            then ["run does not contain the complete canonical probe set"] else [] in
  let '(e3, warnings) := check_totals manifest results in
  let errors := s_errors r ++ e2 ++ e3 in
  Ok (mk_verification (field manifest "run_id") (field manifest "overall_status") (c_checked c) warnings errors
        (bool_decide (errors = []))).

End verify.

(** ** [verify_run] *)
Section run.
Variables (float_repr : pyfloat -> string) (parse_float : string -> pyfloat).
Context `{Unicode} `{UnicodeDigits}.
Variables (message : exn -> string) (fs : filesystem) (PROBES : list CinderProbe).

(** The JSON value of the policy file as [active_policy]: an object is the policy,
    null means the default file, a string names a file, anything else is refused. *)
Definition policy_of (v : pyval) (default_policy : option string) (read : string -> option string) : policy_source :=
  match v with
  | VStr s => PolicyFile (read s)
  | VNone => PolicyFile default_policy
  | _ => PolicyDict v
  end.

Definition verify_run (run_root key_path policy_path : path) (default_policy : option string) (read : string -> option string)
    (expect_all : bool) : res verification :=
  let* run_root := fs_resolve fs run_root in
  let* manifest := read_json parse_float fs (manifest_path run_root) in
  raise (ValueError "incident-gate manifest must be an object") when negb (is_dict manifest);;
  let* key := read_bytes fs key_path in
  raise (ValueError "observer key must contain exactly 32 bytes") when negb (String.length key =? 32)%nat;;
  let* policy := read_json parse_float fs policy_path in
  check_manifest float_repr parse_float message fs PROBES run_root key (policy_of policy default_policy read) (dict_of manifest) expect_all.

(** The report that [verify_run] returns, as a JSON object; the root is resolved. *)
Definition verify_report (root : path) (v : verification) : res pydict :=
  let* manifest_sha256 := _sha256 fs (manifest_path root) in
  let report_sha256 := match fs_file fs (report_path root) with Some raw => VStr (hexdigest raw) | None => VNone end in
  let valid := List.filter (fun record => truthy (field record "valid")) (checked v) in
  Ok [("verification_version", VInt 1); ("run_id", run_id v); ("overall_status", overall_status v);
      ("manifest_sha256", VStr manifest_sha256); ("report_sha256", report_sha256); ("child_receipts", VList (map VDict (checked v)));
      ("verified_receipt_count", VInt (Z.of_nat (length valid))); ("warnings", strs (warnings v)); ("errors", strs (errors v));
      ("verified", VBool (verified v))].

(** The object the script prints: an exception is a report of its own. *)
Definition main_result (run_root key_path policy_path : path) (default_policy : option string) (read : string -> option string)
    (expect_all : bool) : res pydict :=
  match (let* root := fs_resolve fs run_root in
         let* v := verify_run run_root key_path policy_path default_policy read expect_all in
         verify_report root v) with
  | Ok d => Ok d
  | Err e => if reported e then Ok [("verification_version", VInt 1); ("verified", VBool false); ("errors", strs [message e])] else Err e
  end.

(** The exit status of the script. *)
Definition main_status (result : pydict) : Z := if is_true (field result "verified") then 0 else 1.

End run.
End IncidentVerify.
