(* ===== verification/IncidentFacts.v ===== *)
(** * What a verified incident-gate run shows

    Theorems about incident_gate.py and scripts/verify-incident-gate-evidence.py:
    a run that verifies is backed by signed receipts, one of its own for every
    probe, and the evaluation of the gate and of the verifier is the same. *)

From stdpp Require Import base list strings gmap sorting.
From Stdlib Require Import ZArith Lia.
From S2P Require Import Prelude PyValue Sha256 Json JsonFacts StrOps Url PolicyGate BrowserEvidence BrowserReceipt.
From S2P Require Import DetonationReceipt ReceiptFacts PyRepr IncidentGate IncidentVerify.

Local Open Scope Z_scope.

Module IncidentFacts.
Import BrowserEvidence BrowserReceipt DetonationReceipt ReceiptFacts IncidentGate IncidentVerify.

(** ** Strings as sets *)
Lemma same_set_spec a b : same_set a b = true <-> forall x, In x a <-> In x b.
Proof.
  unfold same_set. rewrite andb_true_iff, !forallb_forall. split.
  - intros [Ha Hb] x. split; intros Hx; [by apply mem_In, Ha|by apply mem_In, Hb].
  - intros He. split; intros x Hx; apply mem_In; by apply He.
Qed.

(** Each contributes at most one: as many distinct values as contributors means
    that each contributes one of its own. *)
Lemma contributors {A} (f : A -> list string) (l : list A) (s : list string) :
  (forall x, (length (f x) <= 1)%nat) -> List.NoDup s -> length l = length s -> incl s (flat_map f l) ->
  List.NoDup (flat_map f l) /\ Forall (fun x => exists y, f x = [y]) l.
Proof.
  intros Hf Hs Hl Hi.
  assert (Hle : forall l, (length (flat_map f l) <= length l)%nat).
  { intros m. induction m as [|x m IH]; cbn; [lia|]. rewrite length_app. specialize (Hf x). lia. }
  assert (Heq : length (flat_map f l) = length l).
  { apply Nat.le_antisymm; [apply Hle|]. rewrite Hl. by apply NoDup_incl_length. }
  split; [eapply NoDup_incl_NoDup; [exact Hs| |done]; lia|]. clear Hs Hi Hl.
  induction l as [|x l IH]; [constructor|]. cbn in Heq. rewrite length_app in Heq. specialize (Hf x). specialize (Hle l).
  constructor; [|apply IH; lia]. destruct (f x) as [|y [|]]; cbn in *; [lia|eauto|lia].
Qed.

Lemma mem_ext r a b : (In r a <-> In r b) -> mem r a = mem r b.
Proof. rewrite <- !mem_In. destruct (mem r a), (mem r b); naive_solver. Qed.
Lemma in_sort_strs r l : In r (sort_strs l) <-> In r l.
Proof. rewrite <- !list_elem_of_In. by rewrite sort_strs_perm. Qed.
Lemma in_dedup r l : In r (dedup_strs l) <-> In r l.
Proof. unfold dedup_strs. rewrite <- !list_elem_of_In. apply elem_of_remove_dups. Qed.

Lemma forallb_same {A} (p q : A -> bool) l : (forall x, p x = q x) -> forallb p l = forallb q l.
Proof. intros Hp. induction l as [|x l IH]; [done|]. cbn. by rewrite Hp, IH. Qed.

Lemma same_rules expected rules :
  forallb (fun r => mem r (sort_strs rules)) expected = forallb (fun r => mem r (dedup_strs rules)) expected.
Proof. apply forallb_same. intros r. apply mem_ext. by rewrite in_sort_strs, in_dedup. Qed.

(** ** What it means that a probe was contained *)
Definition contained (probe : CinderProbe) (receipt : pydict) : Prop :=
  let part k := default (VDict []) (assoc k receipt) in
  (exists risk n m, get_default (part "outward_report") "risk_level" (VStr "unknown") = Ok risk /\ risk_rank risk = Ok m /\
     assoc (p_expected_risk probe) RISK_RANK = Some n /\ n <= m) /\
  get_default (part "gate") "final_decision" (VStr "UNKNOWN") = Ok (VStr (p_expected_decision probe)) /\
  (forall r, In r (p_expected_rules probe) ->
     exists findings finding, assoc "detector_findings" receipt = Some findings /\ In (VDict finding) (list_of findings) /\
       assoc "rule_id" finding = Some (VStr r)) /\
  flags_true (part "isolation") ["namespace_used"; "seccomp_loaded"] /\
  sub (part "purge") "verified_externally" = Ok (VBool true) /\
  sub (part "observation") "status" = Ok (VStr "COMPLETE") /\
  assoc "telemetry_incomplete" receipt = Some (VBool false).

Lemma get_flag d k v : get d k = Ok v -> is_true v = true -> sub d k = Ok (VBool true).
Proof.
  intros Hg ->%is_true_spec. destruct d; try done. cbn in *. destruct (assoc k d) as [w|]; cbn in *; congruence.
Qed.

Lemma both_true_spec d a b : both_true d a b = Ok true -> flags_true d [a; b].
Proof.
  unfold both_true. intros Hb. run_inv. destruct (is_true x) eqn:E; run_inv; [|done].
  intros k [<-|[<-|[]]]; eapply get_flag; eauto.
Qed.

Lemma status_complete v : status_of v = "COMPLETE" -> sub v "status" = Ok (VStr "COMPLETE").
Proof.
  destruct v; try done. cbn. destruct (assoc "status" d) as [w|]; cbn; [|done].
  destruct (py_eq w (VStr "COMPLETE")) eqn:E; [|done]. intros _. apply py_eq_str in E as ->. done.
Qed.

Lemma rule_of_In r finding : In r (rule_of finding) -> exists d, finding = VDict d /\ assoc "rule_id" d = Some (VStr r).
Proof.
  destruct finding as [| | | | | | |d]; try done. cbn. destruct (assoc "rule_id" d) as [[]|] eqn:E; try done.
  intros [<-|[]]. eauto.
Qed.

Lemma no_rules findings l : py_iter findings = Ok l -> forall x, In x l -> is_dict x = true -> list_of findings = l.
Proof.
  destruct findings; try done; cbn; intros [= <-] x Hx Hd; first [done | by apply in_map_iff in Hx as (? & <- & _)].
Qed.

Lemma held_contained probe receipt r :
  _evaluate_receipt probe receipt = Ok r -> containment_held r = true -> contained probe receipt.
Proof.
  unfold _evaluate_receipt. cbv zeta. intros He Hh. run_inv. subst r. cbn [containment_held] in Hh. run_inv.
  unfold contained. cbv zeta.
  match goal with Hx : match assoc (p_expected_risk probe) _ with _ => _ end = true |- _ =>
    destruct (assoc (p_expected_risk probe) RISK_RANK) as [n|] eqn:En; [|done]; apply Z.leb_le in Hx end.
  match goal with Hx : py_eq _ (VStr (p_expected_decision _)) = true |- _ => apply py_eq_str in Hx as -> end. subst.
  match goal with Hx : forallb _ (p_expected_rules _) = true |- _ => rewrite forallb_forall in Hx; rename Hx into Hrules end.
  split; [by eauto 8|]. split; [done|]. split; [|split; [by apply both_true_spec|split; [by eapply get_flag|split]]].
  - intros r Hr. apply Hrules, mem_In, in_dedup, in_flat_map in Hr as (finding & Hin & Hr).
    apply rule_of_In in Hr as (d & -> & Hd).
    match goal with Hx : py_iter _ = Ok _ |- _ => pose proof (no_rules _ _ Hx _ Hin eq_refl) as Hl end.
    destruct (assoc "detector_findings" receipt) as [findings|]; cbn in *; [|by subst].
    exists findings, d. by rewrite Hl.
  - by apply status_complete, String.eqb_eq.
  - destruct (assoc "telemetry_incomplete" receipt) as [[|[]| | | | | |]|]; cbn in *; try done.
Qed.

(** ** The two evaluations *)

(** The fields of a result, as the verifier compares them. *)
Definition result_fields (r : ProbeResult) (rules : list string) : pydict :=
  [("observed_risk", observed_risk r); ("observed_decision", observed_decision r); ("observed_rules", strs rules);
   ("isolation_confirmed", VBool (isolation_confirmed r)); ("purge_verified", VBool (purge_verified r));
   ("observation_status", VStr (observation_status r)); ("containment_held", VBool (containment_held r))].

(** The rules of the findings, in their order. *)
Definition fired (receipt : pydict) : list string :=
  match py_iter (default (VList []) (assoc "detector_findings" receipt)) with Ok l => flat_map rule_of l | Err _ => [] end.

Lemma derived_evaluation probe receipt fields :
  derived_fields probe receipt = Ok fields ->
  exists r, _evaluate_receipt probe receipt = Ok r /\ observed_rules r = dedup_strs (fired receipt) /\
    fields = result_fields r (sort_strs (fired receipt)).
Proof.
  unfold derived_fields, _evaluate_receipt, fired. cbv zeta. cbn [sub]. intros Hd. run_inv.
  repeat match goal with Hx : match assoc ?k receipt with _ => _ end = Ok _ |- _ => destruct (assoc k receipt) as [?|] eqn:?; [|done] end.
  run_inv. subst. cbn [default from_option id].
  repeat match goal with Hx : _ = Ok _ |- _ => rewrite Hx; clear Hx end. cbn [mbind res_bind].
  match goal with Hx : match assoc (p_expected_risk probe) _ with _ => _ end = Ok _ |- _ =>
    destruct (assoc (p_expected_risk probe) RISK_RANK); [|done]; injection Hx as -> end.
  match goal with Hx : risk_rank _ = Ok _ |- _ => rewrite Hx end. cbn [mbind res_bind].
  eexists. split; [reflexivity|]. split; [done|]. unfold result_fields. cbn [containment_held isolation_confirmed purge_verified
    observation_status observed_risk observed_decision]. unfold fired_rules. by rewrite same_rules.
Qed.

(** ** The loops of the verifier *)
Section loops.
Variables (float_repr : pyfloat -> string) (parse_float : string -> pyfloat).
Context `{Unicode} `{UnicodeDigits}.
Variable message : exn -> string.
Variables (fs : filesystem) (PROBES : list CinderProbe) (run_root : path) (key : string) (policy : policy_source).

Local Notation validate_receipt := (DetonationReceipt.validate_receipt float_repr parse_float).
Local Notation verify_signature := (DetonationReceipt.verify_signature float_repr).
Local Notation check_children := (IncidentVerify.check_children float_repr parse_float message fs run_root key policy).
Local Notation check_child := (IncidentVerify.check_child float_repr parse_float message fs run_root key policy).
Local Notation check_results := (IncidentVerify.check_results PROBES).
Local Notation check_result := (IncidentVerify.check_result PROBES).
Local Notation find_probe := (IncidentVerify.find_probe PROBES).

(** A receipt in a file of the run directory, valid under the active policy and
    signed with the key. *)
Definition evidence (file : path) (j : string) (receipt : pydict) (digest : string) : Prop :=
  exists raw, is_prefix run_root file = true /\
    fs_file fs file = Some raw /\ digest = hexdigest raw /\
    PolicyGate.read_text raw = Ok raw /\ loads parse_float raw = Ok (VDict receipt) /\
    validate_receipt (VDict receipt) policy = Ok tt /\ verify_signature receipt key = true /\
    exists identity, assoc "identity" receipt = Some identity /\ sub identity "job_id" = Ok (VStr j).

(** An entry of [child_receipts] that names the receipt's file, its job and the digest
    of its bytes. *)
Definition accepted (entry : pyval) (jr : string * pydict) : Prop :=
  exists d file digest, entry = VDict d /\ assoc "job_id" d = Some (VStr (fst jr)) /\ assoc "sha256" d = Some (VStr digest) /\
    _run_file fs run_root (default VNone (assoc "path" d)) = Ok file /\ evidence file (fst jr) (snd jr) digest.

Lemma ne_str_false v s : ne_str v s = false -> v = VStr s.
Proof. unfold ne_str, ne. intros Hn%negb_false_iff. by apply py_eq_str. Qed.

Lemma assoc_field k d s : default VNone (assoc k d) = VStr s -> assoc k d = Some (VStr s).
Proof. destruct (assoc k d); cbn; congruence. Qed.

Lemma read_text_raw raw t : PolicyGate.read_text raw = Ok t -> t = raw.
Proof. unfold PolicyGate.read_text. destruct (_ && _); [|done]. by intros [= <-]. Qed.

Lemma accept_receipt_inv d j raw receipt :
  accept_receipt float_repr parse_float key policy d j raw = Ok receipt ->
  assoc "sha256" d = Some (VStr (hexdigest raw)) /\ PolicyGate.read_text raw = Ok raw /\
  loads parse_float raw = Ok (VDict receipt) /\ validate_receipt (VDict receipt) policy = Ok tt /\
  verify_signature receipt key = true /\ exists identity, assoc "identity" receipt = Some identity /\ sub identity "job_id" = Ok (VStr j).
Proof.
  unfold accept_receipt. intros Ha. run_inv. subst.
  repeat match goal with Hx : ne_str _ _ = false |- _ => apply ne_str_false in Hx end.
  match goal with Hx : PolicyGate.read_text raw = Ok ?t |- _ => assert (t = raw) as -> by by eapply read_text_raw end.
  match goal with Hx : validate_receipt ?v _ = Ok ?u |- _ => destruct u; pose proof Hx as Hv; unfold DetonationReceipt.validate_receipt in Hv end.
  apply raise_if_ok in Hv as [Hv _]. run_inv.
  match goal with Hx : is_dict ?v = true |- _ => destruct v as [| | | | | | |r]; try discriminate Hx end. cbn [dict_of] in *.
  match goal with Hx : has_keys REQUIRED_SECTIONS _ = true |- _ => rename Hx into Hk end.
  assert (Hid : exists identity, assoc "identity" r = Some identity).
  { unfold has_keys in Hk. rewrite forallb_forall in Hk. specialize (Hk "identity" ltac:(by left)). cbn in Hk.
    unfold has_key in Hk. destruct (assoc "identity" r); [eauto|done]. }
  destruct Hid as [identity Hid]. split_and!; try done; [by apply assoc_field|]. exists identity. split; [done|].
  cbn [get_default] in *. rewrite Hid in *. cbn [default from_option id] in *. run_inv. subst. by apply get_str.
Qed.

Lemma relative_ok base p t : relative_to base p = Ok t -> is_prefix base p = true.
Proof. unfold relative_to, is_prefix. by destruct (relative base p). Qed.

Lemma check_child_file_inv d j record record' receipt :
  check_child_file float_repr parse_float fs run_root key policy d j record = (record', Ok receipt) ->
  assoc "job_id" d = Some (VStr j) -> accepted (VDict d) (j, receipt).
Proof.
  unfold check_child_file. destruct (_run_file _ _ _) as [file|] eqn:Ep; [|done].
  unfold read_bytes. destruct (fs_file fs file) as [raw|] eqn:Ef; [|done].
  destruct (relative_to run_root file) as [rel|] eqn:Er; [|done]. intros [= _ Ha] Hj.
  apply accept_receipt_inv in Ha as (Hs & Ht & Hl & Hv & Hsig & Hid). exists d, file, (hexdigest raw).
  split_and!; [done..|]. exists raw. split_and!; try done. by eapply relative_ok.
Qed.

(** No error after a step means none before it and an accepted entry. *)
Lemma check_child_clean i s entry s' :
  check_child i s entry = Ok s' -> c_errors s' = [] ->
  c_errors s = [] /\ exists jr, accepted entry jr /\ ~ In (fst jr) (c_seen s) /\
    c_seen s' = c_seen s ++ [fst jr] /\ c_receipts s' = dict_set (fst jr) (snd jr) (c_receipts s).
Proof.
  assert (Hno : forall (l : list string) x, l ++ [x] = [] -> False) by by intros [].
  unfold IncidentVerify.check_child. destruct entry as [| | | | | | |d]; try (by intros [= <-] Hc%Hno).
  destruct (default VNone (assoc "job_id" d)) eqn:Ej; try (by intros [= <-] Hc%Hno).
  destruct (_ || _) eqn:Eg; [by intros [= <-] Hc%Hno|]. apply orb_false_iff in Eg as [_ Hm].
  destruct (check_child_file _ _ _ _ _ _ _ _) as [record [receipt|e]] eqn:Ec.
  - intros [= <-] Hc. cbn in *. split; [done|]. exists (s0, receipt). cbn [fst snd].
    split; [eapply check_child_file_inv; [exact Ec|by apply assoc_field]|]. split_and!; try done.
    intros Hin%mem_In. congruence.
  - destruct (reported e); [|done]. by intros [= <-] Hc%Hno.
Qed.

Lemma check_children_errors entries : forall i s s', check_children i entries s = Ok s' -> c_errors s' = [] -> c_errors s = [].
Proof.
  induction entries as [|e entries IH]; intros i s s' Hc He; cbn [IncidentVerify.check_children] in Hc; [by injection Hc as <-|].
  run_inv. eapply check_child_clean; [done|]. by eapply IH.
Qed.

Lemma check_children_clean entries : forall i s s',
  check_children i entries s = Ok s' -> c_errors s' = [] -> keys (c_receipts s) = c_seen s -> NoDup (c_seen s) ->
  exists l, Forall2 accepted entries l /\ c_seen s' = c_seen s ++ map fst l /\ c_receipts s' = c_receipts s ++ l /\
    NoDup (c_seen s').
Proof.
  induction entries as [|e entries IH]; intros i s s' Hc He Hk Hn; cbn [IncidentVerify.check_children] in Hc.
  - injection Hc as <-. exists []. cbn. rewrite !app_nil_r. by split_and!.
  - run_inv. match goal with Hx : check_child _ _ _ = Ok ?t |- _ => rename t into s1; rename Hx into Hone end.
    pose proof (check_children_errors _ _ _ _ Hc He) as He1.
    destruct (check_child_clean _ _ _ _ Hone He1) as (_ & jr & Ha & Hf & Hs & Hr).
    rewrite dict_set_fresh in Hr by by rewrite Hk.
    destruct (IH _ _ _ Hc He) as (l & HF & Hs' & Hr' & Hn').
    + rewrite Hr, Hs. unfold keys in *. by rewrite map_app, Hk.
    + rewrite Hs. apply NoDup_app. split_and!; [done| |apply NoDup_singleton].
      intros x Hx ->%list_elem_of_singleton. by apply Hf, list_elem_of_In.
    + exists (jr :: l). rewrite Hs', Hr', Hs, Hr. cbn [map]. rewrite <- !app_assoc. destruct jr. split_and!; try done; [by constructor|].
      by rewrite Hs', Hs, <- app_assoc in Hn'.
Qed.

(** A result that says of the receipt what the gate's own evaluation says. *)
Definition agreed (d : pydict) (probe : CinderProbe) (receipt : pydict) (r : ProbeResult) : Prop :=
  _evaluate_receipt probe receipt = Ok r /\
  forall k v, In (k, v) (expected_fields probe ++ result_fields r (sort_strs (fired receipt))) ->
    py_eq (default VNone (assoc k d)) v = true.

Lemma disagreements_nil d p q fields k v :
  disagreements d p q fields = [] -> In (k, v) fields -> py_eq (default VNone (assoc k d)) v = true.
Proof.
  unfold disagreements. induction fields as [|[k' v'] fields IH]; [done|]. cbn [flat_map fst snd].
  intros [Hd1 Hd2]%app_eq_nil. intros [[= -> ->]|Hin]; [|by apply IH]. apply ne_false. by destruct (ne _ _).
Qed.

Definition checked_result (receipts : list (string * pydict)) (d : pydict) (n : string) : Prop :=
  exists probe, assoc "name" d = Some (VStr n) /\ find_probe n = Some probe /\
    forall j receipt, assoc "job_id" d = Some (VStr j) -> assoc j receipts = Some receipt -> exists r, agreed d probe receipt r.

Lemma check_result_clean receipts i s result s' :
  check_result receipts i s result = Ok s' -> s_errors s' = [] ->
  s_errors s = [] /\
  match result with
  | VDict d => exists n, checked_result receipts d n /\ ~ In n (s_names s) /\ s_names s' = s_names s ++ [n]
  | _ => s' = s
  end.
Proof.
  assert (Hno : forall (l : list string) x, l ++ [x] = [] -> False) by by intros [].
  unfold IncidentVerify.check_result. destruct result as [| | | | | | |d]; try (intros [= <-]; done).
  destruct (default VNone (assoc "name" d)) eqn:En; try (by intros [= <-] Hc%Hno). apply assoc_field in En.
  destruct (mem s0 (s_names s)) eqn:Em; [by intros [= <-] Hc%Hno|].
  assert (Hm : ~ In s0 (s_names s)) by (rewrite <- mem_In; congruence).
  destruct (find_probe s0) as [probe|] eqn:Ep; [|by intros [= <-] Hc%Hno].
  assert (Hskip : forall j receipt, default VNone (assoc "job_id" d) <> VStr j \/ assoc j receipts = None ->
    assoc "job_id" d = Some (VStr j) -> assoc j receipts = Some receipt -> exists r, agreed d probe receipt r).
  { intros j receipt [Hx|Hx] Hy Hz; [|congruence]. by rewrite Hy in Hx. }
  destruct (default VNone (assoc "job_id" d)) eqn:Ej;
    try (intros [= <-] Hc; cbn in *; split; [done|]; exists s0; split_and!; [|done..]; exists probe;
         split_and!; [done..|]; intros j receipt; apply Hskip; by left).
  apply assoc_field in Ej as Ej'. destruct (assoc s1 receipts) as [receipt|] eqn:Er.
  - intros Hc He. run_inv. subst s'. cbn [s_errors s_names] in *. apply app_eq_nil in He as [He [Hx1 Hx2]%app_eq_nil].
    split; [done|]. exists s0. split_and!; [|done..]. exists probe. split_and!; [done..|].
    intros j receipt' Hj Hr. rewrite Ej' in Hj. injection Hj as <-. rewrite Er in Hr. injection Hr as <-.
    match goal with Hx : derived_fields _ _ = Ok _ |- _ => apply derived_evaluation in Hx as (r & Hev & _ & ->) end.
    exists r. split; [done|]. intros k v [Hin|Hin]%in_app_iff; (eapply disagreements_nil; [|exact Hin]); eassumption.
  - intros [= <-] Hc. cbn in *. split; [done|]. exists s0. split_and!; [|done..]. exists probe. split_and!; [done..|].
    intros j receipt Hj Hr. rewrite Ej' in Hj. injection Hj as <-. congruence.
Qed.

Lemma check_results_errors receipts results : forall i s s',
  check_results receipts i results s = Ok s' -> s_errors s' = [] -> s_errors s = [].
Proof.
  induction results as [|x results IH]; intros i s s' Hc He; cbn [IncidentVerify.check_results] in Hc; [by injection Hc as <-|].
  run_inv. eapply check_result_clean; [done|]. by eapply IH.
Qed.

Lemma check_results_clean receipts results : forall i s s',
  check_results receipts i results s = Ok s' -> s_errors s' = [] -> Forall (fun x => is_dict x = true) results ->
  NoDup (s_names s) ->
  exists names, Forall2 (fun x n => checked_result receipts (dict_of x) n) results names /\
    s_names s' = s_names s ++ names /\ NoDup (s_names s').
Proof.
  induction results as [|x results IH]; intros i s s' Hc He Hd Hn; cbn [IncidentVerify.check_results] in Hc.
  - injection Hc as <-. exists []. rewrite app_nil_r. by split_and!; [constructor|..].
  - run_inv. match goal with Hx : check_result _ _ _ _ = Ok ?t |- _ => rename t into s1; rename Hx into Hone end.
    pose proof (check_results_errors _ _ _ _ _ Hc He) as He1. inversion Hd as [|? ? Hx Hd']; subst.
    destruct (check_result_clean _ _ _ _ _ Hone He1) as [_ Hr]. destruct x as [| | | | | | |d]; try done.
    destruct Hr as (n & Hck & Hf & Hs). destruct (IH _ _ _ Hc He Hd') as (names & HF & Hs' & Hn').
    + rewrite Hs. apply NoDup_app. split_and!; [done| |apply NoDup_singleton].
      intros y Hy ->%list_elem_of_singleton. by apply Hf, list_elem_of_In.
    + exists (n :: names). rewrite Hs', Hs, <- app_assoc. split_and!; [by constructor|done|].
      by rewrite Hs', Hs, <- app_assoc in Hn'.
Qed.

(** ** A run without errors *)

(** What stands behind a result. *)
Record backing := mk_backing { b_probe : CinderProbe; b_job : string; b_receipt : pydict; b_result : ProbeResult }.
Definition backs (children : list pyval) (result : pyval) (b : backing) : Prop :=
  exists d entry, result = VDict d /\ assoc "name" d = Some (VStr (p_name (b_probe b))) /\
    assoc "job_id" d = Some (VStr (b_job b)) /\ In (b_probe b) PROBES /\
    In entry children /\ accepted entry (b_job b, b_receipt b) /\ agreed d (b_probe b) (b_receipt b) (b_result b).

Lemma find_probe_spec n probe : find_probe n = Some probe -> In probe PROBES /\ p_name probe = n.
Proof. unfold IncidentVerify.find_probe. intros Hf. apply List.find_some in Hf as [Hi%in_rev He%String.eqb_eq]. done. Qed.

Lemma job_of_short x : (length (job_of x) <= 1)%nat.
Proof. destruct x; cbn; try lia. destruct (assoc "job_id" d) as [[]|]; cbn; lia. Qed.

Lemma well_shaped_dict x : well_shaped x = true -> is_dict x = true.
Proof. by destruct x. Qed.

Lemma forallb_Forall {A} (p : A -> bool) l : forallb p l = true -> Forall (fun x => p x = true) l.
Proof. rewrite forallb_forall, Forall_forall. intros Hp x Hx. by apply Hp, list_elem_of_In. Qed.

(** Every result has a receipt of its own. *)
Lemma results_backed children results l names :
  Forall2 accepted children l -> NoDup (map fst l) -> length results = length children ->
  (forall x, In x (flat_map job_of results) <-> In x (map fst l)) ->
  Forall2 (fun x n => checked_result l (dict_of x) n) results names -> Forall (fun x => is_dict x = true) results ->
  exists bs, Forall2 (backs children) results bs /\ List.NoDup (map b_job bs) /\ names = map (fun b => p_name (b_probe b)) bs.
Proof.
  intros Hc Hn Hlen Hj Hr Hd.
  destruct (contributors job_of results (map fst l)) as [Hnd Hone];
    [apply job_of_short|by apply NoDup_ListNoDup|rewrite length_map, Hlen; by eapply Forall2_length|intros x; apply Hj|].
  assert (Hex : forall x, In x results -> forall j, job_of x = [j] -> exists receipt entry,
            assoc j l = Some receipt /\ In entry children /\ accepted entry (j, receipt)).
  { intros x Hx j Hxj. assert (Hin : In j (map fst l)) by (apply Hj, in_flat_map; exists x; rewrite Hxj; split; [done|by left]).
    apply in_map_iff in Hin as ([j' receipt] & E & Hin). cbn in E. subst j'. exists receipt.
    apply list_elem_of_In in Hin as Hel. apply list_elem_of_lookup in Hel as [i Hi].
    destruct (Forall2_lookup_r _ _ _ _ _ Hc Hi) as (entry & He & Hev). exists entry.
    split; [by apply assoc_NoDup|]. split; [|done]. by apply list_elem_of_In, list_elem_of_lookup_2 with i. }
  assert (Hbs : exists bs, Forall2 (backs children) results bs /\ flat_map job_of results = map b_job bs /\
            names = map (fun b => p_name (b_probe b)) bs); [|destruct Hbs as (bs & ? & E & ?); exists bs; by rewrite <- E].
  clear Hj Hnd Hlen Hc Hn. induction Hr as [|x n results names Hx Hr IH]; [by exists []|].
  inversion Hd as [|? ? Hxd Hd']; subst. inversion Hone as [|? ? [j Hxj] Hone']; subst.
  destruct IH as (bs & HF & Hjs & ->); [done|done|intros y Hy; apply Hex; by right|].
  destruct (Hex x (or_introl eq_refl) j Hxj) as (receipt & entry & Ha & He & Hev).
  destruct x as [| | | | | | |d]; try done. cbn [dict_of] in *. destruct Hx as (probe & Hname & Hp & Hag).
  apply find_probe_spec in Hp as [Hin <-]. cbn in Hxj. destruct (assoc "job_id" d) as [[]|] eqn:Ej; try done. injection Hxj as ->.
  destruct (Hag j receipt eq_refl Ha) as [r Hr']. exists (mk_backing probe j receipt r :: bs). split_and!.
  - constructor; [|done]. exists d, entry. by split_and!.
  - cbn [flat_map map b_job]. rewrite <- Hjs. cbn. by rewrite Ej.
  - done.
Qed.

Lemma totals_clean manifest results warnings :
  check_totals manifest results = ([], warnings) ->
  forallb well_shaped results = true /\
  (field manifest "overall_status" = VStr "ALL_BOUNDARIES_HELD" -> forallb (flag "containment_held") results = true).
Proof.
  unfold check_totals. destruct (forallb well_shaped results); [|done]. cbn [negb]. intros Hc. split; [done|].
  intros Hs. rewrite Hs in Hc. injection Hc as Hc _. apply app_eq_nil in Hc as [_ Hc].
  destruct (ne_str _ _) eqn:E in Hc; [done|]. apply ne_str_false in E. injection E as E. unfold computed_status in E.
  destruct (forallb (flag "containment_held") results); [done|]. by repeat destruct (existsb _ _).
Qed.

Lemma recorded_held d probe receipt r :
  agreed d probe receipt r -> well_shaped (VDict d) = true -> flag "containment_held" (VDict d) = true ->
  containment_held r = true.
Proof.
  intros [_ Ha] Hw Hf. assert (Hin : In ("containment_held", VBool (containment_held r))
    (expected_fields probe ++ result_fields r (sort_strs (fired receipt)))).
  { unfold result_fields, expected_fields. cbn. tauto. }
  apply Ha in Hin. unfold flag in Hf. unfold well_shaped, field in *. cbn [dict_of] in Hf. run_inv.
  destruct (default VNone (assoc "containment_held" d)) as [|[]| | | | | |]; try done. cbn in Hin. by destruct (containment_held r).
Qed.

(** What a run without errors rests on. *)
Definition backed_run (manifest : pydict) (expect_all : bool) : Prop :=
  exists children results bs, default (VList []) (assoc "child_receipts" manifest) = VList children /\
    default (VList []) (assoc "results" manifest) = VList results /\
    Forall2 (backs children) results bs /\ List.NoDup (map b_job bs) /\ List.NoDup (map (fun b => p_name (b_probe b)) bs) /\
    (expect_all = true -> forall probe, In probe PROBES -> exists b, In b bs /\ p_name (b_probe b) = p_name probe) /\
    (field manifest "overall_status" = VStr "ALL_BOUNDARIES_HELD" ->
     Forall (fun b => contained (b_probe b) (b_receipt b)) bs).

Lemma check_manifest_backed manifest expect_all v :
  check_manifest float_repr parse_float message fs PROBES run_root key policy manifest expect_all = Ok v -> verified v = true ->
  backed_run manifest expect_all.
Proof.
  unfold check_manifest. destruct (default ([], []) (both_lists manifest)) as [children results] eqn:Ed.
  intros Hc Hv. run_inv. destruct (check_totals manifest results) as [e3 warnings] eqn:Et. injection Hc as <-.
  cbn [verified] in Hv. apply bool_decide_eq_true, app_eq_nil in Hv as [He [He2 ->]%app_eq_nil].
  match goal with Hx : check_children _ _ _ = Ok ?c, Hy : check_results _ _ _ _ = Ok ?r |- _ =>
    rename Hx into Hch; rename Hy into Hre; rename c into cs; rename r into rs end.
  pose proof (check_results_errors _ _ _ _ _ Hre He) as Hx. apply app_eq_nil in Hx as [Hx Hcounts].
  pose proof (check_children_errors _ _ _ _ Hch Hx) as Hy. apply app_eq_nil in Hy as [_ Hlists].
  unfold both_lists in *. destruct (default (VList []) (assoc "child_receipts" manifest)) as [| | | | | |children'|] eqn:E1; try done.
  destruct (default (VList []) (assoc "results" manifest)) as [| | | | | |results'|] eqn:E2; try done.
  injection Ed as -> ->. destruct (totals_clean _ _ _ Et) as [Hw Hall].
  assert (Hdict : Forall (fun x => is_dict x = true) results).
  { apply forallb_Forall in Hw. eapply Forall_impl; [exact Hw|apply well_shaped_dict]. }
  destruct (check_children_clean _ _ _ _ Hch Hx eq_refl (NoDup_nil_2)) as (l & HF & Hseen & Hrec & Hnd).
  destruct (check_results_clean _ _ _ _ _ Hre He Hdict (NoDup_nil_2)) as (names & HR & Hnames & Hnn).
  cbn [c_seen c_receipts s_names app] in *. rewrite Hrec in HR. rewrite Hseen in *.
  apply app_eq_nil in Hcounts as [Hn1 Hn2].
  destruct (_ || _) eqn:Elen in Hn1; [done|]. apply orb_false_iff in Elen as [_ Elen%negb_false_iff%Nat.eqb_eq].
  destruct (same_set _ _) eqn:Eset in Hn2; [|done]. rewrite same_set_spec in Eset.
  destruct (results_backed children results l names) as (bs & Hbs & Hjobs & ->); [done..|].
  exists children, results, bs. split_and!; [done|done|done|done|by rewrite <- Hnames; apply NoDup_ListNoDup|..].
  - intros ->. cbn [andb] in He2. destruct (same_set (s_names rs) _) eqn:Es in He2; [|done].
    rewrite same_set_spec, Hnames in Es. intros probe Hp. apply (in_map p_name), Es, in_map_iff in Hp as (b & E & Hb). eauto.
  - intros Hs. specialize (Hall Hs). clear -Hbs Hall Hw. induction Hbs as [|x b results bs Hb _ IH]; [constructor|].
    cbn in Hall, Hw. run_inv. constructor; [|by apply IH].
    destruct Hb as (d & entry & -> & _ & _ & _ & _ & _ & Ha). eapply held_contained; [apply Ha|]. by eapply recorded_held.
Qed.
End loops.

(** C9: A verified run is backed by signed evidence.  When [verify_run] reports a run
    as verified, every result of the manifest has a receipt of its own: an entry of the
    manifest's [child_receipts] names the job, a file of the run directory and the
    SHA-256 digest of its bytes, which are a receipt valid under the policy, signed
    with the key and naming the result's job, no two results with the same
    job or probe; what the result says is the gate's own evaluation of that receipt
    for the canonical probe of that name; with [expect_all] every canonical probe is
    there; and when the manifest says that all boundaries held, every receipt shows
    it: risk, decision and detector rules as the probe expects, namespace and
    seccomp in use, purge verified, observation and telemetry complete. *)
Theorem verified_run_is_backed `{Unicode} `{UnicodeDigits} (float_repr : pyfloat -> string) (parse_float : string -> pyfloat)
    (message : exn -> string) (fs : filesystem) (PROBES : list CinderProbe) (run_root key_path policy_path : path)
    (default_policy : option string) (read : string -> option string) (expect_all : bool) (v : verification) :
  verify_run float_repr parse_float message fs PROBES run_root key_path policy_path default_policy read expect_all = Ok v ->
  verified v = true ->
  exists root key policy manifest, fs_resolve fs run_root = Ok root /\ read_bytes fs key_path = Ok key /\
    String.length key = 32%nat /\ read_json parse_float fs policy_path = Ok policy /\
    read_json parse_float fs (manifest_path root) = Ok (VDict manifest) /\
    overall_status v = field manifest "overall_status" /\
    backed_run float_repr parse_float fs PROBES root key (policy_of policy default_policy read) manifest expect_all.
Proof.
  unfold verify_run. intros Hr Hv. run_inv.
  match goal with Hx : is_dict ?m = true |- _ => destruct m as [| | | | | | |manifest]; try discriminate Hx end.
  match goal with Hx : (String.length _ =? 32)%nat = true |- _ => apply Nat.eqb_eq in Hx end.
  do 4 eexists. split_and!; try done; [|by eapply check_manifest_backed].
  unfold check_manifest in Hr. cbn [dict_of] in Hr. destruct (default ([], []) (both_lists manifest)). run_inv.
  destruct (check_totals _ _). by injection Hr as <-.
Qed.
End IncidentFacts.
