(* ===== verification/IncidentRun.v ===== *)
(** * An honest run of the incident gate verifies

    The gate and the verifier put together: when every detonation leaves a signed,
    valid receipt in the evidence tree, the manifest that [run_selected] writes is
    accepted by [verify_run], whatever the probes did. *)

From stdpp Require Import base list strings gmap sorting.
From Stdlib Require Import ZArith Lia.
From Stdlib Require Import (notations) Ascii.
From S2P Require Import Prelude PyValue Sha256 Json JsonFacts StrOps Url UrlFacts Detectors OutwardReport PolicyGate BrowserEvidence.
From S2P Require Import BrowserContract BrowserReceipt DetonationReceipt ReceiptFacts Evidence EvidenceFacts PyRepr WorkerWire.
From S2P Require Import IncidentGate IncidentVerify IncidentFacts.

Local Open Scope Z_scope.

Module IncidentRun.
Import BrowserEvidence BrowserReceipt DetonationReceipt ReceiptFacts IncidentGate IncidentVerify IncidentFacts.

(** ** The text of the manifest *)
Definition low (c : Ascii.ascii) : bool := byte_of c <? 127.

Lemma syntax_low c : syntax_char c = true -> low c = true.
Proof. unfold syntax_char, low. lia. Qed.

Lemma newline_low n : str_forall low (newline n) = true.
Proof. unfold newline. cbn [str_forall]. induction (2 * n)%nat as [|m IH]; [done|]. exact IH. Qed.

Lemma lines_low n l : Forall (fun s => str_forall low s = true) l -> str_forall low (lines n l) = true.
Proof.
  induction 1 as [|s l Hs Hl IH]; [done|]. destruct l as [|t l]; [done|].
  change (lines n (s :: t :: l)) with (s +:+ "," +:+ newline n +:+ lines n (t :: l)).
  by rewrite !str_forall_app, Hs, newline_low, IH.
Qed.

Lemma quote_low s : WorkerWire.plain s = true -> str_forall low (quote s) = true.
Proof.
  apply (quote_forall low WorkerWire.plain syntax_low). intros t Ht.
  eapply str_forall_weaken; [apply syntax_low|by apply WorkerWire.escape_syntax].
Qed.

Lemma pretty_low fr v : json_ok v = true -> strings_ok WorkerWire.plain v = true -> forall n, str_forall low (pretty fr n v) = true.
Proof.
  induction v as [|[]|z|f|s|s|l IH|d IH] using pyval_ind'; cbn [strings_ok json_ok]; intros Hj Hs n; try done.
  - by apply dec_forall, syntax_low.
  - by apply quote_low.
  - destruct l as [|x l]; [done|]. rewrite forallb_forall in Hj, Hs.
    change (pretty fr n (VList (x :: l))) with
      ("[" +:+ newline (S n) +:+ lines (S n) (map (pretty fr (S n)) (x :: l)) +:+ newline n +:+ "]").
    rewrite !str_forall_app, !newline_low, lines_low; [done|]. apply Forall_fmap. rewrite Forall_forall in IH |- *.
    intros y Hy. cbn. apply list_elem_of_In in Hy as Hin. apply IH; auto.
  - apply andb_true_iff in Hj as [_ Hj]. rewrite forallb_forall in Hj, Hs.
    destruct (decide (d = [])) as [->|Hne]; [done|]. rewrite pretty_dict by done.
    rewrite !str_forall_app, !newline_low, lines_low; [done|]. apply Forall_fmap. rewrite Forall_forall in IH |- *.
    intros kv Hkv. rewrite sort_items_perm in Hkv. cbn. unfold line. apply list_elem_of_In in Hkv as Hin.
    specialize (Hs kv Hin). apply andb_true_iff in Hs as [Hk Hv]. rewrite !str_forall_app, quote_low, IH by auto. done.
Qed.

Lemma ensure_ascii_low s : str_forall low s = true -> WorkerWire.ensure_ascii s = s.
Proof.
  induction s as [|c s IH]; [done|]. cbn. unfold low. intros [Hc Hs]%andb_true_iff. by rewrite Hc, IH.
Qed.

Lemma low_utf8 s : str_forall low s = true -> Evidence.utf8_ok 0 128 191 s = true /\ has_surrogate s = false.
Proof.
  induction s as [|c s IH]; [done|]. cbn. unfold low. intros [Hc Hs]%andb_true_iff. destruct (IH Hs) as [H1 H2].
  rewrite H2. pose proof (byte_of_range c). rewrite (proj2 (Z.eqb_neq (byte_of c) 237)) by lia. cbn.
  by rewrite (proj2 (Z.ltb_lt (byte_of c) 128)) by lia.
Qed.

Lemma read_manifest fr pf m :
  json_ok (VDict m) = true -> strings_ok WorkerWire.plain (VDict m) = true ->
  PolicyGate.read_text (manifest_text fr m) = Ok (manifest_text fr m) /\
  loads pf (manifest_text fr m) = Ok (canon (VDict m)) /\ has_surrogate (manifest_text fr m) = false.
Proof.
  intros Hj Hs. pose proof (pretty_low fr _ Hj Hs 0) as Hl. unfold manifest_text. rewrite ensure_ascii_low by done.
  destruct (low_utf8 (pretty fr 0 (VDict m) +:+ chr 10)) as [Hu Hn]; [by rewrite str_forall_app, Hl|].
  unfold PolicyGate.read_text. rewrite Hu, Hn. split_and!; [done|by apply load_pretty|done].
Qed.

(** ** Documents with their keys sorted *)
Lemma assoc_perm {A} (d e : list (string * A)) k : NoDup (keys d) -> d ≡ₚ e -> assoc k d = assoc k e.
Proof.
  intros Hn Hp. assert (Hn' : NoDup (keys e)) by (unfold keys in *; by rewrite <- Hp).
  destruct (assoc k d) as [v|] eqn:E.
  - symmetry. apply assoc_NoDup; [done|]. apply list_elem_of_In. rewrite <- Hp. apply list_elem_of_In. by apply assoc_In.
  - symmetry. apply assoc_None in E. apply assoc_None. intros Hk. apply E. apply list_elem_of_In. apply list_elem_of_In in Hk.
    unfold keys in *. by rewrite Hp.
Qed.

Lemma assoc_canon d k : NoDup (keys d) -> assoc k (dict_of (canon (VDict d))) = canon <$> assoc k d.
Proof.
  intros Hn. cbn [canon dict_of]. rewrite <- (assoc_perm (map (fun kv => (fst kv, canon (snd kv))) d)).
  - clear Hn. induction d as [|[k' v] d IH]; [done|]. cbn. by destruct (k =? k')%string.
  - unfold keys in *. rewrite map_map. exact Hn.
  - by rewrite sort_items_perm.
Qed.

(** The parts of a document in which no key is repeated. *)
Lemma wf_dict d k : wf_val (VDict d) = true -> NoDup (keys d) /\ wf_val (default VNone (assoc k d)) = true.
Proof.
  cbn. intros [Hn%bool_decide_eq_true Hd]%andb_true_iff. split; [done|]. rewrite forallb_forall in Hd.
  destruct (assoc k d) as [v|] eqn:E; [|done]. by apply (Hd (k, v)), assoc_In.
Qed.

Section sorted_keys.
Variable v : pyval.
Hypothesis wf : wf_val v = true.

Lemma get_default_canon k dflt : canon dflt = dflt -> get_default (canon v) k dflt = canon <$> get_default v k dflt.
Proof.
  intros Hd. destruct v as [| | | | | | |d]; try done. destruct (wf_dict d k wf) as [Hn _].
  change (canon (VDict d)) with (VDict (dict_of (canon (VDict d)))). cbn [get_default]. rewrite assoc_canon by done.
  cbn. by destruct (assoc k d); cbn; [|rewrite Hd].
Qed.
Lemma get_canon k : get (canon v) k = canon <$> get v k.
Proof. pose proof (get_default_canon k VNone eq_refl) as Hg. by destruct v. Qed.
Lemma rule_of_canon : rule_of (canon v) = rule_of v.
Proof.
  destruct v as [| | | | | | |d]; try done. destruct (wf_dict d "rule_id" wf) as [Hn _].
  change (canon (VDict d)) with (VDict (dict_of (canon (VDict d)))). cbn [rule_of]. rewrite assoc_canon by done.
  by destruct (assoc "rule_id" d) as [[]|].
Qed.
Lemma status_of_canon : status_of (canon v) = status_of v.
Proof.
  destruct v as [| | | | | | |d]; try done. destruct (wf_dict d "status" wf) as [Hn _].
  change (canon (VDict d)) with (VDict (dict_of (canon (VDict d)))). cbn [status_of]. rewrite assoc_canon by done.
  by destruct (assoc "status" d) as [[]|].
Qed.
Lemma both_true_canon a b : both_true (canon v) a b = both_true v a b.
Proof.
  assert (Ht : forall w, is_true (canon w) = is_true w) by by intros [].
  unfold both_true. rewrite !get_canon. destruct (get v a); [|done]. cbn. rewrite Ht. destruct (is_true a0); [|done].
  destruct (get v b); [|done]. cbn. by rewrite Ht.
Qed.
End sorted_keys.

Lemma flat_rules_canon l : forallb wf_val l = true -> flat_map rule_of (map canon l) = flat_map rule_of l.
Proof. induction l as [|x l IH]; [done|]. cbn. intros [Hx Hl]%andb_true_iff. by rewrite rule_of_canon, IH. Qed.
Lemma no_rules_of l : flat_map rule_of (map VStr l) = [].
Proof. by induction l. Qed.
Lemma fired_canon v :
  wf_val v = true ->
  match py_iter v with
  | Ok l => exists l', py_iter (canon v) = Ok l' /\ flat_map rule_of l' = flat_map rule_of l
  | Err e => py_iter (canon v) = Err e
  end.
Proof.
  destruct v; try done; cbn; intros Hw; eexists; (split; [done|]); [done..|by apply flat_rules_canon|by rewrite !no_rules_of].
Qed.
Lemma risk_rank_canon v : risk_rank (canon v) = risk_rank v.
Proof. by destruct v. Qed.
Lemma py_eq_canon_str v s : py_eq (canon v) (VStr s) = py_eq v (VStr s).
Proof. by destruct v. Qed.

(** The evaluation of a receipt does not depend on the order of its keys. *)
Definition sorted_result (r : ProbeResult) (d : pydict) : ProbeResult :=
  mk_result (r_name r) (r_description r) d (containment_held r) (canon (observed_risk r)) (canon (observed_decision r))
    (observed_rules r) (expected_risk r) (expected_decision r) (expected_rules r) (isolation_confirmed r) (purge_verified r)
    (error r) (observation_status r).

Lemma evaluate_canon probe d d' :
  wf_val (VDict d) = true -> canon (VDict d) = VDict d' ->
  _evaluate_receipt probe d' = (fun r => sorted_result r d') <$> _evaluate_receipt probe d.
Proof.
  intros Hw Hd.
  assert (Hf : forall k dflt, canon dflt = dflt -> wf_val dflt = true ->
            default dflt (assoc k d') = canon (default dflt (assoc k d)) /\ wf_val (default dflt (assoc k d)) = true).
  { intros k dflt Hc Hwd. destruct (wf_dict d k Hw) as [Hn Hk]. pose proof (assoc_canon d k Hn) as Ha. rewrite Hd in Ha.
    cbn [dict_of] in Ha. rewrite Ha. by destruct (assoc k d). }
  unfold _evaluate_receipt in *. cbv zeta in *.
  destruct (Hf "outward_report" (VDict []) eq_refl eq_refl) as [-> W1]. destruct (Hf "gate" (VDict []) eq_refl eq_refl) as [-> W2].
  destruct (Hf "detector_findings" (VList []) eq_refl eq_refl) as [-> W3].
  destruct (Hf "isolation" (VDict []) eq_refl eq_refl) as [-> W4]. destruct (Hf "purge" (VDict []) eq_refl eq_refl) as [-> W5].
  destruct (Hf "observation" (VDict []) eq_refl eq_refl) as [-> W6].
  destruct (Hf "telemetry_incomplete" VNone eq_refl eq_refl) as [-> _].
  rewrite !get_default_canon, both_true_canon, status_of_canon, get_canon by done.
  destruct (get_default _ "risk_level" _) as [risk|]; [|done]. cbn [mbind res_bind fmap res_fmap].
  destruct (get_default _ "final_decision" _) as [decision|]; [|done]. cbn [mbind res_bind fmap res_fmap].
  pose proof (fired_canon _ W3) as HR. destruct (py_iter _) as [l|] in HR |- *; [|by rewrite HR].
  destruct HR as (l' & -> & Hl'). cbn [mbind res_bind]. destruct (both_true _ _ _) as [isolated|]; [|done]. cbn [mbind res_bind].
  destruct (get _ "verified_externally") as [verified|]; [|done]. cbn [mbind res_bind fmap res_fmap].
  rewrite risk_rank_canon. destruct (risk_rank risk) as [rank|]; [|done]. cbn [mbind res_bind].
  rewrite Hl', py_eq_canon_str. unfold sorted_result. cbn [r_name r_description containment_held observed_risk
    observed_decision observed_rules expected_risk expected_decision expected_rules isolation_confirmed purge_verified error
    observation_status]. f_equal.
  by destruct verified as [|[]| | | | | |], (default VNone (assoc "telemetry_incomplete" d)) as [|[]| | | | | |].
Qed.

(** ** Receipts that the verifier accepts *)
Section signed.
Variables (float_repr : pyfloat -> string) (parse_float : string -> pyfloat).
Context `{Unicode} `{UnicodeDigits}.
Variables (key : string) (policy : policy_source).
Local Notation validate_receipt := (DetonationReceipt.validate_receipt float_repr parse_float).
Local Notation verify_signature := (DetonationReceipt.verify_signature float_repr).

(** [raw] is the file of the receipt [d] of job [j]; [d'] is what it reads as. *)
Record signed_receipt (d d' : pydict) (j raw : string) : Prop := {
  sg_wf : wf_val (VDict d) = true;
  sg_text : PolicyGate.read_text raw = Ok raw;
  sg_loads : loads parse_float raw = Ok (VDict d');
  sg_sorted : canon (VDict d) = VDict d';
  sg_valid : validate_receipt (VDict d') policy = Ok tt;
  sg_signature : verify_signature d' key = true;
  sg_identity : exists identity kind, assoc "identity" d' = Some identity /\ get identity "job_id" = Ok (VStr j) /\
    get identity "artifact_type" = Ok (VStr kind) /\ kind <> "browser-probe";
  sg_job : j <> "" /\ WorkerWire.plain j = true /\ has_char 47 j = false;
}.

Lemma leb_cons c s d t :
  String.leb (String c s) (String d t) = (byte_of c <? byte_of d) || ((byte_of c =? byte_of d) && String.leb s t).
Proof.
  unfold String.leb, byte_of. cbn. unfold Ascii.compare. destruct (N.compare_spec (Ascii.N_of_ascii c) (Ascii.N_of_ascii d)) as [E|E|E].
  - rewrite E, Z.ltb_irrefl, Z.eqb_refl. done.
  - by rewrite (proj2 (Z.ltb_lt _ _)) by lia.
  - rewrite (proj2 (Z.ltb_ge _ _)), (proj2 (Z.eqb_neq _ _)) by lia. done.
Qed.
Lemma leb_trans a : forall b c, String.leb a b = true -> String.leb b c = true -> String.leb a c = true.
Proof.
  induction a as [|x a IH]; intros [|y b] [|z c]; try done. rewrite !leb_cons. intros H1 H2.
  apply orb_true_iff in H1 as [H1|[H1 H1']%andb_true_iff], H2 as [H2|[H2 H2']%andb_true_iff]; apply orb_true_iff; [left; lia..|].
  right. rewrite (IH b c) by done. lia.
Qed.
(** [<] on strings *)
Lemma greater_trans a b c : String.leb c b = false -> String.leb b a = false -> String.leb c a = false.
Proof.
  intros H1 H2. destruct (String.leb c a) eqn:E; [|done]. destruct (String.leb_total b a) as [Hx|Hx]; [congruence|].
  rewrite (leb_trans c a b) in H1; congruence.
Qed.

(** The rules of a legacy receipt are known and strictly increasing. *)
Lemma legacy_rules l : forall previous found state,
  foldM check_legacy_finding l (previous, found) = Ok state ->
  (forall r, In r (flat_map rule_of l) -> String.leb r previous = false /\ has_key r Detectors.RULES = true) /\
  NoDup (flat_map rule_of l).
Proof.
  induction l as [|x l IH]; intros previous found state Hf; cbn [foldM] in Hf; [by split; [|constructor]|].
  run_inv. match goal with Hx : check_legacy_finding _ _ = Ok ?s |- _ => rename Hx into Hc; destruct s as [p2 f2] end.
  unfold check_legacy_finding in Hc. run_inv.
  destruct x0 as [| | | |rule| | |]; try done. cbn [str_of] in Hc.
  destruct (assoc rule Detectors.RULES) as [[[cat sev] hint]|] eqn:Er; [|done]. run_inv. injection Hc as <- _.
  destruct (IH _ _ _ Hf) as [Hin Hn].
  assert (Hx : rule_of x = [rule]).
  { destruct x as [| | | | | | |d]; try done. cbn in *. destruct (assoc "rule_id" d); [|done]. by simplify_eq. }
  cbn [flat_map]. rewrite Hx. cbn [app].
  assert (Hlt : forall r, In r (flat_map rule_of l) -> String.leb r rule = false) by (intros r Hr; by apply Hin).
  split.
  - intros r [<-|Hr]; [by unfold has_key; rewrite Er|]. split; [|by apply Hin]. by eapply greater_trans; [apply Hlt|].
  - constructor; [|done]. intros Hr%list_elem_of_In%Hlt. destruct (String.leb_total rule rule); congruence.
Qed.

Lemma rules_plain r : has_key r Detectors.RULES = true -> WorkerWire.plain r = true.
Proof.
  intros Hr%has_key_In. assert (Hall : forallb WorkerWire.plain (keys Detectors.RULES) = true) by reflexivity.
  rewrite forallb_forall in Hall. by apply Hall.
Qed.

Lemma sub_assoc d k v : sub (VDict d) k = Ok v -> assoc k d = Some v.
Proof. cbn. destruct (assoc k d); congruence. Qed.
Lemma get_default_str v k s dflt : get v k = Ok (VStr s) -> get_default v k dflt = Ok (VStr s).
Proof. destruct v as [| | | | | | |d]; try done. cbn. destruct (assoc k d); cbn; [done|by intros [=]]. Qed.

Lemma legacy_findings d' :
  _validate_legacy_receipt float_repr parse_float (VDict d') policy = Ok tt ->
  exists l, assoc "detector_findings" d' = Some (VList l) /\ NoDup (flat_map rule_of l) /\
    Forall (fun r => WorkerWire.plain r = true) (flat_map rule_of l).
Proof.
  unfold _validate_legacy_receipt. intros Hl. run_inv.
  match goal with Hx : check_legacy_findings _ _ _ = Ok _ |- _ => unfold check_legacy_findings in Hx; run_inv end.
  match goal with Hx : _legacy_finding_map ?f = Ok _ |- _ => unfold _legacy_finding_map in Hx; run_inv end.
  match goal with Hx : foldM check_legacy_finding _ _ = Ok _ |- _ => apply legacy_rules in Hx as [Hin Hn] end.
  match goal with Hx : is_list ?f = true |- _ => destruct f as [| | | | | |l|]; try discriminate Hx end. cbn [list_of] in *.
  exists l. split; [by apply sub_assoc|]. split; [done|]. rewrite Forall_forall. intros r Hr%list_elem_of_In.
  by apply rules_plain, Hin.
Qed.

(** What the gate and the verifier read of a receipt. *)
Lemma receipt_sections d' :
  validate_receipt (VDict d') policy = Ok tt ->
  (exists identity kind, assoc "identity" d' = Some identity /\ get identity "artifact_type" = Ok (VStr kind) /\ kind <> "browser-probe") ->
  exists outward gate isolation purge risk decision flag l,
    assoc "outward_report" d' = Some outward /\ get_default outward "risk_level" (VStr "unknown") = Ok (VStr risk) /\
    In risk OutwardReport.RISK_LEVELS /\ assoc "gate" d' = Some gate /\
    get_default gate "final_decision" (VStr "UNKNOWN") = Ok (VStr decision) /\ In decision ["ALLOW"; "DENY"; "EVALUATION_INCOMPLETE"] /\
    assoc "isolation" d' = Some (VDict isolation) /\ assoc "purge" d' = Some purge /\ get purge "verified_externally" = Ok flag /\
    assoc "detector_findings" d' = Some (VList l) /\ NoDup (flat_map rule_of l) /\
    Forall (fun r => WorkerWire.plain r = true) (flat_map rule_of l).
Proof.
  intros Hv (identity & kind & Hid & Hk & Hne). unfold DetonationReceipt.validate_receipt in Hv. run_inv.
  repeat match goal with Hx : sub (VDict d') _ = Ok _ |- _ => apply sub_assoc in Hx end.
  match goal with Hx : assoc "identity" d' = Some ?i |- _ => assert (i = identity) as -> by congruence; clear Hx end.
  match goal with Hx : get identity "artifact_type" = Ok ?k |- _ => assert (k = VStr kind) as -> by congruence; clear Hx end.
  assert (Hb : py_eq (VStr kind) (VStr "browser-probe") = false) by by apply String.eqb_neq.
  rewrite Hb in Hv. destruct (legacy_findings _ Hv) as (l & Hl & Hn & Hp).
  match goal with Hx : in_strs ?x ["ALLOW"; _; _] = Ok true |- _ => apply BrowserContract.in_strs_true in Hx as (decision & -> & Hdec) end.
  match goal with Hx : is_dict ?x = true, Hy : assoc "isolation" d' = Some ?x |- _ =>
    destruct x as [| | | | | | |isolation]; try discriminate Hx end.
  match goal with Hx : OutwardReport.validate_outward_report ?o = Ok _ |- _ =>
    unfold OutwardReport.validate_outward_report in Hx; run_inv end.
  match goal with Hx : in_strs ?x OutwardReport.RISK_LEVELS = Ok true |- _ => apply BrowserContract.in_strs_true in Hx as (risk & -> & Hrisk) end.
  match goal with Hx : sub ?o "risk_level" = Ok _ |- _ => apply get_str in Hx end.
  do 8 eexists. split_and!; try eassumption; by apply get_default_str.
Qed.

Lemma dedup_NoDup l : NoDup l -> dedup_strs l = l.
Proof.
  unfold dedup_strs. induction 1 as [|x l Hx _ IH]; [done|]. cbn. case_decide; [done|]. by rewrite IH.
Qed.

Lemma evaluated_receipt probe d r : _evaluate_receipt probe d = Ok r -> r_receipt r = d.
Proof. unfold _evaluate_receipt. cbv zeta. intros He. run_inv. by subst. Qed.
Lemma canon_str v s : VStr s = canon v -> v = VStr s.
Proof. by destruct v. Qed.
Lemma status_cases v : In (status_of v) ["COMPLETE"; "EVALUATION_INCOMPLETE"].
Proof. destruct v; cbn; try tauto. destruct (py_eq _ _); tauto. Qed.

(** The evaluation in the gate and the fields the verifier derives from the file. *)
Lemma signed_evaluates probe d d' j raw rank :
  signed_receipt d d' j raw -> assoc (p_expected_risk probe) RISK_RANK = Some rank ->
  exists r risk decision, _evaluate_receipt probe d = Ok r /\ r_receipt r = d /\ error r = None /\ r_name r = p_name probe /\
    expected_risk r = p_expected_risk probe /\ expected_decision r = p_expected_decision probe /\ expected_rules r = p_expected_rules probe /\
    observed_risk r = VStr risk /\ In risk OutwardReport.RISK_LEVELS /\
    observed_decision r = VStr decision /\ In decision ["ALLOW"; "DENY"; "EVALUATION_INCOMPLETE"] /\
    Forall (fun x => WorkerWire.plain x = true) (observed_rules r) /\ In (observation_status r) ["COMPLETE"; "EVALUATION_INCOMPLETE"] /\
    derived_fields probe d' = Ok (result_fields r (sort_strs (observed_rules r))).
Proof.
  intros [Hw _ _ Hs Hv _ (identity & kind & Hid & _ & Hkind & Hne) _] Hrank.
  destruct (receipt_sections d' Hv) as (outward & gate & isolation & purge & risk & decision & flag & l & Ho & Hrisk & Hr2 & Hg &
    Hdec & Hd2 & Hi & Hpu & Hflag & Hl & Hn & Hp); [by eauto|].
  pose proof (evaluate_canon probe d d' Hw Hs) as He.
  assert (Hb : exists isolated, both_true (VDict isolation) "namespace_used" "seccomp_loaded" = Ok isolated).
  { unfold both_true. cbn [get mbind res_bind]. destruct (is_true _); eauto. }
  destruct Hb as [isolated Hb]. assert (Hrr : exists m, risk_rank (VStr risk) = Ok m) by (cbn; eauto). destruct Hrr as [m Hrr].
  unfold _evaluate_receipt at 1 in He. cbv zeta in He. rewrite Ho, Hg, Hl, Hi, Hpu in He. cbn [default from_option id] in He.
  rewrite Hrisk, Hdec in He. cbn [py_iter mbind res_bind] in He. rewrite Hb, Hflag in He. cbn [mbind res_bind] in He.
  rewrite Hrr, Hrank in He. cbn [mbind res_bind] in He.
  destruct (_evaluate_receipt probe d) as [r|] eqn:Er; [|done]. cbn [fmap res_fmap] in He. unfold sorted_result in He.
  injection He as E1 E2 E3 E4 E5 E6 E7 E8 E9 E10 E11 E12 E13. exists r, risk, decision.
  apply canon_str in E4, E5. rewrite dedup_NoDup in E6 by done. rewrite <- E6.
  split_and!; try done; [by eapply evaluated_receipt|rewrite <- E13; apply status_cases|].
  unfold derived_fields. cbv zeta. cbn [sub]. rewrite Ho, Hg, Hl, Hi, Hpu. cbn [mbind res_bind]. rewrite Hrisk, Hdec.
  cbn [py_iter mbind res_bind]. rewrite Hb, Hflag. cbn [mbind res_bind]. rewrite Hrr, Hrank. cbn [mbind res_bind].
  unfold result_fields, fired_rules. rewrite E4, E5, <- E10, <- E11, <- E13, <- E3, same_rules. done.
Qed.
End signed.

(** ** A run over honest detonations *)
Section honest.
Variables (float_repr : pyfloat -> string) (parse_float : string -> pyfloat) (repr_wide : string -> string).
Context `{Unicode} `{UnicodeDigits}.
Variable message : exn -> string.
Variables (key : string) (policy : policy_source).
Variables (detonate : path -> io pydict) (mkdtemp : path -> io string) (run_root : path).
Local Notation signed_receipt := (signed_receipt float_repr parse_float key policy).

Definition receipt_file (j : string) : path := run_root ++ ["receipts"; j +:+ ".json"].
Definition run_paths : EvidencePaths :=
  mk_paths run_root (run_root ++ ["receipts"]) (run_root ++ ["quarantine"]) (run_root ++ ["alerts"]).

(** The detonation returns a receipt that is in a new file of the directory for
    receipts; it removes and changes no other file. *)
Definition honest_detonation (artifact : path) (w : world) : Prop :=
  exists d d' j raw w', detonate artifact w = (Ok d, w') /\ dirs w' = dirs w /\
    (forall p c, files w !! p = Some c -> files w' !! p = Some c) /\
    files w !! (fst (fst (dirs w)) ++ [j +:+ ".json"]) = None /\
    files w' !! (fst (fst (dirs w)) ++ [j +:+ ".json"]) = Some raw /\ signed_receipt d d' j raw.

(** So does the detonation of a probe in a new directory of the evidence tree. *)
Definition honest_probe (p : CinderProbe) (w : world) : Prop :=
  exists n, mkdtemp run_root w = (Ok n, w) /\ n <> "receipts" /\
    let artifact := (run_root ++ [n]) ++ [p_name p +:+ ".py"] in
    honest_detonation artifact
      (mk_world (<[artifact := p_source p]> (files w)) (receipts run_paths, quarantine run_paths, alerts run_paths)).

(** Each of the probes, run one after the other. *)
Fixpoint honest_run (probes : list CinderProbe) (w : world) : Prop :=
  match probes with
  | [] => True
  | p :: r => honest_probe p w /\ honest_run r (snd (_run_probe_scoped message detonate mkdtemp p run_paths w))
  end.

(** A probe of the canonical set. *)
Definition probe_ok (p : CinderProbe) : bool :=
  has_key (p_expected_risk p) RISK_RANK && negb (has_surrogate (p_source p)) && WorkerWire.plain (p_name p)
  && WorkerWire.plain (p_expected_risk p) && WorkerWire.plain (p_expected_decision p) && forallb WorkerWire.plain (p_expected_rules p).

(** What a probe leaves. *)
Record item := mk_item { i_probe : CinderProbe; i_result : ProbeResult; i_receipt : pydict; i_read : pydict; i_job : string; i_raw : string }.
Definition good (w : world) (x : item) : Prop :=
  _evaluate_receipt (i_probe x) (i_receipt x) = Ok (i_result x) /\ signed_receipt (i_receipt x) (i_read x) (i_job x) (i_raw x) /\
  files w !! receipt_file (i_job x) = Some (i_raw x).
Definition keeps (w w' : world) : Prop :=
  forall k c, files w !! (run_root ++ "receipts" :: k) = Some c -> files w' !! (run_root ++ "receipts" :: k) = Some c.

Lemma other_directory n k : n <> "receipts" -> ~ (run_root ++ [n]) `prefix_of` (run_root ++ "receipts" :: k).
Proof.
  intros Hn [t Ht]. rewrite <- app_assoc in Ht. apply app_inv_head in Ht. cbn in Ht. congruence.
Qed.

Lemma run_one probe w :
  probe_ok probe = true -> honest_probe probe w ->
  exists x w', _run_probe_scoped message detonate mkdtemp probe run_paths w = (Ok (i_result x), w') /\ i_probe x = probe /\
    good w' x /\ keeps w w' /\ files w !! receipt_file (i_job x) = None.
Proof.
  intros Hp (n & Hn & Hne & Hdet). unfold probe_ok in Hp. run_inv. unfold _run_probe_scoped, with_temporary, bind. cbn [root run_paths]. rewrite Hn.
  set (artifact := (run_root ++ [n]) ++ [p_name probe +:+ ".py"]).
  unfold write_artifact. match goal with Hx : has_surrogate _ = false |- _ => rewrite Hx end.
  unfold attempt, _detonation_evidence_scope. cbn [files dirs receipts quarantine alerts run_paths].
  set (w1 := mk_world (<[artifact := p_source probe]> (files w)) _).
  change (honest_detonation artifact w1) in Hdet. destruct Hdet as (d & d' & j & raw & w2 & Hd & Hdirs & Hk & Hfresh & Hfile & Hs). rewrite Hd.
  cbn [files dirs]. unfold pure, done.
  match goal with Hx : has_key _ RISK_RANK = true |- _ => unfold has_key in Hx; destruct (assoc _ RISK_RANK) as [rank|] eqn:Er; [|done] end.
  destruct (signed_evaluates _ _ _ _ probe d d' j raw rank Hs Er) as (r & _ & _ & He & _). rewrite He.
  exists (mk_item probe r d d' j raw). eexists. split; [reflexivity|]. cbn [i_result i_probe i_receipt i_read i_job i_raw].
  cbn [dirs fst w1] in Hfresh, Hfile. rewrite <- app_assoc in Hfresh, Hfile. cbn [app] in Hfresh, Hfile.
  assert (Hart : forall k, artifact <> run_root ++ "receipts" :: k).
  { intros k E. apply (other_directory n k Hne). rewrite <- E. by eexists. }
  split; [done|]. split; [|split].
  - split; [done|]. split; [done|]. cbn [files]. apply map_lookup_filter_Some. split; [done|]. cbn [fst].
    by apply other_directory.
  - intros k c Hc. cbn [files]. apply map_lookup_filter_Some. split; [|by apply other_directory].
    apply Hk. cbn [files w1]. by rewrite lookup_insert_ne by apply Hart.
  - cbn [files w1] in Hfresh. by rewrite lookup_insert_ne in Hfresh by apply Hart.
Qed.

Lemma good_keeps w w' x : good w x -> keeps w w' -> good w' x.
Proof. intros (He & Hs & Hf) Hk. split; [done|]. split; [done|]. by apply Hk. Qed.
Lemma keeps_trans w1 w2 w3 : keeps w1 w2 -> keeps w2 w3 -> keeps w1 w3.
Proof. intros H1 H2 k c Hc. by apply H2, H1. Qed.

Lemma run_each probes : forall w, Forall (fun p => probe_ok p = true) probes -> honest_run probes w ->
  exists xs w', each_probe message detonate mkdtemp probes run_paths w = (Ok (map i_result xs), w') /\ map i_probe xs = probes /\
    Forall (good w') xs /\ keeps w w' /\ NoDup (map i_job xs) /\ Forall (fun x => files w !! receipt_file (i_job x) = None) xs.
Proof.
  induction probes as [|p probes IH]; intros w Hp Hr; [exists [], w; cbn; split_and!; (done || apply Forall_nil_2 || apply NoDup_nil_2 || by intros ??)|].
  inversion Hp as [|? ? Hp1 Hp2]; subst. cbn [each_probe]. unfold bind. destruct Hr as [Hr1 Hr2].
  destruct (run_one p w Hp1 Hr1) as (x & w1 & Hrun & Hx & Hg & Hk & Hf). rewrite Hrun in Hr2 |- *. destruct (IH w1 Hp2 Hr2) as (xs & w2 & -> & Hxs & Hgs & Hks & Hn & Hfs).
  exists (x :: xs), w2. split; [done|]. cbn [map]. rewrite Hx, Hxs. split; [done|].
  split; [constructor; [by eapply good_keeps|done]|]. split; [by eapply keeps_trans|]. split.
  - constructor; [|done]. intros Hin%list_elem_of_In. apply in_map_iff in Hin as (y & E & Hy).
    rewrite Forall_forall in Hfs. apply list_elem_of_In, Hfs in Hy. rewrite E in Hy. destruct Hg as (_ & _ & Hg). congruence.
  - constructor; [done|]. eapply Forall_impl; [exact Hfs|]. intros y Hy. cbn in Hy. destruct (files w !! receipt_file (i_job y)) as [c|] eqn:E; [|done].
    apply (Hk [i_job y +:+ ".json"]) in E. unfold receipt_file in Hy. congruence.
Qed.

(** ** The manifest of such a run *)
Variables (resolve : path -> res path).
Hypothesis resolve_run : forall p, run_root `prefix_of` p -> resolve p = Ok p.

Definition child_entry (x : item) : pyval :=
  VDict [("job_id", VStr (i_job x)); ("path", VStr ("receipts/" +:+ i_job x +:+ ".json")); ("sha256", VStr (hexdigest (i_raw x)))].
Definition entry_of (x : item) : pyval :=
  let r := i_result x in
  VDict [("name", VStr (r_name r)); ("containment_held", VBool (containment_held r));
         ("observed_risk", observed_risk r); ("expected_risk", VStr (expected_risk r));
         ("observed_decision", observed_decision r); ("expected_decision", VStr (expected_decision r));
         ("observed_rules", strs (sort_strs (observed_rules r))); ("expected_rules", strs (sort_strs (expected_rules r)));
         ("isolation_confirmed", VBool (isolation_confirmed r)); ("purge_verified", VBool (purge_verified r));
         ("observation_status", VStr (observation_status r)); ("error", VNone); ("job_id", VStr (i_job x))].

Lemma split_absent z s : has_char z s = false -> split z s = [s].
Proof.
  unfold has_char. induction s as [|c s IH]; [done|]. cbn. intros [Hc Hs]%orb_false_iff. by rewrite IH, Hc.
Qed.
Lemma split_at_char z c a t : ch z c = true -> has_char z a = false -> split z (a +:+ String c t) = a :: split z t.
Proof.
  intros Hc. assert (Hne : split z t <> []).
  { destruct t as [|x t]; [done|]. cbn. destruct (split z t); [done|]. by destruct (ch z x). }
  unfold has_char. induction a as [|x a IH]; cbn [str_exists]; intros Ha.
  - rewrite append_nil_l. cbn [split]. destruct (split z t); [done|]. by rewrite Hc.
  - apply orb_false_iff in Ha as [Hx Ha]. rewrite append_cons. cbn [split]. by rewrite IH, Hx.
Qed.

Lemma json_name j : has_char 47 j = false -> has_char 47 (j +:+ ".json") = false /\
  negb (String.eqb (j +:+ ".json") "") && negb (String.eqb (j +:+ ".json") ".") = true.
Proof.
  intros Hj. split; [by rewrite has_char_app, Hj|]. destruct j as [|c j]; [done|]. rewrite append_cons. cbn [String.eqb negb andb].
  destruct (Ascii.eqb c _); [|done]. by destruct j.
Qed.
Lemma components_file j : has_char 47 j = false -> components (j +:+ ".json") = [j +:+ ".json"].
Proof. intros Hj. destruct (json_name j Hj) as [Hh Hn]. unfold components. rewrite split_absent by done. cbn [List.filter]. by rewrite Hn. Qed.
Lemma components_relative j :
  has_char 47 j = false -> components ("receipts/" +:+ j +:+ ".json") = ["receipts"; j +:+ ".json"].
Proof.
  intros Hj. destruct (json_name j Hj) as [Hh Hn]. unfold components.
  change ("receipts/" +:+ ?t) with ("receipts" +:+ String "/" t). rewrite split_at_char, split_absent by done.
  cbn [List.filter]. by rewrite Hn.
Qed.
Lemma relative_app base t : relative base (base ++ t) = Some t.
Proof. induction base as [|b base IH]; [done|]. cbn. by rewrite String.eqb_refl. Qed.

Lemma startswith_slash j : has_char 47 j = false -> is_absolute (j +:+ ".json") = false.
Proof.
  destruct j as [|c j]; [done|]. unfold is_absolute, startswith, has_char. cbn. intros [Hc _]%orb_false_iff.
  rewrite append_cons. cbn [String.prefix]. destruct (Ascii.ascii_dec "/" c) as [<-|]; [|done]. by vm_compute in Hc.
Qed.

Lemma job_of_item w x : good w x -> job_id_of (i_result x) = Ok (VStr (i_job x)).
Proof.
  intros (He & Hs & _). unfold job_id_of. apply evaluated_receipt in He as ->.
  destruct Hs as [Hw _ _ Hsort _ _ (identity & kind & Hid & Hj & _) _].
  destruct (wf_dict (i_receipt x) "identity" Hw) as [Hn Hwi]. pose proof (assoc_canon (i_receipt x) "identity" Hn) as Ha.
  rewrite Hsort in Ha. cbn [dict_of] in Ha. rewrite Hid in Ha. cbn [get_default].
  destruct (assoc "identity" (i_receipt x)) as [v|]; [|done]. cbn in Ha, Hwi. injection Ha as ->. cbn [default from_option id mbind res_bind].
  rewrite get_canon in Hj by done. destruct (get v "job_id") as [u|]; [|done]. cbn in Hj. injection Hj as Hj.
  symmetry in Hj. by apply canon_str in Hj as ->.
Qed.

Lemma child_of_item w x : good w x -> child_receipt resolve run_root run_paths w (i_result x) = Ok [child_entry x].
Proof.
  intros Hg. unfold child_receipt. rewrite (job_of_item w x Hg). cbn [mbind res_bind].
  destruct Hg as (_ & Hs & Hf). destruct Hs as [_ _ _ _ _ _ _ (_ & _ & Hj)]. unfold receipt_file in Hf.
  unfold joinpath. rewrite startswith_slash, components_file by done. cbn [receipts run_paths]. rewrite <- app_assoc. cbn [app].
  unfold content. rewrite resolve_run by by eexists. rewrite Hf. unfold relative_to. rewrite relative_app. done.
Qed.

Lemma entry_of_item w x : good w x -> error (i_result x) = None -> result_entry (i_result x) = Ok (entry_of x).
Proof. intros Hg He. unfold result_entry. rewrite (job_of_item w x Hg). cbn [mbind res_bind]. by rewrite He. Qed.

(** ** The verifier on the manifest *)
Section verifier.
Variables (w : world) (PROBES : list CinderProbe).
Definition run_fs : filesystem := mk_fs resolve (fun p => files w !! p).
Local Notation check_child := (IncidentVerify.check_child float_repr parse_float message run_fs run_root key policy).
Local Notation check_children := (IncidentVerify.check_children float_repr parse_float message run_fs run_root key policy).
Local Notation check_result := (IncidentVerify.check_result PROBES).
Local Notation check_results := (IncidentVerify.check_results PROBES).

Lemma run_file_item x :
  good w x -> _run_file run_fs run_root (VStr ("receipts/" +:+ i_job x +:+ ".json")) = Ok (receipt_file (i_job x)).
Proof.
  intros (_ & Hs & Hf). destruct Hs as [_ _ _ _ _ _ _ (_ & _ & Hj)]. unfold _run_file.
  change (String.eqb ("receipts/" +:+ i_job x +:+ ".json") "") with false.
  change (is_absolute ("receipts/" +:+ i_job x +:+ ".json")) with false. cbn [okb raise_if fs_resolve run_fs].
  rewrite resolve_run by done. cbn [mbind res_bind]. unfold joinpath.
  change (is_absolute ("receipts/" +:+ i_job x +:+ ".json")) with false. cbv iota.
  rewrite components_relative by done. fold (receipt_file (i_job x)). rewrite resolve_run by by eexists. cbn [mbind res_bind fs_file run_fs].
  rewrite Hf, bool_decide_eq_false_2, bool_decide_eq_true_2; [|by eexists|].
  - unfold is_prefix, receipt_file. by rewrite relative_app.
  - unfold receipt_file. intros E%(f_equal length). rewrite length_app in E. cbn in E. lia.
Qed.

Lemma ne_str_same s : ne_str (VStr s) s = false.
Proof. unfold ne_str, ne. cbn. by rewrite String.eqb_refl. Qed.

Lemma accept_item x :
  good w x -> accept_receipt float_repr parse_float key policy (dict_of (child_entry x)) (i_job x) (i_raw x) = Ok (i_read x).
Proof.
  intros (_ & Hs & _). destruct Hs as [_ Ht Hl _ Hv Hsig (identity & kind & Hid & Hj & _) _].
  unfold accept_receipt. cbn [dict_of child_entry]. change (assoc "sha256" _) with (Some (VStr (hexdigest (i_raw x)))).
  cbn [default from_option id]. rewrite ne_str_same. cbn [okb raise_if]. rewrite Ht. cbn [mbind res_bind]. rewrite Hl. cbn [mbind res_bind].
  rewrite Hv. cbn [mbind res_bind dict_of]. rewrite Hsig. cbn [negb okb raise_if get_default mbind res_bind]. rewrite Hid.
  cbn [default from_option id]. rewrite Hj. cbn [mbind res_bind]. by rewrite ne_str_same.
Qed.

Lemma check_child_item i s x :
  good w x -> c_errors s = [] -> ~ In (i_job x) (c_seen s) ->
  exists s', check_child i s (child_entry x) = Ok s' /\ c_errors s' = [] /\ c_seen s' = c_seen s ++ [i_job x] /\
    c_receipts s' = dict_set (i_job x) (i_read x) (c_receipts s).
Proof.
  intros Hg He Hn. pose proof Hg as (_ & Hs & Hf). destruct Hs as [_ _ _ _ _ _ _ (Hj & _ & _)].
  unfold IncidentVerify.check_child. cbn [child_entry]. change (assoc "job_id" _) with (Some (VStr (i_job x))).
  cbn [default from_option id]. rewrite (proj2 (String.eqb_neq _ _) Hj). destruct (mem _ _) eqn:Em; [by apply mem_In in Em|].
  cbn [orb]. unfold check_child_file. change (assoc "path" _) with (Some (VStr ("receipts/" +:+ i_job x +:+ ".json"))).
  cbn [default from_option id]. rewrite run_file_item by done. unfold read_bytes. cbn [fs_file run_fs]. rewrite Hf.
  unfold relative_to, receipt_file at 1. rewrite relative_app.
  change (VDict [("job_id", VStr (i_job x)); _; _]) with (child_entry x).
  pose proof (accept_item x Hg) as Ha. cbn [dict_of child_entry] in Ha. rewrite Ha. eexists. split; [reflexivity|]. done.
Qed.

Lemma check_children_items xs : forall i s,
  Forall (good w) xs -> c_errors s = [] -> NoDup (c_seen s ++ map i_job xs) -> keys (c_receipts s) = c_seen s ->
  exists s', check_children i (map child_entry xs) s = Ok s' /\ c_errors s' = [] /\ c_seen s' = c_seen s ++ map i_job xs /\
    c_receipts s' = c_receipts s ++ map (fun x => (i_job x, i_read x)) xs.
Proof.
  induction xs as [|x xs IH]; intros i s Hg He Hn Hk; cbn [map IncidentVerify.check_children].
  - exists s. by rewrite !app_nil_r.
  - inversion Hg as [|? ? Hx Hxs]; subst. cbn [map] in Hn.
    assert (Hf : ~ In (i_job x) (c_seen s)).
    { intros Hin%list_elem_of_In. apply NoDup_app in Hn as (_ & Hn & _). apply (Hn _ Hin). by left. }
    destruct (check_child_item i s x Hx He Hf) as (s1 & -> & He1 & Hs1 & Hr1). cbn [mbind res_bind].
    rewrite dict_set_fresh in Hr1 by by rewrite Hk.
    destruct (IH (S i) s1 Hxs He1) as (s2 & -> & He2 & Hs2 & Hr2).
    + by rewrite Hs1, <- app_assoc.
    + rewrite Hr1, Hs1. unfold keys in *. by rewrite map_app, Hk.
    + exists s2. split_and!; [done|done|by rewrite Hs2, Hs1, <- app_assoc|by rewrite Hr2, Hr1, <- app_assoc].
Qed.

Lemma disagreements_none d p q fields :
  Forall (fun kv => py_eq (default VNone (assoc (fst kv) d)) (snd kv) = true) fields -> disagreements d p q fields = [].
Proof.
  unfold disagreements, ne. induction 1 as [|[k v] fields Hk _ IH]; [done|]. cbn [flat_map fst snd] in *. by rewrite Hk, IH.
Qed.
Lemma py_eq_strs l : py_eq (strs l) (strs l) = true.
Proof. unfold strs. induction l as [|x l IH]; [done|]. cbn. rewrite String.eqb_refl. exact IH. Qed.
Lemma py_eq_bool_refl b : py_eq (VBool b) (VBool b) = true.
Proof. by destruct b. Qed.
Lemma py_eq_int_refl z : py_eq (VInt z) (VInt z) = true.
Proof. cbn. lia. Qed.
Lemma canon_strs l : canon (strs l) = strs l.
Proof. unfold strs. cbn. f_equal. rewrite map_map. done. Qed.

Definition entry_fields (x : item) : pydict := dict_of (canon (entry_of x)).
Lemma entry_field x k : assoc k (entry_fields x) = canon <$> assoc k (dict_of (entry_of x)).
Proof.
  unfold entry_fields, entry_of. cbn [dict_of]. apply assoc_canon.
  apply (bool_decide_unpack (NoDup (keys (dict_of (entry_of x))))). vm_compute. exact I.
Qed.

(** The canonical probes have distinct names. *)
Hypothesis distinct_names : NoDup (map p_name PROBES).
Lemma find_probe_in p : In p PROBES -> IncidentVerify.find_probe PROBES (p_name p) = Some p.
Proof.
  unfold IncidentVerify.find_probe. clear resolve_run. assert (Hn : NoDup (map p_name (rev PROBES))) by (by rewrite <- Permutation_rev).
  rewrite in_rev. induction (rev PROBES) as [|q l IH]; [done|]. cbn in *.
  apply NoDup_cons in Hn as [Hq Hl]. intros [->|Hin]; [by rewrite String.eqb_refl|].
  destruct (String.eqb_spec (p_name q) (p_name p)) as [E|]; [|by apply IH].
  destruct Hq. rewrite E. apply list_elem_of_In. by apply in_map.
Qed.

Definition item_ok (x : item) : Prop := good w x /\ In (i_probe x) PROBES /\ probe_ok (i_probe x) = true.

(** What is known of the result of an item. *)
Lemma item_result x :
  item_ok x ->
  let r := i_result x in exists risk decision, r_receipt r = i_receipt x /\ error r = None /\ r_name r = p_name (i_probe x) /\
    expected_risk r = p_expected_risk (i_probe x) /\ expected_decision r = p_expected_decision (i_probe x) /\
    expected_rules r = p_expected_rules (i_probe x) /\
    observed_risk r = VStr risk /\ In risk OutwardReport.RISK_LEVELS /\
    observed_decision r = VStr decision /\ In decision ["ALLOW"; "DENY"; "EVALUATION_INCOMPLETE"] /\
    Forall (fun x => WorkerWire.plain x = true) (observed_rules r) /\ In (observation_status r) ["COMPLETE"; "EVALUATION_INCOMPLETE"] /\
    derived_fields (i_probe x) (i_read x) = Ok (result_fields r (sort_strs (observed_rules r))).
Proof.
  intros ((He & Hs & _) & _ & Hp). unfold probe_ok in Hp. run_inv.
  match goal with Hx : has_key _ RISK_RANK = true |- _ => unfold has_key in Hx; destruct (assoc _ RISK_RANK) as [rank|] eqn:Er; [|done] end.
  destruct (signed_evaluates _ _ _ _ _ _ _ _ _ rank Hs Er) as (r & risk & decision & He' & Hr). rewrite He in He'. injection He' as <-.
  by exists risk, decision.
Qed.

Lemma check_result_item receipts i s x :
  item_ok x -> assoc (i_job x) receipts = Some (i_read x) -> ~ In (p_name (i_probe x)) (s_names s) ->
  check_result receipts i s (canon (entry_of x)) = Ok (mk_results (s_errors s) (s_names s ++ [p_name (i_probe x)])).
Proof.
  intros Hx Hr Hn. destruct (item_result x Hx) as (risk & decision & _ & _ & Hname & Hk1 & Hk2 & Hk3 & Hrisk & _ & Hdec & _ & _ & _ & Hd).
  pose proof Hx as (_ & Hin & _). unfold IncidentVerify.check_result.
  change (canon (entry_of x)) with (VDict (entry_fields x)). cbv iota zeta. rewrite !entry_field.
  change (assoc "name" (dict_of (entry_of x))) with (Some (VStr (r_name (i_result x)))).
  change (assoc "job_id" (dict_of (entry_of x))) with (Some (VStr (i_job x))). cbn [fmap option_fmap option_map canon default from_option id].
  rewrite Hname. destruct (mem _ _) eqn:Em; [by apply mem_In in Em|]. rewrite (find_probe_in _ Hin). rewrite Hr, Hd. cbn [mbind res_bind].
  rewrite !disagreements_none; [by rewrite app_nil_r| |].
  - unfold result_fields. repeat (apply List.Forall_cons; [|]); try apply List.Forall_nil; cbn [fst snd]; rewrite entry_field.
    all: cbn [dict_of entry_of assoc String.eqb Ascii.eqb Bool.eqb fmap option_fmap option_map default from_option id].
    all: rewrite ?Hrisk, ?Hdec, ?canon_strs; first [apply py_eq_strs | apply py_eq_bool_refl | by apply py_eq_str].
  - unfold expected_fields. repeat (apply List.Forall_cons; [|]); try apply List.Forall_nil; cbn [fst snd]; rewrite entry_field.
    all: cbn [dict_of entry_of assoc String.eqb Ascii.eqb Bool.eqb fmap option_fmap option_map default from_option id].
    all: rewrite ?Hk1, ?Hk2, ?Hk3, ?canon_strs; first [apply py_eq_strs | by apply py_eq_str].
Qed.

Lemma check_results_items receipts xs : forall i s,
  Forall item_ok xs -> Forall (fun x => assoc (i_job x) receipts = Some (i_read x)) xs ->
  NoDup (s_names s ++ map (fun x => p_name (i_probe x)) xs) ->
  check_results receipts i (map (fun x => canon (entry_of x)) xs) s
  = Ok (mk_results (s_errors s) (s_names s ++ map (fun x => p_name (i_probe x)) xs)).
Proof.
  induction xs as [|x xs IH]; intros i s Hx Hr Hn; cbn [map IncidentVerify.check_results].
  - rewrite app_nil_r. by destruct s.
  - inversion Hx as [|? ? Hx1 Hx2]; subst. inversion Hr as [|? ? Hr1 Hr2]; subst. cbn [map] in Hn.
    rewrite check_result_item; [|done|done|].
    + cbn [mbind res_bind]. rewrite IH; cbn [s_errors s_names]; rewrite <- ?app_assoc; done.
    + intros Hin%list_elem_of_In. apply NoDup_app in Hn as (_ & Hn & _). apply (Hn _ Hin). by left.
Qed.

Lemma entry_flags x :
  item_ok x ->
  let e := canon (entry_of x) in
  well_shaped e = true /\ flag "containment_held" e = containment_held (i_result x) /\
  flag "isolation_confirmed" e = isolation_confirmed (i_result x) /\ flag "purge_verified" e = purge_verified (i_result x) /\
  flag "error" e = has_error (i_result x) /\ job_of e = [i_job x] /\
  ne_str (field (dict_of e) "observation_status") "COMPLETE" = negb (String.eqb (observation_status (i_result x)) "COMPLETE").
Proof.
  intros Hx. destruct (item_result x Hx) as (_ & _ & _ & He & _). cbv zeta.
  change (canon (entry_of x)) with (VDict (entry_fields x)). unfold well_shaped, flag, field, has_error, job_of. cbn [dict_of].
  rewrite !entry_field, He. split_and!; done.
Qed.

Lemma computed_status_items xs :
  Forall item_ok xs -> computed_status (map (fun x => canon (entry_of x)) xs) = _overall_status (map i_result xs).
Proof.
  intros Hx. unfold computed_status, _overall_status.
  assert (H1 : forallb (flag "containment_held") (map (fun x => canon (entry_of x)) xs) = forallb containment_held (map i_result xs)).
  { induction Hx as [|x xs Hx _ IH]; [done|]. cbn [map forallb]. destruct (entry_flags x Hx) as (_ & -> & _). by rewrite IH. }
  rewrite H1. assert (H2 : forall p q, (forall x, item_ok x -> p (canon (entry_of x)) = q (i_result x)) ->
    existsb p (map (fun x => canon (entry_of x)) xs) = existsb q (map i_result xs)).
  { intros p q Hpq. clear H1. induction Hx as [|x xs Hx _ IH]; [done|]. cbn [map existsb]. by rewrite Hpq, IH. }
  rewrite (H2 _ (fun r => negb (isolation_confirmed r) || negb (purge_verified r))).
  - rewrite (H2 _ (fun r => has_error r || negb (String.eqb (observation_status r) "COMPLETE"))); [done|].
    intros x (_ & _ & _ & _ & -> & _ & ->)%entry_flags. done.
  - intros x (_ & _ & -> & -> & _)%entry_flags. done.
Qed.

(** ** The manifest as a whole *)
Variable created_at : string.
Definition run_manifest (xs : list item) : pydict :=
  master run_root created_at (map child_entry xs) (map i_result xs) (map entry_of xs).
Definition read_back (xs : list item) : pydict := dict_of (canon (VDict (run_manifest xs))).

Lemma manifest_field xs k : assoc k (read_back xs) = canon <$> assoc k (run_manifest xs).
Proof.
  apply assoc_canon. apply (bool_decide_unpack (NoDup (keys (run_manifest xs)))). vm_compute. exact I.
Qed.

Lemma canon_child x : canon (child_entry x) = child_entry x.
Proof. done. Qed.

Lemma check_manifest_items xs expect_all :
  Forall item_ok xs -> NoDup (map i_job xs) -> map i_probe xs = PROBES ->
  exists v, check_manifest float_repr parse_float message run_fs PROBES run_root key policy (read_back xs) expect_all = Ok v /\
    verified v = true /\ errors v = [] /\ overall_status v = VStr (_overall_status (map i_result xs)).
Proof.
  intros Hx Hn Hp. assert (Hg : Forall (good w) xs) by (eapply Forall_impl; [exact Hx|by intros x [? _]]).
  unfold check_manifest, both_lists. rewrite !manifest_field.
  change (assoc "child_receipts" (run_manifest xs)) with (Some (VList (map child_entry xs))).
  change (assoc "results" (run_manifest xs)) with (Some (VList (map entry_of xs))).
  cbn [fmap option_fmap option_map canon default from_option id]. rewrite !map_map.
  rewrite (map_ext _ child_entry canon_child).
  assert (Hhead : check_head run_root (read_back xs) = []).
  { unfold check_head, field. rewrite !manifest_field. change (assoc "gate" (run_manifest xs)) with (Some (VStr GATE_VERSION)).
    change (assoc "run_id" (run_manifest xs)) with (Some (VStr (List.last run_root ""))).
    cbn [fmap option_fmap option_map canon default from_option id]. by rewrite !ne_str_same. }
  rewrite Hhead. cbn [app].
  destruct (check_children_items xs 0 (mk_children [] [] [] []) Hg eq_refl Hn eq_refl) as (c & -> & He & Hs & Hr).
  cbn [c_seen c_receipts app] in Hs, Hr. cbn [mbind res_bind]. rewrite He, Hr. cbn [app].
  assert (Hcounts : check_counts (read_back xs) (map child_entry xs) (map (fun x => canon (entry_of x)) xs) (c_seen c) = []).
  { unfold check_counts, field. rewrite manifest_field. change (assoc "probe_count" (run_manifest xs)) with
      (Some (VInt (Z.of_nat (length (map i_result xs))))). cbn [fmap option_fmap option_map canon default from_option id].
    rewrite !length_map, Nat.eqb_refl. unfold ne. rewrite py_eq_int_refl. cbn [negb orb app]. rewrite Hs.
    assert (Hj : flat_map job_of (map (fun x => canon (entry_of x)) xs) = map i_job xs).
    { clear -Hx. induction Hx as [|x xs Hx _ IH]; [done|]. cbn [map flat_map]. destruct (entry_flags x Hx) as (_ & _ & _ & _ & _ & -> & _).
      by rewrite IH. }
    rewrite Hj. by rewrite (proj2 (same_set_spec _ _)). }
  rewrite Hcounts.
  assert (Hnames : map (fun x => p_name (i_probe x)) xs = map p_name PROBES) by (rewrite <- Hp, map_map; done).
  rewrite check_results_items; [|done| |cbn [s_names app]; by rewrite Hnames].
  2:{ rewrite Forall_forall. intros x Hin. apply assoc_NoDup; [unfold keys; by rewrite map_map|].
      apply in_map_iff. exists x. split; [done|]. by apply list_elem_of_In. }
  cbn [mbind res_bind s_errors s_names app].
  assert (Htot : check_totals (read_back xs) (map (fun x => canon (entry_of x)) xs) = ([], [])).
  { unfold check_totals, field. rewrite !manifest_field.
    change (assoc "all_contained" (run_manifest xs)) with (Some (VBool (forallb containment_held (map i_result xs)))).
    change (assoc "overall_status" (run_manifest xs)) with (Some (VStr (_overall_status (map i_result xs)))).
    cbn [fmap option_fmap option_map canon default from_option id]. rewrite computed_status_items, ne_str_same by done.
    assert (Hw : forallb well_shaped (map (fun x => canon (entry_of x)) xs) = true /\
      forallb (flag "containment_held") (map (fun x => canon (entry_of x)) xs) = forallb containment_held (map i_result xs)).
    { clear -Hx. induction Hx as [|x xs Hx _ [IH1 IH2]]; [done|]. cbn [map forallb]. destruct (entry_flags x Hx) as (-> & -> & _).
      by rewrite IH1, IH2. }
    destruct Hw as [-> ->]. cbn [negb]. by destruct (forallb _ _). }
  rewrite Htot. eexists. split; [reflexivity|]. cbn [verified errors overall_status app].
  rewrite Hnames, (proj2 (same_set_spec _ _)) by done. cbn [negb]. rewrite andb_false_r. split_and!; [done..|].
  unfold field. rewrite manifest_field.
  change (assoc "overall_status" (run_manifest xs)) with (Some (VStr (_overall_status (map i_result xs)))). done.
Qed.

Lemma json_ok_strs l : json_ok (strs l) = true.
Proof. unfold strs. cbn. apply forallb_forall. intros x Hx. by apply in_map_iff in Hx as (y & <- & _). Qed.
Lemma plain_strs l : Forall (fun x => WorkerWire.plain x = true) l -> strings_ok WorkerWire.plain (strs (sort_strs l)) = true.
Proof.
  intros Hl. unfold strs. cbn. apply forallb_forall. intros x Hx. apply in_map_iff in Hx as (y & <- & Hy).
  rewrite in_sort_strs in Hy. apply list_elem_of_In in Hy. rewrite Forall_forall in Hl. exact (Hl _ Hy).
Qed.
Lemma plain_in x l : forallb WorkerWire.plain l = true -> In x l -> WorkerWire.plain x = true.
Proof. rewrite forallb_forall. auto. Qed.
Lemma plain_app a b : WorkerWire.plain (a +:+ b) = WorkerWire.plain a && WorkerWire.plain b.
Proof. apply str_forall_app. Qed.
Lemma plain_hex s : WorkerWire.plain (hexdigest s) = true.
Proof.
  pose proof (hexdigest_hex s) as Hs. unfold hex_string in Hs. apply andb_true_iff in Hs as [_ Hs]. revert Hs. apply str_forall_weaken.
  intros c. unfold is_lower_hex, is_digit, in_range. lia.
Qed.

Lemma entry_json x : item_ok x -> json_ok (entry_of x) = true /\ strings_ok WorkerWire.plain (entry_of x) = true.
Proof.
  intros Hx. destruct (item_result x Hx) as (risk & decision & _ & _ & E1 & E2 & E3 & E4 & E5 & Hrisk & E6 & Hdec & Hrules & Hst & _).
  destruct Hx as ((_ & Hs & _) & _ & Hp). destruct Hs as [_ _ _ _ _ _ _ (_ & Hj & _)]. unfold probe_ok in Hp. run_inv.
  apply (plain_in _ OutwardReport.RISK_LEVELS eq_refl) in Hrisk. apply plain_in in Hdec; [|reflexivity].
  apply plain_in in Hst; [|reflexivity].
  unfold entry_of. rewrite E1, E2, E3, E4, E5, E6. split.
  - cbn [json_ok forallb snd]. rewrite !json_ok_strs. apply andb_true_iff. split; [vm_compute; reflexivity|done].
  - cbn [strings_ok forallb fst snd]. rewrite !plain_strs; [|by apply forallb_Forall|done].
    repeat match goal with Hx : WorkerWire.plain _ = true |- _ => rewrite Hx; clear Hx end. done.
Qed.

Lemma child_json x : item_ok x -> json_ok (child_entry x) = true /\ strings_ok WorkerWire.plain (child_entry x) = true.
Proof.
  intros ((_ & Hs & _) & _). destruct Hs as [_ _ _ _ _ _ _ (_ & Hj & _)]. split; [vm_compute; reflexivity|].
  cbn [strings_ok forallb fst snd child_entry]. rewrite !plain_app, Hj, plain_hex. done.
Qed.

Lemma plain_path : Forall (fun c => WorkerWire.plain c = true) run_root ->
  WorkerWire.plain (path_text run_root) = true /\ WorkerWire.plain (List.last run_root "") = true.
Proof.
  intros Hr. unfold path_text. rewrite plain_app. clear resolve_run. induction Hr as [|c l Hc Hl [IH1 IH2]]; [done|].
  destruct l as [|d l]; [change (String.concat "/" [c]) with c; by rewrite Hc|]. split; [|exact IH2].
  change (String.concat "/" (c :: d :: l)) with (c +:+ "/" +:+ String.concat "/" (d :: l)). by rewrite !plain_app, Hc.
Qed.

Lemma manifest_json xs :
  Forall item_ok xs -> Forall (fun c => WorkerWire.plain c = true) run_root -> WorkerWire.plain created_at = true ->
  Z.of_nat (length xs) < 2 ^ 64 ->
  json_ok (VDict (run_manifest xs)) = true /\ strings_ok WorkerWire.plain (VDict (run_manifest xs)) = true.
Proof.
  intros Hx Hr Hc Hlen. destruct (plain_path Hr) as [Hr1 Hr2].
  assert (Hall : forall f : item -> pyval, (forall x, item_ok x -> json_ok (f x) = true /\ strings_ok WorkerWire.plain (f x) = true) ->
    forallb json_ok (map f xs) = true /\ forallb (strings_ok WorkerWire.plain) (map f xs) = true).
  { intros f Hf. clear -Hx Hf. induction Hx as [|x xs Hx _ [IH1 IH2]]; [done|]. cbn [map forallb]. destruct (Hf x Hx) as [-> ->].
    by rewrite IH1, IH2. }
  destruct (Hall _ child_json) as [C1 C2]. destruct (Hall _ entry_json) as [E1 E2].
  assert (Hst : WorkerWire.plain (_overall_status (map i_result xs)) = true).
  { unfold _overall_status. repeat destruct (forallb _ _); repeat destruct (existsb _ _); done. }
  unfold run_manifest, master. split.
  - cbn [json_ok forallb snd]. rewrite C1, E1, length_map. apply andb_true_iff. split; [vm_compute; reflexivity|].
    assert (Hn : in_range (- (2 ^ 128 - 1)) (2 ^ 128 - 1) (Z.of_nat (length xs)) = true) by (unfold in_range; lia). by rewrite Hn.
  - cbn [strings_ok forallb fst snd]. rewrite C2, E2, Hr1, Hr2, Hc, Hst. done.
Qed.
End verifier.

(** ** The whole run *)
Variables (SNAPSHOT_PATH SNAPSHOT_MANIFEST_PATH tmp : path) (bootstrap_snapshot verify_snapshot : io unit).
Variables (is_symlink : path -> bool) (mkdir : path -> res unit) (os_write : string -> res nat).
Variables (PROBES : list CinderProbe) (created_at : string).

Local Notation ensure := (_ensure_snapshot SNAPSHOT_PATH SNAPSHOT_MANIFEST_PATH bootstrap_snapshot verify_snapshot).
Local Notation run_selected := (IncidentGate.run_selected float_repr repr_wide message detonate SNAPSHOT_PATH
  SNAPSHOT_MANIFEST_PATH bootstrap_snapshot verify_snapshot mkdtemp tmp is_symlink mkdir resolve os_write).

(** The directories of the run can be made and the manifest is written whole. *)
Hypothesis directories_ok : forall p, run_root `prefix_of` p -> is_symlink p = false /\ mkdir p = Ok tt.
Hypothesis writes_ok : forall xs, let text := manifest_text float_repr (run_manifest created_at xs) in os_write text = Ok (String.length text).
Hypothesis probes_ok : Forall (fun p => probe_ok p = true) PROBES.
Hypothesis probes_distinct : NoDup (map p_name PROBES).
Hypothesis probes_few : Z.of_nat (length PROBES) < 2 ^ 64.
Hypothesis root_plain : Forall (fun c => WorkerWire.plain c = true) run_root.
Hypothesis created_plain : WorkerWire.plain created_at = true.

Lemma evidence_paths : _create_evidence_paths is_symlink mkdir run_root = Ok run_paths.
Proof.
  unfold _create_evidence_paths. destruct (directories_ok run_root ltac:(done)) as [-> ->]. cbn [okb raise_if mbind res_bind].
  cbn [make_directories receipts quarantine alerts].
  destruct (directories_ok (run_root ++ ["receipts"]) ltac:(by eexists)) as [-> ->]. cbn [okb raise_if mbind res_bind].
  destruct (directories_ok (run_root ++ ["quarantine"]) ltac:(by eexists)) as [-> ->]. cbn [okb raise_if mbind res_bind].
  destruct (directories_ok (run_root ++ ["alerts"]) ltac:(by eexists)) as [-> ->]. done.
Qed.

Lemma json_encodable v : json_ok v = true -> encodable v = true.
Proof.
  induction v as [| | | | | |l IH|d IH] using pyval_ind'; try done; cbn.
  - rewrite !forallb_forall. rewrite Forall_forall in IH. intros Hl x Hx. apply IH; [by apply list_elem_of_In|by apply Hl].
  - intros [_ Hd]%andb_true_iff. rewrite forallb_forall in Hd |- *. rewrite Forall_forall in IH. intros x Hx.
    apply IH; [by apply list_elem_of_In|by apply Hd].
Qed.

(** Writing the report does not touch the manifest or the receipts. *)
Lemma write_elsewhere p q text w :
  p <> q -> files (snd (_atomic_write_text os_write p text w)) !! q = files w !! q.
Proof.
  intros Hne. unfold _atomic_write_text. destruct (has_surrogate text); [done|]. destruct (os_write text); [|done].
  cbn [snd files]. by rewrite lookup_insert_ne.
Qed.

Lemma map_res_items {B} (f : ProbeResult -> res B) (g : item -> B) (P : item -> Prop) xs :
  Forall P xs -> (forall x, P x -> f (i_result x) = Ok (g x)) -> map_res f (map i_result xs) = Ok (map g xs).
Proof. intros HP Hf. induction HP as [|x xs Hx _ IH]; [done|]. cbn. rewrite Hf by done. cbn. by rewrite IH. Qed.
Lemma concat_singletons {A B} (f : A -> B) l : concat (map (fun x => [f x]) l) = map f l.
Proof. induction l as [|x l IH]; [done|]. cbn. by rewrite IH. Qed.

Lemma run_result w w0 :
  ensure w = (Ok tt, w0) -> honest_run PROBES w0 ->
  exists xs, let w' := snd (run_selected PROBES run_root created_at w) in
    Forall (item_ok w' PROBES) xs /\ NoDup (map i_job xs) /\ map i_probe xs = PROBES /\
    files w' !! manifest_path run_root = Some (manifest_text float_repr (run_manifest created_at xs)) /\
    forall status, fst (run_selected PROBES run_root created_at w) = Ok status ->
      status = if forallb containment_held (map i_result xs) then 0 else 1.
Proof.
  intros Hw Hh. destruct (run_each PROBES w0 probes_ok Hh) as (xs & w1 & Hrun & Hp & Hg & _ & Hn & _).
  assert (Hok : forall w', (forall j, files w' !! receipt_file j = files w1 !! receipt_file j) -> Forall (item_ok w' PROBES) xs).
  { intros w' Hf. rewrite Forall_forall in Hg |- *. intros x Hx. destruct (Hg x Hx) as (He & Hs & Hx').
    assert (Hin : In (i_probe x) PROBES) by (rewrite <- Hp; apply in_map; by apply list_elem_of_In).
    split; [split; [done|split; [done|by rewrite Hf]]|]. split; [done|].
    rewrite Forall_forall in probes_ok. by apply probes_ok, list_elem_of_In. }
  pose proof (Hok w1 (fun _ => eq_refl)) as Hx1.
  destruct (manifest_json w1 PROBES created_at xs Hx1 root_plain created_plain) as [Hj Hs].
  { rewrite <- (length_map i_probe), Hp. exact probes_few. }
  destruct (read_manifest float_repr parse_float _ Hj Hs) as (_ & _ & Hsur).
  exists xs. cbv zeta. unfold IncidentGate.run_selected, run_all_probes, bind, pure, done, read_children.
  rewrite Hw, evidence_paths, Hrun.
  rewrite (map_res_items _ (fun x => [child_entry x]) (good w1)); [|done|apply child_of_item].
  rewrite (map_res_items _ entry_of (item_ok w1 PROBES)); [|done|].
  2:{ intros x Hx. destruct (item_result w1 PROBES x Hx) as (_ & _ & _ & He & _). by apply (entry_of_item w1 x); [apply Hx|]. }
  cbn [mbind res_bind]. rewrite concat_singletons. fold (run_manifest created_at xs). rewrite json_encodable by done.
  cbn [negb okb raise_if]. set (text := manifest_text _ _) in *.
  set (w2 := mk_world (<[manifest_path run_root := text]> (files w1)) (dirs w1)).
  assert (Hm : _atomic_write_text os_write (manifest_path run_root) text w1 = (Ok tt, w2)).
  { unfold _atomic_write_text. rewrite Hsur. unfold text at 1. rewrite writes_ok. fold text. by rewrite slice_all. }
  rewrite Hm.
  assert (Hm2 : files w2 !! manifest_path run_root = Some text) by apply lookup_insert_eq.
  assert (Hr2 : forall j, files w2 !! receipt_file j = files w1 !! receipt_file j).
  { intros j. apply lookup_insert_ne. unfold manifest_path, receipt_file. intros E%app_inv_head. done. }
  destruct (generate_report _ _ _) as [report|]; [|cbn [fst snd]; split_and!; [by apply Hok|done..]].
  pose proof (write_elsewhere (report_path run_root) (manifest_path run_root) (String.concat (chr 10) report +:+ chr 10) w2) as Hm3.
  pose proof (fun j => write_elsewhere (report_path run_root) (receipt_file j) (String.concat (chr 10) report +:+ chr 10) w2) as Hr3.
  destruct (_atomic_write_text os_write (report_path run_root) _ w2) as [r w3]. cbn [snd] in Hm3, Hr3.
  assert (Hm4 : files w3 !! manifest_path run_root = Some text).
  { rewrite Hm3; [done|]. unfold manifest_path, report_path. by intros E%app_inv_head. }
  assert (Hr4 : forall j, files w3 !! receipt_file j = files w1 !! receipt_file j).
  { intros j. rewrite Hr3; [done|]. unfold receipt_file, report_path. by intros E%app_inv_head. }
  destruct r; cbn [fst snd]; split_and!; try done; try (by apply Hok). by intros status [= <-].
Qed.

(** The run, under the hypotheses of this section. *)
Lemma run_verifies (w w0 : world) (key_path policy_path : path) (policy_value : pyval) (default_policy : option string)
    (read : string -> option string) (expect_all : bool) :
  ensure w = (Ok tt, w0) -> honest_run PROBES w0 ->
  let w' := snd (run_selected PROBES run_root created_at w) in
  let fs := mk_fs resolve (fun p => files w' !! p) in
  files w' !! key_path = Some key -> String.length key = 32%nat ->
  read_json parse_float fs policy_path = Ok policy_value -> policy_of policy_value default_policy read = policy ->
  exists results v,
    verify_run float_repr parse_float message fs PROBES run_root key_path policy_path default_policy read expect_all = Ok v /\
    verified v = true /\ errors v = [] /\ overall_status v = VStr (_overall_status results) /\
    map r_name results = map p_name PROBES /\
    forall status, fst (run_selected PROBES run_root created_at w) = Ok status ->
      (status = 0 <-> overall_status v = VStr "ALL_BOUNDARIES_HELD").
Proof.
  intros Hw Hh w' fs Hk Hlen Hpol Hpv. destruct (run_result w w0 Hw Hh) as (xs & Hx & Hn & Hp & Hm & Hst). fold w' in Hx, Hm.
  destruct (check_manifest_items w' PROBES probes_distinct created_at xs expect_all Hx Hn Hp) as (v & Hc & Hv & He & Ho).
  destruct (manifest_json w' PROBES created_at xs Hx root_plain created_plain) as [Hj Hs].
  { rewrite <- (length_map i_probe), Hp. exact probes_few. }
  destruct (read_manifest float_repr parse_float _ Hj Hs) as (Ht & Hl & _).
  exists (map i_result xs), v. split; [|split; [done|split; [done|split; [done|split]]]].
  - assert (Hf : forall p, fs_file fs p = files w' !! p) by done.
    assert (Hman : read_json parse_float fs (manifest_path run_root) = Ok (VDict (read_back created_at xs))).
    { unfold read_json, read_bytes. rewrite Hf, Hm. cbn [mbind res_bind]. rewrite Ht. cbn [mbind res_bind]. exact Hl. }
    assert (Hkey : read_bytes fs key_path = Ok key) by (unfold read_bytes; by rewrite Hf, Hk).
    unfold verify_run. change (fs_resolve fs run_root) with (resolve run_root). rewrite resolve_run by done. cbn [mbind res_bind].
    rewrite Hman, Hkey. cbn [mbind res_bind is_dict negb okb raise_if]. rewrite Hlen, Hpol. cbn [Nat.eqb negb okb raise_if mbind res_bind dict_of].
    rewrite Hpv. exact Hc.
  - rewrite <- Hp, !map_map. apply map_ext_in. intros x Hin%list_elem_of_In. rewrite Forall_forall in Hx.
    by destruct (item_result w' PROBES x (Hx x Hin)) as (_ & _ & _ & _ & -> & _).
  - intros status Hs'. apply Hst in Hs' as ->. rewrite Ho. unfold _overall_status.
    destruct (forallb containment_held (map i_result xs)); [done|]. split; [done|].
    by destruct (existsb _ _); [|destruct (existsb _ _)].
Qed.
End honest.

(** A host on which a run can leave its evidence: the run directory and what is below it
    are reached without a symbolic link, its directories can be made, and [os.write]
    takes all of the manifest's text. *)
Record evidence_host (float_repr : pyfloat -> string) (run_root : path) (created_at : string) (resolve : path -> res path)
    (is_symlink : path -> bool) (mkdir : path -> res unit) (os_write : string -> res nat) : Prop := {
  resolves : forall p, run_root `prefix_of` p -> resolve p = Ok p;
  makes : forall p, run_root `prefix_of` p -> is_symlink p = false /\ mkdir p = Ok tt;
  takes : forall xs, let text := manifest_text float_repr (run_manifest run_root created_at xs) in os_write text = Ok (String.length text);
}.
(** Probes with distinct names, ranked expectations and plain texts, in a run directory
    and at a time whose texts are plain: printable ASCII. *)
Record plain_run (PROBES : list CinderProbe) (run_root : path) (created_at : string) : Prop := {
  plain_probes : Forall (fun p => probe_ok p = true) PROBES;
  plain_names : NoDup (map p_name PROBES);
  plain_count : Z.of_nat (length PROBES) < 2 ^ 64;
  plain_root : Forall (fun c => WorkerWire.plain c = true) run_root;
  plain_time : WorkerWire.plain created_at = true;
}.

(** C10: What the gate writes, the verifier accepts.  On a host where the run directory
    is reached without symbolic links, its directories can be made and [os.write] takes
    all of the manifest's text (the gate does not look at how much was taken; a short
    write would leave a truncated manifest), and for probes, a run directory and a time
    with plain texts: when every detonation leaves a valid receipt, signed with the key,
    in a new file of the evidence tree, a run of all the probes leaves a directory that
    [verify_run] reports as verified without errors, complete set required or not,
    whatever the probes did; the overall status it returns is the gate's, and the gate
    exits with status 0 exactly when that is that all boundaries held. *)
Theorem honest_run_verifies `{Unicode} `{UnicodeDigits} (float_repr : pyfloat -> string) (parse_float : string -> pyfloat)
    (repr_wide : string -> string) (message : exn -> string) (key : string) (policy : policy_source)
    (detonate : path -> io pydict) (mkdtemp : path -> io string) (run_root : path) (resolve : path -> res path)
    (SNAPSHOT_PATH SNAPSHOT_MANIFEST_PATH tmp : path) (bootstrap_snapshot verify_snapshot : io unit)
    (is_symlink : path -> bool) (mkdir : path -> res unit) (os_write : string -> res nat)
    (PROBES : list CinderProbe) (created_at : string) (w w0 : world) (key_path policy_path : path) (policy_value : pyval)
    (default_policy : option string) (read : string -> option string) (expect_all : bool) :
  let run := run_selected float_repr repr_wide message detonate SNAPSHOT_PATH SNAPSHOT_MANIFEST_PATH bootstrap_snapshot
    verify_snapshot mkdtemp tmp is_symlink mkdir resolve os_write PROBES run_root created_at w in
  let fs := mk_fs resolve (fun p => files (snd run) !! p) in
  evidence_host float_repr run_root created_at resolve is_symlink mkdir os_write -> plain_run PROBES run_root created_at ->
  _ensure_snapshot SNAPSHOT_PATH SNAPSHOT_MANIFEST_PATH bootstrap_snapshot verify_snapshot w = (Ok tt, w0) ->
  honest_run float_repr parse_float message key policy detonate mkdtemp run_root PROBES w0 ->
  files (snd run) !! key_path = Some key -> String.length key = 32%nat ->
  read_json parse_float fs policy_path = Ok policy_value -> policy_of policy_value default_policy read = policy ->
  exists results v,
    verify_run float_repr parse_float message fs PROBES run_root key_path policy_path default_policy read expect_all = Ok v /\
    verified v = true /\ errors v = [] /\ overall_status v = VStr (_overall_status results) /\
    map r_name results = map p_name PROBES /\
    forall status, fst run = Ok status -> (status = 0 <-> overall_status v = VStr "ALL_BOUNDARIES_HELD").
Proof.
  intros run fs [H1 H2 H3] [P1 P2 P3 P4 P5] Hw Hh Hk Hl Hr Hp. by eapply run_verifies.
Qed.
End IncidentRun.
