(* ===== verification/IncidentSample.v ===== *)
(** * A concrete run of the incident gate

    The probes of the repository, receipts of hostile detonations with real
    signatures, and the directory a run leaves: the theorems about runs at work. *)

From stdpp Require Import base list strings gmap.
From Stdlib Require Import ZArith Lia.
From S2P Require Import Prelude PyValue Sha256 Json JsonFacts StrOps Url UrlFacts Detectors OutwardReport PolicyGate BrowserEvidence.
From S2P Require Import BrowserReceipt DetonationReceipt ReceiptFacts PyRepr WorkerWire Canaries.
From S2P Require Import IncidentGate IncidentVerify IncidentFacts IncidentRun.

Local Open Scope Z_scope.

Module IncidentSample.
Import BrowserEvidence BrowserReceipt DetonationReceipt ReceiptFacts Canaries IncidentGate IncidentVerify IncidentFacts IncidentRun.

#[local] Existing Instance ascii_unicode.
#[local] Existing Instance no_digits.

(** ** The canonical probes *)
Definition payload (n : string) : string := "print('" +:+ n +:+ "')".
Definition CINDER_PROBES : list CinderProbe := load_discovered_probes (map (fun fc => object (snd fc)) (SHIPPED payload)).

(** The benign baseline is not an incident probe, and the rest come in the order of
    the attack chain. *)
Lemma canonical_order : map p_name CINDER_PROBES = INCIDENT_ORDER.
Proof. vm_compute. reflexivity. Qed.

(** ** A receipt of a hostile detonation *)
Definition zero_float (s : string) : pyfloat := FFin 0 1.
Definition fired_findings : list finding :=
  map (fun r => (r, (1, match assoc r Detectors.RULES with Some (_, severity, _) => severity | None => "" end)))
    ["cred_harvest_pattern"; "namespace_escape_attempt"; "network_exfil_attempt"].
Definition finding_val (f : finding) : pyval :=
  VDict [("rule_id", VStr (fst f)); ("count", VInt (fst (snd f))); ("severity", VStr (snd (snd f)))].
Definition hostile_report : pyval :=
  VDict [("risk_level", VStr "hostile");
         ("evidence", VList (match map_res outward_item fired_findings with Ok l => l | Err _ => [] end));
         ("capabilities_requested", VList []); ("destinations", VList []); ("canaries_tripped", VList []);
         ("uncertainty", VFloat (FFin 0 1))].
Definition hostile_gate : pyval :=
  match PolicyGate.apply_scoring_matrix zero_float hostile_report (PolicyGate.OverrideDict []) "mf-run" with Ok g => g | Err _ => VNone end.
Definition complete_observation : pyval :=
  VDict [("status", VStr "COMPLETE"); ("exec_observed", VBool true); ("failure_class", VNone); ("diagnostic", VStr "")].
Definition hostile_sections (job_id : string) : list pyval :=
  [VDict [("job_id", VStr job_id); ("artifact_type", VStr "python-script"); ("artifact_sha256", digest64)];
   VDict [("policy_hash", VStr "cf9dd82094616a4b679f9a4763f976e666305969a329b7396044d8f7ad91bc7f")];
   VDict (("mode", VStr "full-root") :: yes ["namespace_used"; "seccomp_loaded"; "cgroups_used"; "mlock_used"]);
   VDict []; VDict [("requested", VList [])]; VDict []; VDict []; VDict []; VList (map finding_val fired_findings);
   hostile_gate; hostile_report;
   VDict (yes purge_checks ++ [("method", VStr "rm"); ("processes_remaining", VInt 0);
                               ("remaining_host_resources", VList [])])].
Definition hostile_receipt (job_id : string) : pydict :=
  match create_receipt zero_repr zero_float (hostile_sections job_id) (VBool false) (VBool false) (FFin 0 1)
          VNone VNone complete_observation (KeyFile 33152 sample_key) "" (PolicyDict sample_policy) with
  | Ok (VDict d) => d
  | _ => []
  end.
(** What [write_receipt] writes. *)
Definition receipt_text (d : pydict) : string := pretty zero_repr 0 (VDict d) +:+ chr 10.

(** ** A host *)
Definition job_name (p : string) : string := "mf-run-" +:+ p.
(** The detonation of an artifact leaves the receipt of a job of its own. *)
Definition sample_detonate (artifact : path) : io pydict := fun w =>
  let j := job_name (List.last artifact "") in
  let d := hostile_receipt j in
  (Ok d, mk_world (<[fst (fst (dirs w)) ++ [j +:+ ".json"] := receipt_text d]> (files w)) (dirs w)).
Definition sample_mkdtemp (base : path) : io string := fun w => (Ok "cindermote-cinder-artifact-1", w).
Definition sample_root : path := ["evidence"; "run-20260701T000000Z-00000001"].
Definition policy_text : string := pretty zero_repr 0 sample_policy +:+ chr 10.
Definition sample_world : world :=
  mk_world {[ ["observer_key"] := sample_key; ["policy.json"] := policy_text ]} ([], [], []).
Definition no_message (e : exn) : string := "".
Definition ok_io : io unit := fun w => (Ok tt, w).
Definition identity_resolve (p : path) : res path := Ok p.
Definition full_write (s : string) : res nat := Ok (String.length s).
Definition active_policy : policy_source := PolicyDict (canon sample_policy).

Local Notation signed := (signed_receipt zero_repr zero_float sample_key active_policy).
Local Notation receipt_of n := (hostile_receipt (job_name (n +:+ ".py"))).

(** Two of the probes are enough for an example. *)
Definition nth_probe (n : nat) : CinderProbe := List.nth n CINDER_PROBES (mk_probe "" "" "" "" "" []).
Definition SAMPLE_PROBES : list CinderProbe := [nth_probe 0; nth_probe 1].

Lemma sample_signed n :
  In n (map p_name SAMPLE_PROBES) ->
  signed (receipt_of n) (dict_of (canon (VDict (receipt_of n)))) (job_name (n +:+ ".py")) (receipt_text (receipt_of n)).
Proof.
  change (map p_name SAMPLE_PROBES) with ["registry_proxy_abuse"; "lateral_movement"]. cbn [In]. intros Hn. repeat (destruct Hn as [<-|Hn]; [constructor; [vm_compute; reflexivity..| |]|]); [..|done].
  all: try (do 2 eexists; split_and!; [vm_compute; reflexivity..|by vm_compute]).
  all: split_and!; by vm_compute.
Qed.

Local Notation run_probe_scoped := (_run_probe_scoped no_message sample_detonate sample_mkdtemp).
Local Notation paths := (run_paths sample_root).
Local Notation file_of p := (receipt_file sample_root (job_name (p_name p +:+ ".py"))).

Lemma last_snoc {A} (l : list A) x d : List.last (l ++ [x]) d = x.
Proof. induction l as [|y l IH]; [done|]. cbn. destruct (l ++ [x]) eqn:E; [by destruct l|]. exact IH. Qed.

Lemma sample_honest_probe p w :
  In p SAMPLE_PROBES -> files w !! file_of p = None ->
  honest_probe zero_repr zero_float sample_key active_policy sample_detonate sample_mkdtemp sample_root p w.
Proof.
  intros Hp Hf. exists "cindermote-cinder-artifact-1". split; [done|]. split; [done|]. cbv zeta.
  set (artifact := _ ++ [_]). set (w1 := mk_world _ _).
  exists (receipt_of (p_name p)), (dict_of (canon (VDict (receipt_of (p_name p))))), (job_name (p_name p +:+ ".py")),
    (receipt_text (receipt_of (p_name p))), (mk_world (<[file_of p := receipt_text (receipt_of (p_name p))]> (files w1)) (dirs w1)).
  assert (Hf1 : files w1 !! file_of p = None) by (cbn [w1 files]; by rewrite lookup_insert_ne).
  split_and!.
  - unfold sample_detonate. unfold artifact at 1 2 3. rewrite last_snoc. done.
  - done.
  - intros q c Hc. cbn [files]. rewrite lookup_insert_ne; [done|]. intros <-. congruence.
  - exact Hf1.
  - apply lookup_insert_eq.
  - apply sample_signed. by apply in_map.
Qed.

Lemma sample_honest_run : honest_run zero_repr zero_float no_message sample_key active_policy sample_detonate sample_mkdtemp sample_root
  SAMPLE_PROBES sample_world.
Proof.
  unfold SAMPLE_PROBES. cbn [honest_run].
  split; [apply sample_honest_probe; [by left|vm_compute; reflexivity]|].
  split; [apply sample_honest_probe; [by right; left|vm_compute; reflexivity]|done].
Qed.

(** ** The run, and its directory read by the verifier *)
Definition sample_run : io Z :=
  run_selected zero_repr (fun s => s) no_message sample_detonate ["snapshot"] ["snapshot.json"] ok_io ok_io sample_mkdtemp ["tmp"]
    (fun _ => false) (fun _ => Ok tt) identity_resolve full_write SAMPLE_PROBES sample_root "2026-07-01T00:00:00Z".
Definition sample_fs : filesystem := mk_fs identity_resolve (fun p => files (snd (sample_run sample_world)) !! p).
Local Notation sample_verification :=
  (verify_run zero_repr zero_float no_message sample_fs SAMPLE_PROBES sample_root ["observer_key"] ["policy.json"] None (fun _ => None) true).

Lemma honest_run_verifies_witness :
  exists results v, sample_verification = Ok v /\ verified v = true /\ errors v = [] /\
    overall_status v = VStr (_overall_status results) /\ map r_name results = map p_name SAMPLE_PROBES /\
    forall status, fst (sample_run sample_world) = Ok status -> (status = 0 <-> overall_status v = VStr "ALL_BOUNDARIES_HELD").
Proof.
  apply (honest_run_verifies zero_repr zero_float (fun s => s) no_message sample_key active_policy sample_detonate sample_mkdtemp
    sample_root identity_resolve ["snapshot"] ["snapshot.json"] ["tmp"] ok_io ok_io (fun _ => false) (fun _ => Ok tt) full_write
    SAMPLE_PROBES "2026-07-01T00:00:00Z" sample_world sample_world) with (policy_value := canon sample_policy);
    [|constructor|done|exact sample_honest_run|vm_compute; reflexivity..].
  - by constructor.
  - by repeat constructor.
  - by apply (bool_decide_unpack _).
  - done.
  - by repeat constructor.
  - done.
Defined.

(** The run held every boundary, and the directory it left proves it. *)
Lemma sample_verified : match sample_verification with Ok v => verified v | Err _ => false end = true.
Proof. vm_compute. reflexivity. Qed.

Lemma verified_run_is_backed_witness :
  exists v root key policy manifest, sample_verification = Ok v /\ fs_resolve sample_fs sample_root = Ok root /\
    read_bytes sample_fs ["observer_key"] = Ok key /\ String.length key = 32%nat /\
    read_json zero_float sample_fs ["policy.json"] = Ok policy /\ read_json zero_float sample_fs (manifest_path root) = Ok (VDict manifest) /\
    overall_status v = field manifest "overall_status" /\
    backed_run zero_repr zero_float sample_fs SAMPLE_PROBES root key (policy_of policy None (fun _ => None)) manifest true.
Proof.
  pose proof sample_verified as Hv. destruct sample_verification as [v|] eqn:E; [|done]. exists v.
  destruct (verified_run_is_backed zero_repr zero_float no_message sample_fs SAMPLE_PROBES sample_root ["observer_key"] ["policy.json"]
    None (fun _ => None) true v E Hv) as (root & key & policy & manifest & Hb).
  exists root, key, policy, manifest. exact (conj eq_refl Hb).
Defined.
End IncidentSample.
