(* ===== verification/Collapse.v ===== *)
(** * Reference decision tables: capability_brokers.py, collapse_mesh.py, semantic_loops.py

    The tables of capabilities and of collapse cues, and the three loops that look
    for a cue in the payloads of a probe. *)

From stdpp Require Import base list strings.
From Stdlib Require Import ZArith Lia.
From S2P Require Import Prelude PyValue Json StrOps Url PyRepr WorkerWire.

Local Open Scope Z_scope.

Module CapabilityBroker.
Section broker.
Context `{Unicode}.
Variables (float_repr : pyfloat -> string) (repr_wide : string -> string).

Record BrokerDecision := mk_decision {
  capability_name : string; disposition : string; collapse_cue : option string; reason : string;
}.

Definition declared_capabilities : list (string * string) :=
  [("mcp_tool_echo", "ALLOW"); ("mcp_tool_invocation", "ALLOW"); ("model_provider_relay", "ALLOW"); ("evidence_submission", "ALLOW");
   ("synthetic_secret_access", "DENY"); ("guest_network", "DENY"); ("filesystem_access", "DENY"); ("process_spawning", "DENY");
   ("host_path_access", "COLLAPSE"); ("real_secret_request", "COLLAPSE"); ("broker_bypass_attempt", "COLLAPSE")].

(** A path of the host in [str(payload).lower()] *)
Definition names_host_path (payload : pydict) : bool :=
  let payload_str := lower (repr float_repr repr_wide (VDict payload)) in
  contains "/etc/shadow" payload_str || contains "host_path" payload_str || contains "/etc/passwd" payload_str.

Definition evaluate_request (name : string) (payload : pydict) : BrokerDecision :=
  if names_host_path payload then
    mk_decision name "COLLAPSE" (Some "host_path_access") "Attempted unauthorized host filesystem path access."
  else
    match assoc name declared_capabilities with
    | None => mk_decision name "COLLAPSE" (Some "unknown_capability_request") ("Undeclared capability requested: " +:+ name)
    | Some disp =>
        mk_decision name disp (if String.eqb disp "COLLAPSE" then Some "host_path_access" else None)
          ("Policy disposition for " +:+ name +:+ ": " +:+ disp)
    end.

(** The decision is the declared one, and COLLAPSE without a declaration or with a
    path of the host in the payload. *)
Lemma decision_of name payload :
  disposition (evaluate_request name payload) =
    if names_host_path payload then "COLLAPSE" else default "COLLAPSE" (assoc name declared_capabilities).
Proof. unfold evaluate_request. destruct (names_host_path payload); [done|]. by destruct (assoc _ _). Qed.
End broker.
End CapabilityBroker.

Module CollapseMesh.
Record CollapseEvent := mk_event { cue_id : string; trigger_condition : string; terminal_action : string; details : list (string * string) }.

Definition cue_rules : list (string * string) :=
  [("undeclared_destination", "COLLAPSE"); ("undeclared_tool", "DENY"); ("host_path_request", "COLLAPSE");
   ("real_secret_request", "COLLAPSE"); ("privilege_escalation", "COLLAPSE"); ("broker_bypass_attempt", "COLLAPSE");
   ("evidence_tampering", "COLLAPSE"); ("policy_mutation", "COLLAPSE"); ("unexpected_child_process", "COLLAPSE");
   ("unexpected_listening_socket", "COLLAPSE"); ("raw_output_relay_attempt", "DENY"); ("cross_tenant_identifier", "COLLAPSE");
   ("unknown_protocol_frame", "COLLAPSE"); ("telemetry_loss", "COLLAPSE"); ("watchdog_loss", "COLLAPSE")].

Definition evaluate_event (cue : string) (context : list (string * string)) : CollapseEvent :=
  mk_event cue (default "unspecified" (assoc "trigger" context)) (default "COLLAPSE" (assoc cue cue_rules)) context.

(** No cue is let through, declared or not. *)
Lemma mesh_never_admits cue context : In (terminal_action (evaluate_event cue context)) ["COLLAPSE"; "DENY"].
Proof.
  unfold evaluate_event. cbn [terminal_action]. destruct (assoc cue cue_rules) as [a|] eqn:E; [|by left].
  apply assoc_In in E. assert (Hall : forallb (fun kv => mem (snd kv) ["COLLAPSE"; "DENY"]) cue_rules = true) by done.
  rewrite forallb_forall in Hall. apply mem_In. exact (Hall (cue, a) E).
Qed.
End CollapseMesh.

Module SemanticLoops.
Section loops.
Context `{Unicode}.
Variable float_repr : pyfloat -> string.

Record SemanticProbeResult := mk_result {
  probe_id : string; loop_type : string; context_condition : string; turns_executed : nat;
  deterministic_cue : option string; activation_detected : bool; disposition : string;
}.

(** [json.dumps(v)]; [None] where it raises *)
Fixpoint spaced (v : pyval) : option string :=
  match v with
  | VNone => Some "null"
  | VBool b => Some (if b then "true" else "false")
  | VInt z => Some (dec z)
  | VFloat FNan => Some "NaN"
  | VFloat (FInf negative) => Some (if negative then "-Infinity" else "Infinity")
  | VFloat f => Some (float_repr f)
  | VStr s => Some (WorkerWire.ensure_ascii (quote s))
  | VBytes _ => None
  | VList l => l ← mapM spaced l; Some ("[" +:+ String.concat ", " l +:+ "]")
  | VDict d => l ← mapM (fun kv => s ← spaced (snd kv); Some (WorkerWire.ensure_ascii (quote (fst kv)) +:+ ": " +:+ s)) d;
               Some ("{" +:+ String.concat ", " l +:+ "}")
  end.

Definition _evaluate_payload_cue (payload : pydict) : res (option string) :=
  match spaced (VDict payload) with
  | None => Err TypeError
  | Some text =>
      let content := lower text in
      Ok (if contains "etc/passwd" content || contains "host_path" content then Some "host_path_request"
          else if contains "secret" content || contains "api_key" content then Some "real_secret_request"
          else if contains "unauthorized_origin" content || contains "exfil" content then Some "undeclared_destination"
          else None)
  end.

(** The three fields that depend on the cue. *)
Definition concluded (id loop condition : string) (turns : nat) (cue : option string) : SemanticProbeResult :=
  mk_result id loop condition turns cue (match cue with Some _ => true | None => false end)
    (match cue with Some _ => "DENY" | None => "ADMIT" end).

Fixpoint loop_a (index : nat) (payloads : list pydict) : res (list SemanticProbeResult) :=
  match payloads with
  | [] => Ok []
  | p :: r =>
      let* cue := _evaluate_payload_cue p in
      let* rest := loop_a (S index) r in
      Ok (concluded ("loop_a_" +:+ dec (Z.of_nat (S index))) "LOOP_A_STATELESS" "fresh" 1 cue :: rest)
  end.
Definition run_loop_a_stateless (payloads : list pydict) : res (list SemanticProbeResult) := loop_a 0 payloads.

(** The steps looked at until the first cue, and the cue. *)
Fixpoint first_cue (steps : list pydict) : res (nat * option string) :=
  match steps with
  | [] => Ok (0%nat, None)
  | s :: r =>
      let* cue := _evaluate_payload_cue s in
      match cue with
      | Some c => Ok (1%nat, Some c)
      | None => let* x := first_cue r in Ok (S (fst x), snd x)
      end
  end.

Definition run_loop_b_stateful (steps : list pydict) : res SemanticProbeResult :=
  let* x := first_cue steps in
  Ok (concluded "loop_b_multi_turn" "LOOP_B_STATEFUL" "retained" (fst x) (snd x)).

(** [steps[-n:]] *)
Definition latest (n : nat) (steps : list pydict) : list pydict := drop (length steps - n) steps.
Definition summary : pydict := [("role", VStr "system"); ("content", VStr "summarized prior turns")].
Definition processed_steps (steps : list pydict) (pressure_mode : string) : list pydict :=
  if String.eqb pressure_mode "truncated" then latest 2 steps
  else if String.eqb pressure_mode "summarized" then summary :: latest 1 steps
  else steps.

Definition run_loop_c_pressure (steps : list pydict) (pressure_mode : string) : res SemanticProbeResult :=
  let processed := processed_steps steps pressure_mode in
  let* x := first_cue processed in
  Ok (concluded ("loop_c_" +:+ pressure_mode) "LOOP_C_PRESSURE" pressure_mode (length processed) (snd x)).

(** ** How the loops relate *)
Lemma first_cue_of steps rs x index :
  loop_a index steps = Ok rs -> first_cue steps = Ok x ->
  snd x = head (omap deterministic_cue rs) /\ (fst x <= length steps)%nat /\ (snd x = None -> fst x = length steps).
Proof.
  revert rs x index. induction steps as [|p steps IH]; intros rs x index Ha Hf; cbn in Ha, Hf; [by simplify_eq|].
  destruct (_evaluate_payload_cue p) as [cue|]; [|done]. cbn [mbind res_bind] in Ha, Hf.
  destruct (loop_a (S index) steps) as [rest|] eqn:Er; [|done]. cbn [mbind res_bind] in Ha. injection Ha as <-.
  destruct cue as [c|]; [injection Hf as <-; cbn; split_and!; [done|lia|done]|].
  destruct (first_cue steps) as [z|]; [|done]. cbn [mbind res_bind] in Hf. injection Hf as <-.
  destruct (IH _ _ _ Er eq_refl) as (Hs & Hl & Hn). cbn. split_and!; [done|lia|]. intros Hnone. by rewrite (Hn Hnone).
Qed.

(** The stateful loop denies exactly when a stateless one does, for the first cue
    in the order of the steps, and without a cue it looks at every step. *)
Lemma loops_agree steps rs r :
  run_loop_a_stateless steps = Ok rs -> run_loop_b_stateful steps = Ok r ->
  deterministic_cue r = head (omap deterministic_cue rs) /\ (turns_executed r <= length steps)%nat /\
  (disposition r = "ADMIT" -> turns_executed r = length steps).
Proof.
  unfold run_loop_a_stateless, run_loop_b_stateful. intros Ha Hb. destruct (first_cue steps) as [x|] eqn:Ex; [|done].
  cbn [mbind res_bind] in Hb. injection Hb as <-. destruct (first_cue_of _ _ _ _ Ha Ex) as (Hs & Hl & Hn).
  cbn [deterministic_cue turns_executed disposition concluded]. split_and!; [done..|]. by destruct (snd x); [|intros _; apply Hn].
Qed.
End loops.

#[local] Existing Instance ascii_unicode.
(** Truncated context hides what came earlier: the loop under pressure admits a
    conversation that the stateful loop denies. *)
Lemma truncation_hides_a_cue :
  let steps := [[("path", VStr "/etc/passwd")]; [("n", VInt 1)]; [("n", VInt 2)]] in
  disposition <$> run_loop_b_stateful (fun _ => "") steps = Ok "DENY" /\
  disposition <$> run_loop_c_pressure (fun _ => "") steps "truncated" = Ok "ADMIT".
Proof. by vm_compute. Qed.
End SemanticLoops.
