(* ===== verification/KernelLaws.v ===== *)
(** * Kernel laws: kernel_laws.py

    The registries of docs/ are tables in Markdown.  They are parsed, validated one
    by one and compared with the decision table of [CapabilityBroker]. *)

From stdpp Require Import base list strings.
From Stdlib Require Import ZArith Lia.
From S2P Require Import Prelude PyValue Json StrOps Url PolicyGate BrowserEvidence PyRepr WorkerSandbox IncidentGate Collapse.

Local Open Scope Z_scope.

Module KernelLaws.

Definition TRUST_ZONES : list string := ["TAINTED_GUEST"; "BROKERED_SEAM"; "TRUSTED_HOST"; "QUARANTINE"; "EXTERNAL_PROVIDER"].
Definition ATLAS_STATUSES : list string := ["implemented"; "reference"; "disabled"; "removed"].
Definition CAPABILITY_DISPOSITIONS : list string := ["ALLOW"; "DENY"; "QUARANTINE"; "COLLAPSE"; "BROKERED"; "PROHIBITED"].
Definition CUE_ACTIONS : list string := ["ALLOW"; "DENY"; "QUARANTINE"; "COLLAPSE"].

(** ** Text *)

Definition _clean_cell (cell : string) : string := str_strip (strip_chars ["`"] (str_strip (strip_chars ["*"; "_"] (str_strip cell)))).

(** [s[1:]] and [s[:-1]] of a string that starts or ends with a bar *)
Definition chop_first (s : string) : string := if startswith "|" s then tail s else s.
Definition chop_last (s : string) : string := if endswith "|" s then StrOps.slice (String.length s - 1) s else s.

Definition _split_row (line : string) : list string := map _clean_cell (split 124 (chop_last (chop_first (str_strip line)))).

(** [:?-{3,}:?] *)
Fixpoint dashes (n : nat) (s : string) : bool :=
  match s with
  | EmptyString => (3 <=? n)%nat
  | String a "" => (ch 45 a && (2 <=? n)%nat) || (ch 58 a && (3 <=? n)%nat)
  | String a r => ch 45 a && dashes (S n) r
  end.
Definition _SEPARATOR_CELL (cell : string) : bool :=
  dashes 0 (match cell with String a r => if ch 58 a then r else cell | EmptyString => "" end).

Definition is_row (line : string) : bool := startswith "|" (str_strip line).
Definition _is_separator (line : string) : bool := is_row line && forallb _SEPARATOR_CELL (_split_row line).

(** ** Tables *)
Notation row := (list (string * string)).

(** [dict(zip(header, cells))] *)
Definition zip_row (header cells : list string) : row := foldl (fun d kv => dict_set (fst kv) (snd kv) d) [] (combine header cells).

(** Where the scan is: between tables, before the separator, or in the rows. *)
Inductive position := Outside | AtSeparator (header : list string) | Inside (header : list string) (rows : list row).

Fixpoint scan (at_ : position) (lines : list string) : list (list row) :=
  match lines with
  | [] => match at_ with Inside _ rows => [rows] | _ => [] end
  | l :: r =>
      match at_ with
      | Outside =>
          if is_row l && match r with s :: _ => _is_separator s | [] => false end then scan (AtSeparator (_split_row l)) r
          else scan Outside r
      | AtSeparator header => scan (Inside header []) r
      | Inside header rows =>
          if is_row l then
            let cells := _split_row l in
            scan (Inside header (if (length cells =? length header)%nat then rows ++ [zip_row header cells] else rows)) r
          else rows :: scan Outside r
      end
  end.
Definition parse_markdown_tables (text : string) : list (list row) := scan Outside (WorkerSandbox.splitlines text).

Definition has_columns (columns : list string) (table : list row) : bool :=
  match table with [] => false | r :: _ => forallb (fun c => has_key c r) columns end.

(** The rows, and the errors so far with those of this table. *)
Definition _load_table (docs : string -> res string) (name : string) (columns : list string) (repr_list : list string -> string)
    (errors : list string) : res (list row * list string) :=
  match docs name with
  | Err e =>
      if is_os_error e then Ok ([], errors ++ [name +:+ ": registry cannot be read (" +:+ IncidentGate.type_name e +:+ ")"]) else Err e
  | Ok raw =>
      let* text := PolicyGate.read_text raw in
      match List.find (has_columns columns) (parse_markdown_tables text) with
      | Some table => Ok (table, errors)
      | None => Ok ([], errors ++ [name +:+ ": no table with columns " +:+ repr_list (sort_strs columns) +:+ " and at least one row"])
      end
  end.

(** ** Validators *)
Section laws.
Context `{Unicode}.
Variables (float_repr : pyfloat -> string) (repr_wide : string -> string).
Local Notation text := (py_str float_repr repr_wide).

(** [for x in v: ...] where each turn adds errors *)
Fixpoint each (f : pyval -> res (list string)) (l : list pyval) : res (list string) :=
  match l with [] => Ok [] | x :: r => let* e := f x in let* es := each f r in Ok (e ++ es) end.
Definition error_if (b : bool) (msg : string) : list string := if b then [msg] else [].

Definition check_seam (seam : pyval) : res (list string) :=
  let* owner := get seam "owner" in
  let* id := get seam "seam_id" in
  let* broker := get seam "broker" in
  let* source := get seam "source_zone" in
  let* target := get seam "target_zone" in
  Ok (error_if (negb (truthy owner)) ("Seam " +:+ text id +:+ " has no assigned owner.")
      ++ error_if (negb (truthy broker) && py_eq source (VStr "TAINTED_GUEST") && py_eq target (VStr "TRUSTED_HOST"))
           ("Unbrokered guest-to-host seam detected: " +:+ text id)).
Definition validate_seams (registry : pyval) : res (list string) :=
  let* seams := get_default registry "seams" (VList []) in
  let* l := py_iter seams in each check_seam l.

Definition check_capability (cap : pyval) : res (list string) :=
  let* disp := get cap "disposition" in
  let* id := get cap "capability_id" in
  let* unknown := if truthy disp then (let* known := in_strs disp CAPABILITY_DISPOSITIONS in Ok (negb known)) else Ok true in
  let* required := get cap "broker_required" in
  Ok (error_if unknown ("Capability " +:+ text id +:+ " has invalid or missing disposition: " +:+ text disp)
      ++ error_if (py_eq disp (VStr "BROKERED") && negb (truthy required))
           ("Capability " +:+ text id +:+ " set to BROKERED but broker_required is False")).
Definition validate_capabilities (manifest : pyval) : res (list string) :=
  let* capabilities := get_default manifest "capabilities" (VList []) in
  let* l := py_iter capabilities in each check_capability l.

Definition check_cue (cue : pyval) : res (list string) :=
  let* action := get cue "terminal_action" in
  let* id := get cue "cue_id" in
  let* unknown := if truthy action then (let* known := in_strs action CUE_ACTIONS in Ok (negb known)) else Ok true in
  Ok (error_if unknown ("Collapse cue " +:+ text id +:+ " lacks valid terminal action: " +:+ text action)).
Definition validate_collapse_cues (registry : pyval) : res (list string) :=
  let* cues := get_default registry "cues" (VList []) in
  let* l := py_iter cues in each check_cue l.

(** Whether [repo_root / relative] exists. *)
Variable exists_path : string -> bool.

Definition code_paths (code : pyval) : list string :=
  map (fun part => strip_chars ["`"] (str_strip part)) (List.filter (fun part => negb (String.eqb (str_strip part) "")) (split 44 (text code))).

Definition check_component (component : pyval) : res (list string) :=
  let* name := get component "component" in
  let* zone := get component "trust_zone" in
  let* status := get component "status" in
  let* code := get_default component "code" (VStr "") in
  let* zone_known := in_strs zone TRUST_ZONES in
  let* status_known := in_strs status ATLAS_STATUSES in
  let subject := "Component " +:+ text name in
  let zone_errors := error_if (negb zone_known) (subject +:+ " has an unknown trust zone: " +:+ text zone) in
  let paths := code_paths code in
  Ok (zone_errors ++
      if negb status_known then [subject +:+ " has an unknown status: " +:+ text status]
      else if py_eq status (VStr "removed") then
        flat_map (fun p => error_if (exists_path p) (subject +:+ " is marked removed but " +:+ p +:+ " still exists")) paths
      else
        error_if (bool_decide (paths = [])) (subject +:+ " is marked " +:+ text status +:+ " but names no code")
        ++ flat_map (fun p => error_if (negb (exists_path p)) (subject +:+ " is marked " +:+ text status +:+ " but " +:+ p +:+ " does not exist")) paths).
Definition validate_field_atlas (atlas : pyval) : res (list string) := let* l := py_iter atlas in each check_component l.

(** ** [run_kernel_law_checks] *)
Definition _truthy (value : string) : bool := mem (lower (str_strip value)) ["yes"; "true"].
(** [row[column]] of a row of a table that has the column *)
Definition cell (r : row) (column : string) : string := default "" (assoc column r).

Definition SEAM_COLUMNS : list string := ["Seam ID"; "Source Zone"; "Target Zone"; "Owner"; "Broker"; "Instrumented"].
Definition CAPABILITY_COLUMNS : list string := ["Capability"; "Component"; "Broker Required"; "Default Disposition"].
Definition CUE_COLUMNS : list string := ["Trigger Condition"; "Cue ID"; "Required Action"].
Definition ATLAS_COLUMNS : list string := ["Component"; "Trust Zone"; "Status"; "Code"; "Description"].

Definition broker_of (r : row) : string := if startswith "none" (lower (cell r "Broker")) then "" else cell r "Broker".
Definition seam_of (r : row) : pyval :=
  VDict [("seam_id", VStr (cell r "Seam ID")); ("source_zone", VStr (cell r "Source Zone"));
         ("target_zone", VStr (cell r "Target Zone")); ("owner", VStr (cell r "Owner"));
         ("broker", VStr (broker_of r)); ("instrumented", VBool (_truthy (cell r "Instrumented")))].
Definition seam_errors (r : row) : list string :=
  let subject := "Seam " +:+ cell r "Seam ID" in
  error_if (negb (_truthy (cell r "Instrumented"))) (subject +:+ " is not instrumented")
  ++ error_if (negb (mem (cell r "Source Zone") TRUST_ZONES)) (subject +:+ " has an unknown source_zone: " +:+ cell r "Source Zone")
  ++ error_if (negb (mem (cell r "Target Zone") TRUST_ZONES)) (subject +:+ " has an unknown target_zone: " +:+ cell r "Target Zone").

Definition capability_id (r : row) : string :=
  if contains "unknown capability" (lower (cell r "Capability")) then "unknown_capability" else cell r "Capability".
Definition is_unknown (r : row) : bool := String.eqb (capability_id r) "unknown_capability".
Definition capability_of (r : row) : pyval :=
  VDict [("capability_id", VStr (capability_id r)); ("component_id", VStr (cell r "Component"));
         ("disposition", VStr (cell r "Default Disposition")); ("broker_required", VBool (_truthy (cell r "Broker Required")))].

(** [{c["capability_id"]: c["disposition"] for c in capabilities if ...}] *)
Definition documented (rows : list row) : list (string * string) :=
  foldl (fun d r => if is_unknown r then d else dict_set (capability_id r) (cell r "Default Disposition") d) [] rows.
Definition option_text (o : option string) : string := match o with Some s => s | None => "None" end.
Definition table_errors (rows : list row) : list string :=
  let declared := CapabilityBroker.declared_capabilities in
  flat_map (fun name =>
      error_if (negb (bool_decide (assoc name declared = assoc name (documented rows))))
        ("Capability " +:+ name +:+ ": manifest says " +:+ option_text (assoc name (documented rows)) +:+ ", capability_brokers.py says "
         +:+ option_text (assoc name declared)))
    (sort_strs (dedup_strs (keys declared ++ keys (documented rows)))).
Definition capability_errors (rows : list row) : list string :=
  match rows with
  | [] => []
  | _ =>
      flat_map (fun r => error_if (negb (_truthy (cell r "Broker Required")))
                           ("Law 2: capability " +:+ capability_id r +:+ " does not require a broker")) rows
      ++ (let unknown := List.filter is_unknown rows in
          error_if (bool_decide (unknown = []) || existsb (fun r => negb (String.eqb (cell r "Default Disposition") "COLLAPSE")) unknown)
            "Law 3: the manifest must declare unknown capabilities as COLLAPSE")
      ++ table_errors rows
  end.

Definition cue_of (r : row) : pyval :=
  VDict [("cue_id", VStr (cell r "Cue ID")); ("trigger_condition", VStr (cell r "Trigger Condition"));
         ("terminal_action", VStr (cell r "Required Action"))].
Definition cue_errors (rows : list row) : list string :=
  error_if (negb (bool_decide (rows = []))
            && negb (existsb (fun r => String.eqb (cell r "Cue ID") "unknown_capability_request"
                                       && String.eqb (cell r "Required Action") "COLLAPSE") rows))
    "Law 3: COLLAPSE_CUES.md must declare unknown_capability_request as COLLAPSE".

Definition component_of (r : row) : pyval :=
  VDict [("component", VStr (cell r "Component")); ("trust_zone", VStr (cell r "Trust Zone")); ("status", VStr (cell r "Status"));
         ("code", VStr (cell r "Code"))].

Record VerificationResult := mk_verification { valid : bool; errors : list string; summary : list (string * nat) }.

Definition run_kernel_law_checks (docs : string -> res string) : res VerificationResult :=
  let load name columns errors := _load_table docs name columns (fun l => text (IncidentGate.strs l)) errors in
  let* x := load "SEAM_REGISTRY.md" SEAM_COLUMNS [] in
  let '(seams, errors) := x in
  let* e := validate_seams (VDict [("seams", VList (map seam_of seams))]) in
  let errors := errors ++ e ++ flat_map seam_errors seams in
  let* x := load "CAPABILITY_MANIFEST.md" CAPABILITY_COLUMNS errors in
  let '(capabilities, errors) := x in
  let* e := validate_capabilities (VDict [("capabilities", VList (map capability_of capabilities))]) in
  let errors := errors ++ e ++ capability_errors capabilities in
  let* x := load "COLLAPSE_CUES.md" CUE_COLUMNS errors in
  let '(cues, errors) := x in
  let* e := validate_collapse_cues (VDict [("cues", VList (map cue_of cues))]) in
  let errors := errors ++ e ++ cue_errors cues in
  let* x := load "FIELD_ATLAS.md" ATLAS_COLUMNS errors in
  let '(atlas, errors) := x in
  let* e := validate_field_atlas (VList (map component_of atlas)) in
  let errors := errors ++ e in
  Ok (mk_verification (bool_decide (errors = [])) errors
        [("seams", length seams); ("capabilities", length capabilities); ("cues", length cues); ("components", length atlas)]).

(** ** What valid registries say *)

(** The registry is readable and its first table with the columns has these rows. *)
Definition registry (docs : string -> res string) (name : string) (columns : list string) (rows : list row) : Prop :=
  rows <> [] /\ exists raw, docs name = Ok raw /\ PolicyGate.read_text raw = Ok raw /\
    List.find (has_columns columns) (parse_markdown_tables raw) = Some rows.

Definition seam_sound (r : row) : Prop :=
  cell r "Owner" <> "" /\ _truthy (cell r "Instrumented") = true /\ In (cell r "Source Zone") TRUST_ZONES /\
  In (cell r "Target Zone") TRUST_ZONES /\
  (cell r "Source Zone" = "TAINTED_GUEST" -> cell r "Target Zone" = "TRUSTED_HOST" -> broker_of r <> "").
Definition capability_sound (r : row) : Prop :=
  _truthy (cell r "Broker Required") = true /\ In (cell r "Default Disposition") CAPABILITY_DISPOSITIONS /\
  (is_unknown r = true -> cell r "Default Disposition" = "COLLAPSE").
Definition component_sound (r : row) : Prop :=
  let paths := code_paths (VStr (cell r "Code")) in
  In (cell r "Trust Zone") TRUST_ZONES /\ In (cell r "Status") ATLAS_STATUSES /\
  if String.eqb (cell r "Status") "removed" then Forall (fun p => exists_path p = false) paths
  else paths <> [] /\ Forall (fun p => exists_path p = true) paths.

Lemma error_if_nil b msg : error_if b msg = [] -> b = false.
Proof. by destruct b. Qed.
Lemma flat_map_nil {A} (f : A -> list string) l : flat_map f l = [] -> Forall (fun x => f x = []) l.
Proof. induction l as [|x l IH]; [constructor|]. cbn. intros [Hx Hl]%app_eq_nil. constructor; auto. Qed.
Lemma each_nil {A} (f : pyval -> res (list string)) (g : A -> pyval) l :
  each f (map g l) = Ok [] -> Forall (fun x => f (g x) = Ok []) l.
Proof.
  induction l as [|x l IH]; [constructor|]. cbn. destruct (f (g x)) as [e|] eqn:E; [|done]. cbn.
  destruct (each f (map g l)) as [es|]; [|done]. cbn. intros [=H0]. apply app_eq_nil in H0 as [-> ->]. constructor; auto.
Qed.

Lemma load_nil docs name columns show errors rows :
  _load_table docs name columns show errors = Ok (rows, []) -> errors = [] /\ registry docs name columns rows.
Proof.
  unfold _load_table, registry. destruct (docs name) as [raw|e]; [|destruct (is_os_error e); [|done]; intros [=_ H1]; by destruct errors].
  destruct (PolicyGate.read_text raw) as [t|] eqn:Et; [|done]. cbn [mbind res_bind].
  assert (t = raw) as -> by (unfold PolicyGate.read_text in Et; by destruct (_ && _); simplify_eq).
  destruct (List.find _ _) as [table|] eqn:Ef; [|intros [=_ H1]; by destruct errors].
  intros [=-> ->]. split; [done|]. split; [|by exists raw]. apply find_some in Ef as [_ Hc]. by destruct rows.
Qed.

Lemma check_seam_nil r : check_seam (seam_of r) = Ok [] -> seam_errors r = [] -> seam_sound r.
Proof.
  unfold seam_errors, seam_sound. intros Hc He. cbv zeta in He. apply app_eq_nil in He as [H1 He]. apply app_eq_nil in He as [H2 H3].
  apply error_if_nil, negb_false_iff in H1, H2, H3. change (check_seam (seam_of r)) with
    (Ok (error_if (negb (truthy (VStr (cell r "Owner")))) ("Seam " +:+ cell r "Seam ID" +:+ " has no assigned owner.")
      ++ error_if (negb (truthy (VStr (broker_of r))) && py_eq (VStr (cell r "Source Zone")) (VStr "TAINTED_GUEST")
                   && py_eq (VStr (cell r "Target Zone")) (VStr "TRUSTED_HOST"))
           ("Unbrokered guest-to-host seam detected: " +:+ cell r "Seam ID"))) in Hc.
  injection Hc as Hc. apply app_eq_nil in Hc as [H4 H5]. apply error_if_nil in H4, H5. cbn [truthy py_eq] in H4, H5.
  split_and!; [|done|by apply mem_In|by apply mem_In|].
  - intros E. by rewrite E in H4.
  - intros Es Et Eb. by rewrite Es, Et, Eb in H5.
Qed.

(** [not v or v not in known] *)
Lemma known_str (v : string) known :
  (if truthy (VStr v) then (let* k := in_strs (VStr v) known in Ok (negb k)) else Ok true) = Ok false -> In v known.
Proof. cbn. destruct (String.eqb v ""); [done|]. cbn. intros [=H0%negb_false_iff]. by apply mem_In. Qed.

Lemma check_capability_nil r : check_capability (capability_of r) = Ok [] -> In (cell r "Default Disposition") CAPABILITY_DISPOSITIONS.
Proof.
  unfold check_capability, capability_of. cbn [get mbind res_bind assoc String.eqb Ascii.eqb Bool.eqb default from_option id].
  destruct (if truthy _ then _ else _) as [unknown|] eqn:E; [|done]. cbn [mbind res_bind]. intros [=Hc]. apply app_eq_nil in Hc as [Hu _].
  apply error_if_nil in Hu as ->. by apply known_str.
Qed.
Lemma check_cue_nil r : check_cue (cue_of r) = Ok [] -> In (cell r "Required Action") CUE_ACTIONS.
Proof.
  unfold check_cue, cue_of. cbn [get mbind res_bind assoc String.eqb Ascii.eqb Bool.eqb default from_option id].
  destruct (if truthy _ then _ else _) as [unknown|] eqn:E; [|done]. cbn [mbind res_bind]. intros [=Hu].
  apply error_if_nil in Hu as ->. by apply known_str.
Qed.

Lemma no_errors {A} (b : A -> bool) msg l : flat_map (fun p => error_if (b p) (msg p)) l = [] -> Forall (fun p => b p = false) l.
Proof. intros Hf%flat_map_nil. eapply Forall_impl; [exact Hf|]. intros x Hx. by apply error_if_nil in Hx. Qed.

Lemma check_component_nil r : check_component (component_of r) = Ok [] -> component_sound r.
Proof.
  unfold check_component, component_of, component_sound.
  cbn [get get_default mbind res_bind assoc String.eqb Ascii.eqb Bool.eqb default from_option id in_strs]. cbv zeta. intros [=Hc].
  apply app_eq_nil in Hc as [Hz Hc]. apply error_if_nil, negb_false_iff, mem_In in Hz.
  destruct (mem (cell r "Status") ATLAS_STATUSES) eqn:Es; [|done]. apply mem_In in Es. cbn [negb] in Hc. cbn [py_eq] in Hc.
  split; [done|]. split; [done|]. destruct (String.eqb (cell r "Status") "removed").
  - by apply no_errors in Hc.
  - apply app_eq_nil in Hc as [Hn Hc]. apply error_if_nil, bool_decide_eq_false in Hn. split; [done|]. apply no_errors in Hc.
    eapply Forall_impl; [exact Hc|]. intros x Hx. by apply negb_false_iff in Hx.
Qed.

(** A table that agrees with the broker's on every name of both agrees everywhere. *)
Lemma tables_agree rows name : table_errors rows = [] -> assoc name (documented rows) = assoc name CapabilityBroker.declared_capabilities.
Proof.
  unfold table_errors. cbv zeta. intros Ht. apply no_errors in Ht. rewrite Forall_forall in Ht.
  destruct (decide (name ∈ keys CapabilityBroker.declared_capabilities ++ keys (documented rows))) as [Hin|Hout].
  - specialize (Ht name). rewrite negb_false_iff, bool_decide_eq_true in Ht. symmetry. apply Ht. rewrite sort_strs_perm.
    unfold dedup_strs. by apply elem_of_remove_dups.
  - rewrite elem_of_app in Hout. rewrite (proj2 (assoc_None _ (documented rows))), (proj2 (assoc_None _ _)); [done|..];
      rewrite <- list_elem_of_In; tauto.
Qed.

Lemma capability_nil rows :
  rows <> [] -> capability_errors rows = [] -> Forall (fun r => check_capability (capability_of r) = Ok []) rows ->
  Forall capability_sound rows /\ Exists (fun r => is_unknown r = true) rows /\ table_errors rows = [].
Proof.
  intros Hne He Hc. destruct rows as [|r0 rows]; [done|]. unfold capability_errors in He. cbv zeta in He. set (all := r0 :: rows) in *.
  apply app_eq_nil in He as [H1 He]. apply app_eq_nil in He as [H2 H3]. apply no_errors in H1. apply error_if_nil, orb_false_iff in H2 as [H2 H4].
  apply bool_decide_eq_false in H2. split; [|split; [|done]].
  - rewrite Forall_forall in H1, Hc |- *. intros r Hr. specialize (H1 r Hr). apply negb_false_iff in H1. split; [done|].
    split; [by apply check_capability_nil, Hc|]. intros Hu. apply list_elem_of_In in Hr.
    destruct (String.eqb (cell r "Default Disposition") "COLLAPSE") eqn:E; [by apply String.eqb_eq|].
    assert (Hex : existsb (fun r => negb (String.eqb (cell r "Default Disposition") "COLLAPSE")) (List.filter is_unknown all) = true)
      by (apply existsb_exists; exists r; rewrite E; split; [by apply filter_In|done]). congruence.
  - destruct (List.filter is_unknown all) as [|r l] eqn:E; [done|]. apply Exists_exists. exists r.
    assert (Hr : In r (List.filter is_unknown all)) by (rewrite E; by left). apply filter_In in Hr as [Hr Hu].
    by apply list_elem_of_In in Hr.
Qed.

(** C35: Registries that pass the kernel laws bind the code.  When
    [run_kernel_law_checks] reports no error, all four registries were read and have
    rows; every seam has an owner, instrumentation and known zones, and one from the
    guest to the host a broker; every capability needs a broker; the capability
    broker decides every request as the manifest documents it, and as COLLAPSE what
    the manifest does not document or what names a path of the host; an unknown
    capability is declared as COLLAPSE in both registries; and every component of
    the atlas names code that exists, a removed one only code that does not. *)
Theorem kernel_laws_bind (docs : string -> res string) (v : VerificationResult) :
  run_kernel_law_checks docs = Ok v -> valid v = true ->
  exists seams capabilities cues atlas,
    registry docs "SEAM_REGISTRY.md" SEAM_COLUMNS seams /\ Forall seam_sound seams /\
    registry docs "CAPABILITY_MANIFEST.md" CAPABILITY_COLUMNS capabilities /\ Forall capability_sound capabilities /\
    Exists (fun r => is_unknown r = true) capabilities /\
    (forall name payload, CapabilityBroker.disposition (CapabilityBroker.evaluate_request float_repr repr_wide name payload) =
       if CapabilityBroker.names_host_path float_repr repr_wide payload then "COLLAPSE"
       else default "COLLAPSE" (assoc name (documented capabilities))) /\
    registry docs "COLLAPSE_CUES.md" CUE_COLUMNS cues /\ Forall (fun r => In (cell r "Required Action") CUE_ACTIONS) cues /\
    Exists (fun r => cell r "Cue ID" = "unknown_capability_request" /\ cell r "Required Action" = "COLLAPSE") cues /\
    registry docs "FIELD_ATLAS.md" ATLAS_COLUMNS atlas /\ Forall component_sound atlas.
Proof.
  unfold run_kernel_law_checks. cbv zeta. intros Hr Hv.
  destruct (_load_table docs "SEAM_REGISTRY.md" _ _ _) as [[seams e1]|] eqn:L1; [|done]. cbn [mbind res_bind] in Hr.
  destruct (validate_seams _) as [v1|] eqn:V1; [|done]. cbn [mbind res_bind] in Hr.
  destruct (_load_table docs "CAPABILITY_MANIFEST.md" _ _ _) as [[capabilities e2]|] eqn:L2; [|done]. cbn [mbind res_bind] in Hr.
  destruct (validate_capabilities _) as [v2|] eqn:V2; [|done]. cbn [mbind res_bind] in Hr.
  destruct (_load_table docs "COLLAPSE_CUES.md" _ _ _) as [[cues e3]|] eqn:L3; [|done]. cbn [mbind res_bind] in Hr.
  destruct (validate_collapse_cues _) as [v3|] eqn:V3; [|done]. cbn [mbind res_bind] in Hr.
  destruct (_load_table docs "FIELD_ATLAS.md" _ _ _) as [[atlas e4]|] eqn:L4; [|done]. cbn [mbind res_bind] in Hr.
  destruct (validate_field_atlas _) as [v4|] eqn:V4; [|done]. cbn [mbind res_bind] in Hr. injection Hr as <-.
  cbn [valid] in Hv. apply bool_decide_eq_true, app_eq_nil in Hv as [-> ->].
  apply load_nil in L4 as [E3 R4]. apply app_eq_nil in E3 as [-> E3]. apply app_eq_nil in E3 as [-> C3].
  apply load_nil in L3 as [E2 R3]. apply app_eq_nil in E2 as [-> E2]. apply app_eq_nil in E2 as [-> C2].
  apply load_nil in L2 as [E1 R2]. apply app_eq_nil in E1 as [-> E1]. apply app_eq_nil in E1 as [-> C1].
  apply load_nil in L1 as [_ R1]. apply each_nil in V1, V2, V3, V4.
  destruct (capability_nil capabilities) as (Hc & Hu & Ht); [apply R2|done..|].
  exists seams, capabilities, cues, atlas. split_and!; try done.
  - apply flat_map_nil in C1. rewrite Forall_forall in V1, C1 |- *. intros r Hr. by apply check_seam_nil; auto.
  - intros name payload. rewrite CapabilityBroker.decision_of. by rewrite tables_agree.
  - eapply Forall_impl; [exact V3|]. apply check_cue_nil.
  - apply error_if_nil, andb_false_iff in C3 as [C3|C3]; apply negb_false_iff in C3.
    + apply bool_decide_eq_true in C3. by destruct R3.
    + apply existsb_exists in C3 as (r & Hin & Hr). apply andb_true_iff in Hr as [H1%String.eqb_eq H2%String.eqb_eq].
      apply Exists_exists. exists r. split; [by apply list_elem_of_In|done].
  - eapply Forall_impl; [exact V4|]. apply check_component_nil.
Qed.

End laws.

(** ** The laws on registries like the repository's *)
#[local] Existing Instance ascii_unicode.

Definition lines (l : list string) : string := String.concat (chr 10) l +:+ chr 10.
Definition sample_docs (name : string) : res string :=
  if String.eqb name "SEAM_REGISTRY.md" then Ok (lines
    ["# Seam Registry"; "";
     "| Seam ID | Source Zone | Target Zone | Owner | Broker | Instrumented | Triggered Action |"; "|---|:---|---|---|---|---|---:|";
     "| `guest_proposal_channel` | TAINTED_GUEST | TRUSTED_HOST | `AgentProbeGuestAgent` | `AgentProbeBroker` | Yes | enums and hashes only |";
     "| `host_collapse_signal` | TRUSTED_HOST | TAINTED_GUEST | `FirecrackerRuntime` | None (Direct) | Yes | egress revoked first |"])
  else if String.eqb name "CAPABILITY_MANIFEST.md" then Ok (lines (
    ["| Capability | Component | Broker Required | Default Disposition |"; "|---|---|---|---|"]
    ++ map (fun kv => "| `" +:+ fst kv +:+ "` | `GuestMCPController` | Yes | " +:+ snd kv +:+ " |") CapabilityBroker.declared_capabilities
    ++ ["| *unknown capability* | *any* | Yes | COLLAPSE |"]))
  else if String.eqb name "COLLAPSE_CUES.md" then Ok (lines
    ["| Trigger Condition | Cue ID | Required Action |"; "|---|---|---|";
     "| Request for undeclared capability | `unknown_capability_request` | COLLAPSE |"])
  else if String.eqb name "FIELD_ATLAS.md" then Ok (lines
    ["| Component | Trust Zone | Status | Code | Description |"; "|---|---|---|---|---|";
     "| `BrowserEgressProxy` | BROKERED_SEAM | implemented | `broker/browser_egress_proxy.py`, `broker/browser_egress_worker.py` | proxy |";
     "| `AshReceipt` | TRUSTED_HOST | removed | `ash_receipt.py` | Replaced by `SignedReceipt`. |"])
  else Err FileNotFoundError.
Definition sample_tree (p : string) : bool := mem p ["broker/browser_egress_proxy.py"; "broker/browser_egress_worker.py"].

Local Notation sample_checks := (run_kernel_law_checks (fun _ => "") (fun s => s) sample_tree sample_docs).

Lemma kernel_laws_bind_witness :
  exists v seams capabilities, sample_checks = Ok v /\ valid v = true /\ Forall seam_sound seams /\
    registry sample_docs "CAPABILITY_MANIFEST.md" CAPABILITY_COLUMNS capabilities /\
    forall payload, CapabilityBroker.names_host_path (fun _ => "") (fun s => s) payload = false ->
      CapabilityBroker.disposition (CapabilityBroker.evaluate_request (fun _ => "") (fun s => s) "guest_network" payload) =
        default "COLLAPSE" (assoc "guest_network" (documented capabilities)).
Proof.
  assert (Hv : exists v, sample_checks = Ok v /\ valid v = true) by (eexists; vm_compute; split; reflexivity).
  destruct Hv as (v & Hr & Hv).
  destruct (kernel_laws_bind (fun _ => "") (fun s => s) sample_tree sample_docs v Hr Hv)
    as (seams & capabilities & cues & atlas & _ & Hs & Hc & _ & _ & Hd & _).
  exists v, seams, capabilities. split_and!; [exact Hr|exact Hv|exact Hs|exact Hc|]. intros payload Hp. rewrite Hd, Hp. reflexivity.
Defined.

(** A registry that cannot be read, or a table without rows, is an error. *)
Lemma missing_registry_fails :
  valid <$> run_kernel_law_checks (fun _ => "") (fun s => s) sample_tree (fun _ => Err FileNotFoundError) = Ok false.
Proof. by vm_compute. Qed.
End KernelLaws.
