(* ===== verification/FirecrackerApi.v ===== *)
(** * The Firecracker API client: mote/firecracker_api.py

    One bounded HTTP request over a Unix socket.  The socket is the bytes the peer
    sends before it closes, the bytes it received, and the turns the system takes:
    each call to connect, send or receive uses up one, which may be late, time out,
    fail, or move some of the bytes asked for.  When the turns run out the deadline
    has passed. *)

From stdpp Require Import base list strings.
From Stdlib Require Import ZArith Lia.
From S2P Require Import Prelude PyValue Json JsonLoads StrOps Url Evidence Detectors PolicyGate EgressRequest PyRepr WorkerWire.

Local Open Scope Z_scope.

Module FirecrackerApi.
Import EgressRequest WorkerWire.

Definition _MAX_UNIX_PATH_BYTES : Z := 107.
Definition _MAX_ENDPOINT_BYTES : Z := 2048.
Definition _MAX_CONFIGURED_BODY_BYTES : Z := 64 * 1024 * 1024.
Definition _MAX_CONFIGURED_HEADER_BYTES : Z := 256 * 1024.
Definition _MAX_TIMEOUT_SEC : Z := 60.
Definition _MAX_JSON_NESTING : nat := 64.

Definition transport_error {A} (msg : string) : res A := Err (FirecrackerTransportError msg).
Definition late {A} (operation : string) : res A :=
  Err (FirecrackerTimeoutError ("Firecracker API " +:+ operation +:+ " exceeded the request deadline")).
Definition protocol_error {A} (msg : string) : res A := Err (FirecrackerProtocolError msg).
Definition too_large {A} (msg : string) : res A := Err (FirecrackerResponseTooLarge msg).
Definition json_error {A} (msg : string) : res A := Err (FirecrackerJsonError msg).

(** ** Arguments *)

(** [_ENDPOINT_SEGMENT] *)
Definition segment_char (c : Ascii.ascii) : bool :=
  is_digit c || is_upper c || is_lower c || existsb (fun z => ch z c) [95; 126; 46; 45].
Definition unsafe_segment (s : string) : bool := mem s [""; "."; ".."] || negb (str_forall segment_char s).

Definition _validate_endpoint (endpoint : pyval) : res string :=
  match endpoint with
  | VStr s =>
      raise (ValueError "Firecracker API endpoint must be ASCII") when negb (isascii s);;
      raise (ValueError "Firecracker API endpoint is too long") when _MAX_ENDPOINT_BYTES <? size s;;
      if String.eqb s "/" then Ok s
      else
        raise (ValueError "Firecracker API endpoint must be an absolute canonical path") when negb (startswith "/" s) || endswith "/" s;;
        raise (ValueError "Firecracker API endpoint contains an unsafe path segment") when existsb unsafe_segment (split 47 (tail s));;
        Ok s
  | _ => Err TypeError
  end.

Fixpoint check_segments (segments : list pyval) : res (list string) :=
  match segments with
  | [] => Ok []
  | VStr s :: r =>
      raise (ValueError ("unsafe Firecracker endpoint segment: " +:+ s)) when unsafe_segment s;;
      let* checked := check_segments r in Ok (s :: checked)
  | _ :: _ => Err TypeError
  end.
Definition build_endpoint (segments : list pyval) : res string :=
  match segments with
  | [] => Ok "/"
  | _ => let* checked := check_segments segments in _validate_endpoint (VStr ("/" +:+ String.concat "/" checked))
  end.

Definition control (c : Ascii.ascii) : bool := (byte_of c <? 32) || (byte_of c =? 127).

(** Of the text [os.fspath] gives. *)
Definition _validate_socket_path (path : pyval) : res string :=
  match path with
  | VStr raw =>
      raise (ValueError "Firecracker API socket path contains a NUL byte") when has_char 0 raw;;
      raise (ValueError "Firecracker API socket path contains a control character") when str_exists control raw;;
      raise (ValueError "Firecracker API socket path must be canonical")
        when String.eqb raw "/" || startswith "//" raw || endswith "/" raw
             || existsb (fun part => mem part [""; "."; ".."]) (List.tl (split 47 raw));;
      raise (ValueError "Firecracker API socket path must be absolute") when negb (startswith "/" raw);;
      match Detectors.surrogateescape raw with
      | Err _ => Err (ValueError "Firecracker API socket path is not filesystem-encodable")
      | Ok encoded =>
          raise (ValueError "Firecracker API socket path is too long for AF_UNIX") when _MAX_UNIX_PATH_BYTES <? size encoded;;
          Ok raw
      end
  | _ => Err TypeError
  end.

(** The largest integer that [float] converts is below 2^1024. *)
Definition _validate_timeout (value : pyval) : res pyfloat :=
  let check f :=
    match f with
    | FFin n d => if (n <=? 0) || (_MAX_TIMEOUT_SEC * Z.pos d <? n) then Err (ValueError "timeout_sec must be within (0, 60.0]") else Ok f
    | _ => Err (ValueError "timeout_sec must be within (0, 60.0]")
    end in
  match value with
  | VInt z => if 2 ^ 1024 <=? Z.abs z then Err OverflowError else check (FFin z 1)
  | VFloat f => check f
  | _ => Err TypeError
  end.

Definition _validate_limit (name : string) (value : pyval) (maximum : Z) : res Z :=
  match value with
  | VInt z =>
      raise (ValueError (name +:+ " must be within [1, " +:+ dec maximum +:+ "]")) when (z <=? 0) || (maximum <? z);;
      Ok z
  | _ => Err TypeError
  end.

Section arguments.
Context `{Unicode}.
(** [str.upper] of text outside ASCII *)
Variable u_upper : string -> string.
Definition upper (s : string) : string := if isascii s then ascii_upper s else u_upper s.

Definition _validate_method (method : pyval) : res string :=
  match method with
  | VStr s =>
      let checked := upper s in
      raise (ValueError "Firecracker API method must be GET, PUT, or PATCH") when negb (mem checked ["GET"; "PUT"; "PATCH"]);;
      Ok checked
  | _ => Err TypeError
  end.
End arguments.

Fixpoint insert_int (x : Z) (l : list Z) : list Z :=
  match l with [] => [x] | y :: r => if x <? y then x :: l else if x =? y then l else y :: insert_int x r end.
(** [sorted(set(values))] *)
Definition sorted_set (l : list Z) : list Z := foldr insert_int [] l.

Definition _normalize_expected_status (value : pyval) : res (list Z) :=
  let* values := match value with
                 | VInt z => Ok [VInt z]
                 | VList l => Ok l
                 | VDict d => Ok (map VStr (keys d))
                 | _ => Err TypeError
                 end in
  raise (ValueError "expected_status must not be empty") when bool_decide (values = []);;
  raise TypeError when existsb (fun v => negb (is_strict_int v)) values;;
  raise (ValueError "expected_status contains an invalid HTTP status") when existsb (fun v => negb (in_range 100 599 (int_of v))) values;;
  Ok (sorted_set (map int_of values)).

(** ** JSON *)

(** [_validate_json_value]; values are trees, so no container holds itself. *)
Definition nested (depth : nat) (path : string) (k : res unit) : res unit :=
  if (_MAX_JSON_NESTING <? depth)%nat then json_error ("JSON nesting exceeds 64 levels at " +:+ path) else k.
Definition check_text (path s : string) : res unit :=
  raise (FirecrackerJsonError ("invalid Unicode string at " +:+ path)) when has_surrogate s;; Ok tt.

Fixpoint _validate_json_value (value : pyval) (path : string) (depth : nat) : res unit :=
  nested depth path
    match value with
    | VNone | VBool _ | VInt _ => Ok tt
    | VStr s => check_text path s
    | VFloat (FFin _ _) => Ok tt
    | VFloat _ => json_error ("non-finite number at " +:+ path)
    | VList l =>
        (fix items (index : nat) (l : list pyval) : res unit :=
           match l with
           | [] => Ok tt
           | x :: r =>
               let* _ := _validate_json_value x (path +:+ "[" +:+ dec (Z.of_nat index) +:+ "]") (S depth) in
               items (S index) r
           end) O l
    | VDict d =>
        (fix items (d : list (string * pyval)) : res unit :=
           match d with
           | [] => Ok tt
           | kv :: r =>
               let* _ := nested (S depth) (path +:+ ".<key>") (check_text (path +:+ ".<key>") (fst kv)) in
               let* _ := _validate_json_value (snd kv) (path +:+ ".<value>") (S depth) in
               items r
           end) d
    | VBytes _ => json_error ("unsupported JSON value at " +:+ path +:+ ": bytes")
    end.

Section client.
Context `{Unicode}.
Variables (float_repr : pyfloat -> string) (parse_float : string -> pyfloat) (u_upper : string -> string).

(** A text that is not JSON and one with a repeated key or a constant are refused
    with one message here. *)
Definition _decode_json (body : string) : res pyval :=
  match PolicyGate.read_text body with
  | Err _ => json_error "Firecracker JSON response is not valid UTF-8"
  | Ok text =>
      match strict_loads parse_float text with
      | Err _ => json_error "invalid Firecracker JSON response"
      | Ok value => let* _ := _validate_json_value value "$" 0 in Ok value
      end
  end.

(** ** The head of a response *)
Definition is_reason_char (c : Ascii.ascii) : bool := in_range 32 126 (byte_of c).

(** [_STATUS_LINE]: the three digits and the reason *)
Definition _STATUS_LINE (line : string) : option (Z * string) :=
  if startswith "HTTP/1.0 " line || startswith "HTTP/1.1 " line then
    match drop_bytes 9 line with
    | String a (String b (String c rest)) =>
        if is_digit a && is_digit b && is_digit c then
          let status := digits_value 0 (String a (String b (String c ""))) in
          match rest with
          | EmptyString => Some (status, "")
          | String d reason => if ch 32 d && str_forall is_reason_char reason then Some (status, reason) else None
          end
        else None
    | _ => None
    end
  else None.

(** [raw.decode("latin-1")] *)
Fixpoint latin1 (raw : string) : string :=
  match raw with EmptyString => "" | String c r => utf8 (byte_of c) +:+ latin1 r end.
Definition bad_header_value (raw : string) : bool :=
  str_exists (fun c => (byte_of c <? 32) && negb (byte_of c =? 9) || (byte_of c =? 127)) raw.

Definition parse_header (headers : list (string * string)) (raw_line : string) : res (list (string * string)) :=
  raise (FirecrackerProtocolError "Firecracker response contains an empty header line") when String.eqb raw_line "";;
  raise (FirecrackerProtocolError "folded Firecracker response headers are rejected") when first_is is_blank raw_line;;
  raise (FirecrackerProtocolError "Firecracker response header is malformed") when negb (has_char 58 raw_line);;
  let '(raw_name, _, raw_value) := partition 58 raw_line in
  raise (FirecrackerProtocolError "Firecracker response header name is invalid")
    when String.eqb raw_name "" || negb (str_forall is_header_name_byte raw_name);;
  raise (FirecrackerProtocolError "Firecracker response header value is invalid") when bad_header_value raw_value;;
  let name := ascii_lower raw_name in
  raise (FirecrackerProtocolError ("duplicate Firecracker response header is rejected: " +:+ name)) when has_key name headers;;
  Ok (headers ++ [(name, latin1 (strip_blank raw_value))]).

Definition _parse_response_head (head : string) : res (Z * string * list (string * string)) :=
  match split_crlf head with
  | [] | EmptyString :: _ => protocol_error "Firecracker response status line is missing"
  | first :: lines =>
      match _STATUS_LINE first with
      | None => protocol_error "Firecracker response status line is malformed"
      | Some (status, reason) =>
          raise (FirecrackerProtocolError "Firecracker response status is invalid") when negb (in_range 100 599 status);;
          let* headers := foldM parse_header lines [] in
          Ok (status, reason, headers)
      end
  end.

Definition _parse_content_length (raw : option string) : res (option Z) :=
  match raw with
  | None => Ok None
  | Some s =>
      raise (FirecrackerProtocolError "Firecracker response Content-Length is invalid")
        when String.eqb s "" || negb (str_forall is_digit s) || (MAX_STR_DIGITS <? String.length s)%nat;;
      Ok (Some (digits_value 0 s))
  end.

(** ** The response *)
Record FirecrackerResponse := mk_response { status : Z; reason : string; headers : list (string * string); body : string }.

Inductive json_type := JsonDict | JsonList.
Definition has_type (t : json_type) (v : pyval) : bool := match t with JsonDict => is_dict v | JsonList => is_list v end.
Definition type_text (t : json_type) : string := match t with JsonDict => "dict" | JsonList => "list" end.

Definition media_type (r : FirecrackerResponse) : string :=
  let content_type := default "" (assoc "content-type" (headers r)) in
  let '(first, _, _) := partition 59 content_type in lower (str_strip first).

Definition json (r : FirecrackerResponse) (expected_type : json_type) (require_content_type : bool) : res pyval :=
  raise (FirecrackerJsonError "Firecracker response body is empty") when String.eqb (body r) "";;
  raise (FirecrackerJsonError "Firecracker response Content-Type is not application/json")
    when require_content_type && negb (String.eqb (media_type r) "application/json");;
  let* value := _decode_json (body r) in
  raise (FirecrackerJsonError ("Firecracker JSON response must be a " +:+ type_text expected_type)) when negb (has_type expected_type value);;
  Ok value.

(** [FirecrackerStatusError.fault_message] of the response it carries *)
Definition fault_message (r : FirecrackerResponse) : res (option string) :=
  match json r JsonDict true with
  | Ok value => let* message := get value "fault_message" in Ok (match message with VStr s => Some s | _ => None end)
  | Err (FirecrackerJsonError _) => Ok None
  | Err e => Err e
  end.

(** ** The client *)
Record FirecrackerApiClient := mk_client {
  socket_path : string; timeout_sec : pyfloat; max_request_body_bytes : Z; max_response_body_bytes : Z; max_header_bytes : Z;
}.

Definition new_client (path timeout request_bytes response_bytes header_bytes : pyval) : res FirecrackerApiClient :=
  let* path := _validate_socket_path path in
  let* timeout := _validate_timeout timeout in
  let* request_bytes := _validate_limit "max_request_body_bytes" request_bytes _MAX_CONFIGURED_BODY_BYTES in
  let* response_bytes := _validate_limit "max_response_body_bytes" response_bytes _MAX_CONFIGURED_BODY_BYTES in
  let* header_bytes := _validate_limit "max_header_bytes" header_bytes _MAX_CONFIGURED_HEADER_BYTES in
  Ok (mk_client path timeout request_bytes response_bytes header_bytes).

(** A payload that passes [_validate_json_value] is one [json.dumps] writes, but for an
    integer with too many digits. *)
Definition _encode_payload (c : FirecrackerApiClient) (payload : pyval) : res string :=
  match payload with
  | VNone => Ok ""
  | VDict _ =>
      let* _ := _validate_json_value payload "$" 0 in
      raise (FirecrackerJsonError ("invalid Firecracker request JSON: " +:+ digit_error)) when negb (ints_fit payload);;
      let encoded := dumps float_repr payload in
      raise (FirecrackerJsonError "Firecracker request JSON exceeds max_request_body_bytes") when max_request_body_bytes c <? size encoded;;
      Ok encoded
  | _ => json_error "Firecracker request payload must be a JSON object"
  end.

Definition crlf : string := chr 13 +:+ chr 10.
Definition request_lines (method endpoint : string) (length : Z) (has_payload : bool) : list string :=
  [method +:+ " " +:+ endpoint +:+ " HTTP/1.1"; "Host: localhost"; "Accept: application/json"; "Connection: close";
   "Content-Length: " +:+ dec length] ++ (if has_payload then ["Content-Type: application/json"] else []).
Definition _build_request (method endpoint body : string) (has_payload : bool) : string :=
  String.concat crlf (request_lines method endpoint (size body) has_payload) +:+ crlf +:+ crlf +:+ body.

(** ** The socket *)

(** How the system answers a call: the deadline is over before it, it times out, it
    fails, or it moves that many bytes, one at least when it receives. *)
Inductive turn := Late | TimedOut | Failed | Moves (count : Z).

Record socket := mk_socket { incoming : string; outgoing : string; turns : list turn; is_open : bool }.

(** The bytes received and those left. *)
Definition _recv (t : turn) (count : nat) (incoming : string) : res (string * string) :=
  match t with
  | Late | TimedOut => late "receive"
  | Failed => transport_error "Firecracker API response receive failed"
  | Moves n =>
      let k := Nat.min count (Nat.max 1 (Z.to_nat n)) in
      Ok (slice k incoming, drop_bytes k incoming)
  end.

(** What was sent of [data], and the turns left. *)
Fixpoint _send_all (data : string) (ts : list turn) : res unit * (string * list turn) :=
  match data with
  | EmptyString => (Ok tt, ("", ts))
  | _ =>
      match ts with
      | [] => (late "send", ("", []))
      | (Late | TimedOut) :: ts => (late "send", ("", ts))
      | Failed :: ts => (transport_error "Firecracker API request send failed", ("", ts))
      | Moves n :: ts =>
          if n <=? 0 then (transport_error "Firecracker API socket closed during send", ("", ts))
          else
            let k := Z.to_nat n in
            let '(r, (sent, ts)) := _send_all (drop_bytes k data) ts in (r, (slice k data +:+ sent, ts))
      end
  end.

(** [buffer.find(b"\r\n\r\n")] *)
Fixpoint find_blank_line (s : string) : option nat :=
  if startswith (crlf +:+ crlf) s then Some O
  else match s with EmptyString => None | String _ r => S <$> find_blank_line r end.

(** The buffer with the place of the empty line, the bytes left, and the turns left. *)
Fixpoint read_head (maximum : Z) (buffer incoming : string) (ts : list turn) : res (string * nat) * (string * list turn) :=
  match find_blank_line buffer with
  | Some boundary => (Ok (buffer, boundary), (incoming, ts))
  | None =>
      let allowance := maximum + 1 - size buffer in
      if allowance <=? 0 then (too_large "Firecracker response headers exceed max_header_bytes", (incoming, ts))
      else
        match ts with
        | [] => (late "receive", (incoming, []))
        | t :: ts =>
            match _recv t (Z.to_nat (Z.min 4096 allowance)) incoming with
            | Err e => (Err e, (incoming, ts))
            | Ok (chunk, incoming) =>
                if String.eqb chunk "" then
                  (protocol_error "Firecracker API socket closed before response headers completed", (incoming, ts))
                else read_head maximum (buffer +:+ chunk) incoming ts
            end
        end
  end.

(** A body of known length. *)
Fixpoint read_exactly (length : Z) (buffer incoming : string) (ts : list turn) : res string * (string * list turn) :=
  if length <=? size buffer then (Ok buffer, (incoming, ts))
  else
    match ts with
    | [] => (late "receive", (incoming, []))
    | t :: ts =>
        match _recv t (Z.to_nat (Z.min 65536 (length - size buffer))) incoming with
        | Err e => (Err e, (incoming, ts))
        | Ok (chunk, incoming) =>
            if String.eqb chunk "" then
              (protocol_error "Firecracker response ended before Content-Length bytes arrived", (incoming, ts))
            else read_exactly length (buffer +:+ chunk) incoming ts
        end
    end.

(** A body that ends with the stream. *)
Definition BODY_LIMIT : string := "Firecracker response body exceeds max_response_body_bytes".
Fixpoint read_to_end (maximum : Z) (buffer incoming : string) (ts : list turn) : res string * (string * list turn) :=
  let allowance := maximum + 1 - size buffer in
  if allowance <=? 0 then (too_large BODY_LIMIT, (incoming, ts))
  else
    match ts with
    | [] => (late "receive", (incoming, []))
    | t :: ts =>
        match _recv t (Z.to_nat (Z.min 65536 allowance)) incoming with
        | Err e => (Err e, (incoming, ts))
        | Ok (chunk, incoming) =>
            if String.eqb chunk "" then (Ok buffer, (incoming, ts))
            else if maximum <? size (buffer +:+ chunk) then (too_large BODY_LIMIT, (incoming, ts))
            else read_to_end maximum (buffer +:+ chunk) incoming ts
        end
    end.

(** What the head refuses before the body is read, and the length it declares. *)
Definition framing (status : Z) (headers : list (string * string)) : res (option Z) :=
  raise (FirecrackerProtocolError "informational Firecracker responses are not supported") when in_range 100 199 status;;
  raise (FirecrackerProtocolError "Firecracker response Transfer-Encoding is not accepted") when has_key "transfer-encoding" headers;;
  let content_encoding := lower (str_strip (default "identity" (assoc "content-encoding" headers))) in
  raise (FirecrackerProtocolError "compressed Firecracker responses are not accepted") when negb (mem content_encoding [""; "identity"]);;
  _parse_content_length (assoc "content-length" headers).

Definition no_body (method : string) (status : Z) : bool :=
  String.eqb method "HEAD" || (status =? 204) || (status =? 205) || (status =? 304).

Definition read_body (c : FirecrackerApiClient) (method : string) (status : Z) (content_length : option Z) (buffered incoming : string)
    (ts : list turn) : res string * (string * list turn) :=
  if no_body method status then
    if negb (match content_length with None => true | Some n => n =? 0 end) || negb (String.eqb buffered "")
    then (protocol_error ("HTTP " +:+ dec status +:+ " Firecracker response illegally contains a body"), (incoming, ts))
    else (Ok "", (incoming, ts))
  else
    match content_length with
    | Some length =>
        if max_response_body_bytes c <? length then (too_large BODY_LIMIT, (incoming, ts))
        else if length <? size buffered then
          (protocol_error "Firecracker response contains bytes beyond Content-Length", (incoming, ts))
        else read_exactly length buffered incoming ts
    | None =>
        if max_response_body_bytes c <? size buffered then (too_large BODY_LIMIT, (incoming, ts))
        else read_to_end (max_response_body_bytes c) buffered incoming ts
    end.

Definition _read_response (c : FirecrackerApiClient) (method incoming : string) (ts : list turn)
    : res FirecrackerResponse * (string * list turn) :=
  match read_head (max_header_bytes c) "" incoming ts with
  | (Err e, rest) => (Err e, rest)
  | (Ok (buffer, boundary), (incoming, ts)) =>
      let header_size := (boundary + 4)%nat in
      if max_header_bytes c <? Z.of_nat header_size then
        (too_large "Firecracker response headers exceed max_header_bytes", (incoming, ts))
      else
        match (let* head := _parse_response_head (slice boundary buffer) in
               let* content_length := framing (fst (fst head)) (snd head) in Ok (head, content_length)) with
        | Err e => (Err e, (incoming, ts))
        | Ok ((status, reason, headers), content_length) =>
            match read_body c method status content_length (drop_bytes header_size buffer) incoming ts with
            | (Err e, rest) => (Err e, rest)
            | (Ok body, rest) => (Ok (mk_response status reason headers body), rest)
            end
        end
  end.

(** ** Requests *)
Definition io (A : Type) : Type := socket -> res A * socket.

(** [st_mode & S_IFMT] of the path; [None]: it cannot be examined. *)
Definition S_IFLNK : Z := 40960.
Definition S_IFSOCK : Z := 49152.
Definition _connect (c : FirecrackerApiClient) (mode : option Z) : io unit := fun s =>
  match mode with
  | None => (transport_error ("Firecracker API socket is unavailable: " +:+ socket_path c), s)
  | Some m =>
      if Z.land m 61440 =? S_IFLNK then (transport_error "refusing a symlink Firecracker API socket", s)
      else if negb (Z.land m 61440 =? S_IFSOCK) then (transport_error "Firecracker API path is not a Unix socket", s)
      else
        match turns s with
        | [] => (late "connect", mk_socket (incoming s) (outgoing s) [] true)
        | Late :: ts => (late "connect", mk_socket (incoming s) (outgoing s) ts true)
        | TimedOut :: ts => (late "connect", mk_socket (incoming s) (outgoing s) ts false)
        | Failed :: ts =>
            (transport_error ("could not connect to Firecracker API socket: " +:+ socket_path c),
             mk_socket (incoming s) (outgoing s) ts false)
        | Moves _ :: ts => (Ok tt, mk_socket (incoming s) (outgoing s) ts true)
        end
  end.

(** Sending and receiving on the connected socket, which is then closed. *)
Definition exchange (c : FirecrackerApiClient) (method request : string) : io FirecrackerResponse := fun s =>
  match _send_all request (turns s) with
  | (Err e, (sent, ts)) => (Err e, mk_socket (incoming s) (outgoing s +:+ sent) ts false)
  | (Ok _, (sent, ts)) =>
      let '(r, (rest, ts)) := _read_response c method (incoming s) ts in
      (r, mk_socket rest (outgoing s +:+ sent) ts false)
  end.

(** The checks before the connection is made: the method, the request, the statuses. *)
Definition prepare (c : FirecrackerApiClient) (method endpoint expected_status payload : pyval) : res (string * string * list Z) :=
  let* checked_method := _validate_method u_upper method in
  let* checked_endpoint := _validate_endpoint endpoint in
  let* expected_statuses := _normalize_expected_status expected_status in
  raise (FirecrackerJsonError "GET requests must not contain a JSON payload")
    when String.eqb checked_method "GET" && negb (is_none payload);;
  raise (FirecrackerJsonError (checked_method +:+ " requests require a JSON payload"))
    when mem checked_method ["PUT"; "PATCH"] && is_none payload;;
  let* body := _encode_payload c payload in
  Ok (checked_method, _build_request checked_method checked_endpoint body (negb (is_none payload)), expected_statuses).

Definition request (c : FirecrackerApiClient) (mode : option Z) (method endpoint expected_status payload : pyval) : io FirecrackerResponse := fun s =>
  match prepare c method endpoint expected_status payload with
  | Err e => (Err e, s)
  | Ok (checked_method, text, expected_statuses) =>
      match _connect c mode s with
      | (Err e, s) => (Err e, s)
      | (Ok _, s) =>
          match exchange c checked_method text s with
          | (Err e, s) => (Err e, s)
          | (Ok r, s) =>
              if existsb (Z.eqb (status r)) expected_statuses then (Ok r, s)
              else (Err (FirecrackerStatusError (status r) expected_statuses), s)
          end
      end
  end.

(** [None] is the answer without a body. *)
Definition request_json (c : FirecrackerApiClient) (mode : option Z) (method endpoint expected_status payload : pyval)
    (response_type : json_type) : io (option pyval) := fun s =>
  let '(r, s) := request c mode method endpoint expected_status payload s in
  ((let* response := r in
    if String.eqb (body response) "" then
      if (status response =? 204) || (status response =? 205) then Ok None
      else json_error "Firecracker JSON response body is empty"
    else let* value := json response response_type true in Ok (Some value)), s).

Definition get_json (c : FirecrackerApiClient) (mode : option Z) (endpoint expected_status : pyval) (response_type : json_type) : io pyval := fun s =>
  let '(r, s) := request_json c mode (VStr "GET") endpoint expected_status VNone response_type s in
  ((let* value := r in match value with Some v => Ok v | None => json_error "GET response did not contain JSON" end), s).
Definition put_json (c : FirecrackerApiClient) (mode : option Z) (endpoint payload expected_status : pyval) (response_type : json_type)
    : io (option pyval) :=
  request_json c mode (VStr "PUT") endpoint expected_status payload response_type.
Definition patch_json (c : FirecrackerApiClient) (mode : option Z) (endpoint payload expected_status : pyval) (response_type : json_type)
    : io (option pyval) :=
  request_json c mode (VStr "PATCH") endpoint expected_status payload response_type.
End client.
End FirecrackerApi.
