(* ===== verification/FirecrackerApiFacts.v ===== *)
(** * What the Firecracker API client accepts and delivers

    A response is taken only as the stream frames it, whatever the socket does; and
    a well-framed response is delivered however the socket cuts it. *)

From stdpp Require Import base list strings.
From Stdlib Require Import ZArith Lia.
From S2P Require Import Prelude PyValue Json JsonFacts StrOps Url UrlFacts Evidence Detectors PolicyGate EgressRequest PyRepr WorkerWire FirecrackerApi.

Local Open Scope Z_scope.

Module FirecrackerApiFacts.
Import EgressRequest WorkerWire FirecrackerApi.

Lemma size_app s t : size (s +:+ t) = size s + size t.
Proof. unfold size. rewrite length_append. lia. Qed.
Lemma size_ge0 s : 0 <= size s.
Proof. unfold size. lia. Qed.
Lemma slice_short n s : size (slice n s) <= Z.of_nat n.
Proof.
  unfold size. destruct (Nat.le_gt_cases n (String.length s)) as [Hn|Hn]; [rewrite slice_long; lia|].
  rewrite slice_all; lia.
Qed.

Lemma prefix_split p s : startswith p s = true -> exists t, s = p +:+ t.
Proof.
  revert s. induction p as [|c p IH]; intros s Hp; [by exists s|]. destruct s as [|d s]; [done|]. cbn in Hp.
  destruct (Ascii.ascii_dec c d) as [->|]; [|done]. destruct (IH s Hp) as [t ->]. by exists t.
Qed.

(** ** Receiving *)
Lemma recv_ok t count s chunk rest :
  (1 <= count)%nat -> _recv t count s = Ok (chunk, rest) ->
  s = chunk +:+ rest /\ size chunk <= Z.of_nat count /\ (chunk = "" -> s = "").
Proof.
  intros Hc. unfold _recv. destruct t as [| | |n]; try done. set (k := Nat.min count _). intros [=<- <-].
  assert (Hk : (1 <= k <= count)%nat) by lia. split; [by rewrite take_drop|]. split.
  - pose proof (slice_short k s). lia.
  - destruct s as [|c s]; [done|]. destruct k as [|k]; [lia|]. done.
Qed.

Lemma read_head_ok maximum buffer s ts b boundary rest ts' :
  0 <= maximum -> size buffer <= maximum + 1 ->
  read_head maximum buffer s ts = (Ok (b, boundary), (rest, ts')) ->
  buffer +:+ s = b +:+ rest /\ find_blank_line b = Some boundary /\ size b <= maximum + 1.
Proof.
  intros Hm. revert buffer s. induction ts as [|t ts IH]; intros buffer s Hb; cbn [read_head];
    (destruct (find_blank_line buffer) as [bd|] eqn:Ef; [by intros [=<- <- <- <-]|]);
    (destruct (_ <=? 0) eqn:Ea; [done|]); [done|].
  destruct (_recv _ _ _) as [[chunk s']|] eqn:Er; [|done]. apply recv_ok in Er as (-> & Hs & _); [|lia].
  destruct (String.eqb chunk "") eqn:Ec; [done|]. intros Hr. apply IH in Hr; [|rewrite size_app; lia].
  rewrite <- append_assoc. exact Hr.
Qed.

Lemma read_exactly_ok length buffer s ts b rest ts' :
  size buffer <= length -> read_exactly length buffer s ts = (Ok b, (rest, ts')) -> buffer +:+ s = b +:+ rest /\ size b = length.
Proof.
  revert buffer s. induction ts as [|t ts IH]; intros buffer s Hb; cbn [read_exactly];
    (destruct (length <=? size buffer) eqn:El; [intros [=<- <- <-]; split; [done|lia]|]); [done|].
  destruct (_recv _ _ _) as [[chunk s']|] eqn:Er; [|done]. apply recv_ok in Er as (-> & Hs & _); [|lia].
  destruct (String.eqb chunk ""); [done|]. intros Hr. apply IH in Hr; [|rewrite size_app; lia].
  rewrite <- append_assoc. exact Hr.
Qed.

Lemma read_to_end_ok maximum buffer s ts b rest ts' :
  size buffer <= maximum -> read_to_end maximum buffer s ts = (Ok b, (rest, ts')) ->
  buffer +:+ s = b /\ rest = "" /\ size b <= maximum.
Proof.
  revert buffer s. induction ts as [|t ts IH]; intros buffer s Hb; cbn [read_to_end]; cbv zeta;
    (destruct (maximum + 1 - size buffer <=? 0) eqn:Ea; [done|]); [done|].
  destruct (_recv _ _ _) as [[chunk s']|] eqn:Er; [|done]. apply recv_ok in Er as (-> & Hs & He); [|lia].
  destruct (String.eqb_spec chunk "") as [->|Hne].
  - intros [=<- <- <-]. assert (s' = "") as -> by exact (He eq_refl). split_and!; [apply append_nil_r|done|done].
  - destruct (maximum <? size (buffer +:+ chunk)) eqn:Em; [done|]. intros Hr. apply IH in Hr; [|lia]. rewrite <- append_assoc. exact Hr.
Qed.

Lemma send_all_ok data ts sent ts' : _send_all data ts = (Ok tt, (sent, ts')) -> sent = data.
Proof.
  revert data sent. induction ts as [|t ts IH]; intros [|c data] sent; cbn [_send_all]; [by intros [=]|done|by intros [=]|].
  destruct t as [| | |n]; try done. destruct (n <=? 0); [done|].
  destruct (_send_all _ ts) as [r [out ts2]] eqn:E. intros [=-> <- ->]. apply IH in E as ->. by rewrite take_drop.
Qed.

Lemma append_split a b s t : String.length a = String.length b -> a +:+ s = b +:+ t -> a = b /\ s = t.
Proof.
  revert b. induction a as [|c a IH]; intros [|d b] Hl; try done. rewrite !append_cons. intros [=-> E]. injection Hl as Hl.
  by destruct (IH b Hl E) as [-> ->].
Qed.

(** The first empty line. *)
Lemma find_blank_line_ok s n :
  find_blank_line s = Some n ->
  s = slice n s +:+ crlf +:+ crlf +:+ drop_bytes (n + 4) s /\ (n + 4 <= String.length s)%nat.
Proof.
  revert n. induction s as [|c s IH]; intros n; cbn [find_blank_line]; [done|].
  destruct (startswith (crlf +:+ crlf) (String c s)) eqn:E.
  - intros [=<-]. apply prefix_split in E as [t E]. rewrite E. split; [done|]. rewrite length_append. change (String.length (crlf +:+ crlf)) with 4%nat. lia.
  - destruct (find_blank_line s) as [m|]; [|done]. intros [=<-]. destruct (IH m eq_refl) as [Hs Hl]. split; [|cbn [String.length]; lia].
    change (slice (S m) (String c s)) with (String c (slice m s)). rewrite append_cons. f_equal. exact Hs.
Qed.

Lemma startswith_more p s t : (String.length p <= String.length s)%nat -> startswith p (s +:+ t) = startswith p s.
Proof.
  revert s. induction p as [|c p IH]; intros s Hl; [by destruct s, t|]. destruct s as [|d s]; [cbn in Hl; lia|]. rewrite append_cons. cbn.
  destruct (Ascii.ascii_dec c d); [|done]. apply IH. cbn in Hl. lia.
Qed.
Lemma find_blank_line_app s t n : find_blank_line s = Some n -> find_blank_line (s +:+ t) = Some n.
Proof.
  revert n. induction s as [|c s IH]; intros n Hf; [done|]. pose proof (find_blank_line_ok _ _ Hf) as [_ Hl].
  rewrite append_cons. cbn [find_blank_line] in *. rewrite <- append_cons, startswith_more by (change (String.length (crlf +:+ crlf)) with 4%nat; lia).
  destruct (startswith _ _); [done|]. destruct (find_blank_line s) as [m|]; [|done]. by rewrite (IH m eq_refl).
Qed.

(** ** Delivery *)

(** A call that is answered in time and moves something. *)
Definition ready (t : turn) : Prop := match t with Moves n => 0 < n | _ => False end.

Lemma recv_ready t count s :
  ready t -> (1 <= count)%nat ->
  exists chunk rest, _recv t count s = Ok (chunk, rest) /\ s = chunk +:+ rest /\ size chunk <= Z.of_nat count /\ (chunk = "" -> s = "").
Proof.
  destruct t as [| | |n]; try done. intros _ Hc. destruct (_recv (Moves n) count s) as [[chunk rest]|] eqn:E; [|done].
  exists chunk, rest. split; [done|]. by eapply recv_ok.
Qed.

Lemma size_pos s : s <> "" -> 1 <= size s.
Proof. destruct s; [done|]. intros _. unfold size. cbn. lia. Qed.

Lemma find_blank_line_within b t n :
  find_blank_line (b +:+ t) = Some n -> (n + 4 <= String.length b)%nat -> find_blank_line b = Some n.
Proof.
  revert n. induction b as [|c b IH]; intros n Hf Hl; [cbn in Hl; lia|]. rewrite append_cons in Hf. cbn [find_blank_line] in Hf |- *.
  rewrite <- append_cons, startswith_more in Hf by (change (String.length (crlf +:+ crlf)) with 4%nat; lia).
  destruct (startswith _ _); [done|]. destruct (find_blank_line (b +:+ t)) as [m|] eqn:E; [|done]. injection Hf as <-.
  rewrite (IH m eq_refl); [done|]. cbn [String.length] in Hl. lia.
Qed.

Lemma read_head_live maximum n ts : forall buffer s,
  Forall ready ts -> find_blank_line (buffer +:+ s) = Some n -> Z.of_nat n + 4 <= maximum -> size s <= Z.of_nat (length ts) ->
  exists b rest ts', read_head maximum buffer s ts = (Ok (b, n), (rest, ts')) /\ buffer +:+ s = b +:+ rest /\ find_blank_line b = Some n /\ Forall ready ts' /\
    Z.of_nat (length ts) - Z.of_nat (length ts') <= size s - size rest.
Proof.
  induction ts as [|t ts IH]; intros buffer s Hr Hf Hm Hl.
  - assert (s = "") as -> by (destruct s; [done|unfold size in Hl; cbn in Hl; lia]). rewrite append_nil_r in Hf. cbn [read_head].
    rewrite Hf. exists buffer, "", []. split_and!; [done|done|done|done|lia].
  - cbn [read_head]. destruct (find_blank_line buffer) as [m|] eqn:E.
    { rewrite (find_blank_line_app _ s _ E) in Hf. injection Hf as ->. exists buffer, s, (t :: ts). split_and!; [done..|lia]. }
    assert (Hb : size buffer <= maximum).
    { destruct (Z.le_gt_cases (size buffer) maximum) as [|Hgt]; [done|]. rewrite (find_blank_line_within _ _ _ Hf) in E; [done|].
      unfold size in Hgt. lia. }
    destruct (_ <=? 0) eqn:Ea; [lia|]. inversion Hr as [|? ? Hr1 Hr2]; subst.
    destruct (recv_ready t (Z.to_nat (Z.min 4096 (maximum + 1 - size buffer))) s) as (chunk & rest & -> & Hs & _ & He); [done|lia|].
    destruct (String.eqb_spec chunk "") as [->|Hne]; [rewrite (He eq_refl), append_nil_r in Hf; congruence|]. subst s.
    apply size_pos in Hne. rewrite size_app in Hl |- *. rewrite <- append_assoc in Hf. cbn [length] in Hl |- *.
    destruct (IH (buffer +:+ chunk) rest Hr2 Hf Hm) as (b & rest' & ts' & -> & Hb' & Hfb & Ht & Hn); [lia|].
    exists b, rest', ts'. rewrite <- append_assoc. split_and!; [done..|lia].
Qed.

Lemma read_exactly_live n ts : forall buffer s,
  Forall ready ts -> size (buffer +:+ s) = n -> size s <= Z.of_nat (length ts) ->
  exists ts', read_exactly n buffer s ts = (Ok (buffer +:+ s), ("", ts')).
Proof.
  induction ts as [|t ts IH]; intros buffer s Hr Hn Hl; rewrite size_app in Hn.
  - assert (s = "") as -> by (destruct s; [done|unfold size in Hl; cbn in Hl; lia]). change (size "") with 0 in Hn. cbn [read_exactly].
    rewrite (proj2 (Z.leb_le _ _)), append_nil_r by lia. by exists [].
  - cbn [read_exactly]. destruct (n <=? size buffer) eqn:E.
    { assert (s = "") as -> by (destruct (decide (s = "")) as [|Hx]; [done|apply size_pos in Hx; lia]). rewrite append_nil_r. by eexists. }
    inversion Hr as [|? ? Hr1 Hr2]; subst.
    destruct (recv_ready t (Z.to_nat (Z.min 65536 (size buffer + size s - size buffer))) s) as (chunk & rest & -> & Hs & _ & He); [done|lia|].
    destruct (String.eqb_spec chunk "") as [->|Hne]; [rewrite (He eq_refl) in E; change (size "") with 0 in E; lia|]. subst s.
    apply size_pos in Hne. rewrite <- append_assoc. rewrite size_app in Hl. cbn [length] in Hl.
    apply IH; [done|rewrite !size_app; lia|lia].
Qed.

Lemma read_to_end_live maximum ts : forall buffer s,
  Forall ready ts -> size (buffer +:+ s) <= maximum -> size s + 1 <= Z.of_nat (length ts) ->
  exists ts', read_to_end maximum buffer s ts = (Ok (buffer +:+ s), ("", ts')).
Proof.
  induction ts as [|t ts IH]; intros buffer s Hr Hn Hl; rewrite size_app in Hn; pose proof (size_ge0 s); [cbn in Hl; lia|].
  cbn [read_to_end]. cbv zeta. destruct (_ <=? 0) eqn:E; [lia|]. inversion Hr as [|? ? Hr1 Hr2]; subst.
  destruct (recv_ready t (Z.to_nat (Z.min 65536 (maximum + 1 - size buffer))) s) as (chunk & rest & -> & -> & _ & He); [done|lia|].
  rewrite size_app in Hn, Hl. pose proof (size_ge0 rest). destruct (String.eqb_spec chunk "") as [->|Hne].
  - assert (rest = "") as -> by exact (He eq_refl). rewrite append_nil_r. by eexists.
  - apply size_pos in Hne. rewrite size_app, (proj2 (Z.ltb_ge _ _)) by lia. rewrite <- append_assoc. cbn [length] in Hl.
    apply IH; [done|rewrite !size_app; lia|lia].
Qed.

Lemma send_all_live ts : forall data,
  Forall ready ts -> size data <= Z.of_nat (length ts) ->
  exists ts', _send_all data ts = (Ok tt, (data, ts')) /\ Forall ready ts' /\ Z.of_nat (length ts) - Z.of_nat (length ts') <= size data.
Proof.
  induction ts as [|t ts IH]; intros [|c data] Hr Hl; cbn [_send_all].
  - exists []. split_and!; [done|done|change (size "") with 0; cbn; lia].
  - unfold size in Hl. cbn in Hl. lia.
  - exists (t :: ts). split_and!; [done|done|]. change (size "") with 0. lia.
  - inversion Hr as [|? ? Hr1 Hr2]; subst. destruct t as [| | |n]; try done. cbn in Hr1. rewrite (proj2 (Z.leb_gt _ _)) by lia.
    set (d := String c data) in *. set (k := Z.to_nat n). pose proof (take_drop k d) as Hd.
    assert (Hk : 1 <= size (slice k d)). { subst k d. destruct (Z.to_nat n) eqn:E; [lia|]. unfold size. cbn [slice String.substring String.length]. lia. }
    rewrite <- Hd, size_app in Hl |- *. cbn [length] in Hl |- *. rewrite Hd.
    destruct (IH (drop_bytes k d) Hr2) as (ts' & -> & Ht & Hn); [lia|]. exists ts'. split_and!; [by rewrite Hd|done|lia].
Qed.
(** ** The request *)

(** Text of one line. *)
Definition one_line (s : string) : bool := str_forall (fun c => negb (byte_of c =? 13)) s.
Definition plain_line (s : string) : bool := negb (String.eqb s "") && one_line s.

Lemma one_line_app s t : one_line (s +:+ t) = one_line s && one_line t.
Proof. apply str_forall_app. Qed.

Lemma split_crlf_one s : one_line s = true -> split_crlf s = [s].
Proof.
  induction s as [|c s IH]; [done|]. unfold one_line in *. cbn [str_forall]. intros [Hc Hs]%andb_true_iff. cbn [split_crlf].
  destruct s as [|d s]; [done|]. unfold ch. apply negb_true_iff in Hc. rewrite Hc. cbn [andb]. by rewrite IH.
Qed.
Lemma split_crlf_line s t : one_line s = true -> split_crlf (s +:+ crlf +:+ t) = s :: split_crlf t.
Proof.
  induction s as [|c s IH]; [done|]. unfold one_line in *. cbn [str_forall]. intros [Hc Hs]%andb_true_iff. apply negb_true_iff in Hc.
  rewrite append_cons. cbn [split_crlf]. rewrite (IH Hs).
  destruct (s +:+ crlf +:+ t) as [|d u] eqn:E; [by destruct s|]. unfold ch. by rewrite Hc.
Qed.
Lemma concat_cons l s t : String.concat crlf (s :: t :: l) = s +:+ crlf +:+ String.concat crlf (t :: l).
Proof. done. Qed.
Lemma split_crlf_concat l : l <> [] -> Forall (fun s => one_line s = true) l -> split_crlf (String.concat crlf l) = l.
Proof.
  intros Hne. induction 1 as [|s l Hs Hl IH]; [done|]. destruct l as [|t l]; [by apply split_crlf_one|].
  rewrite concat_cons, split_crlf_line by done. by rewrite IH.
Qed.

(** The first empty line is the one after the lines. *)
Lemma not_blank c s : byte_of c =? 13 = false -> startswith (crlf +:+ crlf) (String c s) = false.
Proof.
  intros Hc. change (crlf +:+ crlf) with (String (ascii_of 13) (chr 10 +:+ crlf)). cbn.
  destruct (Ascii.ascii_dec _ c) as [<-|]; [done|done].
Qed.
Lemma find_blank_line_skip s t : one_line s = true -> find_blank_line (s +:+ t) = (fun n => String.length s + n)%nat <$> find_blank_line t.
Proof.
  unfold one_line. induction s as [|c s IH]; [rewrite append_nil_l; by destruct (find_blank_line t)|]. cbn [str_forall]. intros [Hc Hs]%andb_true_iff.
  apply negb_true_iff in Hc. rewrite append_cons. cbn [find_blank_line]. rewrite not_blank, IH by done. by destruct (find_blank_line t).
Qed.
Lemma find_blank_line_crlf s : plain_line s = true -> forall t, find_blank_line (crlf +:+ s +:+ t) = (fun n => 2 + n)%nat <$> find_blank_line (s +:+ t).
Proof.
  unfold plain_line, one_line. destruct s as [|c s]; [done|]. cbn [String.eqb negb andb str_forall]. intros [Hc _]%andb_true_iff t.
  apply negb_true_iff in Hc. rewrite append_cons. set (u := String c (s +:+ t)).
  assert (H1 : startswith (crlf +:+ crlf) (crlf +:+ u) = false).
  { change (startswith (crlf +:+ crlf) (crlf +:+ u)) with (startswith (String (ascii_of 13) (chr 10)) u). subst u. cbn.
    destruct (Ascii.ascii_dec _ c) as [<-|]; [done|done]. }
  change (find_blank_line (crlf +:+ u)) with
    (if startswith (crlf +:+ crlf) (crlf +:+ u) then Some O
     else S <$> (if startswith (crlf +:+ crlf) (chr 10 +:+ u) then Some O else S <$> find_blank_line u)).
  rewrite H1. change (startswith (crlf +:+ crlf) (chr 10 +:+ u)) with false. by destruct (find_blank_line u).
Qed.
Lemma find_blank_line_concat l body :
  l <> [] -> Forall (fun s => plain_line s = true) l ->
  find_blank_line (String.concat crlf l +:+ crlf +:+ crlf +:+ body) = Some (String.length (String.concat crlf l)).
Proof.
  intros Hne. induction 1 as [|s l Hs Hl IH]; [done|].
  assert (Ho : one_line s = true) by (unfold plain_line in Hs; apply andb_true_iff in Hs; apply Hs).
  destruct l as [|t l].
  - cbn [String.concat]. rewrite find_blank_line_skip by done. assert (find_blank_line (crlf +:+ crlf +:+ body) = Some O) as -> by by destruct body. cbn. f_equal. lia.
  - rewrite concat_cons, !append_assoc, find_blank_line_skip by done.
    assert (Hc : exists u, String.concat crlf (t :: l) = t +:+ u) by (destruct l; [exists ""; cbn; by rewrite append_nil_r|by eexists]).
    destruct Hc as [u Hu]. rewrite Hu in IH |- *. rewrite append_assoc in IH |- *.
    inversion Hl as [|? ? Ht _]; subst. rewrite find_blank_line_crlf by done. rewrite IH by done. cbn [fmap option_fmap option_map]. f_equal. rewrite !length_append. change (String.length crlf) with 2%nat. lia.
Qed.

Lemma segments_forall z (p : Ascii.ascii -> bool) s :
  forallb (str_forall p) (split z s) = true -> str_forall (fun c => p c || ch z c) s = true.
Proof.
  induction s as [|c s IH]; [done|]. cbn [split str_forall]. pose proof (split_nonempty z s).
  destruct (split z s) as [|w ws] eqn:Ew; [done|]. destruct (ch z c) eqn:E.
  - cbn [forallb]. intros [_ Hw]%andb_true_iff. rewrite orb_true_r. apply IH. exact Hw.
  - cbn [forallb str_forall]. intros [[Hc Hw]%andb_true_iff Hws]%andb_true_iff. rewrite Hc. apply IH. cbn [forallb]. by rewrite Hw, Hws.
Qed.

(** An endpoint is one line. *)
Lemma endpoint_line v e : _validate_endpoint v = Ok e -> one_line e = true.
Proof.
  unfold _validate_endpoint. destruct v; try done. intros Hv. run_inv. destruct (String.eqb_spec s "/") as [->|Hne]; [by injection Hv as <-|].
  run_inv. subst e. destruct s as [|c s]; [done|].
  match goal with Hx : existsb unsafe_segment _ = false |- _ => rename Hx into Hu end. cbn [tail] in Hu.
  assert (Hs : forallb (str_forall segment_char) (split 47 s) = true).
  { apply forallb_forall. intros w Hw. destruct (str_forall segment_char w) eqn:E; [done|].
    assert (existsb unsafe_segment (split 47 s) = true); [|congruence]. apply existsb_exists. exists w. split; [done|].
    unfold unsafe_segment. rewrite E. apply orb_true_r. }
  apply segments_forall in Hs. unfold one_line. cbn [str_forall]. apply andb_true_iff. split.
  - match goal with Hx : startswith "/" _ = true |- _ => apply prefix_split in Hx as [t Ht] end. injection Ht as -> _. done.
  - revert Hs. apply str_forall_weaken. intros d Hd. apply negb_true_iff, Z.eqb_neq. intros Ed.
    unfold segment_char, ch, is_digit, is_upper, is_lower, in_range in Hd. rewrite Ed in Hd. discriminate Hd.
Qed.

Lemma dec_line z : one_line (dec z) = true.
Proof. apply dec_forall. intros c. unfold syntax_char. lia. Qed.

(** ** Responses as the stream frames them *)
Section framed.
Context `{Unicode}.
Variables (float_repr : pyfloat -> string) (parse_float : string -> pyfloat) (u_upper : string -> string).
Variable c : FirecrackerApiClient.

(** The stream is a head, an empty line, the body, and what was not read. *)
Definition framed (method stream : string) (r : FirecrackerResponse) (rest : string) : Prop :=
  exists head content_length,
    stream = head +:+ crlf +:+ crlf +:+ body r +:+ rest /\ find_blank_line stream = Some (String.length head) /\
    size head + 4 <= max_header_bytes c /\ _parse_response_head head = Ok (status r, reason r, headers r) /\
    framing (status r) (headers r) = Ok content_length /\
    if no_body method (status r) then body r = "" /\ (content_length = None \/ content_length = Some 0)
    else size (body r) <= max_response_body_bytes c /\
         match content_length with Some n => size (body r) = n | None => rest = "" end.

Lemma read_body_ok method st content_length buffered s ts b rest ts' :
  read_body c method st content_length buffered s ts = (Ok b, (rest, ts')) ->
  buffered +:+ s = b +:+ rest /\
  if no_body method st then b = "" /\ (content_length = None \/ content_length = Some 0)
  else size b <= max_response_body_bytes c /\ match content_length with Some n => size b = n | None => rest = "" end.
Proof.
  unfold read_body. destruct (no_body method st).
  - destruct (negb _ || negb _) eqn:E; [done|]. apply orb_false_iff in E as [E1 E2%negb_false_iff%String.eqb_eq]. intros [=<- <- <-].
    rewrite E2. split; [done|]. split; [done|]. destruct content_length as [n|]; [|by left]. right.
    apply negb_false_iff, Z.eqb_eq in E1. congruence.
  - destruct content_length as [n|].
    + destruct (_ <? n) eqn:E1; [done|]. destruct (n <? _) eqn:E2; [done|]. intros Hr. apply read_exactly_ok in Hr as [H1 H2]; [|lia].
      split; [done|]. split; [lia|done].
    + destruct (_ <? _) eqn:E1; [done|]. intros Hr. apply read_to_end_ok in Hr as (H1 & -> & H2); [|lia]. split; [by rewrite append_nil_r|done].
Qed.

Lemma read_response_framed method s ts r rest ts' :
  0 <= max_header_bytes c -> _read_response c method s ts = (Ok r, (rest, ts')) -> framed method s r rest.
Proof.
  intros Hm. unfold _read_response. destruct (read_head _ _ _ _) as [[[buffer boundary]|] [s1 ts1]] eqn:Eh; [|done].
  apply read_head_ok in Eh as (Hb & Hf & _); [|done|change (size "") with 0; lia]. rewrite append_nil_l in Hb. subst s.
  pose proof (find_blank_line_ok _ _ Hf) as [Hs Hl]. cbv zeta.
  destruct (_ <? Z.of_nat _) eqn:Em; [done|].
  destruct (_parse_response_head _) as [[[st re] hs]|] eqn:Ep; [|done]. cbn [mbind res_bind fst snd].
  destruct (framing st hs) as [content_length|] eqn:Efr; [|done]. cbn [mbind res_bind].
  destruct (read_body _ _ _ _ _ _ _) as [[b|] [rest2 ts2]] eqn:Eb; [|done]. intros [=<- <- <-].
  apply read_body_ok in Eb as [Hbody Hrest]. exists (slice boundary buffer), content_length.
  assert (Hlen : String.length (slice boundary buffer) = boundary) by (apply slice_long; lia).
  cbn [body status reason headers]. split_and!; try done.
  - rewrite Hs at 1. by rewrite !append_assoc, Hbody.
  - rewrite Hlen. by apply find_blank_line_app.
  - apply Z.ltb_ge in Em. unfold size. rewrite Hlen. lia.
Qed.

Definition client_ok : Prop :=
  1 <= max_header_bytes c <= _MAX_CONFIGURED_HEADER_BYTES /\ 1 <= max_response_body_bytes c <= _MAX_CONFIGURED_BODY_BYTES.
Lemma limit_ok name v maximum n : _validate_limit name v maximum = Ok n -> 1 <= n <= maximum.
Proof. unfold _validate_limit. destruct v; try done. intros Hn. run_inv. subst. lia. Qed.
Lemma new_client_ok path timeout a b h : new_client path timeout a b h = Ok c -> client_ok.
Proof.
  unfold new_client. intros Hc. run_inv.
  repeat match goal with Hx : _validate_limit _ _ _ = Ok _ |- _ => apply limit_ok in Hx end. unfold client_ok. rewrite <- Hc. split; assumption.
Qed.

Lemma method_ok method m : _validate_method u_upper method = Ok m -> In m ["GET"; "PUT"; "PATCH"].
Proof.
  unfold _validate_method. destruct method; try done. cbv zeta. destruct (mem _ _) eqn:E; [|done]. intros [=<-]. by apply mem_In.
Qed.
Lemma read_bounded method stream r rest :
  client_ok -> framed method stream r rest ->
  size stream - size rest <= max_header_bytes c + max_response_body_bytes c.
Proof.
  intros [Hh Hb] (head & n & -> & _ & Hs & _ & _ & Hbody). rewrite !size_app. change (size crlf) with 2.
  destruct (no_body _ _); [destruct Hbody as [-> _]; change (size "") with 0|]; lia.
Qed.

(** The request is the lines of one head and the encoded payload. *)
Definition one_request (method endpoint : string) (payload : pyval) (text : string) : Prop :=
  exists head encoded,
    text = head +:+ crlf +:+ crlf +:+ encoded /\ find_blank_line text = Some (String.length head) /\
    split_crlf head = request_lines method endpoint (size encoded) (negb (is_none payload)) /\
    _encode_payload float_repr c payload = Ok encoded.

Lemma prepare_one_request method endpoint expected_status payload m text statuses :
  prepare float_repr u_upper c method endpoint expected_status payload = Ok (m, text, statuses) ->
  exists e, endpoint = VStr e /\ _validate_endpoint endpoint = Ok e /\ In m ["GET"; "PUT"; "PATCH"] /\ one_request m e payload text.
Proof.
  unfold prepare. intros Hp. run_inv. injection Hp as -> <- ->.
  match goal with Hx : _validate_method _ _ = Ok _ |- _ => apply method_ok in Hx as Hm end.
  match goal with Hx : _validate_endpoint _ = Ok ?x |- _ => rename x into e; rename Hx into He end.
  match goal with Hx : _encode_payload _ _ _ = Ok ?x |- _ => rename x into encoded; rename Hx into Henc end.
  assert (endpoint = VStr e) as ->.
  { unfold _validate_endpoint in He. destruct endpoint; try done. run_inv. destruct (String.eqb s "/"); run_inv; congruence. }
  exists e. split_and!; [done..|]. set (l := request_lines m e (size encoded) (negb (is_none payload))).
  assert (Hl : Forall (fun s => plain_line s = true) l).
  { assert (HA : plain_line (m +:+ " " +:+ e +:+ " HTTP/1.1") = true).
    { unfold plain_line. rewrite !one_line_app, (endpoint_line _ _ He). by destruct Hm as [<-|[<-|[<-|[]]]]. }
    assert (HB : plain_line ("Content-Length: " +:+ dec (size encoded)) = true).
    { unfold plain_line. rewrite one_line_app, dec_line. done. }
    unfold l, request_lines. cbn [app]. repeat (apply Forall_cons_2; [done|]). by destruct (negb _); repeat constructor. }
  exists (String.concat crlf l), encoded. split_and!; [done|by apply find_blank_line_concat| |done].
  apply split_crlf_concat; [done|]. eapply Forall_impl; [exact Hl|]. intros x Hx. apply andb_true_iff in Hx. apply Hx.
Qed.

(** C19: The client takes an answer only as the stream frames it.  When a request
    succeeds, whatever the socket did, the bytes sent are the one request that was
    prepared, a head of exactly the expected lines and the encoded payload; the
    bytes received are a head within the limit, the first empty line
    and the body, complete as the head declares it (its Content-Length, the end of
    the stream, or none at all for a status without a body) and within the limit;
    the head parses to the status, reason and headers of the answer, with no
    transfer or content encoding; the status is one the caller named; nothing beyond
    the limits was read, and the socket is closed. *)
Theorem api_answer_is_framed (path timeout request_bytes response_bytes header_bytes : pyval) (mode : option Z)
    (method endpoint expected_status payload : pyval) (s s' : socket) (r : FirecrackerResponse) :
  new_client path timeout request_bytes response_bytes header_bytes = Ok c ->
  request float_repr u_upper c mode method endpoint expected_status payload s = (Ok r, s') ->
  exists checked_method e text statuses,
    prepare float_repr u_upper c method endpoint expected_status payload = Ok (checked_method, text, statuses) /\
    endpoint = VStr e /\ one_request checked_method e payload text /\ outgoing s' = outgoing s +:+ text /\
    framed checked_method (incoming s) r (incoming s') /\ In (status r) statuses /\
    size (incoming s) - size (incoming s') <= max_header_bytes c + max_response_body_bytes c /\ is_open s' = false.
Proof.
  intros Hc%new_client_ok. unfold request. destruct (prepare _ _ _ _ _ _ _) as [[[m text] statuses]|] eqn:Ep; [|done].
  destruct (_connect _ _ _) as [[[]|] s1] eqn:Ec; [|done]. unfold exchange.
  destruct (_send_all text (turns s1)) as [[[]|] [sent ts]] eqn:Es; [|done]. apply send_all_ok in Es as ->.
  destruct (_read_response _ _ _ _) as [[r'|] [rest ts']] eqn:Er; [|done].
  destruct (existsb _ _) eqn:Ex; [|done]. intros [=-> <-]. cbn [outgoing incoming is_open].
  assert (Hs : incoming s1 = incoming s /\ outgoing s1 = outgoing s).
  { unfold _connect in Ec. destruct mode; [|done]. destruct (_ =? S_IFLNK); [done|]. destruct (negb _); [done|].
    destruct (turns s) as [|[]]; try done. by injection Ec as <-. }
  destruct Hs as [-> ->] in Er |- *. apply read_response_framed in Er; [|destruct Hc; lia].
  destruct (prepare_one_request _ _ _ _ _ _ _ Ep) as (e & He & _ & _ & Ho). exists m, e, text, statuses. split_and!; try done.
  - apply existsb_exists in Ex as (x & Hx & Heq%Z.eqb_eq). by rewrite Heq.
  - by eapply read_bounded.
Qed.
Lemma read_body_live method st content_length buffered s ts :
  Forall ready ts -> size s + 1 <= Z.of_nat (length ts) ->
  (if no_body method st then buffered +:+ s = "" /\ (content_length = None \/ content_length = Some 0)
   else size (buffered +:+ s) <= max_response_body_bytes c /\
        match content_length with Some n => size (buffered +:+ s) = n | None => True end) ->
  exists ts', read_body c method st content_length buffered s ts = (Ok (buffered +:+ s), ("", ts')).
Proof.
  intros Hr Hl Hb. unfold read_body. destruct (no_body method st).
  - destruct Hb as [Hb Hc]. destruct buffered, s; try done. exists ts. by destruct Hc as [->| ->].
  - destruct Hb as [Hs Hc]. pose proof (size_ge0 s). destruct content_length as [n|].
    + subst n. rewrite size_app in Hs |- *. rewrite !(proj2 (Z.ltb_ge _ _)) by lia. apply read_exactly_live; [done|by rewrite size_app|lia].
    + rewrite (proj2 (Z.ltb_ge _ _)) by (rewrite size_app in Hs; lia). by apply read_to_end_live.
Qed.

Lemma read_response_live method s ts r :
  Forall ready ts -> size s + 1 <= Z.of_nat (length ts) -> framed method s r "" ->
  exists ts', _read_response c method s ts = (Ok r, ("", ts')).
Proof.
  intros Hr Hl (head & n & Hs & Hf & Hm & Hp & Hfr & Hb). unfold _read_response.
  destruct (read_head_live (max_header_bytes c) (String.length head) ts "" s Hr) as (b & rest & ts1 & -> & Hb1 & Hfb & Hr1 & Hn);
    [by rewrite append_nil_l|unfold size in Hm; lia|lia|].
  rewrite append_nil_l in Hb1. cbv zeta. rewrite (proj2 (Z.ltb_ge _ _)) by (unfold size in Hm; lia).
  pose proof (find_blank_line_ok _ _ Hfb) as [Hbs Hbl]. assert (Hlen : String.length (slice (String.length head) b) = String.length head) by (apply slice_long; lia).
  assert (Hboth : slice (String.length head) b = head /\ drop_bytes (String.length head + 4) b +:+ rest = body r).
  { rewrite Hbs, !append_assoc, Hs, append_nil_r in Hb1. apply append_split in Hb1 as [E1 E2]; [|done].
    split; [done|]. apply append_split in E2 as [_ E2]; [|done]. by apply append_split in E2 as [_ E2]. }
  destruct Hboth as [Hh Hd]. rewrite Hh, Hp. cbn [mbind res_bind fst snd]. rewrite Hfr. cbn [mbind res_bind].
  destruct (read_body_live method (status r) n (drop_bytes (String.length head + 4) b) rest ts1 Hr1) as [ts' ->];
    [pose proof (size_ge0 rest); lia|rewrite Hd; destruct (no_body _ _); [done|]; split; [apply Hb|by destruct n; [apply Hb|]]|].
  exists ts'. rewrite Hd. by destruct r.
Qed.

(** C20: What the monitor frames correctly is delivered.  On a Unix socket that
    answers every call in time, however few bytes each call moves, a request that
    passes the client's own checks is sent in full and its answer is returned, when
    the stream is framed as a response with a status the caller named and nothing
    follows it; the socket is closed afterwards. *)
Theorem api_answer_is_delivered (mode : Z) (method endpoint expected_status payload : pyval) (checked_method text : string)
    (statuses : list Z) (s : socket) (r : FirecrackerResponse) :
  Z.land mode 61440 = S_IFSOCK ->
  prepare float_repr u_upper c method endpoint expected_status payload = Ok (checked_method, text, statuses) ->
  Forall ready (turns s) -> size text + size (incoming s) + 2 <= Z.of_nat (length (turns s)) ->
  framed checked_method (incoming s) r "" -> In (status r) statuses ->
  exists ts, request float_repr u_upper c (Some mode) method endpoint expected_status payload s =
    (Ok r, mk_socket "" (outgoing s +:+ text) ts false).
Proof.
  intros Hmode Hp Hr Hl Hf Hs. unfold request. rewrite Hp. unfold _connect. rewrite Hmode.
  change (S_IFSOCK =? S_IFLNK) with false. change (S_IFSOCK =? S_IFSOCK) with true. cbn [negb].
  pose proof (size_ge0 text). pose proof (size_ge0 (incoming s)).
  destruct (turns s) as [|t ts] eqn:Et; [cbn in Hl; lia|]. inversion Hr as [|? ? Hr1 Hr2]; subst. destruct t as [| | |n]; try done.
  unfold exchange. cbn [turns incoming outgoing]. cbn [length] in Hl.
  destruct (send_all_live ts text Hr2) as (ts1 & -> & Hr3 & Hn); [lia|].
  destruct (read_response_live checked_method (incoming s) ts1 r Hr3) as [ts2 ->]; [lia|done|].
  assert (Hx : existsb (Z.eqb (status r)) statuses = true) by (apply existsb_exists; exists (status r); split; [done|apply Z.eqb_refl]).
  rewrite Hx. by exists ts2.
Qed.
End framed.

(** ** A monitor *)
#[local] Existing Instance ascii_unicode.

Definition sample_client : FirecrackerApiClient := mk_client "/run/fc.sock" (FFin 2 1) 1048576 1048576 32768.
Definition sample_body : string := dumps (fun _ => "") (VDict [("vmm_version", VStr "1.7.0")]).
Definition sample_headers : list (string * string) :=
  [("server", "Firecracker API"); ("content-type", "application/json"); ("content-length", dec (size sample_body))].
Definition sample_head : string :=
  String.concat crlf ("HTTP/1.1 200 " :: map (fun kv => fst kv +:+ ": " +:+ snd kv) sample_headers).
Definition sample_response : FirecrackerResponse := mk_response 200 "" sample_headers sample_body.
Definition sample_socket (ts : list turn) : socket := mk_socket (sample_head +:+ crlf +:+ crlf +:+ sample_body) "" ts false.
Local Notation get_version ts :=
  (request (fun _ => "") (fun s => s) sample_client (Some 49645) (VStr "get") (VStr "/version") (VInt 200) VNone (sample_socket ts)).

Lemma sample_framed : framed sample_client "GET" (incoming (sample_socket [])) sample_response "".
Proof. exists sample_head, (Some (size sample_body)). split_and!; [done|by vm_compute..|done]. Qed.

Lemma api_answer_is_delivered_witness :
  exists ts text, get_version (repeat (Moves 3) 400) = (Ok sample_response, mk_socket "" text ts false).
Proof.
  destruct (prepare (fun _ => "") (fun s => s) sample_client (VStr "get") (VStr "/version") (VInt 200) VNone) as [[[m text] statuses]|] eqn:Ep;
    [|vm_compute in Ep; discriminate Ep].
  pose proof Ep as Ex. vm_compute in Ex. injection Ex as Em Et Es.
  destruct (api_answer_is_delivered (fun _ => "") (fun s => s) sample_client 49645 (VStr "get") (VStr "/version") (VInt 200) VNone m text
    statuses (sample_socket (repeat (Moves 3) 400)) sample_response) as [ts Hr].
  - reflexivity.
  - exact Ep.
  - apply Forall_forall. intros t Ht. apply list_elem_of_In, repeat_spec in Ht. subst t. reflexivity.
  - rewrite <- Et. vm_compute. discriminate.
  - rewrite <- Em. exact sample_framed.
  - rewrite <- Es. left. reflexivity.
  - exists ts, ("" +:+ text). exact Hr.
Defined.

Lemma api_answer_is_framed_witness :
  exists text statuses, one_request (fun _ => "") sample_client "GET" "/version" VNone text /\ In (status sample_response) statuses /\
    framed sample_client "GET" (incoming (sample_socket [])) sample_response "".
Proof.
  assert (Hr : exists s', get_version (repeat (Moves 7) 200) = (Ok sample_response, s') /\ incoming s' = "")
    by (eexists; vm_compute; split; reflexivity).
  destruct Hr as (s' & Hr & Hi).
  destruct (api_answer_is_framed (fun _ => "") (fun s => s) sample_client (VStr "/run/fc.sock") (VInt 2) (VInt 1048576) (VInt 1048576)
    (VInt 32768) (Some 49645) (VStr "get") (VStr "/version") (VInt 200) VNone (sample_socket (repeat (Moves 7) 200)) s' sample_response
    eq_refl Hr) as (m & e & text & statuses & Hp & He & Ho & _ & Hf & Hs & _).
  injection He as <-. assert (m = "GET") as -> by (vm_compute in Hp; congruence). rewrite Hi in Hf.
  exists text, statuses. split; [exact Ho|]. split; [exact Hs|exact Hf].
Defined.

(** Bytes after the body are refused when they come with it and not noticed when
    they come later. *)
Lemma trailing_bytes_depend_on_the_cut :
  let trailing ts := mk_socket ("HTTP/1.1 204 " +:+ crlf +:+ crlf +:+ "x") "" ts false in
  let put ts := fst (put_json (fun _ => "") (fun _ => FNan) (fun s => s) sample_client (Some 49645) (VStr "/actions") (VDict []) (VInt 204)
                       JsonDict (trailing ts)) in
  put (repeat (Moves 1000) 9) = protocol_error "HTTP 204 Firecracker response illegally contains a body" /\
  put (repeat (Moves 1) 400) = Ok None.
Proof. by vm_compute. Qed.

(** A deadline that is over before the connection leaves the descriptor open. *)
Lemma late_connect_leaves_it_open : is_open (snd (get_version [Late])) = true.
Proof. by vm_compute. Qed.
End FirecrackerApiFacts.
