(* ===== verification/Host.v ===== *)
(** * The host as the detonation orchestrator sees it

    The part of mote/detonate.py that reads the process table and the control
    groups, over a model of the host that may change at every moment.  The code
    runs against a log of the calls it has made; an arbitrary kernel says what the
    host looks like after each log, which calls fail and what the clock shows.  So
    every interleaving of the code with the rest of the host is one kernel, and
    what the code relies on is a law about how the host evolves from one call to
    the next. *)

From stdpp Require Import base list strings gmap sorting.
From Stdlib Require Import ZArith Lia.
From S2P Require Import Prelude PyValue Json JsonFacts StrOps Url UrlFacts BrowserEvidence WorkerSandbox WorkerChild.

Local Open Scope Z_scope.

Module Host.
Import BrowserEvidence WorkerSandbox WorkerChild.

Definition ENOENT : Z := 2.
Definition ESRCH : Z := 3.
Definition EIO : Z := 5.
Definition ECHILD : Z := 10.
Definition EAGAIN : Z := 11.
Definition ETIMEDOUT : Z := 110.
Definition EBADF : Z := 9.
Definition ENODEV : Z := 19.
Definition SIGKILL : Z := 9.
Definition SIGSTOP : Z := 19.

(** ** Processes, control groups and mounts *)

(** A process: what the kernel prints in /proc/<pid>/stat.  The fields between the
    session and the start time are words; the command name is any bytes. *)
Record proc := mk_proc {
  p_comm : string;
  p_state : string;
  p_ppid : Z;
  p_pgrp : Z;
  p_session : Z;
  p_middle : list string;
  p_start : Z;
  p_rest : string;
}.

(** A line of /proc/self/mountinfo: four words, the mount point, the options and
    optional fields, and what follows the dash. *)
Record mount := mk_mount { m_head : list string; m_point : string; m_opts : list string; m_tail : string }.

Record host := mk_host {
  procs : gmap Z proc;
  others : list string;
  cgroups : gmap string (list Z);
  paths : gset string;
  mounts : list mount;
}.

(** Words, each after a blank. *)
Fixpoint words (l : list string) : string :=
  match l with [] => "" | w :: r => " " +:+ w +:+ words r end.

Definition stat_text (pid : Z) (p : proc) : string :=
  dec pid +:+ " (" +:+ p_comm p +:+ ")"
  +:+ words ([p_state p; dec (p_ppid p); dec (p_pgrp p); dec (p_session p)] ++ p_middle p ++ [dec (p_start p)])
  +:+ p_rest p.

Fixpoint procs_text (l : list Z) : string :=
  match l with [] => "" | pid :: r => dec pid +:+ chr 10 +:+ procs_text r end.

Definition path_exists (h : host) (p : string) : bool := bool_decide (p ∈ dom (cgroups h) \/ p ∈ paths h).

(** ** Calls and the kernel *)
Inductive call :=
  | CStat (pid : Z)
  | CListProc
  | CProcExists (pid : Z)
  | CExists (path : string)
  | CReadProcs (group : string)
  | CWrite (path text : string)
  | CMkdir (path : string)
  | CRmdir (path : string)
  | CRmtree (path : string)
  | CMountinfo
  | CUmount (path : string)
  | CKill (pid signal : Z)
  | CKillpg (process_group signal : Z)
  | CWaitpg (process_group : Z)
  | CWaitpid (pid : Z)
  | CPtrace (request pid : Z)
  | CRecv
  | CWriteFd (fd : Z) (data : string)
  | CAlert (reason : string) (details : pyval)
  | CCapture (pids : list Z)
  | CSelect
  | CReadStream (stdout : bool)
  | CPidfdOpen (pid : Z)
  | CPidfdSignal (fd signal : Z)
  | CClose (fd : Z)
  | CClock
  | CSleep (ns : Z).

(** What [recvmsg] gives: the bytes, the ancillary data (level, type, bytes) and the flags. *)
Record recv_answer := mk_recv { raw : string; ancillary : list (Z * Z * string); flags : Z }.

(** A log has the last call first.  [host_at log] is the host when that call took
    effect; [fails log] is the errno it failed with, if it failed. *)
Class Kernel := {
  host_at : list call -> host;
  fails : list call -> option Z;
  clock : list call -> Z;
  waited : list call -> Z * Z;
  new_fd : list call -> Z;
  wrote : list call -> Z;
  received : list call -> recv_answer;
  ready : list call -> list bool;
  chunk : list call -> string;
}.

(** A computation returns a result or an exception, or ([None]) does not return. *)
Definition io (A : Type) : Type := list call -> option (res A * list call).
Definition done {A} (a : A) : io A := fun log => Some (Ok a, log).
Definition raise_ {A} (e : exn) : io A := fun log => Some (Err e, log).
Definition stuck {A} : io A := fun _ => None.
Definition pure {A} (r : res A) : io A := fun log => Some (r, log).
Definition bind {A B} (m : io A) (k : A -> io B) : io B := fun log =>
  match m log with
  | Some (Ok a, log') => k a log'
  | Some (Err e, log') => Some (Err e, log')
  | None => None
  end.
(** [try: m except ...: h] *)
Definition catch {A} (m : io A) (h : exn -> io A) : io A := fun log =>
  match m log with Some (Err e, log') => h e log' | r => r end.
Notation "'let!' x := m 'in' k" := (bind m (fun x => k))
  (at level 10, x pattern, m at level 100, k at level 200, format "'[v' 'let!'  x  :=  m  'in' '//' k ']'").
Notation "m ;! k" := (bind m (fun _ => k)) (at level 100, k at level 200, right associativity).
(** [try: m finally: f] *)
Definition finally {A} (m : io A) (f : io unit) : io A := fun log =>
  match m log with
  | Some (r, log') => match f log' with Some (Ok _, l) => Some (r, l) | Some (Err e, l) => Some (Err e, l) | None => None end
  | None => None
  end.
Definition throw_if {A} (c : bool) (e : exn) (k : io A) : io A := if c then raise_ e else k.
Notation "'throw' e 'when' c ;; k" := (throw_if c e k)
  (at level 10, e at level 9, c at level 99, k at level 200, format "'[v' 'throw'  e  'when'  c ;; '//' k ']'").

Fixpoint iter_io {A} (f : A -> io unit) (l : list A) : io unit :=
  match l with [] => done tt | x :: r => f x ;! iter_io f r end.
Fixpoint filter_io {A} (f : A -> io bool) (l : list A) : io (list A) :=
  match l with
  | [] => done []
  | x :: r => let! b := f x in let! k := filter_io f r in done (if b then x :: k else k)
  end.

(** [read_text(encoding="ascii")]: [None] is a [UnicodeDecodeError] *)
Definition decode_ascii (raw : string) : option string := if isascii raw then Some raw else None.

(** [entry.name.isdigit()] of a name of /proc *)
Definition digits (s : string) : bool := negb (String.eqb s "") && str_forall is_digit s.

(** [sorted(set(pids))] *)
Definition sorted_pids (l : list Z) : list Z := merge_sort Z.le (remove_dups l).

Section calls.
Context `{Kernel}.

(** A call is logged, then fails or is answered from the host. *)
Definition perform {A} (c : call) (answer : host -> Z + A) : io (Z + A) := fun log =>
  let log' := c :: log in
  Some (Ok (match fails log' with Some e => inl e | None => answer (host_at log') end), log').
Definition effect (c : call) : io (Z + unit) := perform c (fun _ => inr tt).
(** A call whose failure is ignored: [try: ... except OSError: pass] *)
Definition quietly (c : call) : io unit := let! _ := effect c in done tt.
Definition observe {A} (c : call) (answer : host -> A) : io A := fun log =>
  Some (Ok (answer (host_at (c :: log))), c :: log).

Definition read_stat (pid : Z) : io (Z + string) := perform (CStat pid) (fun h =>
  match procs h !! pid with Some p => inr (stat_text pid p) | None => inl ENOENT end).
Definition list_proc : io (Z + list string) := perform CListProc (fun h =>
  inr (map dec (map fst (map_to_list (procs h))) ++ others h)).
Definition proc_exists (pid : Z) : io bool := observe (CProcExists pid) (fun h => bool_decide (is_Some (procs h !! pid))).
Definition exists_ (path : string) : io bool := observe (CExists path) (fun h => path_exists h path).
Definition read_procs (group : string) : io (Z + string) := perform (CReadProcs group) (fun h =>
  match cgroups h !! group with Some l => inr (procs_text l) | None => inl ENOENT end).
Definition monotonic : io Z := fun log => Some (Ok (clock (CClock :: log)), CClock :: log).
(** [os.waitpid] with [WNOHANG] of a process or of a process group *)
Definition waitpid (c : call) : io (Z + Z * Z) := fun log =>
  let log' := c :: log in
  Some (Ok (match fails log' with Some e => inl e | None => inr (waited log') end), log').
(** [os.pidfd_open(pid, 0)]: the number of a descriptor of the process that has the pid now *)
Definition pidfd_open (pid : Z) : io (Z + Z) := fun log =>
  let log' := CPidfdOpen pid :: log in
  Some (Ok (match fails log' with
            | Some e => inl e
            | None => match procs (host_at log') !! pid with Some _ => inr (new_fd log') | None => inl ESRCH end
            end), log').
(** [os.write(fd, data)]: the number of bytes written *)
Definition write_fd (fd : Z) (data : string) : io (Z + Z) := fun log =>
  let log' := CWriteFd fd data :: log in
  Some (Ok (match fails log' with Some e => inl e | None => inr (wrote log') end), log').
(** [control.recvmsg(...)] *)
Definition recvmsg : io (Z + recv_answer) := fun log =>
  let log' := CRecv :: log in
  Some (Ok (match fails log' with Some e => inl e | None => inr (received log') end), log').
(** [_write_alert]; its [OSError] is not caught. *)
Definition _write_alert (reason : string) (details : pyval) : io unit :=
  let! written := effect (CAlert reason details) in
  match written with inl _ => raise_ (OSError "alert") | inr _ => done tt end.
(** [selector.select(...)]: the streams that can be read, [true] for stdout *)
Definition select : io (list bool) := fun log => Some (Ok (ready (CSelect :: log)), CSelect :: log).
(** [os.read(stream, 65536)] *)
Definition read_stream (stdout : bool) : io (Z + string) := fun log =>
  let log' := CReadStream stdout :: log in
  Some (Ok (match fails log' with Some e => inl e | None => inr (chunk log') end), log').
(** A call whose [OSError] is not caught, or is caught for one errno only. *)
Definition must (c : call) : io unit :=
  let! r := effect c in match r with inl _ => raise_ (OSError "host") | inr _ => done tt end.
Definition must_unless (errno : Z) (c : call) : io unit :=
  let! r := effect c in match r with inl e => if e =? errno then done tt else raise_ (OSError "host") | inr _ => done tt end.
Definition sleep (ns : Z) : io unit := fun log => Some (Ok tt, CSleep ns :: log).

(** ** The process table *)

(** One entry of the table. *)
Definition member_entry (process_group : Z) (acc : list Z * bool) (name : string) : io (list Z * bool) :=
  let '(members, complete) := acc in
  if negb (digits name) then done acc
  else
    let pid := digits_value 0 name in
    let! read := read_stat pid in
    match read with
    | inl e => done (members, if (e =? ENOENT) || (e =? ESRCH) then complete else false)
    | inr raw =>
        match decode_ascii raw with
        | None => done (members, false)
        | Some text =>
            let '(_, _, after) := rpartition 41 text in
            match fields after with
            | _ :: _ :: pgrp :: _ =>
                match int10 pgrp with
                | None => done (members, false)
                | Some group => done (if group =? process_group then (members ++ [pid], complete) else acc)
                end
            | _ => done acc
            end
        end
    end.
Fixpoint member_entries (process_group : Z) (names : list string) (acc : list Z * bool) : io (list Z * bool) :=
  match names with
  | [] => done acc
  | name :: r => let! acc := member_entry process_group acc name in member_entries process_group r acc
  end.
Definition _process_group_members (process_group : Z) : io (list Z * bool) :=
  let! entries := list_proc in
  match entries with
  | inl _ => done ([], false)
  | inr names =>
      let! acc := member_entries process_group names ([], true) in
      done (merge_sort Z.le (fst acc), snd acc)
  end.

(** ** Control groups *)
Definition ints (l : list string) : option (list Z) := mapM int10 l.

Definition _cgroup_members (group : option string) : io (list Z * bool) :=
  match group with
  | None => done ([], true)
  | Some g =>
      let! there := exists_ g in
      if negb there then done ([], true)
      else
        let! read := read_procs g in
        match read with
        | inl e =>
            if e =? ENOENT
            then let! there := exists_ g in done ([], negb there)
            else done ([], false)
        | inr text =>
            match ints (fields text) with
            | None => done ([], false)
            | Some members => done (sorted_pids members, true)
            end
        end
  end.

(** ** Identities *)
Record ProcessIdentity := mk_identity {
  pid : Z;
  state : string;
  parent_pid : Z;
  process_group : Z;
  session : Z;
  start_time_ticks : Z;
}.

(** A line that is not ASCII is not read: its [UnicodeDecodeError] is not one of the
    exceptions the function catches. *)
Definition identity_of (pid : Z) (text : string) : option ProcessIdentity :=
  let '(_, separator, tail) := rpartition 41 text in
  let fields := if separator then fields tail else [] in
  if (length fields <? 20)%nat then None
  else match int10 (nth 1 fields ""), int10 (nth 2 fields ""), int10 (nth 3 fields ""), int10 (nth 19 fields "") with
       | Some parent, Some group, Some session, Some start =>
           Some (mk_identity pid (nth 0 fields "") parent group session start)
       | _, _, _, _ => None
       end.
Definition _read_process_identity (pid : Z) : io (option ProcessIdentity) :=
  if pid <=? 0 then done None
  else
    let! read := read_stat pid in
    match read with
    | inl _ => done None
    | inr raw =>
        match decode_ascii raw with
        | None => raise_ (ValueError "UnicodeDecodeError")
        | Some text => done (identity_of pid text)
        end
    end.

End calls.

(** ** The readings are exact *)

(** A word is not empty and holds neither blanks nor a parenthesis. *)
Definition is_word (w : string) : Prop := w <> "" /\ str_forall word_char w = true.
Record proc_ok (p : proc) : Prop := {
  ok_ppid : is_pid (p_ppid p);
  ok_pgrp : is_pid (p_pgrp p);
  ok_session : is_pid (p_session p);
  ok_start : 0 <= p_start p < 2 ^ 64;
  ok_state : is_word (p_state p);
  ok_middle : length (p_middle p) = 15%nat /\ Forall is_word (p_middle p);
  ok_rest : has_char 41 (p_rest p) = false /\ (p_rest p = "" \/ first_is strip_char (p_rest p) = true);
}.
Definition identity (pid : Z) (p : proc) : ProcessIdentity :=
  mk_identity pid (p_state p) (p_ppid p) (p_pgrp p) (p_session p) (p_start p).

Lemma underscored_digits s : str_forall is_digit s = true -> s <> "" -> underscored s = Some s.
Proof.
  induction s as [|a r IH]; [done|]. intros Hs _. cbn in Hs. apply andb_true_iff in Hs as [Ha Hr]. cbn. rewrite Ha. cbn.
  destruct r as [|b r]; [done|]. assert (ch 95 b = false) as ->.
  { cbn in Hr. apply andb_true_iff in Hr as [Hb _]. unfold ch, is_digit, in_range in *. lia. }
  by rewrite IH.
Qed.

Lemma strip_plain s : str_forall (fun c => negb (is_space c)) s = true -> strip s = s.
Proof.
  intros Hs. assert (Hl : lstrip s = s).
  { destruct s as [|a r]; [done|]. cbn in *. apply andb_true_iff in Hs as [Ha%negb_true_iff _]. by rewrite Ha. }
  unfold strip. rewrite Hl. clear Hl. induction s as [|a r IH]; [done|]. cbn in *. apply andb_true_iff in Hs as [Ha%negb_true_iff Hr].
  rewrite IH, Ha by done. by destruct r.
Qed.

Lemma int10_dec n : 0 <= n < 2 ^ 64 -> int10 (dec n) = Some n.
Proof.
  intros Hn. destruct (dec_digits_only n) as [H1 [_ H2 H3 _ _]]; [lia|].
  assert (Hl : (String.length (dec n) <= 66)%nat).
  { unfold dec. rewrite (proj2 (Z.ltb_ge n 0)) by lia. apply (length_dec_nonneg n 64). apply Hn. }
  unfold int10. rewrite strip_plain.
  2:{ revert H1. apply str_forall_weaken. intros a. unfold is_digit, is_space, in_range. lia. }
  assert (E : underscored (dec n) = Some (dec n)) by (by apply underscored_digits).
  destruct (dec n) as [|a r] eqn:Ed; [done|]. assert (Ha : is_digit a = true) by (cbn in H1; by apply andb_true_iff in H1 as [? _]).
  assert (ch 45 a = false /\ ch 43 a = false) as [-> ->] by (unfold ch, is_digit, in_range in *; lia).
  rewrite E, (proj2 (Nat.ltb_ge _ _)) by (unfold MAX_STR_DIGITS; lia). by rewrite H2, Z.mul_1_l.
Qed.

Lemma pid_word n : 0 <= n -> is_word (dec n).
Proof.
  intros Hn. destruct (dec_digits_only n) as [H1 [_ _ H3 _ _]]; [done|]. split; [done|].
  revert H1. apply str_forall_weaken. intros a. unfold word_char, strip_char, is_digit, in_range, ch. lia.
Qed.

Lemma fields_words l r : Forall is_word l -> fst (fields_from r) = "" ->
  fields_from (words l +:+ r) = ("", l ++ snd (fields_from r)).
Proof.
  intros Hl Hr. induction Hl as [|w l [Hn Hw] _ IH]; cbn [words app].
  { rewrite append_nil_l, <- Hr. apply surjective_pairing. }
  rewrite !append_assoc. rewrite fields_space by (done || by rewrite IH). by rewrite IH.
Qed.

Lemma rest_fields r : r = "" \/ first_is strip_char r = true -> fst (fields_from r) = "".
Proof. destruct r as [|a r]; [done|]. intros [|Hr]; [done|]. cbn in *. rewrite Hr. by destruct (fields_from r). Qed.

Lemma words_plain l : Forall is_word l -> has_char 41 (words l) = false.
Proof.
  induction 1 as [|w l [_ Hw] _ IH]; [done|]. cbn [words]. by rewrite !has_char_app, IH, (has_char_word _ Hw).
Qed.

Lemma stat_words p : proc_ok p -> Forall is_word
  ([p_state p; dec (p_ppid p); dec (p_pgrp p); dec (p_session p)] ++ p_middle p ++ [dec (p_start p)]).
Proof.
  intros [[? _] [? _] [? _] [? _] ? [_ ?] _]. apply Forall_app; split; [|apply Forall_app; split; [done|]];
    repeat constructor; try apply pid_word; try done; by destruct ok_state0.
Qed.

Lemma stat_parts pid p : proc_ok p -> exists b r,
  rpartition 41 (stat_text pid p) = (b, true, r) /\
  fields r = [p_state p; dec (p_ppid p); dec (p_pgrp p); dec (p_session p)] ++ p_middle p ++ [dec (p_start p)]
             ++ snd (fields_from (p_rest p)).
Proof.
  intros Hp. assert (Hw := stat_words p Hp). destruct (ok_rest p Hp) as [Hr1 Hr2]. unfold stat_text.
  rewrite <- (append_assoc " (" (p_comm p)), <- (append_assoc (dec pid)).
  change (")" +:+ ?x) with (String (ascii_of 41) x). eexists _, _. split.
  - apply rpartition_app; [lia|]. by rewrite has_char_app, words_plain, Hr1.
  - unfold fields. rewrite fields_words by (done || by apply rest_fields). cbn [String.eqb app].
    f_equal. f_equal. f_equal. f_equal. by rewrite <- app_assoc.
Qed.

Lemma identity_of_stat pid p : proc_ok p -> identity_of pid (stat_text pid p) = Some (identity pid p).
Proof.
  intros Hp. destruct (stat_parts pid p Hp) as (b & r & E & F). unfold identity_of. rewrite E, F.
  destruct (ok_middle p Hp) as [Hm _]. cbn [app]. rewrite (proj2 (Nat.ltb_ge _ _)) by (cbn; rewrite !length_app; cbn; lia).
  destruct Hp as [[] [] [] [] _ _ _]. cbn [nth].
  rewrite app_nth2 by lia. rewrite Hm. cbn [Nat.sub nth]. by rewrite !int10_dec by lia.
Qed.

Lemma procs_fields l : Forall is_pid l -> fields (procs_text l) = map dec l.
Proof.
  induction 1 as [|n l Hn _ IH]; [done|]. destruct (pid_word n (proj1 Hn)) as [Hw1 Hw2]. unfold fields. cbn [procs_text].
  change (chr 10 +:+ ?x) with (String (ascii_of 10) x).
  assert (E : fields_from (String (ascii_of 10) (procs_text l)) = ("", fields (procs_text l))).
  { cbn [fields_from]. unfold fields. destruct (fields_from (procs_text l)) as [f fs]. done. }
  rewrite fields_from_word by (done || by rewrite E). rewrite E, IH. cbn [snd map].
  by rewrite (proj2 (String.eqb_neq _ _) Hw1).
Qed.

Lemma ints_dec l : Forall is_pid l -> ints (map dec l) = Some l.
Proof.
  intros Hl. unfold ints. induction Hl as [|n l Hn _ IH]; [done|]. cbn. rewrite int10_dec by (destruct Hn; lia). cbn.
  by rewrite IH.
Qed.

(** ** Reasoning about computations *)
Lemma bind_some {A B} (m : io A) (k : A -> io B) log r log' : bind m k log = Some (r, log') ->
  (exists a l, m log = Some (Ok a, l) /\ k a l = Some (r, log')) \/ (exists e, r = Err e /\ m log = Some (Err e, log')).
Proof. unfold bind. destruct (m log) as [[[a|e] l]|]; [by eauto| |done]. intros [= <- <-]. by eauto. Qed.

Lemma bind_done {A B} (m : io A) (k : A -> io B) log b log' : bind m k log = Some (Ok b, log') ->
  exists a l, m log = Some (Ok a, l) /\ k a l = Some (Ok b, log').
Proof. intros [Hb|(e & [=] & _)]%bind_some. done. Qed.

Lemma catch_some {A} (m : io A) h log r log' : catch m h log = Some (r, log') ->
  (exists a, r = Ok a /\ m log = Some (Ok a, log')) \/ (exists e l, m log = Some (Err e, l) /\ h e l = Some (r, log')).
Proof. unfold catch. destruct (m log) as [[[a|e] l]|]; [|by eauto|done]. intros [= <- <-]. by eauto. Qed.

Lemma finally_some {A} (m : io A) f log r log' : finally m f log = Some (r, log') ->
  exists r' l, m log = Some (r', l) /\ (f l = Some (Ok tt, log') /\ r' = r \/ exists e, f l = Some (Err e, log') /\ r = Err e).
Proof.
  unfold finally. destruct (m log) as [[r' l]|]; [|done]. intros Hf. exists r', l. split; [done|].
  destruct (f l) as [[[[]|e] l']|]; simplify_eq; [by left|right; by exists e].
Qed.

Lemma throw_if_done {A} c e (k : io A) log a log' : throw_if c e k log = Some (Ok a, log') ->
  c = false /\ k log = Some (Ok a, log').
Proof. by destruct c. Qed.

(** Take apart a computation that returned a value. *)
Ltac io_inv1 :=
  match goal with
  | H : bind _ _ _ = Some (Ok _, _) |- _ => apply bind_done in H as (? & ? & ? & ?)
  | H : throw_if _ _ _ _ = Some (Ok _, _) |- _ => apply throw_if_done in H as [? H]
  | H : done _ _ = Some _ |- _ => unfold done in H; injection H as ? ?
  | H : pure _ _ = Some _ |- _ => unfold pure in H; injection H as ? ?
  | H : raise_ _ _ = Some (Ok _, _) |- _ => discriminate H
  | H : stuck _ = Some _ |- _ => discriminate H
  end.
Ltac io_inv := repeat io_inv1.

(** A computation that adds only calls that satisfy [P] to the log. *)
Definition only {A} (P : call -> Prop) (m : io A) : Prop :=
  forall log r log', m log = Some (r, log') -> exists cs, log' = cs ++ log /\ Forall P cs.

Create HintDb calls.

Section only.
Context (P : call -> Prop).

Lemma only_done {A} (a : A) : only P (done a).
Proof. intros log r log' [= <- <-]. by exists []. Qed.
Lemma only_raise {A} e : only P (raise_ e : io A).
Proof. intros log r log' [= <- <-]. by exists []. Qed.
Lemma only_pure {A} (x : res A) : only P (pure x).
Proof. intros log r log' [= <- <-]. by exists []. Qed.
Lemma only_stuck {A} : only P (stuck : io A).
Proof. done. Qed.

Lemma only_bind {A B} (m : io A) (k : A -> io B) : only P m -> (forall a, only P (k a)) -> only P (bind m k).
Proof.
  intros Hm Hk log r log' [(a & l & H1 & H2)|(e & _ & H1)]%bind_some; [|by eauto].
  apply Hm in H1 as (cs & -> & Hcs). apply Hk in H2 as (ds & -> & Hds). exists (ds ++ cs).
  split; [by rewrite app_assoc|by apply Forall_app].
Qed.

Lemma only_catch {A} (m : io A) h : only P m -> (forall e, only P (h e)) -> only P (catch m h).
Proof.
  intros Hm Hk log r log' [(a & _ & H1)|(e & l & H1 & H2)]%catch_some; [by eauto|].
  apply Hm in H1 as (cs & -> & Hcs). apply Hk in H2 as (ds & -> & Hds). exists (ds ++ cs).
  split; [by rewrite app_assoc|by apply Forall_app].
Qed.

Lemma only_finally {A} (m : io A) f : only P m -> only P f -> only P (finally m f).
Proof.
  intros Hm Hf log r log' (r' & l & (cs & -> & Hcs)%Hm & Hl)%finally_some.
  assert (exists r2, f (cs ++ log) = Some (r2, log')) as [r2 (ds & -> & Hds)%Hf] by (destruct Hl as [[? _]|(e & ? & _)]; by eauto).
  exists (ds ++ cs). split; [by rewrite app_assoc|by apply Forall_app].
Qed.

Lemma only_throw_if {A} c e (k : io A) : only P k -> only P (throw_if c e k).
Proof. destruct c; [intros _; apply only_raise|done]. Qed.

Lemma only_log {A} (c : call) (f : list call -> res A) : P c -> only P (fun log => Some (f log, c :: log)).
Proof. intros Hc log r log' [= <- <-]. exists [c]. by repeat constructor. Qed.
Lemma only_iter {A} (f : A -> io unit) l : (forall x, only P (f x)) -> only P (iter_io f l).
Proof. intros Hf. induction l as [|x l IH]; [apply only_done|]. by apply only_bind. Qed.
Lemma only_filter {A} (f : A -> io bool) l : (forall x, only P (f x)) -> only P (filter_io f l).
Proof.
  intros Hf. induction l as [|x l IH]; [apply only_done|]. cbn. apply only_bind; [done|]. intros b.
  apply only_bind; [done|]. intros k. apply only_done.
Qed.
End only.

Lemma only_weaken {A} (P Q : call -> Prop) (m : io A) : (forall c, P c -> Q c) -> only P m -> only Q m.
Proof. intros HPQ Hm log r log' (cs & -> & Hcs)%Hm. exists cs. split; [done|]. by eapply Forall_impl. Qed.

#[export] Hint Resolve only_done only_raise only_pure only_stuck only_throw_if only_iter only_filter : calls.
Ltac only_auto := repeat (first
  [ progress auto with calls
  | apply only_bind; [|intros ?]
  | apply only_catch; [|intros ?]
  | apply only_finally
  | apply only_throw_if
  | match goal with |- only _ (match ?x with _ => _ end) => destruct x end
  | match goal with |- only _ (if ?x then _ else _) => destruct x end ]).

(** Calls that look at the host and change nothing. *)
Definition look (c : call) : Prop :=
  match c with
  | CStat _ | CListProc | CProcExists _ | CExists _ | CReadProcs _ | CMountinfo | CClock | CSleep _ => True
  | _ => False
  end.

Section looks.
Context `{Kernel}.

Lemma only_read_stat n : only look (read_stat n). Proof. by apply only_log. Qed.
Lemma only_list_proc : only look list_proc. Proof. by apply only_log. Qed.
Lemma only_proc_exists n : only look (proc_exists n). Proof. by apply only_log. Qed.
Lemma only_exists p : only look (exists_ p). Proof. by apply only_log. Qed.
Lemma only_read_procs g : only look (read_procs g). Proof. by apply only_log. Qed.
Lemma only_monotonic : only look monotonic. Proof. by apply only_log. Qed.
Lemma only_sleep n : only look (sleep n). Proof. by apply only_log. Qed.
Hint Resolve only_read_stat only_list_proc only_proc_exists only_exists only_read_procs only_monotonic only_sleep : calls.

Lemma only_read_identity n : only look (_read_process_identity n).
Proof. unfold _read_process_identity. only_auto. Qed.
Lemma only_cgroup_members g : only look (_cgroup_members g).
Proof. unfold _cgroup_members. only_auto. Qed.
Lemma only_member_entry pg acc name : only look (member_entry pg acc name).
Proof.
  unfold member_entry. destruct acc. only_auto.
Qed.
Lemma only_member_entries pg names : forall acc, only look (member_entries pg names acc).
Proof.
  induction names as [|name names IH]; intros acc; [apply only_done|]. cbn. apply only_bind; [apply only_member_entry|done].
Qed.
Hint Resolve only_member_entries : calls.
Lemma only_group_members pg : only look (_process_group_members pg).
Proof. unfold _process_group_members. only_auto. Qed.
End looks.
#[export] Hint Resolve only_read_stat only_list_proc only_proc_exists only_exists only_read_procs only_monotonic only_sleep
  only_read_identity only_cgroup_members only_group_members : calls.

Lemma only_look {A} (P : call -> Prop) (m : io A) : (forall c, look c -> P c) -> only look m -> only P m.
Proof. apply only_weaken. Qed.
Lemma only_effect `{Kernel} (P : call -> Prop) c : P c -> only P (effect c).
Proof. apply only_log. Qed.
Lemma only_quietly `{Kernel} (P : call -> Prop) c : P c -> only P (quietly c).
Proof. intros Hc. apply only_bind; [by apply only_effect|]. intros. apply only_done. Qed.
Lemma only_waitpid `{Kernel} (P : call -> Prop) c : P c -> only P (waitpid c).
Proof. apply only_log. Qed.
Lemma only_recvmsg `{Kernel} (P : call -> Prop) : P CRecv -> only P recvmsg.
Proof. apply only_log. Qed.
#[export] Hint Extern 1 (only _ (effect _)) => (apply only_effect; exact I) : calls.
#[export] Hint Extern 1 (only _ (quietly _)) => (apply only_quietly; exact I) : calls.
#[export] Hint Extern 1 (only _ (waitpid _)) => (apply only_waitpid; exact I) : calls.
#[export] Hint Extern 1 (only _ recvmsg) => (apply only_recvmsg; exact I) : calls.

(** A computation extends the log. *)
Notation extends := (only (fun _ => True)).
Lemma extends_only {A} P (m : io A) : only P m -> extends m.
Proof. by apply only_weaken. Qed.
Lemma extends_look {A} (m : io A) : only look m -> extends m.
Proof. apply extends_only. Qed.
#[export] Hint Resolve extends_look : calls.

(** A computation returns a value from every log. *)
Definition returns {A} (m : io A) : Prop := forall log, exists a log', m log = Some (Ok a, log').
Lemma returns_done {A} (a : A) : returns (done a).
Proof. intros log. by eexists _, _. Qed.
Lemma returns_bind {A B} (m : io A) (k : A -> io B) : returns m -> (forall a, returns (k a)) -> returns (bind m k).
Proof. intros Hm Hk log. unfold bind. destruct (Hm log) as (a & l & ->). apply Hk. Qed.
Lemma returns_log {A} (f : list call -> A) (c : list call -> call) : returns (fun log => Some (Ok (f log), c log :: log)).
Proof. intros log. by eexists _, _. Qed.
Lemma returns_quietly `{Kernel} c : returns (quietly c).
Proof. apply returns_bind; [apply (returns_log _ (fun _ => c))|]. intros. apply returns_done. Qed.
Lemma returns_iter {A} (f : A -> io unit) l : (forall x, returns (f x)) -> returns (iter_io f l).
Proof. intros Hf. induction l as [|x l IH]; [apply returns_done|]. cbn. by apply returns_bind. Qed.
Lemma returns_filter {A} (f : A -> io bool) l : (forall x, returns (f x)) -> returns (filter_io f l).
Proof.
  intros Hf. induction l as [|x l IH]; [apply returns_done|]. cbn. apply returns_bind; [done|]. intros b.
  apply returns_bind; [done|]. intros k. apply returns_done.
Qed.
#[export] Hint Resolve returns_done returns_quietly returns_iter returns_filter : calls.
Ltac returns_auto := repeat (first
  [ progress auto with calls
  | apply returns_bind; [|intros ?]
  | match goal with |- returns (match ?x with _ => _ end) => destruct x end
  | match goal with |- returns (if ?x then _ else _) => destruct x end ]).

Section returning.
Context `{Kernel}.
Lemma returns_perform {A} c (f : host -> Z + A) : returns (perform c f).
Proof. apply (returns_log _ (fun _ => c)). Qed.
Lemma returns_observe {A} c (f : host -> A) : returns (observe c f).
Proof. apply (returns_log _ (fun _ => c)). Qed.
Lemma returns_monotonic : returns monotonic.
Proof. apply (returns_log _ (fun _ => CClock)). Qed.
Lemma returns_sleep n : returns (sleep n).
Proof. apply (returns_log (fun _ => tt) (fun _ => CSleep n)). Qed.
Lemma returns_waitpid c : returns (waitpid c).
Proof. apply (returns_log _ (fun _ => c)). Qed.
Hint Resolve returns_perform returns_observe : calls.
Lemma returns_members pg : returns (_process_group_members pg).
Proof.
  assert (He : forall names acc, returns (member_entries pg names acc)).
  { induction names as [|name names IH]; intros acc; [apply returns_done|]. cbn. apply returns_bind; [|done].
    unfold member_entry, read_stat. returns_auto. }
  unfold _process_group_members, list_proc. returns_auto.
Qed.
Lemma returns_cgroup_members g : returns (_cgroup_members g).
Proof. unfold _cgroup_members, exists_, read_procs. returns_auto. Qed.
End returning.
#[export] Hint Resolve returns_perform returns_observe returns_monotonic returns_sleep returns_waitpid returns_members
  returns_cgroup_members : calls.

(** Kernel law: the clock does not run backwards, and a sleep lasts. *)
Class ClockLaws `{Kernel} : Prop := {
  clock_mono : forall l l', l `suffix_of` l' -> clock l <= clock l';
  clock_sleep : forall ns l, clock l + ns <= clock (CSleep ns :: l);
}.

(** ** Well-formed hosts *)
Record host_ok (h : host) : Prop := {
  ok_procs : forall n p, procs h !! n = Some p -> 0 < n < 2 ^ 31 /\ proc_ok p;
  ok_others : Forall (fun name => digits name = false) (others h);
  ok_cgroups : forall g l, cgroups h !! g = Some l -> Forall is_pid l;
}.
Class KernelOk `{Kernel} : Prop := kernel_ok : forall log, host_ok (host_at log).

(** [P] held of the host at some moment of the computation between two logs. *)
Definition during `{Kernel} (log log' : list call) (P : host -> Prop) : Prop :=
  exists l, l <> log /\ log `suffix_of` l /\ l `suffix_of` log' /\ P (host_at l).

Lemma during_weaken `{Kernel} l1 l2 l3 l4 (P : host -> Prop) :
  l1 `suffix_of` l2 -> l3 `suffix_of` l4 -> during l2 l3 P -> during l1 l4 P.
Proof.
  intros H1 H2 (l & Hn & Ha & Hb & HP). exists l. split_and!; [|by etrans|by etrans|done].
  intros ->. apply Hn. destruct H1 as [k1 ->], Ha as [k2 E]. apply (f_equal length) in E.
  rewrite !length_app in E. destruct k1; [done|cbn in E; lia].
Qed.
Lemma during_impl `{Kernel} log log' (P Q : host -> Prop) :
  (forall h, P h -> Q h) -> during log log' P -> during log log' Q.
Proof. intros HPQ (l & Hn & Ha & Hb & HP). exists l. auto. Qed.

Lemma only_suffix {A} P (m : io A) log r log' : only P m -> m log = Some (r, log') -> log `suffix_of` log'.
Proof. intros Hm (cs & -> & _)%Hm. by exists cs. Qed.

Section exact.
Context `{KernelOk}.

Lemma read_identity_seen n log i log' : _read_process_identity n log = Some (Ok (Some i), log') ->
  0 < n /\ log' = CStat n :: log /\ exists p, procs (host_at log') !! n = Some p /\ i = identity n p.
Proof.
  unfold _read_process_identity. destruct (Z.leb_spec n 0) as [|Hn]; [done|]. intros Hr. io_inv. unfold read_stat, perform in *.
  simplify_eq. destruct (fails _) as [e|]; [done|]. destruct (procs _ !! n) as [p|] eqn:Ep; [|done].
  unfold decode_ascii in *. destruct (isascii _); [|done]. io_inv. simplify_eq.
  rewrite identity_of_stat in * by (eapply ok_procs; [apply kernel_ok|done]). simplify_eq. eauto.
Qed.

Lemma cgroup_members_seen g log ms log' n : _cgroup_members (Some g) log = Some (Ok (ms, true), log') -> n ∈ ms ->
  exists l, log' = CReadProcs g :: CExists g :: log /\ cgroups (host_at log') !! g = Some l /\ (forall m, m ∈ ms <-> m ∈ l).
Proof.
  unfold _cgroup_members. intros Hr Hm. io_inv. unfold exists_, observe in *. simplify_eq.
  destruct (path_exists _ _); cbn [negb] in *; [|io_inv; simplify_eq; by apply elem_of_nil in Hm].
  io_inv. unfold read_procs, perform in *. simplify_eq. destruct (fails _) as [e|].
  { destruct (e =? ENOENT); io_inv; unfold exists_, observe in *; simplify_eq; by apply elem_of_nil in Hm. }
  destruct (cgroups _ !! g) as [l|] eqn:El.
  - assert (Hl : Forall is_pid l) by (eapply ok_cgroups; [apply kernel_ok|done]).
    rewrite procs_fields, ints_dec in * by done. io_inv. simplify_eq. exists l. split_and!; [done|done|]. intros m.
    unfold sorted_pids. by rewrite merge_sort_Permutation, elem_of_remove_dups.
  - cbn in *. io_inv. unfold exists_, observe in *. simplify_eq. by apply elem_of_nil in Hm.
Qed.
End exact.

(** The process a descriptor refers to: the one that had the pid when it was opened. *)
Fixpoint pidfd_target `{Kernel} (fd : Z) (log : list call) : option (Z * Z) :=
  match log with
  | [] => None
  | c :: r =>
      match c with
      | CPidfdOpen n =>
          if bool_decide (fails log = None) && (new_fd log =? fd)
          then match procs (host_at log) !! n with Some p => Some (n, p_start p) | None => pidfd_target fd r end
          else pidfd_target fd r
      | CClose fd' => if fd' =? fd then None else pidfd_target fd r
      | _ => pidfd_target fd r
      end
  end.

(** Calls that neither open nor close a descriptor. *)
Definition keeps (c : call) : Prop := match c with CPidfdOpen _ | CClose _ => False | _ => True end.
Lemma look_keeps c : look c -> keeps c.
Proof. by destruct c. Qed.
Lemma pidfd_target_keeps `{Kernel} fd cs log : Forall keeps cs -> pidfd_target fd (cs ++ log) = pidfd_target fd log.
Proof. induction 1 as [|c cs Hc _ IH]; [done|]. by destruct c; cbn in *. Qed.
Lemma pidfd_target_look `{Kernel} fd cs log : Forall look cs -> pidfd_target fd (cs ++ log) = pidfd_target fd log.
Proof. intros Hcs. apply pidfd_target_keeps. eapply Forall_impl; [done|]. apply look_keeps. Qed.

End Host.
