(* ===== verification/Admission.v ===== *)
(** * Admission of a sandbox: mote/detonate.py and the tracer's attachment

    How the orchestrator decides that the process which says it is the sandbox is
    the process it launched: the readiness message with the credentials the kernel
    attached to it, the two readings of the process table around the opening of a
    pidfd, the stop at the barrier, the attachment of the tracer, and the token
    that lets the sandbox run its payload. *)

From stdpp Require Import base list strings gmap sorting.
From Stdlib Require Import ZArith Lia.
From S2P Require Import Prelude PyValue Json StrOps Evidence JsonLoads Counter Detectors Tracer WorkerSandbox Host.

Local Open Scope Z_scope.

Module Admission.
Import Evidence Host.

Definition READINESS_PROTOCOL : string := "cindermote-sandbox-ready-v1".
Definition CGROUP_LAUNCH_TOKEN : string := "cindermote-cgroup-ready-v1" +:+ chr 10.
Definition SANDBOX_ADMISSION_TOKEN : string := "1".
Definition LEGACY_CGROUP_ROOT : string := "/sys/fs/cgroup/cindermote".

(** ** Errors *)
Definition CGROUP_STAGES : list string :=
  ["create_root"; "create_job"; "write_cpu_max"; "write_memory_max"; "write_memory_swap_max"; "write_pids_max";
   "join_wrapper"; "verify_wrapper_membership"; "verify_wrapper_identity"; "release_wrapper"].
Definition cgroup_error (stage : string) (number : Z) : exn :=
  CgroupOperationError (if mem stage CGROUP_STAGES then stage else "verify_wrapper_identity")
    (if 0 <? number then number else EIO).
(** [CgroupOperationError.evidence] *)
Definition cgroup_evidence (stage : string) (errno : Z) : pyval := VDict [("stage", VStr stage); ("errno", VInt errno)].

Definition SANDBOX_STAGES : list string :=
  ["readiness_absent"; "readiness_not_ready"; "readiness_credentials_missing"; "readiness_identity_malformed";
   "readiness_status_malformed"; "readiness_pid_mismatch"; "readiness_start_time_mismatch"; "sandbox_process_missing";
   "sandbox_pidfd_open"; "sandbox_pidfd_stop"; "sandbox_not_stopped"; "sandbox_ancestry_mismatch";
   "sandbox_cgroup_mismatch"; "sandbox_process_group_mismatch"; "sandbox_session_mismatch"; "wrapper_process_missing";
   "wrapper_identity_changed"; "wrapper_exited"; "wrapper_process_group_mismatch"; "wrapper_session_mismatch";
   "tracer_pid_mismatch"].
Definition sandbox_error (stage : string) : exn :=
  SandboxIdentityError (if mem stage SANDBOX_STAGES then stage else "readiness_identity_malformed").

(** ** The readiness message *)
Record ControlMessage := mk_message {
  status : pydict;
  sender_pid : option Z;
  sender_uid : option Z;
  sender_gid : option Z;
  credentials_valid : bool;
}.

(** [struct.unpack("3i", data)] *)
Definition int32 (a b c d : Z) : Z :=
  let u := a + 256 * (b + 256 * (c + 256 * d)) in if u <? 2 ^ 31 then u else u - 2 ^ 32.
Definition unpack_3i (data : string) : option (Z * Z * Z) :=
  match byte_values data with
  | a :: b :: c :: d :: e :: f :: g :: h :: i :: j :: k :: l :: _ => Some (int32 a b c d, int32 e f g h, int32 i j k l)
  | _ => None
  end.

Definition SOL_SOCKET : Z := 1.
Definition SCM_CREDENTIALS : Z := 2.
Definition MSG_CTRUNC : Z := 8.
Definition MSG_TRUNC : Z := 32.

(** One item of ancillary data: the credentials so far, and whether they are valid. *)
Definition read_credentials (acc : option (Z * Z * Z) * bool) (item : Z * Z * string) : option (Z * Z * Z) * bool :=
  let '(sender, valid) := acc in
  let '(level, message_type, data) := item in
  if negb (level =? SOL_SOCKET) || negb (message_type =? SCM_CREDENTIALS) then acc
  else match sender, unpack_3i data with
       | None, Some s => (Some s, valid)
       | _, _ => (sender, false)
       end.

Definition not_ready (error : string) : pydict := [("ready", VBool false); ("error", VStr error)].

Section control.
Variable parse_float : string -> pyfloat.

(** [_reject_duplicate_json_keys] is the hook of [UniqueKeys]. *)
Definition control_status (raw : string) : pydict :=
  let payload := if endswith (chr 10) raw then String.substring 0 (String.length raw - 1) raw else raw in
  match match decode_json payload with
        | Some text => load_text parse_float UniqueKeys text
        | None => Err (ValueError "UnicodeDecodeError")
        end with
  | Err _ => not_ready "malformed_control_status"
  | Ok (VDict d) => d
  | Ok _ => not_ready "invalid_control_status"
  end.

Definition control_message (a : recv_answer) : ControlMessage :=
  if String.eqb (raw a) "" then mk_message (not_ready "missing_control_status") None None None false
  else
    let '(sender, valid) :=
      foldl read_credentials (None, Z.land (flags a) (Z.lor MSG_CTRUNC MSG_TRUNC) =? 0) (ancillary a) in
    mk_message (control_status (raw a)) (option_map (fun s => fst (fst s)) sender) (option_map (fun s => snd (fst s)) sender)
      (option_map snd sender) (valid && match sender with Some _ => true | None => false end).

Definition _read_control `{Kernel} : io (option ControlMessage) :=
  let! answer := recvmsg in
  match answer with
  | inl e =>
      if e =? EAGAIN then done None
      else done (Some (mk_message (not_ready ("control_read:" +:+ dec e)) None None None false))
  | inr a => done (Some (control_message a))
  end.
End control.

(** ** The claims of the message *)
Definition STATUS_FLAGS : list string :=
  ["namespace_used"; "seccomp_loaded"; "overlay_used"; "mlock_used"; "device_bind_used"].

Definition flag_of (d : pydict) (name : string) : pyval := default VNone (assoc name d).

Definition bad_canary (item : string * pyval) : bool :=
  let '(name, path) := item in
  String.eqb name "" || (64 <? py_len name) || negb (is_str path) || negb (startswith "/" (str_of path))
  || (512 <? py_len (str_of path)).

Definition canaries_malformed (canaries : pyval) : bool :=
  negb (is_dict canaries) || (16 <? Z.of_nat (length (dict_of canaries))) || existsb bad_canary (dict_of canaries).

(** The checks of [_inspect_sandbox_identity] that read only the message: the
    process id and start time it claims. *)
Definition readiness_claim (message : option ControlMessage) : res (Z * Z) :=
  match message with
  | None => Err (sandbox_error "readiness_absent")
  | Some m =>
      raise (sandbox_error "readiness_not_ready") when negb (is_true (flag_of (status m) "ready"));;
      match sender_pid m with
      | None => Err (sandbox_error "readiness_credentials_missing")
      | Some sender =>
          raise (sandbox_error "readiness_credentials_missing") when negb (credentials_valid m);;
          raise (sandbox_error "readiness_status_malformed")
            when existsb (fun name => negb (is_bool (flag_of (status m) name))) STATUS_FLAGS;;
          raise (sandbox_error "readiness_status_malformed") when canaries_malformed (flag_of (status m) "canaries");;
          let claimed := flag_of (status m) "identity" in
          raise (sandbox_error "readiness_identity_malformed")
            when negb (dict_shape claimed ["protocol"; "host_pid"; "start_time_ticks"]);;
          let claimed_pid := flag_of (dict_of claimed) "host_pid" in
          let claimed_start := flag_of (dict_of claimed) "start_time_ticks" in
          raise (sandbox_error "readiness_identity_malformed")
            when negb (py_eq (flag_of (dict_of claimed) "protocol") (VStr READINESS_PROTOCOL))
                 || negb (is_strict_int claimed_pid) || (int_of claimed_pid <=? 0)
                 || negb (is_strict_int claimed_start) || (int_of claimed_start <? 0);;
          raise (sandbox_error "readiness_pid_mismatch") when negb (int_of claimed_pid =? sender);;
          Ok (int_of claimed_pid, int_of claimed_start)
      end
  end.

(** The part of the status that goes into an alert. *)
Definition _control_status_evidence (message : option ControlMessage) : pydict :=
  match message with
  | None => [("ready", VBool false); ("error", VStr "readiness_absent")]
  | Some m =>
      omap (fun name => match flag_of (status m) name with VBool b => Some (name, VBool b) | _ => None end)
        ("ready" :: STATUS_FLAGS)
      ++ omap (fun name => match flag_of (status m) name with VStr s => Some (name, VStr (py_take 128 s)) | _ => None end)
           ["error"; "stage"]
  end.

(** ** The process table *)
Record SandboxAdmission := mk_admission { pid : Z; start_time_ticks : Z; pidfd : Z }.

Section admission.
Context `{Kernel}.

(** [SandboxAdmission.close] *)
Definition close (a : SandboxAdmission) : io unit := if 0 <=? pidfd a then quietly (CClose (pidfd a)) else done tt.

Definition _validate_wrapper_identity (expected : ProcessIdentity) : io ProcessIdentity :=
  let! current := _read_process_identity (Host.pid expected) in
  match current with
  | None => raise_ (sandbox_error "wrapper_process_missing")
  | Some current =>
      throw (sandbox_error "wrapper_identity_changed")
        when negb (Host.start_time_ticks current =? Host.start_time_ticks expected);;
      throw (sandbox_error "wrapper_exited") when mem (state current) ["X"; "Z"];;
      throw (sandbox_error "wrapper_process_group_mismatch") when negb (process_group current =? Host.pid expected);;
      throw (sandbox_error "wrapper_session_mismatch") when negb (session current =? Host.pid expected);;
      done current
  end.

Definition mem_pid (pid : Z) (l : list Z) : bool := existsb (Z.eqb pid) l.

Definition _validate_sandbox_process (pid start_time_ticks : Z) (wrapper : ProcessIdentity) (cgroup : option string)
    (full_root require_stopped : bool) : io ProcessIdentity :=
  _validate_wrapper_identity wrapper ;!
  let! child := _read_process_identity pid in
  match child with
  | None => raise_ (sandbox_error "sandbox_process_missing")
  | Some child =>
      throw (sandbox_error "readiness_start_time_mismatch") when negb (Host.start_time_ticks child =? start_time_ticks);;
      throw (sandbox_error "sandbox_ancestry_mismatch")
        when (if full_root then (Host.pid child =? Host.pid wrapper) || negb (parent_pid child =? Host.pid wrapper)
              else negb (Host.pid child =? Host.pid wrapper));;
      throw (sandbox_error "sandbox_process_group_mismatch") when negb (process_group child =? Host.pid wrapper);;
      throw (sandbox_error "sandbox_session_mismatch") when negb (session child =? Host.pid wrapper);;
      let! members := (if full_root then _cgroup_members cgroup else done ([], true)) in
      throw (sandbox_error "sandbox_cgroup_mismatch")
        when full_root && (negb (snd members) || negb (mem_pid (Host.pid wrapper) (fst members))
                           || negb (mem_pid (Host.pid child) (fst members)));;
      throw (sandbox_error "sandbox_process_missing") when mem (state child) ["X"; "Z"];;
      throw (sandbox_error "sandbox_not_stopped") when require_stopped && negb (mem (state child) ["T"; "t"]);;
      done child
  end.

Definition _inspect_sandbox_identity (message : option ControlMessage) (wrapper : ProcessIdentity) (cgroup : option string)
    (full_root require_stopped : bool) : io SandboxAdmission :=
  let! claim := pure (readiness_claim message) in
  let '(claimed_pid, claimed_start) := claim in
  _validate_sandbox_process claimed_pid claimed_start wrapper cgroup full_root require_stopped ;!
  let! opened := pidfd_open claimed_pid in
  match opened with
  | inl _ => raise_ (sandbox_error "sandbox_pidfd_open")
  | inr fd =>
      let admission := mk_admission claimed_pid claimed_start fd in
      catch (_validate_sandbox_process claimed_pid claimed_start wrapper cgroup full_root require_stopped ;! done admission)
        (fun e => close admission ;! raise_ e)
  end.

(** ** The barrier *)
Definition POLL : Z := 5000000.

(** Until the deadline, every five milliseconds; [fuel] bounds the turns. *)
Fixpoint barrier_loop (fuel : nat) (admission : SandboxAdmission) (wrapper : ProcessIdentity) (cgroup : string) (deadline : Z)
    : io unit :=
  match fuel with
  | O => stuck
  | S fuel =>
      let! now := monotonic in
      if negb (now <? deadline) then raise_ (sandbox_error "sandbox_not_stopped")
      else
        let! stopped := catch
          (_validate_sandbox_process (pid admission) (start_time_ticks admission) wrapper (Some cgroup) true true ;! done true)
          (fun e => if decide (e = sandbox_error "sandbox_not_stopped") then done false else raise_ e) in
        if stopped then done tt
        else sleep POLL ;! barrier_loop fuel admission wrapper cgroup deadline
  end.
Definition _stop_sandbox_at_barrier (fuel : nat) (admission : SandboxAdmission) (wrapper : ProcessIdentity) (cgroup : string)
    (deadline : Z) : io unit :=
  let! sent := effect (CPidfdSignal (pidfd admission) SIGSTOP) in
  match sent with
  | inl _ => raise_ (sandbox_error "sandbox_pidfd_stop")
  | inr _ => barrier_loop fuel admission wrapper cgroup deadline
  end.

(** ** Control groups of a job *)

(** The writes that set the limits, each with the stage it belongs to. *)
Definition cgroup_writes (group : string) (cpu_vcpu ram_mib pids : Z) : list (string * call) :=
  [("create_root", CMkdir LEGACY_CGROUP_ROOT);
   ("create_job", CMkdir group);
   ("write_cpu_max", CWrite (group +:+ "/cpu.max") (dec (100000 * cpu_vcpu) +:+ " 100000" +:+ chr 10));
   ("write_memory_max", CWrite (group +:+ "/memory.max") (dec (ram_mib * 1024 * 1024) +:+ chr 10));
   ("write_memory_swap_max", CWrite (group +:+ "/memory.swap.max") ("0" +:+ chr 10));
   ("write_pids_max", CWrite (group +:+ "/pids.max") (dec pids +:+ chr 10))].
(** The first failure: its stage and errno. *)
Fixpoint run_stages (l : list (string * call)) : io (option (string * Z)) :=
  match l with
  | [] => done None
  | (stage, c) :: r =>
      let! answer := effect c in
      match answer with inl e => done (Some (stage, e)) | inr _ => run_stages r end
  end.
(** [writable] is [cgroup2_mount_writable] of the parent of the root. *)
Definition _setup_cgroup (euid : Z) (writable : bool) (job_id : string) (cpu_vcpu ram_mib pids : Z) : io (option string) :=
  if negb (euid =? 0) then done None
  else
    let group := LEGACY_CGROUP_ROOT +:+ "/" +:+ job_id in
    throw (cgroup_error "create_root" ENODEV) when negb writable;;
    let! failed := run_stages (cgroup_writes group cpu_vcpu ram_mib pids) in
    match failed with
    | None => done (Some group)
    | Some (stage, e) => quietly (CRmdir group) ;! raise_ (cgroup_error stage e)
    end.

Definition _join_cgroup (group : string) (pid : Z) : io unit :=
  let! written := effect (CWrite (group +:+ "/cgroup.procs") (dec pid +:+ chr 10)) in
  match written with
  | inl e => raise_ (cgroup_error "join_wrapper" e)
  | inr _ =>
      let! members := _cgroup_members (Some group) in
      throw (cgroup_error "verify_wrapper_membership" ESRCH) when negb (snd members) || negb (mem_pid pid (fst members));;
      done tt
  end.

End admission.

Definition _isolation_admission_failures (setup_ready : bool) (controls required_controls : list (string * bool)) : list string :=
  sort_strs (remove_dups
    ((if setup_ready then [] else ["sandbox_ready"])
     ++ map fst (List.filter (fun item => snd item && negb (default false (assoc (fst item) controls))) required_controls))).

(** ** What an admission shows of the host *)

Definition alive (p : proc) : Prop := mem (p_state p) ["X"; "Z"] = false.
Definition stopped (p : proc) : Prop := mem (p_state p) ["T"; "t"] = true.

(** The wrapper is the process it was, and leads its own session and group. *)
Definition wrapper_there (wrapper : ProcessIdentity) (h : host) : Prop :=
  exists p, procs h !! Host.pid wrapper = Some p /\ p_start p = Host.start_time_ticks wrapper /\ alive p /\
    p_pgrp p = Host.pid wrapper /\ p_session p = Host.pid wrapper.
(** The sandbox is the process with this start time: the wrapper itself, or with
    [full_root] a child of it, in the wrapper's group and session. *)
Definition sandbox_there (n start : Z) (wrapper : ProcessIdentity) (full_root require_stopped : bool) (h : host) : Prop :=
  exists p, procs h !! n = Some p /\ p_start p = start /\ alive p /\
    p_pgrp p = Host.pid wrapper /\ p_session p = Host.pid wrapper /\
    (if full_root then n <> Host.pid wrapper /\ p_ppid p = Host.pid wrapper else n = Host.pid wrapper) /\
    (require_stopped = true -> stopped p).
Definition confined (n : Z) (wrapper : ProcessIdentity) (cgroup : option string) (h : host) : Prop :=
  exists g l, cgroup = Some g /\ cgroups h !! g = Some l /\ Host.pid wrapper ∈ l /\ n ∈ l.

Record admitted `{Kernel} (log log' : list call) (n start : Z) (wrapper : ProcessIdentity) (cgroup : option string)
    (full_root require_stopped : bool) : Prop := {
  ad_wrapper : during log log' (wrapper_there wrapper);
  ad_sandbox : during log log' (sandbox_there n start wrapper full_root require_stopped);
  ad_cgroup : full_root = true -> during log log' (confined n wrapper cgroup);
}.

Lemma mem_pid_spec n l : mem_pid n l = true <-> n ∈ l.
Proof.
  unfold mem_pid. rewrite existsb_exists, list_elem_of_In. split; [|by eauto with lia].
  intros (x & Hx & ->%Z.eqb_eq). done.
Qed.

Section facts.
Context `{KernelOk}.

Lemma only_validate_wrapper w : only look (_validate_wrapper_identity w).
Proof. unfold _validate_wrapper_identity. only_auto. Qed.
Hint Resolve only_validate_wrapper : calls.
Lemma only_validate_sandbox n start w g full_root require_stopped :
  only look (_validate_sandbox_process n start w g full_root require_stopped).
Proof. unfold _validate_sandbox_process. only_auto. Qed.
Hint Resolve only_validate_sandbox : calls.

Lemma during_last c log log' (P : host -> Prop) : P (host_at (c :: log)) -> c :: log `suffix_of` log' -> during log log' P.
Proof.
  intros HP Hs. exists (c :: log). split_and!; [|by exists [c]|done|done]. intros E%(f_equal length). cbn in E. lia.
Qed.

Lemma validate_wrapper_seen w log i log' : _validate_wrapper_identity w log = Some (Ok i, log') ->
  during log log' (wrapper_there w).
Proof.
  unfold _validate_wrapper_identity. intros Hv. io_inv. case_match; [|done]. io_inv. subst.
  match goal with Hx : _read_process_identity _ _ = _ |- _ => apply read_identity_seen in Hx as (_ & -> & p & Hp & ->) end.
  eapply during_last; [|done]. exists p. unfold identity in *. cbn in *. split_and!; try done; lia.
Qed.

Lemma validate_sandbox_seen n start w g full_root require_stopped log i log' :
  _validate_sandbox_process n start w g full_root require_stopped log = Some (Ok i, log') ->
  admitted log log' n start w g full_root require_stopped.
Proof.
  unfold _validate_sandbox_process. intros Hv. io_inv. case_match; [|done]. io_inv. subst.
  match goal with Hx : _validate_wrapper_identity _ _ = _ |- _ => assert (Hs1 := only_suffix _ _ _ _ _ (only_validate_wrapper w) Hx);
    apply validate_wrapper_seen in Hx as Hw end.
  match goal with Hx : _read_process_identity _ _ = _ |- _ => apply read_identity_seen in Hx as (_ & -> & p & Hp & ->) end.
  match goal with Hx : (if full_root then _ else _) _ = _ |- _ => rename Hx into Hc end.
  set (l1 := x0) in *. cbn [identity Host.start_time_ticks Host.pid parent_pid process_group session state] in *.
  assert (Hs2 : CStat n :: l1 `suffix_of` log').
  { destruct full_root; [|io_inv; by subst]. eapply only_suffix; [apply only_cgroup_members|done]. }
  assert (Hs3 : l1 `suffix_of` log') by (etrans; [by exists [CStat n]|done]). constructor.
  - by eapply during_weaken; [reflexivity|exact Hs3|].
  - eapply during_weaken; [exact Hs1|reflexivity|]. eapply during_last; [|done]. exists p. unfold alive, stopped.
    split_and!; try done; try lia.
    + destruct full_root; lia.
    + intros ->. cbn in *. by apply negb_false_iff.
  - intros ->. cbn in *. apply orb_false_iff in H10 as [[Hk Hm1]%orb_false_iff Hm2].
    destruct x3 as [ms known]. cbn in *. apply negb_false_iff in Hk as ->. apply negb_false_iff, mem_pid_spec in Hm1, Hm2.
    destruct g as [g|]; [|unfold _cgroup_members, done in Hc; simplify_eq; by apply elem_of_nil in Hm1].
    destruct (cgroup_members_seen _ _ _ _ _ Hc Hm1) as (l & -> & Hg & Hl).
    eapply (during_weaken _ (CExists g :: CStat n :: l1)); [etrans; [exact Hs1|by exists [CExists g; CStat n]]|reflexivity|].
    eapply during_last; [|done].
    exists g, l. split_and!; [done|done|by apply Hl..].
Qed.

(** Kernel law: a pid that was given to two processes was given to the later one later. *)
Class PidOrder : Prop := pid_order : forall l l' n p p', l `suffix_of` l' ->
  procs (host_at l) !! n = Some p -> procs (host_at l') !! n = Some p' -> p_start p <= p_start p'.

Lemma readiness_claim_sender message n start : readiness_claim message = Ok (n, start) ->
  exists m, message = Some m /\ credentials_valid m = true /\ sender_pid m = Some n /\ flag_of (status m) "ready" = VBool true.
Proof.
  unfold readiness_claim. destruct message as [m|]; [|done]. destruct (sender_pid m) as [sender|] eqn:Es; intros Hr; run_inv.
  exists m. repeat match goal with Hx : negb _ = false |- _ => apply negb_false_iff in Hx end.
  simplify_eq. split_and!; [done|done| |by apply is_true_spec]. rewrite Es. f_equal. lia.
Qed.

Lemma inspect_pinned `{!PidOrder} message w g full_root require_stopped log a log' :
  _inspect_sandbox_identity message w g full_root require_stopped log = Some (Ok a, log') ->
  readiness_claim message = Ok (pid a, start_time_ticks a) /\
  pidfd_target (pidfd a) log' = Some (pid a, start_time_ticks a) /\
  admitted log log' (pid a) (start_time_ticks a) w g full_root require_stopped.
Proof.
  unfold _inspect_sandbox_identity. intros Hi. io_inv. destruct x as [n start]. io_inv. subst.
  match goal with Hx : _validate_sandbox_process _ _ _ _ _ _ _ = _ |- _ =>
    assert (Hs := only_suffix _ _ _ _ _ (only_validate_sandbox _ _ _ _ _ _) Hx); apply validate_sandbox_seen in Hx as [Hv1 Hv2 Hv3] end.
  unfold pidfd_open in *. simplify_eq. destruct (fails _) eqn:Ef; [done|].
  destruct (procs (host_at (CPidfdOpen n :: _)) !! n) as [po|] eqn:Epo; [|done].
  match goal with Hx : catch _ _ _ = _ |- _ => rename Hx into Hi end.
  apply catch_some in Hi as [(b & [= <-] & Hi)|(e & l & _ & Hi)]; [|by io_inv].
  io_inv. subst. cbn [pid start_time_ticks pidfd]. match goal with Hx : _validate_sandbox_process _ _ _ _ _ _ _ = _ |- _ =>
    destruct (only_validate_sandbox _ _ _ _ _ _ _ _ _ Hx) as (cs & -> & Hcs); apply validate_sandbox_seen in Hx as [Hw1 Hw2 Hw3] end.
  split; [done|]. split.
  - rewrite pidfd_target_look by done. cbn [pidfd_target]. rewrite Ef, bool_decide_true, Z.eqb_refl, Epo by done. cbn.
    destruct Hv2 as (la & _ & _ & Hla & pa & Hpa & Ea & _). destruct Hw2 as (lb & _ & Hlb & _ & pb & Hpb & Eb & _).
    f_equal. f_equal. apply Z.le_antisymm.
    + rewrite <- Eb. exact (pid_order _ _ n _ _ Hlb Epo Hpb).
    + rewrite <- Ea. apply (pid_order la (CPidfdOpen n :: x1) n); [|done..]. etrans; [exact Hla|]. by exists [CPidfdOpen n].
  - assert (Hl : x0 `suffix_of` CPidfdOpen n :: x1) by (etrans; [exact Hs|by exists [CPidfdOpen n]]).
    constructor; [| |intros Hf]; (eapply during_weaken; [exact Hl|reflexivity|]); [done|done|by apply Hw3].
Qed.

(** A failed inspection leaves no descriptor of a process open. *)
Lemma inspect_closes message w g full_root require_stopped log e log' fd :
  0 <= fd -> pidfd_target fd log = None ->
  _inspect_sandbox_identity message w g full_root require_stopped log = Some (Err e, log') -> pidfd_target fd log' = None.
Proof.
  intros Hfd Hlog. assert (Hlook : forall cs l, Forall look cs -> pidfd_target fd l = None -> pidfd_target fd (cs ++ l) = None)
    by (intros; by rewrite pidfd_target_look).
  unfold _inspect_sandbox_identity. intros [(cl & l & Hp & Hi)|(e' & _ & Hp)]%bind_some; unfold pure in Hp; simplify_eq; [|done].
  destruct cl as [n start]. apply bind_some in Hi as [(i & l1 & Hv & Hi)|(e' & _ & Hv)];
    apply only_validate_sandbox in Hv as (cs & -> & Hcs); [|by apply Hlook].
  apply bind_some in Hi as [(o & l1 & Ho & Hi)|(e' & _ & Ho)]; unfold pidfd_open in Ho; simplify_eq.
  assert (Hc := Hlook _ _ Hcs Hlog). set (lo := cs ++ l) in *. destruct (fails (CPidfdOpen n :: lo)) as [|] eqn:Ef.
  { unfold raise_ in Hi. simplify_eq. cbn. by rewrite Ef. }
  destruct (procs (host_at (CPidfdOpen n :: lo)) !! n) as [po|] eqn:Ep.
  2:{ unfold raise_ in Hi. simplify_eq. cbn. rewrite Ep. by destruct (_ && _). }
  apply catch_some in Hi as [(b & [=] & _)|(e' & l2 & Hv & Hi)].
  assert (Hl2 : exists ds, l2 = ds ++ CPidfdOpen n :: lo /\ Forall look ds).
  { apply bind_some in Hv as [(? & ? & _ & [=])|(? & _ & Hv)]. by apply only_validate_sandbox in Hv. }
  destruct Hl2 as (ds & -> & Hds). unfold close in Hi. cbn [pidfd] in Hi.
  destruct (Z.leb_spec 0 (new_fd (CPidfdOpen n :: lo))) as [Hn|Hn].
  - unfold quietly, bind, effect, perform, done, raise_ in Hi. simplify_eq. cbn.
    destruct (Z.eqb_spec (new_fd (CPidfdOpen n :: lo)) fd) as [|Hne]; [done|].
    rewrite pidfd_target_look by done. cbn. by rewrite (proj2 (Z.eqb_neq _ _) Hne), andb_false_r.
  - unfold bind, done, raise_ in Hi. simplify_eq. rewrite pidfd_target_look by done. cbn.
    by rewrite (proj2 (Z.eqb_neq _ _)), andb_false_r by lia.
Qed.

End facts.
End Admission.
