(* ===== verification/Launch.v ===== *)
(** * The launch of a sandbox: mote/detonate.py

    From the started wrapper to the running payload: the wrapper joins the control
    group and gets the launch token, the readiness message is awaited, the sandbox
    is admitted and stopped, the tracer attaches to it, and only then the admission
    token is written.  The theorem says what is known of the host when it is. *)

From stdpp Require Import base list strings gmap sorting.
From Stdlib Require Import ZArith Lia.
From S2P Require Import Prelude PyValue Json StrOps Counter Detectors Tracer Host Admission.

Local Open Scope Z_scope.

Module Launch.
Import Tracer Host Admission.

Definition PTRACE_ATTACH : Z := 16.
Definition PTRACE_SYSCALL : Z := 24.
Definition PTRACE_SETOPTIONS : Z := 16896.
Definition SECOND : Z := 1000000000.

Section launch.
Context `{Kernel} `{Clock}.
Variable parse_float : string -> pyfloat.
(** The turns of every polling loop. *)
Variable fuel : nat.

(** ** The tracer *)
Fixpoint attach_loop (n : nat) (root deadline : Z) : io (Z + unit) :=
  match n with
  | O => stuck
  | S n =>
      let! w := waitpid (CWaitpid root) in
      match w with
      | inl e => done (inl e)
      | inr (waited_pid, status) =>
          if waited_pid =? root then done (if negb (WIFSTOPPED status) then inl ESRCH else inr tt)
          else
            let! now := monotonic in
            if deadline <=? now then done (inl ETIMEDOUT) else sleep POLL ;! attach_loop n root deadline
      end
  end.

(** The next step of a sequence in which an [OSError] ends it. *)
Definition and_then {A B} (m : io (Z + A)) (k : A -> io (Z + B)) : io (Z + B) :=
  let! r := m in match r with inl e => done (inl e) | inr a => k a end.

Definition attach (t : HostTracer) : io (Z + HostTracer) :=
  and_then (effect (CPtrace PTRACE_ATTACH (root_pid t))) (fun _ =>
  let! now := monotonic in
  and_then (attach_loop fuel (root_pid t) (now + 2 * SECOND)) (fun _ =>
  and_then (effect (CPtrace PTRACE_SETOPTIONS (root_pid t))) (fun _ =>
  done (inr (_register_root t))))).
Definition resume_root (t : HostTracer) : io (Z + unit) :=
  if bool_decide (root_pid t ∈ active_pids t) then effect (CPtrace PTRACE_SYSCALL (root_pid t)) else done (inl ESRCH).
(** How a release ended: the tracer as it is then and, when it failed, why, with an
    errno for an [OSError], and whether the descriptor of the token is closed. *)
Inductive released :=
  | Released (t : HostTracer)
  | Unreleased (closed : bool) (why : exn + Z) (t : HostTracer).
Definition begin (t : HostTracer) : io released :=
  let! options := effect (CPtrace PTRACE_SETOPTIONS (root_pid t)) in
  match options with
  | inl e => done (Unreleased false (inr e) t)
  | inr _ =>
      let t := _register_root t in
      let! resumed := resume_root t in
      done (match resumed with inl e => Unreleased false (inr e) t | inr _ => Released t end)
  end.

(** ** The wrapper *)

(** [except SandboxIdentityError] and [except CgroupOperationError] *)
Definition attempt {A} (caught : exn -> bool) (m : io A) : io (exn + A) :=
  catch (let! a := m in done (inr a)) (fun e => if caught e then done (inl e) else raise_ e).
Definition is_sandbox_error (e : exn) : bool := match e with SandboxIdentityError _ => true | _ => false end.
Definition is_launch_error (e : exn) : bool := match e with SandboxIdentityError _ | CgroupOperationError _ _ => true | _ => false end.

Definition close_fd (fd : option Z) : io unit := match fd with Some fd => quietly (CClose fd) | None => done tt end.

(** The wrapper joins the group, is still itself, and is let go. *)
Definition release_wrapper (w : ProcessIdentity) (cgroup : option string) (gate : option Z) (process_pid : Z) : io unit :=
  match cgroup with
  | None => raise_ (cgroup_error "verify_wrapper_membership" ENOENT)
  | Some g =>
      _join_cgroup g process_pid ;!
      _validate_wrapper_identity w ;!
      match gate with
      | None => raise_ (cgroup_error "release_wrapper" EBADF)
      | Some fd =>
          let! n := write_fd fd CGROUP_LAUNCH_TOKEN in
          match n with
          | inl e => raise_ (cgroup_error "release_wrapper" e)
          | inr n =>
              throw (cgroup_error "release_wrapper" EIO) when negb (n =? Z.of_nat (String.length CGROUP_LAUNCH_TOKEN));;
              done tt
          end
      end
  end.

(** [launch_error], or the identity of the wrapper. *)
Definition launch_wrapper (full_root : bool) (cgroup : option string) (gate : option Z) (process_pid : Z)
    : io (exn + ProcessIdentity) :=
  let! wrapper := _read_process_identity process_pid in
  match wrapper with
  | None => done (inl (sandbox_error "wrapper_process_missing"))
  | Some w =>
      let! r := (if full_root
                 then finally (attempt is_launch_error (release_wrapper w cgroup gate process_pid)) (close_fd gate)
                 else attempt is_sandbox_error (_validate_wrapper_identity w ;! done tt)) in
      done (match r with inl e => inl e | inr _ => inr w end)
  end.

(** ** Readiness *)
Definition awaited : Type := option ControlMessage * option SandboxAdmission * option exn.

Definition or_read (message : option ControlMessage) : io (option ControlMessage) :=
  match message with Some m => done (Some m) | None => _read_control parse_float end.

(** The sandbox is admitted and stopped, or its admission is closed again. *)
Definition admit_root (message : option ControlMessage) (w : ProcessIdentity) (cgroup : option string) (deadline : Z) : io awaited :=
  let! r := attempt is_sandbox_error (_inspect_sandbox_identity message w cgroup true false) in
  match r with
  | inl e => done (message, None, Some e)
  | inr admission =>
      let! b := attempt is_sandbox_error
        match cgroup with
        | None => raise_ (sandbox_error "sandbox_cgroup_mismatch")
        | Some g => _stop_sandbox_at_barrier fuel admission w g deadline
        end in
      match b with
      | inl e => close admission ;! done (message, None, Some e)
      | inr _ => done (message, Some admission, None)
      end
  end.

Fixpoint await_root (n : nat) (message : option ControlMessage) (w : ProcessIdentity) (cgroup : option string) (deadline : Z)
    : io awaited :=
  match n with
  | O => stuck
  | S n =>
      let! now := monotonic in
      if negb (now <? deadline) then done (message, None, None)
      else
        let! message := or_read message in
        match message with
        | Some _ => admit_root message w cgroup deadline
        | None =>
            let! v := attempt is_sandbox_error (_validate_wrapper_identity w) in
            match v with
            | inl e => done (None, None, Some e)
            | inr _ => sleep POLL ;! await_root n None w cgroup deadline
            end
        end
  end.

Fixpoint await_user (n : nat) (message : option ControlMessage) (initial_status : option Z) (process_pid deadline : Z)
    : io (option ControlMessage * option Z * option exn) :=
  match n with
  | O => stuck
  | S n =>
      let! now := monotonic in
      if negb (now <? deadline) then done (message, initial_status, None)
      else
        let! message := or_read message in
        let! waited := waitpid (CWaitpid process_pid) in
        match waited with
        | inl e =>
            if e =? ECHILD then done (message, initial_status, Some (sandbox_error "wrapper_exited"))
            else raise_ (OSError "waitpid")
        | inr (waited_pid, status) =>
            let initial_status := if negb (waited_pid =? 0) then Some status else initial_status in
            match message, initial_status with
            | Some _, Some _ => done (message, initial_status, None)
            | _, _ => sleep POLL ;! await_user n message initial_status process_pid deadline
            end
        end
  end.
Definition absent_or_running (message : option ControlMessage) : exn :=
  sandbox_error (match message with None => "readiness_absent" | Some _ => "sandbox_not_stopped" end).
Definition admit_user (process_pid : Z) (w : ProcessIdentity) (deadline : Z) : io awaited :=
  let! a := await_user fuel None None process_pid deadline in
  let '(message, initial_status, error) := a in
  if match message, initial_status with Some _, Some s => WIFSTOPPED s | _, _ => false end
  then
    let! r := attempt is_sandbox_error (_inspect_sandbox_identity message w None false true) in
    done (match r with inl e => (message, None, Some e) | inr admission => (message, Some admission, error) end)
  else done (message, None, Some (default (absent_or_running message) error)).

(** ** What the message and the admission amount to *)
Record setup := mk_setup {
  s_message : option ControlMessage;
  s_admission : option SandboxAdmission;
  s_error : option exn;
  s_controls : list (string * bool);
  s_failures : list string;
  s_tracer : HostTracer;
}.

Definition status_truthy (message : option ControlMessage) (name : string) : bool :=
  match message with Some m => truthy (flag_of (status m) name) | None => false end.
Definition setup_ready (message : option ControlMessage) (admission : option SandboxAdmission) : bool :=
  match admission, message with Some _, Some m => is_true (flag_of (status m) "ready") | _, _ => false end.
Definition controls_of (full_root : bool) (message : option ControlMessage) (admission : option SandboxAdmission)
    : list (string * bool) :=
  [("namespace_used", status_truthy message "namespace_used"); ("seccomp_loaded", status_truthy message "seccomp_loaded");
   ("cgroups_used", full_root && match admission with Some _ => true | None => false end);
   ("mlock_used", status_truthy message "mlock_used")].
Definition _validate_tracer_target (t : HostTracer) (admission : option SandboxAdmission) : res unit :=
  match admission with
  | None => Err (sandbox_error "tracer_pid_mismatch")
  | Some a => raise (sandbox_error "tracer_pid_mismatch") when negb (root_pid t =? pid a);; Ok tt
  end.

(** [make_tracer pid] is the tracer of a root process. *)
Variable make_tracer : Z -> HostTracer.

Definition settle (full_root : bool) (required_controls : list (string * bool)) (process_pid : Z) (a : awaited) : setup :=
  let '(message, admission, error) := a in
  let error := match admission, error with None, None => Some (absent_or_running message) | _, _ => error end in
  let controls := controls_of full_root message admission in
  let t := make_tracer (match admission with Some a => pid a | None => process_pid end) in
  let failures := _isolation_admission_failures (setup_ready message admission) controls required_controls in
  match failures, _validate_tracer_target t admission with
  | [], Err e => mk_setup message admission (Some e) controls (_isolation_admission_failures false controls required_controls) t
  | _, _ => mk_setup message admission error controls failures t
  end.

(** ** The release *)

(** The [try] of the admitted run. *)
Definition release_root (st : setup) (w : ProcessIdentity) (cgroup : option string) (admission_write : option Z) (a : SandboxAdmission)
    : io released :=
  let! attached := attach (s_tracer st) in
  match attached with
  | inl e => done (Unreleased false (inr e) (s_tracer st))
  | inr t =>
      let! valid := attempt is_sandbox_error
        (_validate_sandbox_process (pid a) (Admission.start_time_ticks a) w cgroup true true) in
      match valid, admission_write with
      | inl e, _ => done (Unreleased false (inl e) t)
      | inr _, None => done (Unreleased false (inr EBADF) t)
      | inr _, Some fd =>
          let! n := write_fd fd SANDBOX_ADMISSION_TOKEN in
          match n with
          | inl e => done (Unreleased false (inr e) t)
          | inr n =>
              if negb (n =? Z.of_nat (String.length SANDBOX_ADMISSION_TOKEN)) then done (Unreleased false (inr EIO) t)
              else
                let! closed := effect (CClose fd) in
                match closed with
                | inl e => done (Unreleased false (inr e) t)
                | inr _ =>
                    let! resumed := resume_root t in
                    done (match resumed with inl e => Unreleased true (inr e) t | inr _ => Released t end)
                end
          end
      end
  end.
Definition release (full_root : bool) (st : setup) (w : ProcessIdentity) (cgroup : option string) (admission_write : option Z)
    : io released :=
  match s_admission st with
  | None => done (Unreleased false (inr ESRCH) (s_tracer st))
  | Some a =>
      let! valid := attempt is_sandbox_error
        (_validate_sandbox_process (pid a) (Admission.start_time_ticks a) w cgroup full_root true) in
      match valid, _validate_tracer_target (s_tracer st) (Some a) with
      | inl e, _ | inr _, Err e => done (Unreleased false (inl e) (s_tracer st))
      | inr _, Ok _ => if full_root then release_root st w cgroup admission_write a else begin (s_tracer st)
      end
  end.

(** [trace_error] of the handler. *)
Definition admission_trace_error (e : exn + Z) : string :=
  match e with inl _ => "ptrace_admission:identity" | inr n => "ptrace_admission:" +:+ dec n end.

Inductive launched :=
  | LaunchError (e : exn)
  | NotAdmitted (st : setup)
  | ReleaseFailed (st : setup) (trace_error : string) (t : HostTracer)
  | Running (st : setup) (t : HostTracer).

Definition stage_of (e : option exn) : string :=
  match e with Some (SandboxIdentityError stage) => stage | _ => "readiness_not_ready" end.
Definition failure_details (message : option ControlMessage) (stage : string) (failures : list string) : pyval :=
  VDict [("status", VDict (_control_status_evidence message)); ("readiness", VDict [("stage", VStr stage)]);
         ("failed_requirements", VList (map VStr failures))].

Definition refuse (st : setup) (process_pid : Z) (admission_write : option Z) : io launched :=
  close_fd admission_write ;!
  _write_alert "isolation_setup_failure" (failure_details (s_message st) (stage_of (s_error st)) (s_failures st)) ;!
  quietly (CKillpg process_pid SIGKILL) ;!
  let! waited := waitpid (CWaitpid process_pid) in
  match waited with
  | inl e => if (e =? ECHILD) || (e =? ESRCH) then done (NotAdmitted st) else raise_ (OSError "waitpid")
  | inr _ => done (NotAdmitted st)
  end.
(** The handler closes the descriptor unless the release has closed it. *)
Definition release_failed (st : setup) (process_pid : Z) (admission_write : option Z) (why : exn + Z) (t : HostTracer) : io launched :=
  close_fd admission_write ;!
  _write_alert "isolation_setup_failure" (failure_details (s_message st) "tracer_attach" ["sandbox_ready"]) ;!
  quietly (CKillpg process_pid SIGKILL) ;!
  done (ReleaseFailed st (admission_trace_error why) t).
Definition release_or_kill (full_root : bool) (st : setup) (w : ProcessIdentity) (cgroup : option string) (admission_write : option Z)
    (process_pid : Z) : io launched :=
  let! r := release full_root st w cgroup admission_write in
  match r with
  | Released t => done (Running st t)
  | Unreleased closed why t => release_failed st process_pid (if closed then None else admission_write) why t
  end.

Definition launch (full_root : bool) (required_controls : list (string * bool)) (wall_clock_sec process_pid : Z)
    (cgroup : option string) (gate admission_write : option Z) : io launched :=
  let! l := launch_wrapper full_root cgroup gate process_pid in
  match l with
  | inl e =>
      let! closed := (match admission_write with Some fd => effect (CClose fd) | None => done (inr tt) end) in
      match closed with inl _ => raise_ (OSError "close") | inr _ => done (LaunchError e) end
  | inr w =>
      let! now := monotonic in
      let deadline := now + Z.min 10 wall_clock_sec * SECOND in
      let! a := (if full_root then await_root fuel None w cgroup deadline else admit_user process_pid w deadline) in
      let st := settle full_root required_controls process_pid a in
      match s_failures st with
      | _ :: _ => refuse st process_pid admission_write
      | [] => release_or_kill full_root st w cgroup admission_write process_pid
      end
  end.

End launch.
End Launch.
