(* ===== verification/LaunchFacts.v ===== *)
(** * Who is let run: facts about the launch of a sandbox

    The admission token is written only for a process that sent the readiness
    message itself, that a pidfd pins, that the tracer is attached to and that was
    found, after the attachment, stopped in the wrapper's group, session and
    control group. *)

From stdpp Require Import base list strings gmap sorting.
From Stdlib Require Import ZArith Lia.
From S2P Require Import Prelude PyValue Json StrOps Counter Detectors Tracer WorkerSandbox Host Admission Launch.

Local Open Scope Z_scope.

Module LaunchFacts.
Import Tracer Host Admission Launch.

(** Every call but the writing of the admission token. *)
Definition quiet (c : call) : Prop := match c with CWriteFd _ d => d <> SANDBOX_ADMISSION_TOKEN | _ => True end.

Lemma look_quiet c : look c -> quiet c.
Proof. by destruct c. Qed.

Section facts.
Context `{KernelOk} `{!PidOrder} `{Clock}.
Variables (parse_float : string -> pyfloat) (fuel : nat) (make_tracer : Z -> HostTracer).

Lemma quiet_look {A} (m : io A) : only look m -> only quiet m.
Proof. apply only_weaken, look_quiet. Qed.
Lemma keeps_look {A} (m : io A) : only look m -> only keeps m.
Proof. apply only_weaken, look_keeps. Qed.
Hint Resolve quiet_look keeps_look only_validate_wrapper only_validate_sandbox : calls.

Lemma only_attempt {A} P caught (m : io A) : only P m -> only P (attempt caught m).
Proof. intros Hm. unfold attempt. only_auto. Qed.
Lemma only_alert (P : call -> Prop) reason d : P (CAlert reason d) -> only P (_write_alert reason d).
Proof. intros Hp. unfold _write_alert. apply only_bind; [by apply only_effect|]. intros []; auto with calls. Qed.
Hint Extern 1 (only _ (_write_alert _ _)) => (apply only_alert; exact I) : calls.
Hint Resolve only_attempt : calls.

(** ** The parts before the release *)
Lemma quiet_inspect message w g full_root require_stopped :
  only quiet (_inspect_sandbox_identity message w g full_root require_stopped).
Proof.
  unfold _inspect_sandbox_identity. apply only_bind; [auto with calls|]. intros [n start]. only_auto.
  by apply only_log. unfold close. only_auto.
Qed.

Lemma keeps_barrier_loop n a w g deadline : only look (barrier_loop n a w g deadline).
Proof. induction n as [|n IH]; cbn; only_auto. Qed.
Hint Resolve keeps_barrier_loop : calls.
Lemma keeps_barrier a w g deadline : only keeps (_stop_sandbox_at_barrier fuel a w g deadline).
Proof. unfold _stop_sandbox_at_barrier. only_auto. Qed.
Lemma quiet_barrier a w g deadline : only quiet (_stop_sandbox_at_barrier fuel a w g deadline).
Proof. unfold _stop_sandbox_at_barrier. only_auto. Qed.
Hint Resolve quiet_inspect quiet_barrier : calls.

Lemma quiet_await_root n : forall message w g deadline, only quiet (await_root parse_float fuel n message w g deadline).
Proof.
  induction n as [|n IH]; intros message w g deadline; cbn; [auto with calls|]. unfold or_read, _read_control, admit_root, close. only_auto.
Qed.

Lemma attempt_done {A} caught (m : io A) log r log' : attempt caught m log = Some (Ok (inr r), log') -> m log = Some (Ok r, log').
Proof.
  unfold attempt. intros [(x & [= <-] & Hb)|(e & l & _ & Hc)]%catch_some; [io_inv; by simplify_eq|].
  destruct (caught e); unfold done, raise_ in Hc; by simplify_eq.
Qed.

Lemma await_root_pinned n : forall message w g deadline log m a e log',
  await_root parse_float fuel n message w g deadline log = Some (Ok (m, Some a, e), log') ->
  readiness_claim m = Ok (pid a, Admission.start_time_ticks a) /\
  pidfd_target (pidfd a) log' = Some (pid a, Admission.start_time_ticks a).
Proof.
  induction n as [|n IH]; intros message w g deadline log m a e log'; cbn; [done|]. intros Ha. io_inv.
  destruct (negb _); [io_inv; by simplify_eq|]. io_inv. case_match; [|io_inv; case_match; io_inv; [by simplify_eq|by eauto]].
  unfold admit_root in *. io_inv. case_match; [io_inv; by simplify_eq|]. io_inv. case_match; [io_inv; by simplify_eq|].
  io_inv. simplify_eq. repeat match goal with Hx : attempt _ _ _ = Some (Ok (inr _), _) |- _ => apply attempt_done in Hx end.
  match goal with Hx : _inspect_sandbox_identity _ _ _ _ _ _ = _ |- _ => apply inspect_pinned in Hx as (Hc & Ht & _) end.
  split; [done|]. rewrite <- Ht. destruct g as [g|]; [|done].
  match goal with Hx : _stop_sandbox_at_barrier _ _ _ _ _ _ = _ |- _ => apply keeps_barrier in Hx as (cs & -> & Hcs) end.
  by apply pidfd_target_keeps.
Qed.

(** ** The release *)
Lemma keeps_attach_loop (P : call -> Prop) n root deadline :
  (forall c, look c -> P c) -> P (CWaitpid root) -> only P (attach_loop n root deadline).
Proof.
  intros Hl Hw. assert (Hm := only_look P _ Hl only_monotonic). assert (Hs := fun n => only_look P _ Hl (only_sleep n)).
  induction n as [|n IH]; cbn; [apply only_stuck|]. apply only_bind; [by apply only_waitpid|]. intros. only_auto.
Qed.

Lemma only_attach (P : call -> Prop) t : (forall c, look c -> P c) -> P (CWaitpid (root_pid t)) ->
  (forall r, P (CPtrace r (root_pid t))) -> only P (attach fuel t).
Proof.
  intros Hl Hw Hp. unfold attach, and_then. assert (Hm := only_look P _ Hl only_monotonic).
  assert (Ha := fun n d => keeps_attach_loop P n (root_pid t) d Hl Hw). assert (He := fun r => only_effect P _ (Hp r)). only_auto.
Qed.

Lemma attach_attached t log t' log' : attach fuel t log = Some (Ok (inr t'), log') ->
  CPtrace PTRACE_ATTACH (root_pid t) :: log `suffix_of` log' /\ fails (CPtrace PTRACE_ATTACH (root_pid t) :: log) = None.
Proof.
  unfold attach, and_then. intros Ha. apply bind_done in Ha as (r & l & He & Ha). unfold effect, perform in He. simplify_eq.
  destruct (fails _) as [e|]; [unfold done in Ha; by simplify_eq|]. split; [|done].
  eapply only_suffix with (P := fun _ => True); [|exact Ha]. apply only_bind; [by eapply only_look, only_monotonic|]. intros now.
  apply only_bind; [by apply keeps_attach_loop|]. intros x. destruct x; [apply only_done|]. apply only_bind; [by apply only_effect|].
  intros x. destruct x; apply only_done.
Qed.

(** Either no token is written, or it is written at [l2], after a second validation
    that began at [l1] with the tracer attached. *)
Definition token_written (fd root : Z) (a : SandboxAdmission) (w : ProcessIdentity) (g : option string) (log log' : list call) : Prop :=
  exists l1 l2 cs, CPtrace PTRACE_ATTACH root :: log `suffix_of` l1 /\ fails (CPtrace PTRACE_ATTACH root :: log) = None /\
    admitted l1 l2 (pid a) (Admission.start_time_ticks a) w g true true /\
    l2 = cs ++ log /\ Forall keeps cs /\ CWriteFd fd SANDBOX_ADMISSION_TOKEN :: l2 `suffix_of` log'.

Lemma release_root_token st w g fd a log r log' : release_root fuel st w g (Some fd) a log = Some (r, log') ->
  (exists cs, log' = cs ++ log /\ Forall quiet cs) \/ token_written fd (root_pid (s_tracer st)) a w g log log'.
Proof.
  assert (Hq : only quiet (attach fuel (s_tracer st))) by (apply only_attach; [apply look_quiet|done..]).
  assert (Hk : only keeps (attach fuel (s_tracer st))) by (apply only_attach; [apply look_keeps|done..]).
  unfold release_root. intros [(at_ & l1 & Ha & Hr)|(e & _ & Ha)]%bind_some; [|left; by eapply Hq].
  assert (Ha2 := Ha). apply Hq in Ha as (cs & -> & Hcs). destruct at_ as [e|t]; [left; unfold done in Hr; simplify_eq; by exists cs|].
  apply Hk in Ha2 as Hk1. destruct Hk1 as (cs' & Ecs & Hcs'). apply app_inv_tail in Ecs as <-. apply attach_attached in Ha2 as [Hs Hf].
  assert (Hla : only look (attempt is_sandbox_error (_validate_sandbox_process (pid a) (Admission.start_time_ticks a) w g true true)))
    by (apply only_attempt, only_validate_sandbox).
  assert (Hleft : forall ds, Forall look ds -> exists ks, ds ++ cs ++ log = ks ++ log /\ Forall quiet ks).
  { intros ds Hds. exists (ds ++ cs). split; [by rewrite app_assoc|]. apply Forall_app; split; [|done].
    eapply Forall_impl; [exact Hds|apply look_quiet]. }
  apply bind_some in Hr as [(v & l2 & Hv & Hr)|(e & _ & Hv)].
  2:{ left. apply Hla in Hv as (ds & -> & Hds). auto. }
  destruct (Hla _ _ _ Hv) as (ds & -> & Hds). destruct v as [e|i]; [left; unfold done in Hr; simplify_eq; auto|].
  right. apply attempt_done, validate_sandbox_seen in Hv as Had.
  exists (cs ++ log), (ds ++ cs ++ log), (ds ++ cs). split_and!; [done|done|done|by rewrite app_assoc| |].
  { apply Forall_app; split; [|done]. eapply Forall_impl; [exact Hds|apply look_keeps]. }
  apply bind_some in Hr as [(n & l3 & Hn & Hr)|(e & _ & Hn)]; unfold write_fd in Hn; simplify_eq.
  eapply only_suffix with (P := fun _ => True); [|exact Hr]. unfold resume_root. repeat (only_auto; first [by apply only_effect|idtac]).
Qed.

Lemma failures_none ready controls required : _isolation_admission_failures ready controls required = [] ->
  ready = true /\ forall name, In (name, true) required -> assoc name controls = Some true.
Proof.
  unfold _isolation_admission_failures. intros Hf.
  assert (Hn : forall x, ~ In x ((if ready then [] else ["sandbox_ready"]) ++ map fst (List.filter
      (fun item : string * bool => snd item && negb (default false (assoc (fst item) controls))) required))).
  { intros x Hx. assert (Hy : x ∈ @nil string); [|by apply elem_of_nil in Hy].
    rewrite <- Hf, sort_strs_perm, elem_of_remove_dups. by apply list_elem_of_In. }
  split.
  - destruct ready; [done|]. destruct (Hn "sandbox_ready"). by left.
  - intros name Hin. destruct (default false (assoc name controls)) eqn:Ed; [by destruct (assoc name controls) as [[]|]|].
    destruct (Hn name). apply in_app_iff. right. apply in_map_iff. exists (name, true). split; [done|].
    apply filter_In. split; [done|]. cbn. by destruct (assoc name controls) as [[]|].
Qed.

Lemma quiet_launch_wrapper g gate n : only quiet (launch_wrapper true g gate n).
Proof.
  unfold launch_wrapper, release_wrapper, _join_cgroup, close_fd. only_auto. by apply only_log.
Qed.

Lemma only_split {A} (m : io A) log r log' fd : only quiet m -> m log = Some (r, log') ->
  forall cs, log' = cs ++ log -> ~ In (CWriteFd fd SANDBOX_ADMISSION_TOKEN) cs.
Proof.
  intros Hm (ds & -> & Hds)%Hm cs <-%app_inv_tail Hin. rewrite Forall_forall in Hds. by apply list_elem_of_In, Hds in Hin.
Qed.

Lemma quiet_extends {A} (m : io A) : only quiet m -> extends m.
Proof. apply extends_only. Qed.

(** The token of a sequence comes from its second part, or from its first. *)
Lemma token_second {A B} fd (m : io A) (k : A -> io B) log r cs : only quiet m -> (forall a, extends (k a)) ->
  bind m k log = Some (r, cs ++ log) -> In (CWriteFd fd SANDBOX_ADMISSION_TOKEN) cs ->
  exists a ds es, m log = Some (Ok a, ds ++ log) /\ k a (ds ++ log) = Some (r, es ++ ds ++ log) /\ cs = es ++ ds /\
    In (CWriteFd fd SANDBOX_ADMISSION_TOKEN) es.
Proof.
  intros Hm Hk [(a & l & Ha & Hb)|(e & -> & Ha)]%bind_some Hin; [|by destruct (only_split m _ _ _ fd Hm Ha cs)].
  assert (Ha2 := Ha). apply Hm in Ha2 as (ds & -> & _). assert (Hb2 := Hb). apply Hk in Hb2 as (es & E & _).
  rewrite app_assoc in E. apply app_inv_tail in E as ->. exists a, ds, es. rewrite <- app_assoc in Hb. split_and!; [done..|].
  apply in_app_iff in Hin as [|Hin]; [done|]. by destruct (only_split m _ _ _ fd Hm Ha ds).
Qed.

Lemma token_first {A B} fd (m : io A) (k : A -> io B) log r cs : extends m -> (forall a, only quiet (k a)) ->
  bind m k log = Some (r, cs ++ log) -> In (CWriteFd fd SANDBOX_ADMISSION_TOKEN) cs ->
  exists r' ds es, m log = Some (r', ds ++ log) /\ cs = es ++ ds /\ In (CWriteFd fd SANDBOX_ADMISSION_TOKEN) ds.
Proof.
  intros Hm Hk [(a & l & Ha & Hb)|(e & -> & Ha)]%bind_some Hin; [|by exists (Err e), cs, []].
  assert (Ha2 := Ha). apply Hm in Ha2 as (ds & -> & _). assert (Hb2 := Hb). apply Hk in Hb2 as (es & E & _).
  rewrite app_assoc in E. apply app_inv_tail in E as ->. exists (Ok a), ds, es. split_and!; [done..|].
  apply in_app_iff in Hin as [Hin|]; [|done]. rewrite <- app_assoc in Hb. by destruct (only_split _ _ _ _ fd (Hk a) Hb es).
Qed.

Lemma attempt_runs {A} caught (m : io A) log r log' : attempt caught m log = Some (r, log') -> exists r', m log = Some (r', log').
Proof.
  unfold attempt. intros [(x & -> & Hb)|(e & l & Hb & Hc)]%catch_some.
  - io_inv. subst. eauto.
  - apply bind_some in Hb as [(? & ? & _ & [=])|(e' & [= <-] & Hb)]. destruct (caught e); unfold done, raise_ in Hc; simplify_eq; eauto.
Qed.

Lemma extends_release st w g fd : extends (release fuel true st w g fd).
Proof.
  unfold release, release_root, resume_root.
  assert (Hv := fun n st w g f r => only_attempt _ is_sandbox_error _ (quiet_extends _ (quiet_look _ (only_validate_sandbox n st w g f r)))).
  assert (He := fun c => only_effect (fun _ => True) c I).
  assert (Ha : forall t, extends (attach fuel t)) by (intros; by apply only_attach).
  only_auto. by apply only_log.
Qed.

Lemma quiet_refuse st n fd : only quiet (refuse st n fd).
Proof. unfold refuse, close_fd. only_auto. Qed.
Lemma quiet_release_failed st n fd e t : only quiet (release_failed st n fd e t).
Proof. unfold release_failed, close_fd. only_auto. Qed.

Lemma launch_wrapper_pid g gate n log w log' : launch_wrapper true g gate n log = Some (Ok (inr w), log') -> Host.pid w = n.
Proof.
  unfold launch_wrapper. intros Hl. io_inv. case_match; [|io_inv; by simplify_eq]. io_inv. case_match; simplify_eq.
  by match goal with Hx : _read_process_identity _ _ = _ |- _ => apply read_identity_seen in Hx as (_ & _ & ? & _ & ->) end.
Qed.

(** The setup without failures has an admission, and its tracer's target is it. *)
Lemma settle_admitted required n (aw : awaited) :
  s_failures (settle make_tracer true required n aw) = [] ->
  exists m a e, aw = (Some m, Some a, e) /\ s_admission (settle make_tracer true required n aw) = Some a /\
    s_tracer (settle make_tracer true required n aw) = make_tracer (pid a) /\
    forall name, In (name, true) required -> assoc name (controls_of true (Some m) (Some a)) = Some true.
Proof.
  destruct aw as [[m a] e]. unfold settle.
  destruct (_isolation_admission_failures _ _ _) eqn:Ef; [|done].
  apply failures_none in Ef as [Hr Hc]. destruct a as [a|], m as [m|]; try done.
  case_match; cbn [s_failures s_admission s_tracer]; [|by intros [[=] _]%failures_none]. intros _. eauto 10.
Qed.

Lemma extends_release_or_kill st w g fd n : extends (release_or_kill fuel true st w g fd n).
Proof.
  unfold release_or_kill. assert (Hr := extends_release st w g fd).
  assert (Hf := fun fd e t => quiet_extends _ (quiet_release_failed st n fd e t)). only_auto.
Qed.

Lemma release_or_kill_token st w g fd n a log r cs : s_admission st = Some a ->
  release_or_kill fuel true st w g (Some fd) n log = Some (r, cs ++ log) -> In (CWriteFd fd SANDBOX_ADMISSION_TOKEN) cs ->
  root_pid (s_tracer st) = pid a /\
  exists ds, Forall look ds /\ token_written fd (pid a) a w g (ds ++ log) (cs ++ log).
Proof.
  intros Ha Hr Hin. unfold release_or_kill in Hr. apply (token_first fd) in Hr as (r' & ds & es & Hr & -> & Hin'); [| | |done].
  2:{ apply extends_release. } 2:{ assert (Hf := fun fd e t => quiet_release_failed st n fd e t). intros. only_auto. }
  unfold release in Hr. rewrite Ha in Hr. clear Hin r.
  assert (Hla := only_attempt look is_sandbox_error _ (only_validate_sandbox (pid a) (Admission.start_time_ticks a) w g true true)).
  assert (Hlq := quiet_look _ Hla).
  apply bind_some in Hr as [(v & l & Hv & Hr)|(e & _ & Hv)]; [|by destruct (only_split _ _ _ _ fd Hlq Hv ds)].
  assert (Hv2 := Hv). apply Hla in Hv2 as (vs & -> & Hlook). apply Hlq in Hv as (vs' & E & Hq). apply app_inv_tail in E as <-.
  assert (Hno : forall x, done x (vs ++ log) = Some (r', ds ++ log) -> False).
  { intros x Hx. unfold done in Hx. injection Hx as _ E%app_inv_tail. subst ds. rewrite Forall_forall in Hq. by apply list_elem_of_In, Hq in Hin'. }
  destruct v as [e|i]; [by destruct (Hno _ Hr)|]. destruct (_validate_tracer_target (s_tracer st) (Some a)) as [[]|e] eqn:Et; [|by destruct (Hno _ Hr)].
  assert (Hroot : root_pid (s_tracer st) = pid a).
  { unfold _validate_tracer_target in Et. run_inv. lia. }
  split; [done|]. exists vs. split; [done|]. apply release_root_token in Hr as [(ks & E & Hks)|Ht].
  - rewrite app_assoc in E. apply app_inv_tail in E as ->. rewrite in_app_iff, <- !list_elem_of_In in Hin'.
    rewrite Forall_forall in Hq, Hks. by destruct Hin' as [Hx%Hks|Hx%Hq].
  - rewrite Hroot in Ht. destruct Ht as (l1 & l2 & ks & Hs & Hf & Had & -> & Hks & Hsuf). exists l1, (ks ++ vs ++ log), ks.
    split_and!; try done. etrans; [exact Hsuf|]. exists es. by rewrite app_assoc.
Qed.

(** C4: A sandbox is let run only when it is the process it says it is.  Whatever the
    rest of the host does meanwhile, if the launch in full-root mode writes the
    admission token, then the readiness message carries valid kernel credentials of
    the very pid it claims, every required control is reported, a pidfd is open that
    refers to the process with the claimed pid and start time, the tracer has
    attached to that pid, and after the attachment and before the token the wrapper
    and the sandbox were seen alive with their start times in the wrapper's group and
    session, the sandbox stopped and a child of the wrapper, both in the job's
    control group. *)
Theorem token_only_for_pinned
    (required : list (string * bool)) (wall_clock_sec process_pid : Z) (g : option string) (gate : option Z) (fd : Z)
    (log cs : list call) (r : res launched) :
  launch parse_float fuel make_tracer true required wall_clock_sec process_pid g gate (Some fd) log = Some (r, cs ++ log) ->
  In (CWriteFd fd SANDBOX_ADMISSION_TOKEN) cs ->
  exists m a w l1 l2,
    readiness_claim (Some m) = Ok (pid a, Admission.start_time_ticks a) /\
    credentials_valid m = true /\ sender_pid m = Some (pid a) /\
    (forall name, In (name, true) required -> assoc name (controls_of true (Some m) (Some a)) = Some true) /\
    log `suffix_of` l1 /\ In (CPtrace PTRACE_ATTACH (pid a)) l1 /\
    pidfd_target (pidfd a) l2 = Some (pid a, Admission.start_time_ticks a) /\
    Host.pid w = process_pid /\
    admitted l1 l2 (pid a) (Admission.start_time_ticks a) w g true true /\
    CWriteFd fd SANDBOX_ADMISSION_TOKEN :: l2 `suffix_of` cs ++ log.
Proof.
  unfold launch. intros Hl Hin. assert (Hrk := extends_release_or_kill). assert (Hrf := fun st n fd => quiet_extends _ (quiet_refuse st n fd)).
  assert (Haw := fun w g d => quiet_extends _ (quiet_await_root fuel None w g d)). assert (Hmo := quiet_extends _ (quiet_look _ only_monotonic)).
  apply (token_second fd) in Hl as (lw & d1 & c1 & Hw & Hl & -> & Hin1); [|apply quiet_launch_wrapper| |done].
  2:{ intros [e|w]; [|only_auto]. apply quiet_extends. only_auto. }
  destruct lw as [e|w].
  { exfalso. refine (only_split _ _ _ _ fd _ Hl c1 eq_refl Hin1). only_auto. }
  apply launch_wrapper_pid in Hw as Hwp.
  apply (token_second fd) in Hl as (now & d2 & c2 & Hm & Hl & -> & Hin2); [|apply quiet_look, only_monotonic| |done].
  2:{ intros now. only_auto. }
  apply (token_second fd) in Hl as (aw & d3 & c3 & Ha & Hl & -> & Hin3); [|apply quiet_await_root| |done].
  2:{ intros aw. only_auto. }
  destruct (s_failures _) eqn:Ef; [|by destruct (only_split _ _ _ _ fd (quiet_refuse _ _ _) Hl c3)].
  apply settle_admitted in Ef as (m & a & e & -> & Hsa & Hst & Hreq).
  apply await_root_pinned in Ha as [Hclaim Hpin]. apply readiness_claim_sender in Hclaim as Hs. destruct Hs as (m' & [= <-] & Hcv & Hsp & _).
  destruct (release_or_kill_token _ _ _ _ _ a _ _ _ Hsa Hl Hin3) as (_ & vs & Hvs & l1 & l2 & ks & Hat & _ & Had & -> & Hks & Hsuf).
  exists m, a, w, l1, (ks ++ vs ++ d3 ++ d2 ++ d1 ++ log). rewrite <- !app_assoc. split_and!; try done.
  - etrans; [|exact Hat]. exists (CPtrace PTRACE_ATTACH (pid a) :: vs ++ d3 ++ d2 ++ d1). cbn. by rewrite <- !app_assoc.
  - destruct Hat as [k ->]. apply in_app_iff. right. by left.
  - rewrite pidfd_target_keeps, pidfd_target_look by done. done.
Qed.


End facts.
(** ** A launch on a concrete host *)
Definition mid : list string := replicate 15 "0".
Definition sample_host : host := mk_host
  {[100 := mk_proc "unshare" "S" 50 100 100 mid 500 ""; 101 := mk_proc "py (x) T" "T" 100 100 100 mid 501 " 0 0"]}
  ["self"] {["/sys/fs/cgroup/cindermote/mf-run-1" := [100; 101]]} ∅ [].

Definition sample_credentials : string :=
  String (ascii_of 101) (String.concat "" (replicate 11 (chr 0))).
Definition sample_status : string :=
  dumps (fun _ => "") (VDict
    [("ready", VBool true); ("namespace_used", VBool true); ("seccomp_loaded", VBool true); ("overlay_used", VBool true);
     ("mlock_used", VBool true); ("device_bind_used", VBool true); ("canaries", VDict [("canary_file", VStr "/home/mote/c.txt")]);
     ("identity", VDict [("protocol", VStr READINESS_PROTOCOL); ("host_pid", VInt 101); ("start_time_ticks", VInt 501)])]).

(** Nothing fails, the clock stands still, and every wait reports the sandbox stopped. *)
Definition sample_kernel : Kernel := {|
  host_at _ := sample_host;
  fails _ := None;
  clock _ := 0;
  waited _ := (101, 4991);
  new_fd _ := 7;
  wrote log := match log with CWriteFd _ d :: _ => Z.of_nat (String.length d) | _ => 0 end;
  received _ := mk_recv (sample_status +:+ chr 10) [(1, 2, sample_credentials)] 0;
  ready _ := [];
  chunk _ := "";
|}.

Lemma sample_host_ok : host_ok sample_host.
Proof.
  constructor.
  - intros n p Hp. unfold sample_host in Hp. cbn [procs] in Hp.
    apply lookup_insert_Some in Hp as [[<- <-]|[_ Hp]]; [|apply lookup_singleton_Some in Hp as [<- <-]];
      (split; [lia|]); constructor; cbn; unfold WorkerSandbox.is_pid, is_word; try lia; try done.
    all: try (split; [done|]; repeat constructor; done).
    all: try (split; [done|by right]). all: split; [done|by left].
  - by repeat constructor.
  - intros g l Hl. unfold sample_host in Hl. cbn [cgroups] in Hl. apply lookup_singleton_Some in Hl as [_ <-]. repeat constructor; unfold WorkerSandbox.is_pid; lia.
Qed.

Definition unit_clock : Clock := {| instant := unit; older_than_second _ _ := false; within_five _ _ := true |}.
#[local] Existing Instance sample_kernel.
#[local] Existing Instance unit_clock.
#[local] Instance sample_kernel_ok : KernelOk.
Proof. intros log. exact sample_host_ok. Qed.
#[local] Instance sample_order : PidOrder.
Proof. intros l l' n p p' _ Hp Hp'. cbn in *. rewrite Hp in Hp'. injection Hp' as ->. done. Qed.

Definition sample_tracer (n : Z) : HostTracer := new_tracer n (Detectors.new_engine 10 0%N) tt.
Definition sample_launch : option (res launched * list call) :=
  launch (fun _ => FNan) 3 sample_tracer true [("namespace_used", true); ("cgroups_used", true)] 60 100
    (Some "/sys/fs/cgroup/cindermote/mf-run-1") (Some 5) (Some 6) [].
Definition sample_calls : list call := Eval vm_compute in match sample_launch with Some (_, l) => l | None => [] end.
Definition sample_result : res launched := match sample_launch with Some (r, _) => r | None => Err TypeError end.

Lemma token_only_for_pinned_witness : exists a l2,
  pidfd_target (pidfd a) l2 = Some (pid a, Admission.start_time_ticks a) /\
  CWriteFd 6 SANDBOX_ADMISSION_TOKEN :: l2 `suffix_of` sample_calls ++ [].
Proof.
  destruct (token_only_for_pinned (fun _ => FNan) 3 sample_tracer [("namespace_used", true); ("cgroups_used", true)] 60 100
    (Some "/sys/fs/cgroup/cindermote/mf-run-1") (Some 5) 6 [] sample_calls sample_result) as (m & a & w & l1 & l2 & Hx).
  - vm_compute. reflexivity.
  - vm_compute. tauto.
  - exists a, l2. tauto.
Defined.

End LaunchFacts.
