(* ===== verification/Cleanup.v ===== *)
(** * Cleanup of a detonation: mote/detonate.py

    The removal of what a job left on the host and the check, from outside, that
    nothing remains: the processes of its group, those it tracked and those in its
    control group, the group itself, the mounts under the job directory and the
    directory.  The report says that everything is gone only when it is. *)

From stdpp Require Import base list strings gmap sorting.
From Stdlib Require Import ZArith Lia.
From S2P Require Import Prelude PyValue Json JsonFacts StrOps Evidence Detectors PyRepr WorkerSandbox Host.

Local Open Scope Z_scope.

Module Cleanup.
Import Evidence WorkerSandbox Host.

(** ** The mount table *)

(** [\ooo] for three octal digits *)
Definition octal (c : Ascii.ascii) : bool := in_range 48 55 (byte_of c).
Fixpoint _mountinfo_unescape (s : string) : string :=
  match s with
  | EmptyString => ""
  | String a r =>
      match r with
      | String x (String y (String z t)) =>
          if ch 92 a && octal x && octal y && octal z
          then utf8 (64 * (byte_of x - 48) + 8 * (byte_of y - 48) + (byte_of z - 48)) +:+ _mountinfo_unescape t
          else String a (_mountinfo_unescape r)
      | _ => String a (_mountinfo_unescape r)
      end
  end.

(** The kernel's escapes of blank, tab, newline and backslash. *)
Definition octal_digit (z : Z) : Ascii.ascii := ascii_of (48 + z).
Fixpoint escape_mount (s : string) : string :=
  match s with
  | EmptyString => ""
  | String a r =>
      let b := byte_of a in
      if existsb (fun z => b =? z) [32; 9; 10; 92]
      then String (ascii_of 92) (String (octal_digit (b / 64)) (String (octal_digit (b / 8 mod 8)) (String (octal_digit (b mod 8))
             (escape_mount r))))
      else String a (escape_mount r)
  end.

(** [text.split()] of any text *)
Fixpoint ufields_from (l : list string) : string * list string :=
  match l with
  | [] => ("", [])
  | c :: r =>
      let '(f, fs) := ufields_from r in
      if white c then ("", if String.eqb f "" then fs else f :: fs) else (c +:+ f, fs)
  end.
Definition ufields (s : string) : list string :=
  let '(f, fs) := ufields_from (py_chars s) in if String.eqb f "" then fs else f :: fs.

(** [text.split(p, 1)[0]] *)
Fixpoint before (p s : string) : string :=
  if startswith p s then "" else match s with EmptyString => "" | String a r => String a (before p r) end.

(** [mountpoint == job_dir or job_dir in mountpoint.parents] of paths *)
Fixpoint prefix_of (l m : list string) : bool :=
  match l, m with
  | [], _ => true
  | a :: l, b :: m => String.eqb a b && prefix_of l m
  | _, [] => false
  end.
Definition plain_root (p : string) : bool := startswith "/" p && negb (startswith "//" p && negb (startswith "///" p)).
Definition inside (job_dir mountpoint : string) : bool :=
  plain_root mountpoint && prefix_of (Detectors.parts job_dir) (Detectors.parts mountpoint).

(** [sorted(..., key=lambda path: len(path.parts), reverse=True)] *)
Fixpoint insert_deepest (p : string) (l : list string) : list string :=
  match l with
  | [] => [p]
  | q :: r => if (length (Detectors.parts p) <? length (Detectors.parts q))%nat then q :: insert_deepest p r else p :: l
  end.
Definition deepest_first (l : list string) : list string := foldr insert_deepest [] l.

(** The mount points of the lines inside the job directory; [None] is a line that is too short. *)
Fixpoint mount_points (job_dir : string) (lines : list string) : option (list string) :=
  match lines with
  | [] => Some []
  | line :: r =>
      match ufields (before " - " line) with
      | _ :: _ :: _ :: _ :: point :: _ =>
          let mountpoint := _mountinfo_unescape point in
          match mount_points job_dir r with
          | None => None
          | Some l => Some (if inside job_dir mountpoint then Detectors.posix_str mountpoint :: l else l)
          end
      | _ => None
      end
  end.

(** The table as the kernel prints it: in a line, the words before the point, the
    point and the words after it up to the dash. *)
Definition mount_line (m : mount) : string :=
  tail (words (m_head m ++ escape_mount (m_point m) :: m_opts m)) +:+ " - " +:+ m_tail m.
Fixpoint mount_lines (l : list mount) : string :=
  match l with [] => "" | m :: r => mount_line m +:+ chr 10 +:+ mount_lines r end.
Definition mountinfo (h : host) : string := mount_lines (mounts h).

(** [read_text(encoding="utf-8")]: strict UTF-8 *)
Definition decode_utf8 (raw : string) : option string :=
  if utf8_ok 0 128 191 raw && negb (has_surrogate raw) then Some raw else None.

(** ** The report *)
Record purge := mk_purge {
  verified_externally : bool;
  process_group_empty : bool;
  cgroup_empty : bool;
  cgroup_removed : bool;
  job_mount_removed : bool;
  job_directory_removed : bool;
  processes_remaining : Z;
  remaining_host_resources : list string;
}.
Definition purge_val (p : purge) : pyval := VDict
  [("method", VStr "SIGKILL + process-group/cgroup drain + mount/job-directory removal");
   ("verified_externally", VBool (verified_externally p));
   ("process_group_empty", VBool (process_group_empty p));
   ("cgroup_empty", VBool (cgroup_empty p));
   ("cgroup_removed", VBool (cgroup_removed p));
   ("job_mount_removed", VBool (job_mount_removed p));
   ("job_directory_removed", VBool (job_directory_removed p));
   ("processes_remaining", VInt (processes_remaining p));
   ("remaining_host_resources", VList (map VStr (remaining_host_resources p)))].

(** What one turn of the drain found. *)
Record scan := mk_scan {
  group_members : list Z; group_known : bool;
  cgroup_pids : list Z; cgroup_known : bool;
  tracked_remaining : list Z;
}.
Definition scan_clear (s : scan) : bool :=
  group_known s && bool_decide (group_members s = []) && cgroup_known s && bool_decide (cgroup_pids s = [])
  && bool_decide (tracked_remaining s = []).
Definition scan_pids (s : scan) : list Z := sorted_pids (group_members s ++ cgroup_pids s ++ tracked_remaining s).

Definition remaining (process_group : option Z) (cgroup : option string) (job_dir : string) (s : scan) (removed : bool)
    (mounts : list string) (mounts_known directory_removed : bool) : list string :=
  sort_strs (remove_dups (
    (if group_known s then [] else ["process_table:unreadable"])
    ++ map (fun pid => "process_group:" +:+ match process_group with Some g => dec g | None => "None" end +:+ ":" +:+ dec pid) (group_members s)
    ++ map (fun pid => "tracked_process:" +:+ dec pid) (tracked_remaining s)
    ++ (match cgroup with Some g => if cgroup_known s then [] else ["cgroup_membership:unreadable:" +:+ g] | None => [] end)
    ++ map (fun pid => "cgroup_process:" +:+ dec pid) (cgroup_pids s)
    ++ (match cgroup with Some g => if removed then [] else ["cgroup:" +:+ g] | None => [] end)
    ++ (if mounts_known then [] else ["mount_table:unreadable"])
    ++ map (fun m => "mount:" +:+ m) mounts
    ++ (if directory_removed then [] else ["job_directory:" +:+ job_dir]))).

Definition report (process_group : option Z) (cgroup : option string) (job_dir : string) (s : scan) (removed : bool)
    (mounts : list string) (mounts_known directory_removed : bool) : purge :=
  let group_empty := group_known s && bool_decide (group_members s = []) in
  let empty := cgroup_known s && bool_decide (cgroup_pids s = []) in
  let mount_removed := mounts_known && bool_decide (mounts = []) in
  let rest := remaining process_group cgroup job_dir s removed mounts mounts_known directory_removed in
  mk_purge (group_empty && empty && removed && mount_removed && directory_removed
            && bool_decide (scan_pids s = []) && bool_decide (rest = []))
    group_empty empty removed mount_removed directory_removed (Z.of_nat (length (scan_pids s))) rest.

Definition PAUSE : Z := 10000000.
Definition GRACE : Z := 2000000000.

Section cleanup.
Context `{Kernel}.

Definition _job_mounts (job_dir : string) : io (list string * bool) :=
  let! read := perform CMountinfo (fun h => inr (mountinfo h)) in
  match read with
  | inl _ => done ([], false)
  | inr raw =>
      match decode_utf8 raw with
      | None => raise_ (ValueError "UnicodeDecodeError")
      | Some text =>
          done (match mount_points job_dir (splitlines text) with
                | None => ([], false)
                | Some l => (deepest_first (remove_dups l), true)
                end)
      end
  end.

(** [fuel] bounds the children that are reaped at once. *)
Fixpoint reap_loop (fuel : nat) (group : Z) : io unit :=
  match fuel with
  | O => stuck
  | S fuel =>
      let! w := waitpid (CWaitpg group) in
      match w with
      | inl _ => done tt
      | inr (waited_pid, _) => if waited_pid <=? 0 then done tt else reap_loop fuel group
      end
  end.
Definition _reap_process_group (fuel : nat) (process_group : option Z) : io unit :=
  match process_group with
  | None => done tt
  | Some group => if group <=? 0 then done tt else reap_loop fuel group
  end.

Definition look_around (process_group : option Z) (cgroup : option string) (tracked : list Z) : io scan :=
  let! group := match process_group with
                | None => done ([], true)
                | Some g => if g <=? 0 then done ([], true) else _process_group_members g
                end in
  let! members := _cgroup_members cgroup in
  let! alive := filter_io proc_exists tracked in
  done (mk_scan (fst group) (snd group) (fst members) (snd members) alive).

(** The drain: look, kill what is left, pause, until nothing is left or the time is up. *)
Fixpoint drain (turns fuel : nat) (process_group : option Z) (cgroup : option string) (tracked : list Z) (deadline : Z) : io scan :=
  match turns with
  | O => stuck
  | S turns =>
      _reap_process_group fuel process_group ;!
      let! s := look_around process_group cgroup tracked in
      if scan_clear s then done s
      else
        let! now := monotonic in
        if deadline <=? now then done s
        else
          iter_io (fun pid => quietly (CKill pid SIGKILL)) (scan_pids s) ;!
          sleep PAUSE ;!
          drain turns fuel process_group cgroup tracked deadline
  end.

Definition kill_all (process_group : option Z) (cgroup : option string) (tracked : list Z) : io unit :=
  match process_group with Some g => if 0 <? g then quietly (CKillpg g SIGKILL) else done tt | None => done tt end ;!
  iter_io (fun pid => quietly (CKill pid SIGKILL)) tracked ;!
  match cgroup with
  | None => done tt
  | Some g =>
      let! there := exists_ g in
      if there
      then let! has_kill := exists_ (g +:+ "/cgroup.kill") in
           if has_kill then quietly (CWrite (g +:+ "/cgroup.kill") ("1" +:+ chr 10)) else done tt
      else done tt
  end.

Definition remove_cgroup (cgroup : option string) (empty : bool) : io bool :=
  match cgroup with
  | None => done true
  | Some g =>
      let! there := exists_ g in
      (if there && empty then quietly (CRmdir g) else done tt) ;!
      let! there := exists_ g in
      done (negb there)
  end.

Definition unmount_all (job_dir : string) : io (list string * bool) :=
  let! found := _job_mounts job_dir in
  if snd found
  then iter_io (fun p => quietly (CUmount p)) (fst found) ;! _job_mounts job_dir
  else done found.

Definition _cleanup_legacy_resources (turns fuel : nat) (process_group : option Z) (cgroup : option string) (job_dir : string)
    (tracked_pids : list Z) : io purge :=
  let tracked := sorted_pids tracked_pids in
  kill_all process_group cgroup tracked ;!
  let! now := monotonic in
  let! s := drain turns fuel process_group cgroup tracked (now + GRACE) in
  let! removed := remove_cgroup cgroup (cgroup_known s && bool_decide (cgroup_pids s = [])) in
  let! found := unmount_all job_dir in
  (if snd found && bool_decide (fst found = []) then quietly (CRmtree job_dir) else done tt) ;!
  let! there := exists_ job_dir in
  done (report process_group cgroup job_dir s removed (fst found) (snd found) (negb there)).

End cleanup.
End Cleanup.
