(* ===== verification/CleanupFacts.v ===== *)
(** * Facts about the cleanup

    The mount table is read exactly, and a report that everything was removed is
    true of the host when it is made. *)

From stdpp Require Import base list strings gmap sorting.
From Stdlib Require Import ZArith Lia.
From S2P Require Import Prelude PyValue Json JsonFacts StrOps UrlFacts BrowserEvidence Evidence Detectors PyRepr WorkerSandbox Host Cleanup.

Local Open Scope Z_scope.

Module CleanupFacts.
Import BrowserEvidence Evidence WorkerSandbox Host Cleanup.

(** ** The mount table *)
Definition printable (c : Ascii.ascii) : bool := in_range 32 126 (byte_of c).
(** A word of the table: printable, without blanks, not starting with a dash. *)
Definition mount_word (w : string) : Prop :=
  w <> "" /\ str_forall (fun c => in_range 33 126 (byte_of c)) w = true /\ first_is (ch 45) w = false.
Definition point_char (c : Ascii.ascii) : bool := printable c || ch 9 c || ch 10 c.
Record mount_ok (m : mount) : Prop := {
  mo_head : length (m_head m) = 4%nat /\ Forall mount_word (m_head m);
  mo_opts : Forall mount_word (m_opts m);
  mo_point : startswith "/" (m_point m) = true /\ str_forall point_char (m_point m) = true;
  mo_tail : str_forall printable (m_tail m) = true;
}.

Lemma unescape_octal x y z t : octal x = true -> octal y = true -> octal z = true ->
  _mountinfo_unescape (String (ascii_of 92) (String x (String y (String z t))))
  = utf8 (64 * (byte_of x - 48) + 8 * (byte_of y - 48) + (byte_of z - 48)) +:+ _mountinfo_unescape t.
Proof. intros Hx Hy Hz. cbn [_mountinfo_unescape]. by rewrite Hx, Hy, Hz. Qed.

Lemma unescape_plain a r : ch 92 a = false -> _mountinfo_unescape (String a r) = String a (_mountinfo_unescape r).
Proof. intros Ha. cbn [_mountinfo_unescape]. destruct r as [|x [|y [|z t]]]; try done. by rewrite Ha. Qed.

Lemma unescape_escape s : _mountinfo_unescape (escape_mount s) = s.
Proof.
  induction s as [|a r IH]; [done|]. cbn [escape_mount]. destruct (existsb _ _) eqn:Ee.
  - assert (Hb : byte_of a = 32 \/ byte_of a = 9 \/ byte_of a = 10 \/ byte_of a = 92).
    { cbn in Ee. lia. }
    rewrite <- (ascii_of_byte_of a) at 4.
    destruct Hb as [-> |[-> |[-> | ->]]]; (rewrite unescape_octal by reflexivity); rewrite IH; reflexivity.
  - rewrite unescape_plain; [by rewrite IH|]. cbn in Ee. unfold ch. lia.
Qed.

(** ASCII text has a character per byte. *)
Lemma py_chars_cons a r : isascii (String a r) = true -> py_chars (String a r) = String a "" :: py_chars r.
Proof.
  intros Hs. cbn in Hs. apply andb_true_iff in Hs as [_ Hr]. cbn [py_chars]. destruct r as [|b r]; [done|]. cbn [py_chars].
  cbn in Hr. apply andb_true_iff in Hr as [Hb _]. assert (Hn : in_range 128 191 (byte_of b) = false) by (unfold in_range; lia).
  destruct (py_chars r) as [|[|d x] xs]; [by rewrite Hn..|]. destruct (in_range 128 191 (byte_of d)); by rewrite Hn.
Qed.

Lemma ufields_ascii s : isascii s = true -> ufields s = fields s.
Proof.
  intros Hs. unfold ufields, fields. assert (E : ufields_from (py_chars s) = fields_from s); [|by rewrite E].
  induction s as [|a r IH]; [done|]. rewrite py_chars_cons by done. cbn [ufields_from fields_from].
  rewrite IH by (cbn in Hs; by apply andb_true_iff in Hs as [_ ?]). destruct (fields_from r) as [f fs].
  change (white (String a "")) with (strip_char a). by destruct (strip_char a).
Qed.

Lemma startswith_ne p c a r : Ascii.eqb c a = false -> startswith (String c p) (String a r) = false.
Proof. intros Hc. unfold startswith. cbn. destruct (Ascii.ascii_dec c a) as [->|]; [|done]. by rewrite Ascii.eqb_refl in Hc. Qed.

Lemma byte_ne c a : byte_of c <> byte_of a -> Ascii.eqb c a = false.
Proof. intros Hn. apply Ascii.eqb_neq. by intros ->. Qed.

Lemma before_word w r : str_forall (fun c => in_range 33 126 (byte_of c)) w = true -> before " - " (w +:+ r) = w +:+ before " - " r.
Proof.
  induction w as [|a w IH]; [done|]. intros Hw. cbn in Hw. apply andb_true_iff in Hw as [Ha Hw]. rewrite !append_cons. cbn [before].
  change " - " with (String (ascii_of 32) "- ") at 1. rewrite startswith_ne; [by rewrite IH|]. apply byte_ne. unfold in_range in Ha.
  rewrite byte_of_ascii_of; lia.
Qed.

Lemma before_words l t : Forall mount_word l -> before " - " (words l +:+ " - " +:+ t) = words l.
Proof.
  induction 1 as [|w l (Hn & Hw & Hd) _ IH]; cbn [words].
  - cbn. by destruct t.
  - rewrite !append_assoc. destruct w as [|a w]; [done|]. cbn in Hd.
    change (" " +:+ String a w +:+ ?x) with (String (ascii_of 32) (String a w +:+ x)). cbn [before].
    assert (startswith " - " (String (ascii_of 32) (String a w +:+ words l +:+ " - " +:+ t)) = false) as ->.
    { unfold startswith. change (String.prefix " - " (String (ascii_of 32) ?x)) with (String.prefix "- " x). rewrite append_cons.
      apply (startswith_ne " "). apply byte_ne. unfold ch in Hd. intros E. rewrite <- E in Hd. done. }
    by rewrite before_word, IH.
Qed.

Lemma escape_chars s : str_forall point_char s = true -> str_forall (fun c => in_range 33 126 (byte_of c)) (escape_mount s) = true.
Proof.
  induction s as [|a r IH]; [done|]. intros Hp. cbn [str_forall] in Hp.
  apply andb_true_iff in Hp as [Ha Hr]. specialize (IH Hr). cbn [escape_mount]. destruct (existsb _ _) eqn:Ee.
  - cbn [str_forall]. rewrite IH. assert (Hb := byte_of_range a).
    assert (Hd : forall z, 0 <= z < 8 -> in_range 33 126 (byte_of (octal_digit z)) = true).
    { intros z Hz. unfold octal_digit. rewrite byte_of_ascii_of by lia. unfold in_range. lia. }
    rewrite !Hd; [done|apply Z.mod_pos_bound; lia..|]. split; [apply Z.div_pos; lia|apply Z.div_lt_upper_bound; lia].
  - cbn [str_forall]. rewrite IH. cbn in Ee. unfold point_char, printable, in_range, ch in *. lia.
Qed.

Lemma escape_word p : startswith "/" p = true -> str_forall point_char p = true -> mount_word (escape_mount p).
Proof.
  intros Hs Hp. apply escape_chars in Hp as He. apply startswith_char in Hs as [r ->]. by split_and!.
Qed.

Lemma mount_words m : mount_ok m -> Forall mount_word (m_head m ++ escape_mount (m_point m) :: m_opts m).
Proof. intros [[_ H1] H2 [H3 H4] _]. apply Forall_app; split; [done|]. constructor; [by apply escape_word|done]. Qed.

Lemma mount_word_word w : mount_word w -> w <> "" /\ str_forall (fun c => negb (strip_char c)) w = true.
Proof.
  intros (Hn & Hw & _). split; [done|]. revert Hw. apply str_forall_weaken. intros c. unfold strip_char, in_range. lia.
Qed.

Lemma words_ascii l : Forall mount_word l -> str_forall printable (words l) = true.
Proof.
  induction 1 as [|w l (_ & Hw & _) _ IH]; [done|]. cbn [words]. rewrite !str_forall_app, IH. rewrite andb_true_r. cbn.
  revert Hw. apply str_forall_weaken. intros c. unfold printable, in_range. lia.
Qed.

Lemma printable_ascii s : str_forall printable s = true -> isascii s = true.
Proof. apply str_forall_weaken. intros c. unfold printable, in_range. lia. Qed.

Lemma str_forall_tail p s : str_forall p s = true -> str_forall p (tail s) = true.
Proof. destruct s as [|a r]; [done|]. cbn. by intros [_ ?]%andb_true_iff. Qed.

Lemma mount_line_printable m : mount_ok m -> str_forall printable (mount_line m) = true.
Proof.
  intros Hm. unfold mount_line. rewrite !str_forall_app, str_forall_tail by (by apply words_ascii, mount_words).
  by rewrite (mo_tail m Hm).
Qed.

(** Words separated by blanks that are not whitespace of [str.split]. *)
Lemma fields_blank_word w r : str_forall (fun c => negb (strip_char c)) w = true -> fst (fields_from r) = "" ->
  fields_from (w +:+ r) = (w, snd (fields_from r)).
Proof.
  intros Hw Hr. induction w as [|a w IH]; [by rewrite append_nil_l, <- Hr, <- surjective_pairing|].
  cbn in Hw. apply andb_true_iff in Hw as [Ha%negb_true_iff Hw]. rewrite append_cons. cbn [fields_from]. by rewrite IH, Ha.
Qed.

Lemma fields_mount_words l : Forall mount_word l -> fields_from (words l) = ("", l).
Proof.
  induction 1 as [|w l Hw _ IH]; [done|]. apply mount_word_word in Hw as [Hn Hw]. cbn [words].
  change (" " +:+ w +:+ words l) with (String (ascii_of 32) (w +:+ words l)). cbn [fields_from].
  rewrite fields_blank_word by (done || by rewrite IH). rewrite IH. change (strip_char (ascii_of 32)) with true. cbn.
  by rewrite (proj2 (String.eqb_neq _ _) Hn).
Qed.

Lemma fields_tail_words l : Forall mount_word l -> fields (tail (words l)) = l.
Proof.
  destruct 1 as [|w l Hw Hl]; [done|]. apply mount_word_word in Hw as [Hn Hw].
  change (tail (words (w :: l))) with (w +:+ words l). unfold fields. rewrite fields_blank_word by (done || by rewrite fields_mount_words).
  rewrite fields_mount_words by done. cbn. by rewrite (proj2 (String.eqb_neq _ _) Hn).
Qed.

Lemma before_line l t : Forall mount_word l -> before " - " (tail (words l) +:+ " - " +:+ t) = tail (words l).
Proof.
  destruct 1 as [|w l (Hn & Hw & Hd) Hl]; [cbn; by destruct t|]. change (tail (words (w :: l))) with (w +:+ words l).
  by rewrite append_assoc, before_word, before_words.
Qed.

Lemma line_fields m : mount_ok m -> ufields (before " - " (mount_line m)) = m_head m ++ escape_mount (m_point m) :: m_opts m.
Proof.
  intros Hm. assert (Hw := mount_words m Hm). unfold mount_line. rewrite before_line by done.
  rewrite ufields_ascii by (apply printable_ascii, str_forall_tail, words_ascii; done). by apply fields_tail_words.
Qed.

(** ** Lines *)
Lemma separator_printable a r : printable a = true -> separator (String a r) = 0%nat.
Proof.
  intros Ha. unfold separator. assert (Hs : forall c p, 127 <= byte_of c \/ byte_of c < 32 -> startswith (String c p) (String a r) = false).
  { intros c p Hc. apply startswith_ne, byte_ne. unfold printable, in_range in Ha. lia. }
  assert (Hw : existsb (fun w => startswith w (String a r)) [utf8 8232; utf8 8233] = false).
  { cbn [existsb]. rewrite !orb_false_iff. split_and!; [..|done]; apply Hs; left; vm_compute; done. }
  assert (Hv : existsb (fun w => startswith w (String a r)) [chr 13 +:+ chr 10; utf8 133] = false).
  { cbn [existsb]. rewrite !orb_false_iff. split_and!; [..|done]; apply Hs; [right|left]; vm_compute; done. }
  rewrite Hw, Hv. cbn [first_is]. unfold printable, in_range in *. by destruct (_ || _) eqn:E; [lia|].
Qed.

Lemma lines_line l r : str_forall printable l = true ->
  lines_from 0 (l +:+ chr 10 +:+ r) = let '(x, xs) := lines_from 0 r in (l, x :: xs).
Proof.
  induction l as [|a l IH]; intros Hl.
  - rewrite append_nil_l. change (chr 10 +:+ r) with (String (ascii_of 10) r). cbn [lines_from].
    assert (separator (String (ascii_of 10) r) = 1%nat) as ->; [|done].
    unfold separator. assert (Hs : forall c p, byte_of c <> 10 -> startswith (String c p) (String (ascii_of 10) r) = false).
    { intros c p Hc. by apply startswith_ne, byte_ne. }
    assert (Hw : existsb (fun w => startswith w (String (ascii_of 10) r)) [utf8 8232; utf8 8233] = false).
    { cbn [existsb]. rewrite !orb_false_iff. split_and!; [..|done]; apply Hs; vm_compute; done. }
    assert (Hv : existsb (fun w => startswith w (String (ascii_of 10) r)) [chr 13 +:+ chr 10; utf8 133] = false).
    { cbn [existsb]. rewrite !orb_false_iff. split_and!; [..|done]; apply Hs; vm_compute; done. }
    by rewrite Hw, Hv.
  - cbn in Hl. apply andb_true_iff in Hl as [Ha Hl]. rewrite append_cons. cbn [lines_from].
    rewrite separator_printable by done. rewrite IH by done. by destruct (lines_from 0 r).
Qed.

Lemma splitlines_mounts l : Forall mount_ok l -> splitlines (mount_lines l) = map mount_line l.
Proof.
  intros Hl. assert (E : lines_from 0 (mount_lines l) = match map mount_line l with [] => ("", []) | x :: xs => (x, xs ++ [""]) end).
  { induction Hl as [|m l Hm _ IH]; [done|]. cbn [mount_lines map]. rewrite lines_line by (by apply mount_line_printable). rewrite IH.
    by destruct (map mount_line l). }
  unfold splitlines. rewrite E. destruct (map mount_line l) as [|x xs]; [done|].
  change (x :: xs ++ [""]) with ((x :: xs) ++ [""]). rewrite List.last_last. cbn [String.eqb]. by rewrite removelast_last.
Qed.

Lemma mount_points_exact job_dir l : Forall mount_ok l ->
  mount_points job_dir (map mount_line l) = Some (map Detectors.posix_str (List.filter (inside job_dir) (map m_point l))).
Proof.
  induction 1 as [|m l Hm _ IH]; [done|]. cbn [map mount_points List.filter]. rewrite line_fields by done.
  destruct (mo_head m Hm) as [Hl _]. destruct (m_head m) as [|? [|? [|? [|? [|]]]]]; try done. cbn [app]. rewrite IH, unescape_escape.
  by destruct (inside job_dir (m_point m)).
Qed.

Lemma mount_lines_ascii l : Forall mount_ok l -> isascii (mount_lines l) = true.
Proof.
  induction 1 as [|m l Hm _ IH]; [done|]. cbn [mount_lines]. unfold isascii in *. rewrite !str_forall_app, IH.
  change (str_forall (fun c => byte_of c <? 128) (mount_line m)) with (isascii (mount_line m)).
  by rewrite printable_ascii by (by apply mount_line_printable).
Qed.

Lemma utf8_ascii s : isascii s = true -> utf8_ok 0 128 191 s = true.
Proof.
  induction s as [|a r IH]; [done|]. intros Hs. cbn in Hs. apply andb_true_iff in Hs as [Ha Hr]. cbn [utf8_ok]. rewrite Ha. by apply IH.
Qed.

Lemma decode_mounts l : Forall mount_ok l -> decode_utf8 (mount_lines l) = Some (mount_lines l).
Proof.
  intros Hl%mount_lines_ascii. unfold decode_utf8. by rewrite utf8_ascii, ascii_no_surrogate.
Qed.

Lemma insert_deepest_perm p l : insert_deepest p l ≡ₚ p :: l.
Proof. induction l as [|q r IH]; [done|]. cbn. case_match; [|done]. rewrite IH. by apply Permutation_swap. Qed.
Lemma deepest_first_perm l : deepest_first l ≡ₚ l.
Proof. induction l as [|p l IH]; [done|]. cbn. by rewrite insert_deepest_perm, IH. Qed.

(** ** What the cleanup relies on *)

(** The job's process group, if it has one, has been sent the signal that kills it. *)
Definition killed (log0 : list call) (process_group : option Z) (log : list call) : Prop :=
  log0 `suffix_of` log /\ forall g, process_group = Some g -> 0 < g -> In (CKillpg g SIGKILL) log.

(** From then on no one adds to the job: no process enters the group, no tracked pid is
    given out again, nobody creates the control group or mounts inside the directory.
    And a process said to be absent is. *)
Class Quiescent `{Kernel} (log0 : list call) (process_group : option Z) (cgroup : option string) (job_dir : string)
    (tracked : list Z) : Prop := {
  q_stat : forall log n e, fails (CStat n :: log) = Some e -> (e =? ENOENT) || (e =? ESRCH) = true ->
    procs (host_at (CStat n :: log)) !! n = None;
  q_group : forall c log g n p, killed log0 process_group log -> process_group = Some g -> 0 < g ->
    procs (host_at (c :: log)) !! n = Some p -> p_pgrp p = g -> exists q, procs (host_at log) !! n = Some q /\ p_pgrp q = g;
  q_tracked : forall c log n, killed log0 process_group log -> n ∈ tracked ->
    is_Some (procs (host_at (c :: log)) !! n) -> is_Some (procs (host_at log) !! n);
  q_cgroup : forall c log g, killed log0 process_group log -> cgroup = Some g ->
    is_Some (cgroups (host_at (c :: log)) !! g) -> is_Some (cgroups (host_at log) !! g);
  q_mount : forall c log, killed log0 process_group log ->
    Exists (fun m => inside job_dir (m_point m) = true) (mounts (host_at (c :: log))) ->
    Exists (fun m => inside job_dir (m_point m) = true) (mounts (host_at log));
}.

(** Nothing of the job is on the host. *)
Record clean (process_group : option Z) (cgroup : option string) (job_dir : string) (tracked : list Z) (h : host) : Prop := {
  no_member : forall g n p, process_group = Some g -> 0 < g -> procs h !! n = Some p -> p_pgrp p <> g;
  no_tracked : forall n, n ∈ tracked -> procs h !! n = None;
  no_cgroup : forall g, cgroup = Some g -> cgroups h !! g = None;
  no_mount : Forall (fun m => inside job_dir (m_point m) = false) (mounts h);
  no_directory : job_dir ∉ paths h;
}.

Class MountsOk `{Kernel} : Prop := mounts_ok : forall log, Forall mount_ok (mounts (host_at log)).

(** What is there at the end was there all along. *)
Lemma persists `{Kernel} (S : list call -> Prop) (B : host -> Prop) :
  (forall c log, S log -> S (c :: log)) -> (forall c log, S log -> B (host_at (c :: log)) -> B (host_at log)) ->
  forall l l', l `suffix_of` l' -> S l -> B (host_at l') -> B (host_at l).
Proof.
  intros HS HB l l' [k ->] Hl. assert (HSk : forall k, S (k ++ l)) by (intros k'; induction k'; cbn; auto).
  induction k as [|c k IH]; [done|]. cbn. intros Hb%HB; auto.
Qed.

Section exact.
Context `{KernelOk}.

Lemma job_mounts_exact `{!MountsOk} job_dir log l log' : _job_mounts job_dir log = Some (Ok (l, true), log') ->
  log' = CMountinfo :: log /\
  l ≡ₚ remove_dups (map Detectors.posix_str (List.filter (inside job_dir) (map m_point (mounts (host_at log'))))).
Proof.
  unfold _job_mounts. intros Hj. io_inv. unfold perform in *. simplify_eq. destruct (fails _); [io_inv; by simplify_eq|].
  unfold mountinfo in *. rewrite decode_mounts, splitlines_mounts, mount_points_exact in * by apply mounts_ok.
  io_inv. simplify_eq. split; [done|]. apply deepest_first_perm.
Qed.

Definition in_group (g n : Z) (h : host) : Prop := exists p, procs h !! n = Some p /\ p_pgrp p = g.

Lemma digits_dec n : 0 < n -> digits (dec n) = true /\ digits_value 0 (dec n) = n.
Proof.
  intros Hn. destruct (dec_digits_only n) as [H1 [_ H2 H3 _ _]]; [lia|]. split; [|done].
  unfold digits. by rewrite H1, (proj2 (String.eqb_neq _ _) H3).
Qed.

(** An entry of a process of the group adds it, or the scan is not complete. *)
Lemma member_entry_seen g acc n log acc' log' :
  (forall log n e, fails (CStat n :: log) = Some e -> (e =? ENOENT) || (e =? ESRCH) = true -> procs (host_at (CStat n :: log)) !! n = None) ->
  0 < n -> member_entry g acc (dec n) log = Some (Ok acc', log') ->
  in_group g n (host_at log') -> snd acc' = true -> In n (fst acc').
Proof.
  intros Hstat Hn. destruct (digits_dec n Hn) as [Hd Hv]. unfold member_entry. destruct acc as [ms complete]. rewrite Hd, Hv. cbn [negb].
  intros Hm. io_inv. unfold read_stat, perform in *. simplify_eq.
  destruct (fails _) as [e|] eqn:Ef.
  { io_inv. simplify_eq. intros (p & Hp & _). destruct (_ || _) eqn:Ee; [|done]. by rewrite (Hstat _ _ _ Ef Ee) in Hp. }
  intros (p & Hp & Hg). assert (log' = CStat n :: log) as ->.
  { destruct (procs (host_at (CStat n :: log)) !! n); unfold decode_ascii in *; repeat (case_match; io_inv; try by simplify_eq). }
  match goal with Hx : context [procs _ !! n] |- _ => lazymatch Hx with Hp => fail | _ => rewrite Hp in Hx; rename Hx into Hm end end.
  unfold decode_ascii in Hm. destruct (isascii _); [|unfold done in Hm; by simplify_eq].
  assert (Hok : proc_ok p) by (eapply ok_procs; [apply kernel_ok|done]).
  destruct (stat_parts n p Hok) as (b & r & Er & Efi). rewrite Er, Efi in Hm. cbn [app] in Hm.
  rewrite int10_dec in Hm by (destruct (ok_pgrp p Hok); lia). unfold done in Hm. rewrite Hg, Z.eqb_refl in Hm. simplify_eq.
  intros _. apply in_app_iff. right. by left.
Qed.

Lemma member_entry_grows g acc name log acc' log' : member_entry g acc name log = Some (Ok acc', log') ->
  (snd acc' = true -> snd acc = true) /\ (forall n, In n (fst acc) -> In n (fst acc')).
Proof.
  unfold member_entry. destruct acc as [ms complete]. intros Hm. destruct (negb _); [unfold done in Hm; by simplify_eq|].
  io_inv. repeat (case_match; unfold done in *; simplify_eq; try done). cbn. split; [done|].
  intros n Hn. apply in_app_iff. by left.
Qed.

Lemma member_entries_grow g names : forall acc log acc' log', member_entries g names acc log = Some (Ok acc', log') ->
  (snd acc' = true -> snd acc = true) /\ (forall n, In n (fst acc) -> In n (fst acc')).
Proof.
  induction names as [|name names IH]; intros acc log acc' log'; cbn; intros Hm; io_inv; [by simplify_eq|].
  match goal with Hx : member_entry _ _ _ _ = _ |- _ => apply member_entry_grows in Hx as [G1 G2] end.
  match goal with Hx : member_entries _ _ _ _ = _ |- _ => apply IH in Hx as [G3 G4] end. auto.
Qed.

(** A process that is in the group whenever it is looked at is found. *)
Lemma member_entries_find g n names :
  (forall log n e, fails (CStat n :: log) = Some e -> (e =? ENOENT) || (e =? ESRCH) = true -> procs (host_at (CStat n :: log)) !! n = None) ->
  0 < n -> In (dec n) names -> forall acc log acc' log', member_entries g names acc log = Some (Ok acc', log') ->
  (forall l, log `suffix_of` l -> l `suffix_of` log' -> in_group g n (host_at l)) -> snd acc' = true -> In n (fst acc').
Proof.
  intros Hstat Hn. induction names as [|name names IH]; [done|]. intros Hin acc log acc' log' Hm Hall Hc. cbn in Hm. io_inv.
  match goal with Hx : member_entry _ _ _ _ = Some (Ok ?a, ?l) |- _ => rename Hx into He, a into mid_acc, l into ml end.
  match goal with Hx : member_entries _ _ _ _ = _ |- _ => rename Hx into Hes end.
  assert (Hs1 := only_suffix _ _ _ _ _ (only_member_entry g acc name) He).
  assert (Hs2 := only_suffix _ _ _ _ _ (only_member_entries g names mid_acc) Hes).
  destruct (member_entries_grow _ _ _ _ _ _ Hes) as [G1 G2]. destruct Hin as [-> |Hin].
  - apply G2. eapply member_entry_seen; eauto.
  - eapply IH; eauto. intros l Hl. apply Hall. by etrans.
Qed.

Lemma group_members_empty g n log log' :
  (forall log n e, fails (CStat n :: log) = Some e -> (e =? ENOENT) || (e =? ESRCH) = true -> procs (host_at (CStat n :: log)) !! n = None) ->
  _process_group_members g log = Some (Ok ([], true), log') ->
  (forall l, log `suffix_of` l -> l `suffix_of` log' -> in_group g n (host_at l)) -> False.
Proof.
  intros Hstat Hm Hall. assert (Hs := only_suffix _ _ _ _ _ (only_group_members g) Hm). unfold _process_group_members in Hm. io_inv.
  unfold list_proc, perform in *. simplify_eq. destruct (fails _); [unfold done in *; by simplify_eq|]. io_inv. simplify_eq.
  match goal with Hx : member_entries _ _ _ _ = Some (Ok ?a, _) |- _ => rename Hx into Hes; destruct a as [ms complete] end.
  cbn [fst snd] in *. assert (Hms : ms = []).
  { match goal with Hx : merge_sort _ _ = [] |- _ => apply Permutation_nil; rewrite <- Hx end. apply merge_sort_Permutation. }
  subst ms.
  assert (Hs2 := only_suffix _ _ _ _ _ (only_member_entries _ _ _) Hes). subst complete.
  destruct (Hall (CListProc :: log)) as (p & Hp & Hg); [by exists [CListProc]|done|].
  assert (Hn : 0 < n) by (eapply (ok_procs _ (kernel_ok _)) in Hp as [? _]; lia).
  eapply (member_entries_find g n) in Hes; [done|done|done| |intros l Hl; apply Hall; etrans; [by exists [CListProc]|done]|done].
  apply in_app_iff. left. apply in_map, in_map_iff. exists (n, p). split; [done|]. by apply list_elem_of_In, elem_of_map_to_list.
Qed.

(** ** The report is true *)
Lemma only_job_mounts job_dir : only look (_job_mounts job_dir).
Proof. unfold _job_mounts. only_auto. by apply only_log. Qed.
Lemma only_look_around pg g tracked : only look (look_around pg g tracked).
Proof. unfold look_around. only_auto. Qed.
Lemma extends_reap fuel pg : extends (_reap_process_group fuel pg).
Proof.
  unfold _reap_process_group. assert (Hr : forall g, extends (reap_loop fuel g)); [|only_auto].
  intros g. induction fuel as [|fuel IH]; cbn; only_auto.
Qed.
Hint Resolve only_job_mounts only_look_around extends_reap : calls.
Lemma extends_drain turns fuel pg g tracked deadline : extends (drain turns fuel pg g tracked deadline).
Proof. induction turns as [|turns IH]; cbn; only_auto. Qed.
Lemma extends_kill_all pg g tracked : extends (kill_all pg g tracked).
Proof. unfold kill_all. only_auto. Qed.
Lemma extends_remove_cgroup g empty : extends (remove_cgroup g empty).
Proof. unfold remove_cgroup. only_auto. Qed.
Lemma extends_unmount job_dir : extends (unmount_all job_dir).
Proof. unfold unmount_all. only_auto. Qed.

(** The result of the drain is what its last look found. *)
Lemma drain_looked turns fuel pg g tracked deadline : forall log s log',
  drain turns fuel pg g tracked deadline log = Some (Ok s, log') ->
  exists l l', log `suffix_of` l /\ look_around pg g tracked l = Some (Ok s, l') /\ l' `suffix_of` log'.
Proof.
  induction turns as [|turns IH]; intros log s log'; cbn; [done|]. intros Hd. io_inv.
  match goal with Hx : _reap_process_group _ _ _ = _ |- _ => assert (Hs1 := only_suffix _ _ _ _ _ (extends_reap _ _) Hx) end.
  match goal with Hx : look_around _ _ _ _ = _ |- _ => rename Hx into Hl; assert (Hs2 := only_suffix _ _ _ _ _ (only_look_around _ _ _) Hl) end.
  destruct (scan_clear _); [io_inv; simplify_eq; by eauto 10|]. io_inv.
  match goal with Hx : monotonic _ = _ |- _ => assert (Hs3 := only_suffix _ _ _ _ _ only_monotonic Hx) end.
  destruct (_ <=? _); io_inv; [simplify_eq; by eauto 10|].
  match goal with Hx : iter_io _ _ _ = _ |- _ => apply (only_suffix (fun _ => True)) in Hx as Hs4; [|only_auto] end.
  match goal with Hx : sleep _ _ = _ |- _ => assert (Hs5 := only_suffix _ _ _ _ _ (only_sleep _) Hx) end.
  match goal with Hx : drain _ _ _ _ _ _ _ = _ |- _ => apply IH in Hx as (l & l' & Hl1 & Hl2 & Hl3) end.
  exists l, l'. split_and!; [|done|done]. do 5 (etrans; [eassumption|]). done.
Qed.

Lemma filter_exists_none ns : forall log log', filter_io proc_exists ns log = Some (Ok [], log') ->
  forall n, n ∈ ns -> exists l, log `suffix_of` l /\ l `suffix_of` log' /\ procs (host_at l) !! n = None.
Proof.
  induction ns as [|m ns IH]; intros log log' Hf n Hn; [by apply elem_of_nil in Hn|]. cbn in Hf. io_inv.
  unfold proc_exists, observe in *. simplify_eq. case_bool_decide as Hm; [done|]. simplify_eq.
  match goal with Hx : filter_io _ _ _ = _ |- _ => rename Hx into Hf; assert (Hs := only_suffix look _ _ _ _ (only_filter _ _ _ only_proc_exists) Hf) end.
  apply elem_of_cons in Hn as [-> |Hn].
  - exists (CProcExists m :: log). split_and!; [by exists [CProcExists m]|done|]. by apply eq_None_not_Some.
  - destruct (IH _ _ Hf n Hn) as (l & Hl1 & Hl2 & Hl3). exists l. split_and!; [|done|done]. etrans; [|exact Hl1]. by exists [CProcExists m].
Qed.

Lemma remove_cgroup_gone g empty log log' : remove_cgroup (Some g) empty log = Some (Ok true, log') -> cgroups (host_at log') !! g = None.
Proof.
  unfold remove_cgroup. intros Hr. io_inv. unfold exists_, observe, path_exists in *. simplify_eq.
  match goal with Hx : negb (bool_decide _) = true |- _ => apply negb_true_iff, bool_decide_eq_false in Hx as Hn end.
  apply not_elem_of_dom. tauto.
Qed.

Lemma unmount_all_clear `{!MountsOk} job_dir log log' : unmount_all job_dir log = Some (Ok ([], true), log') ->
  Forall (fun m => inside job_dir (m_point m) = false) (mounts (host_at log')).
Proof.
  unfold unmount_all. intros Hu. io_inv. destruct (snd _) eqn:Es; io_inv; [|by simplify_eq].
  match goal with Hx : _job_mounts _ _ = Some (Ok ([], true), _) |- _ => apply job_mounts_exact in Hx as [_ Hp] end.
  apply Permutation_nil_l in Hp. apply Forall_forall. intros m Hm. destruct (inside job_dir (m_point m)) eqn:Ei; [|done].
  assert (Hx : Detectors.posix_str (m_point m) ∈ @nil string); [|by apply elem_of_nil in Hx]. rewrite Hp.
  apply elem_of_remove_dups, list_elem_of_In, in_map, filter_In. split; [|done]. by apply in_map, list_elem_of_In.
Qed.

Lemma report_verified pg g job_dir s removed ms known gone : verified_externally (report pg g job_dir s removed ms known gone) = true ->
  group_members s = [] /\ group_known s = true /\ tracked_remaining s = [] /\ removed = true /\ ms = [] /\ known = true /\ gone = true.
Proof.
  unfold report. cbn [verified_externally]. rewrite !andb_true_iff, !bool_decide_eq_true.
  intros (((((([? ?] & _) & ?) & [? ?]) & ?) & Hp) & _). split_and!; try done. unfold scan_pids, sorted_pids in Hp.
  destruct (tracked_remaining s) as [|n r] eqn:Et; [done|]. assert (Hn : n ∈ @nil Z); [|by apply elem_of_nil in Hn].
  rewrite <- Hp, merge_sort_Permutation, elem_of_remove_dups, !elem_of_app, elem_of_cons. auto.
Qed.

Lemma kill_all_killed pg g tracked log log' n : kill_all pg g tracked log = Some (Ok tt, log') -> pg = Some n -> 0 < n ->
  In (CKillpg n SIGKILL) log'.
Proof.
  intros Hk -> Hn. unfold kill_all in Hk. rewrite (proj2 (Z.ltb_lt 0 n) Hn) in Hk.
  apply bind_done in Hk as ([] & l1 & Hq & Hk). apply bind_done in Hk as ([] & l2 & Hi & Hk). unfold quietly, bind, effect, perform, done in Hq. simplify_eq.
  apply (only_suffix (fun _ => True)) in Hi as [k1 ->]; [|only_auto].
  assert (Hs : k1 ++ CKillpg n SIGKILL :: log `suffix_of` log') by (eapply (only_suffix (fun _ => True)); [|exact Hk]; only_auto).
  destruct Hs as [k2 ->]. rewrite !in_app_iff. right. right. by left.
Qed.

Lemma killed_later log0 pg l l' : killed log0 pg l -> l `suffix_of` l' -> killed log0 pg l'.
Proof. intros [Hs Hk] [k ->]. split; [etrans; [exact Hs|by exists k]|]. intros g Eg Hg. apply in_app_iff. eauto. Qed.

(** The last looks of a verified cleanup, after the kill, and what each found. *)
Record last_looks (pg : option Z) (g : option string) (job_dir : string) (tracked : list Z) (log log' : list call) : Prop := {
  at_group : forall z, pg = Some z -> 0 < z -> exists l l', killed log pg l /\ l' `suffix_of` log' /\
    _process_group_members z l = Some (Ok ([], true), l');
  at_tracked : exists l l', killed log pg l /\ l' `suffix_of` log' /\
    filter_io proc_exists (sorted_pids tracked) l = Some (Ok [], l');
  at_cgroup : forall z, g = Some z -> exists l, killed log pg l /\ l `suffix_of` log' /\ cgroups (host_at l) !! z = None;
  at_mounts : exists l, killed log pg l /\ l `suffix_of` log' /\
    Forall (fun m => inside job_dir (m_point m) = false) (mounts (host_at l));
  at_directory : job_dir ∉ paths (host_at log');
}.

Lemma look_around_found pg g tracked log s log' : look_around pg g tracked log = Some (Ok s, log') ->
  (forall z, pg = Some z -> 0 < z -> exists l, l `suffix_of` log' /\
     _process_group_members z log = Some (Ok (group_members s, group_known s), l)) /\
  (exists l, log `suffix_of` l /\ filter_io proc_exists tracked l = Some (Ok (tracked_remaining s), log')).
Proof.
  unfold look_around. intros Hl. apply bind_done in Hl as ([gm gk] & g1 & Hgr & Hl). apply bind_done in Hl as (cg & g2 & Hcg & Hl).
  apply bind_done in Hl as (tr & g3 & Htf & Hl). unfold done in Hl. injection Hl as <- <-. cbn [fst snd group_members group_known tracked_remaining].
  assert (Hg2 := only_suffix _ _ _ _ _ (only_cgroup_members _) Hcg).
  assert (Hg3 := only_suffix look _ _ _ _ (only_filter _ _ _ only_proc_exists) Htf). split.
  - intros z -> Hz. rewrite (proj2 (Z.leb_gt z 0) Hz) in Hgr. exists g1. split; [by etrans|done].
  - exists g2. split; [|done]. etrans; [|exact Hg2]. destruct pg as [z|]; [destruct (z <=? 0)|];
      (eapply (only_suffix look); [|exact Hgr]); auto with calls.
Qed.

Lemma cleanup_last_looks `{!MountsOk} turns fuel pg g job_dir tracked log p log' :
  _cleanup_legacy_resources turns fuel pg g job_dir tracked log = Some (Ok p, log') -> verified_externally p = true ->
  last_looks pg g job_dir tracked log log'.
Proof.
  intros Hc Hv. unfold _cleanup_legacy_resources in Hc.
  apply bind_done in Hc as ([] & l1 & Hk & Hc). apply bind_done in Hc as (now & l2 & Hm & Hc).
  apply bind_done in Hc as (s & l3 & Hd & Hc). apply bind_done in Hc as (removed & l4 & Hr & Hc).
  apply bind_done in Hc as ([ms known] & l5 & Hu & Hc). apply bind_done in Hc as ([] & l6 & Ht & Hc).
  apply bind_done in Hc as (there & l7 & Hx & Hc). unfold done in Hc. injection Hc as <- <-. cbn [fst snd] in *.
  apply report_verified in Hv as (Hg & Hgk & Htr & -> & -> & -> & ->%negb_true_iff).
  destruct (drain_looked _ _ _ _ _ _ _ _ _ Hd) as (la & lb & Hsa & Hla & Hsb).
  assert (A1 := only_suffix _ _ _ _ _ (extends_kill_all _ _ _) Hk). assert (A2 := only_suffix _ _ _ _ _ only_monotonic Hm).
  assert (A4 := only_suffix _ _ _ _ _ (extends_remove_cgroup _ _) Hr). assert (A5 := only_suffix _ _ _ _ _ (extends_unmount _) Hu).
  assert (A6 : l5 `suffix_of` l6) by (eapply (only_suffix (fun _ => True)); [|exact Ht]; only_auto).
  assert (A7 := only_suffix _ _ _ _ _ (only_exists _) Hx). assert (A3 := only_suffix _ _ _ _ _ (extends_drain _ _ _ _ _ _) Hd).
  assert (B5 : l5 `suffix_of` l7) by (by etrans). assert (B4 : l4 `suffix_of` l7) by (by etrans).
  assert (Bb : lb `suffix_of` l7) by (etrans; [exact Hsb|by etrans]).
  assert (K1 : killed log pg l1) by (split; [done|intros z Ez Hz; by eapply kill_all_killed]).
  assert (Ka : killed log pg la) by (eapply killed_later; [exact K1|by etrans]).
  assert (K4 : killed log pg l4) by (eapply killed_later; [exact K1|]; etrans; [exact A2|]; by etrans).
  destruct (look_around_found _ _ _ _ _ _ Hla) as [F1 (lt & F2 & F3)]. rewrite Hg, Hgk in F1. rewrite Htr in F3. constructor.
  - intros z -> Hz. destruct (F1 z eq_refl Hz) as (l & Hl1 & Hl2). exists la, l. split_and!; [done|etrans; [exact Hl1|done]|done].
  - exists lt, lb. split_and!; [exact (killed_later _ _ _ _ Ka F2)|done|done].
  - intros z ->. apply remove_cgroup_gone in Hr. by exists l4.
  - apply unmount_all_clear in Hu. exists l5. split_and!; [exact (killed_later _ _ _ _ K4 A5)|done|done].
  - unfold exists_, observe, path_exists in Hx. simplify_eq.
    match goal with Hb : bool_decide _ = false |- _ => apply bool_decide_eq_false in Hb end. tauto.
Qed.

Lemma none_inside job_dir l : Forall (fun m => inside job_dir (m_point m) = false) l <-> ~ Exists (fun m => inside job_dir (m_point m) = true) l.
Proof.
  rewrite <- Forall_Exists_neg. apply Forall_proper; [|done]. intros m. symmetry. apply not_true_iff_false.
Qed.

(** What is absent once stays absent. *)
Lemma stays_absent (B : host -> Prop) log pg : (forall c l, killed log pg l -> B (host_at (c :: l)) -> B (host_at l)) ->
  forall l l', killed log pg l -> l `suffix_of` l' -> ~ B (host_at l) -> ~ B (host_at l').
Proof.
  intros HB l l' Hl Hl' Hn Hb. apply Hn. eapply (persists (killed log pg) B); eauto.
  intros c lg Hs. eapply killed_later; [exact Hs|by exists [c]].
Qed.

Lemma group_stays_empty `{!Quiescent log pg g job_dir tracked} z n l l' lx : pg = Some z -> 0 < z -> killed log pg l ->
  _process_group_members z l = Some (Ok ([], true), l') -> l' `suffix_of` lx -> ~ in_group z n (host_at lx).
Proof.
  intros Ez Hz Hs Hm Hx Hb. apply (group_members_empty z n l l'); [apply q_stat|done|]. intros k Hk1 Hk2.
  apply (persists (killed log pg) (in_group z n)) with (l' := lx); [| |by etrans| |done].
  - intros c lg Hl. eapply killed_later; [exact Hl|by exists [c]].
  - intros c lg Hl (p0 & Hp0 & Eg). by eapply q_group.
  - by eapply killed_later.
Qed.

(** C5: A cleanup that reports itself verified has left nothing of the job behind.  On a
    host whose mount table is written in words of printable ASCII that do not start with a
    dash (blanks in a mount point escaped), and where an absent
    process is reported only of a process that is absent: whatever else happens
    meanwhile, and whatever happens before the job's process group (if it has one) is
    sent SIGKILL, as long as from then on no process enters that group, no tracked pid is
    given out again, and nobody creates the job's control group or mounts at or below the
    job directory: when [_cleanup_legacy_resources] returns a report with
    [verified_externally] set, the host has no process in the job's group (whatever the
    processes call themselves), none of the tracked pids, no control group of the job, no
    mount at or below the job directory, and no job directory. *)
Theorem verified_cleanup_is_clean `{!MountsOk} (turns fuel : nat) (pg : option Z) (g : option string) (job_dir : string)
    (tracked : list Z) (log log' : list call) (p : purge) :
  Quiescent log pg g job_dir tracked ->
  _cleanup_legacy_resources turns fuel pg g job_dir tracked log = Some (Ok p, log') ->
  verified_externally p = true ->
  clean pg g job_dir tracked (host_at log').
Proof.
  intros HQ Hc Hv. destruct (cleanup_last_looks _ _ _ _ _ _ _ _ _ Hc Hv) as [E1 (lt & lt' & T1 & T2 & T3) E3 (lm & M1 & M2 & M3) E5].
  constructor; [| | | |done].
  - intros z n q Ez Hz Hq Hqz. destruct (E1 z Ez Hz) as (l & l' & L1 & L2 & L3).
    apply (group_stays_empty z n _ _ _ Ez Hz L1 L3 L2). by exists q.
  - intros n Hn. destruct (filter_exists_none _ _ _ T3 n) as (l & L1 & L2 & L3).
    { unfold sorted_pids. by rewrite merge_sort_Permutation, elem_of_remove_dups. }
    apply eq_None_not_Some. apply (stays_absent (fun h => is_Some (procs h !! n)) log pg) with (l := l);
      [intros c lg Hs; by apply q_tracked|exact (killed_later _ _ _ _ T1 L1)|etrans; [exact L2|done]|by apply eq_None_not_Some].
  - intros z Ez. destruct (E3 z Ez) as (l & L1 & L2 & L3).
    apply eq_None_not_Some. apply (stays_absent (fun h => is_Some (cgroups h !! z)) log pg) with (l := l);
      [intros c lg Hs; by apply q_cgroup|done|done|by apply eq_None_not_Some].
  - apply none_inside. apply (stays_absent (fun h => Exists (fun m => inside job_dir (m_point m) = true) (mounts h)) log pg) with (l := lm);
      [intros c lg Hs; by apply q_mount|done|done|by apply none_inside].
Qed.
End exact.
(** ** The cleanup returns *)

(** Kernel law: fewer than [K] children of a group can be reaped in a row. *)
Class FewChildren `{Kernel} (K : nat) : Prop := few_children : forall g log, exists k, (k < K)%nat /\
  let l := repeat (CWaitpg g) (S k) ++ log in is_Some (fails l) \/ fst (waited l) <= 0.

Section returns.
Context `{KernelOk} `{!MountsOk} `{!ClockLaws} (K : nat) `{!FewChildren K}.

Lemma reap_loop_returns g k : forall fuel log, (k < fuel)%nat ->
  (let l := repeat (CWaitpg g) (S k) ++ log in is_Some (fails l) \/ fst (waited l) <= 0) ->
  exists log', reap_loop fuel g log = Some (Ok tt, log').
Proof.
  induction k as [|k IH]; intros fuel log Hf Hl; (destruct fuel as [|fuel]; [lia|]); cbn [reap_loop]; unfold waitpid, bind, done.
  - cbn in Hl. destruct (fails _) as [e|]; [by eexists|]. destruct (waited _) as [w st]. cbn in Hl.
    destruct Hl as [[? [=]]|Hl]. rewrite (proj2 (Z.leb_le _ _) Hl). by eexists.
  - destruct (fails _) as [e|]; [by eexists|]. destruct (waited (CWaitpg g :: log)) as [w st]. destruct (w <=? 0); [by eexists|].
    apply IH; [lia|]. assert (E : repeat (CWaitpg g) (S (S k)) ++ log = repeat (CWaitpg g) (S k) ++ CWaitpg g :: log).
    { change (repeat (CWaitpg g) (S (S k))) with (CWaitpg g :: repeat (CWaitpg g) (S k)). by rewrite repeat_cons, <- app_assoc. }
    cbn zeta in Hl |- *. by rewrite <- E.
Qed.

Lemma reap_returns fuel pg : (K <= fuel)%nat -> returns (_reap_process_group fuel pg).
Proof.
  intros Hf log. unfold _reap_process_group. destruct pg as [g|]; [|by eexists _, _]. destruct (g <=? 0); [by eexists _, _|].
  destruct (few_children g log) as (k & Hk & Hl). destruct (reap_loop_returns g k fuel log) as [log' E]; [lia|done|].
  by exists tt, log'.
Qed.

Lemma look_around_returns pg g tracked : returns (look_around pg g tracked).
Proof. unfold look_around, proc_exists. returns_auto. Qed.

Lemma drain_returns fuel pg g tracked deadline : (K <= fuel)%nat -> forall n log,
  deadline <= clock log + Z.of_nat n * PAUSE -> exists s log', drain (S n) fuel pg g tracked deadline log = Some (Ok s, log').
Proof.
  intros Hf n. induction n as [|n IH]; intros log Hn; cbn [drain]; unfold bind;
    destruct (reap_returns fuel pg Hf log) as ([] & l1 & E1); rewrite E1;
    destruct (look_around_returns pg g tracked l1) as (s & l2 & E2); rewrite E2;
    (destruct (scan_clear s); [by eexists _, _|]); unfold monotonic;
    assert (S2 : log `suffix_of` CClock :: l2) by (etrans; [exact (only_suffix _ _ _ _ _ (extends_reap _ _) E1)|];
      etrans; [exact (only_suffix _ _ _ _ _ (only_look_around _ _ _) E2)|by exists [CClock]]);
    assert (Hc := clock_mono _ _ S2).
  - rewrite (proj2 (Z.leb_le _ _)) by lia. by eexists _, _.
  - destruct (_ <=? _); [by eexists _, _|].
    destruct (returns_iter (fun pid => quietly (CKill pid SIGKILL)) (scan_pids s) (fun x => returns_quietly _) (CClock :: l2)) as ([] & l3 & E3).
    rewrite E3. unfold sleep. apply IH. assert (S3 : CClock :: l2 `suffix_of` l3).
    { eapply (only_suffix (fun _ => True)); [|exact E3]. only_auto. }
    assert (Hs := clock_sleep PAUSE l3). assert (Hm := clock_mono _ _ S3). lia.
Qed.

(** C12: The cleanup always comes to an end with a report.  With a clock that does not
    run backwards, at most [K] children to reap in a row and a mount table in ASCII,
    it returns, whatever survives the signals: 201 turns of the drain are enough for
    the two seconds it may take. *)
Theorem cleanup_returns (turns fuel : nat) (pg : option Z) (g : option string) (job_dir : string) (tracked : list Z) (log : list call) :
  turns = 201%nat -> (K <= fuel)%nat ->
  exists p log', _cleanup_legacy_resources turns fuel pg g job_dir tracked log = Some (Ok p, log').
Proof.
  intros -> Hf. unfold _cleanup_legacy_resources. unfold bind at 1.
  assert (Hk : returns (kill_all pg g (sorted_pids tracked))) by (unfold kill_all, exists_; returns_auto).
  destruct (Hk log) as ([] & l1 & ->). unfold bind at 1. unfold monotonic.
  destruct (drain_returns fuel pg g (sorted_pids tracked) (clock (CClock :: l1) + GRACE) Hf 200 (CClock :: l1)) as (s & l2 & E).
  { unfold GRACE, PAUSE. lia. }
  unfold bind at 1. rewrite E. assert (Hj : returns (_job_mounts job_dir)).
  { intros l. unfold _job_mounts, perform, bind. destruct (fails _); [by eexists _, _|]. unfold mountinfo.
    rewrite decode_mounts by apply mounts_ok. by eexists _, _. }
  revert l2 E. intros l2 _. revert l2. change (returns (let! removed := remove_cgroup g (cgroup_known s && bool_decide (cgroup_pids s = [])) in
    let! found := unmount_all job_dir in
    (if snd found && bool_decide (fst found = []) then quietly (CRmtree job_dir) else done tt) ;!
    let! there := exists_ job_dir in
    done (report pg g job_dir s removed (fst found) (snd found) (negb there)))).
  unfold remove_cgroup, unmount_all, exists_. returns_auto.
Qed.
End returns.

(** ** A host that obeys *)
Definition job : string := "/tmp/cindermote-0/mf-run-1".
Definition job_group : string := "/sys/fs/cgroup/cindermote/mf-run-1".
Definition init : proc := mk_proc "init" "S" 0 1 1 (replicate 15 "0") 2 "".
Definition payload : proc := mk_proc "a) S 1 1 (b" "R" 1 200 200 (replicate 15 "0") 900 " 0".
Definition root_mount : mount := mk_mount ["22"; "1"; "8:1"; "/"] "/" ["rw"] "ext4 /dev/sda1 rw".
Definition job_mount : mount := mk_mount ["40"; "22"; "0:41"; "/"] (job +:+ "/a b") ["rw"; "shared:7"] "tmpfs tmpfs rw".

Definition did (p : call -> bool) (log : list call) : bool := existsb p log.
Definition is_kill (c : call) : bool := match c with CKillpg _ _ => true | _ => false end.
Definition is_rmdir (c : call) : bool := match c with CRmdir _ => true | _ => false end.
Definition is_umount (c : call) : bool := match c with CUmount _ => true | _ => false end.
Definition is_rmtree (c : call) : bool := match c with CRmtree _ => true | _ => false end.
Definition scene (killed removed unmounted deleted : bool) : host := mk_host
  (if killed then {[1 := init]} else {[1 := init; 200 := payload]}) ["self"; "uptime"]
  (if removed then ∅ else {[job_group := if killed then [] else [200]]})
  (if deleted then {["/tmp"]} else {["/tmp"; job]})
  (if unmounted then [root_mount] else [root_mount; job_mount]).
Definition elapsed (log : list call) : Z := foldr (fun c t => match c with CSleep ns => Z.max 0 ns + t | _ => 1 + t end) 0 log.
Definition obeying : Kernel := {|
  host_at log := scene (did is_kill log) (did is_rmdir log) (did is_umount log) (did is_rmtree log);
  fails _ := None;
  clock log := elapsed log;
  waited _ := (0, 0);
  new_fd _ := 7;
  wrote _ := 0;
  received _ := mk_recv "" [] 0;
  ready _ := [];
  chunk _ := "";
|}.
#[local] Existing Instance obeying.

Lemma proc_ok_sample : proc_ok init /\ proc_ok payload.
Proof.
  split; constructor; cbn; unfold is_pid, is_word; try lia; try done.
  all: try (split; [done|]; repeat constructor; done). all: split; [done|auto].
Qed.

Lemma scene_ok k r u d : host_ok (scene k r u d).
Proof.
  destruct proc_ok_sample as [H1 H2]. constructor.
  - intros n p Hp. unfold scene in Hp. cbn [procs] in Hp. destruct k.
    + apply lookup_singleton_Some in Hp as [<- <-]. split; [lia|done].
    + apply lookup_insert_Some in Hp as [[<- <-]|[_ Hp]]; [split; [lia|done]|].
      apply lookup_singleton_Some in Hp as [<- <-]. split; [lia|done].
  - by repeat constructor.
  - intros g l Hl. unfold scene in Hl. cbn [cgroups] in Hl. destruct r; [by rewrite lookup_empty in Hl|].
    apply lookup_singleton_Some in Hl as [_ <-]. destruct k; repeat constructor; unfold is_pid; lia.
Qed.
#[local] Instance obeying_ok : KernelOk.
Proof. intros log. apply scene_ok. Qed.

Lemma sample_mounts_ok : mount_ok root_mount /\ mount_ok job_mount.
Proof. split; constructor; cbn; try done; try (split; [done|]); repeat constructor; done. Qed.
#[local] Instance obeying_mounts : MountsOk.
Proof. intros log. destruct sample_mounts_ok. cbn. destruct (did is_umount log); by repeat constructor. Qed.

Lemma did_later p c log : did p log = true -> did p (c :: log) = true.
Proof. unfold did. cbn. intros ->. apply orb_true_r. Qed.

(** Nothing of the job comes back: what was done stays done. *)
Lemma obeying_quiescent log : Quiescent log (Some 200) (Some job_group) job [200].
Proof.
  constructor; cbn [host_at obeying]; unfold scene; cbn [procs cgroups mounts paths].
  - done.
  - intros c l g n p [_ Hin] [= <-] Hz Hp Hg. assert (Hk : did is_kill (c :: l) = true).
    { apply did_later, existsb_exists. exists (CKillpg 200 SIGKILL). split; [by apply Hin|done]. }
    rewrite Hk in Hp. apply lookup_singleton_Some in Hp as [_ <-]. done.
  - intros c l n _ _ Hs. destruct (did is_kill l) eqn:Ek; [by rewrite (did_later _ c _ Ek) in Hs|].
    destruct (did is_kill (c :: l)); [|done]. destruct Hs as [p [<- <-]%lookup_singleton_Some]. by exists init.
  - intros c l g _ [= <-] Hs. destruct (did is_rmdir l) eqn:Ek; [by rewrite (did_later _ c _ Ek) in Hs|].
    rewrite lookup_singleton. by eexists.
  - intros c l _ Hs. destruct (did is_umount l) eqn:Ek; [by rewrite (did_later _ c _ Ek) in Hs|]. by right; left.
Qed.

Definition obeyed : option (res purge * list call) := _cleanup_legacy_resources 3 3 (Some 200) (Some job_group) job [200] [].
Definition obeyed_calls : list call := Eval vm_compute in match obeyed with Some (_, l) => l | None => [] end.
Definition obeyed_purge : purge := Eval vm_compute in match obeyed with Some (Ok p, _) => p | _ => mk_purge false false false false false false 0 [] end.

Lemma verified_cleanup_is_clean_witness : clean (Some 200) (Some job_group) job [200] (host_at obeyed_calls).
Proof.
  apply (verified_cleanup_is_clean 3 3 (Some 200) (Some job_group) job [200] [] obeyed_calls obeyed_purge).
  - apply obeying_quiescent.
  - vm_compute. reflexivity.
  - reflexivity.
Defined.

Lemma cleanup_returns_witness : exists p log',
  _cleanup_legacy_resources 201 1 (Some 200) (Some job_group) job [200] [] = Some (Ok p, log').
Proof.
  assert (ClockLaws).
  { constructor; cbn [clock obeying].
    - intros l l' [k ->]. unfold elapsed in *. induction k as [|c k IH]; [done|]. destruct c; cbn [foldr app]; lia.
    - intros ns l. unfold elapsed. cbn [foldr]. lia. }
  assert (FewChildren 1) by (intros g log; exists 0%nat; split; [lia|by right]).
  apply (cleanup_returns 1 201 1 (Some 200) (Some job_group) job [200] []); [done|lia].
Defined.

End CleanupFacts.
