(* ===== verification/McpController.v ===== *)
(** * The MCP client of a detonation: [MCPController] of mote/detonate.py

    The orchestrator plays a client to a suspicious MCP server: it initializes it,
    lists its tools, calls each with bait arguments, and stops when every call is
    answered.  The server's output arrives in chunks cut anywhere; it is hostile, so
    every message it may send is an input of [feed]. *)

From stdpp Require Import base list strings gmap.
From Stdlib Require Import ZArith Lia.
From S2P Require Import Prelude PyValue Json JsonFacts StrOps UrlFacts Evidence JsonLoads Counter Detectors PyRepr Host Admission.

Local Open Scope Z_scope.

Module McpController.
Import Admission.

(** The state of the controller: [sent] is what it has written to the server, and
    [tick] counts its uses of the clock and of the pipe. *)
Record MCPController := mk_mcp {
  detector : Detectors.DetectorEngine;
  buffer : string;
  initialized : bool;
  tools_listed : bool;
  tools_called : list string;
  errors : list string;
  pending_calls : gset Z;
  mcp_done : bool;
  done_at : option Z;
  sent : list pyval;
  tick : nat;
}.
Definition new_controller (e : Detectors.DetectorEngine) : MCPController :=
  mk_mcp e "" false false [] [] ∅ false None [] 0.

Definition set_buffer (b : string) (c : MCPController) : MCPController :=
  mk_mcp (detector c) b (initialized c) (tools_listed c) (tools_called c) (errors c) (pending_calls c) (mcp_done c) (done_at c) (sent c) (tick c).
Definition set_initialized (c : MCPController) : MCPController :=
  mk_mcp (detector c) (buffer c) true (tools_listed c) (tools_called c) (errors c) (pending_calls c) (mcp_done c) (done_at c) (sent c) (tick c).
Definition set_listed (c : MCPController) : MCPController :=
  mk_mcp (detector c) (buffer c) (initialized c) true (tools_called c) (errors c) (pending_calls c) (mcp_done c) (done_at c) (sent c) (tick c).
Definition add_error (e : string) (c : MCPController) : MCPController :=
  mk_mcp (detector c) (buffer c) (initialized c) (tools_listed c) (tools_called c) (errors c ++ [e]) (pending_calls c) (mcp_done c) (done_at c) (sent c) (tick c).
Definition set_detector (d : Detectors.DetectorEngine) (c : MCPController) : MCPController :=
  mk_mcp d (buffer c) (initialized c) (tools_listed c) (tools_called c) (errors c) (pending_calls c) (mcp_done c) (done_at c) (sent c) (S (tick c)).
(** The detector is shared: the client works on the engine as it is now. *)
Definition share (d : Detectors.DetectorEngine) (c : MCPController) : MCPController :=
  mk_mcp d (buffer c) (initialized c) (tools_listed c) (tools_called c) (errors c) (pending_calls c) (mcp_done c) (done_at c) (sent c) (tick c).
Definition add_call (index : Z) (name : string) (c : MCPController) : MCPController :=
  mk_mcp (detector c) (buffer c) (initialized c) (tools_listed c) (tools_called c ++ [name]) (errors c) ({[index]} ∪ pending_calls c) (mcp_done c)
    (done_at c) (sent c) (tick c).
Definition answer_call (index : Z) (c : MCPController) : MCPController :=
  mk_mcp (detector c) (buffer c) (initialized c) (tools_listed c) (tools_called c) (errors c) (pending_calls c ∖ {[index]}) (mcp_done c)
    (done_at c) (sent c) (tick c).

(** ** Values of the protocol *)
Definition request (id : Z) (method : string) (params : pyval) : pyval :=
  VDict [("jsonrpc", VStr "2.0"); ("id", VInt id); ("method", VStr method); ("params", params)].
Definition initialize_request : pyval := request 1 "initialize" (VDict
  [("protocolVersion", VStr "2024-11-05"); ("capabilities", VDict []);
   ("clientInfo", VDict [("name", VStr "cindermote-decoy"); ("version", VStr "1.0.0")])]).

(** The bait for one property of a tool's schema.  The text "path" is in the name in
    lower case exactly when it is in the name with its ASCII letters in lower case. *)
Definition bait (name : string) (definition : pyval) : res pyval :=
  let* kind := (if is_dict definition then get_default definition "type" (VStr "string") else Ok (VStr "string")) in
  if py_eq kind (VStr "boolean") then Ok (VBool true)
  else
    let* numeric := in_strs kind ["number"; "integer"] in
    Ok (if (numeric : bool) then VInt 1
        else if py_eq kind (VStr "array") then VList []
        else if py_eq kind (VStr "object") then VDict []
        else if contains "path" (ascii_lower name) then VStr "/home/mote/canary_file.txt"
        else VStr "CANARY_VALUE_12345").
Definition _tripwire_arguments (tool : pyval) : res pyval :=
  let* schema := (if is_dict tool then get_default tool "inputSchema" (VDict []) else Ok (VDict [])) in
  let* properties := (if is_dict schema then get_default schema "properties" (VDict []) else Ok (VDict [])) in
  match properties with
  | VDict d => let* l := map_res (fun kv => let* v := bait (fst kv) (snd kv) in Ok (fst kv, v)) d in Ok (VDict l)
  | _ => Err AttributeError
  end.

Section controller.
Context `{Interpreter}.
(** The clock and the pipe at each tick: a failed write has an errno. *)
Variables (parse_float : string -> pyfloat) (float_repr : pyfloat -> string) (repr_wide : string -> string).
Variables (time_ns : nat -> N) (monotonic : nat -> Z) (write_errno : nat -> option Z).

Definition _send (payload : pyval) (c : MCPController) : MCPController :=
  let c' := mk_mcp (detector c) (buffer c) (initialized c) (tools_listed c) (tools_called c) (errors c) (pending_calls c) (mcp_done c)
    (done_at c) (match write_errno (tick c) with None => sent c ++ [payload] | Some _ => sent c end) (S (tick c)) in
  match write_errno (tick c) with None => c' | Some e => add_error ("write:" +:+ dec e) c' end.
Definition start (c : MCPController) : MCPController := _send initialize_request c.

(** [self.done = True; self.done_at = time.monotonic()] *)
Definition finish (c : MCPController) : MCPController :=
  mk_mcp (detector c) (buffer c) (initialized c) (tools_listed c) (tools_called c) (errors c) (pending_calls c) true
    (Some (monotonic (tick c))) (sent c) (S (tick c)).
Definition finish_if_idle (c : MCPController) : MCPController := if decide (pending_calls c = ∅) then finish c else c.

Definition record_poisoning (c : MCPController) : res MCPController :=
  let* event := Detectors.make_event (time_ns (tick c)) "syscall" "tool_poisoning" "mcp_tool_description" "read" "anomalous" in
  let '(d, r) := Detectors.record (time_ns (tick c)) (detector c) event in
  let* _ := r in Ok (set_detector d c).

Definition call_tool (index : Z) (tool : pyval) (c : MCPController) : res MCPController :=
  match tool with
  | VDict d =>
      match assoc "name" d with
      | Some (VStr name) =>
          let* c := match default (VStr "") (assoc "description" d) with
                    | VStr description => if Detectors.scan_tool_description description then record_poisoning c else Ok c
                    | _ => Ok c
                    end in
          let c := add_call index name c in
          let* arguments := _tripwire_arguments tool in
          Ok (_send (request index "tools/call" (VDict [("name", VStr name); ("arguments", arguments)])) c)
      | _ => Ok (add_error "tool_entry_malformed" c)
      end
  | _ => Ok (add_error "tool_entry_malformed" c)
  end.
Fixpoint call_tools (index : Z) (tools : list pyval) (c : MCPController) : res MCPController :=
  match tools with
  | [] => Ok c
  | tool :: r => let* c := call_tool index tool c in call_tools (index + 1) r c
  end.

Definition on_initialize (message : pydict) (c : MCPController) : MCPController :=
  match default (VDict []) (assoc "result" message) with
  | VDict result =>
      if is_dict (flag_of result "serverInfo")
      then _send (request 2 "tools/list" (VDict [])) (set_initialized c)
      else add_error "initialize_missing_serverInfo" c
  | _ => add_error "initialize_missing_serverInfo" c
  end.
Definition on_tools (message : pydict) (c : MCPController) : res MCPController :=
  let tools := match default (VDict []) (assoc "result" message) with
               | VDict result => default (VList []) (assoc "tools" result)
               | _ => VList []
               end in
  let c := if is_list tools then c else add_error "tools_list_malformed" c in
  let* c := call_tools 3 (list_of tools) (set_listed c) in
  Ok (finish_if_idle c).

Definition handle_line (c : MCPController) (raw_line : string) : res MCPController :=
  if String.eqb (strip raw_line) "" then Ok c
  else
    match json_loads parse_float raw_line with
    | Refused e => Err e
    | Malformed => Ok (add_error "malformed_jsonrpc" c)
    | Loaded (VDict message) =>
        let identifier := flag_of message "id" in
        let c := if has_key "error" message then add_error ("rpc_error_" +:+ py_str float_repr repr_wide identifier) c else c in
        if py_eq identifier (VInt 1) then Ok (on_initialize message c)
        else if py_eq identifier (VInt 2) then on_tools message c
        else if is_int identifier && bool_decide (int_of identifier ∈ pending_calls c)
        then Ok (finish_if_idle (answer_call (int_of identifier) c))
        else Ok c
    | Loaded _ => Ok (add_error "non_object_jsonrpc" c)
    end.

(** The buffer is cut at its newlines; what follows the last stays in it. *)
Definition feed (chunk : string) (c : MCPController) : res MCPController :=
  let pieces := split 10 (buffer c +:+ chunk) in
  foldM handle_line (removelast pieces) (set_buffer (List.last pieces "") c).

Definition receipt (c : MCPController) : pyval := VDict
  [("initialize_completed", VBool (initialized c)); ("tools_list_completed", VBool (tools_listed c));
   ("tools_called", VList (map VStr (tools_called c))); ("errors", VList (map VStr (errors c)))].

(** ** The buffer *)
Lemma split_app s t : split 10 (s +:+ t) = removelast (split 10 s) ++ split 10 (List.last (split 10 s) "" +:+ t).
Proof.
  induction s as [|a s IH]; [done|]. rewrite append_cons. cbn [split]. assert (Hn := split_nonempty 10 s).
  destruct (split 10 s) as [|p ps] eqn:Es; [done|]. rewrite IH. destruct (ch 10 a) eqn:Ea.
  - assert (Hx := split_nonempty 10 (s +:+ t)). rewrite IH in Hx.
    change (removelast ("" :: p :: ps)) with ("" :: removelast (p :: ps)). change (List.last ("" :: p :: ps) "") with (List.last (p :: ps) "").
    rewrite <- app_comm_cons. by destruct (removelast (p :: ps) ++ _).
  - destruct ps as [|q ps]; [|done]. cbn [removelast List.last app]. rewrite append_cons. cbn [split]. rewrite Ea.
    by destruct (split 10 (p +:+ t)).
Qed.

(** No message reads or writes the buffer. *)
Lemma send_buffer b p c : _send p (set_buffer b c) = set_buffer b (_send p c).
Proof. unfold _send. cbn. by destruct (write_errno (tick c)). Qed.
Lemma idle_buffer b c : finish_if_idle (set_buffer b c) = set_buffer b (finish_if_idle c).
Proof. unfold finish_if_idle. cbn. by destruct (decide _). Qed.
Lemma poisoning_buffer b c : record_poisoning (set_buffer b c) = set_buffer b <$> record_poisoning c.
Proof.
  unfold record_poisoning. cbn [tick set_buffer detector]. destruct (Detectors.make_event _ _ _ _ _ _) as [event|]; [|done].
  cbn [mbind res_bind]. destruct (Detectors.record _ _ _) as [d [[]|]]; done.
Qed.
Lemma bind_fmap {A B} (f : A -> A) (g : B -> B) (m : res A) (k : A -> res B) :
  (forall a, k (f a) = g <$> k a) -> (let* a := f <$> m in k a) = g <$> (let* a := m in k a).
Proof. intros Hk. destruct m; [apply Hk|done]. Qed.

Lemma call_tool_buffer b index tool c : call_tool index tool (set_buffer b c) = set_buffer b <$> call_tool index tool c.
Proof.
  unfold call_tool. destruct tool as [| | | | | | |d]; try done. destruct (assoc "name" d) as [[]|]; try done.
  rewrite <- (bind_fmap (set_buffer b) (set_buffer b)).
  - f_equal. destruct (default (VStr "") (assoc "description" d)); try done.
    destruct (Detectors.scan_tool_description _); [apply poisoning_buffer|done].
  - intros c'. destruct (_tripwire_arguments _); [|done]. cbn. by rewrite <- send_buffer.
Qed.

Lemma call_tools_buffer b tools : forall index c, call_tools index tools (set_buffer b c) = set_buffer b <$> call_tools index tools c.
Proof.
  induction tools as [|tool tools IH]; intros index c; [done|]. cbn [call_tools]. rewrite call_tool_buffer.
  apply bind_fmap. intros c'. apply IH.
Qed.

Lemma on_tools_buffer b m c : on_tools m (set_buffer b c) = set_buffer b <$> on_tools m c.
Proof.
  unfold on_tools. set (tools := match default _ _ with VDict _ => _ | _ => _ end).
  assert (E : set_listed (if is_list tools then set_buffer b c else add_error "tools_list_malformed" (set_buffer b c))
              = set_buffer b (set_listed (if is_list tools then c else add_error "tools_list_malformed" c))) by (by destruct (is_list tools)).
  rewrite E, call_tools_buffer. apply bind_fmap. intros c'. cbn. by rewrite idle_buffer.
Qed.

Lemma handle_line_buffer b l c : handle_line (set_buffer b c) l = set_buffer b <$> handle_line c l.
Proof.
  unfold handle_line. destruct (String.eqb (strip l) ""); [done|]. destruct (json_loads parse_float l) as [v| |]; [|done..].
  destruct v as [| | | | | | |m]; try done.
  set (e := py_str float_repr repr_wide _). assert (E : (if has_key "error" m then add_error ("rpc_error_" +:+ e) (set_buffer b c) else set_buffer b c)
    = set_buffer b (if has_key "error" m then add_error ("rpc_error_" +:+ e) c else c)) by (by destruct (has_key "error" m)).
  rewrite E. set (c' := if has_key "error" m then _ else _). destruct (py_eq _ (VInt 1)).
  { unfold on_initialize. destruct (default _ _); try done. destruct (is_dict _); [|done]. cbn. by rewrite <- send_buffer. }
  destruct (py_eq _ (VInt 2)); [apply on_tools_buffer|]. cbn [pending_calls set_buffer]. destruct (_ && _); [|done].
  cbn. by rewrite <- idle_buffer.
Qed.

Lemma fold_lines_buffer b ls : forall c, foldM handle_line ls (set_buffer b c) = set_buffer b <$> foldM handle_line ls c.
Proof.
  induction ls as [|l ls IH]; intros c; [done|]. cbn [foldM]. rewrite handle_line_buffer. apply bind_fmap. intros c'. apply IH.
Qed.

Lemma last_of_app (l m : list string) : m <> [] -> List.last (l ++ m) "" = List.last m "".
Proof.
  intros Hm. induction l as [|x l IH]; [done|]. rewrite <- app_comm_cons, <- IH. destruct l; [by destruct m|done].
Qed.

(** C14: How the server's output is cut does not matter.  Feeding two chunks one after
    the other has the same result, sent messages and exceptions included, as feeding
    them joined, wherever the cut is: in a line, in a character, at a newline. *)
Theorem feed_chunks (a b : string) (c : MCPController) : feed (a +:+ b) c = (let* c' := feed a c in feed b c').
Proof.
  unfold feed. rewrite <- append_assoc, split_app. set (pa := split 10 (buffer c +:+ a)).
  assert (Hn := split_nonempty 10 (List.last pa "" +:+ b)). set (pb := split 10 (List.last pa "" +:+ b)) in *.
  rewrite removelast_app, foldM_app, last_of_app by done. rewrite !fold_lines_buffer.
  destruct (foldM handle_line (removelast pa) c) as [c0|e]; [|done]. done.
Qed.

(** ** Exceptions *)

(** The exception a tool entry raises, if any. *)
Definition tool_raises (tool : pyval) : option exn :=
  match tool with
  | VDict d =>
      match assoc "name" d with
      | Some (VStr _) => match _tripwire_arguments tool with Err e => Some e | Ok _ => None end
      | _ => None
      end
  | _ => None
  end.
Definition first_some {A B} (f : A -> option B) (l : list A) : option B :=
  foldr (fun x r => match f x with Some b => Some b | None => r end) None l.
Definition line_raises (raw_line : string) : option exn :=
  if String.eqb (strip raw_line) "" then None
  else match json_loads parse_float raw_line with
       | Refused e => Some e
       | Loaded (VDict message) =>
           let identifier := flag_of message "id" in
           if negb (py_eq identifier (VInt 1)) && py_eq identifier (VInt 2)
           then match default (VDict []) (assoc "result" message) with
                | VDict result => first_some tool_raises (list_of (default (VList []) (assoc "tools" result)))
                | _ => None
                end
           else None
       | _ => None
       end.

Definition agrees {A} (o : option exn) (r : res A) : Prop := match o with Some e => r = Err e | None => exists a, r = Ok a end.

Lemma poisoning_returns c : exists c', record_poisoning c = Ok c'.
Proof.
  unfold record_poisoning. rewrite Detectors.make_event_fixed by done. cbn [mbind res_bind]. unfold Detectors.record.
  assert (Hv := Detectors.make_event_valid _ _ _ _ _ _ _ (Detectors.make_event_fixed (time_ns (tick c)) "syscall" "tool_poisoning"
    "mcp_tool_description" "read" "anomalous" eq_refl eq_refl eq_refl eq_refl eq_refl)). rewrite Hv. by eexists.
Qed.

Lemma call_tool_raises index tool c : agrees (tool_raises tool) (call_tool index tool c).
Proof.
  unfold tool_raises, call_tool. destruct tool as [| | | | | | |d]; try (by eexists). destruct (assoc "name" d) as [[]|]; try (by eexists).
  assert (E : exists c', match default (VStr "") (assoc "description" d) with
    | VStr description => if Detectors.scan_tool_description description then record_poisoning c else Ok c | _ => Ok c end = Ok c').
  { destruct (default _ _); try (by eexists). destruct (Detectors.scan_tool_description _); [apply poisoning_returns|by eexists]. }
  destruct E as [c' ->]. cbn [mbind res_bind]. destruct (_tripwire_arguments _); [by eexists|done].
Qed.

Lemma call_tools_raise tools : forall index c, agrees (first_some tool_raises tools) (call_tools index tools c).
Proof.
  induction tools as [|tool tools IH]; intros index c; [by eexists|]. cbn. assert (Ht := call_tool_raises index tool c).
  destruct (tool_raises tool); cbn in Ht; [by rewrite Ht|]. destruct Ht as [c' ->]. apply IH.
Qed.

Lemma handle_line_raises l c : agrees (line_raises l) (handle_line c l).
Proof.
  unfold line_raises, handle_line. destruct (String.eqb (strip l) ""); [by eexists|]. destruct (json_loads parse_float l) as [v| |]; [|by eexists|done].
  destruct v as [| | | | | | |m]; try (by eexists). set (c' := if has_key "error" m then _ else _).
  destruct (py_eq _ (VInt 1)); [by eexists|]. destruct (py_eq _ (VInt 2)); cbn [negb andb].
  2:{ destruct (_ && _); by eexists. }
  unfold on_tools. destruct (default (VDict []) (assoc "result" m)) as [| | | | | | |r]; try (by eexists).
  set (tools := default _ _). match goal with |- agrees _ (let* _ := call_tools 3 _ ?c0 in _) => assert (Ht := call_tools_raise (list_of tools) 3 c0) end.
  destruct (first_some _ _); cbn in Ht |- *; [by rewrite Ht|]. destruct Ht as [c1 ->]. by eexists.
Qed.

(** C15: What makes the client raise.  [feed] raises exactly when a line that the chunk
    completes makes [json.loads] raise something else than a decoding error (an integer
    of more than 4300 digits, a [ValueError]; more nested containers than the
    interpreter's recursion limit leaves room for, a [RecursionError], that limit being
    a parameter), or answers the tool listing with a tool whose schema is not a mapping
    of properties or gives a property an unhashable type; the exception is that of the
    first such line.  Every other output, malformed text included, is handled. *)
Theorem feed_raises (chunk : string) (c : MCPController) :
  agrees (first_some line_raises (removelast (split 10 (buffer c +:+ chunk)))) (feed chunk c).
Proof.
  unfold feed. generalize (set_buffer (List.last (split 10 (buffer c +:+ chunk)) "") c) as c0.
  induction (removelast _) as [|l ls IH]; intros c0; [by eexists|]. cbn. assert (Hl := handle_line_raises l c0).
  destruct (line_raises l); cbn in Hl; [by rewrite Hl|]. destruct Hl as [c1 ->]. apply IH.
Qed.
End controller.
End McpController.
