(* ===== verification/Output.v ===== *)
(** * The output of a payload: mote/detonate.py

    How the bytes a payload writes are kept within the budget, and how what it wrote
    to its error stream is reduced to a diagnostic. *)

From stdpp Require Import base list strings.
From Stdlib Require Import ZArith Lia.
From S2P Require Import Prelude PyValue Json StrOps Evidence Detectors WorkerWire.

Local Open Scope Z_scope.

Module Output.
Import WorkerWire.

Record output := mk_output { raw_stdout : string; raw_stderr : string; truncated : bool }.
Definition no_output : output := mk_output "" "" false.

(** [max_output_bytes - len(raw_stdout) - len(raw_stderr)] *)
Definition room (max_output_bytes : Z) (o : output) : Z := max_output_bytes - size (raw_stdout o) - size (raw_stderr o).
(** [chunk[: max(0, remaining)]] *)
Definition kept (max_output_bytes : Z) (o : output) (chunk : string) : string :=
  StrOps.slice (Z.to_nat (room max_output_bytes o)) chunk.

(** A chunk read in the tracing loop; [clipped] is the test of the drain after it,
    which compares with [max(remaining, 0)]. *)
Definition keep (clipped : bool) (max_output_bytes : Z) (stdout : bool) (chunk : string) (o : output) : output :=
  let remaining := room max_output_bytes o in
  let part := if 0 <? remaining then kept max_output_bytes o chunk else "" in
  mk_output (if stdout then raw_stdout o +:+ part else raw_stdout o) (if stdout then raw_stderr o else raw_stderr o +:+ part)
    (truncated o || ((if clipped then Z.max remaining 0 else remaining) <? size chunk)).

(** ** Diagnostics *)
Definition _OBSERVATION_LOAD_SIGNATURES : list string :=
  ["error while loading shared libraries"; "cannot open shared object file"; "Fatal Python error: init_";
   "ModuleNotFoundError: No module named 'encodings'"].
Definition _WRAPPER_WARNING_PREFIX : string := "WARNING: Cindermote is using degraded-user isolation".

(** [decode("ascii", errors="replace")] puts U+FFFD for a byte that is not ASCII, and
    every character that is not printable becomes a question mark. *)
Definition _bounded_diagnostic_line (line : string) : string :=
  StrOps.slice 240 (str_map (fun c => if in_range 32 126 (byte_of c) then c else ascii_of 63) line).

Fixpoint load_diagnostic (fallback : string) (lines : list string) : string * string :=
  match lines with
  | [] => ("", fallback)
  | line :: r =>
      let stripped := strip line in
      if String.eqb stripped "" || startswith _WRAPPER_WARNING_PREFIX stripped then load_diagnostic fallback r
      else
        let fallback := if String.eqb fallback "" then _bounded_diagnostic_line stripped else fallback in
        if existsb (fun signature => contains signature stripped) _OBSERVATION_LOAD_SIGNATURES
        then ("library_load", _bounded_diagnostic_line stripped)
        else load_diagnostic fallback r
  end.
Definition _observation_load_diagnostic (raw_stderr : string) : string * string := load_diagnostic "" (split 10 raw_stderr).

(** ** The budget *)
Definition within (max_output_bytes : Z) (o : output) : Prop := 0 <= room max_output_bytes o.
(** What the payload wrote to the two streams, in the order it was read. *)
Definition written (stdout : bool) (l : list (bool * string)) : string :=
  String.concat "" (map snd (List.filter (fun c => Bool.eqb (fst c) stdout) l)).

Definition keep_all (max_output_bytes : Z) (l : list (bool * string)) (o : output) : output :=
  foldl (fun o c => keep false max_output_bytes (fst c) (snd c) o) o l.

Lemma slice_length n s : String.length (StrOps.slice n s) = Nat.min n (String.length s).
Proof.
  destruct (Nat.le_gt_cases n (String.length s)); [rewrite slice_long by done; lia|]. rewrite slice_all by lia. lia.
Qed.

Lemma slice_prefix n s : exists t, s = StrOps.slice n s +:+ t.
Proof.
  revert n. induction s as [|a s IH]; intros n; [exists ""; unfold StrOps.slice; by destruct n|]. destruct n as [|n]; [by exists (String a s)|].
  destruct (IH n) as [t Ht]. exists t. unfold StrOps.slice in *. cbn [String.substring]. rewrite append_cons. by rewrite <- Ht.
Qed.

Lemma size_out_app s t : size (s +:+ t) = size s + size t.
Proof. unfold size. rewrite length_append. lia. Qed.

Lemma kept_size max o chunk : within max o -> size (kept max o chunk) = Z.min (room max o) (size chunk).
Proof. unfold within, kept, size. intros Hw. rewrite slice_length. lia. Qed.

Lemma size_empty : size "" = 0.
Proof. done. Qed.

Lemma keep_within max stdout chunk o : within max o -> within max (keep false max stdout chunk o).
Proof.
  intros Hw. assert (Hk := kept_size max o chunk Hw). unfold within in *. unfold keep. destruct (Z.ltb_spec 0 (room max o)) as [Hr|Hr];
    unfold room at 1; cbn [raw_stdout raw_stderr]; unfold room in Hk, Hw, Hr; destruct stdout; rewrite size_out_app, ?size_empty; lia.
Qed.

(** What is known of the output kept of the chunks read so far. *)
Record kept_of (max : Z) (l : list (bool * string)) (o : output) : Prop := {
  ko_within : within max o;
  ko_stdout : exists t, written true l = raw_stdout o +:+ t /\ (truncated o = false -> t = "");
  ko_stderr : exists t, written false l = raw_stderr o +:+ t /\ (truncated o = false -> t = "");
  ko_total : truncated o = (max <? size (written true l) + size (written false l));
  ko_full : truncated o = true -> room max o = 0;
}.

Lemma written_snoc b l c : written b (l ++ [c]) = written b l +:+ (if Bool.eqb (fst c) b then snd c else "").
Proof.
  unfold written. rewrite List.filter_app, map_app. generalize (map snd (List.filter (fun c => Bool.eqb (fst c) b) l)) as m. intros m. cbn.
  destruct (Bool.eqb (fst c) b); cbn.
  - induction m as [|x [|y m] IH]; [by destruct (snd c)|done|]. change (x +:+ String.concat "" ((y :: m) ++ [snd c]) = (x +:+ String.concat "" (y :: m)) +:+ snd c).
    by rewrite IH, append_assoc.
  - by rewrite app_nil_r, append_nil_r.
Qed.

Lemma slice_zero s : StrOps.slice 0 s = "".
Proof. by destruct s. Qed.

Lemma kept_whole max o chunk : size chunk <= room max o -> kept max o chunk = chunk.
Proof. unfold kept, size. intros Hs. apply slice_all. lia. Qed.

Lemma size_zero s : size s = 0 -> s = "".
Proof. unfold size. destruct s; [done|]. cbn. lia. Qed.
Lemma size_out_nonneg s : 0 <= size s.
Proof. unfold size. lia. Qed.

Lemma keep_part max b chunk o : within max o -> keep false max b chunk o =
  mk_output (if b then raw_stdout o +:+ kept max o chunk else raw_stdout o) (if b then raw_stderr o else raw_stderr o +:+ kept max o chunk)
    (truncated o || (room max o <? size chunk)).
Proof.
  intros Hw. unfold keep. assert ((if 0 <? room max o then kept max o chunk else "") = kept max o chunk) as ->; [|done].
  destruct (Z.ltb_spec 0 (room max o)) as [|Hr]; [done|]. unfold kept. replace (Z.to_nat (room max o)) with 0%nat by (unfold within in Hw; lia).
  by rewrite slice_zero.
Qed.

Lemma keep_room max b chunk o : within max o -> room max (keep false max b chunk o) = room max o - Z.min (room max o) (size chunk).
Proof.
  intros Hw. rewrite keep_part, <- (kept_size max o chunk) by done. unfold room at 1. cbn [raw_stdout raw_stderr].
  destruct b; rewrite size_out_app; unfold room; lia.
Qed.

(** One stream: what was written to it so far and what is kept. *)
Lemma keep_stream max o w raw t chunk (mine : bool) : within max o ->
  w = raw +:+ t -> (truncated o = false -> t = "") -> (truncated o = true -> room max o = 0) ->
  exists t', w +:+ (if mine then chunk else "") = (if mine then raw +:+ kept max o chunk else raw) +:+ t' /\
    (truncated o || (room max o <? size chunk) = false -> t' = "").
Proof.
  intros Hw -> Ht Hfull. assert (Hk := kept_size max o chunk Hw). destruct mine.
  2:{ exists t. rewrite append_nil_r. split; [done|]. intros [Hf _]%orb_false_iff. auto. }
  destruct (slice_prefix (Z.to_nat (room max o)) chunk) as [rest Hrest]. fold (kept max o chunk) in Hrest.
  assert (Hsz : size chunk = size (kept max o chunk) + size rest) by (rewrite Hrest at 1; apply size_out_app).
  destruct (truncated o).
  - rewrite (Hfull eq_refl) in Hk. assert (Hc := size_out_nonneg chunk). rewrite (size_zero (kept max o chunk)) by lia. exists (t +:+ chunk).
    rewrite append_nil_r, append_assoc. done.
  - rewrite (Ht eq_refl), append_nil_r. exists rest. rewrite append_assoc, <- Hrest. split; [done|]. cbn. intros Hn.
    apply size_zero. apply Z.ltb_ge in Hn. lia.
Qed.

Lemma keep_kept max l o b chunk : kept_of max l o -> kept_of max (l ++ [(b, chunk)]) (keep false max b chunk o).
Proof.
  intros [Hw (t1 & E1 & Ht1) (t2 & E2 & Ht2) Htot Hfull]. assert (Hc := size_out_nonneg chunk).
  assert (Htr : truncated (keep false max b chunk o) = truncated o || (room max o <? size chunk)) by (by rewrite keep_part).
  constructor.
  - by apply keep_within.
  - rewrite Htr, keep_part, written_snoc by done. cbn [raw_stdout fst snd]. destruct (keep_stream max o _ _ t1 chunk b Hw E1 Ht1 Hfull) as (t & Et & Ht).
    exists t. split; [|done]. by destruct b.
  - rewrite Htr, keep_part, written_snoc by done. cbn [raw_stderr fst snd]. destruct (keep_stream max o _ _ t2 chunk (negb b) Hw E2 Ht2 Hfull) as (t & Et & Ht).
    exists t. split; [|done]. by destruct b.
  - rewrite Htr, Htot, !written_snoc. cbn [fst snd]. assert (Ha : size (written true l) + size (written false l) + size chunk
      = size (written true l +:+ (if Bool.eqb b true then chunk else "")) + size (written false l +:+ (if Bool.eqb b false then chunk else ""))).
    { destruct b; cbn [Bool.eqb]; rewrite append_nil_r, size_out_app; lia. }
    rewrite <- Ha. rewrite Htot in Ht1, Ht2. destruct (Z.ltb_spec max (size (written true l) + size (written false l))) as [Hlt|Hge].
    { symmetry. apply Z.ltb_lt. lia. }
    rewrite E1, E2, (Ht1 eq_refl), (Ht2 eq_refl), !append_nil_r. cbn [orb]. unfold room. apply Bool.eq_iff_eq_true. rewrite !Z.ltb_lt. lia.
  - rewrite Htr. rewrite keep_room by done. unfold within in Hw. intros [Hf|Hl%Z.ltb_lt]%orb_true_iff; [rewrite (Hfull Hf); lia|lia].
Qed.

(** C13: A payload's output is kept within the budget and nothing is lost silently.
    However the payload's writes to its two streams are cut and interleaved, at most
    [max_output_bytes] are kept in all, what is kept of each stream is a prefix of
    what was written to it, and the run is marked truncated exactly when more than
    the budget was written; otherwise both streams are kept whole. *)
Theorem output_within_budget (max : Z) (l : list (bool * string)) :
  0 <= max ->
  let o := keep_all max l no_output in
  size (raw_stdout o) + size (raw_stderr o) <= max /\
  (exists t, written true l = raw_stdout o +:+ t) /\ (exists t, written false l = raw_stderr o +:+ t) /\
  truncated o = (max <? size (written true l) + size (written false l)) /\
  (truncated o = false -> raw_stdout o = written true l /\ raw_stderr o = written false l).
Proof.
  intros Hm. assert (Hk : kept_of max l (keep_all max l no_output)).
  { induction l as [|[b chunk] l IH] using rev_ind.
    - constructor; [unfold within, room, size; cbn; lia|by exists ""..| |done]. cbn. symmetry. by apply Z.ltb_ge.
    - unfold keep_all. rewrite foldl_app. cbn [foldl fst snd]. by apply keep_kept. }
  destruct Hk as [Hw (t1 & E1 & Ht1) (t2 & E2 & Ht2) Htot _]. unfold within, room in Hw. cbn zeta.
  split_and!; [lia|by exists t1|by exists t2|done|]. intros Hf. rewrite E1, E2, (Ht1 Hf), (Ht2 Hf), !append_nil_r. done.
Qed.

Lemma output_within_budget_witness :
  let l := [(true, "abc"); (false, "xy"); (true, "def")] in
  let o := keep_all 6 l no_output in size (raw_stdout o) + size (raw_stderr o) <= 6.
Proof. exact (proj1 (output_within_budget 6 [(true, "abc"); (false, "xy"); (true, "def")] ltac:(lia))). Defined.

End Output.
