(* ===== verification/Detonate.v ===== *)
(** * A detonation: [detonate] of mote/detonate.py

    The run of an admitted payload under the tracer, and what is concluded from it:
    the findings the orchestrator adds itself, the cleanup, the uncertainty, the
    report, the gate's decision and the receipt.  A detector is shared by the
    tracer, the MCP client and the orchestrator: it is the tracer's, and the client
    works on a copy that is put back. *)

From stdpp Require Import base list strings gmap sorting.
From Stdlib Require Import ZArith Lia.
From S2P Require Import Prelude PyValue Json StrOps Ip Url BrowserEvidence Evidence Counter Detectors OutwardReport PolicyGate DetonationReceipt Tracer WorkerWire IncidentGate Host Admission Launch Cleanup JsonLoads McpController Output.

Local Open Scope Z_scope.

Module Detonate.
Import Detectors Tracer Host Admission Launch Output.

Definition SIGTERM : Z := 15.
Definition MS : Z := 1000000.

(** ** Policies *)
Definition BUDGET_NAMES : list string := ["wall_clock_sec"; "cpu_vcpu"; "ram_mib"; "pids"; "max_output_bytes"].
(** The checks of [load_policy] on the object it read: [True] is an [int]. *)
Definition check_policy (policy : pyval) : res pyval :=
  let* budgets := get policy "budgets" in
  raise (ValueError "policy.budgets is required") when negb (is_dict budgets);;
  let* _ := foldM (fun _ name =>
    let* v := get budgets name in
    raise (ValueError ("invalid policy budget: " +:+ name)) when negb (is_int v) || (int_of v <=? 0);;
    Ok tt) BUDGET_NAMES tt in
  Ok policy.

(** ** Artifacts *)
Section preflight.
Context `{Interpreter}.
Variable parse_float : string -> pyfloat.
(** What [json.loads(path.read_text(encoding="utf-8"))] gives; [None]: the file cannot be read. *)
Definition load_artifact (raw : option string) : loaded :=
  match raw with
  | None => Malformed
  | Some raw =>
      if Evidence.utf8_ok 0 128 191 raw && negb (has_surrogate raw) then json_text parse_float raw else Malformed
  end.
(** The descriptions [_preflight_artifact] scans. *)
Definition described (value : pyval) : list string :=
  let tools := match value with VDict d => default (VList [value]) (assoc "tools" d) | _ => VList [] end in
  omap (fun tool => match tool with VDict d => match assoc "description" d with Some (VStr s) => Some s | _ => None end | _ => None end)
    (list_of tools).
End preflight.

Section detonate.
Context `{Interpreter} `{Kernel} `{Clock} `{Unicode} `{UnicodeDigits}.
Variables (parse_float : string -> pyfloat) (float_repr : pyfloat -> string) (repr_wide : string -> string).
(** The clock and the pipe of the MCP client. *)
Variables (mcp_ns : nat -> N) (mcp_monotonic : nat -> Z) (mcp_errno : nat -> option Z).
(** What the tracer reads of a stopped process. *)
Variable answers_at : list call -> answers.

(** [time.monotonic_ns()] *)
Definition now_ns : io N := let! t := monotonic in done (Z.to_N t).

(** [detector.record(make_event("syscall", ...))] *)
Definition note (rule_id subject action hint : string) (t : HostTracer) : io HostTracer :=
  let! now := now_ns in
  match emit now "syscall" rule_id subject action hint t with
  | (t', Ok _) => done t'
  | (_, Err x) => raise_ x
  end.
(** [detector.mark_telemetry_loss()] *)
Definition lose (t : HostTracer) : io HostTracer :=
  let! now := now_ns in
  match Tracer.call (MarkTelemetryLoss now) t with
  | (t', Ok _) => done t'
  | (_, Err x) => raise_ x
  end.
Definition _record_isolation_admission_failure (t : HostTracer) : io HostTracer :=
  note "isolation_admission_failure" "required_isolation_control_missing" "exit" "known_bad" t.

(** [_preflight_artifact]: a listed description that reads like instructions is a finding. *)
Fixpoint scan_descriptions (l : list string) (t : HostTracer) : io HostTracer :=
  match l with
  | [] => done t
  | s :: r =>
      let! t := (if scan_tool_description s
                 then note "tool_poisoning" "tool_definition_description" "read" "anomalous" t else done t) in
      scan_descriptions r t
  end.
Definition _preflight_artifact (raw : option string) (artifact_type : string) (t : HostTracer) : io HostTracer :=
  if negb (String.eqb artifact_type "tool-definition") then done t
  else match load_artifact parse_float raw with
       | Refused e => raise_ e
       | Malformed => note "malformed_report" "tool_definition" "read" "known_bad" t
       | Loaded value => scan_descriptions (described value) t
       end.

(** ** After the launch *)

(** What the launch adds to the detector: an isolation failure is a finding and a
    loss of telemetry; a failed release is the finding unless it is there already.
    The calls of [refuse] and of the handler do not touch the detector, so what it
    is told comes after them here. *)
Definition after_launch (l : launched) : io (HostTracer * bool) :=
  match l with
  | LaunchError _ => raise_ (ValueError "denied before the launch")
  | NotAdmitted st =>
      let! t := _record_isolation_admission_failure (s_tracer st) in
      let! t := lose t in done (t, true)
  | ReleaseFailed st e t =>
      let t := set_error e t in
      let! t := (if has_key "isolation_admission_failure" (finding_counts (detector t)) then done t
                 else _record_isolation_admission_failure t) in
      let! t := lose t in done (t, true)
  | Running _ t => done (t, false)
  end.

(** ** The tracing loop *)
Record monitor := mk_monitor {
  m_tracer : HostTracer;
  m_mcp : option McpController.MCPController;
  m_output : output;
  m_incomplete : bool;
  m_exhausted : bool;
  m_killed : bool;
  m_escape_handled : bool;
  m_open : bool * bool;
  m_cleanup : list Z;
}.
Definition with_tracer (t : HostTracer) (m : monitor) : monitor :=
  mk_monitor t (m_mcp m) (m_output m) (m_incomplete m) (m_exhausted m) (m_killed m) (m_escape_handled m) (m_open m) (m_cleanup m).
Definition with_killed (m : monitor) : monitor :=
  mk_monitor (m_tracer m) (m_mcp m) (m_output m) (m_incomplete m) (m_exhausted m) true (m_escape_handled m) (m_open m) (m_cleanup m).
Definition with_exhausted (m : monitor) : monitor :=
  mk_monitor (m_tracer m) (m_mcp m) (m_output m) (m_incomplete m) true (m_killed m) (m_escape_handled m) (m_open m) (m_cleanup m).
Definition with_handled (m : monitor) : monitor :=
  mk_monitor (m_tracer m) (m_mcp m) (m_output m) (m_incomplete m) (m_exhausted m) (m_killed m) true (m_open m) (m_cleanup m).
Definition with_incomplete (m : monitor) : monitor :=
  mk_monitor (m_tracer m) (m_mcp m) (m_output m) true (m_exhausted m) (m_killed m) (m_escape_handled m) (m_open m) (m_cleanup m).
Definition with_closed (stdout : bool) (m : monitor) : monitor :=
  mk_monitor (m_tracer m) (m_mcp m) (m_output m) (m_incomplete m) (m_exhausted m) (m_killed m) (m_escape_handled m)
    (if stdout then (false, snd (m_open m)) else (fst (m_open m), false)) (m_cleanup m).
Definition give_up_pids (m : monitor) : monitor :=
  mk_monitor (set_active ∅ (m_tracer m)) (m_mcp m) (m_output m) (m_incomplete m) (m_exhausted m) (m_killed m) (m_escape_handled m)
    (m_open m) (m_cleanup m ++ elements (active_pids (m_tracer m))).
Definition with_chunk (o : output) (t : HostTracer) (mcp : option McpController.MCPController) (m : monitor) : monitor :=
  mk_monitor t mcp o (m_incomplete m || truncated o) (m_exhausted m) (m_killed m) (m_escape_handled m) (m_open m) (m_cleanup m).

Definition killpg (process_pid signal : Z) : io unit := must_unless Host.ESRCH (CKillpg process_pid signal).

(** The checks at the head of a turn, each followed by at most one kill. *)
Definition check_budget (start now wall_clock_sec process_pid : Z) (m : monitor) : io monitor :=
  if (wall_clock_sec * SECOND <? now - start) && negb (m_killed m)
  then
    let! t := note "budget_exhausted" "wall_clock" "exit" "anomalous" (m_tracer m) in
    killpg process_pid SIGKILL ;! done (with_killed (with_exhausted (with_tracer t m)))
  else done m.
Definition check_escape (host_file job_id : string) (m : monitor) : io monitor :=
  if namespace_escape (m_tracer m) && negb (m_escape_handled m)
  then
    must (CCapture (elements (active_pids (m_tracer m)))) ;!
    must (CWrite host_file job_id) ;!
    _write_alert "namespace_escape_suspicion" (VDict []) ;!
    done (with_handled m)
  else done m.
Definition check_violation (process_pid : Z) (m : monitor) : io monitor :=
  if seccomp_violation (m_tracer m) && negb (m_killed m)
  then killpg process_pid SIGKILL ;! done (with_killed m) else done m.
Definition check_mcp (now process_pid : Z) (m : monitor) : io monitor :=
  match m_mcp m with
  | Some c =>
      match McpController.done_at c with
      | Some at_ => if (50 * MS <? now - at_) && negb (m_killed m) then killpg process_pid SIGTERM ;! done (with_killed m) else done m
      | None => done m
      end
  | None => done m
  end.

(** Every wait status that is there now. *)
Fixpoint wait_all (fuel : nat) (t : HostTracer) : io HostTracer :=
  match fuel with
  | O => stuck
  | S fuel =>
      let! w := waitpid (CWaitpid (-1)) in
      match w with
      | inl e => if e =? Host.ECHILD then done (set_active ∅ t) else raise_ (OSError "waitpid")
      | inr (waited_pid, status) =>
          if waited_pid <=? 0 then done t
          else fun log =>
            let '(t', resumed, r) := process_wait_status (answers_at log) waited_pid status t in
            (iter_io (fun p => quietly (CPtrace PTRACE_SYSCALL (fst p))) resumed ;!
             match r with Ok _ => wait_all fuel t' | Err x => raise_ x end) log
      end
  end.

(** The client reads what is kept of the output, on the tracer's detector. *)
Definition feed_client (stdout : bool) (part : string) (t : HostTracer) (mcp : option McpController.MCPController)
    : res (HostTracer * option McpController.MCPController) :=
  match mcp with
  | Some c =>
      if stdout
      then let* c := McpController.feed parse_float float_repr repr_wide mcp_ns mcp_monotonic mcp_errno part (McpController.share (detector t) c) in
           Ok (set_detector (McpController.detector c) t, Some c)
      else Ok (t, mcp)
  | None => Ok (t, mcp)
  end.
Definition take_chunk (clipped : bool) (max_output_bytes : Z) (stdout : bool) (chunk : string) (m : monitor) : res monitor :=
  let o := keep clipped max_output_bytes stdout chunk (m_output m) in
  let* x := feed_client stdout (kept max_output_bytes (m_output m) chunk) (m_tracer m) (m_mcp m) in
  let '(t, mcp) := x in Ok (with_chunk o t mcp m).

Fixpoint read_ready (max_output_bytes : Z) (l : list bool) (m : monitor) : io monitor :=
  match l with
  | [] => done m
  | stdout :: r =>
      let! read := read_stream stdout in
      match read with
      | inl e => if e =? Host.EAGAIN then read_ready max_output_bytes r m else raise_ (OSError "read")
      | inr chunk =>
          if String.eqb chunk "" then read_ready max_output_bytes r (with_closed stdout m)
          else let! m := pure (take_chunk false max_output_bytes stdout chunk m) in read_ready max_output_bytes r m
      end
  end.
Definition check_trace (process_pid : Z) (m : monitor) : io monitor :=
  match trace_error (m_tracer m) with
  | None => done m
  | Some _ => if m_killed m then done (with_incomplete m) else killpg process_pid SIGKILL ;! done (with_killed (with_incomplete m))
  end.

Record limits := mk_limits { l_wall : Z; l_output : Z; l_process : Z; l_job : string; l_tainted : string }.

(** One turn; the sampling of resources every tenth of a second only reads. *)
Definition turn (fuel : nat) (lim : limits) (start : Z) (m : monitor) : io monitor :=
  let! now := monotonic in
  let! m := check_budget start now (l_wall lim) (l_process lim) m in
  let! m := check_escape (l_tainted lim) (l_job lim) m in
  let! m := check_violation (l_process lim) m in
  let! m := check_mcp now (l_process lim) m in
  let! t := wait_all fuel (m_tracer m) in
  let m := with_tracer t m in
  let! l := select in
  let! m := read_ready (l_output lim) (List.filter (fun b : bool => if b then fst (m_open m) else snd (m_open m)) l) m in
  let! m := check_trace (l_process lim) m in
  done (if m_killed m && ((l_wall lim + 2) * SECOND <? now - start) then give_up_pids m else m).

Fixpoint monitor_loop (turns fuel : nat) (lim : limits) (start : Z) (m : monitor) : io monitor :=
  if decide (active_pids (m_tracer m) = ∅) then done m
  else match turns with
       | O => stuck
       | S turns => let! m := turn fuel lim start m in monitor_loop turns fuel lim start m
       end.

(** What is still in the pipes after the loop. *)
Fixpoint drain_stream (fuel : nat) (max_output_bytes : Z) (stdout : bool) (m : monitor) : io monitor :=
  match fuel with
  | O => stuck
  | S fuel =>
      let! read := read_stream stdout in
      match read with
      | inl e => if e =? Host.EAGAIN then done m else raise_ (OSError "read")
      | inr chunk =>
          if String.eqb chunk "" then done m
          else let! m := pure (take_chunk true max_output_bytes stdout chunk m) in drain_stream fuel max_output_bytes stdout m
      end
  end.

(** ** The conclusion *)
Definition exec_observed (t : HostTracer) : bool := negb (bool_decide (exec_completed_pids t = ∅)).

(** The class of a failed observation and its diagnostic: looked for only when the
    sandbox was admitted and nothing was found. *)
Definition observe_payload (failures : list string) (stderr : string) (t : HostTracer) : option string * string :=
  match failures, finding_counts (detector t) with
  | [], [] =>
      let '(load_failure, excerpt) := _observation_load_diagnostic stderr in
      if negb (exec_observed t) then (Some "interpreter_startup", excerpt)
      else if negb (String.eqb load_failure "") then (Some load_failure, excerpt)
      else (None, "")
  | _, _ => (None, "")
  end.

(** 0.3 and 0.5 as the floats they are *)
Definition uncertainty (incomplete exhausted : bool) (e : DetectorEngine) : pyfloat :=
  if incomplete || telemetry_incomplete e then FFin 1 1
  else if exhausted then FFin 5404319552844595 18014398509481984
  else if 500 <? count (finding_counts e) "timing_evasion" then FFin 1 2
  else FFin 0 1.

(** The broker of a detonation requests no capability. *)
Definition broker_of (t : HostTracer) : OutwardReport.CapabilityBroker :=
  fst (OutwardReport.request_capabilities (OutwardReport.new_broker (detector t)) []).
(** The report when none can be built. *)
Definition fallback_report : pyval := VDict
  [("risk_level", VStr "hostile");
   ("evidence", VList [VDict [("tap_category", VStr "syscall_class"); ("rule_id", VStr "broker_failure"); ("count", VInt 1)]]);
   ("capabilities_requested", VList []); ("destinations", VList []); ("canaries_tripped", VList []); ("uncertainty", VFloat (FFin 1 1))].
Definition build (t : HostTracer) (u : pyfloat) : io (HostTracer * pyval) :=
  match OutwardReport.build_report (broker_of t) u with
  | Ok report => done (t, report)
  | Err x =>
      let! t := note "broker_failure" "egress_schema" "write" "known_bad" t in
      _write_alert "broker_failure" (VDict [("error", VStr (IncidentGate.type_name x))]) ;!
      done (t, match OutwardReport.build_report (broker_of t) (FFin 1 1) with Ok report => report | Err _ => fallback_report end)
  end.

Record conclusion := mk_conclusion {
  c_tracer : HostTracer;
  c_failure : option string;
  c_diagnostic : string;
  c_incomplete : bool;
  c_uncertainty : pyfloat;
  c_purge : Cleanup.purge;
  c_report : pyval;
  c_gate : pyval;
}.

(** Where the orchestrator keeps its evidence. *)
Record evidence_paths := mk_paths { decommissioned : string; quarantine_dir : string }.

Definition purge_details (p : Cleanup.purge) : pydict :=
  [("processes_remaining", VInt (Cleanup.processes_remaining p));
   ("remaining_host_resources", VList (map VStr (Cleanup.remaining_host_resources p)))].

(** The findings the orchestrator adds before the cleanup. *)
Definition add_findings (failures : list string) (m : monitor) : io (HostTracer * option string * string) :=
  let o := m_output m in
  let! t := (if scan_instruction_patterns (raw_stdout o +:+ raw_stderr o)
             then let! t := note "codex_manipulation" "instruction_pattern_in_raw_output" "write" "known_bad" (m_tracer m) in
                  _write_alert "codex_manipulation" (VDict []) ;! done t
             else done (m_tracer m)) in
  let! t := (if truncated o
             then let! t := lose t in _write_alert "telemetry_loss" (VDict [("output_truncated", VBool true)]) ;! done t
             else done t) in
  let! t := match trace_error t with
            | Some e => let! t := lose t in _write_alert "telemetry_loss" (VDict [("trace_error", VStr e)]) ;! done t
            | None => done t
            end in
  (if namespace_escape t then _write_alert "namespace_escape_suspicion" (VDict []) else done tt) ;!
  let '(failure, diagnostic) := observe_payload failures (raw_stderr o) t in
  match failure with
  | None => done (t, failure, diagnostic)
  | Some f =>
      let observed := exec_observed t in
      let! t := note "payload_observation_incomplete" f "exit" "anomalous" t in
      _write_alert "payload_observation_incomplete"
        (VDict [("failure_class", VStr f); ("exec_observed", VBool observed); ("diagnostic", VStr diagnostic)]) ;!
      done (t, failure, diagnostic)
  end.

Definition note_purge (paths : evidence_paths) (job_id : string) (p : Cleanup.purge) (t : HostTracer) : io HostTracer :=
  if Cleanup.verified_externally p then done t
  else
    let! t := note "purge_failure" "legacy_cleanup_postcondition_failed" "exit" "known_bad" t in
    _write_alert "purge_uncertainty" (VDict (purge_details p)) ;!
    must (CWrite (decommissioned paths) job_id) ;!
    done t.

Definition final_decision (gate : pyval) : pyval := match gate with VDict d => default VNone (assoc "final_decision" d) | _ => VNone end.

Definition quarantine (paths : evidence_paths) (job_id : string) (o : output) (gate : pyval) : io unit :=
  let raw_output := raw_stdout o +:+ raw_stderr o in
  if py_eq (final_decision gate) (VStr "DENY") && negb (String.eqb raw_output "")
  then must (CMkdir (quarantine_dir paths)) ;! must (CWrite (quarantine_dir paths +:+ "/" +:+ job_id +:+ ".raw") raw_output)
  else done tt.

Definition conclude (turns fuel : nat) (failures : list string) (admission : option SandboxAdmission) (m : monitor)
    (cgroup : option string) (job_dir : string) (process_pid : Z) (paths : evidence_paths)
    (override : PolicyGate.override_source) (job_id : string) : io conclusion :=
  let! found := add_findings failures m in
  let '(t, failure, diagnostic) := found in
  let incomplete := m_incomplete m || match failure with Some _ => true | None => false end in
  match admission with Some a => close a | None => done tt end ;!
  let! p := Cleanup._cleanup_legacy_resources turns fuel (Some process_pid) cgroup job_dir (m_cleanup m ++ elements (active_pids t)) in
  let! t := note_purge paths job_id p t in
  let incomplete := incomplete || negb (Cleanup.verified_externally p) in
  let u := uncertainty incomplete (m_exhausted m) (detector t) in
  let! built := build t u in
  let '(t, report) := built in
  let! gate := pure (PolicyGate.apply_scoring_matrix parse_float report override job_id) in
  quarantine paths job_id (m_output m) gate ;!
  done (mk_conclusion t failure diagnostic incomplete u p report gate).

(** ** The receipt *)

(** [f"{x:.3f}"] of a finite number that is not negative *)
Definition fixed3 (x : pyfloat) : string :=
  match x with
  | FFin n d =>
      let q := 1000 * n / Z.pos d in
      let r := 1000 * n mod Z.pos d in
      let k := if (Z.pos d <? 2 * r) || ((2 * r =? Z.pos d) && Z.odd q) then q + 1 else q in
      dec (k / 1000) +:+ "." +:+ dec (k / 100 mod 10) +:+ dec (k / 10 mod 10) +:+ dec (k mod 10)
  | FInf _ => "inf"
  | FNan => "nan"
  end.
Definition DEFAULT_CANARIES : list string := ["canary_cred_aws"; "canary_cred_ssh"; "canary_file"; "canary_tmp"].
(** The names of the canaries: those of the status when it names any. *)
Definition canaries_touched (status : pydict) (e : DetectorEngine) : pydict :=
  let names := match flag_of status "canaries" with VDict ((_ :: _) as d) => sort_strs (keys d) | _ => DEFAULT_CANARIES end in
  map (fun name => (name, VStr (match assoc name (canaries e) with
                                | Some x => "TOUCHED at t+" +:+ fixed3 x +:+ "s"
                                | None => "untouched"
                                end))) names.

Definition observation_section (failures : list string) (c : conclusion) : pyval :=
  match failures, c_failure c with
  | _ :: _, _ => VNone
  | [], Some f => VDict [("status", VStr "EVALUATION_INCOMPLETE"); ("exec_observed", VBool (exec_observed (c_tracer c)));
                         ("failure_class", VStr f); ("diagnostic", VStr (c_diagnostic c))]
  | [], None =>
      if c_incomplete c || telemetry_incomplete (detector (c_tracer c)) then VNone
      else VDict [("status", VStr "COMPLETE"); ("exec_observed", VBool (exec_observed (c_tracer c)));
                  ("failure_class", VNone); ("diagnostic", VStr "")]
  end.

Definition budgets_granted (budgets : pydict) : pyval := VDict
  [("wall_clock_sec", flag_of budgets "wall_clock_sec"); ("cpu_vcpu", flag_of budgets "cpu_vcpu"); ("ram_mib", flag_of budgets "ram_mib");
   ("syscalls", VStr "capped"); ("fs_writes", VStr "RAM overlay only")].
Definition snapshot_policy (snapshot_sha256 policy_hash : string) (policy : pydict) : pyval := VDict
  [("snapshot_sha256", VStr snapshot_sha256); ("snapshot_verified_by", VStr "host-observer (external)");
   ("policy_version", default (VStr "cindermote-hotcell-v1.1") (assoc "policy_version" policy)); ("policy_hash", VStr policy_hash)].
Definition isolation_section (mode : string) (controls : list (string * bool)) : pyval :=
  VDict (("mode", VStr mode) :: map (fun kv => (fst kv, VBool (snd kv))) controls).
Definition capabilities_section (b : OutwardReport.CapabilityBroker) : pyval := VDict
  [("requested", VList (map VStr (OutwardReport.requested b))); ("granted", VList (map VStr (OutwardReport.granted b)));
   ("denied", VList (map VStr (OutwardReport.denied b)))].
Definition _empty_legacy_telemetry_summary : pyval := VDict
  [("syscall_events", VInt 0); ("fs_mutations", VInt 0); ("dns_attempts", VInt 0); ("exec_spawns", VInt 0);
   ("source", VStr "ptrace + seccomp (read-only, host side)")].

(** The receipt of a run that was launched. *)
Definition detonation_receipt (identity snapshot : pyval) (mode : string) (budgets : pydict) (failures : list string) (controls : list (string * bool))
    (status : pydict) (mcp : option McpController.MCPController) (exhausted : bool) (c : conclusion)
    (key : DetonationReceipt.key_path) (urandom : string) (policy : DetonationReceipt.policy_source) : res pyval :=
  let e := detector (c_tracer c) in
  let* found := findings e in
  DetonationReceipt.create_receipt float_repr parse_float
    [identity; snapshot; isolation_section mode controls; budgets_granted budgets; capabilities_section (broker_of (c_tracer c));
     telemetry_summary (c_tracer c); VDict (canaries_touched status e); VDict (map (fun kv => (fst kv, VStr (snd kv))) (sort_items (destinations e)));
     VList found; c_gate c; c_report c; Cleanup.purge_val (c_purge c)]
    (VBool (c_incomplete c || telemetry_incomplete e)) (VBool exhausted) (c_uncertainty c)
    (match mcp with Some m => McpController.receipt m | None => VNone end) VNone (observation_section failures c) key urandom policy.

(** ** A launch that is refused *)
Definition NO_CONTROLS : list (string * bool) :=
  [("namespace_used", false); ("seccomp_loaded", false); ("cgroups_used", false); ("mlock_used", false)].

(** What is done before the receipt: the findings, the cleanup, the gate. *)
Definition deny (turns fuel : nat) (required : list (string * bool)) (t : HostTracer) (process_group : option Z) (cgroup : option string)
    (job_dir : string) (tracked : list Z) (paths : evidence_paths) (diagnostic : pyval) (override : PolicyGate.override_source) (job_id : string)
    : io (HostTracer * Cleanup.purge * pyval * pyval) :=
  let failures := _isolation_admission_failures false NO_CONTROLS required in
  let! t := _record_isolation_admission_failure t in
  let! t := lose t in
  let! p := Cleanup._cleanup_legacy_resources turns fuel process_group cgroup job_dir tracked in
  let details := [("failed_requirements", VList (map VStr failures)); ("diagnostic", diagnostic)] in
  let! t := (if Cleanup.verified_externally p then done t
             else let! t := note "purge_failure" "legacy_cleanup_postcondition_failed" "exit" "known_bad" t in
                  must (CWrite (decommissioned paths) job_id) ;! done t) in
  _write_alert "isolation_setup_failure"
    (VDict (details ++ if Cleanup.verified_externally p then [] else [("purge", VDict (purge_details p))])) ;!
  let! report := pure (OutwardReport.build_report (broker_of t) (FFin 1 1)) in
  let! gate := pure (PolicyGate.apply_scoring_matrix parse_float report override job_id) in
  done (t, p, report, gate).
Definition _deny_before_sandbox_launch (identity snapshot : pyval) (mode : string) (budgets : pydict) (t : HostTracer) (p : Cleanup.purge)
    (report gate : pyval) (key : DetonationReceipt.key_path) (urandom : string) (policy : DetonationReceipt.policy_source) : res pyval :=
  let* found := findings (detector t) in
  DetonationReceipt.create_receipt float_repr parse_float
    [identity; snapshot; isolation_section mode NO_CONTROLS; budgets_granted budgets; capabilities_section (broker_of t);
     _empty_legacy_telemetry_summary; VDict []; VDict []; VList found; gate; report; Cleanup.purge_val p]
    (VBool true) (VBool false) (FFin 1 1) VNone VNone VNone key urandom policy.

(** ** From the started wrapper to the decision *)

(** How [detonate] ends: denied before the sandbox runs, or with a run that is
    concluded; [monitor] is the state after the pipes were drained. *)
Inductive outcome :=
  | Denied (t : HostTracer) (p : Cleanup.purge) (report gate : pyval)
  | Concluded (st : setup) (m : monitor) (c : conclusion).
Definition gate_of (o : outcome) : pyval := match o with Denied _ _ _ gate => gate | Concluded _ _ c => c_gate c end.

Definition launch_diagnostic (e : exn) : pyval :=
  match e with
  | CgroupOperationError stage errno => VDict [("cgroup", cgroup_evidence stage errno)]
  | SandboxIdentityError stage => VDict [("readiness", VDict [("stage", VStr stage)])]
  | _ => VNone
  end.

(** The state before the loop: the client of an MCP server, both pipes, the pids to clean up. *)
Definition first_monitor (mcp_server : bool) (process_pid : Z) (st : setup) (incomplete : bool) (t : HostTracer) : monitor :=
  mk_monitor t (if mcp_server then Some (McpController.new_controller (detector t)) else None) no_output incomplete false false false
    (true, true) (process_pid :: match s_admission st with Some a => [pid a] | None => [] end).
Definition start_client (m : monitor) : monitor :=
  mk_monitor (m_tracer m) (McpController.start mcp_errno <$> m_mcp m) (m_output m) (m_incomplete m) (m_exhausted m) (m_killed m)
    (m_escape_handled m) (m_open m) (m_cleanup m).

Definition drain_streams (fuel : nat) (max_output_bytes : Z) (m : monitor) : io monitor :=
  let! m := drain_stream fuel max_output_bytes true m in drain_stream fuel max_output_bytes false m.

(** What follows the launch: the loop runs unless the sandbox was not admitted,
    after a failed release too. *)
Definition watch (turns fuel : nat) (lim : limits) (mcp_server : bool) (l : launched) (st : setup) : io monitor :=
  let! x := after_launch l in
  let '(t, incomplete) := x in
  let m := first_monitor mcp_server (l_process lim) st incomplete t in
  let! m := match l with
            | Running _ _ => let! start := monotonic in monitor_loop turns fuel lim start (start_client m)
            | ReleaseFailed _ _ _ => let! start := monotonic in monitor_loop turns fuel lim start m
            | _ => done m
            end in
  drain_streams fuel (l_output lim) m.

Variable make_tracer : Z -> HostTracer.

Definition detonate (turns fuel : nat) (lim : limits) (full_root mcp_server : bool) (required : list (string * bool))
    (cgroup : option string) (gate admission_write : option Z) (job_dir : string) (paths : evidence_paths)
    (override : PolicyGate.override_source) : io outcome :=
  let process_pid := l_process lim in
  let! l := launch parse_float fuel make_tracer full_root required (l_wall lim) process_pid cgroup gate admission_write in
  match l with
  | LaunchError e =>
      let! d := deny turns fuel required (make_tracer process_pid) (Some process_pid) cgroup job_dir [process_pid] paths
                  (launch_diagnostic e) override (l_job lim) in
      let '(t, p, report, result) := d in done (Denied t p report result)
  | NotAdmitted st | ReleaseFailed st _ _ | Running st _ =>
      let! m := watch turns fuel lim mcp_server l st in
      let! c := conclude turns fuel (s_failures st) (s_admission st) m cgroup job_dir process_pid paths override (l_job lim) in
      done (Concluded st m c)
  end.

(** [_cli]: the exit code of a detonation *)
Definition exit_code (receipt : pyval) : Z :=
  match receipt with
  | VDict d => if in_list (final_decision (default (VDict []) (assoc "gate" d))) ["ALLOW"; "DENY"] then 0 else 2
  | _ => 2
  end.

End detonate.
End Detonate.
