(* ===== verification/DetonateFacts.v ===== *)
(** * What an ALLOW means: facts about a whole detonation

    The orchestrator's state only moves one way: the detector only through its
    methods, an error of the tracer and a cut output for good.  With the report and
    the gate this gives what must have gone right for a run to be allowed, whatever
    a human said. *)

From stdpp Require Import base list strings gmap sorting.
From Stdlib Require Import ZArith Lia.
From S2P Require Import Prelude PyValue Json StrOps Ip Url Evidence Counter Detectors OutwardReport PolicyGate DetonationReceipt Tracer TracerFacts Host Admission Launch LaunchFacts Cleanup JsonLoads McpController Output Detonate.

Local Open Scope Z_scope.

Module DetonateFacts.
Import Detectors Tracer TracerFacts Host Admission Launch Output Detonate.

(** What holds of the value of a computation that returns one. *)
Definition ensures {A} (m : io A) (Q : A -> Prop) : Prop := forall log a log', m log = Some (Ok a, log') -> Q a.

Lemma ensures_done {A} (a : A) (Q : A -> Prop) : Q a -> ensures (done a) Q.
Proof. intros Hq log b log' Hm. io_inv. by subst. Qed.
Lemma ensures_raise {A} e (Q : A -> Prop) : ensures (raise_ e) Q.
Proof. intros log b log' Hm. io_inv. Qed.
Lemma ensures_stuck {A} (Q : A -> Prop) : ensures stuck Q.
Proof. intros log b log' Hm. io_inv. Qed.
Lemma ensures_pure {A} (r : res A) (Q : A -> Prop) : (forall a, r = Ok a -> Q a) -> ensures (pure r) Q.
Proof. intros Hq log b log' Hm. io_inv. auto. Qed.
Lemma ensures_bind {A B} (m : io A) (k : A -> io B) (P : A -> Prop) (Q : B -> Prop) :
  ensures m P -> (forall a, P a -> ensures (k a) Q) -> ensures (bind m k) Q.
Proof. intros Hm Hk log b log' Hb. io_inv. eapply Hk; [eapply Hm|]; eassumption. Qed.
(** A step whose value does not matter. *)
Lemma ensures_then {A B} (m : io A) (k : A -> io B) (Q : B -> Prop) : (forall a, ensures (k a) Q) -> ensures (bind m k) Q.
Proof. intros Hk. eapply (ensures_bind _ _ (fun _ => True)); [done|auto]. Qed.
Lemma ensures_weaken {A} (m : io A) (P Q : A -> Prop) : ensures m P -> (forall a, P a -> Q a) -> ensures m Q.
Proof. intros Hm Hq log a log' Ha. eauto. Qed.
#[export] Hint Resolve ensures_done ensures_raise ensures_stuck : ensures.

(** ** The tracer *)
Section tracer.
Context `{Clock}.

Lemma error_call o t : trace_error (fst (Tracer.call o t)) = trace_error t.
Proof. unfold Tracer.call. by destruct (step _ _). Qed.
Lemma error_emit now tap rule_id subject action hint t : trace_error (fst (emit now tap rule_id subject action hint t)) = trace_error t.
Proof. unfold emit. destruct (make_event _ _ _ _ _ _); [apply error_call|done]. Qed.
Lemma error_escape now n t : trace_error (fst (_record_namespace_escape now n t)) = trace_error t.
Proof. apply (error_emit _ _ _ _ _ _ (set_escape t)). Qed.
Lemma error_andthen t x f : trace_error (fst x) = trace_error t ->
  (forall t1, trace_error t1 = trace_error t -> trace_error (fst (f t1)) = trace_error t) -> trace_error (fst (andthen x f)) = trace_error t.
Proof. intros Hx Hf. destruct x as [t1 [[]|e]]; cbn in *; auto. Qed.
Hint Rewrite error_call error_emit error_escape : errs.

Lemma error_record_all now l : forall t, trace_error (fst (record_all now l t)) = trace_error t.
Proof.
  induction l as [|x l IH]; intros t; cbn [record_all]; [done|]. apply error_andthen; [apply error_call|]. intros t1 <-. apply IH.
Qed.
Hint Rewrite error_record_all : errs.

Ltac error_auto := repeat first
  [ done | progress autorewrite with errs | (apply error_andthen; [|intros ? <-]) | case_match; cbn [fst ret] ].

Lemma error_entry w pid regs t : trace_error (fst (_on_syscall_entry w pid regs t)) = trace_error t.
Proof.
  unfold _on_syscall_entry, on_openat, on_socket, on_connect, on_fork, on_clock. error_auto.
Qed.

(** The tracer as it may become: its engine after more method calls, its error kept. *)
Definition advances (t t' : HostTracer) : Prop := reaches t t' /\ (trace_error t' = None -> trace_error t = None).

Lemma advances_refl t : advances t t.
Proof. split; [by apply reach_same|done]. Qed.
Lemma advances_trans t t1 t2 : advances t t1 -> advances t1 t2 -> advances t t2.
Proof. intros [H1 E1] [H2 E2]. split; [by eapply reach_trans|auto]. Qed.

Lemma error_oserror e t : trace_error (on_oserror e t) = None -> trace_error t = None.
Proof. destruct e as [name errno]. unfold on_oserror. by case_match. Qed.
Lemma error_resume a pid d t : trace_error (fst (fst (resume a pid d t))) = None -> trace_error t = None.
Proof. cbn. destruct (resume_error a); [apply error_oserror|done]. Qed.

Lemma advances_stop a pid status t : advances t (fst (fst (process_wait_status a pid status t))).
Proof.
  split; [apply reach_stop|]. unfold process_wait_status.
  repeat first [done | case_match; cbn [fst]]; subst; try (intros He; first [apply error_oserror in He | apply error_resume in He]; try done).
  all: try (by repeat case_match).
  all: try (match goal with Hx : _on_syscall_entry ?w ?p ?r ?u = (?v, _) |- _ =>
    let E := fresh in assert (E := error_entry w p r u); rewrite Hx in E; cbn in E; rewrite E in *; clear E end).
  all: try (match goal with Hx : _record_namespace_escape ?w ?p ?u = (?v, _) |- _ =>
    let E := fresh in assert (E := error_escape w p u); rewrite Hx in E; cbn in E; rewrite E in *; clear E end).
  all: by repeat case_match.
Qed.
End tracer.

(** ** The client of an MCP server *)
Section client.
Context `{Interpreter}.
Variables (parse_float : string -> pyfloat) (float_repr : pyfloat -> string) (repr_wide : string -> string).
Variables (time_ns : nat -> N) (mono : nat -> Z) (write_errno : nat -> option Z).

Definition client_reaches (c c' : McpController.MCPController) : Prop :=
  exists ops, McpController.detector c' = run (McpController.detector c) ops.
Lemma client_same c c' : McpController.detector c' = McpController.detector c -> client_reaches c c'.
Proof. intros E. by exists []. Qed.
Lemma client_trans c c1 c2 : client_reaches c c1 -> client_reaches c1 c2 -> client_reaches c c2.
Proof. intros [o1 E1] [o2 E2]. exists (o1 ++ o2). by rewrite run_app, <- E1. Qed.

Lemma client_send p c : McpController.detector (McpController._send write_errno p c) = McpController.detector c.
Proof. unfold McpController._send. by case_match. Qed.
Lemma client_idle c : McpController.detector (McpController.finish_if_idle mono c) = McpController.detector c.
Proof. unfold McpController.finish_if_idle. by case_match. Qed.

Lemma client_poisoning c c' : McpController.record_poisoning time_ns c = Ok c' -> client_reaches c c'.
Proof.
  unfold McpController.record_poisoning. intros Hp. run_inv. destruct (record _ _ _) as [d r] eqn:E. run_inv. subst.
  eexists [Record _ _]. unfold run. cbn [foldl step fst]. by rewrite E.
Qed.

Lemma client_call_tool index tool c c' : McpController.call_tool time_ns write_errno index tool c = Ok c' -> client_reaches c c'.
Proof.
  unfold McpController.call_tool. intros Hc. repeat case_match; run_inv; subst; try (by apply client_same).
  all: try (by apply client_same; rewrite client_send).
  eapply client_trans; [by eapply client_poisoning|]. apply client_same. by rewrite client_send.
Qed.

Lemma client_call_tools tools : forall index c c', McpController.call_tools time_ns write_errno index tools c = Ok c' -> client_reaches c c'.
Proof.
  induction tools as [|tool tools IH]; intros index c c' Hc; cbn in Hc; run_inv; [subst; by apply client_same|].
  eapply client_trans; [by eapply client_call_tool|eauto].
Qed.

Lemma client_line c l c' : McpController.handle_line parse_float float_repr repr_wide time_ns mono write_errno c l = Ok c' -> client_reaches c c'.
Proof.
  unfold McpController.handle_line. intros Hc. destruct (String.eqb _ _); [run_inv; subst; by apply client_same|].
  destruct (json_loads _ _) as [v| |]; [|run_inv; subst; by apply client_same|done].
  destruct v as [| | | | | | |m]; try (run_inv; subst; by apply client_same).
  set (c0 := if has_key "error" m then _ else _) in Hc. assert (H0 : client_reaches c c0) by (apply client_same; unfold c0; by destruct (has_key _ _)).
  eapply client_trans; [exact H0|]. clearbody c0. clear H0. destruct (py_eq _ (VInt 1)).
  { run_inv. subst. apply client_same. unfold McpController.on_initialize. repeat case_match; try done. by rewrite client_send. }
  destruct (py_eq _ (VInt 2)).
  { unfold McpController.on_tools in Hc. run_inv. subst. eapply client_trans; [|apply client_same, client_idle].
    eapply client_trans; [|by eapply client_call_tools]. apply client_same. by destruct (is_list _). }
  destruct (_ && _); run_inv; subst; [|by apply client_same]. apply client_same. by rewrite client_idle.
Qed.

Lemma client_lines ls : forall c c', foldM (McpController.handle_line parse_float float_repr repr_wide time_ns mono write_errno) ls c = Ok c' ->
  client_reaches c c'.
Proof.
  induction ls as [|l ls IH]; intros c c' Hf; cbn in Hf; run_inv; [subst; by apply client_same|].
  eapply client_trans; [by eapply client_line|eauto].
Qed.
Lemma client_feed chunk c c' : McpController.feed parse_float float_repr repr_wide time_ns mono write_errno chunk c = Ok c' -> client_reaches c c'.
Proof. intros Hf. eapply client_trans; [|by eapply client_lines]. by apply client_same. Qed.
End client.

(** ** The run *)
Section run.
Context `{Interpreter} `{Kernel} `{Clock}.
Variables (parse_float : string -> pyfloat) (float_repr : pyfloat -> string) (repr_wide : string -> string).
Variables (mcp_ns : nat -> N) (mcp_monotonic : nat -> Z) (mcp_errno : nat -> option Z) (answers_at : list call -> answers).

(** A finding the orchestrator adds. *)
Definition adds (r : string) (t t' : HostTracer) : Prop := reports t t' r /\ trace_error t' = trace_error t.

Lemma adds_advances r t t' : adds r t t' -> advances t t'.
Proof. intros [(ops & E & _) Ee]. split; [by exists ops|]. by rewrite Ee. Qed.

Lemma note_adds rule_id subject action hint t :
  mem action ACTIONS = true -> mem hint VERDICT_HINTS = true -> in_range 1 128 (py_len rule_id) = true -> has_key rule_id RULES = true ->
  String.eqb hint "baseline" = false -> ensures (note rule_id subject action hint t) (adds rule_id t).
Proof.
  intros J1 J2 J3 J4 J5. apply ensures_then. intros now.
  destruct (emit_reports now "syscall" rule_id subject action hint t eq_refl J1 J2 J3 J4 J5) as (t' & E & Hr).
  assert (Ee := error_emit now "syscall" rule_id subject action hint t). rewrite E in *. by apply ensures_done.
Qed.

Lemma lose_adds t : ensures (lose t) (adds "telemetry_loss" t).
Proof.
  apply ensures_then. intros now. assert (Ee := error_call (MarkTelemetryLoss now) t).
  assert (Hr : exists t', Tracer.call (MarkTelemetryLoss now) t = (t', Ok tt) /\ reports t t' "telemetry_loss").
  { assert (Hm := make_event_fixed now "syscall" "telemetry_loss" "host_tap_incomplete" "exit" "known_bad" eq_refl eq_refl eq_refl eq_refl eq_refl).
    assert (Hv := make_event_valid _ _ _ _ _ _ _ Hm). unfold Tracer.call. cbn [step]. unfold mark_telemetry_loss, record. rewrite Hm, Hv.
    eexists. split; [done|]. exists [MarkTelemetryLoss now]. unfold run. cbn [foldl step fst map concat seen].
    unfold mark_telemetry_loss, record. rewrite Hm, Hv. split; [done|by left]. }
  destruct Hr as (t' & E & Hr). rewrite E in *. by apply ensures_done.
Qed.

Ltac note_auto := first [apply lose_adds | apply note_adds; reflexivity].

(** ** One way *)
Record moves (m m' : monitor) : Prop := {
  moves_tracer : advances (m_tracer m) (m_tracer m');
  moves_output : truncated (m_output m) = true -> truncated (m_output m') = true;
  moves_incomplete : m_incomplete m' = true ->
    m_incomplete m = true \/ truncated (m_output m') = true \/ trace_error (m_tracer m') <> None;
}.

Lemma moves_same m m' : advances (m_tracer m) (m_tracer m') -> m_output m' = m_output m -> m_incomplete m' = m_incomplete m -> moves m m'.
Proof. intros Ht Ho Hi. split; rewrite ?Ho, ?Hi; auto. Qed.
Lemma moves_refl m : moves m m.
Proof. apply moves_same; auto using advances_refl. Qed.
Lemma moves_trans m m1 m2 : moves m m1 -> moves m1 m2 -> moves m m2.
Proof.
  intros [T1 O1 I1] [T2 O2 I2]. split; [by eapply advances_trans|auto|]. intros Hi. destruct (I2 Hi) as [Hi1|]; [|auto].
  destruct (I1 Hi1) as [|[Ht|He]]; [by left|right; left; auto|right; right]. intros E. by apply He, T2.
Qed.
Lemma moves_bind m (x : io monitor) k : ensures x (moves m) -> (forall m1, moves m m1 -> ensures (k m1) (moves m)) -> ensures (bind x k) (moves m).
Proof. apply ensures_bind. Qed.
Lemma moves_after m m1 (x : io monitor) : moves m m1 -> ensures x (moves m1) -> ensures x (moves m).
Proof. intros Hm Hx. eapply ensures_weaken; [exact Hx|]. intros m2. by apply moves_trans. Qed.
Hint Resolve moves_refl advances_refl : ensures.

Lemma budget_moves start now wall p m : ensures (check_budget start now wall p m) (moves m).
Proof.
  unfold check_budget. destruct (_ && _); [|auto with ensures]. eapply ensures_bind; [note_auto|]. intros t Ht.
  apply ensures_then. intros _. apply ensures_done, moves_same; [by eapply adds_advances|done..].
Qed.
Lemma escape_moves host_file job m : ensures (check_escape host_file job m) (moves m).
Proof.
  unfold check_escape. destruct (_ && _); [|auto with ensures]. do 3 (apply ensures_then; intros _).
  apply ensures_done, moves_same; auto with ensures.
Qed.
Lemma violation_moves p m : ensures (check_violation p m) (moves m).
Proof.
  unfold check_violation. destruct (_ && _); [|auto with ensures]. apply ensures_then. intros _. apply ensures_done, moves_same; auto with ensures.
Qed.
Lemma mcp_moves now p m : ensures (check_mcp now p m) (moves m).
Proof.
  unfold check_mcp. repeat case_match; auto with ensures. apply ensures_then. intros _. apply ensures_done, moves_same; auto with ensures.
Qed.

Lemma wait_all_advances fuel : forall t, ensures (wait_all answers_at fuel t) (advances t).
Proof.
  induction fuel as [|fuel IH]; intros t; cbn [wait_all]; [apply ensures_stuck|]. apply ensures_then. intros [e|[waited status]].
  - destruct (_ =? _); [|apply ensures_raise]. apply ensures_done. split; [by apply reach_same|done].
  - destruct (_ <=? _); [auto with ensures|]. intros log t2 log' Hw.
    destruct (process_wait_status (answers_at log) waited status t) as [[t1 resumed] r] eqn:E.
    assert (Ha := advances_stop (answers_at log) waited status t). rewrite E in Ha. cbn [fst] in Ha. io_inv. destruct r; [|io_inv].
    eapply advances_trans; [exact Ha|]. by eapply IH.
Qed.

Lemma chunk_moves clipped max b chunk m m' :
  take_chunk parse_float float_repr repr_wide mcp_ns mcp_monotonic mcp_errno clipped max b chunk m = Ok m' -> moves m m'.
Proof.
  unfold take_chunk. intros Hc. run_inv. match goal with p : (HostTracer * _)%type |- _ => destruct p as [t mcp] end. run_inv. subst.
  split; cbn; [|intros Ht; by rewrite Ht|].
  - unfold feed_client in *. destruct (m_mcp m) as [c|]; [|run_inv; simplify_eq; auto with ensures].
    destruct b; [|run_inv; simplify_eq; auto with ensures]. run_inv. simplify_eq.
    match goal with Hx : McpController.feed _ _ _ _ _ _ _ _ = _ |- _ => apply client_feed in Hx as [ops E] end. split; [by exists ops|done].
  - intros [Hi|Ht]%orb_true_iff; auto.
Qed.

Lemma read_ready_moves max l : forall m,
  ensures (read_ready parse_float float_repr repr_wide mcp_ns mcp_monotonic mcp_errno max l m) (moves m).
Proof.
  induction l as [|b l IH]; intros m; cbn [read_ready]; [auto with ensures|]. apply ensures_then. intros [e|chunk].
  - destruct (_ =? _); [apply IH|apply ensures_raise].
  - destruct (String.eqb chunk ""); [eapply moves_after; [|apply IH]; by apply moves_same; auto with ensures|].
    apply moves_bind; [apply ensures_pure; intros m1; apply chunk_moves|]. intros m1 J1. by eapply moves_after, IH.
Qed.

Lemma trace_moves p m : ensures (check_trace p m) (moves m).
Proof.
  unfold check_trace. destruct (trace_error (m_tracer m)) as [e|] eqn:E; [|auto with ensures].
  assert (Hi : forall m', m_tracer m' = m_tracer m -> m_output m' = m_output m -> moves m m').
  { intros m' Et Eo. split; rewrite ?Et, ?Eo; auto with ensures. intros _. right; right. by rewrite E. }
  destruct (m_killed m); [by apply ensures_done, Hi|]. apply ensures_then. intros _. by apply ensures_done, Hi.
Qed.

Notation turn := (turn parse_float float_repr repr_wide mcp_ns mcp_monotonic mcp_errno answers_at).
Notation monitor_loop := (monitor_loop parse_float float_repr repr_wide mcp_ns mcp_monotonic mcp_errno answers_at).
Notation drain_stream := (drain_stream parse_float float_repr repr_wide mcp_ns mcp_monotonic mcp_errno).

Lemma turn_moves fuel lim start m : ensures (turn fuel lim start m) (moves m).
Proof.
  unfold Detonate.turn. apply ensures_then. intros now. apply moves_bind; [apply budget_moves|]. intros m1 J1.
  apply moves_bind; [by eapply moves_after, escape_moves|]. intros m2 J2. apply moves_bind; [by eapply moves_after, violation_moves|].
  intros m3 J3. apply moves_bind; [by eapply moves_after, mcp_moves|]. intros m4 J4.
  eapply ensures_bind; [apply wait_all_advances|]. intros t Ht. cbn zeta. apply ensures_then. intros l.
  assert (J5 : moves m (with_tracer t m4)) by (eapply moves_trans; [exact J4|by apply moves_same]).
  apply moves_bind; [by eapply moves_after, read_ready_moves|]. intros m6 J6. apply moves_bind; [by eapply moves_after, trace_moves|].
  intros m7 J7. apply ensures_done. destruct (_ && _); [|done]. eapply moves_trans; [exact J7|]. apply moves_same; [|done..].
  split; [by apply reach_same|done].
Qed.

Lemma loop_moves turns fuel lim start : forall m, ensures (monitor_loop turns fuel lim start m) (moves m).
Proof.
  induction turns as [|turns IH]; intros m; cbn [Detonate.monitor_loop]; destruct (decide _); auto with ensures.
  apply moves_bind; [apply turn_moves|]. intros m1 J1. by eapply moves_after, IH.
Qed.

Lemma drain_moves fuel max b : forall m, ensures (drain_stream fuel max b m) (moves m).
Proof.
  induction fuel as [|fuel IH]; intros m; cbn [Detonate.drain_stream]; [apply ensures_stuck|]. apply ensures_then. intros [e|chunk].
  - destruct (_ =? _); auto with ensures.
  - destruct (String.eqb chunk ""); [auto with ensures|]. apply moves_bind; [apply ensures_pure; intros m1; apply chunk_moves|].
    intros m1 J1. by eapply moves_after, IH.
Qed.

(** ** What the gate counts *)
Definition FINAL_RULES : list string := "payload_observation_incomplete" :: PolicyGate.UNOVERRIDABLE_RULES.
Definition tracked (e : DetectorEngine) : Prop := exists l flag, tracks e l flag.
(** No finding under a rule that no authority clears. *)
Definition clears (e : DetectorEngine) : Prop := forall r, In r FINAL_RULES -> count (finding_counts e) r <= 0.

Lemma tracked_new mx start ops : tracked (run (new_engine mx start) ops).
Proof. do 2 eexists. apply (tracks_run ops), tracks_new. Qed.
Lemma tracked_reach t t' : tracked (detector t) -> reaches t t' -> tracked (detector t').
Proof. intros (l & flag & Ht) [ops ->]. do 2 eexists. by apply (tracks_run ops). Qed.

Lemma finding_rules_app l1 l2 : finding_rules (l1 ++ l2) = finding_rules l1 ++ finding_rules l2.
Proof. unfold finding_rules. by rewrite List.filter_app, map_app. Qed.

Lemma clears_back t t' : tracked (detector t) -> reaches t t' -> clears (detector t') -> clears (detector t).
Proof.
  intros (l & flag & Ht) [ops E] Hc r Hr. specialize (Hc r Hr). rewrite E in Hc. revert Hc.
  rewrite (tracks_findings _ _ _ (tracks_run ops _ _ _ Ht)), (tracks_findings _ _ _ Ht), finding_rules_app, occurrences_app.
  pose proof (occurrences_nonneg r (finding_rules (concat (map seen ops)))). lia.
Qed.
Lemma clears_reports t t' r : tracked (detector t) -> clears (detector t') -> In r FINAL_RULES -> ~ reports t t' r.
Proof.
  intros (l & flag & Ht) Hc Hr (ops & E & Hin). specialize (Hc r Hr). rewrite E in Hc. revert Hc.
  rewrite (tracks_findings _ _ _ (tracks_run ops _ _ _ Ht)), finding_rules_app, occurrences_app.
  apply occurrences_pos in Hin. pose proof (occurrences_nonneg r (finding_rules l)). lia.
Qed.

(** A call that reports a finding makes its count positive. *)
Lemma called_counts mx start calls o x : In o calls -> In x (seen o) -> is_finding x = true ->
  0 < count (finding_counts (run (new_engine mx start) calls)) (ev "rule_id" x).
Proof.
  intros Ho Hx Hf. rewrite (tracks_findings _ _ _ (tracks_run calls _ _ _ (tracks_new mx start))). apply occurrences_pos.
  unfold finding_rules. apply in_map, filter_In. split; [|done]. apply in_concat. exists (seen o). split; [by apply in_map|done].
Qed.

(** What a detector that clears says of its own flag: no loss was ever marked, so it is
    set only for a malformed event, which is counted, or for events beyond the limit. *)
Lemma incomplete_reason mx start calls : let e := run (new_engine mx start) calls in clears e ->
  (forall now, ~ In (MarkTelemetryLoss now) calls) /\
  (telemetry_incomplete e = true ->
   0 < count (finding_counts e) "malformed_report" \/ Z.max 0 mx < Z.of_nat (length (concat (map seen calls)))).
Proof.
  intros e Hc. assert (Hl : forall now, ~ In (MarkTelemetryLoss now) calls).
  { intros now Hin. assert (J := called_counts mx start calls _ (loss now) Hin (or_introl eq_refl) eq_refl).
    assert (J' : count (finding_counts e) "telemetry_loss" <= 0) by (apply Hc; right; by left). change (ev "rule_id" (loss now)) with "telemetry_loss" in J.
    unfold e in J'. lia. }
  split; [done|]. unfold e at 1. rewrite (tracks_flag _ _ _ (tracks_run calls _ _ _ (tracks_new mx start))). cbn [orb app].
  rewrite max_events_run. intros [Hf|Hn]%orb_true_iff; [|right; cbn in Hn; lia].
  apply existsb_exists in Hf as (o & Ho & Hf). left. destruct o as [now event| | |now]; try done; [|by destruct (Hl now)].
  apply (called_counts mx start calls _ (malformed now) Ho); [|done]. cbn [seen flagged] in *.
  destruct (validate_telemetry_event event) as [|[]]; try done. by left.
Qed.

Lemma gate_allows v : final_decision v = VStr "ALLOW" -> sub v "final_decision" = Ok (VStr "ALLOW").
Proof. destruct v as [| | | | | | |d]; try done. cbn. by destruct (assoc "final_decision" d) as [x|]; cbn; [intros ->|]. Qed.

(** A report that was built counts what the engine counted. *)
Lemma built_clears t u report override job v : tracked (detector t) -> OutwardReport.build_report (broker_of t) u = Ok report ->
  PolicyGate.apply_scoring_matrix parse_float report override job = Ok v -> final_decision v = VStr "ALLOW" -> clears (detector t).
Proof.
  intros (l & flag & Ht) Hb Ha Hf r Hr. unfold OutwardReport.build_report in Hb. change (OutwardReport.detector (broker_of t)) with (detector t) in Hb.
  rewrite (evidence_ok _ _ _ Ht) in Hb. run_inv. subst.
  assert (Hc := PolicyGate.allowed_counts _ _ _ _ _ _ r Ha (gate_allows _ Hf) eq_refl Hr).
  rewrite (PolicyGate.tracked_counts _ _ _ r Ht), <- (tracks_findings _ _ _ Ht) in Hc. lia.
Qed.
Lemma fallback_denies override job v : PolicyGate.apply_scoring_matrix parse_float fallback_report override job = Ok v -> final_decision v <> VStr "ALLOW".
Proof.
  intros Ha Hf. assert (Hc := PolicyGate.allowed_counts _ _ _ _ _ _ "broker_failure" Ha (gate_allows _ Hf) eq_refl). vm_compute in Hc.
  by discriminate Hc; tauto.
Qed.

Lemma build_allows t u : tracked (detector t) -> ensures (build t u) (fun x => forall override job v,
  PolicyGate.apply_scoring_matrix parse_float (snd x) override job = Ok v -> final_decision v = VStr "ALLOW" ->
  clears (detector t) /\ fst x = t /\ OutwardReport.build_report (broker_of t) u = Ok (snd x)).
Proof.
  intros Ht. unfold build. destruct (OutwardReport.build_report _ u) as [report|x] eqn:E.
  { apply ensures_done. intros override job v Ha Hf. split; [by eapply built_clears|done]. }
  eapply ensures_bind; [note_auto|]. intros t1 J1. apply ensures_then. intros _. apply ensures_done. intros override job v Ha Hf.
  cbn [snd fst] in *. exfalso. destruct (OutwardReport.build_report (broker_of t1) _) as [report|y] eqn:E1; [|by eapply fallback_denies].
  eapply (clears_reports t t1 "broker_failure"); [done| |right; right; by left|apply J1].
  eapply built_clears; [|done..]. eapply tracked_reach; [exact Ht|]. by eapply adds_advances.
Qed.

(** ** The conclusion *)

(** Findings added on the way: whether [b] made one of them the rule [r]. *)
Definition marks (b : Prop) (r : string) (t t' : HostTracer) : Prop := b -> reports t t' r.

Lemma lose_if (c : bool) (t : HostTracer) (alert : io unit) :
  ensures (if c then let! t1 := lose t in alert ;! done t1 else done t)
    (fun t' => advances t t' /\ trace_error t' = trace_error t /\ marks (c = true) "telemetry_loss" t t').
Proof.
  destruct c; [|apply ensures_done; split_and!; [apply advances_refl|done|done]]. eapply ensures_bind; [note_auto|]. intros t1 J1.
  apply ensures_then. intros _. apply ensures_done. split_and!; [by eapply adds_advances|by apply J1|intros _; by apply J1].
Qed.

Lemma marks_through b r t t1 t2 t3 : advances t t1 -> marks b r t1 t2 -> advances t2 t3 -> marks b r t t3.
Proof. intros [J1 _] J2 [J3 _] Hb. eapply reports_before, reports_after; eauto. Qed.

Lemma add_findings_marks failures m : ensures (add_findings failures m) (fun x => let '(t, failure, _) := x in
  advances (m_tracer m) t /\ marks (truncated (m_output m) = true) "telemetry_loss" (m_tracer m) t /\
  marks (trace_error (m_tracer m) <> None) "telemetry_loss" (m_tracer m) t /\
  marks (failure <> None) "payload_observation_incomplete" (m_tracer m) t).
Proof.
  unfold add_findings. eapply (ensures_bind _ _ (fun t => advances (m_tracer m) t /\ trace_error t = trace_error (m_tracer m))).
  { case_match; [|apply ensures_done; auto using advances_refl]. eapply ensures_bind; [note_auto|]. intros t1 J1. apply ensures_then. intros _.
    apply ensures_done. split; [by eapply adds_advances|apply J1]. }
  intros t1 [J1 E1]. eapply ensures_bind; [apply lose_if|]. intros t2 (J2 & E2 & M2). rewrite <- E1, <- E2.
  eapply (ensures_bind _ _ (fun t3 => advances t2 t3 /\ marks (trace_error t2 <> None) "telemetry_loss" t2 t3)).
  { destruct (trace_error t2) as [e|]; [|apply ensures_done; split; [apply advances_refl|by intros []]].
    eapply ensures_weaken; [apply (lose_if true)|]. intros t3 (J3 & _ & M3). split; [done|]. intros _. by apply M3. }
  intros t3 [J3 M3]. apply ensures_then. intros _. assert (J12 := advances_trans _ _ _ J1 J2). assert (J13 := advances_trans _ _ _ J12 J3).
  destruct (observe_payload _ _ _) as [[f|] diagnostic]; [|apply ensures_done].
  2:{ split_and!; [done|exact (marks_through _ _ _ _ _ _ J1 M2 J3)|eapply marks_through; [exact J12|exact M3|apply advances_refl]|by intros []]. }
  cbn zeta. eapply ensures_bind; [note_auto|]. intros t4 J4. apply ensures_then. intros _. apply ensures_done.
  assert (A4 := adds_advances _ _ _ J4). split_and!; [by eapply advances_trans| | |].
  - eapply marks_through; [exact J1|exact M2|by eapply advances_trans].
  - by eapply marks_through; [exact J12|exact M3|].
  - intros _. eapply reports_before; [apply J13|apply J4].
Qed.

Lemma note_purge_marks paths job p t : ensures (note_purge paths job p t) (fun t' =>
  advances t t' /\ marks (Cleanup.verified_externally p = false) "purge_failure" t t').
Proof.
  unfold note_purge. destruct (Cleanup.verified_externally p); [apply ensures_done; split; [apply advances_refl|done]|].
  eapply ensures_bind; [note_auto|]. intros t1 J1. do 2 (apply ensures_then; intros _). apply ensures_done.
  split; [by eapply adds_advances|intros _; apply J1].
Qed.

(** What an allowed conclusion says of the run it concludes. *)
Definition sound_run (m : monitor) (c : conclusion) : Prop :=
  clears (detector (m_tracer m)) /\ truncated (m_output m) = false /\ trace_error (m_tracer m) = None /\
  c_failure c = None /\ Cleanup.verified_externally (c_purge c) = true /\ c_incomplete c = m_incomplete m /\
  OutwardReport.build_report (broker_of (c_tracer c)) (c_uncertainty c) = Ok (c_report c) /\
  clears (detector (c_tracer c)) /\ reaches (m_tracer m) (c_tracer c).

Lemma conclude_sound turns fuel failures admission m cgroup job_dir p paths override job :
  tracked (detector (m_tracer m)) ->
  ensures (conclude parse_float turns fuel failures admission m cgroup job_dir p paths override job)
    (fun c => final_decision (c_gate c) = VStr "ALLOW" -> sound_run m c).
Proof.
  intros Ht. unfold conclude. eapply ensures_bind; [apply add_findings_marks|]. intros [[t failure] diagnostic] (A1 & M1 & M2 & M3).
  apply ensures_then. intros _. apply ensures_then. intros purge. cbn zeta. eapply ensures_bind; [apply note_purge_marks|].
  intros t2 (A2 & M4). assert (T1 := tracked_reach _ _ Ht (proj1 A1)). assert (T2 := tracked_reach _ _ T1 (proj1 A2)).
  eapply ensures_bind; [by apply build_allows|]. intros [t3 report] B.
  eapply ensures_bind; [apply ensures_pure; intros v Hv; exact (B _ _ _ Hv)|]. cbn [fst snd] in *. intros gate Hgate. apply ensures_then. intros _.
  apply ensures_done. cbn [c_gate]. intros Hf. destruct (Hgate Hf) as (C2 & -> & Hb). unfold sound_run.
  assert (C1 := clears_back _ _ T1 (proj1 A2) C2). assert (C0 := clears_back _ _ Ht (proj1 A1) C1).
  assert (Hl : ~ reports (m_tracer m) t "telemetry_loss") by (apply clears_reports; [done..|right; by left]).
  assert (Hfail : failure = None).
  { destruct failure as [f|]; [|done]. exfalso. eapply (clears_reports (m_tracer m) t); [done..|by left|]. by apply M3. }
  assert (Hp : Cleanup.verified_externally purge = true).
  { apply not_false_is_true. intros Hp. eapply (clears_reports t t2 "purge_failure"); [done..|vm_compute; tauto|]. by apply M4. }
  cbn [c_failure c_purge c_incomplete c_tracer c_uncertainty c_report]. split_and!; try done.
  - apply not_true_is_false. intros Ho. by apply Hl, M1.
  - destruct (trace_error (m_tracer m)) eqn:E; [|done]. exfalso. by apply Hl, M2.
  - rewrite Hfail, Hp. cbn. by rewrite !orb_false_r.
  - eapply reach_trans; [apply A1|apply A2].
Qed.

(** A launch that is refused is not allowed. *)
Lemma deny_denies turns fuel required t pg cgroup job_dir tracked_pids paths diagnostic override job :
  tracked (detector t) ->
  ensures (deny parse_float turns fuel required t pg cgroup job_dir tracked_pids paths diagnostic override job)
    (fun d => final_decision (snd d) <> VStr "ALLOW").
Proof.
  intros Ht. unfold deny, _record_isolation_admission_failure. eapply ensures_bind; [note_auto|]. intros t1 J1.
  eapply ensures_bind; [note_auto|]. intros t2 J2. apply ensures_then. intros p. cbn zeta.
  eapply (ensures_bind _ _ (fun t3 => advances t2 t3)).
  { case_match; [apply ensures_done, advances_refl|]. eapply ensures_bind; [note_auto|]. intros t3 J3. apply ensures_then. intros _.
    apply ensures_done. by eapply adds_advances. }
  intros t3 A3. apply ensures_then. intros _. eapply ensures_bind; [apply ensures_pure; intros report E; exact E|]. intros report E.
  eapply ensures_bind; [apply ensures_pure; intros v Ev; exact Ev|]. intros v Ev. apply ensures_done. cbn [snd]. intros Hf.
  assert (A2 := adds_advances _ _ _ J2). assert (A1 := adds_advances _ _ _ J1).
  assert (T3 : tracked (detector t3)) by (eapply tracked_reach; [exact Ht|]; eapply reach_trans; [apply A1|]; eapply reach_trans; [apply A2|apply A3]).
  eapply (clears_reports t t3 "isolation_admission_failure"); [done|exact (built_clears _ _ _ _ _ _ T3 E Ev Hf)|vm_compute; tauto|].
  eapply reports_after; [apply J1|]. eapply reach_trans; [apply A2|apply A3].
Qed.

(** ** The launch *)
Definition tracer_of (l : launched) : option HostTracer :=
  match l with LaunchError _ => None | NotAdmitted st => Some (s_tracer st) | ReleaseFailed _ _ t | Running _ t => Some t end.

Lemma after_launch_found l t0 : tracer_of l = Some t0 -> ensures (after_launch l) (fun x =>
  match l with Running _ _ => x = (t0, false) | _ => reports t0 (fst x) "telemetry_loss" end).
Proof.
  destruct l as [e|st|st e t|st t]; intros [= <-]; cbn [after_launch]; [| |by apply ensures_done].
  - eapply ensures_bind; [apply note_adds; reflexivity|]. intros t1 J1. eapply ensures_bind; [note_auto|]. intros t2 J2.
    apply ensures_done. eapply reports_before, J2. by eapply adds_advances.
  - eapply (ensures_bind _ _ (fun t1 => reaches (set_error e t) t1)).
    { case_match; [by apply ensures_done, reach_same|]. eapply ensures_weaken; [apply note_adds; reflexivity|].
      intros t1 J1. by eapply adds_advances. }
    intros t1 J1. eapply ensures_bind; [note_auto|]. intros t2 J2. apply ensures_done. eapply reports_before, J2. exact J1.
Qed.

Notation watch := (watch parse_float float_repr repr_wide mcp_ns mcp_monotonic mcp_errno answers_at).

(** The run from the tracer of the launch; only after a release that succeeded can nothing be lost. *)
Lemma watch_moves turns fuel lim mcp_server l st t0 : tracer_of l = Some t0 ->
  ensures (watch turns fuel lim mcp_server l st) (fun m =>
    reaches t0 (m_tracer m) /\
    match l with
    | Running _ _ => m_incomplete m = true -> truncated (m_output m) = true \/ trace_error (m_tracer m) <> None
    | _ => reports t0 (m_tracer m) "telemetry_loss"
    end).
Proof.
  intros E0. unfold Detonate.watch. eapply ensures_bind; [by apply after_launch_found|]. intros [t incomplete] Jx. cbn zeta.
  set (m0 := first_monitor _ _ _ _ t).
  eapply (ensures_bind _ _ (moves m0)).
  { destruct l; auto with ensures; apply ensures_then; intros start; [apply loop_moves|].
    eapply moves_after, loop_moves. by apply moves_same; [apply advances_refl|..]. }
  intros m1 J1. unfold drain_streams. eapply ensures_weaken.
  { apply moves_bind; [eapply moves_after, drain_moves; exact J1|]. intros m2 J2. eapply moves_after, drain_moves. exact J2. }
  intros m2 [[Ja _] _ Ji]. change (m_tracer m0) with t in Ja. change (m_incomplete m0) with incomplete in Ji.
  destruct l; [done| | |]; cbn [fst] in *.
  1,2: split; [destruct Jx as (ops & Ex & _); eapply reach_trans; [by exists ops|done]|by eapply reports_after].
  injection Jx as -> ->. split; [done|]. intros Hi. by destruct (Ji Hi).
Qed.

Variable make_tracer : Z -> HostTracer.

Lemma attach_detector fuel t : ensures (attach fuel t) (fun r => match r with inl _ => True | inr t' => detector t' = detector t end).
Proof.
  unfold attach, and_then. repeat (apply ensures_then; intros ?; try (case_match; [by apply ensures_done|])). by apply ensures_done.
Qed.
Lemma release_detector fuel full_root st w cgroup fd : ensures (release fuel full_root st w cgroup fd) (fun r =>
  match r with Released t | Unreleased _ _ t => detector t = detector (s_tracer st) end).
Proof.
  unfold release, begin. destruct (s_admission st) as [a|]; [|by apply ensures_done]. apply ensures_then. intros v.
  destruct v as [e|i], (_validate_tracer_target (s_tracer st) (Some a)) as [[]|e']; try by apply ensures_done.
  destruct full_root.
  2:{ apply ensures_then. intros [e|[]]; [by apply ensures_done|]. cbn zeta. apply ensures_then. intros [e|[]]; by apply ensures_done. }
  unfold release_root. eapply ensures_bind; [apply attach_detector|]. intros [e|t] Et; [by apply ensures_done|].
  apply ensures_then. intros [e|j]; [by apply ensures_done|]. destruct fd as [fd|]; [|by apply ensures_done].
  apply ensures_then. intros [e|n]; [by apply ensures_done|]. destruct (negb _); [by apply ensures_done|].
  apply ensures_then. intros [e|[]]; [by apply ensures_done|]. apply ensures_then. intros [e|[]]; by apply ensures_done.
Qed.

(** The controls that are required, and an admitted process to have them. *)
Definition in_force (required : list (string * bool)) (st : setup) : Prop :=
  s_admission st <> None /\ forall name, In (name, true) required -> assoc name (s_controls st) = Some true.

Lemma settle_in_force full_root required p a : let st := settle make_tracer full_root required p a in s_failures st = [] -> in_force required st.
Proof.
  cbn zeta. unfold settle. destruct a as [[message admission] error]. set (controls := controls_of _ _ _). set (t := make_tracer _).
  assert (Hs : forall e, _isolation_admission_failures (setup_ready message admission) controls required = [] ->
    in_force required (mk_setup message admission e controls [] t)).
  { intros e [Hr Hc]%LaunchFacts.failures_none. split; [|done]. cbn. unfold setup_ready in Hr. by destruct admission. }
  destruct (_isolation_admission_failures (setup_ready _ _) _ _) as [|f fs] eqn:E; [|done].
  destruct (_validate_tracer_target _ _); [by intros _; apply Hs|]. cbn [s_failures]. by intros [? _]%LaunchFacts.failures_none.
Qed.
Lemma settle_tracer full_root required p a : exists n, s_tracer (settle make_tracer full_root required p a) = make_tracer n.
Proof. unfold settle. destruct a as [[message admission] error]. by repeat case_match; eexists. Qed.

Lemma launch_detector fuel full_root required wall p cgroup gate fd :
  ensures (launch parse_float fuel make_tracer full_root required wall p cgroup gate fd) (fun l =>
    (forall t, tracer_of l = Some t -> exists n, detector t = detector (make_tracer n)) /\
    forall st t, l = Running st t -> in_force required st).
Proof.
  unfold launch. apply ensures_then. intros [e|w]; [apply ensures_then; intros [|]; [apply ensures_raise|by apply ensures_done]|].
  apply ensures_then. intros now. cbn zeta. apply ensures_then. intros a. destruct (settle_tracer full_root required p a) as [n En].
  assert (Hf := settle_in_force full_root required p a). cbn zeta in Hf. set (st := settle _ _ _ _ a) in *.
  destruct (s_failures st) as [|f fs] eqn:E.
  - unfold release_or_kill. eapply ensures_bind; [apply release_detector|]. intros [t|closed why t] Et.
    + apply ensures_done. split; [intros ? [= <-]; exists n; by rewrite Et, En|]. intros ?? [= <- <-]. auto.
    + unfold release_failed. do 3 (apply ensures_then; intros _). apply ensures_done. split; [|done].
      intros ? [= <-]. exists n. by rewrite Et, En.
  - unfold refuse. do 3 (apply ensures_then; intros _). apply ensures_then.
    assert (Hn : ensures (done (NotAdmitted st)) (fun l => (forall t, tracer_of l = Some t -> exists n, detector t = detector (make_tracer n)) /\
      forall st t, l = Running st t -> in_force required st)).
    { apply ensures_done. split; [|done]. intros ? [= <-]. exists n. by rewrite En. }
    intros [e|x]; [|done]. destruct (_ || _); [done|apply ensures_raise].
Qed.

Notation detonate := (detonate parse_float float_repr repr_wide mcp_ns mcp_monotonic mcp_errno answers_at make_tracer).

(** C3: Nothing is allowed that did not go right, whatever a human said.  If a
    detonation whose detector was only ever driven by its methods ends with the
    final decision ALLOW, then the sandbox was released to run: a process was
    admitted and every required isolation control was in force; its output was
    kept whole, the tracer had no error, the orchestrator did not mark the telemetry
    incomplete, no failed start of the payload was observed, the cleanup was verified
    from outside, and the report the gate read is the one the broker built.  No loss of
    telemetry was ever marked in the detector; so the receipt, which also looks at the
    detector's own flag, calls the telemetry incomplete only if a malformed event was
    recorded, which is then a counted finding that a human overrode, or if more events
    were reported than the detector keeps. *)
Theorem allowed_run_is_sound (mx : Z) (start : N) (ops : list op) (turns fuel : nat) (lim : limits) (full_root mcp_server : bool)
    (required : list (string * bool)) (cgroup : option string) (gate admission_write : option Z) (job_dir : string) (paths : evidence_paths)
    (override : PolicyGate.override_source) (log log' : list call) (o : outcome) :
  (forall n, detector (make_tracer n) = run (new_engine mx start) ops) ->
  detonate turns fuel lim full_root mcp_server required cgroup gate admission_write job_dir paths override log = Some (Ok o, log') ->
  final_decision (gate_of o) = VStr "ALLOW" ->
  exists st t l m c, o = Concluded st m c /\
    launch parse_float fuel make_tracer full_root required (l_wall lim) (l_process lim) cgroup gate admission_write log = Some (Ok (Running st t), l) /\
    s_admission st <> None /\ (forall name, In (name, true) required -> assoc name (s_controls st) = Some true) /\
    truncated (m_output m) = false /\ trace_error (m_tracer m) = None /\
    c_incomplete c = false /\ c_failure c = None /\ Cleanup.verified_externally (c_purge c) = true /\
    OutwardReport.build_report (broker_of (c_tracer c)) (c_uncertainty c) = Ok (c_report c) /\
    exists calls, detector (c_tracer c) = run (new_engine mx start) calls /\ (forall now, ~ In (MarkTelemetryLoss now) calls) /\
      (c_incomplete c || telemetry_incomplete (detector (c_tracer c)) = true ->
       0 < count (finding_counts (detector (c_tracer c))) "malformed_report" \/
       Z.max 0 mx < Z.of_nat (length (concat (map seen calls)))).
Proof.
  intros He Hd Hf. unfold Detonate.detonate in Hd. apply bind_done in Hd as (l & l1 & Hl & Hd).
  assert (Hk := launch_detector _ _ _ _ _ _ _ _ _ _ _ Hl). destruct Hk as [Ht Hr].
  assert (Hn : forall n, tracked (detector (make_tracer n))) by (intros n; rewrite He; apply tracked_new).
  destruct (tracer_of l) as [t0|] eqn:Et.
  2:{ destruct l; try done. apply bind_done in Hd as ([[[t p] report] g] & l2 & Hd & Hx). io_inv. subst o.
      destruct (deny_denies _ _ _ _ _ _ _ _ _ _ _ _ (Hn _) _ _ _ Hd Hf). }
  destruct (Ht t0 eq_refl) as [n En]. assert (T0 : tracked (detector t0)) by (by rewrite En).
  assert (Hx : exists st m c l2 l3, o = Concluded st m c /\ watch turns fuel lim mcp_server l st l1 = Some (Ok m, l2) /\
    conclude parse_float turns fuel (s_failures st) (s_admission st) m cgroup job_dir (l_process lim) paths override (l_job lim) l2 = Some (Ok c, l3) /\
    match l with Running st' _ => st' = st | _ => True end).
  { destruct l; [done|..]; io_inv; do 5 eexists; eauto. }
  destruct Hx as (st & m & c & l2 & l3 & -> & Hw & Hc & Hst). destruct (watch_moves _ _ _ _ _ _ _ Et _ _ _ Hw) as [Hm Hi].
  destruct (conclude_sound _ _ _ _ _ _ _ _ _ _ _ (tracked_reach _ _ T0 Hm) _ _ _ Hc Hf) as (C & S1 & S2 & S3 & S4 & S5 & S6 & S7 & S8).
  destruct l as [| | |st' t]; [done|destruct (clears_reports t0 (m_tracer m) "telemetry_loss"); [done..|right; by left|done]..|].
  subst st'. destruct (Hr st t eq_refl) as [Ha Hreq]. exists st, t, l1, m, c.
  assert (Hinc : c_incomplete c = false) by (rewrite S5; apply not_true_is_false; intros Ei; destruct (Hi Ei); congruence).
  split_and!; try done. destruct (reach_trans _ _ _ Hm S8) as [calls E]. rewrite En, He, <- run_app in E. exists (ops ++ calls).
  rewrite E in S7 |- *. destruct (incomplete_reason _ _ _ S7) as [I1 I2]. rewrite Hinc. done.
Qed.
End run.

(** ** A run on a concrete host *)
Section witness.
Definition job_dir : string := "/tmp/cindermote-0/mf-run-1".
Definition job_group : string := "/sys/fs/cgroup/cindermote/mf-run-1".
Definition did (p : call -> bool) (log : list call) : bool := existsb p log.
Definition is_kill (c : call) : bool := match c with CKillpg _ _ => true | _ => false end.
Definition is_rmdir (c : call) : bool := match c with CRmdir _ => true | _ => false end.
Definition is_rmtree (c : call) : bool := match c with CRmtree _ => true | _ => false end.
Definition is_wait (c : call) : bool := match c with CWaitpid n => n =? -1 | _ => false end.

(** The wrapper and the sandbox until their group is killed. *)
Definition allowed_host (log : list call) : host := mk_host
  (if did is_kill log then ∅ else procs LaunchFacts.sample_host) ["self"]
  (if did is_rmdir log then ∅ else {[job_group := if did is_kill log then [] else [100; 101]]})
  (if did is_rmtree log then ∅ else {[job_dir]}) [].

(** The sandbox stops for the tracer, then completes its exec, then exits. *)
Definition allowed_waits (log : list call) : Z * Z :=
  match log with
  | CWaitpid 101 :: _ => (101, 4991)
  | CWaitpid (-1) :: r => match List.filter is_wait r with [] => (101, 263551) | [_] => (101, 0) | _ => (0, 0) end
  | _ => (0, 0)
  end.
Definition allowed_kernel : Kernel := {|
  host_at := allowed_host;
  fails _ := None;
  clock log := foldr (fun c t => match c with CSleep ns => Z.max 0 ns + t | _ => 1 + t end) 0 log;
  waited := allowed_waits;
  new_fd _ := 7;
  wrote log := match log with CWriteFd _ d :: _ => Z.of_nat (String.length d) | _ => 0 end;
  received _ := mk_recv (LaunchFacts.sample_status +:+ chr 10) [(1, 2, LaunchFacts.sample_credentials)] 0;
  ready _ := [];
  chunk _ := "";
|}.
#[local] Existing Instance allowed_kernel.
#[local] Existing Instance LaunchFacts.unit_clock.
#[local] Existing Instance usual_interpreter.

Definition plain_answers (_ : list call) : answers := mk_answers (inl 0) (inl (at_call 0 0 0)) None (mk_reads (fun _ => None) (fun _ => "") (fun n => N.of_nat n) tt).
Definition allowed_limits : limits := mk_limits 60 4096 100 "mf-run-1" "/opt/cindermote/.tainted_hosts".
Definition allowed_paths : evidence_paths := mk_paths "/opt/cindermote/.decommissioned" "/opt/cindermote/quarantine".
Definition required_controls : list (string * bool) := [("namespace_used", true); ("seccomp_loaded", true); ("cgroups_used", true)].
Definition allowed_detonation : io outcome :=
  detonate (fun _ => FNan) (fun _ => "") (fun s => s) (fun n => N.of_nat n) (fun _ => 0) (fun _ => None) plain_answers LaunchFacts.sample_tracer
    10 10 allowed_limits true false required_controls (Some job_group) (Some 5) (Some 6) job_dir allowed_paths PolicyGate.NoOverride.
Definition allowed_calls : list call := match allowed_detonation [] with Some (_, l) => l | None => [] end.
Definition allowed_outcome : outcome :=
  match allowed_detonation [] with
  | Some (Ok o, _) => o
  | _ => Denied (LaunchFacts.sample_tracer 0) (Cleanup.mk_purge false false false false false false 0 []) VNone VNone
  end.

Lemma allowed_run_is_sound_witness : final_decision (gate_of allowed_outcome) = VStr "ALLOW" /\
  exists st m c, allowed_outcome = Concluded st m c /\ s_admission st <> None /\ c_incomplete c = false /\ Cleanup.verified_externally (c_purge c) = true.
Proof.
  assert (Hf : final_decision (gate_of allowed_outcome) = VStr "ALLOW") by (vm_compute; reflexivity). split; [exact Hf|].
  destruct (allowed_run_is_sound (fun _ => FNan) (fun _ => "") (fun s => s) (fun n => N.of_nat n) (fun _ => 0) (fun _ => None) plain_answers
    LaunchFacts.sample_tracer 10 0 [] 10 10 allowed_limits true false required_controls (Some job_group) (Some 5) (Some 6) job_dir allowed_paths
    PolicyGate.NoOverride [] allowed_calls allowed_outcome) as (st & t & l & m & c & E & _ & Ha & _ & _ & _ & Hi & _ & Hp & _ & _).
  - reflexivity.
  - vm_compute. reflexivity.
  - exact Hf.
  - exists st, m, c. tauto.
Defined.
End witness.
End DetonateFacts.
