(* ===== verification/GuestWire.v ===== *)
(** * Frames between guest and host, read back

    A canonical document in ASCII, followed by its newline, is read by either side as
    the document it is, when it is read at all. *)

From stdpp Require Import base list strings.
From Stdlib Require Import ZArith Lia.
From S2P Require Import Prelude PyValue Sha256 Json JsonFacts Canonical StrOps UrlFacts AgentProtocol AgentBroker Evidence EvidenceFacts JsonLoads AgentRuntime.

Local Open Scope Z_scope.

Module GuestWire.
Import Canonical Protocol.

(** Bytes that announce no other encoding. *)
Definition plain (c : Ascii.ascii) : bool := (1 <=? byte_of c) && (byte_of c <? 128).

Lemma printable_plain c : EvidenceFacts.printable c = true -> plain c = true.
Proof. unfold EvidenceFacts.printable, plain. lia. Qed.

Lemma plain_utf8 s : str_forall plain s = true -> Evidence.utf8_ok 0 128 191 s = true.
Proof.
  induction s as [|c s IH]; [done|]. cbn. intros [Hc Hs]%andb_true_iff. unfold plain in Hc. rewrite (proj2 (Z.ltb_lt _ _)) by lia. by apply IH.
Qed.

Lemma small_byte x : 1 <= x < 128 -> In x (map Z.of_nat (seq 1 127)).
Proof. intros Hx. apply in_map_iff. exists (Z.to_nat x). split; [lia|]. apply in_seq. lia. Qed.

Lemma decode_plain s : str_forall plain s = true -> decode_json s = Some s.
Proof.
  intros Hs. assert (Hu := plain_utf8 s Hs). assert (Ht : utf8_text s = Some s) by (unfold utf8_text; by rewrite Hu).
  unfold decode_json. destruct s as [|c [|d s]]; [done|..].
  - cbn in Hs. rewrite andb_true_r in Hs. cbn [byte_values]. unfold plain in Hs. assert (Hc : 1 <= byte_of c < 128) by lia.
    apply small_byte in Hc. cbn in Hc. revert Hc. generalize (byte_of c). intros x Hc. repeat destruct Hc as [<-|Hc]; done.
  - cbn in Hs. apply andb_true_iff in Hs as [Hc Hs]. apply andb_true_iff in Hs as [Hd Hs]. unfold plain in Hc, Hd. cbn [byte_values].
    assert (Hx : 1 <= byte_of c < 128) by lia. assert (Hy : 0 < byte_of d) by lia. clear Hc Hd Hs Hu.
    apply small_byte in Hx. cbn in Hx. revert Hx Hy. generalize (byte_of c), (byte_of d). intros x y Hx Hy.
    destruct y as [|y|y]; [lia| |lia]. repeat destruct Hx as [<-|Hx]; try done; destruct (byte_values s) as [|? [|? ?]]; done.
Qed.

Section frames.
Variable parse_float : string -> pyfloat.

(** A document that both sides read as it was written. *)
Definition framed (v : pyval) : Prop := wf_val v = true /\ in_domain v = true /\ EvidenceFacts.ascii_val v = true.

Lemma line_plain v : framed v -> str_forall plain (AgentRuntime.line (encode v)) = true.
Proof.
  intros (_ & _ & Ha). unfold AgentRuntime.line. rewrite str_forall_app. apply andb_true_iff. split; [|done].
  apply (str_forall_weaken EvidenceFacts.printable); [apply printable_plain|by apply EvidenceFacts.encode_printable].
Qed.

(** What is read of the line of a frame is the frame. *)
Lemma line_reads `{Interpreter} v w : framed v -> json_loads parse_float (AgentRuntime.line (encode v)) = Loaded w -> w = canon v.
Proof.
  intros Hv. unfold json_loads. rewrite decode_plain by by apply line_plain. intros Hl%json_text_loads.
  destruct Hv as (Hw & Hd & _). assert (Hok := domain_json_ok v Hw Hd). revert Hl. unfold loads, load_text, AgentRuntime.line, encode.
  rewrite skip_ws_start by (by apply dumps_start). rewrite (reads_all parse_float NoHooks (fun _ => "") v Hok); [|rewrite length_append; lia|done].
  by intros [= <-].
Qed.
End frames.

End GuestWire.
