(* ===== verification/GuestFacts.v ===== *)
(** * What the guest does: facts about a run of the agent probe's driver

    A tool is executed only when the host allowed the proposal that names it and
    fixes its arguments; a run that calls itself complete did submit its task; and
    against the host's own broker the tools that run are those the broker logged. *)

From stdpp Require Import base list strings.
From Stdlib Require Import ZArith Lia.
From S2P Require Import Prelude PyValue Sha256 Json JsonFacts Canonical StrOps AgentProtocol AgentBroker Hpke SecretStream Evidence EvidenceFacts JsonLoads AgentRuntime WorkerWire GuestAgent.

Local Open Scope Z_scope.

Module GuestFacts.
Import Canonical Protocol GuestAgent.

(** ** Steps *)
Section steps.
Context `{World} `{Interpreter} `{Primitives} `{Sodium}.

(** From a state with [P], [m] ends with [Q] of its value, or raises in a state with [I]. *)
Definition holds {A} (I P : guest -> Prop) (m : act A) (Q : A -> guest -> Prop) : Prop :=
  forall g, P g -> match m g with (g', Ok a) => Q a g' | (g', Err _) => I g' end.

Lemma holds_ret {A} I (a : A) (Q : A -> guest -> Prop) : holds I (Q a) (ret a) Q.
Proof. by intros g. Qed.
Lemma holds_lift {A} (I P : guest -> Prop) (r : res A) : (forall g, P g -> I g) -> holds I P (lift r) (fun a g => P g /\ r = Ok a).
Proof. intros HI g Hg. unfold lift. destruct r; auto. Qed.
Lemma holds_read I (P : guest -> Prop) : holds I P read (fun a g => P g /\ a = g).
Proof. by intros g. Qed.
Lemma holds_update I (P Q : guest -> Prop) f : (forall g, P g -> Q (f g)) -> holds I P (update f) (fun _ g => Q g).
Proof. intros HQ g. apply HQ. Qed.
Lemma holds_chain {A B} (I P : guest -> Prop) (m : act A) (R : A -> guest -> Prop) (k : A -> act B) (Q : B -> guest -> Prop) :
  holds I P m R -> (forall a, holds I (R a) (k a) Q) -> holds I P (chain m k) Q.
Proof.
  intros Hm Hk g Hg. specialize (Hm g Hg). unfold chain. destruct (m g) as [g' [a|e]]; [|done]. by apply Hk.
Qed.
Lemma holds_pre {A} (I P P' : guest -> Prop) (m : act A) (Q : A -> guest -> Prop) :
  (forall g, P' g -> P g) -> holds I P m Q -> holds I P' m Q.
Proof. intros Hp Hm g Hg. apply Hm; auto. Qed.
Lemma holds_post {A} (I P : guest -> Prop) (m : act A) (Q Q' : A -> guest -> Prop) :
  holds I P m Q -> (forall a g, Q a g -> Q' a g) -> holds I P m Q'.
Proof. intros Hm Hq g Hg. specialize (Hm g Hg). destruct (m g) as [g' [a|e]]; auto. Qed.
(** A fact about no state in particular *)
Lemma holds_fact {A} (I P : guest -> Prop) (F : Prop) (m : act A) (Q : A -> guest -> Prop) :
  (F -> holds I P m Q) -> holds I (fun g => P g /\ F) m Q.
Proof. intros Hm g [Hg HF]. by apply Hm. Qed.

Lemma holds_drop {A} (I P : guest -> Prop) (F : guest -> Prop) (m : act A) (Q : A -> guest -> Prop) :
  holds I P m Q -> holds I (fun g => P g /\ F g) m Q.
Proof. apply holds_pre. by intros g []. Qed.

(** ** The trace only grows *)

(** A property of traces that every event but an execution keeps. *)
Definition stable (T : list event -> Prop) : Prop :=
  forall e t, match e with Executed _ _ _ => False | _ => True end -> T t -> T (e :: t).

(** A property that neither a request to the provider nor a sealed record changes. *)
Definition quiet (T : list event -> Prop) : Prop :=
  (forall b t, T t -> T (Requested b :: t)) /\ (forall ty p f t, T t -> T (Sealed ty p f :: t)).
Lemma stable_quiet T : stable T -> quiet T.
Proof. intros HT. split; intros; by apply HT. Qed.
(** The same of a property of the whole state, which says nothing of the messages, the
    sealer and the usage. *)
Record steady (T : guest -> Prop) : Prop := {
  steady_requested g b : T g -> T (set_trace (Requested b :: trace g) g);
  steady_sealed g ty p f s : T g -> T (set_trace (Sealed ty p f :: trace g) (set_sealer s g));
  steady_rest g s ms u : T g -> T (mk_guest (trace g) s ms (state g) u (proposals g));
}.
Lemma quiet_steady T : quiet T -> steady (fun g => T (trace g)).
Proof. intros [Hr Hs]. split; cbn; auto. Qed.

Variable parse_float : string -> pyfloat.

(** What each operation on the sealer and the channel does to a state with [P]. *)
Lemma seal_does (T : list event -> Prop) (P : guest -> Prop) ty v f : (forall g, P g -> T (trace g)) ->
  holds (fun g => T (trace g)) P (seal ty v f) (fun _ g' => exists g p s, P g /\ canonical_bytes v = Ok p /\
    g' = set_trace (Sealed ty p f :: trace g) (set_sealer s g)).
Proof.
  intros HP g Hg. unfold seal, chain, lift. destruct (canonical_bytes v) as [p|]; [|exact (HP g Hg)].
  destruct (Evidence.append _ _ _ _) as [s [[]|]]; [|exact (HP g Hg)]. by exists g, p, s.
Qed.
Lemma put_does (T : list event -> Prop) (P : guest -> Prop) v : (forall g, P g -> T (trace g)) ->
  holds (fun g => T (trace g)) P (put_frame v) (fun _ g' => exists g n, P g /\ in_domain v = true /\
    g' = set_trace (Wrote (AgentRuntime.line (encode v)) n :: trace g) g).
Proof.
  intros HP g Hg. unfold put_frame, _write_json_line. destruct (canonical_bytes v) as [p|] eqn:Ev; [|exact (HP g Hg)].
  destruct (_ <? _); [exact (HP g Hg)|]. destruct (accepts _ _) as [n|]; [|exact (HP g Hg)]. apply canonical_bytes_ok in Ev as [Hd ->]. by exists g, n.
Qed.
Lemma take_does (T : list event -> Prop) (P : guest -> Prop) : stable T -> (forall g, P g -> T (trace g)) ->
  holds (fun g => T (trace g)) P (take_frame parse_float) (fun frame g' => exists g raw, P g /\ reply (trace g) = Ok raw /\
    parse_frame parse_float raw = Ok frame /\ g' = set_trace (Took raw :: trace g) g).
Proof.
  intros HT HP g Hg. unfold take_frame, _read_json_line. destruct (reply (trace g)) as [raw|] eqn:Er; [|exact (HP g Hg)].
  destruct (parse_frame parse_float raw) as [frame|] eqn:Ef; [by exists g, raw|]. apply HT; [done|by apply HP].
Qed.

(** From here on [T] is what holds between two steps, [U] what is left after an exception. *)
Section keeps.
Variable T : guest -> Prop.
Variable U : list event -> Prop.
Hypothesis T_steady : steady T.
Hypothesis T_U : forall g, T g -> U (trace g).
Notation inU := (fun g => U (trace g)).

Lemma keeps_ret {A} (a : A) : holds inU T (ret a) (fun _ => T).
Proof. by intros g. Qed.
Lemma keeps_lift {A} (x : res A) : holds inU T (lift x) (fun _ => T).
Proof. intros g Hg. unfold lift. destruct x; [done|exact (T_U g Hg)]. Qed.
Lemma keeps_seal ty v f : holds inU T (seal ty v f) (fun _ => T).
Proof.
  eapply holds_post; [apply (seal_does U T); intros g; apply T_U|]. intros _ g' (g & p & s & Hg & _ & ->). by apply steady_sealed.
Qed.
Lemma keeps_model_call id ms n : holds inU T (_model_call parse_float id ms n) (fun _ => T).
Proof.
  intros g Hg. assert (HU := T_U _ Hg). unfold _model_call, chain, lift, log, update, read, ret.
  destruct (canonical_bytes _) as [b|]; [|exact HU].
  assert (Hb : T (set_trace (Requested b :: trace g) g)) by by apply steady_requested. assert (HbU := T_U _ Hb). cbn [trace set_trace].
  destruct (provider _) as [status bytes| |e]; [| |exact HbU]; cbn [trace set_trace].
  - destruct (raise_if _ _ _); [|exact HbU]. destruct (response_object _ _); [exact Hb|exact HbU].
  - destruct (raise_if _ _ _); [|exact HbU]. destruct (response_object _ _); [exact Hb|exact HbU].
Qed.

Variable j : job.
Hypothesis keeps_tools : forall calls, holds inU T (tool_loop parse_float (j_manifest j) (j_nonce j) (j_documents j) calls) (fun _ => T).

Lemma keeps_response response : holds inU T (on_response parse_float j response) (fun _ => T).
Proof.
  unfold on_response.
  destruct (assoc "choices" response) as [[| | | | | |[|[| | | | | | |choice] l]|]|]; try apply keeps_ret.
  destruct (assoc "message" choice) as [[| | | | | | |m]|]; try apply keeps_ret.
  eapply holds_chain; [apply holds_lift; intros g; apply T_U|]. intros refused. apply holds_fact. intros _. destruct refused; [apply keeps_ret|].
  eapply holds_chain; [apply holds_update with (Q := T); intros g; by apply steady_rest|]. intros ?.
  destruct (default _ _) as [| | | | | |calls|]; try apply keeps_ret. destruct calls as [|c calls].
  { eapply holds_chain; [apply holds_read|]. intros g1. apply holds_drop. apply keeps_ret. }
  eapply holds_chain; [apply keeps_tools|]. intros [code|]; [apply keeps_ret|].
  eapply holds_chain; [apply holds_read|]. intros g1. apply holds_drop. apply keeps_ret.
Qed.
Lemma keeps_request : holds inU T (one_request parse_float j) (fun _ => T).
Proof.
  unfold one_request. eapply holds_chain; [apply holds_read|]. intros g0. apply holds_drop.
  eapply holds_chain; [apply keeps_lift|]. intros n. destruct (_ <=? 0); [apply keeps_ret|].
  eapply holds_chain; [apply keeps_lift|]. intros id. eapply holds_chain; [apply keeps_model_call|]. intros a.
  eapply holds_chain; [apply holds_update with (Q := T); intros g; by apply steady_rest|]. intros ?.
  eapply holds_chain; [apply keeps_seal|]. intros ?. destruct (a_response a) as [d|]; [|apply keeps_ret].
  destruct (negb _); [apply keeps_ret|apply keeps_response].
Qed.
Lemma keeps_requests n : holds inU T (request_loop parse_float n j) (fun _ => T).
Proof.
  induction n as [|n IH]; cbn [request_loop]; [apply keeps_ret|].
  eapply holds_chain; [apply keeps_request|]. intros [code|]; [apply keeps_ret|apply IH].
Qed.
Lemma keeps_converse text hash : holds inU T (converse parse_float j text hash) (fun _ => T).
Proof.
  unfold converse. eapply holds_chain; [apply holds_update with (Q := T); intros g; by apply steady_rest|]. intros ?.
  eapply holds_chain; [apply keeps_seal|]. intros ?. eapply holds_chain; [apply keeps_lift|]. intros n.
  eapply holds_chain; [apply keeps_requests|]. intros code.
  eapply holds_chain; [apply holds_read|]. intros g. apply holds_drop. eapply holds_chain; [apply keeps_lift|]. intros tokens.
  eapply holds_chain; [apply keeps_seal|]. intros ? g1 Hg. destruct (Evidence.finalize _) as [s [b|]]; [|exact (T_U _ Hg)].
  cbn [mbind res_bind]. destruct (sub (j_manifest j) "job_id"); [by apply (steady_rest T T_steady g1 s (messages g1) (usage g1))|exact (T_U _ Hg)].
Qed.
End keeps.

(** ** The whole connection *)
Section connection.
Variables T U : list event -> Prop.
Hypothesis T_quiet : quiet T.
Hypothesis T_U : forall t, T t -> U t.
Hypothesis U_stable : stable U.
Hypothesis U_nil : U [].
Variable nonce : pyval.
Hypothesis T_start : forall n raw, reply [Wrote (AgentRuntime.line (encode (hello nonce))) n] = Ok raw ->
  T [Took raw; Wrote (AgentRuntime.line (encode (hello nonce))) n].
Hypothesis T_tools : forall manifest documents calls,
  holds (fun g => U (trace g)) (fun g => T (trace g)) (tool_loop parse_float manifest nonce documents calls) (fun _ g => T (trace g)).
Variables (cek ephemeral stream_seed : string).

Lemma keeps_run request message t key t' r :
  (let* runtime := sub request "runtime" in sub runtime "nonce") = Ok nonce -> T t ->
  _run parse_float cek ephemeral stream_seed request message t = (key, t', r) -> U t'.
Proof using T T_U T_quiet T_tools.
  intros Hn Ht. unfold _run. assert (Hi := T_U t Ht).
  destruct (deliver request message) as [[[manifest hash] k]|]; [|by intros [= _ <- _]].
  destruct (prepare cek ephemeral stream_seed request) as [[[j text] s]|] eqn:Ep; [|by intros [= _ <- _]].
  assert (Hj : j_nonce j = nonce).
  { unfold prepare in Ep. run_inv. simplify_eq. cbn. congruence. }
  pose proof (keeps_converse (fun g => T (trace g)) U (quiet_steady T T_quiet) (fun g => T_U (trace g)) j) as Hc. rewrite Hj in Hc.
  specialize (Hc (T_tools _ _) text hash (mk_guest t s [] (mk_task false "" 0) no_metrics 0) Ht).
  destruct (converse _ _ _ _ _) as [g [v|]]; intros [= _ <- _]; [by apply T_U|done].
Qed.

Lemma keeps_write v t t' r : U t -> _write_json_line v t = (t', r) -> U t'.
Proof using U_stable.
  intros Ht. unfold _write_json_line. destruct (canonical_bytes v); [|by intros [= <- _]].
  destruct (_ <? _); [by intros [= <- _]|]. destruct (accepts _ _); intros [= <- _]; [|done]. by apply U_stable.
Qed.

Lemma keeps_serve request key t' r :
  (let* runtime := sub request "runtime" in sub runtime "nonce") = Ok nonce ->
  serve parse_float cek ephemeral stream_seed request nonce [] = (key, t', r) -> U t'.
Proof using All.
  intros Hn. unfold serve. destruct (_write_json_line (hello nonce) []) as [t0 [[]|e]] eqn:E0; [|intros [= _ <- _]; by eapply keeps_write].
  set (first := AgentRuntime.line (encode (hello nonce))) in *. assert (exists n, t0 = [Wrote first n]) as [n ->].
  { unfold _write_json_line in E0. destruct (canonical_bytes _) as [p|] eqn:Ep; [|done]. apply canonical_bytes_ok in Ep as [_ ->].
    repeat case_match; simplify_eq. by eexists. }
  clear E0. assert (Hs : U [Wrote first n]) by by apply U_stable.
  unfold _read_json_line at 1. destruct (reply [Wrote first n]) as [raw|e] eqn:Er.
  - assert (HT := T_start _ _ Er). destruct (parse_frame parse_float raw) as [message|e].
    + destruct (_run _ _ _ _ request message _) as [[k t1] r1] eqn:E1. apply keeps_run in E1; [|done..].
      destruct r1; [|destruct (failure_result request nonce); [|by intros [= _ <- _]]];
        destruct (_write_json_line _ t1) as [t2 [[]|]] eqn:E2; intros; simplify_eq; exact (keeps_write _ _ _ _ E1 E2).
    + apply T_U in HT. destruct (failure_result request nonce); [|by intros [= _ <- _]].
      destruct (_write_json_line _ _) as [t2 [[]|]] eqn:E2; intros; simplify_eq; exact (keeps_write _ _ _ _ HT E2).
  - destruct (failure_result request nonce); [|by intros [= _ <- _]].
    destruct (_write_json_line _ _) as [t2 [[]|]] eqn:E2; intros; simplify_eq; exact (keeps_write _ _ _ _ Hs E2).
Qed.
End connection.

(** ** Executions are allowed *)

(** [frame] is the decision on proposal [n] of the run with this [nonce]. *)
Definition answers (frame nonce : pyval) (n : Z) : Prop :=
  let field name := default VNone (assoc name (dict_of frame)) in
  py_eq (field "type") (VStr "decision") = true /\ py_eq (field "nonce") nonce = true /\ py_eq (field "sequence") (VInt n) = true.
Lemma decision_answers frame nonce n : decision_bound frame nonce n = true -> answers frame nonce n.
Proof. unfold decision_bound, answers. intros Hb. repeat (apply andb_true_iff in Hb as [Hb ?]). by split_and!. Qed.

(** The end of a trace after which a call of [action] with [args] may run: its
    proposal was sealed and sent, and the host's answer to it allows it. *)
Definition permits (nonce : pyval) (action : string) (args : pydict) (t : list event) : Prop :=
  exists raw frame n taken name d rest,
    t = Took raw :: Wrote (AgentRuntime.line (encode (proposal_frame nonce n action (digest_bytes (encode (VDict args)))))) taken ::
        Sealed "tool_proposal" (encode (VDict [("action", VStr name); ("args", VDict args)])) false :: rest /\
    (action = name \/ action = "unknown_tool") /\
    parse_frame parse_float raw = Ok frame /\ answers frame nonce n /\
    sub frame "disposition" = Ok d /\ py_eq d (VStr "allowed") = true.
Definition backed (nonce : pyval) (t : list event) : Prop :=
  forall later action args result before, t = later ++ Executed action args result :: before -> permits nonce action args before.

Lemma backed_stable nonce : stable (backed nonce).
Proof.
  intros e t He Ht later action args result before E. destruct later as [|x later]; cbn in E; simplify_eq; [done|]. by eapply Ht.
Qed.
Lemma backed_execute nonce action args result t :
  permits nonce action args t -> backed nonce t -> backed nonce (Executed action args result :: t).
Proof.
  intros Hp Ht later a s r before E. destruct later as [|x later]; cbn in E; simplify_eq; [done|]. by eapply Ht.
Qed.

Notation backs nonce := (fun g => backed nonce (trace g)).

Lemma backed_seal nonce ty v f : holds (backs nonce) (backs nonce) (seal ty v f) (fun _ => backs nonce).
Proof. apply (keeps_seal (backs nonce)); [apply quiet_steady, stable_quiet, backed_stable|done]. Qed.

(** The name that is sealed, and the action it stands for. *)
Lemma sealed_name raw_name : exists name, (if is_str raw_name then raw_name else VStr "") = VStr name /\
  (action_of raw_name = name \/ action_of raw_name = "unknown_tool").
Proof.
  destruct raw_name; try (eexists; split; [done|by right]). eexists. split; [done|]. cbn [action_of].
  destruct (mem _ ALL_DECLARED_TOOLS); [by left|by right].
Qed.

Lemma propose_permits nonce raw_name args (action := action_of raw_name) :
  holds (backs nonce) (backs nonce) (propose parse_float nonce raw_name action args) (fun frame g => backed nonce (trace g) /\
    forall d, sub frame "disposition" = Ok d -> py_eq d (VStr "allowed") = true -> permits nonce action args (trace g)).
Proof.
  unfold propose. assert (Hst := backed_stable nonce). eapply holds_chain; [by apply holds_lift|]. intros b. apply holds_fact.
  intros [_ ->]%canonical_bytes_ok. eapply holds_chain; [apply holds_read|]. intros g0. cbn zeta.
  eapply holds_chain; [apply (seal_does (backed nonce)); by intros g []|]. intros ?.
  eapply holds_chain; [apply (put_does (backed nonce)); intros g' (g & p & s & [Hg _] & _ & ->); by apply Hst|]. intros ?.
  eapply holds_chain; [apply (take_does (backed nonce)); [done|]; intros g' (g1 & n & (g & p & s & [Hg _] & _ & ->) & _ & ->); by do 2 (apply Hst; [done|])|].
  intros frame. eapply holds_chain.
  { apply holds_lift. intros g' (g2 & raw & (g1 & n & (g & p & s & [Hg _] & _ & ->) & _ & ->) & _ & _ & ->). by do 3 (apply Hst; [done|]). }
  intros []. eapply holds_chain; [apply holds_update with (Q := fun g => backed nonce (trace g) /\
    forall d, sub frame "disposition" = Ok d -> py_eq d (VStr "allowed") = true -> permits nonce action args (trace g))|].
  - intros g' [(g2 & raw & (g1 & n & (g & p & s & [Hg ->] & Ep & ->) & _ & ->) & _ & Hp & ->) Hd].
    split; [by do 3 (apply Hst; [done|])|]. intros d Hdis Ha. run_inv. destruct (decision_bound frame nonce (proposals g)) eqn:Eb; [|done].
    apply decision_answers in Eb. destruct (sealed_name raw_name) as (name & En & Hn). rewrite En in Ep.
    apply canonical_bytes_ok in Ep as [_ ->]. by exists raw, frame, (proposals g), n, name, d, (trace g).
  - intros ?. apply (holds_ret _ _ (fun frame g => backed nonce (trace g) /\
      forall d, sub frame "disposition" = Ok d -> py_eq d (VStr "allowed") = true -> permits nonce action args (trace g))).
Qed.

Lemma execute_backed nonce documents action args call :
  holds (backs nonce) (fun g => backed nonce (trace g) /\ permits nonce action args (trace g)) (execute documents action args call)
    (fun _ => backs nonce).
Proof.
  set (P := fun g => backed nonce (trace g) /\ permits nonce action args (trace g)).
  unfold execute, log. eapply holds_chain; [apply holds_read|]. intros g0. apply holds_drop.
  destruct (_execute_tool action args documents (state g0)) as [s r]. eapply holds_chain; [by apply (holds_update _ P P)|]. intros ?.
  eapply holds_chain; [apply (holds_lift _ P); by intros g []|]. intros result. apply holds_fact. intros _.
  eapply holds_chain; [apply (holds_update _ P (backs nonce)); intros g [Hg Hp]; by apply backed_execute|]. intros ?.
  eapply holds_chain; [apply backed_seal|]. intros ?. by apply holds_update with (Q := backs nonce).
Qed.

Lemma tool_loop_backed nonce n documents calls : holds (backs nonce) (backs nonce) (tool_loop parse_float n nonce documents calls) (fun _ => backs nonce).
Proof.
  induction calls as [|c calls IH]; cbn [tool_loop]; [by apply (holds_ret _ _ (fun _ => backs nonce))|].
  eapply holds_chain; [apply holds_read|]. intros g0. apply holds_drop. eapply holds_chain; [by apply holds_lift|]. intros m. apply holds_fact. intros _.
  destruct (m <=? _); [by apply (holds_ret _ _ (fun _ => backs nonce))|].
  destruct c as [| | | | | | |call]; try by apply (holds_ret _ _ (fun _ => backs nonce)).
  destruct (assoc _ _) as [[| | | | | | |f]|]; try by apply (holds_ret _ _ (fun _ => backs nonce)).
  eapply holds_chain; [by apply holds_lift|]. intros [args|]; apply holds_fact; intros _; [|by apply (holds_ret _ _ (fun _ => backs nonce))].
  eapply holds_chain; [apply propose_permits|]. intros frame.
  eapply holds_chain; [apply holds_lift; by intros ? []|]. intros d. apply holds_fact. intros Ed. destruct (py_eq d (VStr "allowed")) eqn:Ea; cbn [negb].
  - eapply holds_chain; [eapply holds_pre, execute_backed; intros g [Hb Hp]; eauto|]. intros []. apply IH.
  - eapply holds_chain; [eapply holds_pre, backed_seal; by intros g []|]. intros [].
    by apply (holds_ret _ _ (fun _ => backs nonce)).
Qed.

(** ** What a complete run has done *)
Definition submitted (t : list event) : Prop := exists args s, assoc "summary" args = Some (VStr s) /\ py_len s <= 8192 /\
  In (Executed "submit_task_result" args (VDict [("status", VStr "OK"); ("submission_sha256", VStr (digest_bytes s))])) t.
(** The calls that were proposed are within the budget that the manifest names. *)
Definition within (manifest : pyval) (n : Z) : Prop :=
  exists calls, AgentRuntime.budget manifest "max_broker_calls" = Ok calls /\ 1 <= n <= calls.
Definition working (manifest : pyval) (g : guest) : Prop :=
  (task_complete (state g) = true -> submitted (trace g) /\ within manifest (proposals g)) /\ (proposals g = 0 \/ within manifest (proposals g)).

Lemma submitted_cons e t : submitted t -> submitted (e :: t).
Proof. intros (args & s & Hs & Hl & Hin). exists args, s. split; [done|]. split; [done|]. by right. Qed.
Lemma working_cons manifest g e : working manifest g -> working manifest (set_trace (e :: trace g) g).
Proof. intros [Ht Hp]. split; [|done]. intros Hc. destruct (Ht Hc). split; [by apply submitted_cons|done]. Qed.
Lemma working_steady manifest : steady (working manifest).
Proof.
  split; intros g *; [apply working_cons|intros Hw; exact (working_cons _ (set_sealer s g) (Sealed ty p f) Hw)|done].
Qed.

Lemma tool_completes action args documents st st' result :
  _execute_tool action args documents st = (st', Ok result) -> task_complete st' = true ->
  task_complete st = true \/ forall t, submitted (Executed action args result :: t).
Proof.
  unfold _execute_tool. cbn zeta. destruct (String.eqb action "read_synthetic_document"); [intros; simplify_eq; by left|].
  destruct (String.eqb action "search_synthetic_documents"); [intros; simplify_eq; by left|].
  destruct (String.eqb action "inspect_synthetic_project"); [intros; simplify_eq; by left|].
  destruct (String.eqb action "write_synthetic_summary").
  { destruct (bounded_text _ _); intros; simplify_eq; by left. }
  destruct (String.eqb_spec action "submit_task_result") as [->|].
  - destruct (assoc "summary" args) as [v|] eqn:Ea; cbn [from_option id]; [|cbn [bounded_text]; intros; simplify_eq; by left].
    destruct (bounded_text 8192 v) as [s|] eqn:Eb; [|intros; simplify_eq; by left]. destruct v; try done. cbn [bounded_text] in Eb.
    destruct (Z.ltb_spec 8192 (py_len s0)) as [|Hl]; [done|]. simplify_eq. intros [= _ Hr] _. right. intros t. unfold encode_utf8 in Hr.
    destruct (has_surrogate s); cbn in Hr; simplify_eq. exists args, s. split; [done|]. split; [lia|]. by left.
  - destruct (mem action BOLO_TOOLS); intros; simplify_eq; [|by left]. destruct (String.eqb _ _); by left.
Qed.

Notation any := (fun _ => True).
Lemma any_keeps {A} (m : act A) (T : guest -> Prop) : (forall g a g', T g -> m g = (g', Ok a) -> T g') -> holds any T m (fun _ => T).
Proof. intros Hm g Hg. destruct (m g) as [g' [a|]] eqn:E; [by eapply Hm|done]. Qed.

Lemma propose_working manifest calls nonce raw_name action args : AgentRuntime.budget manifest "max_broker_calls" = Ok calls ->
  holds any (fun g => working manifest g /\ proposals g < calls) (propose parse_float nonce raw_name action args)
    (fun _ g => working manifest g /\ within manifest (proposals g)).
Proof.
  intros Hb. set (P := fun g => working manifest g /\ proposals g < calls).
  assert (HP : forall g e, P g -> P (set_trace (e :: trace g) g)) by (intros g e [Hw Hl]; split; [by apply working_cons|done]).
  set (Q := fun g => working manifest g /\ within manifest (proposals g)).
  unfold propose. eapply holds_chain; [by apply (holds_lift any P)|]. intros b. apply holds_fact. intros _.
  eapply holds_chain; [apply holds_read|]. intros g0. apply holds_drop.
  eapply holds_chain; [by apply (seal_does any P)|]. intros ?.
  eapply holds_chain; [apply (put_does any); auto|]. intros ?. eapply holds_chain; [apply (take_does any); [done|auto]|]. intros frame.
  eapply holds_chain; [by apply holds_lift|]. intros ?.
  eapply holds_chain; [apply holds_update with (Q := Q)|intros ?; apply (holds_ret _ _ (fun _ => Q))].
  intros g' [(g2 & raw & (g1 & n & (g & p & s & Hg & _ & ->) & _ & ->) & _ & _ & ->) _].
  apply (HP (set_sealer s g) (Sealed "tool_proposal" p false)) in Hg. destruct Hg as [[Ht Hp] Hl].
  assert (Hin : within manifest (proposals g + 1)) by (exists calls; cbn in *; destruct Hp as [?|(c & Hc & ?)]; [|rewrite Hb in Hc; simplify_eq]; (split; [done|lia])).
  split; [|done]. split; [|by right]. intros Hc. destruct (Ht Hc) as [Hs _]. split; [|done]. by do 2 apply submitted_cons.
Qed.

Lemma execute_working manifest documents action args call :
  holds any (fun g => working manifest g /\ within manifest (proposals g)) (execute documents action args call) (fun _ => working manifest).
Proof.
  intros g [[Ht Hp] Hin]. unfold execute, chain, read, update, lift, log.
  destruct (_execute_tool action args documents (state g)) as [st [result|]] eqn:E; [|done]. unfold update. cbn [trace set_state].
  assert (Hw : working manifest (set_trace (Executed action args result :: trace g) (set_state st g))).
  { split; [|done]. cbn. intros Hc. split; [|done]. destruct (tool_completes _ _ _ _ _ _ E Hc) as [Hd|Hd]; [|apply Hd]. by apply submitted_cons, Ht. }
  pose proof (keeps_seal _ any (working_steady manifest) (fun _ _ => I) "tool_result" (VDict [("action", VStr action); ("result", result)]) false _ Hw) as Hs.
  destruct (seal _ _ _ _) as [g1 [[]|]]; [|done]. by apply (steady_rest _ (working_steady manifest)).
Qed.

Lemma tools_working manifest nonce documents cs :
  holds any (working manifest) (tool_loop parse_float manifest nonce documents cs) (fun _ => working manifest).
Proof.
  assert (Hret : forall x, holds any (working manifest) (ret x : act (option string)) (fun _ => working manifest)) by (intros x; by apply (holds_ret _ _ (fun _ => working manifest))).
  induction cs as [|c cs IH]; cbn [tool_loop]; [apply Hret|].
  intros g Hg. unfold chain at 1, read. unfold chain at 1, lift at 1. destruct (AgentRuntime.budget manifest "max_broker_calls") as [calls|] eqn:Eb; [|done].
  destruct (Z.leb_spec calls (proposals g)) as [|Hlt]; [by apply Hret|].
  destruct c as [| | | | | | |call]; try by apply Hret. cbn [dict_of]. destruct (assoc "function" call) as [[| | | | | | |f]|]; try by apply Hret.
  apply (fun H : holds any (fun g => working manifest g /\ proposals g < calls) _ (fun _ => working manifest) => H g (conj Hg Hlt)).
  eapply holds_chain; [by apply holds_lift|]. intros [args|]; apply holds_fact; intros _; [|apply holds_drop, Hret].
  eapply holds_chain; [by apply propose_working|]. intros frame. eapply holds_chain; [by apply holds_lift|]. intros d. apply holds_fact. intros _.
  destruct (negb _).
  - eapply holds_chain; [apply holds_drop; by apply (keeps_seal _ any (working_steady manifest))|]. intros ?. apply Hret.
  - eapply holds_chain; [apply execute_working|]. intros ?. apply IH.
Qed.

Lemma chain_inv {A B} (m : act A) (k : A -> act B) g g' b : chain m k g = (g', Ok b) -> exists g1 a, m g = (g1, Ok a) /\ k a g1 = (g', Ok b).
Proof. unfold chain. destruct (m g) as [g1 [a|]]; [by eauto|done]. Qed.
Ltac unchain H := let g := fresh "g" in let a := fresh "a" in let E := fresh "E" in apply chain_inv in H as (g & a & E & H).

Lemma tool_stop n nonce documents cs g g' code :
  tool_loop parse_float n nonce documents cs g = (g', Ok (Some code)) -> mem code ["BUDGET_EXHAUSTION"; "MALFORMED_RESPONSE"; "HARD_TRIP"; "DENIED"] = true.
Proof.
  revert g. induction cs as [|c cs IH]; intros g Hl; cbn [tool_loop] in Hl; [done|]. unchain Hl. unchain Hl. destruct (a0 <=? _); [by injection Hl as _ <-|].
  destruct c as [| | | | | | |call]; try by injection Hl as _ <-. destruct (assoc _ _) as [[| | | | | | |f]|]; try by injection Hl as _ <-.
  unchain Hl. destruct a1 as [args|]; [|by injection Hl as _ <-]. unchain Hl. unchain Hl. destruct (negb _); unchain Hl; [|by eapply IH].
  injection Hl as _ <-. by destruct (py_eq _ _).
Qed.
Lemma response_complete j response g g' : on_response parse_float j response g = (g', Ok (Some "COMPLETE")) -> task_complete (state g') = true.
Proof.
  unfold on_response. intros Hl. destruct (assoc "choices" response) as [[| | | | | |[|[| | | | | | |choice] l]|]|]; try done.
  destruct (assoc "message" choice) as [[| | | | | | |m]|]; try done. unchain Hl. destruct a; [done|]. unchain Hl.
  destruct (default _ _) as [| | | | | |[|c cs]|]; try done.
  - unchain Hl. injection E1 as <- <-. injection Hl as <- Hc. by destruct (task_complete (state g1)).
  - unchain Hl. destruct a0 as [code|]; [injection Hl as _ ->; by apply tool_stop in E1|]. unchain Hl. injection E2 as <- <-. injection Hl as <- Hc.
    by destruct (task_complete (state g2)).
Qed.
Lemma loop_complete n j g g' : request_loop parse_float n j g = (g', Ok "COMPLETE") -> task_complete (state g') = true.
Proof.
  revert g. induction n as [|n IH]; intros g Hl; cbn [request_loop] in Hl; [done|]. unchain Hl. destruct a as [code|]; [|by eapply IH].
  injection Hl as <- ->. unfold one_request in E. unchain E. unchain E. destruct (_ <=? 0); [done|]. do 4 unchain E.
  destruct (a_response a2) as [d|]; [|done]. destruct (negb _); [done|]. by eapply response_complete.
Qed.

Lemma seal_inv ty v f g g' u : seal ty v f g = (g', Ok u) -> exists p s, g' = set_trace (Sealed ty p f :: trace g) (set_sealer s g).
Proof.
  intros E. pose proof (seal_does any (eq g) ty v f (fun _ _ => I) g eq_refl) as Hs. rewrite E in Hs. destruct Hs as (g0 & p & s & <- & _ & ->). eauto.
Qed.

(** ** What the provider reported *)

(** The body of the provider's answer to the request that is the last event of [t]. *)
Definition answer_to (t : list event) : option pydict :=
  match provider t with
  | Answered _ bytes =>
      match response_object parse_float (StrOps.slice (Z.to_nat (MAX_MODEL_RESPONSE_BYTES + 1)) bytes) with Ok o => o | Err _ => None end
  | _ => None
  end.
(** The provider's responses to the requests of a trace. *)
Fixpoint responses (t : list event) : list (option pydict) :=
  match t with
  | [] => []
  | Requested b :: t' => responses t' ++ [answer_to t]
  | _ :: t' => responses t'
  end.
(** The response reports these counts. *)
Definition says (o : option pydict) (counts : Z * Z) : Prop := exists d u, o = Some d /\ assoc "usage" d = Some (VDict u) /\
  assoc "prompt_tokens" u = Some (VInt (fst counts)) /\ assoc "completion_tokens" u = Some (VInt (snd counts)).
Definition sum (l : list Z) : Z := foldr Z.add 0 l.
Definition adds_up (m : metrics) (l : list (option pydict)) : Prop :=
  requests m = Z.of_nat (length l) /\
  (token_reporting_complete m = true -> exists counts, Forall2 says l counts /\
     prompt_tokens m = sum (map fst counts) /\ completion_tokens m = sum (map snd counts)).
Definition accounted (g : guest) : Prop := adds_up (usage g) (responses (trace g)).

Lemma sum_app l l' : sum (l ++ l') = sum l + sum l'.
Proof. unfold sum. induction l as [|z l IH]; cbn; [done|]. rewrite IH. lia. Qed.
Lemma adds_up_one m l a : adds_up m l ->
  a_prompt a = tokens (match a_response a with Some ((_ :: _) as d) => default (VDict []) (assoc "usage" d) | _ => VDict [] end) "prompt_tokens" ->
  a_completion a = tokens (match a_response a with Some ((_ :: _) as d) => default (VDict []) (assoc "usage" d) | _ => VDict [] end) "completion_tokens" ->
  adds_up (add_usage a m) (l ++ [a_response a]).
Proof.
  intros [Hr Hc] Hp Hq. split; [cbn; rewrite length_app; cbn; lia|]. cbn [add_usage token_reporting_complete prompt_tokens completion_tokens].
  intros [Ht Hx]%andb_true_iff. destruct (Hc Ht) as (counts & Hs & -> & ->). destruct (a_response a) as [d|]; [|done].
  destruct (assoc "usage" d) as [[| | | | | | |u]|] eqn:Eu; try done. cbn [forallb] in Hx. destruct d as [|x d]; [done|].
  destruct (assoc "prompt_tokens" u) as [[]|] eqn:E1; try done. destruct (assoc "completion_tokens" u) as [[]|] eqn:E2; try done.
  cbn [from_option id tokens] in Hp, Hq. rewrite E1 in Hp. rewrite E2 in Hq. cbn in Hp, Hq. exists (counts ++ [(a_prompt a, a_completion a)]).
  split; [apply Forall2_app; [done|]; constructor; [|constructor]; exists (x :: d), u; by rewrite Hp, Hq|].
  rewrite !map_app, !sum_app. split; cbn; lia.
Qed.

(** A step that asks the provider nothing. *)
Definition unasked (e : event) : Prop := match e with Requested _ => False | _ => True end.
Lemma responses_cons e t : unasked e -> responses (e :: t) = responses t.
Proof. by destruct e. Qed.
Definition undisturbed {A} (m : act A) : Prop := forall g, match m g with (g', _) => usage g' = usage g /\ responses (trace g') = responses (trace g) end.
Lemma undisturbed_ret {A} (a : A) : undisturbed (ret a).
Proof. by intros g. Qed.
Lemma undisturbed_lift {A} (r : res A) : undisturbed (lift r).
Proof. by intros g. Qed.
Lemma undisturbed_read : undisturbed read.
Proof. by intros g. Qed.
Lemma undisturbed_chain {A B} (m : act A) (k : A -> act B) : undisturbed m -> (forall a, undisturbed (k a)) -> undisturbed (chain m k).
Proof.
  intros Hm Hk g. specialize (Hm g). unfold chain. destruct (m g) as [g1 [a|]]; [|done]. specialize (Hk a g1). destruct (k a g1) as [g2 r].
  destruct Hm as [<- <-]. done.
Qed.
Lemma undisturbed_seal ty v f : undisturbed (seal ty v f).
Proof. intros g. unfold seal, chain, lift. destruct (canonical_bytes v); [|done]. by destruct (Evidence.append _ _ _ _) as [s [[]|]]. Qed.
Lemma undisturbed_put v : undisturbed (put_frame v).
Proof.
  intros g. unfold put_frame, _write_json_line. destruct (canonical_bytes v); [|done]. destruct (_ <? _); [done|]. by destruct (accepts _ _).
Qed.
Lemma undisturbed_take : undisturbed (take_frame parse_float).
Proof. intros g. unfold take_frame, _read_json_line. by destruct (reply _). Qed.
Lemma undisturbed_update f : (forall g, usage (f g) = usage g /\ responses (trace (f g)) = responses (trace g)) -> undisturbed (update f).
Proof. intros Hf g. apply Hf. Qed.
#[local] Hint Resolve undisturbed_ret undisturbed_lift undisturbed_read undisturbed_seal undisturbed_put undisturbed_take : core.

Lemma undisturbed_propose nonce raw_name action args : undisturbed (propose parse_float nonce raw_name action args).
Proof. unfold propose. by repeat (apply undisturbed_chain; [solve [auto]|intros ?]). Qed.
Lemma undisturbed_execute documents action args call : undisturbed (execute documents action args call).
Proof.
  unfold execute, log. apply undisturbed_chain; [done|]. intros g. destruct (_execute_tool _ _ _ _) as [st r].
  repeat (apply undisturbed_chain; [first [solve [auto]|by apply undisturbed_update]|intros ?]). by apply undisturbed_update.
Qed.
Lemma undisturbed_tools manifest nonce documents cs : undisturbed (tool_loop parse_float manifest nonce documents cs).
Proof.
  induction cs as [|c cs IH]; cbn [tool_loop]; [done|]. do 2 (apply undisturbed_chain; [done|]; intros ?). destruct (_ <=? _); [done|].
  destruct c as [| | | | | | |call]; try done. destruct (assoc _ _) as [[| | | | | | |f]|]; try done.
  apply undisturbed_chain; [done|]. intros [args|]; [|done]. apply undisturbed_chain; [apply undisturbed_propose|]. intros frame.
  apply undisturbed_chain; [done|]. intros d. destruct (negb _); [apply undisturbed_chain; auto|].
  apply undisturbed_chain; [apply undisturbed_execute|]. by intros ?.
Qed.
Lemma undisturbed_response j response : undisturbed (on_response parse_float j response).
Proof.
  unfold on_response. destruct (assoc "choices" response) as [[| | | | | |[|[| | | | | | |choice] l]|]|]; try done.
  destruct (assoc "message" choice) as [[| | | | | | |m]|]; try done. apply undisturbed_chain; [done|]. intros [|]; [done|].
  apply undisturbed_chain; [by apply undisturbed_update|]. intros ?. destruct (default _ _) as [| | | | | |[|c cs]|]; try done.
  apply undisturbed_chain; [apply undisturbed_tools|]. intros [code|]; [done|]. apply undisturbed_chain; [done|]. by intros g1.
Qed.
Lemma undisturbed_ok {A} (m : act A) g g' a : undisturbed m -> m g = (g', Ok a) -> accounted g -> accounted g'.
Proof. intros Hm E Ha. specialize (Hm g). rewrite E in Hm. destruct Hm as [E1 E2]. unfold accounted. by rewrite E1, E2. Qed.

Lemma model_call_asks id ms n g g' a : _model_call parse_float id ms n g = (g', Ok a) ->
  usage g' = usage g /\ responses (trace g') = responses (trace g) ++ [a_response a] /\
  a_prompt a = tokens (match a_response a with Some ((_ :: _) as d) => default (VDict []) (assoc "usage" d) | _ => VDict [] end) "prompt_tokens" /\
  a_completion a = tokens (match a_response a with Some ((_ :: _) as d) => default (VDict []) (assoc "usage" d) | _ => VDict [] end) "completion_tokens".
Proof.
  unfold _model_call. intros Hm. unchain Hm. injection E as <- _. unchain Hm. injection E as <- _. unchain Hm. injection E as <- <-. unchain Hm.
  injection E as <- E. destruct a2 as [status bytes]. unchain Hm. injection E0 as <- _. unchain Hm. injection E0 as <- E0. injection Hm as <- <-.
  cbn [a_response a_prompt a_completion usage set_trace trace responses]. split; [done|]. split; [|done]. do 2 f_equal.
  unfold answer_to. destruct (provider _); simplify_eq; [by rewrite E0|]. cbn in E0. by simplify_eq.
Qed.

Lemma request_accounted j g g' stop : one_request parse_float j g = (g', Ok stop) -> accounted g -> accounted g'.
Proof.
  unfold one_request. intros Hm Ha. unchain Hm. injection E as <- <-. unchain Hm. injection E as <- _. destruct (_ <=? 0); [by injection Hm as <- _|].
  unchain Hm. injection E as <- _. unchain Hm. apply model_call_asks in E as (E1 & E2 & E3 & E4). unchain Hm. injection E as <- _.
  unchain Hm. assert (Hb : accounted (set_usage (add_usage a1 (usage g0)) g0)).
  { unfold accounted. cbn [usage set_usage trace]. rewrite E1, E2. by apply adds_up_one. }
  apply (undisturbed_ok _ _ _ _ (undisturbed_seal _ _ _) E) in Hb. destruct (a_response a1) as [d|]; [|by injection Hm as <- _].
  destruct (negb _); [by injection Hm as <- _|]. by apply (undisturbed_ok _ _ _ _ (undisturbed_response j d) Hm).
Qed.
Lemma loop_accounted n j g g' code : request_loop parse_float n j g = (g', Ok code) -> accounted g -> accounted g'.
Proof.
  revert g. induction n as [|n IH]; intros g Hl Ha; cbn [request_loop] in Hl; [by injection Hl as <- _|]. unchain Hl.
  apply request_accounted in E; [|done]. destruct a as [c|]; [by injection Hl as <- _|by eapply IH].
Qed.

(** What a result that says [COMPLETE] rests on. *)
Record earned (manifest v : pyval) (t : list event) (m : metrics) (n : Z) : Prop := {
  earned_submitted : submitted t;
  earned_metrics : sub v "model_metrics" = Ok (metrics_val m);
  earned_requests : requests m = Z.of_nat (length (responses t));
  earned_tokens : exists counts tokens, Forall2 says (responses t) counts /\
    prompt_tokens m = sum (map fst counts) /\ completion_tokens m = sum (map snd counts) /\
    AgentRuntime.budget manifest "max_tokens_total" = Ok tokens /\ prompt_tokens m + completion_tokens m <= tokens;
  earned_count : sub v "proposal_count" = Ok (VInt n);
  earned_calls : within manifest n;
}.
Lemma converse_earned j text hash g g' v : working (j_manifest j) g -> accounted g -> converse parse_float j text hash g = (g', Ok v) ->
  sub v "status_code" = Ok (VStr "COMPLETE") -> earned (j_manifest j) v (trace g') (usage g') (proposals g').
Proof.
  intros Hw Ha Hc Hs. unfold converse in Hc. assert (Hst := working_steady (j_manifest j)). unchain Hc. injection E as <- _. unchain Hc.
  apply seal_inv in E as (p & s & ->). unchain Hc. injection E as <- Hn. unchain Hc.
  match type of E with request_loop _ _ _ ?x = _ => assert (Hx : working (j_manifest j) x); [|assert (Hy : accounted x) by exact Ha] end.
  { exact (steady_sealed _ Hst _ _ _ _ _ (steady_rest _ Hst g (sealer g) _ (usage g) Hw)). }
  pose proof (keeps_requests _ any Hst (fun _ _ => I) j (tools_working _ _ _) (Z.to_nat a1) _ Hx) as Hw1. rewrite E in Hw1.
  assert (Ha1 := loop_accounted _ _ _ _ _ E Hy). unchain Hc. injection E0 as <- <-. unchain Hc. injection E0 as <- Ht. unchain Hc. apply seal_inv in E0 as (p1 & s1 & ->).
  destruct (Evidence.finalize _) as [s2 [bundle|]]; [|done]. cbn [mbind res_bind] in Hc. destruct (sub (j_manifest j) "job_id"); [|done].
  injection Hc as <- <-. cbn in Hs. injection Hs as Hs.
  unfold final_status in Hs. destruct (Z.ltb_spec a3 (prompt_tokens (usage g0) + completion_tokens (usage g0))) as [|Hle]; [done|].
  destruct (String.eqb_spec a2 "COMPLETE") as [->|Hne]; [|done]. destruct (token_reporting_complete (usage g0)) eqn:Et; [|done].
  apply loop_complete in E. destruct Hw1 as [Hsub _]. destruct (Hsub E) as [Hsu Hin]. destruct Ha1 as [Hreq Hcounts]. destruct (Hcounts Et) as (counts & F & P1 & P2).
  split; try done; [by apply submitted_cons|]. by exists counts, a3.
Qed.

(** No event of [t] is an execution. *)
Definition idle (t : list event) : Prop := Forall (fun e => match e with Executed _ _ _ => False | _ => True end) t.
Lemma idle_backed nonce t : idle t -> backed nonce t.
Proof. intros Ht later action args result before ->. apply Forall_app in Ht as [_ Ht]. by apply Forall_cons in Ht as [[] _]. Qed.
End steps.

(** ** Claims *)
Section claims.
Context `{World} `{Interpreter} `{Primitives} `{Sodium}.
Variable parse_float : string -> pyfloat.
Variables (cek ephemeral stream_seed : string).

(** C23: whatever the model, the channel and the files of the guest answer, a tool is
    executed only right after the guest sealed the proposal, sent its frame with the
    action and the digest of exactly these arguments, and read a frame that is bound
    to the nonce and to the sequence number of that proposal and that allows it. *)
Theorem executions_are_permitted (path key : string) (t : list event) (r : res Z) (later before : list event)
    (action : string) (args : pydict) (result : pyval) :
  main parse_float cek ephemeral stream_seed path = (key, t, r) ->
  t = later ++ Executed action args result :: before ->
  exists request nonce, _load_request parse_float path = Ok request /\
    (let* runtime := sub request "runtime" in sub runtime "nonce") = Ok nonce /\
    permits parse_float nonce action args before.
Proof.
  intros Hm Ht. unfold main in Hm. destruct (_load_request parse_float path) as [request|] eqn:El; cbn in Hm; [|by destruct later; simplify_eq].
  destruct (sub request "runtime") as [runtime|] eqn:Eu; cbn in Hm; [|by destruct later; simplify_eq].
  destruct (sub runtime "nonce") as [nonce|] eqn:En; cbn in Hm; [|by destruct later; simplify_eq].
  exists request, nonce. rewrite Eu. cbn. split; [done|]. split; [done|].
  enough (backed parse_float nonce t) by eauto. eapply keeps_serve, Hm; try apply backed_stable.
  - apply stable_quiet, backed_stable.
  - done.
  - apply idle_backed. constructor.
  - intros sent raw _. apply idle_backed. by repeat constructor.
  - apply tool_loop_backed.
  - rewrite Eu. done.
Qed.

(** C24: a run that ends with the status [COMPLETE] has executed a [submit_task_result]
    with a summary within its bound, whose digest is what the call returned; every
    response of the provider to one of its requests reported both token counts as
    integers, the metrics it returns are their sums over all of these responses, and the
    sums together are within the token budget (the counts are the provider's own, which
    may be negative); it proposed no more calls than its budget, and left a zeroed
    credential. *)
Theorem complete_is_earned (request message : pyval) (t t' : list event) (key : string) (v : pyval) :
  responses parse_float t = [] ->
  _run parse_float cek ephemeral stream_seed request message t = (key, t', Ok v) ->
  sub v "status_code" = Ok (VStr "COMPLETE") ->
  exists manifest hash credential m n, deliver request message = Ok (manifest, hash, credential) /\
    key = AgentRuntime.zeroed credential /\ earned parse_float manifest v t' m n.
Proof.
  unfold _run. intros Hn Hr Hs. destruct (deliver request message) as [[[manifest hash] credential]|] eqn:Ed; [|done].
  destruct (prepare cek ephemeral stream_seed request) as [[[j text] s]|] eqn:Ep; [|done].
  destruct (converse _ _ _ _ _) as [g r] eqn:Ec. injection Hr as <- <- ->.
  apply converse_earned in Ec; [|by split; [|left]| |done].
  - exists manifest, hash, credential, (usage g), (proposals g). split; [done|]. split; [done|].
    unfold deliver in Ed. unfold prepare in Ep. destruct (sub request "manifest") as [mf|]; [|done]. run_inv. simplify_eq. exact Ec.
  - unfold accounted. cbn [usage trace]. rewrite Hn. split; [done|]. intros _. by exists [].
Qed.
End claims.
End GuestFacts.
