(* ===== verification/GuestHost.v ===== *)
(** * The guest of the agent probe against the host's control loop

    The two ends of the control channel together: the frames that the guest reads
    are the lines that [_run_control_loop] sends on the frames that the guest wrote.
    What the guest executes is then what the broker's log says it allowed. *)

From stdpp Require Import base list strings.
From Stdlib Require Import ZArith Lia.
From S2P Require Import Prelude PyValue Sha256 Json JsonFacts Canonical StrOps UrlFacts AgentProtocol AgentBroker Hpke SecretStream Evidence EvidenceFacts JsonLoads AgentRuntime WorkerWire McpController GuestAgent GuestWire GuestFacts.

Local Open Scope Z_scope.

Module GuestHost.
Import Canonical Protocol GuestAgent GuestFacts GuestWire.

(** ** The broker's log *)

(** The calls that a broker allowed: the action and the digest of its arguments. *)
Definition granted (b : Broker.broker) : list (string * string) :=
  map (fun e => (Broker.ev_str "action_code" e, Broker.ev_str "arg_hash" e)) (List.filter Broker.allowed (Broker.events b)).

Lemma evaluate_logs b p b' r : Broker.evaluate b p = (b', r) ->
  (Broker.events b' = Broker.events b /\ exists e, r = Err e) \/
  exists s a c h d e, Broker.check_proposal p = Ok (s, a, c, h) /\ r = Ok d /\ Broker.events b' = Broker.events b ++ [e] /\
    Broker.ev_str "action_code" e = a /\ Broker.ev_str "arg_hash" e = h /\ Broker.allowed e = String.eqb (Broker.d_disposition d) "allowed".
Proof.
  unfold Broker.evaluate. destruct (Broker.check_proposal p) as [[[[s a] c] h]|e]; [|intros [= <- <-]; eauto].
  destruct (Broker.evaluate_locked_verdict b s a c h) as (d & b1 & Hv & ->).
  apply Broker.verdict_d_sequence in Hv as [He _]. unfold Broker.finish, Broker._event.
  destruct (sha256_hex _) as [x|]; cbn; intros [= <- <-]; [right|by eauto].
  rewrite <- He. by exists s, a, c, h, d, (Broker.event_body s a c h d (Broker.last_hash b1) ++ [("event_hash", VStr x)]).
Qed.

Lemma evaluate_grows b p : Broker.events b `prefix_of` Broker.events (fst (Broker.evaluate b p)).
Proof.
  destruct (Broker.evaluate b p) as [b' r] eqn:E. cbn [fst]. apply evaluate_logs in E as [[-> _]|(s & a & c & h & d & e & _ & _ & -> & _)]; [done|].
  by apply prefix_app_r.
Qed.

(** ** A longer session *)
Section loop.
Context `{Interpreter}.
Variable parse_float : string -> pyfloat.
Variable manifest : pyval.
Variables hash nonce : string.
Notation loop := (AgentRuntime.control_loop parse_float manifest hash nonce).

(** A line ends the loop, or it is answered and the loop goes on. *)
Lemma loop_line b raw broken : exists b1, Broker.events b `prefix_of` Broker.events b1 /\
  ((exists r, forall ls, loop b (AgentRuntime.Line raw broken :: ls) = (b1, [], r)) \/
   (exists p d frame, forall ls,
      json_loads parse_float raw = Loaded frame /\ AgentRuntime.proposal_of frame = Ok p /\
      Broker.evaluate b p = (b1, Ok d) /\ in_domain (AgentRuntime.response nonce d) = true /\
      loop b (AgentRuntime.Line raw broken :: ls) =
        let '(b2, sent, r) := loop b1 ls in (b2, AgentRuntime.line (encode (AgentRuntime.response nonce d)) :: sent, r))).
Proof.
  destruct (AgentRuntime.control_turn parse_float manifest hash nonce b raw broken) as [r _ He _|frame p b1 d e _ _ _ Ev _ He|frame p b1 d Hf _ Hp Ev Hd He].
  - exists b. eauto.
  - exists b1. split; [|eauto]. pose proof (evaluate_grows b p) as Hg. by rewrite Ev in Hg.
  - exists b1. split; [pose proof (evaluate_grows b p) as Hg; by rewrite Ev in Hg|]. right. exists p, d, frame. intros ls. split_and!; try done.
    + unfold AgentRuntime.bound_frame in Hf. destruct (json_loads parse_float raw); [|done..]. destruct (AgentRuntime.unbound_frame _ _); [done|]. by injection Hf as ->.
    + unfold AgentRuntime.framed_proposal in Hp. run_inv. done.
Qed.

Lemma loop_grows b ls : Broker.events b `prefix_of` Broker.events (fst (fst (loop b ls))).
Proof.
  revert b. induction ls as [|[raw broken|e] ls IH]; intros b; [done| |done].
  destruct (loop_line b raw broken) as (b1 & Hg & [[r Hr]|(p & d & frame & Hr)]); [by rewrite Hr|]. destruct (Hr ls) as (_ & _ & _ & _ & ->).
  specialize (IH b1). destruct (loop b1 ls) as [[b2 sent] r]. by transitivity (Broker.events b1).
Qed.
Lemma loop_app_grows b ls ls' : Broker.events (fst (fst (loop b ls))) `prefix_of` Broker.events (fst (fst (loop b (ls ++ ls')))).
Proof.
  revert b. induction ls as [|[raw broken|e] ls IH]; intros b; [apply loop_grows| |done]. cbn [app].
  destruct (loop_line b raw broken) as (b1 & Hg & [[r Hr]|(p & d & frame & Hr)]); [by rewrite !Hr|].
  destruct (Hr ls) as (_ & _ & _ & _ & ->), (Hr (ls ++ ls')) as (_ & _ & _ & _ & ->). specialize (IH b1).
  by destruct (loop b1 ls) as [[b2 sent] r], (loop b1 (ls ++ ls')) as [[b3 sent'] r'].
Qed.
(** Where every line was answered, one more line is taken by the broker that is left. *)
Lemma loop_snoc b ls b1 sent r x : loop b ls = (b1, sent, r) -> length sent = length ls ->
  loop b (ls ++ [x]) = let '(b2, more, r2) := loop b1 [x] in (b2, sent ++ more, r2).
Proof.
  revert b b1 sent r. induction ls as [|[raw broken|e] ls IH]; intros b b1 sent r; [|cbn [app]|by intros [= _ <- _]].
  { intros [= <- <- _] _. cbn [app]. by destruct (loop b [x]) as [[b2 more] r2]. }
  destruct (loop_line b raw broken) as (b' & _ & [[r' Hr]|(p & d & frame & Hr)]); [rewrite !Hr; by intros [= _ <- _]|].
  destruct (Hr ls) as (_ & _ & _ & _ & ->), (Hr (ls ++ [x])) as (_ & _ & _ & _ & ->).
  destruct (loop b' ls) as [[b2 sent2] r2] eqn:El. intros [= <- <- <-] [= Hn]. rewrite (IH _ _ _ _ El Hn).
  by destruct (loop b2 [x]) as [[b3 more] r3].
Qed.
End loop.

(** ** The words of a decision *)
Definition worded (b : Broker.broker) : Prop := isascii (Broker.trip_reason b) = true.

Lemma decide_worded m n action d : Broker.decide_action m n action = Ok d ->
  isascii (Broker.d_disposition d) = true /\ isascii (Broker.d_rule_id d) = true /\ isascii (Broker.d_trip_reason d) = true.
Proof.
  unfold Broker.decide_action. destruct (m <=? n); [by intros [= <-]|]. destruct (mem action PROHIBITED_TOOLS || _).
  - destruct (assoc action Broker.prohibited_reasons) as [reason|] eqn:E; [|done]. intros [= <-]. split; [done|]. split; [done|]. cbn.
    unfold Broker.prohibited_reasons in E. cbn [assoc] in E. repeat (destruct (String.eqb _ _) in E; [by simplify_eq|]). done.
  - destruct (mem action PRIMARY_TOOLS); [by intros [= <-]|]. destruct (mem action BOLO_TOOLS); by intros [= <-].
Qed.
Lemma evaluate_worded b p b' d : Broker.evaluate b p = (b', Ok d) -> worded b ->
  worded b' /\ isascii (Broker.d_disposition d) = true /\ isascii (Broker.d_rule_id d) = true /\ isascii (Broker.d_trip_reason d) = true.
Proof.
  unfold worded, Broker.evaluate. destruct (Broker.check_proposal p) as [[[[s a] c] h]|e]; [|done].
  assert (Hf : forall d0 b0, Broker.finish s a c h d0 b0 = (b', Ok d) -> Broker.trip_reason b' = Broker.trip_reason b0 /\ d = d0).
  { intros d0 b0. unfold Broker.finish, Broker._event. destruct (sha256_hex _); cbn; by intros [= <- <-]. }
  unfold Broker.evaluate_locked. destruct (negb _).
  { intros [-> ->]%Hf Hw. by destruct (Broker.tripped b). }
  destruct (Broker.tripped b); [by intros [-> ->]%Hf|]. destruct (Broker.decide_action _ _ _) as [d0|] eqn:Ed; [|done].
  apply decide_worded in Ed. intros [-> ->]%Hf Hw. split; [|done]. destruct (String.eqb _ _); [by apply Ed|done].
Qed.

(** ** The frames *)
Lemma proposal_read nonce n action h p :
  AgentRuntime.proposal_of (canon (proposal_frame (VStr nonce) n action h)) = Ok p ->
  p = VDict [("sequence", VInt n); ("action_code", VStr action); ("arg_class", VStr (classify_args action)); ("arg_hash", VStr h)].
Proof. intros E. by injection E. Qed.
Lemma decision_read nonce d : sub (canon (AgentRuntime.response nonce d)) "disposition" = Ok (VStr (Broker.d_disposition d)).
Proof. done. Qed.
Lemma checked_proposal n action c h s a c' h' :
  Broker.check_proposal (VDict [("sequence", VInt n); ("action_code", VStr action); ("arg_class", VStr c); ("arg_hash", VStr h)]) = Ok (s, a, c', h') ->
  a = action /\ h' = h.
Proof.
  unfold Broker.check_proposal. intros E. run_inv. cbn in * |-. simplify_eq. unfold require_digest in *. by destruct (hex_string 64 h); simplify_eq.
Qed.

(** ** What a trace says *)

(** The bytes that went out, and the lines that are complete. *)
Definition received (t : list event) : string :=
  foldr (fun e sent => match e with Wrote l n => sent +:+ slice n l | _ => sent end) "" t.
Definition complete (s : string) : list string := removelast (split 10 s).
Definition rest (s : string) : string := List.last (split 10 s) "".
Definition written (t : list event) : list string := map AgentRuntime.line (complete (received t)).
Definition taken (t : list event) : nat := length (omap (fun e => match e with Took l => Some l | _ => None end) t).
(** The calls that were executed, in their order. *)
Definition executed (t : list event) : list (string * string) :=
  rev (omap (fun e => match e with Executed action args _ => Some (action, digest_bytes (encode (VDict args))) | _ => None end) t).

Lemma complete_app s t : complete (s +:+ t) = complete s ++ complete (rest s +:+ t) /\ rest (s +:+ t) = rest (rest s +:+ t).
Proof.
  unfold complete, rest. rewrite McpController.split_app. assert (Hn := split_nonempty 10 (List.last (split 10 s) "" +:+ t)).
  split; [by apply removelast_app|by apply McpController.last_of_app].
Qed.
(** Text without a newline, and a line of it. *)
Definition unbroken (s : string) : bool := str_forall (fun c => negb (ch 10 c)) s.
Lemma split_unbroken s : unbroken s = true -> split 10 s = [s].
Proof. induction s as [|c s IH]; [done|]. cbn. intros [Hc Hs]%andb_true_iff. rewrite IH by done. by destruct (ch 10 c). Qed.
Lemma split_line s : unbroken s = true -> split 10 (AgentRuntime.line s) = [s; ""].
Proof.
  unfold AgentRuntime.line. induction s as [|c s IH]; [done|]. cbn [unbroken str_forall]. intros [Hc Hs]%andb_true_iff. rewrite append_cons. cbn [split].
  rewrite IH by done. by destruct (ch 10 c).
Qed.
Lemma slice_of_line n s : unbroken s = true -> slice n (AgentRuntime.line s) = AgentRuntime.line s \/ unbroken (slice n (AgentRuntime.line s)) = true.
Proof.
  unfold AgentRuntime.line. revert n. induction s as [|c s IH]; intros n Hs.
  - destruct n as [|[|n]]; [by right|by left|by left].
  - cbn [unbroken str_forall] in Hs. apply andb_true_iff in Hs as [Hc Hs]. rewrite append_cons. destruct n as [|n]; [by right|].
    unfold slice in *. cbn [String.substring]. destruct (IH n Hs) as [->|Hu]; [by left|]. right. cbn [unbroken str_forall]. by rewrite Hc.
Qed.

(** One more line that goes out whole, or in part. *)
Lemma written_wrote l n t : exists more, written (Wrote l n :: t) = written t ++ more.
Proof. unfold written. change (received (Wrote l n :: t)) with (received t +:+ slice n l). destruct (complete_app (received t) (slice n l)) as [-> _]. rewrite map_app. by eexists. Qed.
Lemma written_line b n t : unbroken b = true -> rest (received t) = "" ->
  (written (Wrote (AgentRuntime.line b) n :: t) = written t ++ [AgentRuntime.line b] /\ rest (received (Wrote (AgentRuntime.line b) n :: t)) = "") \/
  written (Wrote (AgentRuntime.line b) n :: t) = written t.
Proof.
  intros Hb Hr. unfold written. change (received (Wrote (AgentRuntime.line b) n :: t)) with (received t +:+ slice n (AgentRuntime.line b)). destruct (complete_app (received t) (slice n (AgentRuntime.line b))) as [-> ->]. rewrite Hr.
  change ("" +:+ ?x) with x. destruct (slice_of_line n b Hb) as [->|Hu].
  - left. unfold complete at 2, rest. rewrite split_line by done. by rewrite map_app.
  - right. unfold complete at 2. rewrite split_unbroken by done. by rewrite app_nil_r.
Qed.
Lemma executed_snoc action args result t : executed (Executed action args result :: t) = executed t ++ [(action, digest_bytes (encode (VDict args)))].
Proof. done. Qed.

(** ** The channel *)
Section channel.
Context `{World} `{Interpreter} `{Primitives} `{Sodium}.
(** The host's interpreter is not the guest's. *)
Variable host_nesting : nat.
Variable parse_float : string -> pyfloat.
Variable manifest : pyval.
Variables hash nonce job : string.
Variable calls : Z.

(** The host's loop on the lines that the guest wrote after its hello. *)
Definition loop_of (t : list event) : Broker.broker * list string * res pyval :=
  @AgentRuntime.control_loop {| nesting := host_nesting |} parse_float manifest hash nonce (Broker.init job calls)
    (map (fun l => AgentRuntime.Line l None) (List.tl (written t))).

(** Each line of the guest was answered, and the guest has read the answers. *)
Definition aligned (b : Broker.broker) (t : list event) : Prop :=
  exists sent r, loop_of t = (b, sent, r) /\ length sent = length (List.tl (written t)) /\ taken t = S (length sent) /\
    written t <> [] /\ rest (received t) = "" /\ worded b.
Definition synced (t : list event) : Prop := exists b, aligned b t /\ granted b = executed t.
(** The answer to a proposal was read. *)
Definition pending (action h : string) (frame : pyval) (t : list event) : Prop :=
  exists b d, aligned b t /\ sub frame "disposition" = Ok (VStr d) /\
    granted b = executed t ++ (if String.eqb d "allowed" then [(action, h)] else []).
Definition followed (t : list event) : Prop := executed t `prefix_of` granted (fst (fst (loop_of t))).

Lemma granted_prefix b b' : Broker.events b `prefix_of` Broker.events b' -> granted b `prefix_of` granted b'.
Proof. unfold granted. intros [l ->]. rewrite List.filter_app, map_app. by apply prefix_app_r. Qed.
Lemma aligned_followed b t : aligned b t -> executed t `prefix_of` granted b -> followed t.
Proof. intros (sent & r & E & _) Hp. unfold followed. by rewrite E. Qed.
Lemma synced_followed t : synced t -> followed t.
Proof. intros (b & Ha & Hg). eapply aligned_followed; [done|]. by rewrite Hg. Qed.
Lemma pending_followed action h frame t : pending action h frame t -> followed t.
Proof. intros (b & d & Ha & _ & Hg). eapply aligned_followed; [done|]. rewrite Hg. by apply prefix_app_r. Qed.
Lemma synced_quiet : quiet synced.
Proof. done. Qed.
Lemma followed_wrote l n t : followed t -> followed (Wrote l n :: t).
Proof.
  unfold followed, loop_of. destruct (written_wrote l n t) as [more ->]. intros Hf. etransitivity; [exact Hf|]. apply granted_prefix.
  destruct (written t) as [|w ws]; cbn [List.tl app]; [apply loop_grows|]. rewrite map_app. apply loop_app_grows.
Qed.
Lemma followed_stable : stable followed.
Proof. intros [] t He Hf; try done. by apply followed_wrote. Qed.

Hypothesis nonce_ascii : isascii nonce = true.
Hypothesis answers : forall t raw k, reply t = Ok raw -> taken t = S k -> snd (fst (loop_of t)) !! k = Some raw.

Lemma proposal_framed n action h : isascii action = true -> isascii h = true -> in_domain (proposal_frame (VStr nonce) n action h) = true ->
  framed (proposal_frame (VStr nonce) n action h).
Proof.
  intros Ha Hh Hd. split; [done|]. split; [done|]. unfold EvidenceFacts.ascii_val, proposal_frame. cbn [strings_ok forallb fst snd].
  rewrite nonce_ascii, Ha, Hh. assert (isascii (classify_args action) = true) as ->; [|done].
  unfold classify_args. repeat (match goal with |- context [if ?c then _ else _] => destruct c end; [done|]). done.
Qed.
Lemma response_framed d : in_domain (AgentRuntime.response nonce d) = true ->
  isascii (Broker.d_disposition d) = true -> isascii (Broker.d_rule_id d) = true -> isascii (Broker.d_trip_reason d) = true ->
  framed (AgentRuntime.response nonce d).
Proof.
  intros Hd J1 J2 J3. split; [done|]. split; [done|]. unfold EvidenceFacts.ascii_val, AgentRuntime.response. cbn [strings_ok forallb fst snd app Broker.to_dict dict_of].
  by rewrite nonce_ascii, J1, J2, J3.
Qed.
Lemma parse_line v frame : framed v -> parse_frame parse_float (AgentRuntime.line (encode v)) = Ok frame -> frame = canon v.
Proof.
  intros Hv Hp. unfold parse_frame in Hp. run_inv. destruct (json_loads _ _) as [w| |] eqn:E; [|done..].
  apply line_reads in E as ->; [|done]. by destruct (is_dict (canon v)); simplify_eq.
Qed.

Lemma framed_unbroken v : framed v -> unbroken (encode v) = true.
Proof.
  intros (_ & _ & Ha). apply (str_forall_weaken EvidenceFacts.printable); [|by apply EvidenceFacts.encode_printable].
  intros c. unfold EvidenceFacts.printable, ch. lia.
Qed.

(** One line more that the host answers. *)
Lemma aligned_answered b t v n raw (l := AgentRuntime.line (encode v)) : framed v -> aligned b t -> reply (Wrote l n :: t) = Ok raw ->
  exists b' p d frame, @json_loads {| nesting := host_nesting |} parse_float l = Loaded frame /\ AgentRuntime.proposal_of frame = Ok p /\
    Broker.evaluate b p = (b', Ok d) /\ in_domain (AgentRuntime.response nonce d) = true /\
    raw = AgentRuntime.line (encode (AgentRuntime.response nonce d)) /\ (worded b' -> aligned b' (Took raw :: Wrote l n :: t)).
Proof.
  intros Hv (sent & r & El & Hn & Ht & Hw & Hrest & Hb) Hr. apply (answers _ _ (length sent)) in Hr; [|done]. unfold loop_of in Hr, El.
  destruct (written_line (encode v) n t (framed_unbroken v Hv) Hrest) as [[Hl Hrest']|Hl]; fold l in Hl.
  2:{ rewrite Hl, El in Hr. cbn in Hr. apply lookup_lt_Some in Hr. lia. }
  assert (Htl : List.tl (written (Wrote l n :: t)) = List.tl (written t) ++ [l]) by (rewrite Hl; by destruct (written t)).
  rewrite Htl, map_app in Hr. cbn [map] in Hr. rewrite (loop_snoc _ _ _ _ _ _ _ _ _ _ El) in Hr by by rewrite length_map.
  destruct (@loop_line {| nesting := host_nesting |} parse_float manifest hash nonce b l None) as (b' & _ & [[e He]|(p & d & frame & Hp)]).
  { rewrite He in Hr. cbn in Hr. rewrite app_nil_r in Hr. apply lookup_lt_Some in Hr. lia. }
  destruct (Hp []) as (Hf & Hpf & Hev & Hd & Hlp). rewrite Hlp in Hr. cbn in Hr.
  rewrite lookup_app_r, Nat.sub_diag in Hr by lia. cbn in Hr. simplify_eq. exists b', p, d, frame. split_and!; try done. intros Hw'.
  do 2 eexists. split_and!; [|..|exact Hrest'|exact Hw'].
  - unfold loop_of. change (written (Took _ :: Wrote l n :: t)) with (written (Wrote l n :: t)). rewrite Htl, map_app. cbn [map].
    rewrite (loop_snoc _ _ _ _ _ _ _ _ _ _ El) by by rewrite length_map. rewrite Hlp. cbn. done.
  - change (written (Took _ :: Wrote l n :: t)) with (written (Wrote l n :: t)). rewrite Htl, !length_app, Hn. done.
  - change (taken (Took _ :: Wrote l n :: t)) with (S (taken t)). rewrite Ht, length_app. cbn. lia.
  - change (written (Took _ :: Wrote l n :: t)) with (written (Wrote l n :: t)). rewrite Hl. by destruct (written t).
Qed.

Lemma exchange n action h t k raw frame : isascii action = true -> isascii h = true ->
  in_domain (proposal_frame (VStr nonce) n action h) = true -> synced t ->
  reply (Wrote (AgentRuntime.line (encode (proposal_frame (VStr nonce) n action h))) k :: t) = Ok raw -> parse_frame parse_float raw = Ok frame ->
  pending action h frame (Took raw :: Wrote (AgentRuntime.line (encode (proposal_frame (VStr nonce) n action h))) k :: t).
Proof.
  intros Ha Hh Hd (b & Hal & Hg) Hr Hf.
  destruct (aligned_answered _ _ _ _ _ (proposal_framed _ _ _ Ha Hh Hd) Hal Hr) as (b' & p & d & seen & Hs & Hp & Hev & Hdom & -> & Hal').
  apply line_reads in Hs as ->; [|by apply proposal_framed]. apply proposal_read in Hp as ->.
  destruct Hal as (_ & _ & _ & _ & _ & _ & _ & Hw). destruct (evaluate_worded _ _ _ _ Hev Hw) as (Hw' & J1 & J2 & J3).
  apply parse_line in Hf as ->; [|by apply response_framed]. exists b', (Broker.d_disposition d). split; [by apply Hal'|]. split; [done|].
  change (executed (Took _ :: Wrote _ _ :: t)) with (executed t). rewrite <- Hg. unfold granted.
  apply evaluate_logs in Hev as [[_ [e [=]]]|(s & a & c & x & d' & e & Hc & [= <-] & He & J4 & J5 & J6)].
  apply checked_proposal in Hc as [-> ->]. rewrite He, List.filter_app, map_app. cbn [List.filter]. rewrite J6.
  destruct (String.eqb _ _); cbn; [by rewrite J4, J5|done].
Qed.

(** ** The run, in step with the host *)
Notation following := (fun g => followed (trace g)).
Notation syncs := (fun g => synced (trace g)).
Notation pends action args frame := (fun g => pending action (digest_bytes (encode (VDict args))) frame (trace g)).

Lemma action_ascii raw_name : isascii (action_of raw_name) = true.
Proof.
  unfold action_of. destruct raw_name; try done. destruct (mem s ALL_DECLARED_TOOLS) eqn:E; [|done].
  apply mem_In in E. cbn in E. repeat destruct E as [<-|E]; done.
Qed.
Lemma sealed_synced ty p f t : synced t -> synced (Sealed ty p f :: t).
Proof. done. Qed.

Lemma propose_pends raw_name args :
  holds following syncs (propose parse_float (VStr nonce) raw_name (action_of raw_name) args)
    (fun frame => pends (action_of raw_name) args frame).
Proof.
  assert (Hst := followed_stable). assert (HU := synced_followed). set (action := action_of raw_name).
  assert (Ha : isascii action = true) by apply action_ascii.
  assert (Hh : isascii (digest_bytes (encode (VDict args))) = true) by (eapply hex_string_ascii, hexdigest_hex).
  unfold propose. eapply holds_chain; [apply holds_lift; intros g; apply HU|]. intros b. apply holds_fact. intros [_ ->]%canonical_bytes_ok.
  eapply holds_chain; [apply holds_read|]. intros g0. cbn zeta. apply holds_drop.
  eapply holds_chain; [apply (keeps_seal syncs); [apply quiet_steady, synced_quiet|intros g; apply HU]|]. intros ?.
  eapply holds_chain; [apply (put_does followed syncs); intros g; apply HU|]. intros ?.
  eapply holds_chain; [apply (take_does parse_float followed); [done|]; intros g' (g & n & Hg & _ & ->); apply Hst; [done|by apply HU]|].
  intros frame. assert (Hx : forall g', (exists g raw, (exists g1 n, synced (trace g1) /\ in_domain (proposal_frame (VStr nonce) (proposals g0) action
      (digest_bytes (encode (VDict args)))) = true /\ g = set_trace (Wrote (AgentRuntime.line (encode (proposal_frame (VStr nonce) (proposals g0) action
      (digest_bytes (encode (VDict args)))))) n :: trace g1) g1) /\ reply (trace g) = Ok raw /\ parse_frame parse_float raw = Ok frame /\
      g' = set_trace (Took raw :: trace g) g) -> pending action (digest_bytes (encode (VDict args))) frame (trace g')).
  { intros g' (g & raw & (g1 & n & Hg & Hd & ->) & Hr & Hf & ->). by apply exchange. }
  eapply holds_chain; [eapply holds_pre; [exact Hx|]; apply holds_lift; intros g; apply pending_followed|]. intros ?. apply holds_fact. intros _.
  eapply holds_chain; [by apply holds_update with (Q := pends action args frame)|]. intros ?.
  apply (holds_ret _ _ (fun frame => pends action args frame)).
Qed.

Lemma execute_synced documents action args call frame d :
  sub frame "disposition" = Ok d -> py_eq d (VStr "allowed") = true ->
  holds following (pends action args frame) (execute documents action args call) (fun _ => syncs).
Proof.
  intros Hd Ha. unfold execute, log. eapply holds_chain; [apply holds_read|]. intros g0. apply holds_drop.
  destruct (_execute_tool action args documents (state g0)) as [s r].
  eapply holds_chain; [by apply (holds_update _ _ (pends action args frame))|]. intros ?.
  eapply holds_chain; [apply holds_lift; intros g; apply pending_followed|]. intros result. apply holds_fact. intros _.
  eapply holds_chain; [apply (holds_update _ _ syncs)|].
  - intros g (b & w & Hal & Hw & Hg). rewrite Hd in Hw. simplify_eq. cbn in Ha. rewrite Ha in Hg.
    exists b. split; [exact Hal|]. cbn [trace set_trace]. by rewrite executed_snoc.
  - intros ?. eapply holds_chain; [apply (keeps_seal syncs); [apply quiet_steady, synced_quiet|intros g; apply synced_followed]|]. intros ?.
    by apply holds_update with (Q := syncs).
Qed.

Lemma tools_synced n documents cs : holds following syncs (tool_loop parse_float n (VStr nonce) documents cs) (fun _ => syncs).
Proof.
  assert (HU := synced_followed). induction cs as [|c cs IH]; cbn [tool_loop]; [apply (keeps_ret syncs)|].
  eapply holds_chain; [apply holds_read|]. intros g0. apply holds_drop.
  eapply holds_chain; [apply (keeps_lift syncs); intros g; apply HU|]. intros m. destruct (m <=? _); [apply (keeps_ret syncs)|].
  destruct c as [| | | | | | |call]; try apply (keeps_ret syncs).
  destruct (assoc _ _) as [[| | | | | | |f]|]; try apply (keeps_ret syncs).
  eapply holds_chain; [apply holds_lift; intros g; apply HU|]. intros [args|]; apply holds_fact; intros _; [|apply (keeps_ret syncs)].
  eapply holds_chain; [apply propose_pends|]. intros frame.
  eapply holds_chain; [apply holds_lift; intros g; apply pending_followed|]. intros d. apply holds_fact. intros Ed.
  destruct (py_eq d (VStr "allowed")) eqn:Ea; cbn [negb].
  - eapply holds_chain; [by eapply execute_synced|]. intros ?. apply IH.
  - eapply holds_chain; [eapply holds_pre, (keeps_seal syncs); [|apply quiet_steady, synced_quiet|intros g; apply HU]|intros ?; apply (keeps_ret syncs)].
    intros g (b & w & Hal & Hw & Hg). rewrite Ed in Hw. simplify_eq. cbn in Ea. rewrite Ea, app_nil_r in Hg. by exists b.
Qed.
End channel.

(** What a reachable broker granted. *)
Lemma granted_sound job calls b : Broker.reachable job calls b ->
  Forall (fun c => mem (fst c) (PRIMARY_TOOLS ++ BOLO_TOOLS) = true) (granted b) /\ Z.of_nat (length (granted b)) <= Z.max 0 calls.
Proof.
  intros Hr. assert (Hi := Broker.reachable_inv _ _ _ Hr). destruct Hr as [ps Hb].
  assert (Hm : Broker.max_calls b = calls) by (rewrite Hb; apply Broker.session_max_calls). destruct Hi as [_ _ (pre & post & He & Hpre & Hpost & _) _ Ha].
  assert (Hf : List.filter Broker.allowed (Broker.events b) = pre).
  { rewrite He, List.filter_app. clear -Hpre Hpost. induction Hpre as [|e pre He Hp IH]; cbn.
    - induction Hpost as [|e post He Hp IH]; cbn; [done|by rewrite He].
    - rewrite He. cbn. by rewrite IH. }
  unfold granted. rewrite Hf. split.
  - apply Forall_map, Forall_lookup. intros i e Hl. eapply (Ha i); [rewrite He; by apply lookup_app_l_Some|]. by eapply Forall_lookup in Hpre.
  - rewrite length_map. destruct pre as [|e0 pre'] using rev_ind; [cbn; lia|].
    assert (Hl : (pre' ++ [e0]) !! length pre' = Some e0) by by apply list_lookup_middle.
    destruct (Ha (length pre') e0) as [Hn _]; [rewrite He; by apply lookup_app_l_Some|by eapply Forall_lookup in Hpre|].
    rewrite length_app. cbn. lia.
Qed.

(** ** Claims *)
Section claims.
Context `{World} `{Interpreter} `{Primitives} `{Sodium}.
Variable host_nesting : nat.
Variable parse_float : string -> pyfloat.
Variables (cek ephemeral stream_seed : string).
Variable manifest : pyval.
Variables hash nonce api_key job : string.
Variable calls : Z.

(** The host's end of the channel: once the guest's hello is complete, its loop on the
    lines that the guest's bytes make up after it. *)
Definition host_session (t : list event) : string * Broker.broker * list string * res pyval :=
  match written t with
  | [] => (api_key, Broker.init job calls, [], AgentRuntime.runtime_error "waiting")
  | _ :: ls => @AgentRuntime._run_control_loop {| nesting := host_nesting |} parse_float manifest hash nonce api_key (Broker.init job calls) true
                 (map (fun l => AgentRuntime.Line l None) ls)
  end.
(** The guest reads the lines that the host sends, one after the other. *)
Definition connected : Prop := forall t raw, reply t = Ok raw -> snd (fst (host_session t)) !! taken t = Some raw.

Notation loops := (loop_of host_nesting parse_float manifest hash nonce job calls).
Lemma session_cases :
  (forall t, snd (fst (fst (host_session t))) = Broker.init job calls /\ snd (fst (host_session t)) = []) \/
  (exists first, forall t, snd (fst (fst (host_session t))) = fst (fst (loops t)) /\
     snd (fst (host_session t)) = match written t with [] => [] | _ => first :: snd (fst (loops t)) end).
Proof.
  unfold host_session, AgentRuntime._run_control_loop, loop_of.
  destruct (negb (in_range _ _ _)); [left; intros t; by destruct (written t)|].
  destruct (let* f := _ in canonical_bytes f) as [bytes|]; [|left; intros t; by destruct (written t)].
  right. exists (AgentRuntime.line bytes). intros t. cbn [negb]. destruct (written t) as [|w ls]; [done|]. cbn [List.tl].
  by destruct (AgentRuntime.control_loop _ _ _ _ _ _) as [[b sent] r].
Qed.

Lemma hello_framed : isascii nonce = true -> in_domain (hello (VStr nonce)) = true -> framed (hello (VStr nonce)).
Proof.
  intros Hn Hd. split; [done|]. split; [done|]. unfold EvidenceFacts.ascii_val, hello. cbn [strings_ok forallb fst snd]. by rewrite Hn.
Qed.

(** A run in step with the host: what it executed is what the host's broker granted. *)
Lemma connected_follows path request key t r : isascii nonce = true -> connected ->
  _load_request parse_float path = Ok request -> (let* runtime := sub request "runtime" in sub runtime "nonce") = Ok (VStr nonce) ->
  main parse_float cek ephemeral stream_seed path = (key, t, r) ->
  executed t `prefix_of` granted (snd (fst (fst (host_session t)))).
Proof.
  intros Hn Hc El Eu Hm. unfold main in Hm. rewrite El in Hm. cbn in Hm. destruct (sub request "runtime") as [runtime|] eqn:Er; [|done].
  cbn in Hm, Eu. rewrite Eu in Hm. cbn in Hm. assert (Hu : (let* runtime := sub request "runtime" in sub runtime "nonce") = Ok (VStr nonce)) by by rewrite Er.
  destruct session_cases as [Hs|[first Hs]].
  - rewrite (proj1 (Hs t)). revert Hm. apply (keeps_serve _ (fun _ => False) (fun t => executed t `prefix_of` [])); try done.
    + by intros [] t0 He Hp.
    + intros n raw Hr%Hc. rewrite (proj2 (Hs _)) in Hr. done.
    + by intros n documents cs g Hg.
  - rewrite (proj1 (Hs t)). revert Hm.
    assert (Hans : forall t0 raw k, reply t0 = Ok raw -> taken t0 = S k -> snd (fst (loops t0)) !! k = Some raw).
    { intros t0 raw k Hr%Hc Hk. rewrite (proj2 (Hs t0)), Hk in Hr. by destruct (written t0). }
    apply (keeps_serve _ (synced host_nesting parse_float manifest hash nonce job calls) (followed host_nesting parse_float manifest hash nonce job calls)).
    + apply synced_quiet.
    + apply synced_followed.
    + apply followed_stable.
    + unfold followed. apply prefix_nil.
    + intros n raw Hr%Hc. rewrite (proj2 (Hs _)) in Hr. assert (Hd : in_domain (hello (VStr nonce)) = true).
      { cbn. by rewrite (ascii_no_surrogate nonce Hn). }
      destruct (written_line (encode (hello (VStr nonce))) n [] (framed_unbroken _ (hello_framed Hn Hd)) eq_refl) as [[Hw Hrest]|Hw]; [|by rewrite Hw in Hr].
      exists (Broker.init job calls). split; [|done]. change (written (Took raw :: ?x)) with (written x). unfold aligned, loop_of.
      change (written (Took raw :: ?x)) with (written x). rewrite Hw. by do 2 eexists.
    + by apply tools_synced.
    + done.
Qed.

(** C22: joined to the host by their channel, the guest executes only what the host's
    broker allowed: the executed calls, each with the digest of the arguments it ran on,
    are the first of those that the broker's log records as allowed, in that order; all
    of them are declared tools of the task, and they are no more than the call budget.
    The host's loop runs on the bytes that the guest's raw stream took, which may be
    fewer than were written; the guest reads the lines that the host sends. *)
Theorem guest_follows_broker (path key : string) (request : pyval) (t : list event) (r : res Z) :
  isascii nonce = true -> connected ->
  _load_request parse_float path = Ok request -> (let* runtime := sub request "runtime" in sub runtime "nonce") = Ok (VStr nonce) ->
  main parse_float cek ephemeral stream_seed path = (key, t, r) ->
  executed t `prefix_of` granted (snd (fst (fst (host_session t)))) /\
  Forall (fun c => mem (fst c) (PRIMARY_TOOLS ++ BOLO_TOOLS) = true) (executed t) /\
  Z.of_nat (length (executed t)) <= Z.max 0 calls.
Proof.
  intros Hn Hc El Eu Hm. assert (Hp := connected_follows _ _ _ _ _ Hn Hc El Eu Hm). split; [done|].
  assert (Hr : Broker.reachable job calls (snd (fst (fst (host_session t))))).
  { destruct session_cases as [Hs|[first Hs]]; [rewrite (proj1 (Hs t)); by exists []|]. rewrite (proj1 (Hs t)).
    destruct (loops t) as [[b sent] x] eqn:E. apply AgentRuntime.control_loop_session in E as [ps Hb]. by exists ps. }
  destruct (granted_sound _ _ _ Hr) as [Hf Hl]. destruct Hp as [more Hp]. rewrite Hp in Hf, Hl. rewrite length_app in Hl.
  apply Forall_app in Hf as [Hf _]. split; [done|lia].
Qed.
End claims.
End GuestHost.
