(* ===== verification/GuestSample.v ===== *)
(** * A run of the guest, evaluated

    A small job, a model that reads a document and submits, and the host's control loop
    at the other end of the channel, over the toy primitives of the key wrap. *)

From stdpp Require Import base list strings.
From Stdlib Require Import ZArith Lia.
From S2P Require Import Prelude PyValue Sha256 Json JsonFacts Canonical StrOps AgentProtocol AgentBroker Hpke SecretStream Evidence EvidenceFacts JsonLoads AgentRuntime WorkerWire McpController GuestAgent GuestWire GuestFacts GuestHost.

Local Open Scope Z_scope.

Module GuestSample.
Import Canonical Protocol GuestAgent GuestFacts GuestHost.

#[local] Existing Instance Hpke.toy.
#[local] Existing Instance usual_interpreter.
#[local] Existing Instance SecretStream.toy_sodium.

Definition key32 : string := Hpke.zeros 32.
Definition sample_target : string := "# skill".
Definition sample_manifest : pyval := VDict
  [("manifest_version", VStr "cindermote.agent-probe-job/v1"); ("job_id", VStr "job-0011223344556677");
   ("target", VDict [("guest_path", VStr "/job/skill.md"); ("target_hash", VStr (hexdigest sample_target))]);
   ("model", VDict [("model_id", VStr "m"); ("pinned_endpoint", VStr "https://model.example/v1")]);
   ("quarantine", VDict [("public_key_hex", VStr (hexdigest key32)); ("key_id", VStr "00112233445566778899aabbccddeeff")]);
   ("budgets", VDict [("max_model_requests", VInt 4); ("max_tokens_total", VInt 1000); ("max_broker_calls", VInt 4);
      ("max_evidence_bytes", VInt 65536); ("max_network_bytes", VInt 1000000); ("wall_clock_sec", VInt 60)])].
Definition sample_request : pyval := VDict
  [("profile", VStr "agent-probe/v0"); ("manifest", sample_manifest); ("road_frozen_hash", VStr Evidence.ZERO_HASH);
   ("runtime", VDict [("nonce", VStr "n0"); ("proxy_url", VStr "http://10.0.0.1:3128")]);
   ("synthetic_documents", VDict [("requirements", VStr "requirements.md")])].
Definition sample_file (path : string) : option string :=
  assoc path [("/job/request.json", encode sample_request); ("/job/skill.md", sample_target); ("/job/requirements.md", "be brief")].

(** The first response reads a document, the second one submits. *)
Definition sample_call (name arguments : string) : pyval := VDict
  [("id", VStr "c"); ("function", VDict [("name", VStr name); ("arguments", VDict [(arguments, VStr "requirements")])])].
Definition sample_response (calls : list pyval) : string := encode (VDict
  [("choices", VList [VDict [("message", VDict [("role", VStr "assistant"); ("tool_calls", VList calls)])]]);
   ("usage", VDict [("prompt_tokens", VInt 100); ("completion_tokens", VInt 20)])]).
Definition sample_provider (t : list event) : http_answer :=
  match length (omap (fun e => match e with Requested b => Some b | _ => None end) t) with
  | 1%nat => Answered 200 (sample_response [sample_call "read_synthetic_document" "doc_id"])
  | _ => Answered 200 (sample_response [sample_call "submit_task_result" "summary"])
  end.

Definition sample_session (t : list event) : string * Broker.broker * list string * res pyval :=
  host_session 990 EvidenceFacts.no_float sample_manifest Evidence.ZERO_HASH "n0" "sk-1" "job-0011223344556677" 4 t.
#[local] Instance sample_world : World := {|
  reply := fun t => match snd (fst (sample_session t)) !! taken t with Some l => Ok l | None => Err (OSError "readline") end;
  accepts := fun _ l => Ok (String.length l);
  provider := sample_provider;
  elapsed_ms := fun _ => 7;
  file := sample_file;
  casefold := fun s => s;
|}.
Definition sample_main : string * list event * res Z :=
  main EvidenceFacts.no_float key32 key32 "" "/job/request.json".
Definition sample_trace : list event := Eval vm_compute in snd (fst sample_main).

Lemma sample_connected :
  connected 990 EvidenceFacts.no_float sample_manifest Evidence.ZERO_HASH "n0" "sk-1" "job-0011223344556677" 4.
Proof. intros t raw. cbn [reply sample_world]. unfold sample_session. by destruct (snd (fst _) !! taken t) as [l|]; intros [= <-]. Qed.
Lemma sample_main_runs : sample_main = (Hpke.zeros 4, sample_trace, Ok 0).
Proof. vm_compute. reflexivity. Qed.
Lemma sample_request_loads : exists request, _load_request EvidenceFacts.no_float "/job/request.json" = Ok request /\
  (let* runtime := sub request "runtime" in sub runtime "nonce") = Ok (VStr "n0").
Proof. eexists. split; vm_compute; reflexivity. Qed.

(** ** Witnesses *)
Lemma executions_are_permitted_witness : exists request nonce, _load_request EvidenceFacts.no_float "/job/request.json" = Ok request /\
  (let* runtime := sub request "runtime" in sub runtime "nonce") = Ok nonce /\
  permits EvidenceFacts.no_float nonce "submit_task_result" [("summary", VStr "requirements")] (drop 4 sample_trace).
Proof.
  eapply (executions_are_permitted EvidenceFacts.no_float key32 key32 "" "/job/request.json" _ sample_trace (Ok 0) (take 3 sample_trace)).
  - exact sample_main_runs.
  - vm_compute. reflexivity.
Defined.

Lemma guest_follows_broker_witness :
  executed sample_trace `prefix_of` granted (snd (fst (fst (sample_session sample_trace)))) /\
  Forall (fun c => mem (fst c) (PRIMARY_TOOLS ++ BOLO_TOOLS) = true) (executed sample_trace) /\
  Z.of_nat (length (executed sample_trace)) <= Z.max 0 4.
Proof.
  destruct sample_request_loads as (request & Hl & Hn).
  apply (guest_follows_broker 990 EvidenceFacts.no_float key32 key32 "" sample_manifest Evidence.ZERO_HASH "n0" "sk-1" "job-0011223344556677" 4
    "/job/request.json" (Hpke.zeros 4) request sample_trace (Ok 0)).
  - reflexivity.
  - exact sample_connected.
  - exact Hl.
  - exact Hn.
  - exact sample_main_runs.
Defined.
Lemma sample_executes : map fst (executed sample_trace) = ["read_synthetic_document"; "submit_task_result"].
Proof. vm_compute. reflexivity. Qed.

(** The frame that starts the run, and the run. *)
Definition sample_message : pyval := VDict
  [("type", VStr "run"); ("protocol_version", VStr CONTROL_VERSION); ("nonce", VStr "n0"); ("job_id", VStr "job-0011223344556677");
   ("road_frozen_hash", VStr Evidence.ZERO_HASH); ("api_key", VStr "sk-1")].
Definition sample_run : string * list event * res pyval :=
  Eval vm_compute in _run EvidenceFacts.no_float key32 key32 "" sample_request sample_message (drop 17 sample_trace).
Definition sample_result : pyval := match snd sample_run with Ok v => v | Err _ => VNone end.

Lemma complete_is_earned_witness :
  exists manifest hash credential m n, deliver sample_request sample_message = Ok (manifest, hash, credential) /\
    Hpke.zeros 4 = AgentRuntime.zeroed credential /\ earned EvidenceFacts.no_float manifest sample_result (snd (fst sample_run)) m n.
Proof.
  apply (complete_is_earned EvidenceFacts.no_float key32 key32 "" sample_request sample_message (drop 17 sample_trace)).
  - vm_compute. reflexivity.
  - vm_compute. reflexivity.
  - vm_compute. reflexivity.
Defined.
End GuestSample.
